(* ===== verification/_CoqProject ===== *)
-Q . S2P
Prelude.v
PyFloat.v
PyMonad.v
PyValue.v
PyTime.v
FloatFacts.v
Sha256.v
PyJson.v
PyCodecs.v
JsonFacts.v
PyOs.v
PyConfig.v
PyNet.v
OsFacts.v
FsFacts.v
Fixture.v
ReadinessCommon.v
DocumentFacts.v
ReadinessProperties.v
ComposeReadiness.v
ComposeProperties.v
ProviderGates.v
ReleaseControl.v
ReleaseProperties.v
ActivateRelease.v
ActivateProperties.v
ActivateOutcomes.v
HealthGate.v
HealthProperties.v
HealthLiveness.v
DeploymentMachine.v
SelectRollback.v
RecoveryFreshness.v
RecoveryStatus.v
Capacity.v
RecoveryContract.v
ContractProperties.v
SidecarFacts.v
GenerateSpec.v
CiProvenance.v
IntegrationResult.v
SourceReadiness.v
GenerateManifest.v
OwnerEvidence.v
ProviderGatesV0.v
PlanV1.v
PlanProperties.v
FirstReleaseRecovery.v
FirstReleaseFacts.v
RetainV0.v
BuildResult.v
BuildResultFacts.v
LiveAdoption.v
PreApply.v
PreApplyFacts.v
LiveAdoptionFacts.v
ValidateAdoption.v
ValidateReady.v
AdoptState.v
AdoptStateFacts.v
ReadyFacts.v
RestoreDrill.v
RestoreDrillFacts.v
PrepareDeployment.v
PrepareFacts.v
NativeArtifact.v
NativeManifest.v
NativeHandoff.v
NativeAuthorize.v
NativeFacts.v
StageRelease.v
StageFacts.v
ValidateRelease.v
ValidateReleaseFacts.v
PyBytes.v
LiveEdge.v
LiveEdgeFacts.v
PackageContract.v
BackupTimers.v
VaultSecret.v
