(* ===== verification/Prelude.v ===== *)
(** * The control plane of the LIQI platform: verification development

    The repository holds a BEAM application, Rust crates, infrastructure code,
    and a control plane in Python: the programs that decide whether evidence is
    good enough, which release may run, and what is done when it fails. This
    development models that control plane, program by program, and proves what
    its decisions rest on.

    ** How a program is modelled

    A Python expression is a [res A]: a value or an exception with its class and
    text. A statement is an [IO A], a function from a [world] to a [res A] and a
    world: files, directories, links, the working directory, the environment, the
    clocks, the lines printed and the processes started. The world survives an
    exception. JSON values are the inductive [val]; dicts keep their order. Every
    test, early return, exception handler and write of the source is in the
    definition of the same name, or in a named part of it; [main] composes them
    in the order of the code and returns the exit status. Command-line arguments
    are a record [args], what [argparse] has parsed.

    What is not under src/ is the class [Platform] of PyOs.v: the programs
    started ([exec] sees the log of earlier processes and may change files and
    take time), the jsonschema package ([schema_errors], [schema_check]), the
    clocks, the accounts and permissions of the host, random names. It has no laws:
    a theorem that needs one has it as a hypothesis (a clock that moves on, in the
    termination of the health gate; random names of hexadecimal digits; a command that leaves
    the directory of temporary files in place). The HTTP client of the health gate is another
    such parameter. Fixture.v has the hosts and worlds of the concrete runs.

    ** The files

    Python and the host. Prelude.v: strings as UTF-8 text, sorting, sums, tactics.
    PyFloat.v: binary64 floats, their [repr] and [round]. PyMonad.v: [res], [M],
    the relation [Pres R m] (a statement keeps R) with its automation [solve_pres],
    [inv_run] for successful runs, [MPlain] for statements that do not exit.
    PyValue.v: values, comparisons, conversions. PyTime.v: instants and ISO 8601, and the
    seconds of a span, which are a float that [int] truncates; FloatFacts.v: how far
    that is from the whole seconds. Sha256.v: SHA-256, computed. PyJson.v: the JSON printer and reader; JsonFacts.v:
    what is printed is parsed. PyCodecs.v: the encodings [json.loads] accepts.
    PyBytes.v: base64, Latin-1. PyConfig.v: [configparser]. PyNet.v: [ipaddress].
    PyOs.v: paths, links, files, clocks, processes. OsFacts.v, FsFacts.v: what these
    operations change. Fixture.v: hosts and worlds of the runs. DocumentFacts.v:
    documents that one program writes and another reads.

    Evidence and readiness. ReadinessCommon.v (operations/bin/
    readiness_v1_common.py), with ReadinessProperties.v; ComposeReadiness.v
    (compose_readiness_v1.py), with ComposeProperties.v; ProviderGates.v
    (run_provider_gates_v1.py); ProviderGatesV0.v (scripts/operations/
    run_provider_gates.py) and OwnerEvidence.v (owner_build_evidence.py,
    redaction.py); SourceReadiness.v (assemble_source_readiness.py);
    IntegrationResult.v (assemble_integration_result.py); Capacity.v
    (check_capacity.py); CiProvenance.v (verify_ci_provenance.py).

    The infrastructure before a plan is applied. PlanV1.v (infrastructure/validation/
    validate_v1_plan.py), with PlanProperties.v; LiveAdoption.v (infrastructure/
    deployment/discover_v1_live_adoption.py), with LiveAdoptionFacts.v;
    ValidateAdoption.v (validate_adoption_result.py); AdoptState.v
    (adopt_v1_live_state.py), with AdoptStateFacts.v; PreApply.v
    (pre_apply_readiness.py), with PreApplyFacts.v; ValidateReady.v
    (validate_pre_apply_readiness.py); ReadyFacts.v joins the two.
    FirstReleaseRecovery.v (establish_first_release_recovery.py), with
    FirstReleaseFacts.v; RetainV0.v (adapt_v0_rollback.py).

    A release, from its build to its place. BuildResult.v (beam/scripts/
    validate_linux_release_build_result.py), with BuildResultFacts.v;
    ValidateRelease.v (beam/scripts/validate_release_manifest.py), with
    ValidateReleaseFacts.v; NativeArtifact.v, NativeManifest.v, NativeHandoff.v
    (native/scripts/verify_artifact.py, prepare_deployment_manifest.py,
    verify_deployment_manifest.py) and NativeAuthorize.v (infrastructure/deployment/
    authorize_native_artifact.py), with NativeFacts.v; PrepareDeployment.v
    (prepare_mix_deployment.py), with PrepareFacts.v; StageRelease.v
    (stage_mix_release.py), with StageFacts.v; PackageContract.v: what the one
    prepares the other stages.

    Releases on the host. GenerateManifest.v and GenerateSpec.v (scripts/release/
    generate_release_manifest.py, generate_deployment_spec.py; the module
    [Evidence] of the latter is shared by the programs that compose evidence);
    ActivateRelease.v (activate_release.py), with ActivateProperties.v and
    ActivateOutcomes.v; HealthGate.v (health_gate.py), with HealthProperties.v and
    HealthLiveness.v; SelectRollback.v (select_rollback.py); DeploymentMachine.v
    (check_deployment_transition.py and the machine it reads); ReleaseControl.v
    (infrastructure/deployment/release_control.py), with ReleaseProperties.v;
    LiveEdge.v (configure_live_edge.py), with LiveEdgeFacts.v; VaultSecret.v
    (manage_vault_secret.py).

    Recovery. RecoveryContract.v (database/tools/recovery_contract.py), with
    ContractProperties.v and SidecarFacts.v; RestoreDrill.v (database/tools/
    run_restore_drill_v1.py), with RestoreDrillFacts.v; RecoveryStatus.v
    (recovery_status_v1.py); RecoveryFreshness.v (check_recovery_freshness.py);
    BackupTimers.v (infrastructure/deployment/enable_backup_timers.py).

    The programs meet in documents. The manifest and the results of gates,
    capacity, recovery and probe are composed by IntegrationResult.v, from which
    GenerateSpec.v makes the specification that ActivateRelease.v executes, whose
    health target HealthGate.v evaluates; RecoveryContract.v and the gates leave
    the evidence ComposeReadiness.v judges. A discovery of the live host is
    validated, its import recorded, and both are inputs of the readiness to apply
    and of its validator. A native artifact is verified, its deployment manifest
    prepared, handed over and authorized; the result of ValidateRelease.v goes with
    it into the package of PrepareDeployment.v, which StageRelease.v unpacks, and
    whose activation LiveEdge.v makes public. A theorem about the reader of a
    document takes the document as it finds it in the world; the theorems that join
    two programs say that what the first leaves is what the second accepts.

    ** What is proved

    A theorem about a run that went well names the worlds of its statements: each is the
    one that the run of the statement before it has left, and the documents are what that
    run has read there or has written. Such a statement is false of a program that leaves
    one of the tests out.

    Fail-closed decisions: exit status 0 of a composer, checker or generator implies
    that every document was read, valid, bound to the release and passed
    (compose_fail_closed, integration_passed, source_readiness_passed,
    spec_generated, manifest_generated, ci_provenance_passed, capacity_passed,
    recovery_status_passed, freshness_passed, rollback_selected,
    restore_verified, recovery_status_bound, owner_evidence_accepted,
    stage_run_zero_means_passed, gates_v0_passed, health_gate_passed,
    activation_zero_means_verified, plan_accepted, recovery_established,
    pre_apply_ready, build_result_verified, native_artifact_verified,
    native_authorized, release_verified_zero, package_prepared, release_staged,
    edge_verified, drill_passed).

    Safety of effects: which processes are started and which files and links change,
    however a run ends (activation_guarded, dry_run_mutates_nothing,
    run_gates_starts_approved, gates_v0_start_permitted, safe_repo_path_contained,
    expand_display_hides_values, discovery_walks, drill_cleans_up,
    extraction_confined, copied_exactly, timers_guarded, secret_erased).

    Outcomes of the operations that change the host, errors included: the exit
    status, the selected link and the document agree (activation_outcome,
    activation_outcomes, failed_install_stops_services,
    failed_stop_keeps_selection, preflight_admits, adoption_recorded,
    drill_reported, edge_restored).

    Programs that fit together: what one leaves the next accepts
    (discovery_accepted, adoption_accepted, readiness_validates, handoff_accepted,
    verified_result_accepted, prepared_is_stageable).

    Equivalence, refinement and structure: the checker of transitions decides the
    step relation of the machine (transition_checker_refines, active_run_unique,
    runs_end); statuses combine to the worst (combine_status_worst); sets compare
    exactly (exact_set_spec); URLs and outcomes are classified on every branch
    (safe_url_spec, classify_provider_outcome_spec); the backup selected is the only
    one (backup_unique). Round trips: documents of every program through the printer
    and the reader (json_round_trip), instants and their text (datetime_round_trip),
    documents and their sidecars (sidecar_round_trip). Bounds: the age of an instant
    (age_of_instant). Termination and progress: health_gate_ends, and a target that
    becomes healthy passes (healthy_target_passes).

    ** Fuel and bounds

    Recursion on the text of a document has the length of the text as fuel, and
    each step consumes a character; JsonFacts.v proves that it is enough for every
    printed document (size_length, loads_dumps). The redaction of a text has its
    length as fuel too. The attempts of the health gate have one unit
    of fuel a microsecond of the deadline; health_gate_ends proves it is enough when the
    clock moves. The comparison of values recurses at most 64 levels into lists:
    the programs compare paths of JSON errors and tuples of strings. The resolution of a
    path follows at most 40 links, as Linux does; a longer chain is the error of
    a loop. Integers are unbounded in Python and here; conversions to floats and to
    timestamps raise where the ranges of binary64, [datetime] and [time_t] end.

    ** What is not modelled, and why

    [argparse], the encoding of the console and the text of a traceback. The words of
    an operating system error beyond its class and its path. Case folding and white space in
    the patterns and in [strip] are those of ASCII text: a secret spelled with the
    Unicode characters that fold to ASCII letters, or separated by other Unicode spaces, is
    not recognised as the code would. The decoding of a file rejects
    bytes that are not UTF-8 by their lengths only: overlong forms and encoded
    surrogates pass. ISO week dates are rejected. The private networks are those of
    CPython 3.11.10. Concurrent changes of the files between two statements, and the failure
    of a write for want of space or permission. The blocks of a disk behind a file that
    is overwritten.

    The members of a tar archive are a parameter of the programs that read one, and what a
    server answers over TLS is one of the public edge: both are code outside the repository.

    The remaining programs of the repository: drivers of sockets, Docker, mix, cargo and
    tar archives (almost every line is an effect of a program outside the
    repository), textual lint of infrastructure sources, the runner of recovery exercises of V0
    (the restore drill of V1 is modelled), and validators of the
    repository against itself; and the code in other languages than Python. *)

From stdpp Require Export base tactics decidable numbers list option strings gmap sorting.
From Stdlib Require Export ZArith Lia.
From Stdlib Require Import Ascii DecimalString DecimalZ.

#[global] Open Scope Z_scope.
#[global] Open Scope stdpp_scope.

(** ** Hint databases shared by the components *)

Create HintDb pres discriminated.

(** ** Strings

    A Python [str] is held as its UTF-8 encoding, so concatenation, equality,
    ordering, prefix tests and searches are those of the byte strings; only
    lengths and slices count code points, and they do so below. *)

(** [x in l] over a decided equality. *)
Definition inb {A} (eqb : A -> A -> bool) (x : A) (l : list A) : bool := existsb (eqb x) l.

Module Str.

Definition is_cont (c : ascii) : bool :=
  let n := N_of_ascii c in (N.leb 128 n && N.ltb n 192)%N.

(** [len(s)]: the code points, i.e. the bytes that are no continuation. *)
Fixpoint len (s : string) : Z :=
  match s with
  | EmptyString => 0
  | String c r => (if is_cont c then 0 else 1) + len r
  end.

(** [s[:n]] for [n >= 0]. *)
Fixpoint take (n : Z) (s : string) : string :=
  match s with
  | EmptyString => ""
  | String c r =>
      if is_cont c then String c (take n r)
      else if n <=? 0 then "" else String c (take (n - 1) r)
  end.

(** [s[n:]] for [n >= 0]. *)
Fixpoint drop (n : Z) (s : string) : string :=
  match s with
  | EmptyString => ""
  | String c r =>
      if is_cont c then drop n r
      else if n <=? 0 then s else drop (n - 1) r
  end.

(** [s[-n:]] for [n > 0] *)
Definition last_n (n : Z) (s : string) : string := drop (len s - n) s.

Fixpoint of_list (l : list ascii) : string :=
  match l with [] => "" | c :: r => String c (of_list r) end.

Fixpoint to_list (s : string) : list ascii :=
  match s with EmptyString => [] | String c r => c :: to_list r end.

Definition rev (s : string) : string := of_list (List.rev (to_list s)).

(** [s.startswith(p)], and what follows the prefix. *)
Fixpoint strip_prefix (p s : string) : option string :=
  match p, s with
  | EmptyString, _ => Some s
  | String a p', String b s' => if Ascii.eqb a b then strip_prefix p' s' else None
  | _, EmptyString => None
  end.

Definition startswith (p s : string) : bool :=
  match strip_prefix p s with Some _ => true | None => false end.

Definition endswith (p s : string) : bool := startswith (rev p) (rev s).

(** [s.removeprefix(p)], [s.removesuffix(p)] *)
Definition removeprefix (p s : string) : string :=
  match strip_prefix p s with Some r => r | None => s end.

Definition removesuffix (p s : string) : string :=
  match strip_prefix (rev p) (rev s) with Some r => rev r | None => s end.

(** The first occurrence of [p]: what is before it and what is after it. *)
Fixpoint partition (p s : string) : option (string * string) :=
  match strip_prefix p s with
  | Some r => Some ("", r)
  | None => match s with
            | EmptyString => None
            | String c s' =>
                match partition p s' with
                | Some (a, b) => Some (String c a, b)
                | None => None
                end
            end
  end.

(** [p in s] *)
Definition contains (p s : string) : bool :=
  match partition p s with Some _ => true | None => false end.

(** [s.replace(p, q)] for a non-empty [p]; the fuel is the length of [s]. *)
Fixpoint replace_go (fuel : nat) (p q s : string) : string :=
  match fuel with
  | O => s
  | S n => match partition p s with
           | Some (a, b) => a +:+ q +:+ replace_go n p q b
           | None => s
           end
  end.
Definition replace (p q s : string) : string :=
  replace_go (S (String.length s)) p q s.

(** [sep.join(l)] *)
Fixpoint join (sep : string) (l : list string) : string :=
  match l with
  | [] => ""
  | [x] => x
  | x :: r => x +:+ sep +:+ join sep r
  end.

(** ASCII white space, as [str.strip] and [str.split] drop it. *)
Definition is_space (c : ascii) : bool :=
  let n := N_of_ascii c in
  (N.leb 9 n && N.leb n 13 || N.leb 28 n && N.leb n 32)%N.

Fixpoint lstrip_by (f : ascii -> bool) (s : string) : string :=
  match s with
  | String c r => if f c then lstrip_by f r else s
  | EmptyString => ""
  end.
Definition lstrip := lstrip_by is_space.
Definition rstrip (s : string) : string := rev (lstrip (rev s)).
Definition strip (s : string) : string := rstrip (lstrip s).

(** [s.split()]: the maximal runs without white space. *)
Fixpoint words_go (cur : option (list ascii)) (s : string) : list string :=
  match s with
  | EmptyString => match cur with Some w => [of_list (List.rev w)] | None => [] end
  | String c r =>
      if is_space c
      then match cur with
           | Some w => of_list (List.rev w) :: words_go None r
           | None => words_go None r
           end
      else words_go (Some (c :: default [] cur)) r
  end.
Definition words (s : string) : list string := words_go None s.

(** [s.split(maxsplit=1)]: the first run, and the rest from its first character on. *)
Fixpoint span_space (s : string) : string * string :=
  match s with
  | String c r => if is_space c then ("", s) else let (a, b) := span_space r in (String c a, b)
  | EmptyString => ("", "")
  end.
Definition split_once (s : string) : list string :=
  match span_space (lstrip s) with
  | ("", _) => []
  | (a, r) => match lstrip r with "" => [a] | b => [a; b] end
  end.

(** [s.splitlines()]: the separators of one byte, next line (C2 85) and the line and
    paragraph separators (E2 80 A8, E2 80 A9). A text read has no CR any more. *)
Definition line_break (s : string) : option string :=
  let n c := N_of_ascii c in
  match s with
  | String c r =>
      if ((10 <=? n c) && (n c <=? 13) || (28 <=? n c) && (n c <=? 30))%N then Some r
      else match r with
           | String d r' =>
               if ((n c =? 194) && (n d =? 133))%N then Some r'
               else match r' with
                    | String e r'' => if ((n c =? 226) && (n d =? 128) && ((n e =? 168) || (n e =? 169)))%N
                                      then Some r'' else None
                    | EmptyString => None
                    end
           | EmptyString => None
           end
  | EmptyString => None
  end.
Fixpoint lines_go (fuel : nat) (cur : list ascii) (s : string) : list string :=
  let line := of_list (List.rev cur) in
  match fuel with
  | O => []
  | S k => match line_break s with
           | Some r => line :: lines_go k [] r
           | None => match s with
                     | EmptyString => match cur with [] => [] | _ => [line] end
                     | String c r => lines_go k (c :: cur) r
                     end
           end
  end.
Definition splitlines (s : string) : list string := lines_go (S (String.length s)) [] s.

(** [s.split(sep)] for a one-character separator. *)
Fixpoint split_char (sep : ascii) (s : string) : list string :=
  match s with
  | EmptyString => [""]
  | String c r =>
      if Ascii.eqb c sep then "" :: split_char sep r
      else match split_char sep r with
           | [] => [String c ""]
           | w :: ws => String c w :: ws
           end
  end.

Definition ltb (a b : string) : bool :=
  match String.compare a b with Lt => true | _ => false end.

Definition lower_char (c : ascii) : ascii :=
  let n := N_of_ascii c in
  if (N.leb 65 n && N.leb n 90)%N then ascii_of_N (n + 32) else c.
Fixpoint lower (s : string) : string :=
  match s with EmptyString => "" | String c r => String (lower_char c) (lower r) end.
Definition upper_char (c : ascii) : ascii :=
  let n := N_of_ascii c in
  if (N.leb 97 n && N.leb n 122)%N then ascii_of_N (n - 32) else c.
Fixpoint upper (s : string) : string :=
  match s with EmptyString => "" | String c r => String (upper_char c) (upper r) end.

Definition all_chars (f : ascii -> bool) (s : string) : bool := forallb f (to_list s).

Definition is_digit (c : ascii) : bool :=
  let n := N_of_ascii c in (N.leb 48 n && N.leb n 57)%N.
Definition is_hex_lower (c : ascii) : bool :=
  is_digit c || let n := N_of_ascii c in (N.leb 97 n && N.leb n 102)%N.

(** The digits of an unsigned decimal, most significant first. *)
Fixpoint digits_val (acc : Z) (s : string) : option Z :=
  match s with
  | EmptyString => Some acc
  | String c r =>
      if is_digit c then digits_val (10 * acc + (Z.of_N (N_of_ascii c) - 48)) r else None
  end.
Definition parse_nat (s : string) : option Z :=
  match s with EmptyString => None | _ => digits_val 0 s end.

(** [str(z)] *)
Definition of_Z (z : Z) : string := NilZero.string_of_int (Z.to_int z).

Lemma app_cons c s r : String c s +:+ r = String c (s +:+ r).
Proof. reflexivity. Qed.
Lemma app_assoc a b c : (a +:+ b) +:+ c = a +:+ (b +:+ c).
Proof. induction a as [|x a IH]; [done|]. by rewrite !app_cons, IH. Qed.
Lemma app_char c r : String c "" +:+ r = String c r.
Proof. reflexivity. Qed.
Lemma app_nil_l a : "" +:+ a = a.
Proof. reflexivity. Qed.
Lemma app_nil_r a : a +:+ "" = a.
Proof. induction a as [|x a IH]; [done|]. by rewrite app_cons, IH. Qed.

Lemma to_list_app a b : to_list (a +:+ b) = (to_list a ++ to_list b)%list.
Proof. induction a as [|x a IH]; [done|]. rewrite app_cons. simpl. by rewrite IH. Qed.
Lemma of_to_list a : of_list (to_list a) = a.
Proof. induction a as [|x a IH]; simpl; [done|]. by rewrite IH. Qed.

(** A text that ends in an ASCII character, and the text without it. *)
Lemma endswith_char a c : endswith (String c "") (a +:+ String c "") = true.
Proof.
  unfold endswith, rev. rewrite to_list_app. simpl. rewrite rev_app_distr. simpl.
  unfold startswith. simpl. by rewrite Ascii.eqb_refl.
Qed.
Lemma len_app a b : len (a +:+ b) = len a + len b.
Proof. induction a as [|x a IH]; [done|]. rewrite app_cons. simpl. lia. Qed.
Lemma len_nonneg a : 0 <= len a.
Proof. induction a as [|x a IH]; simpl; [lia|]. case_match; lia. Qed.
Lemma take_len a c r : is_cont c = false -> take (len a) (a +:+ String c r) = a.
Proof.
  intros Hc. induction a as [|x a IH]; simpl; [by rewrite Hc|].
  pose proof (len_nonneg a). destruct (is_cont x) eqn:E.
  - by rewrite Z.add_0_l, IH.
  - destruct (1 + len a <=? 0) eqn:El; [apply Z.leb_le in El; lia|].
    replace (1 + len a - 1) with (len a) by lia. by rewrite IH.
Qed.

(** A decimal of a fixed width, padded with zeros on the left. *)
Fixpoint zeros (n : nat) : string :=
  match n with O => "" | S k => String "0" (zeros k) end.
Definition pad (w : nat) (s : string) : string :=
  zeros (w - String.length s) +:+ s.

(** No character of [stops] occurs. *)
Definition without (stops : list ascii) : string -> bool := all_chars (λ c, negb (inb Ascii.eqb c stops)).

Lemma all_chars_app f a b : all_chars f (a +:+ b) = all_chars f a && all_chars f b.
Proof. unfold all_chars. by rewrite to_list_app, forallb_app. Qed.
Lemma all_chars_cons f c a : all_chars f (String c a) = f c && all_chars f a.
Proof. done. Qed.
Lemma all_chars_impl (f g : ascii -> bool) a : (forall c, f c = true -> g c = true) ->
  all_chars f a = true -> all_chars g a = true.
Proof. intros Hfg. unfold all_chars. rewrite !forallb_forall. auto. Qed.

Lemma without_head stops c a : without stops (String c a) = true -> inb Ascii.eqb c stops = false /\ without stops a = true.
Proof. unfold without. rewrite all_chars_cons. by intros [H%negb_true_iff ?]%andb_true_iff. Qed.

Lemma partition_char c a b : without [c] a = true -> partition (String c "") (a +:+ String c b) = Some (a, b).
Proof.
  induction a as [|x a IH]; intros Ha; [simpl; by rewrite Ascii.eqb_refl|].
  apply without_head in Ha as [Hx Ha]. rewrite app_cons. simpl. unfold inb in Hx. simpl in Hx.
  rewrite orb_false_r in Hx. rewrite (Ascii.eqb_sym c x), Hx. by rewrite IH.
Qed.
Lemma partition_none c a : without [c] a = true -> partition (String c "") a = None.
Proof.
  induction a as [|x a IH]; intros Ha; [done|]. apply without_head in Ha as [Hx Ha]. simpl.
  unfold inb in Hx. simpl in Hx. rewrite orb_false_r in Hx. rewrite (Ascii.eqb_sym c x), Hx. by rewrite IH.
Qed.
Lemma without_app l a b : without l (a +:+ b) = without l a && without l b.
Proof. apply all_chars_app. Qed.

End Str.

(** ** Stable insertion sort

    [sorted(l, key=...)] is a stable sort: [insert_front] places an element
    before the ones that are not smaller, and the elements are inserted from the last. The comparison may raise, so the sort is
    written over a test that answers [option bool], [None] standing for the
    exception. *)

Section Sort.
Context {A : Type} (lt : A -> A -> option bool).

(** Elements are inserted from the last to the first, ties before. *)
Fixpoint insert_front (x : A) (l : list A) : option (list A) :=
  match l with
  | [] => Some [x]
  | y :: r =>
      match lt y x with
      | None => None
      | Some false => Some (x :: y :: r)
      | Some true => match insert_front x r with
                     | Some r' => Some (y :: r')
                     | None => None
                     end
      end
  end.

Fixpoint sort_by (l : list A) : option (list A) :=
  match l with
  | [] => Some []
  | x :: r => match sort_by r with
              | Some r' => insert_front x r'
              | None => None
              end
  end.

Lemma insert_front_perm x l l' : insert_front x l = Some l' -> l' ≡ₚ x :: l.
Proof.
  revert l'. induction l as [|y r IH]; intros l' H; simplify_eq/=; [done|].
  destruct (lt y x) as [[]|]; simplify_eq/=; [|done].
  destruct (insert_front x r) as [r'|] eqn:E; simplify_eq/=.
  rewrite (IH _ eq_refl). apply Permutation_swap.
Qed.

Lemma sort_by_perm l l' : sort_by l = Some l' -> l' ≡ₚ l.
Proof.
  revert l'. induction l as [|x r IH]; intros l' H; simplify_eq/=; [done|].
  destruct (sort_by r) as [r'|] eqn:E; simplify_eq/=.
  rewrite (insert_front_perm _ _ _ H). by rewrite (IH _ eq_refl).
Qed.

Lemma sort_by_length l l' : sort_by l = Some l' -> length l' = length l.
Proof. intros H%sort_by_perm. by apply Permutation_length. Qed.
End Sort.

(** The sort of Python strings (by code point) never raises. *)
Definition sort_strings (l : list string) : list string :=
  default l (sort_by (λ a b, Some (Str.ltb a b)) l).

Section SortTotal.
Context {A : Type} (lt : A -> A -> option bool) (Htot : forall a b, is_Some (lt a b)).

Lemma insert_front_total x l : is_Some (insert_front lt x l).
Proof.
  induction l as [|y r [r' IH]]; simpl; [by eexists|].
  destruct (Htot y x) as [[] ->]; [rewrite IH|]; by eexists.
Qed.

Lemma sort_by_total l : is_Some (sort_by lt l).
Proof.
  induction l as [|x r [r' IH]]; simpl; [by eexists|]. rewrite IH. apply insert_front_total.
Qed.
End SortTotal.

Lemma sort_strings_perm l : sort_strings l ≡ₚ l.
Proof.
  unfold sort_strings.
  destruct (sort_by_total (λ a b, Some (Str.ltb a b)) ltac:(by eexists) l) as [l' E].
  rewrite E. simpl. by eapply sort_by_perm.
Qed.

(** ** Lists without repetition, as Python sets and dict keys use them *)

Fixpoint nodupb {A} (eqb : A -> A -> bool) (l : list A) : bool :=
  match l with
  | [] => true
  | x :: r => negb (existsb (eqb x) r) && nodupb eqb r
  end.


(** A list with its repetitions dropped, the first occurrences kept. *)
Fixpoint dedup_by {A} (eqb : A -> A -> bool) (seen l : list A) : list A :=
  match l with
  | [] => []
  | x :: r => if inb eqb x seen then dedup_by eqb seen r
              else x :: dedup_by eqb (x :: seen) r
  end.

Lemma elem_of_existsb_string (x : string) l :
  existsb (String.eqb x) l = true <-> x ∈ l.
Proof.
  rewrite existsb_exists. split.
  - intros (y & Hy & ->%String.eqb_eq). by apply list_elem_of_In.
  - intros H. exists x. split; [by apply list_elem_of_In|apply String.eqb_refl].
Qed.

(** The failure a test that does not hold adds to a list of failures. *)
Definition unless (b : bool) (m : string) : list string := if b then [] else [m].
Lemma unless_nil b m : unless b m = [] -> b = true.
Proof. by destruct b. Qed.

(** ** Sums over a list *)

Definition zsum {A} (f : A -> Z) (l : list A) : Z := foldr (λ x n, f x + n) 0 l.
Lemma zsum_app {A} (f : A -> Z) l m : zsum f (l ++ m) = zsum f l + zsum f m.
Proof. unfold zsum. induction l as [|x l IH]; simpl; [done|]. rewrite IH. lia. Qed.
Lemma zsum_add {A} (f g h : A -> Z) l : (forall x, f x = g x + h x) -> zsum f l = zsum g l + zsum h l.
Proof. intros E. unfold zsum. induction l as [|x l IH]; simpl; [done|]. rewrite IH, E. lia. Qed.

(** ** Tactics of the development *)

(** Case analysis on the tests of a hypothesis or of the goal. *)
Ltac case_match_all :=
  repeat (case_match; simplify_eq/=).

Ltac destr_and := repeat match goal with H : _ ∧ _ |- _ => destruct H end.

(** Turn boolean equations into propositions. *)
Ltac bool_to_prop :=
  repeat match goal with
  | H : (_ && _) = true |- _ => apply andb_prop in H as [? ?]
  | H : (_ || _) = false |- _ => apply orb_false_elim in H as [? ?]
  | H : negb _ = true |- _ => apply negb_true_iff in H
  | H : negb _ = false |- _ => apply negb_false_iff in H
  | H : (_ <=? _) = true |- _ => apply Z.leb_le in H
  | H : (_ <=? _) = false |- _ => apply Z.leb_gt in H
  | H : (_ <? _) = true |- _ => apply Z.ltb_lt in H
  | H : (_ <? _) = false |- _ => apply Z.ltb_ge in H
  | H : (_ =? _) = true |- _ => apply Z.eqb_eq in H
  | H : (_ =? _) = false |- _ => apply Z.eqb_neq in H
  end.
