(* ===== verification/PyFloat.v ===== *)
(** * Python floats: IEEE 754 binary64 numbers

    A Python [float] is a [spec_float] of the Standard Library at precision 53
    and maximal exponent 1024; arithmetic is the correctly rounded one of that
    library, comparison with an [int] is exact as in Python, and [repr] and
    [round] work on the exact value. *)

From Stdlib Require Import SpecFloat.
From S2P Require Import Prelude.

Abbreviation pyfloat := spec_float.

#[export] Instance spec_float_eq_dec : EqDecision spec_float.
Proof. solve_decision. Defined.

Module Flt.
Definition prec : Z := 53.
Definition emax : Z := 1024.

Definition of_Z (z : Z) : pyfloat := binary_normalize prec emax z 0 false.
Definition add : pyfloat -> pyfloat -> pyfloat := SFadd prec emax.
Definition sub : pyfloat -> pyfloat -> pyfloat := SFsub prec emax.
Definition mul : pyfloat -> pyfloat -> pyfloat := SFmul prec emax.

(** The float nearest to [n / d]. *)
Definition of_ratio (n : Z) (d : positive) : pyfloat :=
  match n with
  | Z0 => S754_zero false
  | Zpos p => SFdiv prec emax (S754_finite false p 0) (S754_finite false d 0)
  | Zneg p => SFdiv prec emax (S754_finite true p 0) (S754_finite false d 0)
  end.

(** The float nearest to [m * 10^e]: a decimal literal. *)
Definition of_dec (m e : Z) : pyfloat :=
  if 0 <=? e then of_Z (m * 10 ^ e) else of_ratio m (Z.to_pos (10 ^ (- e))).

(** The exact value of a finite float, as a numerator and a denominator. *)
Definition ratio (f : pyfloat) : option (Z * positive) :=
  match f with
  | S754_zero _ => Some (0, 1%positive)
  | S754_finite s m e =>
      let n := if s then Zneg m else Zpos m in
      if 0 <=? e then Some (n * 2 ^ e, 1%positive) else Some (n, Z.to_pos (2 ^ (- e)))
  | _ => None
  end.

(** [z < f], [f < z] and [z == f], exact on both sides. *)
Definition compare_Z (z : Z) (f : pyfloat) : option comparison :=
  match f with
  | S754_nan => None
  | S754_infinity true => Some Gt
  | S754_infinity false => Some Lt
  | _ => match ratio f with
         | Some (n, d) => Some (z * Zpos d ?= n)
         | None => None
         end
  end.

Definition compare (a b : pyfloat) : option comparison := SFcompare a b.

(** Rounding of [n / d] to the nearest integer, ties to even. *)
Definition round_ratio (n : Z) (d : positive) : Z :=
  let q := n / Zpos d in
  let r := 2 * (n - q * Zpos d) in
  if r <? Zpos d then q
  else if Zpos d <? r then q + 1
  else if Z.even q then q else q + 1.

(** [int(f)]: truncation. *)
Definition trunc (f : pyfloat) : option Z :=
  match ratio f with Some (n, d) => Some (Z.quot n (Zpos d)) | None => None end.

(** [math.ceil(f)] *)
Definition ceil (f : pyfloat) : option Z :=
  match ratio f with Some (n, d) => Some (- ((- n) / Zpos d)) | None => None end.

(** [round(f)], an integer. *)
Definition round_int (f : pyfloat) : option Z :=
  match ratio f with Some (n, d) => Some (round_ratio n d) | None => None end.

(** [round(f, k)], a float. *)
Definition round_to (k : Z) (f : pyfloat) : pyfloat :=
  match ratio f with
  | Some (n, d) =>
      match round_ratio (n * 10 ^ k) d with
      | Z0 => match f with S754_finite s _ _ => S754_zero s | _ => f end
      | q => of_dec q (- k)
      end
  | None => f
  end.

Definition is_zero (f : pyfloat) : bool :=
  match f with S754_zero _ => true | _ => false end.

(** ** [repr(f)]: the fewest decimal digits that read back as [f] *)

(** The decimal exponent: the largest [k] with [10^k <= n/d], for [n > 0]. *)
Fixpoint scale_down (fuel : nat) (k n : Z) (d : positive) : Z :=
  match fuel with
  | O => k
  | S m => if Zpos d <=? n then k else scale_down m (k - 1) (10 * n) d
  end.
Definition exp10 (n : Z) (d : positive) : Z :=
  if Zpos d <=? n then Z.of_nat (String.length (Str.of_Z (n / Zpos d))) - 1
  else scale_down 400 0 n d.

(** [n/d] rounded to [k] significant digits: an integer and its exponent. *)
Definition digits_at (k : Z) (n : Z) (d : positive) : Z * Z :=
  let e := exp10 n d - k + 1 in
  let q := if 0 <=? e then round_ratio n (d * Z.to_pos (10 ^ e))
           else round_ratio (n * 10 ^ (- e)) d in
  (q, e).

Fixpoint shortest (fuel : nat) (k : Z) (f : pyfloat) (n : Z) (d : positive) : Z * Z :=
  let de := digits_at k n d in
  match fuel with
  | O => de
  | S m => if bool_decide (of_dec de.1 de.2 = f) then de else shortest m (k + 1) f n d
  end.

(** The digits without their trailing zeros. *)
Fixpoint drop_zeros (fuel : nat) (q e : Z) : Z * Z :=
  match fuel with
  | O => (q, e)
  | S m => if (q mod 10 =? 0) && negb (q =? 0) then drop_zeros m (q / 10) (e + 1) else (q, e)
  end.

Definition render (q e : Z) : string :=
  let ds := Str.of_Z q in
  let len := Z.of_nat (String.length ds) in
  let point := len + e in      (* the value is 0.ds * 10^point *)
  if (-4 <? point) && (point <=? 16) then
    if point <=? 0 then "0." +:+ Str.zeros (Z.to_nat (- point)) +:+ ds
    else if len <=? point then ds +:+ Str.zeros (Z.to_nat (point - len)) +:+ ".0"
    else Str.take point ds +:+ "." +:+ Str.drop point ds
  else
    let x := point - 1 in
    Str.take 1 ds +:+ (if len =? 1 then "" else "." +:+ Str.drop 1 ds) +:+
    (if x <? 0 then "e-" else "e+") +:+ Str.pad 2 (Str.of_Z (Z.abs x)).

Definition repr (f : pyfloat) : string :=
  match f with
  | S754_nan => "nan"
  | S754_infinity false => "inf"
  | S754_infinity true => "-inf"
  | S754_zero false => "0.0"
  | S754_zero true => "-0.0"
  | S754_finite s m e =>
      let abs := S754_finite false m e in
      match ratio abs with
      | Some (n, d) =>
          let de := shortest 16 1 abs n d in
          let de := drop_zeros 20 de.1 de.2 in
          (if s then "-" else "") +:+ render de.1 de.2
      | None => ""
      end
  end.
End Flt.

Example repr_cases :
  Flt.repr <$> [Flt.of_dec 12 (-1); Flt.of_dec 1302 (-1); Flt.of_Z 3; Flt.of_dec 1 (-9);
             Flt.add (Flt.of_dec 1 (-1)) (Flt.of_dec 2 (-1)); Flt.of_dec 1 16; Flt.of_dec 12345 (-8);
             Flt.of_dec (-25) (-1)]
  = ["1.2"; "130.2"; "3.0"; "1e-09"; "0.30000000000000004"; "1e+16"; "0.00012345"; "-2.5"].
Proof. vm_compute. reflexivity. Qed.

Example round_cases :
  Flt.repr <$> [Flt.round_to 6 (Flt.of_dec 12345678 (-7)); Flt.round_to 3 (Flt.of_dec 26750 (-1))]
  = ["1.234568"; "2675.0"].
Proof. vm_compute. reflexivity. Qed.
