(* ===== verification/PyMonad.v ===== *)
(** * Exceptions and effects

    [res A] is the outcome of a Python expression: a value, or an exception
    with its class and its text. [M S A] is the outcome of a statement over a
    state [S]: the state survives an exception, as Python's assignments do.
    Both are monads for stdpp's notations [x ← m; k]. *)

From S2P Require Import Prelude.

(** ** Exceptions *)

Inductive exn_class :=
  | KeyError | TypeError | ValueError | AttributeError | IndexError | RuntimeError
  | AssertionError | ZeroDivisionError | OverflowError
  | JSONDecodeError | UnicodeDecodeError
  | OSError | FileNotFoundError | FileExistsError | NotADirectoryError | IsADirectoryError
  | PermissionError | TimeoutError | TimeoutExpired | CalledProcessError | SchemaError | ConfigParserError
  | TarError | EOFError | ZlibError | DrillError.

#[export] Instance exn_class_eq_dec : EqDecision exn_class.
Proof. solve_decision. Defined.

(** The base classes an [except] clause of the source may name. *)
Definition base_of (c : exn_class) : option exn_class :=
  match c with
  | JSONDecodeError | UnicodeDecodeError => Some ValueError
  | FileNotFoundError | FileExistsError | NotADirectoryError | IsADirectoryError
  | PermissionError | TimeoutError => Some OSError
  | DrillError => Some RuntimeError
  | _ => None
  end.

Definition is_a (c k : exn_class) : bool :=
  bool_decide (c = k) || match base_of c with Some b => bool_decide (b = k) | None => false end.

(** [SystemExit] is no [Exception]: [except Exception] lets it through. Its
    argument is an exit status or a message for the standard error. *)
Inductive exit_arg := ExitCode (z : Z) | ExitMsg (s : string).

Inductive exn :=
  | Exn (c : exn_class) (msg : string)
  | SystemExit (a : exit_arg).

#[export] Instance exit_arg_eq_dec : EqDecision exit_arg.
Proof. solve_decision. Defined.
#[export] Instance exn_eq_dec : EqDecision exn.
Proof. solve_decision. Defined.

(** [str(exc)] *)
Definition exn_str (e : exn) : string :=
  match e with
  | Exn _ m => m
  | SystemExit (ExitMsg s) => s
  | SystemExit (ExitCode z) => Str.of_Z z
  end.

Definition exn_in (ks : list exn_class) (e : exn) : bool :=
  match e with Exn c _ => existsb (is_a c) ks | SystemExit _ => false end.

(** [type(exc).__name__] *)
Definition class_name (c : exn_class) : string :=
  match c with
  | KeyError => "KeyError" | TypeError => "TypeError" | ValueError => "ValueError"
  | AttributeError => "AttributeError" | IndexError => "IndexError" | RuntimeError => "RuntimeError"
  | AssertionError => "AssertionError" | ZeroDivisionError => "ZeroDivisionError" | OverflowError => "OverflowError"
  | JSONDecodeError => "JSONDecodeError" | UnicodeDecodeError => "UnicodeDecodeError" | OSError => "OSError"
  | FileNotFoundError => "FileNotFoundError" | FileExistsError => "FileExistsError"
  | NotADirectoryError => "NotADirectoryError" | IsADirectoryError => "IsADirectoryError"
  | PermissionError => "PermissionError" | TimeoutError => "TimeoutError" | TimeoutExpired => "TimeoutExpired"
  | CalledProcessError => "CalledProcessError" | SchemaError => "SchemaError" | ConfigParserError => "Error"
  | TarError => "ReadError" | EOFError => "EOFError" | ZlibError => "error"
  | DrillError => "DrillError"
  end.
Definition exn_name (e : exn) : string := match e with Exn c _ => class_name c | SystemExit _ => "SystemExit" end.

(** [except Exception] *)
Definition is_exception (e : exn) : bool :=
  match e with Exn _ _ => true | SystemExit _ => false end.

(** ** Outcomes *)

Inductive res (A : Type) := Ok (a : A) | Raise (e : exn).
Arguments Ok {_} a.
Arguments Raise {_} e.

#[export] Instance res_ret : MRet res := @Ok.
#[export] Instance res_bind : MBind res :=
  λ A B f m, match m with Ok a => f a | Raise e => Raise e end.
#[export] Instance res_fmap : FMap res :=
  λ A B f m, match m with Ok a => Ok (f a) | Raise e => Raise e end.

Definition raise {A} (c : exn_class) (msg : string) : res A := Raise (Exn c msg).

Lemma bind_Ok {A B} (m : res A) (f : A -> res B) b :
  m ≫= f = Ok b <-> exists a, m = Ok a /\ f a = Ok b.
Proof.
  destruct m as [a|e]; simpl; split; [by eauto| |done|]; intros (a' & Ha & Hf); by simplify_eq.
Qed.

Fixpoint rmap {A B} (f : A -> res B) (l : list A) : res (list B) :=
  match l with
  | [] => Ok []
  | x :: r => y ← f x; ys ← rmap f r; Ok (y :: ys)
  end.

Fixpoint rfold {A B} (f : B -> A -> res B) (acc : B) (l : list A) : res B :=
  match l with
  | [] => Ok acc
  | x :: r => acc' ← f acc x; rfold f acc' r
  end.

(** [[x for x in l if f x]] *)
Fixpoint rfilter {A} (f : A -> res bool) (l : list A) : res (list A) :=
  match l with
  | [] => Ok []
  | x :: r => b ← f x; ys ← rfilter f r; Ok (if b : bool then x :: ys else ys)
  end.

(** [any(...)] and [all(...)] stop at the first element that decides. *)
Fixpoint rany {A} (f : A -> res bool) (l : list A) : res bool :=
  match l with
  | [] => Ok false
  | x :: r => b ← f x; if b : bool then Ok true else rany f r
  end.

Fixpoint rall {A} (f : A -> res bool) (l : list A) : res bool :=
  match l with
  | [] => Ok true
  | x :: r => b ← f x; if b : bool then rall f r else Ok false
  end.

(** [next((x for x in l if f x), None)] *)
Fixpoint rfind {A} (f : A -> res bool) (l : list A) : res (option A) :=
  match l with
  | [] => Ok None
  | x :: r => b ← f x; if b : bool then Ok (Some x) else rfind f r
  end.

Lemma rmap_Ok {A B} (f : A -> res B) l l' :
  rmap f l = Ok l' <-> Forall2 (λ x y, f x = Ok y) l l'.
Proof.
  revert l'. induction l as [|x r IH]; intros l'; simpl.
  - split; [intros [= <-]; constructor|]. by inversion 1.
  - rewrite bind_Ok. setoid_rewrite bind_Ok. split.
    + intros (y & Hy & ys & Hys & [= <-]). constructor; [done|by apply IH].
    + inversion 1; subst. eexists; split; [done|]. eexists; split; [by apply IH|done].
Qed.

Lemma rall_true {A} (f : A -> res bool) l :
  rall f l = Ok true <-> Forall (λ x, f x = Ok true) l.
Proof.
  induction l as [|x r IH]; simpl; [by split|].
  rewrite bind_Ok, Forall_cons, <-IH. split.
  - intros ([] & Hx & H); [by split|done].
  - intros [? ?]. by exists true.
Qed.

Lemma rany_false {A} (f : A -> res bool) l :
  rany f l = Ok false <-> Forall (λ x, f x = Ok false) l.
Proof.
  induction l as [|x r IH]; simpl; [by split|].
  rewrite bind_Ok, Forall_cons, <-IH. split.
  - intros ([] & Hx & H); [done|by split].
  - intros [? ?]. by exists false.
Qed.

(** ** Effects *)

Definition M (S A : Type) : Type := S -> res A * S.

#[export] Instance M_ret {S} : MRet (M S) := λ A a s, (Ok a, s).
#[export] Instance M_bind {S} : MBind (M S) :=
  λ A B f m s, match m s with
               | (Ok a, s') => f a s'
               | (Raise e, s') => (Raise e, s')
               end.

Definition lift {S A} (m : res A) : M S A := λ s, (m, s).
Definition mraise {S A} (e : exn) : M S A := λ s, (Raise e, s).
Definition throw {S A} (c : exn_class) (msg : string) : M S A := mraise (Exn c msg).
Definition sysexit {S A} (msg : string) : M S A := mraise (SystemExit (ExitMsg msg)).
Definition gets {S A} (f : S -> A) : M S A := λ s, (Ok (f s), s).
Definition modify {S} (f : S -> S) : M S unit := λ s, (Ok tt, f s).
Definition mwhen {S} (b : bool) (m : M S unit) : M S unit := if b then m else mret tt.

(** [try: m except ...: h]; [h] answers [None] to the exceptions no clause names. *)
Definition catch {S A} (m : M S A) (h : exn -> option (M S A)) : M S A :=
  λ s, match m s with
       | (Raise e, s') => match h e with Some k => k s' | None => (Raise e, s') end
       | r => r
       end.

(** One [except] clause, for a list of classes or for [Exception]. *)
Definition on_exn {S A} (ks : list exn_class) (k : exn -> M S A) (e : exn) : option (M S A) :=
  if exn_in ks e then Some (k e) else None.
Definition on_any {S A} (k : exn -> M S A) (e : exn) : option (M S A) :=
  if is_exception e then Some (k e) else None.

(** [try: m finally: f] *)
Definition finally {S A} (m : M S A) (f : M S unit) : M S A :=
  λ s, match m s with
       | (r, s') => match f s' with
                    | (Ok _, s'') => (r, s'')
                    | (Raise e, s'') => (Raise e, s'')
                    end
       end.

Fixpoint mfor {S A} (f : A -> M S unit) (l : list A) : M S unit :=
  match l with
  | [] => mret tt
  | x :: r => f x ;; mfor f r
  end.

Fixpoint mmap {S A B} (f : A -> M S B) (l : list A) : M S (list B) :=
  match l with
  | [] => mret []
  | x :: r => y ← f x; ys ← mmap f r; mret (y :: ys)
  end.

Fixpoint mfold {S A B} (f : B -> A -> M S B) (acc : B) (l : list A) : M S B :=
  match l with
  | [] => mret acc
  | x :: r => acc' ← f acc x; mfold f acc' r
  end.

Fixpoint mfilter {S A} (f : A -> M S bool) (l : list A) : M S (list A) :=
  match l with
  | [] => mret []
  | x :: r => b ← f x; ys ← mfilter f r; mret (if b : bool then x :: ys else ys)
  end.

(** A statement over a part of the state. *)
Definition zoom_snd {L W A} (m : M W A) : M (L * W) A :=
  λ s, match m s.2 with (r, w) => (r, (s.1, w)) end.
Definition getl {L W} : M (L * W) L := λ s, (Ok s.1, s).
Definition setl {L W} (l : L) : M (L * W) unit := λ s, (Ok tt, (l, s.2)).
Definition modl {L W} (f : L -> L) : M (L * W) unit := λ s, (Ok tt, (f s.1, s.2)).

(** Runs a block with locals of its own, dropped at its end. *)
Definition with_locals {L W A} (l : L) (m : M (L * W) A) : M W A :=
  λ w, match m (l, w) with (r, s) => (r, s.2) end.

(** ** What a statement may do to the state

    [Pres R m]: whatever [m] does, normally or by an exception, its initial
    and final states are related by [R]. For a preorder [R] the rule of each
    construct is a lemma of the hint database [pres]. *)

Definition Pres {S A} (R : S -> S -> Prop) (m : M S A) : Prop := forall s, R s (m s).2.

Section Pres.
Context {S : Type} (R : S -> S -> Prop) `{!PreOrder R}.

Lemma pres_ret {A} (a : A) : Pres R (mret (M:=M S) a).
Proof. intros s. simpl. reflexivity. Qed.

Lemma pres_lift {A} (m : res A) : Pres R (lift m).
Proof. intros s. simpl. reflexivity. Qed.

Lemma pres_raise {A} (e : exn) : Pres R (mraise (A:=A) e).
Proof. intros s. simpl. reflexivity. Qed.

Lemma pres_throw {A} c msg : Pres R (throw (A:=A) c msg).
Proof. intros s. simpl. reflexivity. Qed.

Lemma pres_sysexit {A} msg : Pres R (sysexit (A:=A) msg).
Proof. intros s. simpl. reflexivity. Qed.

Lemma pres_gets {A} (f : S -> A) : Pres R (gets f).
Proof. intros s. simpl. reflexivity. Qed.

Lemma pres_bind {A B} (m : M S A) (f : A -> M S B) :
  Pres R m -> (forall a, Pres R (f a)) -> Pres R (m ≫= f).
Proof.
  intros Hm Hf s. specialize (Hm s). unfold mbind, M_bind.
  destruct (m s) as [[a|e] s'] eqn:E; simpl in *; [|done].
  etransitivity; [exact Hm|apply Hf].
Qed.

(** The same, remembering what a pure step has answered. *)
Lemma pres_lift_bind {A B} (m : res A) (f : A -> M S B) :
  (forall a, m = Ok a -> Pres R (f a)) -> Pres R (lift m ≫= f).
Proof. intros Hf s. unfold mbind, M_bind, lift. destruct m; [by apply Hf|]. simpl. reflexivity. Qed.

(** Either the relation is kept, or what a later step needed holds. *)
Lemma pres_bind_or {A B} (P : Prop) (m : M S A) (f : A -> M S B) s : Pres R m ->
  (forall a s1, m s = (Ok a, s1) -> R s1 (f a s1).2 \/ P) -> R s ((m ≫= f) s).2 \/ P.
Proof.
  intros Hm Hf. specialize (Hm s). unfold mbind, M_bind.
  destruct (m s) as [[a|e] s'] eqn:E; simpl in *; [|by left].
  destruct (Hf a s' eq_refl) as [H|H]; [left; by etransitivity|by right].
Qed.

Lemma pres_when b (m : M S unit) : Pres R m -> Pres R (mwhen b m).
Proof. destruct b; [done|]. intros _. apply pres_ret. Qed.

Lemma pres_catch {A} (m : M S A) h :
  Pres R m -> (forall e k, h e = Some k -> Pres R k) -> Pres R (catch m h).
Proof.
  intros Hm Hh s. specialize (Hm s). unfold catch.
  destruct (m s) as [[a|e] s'] eqn:E; simpl in *; [done|].
  destruct (h e) as [k|] eqn:Eh; simpl; [|done].
  etransitivity; [exact Hm|by eapply Hh].
Qed.

Lemma pres_on_exn {A} ks (k : exn -> M S A) e k' :
  (forall e, Pres R (k e)) -> on_exn ks k e = Some k' -> Pres R k'.
Proof. intros H. unfold on_exn. intros. case_match; by simplify_eq. Qed.

Lemma pres_on_any {A} (k : exn -> M S A) e k' :
  (forall e, Pres R (k e)) -> on_any k e = Some k' -> Pres R k'.
Proof. intros H. unfold on_any. intros. case_match; by simplify_eq. Qed.

Lemma pres_finally {A} (m : M S A) f : Pres R m -> Pres R f -> Pres R (finally m f).
Proof.
  intros Hm Hf s. specialize (Hm s). unfold finally.
  destruct (m s) as [r s'] eqn:E; simpl in *. specialize (Hf s').
  destruct (f s') as [[]  s''] eqn:E'; simpl in *; by etransitivity.
Qed.

Lemma pres_for {A} (f : A -> M S unit) l : (forall x, Pres R (f x)) -> Pres R (mfor f l).
Proof.
  intros Hf. induction l as [|x r IH]; simpl; [apply pres_ret|].
  apply pres_bind; [apply Hf|by intros []].
Qed.

Lemma pres_map {A B} (f : A -> M S B) l : (forall x, Pres R (f x)) -> Pres R (mmap f l).
Proof.
  intros Hf. induction l as [|x r IH]; simpl; [apply pres_ret|].
  apply pres_bind; [apply Hf|]. intros y. apply pres_bind; [done|]. intros. apply pres_ret.
Qed.

Lemma pres_fold {A B} (f : B -> A -> M S B) l acc :
  (forall b x, Pres R (f b x)) -> Pres R (mfold f acc l).
Proof.
  intros Hf. revert acc. induction l as [|x r IH]; intros acc; simpl; [apply pres_ret|].
  apply pres_bind; [apply Hf|done].
Qed.

Lemma pres_filter {A} (f : A -> M S bool) l : (forall x, Pres R (f x)) -> Pres R (mfilter f l).
Proof.
  intros Hf. induction l as [|x r IH]; simpl; [apply pres_ret|].
  apply pres_bind; [apply Hf|]. intros b. apply pres_bind; [done|]. intros. apply pres_ret.
Qed.
End Pres.

(** What changes nothing keeps any reflexive relation. *)
Lemma pres_of_eq {S A} (R : S -> S -> Prop) `{!Reflexive R} (m : M S A) : Pres eq m -> Pres R m.
Proof. intros H s. specialize (H s). by rewrite <-H. Qed.

Lemma pres_eq_run {S A} (m : M S A) s r s' : Pres eq m -> m s = (r, s') -> s' = s.
Proof. intros H E. specialize (H s). by rewrite E in H. Qed.

(** The rules for blocks with locals: the relation speaks of the world only. *)
Section PresLocals.
Context {L W : Type} (R : W -> W -> Prop) `{!PreOrder R}.

Definition on_snd (s s' : L * W) : Prop := R s.2 s'.2.

#[export] Instance on_snd_preorder : PreOrder on_snd.
Proof. split; [intros s; unfold on_snd; reflexivity|]. intros a b c. unfold on_snd. by etransitivity. Qed.

Lemma pres_zoom {A} (m : M W A) : Pres R m -> Pres on_snd (zoom_snd (L:=L) m).
Proof.
  intros Hm [l w]. specialize (Hm w). unfold zoom_snd, on_snd. simpl.
  by destruct (m w) as [r w'].
Qed.

Lemma pres_getl : Pres on_snd getl.
Proof. intros s. unfold on_snd. simpl. reflexivity. Qed.
Lemma pres_setl l : Pres on_snd (setl l).
Proof. intros s. unfold on_snd. simpl. reflexivity. Qed.
Lemma pres_modl f : Pres on_snd (modl f).
Proof. intros s. unfold on_snd. simpl. reflexivity. Qed.

Lemma pres_with_locals {A} l (m : M (L * W) A) : Pres on_snd m -> Pres R (with_locals l m).
Proof.
  intros Hm w. specialize (Hm (l, w)). unfold with_locals, on_snd in *. simpl in Hm.
  by destruct (m (l, w)) as [r [l' w']].
Qed.
End PresLocals.

Arguments on_snd {L W} R s s' /.

(** [solve_pres] applies the rule of the head construct and splits the tests. *)
Ltac pres_step :=
  match goal with
  | |- PreOrder _ => apply _
  | |- forall _, _ => intros ?
  | |- Pres _ (mret _) => apply pres_ret
  | |- Pres _ (lift _) => apply pres_lift
  | |- Pres _ (mraise _) => apply pres_raise
  | |- Pres _ (throw _ _) => apply pres_throw
  | |- Pres _ (sysexit _) => apply pres_sysexit
  | |- Pres _ (gets _) => apply pres_gets
  | |- Pres (on_snd _) getl => apply pres_getl
  | |- Pres (on_snd _) (setl _) => apply pres_setl
  | |- Pres (on_snd _) (modl _) => apply pres_modl
  | |- Pres (on_snd _) (zoom_snd _) => apply pres_zoom
  | |- Pres _ (with_locals _ _) => apply pres_with_locals
  | |- Pres _ (mbind _ _) => apply pres_bind
  | |- Pres _ (mwhen _ _) => apply pres_when
  | |- Pres _ (finally _ _) => apply pres_finally
  | |- Pres _ (mfor _ _) => apply pres_for
  | |- Pres _ (mmap _ _) => apply pres_map
  | |- Pres _ (mfold _ _ _) => apply pres_fold
  | |- Pres _ (mfilter _ _) => apply pres_filter
  | |- Pres _ (catch _ (on_exn _ _)) => apply pres_catch; [apply _| |intros ? ?; apply pres_on_exn]
  | |- Pres _ (catch _ (on_any _)) => apply pres_catch; [apply _| |intros ? ?; apply pres_on_any]
  | |- Pres _ (if ?b then _ else _) => destruct b
  | |- Pres _ (match ?x with _ => _ end) => destruct x
  | |- Pres _ _ => solve [eauto with pres]
  end.
Ltac solve_pres := repeat pres_step.
#[export] Hint Extern 5 (Pres _ (mbind _ _)) => solve [solve_pres] : pres.

(** ** Reading a successful run

    [inv_run] decomposes an equation [m s = (Ok a, s')]. *)

Lemma M_bind_Ok {S A B} (m : M S A) (f : A -> M S B) s b s' :
  (m ≫= f) s = (Ok b, s') <-> exists a s1, m s = (Ok a, s1) /\ f a s1 = (Ok b, s').
Proof.
  unfold mbind, M_bind. destruct (m s) as [[a|e] s1]; split; try by intros (?&?&?&?); simplify_eq.
  - intros H. by exists a, s1.
  - done.
Qed.

(** A statement run forward: the rest runs where the first statement has ended. *)
Lemma M_bind_run {S A B} (m : M S A) (f : A -> M S B) s a s1 : m s = (Ok a, s1) -> (m ≫= f) s = f a s1.
Proof. unfold mbind, M_bind. by intros ->. Qed.
Lemma lift_run {S A B} (m : res A) (f : A -> M S B) s a : m = Ok a -> (lift m ≫= f) s = f a s.
Proof. intros ->. done. Qed.

Lemma lift_Ok {S A} (m : res A) (s : S) a s' : lift m s = (Ok a, s') <-> m = Ok a /\ s' = s.
Proof. unfold lift. split; [by intros [= -> ->]|by intros [-> ->]]. Qed.

Lemma ret_Ok {S A} (a b : A) (s s' : S) :
  mret (M:=M S) a s = (Ok b, s') <-> a = b /\ s' = s.
Proof. unfold mret, M_ret. split; [by intros [= -> ->]|by intros [-> ->]]. Qed.

Lemma catch_Ok {S A} (m : M S A) h s a s' :
  catch m h s = (Ok a, s') <->
  m s = (Ok a, s') \/
  exists e s1 k, m s = (Raise e, s1) /\ h e = Some k /\ k s1 = (Ok a, s').
Proof.
  unfold catch. destruct (m s) as [[b|e] s1].
  - split; [by left|]. intros [?|(?&?&?&?&?)]; by simplify_eq.
  - destruct (h e) as [k|] eqn:Eh.
    + split; [intros H; right; by exists e, s1, k|].
      intros [?|(?&?&?&?&?&?)]; by simplify_eq.
    + split; [done|]. intros [?|(?&?&?&?&?&?)]; by simplify_eq.
Qed.

Ltac same_state E :=
  match type of E with
  | ?x = ?x => clear E
  | _ => revert E; intros ->
  end.

Ltac inv_run :=
  repeat match goal with
  | H : (mbind _ _) _ = (Ok _, _) |- _ =>
      apply M_bind_Ok in H; let a := fresh "a" in let s := fresh "s" in
      let H1 := fresh H in destruct H as (a & s & H1 & H)
  | H : lift _ _ = (Ok _, _) |- _ =>
      let E := fresh in apply lift_Ok in H as [H E]; same_state E
  | H : mret _ _ = (Ok _, _) |- _ =>
      let E := fresh in apply ret_Ok in H as [H E]; same_state E
  | H : mraise _ _ = (Ok _, _) |- _ => discriminate H
  | H : throw _ _ _ = (Ok _, _) |- _ => discriminate H
  | H : sysexit _ _ = (Ok _, _) |- _ => discriminate H
  | H : mbind _ _ = Ok _ |- _ =>
      apply bind_Ok in H; let a := fresh "a" in let H1 := fresh H in
      destruct H as (a & H1 & H)
  end.

(** The same for the pieces of a block with locals, and for loops. *)
Lemma pres_run {S A} (R : S -> S -> Prop) (m : M S A) s r s' : Pres R m -> m s = (r, s') -> R s s'.
Proof. intros H E. specialize (H s). by rewrite E in H. Qed.

Lemma zoom_Ok {L W A} (m : M W A) (s : L * W) a s' :
  zoom_snd m s = (Ok a, s') <-> m s.2 = (Ok a, s'.2) /\ s'.1 = s.1.
Proof.
  unfold zoom_snd. destruct s as [l w], s' as [l' w']. simpl. destruct (m w) as [r w1].
  split; [by intros [= -> <- <-]|by intros [[= -> ->] ->]].
Qed.

Lemma getl_Ok {L W} (s : L * W) l s' : getl s = (Ok l, s') <-> l = s.1 /\ s' = s.
Proof. unfold getl. split; [by intros [= <- <-]|by intros [-> ->]]. Qed.

Lemma modl_Ok {L W} f (s : L * W) u s' : modl f s = (Ok u, s') <-> s' = (f s.1, s.2).
Proof. unfold modl. destruct u. split; [by intros [= <-]|by intros ->]. Qed.

Lemma with_locals_Ok {L W A} (l : L) (m : M (L * W) A) w a w' :
  with_locals l m w = (Ok a, w') <-> exists l', m (l, w) = (Ok a, (l', w')).
Proof.
  unfold with_locals. destruct (m (l, w)) as [r [l1 w1]]. simpl. split.
  - intros [= -> ->]. by exists l1.
  - by intros [l' [= -> _ ->]].
Qed.

Lemma when_Ok {S} b (m : M S unit) s u s' :
  mwhen b m s = (Ok u, s') <-> (b = true /\ m s = (Ok u, s')) \/ (b = false /\ s' = s).
Proof.
  destruct u, b; simpl; [|rewrite ret_Ok]; split; try tauto.
  - intros [[? ?]|[? ?]]; done.
  - intros [[? ?]|[? ?]]; done.
Qed.

Lemma on_exn_Some {S A} ks (k : exn -> M S A) e k' :
  on_exn ks k e = Some k' -> exn_in ks e = true /\ k' = k e.
Proof. unfold on_exn. intros. case_match; by simplify_eq. Qed.

(** Every turn of a loop that ends normally has ended normally. *)
Lemma mmap_Ok {S A B} (f : A -> M S B) l s ys s' : mmap f l s = (Ok ys, s') ->
  Forall2 (λ x y, exists s1 s2, f x s1 = (Ok y, s2)) l ys.
Proof.
  revert s ys s'. induction l as [|x r IH]; intros s ys s' E; simpl in E.
  - apply ret_Ok in E as [<- _]. constructor.
  - apply M_bind_Ok in E as (y & s1 & E1 & E). apply M_bind_Ok in E as (zs & s2 & E2 & E).
    apply ret_Ok in E as [<- _]. constructor; [by exists s, s1|by eapply IH].
Qed.
Lemma mfor_Ok_In {S A} (R : S -> S -> Prop) `{!PreOrder R} (f : A -> M S unit) l s s' u :
  (forall x, Pres R (f x)) -> mfor f l s = (Ok u, s') ->
  Forall (λ x, exists s1 s2, R s s1 /\ f x s1 = (Ok tt, s2) /\ R s2 s') l.
Proof.
  intros Hf. revert s. induction l as [|x r IH]; intros s H; [constructor|].
  simpl in H. apply M_bind_Ok in H as ([] & s1 & Hx & H).
  assert (R s s1) as Hs by (eapply pres_run; [apply Hf|exact Hx]).
  constructor.
  - exists s, s1. split; [reflexivity|]. split; [done|].
    eapply pres_run; [|exact H]. by apply pres_for.
  - eapply Forall_impl; [by apply IH|]. intros y (t1 & t2 & ? & ? & ?).
    exists t1, t2. split; [by etransitivity|done].
Qed.

(** ** Statements that do not exit

    [Plain m] and [MPlain m]: whatever [m] raises is an [Exception], so a clause
    [except Exception] around it lets nothing through. *)

Definition Plain {A} (m : res A) : Prop := forall e, m = Raise e -> is_exception e = true.
Definition MPlain {S A} (m : M S A) : Prop := forall s e s', m s = (Raise e, s') -> is_exception e = true.

Lemma plain_ok {A} (a : A) : Plain (Ok a).
Proof. done. Qed.
Lemma plain_raise {A} c msg : Plain (raise (A:=A) c msg).
Proof. by intros e [= <-]. Qed.
Lemma plain_bind {A B} (m : res A) (f : A -> res B) :
  Plain m -> (forall a, Plain (f a)) -> Plain (m ≫= f).
Proof. intros Hm Hf e. destruct m as [a|e']; simpl; [apply Hf|]. intros [= <-]. by apply Hm. Qed.
Lemma plain_rmap {A B} (f : A -> res B) l : (forall x, Plain (f x)) -> Plain (rmap f l).
Proof.
  intros Hf. induction l as [|x r IH]; simpl; [apply plain_ok|].
  apply plain_bind; [apply Hf|intros y]. apply plain_bind; [done|intros ys]. apply plain_ok.
Qed.

Lemma mplain_ret {S A} (a : A) : MPlain (mret (M:=M S) a).
Proof. done. Qed.
Lemma mplain_lift {S A} (m : res A) : Plain m -> MPlain (lift (S:=S) m).
Proof. intros Hm s e s' [= E _]. by apply Hm. Qed.
Lemma mplain_throw {S A} c msg : MPlain (throw (S:=S) (A:=A) c msg).
Proof. by intros s e s' [= <- _]. Qed.
Lemma mplain_raise {S A} e : is_exception e = true -> MPlain (mraise (S:=S) (A:=A) e).
Proof. by intros He s e' s' [= <- _]. Qed.
Lemma mplain_bind {S A B} (m : M S A) (f : A -> M S B) :
  MPlain m -> (forall a, MPlain (f a)) -> MPlain (m ≫= f).
Proof.
  intros Hm Hf s e s'. unfold mbind, M_bind. destruct (m s) as [[a|e'] s1] eqn:E; [apply Hf|].
  intros [= <- <-]. by eapply Hm.
Qed.
Lemma mplain_total {S A} (f : S -> A) (g : S -> S) : MPlain (λ s, (Ok (f s), g s)).
Proof. done. Qed.
Lemma mplain_zoom {L W A} (m : M W A) : MPlain m -> MPlain (zoom_snd (L:=L) m).
Proof.
  intros Hm s e s'. unfold zoom_snd. destruct (m s.2) as [r w] eqn:E. intros [= -> _]. by eapply Hm.
Qed.
Lemma mplain_catch_any {S A} (m : M S A) k : (forall e, is_exception e = true -> MPlain (k e)) ->
  MPlain m -> MPlain (catch m (on_any k)).
Proof.
  intros Hk Hm s e s'. unfold catch, on_any. destruct (m s) as [[a|e1] s1] eqn:E; [done|].
  pose proof (Hm _ _ _ E) as H1. rewrite H1. by apply Hk.
Qed.
Lemma mplain_map {S A B} (f : A -> M S B) l : (forall x, MPlain (f x)) -> MPlain (mmap f l).
Proof.
  intros Hf. induction l as [|x r IH]; simpl; [apply mplain_ret|].
  apply mplain_bind; [apply Hf|intros y]. apply mplain_bind; [done|intros ys]. apply mplain_ret.
Qed.
Lemma mplain_for {S A} (f : A -> M S unit) l : (forall x, MPlain (f x)) -> MPlain (mfor f l).
Proof.
  intros Hf. induction l as [|x r IH]; simpl; [apply mplain_ret|]. by apply mplain_bind; [apply Hf|intros _].
Qed.

Create HintDb plain.
Ltac plain_step :=
  match goal with
  | |- forall _, _ => intros ?
  | |- Plain (Ok _) => apply plain_ok
  | |- Plain (raise _ _) => apply plain_raise
  | |- Plain (mbind _ _) => apply plain_bind
  | |- Plain (rmap _ _) => apply plain_rmap
  | |- Plain (if ?b then _ else _) => destruct b
  | |- Plain (match ?x with _ => _ end) => destruct x
  | |- Plain _ => solve [eauto with plain]
  | |- MPlain (mret _) => apply mplain_ret
  | |- MPlain (lift _) => apply mplain_lift
  | |- MPlain (throw _ _) => apply mplain_throw
  | |- MPlain (mbind _ _) => apply mplain_bind
  | |- MPlain (zoom_snd _) => apply mplain_zoom
  | |- MPlain (mmap _ _) => apply mplain_map
  | |- MPlain (mfor _ _) => apply mplain_for
  | |- MPlain (gets _) => done
  | |- MPlain getl => done
  | |- MPlain (modl _) => done
  | |- MPlain (if ?b then _ else _) => destruct b
  | |- MPlain (match ?x with _ => _ end) => destruct x
  | |- MPlain _ => solve [eauto with plain]
  end.
Ltac solve_plain := repeat plain_step.

(** ** Loops that succeed: what holds of the part done and of the accumulator *)

Lemma rfold_inv {A B} (P : list A -> B -> Prop) (f : B -> A -> res B) l b r :
  P [] b -> (forall done x b b', P done b -> f b x = Ok b' -> P (done ++ [x]) b') ->
  rfold f b l = Ok r -> P l r.
Proof.
  intros H0 Hf. enough (forall todo done b, P done b -> rfold f b todo = Ok r -> P (done ++ todo) r) as H
    by (intros E; apply (H l [] b H0 E)).
  intros todo. induction todo as [|x todo IH]; intros don b1 Hp E; simpl in E.
  - injection E as <-. by rewrite app_nil_r.
  - apply bind_Ok in E as (b2 & E1 & E). rewrite (cons_middle x don todo), app_assoc.
    eapply IH; [|exact E]. by eapply Hf.
Qed.

Lemma mfold_inv {S A B} (P : list A -> B -> Prop) (f : B -> A -> M S B) s l b r s' :
  (forall b x, Pres eq (f b x)) ->
  P [] b -> (forall done x b b', P done b -> f b x s = (Ok b', s) -> P (done ++ [x]) b') ->
  mfold f b l s = (Ok r, s') -> s' = s /\ P l r.
Proof.
  intros Hro H0 Hf.
  enough (forall todo done b, P done b -> mfold f b todo s = (Ok r, s') -> s' = s /\ P (done ++ todo) r) as H
    by (intros E; apply (H l [] b H0 E)).
  intros todo. induction todo as [|x todo IH]; intros don b1 Hp E; simpl in E.
  - apply ret_Ok in E as [<- ->]. by rewrite app_nil_r.
  - apply M_bind_Ok in E as (b2 & s2 & E1 & E).
    assert (s2 = s) as -> by (symmetry; by eapply pres_run; [apply Hro|]).
    rewrite (cons_middle x don todo), app_assoc. eapply IH; [|exact E]. by eapply Hf.
Qed.
