(* ===== verification/PyValue.v ===== *)
(** * Python values that come from JSON

    [val] holds the values [json.loads] yields and the code builds: [None],
    booleans, integers, floats, strings, lists and dicts. A dict keeps its
    insertion order, as Python's does. The operations below are the ones the
    control plane applies to them, with the exceptions they raise. *)

From Stdlib Require Import SpecFloat Ascii.
From S2P Require Import Prelude PyFloat PyMonad.

#[warnings="-register-all"] Inductive val :=
  | VNone
  | VBool (b : bool)
  | VInt (z : Z)
  | VFloat (f : pyfloat)
  | VStr (s : string)
  | VList (l : list val)
  | VDict (d : list (string * val)).

(** The induction principle that reaches the elements of lists and dicts. *)
Section ValInd.
Context (P : val -> Prop)
  (Hnone : P VNone) (Hbool : forall b, P (VBool b)) (Hint : forall z, P (VInt z))
  (Hfloat : forall f, P (VFloat f)) (Hstr : forall s, P (VStr s))
  (Hlist : forall l, Forall P l -> P (VList l))
  (Hdict : forall d, Forall (λ kv, P kv.2) d -> P (VDict d)).

Fixpoint val_ind' (v : val) : P v :=
  match v with
  | VNone => Hnone
  | VBool b => Hbool b
  | VInt z => Hint z
  | VFloat f => Hfloat f
  | VStr s => Hstr s
  | VList l =>
      Hlist l ((fix go l : Forall P l :=
                  match l with
                  | [] => List.Forall_nil _
                  | x :: r => List.Forall_cons _ _ _ (val_ind' x) (go r)
                  end) l)
  | VDict d =>
      Hdict d ((fix go d : Forall (λ kv, P kv.2) d :=
                  match d with
                  | [] => List.Forall_nil _
                  | x :: r => List.Forall_cons _ _ _ (val_ind' x.2) (go r)
                  end) d)
  end.
End ValInd.

#[export] Instance val_eq_dec : EqDecision val.
Proof.
  refine (fix go (a b : val) {struct a} : Decision (a = b) :=
    match a, b with
    | VNone, VNone => left eq_refl
    | VBool x, VBool y => cast_if (decide (x = y))
    | VInt x, VInt y => cast_if (decide (x = y))
    | VFloat x, VFloat y => cast_if (decide (x = y))
    | VStr x, VStr y => cast_if (decide (x = y))
    | VList x, VList y =>
        cast_if ((fix gl (x y : list val) {struct x} : Decision (x = y) :=
          match x, y with
          | [], [] => left eq_refl
          | u :: x', v :: y' => cast_if_and (go u v) (gl x' y')
          | _, _ => right _
          end) x y)
    | VDict x, VDict y =>
        cast_if ((fix gd (x y : list (string * val)) {struct x} : Decision (x = y) :=
          match x, y with
          | [], [] => left eq_refl
          | (k, u) :: x', (k', v) :: y' =>
              cast_if_and3 (decide (k = k')) (go u v) (gd x' y')
          | _, _ => right _
          end) x y)
    | _, _ => right _
    end); clear go; try clear gl; try clear gd; abstract congruence.
Defined.

(** The dict operations, on association lists. *)
Module Dict.
Fixpoint lookup {V} (k : string) (d : list (string * V)) : option V :=
  match d with
  | [] => None
  | (k', v) :: r => if String.eqb k k' then Some v else lookup k r
  end.

(** [d[k] = v]: the position of an existing key is kept. *)
Fixpoint set {V} (k : string) (v : V) (d : list (string * V)) : list (string * V) :=
  match d with
  | [] => [(k, v)]
  | (k', v') :: r => if String.eqb k k' then (k', v) :: r else (k', v') :: set k v r
  end.

Definition mem {V} (k : string) (d : list (string * V)) : bool :=
  match lookup k d with Some _ => true | None => false end.

Definition keys {V} (d : list (string * V)) : list string := map fst d.
Definition values {V} (d : list (string * V)) : list V := map snd d.

(** [d.update(u)] *)
Definition update {V} (u d : list (string * V)) : list (string * V) :=
  fold_left (λ d kv, set kv.1 kv.2 d) u d.

Lemma lookup_set {V} k (v : V) d : lookup k (set k v d) = Some v.
Proof.
  induction d as [|[k' v'] r IH]; simpl; [by rewrite String.eqb_refl|].
  destruct (String.eqb k k') eqn:E; simpl; by rewrite E.
Qed.

Lemma lookup_set_ne {V} k k' (v : V) d : k ≠ k' -> lookup k (set k' v d) = lookup k d.
Proof.
  intros Hne%String.eqb_neq. induction d as [|[k2 v2] r IH]; simpl; [by rewrite Hne|].
  destruct (String.eqb k' k2) eqn:E; simpl.
  - apply String.eqb_eq in E as <-. by rewrite Hne.
  - by rewrite IH.
Qed.

Lemma mem_keys {V} k (d : list (string * V)) : mem k d = true <-> k ∈ keys d.
Proof.
  unfold mem, keys. induction d as [|[k' v'] r IH]; simpl; [set_solver|].
  destruct (String.eqb_spec k k') as [->|Hne].
  - rewrite elem_of_cons. split; [by left|done].
  - rewrite IH, elem_of_cons. split; [by right|by intros [?|?]].
Qed.

Lemma keys_set {V} k (v : V) d :
  keys (set k v d) = if mem k d then keys d else keys d ++ [k].
Proof.
  unfold mem, keys. induction d as [|[k' v'] r IH]; simpl; [done|].
  destruct (String.eqb k k') eqn:E; simpl; [done|].
  rewrite IH. by destruct (lookup k r).
Qed.

Lemma set_NoDup {V} k (v : V) d : NoDup (keys d) -> NoDup (keys (set k v d)).
Proof.
  intros H. rewrite keys_set. destruct (mem k d) eqn:E; [done|].
  apply NoDup_app. split; [done|]. split; [|apply NoDup_singleton].
  intros x Hx ->%list_elem_of_singleton. apply mem_keys in Hx. congruence.
Qed.

Lemma lookup_In {V} k (v : V) d : lookup k d = Some v -> (k, v) ∈ d.
Proof.
  induction d as [|[k' v'] r IH]; simpl; [done|].
  destruct (String.eqb_spec k k') as [->|]; intros; simplify_eq; set_solver.
Qed.

Lemma In_lookup {V} k (v : V) d : NoDup (keys d) -> (k, v) ∈ d -> lookup k d = Some v.
Proof.
  unfold keys. induction d as [|[k' v'] r IH]; simpl; [set_solver|].
  rewrite NoDup_cons, elem_of_cons. intros [Hk Hd] [[= <- <-]|Hin].
  - by rewrite String.eqb_refl.
  - destruct (String.eqb_spec k k') as [->|]; [|by apply IH].
    destruct Hk. apply list_elem_of_In, in_map_iff. exists (k', v).
    split; [done|by apply list_elem_of_In].
Qed.
End Dict.

(** ** Types and truth *)

Definition type_name (v : val) : string :=
  match v with
  | VNone => "NoneType" | VBool _ => "bool" | VInt _ => "int" | VFloat _ => "float"
  | VStr _ => "str" | VList _ => "list" | VDict _ => "dict"
  end.

Definition truthy (v : val) : bool :=
  match v with
  | VNone => false
  | VBool b => b
  | VInt z => negb (z =? 0)
  | VFloat f => negb (Flt.is_zero f)
  | VStr s => negb (String.eqb s "")
  | VList l => match l with [] => false | _ => true end
  | VDict d => match d with [] => false | _ => true end
  end.

Definition is_none (v : val) : bool := match v with VNone => true | _ => false end.
Definition is_true (v : val) : bool := match v with VBool true => true | _ => false end.
Definition is_false (v : val) : bool := match v with VBool false => true | _ => false end.
Definition is_str (v : val) : bool := match v with VStr _ => true | _ => false end.
Definition is_dict (v : val) : bool := match v with VDict _ => true | _ => false end.
Definition is_list (v : val) : bool := match v with VList _ => true | _ => false end.
(** [isinstance(v, int)]: a [bool] is an [int]. *)
Definition as_int (v : val) : option Z :=
  match v with VInt z => Some z | VBool b => Some (Z.b2z b) | _ => None end.
Definition is_int (v : val) : bool := match as_int v with Some _ => true | None => false end.

(** ** Numbers: [bool], [int] and [float] compare together *)

Definition num_compare (a b : val) : option comparison :=
  match as_int a, as_int b with
  | Some x, Some y => Some (x ?= y)
  | Some x, None => match b with VFloat g => Flt.compare_Z x g | _ => None end
  | None, Some y => match a with VFloat f => option_map CompOpp (Flt.compare_Z y f) | _ => None end
  | None, None => match a, b with VFloat f, VFloat g => Flt.compare f g | _, _ => None end
  end.

Definition is_num (v : val) : bool :=
  match v with VBool _ | VInt _ | VFloat _ => true | _ => false end.

(** [a == b] *)
Fixpoint py_eq (a b : val) {struct a} : bool :=
  match a, b with
  | VNone, VNone => true
  | VStr s, VStr t => String.eqb s t
  | VList l, VList m =>
      (fix go (l m : list val) {struct l} : bool :=
         match l, m with
         | [], [] => true
         | x :: l', y :: m' => py_eq x y && go l' m'
         | _, _ => false
         end) l m
  | VDict l, VDict m =>
      Nat.eqb (length l) (length m) &&
      forallb (λ '(k, x), match Dict.lookup k m with Some y => py_eq x y | None => false end) l
  | (VBool _ | VInt _ | VFloat _), (VBool _ | VInt _ | VFloat _) =>
      match num_compare a b with Some Eq => true | _ => false end
  | _, _ => false
  end.

Definition py_ne (a b : val) : bool := negb (py_eq a b).

(** [v in (a, b, ...)] *)
Definition py_in (v : val) (l : list val) : bool := existsb (py_eq v) l.

(** [v == "literal"]: only a string equals a string. *)
Lemma py_eq_str_r v s : py_eq v (VStr s) = true <-> v = VStr s.
Proof.
  destruct v; simpl; try (split; [discriminate|done]).
  rewrite String.eqb_eq. split; [by intros ->|by intros [= ->]].
Qed.

Lemma py_eq_str_l v s : py_eq (VStr s) v = true <-> v = VStr s.
Proof.
  destruct v; simpl; try (split; [discriminate|done]).
  rewrite String.eqb_eq. split; [by intros ->|by intros [= ->]].
Qed.

Lemma py_eq_none v : py_eq v VNone = true <-> v = VNone.
Proof. by destruct v. Qed.

(** [a < b] *)
Fixpoint list_lt_with (lt : val -> val -> res bool) (l m : list val) : res bool :=
  match l, m with
  | [], [] => Ok false
  | [], _ :: _ => Ok true
  | _ :: _, [] => Ok false
  | x :: l', y :: m' => if py_eq x y then list_lt_with lt l' m' else lt x y
  end.

Definition lt_error {A} (op : string) (a b : val) : res A :=
  raise TypeError ("'" +:+ op +:+ "' not supported between instances of '" +:+ type_name a
                   +:+ "' and '" +:+ type_name b +:+ "'").

Fixpoint py_lt_fuel (n : nat) (a b : val) : res bool :=
  if is_num a && is_num b then
    Ok match num_compare a b with Some Lt => true | _ => false end
  else match a, b with
  | VStr s, VStr t => Ok (Str.ltb s t)
  | VList l, VList m =>
      match n with
      | O => lt_error "<" a b
      | S k => list_lt_with (py_lt_fuel k) l m
      end
  | _, _ => lt_error "<" a b
  end.

(** The fuel bounds the nesting of the compared lists. *)
Definition py_lt : val -> val -> res bool := py_lt_fuel 64.
Definition py_gt (a b : val) : res bool := py_lt b a.
Definition py_le (a b : val) : res bool :=
  if is_num a && is_num b then
    Ok match num_compare a b with Some Lt | Some Eq => true | _ => false end
  else match a, b with
  | VStr s, VStr t => Ok (negb (Str.ltb t s))
  | _, _ => lt_error "<=" a b
  end.

Lemma py_lt_int a b : py_lt (VInt a) (VInt b) = Ok (a <? b).
Proof. unfold py_lt; simpl. unfold num_compare; simpl. unfold Z.ltb. by destruct (a ?= b). Qed.

Lemma py_le_int a b : py_le (VInt a) (VInt b) = Ok (a <=? b).
Proof. unfold py_le; simpl. unfold num_compare; simpl. unfold Z.leb. by destruct (a ?= b). Qed.

(** [sorted(l)] and [sorted(l, key=key)] *)
Definition lt_option {A} (lt : A -> A -> res bool) (a b : A) : option bool :=
  match lt a b with Ok c => Some c | Raise _ => None end.
Definition py_sorted_by {A} (key : A -> val) (l : list A) : res (list A) :=
  match sort_by (lt_option (λ a b, py_lt (key a) (key b))) l with
  | Some l' => Ok l'
  | None => raise TypeError "'<' not supported between the sorted values"
  end.
Definition py_sorted (l : list val) : res (list val) := py_sorted_by id l.

(** [sorted(l, key=..., reverse=True)]: descending, and still stable. *)
Definition py_sorted_rev_by {A} (key : A -> val) (l : list A) : res (list A) :=
  match sort_by (lt_option (λ a b, py_lt (key b) (key a))) l with
  | Some l' => Ok l'
  | None => raise TypeError "'<' not supported between the sorted values"
  end.

Lemma py_sorted_by_perm {A} (key : A -> val) l l' : py_sorted_by key l = Ok l' -> l' ≡ₚ l.
Proof. unfold py_sorted_by. case_match eqn:E; intros; simplify_eq. by eapply sort_by_perm. Qed.

Lemma py_sorted_rev_by_perm {A} (key : A -> val) l l' : py_sorted_rev_by key l = Ok l' -> l' ≡ₚ l.
Proof. unfold py_sorted_rev_by. case_match eqn:E; intros; simplify_eq. by eapply sort_by_perm. Qed.

(** ** [repr] and [str] *)

Definition hex_digit (n : N) : ascii :=
  if (n <? 10)%N then ascii_of_N (48 + n) else ascii_of_N (87 + n).
Definition hex2 (n : N) : string := String (hex_digit (n / 16)%N) (String (hex_digit (n mod 16)%N) "").

Definition dquote : ascii := ascii_of_N 34.
Definition squote : ascii := ascii_of_N 39.
Definition bslash : ascii := ascii_of_N 92.

(** Characters beyond ASCII are taken as printable. *)
Fixpoint repr_chars (q : ascii) (s : string) : string :=
  match s with
  | EmptyString => ""
  | String c r =>
      let n := N_of_ascii c in
      (if Ascii.eqb c q || Ascii.eqb c bslash then String bslash (String c "")
       else if (n =? 10)%N then "\n" else if (n =? 13)%N then "\r"
       else if (n =? 9)%N then "\t"
       else if (n <? 32)%N || (n =? 127)%N then "\x" +:+ hex2 n
       else String c "") +:+ repr_chars q r
  end.

Definition repr_str (s : string) : string :=
  let has c := existsb (Ascii.eqb c) (Str.to_list s) in
  let q := if has squote && negb (has dquote) then dquote else squote in
  String q (repr_chars q s +:+ String q "").

Fixpoint repr (v : val) : string :=
  match v with
  | VNone => "None"
  | VBool true => "True"
  | VBool false => "False"
  | VInt z => Str.of_Z z
  | VFloat f => Flt.repr f
  | VStr s => repr_str s
  | VList l => "[" +:+ Str.join ", " (map repr l) +:+ "]"
  | VDict d => "{" +:+ Str.join ", " (map (λ '(k, x), repr_str k +:+ ": " +:+ repr x) d) +:+ "}"
  end.

(** [str(v)], also what an f-string inserts for [{v}]. *)
Definition py_str (v : val) : string := match v with VStr s => s | _ => repr v end.

(** [repr] of a list of strings. *)
Definition repr_strs (l : list string) : string := repr (VList (map VStr l)).

(** ** Attribute and item access *)

Definition no_attr {A} (v : val) (m : string) : res A :=
  raise AttributeError ("'" +:+ type_name v +:+ "' object has no attribute '" +:+ m +:+ "'").

(** [v[k]] for a string key *)
Definition getitem (v : val) (k : string) : res val :=
  match v with
  | VDict d => match Dict.lookup k d with
               | Some x => Ok x
               | None => raise KeyError (repr_str k)
               end
  | VList _ => raise TypeError "list indices must be integers or slices, not str"
  | VStr _ => raise TypeError "string indices must be integers, not 'str'"
  | _ => raise TypeError ("'" +:+ type_name v +:+ "' object is not subscriptable")
  end.

(** [v[k1][k2]...] *)
Fixpoint item (v : val) (ks : list string) : res val :=
  match ks with
  | [] => Ok v
  | k :: r => x ← getitem v k; item x r
  end.

(** [v.get(k, d)], [v.get(k)] *)
Definition dget_or (v : val) (k : string) (dflt : val) : res val :=
  match v with
  | VDict d => Ok (default dflt (Dict.lookup k d))
  | _ => no_attr v "get"
  end.
Definition dget (v : val) (k : string) : res val := dget_or v k VNone.

(** The test [v.get(k) == x]. *)
Definition get_eq (v : val) (k : string) (x : val) : res bool :=
  y ← dget v k; Ok (py_eq y x).

(** [for x in v] *)
Definition py_iter (v : val) : res (list val) :=
  match v with
  | VList l => Ok l
  | VDict d => Ok (map (λ kv, VStr kv.1) d)
  | VStr s =>
      Ok ((fix go n s :=
             match n with
             | O => []
             | S k => match s with
                      | EmptyString => []
                      | _ => VStr (Str.take 1 s) :: go k (Str.drop 1 s)
                      end
             end) (String.length s) s)
  | _ => raise TypeError ("'" +:+ type_name v +:+ "' object is not iterable")
  end.

(** [v.items()], [v.values()] *)
Definition py_items (v : val) : res (list (string * val)) :=
  match v with VDict d => Ok d | _ => no_attr v "items" end.

(** [v.extend(w)] and [list(v)] are iterations; [len(v)]: *)
Definition py_len (v : val) : res Z :=
  match v with
  | VList l => Ok (Z.of_nat (length l))
  | VDict d => Ok (Z.of_nat (length d))
  | VStr s => Ok (Str.len s)
  | _ => raise TypeError ("object of type '" +:+ type_name v +:+ "' has no len()")
  end.

(** Only hashable values are members of sets and keys of dicts. *)
Definition hashable (v : val) : bool := match v with VList _ | VDict _ => false | _ => true end.
Definition check_hash (v : val) : res unit :=
  if hashable v then Ok tt else raise TypeError ("unhashable type: '" +:+ type_name v +:+ "'").

(** [v in {a, b, ...}] *)
Definition in_set (v : val) (l : list val) : res bool :=
  _ ← check_hash v; Ok (py_in v l).

(** [v[:n]] *)
Definition py_slice_to (n : Z) (v : val) : res val :=
  match v with
  | VStr s => Ok (VStr (Str.take n s))
  | VList l => Ok (VList (firstn (Z.to_nat n) l))
  | _ => raise TypeError ("'" +:+ type_name v +:+ "' object is not subscriptable")
  end.

(** [x in v] for a container from JSON *)
Definition py_contains (x v : val) : res bool :=
  match v with
  | VList l => Ok (py_in x l)
  | VDict d => _ ← check_hash x;
               Ok match x with VStr s => Dict.mem s d | _ => false end
  | VStr s => match x with
              | VStr t => Ok (Str.contains t s)
              | _ => raise TypeError ("'in <string>' requires string as left operand, not "
                                      +:+ type_name x)
              end
  | _ => raise TypeError ("argument of type '" +:+ type_name v +:+ "' is not iterable")
  end.

(** A value used as a string: concatenation, paths, subprocess arguments. *)
Definition expect_str (v : val) : res string :=
  match v with
  | VStr s => Ok s
  | _ => raise TypeError ("expected str, not " +:+ type_name v)
  end.

Definition expect_int (v : val) : res Z :=
  match as_int v with
  | Some z => Ok z
  | None => raise TypeError ("expected int, not " +:+ type_name v)
  end.

(** ** [int(v)] and [float(v)] *)

Definition strip_sign (s : string) : bool * string :=
  match s with
  | String c r => if Ascii.eqb c "-" then (true, r) else if Ascii.eqb c "+" then (false, r) else (false, s)
  | EmptyString => (false, s)
  end.

(** Digits, single underscores allowed between them. *)
Fixpoint int_digits (ok_underscore : bool) (acc : Z) (s : string) : option Z :=
  match s with
  | EmptyString => if ok_underscore then Some acc else None
  | String c r =>
      if Str.is_digit c then int_digits true (10 * acc + (Z.of_N (N_of_ascii c) - 48)) r
      else if Ascii.eqb c "_" && ok_underscore then int_digits false acc r
      else None
  end.

Definition parse_int (s : string) : option Z :=
  let (neg, r) := strip_sign (Str.strip s) in
  match int_digits false 0 r with
  | Some z => Some (if neg then - z else z)
  | None => None
  end.

Definition py_int (v : val) : res Z :=
  match v with
  | VInt z => Ok z
  | VBool b => Ok (Z.b2z b)
  | VFloat f => match f with
                | S754_nan => raise ValueError "cannot convert float NaN to integer"
                | S754_infinity _ => raise OverflowError "cannot convert float infinity to integer"
                | _ => Ok (default 0 (Flt.trunc f))
                end
  | VStr s => match parse_int s with
              | Some z => Ok z
              | None => raise ValueError ("invalid literal for int() with base 10: " +:+ repr_str s)
              end
  | _ => raise TypeError ("int() argument must be a string, a bytes-like object or a real number, not '"
                          +:+ type_name v +:+ "'")
  end.

(** [digits[.digits][e[+-]digits]], the part of [float]'s grammar JSON shares. *)
Definition parse_float (s : string) : option pyfloat :=
  let (neg, r) := strip_sign (Str.strip s) in
  let (mant, ex) := match Str.partition "e" (Str.lower r) with
                    | Some (m, e) => (m, Some e)
                    | None => (r, None)
                    end in
  let (ip, fp) := match Str.partition "." mant with Some (a, b) => (a, b) | None => (mant, "") end in
  let e := match ex with
           | None => Some 0
           | Some e => let (en, er) := strip_sign e in
                       match Str.parse_nat er with
                       | Some z => Some (if en : bool then - z else z)
                       | None => None
                       end
           end in
  match (if String.eqb (ip +:+ fp) "" then None else Str.digits_val 0 (ip +:+ fp)), e with
  | Some m, Some e =>
      let f := Flt.of_dec m (e - Z.of_nat (String.length fp)) in
      Some (if neg then SFopp f else f)
  | _, _ => None
  end.

Definition float_of_int (z : Z) : res pyfloat :=
  match Flt.of_Z z with
  | S754_infinity _ => raise OverflowError "int too large to convert to float"
  | f => Ok f
  end.

Definition py_float (v : val) : res pyfloat :=
  match v with
  | VFloat f => Ok f
  | VInt z => float_of_int z
  | VBool b => Ok (Flt.of_Z (Z.b2z b))
  | VStr s => match parse_float s with
              | Some f => Ok f
              | None => raise ValueError ("could not convert string to float: " +:+ repr_str s)
              end
  | _ => raise TypeError ("float() argument must be a string or a real number, not '"
                          +:+ type_name v +:+ "'")
  end.

(** [a + b] on numbers *)
Definition py_add (a b : val) : res val :=
  match as_int a, as_int b with
  | Some x, Some y => Ok (VInt (x + y))
  | _, _ =>
      match a, b with
      | VStr s, VStr t => Ok (VStr (s +:+ t))
      | VList l, VList m => Ok (VList (l ++ m))
      | _, _ =>
          if is_num a && is_num b
          then f ← py_float a; g ← py_float b; Ok (VFloat (Flt.add f g))
          else raise TypeError ("unsupported operand type(s) for +: '" +:+ type_name a
                                +:+ "' and '" +:+ type_name b +:+ "'")
      end
  end.

(** ** Building values *)

Definition VStrs (l : list string) : val := VList (map VStr l).
Definition opt_val {A} (f : A -> val) (o : option A) : val :=
  match o with Some a => f a | None => VNone end.

(** [v[k] = x] and [v.update(u)] on a dict held by value *)
Definition vset (k : string) (x v : val) : val :=
  match v with VDict d => VDict (Dict.set k x d) | _ => v end.
Definition vupdate (u : list (string * val)) (v : val) : val :=
  match v with VDict d => VDict (Dict.update u d) | _ => v end.

(** [v[k1]...[kn] = x] on nested dicts *)
Fixpoint vset_path (ks : list string) (x v : val) : val :=
  match ks with
  | [] => x
  | k :: r => match v with
              | VDict d => VDict (Dict.set k (vset_path r x (default VNone (Dict.lookup k d))) d)
              | _ => v
              end
  end.

(** [v[k] = x], where [v] may be no dict *)
Definition setitem (k : string) (x v : val) : res val :=
  match v with
  | VDict d => Ok (VDict (Dict.set k x d))
  | VList _ => raise TypeError "list indices must be integers or slices, not str"
  | _ => raise TypeError ("'" +:+ type_name v +:+ "' object does not support item assignment")
  end.

(** [int(s, 8)] on a plain string of octal digits, with or without [0o]. *)
Fixpoint octal_digits (acc : Z) (s : string) : option Z :=
  match s with
  | EmptyString => Some acc
  | String c r => let n := Z.of_N (N_of_ascii c) - 48 in
                  if (0 <=? n) && (n <? 8) then octal_digits (8 * acc + n) r else None
  end.
Definition py_octal (v : val) : res Z :=
  match v with
  | VStr s =>
      let t := Str.removeprefix "0o" s in
      match (if String.eqb t "" then None else octal_digits 0 t) with
      | Some z => Ok z
      | None => raise ValueError ("invalid literal for int() with base 8: " +:+ repr_str s)
      end
  | _ => raise TypeError "int() can't convert non-string with explicit base"
  end.

(** [str(part)] of a JSON pointer's parts, joined by dots. *)
Definition dotted (p : list val) : string := Str.join "." (map py_str p).

Example py_eq_cases :
  map (λ '(a, b), py_eq a b)
    [(VBool true, VInt 1); (VInt 1, VFloat (Flt.of_Z 1)); (VStr "1", VInt 1);
     (VDict [("a", VInt 1); ("b", VNone)], VDict [("b", VNone); ("a", VBool true)]);
     (VList [VInt 1], VList [VInt 1; VInt 2]); (VNone, VBool false)]
  = [true; true; false; true; false; false].
Proof. vm_compute. reflexivity. Qed.

Example repr_case :
  repr (VDict [("it's", VList [VNone; VBool true; VFloat (Flt.of_dec 15 (-1))]); ("x", VStr "a\b")])
  = "{" +:+ String dquote "it's" +:+ String dquote ": [None, True, 1.5], 'x': 'a\\b'}".
Proof. vm_compute. reflexivity. Qed.

(** ** Lemmas on sorting and membership *)

Lemma py_sorted_nil l : py_sorted l = Ok [] <-> l = [].
Proof.
  split; [|by intros ->]. intros H%py_sorted_by_perm. symmetry in H. by apply Permutation_nil_r in H.
Qed.

Lemma py_lt_str s t : py_lt (VStr s) (VStr t) = Ok (Str.ltb s t).
Proof. done. Qed.

(** Sorting strings raises nothing. *)
Lemma sort_by_some {A} (lt : A -> A -> option bool) (P : A -> Prop) l :
  (forall a b, P a -> P b -> is_Some (lt a b)) -> Forall P l -> exists l', sort_by lt l = Some l'.
Proof.
  intros Hlt. induction l as [|x r IH]; intros Hl; simpl; [by eexists|].
  apply Forall_cons in Hl as [Hx Hr]. destruct (IH Hr) as [r' Er]. rewrite Er.
  assert (Forall P r') as Hr' by (apply sort_by_perm in Er; by rewrite Er).
  clear IH Er Hr r. induction r' as [|y r IH]; simpl; [by eexists|].
  apply Forall_cons in Hr' as [Hy Hr]. destruct (Hlt y x Hy Hx) as [b ->].
  destruct b; [|by eexists]. destruct (IH Hr) as [l' ->]. by eexists.
Qed.

Lemma py_sorted_strings l : exists l', py_sorted (map VStr l) = Ok (map VStr l') /\ l' ≡ₚ l.
Proof.
  unfold py_sorted, py_sorted_by.
  edestruct (sort_by_some (lt_option (λ a b, py_lt (id a) (id b))) (λ v, exists s, v = VStr s)
    (map VStr l)) as [l' E].
  - intros a b [s ->] [t ->]. simpl. by eexists.
  - apply Forall_forall. intros v Hv. apply list_elem_of_In, in_map_iff in Hv as (s & <- & _). by eexists.
  - rewrite E. apply sort_by_perm in E. apply Permutation_map_inv in E as (l2 & -> & Hp).
    by exists l2.
Qed.

Lemma py_in_strings v l : py_in v (map VStr l) = true <-> exists s, v = VStr s /\ s ∈ l.
Proof.
  unfold py_in. rewrite existsb_exists. split.
  - intros (x & Hx & Hv). apply in_map_iff in Hx as (s & <- & Hs). apply py_eq_str_r in Hv.
    exists s. split; [done|by apply list_elem_of_In].
  - intros (s & -> & Hs). exists (VStr s). split.
    + apply in_map, list_elem_of_In, Hs.
    + by apply py_eq_str_r.
Qed.

Lemma filter_nil_iff {A} (f : A -> bool) l :
  List.filter f l = [] <-> Forall (λ x, f x = false) l.
Proof.
  induction l as [|x r IH]; simpl; [done|]. rewrite Forall_cons, <-IH.
  destruct (f x); split; try done; by intros [].
Qed.

Lemma dedup_by_In {A} (eqb : A -> A -> bool) l : forall seen x,
  x ∈ dedup_by eqb seen l -> x ∈ l.
Proof.
  induction l as [|y r IH]; intros seen x; simpl; [done|].
  destruct (inb eqb y seen); rewrite !elem_of_cons; [eauto|]. intros [->|?]; eauto.
Qed.

(** Every member of a list is kept, or equal to one that is kept or was seen. *)
Lemma dedup_by_covers {A} (eqb : A -> A -> bool) l : forall seen x,
  x ∈ l -> x ∈ dedup_by eqb seen l \/
           exists y, (y ∈ dedup_by eqb seen l \/ y ∈ seen) /\ eqb x y = true.
Proof.
  induction l as [|z r IH]; intros seen x; simpl; [by intros ?%not_elem_of_nil|].
  rewrite elem_of_cons. intros [->|Hx].
  - destruct (inb eqb z seen) eqn:E; [right|left; by left].
    unfold inb in E. apply existsb_exists in E as (y & Hy & Hz).
    exists y. split; [right; by apply list_elem_of_In|done].
  - destruct (inb eqb z seen); [by apply IH|].
    destruct (IH (z :: seen) x Hx) as [?|(y & [Hy|Hy] & Hxy)]; [left; by right|right..].
    + exists y. split; [left; by right|done].
    + exists y. apply elem_of_cons in Hy as [->|Hy]; (split; [|done]); [left; by left|by right].
Qed.

Lemma dedup_by_nil {A} (eqb : A -> A -> bool) l : dedup_by eqb [] l = [] -> l = [].
Proof. by destruct l. Qed.
