(* ===== verification/PyTime.v ===== *)
(** * Instants and ISO 8601 text

    An aware [datetime] in UTC is its count of microseconds since
    1970-01-01T00:00:00Z; a parsed one carries its wall clock and its offset.
    [fromisoformat] follows CPython 3.11 (the version the workflows pin) on the
    calendar formats, extended and basic; ISO week dates are rejected here.
    [timedelta.total_seconds()] is the float nearest to the quotient, as in
    CPython, and [int] truncates that float. *)

From Stdlib Require Import Ascii.
From S2P Require Import Prelude PyFloat PyMonad PyValue.

Module Time.

Definition us_per_s : Z := 1000000.
Definition us_per_day : Z := 86400 * us_per_s.

(** ** The proleptic Gregorian calendar *)

Definition days_from_civil (y m d : Z) : Z :=
  let y' := if m <=? 2 then y - 1 else y in
  let era := y' / 400 in
  let yoe := y' mod 400 in
  let mp := (m + 9) mod 12 in
  let doy := (153 * mp + 2) / 5 + d - 1 in
  let doe := yoe * 365 + yoe / 4 - yoe / 100 + doy in
  era * 146097 + doe - 719468.

(** Year (March based), month and day of a day of the 400-year era. *)
Definition civil_of_doe (doe : Z) : Z * Z * Z :=
  let yoe := (doe - doe / 1460 + doe / 36524 - doe / 146096) / 365 in
  let doy := doe - (365 * yoe + yoe / 4 - yoe / 100) in
  let mp := (5 * doy + 2) / 153 in
  (yoe, if mp <? 10 then mp + 3 else mp - 9, doy - (153 * mp + 2) / 5 + 1).

Definition civil_from_days (days : Z) : Z * Z * Z :=
  let z := days + 719468 in
  let era := z / 146097 in
  let '(yoe, m, d) := civil_of_doe (z mod 146097) in
  (yoe + era * 400 + (if m <=? 2 then 1 else 0), m, d).

Definition leap (y : Z) : bool :=
  (y mod 4 =? 0) && (negb (y mod 100 =? 0) || (y mod 400 =? 0)).

Definition days_in_month (y m : Z) : Z :=
  if m =? 2 then (if leap y then 29 else 28)
  else if (m =? 4) || (m =? 6) || (m =? 9) || (m =? 11) then 30 else 31.

(** 0001-01-01 and the day after 9999-12-31. *)
Definition min_us : Z := days_from_civil 1 1 1 * us_per_day.
Definition max_us : Z := (days_from_civil 9999 12 31 + 1) * us_per_day.

(** ** Fixed-width decimals *)

Definition digit_char (n : Z) : ascii := ascii_of_N (Z.to_N (48 + n)).

Fixpoint digits (w : nat) (n : Z) : string :=
  match w with
  | O => ""
  | S k => String (digit_char (n / 10 ^ Z.of_nat k mod 10)) (digits k n)
  end.

(** Reads exactly [w] digits. *)
Fixpoint scan_go (w : nat) (acc : Z) (s : string) : option (Z * string) :=
  match w with
  | O => Some (acc, s)
  | S k => match s with
           | String c r =>
               if Str.is_digit c
               then scan_go k (10 * acc + (Z.of_N (N_of_ascii c) - 48)) r else None
           | EmptyString => None
           end
  end.
Definition scan (w : nat) (s : string) : option (Z * string) := scan_go w 0 s.

(** ** [datetime.fromisoformat] *)

Record datetime := DT { wall : Z; offset : option Z }.

Definition expect (c : ascii) (s : string) : option string :=
  match s with
  | String a r => if Ascii.eqb a c then Some r else None
  | EmptyString => None
  end.

(** The date, and what follows it. *)
Definition scan_date (s : string) : option (Z * Z * Z * string) :=
  '(y, r) ← scan 4 s;
  match expect "-" r with
  | Some r1 => '(m, r2) ← scan 2 r1; r3 ← expect "-" r2; '(d, r4) ← scan 2 r3; Some (y, m, d, r4)
  | None => '(m, r2) ← scan 2 r; '(d, r4) ← scan 2 r2; Some (y, m, d, r4)
  end.

Fixpoint count_digits (s : string) : nat :=
  match s with
  | String c r => if Str.is_digit c then S (count_digits r) else O
  | EmptyString => O
  end.

(** The fraction: its first six digits count, the others must be digits. *)
Definition scan_fraction (s : string) : option Z :=
  let n := String.length s in
  let k := Nat.min n 6 in
  if Nat.eqb (count_digits s) n && negb (Nat.eqb n 0) then
    '(f, _) ← scan k s; Some (f * 10 ^ (6 - Z.of_nat k))
  else None.

Definition scan_tail (s : string) : option Z :=
  match s with
  | EmptyString => Some 0
  | String c r => if Ascii.eqb c "." || Ascii.eqb c "," then scan_fraction r else None
  end.

(** [hh[[:]mm[[:]ss[.f]]]]: hour, minute, second, microsecond. *)
Definition scan_hms (s : string) : option (Z * Z * Z * Z) :=
  '(h, r) ← scan 2 s;
  let sep := match expect ":" r with Some _ => true | None => false end in
  let next (r : string) := if sep then expect ":" r else Some r in
  match r with
  | EmptyString => Some (h, 0, 0, 0)
  | _ =>
      r1 ← next r; '(m, r2) ← scan 2 r1;
      match r2 with
      | EmptyString => Some (h, m, 0, 0)
      | _ => r3 ← next r2; '(s, r4) ← scan 2 r3; us ← scan_tail r4; Some (h, m, s, us)
      end
  end.

(** Splits the text of a time at the sign of its offset. *)
Fixpoint split_tz (s : string) : string * option (ascii * string) :=
  match s with
  | EmptyString => ("", None)
  | String c r =>
      if Ascii.eqb c "+" || Ascii.eqb c "-" || Ascii.eqb c "Z" then ("", Some (c, r))
      else let (a, t) := split_tz r in (String c a, t)
  end.

Definition hms_us (h m s us : Z) : Z := ((h * 60 + m) * 60 + s) * us_per_s + us.

Definition scan_tz (t : option (ascii * string)) : option (option Z) :=
  match t with
  | None => Some None
  | Some (c, r) =>
      if Ascii.eqb c "Z" then match r with EmptyString => Some (Some 0) | _ => None end
      else '(h, m, s, us) ← scan_hms r;
           Some (Some (if Ascii.eqb c "-" then - hms_us h m s us else hms_us h m s us))
  end.

Definition scan_time (s : string) : option (Z * Z * Z * Z * option Z) :=
  let (a, t) := split_tz s in
  '(h, m, sec, us) ← scan_hms a; off ← scan_tz t; Some (h, m, sec, us, off).

Definition range (b : bool) (msg : string) : res unit := if b then Ok tt else raise ValueError msg.

Definition fromisoformat (s : string) : res datetime :=
  let bad := raise ValueError ("Invalid isoformat string: " +:+ repr_str s) in
  match scan_date s with
  | None => bad
  | Some (y, mo, d, r) =>
      match (match r with
             | EmptyString => Some (0, 0, 0, 0, None)
             | _ => scan_time (Str.drop 1 r)
             end) with
      | None => bad
      | Some (h, mi, sec, us, off) =>
          _ ← range (1 <=? y) ("year " +:+ Str.of_Z y +:+ " is out of range");
          _ ← range ((1 <=? mo) && (mo <=? 12)) "month must be in 1..12";
          _ ← range ((1 <=? d) && (d <=? days_in_month y mo)) "day is out of range for month";
          _ ← range (h <=? 23) "hour must be in 0..23";
          _ ← range (mi <=? 59) "minute must be in 0..59";
          _ ← range (sec <=? 59) "second must be in 0..59";
          _ ← range (Z.abs (default 0 off) <? us_per_day)
                    "offset must be a timedelta strictly between -timedelta(hours=24) and timedelta(hours=24).";
          Ok (DT (days_from_civil y mo d * us_per_day + hms_us h mi sec us) off)
      end
  end.

(** [d.astimezone(timezone.utc)]; [local] is the host's offset, used for a
    datetime without one. *)
Definition to_utc (local : Z) (d : datetime) : res Z :=
  let us := wall d - default local (offset d) in
  if (min_us <=? us) && (us <? max_us) then Ok us
  else raise OverflowError "date value out of range".

(** ** [isoformat] of a UTC instant, with the [Z] suffix the code writes *)

Definition date_text (us : Z) : string :=
  let '(y, m, d) := civil_from_days (us / us_per_day) in
  digits 4 y +:+ "-" +:+ digits 2 m +:+ "-" +:+ digits 2 d.

Definition hms_text (us : Z) : string :=
  let t := us mod us_per_day / us_per_s in
  digits 2 (t / 3600) +:+ ":" +:+ digits 2 (t / 60 mod 60) +:+ ":" +:+ digits 2 (t mod 60).

Definition fraction_text (us : Z) : string :=
  let f := us mod us_per_s in if f =? 0 then "" else "." +:+ digits 6 f.

(** [.isoformat().replace("+00:00", "Z")] *)
Definition iso_z (us : Z) : string :=
  date_text us +:+ "T" +:+ hms_text us +:+ fraction_text us +:+ "Z".

(** [.isoformat(timespec="seconds").replace("+00:00", "Z")] *)
Definition iso_z_seconds (us : Z) : string :=
  date_text us +:+ "T" +:+ hms_text us +:+ "Z".

(** [delta.total_seconds()] of a delta in microseconds, and its [int()]: the quotient
    is never infinite nor a NaN. *)
Definition total_seconds (us : Z) : pyfloat := Flt.of_ratio us 1000000.
Definition int_seconds (us : Z) : Z := default 0 (Flt.trunc (total_seconds us)).

(** ** Lemmas *)

Lemma digit_char_val n : 0 <= n < 10 ->
  Str.is_digit (digit_char n) = true /\ Z.of_N (N_of_ascii (digit_char n)) - 48 = n.
Proof.
  intros H. assert (n ∈ [0;1;2;3;4;5;6;7;8;9]) as Hin.
  { repeat (rewrite elem_of_cons). lia. }
  repeat (apply elem_of_cons in Hin as [->|Hin]; [by vm_compute|]). set_solver.
Qed.

Lemma scan_go_digits w : forall n acc r, 0 <= n < 10 ^ Z.of_nat w ->
  scan_go w acc (digits w n +:+ r) = Some (acc * 10 ^ Z.of_nat w + n, r).
Proof.
  enough (forall n acc r, 0 <= n ->
    scan_go w acc (digits w n +:+ r) =
    Some (acc * 10 ^ Z.of_nat w + n mod 10 ^ Z.of_nat w, r)) as H.
  { intros n acc r Hn. rewrite H by lia. by rewrite (Z.mod_small n) by lia. }
  induction w as [|k IH]; intros n acc r Hn; cbn [digits scan_go].
  - simpl. rewrite Z.mod_1_r. do 2 f_equal. lia.
  - rewrite Str.app_cons. set (q := n / 10 ^ Z.of_nat k).
    destruct (digit_char_val (q mod 10)) as [-> ->]; [by apply Z.mod_pos_bound|].
    rewrite IH by done. do 2 f_equal. rewrite Nat2Z.inj_succ, Z.pow_succ_r by lia.
    rewrite (Z.mul_comm 10 (10 ^ _)), Z.rem_mul_r by (try lia; apply Z.pow_nonzero; lia).
    fold q. ring.
Qed.

Lemma scan_digits w n r : 0 <= n < 10 ^ Z.of_nat w ->
  scan w (digits w n +:+ r) = Some (n, r).
Proof. intros H. unfold scan. rewrite scan_go_digits by done. do 2 f_equal. Qed.

(** The days of an era: its 400 years and the 366 days of a year are checked
    one by one, and the year of a day is monotone in between. *)
Definition year_start (n : Z) : Z := if n =? 400 then 146097 else 365 * n + n / 4 - n / 100.
Definition yoe_num (doe : Z) : Z := doe - doe / 1460 + doe / 36524 - doe / 146096.

Definition year_ok (n : Z) : bool :=
  let s := year_start n in
  let e := year_start (n + 1) - 1 in
  (yoe_num s / 365 =? n) && (yoe_num e / 365 =? n) && (0 <=? s) && (e - s <=? 365) &&
  (s =? 365 * n + n / 4 - n / 100) && ((e - s <? 365) || leap (n + 1)).

Definition doy_ok (doy : Z) : bool :=
  let mp := (5 * doy + 2) / 153 in
  let m := if mp <? 10 then mp + 3 else mp - 9 in
  let d := doy - (153 * mp + 2) / 5 + 1 in
  (1 <=? m) && (m <=? 12) && (1 <=? d) && (((m + 9) mod 12) =? mp) &&
  (d <=? if m =? 2 then (if doy <? 365 then 28 else 29)
         else if (m =? 4) || (m =? 6) || (m =? 9) || (m =? 11) then 30 else 31).

Fixpoint all_below (f : Z -> bool) (n : nat) (z : Z) : bool :=
  match n with O => true | S k => f z && all_below f k (z + 1) end.

Lemma all_below_spec f n : forall z, all_below f n z = true ->
  forall x, z <= x < z + Z.of_nat n -> f x = true.
Proof.
  induction n as [|k IH]; intros z H x Hx; simpl in *; [lia|].
  apply andb_prop in H as [Hz H]. destruct (decide (x = z)) as [->|]; [done|].
  apply (IH (z + 1)); [done|lia].
Qed.

Lemma year_ok_all n : 0 <= n < 400 -> year_ok n = true.
Proof. intros H. apply (all_below_spec year_ok 400 0); [vm_compute; reflexivity|lia]. Qed.

Lemma doy_ok_all n : 0 <= n < 366 -> doy_ok n = true.
Proof. intros H. apply (all_below_spec doy_ok 366 0); [vm_compute; reflexivity|lia]. Qed.

Lemma yoe_num_step a : 0 <= a < 146095 -> yoe_num a <= yoe_num (a + 1).
Proof.
  intros H. unfold yoe_num. rewrite !(Z.div_small _ 146096) by lia.
  pose proof (Z.div_mod a 1460 ltac:(lia)). pose proof (Z.mod_pos_bound a 1460 ltac:(lia)).
  pose proof (Z.div_mod (a + 1) 1460 ltac:(lia)). pose proof (Z.mod_pos_bound (a + 1) 1460 ltac:(lia)).
  pose proof (Z.div_le_mono a (a + 1) 36524 ltac:(lia) ltac:(lia)). lia.
Qed.

Lemma yoe_num_mono a b : 0 <= a <= b -> b <= 146095 -> yoe_num a <= yoe_num b.
Proof.
  intros H Hb. replace b with (a + Z.of_nat (Z.to_nat (b - a))) in * by lia.
  generalize dependent (Z.to_nat (b - a)). intros n. induction n as [|n IH]; intros H Hb.
  - replace (a + Z.of_nat 0) with a by lia. lia.
  - etransitivity; [apply IH; lia|].
    replace (a + Z.of_nat (S n)) with (a + Z.of_nat n + 1) by lia. apply yoe_num_step. lia.
Qed.

Lemma year_exists n doe : (n <= 400)%nat -> 0 <= doe < year_start (Z.of_nat n) ->
  exists y, 0 <= y < Z.of_nat n /\ year_start y <= doe < year_start (y + 1).
Proof.
  induction n as [|n IH]; intros Hn Hd; [change (0 <= doe < 0) in Hd; lia|].
  destruct (decide (doe < year_start (Z.of_nat n))) as [Hlt|Hge].
  - destruct IH as (y & ? & ?); [lia|lia|]. exists y. lia.
  - exists (Z.of_nat n). rewrite Nat2Z.inj_succ, <-Z.add_1_r in *. lia.
Qed.

Lemma yoe_of_doe doe : 0 <= doe < 146097 ->
  exists y, 0 <= y < 400 /\ yoe_num doe / 365 = y /\
    year_start y <= doe < year_start (y + 1).
Proof.
  intros Hd. destruct (year_exists 400 doe) as (y & Hy & Hs); [lia|done|].
  change (Z.of_nat 400) with 400 in Hy. exists y. split; [done|]. split; [|done].
  pose proof (year_ok_all y Hy) as Hok. unfold year_ok in Hok. bool_to_prop.
  destruct (decide (doe = 146096)) as [->|].
  - assert (y = 399) as ->; [|done]. destruct (decide (y = 399)); [done|].
    assert (year_start (y + 1) <= 146096); [|lia]. unfold year_start. case_match; bool_to_prop; [lia|].
    pose proof (Z.div_mod (y + 1) 4 ltac:(lia)). pose proof (Z.mod_pos_bound (y + 1) 4 ltac:(lia)).
    pose proof (Z.div_pos (y + 1) 100 ltac:(lia) ltac:(lia)). lia.
  - assert (yoe_num (year_start y) <= yoe_num doe) by (apply yoe_num_mono; lia).
    assert (y = 399 \/ yoe_num doe <= yoe_num (year_start (y + 1) - 1)) as [->|].
    { destruct (decide (y = 399)); [by left|right]. apply yoe_num_mono; [lia|].
      unfold year_start. case_match; bool_to_prop; [lia|].
      pose proof (Z.div_mod (y + 1) 4 ltac:(lia)). pose proof (Z.mod_pos_bound (y + 1) 4 ltac:(lia)).
      pose proof (Z.div_pos (y + 1) 100 ltac:(lia) ltac:(lia)). lia. }
    + assert (yoe_num doe <= yoe_num 146095) by (apply yoe_num_mono; lia).
      change (yoe_num (year_start 399)) with 145635 in *. change (yoe_num 146095) with 145998 in *.
      apply Z.le_antisymm; [apply Zlt_succ_le, Z.div_lt_upper_bound|apply Z.div_le_lower_bound]; lia.
    + apply Z.le_antisymm; [|by etransitivity; [|apply Z.div_le_mono; [lia|eassumption]]; lia].
      etransitivity; [apply Z.div_le_mono; [lia|eassumption]|]; lia.
Qed.

Definition doe_spec (doe : Z) (ymd : Z * Z * Z) : Prop :=
  let '(yoe, m, d) := ymd in
  let mp := (m + 9) mod 12 in
  0 <= yoe < 400 /\ 1 <= m <= 12 /\ 1 <= d <= days_in_month (yoe + (if m <=? 2 then 1 else 0)) m /\
  yoe * 365 + yoe / 4 - yoe / 100 + ((153 * mp + 2) / 5 + d - 1) = doe.

Lemma doe_ok_all doe : 0 <= doe < 146097 -> doe_spec doe (civil_of_doe doe).
Proof.
  intros Hd. destruct (yoe_of_doe doe Hd) as (y & Hy & Hyn & Hs).
  pose proof (year_ok_all y Hy) as Hok. unfold year_ok in Hok.
  unfold civil_of_doe. fold (yoe_num doe). rewrite Hyn.
  apply andb_prop in Hok as [Hok Hleap]. bool_to_prop.
  set (doy := doe - (365 * y + y / 4 - y / 100)).
  assert (0 <= doy < 366) as Hdoy by (unfold doy; lia).
  pose proof (doy_ok_all doy Hdoy) as Hdk. unfold doy_ok in Hdk.
  unfold doe_spec. set (mp := (5 * doy + 2) / 153) in *.
  set (m := if mp <? 10 then mp + 3 else mp - 9) in *. bool_to_prop.
  match goal with H : (m + 9) mod 12 = mp |- _ => rewrite H end.
  repeat split; try lia.
  unfold days_in_month. destruct (m =? 2) eqn:Em; [|done].
  bool_to_prop. rewrite (proj2 (Z.leb_le m 2)) by lia.
  destruct (doy <? 365) eqn:E; bool_to_prop; [case_match; lia|].
  apply orb_prop in Hleap as [Hl|Hl]; [bool_to_prop; unfold doy in *; lia|by rewrite Hl].
Qed.

Lemma days_in_month_era y m k : days_in_month (y + k * 400) m = days_in_month y m.
Proof.
  unfold days_in_month, leap.
  replace ((y + k * 400) mod 4) with (y mod 4)
    by (replace (k * 400) with (k * 100 * 4) by lia; by rewrite Z.mod_add).
  replace ((y + k * 400) mod 100) with (y mod 100)
    by (replace (k * 400) with (k * 4 * 100) by lia; by rewrite Z.mod_add).
  by rewrite Z.mod_add.
Qed.

Lemma civil_roundtrip days y m d : civil_from_days days = (y, m, d) ->
  days_from_civil y m d = days /\ 1 <= m <= 12 /\ 1 <= d <= days_in_month y m.
Proof.
  unfold civil_from_days. set (z := days + 719468).
  pose proof (doe_ok_all (z mod 146097) ltac:(by apply Z.mod_pos_bound)) as Hok.
  unfold doe_spec in Hok. destruct (civil_of_doe (z mod 146097)) as [[yoe m'] d'].
  intros [= <- <- <-]. destr_and. unfold days_from_civil.
  set (b := if m' <=? 2 then 1 else 0) in *.
  replace (if m' <=? 2 then yoe + z / 146097 * 400 + b - 1 else yoe + z / 146097 * 400 + b)
    with (yoe + z / 146097 * 400) by (unfold b; case_match; lia).
  rewrite Z.div_add, Z.mod_add, Z.div_small, (Z.mod_small yoe) by lia.
  replace (yoe + z / 146097 * 400 + b) with (yoe + b + z / 146097 * 400) by lia.
  rewrite days_in_month_era. pose proof (Z.div_mod z 146097 ltac:(lia)). lia.
Qed.

Lemma civil_year days y m d : civil_from_days days = (y, m, d) ->
  days_from_civil 1 1 1 <= days <= days_from_civil 9999 12 31 -> 1 <= y < 10000.
Proof.
  unfold civil_from_days. set (z := days + 719468).
  pose proof (doe_ok_all (z mod 146097) ltac:(by apply Z.mod_pos_bound)) as Hok.
  unfold doe_spec in Hok. destruct (civil_of_doe (z mod 146097)) as [[yoe m'] d'].
  intros [= <- <- <-]. destr_and. intros Hd.
  assert (306 <= z <= 3652364) as Hz by (unfold z; change (-719162 <= days <= 2932896) in Hd; lia).
  pose proof (Z.div_mod z 146097 ltac:(lia)) as Hdm.
  pose proof (Z.mod_pos_bound z 146097 ltac:(lia)).
  assert (0 <= z / 146097 <= 24) by (split; [apply Z.div_pos; lia|apply Zlt_succ_le, Z.div_lt_upper_bound; lia]).
  set (e := z / 146097) in *. set (r := z mod 146097) in *.
  set (mp := (m' + 9) mod 12) in *.
  assert ((m' <=? 2) = true -> 10 <= mp) as Hm.
  { intros. bool_to_prop. unfold mp. assert (m' = 1 \/ m' = 2) as [-> | ->] by lia; by vm_compute. }
  assert ((m' <=? 2) = false -> mp < 10) as Hm'.
  { intros. bool_to_prop. unfold mp.
    replace (m' + 9) with (m' - 3 + 1 * 12) by lia. rewrite Z.mod_add, Z.mod_small by lia. lia. }
  assert (153 * 10 <= 153 * mp -> 306 <= (153 * mp + 2) / 5)
    by (intros; apply Z.div_le_lower_bound; lia).
  assert (0 <= mp) by (apply Z.mod_pos_bound; lia).
  assert (0 <= (153 * mp + 2) / 5) by (apply Z.div_pos; lia).
  assert (0 <= yoe / 4 /\ yoe / 100 <= 3 /\ yoe / 100 <= yoe / 4 /\ 0 <= yoe / 100) as (?&?&?&?).
  { pose proof (Z.div_mod yoe 4 ltac:(lia)). pose proof (Z.mod_pos_bound yoe 4 ltac:(lia)).
    pose proof (Z.div_mod yoe 100 ltac:(lia)). pose proof (Z.mod_pos_bound yoe 100 ltac:(lia)). lia. }
  destruct (m' <=? 2) eqn:Em; [specialize (Hm eq_refl)|specialize (Hm' eq_refl)]; split; try lia.
  - (* January and February of year 10000 are past the last day *)
    assert (e = 24 -> yoe <= 398); [|lia]. intros ->.
    destruct (decide (yoe = 399)) as [->|]; [|lia].
    change (399 / 4) with 99 in *. change (399 / 100) with 3 in *. lia.
  - destruct (decide (e = 0)) as [->|]; [|lia]. destruct (decide (yoe = 0)) as [->|]; [|lia].
    change (0 / 4) with 0 in *. change (0 / 100) with 0 in *. bool_to_prop.
    assert (mp = m' - 3) by (unfold mp; replace (m' + 9) with (m' - 3 + 1 * 12) by lia;
      rewrite Z.mod_add, Z.mod_small by lia; lia).
    assert ((153 * mp + 2) / 5 <= 275) by (apply Zlt_succ_le, Z.div_lt_upper_bound; lia).
    assert (d' <= 31) by (unfold days_in_month in *; repeat case_match; lia). lia.
Qed.
(** ** [isoformat] and [fromisoformat] are inverse *)

Lemma digit_char_props n : 0 <= n < 10 ->
  Str.is_cont (digit_char n) = false /\ Ascii.eqb (digit_char n) "+" = false /\
  Ascii.eqb (digit_char n) "-" = false /\ Ascii.eqb (digit_char n) "Z" = false.
Proof.
  intros H. assert (n ∈ [0;1;2;3;4;5;6;7;8;9]) as Hin.
  { repeat (rewrite elem_of_cons). lia. }
  repeat (apply elem_of_cons in Hin as [->|Hin]; [by vm_compute|]). set_solver.
Qed.

Lemma drop_digits w n r : Str.drop 0 (digits (S w) n +:+ r) = digits (S w) n +:+ r.
Proof.
  cbn [digits]. rewrite Str.app_cons. cbn [Str.drop].
  by destruct (digit_char_props (n / 10 ^ Z.of_nat w mod 10)) as [-> _]; [apply Z.mod_pos_bound|].
Qed.

Lemma split_tz_digits w : forall n r,
  split_tz (digits w n +:+ r) = let (a, t) := split_tz r in (digits w n +:+ a, t).
Proof.
  induction w as [|k IH]; intros n r; cbn [digits].
  - rewrite Str.app_nil_l. destruct (split_tz r) as [a t]. by rewrite Str.app_nil_l.
  - rewrite Str.app_cons. cbn [split_tz].
    destruct (digit_char_props (n / 10 ^ Z.of_nat k mod 10)) as (_ & -> & -> & ->); [by apply Z.mod_pos_bound|].
    cbn [orb]. rewrite IH. destruct (split_tz r) as [a t]. by rewrite Str.app_cons.
Qed.

Lemma length_digits w n : String.length (digits w n) = w.
Proof. induction w as [|k IH]; cbn; [done|]. by rewrite IH. Qed.

Lemma count_digits_digits w n : count_digits (digits w n) = w.
Proof.
  induction w as [|k IH]; cbn [digits count_digits]; [done|].
  destruct (digit_char_val (n / 10 ^ Z.of_nat k mod 10)) as [-> _]; [by apply Z.mod_pos_bound|].
  by rewrite IH.
Qed.

Lemma scan_fraction_digits f : 0 <= f < us_per_s -> scan_fraction (digits 6 f) = Some f.
Proof.
  intros Hf. unfold scan_fraction. rewrite length_digits, count_digits_digits.
  cbn [Nat.eqb Nat.min negb andb]. rewrite <-(Str.app_nil_r (digits 6 f)), scan_digits by done.
  simpl. f_equal. lia.
Qed.

Lemma scan_hms_text us frac :
  scan_hms (hms_text us +:+ frac) =
  let t := us mod us_per_day / us_per_s in
  match frac with
  | EmptyString => Some (t / 3600, t / 60 mod 60, t mod 60, 0)
  | _ => f ← scan_tail frac; Some (t / 3600, t / 60 mod 60, t mod 60, f)
  end.
Proof.
  unfold hms_text, scan_hms. cbv zeta. set (t := us mod us_per_day / us_per_s).
  assert (0 <= t < 86400) as Ht.
  { unfold t. pose proof (Z.mod_pos_bound us us_per_day ltac:(done)).
    split; [apply Z.div_pos; [lia|done]|apply Z.div_lt_upper_bound; [done|]]. unfold us_per_day in *. lia. }
  assert (0 <= t / 3600 < 10 ^ Z.of_nat 2).
  { split; [apply Z.div_pos; lia|apply Z.div_lt_upper_bound; simpl; lia]. }
  pose proof (Z.mod_pos_bound (t / 60) 60 ltac:(done)). pose proof (Z.mod_pos_bound t 60 ltac:(done)).
  rewrite !Str.app_assoc, scan_digits by done. cbn [mbind option_bind].
  rewrite ?Str.app_char. cbn [expect Ascii.eqb Bool.eqb mbind option_bind].
  rewrite scan_digits by (simpl; lia). cbn [mbind option_bind expect Ascii.eqb Bool.eqb].
  rewrite scan_digits by (simpl; lia). cbn [mbind option_bind]. by destruct frac.
Qed.

Lemma us_split us : us / us_per_day * us_per_day +
  hms_us (us mod us_per_day / us_per_s / 3600) (us mod us_per_day / us_per_s / 60 mod 60)
         (us mod us_per_day / us_per_s mod 60) (us mod us_per_s) = us.
Proof.
  set (t := us mod us_per_day / us_per_s). unfold hms_us.
  assert ((t / 3600 * 60 + t / 60 mod 60) * 60 + t mod 60 = t) as ->.
  { pose proof (Z.div_mod t 60 ltac:(done)). pose proof (Z.div_mod (t / 60) 60 ltac:(done)).
    rewrite Z.div_div in * by done. change (60 * 60) with 3600 in *. lia. }
  unfold t. pose proof (Z.div_mod us us_per_day ltac:(done)).
  pose proof (Z.div_mod (us mod us_per_day) us_per_s ltac:(done)).
  assert (us mod us_per_day mod us_per_s = us mod us_per_s); [|lia].
  unfold us_per_day. rewrite Z.mul_comm. rewrite Z.rem_mul_r by done.
  rewrite Z.mul_comm, Z.mod_add by done. by apply Z.mod_mod.
Qed.

(** The text of an instant, without its offset. *)
Definition iso_body (us : Z) : string := date_text us +:+ "T" +:+ hms_text us +:+ fraction_text us.

Lemma iso_z_body us : iso_z us = iso_body us +:+ "Z".
Proof. unfold iso_z, iso_body. by rewrite !Str.app_assoc. Qed.

Lemma fromisoformat_body us : min_us <= us < max_us ->
  fromisoformat (iso_body us +:+ "+00:00") = Ok (DT us (Some 0)).
Proof.
  intros Hus. unfold fromisoformat. generalize (raise (A:=datetime) ValueError ("Invalid isoformat string: " +:+
    repr_str (iso_body us +:+ "+00:00"))). intros bad. unfold iso_body, date_text.
  destruct (civil_from_days (us / us_per_day)) as [[y m] d] eqn:Ec.
  pose proof (civil_roundtrip _ _ _ _ Ec) as (Hd & Hm & Hdm).
  assert (1 <= y < 10000) as Hy.
  { eapply civil_year; [exact Ec|]. unfold min_us, max_us in Hus.
    split; [apply Z.div_le_lower_bound; [done|]|apply Zlt_succ_le, Z.div_lt_upper_bound; [done|]]; lia. }
  assert (days_in_month y m <= 31) by (unfold days_in_month; repeat case_match; lia).
  rewrite !Str.app_assoc. unfold scan_date.
  rewrite scan_digits by (simpl; lia). cbn [mbind option_bind].
  rewrite ?Str.app_char. cbn [expect Ascii.eqb Bool.eqb].
  rewrite scan_digits by (simpl; lia). cbn [mbind option_bind expect Ascii.eqb Bool.eqb].
  rewrite scan_digits by (simpl; lia). cbn [mbind option_bind]. cbn [Str.drop Str.is_cont].
  replace (Str.drop (1 - 1) (hms_text us +:+ fraction_text us +:+ "+00:00"))
    with (hms_text us +:+ fraction_text us +:+ "+00:00")
    by (unfold hms_text; by rewrite !Str.app_assoc, drop_digits).
  change (if Str.is_cont "T" then ?a else ?b) with b. change (1 <=? 0) with false. cbn iota.
  assert (split_tz (hms_text us +:+ fraction_text us +:+ "+00:00") =
          (hms_text us +:+ fraction_text us, Some ("+"%char, "00:00"))) as Hsplit.
  { unfold hms_text. rewrite !Str.app_assoc, split_tz_digits.
    rewrite ?Str.app_char. cbn [split_tz Ascii.eqb Bool.eqb orb].
    rewrite split_tz_digits. cbn [split_tz Ascii.eqb Bool.eqb orb]. rewrite split_tz_digits.
    unfold fraction_text. destruct (us mod us_per_s =? 0); [reflexivity|].
    rewrite !Str.app_assoc, ?Str.app_char. cbn [split_tz Ascii.eqb Bool.eqb orb].
    rewrite split_tz_digits. change (split_tz "+00:00") with ("", Some ("+"%char, "00:00")).
    cbn iota beta. by rewrite Str.app_nil_r. }
  unfold scan_time. rewrite Hsplit, scan_hms_text. cbv zeta.
  set (t := us mod us_per_day / us_per_s).
  assert (0 <= t < 86400) as Ht.
  { unfold t. pose proof (Z.mod_pos_bound us us_per_day ltac:(done)).
    split; [apply Z.div_pos; [lia|done]|apply Z.div_lt_upper_bound; [done|]]. unfold us_per_day in *. lia. }
  pose proof (Z.mod_pos_bound us us_per_s ltac:(done)) as Hf.
  assert ((match fraction_text us with
           | "" => Some (t / 3600, t / 60 mod 60, t mod 60, 0)
           | String _ _ => f ← scan_tail (fraction_text us); Some (t / 3600, t / 60 mod 60, t mod 60, f)
           end) = Some (t / 3600, t / 60 mod 60, t mod 60, us mod us_per_s)) as ->.
  { unfold fraction_text. destruct (us mod us_per_s =? 0) eqn:E; bool_to_prop; [by rewrite E|].
    rewrite ?Str.app_char. cbn [scan_tail Ascii.eqb Bool.eqb orb].
    by rewrite scan_fraction_digits. }
  cbn [mbind option_bind]. change (scan_tz (Some ("+"%char, "00:00"))) with (Some (Some 0)).
  cbn [mbind option_bind]. unfold range.
  assert (t / 3600 <= 23) by (apply Zlt_succ_le, Z.div_lt_upper_bound; lia).
  pose proof (Z.mod_pos_bound (t / 60) 60 ltac:(done)). pose proof (Z.mod_pos_bound t 60 ltac:(done)).
  repeat match goal with |- context [?a <=? ?b] => rewrite (proj2 (Z.leb_le a b)) by lia end.
  change (Z.abs (default 0 (Some 0)) <? us_per_day) with true.
  cbn [andb mbind res_bind]. rewrite Hd. do 2 f_equal. apply us_split.
Qed.
End Time.

Example iso_case : Time.iso_z 1752800401000123 = "2025-07-18T01:00:01.000123Z".
Proof. vm_compute. reflexivity. Qed.

Example iso_parse :
  map (λ s, match Time.fromisoformat s ≫= Time.to_utc 0 with Ok z => Some (Time.iso_z z) | _ => None end)
    ["2026-07-18T12:00:00+02:00"; "20260718T120000.5Z"; "2024-02-29"; "2023-02-29"; "2026-07-18T25:00";
     "9999-12-31T23:59:59-01:00"; "2026-07-18 12:30Z"]
  = [Some "2026-07-18T10:00:00Z"; Some "2026-07-18T12:00:00.500000Z"; Some "2024-02-29T00:00:00Z"; None; None;
     None; Some "2026-07-18T12:30:00Z"].
Proof. vm_compute. reflexivity. Qed.
