(* ===== verification/FloatFacts.v ===== *)
(** * The seconds of a time span

    [timedelta.total_seconds()] divides the microseconds of a span by 10^6 in
    binary64 and [int] truncates the quotient. The rounding of the division is
    followed here through the definitions of the Standard Library: the truncated
    quotient is the whole number of seconds for every span below 2^53
    microseconds (285 years), and one more at most for a longer one. *)

From Stdlib Require Import SpecFloat.
From S2P Require Import Prelude PyFloat PyTime.

Module Seconds.
Local Abbreviation million := 1000000.

(** ** Digits, shifts and locations *)

Lemma digits2_log2 p : Zpos (digits2_pos p) = Z.log2 (Zpos p) + 1.
Proof.
  induction p as [p IH|p IH|]; cbn [digits2_pos]; [| |done].
  - rewrite Pos2Z.inj_succ, IH, Pos2Z.inj_xI, Z.log2_succ_double by lia. lia.
  - rewrite Pos2Z.inj_succ, IH, Pos2Z.inj_xO, Z.log2_double by lia. lia.
Qed.
Lemma digits2_unique z n : 0 <= n -> 2 ^ n <= z < 2 ^ (n + 1) -> Zdigits2 z = n + 1.
Proof.
  intros Hn Hz. pose proof (Z.pow_pos_nonneg 2 n ltac:(lia) Hn). destruct z as [|z|z]; [lia| |lia].
  cbn [Zdigits2]. rewrite digits2_log2. f_equal. apply Z.log2_unique; [done|]. by rewrite <-Z.add_1_r.
Qed.

(** The integer a quotient [q] with the remainder [r] is rounded to. *)
Lemma round_nearest q r : 0 <= r < million ->
  let mx := round_nearest_even q (new_location million r) in
  q <= mx <= q + 1 /\ 2 * Z.abs (mx * million - (q * million + r)) <= million.
Proof.
  intros Hr. unfold new_location. change (Z.even million) with true. cbv iota zeta. unfold new_location_even.
  destruct (Z.eqb_spec r 0) as [->|Hn]; [cbn [round_nearest_even]; lia|].
  destruct (Z.compare_spec (2 * r) million) as [E|E|E]; cbn [round_nearest_even]; [destruct (Z.even q)|..]; lia.
Qed.

(** The same after one bit of the quotient has been shifted out. *)
Lemma round_shifted q r : 0 <= r < million -> 0 < q ->
  let rec := shr_1 (shr_record_of_loc q (new_location million r)) in
  let mx := round_nearest_even (shr_m rec) (loc_of_shr_record rec) in
  q <= 2 * mx + 1 /\ 2 * mx <= q + 1 /\ Z.abs (2 * mx * million - (q * million + r)) <= million.
Proof.
  intros Hr Hq. unfold new_location. change (Z.even million) with true. cbv iota zeta. unfold new_location_even.
  destruct (Z.eqb_spec r 0) as [->|Hn]; [|destruct (Z.compare_spec (2 * r) million) as [E|E|E]];
    (destruct q as [|[q|q|]|q]; [lia| | | |lia]); 
    cbn [shr_1 shr_record_of_loc shr_m loc_of_shr_record round_nearest_even orb];
    try destruct (Z.even _); lia.
Qed.

(** ** The division *)

(** The second rounding only brings a carry back into 53 bits. *)
Lemma renormalized mx e : 2 ^ 52 <= mx <= 2 ^ 53 -> -100 <= e -> exists (m : positive) (E : Z),
  shr_fexp Flt.prec Flt.emax mx e loc_Exact = (Build_shr_record (Zpos m) false false, E) /\
  ((E = e /\ Zpos m = mx) \/ (E = e + 1 /\ 2 * Zpos m = mx)).
Proof.
  intros Hm He. unfold shr_fexp. destruct (decide (mx = 2 ^ 53)) as [->|Hn].
  - change (Zdigits2 (2 ^ 53)) with 54. unfold fexp, emin, Flt.prec, Flt.emax.
    replace (Z.max (54 + e - 53) (3 - 1024 - 53) - e) with 1 by lia.
    exists (Pos.pow 2 52), (e + 1). split; [reflexivity|]. right. split; [done|reflexivity].
  - rewrite (digits2_unique mx 52) by lia. unfold fexp, emin, Flt.prec, Flt.emax.
    replace (Z.max (52 + 1 + e - 53) (3 - 1024 - 53) - e) with 0 by lia.
    destruct mx as [|m|m]; [lia| |lia]. exists m, e. split; [reflexivity|]. by left.
Qed.
(** The quotient of a span by a million: 53 or 54 bits. *)
Lemma quotient_bits p s : 0 < p -> s = 72 - Z.log2 p -> Z.log2 p < 60 ->
  2 ^ 52 <= p * 2 ^ s / million < 2 ^ 54.
Proof.
  intros Hp -> Hl. destruct (Z.log2_spec p Hp) as [L U]. rewrite <-Z.add_1_r in U.
  set (k := Z.log2 p) in *. pose proof (Z.log2_nonneg p : 0 <= k).
  assert (2 ^ 72 <= p * 2 ^ (72 - k) < 2 ^ 73) as [Hlo Hhi].
  { replace 72 with (k + (72 - k)) at 1 by lia. replace 73 with ((k + 1) + (72 - k)) by lia.
    rewrite !Z.pow_add_r by lia. rewrite Z.pow_add_r in U by lia.
    pose proof (Z.pow_pos_nonneg 2 (72 - k) ltac:(lia) ltac:(lia)). nia. }
  split; [apply Z.div_le_lower_bound|apply Z.div_lt_upper_bound]; lia.
Qed.

Lemma div_core p : Z.log2 (Zpos p) < 60 ->
  let s := 72 - Z.log2 (Zpos p) in let m := Zpos p * 2 ^ s in
  SFdiv_core_binary Flt.prec Flt.emax (Zpos p) 0 million 0 = (m / million, - s, new_location million (m mod million)).
Proof.
  intros Hl s m. unfold SFdiv_core_binary. change (Zdigits2 million) with 20. cbn [Zdigits2].
  rewrite digits2_log2. unfold fexp, emin, Flt.prec, Flt.emax. pose proof (Z.log2_nonneg (Zpos p)).
  replace (Z.min (Z.max (Z.log2 (Zpos p) + 1 + 0 - (20 + 0) - 53) (3 - 1024 - 53)) (0 - 0)) with (- s) by (unfold s; lia).
  replace (0 - 0 - - s) with s by lia. cbv zeta.
  assert (match s with Zpos _ => Z.shiftl (Zpos p) s | Z0 => Zpos p | Zneg _ => 0 end = m) as ->.
  { destruct s as [|s'|s'] eqn:Es; [lia| |unfold s in *; lia]. apply Z.shiftl_mul_pow2. lia. }
  pose proof (surjective_pairing (Z.div_eucl m million)) as ->. reflexivity.
Qed.

(** What a rounded mantissa [mx] of the exponent [e] becomes. *)
Lemma rounded b q e l mx e1 mrs : 2 ^ 52 <= mx <= 2 ^ 53 -> -100 <= e1 <= 0 ->
  shr_fexp Flt.prec Flt.emax q e l = (mrs, e1) -> round_nearest_even (shr_m mrs) (loc_of_shr_record mrs) = mx ->
  exists m E, binary_round_aux Flt.prec Flt.emax b q e l = S754_finite b m E /\
    ((E = e1 /\ Zpos m = mx) \/ (E = e1 + 1 /\ 2 * Zpos m = mx)).
Proof.
  intros Hm He E1 E2. destruct (renormalized mx e1 Hm ltac:(lia)) as (m & E & E3 & HE).
  exists m, E. split; [|done]. unfold binary_round_aux. rewrite E1, E2, E3. cbn [shr_m].
  unfold Flt.emax, Flt.prec. destruct (Z.leb_spec E (1024 - 53)); [done|lia].
Qed.

Lemma loc_record q l : loc_of_shr_record (shr_record_of_loc q l) = l /\ shr_m (shr_record_of_loc q l) = q.
Proof. by destruct l as [|[]]. Qed.

(** What rounding the quotient of [P = p * 2^s] by a million leaves: [y], the unit of its last
    place being 1 or 2. *)
Lemma rounded_quotient b P s : 2 <= s <= 72 -> 2 ^ 52 <= P / million < 2 ^ 54 -> exists m E y,
  binary_round_aux Flt.prec Flt.emax b (P / million) (- s) (new_location million (P mod million)) = S754_finite b m E /\
  E <= - s + 2 /\ Zpos m * 2 ^ s = y * 2 ^ (- E) /\
  (y = 2 * (y / 2) \/ P / million <= y) /\ P / million <= y + 1 /\ y <= P / million + 1 /\
  y * million <= P + million.
Proof.
  intros Hs HQ. pose proof (Z.div_mod P million ltac:(lia)) as HP.
  pose proof (Z.mod_pos_bound P million ltac:(lia)) as Hr. set (q := P / million) in *. set (r := P mod million) in *.
  assert (forall a, 0 <= a <= s -> 2 ^ s = 2 ^ a * 2 ^ (s - a)) as Hpow
    by (intros; rewrite <-Z.pow_add_r by lia; f_equal; lia).
  destruct (decide (q < 2 ^ 53)) as [Hq|Hq].
  - destruct (round_nearest q r Hr) as [Hx Hd]. destruct (loc_record q (new_location million r)) as [E1 E2].
    set (mx := round_nearest_even _ _) in *.
    destruct (rounded b q (- s) (new_location million r) mx (- s) (shr_record_of_loc q (new_location million r))
      ltac:(lia) ltac:(lia)) as (m & E & Hv & HE); [|by rewrite E1, E2|].
    { unfold shr_fexp. rewrite (digits2_unique q 52) by lia. unfold fexp, emin, Flt.prec, Flt.emax.
      by replace (Z.max (52 + 1 + - s - 53) (3 - 1024 - 53) - - s) with 0 by lia. }
    exists m, E, mx. split; [exact Hv|]. split; [lia|]. split; [|split; [right; lia|]; lia].
    destruct HE as [[-> HE]|[-> HE]]; [by rewrite HE, Z.opp_involutive|].
    rewrite (Hpow 1) by lia. replace (- (- s + 1)) with (s - 1) by lia. lia.
  - destruct (round_shifted q r Hr ltac:(lia)) as (Hx & Hx' & Hd).
    set (rec := shr_1 (shr_record_of_loc q (new_location million r))) in *.
    set (mx := round_nearest_even _ _) in *.
    assert (q < 2 ^ 54 -> 2 ^ 52 <= mx <= 2 ^ 53) as Hmx by lia. specialize (Hmx (proj2 HQ)).
    destruct (rounded b q (- s) (new_location million r) mx (- s + 1) rec Hmx ltac:(lia)) as (m & E & Hv & HE);
      [|reflexivity|].
    { unfold shr_fexp. rewrite (digits2_unique q 53) by lia. unfold fexp, emin, Flt.prec, Flt.emax.
      by replace (Z.max (53 + 1 + - s - 53) (3 - 1024 - 53) - - s) with 1 by lia. }
    exists m, E, (2 * mx). split; [exact Hv|]. split; [lia|].
    split; [|split; [left; rewrite (Z.mul_comm 2 mx), Z.div_mul by lia; lia|]; lia].
    destruct HE as [[-> HE]|[-> HE]].
    + rewrite (Hpow 1) by lia. replace (- (- s + 1)) with (s - 1) by lia. nia.
    + rewrite (Hpow 2) by lia. replace (- (- s + 1 + 1)) with (s - 2) by lia. nia.
Qed.

(** The float of a span of [p] microseconds is [y / 2^s], between the whole seconds [n]
    of the span and [n + 1], which a span below 2^53 microseconds does not reach. *)
Lemma quotient_value b p : Z.log2 (Zpos p) < 60 -> exists m E s y,
  SFdiv Flt.prec Flt.emax (S754_finite b p 0) (S754_finite false 1000000 0) = S754_finite b m E /\
  E < 0 /\ 0 <= s /\ Zpos m * 2 ^ s = y * 2 ^ (- E) /\
  let n := Zpos p / million in n * 2 ^ s <= y <= (n + 1) * 2 ^ s /\ (Zpos p < 2 ^ 53 -> y < (n + 1) * 2 ^ s).
Proof.
  intros Hl. cbn [SFdiv]. rewrite div_core by done. rewrite xorb_false_r. pose proof (Z.log2_nonneg (Zpos p)) as Hk.
  set (s := 72 - Z.log2 (Zpos p)) in *.
  pose proof (quotient_bits (Zpos p) s ltac:(lia) eq_refl Hl) as HQ.
  destruct (rounded_quotient b (Zpos p * 2 ^ s) s ltac:(lia) HQ) as (m & E & y & -> & HE & Hv & Hy & Hl1 & Hu & Hm).
  exists m, E, s, y. split; [done|]. split; [lia|]. split; [lia|]. split; [exact Hv|]. cbv zeta.
  pose proof (Z.div_mod (Zpos p) million ltac:(lia)) as Hp. pose proof (Z.mod_pos_bound (Zpos p) million ltac:(lia)) as Hr.
  set (n := Zpos p / million) in *. assert (0 <= n) by (apply Z.div_pos; lia).
  assert (2 ^ s = 2 * 2 ^ (s - 1)) as H2 by (rewrite <-Z.pow_succ_r by lia; f_equal; lia).
  pose proof (Z.pow_pos_nonneg 2 (s - 1) ltac:(lia) ltac:(lia)) as Ht. set (t := 2 ^ (s - 1)) in *. rewrite H2 in *.
  assert (n * (2 * t) <= Zpos p * (2 * t) / million) by (apply Z.div_le_lower_bound; nia).
  assert (Zpos p * (2 * t) / million < (n + 1) * (2 * t)) by (apply Z.div_lt_upper_bound; nia).
  split; [split; nia|]. intros Hp53.
  assert (2 ^ 20 <= 2 * t).
  { replace (2 * t) with (2 ^ s) by (unfold t; rewrite <-Z.pow_succ_r by lia; f_equal; lia). apply Z.pow_le_mono_r; [lia|]. unfold s.
    pose proof (proj1 (Z.log2_lt_pow2 (Zpos p) 53 ltac:(lia)) Hp53). lia. }
  nia.
Qed.
(** ** The truncated quotient *)

Lemma log2_60 p : 0 < p < 2 ^ 60 -> Z.log2 p < 60.
Proof. intros [Hp Hl]. by apply Z.log2_lt_pow2. Qed.

Lemma trunc_quotient (b : bool) p : Zpos p < 2 ^ 60 -> exists z,
  Flt.trunc (SFdiv Flt.prec Flt.emax (S754_finite b p 0) (S754_finite false 1000000 0)) = Some (if b then - z else z) /\
  Zpos p / million <= z <= Zpos p / million + 1 /\ (Zpos p < 2 ^ 53 -> z = Zpos p / million).
Proof.
  intros Hl. destruct (quotient_value b p) as (m & E & s & y & -> & HE & Hs & Hv & [Hy Hlt]); [apply log2_60; lia|].
  set (n := Zpos p / million) in *. unfold Flt.trunc, Flt.ratio. destruct (Z.leb_spec 0 E); [lia|].
  assert (Zpos (Z.to_pos (2 ^ (- E))) = 2 ^ (- E)) as -> by (apply Z2Pos.id, Z.pow_pos_nonneg; lia).
  pose proof (Z.pow_pos_nonneg 2 (- E) ltac:(lia) ltac:(lia)) as HD. pose proof (Z.pow_pos_nonneg 2 s ltac:(lia) Hs) as HS.
  set (D := 2 ^ (- E)) in *. set (S := 2 ^ s) in *.
  exists (Zpos m / D). split.
  { f_equal. destruct b; [change (Zneg m) with (- Zpos m); rewrite Z.quot_opp_l by lia|]; by rewrite Z.quot_div_nonneg by lia. }
  assert (Zpos m / D = y / S) as ->.
  { rewrite <-(Z.div_mul_cancel_r (Zpos m) D S) by lia. by rewrite Hv, Z.mul_comm, Z.div_mul_cancel_l by lia. }
  assert (n <= y / S) by (apply Z.div_le_lower_bound; lia).
  assert (y / S < n + 2) by (apply Z.div_lt_upper_bound; nia).
  split; [lia|]. intros Hp. assert (y / S < n + 1) by (apply Z.div_lt_upper_bound; [lia|]; specialize (Hlt Hp); lia). lia.
Qed.

(** The seconds of a span that is not negative: its whole seconds, or one more from 2^53
    microseconds on. *)
Lemma int_seconds_pos us : 0 <= us < 2 ^ 60 ->
  us / Time.us_per_s <= Time.int_seconds us <= us / Time.us_per_s + 1 /\
  (us < 2 ^ 53 -> Time.int_seconds us = us / Time.us_per_s).
Proof.
  intros Hu. unfold Time.int_seconds, Time.total_seconds. destruct us as [|p|p]; [split; [by vm_compute|done]| |lia].
  cbn [Flt.of_ratio]. destruct (trunc_quotient false p ltac:(lia)) as (z & -> & Hz & Hx).
  cbv iota. change (default 0 (Some z)) with z. unfold Time.us_per_s. split; [lia|]. exact Hx.
Qed.

(** Those of a span that is not positive are not positive either. *)
Lemma int_seconds_neg us : - 2 ^ 60 < us <= 0 -> Time.int_seconds us <= 0.
Proof.
  intros Hu. unfold Time.int_seconds, Time.total_seconds. destruct us as [|p|p]; [by vm_compute|lia|].
  cbn [Flt.of_ratio]. destruct (trunc_quotient true p ltac:(lia)) as (z & -> & Hz & Hx). cbv iota.
  change (default 0 (Some (- z))) with (- z).
  pose proof (Z.div_pos (Zpos p) million ltac:(lia) ltac:(lia)). lia.
Qed.

(** At least one second may be added: a span of two thousand years. *)
Example int_seconds_rounds_up :
  Time.int_seconds 63919605600999999 = 63919605601 /\ 63919605600999999 / Time.us_per_s = 63919605600.
Proof. by vm_compute. Qed.
End Seconds.
