(* ===== verification/Sha256.v ===== *)
(** * SHA-256

    [hashlib.sha256(...).hexdigest()], computed: FIPS 180-4 on 32-bit words held
    as integers below 2^32. A Python [bytes] is the string of its bytes. *)

From Stdlib Require Import Ascii.
From S2P Require Import Prelude PyValue.

Module Sha256.
Definition mask : Z := 4294967295.
Definition add32 (a b : Z) : Z := Z.land (a + b) mask.
Definition rotr (n x : Z) : Z := Z.lor (Z.shiftr x n) (Z.land (Z.shiftl x (32 - n)) mask).
Definition not32 (x : Z) : Z := Z.lxor x mask.

Definition ch (x y z : Z) : Z := Z.lxor (Z.land x y) (Z.land (not32 x) z).
Definition maj (x y z : Z) : Z := Z.lxor (Z.lxor (Z.land x y) (Z.land x z)) (Z.land y z).
Definition big0 (x : Z) : Z := Z.lxor (Z.lxor (rotr 2 x) (rotr 13 x)) (rotr 22 x).
Definition big1 (x : Z) : Z := Z.lxor (Z.lxor (rotr 6 x) (rotr 11 x)) (rotr 25 x).
Definition small0 (x : Z) : Z := Z.lxor (Z.lxor (rotr 7 x) (rotr 18 x)) (Z.shiftr x 3).
Definition small1 (x : Z) : Z := Z.lxor (Z.lxor (rotr 17 x) (rotr 19 x)) (Z.shiftr x 10).

(** ** The constants

    They are what the standard says they are, computed: the first 32 bits of the
    fractional parts of the cube roots (and, for the initial hash value, of the
    square roots) of the first primes. *)

Definition prime (n : Z) : bool :=
  forallb (λ d, negb (n mod d =? 0)) (map (λ k, Z.of_nat k + 2) (seq 0 (Z.to_nat (Z.sqrt n) - 1))).

(** The primes below 312: the first 64. *)
Definition primes : list Z := List.filter prime (map (λ k, Z.of_nat k + 2) (seq 0 310)).

(** The largest number whose power [f] is at most [n], bit by bit from [2 ^ k]. *)
Fixpoint root (f : Z -> Z) (n : Z) (k : nat) (acc : Z) : Z :=
  match k with
  | O => acc
  | S j => let t := acc + 2 ^ Z.of_nat j in root f n j (if f t <=? n then t else acc)
  end.

Definition K : list Z := Eval vm_compute in
  map (λ p, Z.land (root (λ x, x * x * x) (Z.shiftl p 96) 40 0) mask) primes.

Definition H0 : list Z := Eval vm_compute in
  map (λ p, Z.land (root (λ x, x * x) (Z.shiftl p 64) 40 0) mask) (firstn 8 primes).

Example constants_ends : length K = 64%nat /\ nth 0 K 0 = 0x428a2f98 /\ nth 63 K 0 = 0xc67178f2 /\
  nth 0 H0 0 = 0x6a09e667 /\ nth 7 H0 0 = 0x5be0cd19.
Proof. vm_compute. repeat split. Qed.

(** The message schedule, last word first. *)
Fixpoint schedule (n : nat) (w : list Z) : list Z :=
  match n with
  | O => w
  | S k =>
      let g i := nth i w 0 in
      schedule k (add32 (add32 (small1 (g 1%nat)) (g 6%nat)) (add32 (small0 (g 14%nat)) (g 15%nat)) :: w)
  end.

Definition round (h : list Z) (kw : Z * Z) : list Z :=
  match h with
  | [a; b; c; d; e; f; g; hh] =>
      let t1 := add32 (add32 hh (big1 e)) (add32 (ch e f g) (add32 kw.1 kw.2)) in
      let t2 := add32 (big0 a) (maj a b c) in
      [add32 t1 t2; a; b; c; add32 d t1; e; f; g]
  | _ => h
  end.

Definition compress (h w : list Z) : list Z :=
  zip_with add32 h (fold_left round (combine K (rev (schedule 48 (rev w)))) h).

Definition bytes_of (s : string) : list Z :=
  map (λ c, Z.of_N (N_of_ascii c)) (Str.to_list s).

(** The big-endian bytes of [z], [n] of them. *)
Fixpoint be_bytes (n : nat) (z : Z) : list Z :=
  match n with
  | O => []
  | S k => Z.land (Z.shiftr z (8 * Z.of_nat k)) 255 :: be_bytes k z
  end.

Definition pad (m : list Z) : list Z :=
  let l := length m in
  m ++ [128] ++ repeat 0 (Z.to_nat ((55 - Z.of_nat l) mod 64)) ++ be_bytes 8 (8 * Z.of_nat l).

Fixpoint words (l : list Z) : list Z :=
  match l with
  | a :: b :: c :: d :: r => (((a * 256 + b) * 256 + c) * 256 + d) :: words r
  | _ => []
  end.

Fixpoint blocks (fuel : nat) (h w : list Z) : list Z :=
  match fuel with
  | O => h
  | S k => match w with
           | [] => h
           | _ => blocks k (compress h (firstn 16 w)) (skipn 16 w)
           end
  end.

Definition digest (s : string) : list Z :=
  let w := words (pad (bytes_of s)) in blocks (length w) H0 w.

Definition hexdigest (s : string) : string :=
  Str.join "" (map (λ b, hex2 (Z.to_N b)) (digest s ≫= be_bytes 4)).

(** The first [n] bytes and the others. *)
Fixpoint split_at (n : nat) (s : string) : string * string :=
  match n, s with
  | S k, String c r => let (a, b) := split_at k r in (String c a, b)
  | _, _ => ("", s)
  end.

(** [iter(lambda: handle.read(n), b"")]: the contents in pieces of [n] bytes. *)
Fixpoint chunks (fuel n : nat) (s : string) : list string :=
  match fuel with
  | O => []
  | S k => match s with
           | EmptyString => []
           | _ => (split_at n s).1 :: chunks k n (split_at n s).2
           end
  end.

(** Hashing the pieces one after the other is hashing their concatenation. *)
Definition update (seen piece : string) : string := seen +:+ piece.
Definition hexdigest_chunks (n : nat) (s : string) : string :=
  hexdigest (fold_left update (chunks (S (String.length s)) n s) "").

Lemma split_at_app n : forall s, (split_at n s).1 +:+ (split_at n s).2 = s.
Proof.
  induction n as [|n IH]; intros [|c s]; cbn; try done.
  specialize (IH s). destruct (split_at n s). simpl in *. by rewrite Str.app_cons, IH.
Qed.

Lemma split_at_length n : forall s, (0 < n)%nat -> s ≠ "" ->
  (String.length (split_at n s).2 < String.length s)%nat.
Proof.
  assert (forall n s, (String.length (split_at n s).2 <= String.length s)%nat) as Hle.
  { clear. induction n as [|n IH]; intros [|c s]; cbn; try lia.
    specialize (IH s). destruct (split_at n s). simpl in *. lia. }
  intros [|c s] Hn Hs; [done|]. destruct n as [|n]; [lia|]. cbn.
  specialize (Hle n s). destruct (split_at n s). simpl in *. lia.
Qed.

Lemma fold_update l : forall a, fold_left update l a = a +:+ fold_left update l "".
Proof.
  induction l as [|x r IH]; intros a; cbn [fold_left]; [by rewrite Str.app_nil_r|].
  rewrite IH. rewrite (IH (update "" x)). unfold update. by rewrite Str.app_assoc.
Qed.

Lemma chunks_concat n fuel : (0 < n)%nat -> forall s, (String.length s < fuel)%nat ->
  fold_left update (chunks fuel n s) "" = s.
Proof.
  intros Hn. induction fuel as [|k IH]; intros s Hs; [lia|].
  destruct (decide (s = "")) as [->|Hne]; [done|].
  assert (chunks (S k) n s = (split_at n s).1 :: chunks k n (split_at n s).2) as -> by (by destruct s).
  cbn [fold_left]. rewrite fold_update, IH.
  - apply split_at_app.
  - pose proof (split_at_length n s Hn Hne). lia.
Qed.

(** Reading a file by pieces does not change its digest. *)
Lemma hexdigest_chunks_eq n s : (0 < n)%nat -> hexdigest_chunks n s = hexdigest s.
Proof. intros Hn. unfold hexdigest_chunks. rewrite chunks_concat; [done|done|lia]. Qed.
End Sha256.

Example sha256_abc :
  Sha256.hexdigest "abc" = "ba7816bf8f01cfea414140de5dae2223b00361a396177a9cb410ff61f20015ad".
Proof. vm_compute. reflexivity. Qed.
