(* ===== verification/PyJson.v ===== *)
(** * [json.dumps] and [json.loads]

    The printer of CPython with [ensure_ascii], [indent] and [sort_keys], and
    its reader. A malformed document is [None]: the [JSONDecodeError]. *)

From Stdlib Require Import SpecFloat Ascii.
From S2P Require Import Prelude PyFloat PyMonad PyValue.

Module Json.

(** ** Printing *)

Record style := Style { indent : option nat; item_sep : string; key_sep : string; sort_keys : bool }.

(** [indent=2, sort_keys=True]; [separators=(",",":")]; the default. *)
Definition pretty : style := Style (Some 2%nat) "," ": " true.
Definition compact : style := Style None "," ":" false.
Definition plain_sorted : style := Style None ", " ": " true.

Definition hex4 (n : N) : string := hex2 (n / 256)%N +:+ hex2 (n mod 256)%N.

(** A code point beyond ASCII, as one or two [\uXXXX]. *)
Definition u_escape (n : N) : string :=
  if (n <? 65536)%N then "\u" +:+ hex4 n
  else let m := (n - 65536)%N in
       "\u" +:+ hex4 (55296 + m / 1024)%N +:+ "\u" +:+ hex4 (56320 + m mod 1024)%N.

(** [need] continuation bytes of the code point [acc] are still to come. *)
Fixpoint escape_go (need : nat) (acc : N) (s : string) : string :=
  match s with
  | EmptyString => ""
  | String c r =>
      let n := N_of_ascii c in
      match need with
      | S k => let acc' := (acc * 64 + (n - 128))%N in
               match k with
               | O => u_escape acc' +:+ escape_go 0 0 r
               | _ => escape_go k acc' r
               end
      | O =>
          if (n <? 128)%N then
            (if Ascii.eqb c dquote || Ascii.eqb c bslash then String bslash (String c "")
             else if (n =? 10)%N then "\n" else if (n =? 13)%N then "\r"
             else if (n =? 9)%N then "\t" else if (n =? 8)%N then "\b"
             else if (n =? 12)%N then "\f"
             else if (n <? 32)%N then "\u" +:+ hex4 n
             else String c "") +:+ escape_go 0 0 r
          else if (n <? 224)%N then escape_go 1 (n - 192)%N r
          else if (n <? 240)%N then escape_go 2 (n - 224)%N r
          else escape_go 3 (n - 240)%N r
      end
  end.

Definition quote (s : string) : string :=
  String dquote (escape_go 0 0 s +:+ String dquote "").

Definition newline (st : style) (level : nat) : string :=
  match indent st with
  | Some k => String (ascii_of_N 10) (Str.join "" (repeat " " (k * level)))
  | None => ""
  end.

Definition float_text (f : pyfloat) : string :=
  match f with
  | S754_nan => "NaN"
  | S754_infinity false => "Infinity"
  | S754_infinity true => "-Infinity"
  | _ => Flt.repr f
  end.

Fixpoint dump (st : style) (level : nat) (v : val) {struct v} : string :=
  match v with
  | VNone => "null"
  | VBool true => "true"
  | VBool false => "false"
  | VInt z => Str.of_Z z
  | VFloat f => float_text f
  | VStr s => quote s
  | VList [] => "[]"
  | VList l =>
      "[" +:+ newline st (S level) +:+
      Str.join (item_sep st +:+ newline st (S level)) (map (dump st (S level)) l) +:+
      newline st level +:+ "]"
  | VDict [] => "{}"
  | VDict d =>
      "{" +:+ newline st (S level) +:+
      Str.join (item_sep st +:+ newline st (S level))
        (map (λ kt, quote kt.1 +:+ key_sep st +:+ kt.2)
           (let texts := map (λ '(k, x), (k, dump st (S level) x)) d in
            if sort_keys st
            then default texts (sort_by (λ a b, Some (Str.ltb a.1 b.1)) texts) else texts)) +:+
      newline st level +:+ "}"
  end.

Definition dumps (st : style) (v : val) : string := dump st 0 v.

(** ** Reading *)

Definition is_ws (c : ascii) : bool :=
  let n := N_of_ascii c in ((n =? 32) || (n =? 9) || (n =? 10) || (n =? 13))%N.

Fixpoint skip_ws (s : string) : string :=
  match s with
  | String c r => if is_ws c then skip_ws r else s
  | EmptyString => ""
  end.

Definition hex_val (c : ascii) : option N :=
  let n := N_of_ascii c in
  if (48 <=? n)%N && (n <=? 57)%N then Some (n - 48)%N
  else if (97 <=? n)%N && (n <=? 102)%N then Some (n - 87)%N
  else if (65 <=? n)%N && (n <=? 70)%N then Some (n - 55)%N
  else None.

Definition hex4_val (a b c d : ascii) : option N :=
  a ← hex_val a; b ← hex_val b; c ← hex_val c; d ← hex_val d;
  Some (((a * 16 + b) * 16 + c) * 16 + d)%N.

(** The UTF-8 encoding of a code point. *)
Definition utf8 (n : N) : string :=
  let b (x : N) := ascii_of_N x in
  if (n <? 128)%N then String (b n) ""
  else if (n <? 2048)%N then String (b (192 + n / 64)%N) (String (b (128 + n mod 64)%N) "")
  else if (n <? 65536)%N
  then String (b (224 + n / 4096)%N) (String (b (128 + n / 64 mod 64)%N) (String (b (128 + n mod 64)%N) ""))
  else String (b (240 + n / 262144)%N) (String (b (128 + n / 4096 mod 64)%N)
         (String (b (128 + n / 64 mod 64)%N) (String (b (128 + n mod 64)%N) ""))).

Definition is_high (n : N) : bool := ((55296 <=? n) && (n <=? 56319))%N.
Definition is_low (n : N) : bool := ((56320 <=? n) && (n <=? 57343))%N.

Definition simple_escape (c : ascii) : option string :=
  if Ascii.eqb c dquote then Some (String dquote "")
  else if Ascii.eqb c bslash then Some (String bslash "")
  else if Ascii.eqb c "/" then Some "/"
  else if Ascii.eqb c "n" then Some (String (ascii_of_N 10) "")
  else if Ascii.eqb c "r" then Some (String (ascii_of_N 13) "")
  else if Ascii.eqb c "t" then Some (String (ascii_of_N 9) "")
  else if Ascii.eqb c "b" then Some (String (ascii_of_N 8) "")
  else if Ascii.eqb c "f" then Some (String (ascii_of_N 12) "")
  else None.

(** The characters up to the closing quote, and what follows it. *)
Fixpoint parse_chars (s : string) : option (string * string) :=
  match s with
  | EmptyString => None
  | String c r =>
      if Ascii.eqb c dquote then Some ("", r)
      else if Ascii.eqb c bslash then
        match r with
        | String e r1 =>
            if Ascii.eqb e "u" then
              match r1 with
              | String h1 (String h2 (String h3 (String h4 r2))) =>
                  match hex4_val h1 h2 h3 h4 with
                  | None => None
                  | Some n =>
                      let single := '(t, q) ← parse_chars r2; Some (utf8 n +:+ t, q) in
                      match r2 with
                      | String b (String u (String g1 (String g2 (String g3 (String g4 r3))))) =>
                          if is_high n && Ascii.eqb b bslash && Ascii.eqb u "u" then
                            match hex4_val g1 g2 g3 g4 with
                            | Some l =>
                                if is_low l then
                                  '(t, q) ← parse_chars r3;
                                  Some (utf8 (65536 + (n - 55296) * 1024 + (l - 56320))%N +:+ t, q)
                                else single
                            | None => single
                            end
                          else single
                      | _ => single
                      end
                  end
              | _ => None
              end
            else
              match simple_escape e with
              | Some x => '(t, q) ← parse_chars r1; Some (x +:+ t, q)
              | None => None
              end
        | EmptyString => None
        end
      else if (N_of_ascii c <? 32)%N then None
      else '(t, q) ← parse_chars r; Some (String c t, q)
  end.

Fixpoint span_digits (s : string) : string * string :=
  match s with
  | String c r => if Str.is_digit c then let (a, b) := span_digits r in (String c a, b) else ("", s)
  | EmptyString => ("", "")
  end.

(** An integer without leading zeros, a fraction and an exponent, both optional. *)
Definition parse_number (s : string) : option (val * string) :=
  let (neg, s1) := match s with
                   | String c r => if Ascii.eqb c "-" then (true, r) else (false, s)
                   | EmptyString => (false, s)
                   end in
  let sg (z : Z) := if neg then - z else z in
  let '(ip, r1) :=
    match s1 with
    | String c r => if Ascii.eqb c "0" then ("0", r) else span_digits s1
    | EmptyString => ("", "")
    end in
  match Str.parse_nat ip with
  | None => None
  | Some i =>
      let '(fp, r2) := match r1 with
                       | String c r => if Ascii.eqb c "." then
                                         match span_digits r with
                                         | (EmptyString, _) => ("", r1)
                                         | (f, q) => (f, q)
                                         end
                                       else ("", r1)
                       | EmptyString => ("", r1)
                       end in
      let '(ep, r3) := match r2 with
                       | String c r =>
                           if Ascii.eqb c "e" || Ascii.eqb c "E" then
                             let (en, q) := strip_sign r in
                             match span_digits q with
                             | (EmptyString, _) => (None, r2)
                             | (e, q') => (option_map (λ z, if en : bool then - z else z) (Str.parse_nat e), q')
                             end
                           else (None, r2)
                       | EmptyString => (None, r2)
                       end in
      match fp, ep with
      | EmptyString, None => Some (VInt (sg i), r3)
      | _, _ =>
          let m := default 0 (Str.digits_val i fp) in
          let f := Flt.of_dec m (default 0 ep - Z.of_nat (String.length fp)) in
          Some (VFloat (if neg then SFopp f else f), r3)
      end
  end.

Definition parse_const (s : string) : option (val * string) :=
  match Str.strip_prefix "null" s with
  | Some r => Some (VNone, r)
  | None => match Str.strip_prefix "true" s with
  | Some r => Some (VBool true, r)
  | None => match Str.strip_prefix "false" s with
  | Some r => Some (VBool false, r)
  | None => match Str.strip_prefix "NaN" s with
  | Some r => Some (VFloat S754_nan, r)
  | None => match Str.strip_prefix "Infinity" s with
  | Some r => Some (VFloat (S754_infinity false), r)
  | None => match Str.strip_prefix "-Infinity" s with
  | Some r => Some (VFloat (S754_infinity true), r)
  | None => None
  end end end end end end.

(** The value at the head of [s]. [parse_elems] and [parse_members] read the
    rest of a list and of a dict, after the bracket or a comma. *)
Fixpoint parse_value (n : nat) (s : string) {struct n} : option (val * string) :=
  match n with
  | O => None
  | S k =>
      match s with
      | EmptyString => None
      | String c r =>
          if Ascii.eqb c dquote then '(t, q) ← parse_chars r; Some (VStr t, q)
          else if Ascii.eqb c "[" then
            match skip_ws r with
            | String d q => if Ascii.eqb d "]" then Some (VList [], q)
                            else parse_elems k [] (String d q)
            | EmptyString => None
            end
          else if Ascii.eqb c "{" then
            match skip_ws r with
            | String d q => if Ascii.eqb d "}" then Some (VDict [], q)
                            else parse_members k [] (String d q)
            | EmptyString => None
            end
          else match parse_const s with
               | Some x => Some x
               | None => parse_number s
               end
      end
  end
with parse_elems (n : nat) (acc : list val) (s : string) {struct n} : option (val * string) :=
  match n with
  | O => None
  | S k =>
      '(v, q) ← parse_value k s;
      match skip_ws q with
      | String c r => if Ascii.eqb c "]" then Some (VList (acc ++ [v]), r)
                      else if Ascii.eqb c "," then parse_elems k (acc ++ [v]) (skip_ws r)
                      else None
      | EmptyString => None
      end
  end
with parse_members (n : nat) (acc : list (string * val)) (s : string) {struct n} : option (val * string) :=
  match n with
  | O => None
  | S k =>
      match s with
      | String c r =>
          if Ascii.eqb c dquote then
            '(key, q) ← parse_chars r;
            match skip_ws q with
            | String d q1 =>
                if Ascii.eqb d ":" then
                  '(v, q2) ← parse_value k (skip_ws q1);
                  match skip_ws q2 with
                  | String e q3 =>
                      if Ascii.eqb e "}" then Some (VDict (Dict.set key v acc), q3)
                      else if Ascii.eqb e "," then parse_members k (Dict.set key v acc) (skip_ws q3)
                      else None
                  | EmptyString => None
                  end
                else None
            | EmptyString => None
            end
          else None
      | EmptyString => None
      end
  end.

(** Two calls at most are made per character read. *)
Definition loads (s : string) : option val :=
  match parse_value (2 * String.length s + 2) (skip_ws s) with
  | Some (v, q) => match skip_ws q with EmptyString => Some v | _ => None end
  | None => None
  end.
End Json.

(** Double quotes in the examples stand for themselves as [squote] below. *)
Fixpoint dq (s : string) : string :=
  match s with
  | EmptyString => ""
  | String c r => String (if Ascii.eqb c squote then dquote else c) (dq r)
  end.

Example dumps_pretty :
  Json.dumps Json.pretty (VDict [("b", VList [VInt 1; VNone]); ("a", VDict []); ("c", VStr "x\y")])
  = dq "{
  'a': {},
  'b': [
    1,
    null
  ],
  'c': 'x\\y'
}".
Proof. vm_compute. reflexivity. Qed.

Example loads_case :
  Json.loads (dq "  {'a': [1, -2.5e3, true], 'u': '\u00e9\ud83d\ude00', 'a': null } ")
  = Some (VDict [("a", VNone); ("u", VStr "é😀")]).
Proof. vm_compute. reflexivity. Qed.

Example loads_bad : map Json.loads [dq "{'a' 1}"; "[1,]"; "01"; ""; "[1] x"] = [None; None; None; None; None].
Proof. vm_compute. reflexivity. Qed.
