(* ===== verification/PyCodecs.v ===== *)
(** * Bytes of a JSON document

    [json.loads] on bytes detects the encoding of the text first: UTF-8 with or
    without a mark, UTF-16 and UTF-32 of either order. A lone surrogate passes,
    as [surrogatepass] lets it. *)

From Stdlib Require Import Ascii.
From S2P Require Import Prelude PyFloat PyMonad PyValue PyJson.

Module Codec.

(** Well-formed UTF-8, up to overlong forms: the bytes' lengths agree. *)
Fixpoint utf8_ok (need : nat) (s : string) : bool :=
  match s with
  | EmptyString => Nat.eqb need 0
  | String c r =>
      let n := N_of_ascii c in
      match need with
      | S k => ((128 <=? n) && (n <? 192))%N && utf8_ok k r
      | O => if (n <? 128)%N then utf8_ok 0 r
             else if ((194 <=? n) && (n <? 224))%N then utf8_ok 1 r
             else if ((224 <=? n) && (n <? 240))%N then utf8_ok 2 r
             else if ((240 <=? n) && (n <? 245))%N then utf8_ok 3 r
             else false
      end
  end.

(** [b.decode("utf-8", errors="replace")]: a sequence that cannot be continued becomes
    one replacement character, and its next byte is read again. [held] are the bytes
    of a sequence that waits for [need] more, the next of them between [lo] and [hi]. *)
Definition replacement : string := Json.utf8 65533.
Definition starts (n : N) : option (nat * N * N) :=
  (if (194 <=? n) && (n <? 224) then Some (1%nat, 128, 191)
   else if n =? 224 then Some (2%nat, 160, 191)
   else if n =? 237 then Some (2%nat, 128, 159)
   else if (225 <=? n) && (n <? 240) then Some (2%nat, 128, 191)
   else if n =? 240 then Some (3%nat, 144, 191)
   else if n =? 244 then Some (3%nat, 128, 143)
   else if (241 <=? n) && (n <? 244) then Some (3%nat, 128, 191)
   else None)%N.
Fixpoint decode_replace (held : list ascii) (need : nat) (lo hi : N) (s : string) : string :=
  match s with
  | EmptyString => match need with O => "" | _ => replacement end
  | String c r =>
      let n := N_of_ascii c in
      let fresh := if (n <? 128)%N then String c (decode_replace [] 0 0 0 r)
                   else match starts n with
                        | Some (k, a, b) => decode_replace [c] k a b r
                        | None => replacement +:+ decode_replace [] 0 0 0 r
                        end in
      match need with
      | O => fresh
      | S k => if ((lo <=? n) && (n <=? hi))%N
               then match k with
                    | O => Str.of_list (held ++ [c]) +:+ decode_replace [] 0 0 0 r
                    | _ => decode_replace (held ++ [c]) k 128 191 r
                    end
               else replacement +:+ fresh
      end
  end.
Definition replace_errors (b : string) : string := decode_replace [] 0 0 0 b.

(** UTF-16, little or big endian; [high] is a surrogate that waits for its pair. *)
Fixpoint decode16 (le : bool) (high : option N) (s : string) : option string :=
  let flush := match high with Some h => Json.utf8 h | None => "" end in
  match s with
  | EmptyString => Some flush
  | String _ EmptyString => None
  | String a (String b r) =>
      let x := N_of_ascii a in let y := N_of_ascii b in
      let u := (if le then x + 256 * y else 256 * x + y)%N in
      match high with
      | Some h => if Json.is_low u
                  then option_map (λ t, Json.utf8 (65536 + (h - 55296) * 1024 + (u - 56320))%N +:+ t) (decode16 le None r)
                  else if Json.is_high u then option_map (λ t, flush +:+ t) (decode16 le (Some u) r)
                  else option_map (λ t, flush +:+ Json.utf8 u +:+ t) (decode16 le None r)
      | None => if Json.is_high u then decode16 le (Some u) r
                else option_map (λ t, Json.utf8 u +:+ t) (decode16 le None r)
      end
  end.

Fixpoint decode32 (le : bool) (s : string) : option string :=
  match s with
  | EmptyString => Some ""
  | String a (String b (String c (String d r))) =>
      let n (x : ascii) := N_of_ascii x in
      let u := (if le then n a + 256 * (n b + 256 * (n c + 256 * n d))
                else n d + 256 * (n c + 256 * (n b + 256 * n a)))%N in
      if (u <? 1114112)%N then option_map (λ t, Json.utf8 u +:+ t) (decode32 le r) else None
  | _ => None
  end.

Definition decode8 (s : string) : option string := if utf8_ok 0 s then Some s else None.

Definition bytes (l : list N) : string := Str.of_list (map ascii_of_N l).
Definition byte_at (n : nat) (s : string) : N := match String.get n s with Some c => N_of_ascii c | None => 1%N end.

(** [b.decode(json.detect_encoding(b), "surrogatepass")] *)
Definition decode (b : string) : option string :=
  let zero n := (byte_at n b =? 0)%N in
  let len := String.length b in
  match Str.strip_prefix (bytes [0; 0; 254; 255]%N) b, Str.strip_prefix (bytes [255; 254; 0; 0]%N) b with
  | Some r, _ => decode32 false r
  | _, Some r => decode32 true r
  | None, None =>
      match Str.strip_prefix (bytes [254; 255]%N) b, Str.strip_prefix (bytes [255; 254]%N) b with
      | Some r, _ => decode16 false None r
      | _, Some r => decode16 true None r
      | None, None =>
          match Str.strip_prefix (bytes [239; 187; 191]%N) b with
          | Some r => decode8 r
          | None =>
              if Nat.leb 4 len then
                if zero 0%nat then if zero 1%nat then decode32 false b else decode16 false None b
                else if zero 1%nat
                     then if zero 2%nat && zero 3%nat then decode32 true b else decode16 true None b
                     else decode8 b
              else if Nat.eqb len 2 then
                if zero 0%nat then decode16 false None b
                else if zero 1%nat then decode16 true None b else decode8 b
              else decode8 b
          end
      end
  end.

Example decode_cases :
  map decode [bytes [91; 0; 93; 0]%N; bytes [254; 255; 216; 61; 222; 0]%N; bytes [0; 0; 0; 49]%N; bytes [239; 187; 191; 49]%N;
              bytes [255]%N; bytes [0; 49]%N] =
  [Some "[]"; Some "😀"; Some "1"; Some "1"; None; Some "1"].
Proof. vm_compute. reflexivity. Qed.
End Codec.
