(* ===== verification/JsonFacts.v ===== *)
(** * What is printed is parsed

    The printer and the reader of JSON: a document whose strings are texts, with
    distinct keys and no float, is read back with its keys in order. *)

From Stdlib Require Import Ascii DecimalString DecimalZ DecimalPos DecimalFacts ZifyN ZifyBool.
From S2P Require Import Prelude PyFloat PyMonad PyValue PyJson.

Module JsonFacts.
Import Json.

(** ** Texts: sequences of code points that are no surrogates *)

Definition scalar (n : N) : bool := ((n <? 55296) || (57344 <=? n) && (n <? 1114112))%N.
Fixpoint encode (l : list N) : string := match l with [] => "" | n :: r => utf8 n +:+ encode r end.
Definition text (s : string) : Prop := exists l, Forall (λ n, scalar n = true) l /\ s = encode l.

(** *** Hexadecimal digits *)

Lemma hex_digit_val d : (d < 16)%N -> hex_val (hex_digit d) = Some d.
Proof.
  intros H. assert (forallb (λ d, bool_decide (hex_val (hex_digit d) = Some d)) (map N.of_nat (seq 0 16)) = true) as E by reflexivity.
  rewrite forallb_forall in E. specialize (E d). apply bool_decide_eq_true_1 in E; [done|].
  apply in_map_iff. exists (N.to_nat d). split; [lia|]. apply in_seq. lia.
Qed.
Lemma hex4_spec n r : (n < 65536)%N -> exists a b c d, hex4 n +:+ r = String a (String b (String c (String d r))) /\
  hex4_val a b c d = Some n.
Proof.
  intros H. unfold hex4, hex2. rewrite !Str.app_cons, !Str.app_nil_l. do 4 eexists. split; [reflexivity|].
  unfold hex4_val. rewrite !hex_digit_val by (zify; Z.to_euclidean_division_equations; lia).
  cbn [mbind option_bind]. f_equal. zify; Z.to_euclidean_division_equations; lia.
Qed.

(** *** The printer on a code point *)

(** What the printer makes of a code point *)
Definition escape (n : N) : string :=
  if (n <? 128)%N then escape_go 0 0 (String (ascii_of_N n) "") else u_escape n.

Lemma byte_N n : (n < 256)%N -> N_of_ascii (ascii_of_N n) = n.
Proof. apply N_ascii_embedding. Qed.
Lemma escape_ascii c r : (N_of_ascii c <? 128)%N = true ->
  escape_go 0 0 (String c r) = escape_go 0 0 (String c "") +:+ escape_go 0 0 r.
Proof.
  intros H. simpl. rewrite H. by rewrite Str.app_nil_r.
Qed.
Lemma escape_two n r : (128 <= n < 2048)%N -> escape_go 0 0 (utf8 n +:+ r) = u_escape n +:+ escape_go 0 0 r.
Proof.
  intros H. unfold utf8. destruct (n <? 128)%N eqn:E1; [lia|]. destruct (n <? 2048)%N eqn:E2; [|lia].
  rewrite !Str.app_cons, Str.app_nil_l. cbn [escape_go].
  rewrite !byte_N by (zify; Z.to_euclidean_division_equations; lia).
  destruct (192 + n / 64 <? 128)%N eqn:E3; [zify; Z.to_euclidean_division_equations; lia|].
  destruct (192 + n / 64 <? 224)%N eqn:E4; [|zify; Z.to_euclidean_division_equations; lia].
  f_equal. f_equal. zify; Z.to_euclidean_division_equations; lia.
Qed.
Lemma escape_three n r : (2048 <= n < 65536)%N -> escape_go 0 0 (utf8 n +:+ r) = u_escape n +:+ escape_go 0 0 r.
Proof.
  intros H. unfold utf8. destruct (n <? 128)%N eqn:E1; [lia|]. destruct (n <? 2048)%N eqn:E2; [lia|].
  destruct (n <? 65536)%N eqn:E0; [|lia]. rewrite !Str.app_cons, Str.app_nil_l. cbn [escape_go].
  rewrite !byte_N by (zify; Z.to_euclidean_division_equations; lia).
  destruct (224 + n / 4096 <? 128)%N eqn:E3; [zify; Z.to_euclidean_division_equations; lia|].
  destruct (224 + n / 4096 <? 224)%N eqn:E4; [zify; Z.to_euclidean_division_equations; lia|].
  destruct (224 + n / 4096 <? 240)%N eqn:E5; [|zify; Z.to_euclidean_division_equations; lia].
  f_equal. f_equal. zify; Z.to_euclidean_division_equations; lia.
Qed.
Lemma escape_four n r : (65536 <= n < 1114112)%N -> escape_go 0 0 (utf8 n +:+ r) = u_escape n +:+ escape_go 0 0 r.
Proof.
  intros H. unfold utf8. destruct (n <? 128)%N eqn:E1; [lia|]. destruct (n <? 2048)%N eqn:E2; [lia|].
  destruct (n <? 65536)%N eqn:E0; [lia|]. rewrite !Str.app_cons, Str.app_nil_l. cbn [escape_go].
  rewrite !byte_N by (zify; Z.to_euclidean_division_equations; lia).
  destruct (240 + n / 262144 <? 128)%N eqn:E3; [zify; Z.to_euclidean_division_equations; lia|].
  destruct (240 + n / 262144 <? 224)%N eqn:E4; [zify; Z.to_euclidean_division_equations; lia|].
  destruct (240 + n / 262144 <? 240)%N eqn:E5; [zify; Z.to_euclidean_division_equations; lia|].
  f_equal. f_equal. zify; Z.to_euclidean_division_equations; lia.
Qed.
Lemma escape_point n r : scalar n = true -> escape_go 0 0 (utf8 n +:+ r) = escape n +:+ escape_go 0 0 r.
Proof.
  intros H. unfold scalar in H. unfold escape. destruct (n <? 128)%N eqn:E.
  - unfold utf8. rewrite E. rewrite Str.app_char. apply escape_ascii. rewrite byte_N by lia. exact E.
  - assert (n < 2048 \/ 2048 <= n < 65536 \/ 65536 <= n < 1114112)%N as [Hn|[Hn|Hn]] by lia;
      [apply escape_two; lia|by apply escape_three|by apply escape_four].
Qed.

(** *** The reader on what was printed *)

Lemma u_cons s : "\u" +:+ s = String bslash (String "u" s).
Proof. done. Qed.
Lemma parse_u n r t q : (n < 65536)%N -> is_high n = false -> parse_chars r = Some (t, q) ->
  parse_chars ("\u" +:+ hex4 n +:+ r) = Some (utf8 n +:+ t, q).
Proof.
  intros Hn Hh Hr. destruct (hex4_spec n r Hn) as (a & b & c & d & -> & Hv).
  change ("\u" +:+ String a (String b (String c (String d r)))) with
    (String bslash (String "u" (String a (String b (String c (String d r)))))).
  cbn [parse_chars]. change (Ascii.eqb bslash dquote) with false. change (Ascii.eqb bslash bslash) with true.
  change (Ascii.eqb "u" "u") with true. cbv iota. rewrite Hv.
  destruct r as [|c1 [|c2 [|c3 [|c4 [|c5 [|c6 r6]]]]]]; rewrite ?Hh; cbn [andb]; by rewrite Hr.
Qed.
Lemma parse_pair n r t q : (65536 <= n < 1114112)%N -> parse_chars r = Some (t, q) ->
  parse_chars (u_escape n +:+ r) = Some (utf8 n +:+ t, q).
Proof.
  intros Hn Hr. unfold u_escape. destruct (n <? 65536)%N eqn:E; [lia|]. cbv zeta. rewrite !Str.app_assoc.
  set (hi := (55296 + (n - 65536) / 1024)%N). set (lo := (56320 + (n - 65536) mod 1024)%N).
  assert (55296 <= hi <= 56319)%N as Hhi by (unfold hi; zify; Z.to_euclidean_division_equations; lia).
  assert (56320 <= lo <= 57343)%N as Hlo by (unfold lo; zify; Z.to_euclidean_division_equations; lia).
  assert (65536 + (hi - 55296) * 1024 + (lo - 56320) = n)%N as Hback by (unfold hi, lo; zify; Z.to_euclidean_division_equations; lia).
  clearbody hi lo. destruct (hex4_spec lo r) as (a & b & c & d & -> & Hv); [lia|].
  rewrite !u_cons. destruct (hex4_spec hi (String bslash (String "u" (String a (String b (String c (String d r)))))))
    as (a' & b' & c' & d' & -> & Hv'); [lia|].
  cbn [parse_chars]. change (Ascii.eqb bslash dquote) with false. change (Ascii.eqb bslash bslash) with true.
  change (Ascii.eqb "u" "u") with true. cbv iota. rewrite Hv', Hv, Hr.
  assert (is_high hi = true) as -> by (unfold is_high; lia). assert (is_low lo = true) as -> by (unfold is_low; lia).
  cbn [andb mbind option_bind]. by rewrite Hback.
Qed.

Definition control (n : N) : bool :=
  (n <? 32)%N && negb ((n =? 8) || (n =? 9) || (n =? 10) || (n =? 12) || (n =? 13))%N.
Lemma parse_ascii n r t q : (n < 128)%N -> control n = false -> parse_chars r = Some (t, q) ->
  parse_chars (escape n +:+ r) = Some (utf8 n +:+ t, q).
Proof.
  intros Hn Hc Hr.
  assert (n ∈ map N.of_nat (seq 0 128)) as Hin.
  { apply list_elem_of_In, in_map_iff. exists (N.to_nat n). split; [lia|]. apply in_seq. lia. }
  enough (Forall (λ n, control n = false -> parse_chars (escape n +:+ r) = Some (utf8 n +:+ t, q)) (map N.of_nat (seq 0 128)))
    as Hf by (rewrite Forall_forall in Hf; by apply Hf).
  let l := eval vm_compute in (map N.of_nat (seq 0 128)) in change (map N.of_nat (seq 0 128)) with l. clear -Hr.
  repeat (apply List.Forall_cons; [intros Hc; first [discriminate Hc
    |match goal with |- parse_chars (escape ?k +:+ _) = _ =>
       let e := eval vm_compute in (escape k) in change (escape k) with e;
       let u := eval vm_compute in (utf8 k) in change (utf8 k) with u end;
     rewrite ?Str.app_cons, ?Str.app_nil_l; cbn [parse_chars]; rewrite Hr; reflexivity]|]). constructor.
Qed.
Lemma parse_control n r t q : control n = true -> parse_chars r = Some (t, q) ->
  parse_chars (escape n +:+ r) = Some (utf8 n +:+ t, q).
Proof.
  intros Hc Hr. unfold control in Hc.
  assert (escape n = "\u" +:+ hex4 n) as ->.
  { assert (forallb (λ k, negb (control k) || String.eqb (escape k) ("\u" +:+ hex4 k)) (map N.of_nat (seq 0 32)) = true) as E by reflexivity.
    rewrite forallb_forall in E. specialize (E n). unfold control in E. rewrite Hc in E. apply String.eqb_eq, E.
    apply in_map_iff. exists (N.to_nat n). split; [lia|]. apply in_seq. lia. }
  rewrite Str.app_assoc. apply parse_u; [lia|unfold is_high; lia|done].
Qed.
Lemma parse_point n r t q : scalar n = true -> parse_chars r = Some (t, q) ->
  parse_chars (escape n +:+ r) = Some (utf8 n +:+ t, q).
Proof.
  intros Hs Hr. unfold scalar in Hs. destruct (n <? 128)%N eqn:E.
  - destruct (control n) eqn:Ec; [by apply parse_control|]. apply parse_ascii; [lia|done|done].
  - unfold escape. rewrite E. destruct (n <? 65536)%N eqn:E2; [|apply parse_pair; [lia|done]].
    unfold u_escape. rewrite E2, Str.app_assoc. apply parse_u; [lia|unfold is_high; lia|done].
Qed.

Lemma parse_quoted s r : text s -> parse_chars (escape_go 0 0 s +:+ String dquote r) = Some (s, r).
Proof.
  intros (l & Hl & ->). induction Hl as [|n l Hn Hl IH]; [done|]. cbn [encode].
  rewrite escape_point, Str.app_assoc by done. by apply parse_point.
Qed.

(** ** Numbers *)

(** The value of decimal digits after the value of the digits before them *)
Fixpoint uval (acc : Z) (d : Decimal.uint) : Z :=
  match d with
  | Decimal.Nil => acc
  | Decimal.D0 d => uval (10 * acc + 0) d | Decimal.D1 d => uval (10 * acc + 1) d | Decimal.D2 d => uval (10 * acc + 2) d
  | Decimal.D3 d => uval (10 * acc + 3) d | Decimal.D4 d => uval (10 * acc + 4) d | Decimal.D5 d => uval (10 * acc + 5) d
  | Decimal.D6 d => uval (10 * acc + 6) d | Decimal.D7 d => uval (10 * acc + 7) d | Decimal.D8 d => uval (10 * acc + 8) d
  | Decimal.D9 d => uval (10 * acc + 9) d
  end.
Lemma digits_uval d acc : Str.digits_val acc (NilEmpty.string_of_uint d) = Some (uval acc d).
Proof. revert acc. induction d as [|d IH|d IH|d IH|d IH|d IH|d IH|d IH|d IH|d IH|d IH]; intros acc; simpl; [done|..]; apply IH. Qed.
Lemma uval_revapp d : forall e, Z.of_N (Unsigned.of_lu (Decimal.revapp d e)) = uval (Z.of_N (Unsigned.of_lu e)) d.
Proof.
  induction d as [|d IH|d IH|d IH|d IH|d IH|d IH|d IH|d IH|d IH|d IH]; intros e; cbn [Decimal.revapp uval]; [done|..];
    rewrite IH; f_equal; cbn [Unsigned.of_lu]; lia.
Qed.
Lemma uval_pos p : uval 0 (Pos.to_uint p) = Z.pos p.
Proof.
  change 0 with (Z.of_N (Unsigned.of_lu Decimal.Nil)). rewrite <-uval_revapp.
  change (Decimal.revapp (Pos.to_uint p) Decimal.Nil) with (Decimal.rev (Pos.to_uint p)).
  rewrite <-Unsigned.of_uint_alt, Unsigned.of_to. done.
Qed.

Definition digits_only (s : string) : bool := Str.all_chars Str.is_digit s.
Lemma uint_digits d : digits_only (NilEmpty.string_of_uint d) = true.
Proof. unfold digits_only. induction d as [|d IH|d IH|d IH|d IH|d IH|d IH|d IH|d IH|d IH|d IH]; simpl; [done|..]; by rewrite Str.all_chars_cons, IH. Qed.

(** What may follow a number: nothing that a longer number would have *)
Definition ends_number (r : string) : bool :=
  match r with
  | String c _ => negb (Str.is_digit c || Ascii.eqb c "." || Ascii.eqb c "e" || Ascii.eqb c "E")
  | EmptyString => true
  end.
Lemma span_digits_app s r : digits_only s = true -> ends_number r = true -> span_digits (s +:+ r) = (s, r).
Proof.
  intros Hs Hr. induction s as [|c s IH].
  - destruct r as [|c r]; [done|]. unfold ends_number in Hr. simpl. by destruct (Str.is_digit c).
  - unfold digits_only in *. rewrite Str.all_chars_cons in Hs. apply andb_prop in Hs as [Hc Hs].
    rewrite Str.app_cons. simpl. by rewrite Hc, IH.
Qed.

(** The text of a positive number: a digit that is no zero, and digits *)
Lemma pos_text p : exists c s, NilZero.string_of_uint (Pos.to_uint p) = String c s /\ Ascii.eqb c "0" = false /\
  Str.is_digit c = true /\ digits_only s = true /\ Str.digits_val 0 (String c s) = Some (Z.pos p).
Proof.
  assert (Pos.to_uint p = Decimal.nzhead (Pos.to_uint p)) as Hn.
  { pose proof (Unsigned.to_of (Pos.to_uint p)) as H. rewrite Unsigned.of_to in H. cbn [N.to_uint] in H.
    rewrite H at 1. unfold Decimal.unorm. destruct (Decimal.nzhead (Pos.to_uint p)) eqn:E; try done.
    exfalso. unfold Decimal.unorm in H. rewrite E in H. pose proof (uval_pos p) as Hv. by rewrite H in Hv. }
  pose proof (nzhead_nonzero (Pos.to_uint p)) as Hz. rewrite <-Hn in Hz.
  pose proof (uval_pos p) as Hv. pose proof (digits_uval (Pos.to_uint p) 0) as Hd. rewrite Hv in Hd. clear Hn Hv.
  destruct (Pos.to_uint p) as [|d|d|d|d|d|d|d|d|d|d]; [done|by destruct (Hz d)|..];
    (eexists _, (NilEmpty.string_of_uint d); do 3 (split; [reflexivity|]); split; [apply uint_digits|exact Hd]).
Qed.

Lemma ends_head c r : ends_number (String c r) = true ->
  Ascii.eqb c "." = false /\ Ascii.eqb c "e" = false /\ Ascii.eqb c "E" = false.
Proof.
  unfold ends_number. intros Hr%negb_true_iff. apply orb_false_elim in Hr as [Hr E2]. apply orb_false_elim in Hr as [Hr E1].
  by apply orb_false_elim in Hr as [_ E0].
Qed.
Lemma parse_pos p (neg : bool) r : ends_number r = true ->
  parse_number ((if neg then "-" else "") +:+ NilZero.string_of_uint (Pos.to_uint p) +:+ r) =
  Some (VInt (if neg then Z.neg p else Z.pos p), r).
Proof.
  intros Hr. destruct (pos_text p) as (c & s & -> & H0 & Hd & Hs & Hv).
  assert (Ascii.eqb c "-" = false) as Hm by (destruct (Ascii.eqb_spec c "-") as [->|]; [done|done]).
  assert (span_digits (String c s +:+ r) = (String c s, r)) as Hsp.
  { apply span_digits_app; [|done]. unfold digits_only in *. by rewrite Str.all_chars_cons, Hd. }
  rewrite Str.app_cons in *. unfold parse_number.
  destruct neg; [rewrite Str.app_cons, Str.app_nil_l; change (Ascii.eqb "-" "-") with true; cbv iota|rewrite Str.app_nil_l, Hm];
    rewrite H0, Hsp; unfold Str.parse_nat; rewrite Hv; (destruct r as [|x r]; [done|]); apply ends_head in Hr as (E0 & E1 & E2);
    repeat (case_match; simplify_eq/=; try congruence); try done; by (rewrite E1, E2 in *).
Qed.
Lemma parse_of_Z z r : ends_number r = true -> parse_number (Str.of_Z z +:+ r) = Some (VInt z, r).
Proof.
  intros Hr. destruct z as [|p|p]; unfold Str.of_Z; cbn [Z.to_int NilZero.string_of_int].
  - change (NilZero.string_of_uint (Pos.to_uint 1)) with "1". change (NilZero.string_of_uint (Decimal.D0 Decimal.Nil) +:+ r) with (String "0" r).
    destruct r as [|c r]; [done|]. apply ends_head in Hr as (E0 & E1 & E2). unfold parse_number.
    change (Ascii.eqb "0" "-") with false. change (Ascii.eqb "0" "0") with true. cbv iota. change (Str.parse_nat "0") with (Some 0).
    repeat (case_match; simplify_eq/=; try congruence); try done; by (rewrite E1, E2 in *).
  - by apply (parse_pos p false).
  - rewrite Str.app_cons. by apply (parse_pos p true).
Qed.

(** ** Documents *)

(** What the printer and the reader agree on *)
#[warnings="-register-all"] Inductive printable : val -> Prop :=
  | pr_none : printable VNone
  | pr_bool b : printable (VBool b)
  | pr_int z : printable (VInt z)
  | pr_str s : text s -> printable (VStr s)
  | pr_list l : Forall printable l -> printable (VList l)
  | pr_dict d : NoDup (Dict.keys d) -> Forall (λ kx, text kx.1 /\ printable kx.2) d -> printable (VDict d).

Definition by_key {A} (d : list (string * A)) : list (string * A) :=
  default d (sort_by (λ a b, Some (Str.ltb a.1 b.1)) d).
Definition arranged {A} (st : style) (d : list (string * A)) : list (string * A) :=
  if sort_keys st then by_key d else d.
(** The document with the keys of its dicts in the printer's order *)
Fixpoint read_back (st : style) (v : val) : val :=
  match v with
  | VList l => VList (map (read_back st) l)
  | VDict d => VDict (arranged st (map (λ '(k, x), (k, read_back st x)) d))
  | _ => v
  end.

Lemma insert_front_map {A B} (f : A -> B) ltA ltB x l : (forall a b, ltB (f a) (f b) = ltA a b) ->
  insert_front ltB (f x) (map f l) = option_map (map f) (insert_front ltA x l).
Proof.
  intros Hf. induction l as [|y l IH]; [done|]. simpl. rewrite Hf. destruct (ltA y x) as [[]|]; [|done|done].
  rewrite IH. by destruct (insert_front ltA x l).
Qed.
Lemma sort_by_map {A B} (f : A -> B) ltA ltB l : (forall a b, ltB (f a) (f b) = ltA a b) ->
  sort_by ltB (map f l) = option_map (map f) (sort_by ltA l).
Proof.
  intros Hf. induction l as [|x l IH]; [done|]. simpl. rewrite IH. destruct (sort_by ltA l) as [s|]; [|done]. simpl.
  by apply insert_front_map.
Qed.
Lemma arranged_map {A B} st (f : A -> B) d :
  arranged st (map (λ '(k, x), (k, f x)) d) = map (λ kx, (kx.1, f kx.2)) (arranged st d).
Proof.
  assert (map (λ '(k, x), (k, f x)) d = map (λ kx, (kx.1, f kx.2)) d) as -> by (apply map_ext; by intros []).
  unfold arranged, by_key. destruct (sort_keys st); [|done].
  rewrite (sort_by_map (λ kx, (kx.1, f kx.2)) (λ a b, Some (Str.ltb a.1 b.1))) by done.
  by destruct (sort_by _ d).
Qed.
Lemma arranged_perm {A} st (d : list (string * A)) : arranged st d ≡ₚ d.
Proof.
  unfold arranged, by_key. destruct (sort_keys st); [|done]. destruct (sort_by _ d) eqn:E; [|done]. by apply sort_by_perm in E.
Qed.

(** *** Blank text *)

Definition blank (s : string) : bool := Str.all_chars is_ws s.
Lemma skip_blank a r : blank a = true -> skip_ws (a +:+ r) = skip_ws r.
Proof.
  intros Ha. induction a as [|c a IH]; [done|]. unfold blank in *. rewrite Str.all_chars_cons in Ha.
  apply andb_prop in Ha as [Hc Ha]. rewrite Str.app_cons. simpl. by rewrite Hc, IH.
Qed.
Lemma blank_newline st n : blank (newline st n) = true.
Proof.
  unfold newline. destruct (indent st) as [k|]; [|done]. unfold blank. rewrite Str.all_chars_cons.
  change (is_ws (ascii_of_N 10)) with true. cbn [andb]. generalize (k * n)%nat. intros m.
  induction m as [|m IH]; [done|]. simpl repeat. destruct m; [done|]. exact IH.
Qed.
Lemma blank_ends a r : blank a = true -> ends_number r = true -> ends_number (a +:+ r) = true.
Proof.
  intros Ha Hr. destruct a as [|c a]; [done|]. unfold blank in Ha. rewrite Str.all_chars_cons in Ha.
  apply andb_prop in Ha as [Hc _]. rewrite Str.app_cons. revert Hc. clear. by destruct c as [[] [] [] [] [] [] [] []].
Qed.

(** The separators of a style: a comma or a colon and blanks *)
Definition good_style (st : style) : Prop := exists a b, item_sep st = String "," a /\ key_sep st = String ":" b /\
  blank a = true /\ blank b = true.
Lemma good_pretty : good_style pretty.
Proof. by exists "", " ". Qed.
Lemma good_compact : good_style compact.
Proof. by exists "", "". Qed.
Lemma good_plain : good_style plain_sorted.
Proof. by exists " ", " ". Qed.

(** The first character of a printed value *)
Definition starts_value (c : ascii) : bool := negb (is_ws c || Ascii.eqb c "]").
Lemma pos_head p : exists c t, NilZero.string_of_uint (Pos.to_uint p) = String c t /\ Str.is_digit c = true.
Proof. destruct (pos_text p) as (c & t & E & _ & Hd & _). by exists c, t. Qed.
Lemma int_head z : exists c t, Str.of_Z z = String c t /\ (Str.is_digit c = true \/ (c = "-"%char /\ exists d t', t = String d t' /\ Str.is_digit d = true)).
Proof.
  destruct z as [|p|p]; unfold Str.of_Z; cbn [Z.to_int NilZero.string_of_int].
  - exists "0"%char, "". split; [done|by left].
  - destruct (pos_head p) as (c & t & -> & Hd). exists c, t. split; [done|by left].
  - destruct (pos_head p) as (c & t & -> & Hd). exists "-"%char, (String c t). split; [done|]. right. split; [done|]. by exists c, t.
Qed.
Lemma dump_head st lvl v : printable v -> exists c t, dump st lvl v = String c t /\ starts_value c = true.
Proof.
  destruct 1 as [|b|z|s Hs|l Hl|d Hn Hd].
  - by exists "n"%char, "ull".
  - destruct b; simpl; eauto.
  - destruct (int_head z) as (c & t & E & Hc). exists c, t. split; [done|].
    destruct Hc as [Hc|[-> _]]; [|done]. revert Hc. clear. by destruct c as [[] [] [] [] [] [] [] []].
  - simpl. unfold quote. eauto.
  - destruct l; simpl; rewrite ?Str.app_cons, ?Str.app_nil_l; eauto.
  - destruct d; simpl; rewrite ?Str.app_cons, ?Str.app_nil_l; eauto.
Qed.
Lemma skip_dump st lvl v r : printable v -> skip_ws (dump st lvl v +:+ r) = dump st lvl v +:+ r.
Proof.
  intros H. destruct (dump_head st lvl v H) as (c & t & -> & Hc). rewrite Str.app_cons. simpl.
  unfold starts_value in Hc. by destruct (is_ws c).
Qed.

Lemma value_const n c s : Ascii.eqb c dquote = false -> Ascii.eqb c "[" = false -> Ascii.eqb c "{" = false ->
  parse_value (S n) (String c s) = match parse_const (String c s) with Some x => Some x | None => parse_number (String c s) end.
Proof. intros H1 H2 H3. cbn [parse_value]. by rewrite H1, H2, H3. Qed.
Lemma parse_int n z r : ends_number r = true -> parse_value (S n) (Str.of_Z z +:+ r) = Some (VInt z, r).
Proof.
  intros Hr. pose proof (parse_of_Z z r Hr) as E. destruct (int_head z) as (c & t & Ez & Hc). rewrite Ez in *.
  rewrite Str.app_cons in *.
  assert (Ascii.eqb c dquote = false /\ Ascii.eqb c "[" = false /\ Ascii.eqb c "{" = false) as (H1 & H2 & H3).
  { destruct Hc as [Hc|[-> _]]; [|done]. revert Hc. clear. by destruct c as [[] [] [] [] [] [] [] []]. }
  rewrite value_const by done. assert (parse_const (String c (t +:+ r)) = None) as ->; [|done].
  destruct Hc as [Hc|[-> (d & t' & -> & Hd)]].
  - unfold parse_const. revert Hc. clear. by destruct c as [[] [] [] [] [] [] [] []].
  - rewrite Str.app_cons. unfold parse_const. revert Hd. clear. by destruct d as [[] [] [] [] [] [] [] []].
Qed.
Lemma parse_str n s r : text s -> parse_value (S n) (quote s +:+ r) = Some (VStr s, r).
Proof.
  intros Hs. unfold quote. rewrite Str.app_cons, Str.app_assoc, Str.app_char. cbn [parse_value].
  change (Ascii.eqb dquote dquote) with true. cbv iota. by rewrite parse_quoted.
Qed.

(** *** Enough fuel *)

Fixpoint size (v : val) : nat :=
  match v with
  | VList l => (2 + list_sum (map (λ x, S (size x)) l))%nat
  | VDict d => (2 + list_sum (map (λ '(_, x), S (size x)) d))%nat
  | _ => 1%nat
  end.
Definition sizes (l : list val) : nat := list_sum (map (λ x, S (size x)) l).
Lemma size_dict d : size (VDict d) = (2 + sizes (map snd d))%nat.
Proof. simpl. unfold sizes. rewrite map_map. do 3 f_equal. apply map_ext. by intros []. Qed.
Lemma sizes_cons v l : sizes (v :: l) = (S (size v) + sizes l)%nat.
Proof. done. Qed.
Lemma sizes_perm l m : l ≡ₚ m -> sizes l = sizes m.
Proof. unfold sizes. induction 1; simpl; lia. Qed.

(** *** The rest of a list and of a dict *)

Section Rest.
Context (st : style) (lvl : nat).
Definition reads_at (v : val) : Prop := forall n r, (size v <= n)%nat -> ends_number r = true ->
  parse_value n (dump st lvl v +:+ r) = Some (read_back st v, r).

Context (sep : string) (Hsep : exists a, item_sep st +:+ sep = String "," a /\ blank a = true) (nl : string) (Hnl : blank nl = true).

Lemma after_item (close : ascii) rest : close = "]"%char \/ close = "}"%char -> ends_number (nl +:+ String close rest) = true.
Proof using Hnl. intros Hc. apply blank_ends; [done|]. by destruct Hc as [-> | ->]. Qed.
Lemma comma_ends r : ends_number (item_sep st +:+ sep +:+ r) = true.
Proof using Hsep. destruct Hsep as (a & E & _). by rewrite <-Str.app_assoc, E, Str.app_cons. Qed.

Lemma elems_read l : forall n acc r, l <> [] -> Forall (λ v, printable v /\ reads_at v) l -> (1 + sizes l <= n)%nat ->
  parse_elems n acc (Str.join (item_sep st +:+ sep) (map (dump st lvl) l) +:+ nl +:+ String "]" r) =
  Some (VList (acc ++ map (read_back st) l), r).
Proof using Hsep Hnl.
  induction l as [|v l IH]; intros n acc r Hne Hl Hn; [done|]. apply Forall_cons in Hl as [[Hv Hr] Hl].
  rewrite sizes_cons in Hn. destruct n as [|k]; [lia|]. cbn [parse_elems].
  destruct l as [|v2 l].
  - cbn [map Str.join]. rewrite Hr; [|lia|apply (after_item "]"); by left]. cbn [mbind option_bind].
    rewrite skip_blank by done. done.
  - change (Str.join (item_sep st +:+ sep) (map (dump st lvl) (v :: v2 :: l))) with
      (dump st lvl v +:+ (item_sep st +:+ sep) +:+ Str.join (item_sep st +:+ sep) (map (dump st lvl) (v2 :: l))).
    rewrite !Str.app_assoc. rewrite Hr; [|lia|apply comma_ends]. cbn [mbind option_bind].
    rewrite <-(Str.app_assoc (item_sep st)). destruct Hsep as (a & E & Ha). rewrite E, Str.app_cons. cbn [skip_ws].
    change (is_ws ",") with false. cbv iota. change (Ascii.eqb "," "]") with false. change (Ascii.eqb "," ",") with true. cbv iota.
    rewrite skip_blank by done.
    assert (forall u, skip_ws (Str.join (String "," a) (map (dump st lvl) (v2 :: l)) +:+ u) =
      Str.join (String "," a) (map (dump st lvl) (v2 :: l)) +:+ u) as ->.
    { intros u. apply Forall_cons in Hl as [[Hv2 _] _]. cbn [map Str.join]. destruct (map (dump st lvl) l) as [|t ts];
        [|rewrite !Str.app_assoc]; by apply skip_dump. }
    rewrite <-E. rewrite IH; [|done|done|lia]. by rewrite <-app_assoc.
Qed.

Definition member (kx : string * val) : string := quote kx.1 +:+ key_sep st +:+ dump st lvl kx.2.
Lemma set_fresh (k : string) (x : val) acc : k ∉ Dict.keys acc -> Dict.set k x acc = acc ++ [(k, x)].
Proof.
  induction acc as [|[k' x'] acc IH]; simpl; [done|]. intros Hk. apply not_elem_of_cons in Hk as [Hne Hk].
  destruct (String.eqb_spec k k'); [done|]. by rewrite IH.
Qed.

Lemma members_read (Hst : good_style st) d : forall n acc r, d <> [] -> NoDup (Dict.keys acc ++ Dict.keys d) ->
  Forall (λ kx, text kx.1 /\ printable kx.2 /\ reads_at kx.2) d -> (1 + sizes (map snd d) <= n)%nat ->
  parse_members n acc (Str.join (item_sep st +:+ sep) (map member d) +:+ nl +:+ String "}" r) =
  Some (VDict (acc ++ map (λ kx, (kx.1, read_back st kx.2)) d), r).
Proof using Hsep Hnl.
  induction d as [|[k v] d IH]; intros n acc r Hne Hnd Hl Hn; [done|]. apply Forall_cons in Hl as [(Hk & Hv & Hr) Hl].
  cbn [fst snd] in *. change (map snd ((k, v) :: d)) with (v :: map snd d) in Hn. rewrite sizes_cons in Hn. destruct n as [|m]; [lia|].
  assert (k ∉ Dict.keys acc) as Hfresh.
  { intros Hin. apply NoDup_app in Hnd as (_ & Hd & _). apply (Hd k Hin). by left. }
  destruct Hst as (a & b & Ea & Eb & Hba & Hbb).
  assert (forall rest, ends_number rest = true -> parse_members (S m) acc (member (k, v) +:+ rest) =
    match skip_ws rest with
    | String e q3 => if Ascii.eqb e "}" then Some (VDict (acc ++ [(k, read_back st v)]), q3)
                     else if Ascii.eqb e "," then parse_members m (acc ++ [(k, read_back st v)]) (skip_ws q3) else None
    | EmptyString => None
    end) as Hstep.
  { intros rest Hrest. unfold member. cbn [fst snd]. unfold quote. rewrite !Str.app_assoc, Str.app_cons, Str.app_assoc, Str.app_char.
    cbn [parse_members]. change (Ascii.eqb dquote dquote) with true. cbv iota. rewrite parse_quoted by done. cbn [mbind option_bind].
    rewrite Eb, Str.app_cons. cbn [skip_ws]. change (is_ws ":") with false. cbv iota. change (Ascii.eqb ":" ":") with true. cbv iota.
    rewrite skip_blank, skip_dump by done. rewrite Hr; [|lia|done]. cbn [mbind option_bind]. by rewrite set_fresh. }
  destruct d as [|kx d].
  - cbn [map Str.join]. rewrite Hstep; [|apply (after_item "}"); by right]. by rewrite skip_blank.
  - change (Str.join (item_sep st +:+ sep) (map member ((k, v) :: kx :: d))) with
      (member (k, v) +:+ (item_sep st +:+ sep) +:+ Str.join (item_sep st +:+ sep) (map member (kx :: d))).
    rewrite !Str.app_assoc. rewrite Hstep; [|apply comma_ends].
    rewrite <-(Str.app_assoc (item_sep st)). destruct Hsep as (a' & E & Ha'). rewrite E, Str.app_cons. cbn [skip_ws].
    change (is_ws ",") with false. cbv iota. change (Ascii.eqb "," "}") with false. change (Ascii.eqb "," ",") with true. cbv iota.
    rewrite skip_blank by done.
    assert (forall u, skip_ws (Str.join (String "," a') (map member (kx :: d)) +:+ u) = Str.join (String "," a') (map member (kx :: d)) +:+ u) as ->.
    { intros u. cbn [map Str.join]. by destruct (map member d). }
    rewrite <-E. rewrite IH; [by rewrite <-app_assoc|done| |done|lia].
    unfold Dict.keys in *. rewrite map_app. simpl in *. by rewrite <-app_assoc.
Qed.
End Rest.

Section Read.
Context (st : style) (Hst : good_style st).

Lemma sep_newline n : exists a, item_sep st +:+ newline st n = String "," a /\ blank a = true.
Proof using Hst.
  destruct Hst as (a & b & -> & _ & Ha & _). exists (a +:+ newline st n). rewrite Str.app_cons. split; [done|].
  unfold blank in *. rewrite Str.all_chars_app, Ha. apply blank_newline.
Qed.

Lemma dict_text lvl d : d <> [] -> dump st lvl (VDict d) =
  "{" +:+ newline st (S lvl) +:+
  Str.join (item_sep st +:+ newline st (S lvl)) (map (member st (S lvl)) (arranged st d)) +:+
  newline st lvl +:+ "}".
Proof.
  intros Hd. destruct d as [|kx d]; [done|]. set (e := kx :: d). cbn [dump]. do 4 f_equal.
  match goal with |- map ?g _ = _ =>
    transitivity (map g (arranged st (map (λ '(k, x), (k, dump st (S lvl) x)) e))); [done|] end.
  rewrite arranged_map, map_map. done.
Qed.

Theorem parse_dump v : printable v -> forall lvl, reads_at st lvl v.
Proof using Hst.
  induction v as [|b|z|f|s|l IH|d IH] using val_ind'; intros Hp lvl n r Hn Hr; inversion Hp; subst;
    (destruct n as [|n]; [simpl in Hn; lia|]).
  - done.
  - by destruct b.
  - by apply parse_int.
  - by apply parse_str.
  - destruct l as [|v l]; [done|].
    assert (Forall (λ v, printable v /\ reads_at st (S lvl) v) (v :: l)) as Hl.
    { rewrite Forall_forall in IH, H0 |- *. intros x Hx. split; [by apply H0|]. apply IH; [done|by apply H0]. }
    change (size (VList (v :: l))) with (2 + sizes (v :: l))%nat in Hn.
    cbn [dump]. rewrite !Str.app_assoc. rewrite Str.app_cons, Str.app_nil_l. cbn [parse_value].
    change (Ascii.eqb "[" dquote) with false. change (Ascii.eqb "[" "[") with true. cbv iota.
    rewrite skip_blank by apply blank_newline.
    pose proof Hl as [[Hv _] _]%Forall_cons. destruct (dump_head st (S lvl) v Hv) as (c & t & Et & Hc).
    assert (exists u, Str.join (item_sep st +:+ newline st (S lvl)) (map (dump st (S lvl)) (v :: l)) +:+ newline st lvl +:+ "]" +:+ r
      = String c u) as [u Eu].
    { cbn [map Str.join]. rewrite Et. destruct (map (dump st (S lvl)) l); rewrite ?Str.app_assoc, ?Str.app_cons; eauto. }
    rewrite Eu. cbn [skip_ws]. unfold starts_value in Hc. apply negb_true_iff, orb_false_elim in Hc as [Hc1 Hc2].
    rewrite Hc1, Hc2, <-Eu. rewrite Str.app_char. cbn [read_back].
    apply (elems_read st (S lvl) _ (sep_newline _) _ (blank_newline _ _)); [done|done|]. lia.
  - destruct d as [|kx d]; [by destruct st as [i a b []]|]. set (e := kx :: d) in *.
    rewrite dict_text by done. rewrite !Str.app_assoc. rewrite Str.app_cons, Str.app_nil_l. cbn [parse_value].
    change (Ascii.eqb "{" dquote) with false. change (Ascii.eqb "{" "[") with false. change (Ascii.eqb "{" "{") with true. cbv iota.
    rewrite skip_blank by apply blank_newline. pose proof (arranged_perm st e) as Hperm.
    assert (arranged st e <> []) as Hne by (intros E; rewrite E in Hperm; by apply Permutation_nil in Hperm).
    assert (exists u, Str.join (item_sep st +:+ newline st (S lvl)) (map (member st (S lvl)) (arranged st e)) +:+ newline st lvl +:+ "}" +:+ r
      = String dquote u) as [u Eu].
    { destruct (arranged st e) as [|m ms]; [done|]. cbn [map Str.join].
      assert (exists t, member st (S lvl) m = String dquote t) as [t ->] by (unfold member, quote; rewrite Str.app_cons; eauto).
      destruct (map (member st (S lvl)) ms); rewrite ?Str.app_assoc, ?Str.app_cons; eauto. }
    rewrite Eu. cbn [skip_ws]. change (is_ws dquote) with false. cbv iota. change (Ascii.eqb dquote "}") with false. cbv iota.
    rewrite <-Eu, Str.app_char. cbn [read_back]. rewrite arranged_map.
    apply (members_read st (S lvl) _ (sep_newline _) _ (blank_newline _ _) Hst _ _ []); [done| | |].
    + change (NoDup (Dict.keys (arranged st e))). unfold Dict.keys. by rewrite (Permutation_map fst Hperm).
    + rewrite Hperm. rewrite Forall_forall in IH, H1 |- *. intros x Hx. destruct (H1 x Hx). do 2 (split; [done|]). by apply IH.
    + rewrite size_dict in Hn. rewrite (sizes_perm (map snd (arranged st e)) (map snd e)); [lia|]. by apply Permutation_map.
Qed.
End Read.

(** *** The length of a text bounds the size of its document *)

Lemma length_app (a b : string) : String.length (a +:+ b) = (String.length a + String.length b)%nat.
Proof. induction a as [|c a IH]; [done|]. rewrite Str.app_cons. simpl. by rewrite IH. Qed.
Lemma length_join (sep : string) l : (1 <= String.length sep)%nat ->
  (list_sum (map (λ t, S (String.length t)) l) <= S (String.length (Str.join sep l)))%nat.
Proof.
  intros Hs. induction l as [|t l IH]; [simpl; lia|]. destruct l as [|t2 l]; [simpl; lia|].
  change (Str.join sep (t :: t2 :: l)) with (t +:+ sep +:+ Str.join sep (t2 :: l)). rewrite !length_app.
  change (list_sum (map (λ t, S (String.length t)) (t :: t2 :: l))) with
    (S (String.length t) + list_sum (map (λ t, S (String.length t)) (t2 :: l)))%nat. lia.
Qed.
Lemma sum_le {A} (f g : A -> nat) l : Forall (λ x, f x <= 2 * g x)%nat l ->
  (list_sum (map (λ x, S (f x)) l) <= 2 * list_sum (map (λ x, S (g x)) l))%nat.
Proof. induction 1; simpl in *; lia. Qed.

Lemma size_length st v : good_style st -> printable v -> forall lvl, (size v <= 2 * String.length (dump st lvl v))%nat.
Proof.
  intros Hst. induction v as [|b|z|f|s|l IH|d IH] using val_ind'; intros Hp lvl; inversion Hp; subst.
  - simpl; lia.
  - destruct b; simpl; lia.
  - destruct (int_head z) as (c & t & E & _). cbn [dump]. rewrite E. simpl. lia.
  - simpl. unfold quote. simpl. lia.
  - destruct l as [|v l]; [simpl; lia|]. cbn [dump]. set (e := v :: l) in *. rewrite !length_app.
    assert (1 <= String.length (item_sep st +:+ newline st (S lvl)))%nat as Hsep.
    { destruct Hst as (a & b & -> & _). rewrite Str.app_cons. simpl. lia. }
    pose proof (length_join _ (map (dump st (S lvl)) e) Hsep) as Hj. rewrite map_map in Hj.
    assert (sizes e <= 2 * list_sum (map (λ x, S (String.length (dump st (S lvl) x))) e))%nat as Hs.
    { apply sum_le. rewrite Forall_forall in IH, H0 |- *. intros x Hx. apply IH; [done|by apply H0]. }
    change (size (VList e)) with (2 + sizes e)%nat. simpl (String.length "["). simpl (String.length "]"). lia.
  - destruct d as [|kx d]; [simpl; lia|]. set (e := kx :: d) in *. rewrite dict_text, !length_app by done.
    assert (1 <= String.length (item_sep st +:+ newline st (S lvl)))%nat as Hsep.
    { destruct Hst as (a & b & -> & _). rewrite Str.app_cons. simpl. lia. }
    pose proof (length_join _ (map (member st (S lvl)) (arranged st e)) Hsep) as Hj. rewrite map_map in Hj.
    pose proof (arranged_perm st e) as Hperm.
    assert (sizes (map snd (arranged st e)) <= 2 * list_sum (map (λ x, S (String.length (member st (S lvl) x))) (arranged st e)))%nat as Hs.
    { unfold sizes. rewrite map_map. apply sum_le. rewrite Hperm. rewrite Forall_forall in IH, H1 |- *.
      intros x Hx. destruct (H1 x Hx) as [_ Hx2]. specialize (IH x Hx Hx2 (S lvl)). unfold member. rewrite !length_app. lia. }
    rewrite (sizes_perm _ _ (Permutation_map snd Hperm)) in Hs.
    rewrite size_dict. simpl (String.length "{"). simpl (String.length "}"). lia.
Qed.

(** [json.loads(json.dumps(v) + blanks)] *)
Theorem loads_dumps st v tail : good_style st -> printable v -> blank tail = true -> ends_number tail = true ->
  loads (dumps st v +:+ tail) = Some (read_back st v).
Proof.
  intros Hst Hv Ht He. unfold loads, dumps. rewrite skip_dump by done.
  rewrite (parse_dump st Hst v Hv 0 _ tail); [| |done].
  - assert (skip_ws tail = "") as ->; [|done]. rewrite <-(Str.app_nil_r tail). by rewrite skip_blank.
  - pose proof (size_length st v Hst Hv 0). rewrite length_app. lia.
Qed.

(** *** The text of a document is ASCII without carriage returns *)

Definition plain_char (c : ascii) : bool := ((N_of_ascii c <? 128) && negb (N_of_ascii c =? 13))%N.
Definition plain (s : string) : bool := Str.all_chars plain_char s.
Lemma plain_app a b : plain (a +:+ b) = plain a && plain b.
Proof. apply Str.all_chars_app. Qed.
Lemma plain_cons c a : plain (String c a) = plain_char c && plain a.
Proof. done. Qed.
Lemma blank_join (sep : string) l : plain sep = true -> Forall (λ t, plain t = true) l -> plain (Str.join sep l) = true.
Proof.
  intros Hs. induction 1 as [|t l Ht Hl IH]; [done|]. destruct l as [|t2 l]; [done|].
  change (Str.join sep (t :: t2 :: l)) with (t +:+ sep +:+ Str.join sep (t2 :: l)). by rewrite !plain_app, Ht, Hs, IH.
Qed.
Lemma plain_newline st n : plain (newline st n) = true.
Proof.
  unfold newline. destruct (indent st) as [k|]; [|done]. rewrite plain_cons. change (plain_char (ascii_of_N 10)) with true.
  apply blank_join; [done|]. apply Forall_forall. intros t Ht%list_elem_of_In. by apply repeat_spec in Ht as ->.
Qed.
Lemma plain_hex4 n : (n < 65536)%N -> plain (hex4 n) = true.
Proof.
  assert (forall d, (d < 16)%N -> plain_char (hex_digit d) = true) as Hd.
  { intros d H. assert (forallb (λ d, plain_char (hex_digit d)) (map N.of_nat (seq 0 16)) = true) as E by reflexivity.
    rewrite forallb_forall in E. apply E, in_map_iff. exists (N.to_nat d). split; [lia|]. apply in_seq. lia. }
  intros H. unfold hex4, hex2. rewrite !Str.app_cons, Str.app_nil_l, !plain_cons.
  rewrite !Hd; [done|..]; zify; Z.to_euclidean_division_equations; lia.
Qed.
Lemma plain_escape n : scalar n = true -> plain (escape n) = true.
Proof.
  unfold scalar. intros H. unfold escape. destruct (n <? 128)%N eqn:E.
  - assert (forallb (λ n, plain (escape_go 0 0 (String (ascii_of_N n) ""))) (map N.of_nat (seq 0 128)) = true) as Ea by (vm_compute; reflexivity).
    rewrite forallb_forall in Ea. apply Ea, in_map_iff. exists (N.to_nat n). split; [lia|]. apply in_seq. lia.
  - unfold u_escape. cbv zeta. destruct (n <? 65536)%N eqn:E2; rewrite !plain_app, !plain_hex4; try done;
      zify; Z.to_euclidean_division_equations; lia.
Qed.
Lemma plain_quote s : text s -> plain (quote s) = true.
Proof.
  intros (l & Hl & ->). unfold quote. rewrite plain_cons, plain_app. change (plain_char dquote) with true.
  change (plain (String dquote "")) with true. rewrite andb_true_r. cbn [andb].
  induction Hl as [|n l Hn Hl IH]; [done|]. cbn [encode]. by rewrite escape_point, plain_app, plain_escape.
Qed.
Lemma plain_digits s : digits_only s = true -> plain s = true.
Proof. apply Str.all_chars_impl. intros c. by destruct c as [[] [] [] [] [] [] [] []]. Qed.
Lemma plain_of_Z z : plain (Str.of_Z z) = true.
Proof.
  destruct z as [|p|p]; unfold Str.of_Z; cbn [Z.to_int NilZero.string_of_int]; [done|..];
    destruct (pos_text p) as (c & t & -> & _ & Hd & Ht & _); rewrite ?plain_cons, (plain_digits t Ht);
    [|change (plain_char "-") with true]; clear -Hd; by destruct c as [[] [] [] [] [] [] [] []].
Qed.

Lemma plain_dump st v : plain (item_sep st) = true -> plain (key_sep st) = true -> printable v ->
  forall lvl, plain (dump st lvl v) = true.
Proof.
  intros Hi Hk. induction v as [|b|z|f|s|l IH|d IH] using val_ind'; intros Hp lvl; inversion Hp; subst.
  - done.
  - by destruct b.
  - apply plain_of_Z.
  - by apply plain_quote.
  - destruct l as [|v l]; [done|]. cbn [dump]. set (e := v :: l) in *. rewrite !plain_app, !plain_newline.
    rewrite blank_join; [done|by rewrite plain_app, Hi, plain_newline|]. apply Forall_map.
    rewrite Forall_forall in IH, H0 |- *. intros x Hx. apply IH; [done|by apply H0].
  - destruct d as [|kx d]; [done|]. set (e := kx :: d) in *. rewrite dict_text by done. rewrite !plain_app, !plain_newline.
    rewrite blank_join; [done|by rewrite plain_app, Hi, plain_newline|]. apply Forall_map. rewrite arranged_perm.
    rewrite Forall_forall in IH, H1 |- *. intros x Hx. destruct (H1 x Hx) as [Hx1 Hx2]. unfold member.
    rewrite !plain_app, plain_quote, Hk by done. by apply IH.
Qed.
End JsonFacts.
