(* ===== verification/PyOs.v ===== *)
(** * The host: paths, files, clocks, processes

    The state the scripts act on is a [world]: a file system with directories,
    files and symbolic links, the working directory, the environment, the
    clocks, the two output streams and the log of the processes started. What
    the scripts do not contain (the programs they start, the jsonschema
    package, the host's accounts and clocks) is the [Platform], a parameter. *)

From Stdlib Require Import Ascii.
From S2P Require Import Prelude PyFloat PyMonad PyValue PyTime PyJson PyCodecs Sha256.

(** ** [pathlib] paths *)

Record path := MkPath { absolute : bool; parts : list string }.

#[export] Instance path_eq_dec : EqDecision path.
Proof. solve_decision. Defined.

Module Path.
Definition of_str (s : string) : path :=
  MkPath (Str.startswith "/" s)
    (List.filter (λ c, negb (String.eqb c "" || String.eqb c ".")) (Str.split_char "/" s)).

Definition to_str (p : path) : string :=
  if absolute p then "/" +:+ Str.join "/" (parts p)
  else match parts p with [] => "." | l => Str.join "/" l end.

(** [p / s] *)
Definition div (p : path) (s : string) : path :=
  let q := of_str s in
  if absolute q then q else MkPath (absolute p) (parts p ++ parts q).

Definition parent (p : path) : path := MkPath (absolute p) (removelast (parts p)).
Definition name (p : path) : string := List.last (parts p) "".
Definition with_name (p : path) (n : string) : path := div (parent p) n.
Definition of_parts (l : list string) : path := MkPath true l.

(** [p.relative_to(base)], as a POSIX string *)
Fixpoint strip_parts (base l : list string) : option (list string) :=
  match base, l with
  | [], _ => Some l
  | b :: base', c :: l' => if String.eqb b c then strip_parts base' l' else None
  | _, [] => None
  end.
Definition relative_to (p base : path) : option string :=
  if Bool.eqb (absolute p) (absolute base)
  then match strip_parts (parts base) (parts p) with
       | Some l => Some (to_str (MkPath false l))
       | None => None
       end
  else None.
End Path.

(** ** The file system *)

Record meta := Meta { mode : Z; uid : Z; gid : Z }.

Inductive node :=
  | NFile (data : string) (m : meta)
  | NDir (m : meta)
  | NLink (target : string).

(** Keys are the components below the root, which is always a directory. *)
Abbreviation filesystem := (gmap (list string) node).

Record proc := Proc { argv : list string; timeout_s : option Z; proc_env : list (string * string);
                     proc_cwd : option path }.

Inductive proc_out :=
  | Exited (code : Z) (stdout stderr : string)
  | Expired (partial_stdout : option string)
  | NotStarted (c : exn_class) (msg : string).

Record world := World {
  fs : filesystem;
  cwd : list string;
  environ : list (string * string);
  mono : Z;                 (* the monotonic clock, in microseconds *)
  ticks : nat;              (* the clock and randomness readings so far *)
  out : list string;        (* lines printed, last first *)
  err : list string;
  log : list proc           (* processes started, last first *)
}.

(** What is not under the repository's control. [exec] answers for the
    programs started: it sees the processes started before, and may change the
    files and take time. [schema_errors schema document] is what jsonschema's
    [iter_errors] yields: the path and the message of each error. *)
Class Platform := {
  exec : list proc -> proc -> filesystem -> proc_out * filesystem * Z;
  schema_errors : val -> val -> list (list val * string);
  schema_check : val -> option string; (* the error of [check_schema], if any *)
  repo_root : path;                    (* Path(__file__).resolve().parents[2] *)
  json_error : string -> string;       (* the text of a JSONDecodeError *)
  elapse : nat -> Z;                   (* time between two clock readings *)
  utc_at : nat -> Z;                   (* the wall clock at a reading *)
  local_offset : Z;
  random_hex : nat -> string;          (* uuid4().hex, mkdtemp's suffix *)
  pid : Z;
  euid : Z;
  os_name : string;
  which : string -> option string;     (* shutil.which *)
  executable : string;                 (* sys.executable *)
  home_dir : string;                   (* the home of the account in the password database *)
  can_read : meta -> bool;             (* os.access(p, R_OK), from the permissions *)
  account : string -> option Z;        (* pwd.getpwnam(name).pw_uid *)
  group : string -> option Z           (* grp.getgrnam(name).gr_gid *)
}.

Abbreviation IO := (M world).

Definition set_fs (f : filesystem) (w : world) : world :=
  World f (cwd w) (environ w) (mono w) (ticks w) (out w) (err w) (log w).

Section Walk.
Context (f : filesystem).

(** Path resolution; [links] bounds the symbolic links followed, 40 on Linux. *)
Fixpoint walk (links : nat) : list string -> list string -> option (list string) :=
  fix go (done todo : list string) {struct todo} : option (list string) :=
    match todo with
    | [] => Some done
    | c :: r =>
        if String.eqb c ".." then go (removelast done) r
        else match f !! (done ++ [c]) with
             | Some (NLink t) =>
                 match links with
                 | O => None
                 | S k => let p := Path.of_str t in
                          walk k (if absolute p then [] else done) (parts p ++ r)
                 end
             | _ => go (done ++ [c]) r
             end
    end.

Definition node_at (k : list string) : option node :=
  match k with [] => Some (NDir (Meta 493 0 0)) | _ => f !! k end.
End Walk.

Definition max_links : nat := 40.

(** The absolute components of a path, its links not followed. *)
Definition absolutize (w : world) (p : path) : list string :=
  if absolute p then parts p else cwd w ++ parts p.

(** Where a path leads, all links followed. *)
Definition canon (w : world) (p : path) : option (list string) :=
  walk (fs w) max_links [] (absolutize w p).

(** Where a path is, its last component not followed. *)
Definition locate (w : world) (p : path) : option (list string) :=
  match rev (absolutize w p) with
  | [] => Some []
  | c :: r => if String.eqb c ".." then canon w p
              else match walk (fs w) max_links [] (rev r) with
                   | Some d => Some (d ++ [c])
                   | None => None
                   end
  end.

Definition stat (w : world) (p : path) : option node :=
  match canon w p with Some k => node_at (fs w) k | None => None end.
Definition lstat (w : world) (p : path) : option node :=
  match locate w p with Some k => node_at (fs w) k | None => None end.

(** ** Queries: they change nothing *)

Definition is_file_node (n : option node) : bool := match n with Some (NFile _ _) => true | _ => false end.
Definition is_dir_node (n : option node) : bool := match n with Some (NDir _) => true | _ => false end.
Definition is_link_node (n : option node) : bool := match n with Some (NLink _) => true | _ => false end.
Definition is_some_node (n : option node) : bool := match n with Some _ => true | None => false end.

Definition exists_ (p : path) : IO bool := gets (λ w, is_some_node (stat w p)).
Definition is_file (p : path) : IO bool := gets (λ w, is_file_node (stat w p)).
Definition is_dir (p : path) : IO bool := gets (λ w, is_dir_node (stat w p)).
Definition is_symlink (p : path) : IO bool := gets (λ w, is_link_node (lstat w p)).

Definition os_error (c : exn_class) (p : path) : exn :=
  let txt := match c with
             | FileNotFoundError => "[Errno 2] No such file or directory"
             | FileExistsError => "[Errno 17] File exists"
             | NotADirectoryError => "[Errno 20] Not a directory"
             | IsADirectoryError => "[Errno 21] Is a directory"
             | PermissionError => "[Errno 13] Permission denied"
             | _ => "[Errno 39] Directory not empty"
             end in
  Exn c (txt +:+ ": " +:+ repr_str (Path.to_str p)).

(** [p.resolve()] and [p.resolve(strict=True)] *)
Definition resolve (p : path) : IO path :=
  λ w, match canon w p with
       | Some k => (Ok (Path.of_parts k), w)
       | None => (Raise (Exn RuntimeError ("Symlink loop from " +:+ repr_str (Path.to_str p))), w)
       end.
Definition resolve_strict (p : path) : IO path :=
  λ w, match canon w p with
       | Some k => if is_some_node (node_at (fs w) k) then (Ok (Path.of_parts k), w)
                   else (Raise (os_error FileNotFoundError (Path.of_parts k)), w)
       | None => (Raise (Exn RuntimeError ("Symlink loop from " +:+ repr_str (Path.to_str p))), w)
       end.

(** [p.read_bytes()] *)
Definition read_bytes (p : path) : IO string :=
  λ w, match stat w p with
       | Some (NFile d _) => (Ok d, w)
       | Some _ => (Raise (os_error IsADirectoryError p), w)
       | None => (Raise (os_error FileNotFoundError p), w)
       end.

(** Universal newlines: CR LF and CR read as LF. *)
Fixpoint newlines (s : string) : string :=
  match s with
  | EmptyString => ""
  | String c r =>
      if (N_of_ascii c =? 13)%N then
        String (ascii_of_N 10)
          match r with
          | String d r' => if (N_of_ascii d =? 10)%N then newlines r' else newlines r
          | EmptyString => ""
          end
      else String c (newlines r)
  end.

(** [p.read_text(encoding="utf-8")] *)
Definition read_text (p : path) : IO string :=
  d ← read_bytes p;
  if Codec.utf8_ok 0 d then mret (newlines d)
  else throw UnicodeDecodeError "'utf-8' codec can't decode the bytes of the file".

(** [p.stat().st_size], [p.stat().st_mode] *)
Definition st_size (p : path) : IO Z :=
  λ w, match stat w p with
       | Some (NFile d _) => (Ok (Z.of_nat (String.length d)), w)
       | Some _ => (Ok 4096, w)
       | None => (Raise (os_error FileNotFoundError p), w)
       end.
Definition st_mode (p : path) : IO Z :=
  λ w, match stat w p with
       | Some (NFile _ m) | Some (NDir m) => (Ok (mode m), w)
       | _ => (Raise (os_error FileNotFoundError p), w)
       end.

(** ** Updates *)

Definition put_node (k : list string) (n : node) (w : world) : world :=
  set_fs (<[k := n]> (fs w)) w.
Definition del_node (k : list string) (w : world) : world := set_fs (delete k (fs w)) w.

Definition fail {A} (c : exn_class) (p : path) : IO A := mraise (os_error c p).

(** [p.write_text(s, encoding="utf-8", newline="\n")], [p.write_bytes(s)] *)
Definition write_file (p : path) (s : string) : IO unit :=
  λ w, match canon w p with
       | None => (Raise (os_error FileNotFoundError p), w)
       | Some k =>
           match node_at (fs w) k with
           | Some (NFile _ m) => (Ok tt, put_node k (NFile s m) w)
           | Some _ => (Raise (os_error IsADirectoryError p), w)
           | None => if is_dir_node (node_at (fs w) (removelast k))
                     then (Ok tt, put_node k (NFile s (Meta 420 0 0)) w)
                     else (Raise (os_error FileNotFoundError p), w)
           end
       end.

(** The prefixes of a list, the shortest first. *)
Fixpoint prefixes (done l : list string) : list (list string) :=
  match l with
  | [] => []
  | c :: r => (done ++ [c]) :: prefixes (done ++ [c]) r
  end.

(** [p.mkdir(parents=True, exist_ok=True)] *)
Definition mkdir_p (p : path) : IO unit :=
  λ w, match canon w p with
       | None => (Raise (os_error FileNotFoundError p), w)
       | Some k =>
           (fix go (ks : list (list string)) (w : world) : res unit * world :=
              match ks with
              | [] => (Ok tt, w)
              | q :: r => match node_at (fs w) q with
                          | Some (NDir _) => go r w
                          | Some _ => (Raise (os_error (match r with [] => FileExistsError | _ => NotADirectoryError end) p), w)
                          | None => go r (put_node q (NDir (Meta 493 0 0)) w)
                          end
              end) (prefixes [] k) w
       end.

(** [p.mkdir(mode=m)] *)
Definition mkdir (p : path) (m : Z) : IO unit :=
  λ w, match locate w p with
       | None => (Raise (os_error FileNotFoundError p), w)
       | Some k =>
           if is_some_node (node_at (fs w) k) then (Raise (os_error FileExistsError p), w)
           else if is_dir_node (node_at (fs w) (removelast k))
           then (Ok tt, put_node k (NDir (Meta m 0 0)) w)
           else (Raise (os_error FileNotFoundError p), w)
       end.

(** [p.unlink(missing_ok=True)] *)
Definition unlink_missing_ok (p : path) : IO unit :=
  λ w, match locate w p with
       | None => (Ok tt, w)
       | Some k => match node_at (fs w) k with
                   | Some (NDir _) => (Raise (os_error IsADirectoryError p), w)
                   | Some _ => (Ok tt, del_node k w)
                   | None => (Ok tt, w)
                   end
       end.

(** [p.symlink_to(target)] *)
Definition symlink_to (p target : path) : IO unit :=
  λ w, match locate w p with
       | None => (Raise (os_error FileNotFoundError p), w)
       | Some k =>
           if is_some_node (node_at (fs w) k) then (Raise (os_error FileExistsError p), w)
           else if is_dir_node (node_at (fs w) (removelast k))
           then (Ok tt, put_node k (NLink (Path.to_str target)) w)
           else (Raise (os_error FileNotFoundError p), w)
       end.

(** A key below [src] moved below [dst]. *)
Definition below (k d : list string) : bool :=
  match Path.strip_parts d k with Some _ => true | None => false end.
Definition move_key (src dst k : list string) : list string :=
  match Path.strip_parts src k with Some r => dst ++ r | None => k end.
Definition delete_tree (d : list string) (f : filesystem) : filesystem :=
  list_to_map (List.filter (λ kv, negb (below kv.1 d)) (map_to_list f)).
Definition rename_tree (src dst : list string) (f : filesystem) : filesystem :=
  list_to_map (map (λ kv, (move_key src dst kv.1, kv.2)) (map_to_list (delete_tree dst f))).
Definition has_child (d : list string) (f : filesystem) : bool :=
  existsb (λ kv, below kv.1 d && negb (bool_decide (kv.1 = d))) (map_to_list f).

(** [os.replace(src, dst)] *)
Definition replace (src dst : path) : IO unit :=
  λ w, match locate w src, locate w dst with
       | Some a, Some b =>
           match node_at (fs w) a, node_at (fs w) b with
           | None, _ => (Raise (os_error FileNotFoundError src), w)
           | Some (NDir _), nb =>
               if bool_decide (a = b) then (Ok tt, w)
               else if below b a then (Raise (os_error OSError src), w)
               else if is_some_node nb && negb (is_dir_node nb) then (Raise (os_error NotADirectoryError src), w)
               else if has_child b (fs w) then (Raise (os_error OSError src), w)
               else if is_dir_node (node_at (fs w) (removelast b))
               then (Ok tt, set_fs (rename_tree a b (fs w)) w)
               else (Raise (os_error FileNotFoundError src), w)
           | Some n, nb =>
               if bool_decide (a = b) then (Ok tt, w)
               else if is_dir_node nb then (Raise (os_error IsADirectoryError src), w)
               else if is_dir_node (node_at (fs w) (removelast b))
               then (Ok tt, set_fs (<[b := n]> (delete a (fs w))) w)
               else (Raise (os_error FileNotFoundError src), w)
           end
       | _, _ => (Raise (os_error FileNotFoundError src), w)
       end.

(** [shutil.rmtree(p, ignore_errors=True)] *)
Definition rmtree_ignore (p : path) : IO unit :=
  λ w, match locate w p with
       | Some k => if is_dir_node (node_at (fs w) k) then (Ok tt, set_fs (delete_tree k (fs w)) w)
                   else (Ok tt, w)
       | None => (Ok tt, w)
       end.

Definition update_meta (p : path) (g : meta -> meta) : IO unit :=
  λ w, match canon w p with
       | None => (Raise (os_error FileNotFoundError p), w)
       | Some k => match node_at (fs w) k with
                   | Some (NFile d m) => (Ok tt, put_node k (NFile d (g m)) w)
                   | Some (NDir m) => (Ok tt, put_node k (NDir (g m)) w)
                   | _ => (Raise (os_error FileNotFoundError p), w)
                   end
       end.
Definition chmod (p : path) (m : Z) : IO unit := update_meta p (λ x, Meta m (uid x) (gid x)).
Definition chown (p : path) (u g : Z) : IO unit := update_meta p (λ x, Meta (mode x) u g).

(** [shutil.copyfile(src, dst)] *)
Definition copyfile (src dst : path) : IO unit := d ← read_bytes src; write_file dst d.

(** ** Output, environment *)

Definition print (s : string) : IO unit :=
  modify (λ w, World (fs w) (cwd w) (environ w) (mono w) (ticks w) (s :: out w) (err w) (log w)).
Definition print_err (s : string) : IO unit :=
  modify (λ w, World (fs w) (cwd w) (environ w) (mono w) (ticks w) (out w) (s :: err w) (log w)).
Definition getenv (k : string) : IO (option string) := gets (λ w, Dict.lookup k (environ w)).
(** [os.environ.setdefault(k, v)] *)
Definition setenv_default (k v : string) : IO unit :=
  modify (λ w, if Dict.mem k (environ w) then w
               else World (fs w) (cwd w) (Dict.set k v (environ w)) (mono w) (ticks w) (out w) (err w) (log w)).

(** ** Clocks, processes, schemas *)

Section Platform.
Context `{Platform}.

Definition advance (d : Z) (w : world) : world :=
  World (fs w) (cwd w) (environ w) (mono w + d) (S (ticks w)) (out w) (err w) (log w).

(** [datetime.now(timezone.utc)] *)
Definition now : IO Z := λ w, (Ok (utc_at (ticks w)), advance (elapse (ticks w)) w).
(** [datetime.now(timezone.utc).isoformat().replace("+00:00", "Z")] *)
Definition utc_now : IO string := t ← now; mret (Time.iso_z t).
(** [time.monotonic()], in microseconds *)
Definition monotonic : IO Z := λ w, (Ok (mono w), advance (elapse (ticks w)) w).
(** [time.sleep(d)] *)
Definition sleep (us : Z) : IO unit := λ w, (Ok tt, advance (us + elapse (ticks w)) w).
Definition fresh_hex : IO string := λ w, (Ok (random_hex (ticks w)), advance 0 w).

(** [subprocess.run(argv, timeout=t, check=False)] with captured output. *)
Definition subprocess_run (p : proc) : IO proc_out :=
  λ w, let '(r, f, d) := exec (log w) p (fs w) in
       let w' := World f (cwd w) (environ w) (mono w + d) (S (ticks w)) (out w) (err w) (p :: log w) in
       match r with
       | NotStarted c m => (Raise (Exn c m), w')
       | _ => (Ok r, w')
       end.

(** The same where a timeout is left to raise [TimeoutExpired]. *)
Definition timeout_text (p : proc) : string :=
  "Command '" +:+ repr_strs (argv p) +:+ "' timed out after " +:+ Str.of_Z (default 0 (timeout_s p)) +:+ " seconds".
Definition run_completed (p : proc) : IO (Z * string * string) :=
  r ← subprocess_run p;
  match r with
  | Exited code o e => mret (code, o, e)
  | _ => throw TimeoutExpired (timeout_text p)
  end.

(** [json.loads(p.read_text(encoding="utf-8"))] *)
Definition json_loads (s : string) : res val :=
  match Json.loads s with Some v => Ok v | None => raise JSONDecodeError (json_error s) end.
(** [json.loads(b)] on bytes *)
Definition loads_bytes (b : string) : res val :=
  match Codec.decode b with
  | Some s => json_loads s
  | None => raise UnicodeDecodeError "the codec can't decode the bytes of the document"
  end.
Definition load_json (p : path) : IO val := s ← read_text p; lift (json_loads s).

(** [sorted(validator.iter_errors(document), key=lambda e: list(e.absolute_path))] *)
Definition sorted_errors (schema document : val) : res (list (list val * string)) :=
  py_sorted_by (λ e, VList e.1) (schema_errors schema document).

(** The rendering the scripts share: the dotted path or [$], and the message. *)
Definition render_error (e : list val * string) : string :=
  (let d := dotted e.1 in if String.eqb d "" then "$" else d) +:+ ": " +:+ e.2.
End Platform.

Section Access.
Context `{Platform}.

(** [os.access(p, os.R_OK)] *)
Definition access_read (p : path) : IO bool :=
  gets (λ w, match stat w p with
             | Some (NFile _ m) | Some (NDir m) => can_read m
             | _ => false
             end).

(** [[f(e) for e in sorted(validator.iter_errors(d), key=...)]], the schema being
    trusted to be one: the scripts outside the readiness control plane. *)
Definition schema_failures (schema document : val) : res (list string) :=
  errors ← sorted_errors schema document; Ok (map render_error errors).
End Access.

(** A list of command arguments in a document. *)
Definition argv_of (v : val) : res (list string) := l ← py_iter v; rmap expect_str l.

(** [hashlib.sha256(path.read_bytes()).hexdigest()], and the same by pieces. *)
Definition sha256_file (p : path) : IO string := d ← read_bytes p; mret (Sha256.hexdigest d).
Definition sha256_chunked (p : path) : IO string :=
  d ← read_bytes p; mret (Sha256.hexdigest_chunks (N.to_nat 1048576) d).

(** [path.write_text(json.dumps(v, indent=2, sort_keys=True) + "\n")] *)
Definition json_text (v : val) : string := Json.dumps Json.pretty v +:+ String (ascii_of_N 10) "".

(** [path.parent.mkdir(parents=True, exist_ok=True)] and the write of a document. *)
Definition write_document (p : path) (v : val) : IO unit := mkdir_p (Path.parent p) ;; write_file p (json_text v).

(** ** Reading changes nothing *)

Lemma ro_gets {A} (f : world -> A) : Pres eq (gets f).
Proof. by intros w. Qed.
Lemma ro_exists p : Pres eq (exists_ p).
Proof. apply ro_gets. Qed.
Lemma ro_is_file p : Pres eq (is_file p).
Proof. apply ro_gets. Qed.
Lemma ro_is_dir p : Pres eq (is_dir p).
Proof. apply ro_gets. Qed.
Lemma ro_is_symlink p : Pres eq (is_symlink p).
Proof. apply ro_gets. Qed.
Lemma ro_resolve p : Pres eq (resolve p).
Proof. intros w. unfold resolve. by case_match. Qed.
Lemma ro_resolve_strict p : Pres eq (resolve_strict p).
Proof. intros w. unfold resolve_strict. by repeat case_match. Qed.
Lemma ro_read_bytes p : Pres eq (read_bytes p).
Proof. intros w. unfold read_bytes. by repeat case_match. Qed.
Lemma ro_st_size p : Pres eq (st_size p).
Proof. intros w. unfold st_size. by repeat case_match. Qed.
Lemma ro_st_mode p : Pres eq (st_mode p).
Proof. intros w. unfold st_mode. by repeat case_match. Qed.
Lemma ro_getenv k : Pres eq (getenv k).
Proof. apply ro_gets. Qed.
#[export] Hint Resolve ro_exists ro_is_file ro_is_dir ro_is_symlink ro_resolve ro_resolve_strict
  ro_read_bytes ro_st_size ro_st_mode ro_getenv : pres.

Lemma ro_read_text p : Pres eq (read_text p).
Proof. unfold read_text. solve_pres. Qed.
#[export] Hint Resolve ro_read_text : pres.
Lemma ro_load_json `{Platform} p : Pres eq (load_json p).
Proof. unfold load_json. solve_pres. Qed.
Lemma ro_sha256_file p : Pres eq (sha256_file p).
Proof. unfold sha256_file. solve_pres. Qed.
Lemma ro_sha256_chunked p : Pres eq (sha256_chunked p).
Proof. unfold sha256_chunked. solve_pres. Qed.
Lemma ro_access `{Platform} p : Pres eq (access_read p).
Proof. apply ro_gets. Qed.
#[export] Hint Resolve ro_gets ro_access : pres.
#[export] Hint Resolve ro_load_json ro_sha256_file ro_sha256_chunked : pres.
