(* ===== verification/PyConfig.v ===== *)
(** * [configparser.RawConfigParser]

    The reading of a configuration file with the parser's defaults: sections,
    options with [=] or [:], full-line comments, continuation lines. *)

From Stdlib Require Import Ascii.
From S2P Require Import Prelude PyFloat PyMonad PyValue PyTime PyJson PyOs.

Module Config.

(** An option is the list of its lines until the end of the file. *)
Abbreviation options := (list (string * list string)).
Record parser := Parser { defaults : options; sections : list (string * options) }.
Definition empty : parser := Parser [] [].

(** The state of the loop over the lines: the current section and option, the indentation of the last
    line that was no continuation, the sections and options added, and whether a line was no option. *)
Record state := State {
  parsed : parser; cursect : option string; optname : option string; indent_level : Z;
  added_sections : list string; added_options : list (string * string); bad_line : bool
}.

Definition default_section : string := "DEFAULT".
Definition options_of (s : string) (p : parser) : options :=
  match Dict.lookup s (sections p) with
  | Some o => o
  | None => defaults p
  end.
Definition set_options (s : string) (o : options) (p : parser) : parser :=
  if Dict.mem s (sections p) then Parser (defaults p) (Dict.set s o (sections p)) else Parser o (sections p).

(** [\[(?P<header>.+)\]] at the start of a stripped line: the last bracket closes the header. *)
Fixpoint until_last_bracket (s : string) : option string :=
  match s with
  | EmptyString => None
  | String c r => match until_last_bracket r with
                  | Some h => Some (String c h)
                  | None => if Ascii.eqb c "]" then Some "" else None
                  end
  end.
Definition header (value : string) : option string :=
  match Str.strip_prefix "[" value with
  | Some r => match until_last_bracket r with Some "" => None | o => o end
  | None => None
  end.

(** The option before the first [=] or [:], and the value after it. *)
Fixpoint split_option (s : string) : option (string * string) :=
  match s with
  | EmptyString => None
  | String c r => if Ascii.eqb c "=" || Ascii.eqb c ":" then Some ("", r)
                  else match split_option r with Some (a, b) => Some (String c a, b) | None => None end
  end.

Fixpoint indent (s : string) : Z :=
  match s with
  | String c r => if Str.is_space c then 1 + indent r else 0
  | EmptyString => 0
  end.

(** [cursect[optname].append(line)] *)
Definition append_line (line : string) (st : state) : state :=
  match cursect st, optname st with
  | Some s, Some o =>
      let opts := options_of s (parsed st) in
      State (set_options s (Dict.set o (default [] (Dict.lookup o opts) ++ [line]) opts) (parsed st))
        (cursect st) (optname st) (indent_level st) (added_sections st) (added_options st) (bad_line st)
  | _, _ => st
  end.

Definition is_comment (line : string) : bool :=
  let t := Str.strip line in Str.startswith "#" t || Str.startswith ";" t.

Definition open_section (name : string) (st : state) : res state :=
  let enter p added := Ok (State p (Some name) None (indent_level st) added (added_options st) (bad_line st)) in
  if Dict.mem name (sections (parsed st)) then
    if inb String.eqb name (added_sections st)
    then raise ConfigParserError ("section " +:+ repr_str name +:+ " already exists")
    else enter (parsed st) (name :: added_sections st)
  else if String.eqb name default_section then enter (parsed st) (added_sections st)
  else enter (Parser (defaults (parsed st)) (sections (parsed st) ++ [(name, [])])) (name :: added_sections st).

Definition pair_eqb (a b : string * string) : bool := String.eqb a.1 b.1 && String.eqb a.2 b.2.
Definition read_option (section value : string) (st : state) : res state :=
  let wrong := State (parsed st) (cursect st) (optname st) (indent_level st) (added_sections st) (added_options st) true in
  match split_option value with
  | None => Ok wrong
  | Some (name, v) =>
      let o := Str.lower (Str.rstrip name) in
      if inb pair_eqb (section, o) (added_options st)
      then raise ConfigParserError ("option " +:+ repr_str o +:+ " in section " +:+ repr_str section +:+ " already exists")
      else Ok (State (set_options section (Dict.set o [Str.strip v] (options_of section (parsed st))) (parsed st))
                 (cursect st) (Some o) (indent_level st) (added_sections st) ((section, o) :: added_options st)
                 (bad_line st || String.eqb name ""))
  end.

Definition read_line (st : state) (line : string) : res state :=
  let comment := is_comment line in
  let value := if comment then "" else Str.strip line in
  if String.eqb value "" then Ok (if comment then st else append_line "" st)
  else
    let cur := indent line in
    if (match cursect st, optname st with Some _, Some _ => true | _, _ => false end) && (indent_level st <? cur)
    then Ok (append_line value st)
    else
      let st := State (parsed st) (cursect st) (optname st) cur (added_sections st) (added_options st) (bad_line st) in
      match header value, cursect st with
      | Some name, _ => open_section name st
      | None, None => raise ConfigParserError "File contains no section headers."
      | None, Some section => read_option section value st
      end.

(** [parser.read_string(s)] on an empty parser *)
Definition read_string (s : string) : res parser :=
  st ← rfold read_line (State empty None None 0 [] [] false) (Str.split_char (ascii_of_N 10) s);
  if bad_line st then raise ConfigParserError "Source contains parsing errors" else Ok (parsed st).

(** The value of an option: its lines joined, the white space at the end dropped *)
Definition joined (lines : list string) : string := Str.rstrip (Str.join (String (ascii_of_N 10) "") lines).
Definition get_default (o : string) (p : parser) : option string := option_map joined (Dict.lookup o (defaults p)).
Definition has_section (s : string) (p : parser) : bool := Dict.mem s (sections p).
(** [parser.get(section, option, fallback=f)] for a section there is *)
Definition get (s o f : string) (p : parser) : string :=
  match Dict.lookup o (default [] (Dict.lookup s (sections p))) with
  | Some l => joined l
  | None => default f (get_default o p)
  end.

(** [parser.read(path, encoding="utf-8")]: a file that cannot be opened is skipped. *)
Definition read `{Platform} (p : path) : IO parser :=
  t ← catch (t ← read_text p; mret (Some t)) (on_exn [OSError] (λ _, mret None));
  match t with Some t => lift (read_string t) | None => mret empty end.

Definition lines (l : list string) : string := Str.join (String (ascii_of_N 10) "") l.
Example read_case :
  (p ← read_string (lines ["# oci"; "[DEFAULT]"; "user = a"; "Region: ap-singapore-2"; ""; "[two]"; "region = x"; "  y"]);
   Ok (get_default "region" p, has_section "two" p, get "two" "region" "" p, get "two" "user" "" p))
  = Ok (Some "ap-singapore-2", true, lines ["x"; "y"], "a").
Proof. vm_compute. reflexivity. Qed.
Example read_bad : map (λ l, match read_string (lines l) with Ok _ => false | Raise _ => true end)
  [["a = 1"]; ["[x]"; "a"]; ["[x]"; "[x]"]; ["[x]"; "a=1"; "A=2"]] = [true; true; true; true].
Proof. vm_compute. reflexivity. Qed.
End Config.
