(* ===== verification/PyNet.v ===== *)
(** * The ipaddress module

    [ipaddress.ip_address] on a text, and the [is_private] property with the
    networks and exceptions of CPython 3.11.10 and later. *)

From Stdlib Require Import Ascii.
From S2P Require Import Prelude PyMonad PyJson.

Module Net.

Inductive address := V4 (ip : Z) | V6 (ip : Z).

(** ** IPv4 *)

Definition octet (s : string) : option Z :=
  if String.eqb s "" || negb (Str.all_chars Str.is_digit s) || (3 <? Str.len s)
     || (negb (String.eqb s "0") && Str.startswith "0" s)
  then None
  else match Str.parse_nat s with Some n => if n <=? 255 then Some n else None | None => None end.
Definition parse_v4 (s : string) : option Z :=
  match map octet (Str.split_char "." s) with
  | [Some a; Some b; Some c; Some d] => Some (((a * 256 + b) * 256 + c) * 256 + d)
  | _ => None
  end.

(** ** IPv6 *)

Fixpoint hextet_value (acc : Z) (s : string) : option Z :=
  match s with
  | EmptyString => Some acc
  | String c r => match Json.hex_val c with Some n => hextet_value (acc * 16 + Z.of_N n) r | None => None end
  end.
Definition hextet (s : string) : option Z :=
  if String.eqb s "" || (4 <? Str.len s) then None else hextet_value 0 s.
Fixpoint hextets (acc : Z) (l : list string) : option Z :=
  match l with
  | [] => Some acc
  | s :: r => match hextet s with Some n => hextets (acc * 65536 + n) r | None => None end
  end.
(** Two hexadecimal groups of a dotted tail *)
Definition with_tail (l : list string) : option (list (option Z)) :=
  match rev l with
  | [] => Some []
  | t :: r => if Str.contains "." t
              then match parse_v4 t with
                   | Some n => Some (map hextet (rev r) ++ [Some (n / 65536); Some (n mod 65536)])
                   | None => None
                   end
              else Some (map hextet l)
  end.
Definition empty_part (l : list string) (i : nat) : bool := String.eqb (nth i l "x") "".
(** The indices strictly inside of the empty parts *)
Definition skips (l : list string) (n : nat) : list nat := List.filter (empty_part l) (seq 1 (n - 2)).
Definition groups (l : list (option Z)) : option Z :=
  foldl (λ acc g, match acc, g with Some a, Some n => Some (a * 65536 + n) | _, _ => None end) (Some 0) l.
(** [_ip_int_from_string]: [l] are the parts, [g] their values, of the same number *)
Definition v6_of (l : list string) (g : list (option Z)) : option Z :=
  let n := length g in
  let first := empty_part l 0 in
  let last := String.eqb (List.last l "x") "" in
  if Nat.ltb (length l) 3 || Nat.ltb 9 n then None
  else match skips l n with
       | _ :: _ :: _ => None
       | [k] =>
           let hi := if first then (k - 1)%nat else k in
           let lo := if last then (n - k - 2)%nat else (n - k - 1)%nat in
           if (first && Nat.ltb 0 hi) || (last && Nat.ltb 0 lo) || Nat.ltb 7 (hi + lo) then None
           else match groups (firstn hi g), groups (skipn (n - lo) g) with
                | Some a, Some b => Some (a * 2 ^ (16 * Z.of_nat (8 - hi)) + b)
                | _, _ => None
                end
       | [] => if negb (Nat.eqb n 8) || first || last then None else groups g
       end.
Definition parse_v6 (s : string) : option Z :=
  let plain := match Str.partition "%" s with
               | None => Some s
               | Some (a, scope) => if String.eqb scope "" || Str.contains "%" scope then None else Some a
               end in
  match plain with
  | None => None
  | Some a => if Str.contains "/" s then None
              else let l := Str.split_char ":" a in
                   match with_tail l with Some g => v6_of l g | None => None end
  end.

(** [ip_address(s)]; [None] where it raises [ValueError] *)
Definition ip_address (s : string) : option address :=
  match parse_v4 s with
  | Some n => Some (V4 n)
  | None => option_map V6 (parse_v6 s)
  end.

(** ** Private addresses *)

Definition in_net (bits width ip base : Z) : bool := Z.shiftr ip (bits - width) =? Z.shiftr base (bits - width).
Definition v4 (a b c d : Z) : Z := ((a * 256 + b) * 256 + c) * 256 + d.
Definition private_v4 : list (Z * Z) := [
  (v4 0 0 0 0, 8); (v4 10 0 0 0, 8); (v4 127 0 0 0, 8); (v4 169 254 0 0, 16); (v4 172 16 0 0, 12); (v4 192 0 0 0, 24);
  (v4 192 0 0 170, 31); (v4 192 0 2 0, 24); (v4 192 168 0 0, 16); (v4 198 18 0 0, 15); (v4 198 51 100 0, 24);
  (v4 203 0 113 0, 24); (v4 240 0 0 0, 4); (v4 255 255 255 255, 32)].
Definition exceptions_v4 : list (Z * Z) := [(v4 192 0 0 9, 32); (v4 192 0 0 10, 32)].
Definition v6 (a b c d : Z) : Z := Z.shiftl (((a * 65536 + b) * 65536 + c) * 65536 + d) 64.
Definition private_v6 : list (Z * Z) := [
  (1, 128); (0, 128); (Z.shiftl 65535 32, 96); (v6 100 65435 1 0, 48); (v6 256 0 0 0, 64); (v6 8193 0 0 0, 23);
  (v6 8193 3512 0 0, 32); (v6 8194 0 0 0, 16); (v6 64512 0 0 0, 7); (v6 65152 0 0 0, 10)].
Definition exceptions_v6 : list (Z * Z) := [
  (v6 8193 1 0 0 + 1, 128); (v6 8193 1 0 0 + 2, 128); (v6 8193 3 0 0, 32); (v6 8193 4 274 0, 48); (v6 8193 32 0 0, 28);
  (v6 8193 48 0 0, 28)].
Definition listed (bits ip : Z) (l : list (Z * Z)) : bool := existsb (λ n, in_net bits n.2 ip n.1) l.
Definition is_private (a : address) : bool :=
  match a with
  | V4 ip => listed 32 ip private_v4 && negb (listed 32 ip exceptions_v4)
  | V6 ip => if Z.shiftr ip 32 =? 65535
             then let ip := Z.land ip 4294967295 in listed 32 ip private_v4 && negb (listed 32 ip exceptions_v4)
             else listed 128 ip private_v6 && negb (listed 128 ip exceptions_v6)
  end.

Example private_addresses : map (λ s, option_map is_private (ip_address s))
  ["10.42.10.5"; "8.8.8.8"; "172.32.0.1"; "192.0.0.9"; "010.0.0.1"; "fd00::1"; "::ffff:8.8.8.8"; "2001:4860::8888"; "1::2::3"; ""; "::1%eth0"]
  = [Some true; Some false; Some false; Some false; None; Some true; Some false; Some false; None; None; Some true].
Proof. vm_compute. reflexivity. Qed.
Example ip_values : map ip_address ["10.42.10.5"; "1:2:3:4:5:6:7:8"; "::"; "1::"; "::1.2.3.4"; ":1:2:3:4:5:6:7"; "1:2:3:4:5:6:7::"] =
  [Some (V4 170527237); Some (V6 5192455318486707404433266433261576); Some (V6 0); Some (V6 (2 ^ 112)); Some (V6 16909060); None;
   Some (V6 5192455318486707404433266433261568)].
Proof. vm_compute. reflexivity. Qed.
End Net.
