(* ===== verification/OsFacts.v ===== *)
(** * What the operations of the host do

    Relations between the worlds before and after a statement, the rule of each
    operation for them, and the effect of the file operations on plain paths. *)

From Stdlib Require Import Ascii.
From S2P Require Import Prelude PyFloat PyMonad PyValue PyTime PyJson Sha256 PyOs.

(** ** No process is started *)

Definition same_log (w w' : world) : Prop := log w' = log w.
#[export] Instance same_log_preorder : PreOrder same_log.
Proof. split; [done|]. intros x y z. unfold same_log. congruence. Qed.

Lemma sl_mkdir_p p : Pres same_log (mkdir_p p).
Proof.
  intros w. unfold mkdir_p. destruct (canon w p) as [k|]; [|done].
  generalize (prefixes [] k). intros ks. revert w.
  induction ks as [|q r IH]; intros w; [done|]. destruct (node_at (fs w) q) as [[]|]; simpl;
    first [done | by apply IH | by (etransitivity; [|apply IH])].
Qed.
Lemma sl_write_file p t : Pres same_log (write_file p t).
Proof. intros w. unfold write_file. by repeat case_match. Qed.
Lemma sl_setenv k v : Pres same_log (setenv_default k v).
Proof. intros w. unfold setenv_default, modify. simpl. unfold same_log. by case_match. Qed.
Lemma sl_modify f : (forall w, log (f w) = log w) -> Pres same_log (modify f).
Proof. intros Hf w. apply Hf. Qed.
Lemma sl_print s : Pres same_log (print s).
Proof. by apply sl_modify. Qed.
Lemma sl_print_err s : Pres same_log (print_err s).
Proof. by apply sl_modify. Qed.
Lemma sl_monotonic `{Platform} : Pres same_log monotonic.
Proof. by intros w. Qed.
Lemma sl_now `{Platform} : Pres same_log now.
Proof. by intros w. Qed.
Lemma sl_ro {A} (m : IO A) : Pres eq m -> Pres same_log m.
Proof. apply pres_of_eq, _. Qed.
#[export] Hint Resolve sl_mkdir_p sl_write_file sl_setenv sl_print sl_print_err sl_monotonic sl_now : pres.
#[export] Hint Extern 4 (Pres same_log _) => apply sl_ro : pres.

Lemma sl_utc_now `{Platform} : Pres same_log utc_now.
Proof. unfold utc_now. solve_pres. Qed.
Lemma sl_write_document p v : Pres same_log (write_document p v).
Proof. unfold write_document. solve_pres. Qed.
#[export] Hint Resolve sl_utc_now sl_write_document : pres.

Lemma sl_unlink p : Pres same_log (unlink_missing_ok p).
Proof. intros w. unfold unlink_missing_ok. by repeat case_match. Qed.
Lemma sl_symlink p t : Pres same_log (symlink_to p t).
Proof. intros w. unfold symlink_to. by repeat case_match. Qed.
Lemma sl_replace p q : Pres same_log (replace p q).
Proof. intros w. unfold replace. by repeat case_match. Qed.
Lemma sl_chmod p m : Pres same_log (chmod p m).
Proof. intros w. unfold chmod, update_meta. by repeat case_match. Qed.
#[export] Hint Resolve sl_unlink sl_symlink sl_replace sl_chmod : pres.

(** Processes are started, and none is forgotten. *)
Definition log_grows (w w' : world) : Prop := exists l, log w' = l ++ log w.
#[export] Instance log_grows_preorder : PreOrder log_grows.
Proof.
  split; [intros w; by exists []|]. intros x y z [l Hl] [l' Hl']. exists (l' ++ l). by rewrite Hl', Hl, app_assoc.
Qed.
Lemma lg_same {A} (m : IO A) : Pres same_log m -> Pres log_grows m.
Proof. intros Hm w. exists []. apply Hm. Qed.
Lemma lg_subprocess `{Platform} p : Pres log_grows (subprocess_run p).
Proof.
  intros w. exists [p]. unfold subprocess_run. destruct (exec _ _ _) as [[r f] dt]. by destruct r.
Qed.
#[export] Hint Resolve lg_subprocess : pres.
#[export] Hint Extern 5 (Pres log_grows _) => apply lg_same; solve [eauto with pres] : pres.
Lemma log_grows_in w w' p : log_grows w w' -> p ∈ log w -> p ∈ log w'.
Proof. intros [l ->] Hp. apply elem_of_app. by right. Qed.

(** The processes started between two worlds all are [ok]. *)
Definition starts_only (ok : proc -> Prop) (w w' : world) : Prop :=
  exists new, log w' = new ++ log w /\ Forall ok new.
#[export] Instance starts_only_preorder ok : PreOrder (starts_only ok).
Proof.
  split; [intros w; by exists []|]. intros x y z (l & E & Hl) (k & E' & Hk).
  exists (k ++ l). split; [by rewrite E', E, app_assoc|by apply Forall_app].
Qed.
Lemma same_log_starts ok w w' : log w' = log w -> starts_only ok w w'.
Proof. intros E. by exists []. Qed.
Lemma so_same {A} ok (m : IO A) : Pres same_log m -> Pres (starts_only ok) m.
Proof. intros Hm w. by apply same_log_starts, Hm. Qed.
Lemma subprocess_log `{Platform} p w : log (subprocess_run p w).2 = p :: log w.
Proof. unfold subprocess_run. destruct (exec _ _ _) as [[r f] dt]. by destruct r. Qed.
Lemma so_subprocess `{Platform} (ok : proc -> Prop) p : ok p -> Pres (starts_only ok) (subprocess_run p).
Proof. intros Hp w. exists [p]. rewrite subprocess_log. by repeat constructor. Qed.
Lemma so_run_completed `{Platform} (ok : proc -> Prop) p : ok p -> Pres (starts_only ok) (run_completed p).
Proof. intros Hp. unfold run_completed. apply pres_bind; [apply _|by apply so_subprocess|]. solve_pres. Qed.
#[export] Hint Extern 5 (Pres (starts_only _) _) => apply so_same; solve [eauto with pres] : pres.
Lemma lg_run_completed `{Platform} p : Pres log_grows (run_completed p).
Proof. unfold run_completed. solve_pres. Qed.
Lemma run_completed_log `{Platform} p w : log (run_completed p w).2 = p :: log w.
Proof.
  unfold run_completed, mbind, M_bind. pose proof (subprocess_log p w) as E.
  destruct (subprocess_run p w) as [[r|e] w1]; [|done]. by destruct r.
Qed.
#[export] Hint Resolve lg_run_completed : pres.

(** A statement of the run, between two of its worlds, with what it answered *)
Definition during {A} (w w' : world) (m : IO A) (x : A) : Prop :=
  exists w1 w2, log_grows w w1 /\ m w1 = (Ok x, w2) /\ log_grows w2 w'.
Lemma during_weaken {A} w w1 w2 w' (m : IO A) x :
  log_grows w w1 -> during w1 w2 m x -> log_grows w2 w' -> during w w' m x.
Proof. intros H1 (v & v' & Hv & E & Hv') H2. exists v, v'. split; [by etransitivity|]. split; [done|by etransitivity]. Qed.
Lemma during_zoom {L A} (m : IO A) (s s' : L * world) x : zoom_snd m s = (Ok x, s') -> during s.2 s'.2 m x.
Proof. intros [E _]%zoom_Ok. exists s.2, s'.2. split; [reflexivity|]. by split. Qed.

(** ** Files are written, and nothing else changes

    No link and no directory is changed or removed, no link appears, and no
    process is started. *)

Definition writes_only (w w' : world) : Prop :=
  log w' = log w /\
  forall k, fs w' !! k = fs w !! k \/
    ((fs w !! k = None \/ is_file_node (fs w !! k) = true) /\
     (is_file_node (fs w' !! k) = true \/ is_dir_node (fs w' !! k) = true)).

#[export] Instance writes_only_preorder : PreOrder writes_only.
Proof.
  split; [intros w; split; [done|]; by left|]. intros x y z [Hl Hf] [Hl' Hg].
  split; [congruence|]. intros k. destruct (Hf k) as [E|[[E|E] E2]], (Hg k) as [E'|[E3 E4]].
  - left. congruence.
  - right. by rewrite <-E.
  - right. rewrite E'. auto.
  - right. auto.
  - right. rewrite E'. auto.
  - right. auto.
Qed.

Lemma wo_put w k n : (fs w !! k = None \/ is_file_node (fs w !! k) = true) ->
  (is_file_node (Some n) = true \/ is_dir_node (Some n) = true) -> writes_only w (put_node k n w).
Proof.
  intros Hk Hn. split; [done|]. intros k'. simpl. destruct (decide (k' = k)) as [->|Hne].
  - right. by rewrite lookup_insert_eq.
  - left. by rewrite lookup_insert_ne by done.
Qed.

Lemma node_at_lookup (f : filesystem) k n : node_at f k = Some n -> is_dir_node (Some n) = false -> f !! k = Some n.
Proof. unfold node_at. destruct k; [by intros [= <-]|done]. Qed.
Lemma node_at_none (f : filesystem) k : node_at f k = None -> f !! k = None.
Proof. unfold node_at. by destruct k. Qed.

Lemma wo_mkdir_p p : Pres writes_only (mkdir_p p).
Proof.
  intros w. unfold mkdir_p. destruct (canon w p) as [k|]; [|reflexivity].
  generalize (prefixes [] k). intros ks. revert w. induction ks as [|q r IH]; intros w; [simpl; reflexivity|].
  destruct (node_at (fs w) q) as [[]|] eqn:E; simpl;
    first [reflexivity | apply IH | etransitivity; [|apply IH]].
  apply wo_put; [left; by apply node_at_none|by right].
Qed.
Lemma wo_write_file p t : Pres writes_only (write_file p t).
Proof.
  intros w. unfold write_file. destruct (canon w p) as [k|]; [|reflexivity].
  destruct (node_at (fs w) k) as [[]|] eqn:E; simpl; try reflexivity.
  - apply wo_put; [|by left]. right. by rewrite (node_at_lookup _ _ _ E).
  - case_match; simpl; [|reflexivity]. apply wo_put; [|by left]. left. by apply node_at_none.
Qed.
Lemma wo_modify f : (forall w, log (f w) = log w /\ fs (f w) = fs w) -> Pres writes_only (modify f).
Proof. intros Hf w. destruct (Hf w) as [Hl Hfs]. split; [done|]. intros k. left. simpl. by rewrite Hfs. Qed.
Lemma wo_print s : Pres writes_only (print s).
Proof. by apply wo_modify. Qed.
Lemma wo_now `{Platform} : Pres writes_only now.
Proof. intros w. split; [done|]. by left. Qed.
Lemma wo_ro {A} (m : IO A) : Pres eq m -> Pres writes_only m.
Proof. apply pres_of_eq, _. Qed.
Lemma wo_monotonic `{Platform} : Pres writes_only monotonic.
Proof. intros w. split; [done|]. by left. Qed.
Lemma wo_fresh `{Platform} : Pres writes_only fresh_hex.
Proof. intros w. split; [done|]. by left. Qed.
#[export] Hint Resolve wo_mkdir_p wo_write_file wo_print wo_now wo_monotonic wo_fresh : pres.
#[export] Hint Extern 4 (Pres writes_only _) => apply wo_ro : pres.
Lemma wo_utc_now `{Platform} : Pres writes_only utc_now.
Proof. unfold utc_now. solve_pres. Qed.
Lemma wo_write_document p v : Pres writes_only (write_document p v).
Proof. unfold write_document. solve_pres. Qed.
#[export] Hint Resolve wo_utc_now wo_write_document : pres.

(** The links after such a statement are the links before. *)
Lemma writes_only_link w w' k t : writes_only w w' ->
  fs w' !! k = Some (NLink t) <-> fs w !! k = Some (NLink t).
Proof.
  intros [_ Hk]. destruct (Hk k) as [->|[[E|E] [E'|E']]]; [done|..]; split; intros Hl; rewrite Hl in *; done.
Qed.

(** A statement that changes nothing has left the world it was given. *)
Ltac same_world H :=
  match type of H with
  | ?m ?w = (_, ?w1) =>
      let P := fresh in assert (Pres eq m) as P by solve_pres;
      let E := fresh in pose proof (pres_eq_run _ _ _ _ P H) as E; subst w1; clear P
  end.

Lemma is_file_Ok p w b w' : is_file p w = (Ok b, w') ->
  w' = w /\ (b = true -> exists d m, stat w p = Some (NFile d m)).
Proof.
  intros [= <- <-]. split; [done|]. unfold is_file_node. destruct (stat w p) as [[d m| |]|]; try done. eauto.
Qed.
Lemma is_dir_Ok p w b w' : is_dir p w = (Ok b, w') -> w' = w /\ is_dir_node (stat w p) = b.
Proof. by intros [= <- <-]. Qed.
Lemma exists_Ok p w b w' : exists_ p w = (Ok b, w') -> w' = w /\ (b = true -> exists n, stat w p = Some n).
Proof. intros [= <- <-]. split; [done|]. destruct (stat w p); [eauto|done]. Qed.
Lemma st_size_file p w d m z w' : stat w p = Some (NFile d m) -> st_size p w = (Ok z, w') ->
  z = Z.of_nat (String.length d) /\ w' = w.
Proof. unfold st_size. intros ->. by intros [= <- <-]. Qed.
Lemma st_mode_file p w d m z w' : stat w p = Some (NFile d m) -> st_mode p w = (Ok z, w') ->
  z = mode m /\ w' = w.
Proof. unfold st_mode. intros ->. by intros [= <- <-]. Qed.
Lemma sha256_file_Ok p w d m h w' : stat w p = Some (NFile d m) -> sha256_file p w = (Ok h, w') ->
  h = Sha256.hexdigest d /\ w' = w.
Proof.
  intros Hs E. unfold sha256_file in E. apply M_bind_Ok in E as (x & w1 & E1 & E).
  unfold read_bytes in E1. rewrite Hs in E1. simplify_eq. by apply ret_Ok in E as [<- ->].
Qed.

(** A loop that changes nothing has run each turn in the same world. *)
Lemma mfor_ro {A} (f : A -> IO unit) l w u w' : (forall x, Pres eq (f x)) -> mfor f l w = (Ok u, w') ->
  w' = w /\ Forall (λ x, f x w = (Ok tt, w)) l.
Proof.
  intros Hf E. assert (w' = w) as -> by (eapply pres_eq_run; [|exact E]; apply pres_for; [apply _|done]).
  split; [done|]. eapply Forall_impl; [by eapply (mfor_Ok_In eq)|]. by intros x (s1 & s2 & <- & H & ->).
Qed.

Lemma mmap_ro {A B} (f : A -> IO B) l w ys w' : (forall x, Pres eq (f x)) -> mmap f l w = (Ok ys, w') ->
  w' = w /\ Forall2 (λ x y, f x w = (Ok y, w)) l ys.
Proof.
  intros Hf. revert ys w'. induction l as [|x r IH]; intros ys w' E; simpl in E.
  - apply ret_Ok in E as [<- ->]. split; [done|constructor].
  - apply M_bind_Ok in E as (y & w1 & E1 & E). pose proof (pres_eq_run _ _ _ _ (Hf x) E1) as ->.
    apply M_bind_Ok in E as (zs & w2 & E2 & E). apply IH in E2 as [-> E2]. apply ret_Ok in E as [<- ->].
    split; [done|]. by constructor.
Qed.

(** Each turn of such a loop has found nothing, where their answers together are none. *)
Lemma mmap_ro_nil {A B} (f : A -> IO (list B)) l w ys w' : (forall x, Pres eq (f x)) ->
  mmap f l w = (Ok ys, w') -> concat ys = [] -> Forall (λ x, f x w = (Ok [], w)) l.
Proof.
  intros Hf E Hn. apply mmap_ro in E as [_ E]; [|done]. induction E as [|x y r ys' Hx E IH]; [constructor|].
  simpl in Hn. apply app_eq_nil in Hn as [-> Hn]. constructor; [done|by apply IH].
Qed.

Lemma sha256_chunked_Ok p w h w' : sha256_chunked p w = (Ok h, w') ->
  w' = w /\ exists d m, stat w p = Some (NFile d m) /\ h = Sha256.hexdigest d.
Proof.
  intros E. apply M_bind_Ok in E as (d & w1 & E1 & E). apply ret_Ok in E as [<- ->].
  unfold read_bytes in E1. destruct (stat w p) as [[d' m| |]|]; try discriminate. simplify_eq.
  split; [done|]. exists d, m. split; [done|]. apply Sha256.hexdigest_chunks_eq. lia.
Qed.

(** ** What does not exit *)

Lemma plain_getitem v k : Plain (getitem v k).
Proof. unfold getitem. destruct v; solve_plain. Qed.
Lemma plain_dget v k : Plain (dget v k).
Proof. unfold dget, dget_or, no_attr. destruct v; solve_plain. Qed.
Lemma plain_expect_str v : Plain (expect_str v).
Proof. unfold expect_str. solve_plain. Qed.
Lemma plain_expect_int v : Plain (expect_int v).
Proof. unfold expect_int. solve_plain. Qed.
Lemma plain_py_iter v : Plain (py_iter v).
Proof. unfold py_iter. destruct v; solve_plain. Qed.
Lemma plain_sorted_by {A} key (l : list A) : Plain (py_sorted_by key l).
Proof. unfold py_sorted_by. solve_plain. Qed.
Lemma plain_sorted_rev_by {A} key (l : list A) : Plain (py_sorted_rev_by key l).
Proof. unfold py_sorted_rev_by. solve_plain. Qed.
#[export] Hint Resolve plain_getitem plain_dget plain_expect_str plain_expect_int plain_py_iter
  plain_sorted_by plain_sorted_rev_by : plain.
Lemma plain_argv_of v : Plain (argv_of v).
Proof. unfold argv_of. solve_plain. Qed.
#[export] Hint Resolve plain_argv_of : plain.

Ltac os_plain := intros ? ? ?; repeat case_match; intros; simplify_eq; done.

Lemma mplain_mkdir_p p : MPlain (mkdir_p p).
Proof.
  intros w e w'. unfold mkdir_p. destruct (canon w p) as [k|]; [|by intros [= <- _]].
  generalize (prefixes [] k). intros ks. revert w. induction ks as [|q r IH]; intros w; [done|].
  destruct (node_at (fs w) q) as [[]|]; simpl; try (by intros [= <- _]); try apply IH.
Qed.
Lemma mplain_unlink p : MPlain (unlink_missing_ok p).
Proof. unfold unlink_missing_ok. os_plain. Qed.
Lemma mplain_symlink p t : MPlain (symlink_to p t).
Proof. unfold symlink_to. os_plain. Qed.
Lemma mplain_replace p q : MPlain (replace p q).
Proof. unfold replace. os_plain. Qed.
Lemma mplain_monotonic `{Platform} : MPlain monotonic.
Proof. done. Qed.
Lemma mplain_utc_now `{Platform} : MPlain utc_now.
Proof. done. Qed.
Lemma mplain_subprocess `{Platform} p : MPlain (subprocess_run p).
Proof.
  intros w e w'. unfold subprocess_run. destruct (exec _ _ _) as [[r f] d].
  destruct r; intros; by simplify_eq.
Qed.
#[export] Hint Resolve mplain_mkdir_p mplain_unlink mplain_symlink mplain_replace mplain_monotonic
  mplain_utc_now mplain_subprocess : plain.

(** ** Plain paths

    A path is plain where each directory on its way is a directory (no link)
    and no component is [..]: it leads to itself. *)

Definition dirs_ok (f : filesystem) (d : list string) : Prop :=
  forall q, q ∈ prefixes [] d -> exists m, f !! q = Some (NDir m).

Lemma prefixes_app done l m : prefixes done (l ++ m) = prefixes done l ++ prefixes (done ++ l) m.
Proof.
  revert done. induction l as [|c l IH]; intros done; simpl; [by rewrite app_nil_r|].
  by rewrite IH, <-app_assoc.
Qed.

Lemma prefixes_not_nil done l q : q ∈ prefixes done l -> q <> [].
Proof.
  revert done. induction l as [|c l IH]; intros done; simpl; [by intros ?%not_elem_of_nil|].
  intros [->|H]%elem_of_cons; [by destruct done|by eapply IH].
Qed.

Lemma node_at_prefix (f : filesystem) d q : q ∈ prefixes [] d -> node_at f q = f !! q.
Proof. intros Hq. apply prefixes_not_nil in Hq. unfold node_at. by destruct q. Qed.

Lemma walk_plain f n l : forall done, ".." ∉ l ->
  (forall q, q ∈ prefixes done l -> exists m, f !! q = Some (NDir m)) -> walk f n done l = Some (done ++ l).
Proof.
  induction l as [|c l IH]; intros done Hdd Hd; [destruct n; simpl; by rewrite app_nil_r|].
  apply not_elem_of_cons in Hdd as [Hc Hdd].
  assert (walk f n done (c :: l) = walk f n (done ++ [c]) l) as ->.
  { destruct (Hd (done ++ [c])) as [m Hm]; [by left|].
    destruct n; simpl; (destruct (String.eqb_spec c "..") as [->|]; [done|]); by rewrite Hm. }
  rewrite IH; [by rewrite <-app_assoc|done|]. intros q Hq. apply Hd. by right.
Qed.

Lemma canon_dirs w d : ".." ∉ d -> dirs_ok (fs w) d -> canon w (MkPath true d) = Some d.
Proof. intros Hdd Hd. unfold canon, absolutize. cbn [absolute parts].
  by apply (walk_plain (fs w) max_links d []). Qed.

Lemma locate_plain w d c : ".." ∉ d -> c <> ".." -> dirs_ok (fs w) d ->
  locate w (MkPath true (d ++ [c])) = Some (d ++ [c]).
Proof.
  intros Hdd Hc Hd. unfold locate, absolutize. cbn [absolute parts].
  rewrite rev_app_distr. cbn [rev app]. destruct (String.eqb_spec c ".."); [done|].
  rewrite rev_involutive. by rewrite (walk_plain (fs w) max_links d []).
Qed.

Lemma mkdir_p_dirs w d : ".." ∉ d -> dirs_ok (fs w) d -> mkdir_p (MkPath true d) w = (Ok tt, w).
Proof.
  intros Hdd Hd. unfold mkdir_p. rewrite canon_dirs by done.
  assert (forall q, q ∈ prefixes [] d -> exists m, node_at (fs w) q = Some (NDir m)) as Hn.
  { intros q Hq. rewrite (node_at_prefix _ d) by done. by apply Hd. }
  clear Hd. revert Hn. generalize (prefixes [] d). intros ks. induction ks as [|q r IH]; intros Hn; [done|].
  destruct (Hn q) as [m ->]; [by left|]. apply IH. intros q' Hq'. apply Hn. by right.
Qed.

Lemma node_at_app (f : filesystem) d c : node_at f (d ++ [c]) = f !! (d ++ [c]).
Proof. unfold node_at. destruct (d ++ [c]) eqn:E; [by apply app_eq_nil in E as [_ ?]|done]. Qed.

(** What stays where it is: the nodes at the keys of a list. *)
Definition keeps (prot : list (list string)) (w w' : world) : Prop :=
  forall k, k ∈ prot -> forall n, fs w !! k = Some n -> fs w' !! k = Some n.
#[export] Instance keeps_preorder prot : PreOrder (keeps prot).
Proof.
  split; [by intros x k _ n|]. intros x y z Hx Hy k Hk n Hn. apply Hy; [done|]. by apply Hx.
Qed.

Lemma keeps_fs {A} prot (m : IO A) : (forall w, fs (m w).2 = fs w) -> Pres (keeps prot) m.
Proof. intros Hm w k _ n. by rewrite Hm. Qed.

Lemma keeps_unlink prot d c w : ".." ∉ d -> c <> ".." -> dirs_ok (fs w) d -> (d ++ [c]) ∉ prot ->
  keeps prot w (unlink_missing_ok (MkPath true (d ++ [c])) w).2.
Proof.
  intros Hdd Hc Hd Hp. unfold unlink_missing_ok. rewrite locate_plain, node_at_app by done.
  assert (keeps prot w (del_node (d ++ [c]) w)) as Hdel.
  { intros k Hk n Hn. simpl. rewrite lookup_delete_ne; [done|]. by intros <-. }
  by destruct (fs w !! (d ++ [c])) as [[]|].
Qed.

Lemma unlink_Ok d c w u w' : ".." ∉ d -> c <> ".." -> dirs_ok (fs w) d ->
  unlink_missing_ok (MkPath true (d ++ [c])) w = (Ok u, w') ->
  fs w' !! (d ++ [c]) = None /\ (forall k, k <> d ++ [c] -> fs w' !! k = fs w !! k) /\
  (forall m, fs w !! (d ++ [c]) <> Some (NDir m)).
Proof.
  intros Hdd Hc Hd. unfold unlink_missing_ok. rewrite locate_plain, node_at_app by done.
  destruct (fs w !! (d ++ [c])) as [[]|] eqn:E; intros; simplify_eq; simpl.
  - split; [by rewrite lookup_delete_eq|]. split; [|done]. intros k Hk. by rewrite lookup_delete_ne.
  - split; [by rewrite lookup_delete_eq|]. split; [|done]. intros k Hk. by rewrite lookup_delete_ne.
  - done.
Qed.

Lemma prefixes_length done l q : q ∈ prefixes done l -> (length q <= length done + length l)%nat.
Proof.
  revert done. induction l as [|c l IH]; intros done; simpl; [by intros ?%not_elem_of_nil|].
  intros [->|H]%elem_of_cons; [rewrite length_app; simpl; lia|]. apply IH in H. rewrite length_app in H.
  simpl in H. lia.
Qed.
Lemma child_not_prefix d c : (d ++ [c]) ∉ prefixes [] d.
Proof. intros H%prefixes_length. rewrite length_app in H. simpl in H. lia. Qed.

(** Changes at the given keys only. *)
Definition changes_only (ks : list (list string)) (w w' : world) : Prop :=
  forall k, k ∉ ks -> fs w' !! k = fs w !! k.
#[export] Instance changes_only_preorder ks : PreOrder (changes_only ks).
Proof. split; [by intros x k|]. intros x y z Hx Hy k Hk. rewrite Hy by done. by apply Hx. Qed.

Lemma changes_mono ks ks' w w' : (forall k, k ∈ ks -> k ∈ ks') -> changes_only ks w w' -> changes_only ks' w w'.
Proof. intros Hs Hc k Hk. apply Hc. intros Hin. by apply Hk, Hs. Qed.

Lemma changes_dirs ks d w w' : changes_only ks w w' -> (forall k, k ∈ ks -> k ∉ prefixes [] d) ->
  dirs_ok (fs w) d -> dirs_ok (fs w') d.
Proof. intros Hc Hk Hd q Hq. rewrite Hc; [by apply Hd|]. intros Hin. by apply (Hk q Hin). Qed.

Lemma changes_keeps ks prot w w' : changes_only ks w w' -> (forall k, k ∈ ks -> k ∉ prot) -> keeps prot w w'.
Proof. intros Hc Hk k Hp n Hn. rewrite Hc; [done|]. intros Hin. by apply (Hk k). Qed.

Section Links.
Context (w : world) (d : list string) (c : string).
Context (Hdd : ".." ∉ d) (Hc : c <> "..") (Hd : dirs_ok (fs w) d).

Lemma co_unlink : changes_only [d ++ [c]] w (unlink_missing_ok (MkPath true (d ++ [c])) w).2.
Proof using All.
  unfold unlink_missing_ok. rewrite locate_plain, node_at_app by done.
  assert (changes_only [d ++ [c]] w (del_node (d ++ [c]) w)) as Hdel.
  { intros k Hk. simpl. rewrite lookup_delete_ne; [done|]. intros <-. apply Hk. by left. }
  by destruct (fs w !! (d ++ [c])) as [[]|].
Qed.

Lemma co_symlink target : changes_only [d ++ [c]] w (symlink_to (MkPath true (d ++ [c])) target w).2.
Proof using All.
  unfold symlink_to. rewrite locate_plain by done.
  assert (changes_only [d ++ [c]] w (put_node (d ++ [c]) (NLink (Path.to_str target)) w)) as Hput.
  { intros k Hk. simpl. rewrite lookup_insert_ne; [done|]. intros <-. apply Hk. by left. }
  by repeat (case_match; simpl).
Qed.

Lemma symlink_Ok target u w' : symlink_to (MkPath true (d ++ [c])) target w = (Ok u, w') ->
  fs w' !! (d ++ [c]) = Some (NLink (Path.to_str target)).
Proof using All.
  unfold symlink_to. rewrite locate_plain by done. repeat (case_match; simpl); intros; simplify_eq.
  simpl. by rewrite lookup_insert_eq.
Qed.

(** [os.replace] of a link over a plain path. *)
Lemma co_replace t s : t <> ".." -> fs w !! (d ++ [t]) = Some (NLink s) ->
  changes_only [d ++ [c]; d ++ [t]] w (replace (MkPath true (d ++ [t])) (MkPath true (d ++ [c])) w).2.
Proof using All.
  intros Ht Hs. unfold replace. rewrite !locate_plain, !node_at_app, Hs by done.
  assert (changes_only [d ++ [c]; d ++ [t]] w
    (set_fs (<[d ++ [c]:=NLink s]> (delete (d ++ [t]) (fs w))) w)) as Hch.
  { intros k Hk. simpl. rewrite lookup_insert_ne, lookup_delete_ne; [done|..]; intros <-; apply Hk; set_solver. }
  by repeat (case_match; simpl).
Qed.

Lemma replace_Ok t s u w' : t <> ".." -> fs w !! (d ++ [t]) = Some (NLink s) ->
  replace (MkPath true (d ++ [t])) (MkPath true (d ++ [c])) w = (Ok u, w') ->
  fs w' !! (d ++ [c]) = Some (NLink s) /\ forall m, fs w !! (d ++ [c]) <> Some (NDir m).
Proof using All.
  intros Ht Hs. unfold replace. rewrite !locate_plain, !node_at_app, Hs by done.
  destruct (bool_decide (d ++ [t] = d ++ [c])) eqn:Ed.
  - intros [= _ <-]. apply bool_decide_eq_true_1 in Ed. rewrite Ed in Hs. by rewrite Hs.
  - destruct (fs w !! (d ++ [c])) as [[]|] eqn:E; simpl; repeat case_match; intros; simplify_eq; simpl;
      (split; [by rewrite lookup_insert_eq|done]).
Qed.
End Links.

Definition dirs_okb (f : filesystem) (d : list string) : bool :=
  forallb (λ q, is_dir_node (f !! q)) (prefixes [] d).
Lemma dirs_okb_true f d : dirs_okb f d = true -> dirs_ok f d.
Proof.
  intros H q Hq. unfold dirs_okb in H. rewrite forallb_forall in H.
  specialize (H q ltac:(by apply list_elem_of_In)). destruct (f !! q) as [[]|]; try done. by eexists.
Qed.

(** A link is switched through a temporary name beside it. *)
Definition switch_link (d : list string) (c t : string) (target : path) : IO unit :=
  unlink_missing_ok (MkPath true (d ++ [t])) ;;
  symlink_to (MkPath true (d ++ [t])) target ;;
  replace (MkPath true (d ++ [t])) (MkPath true (d ++ [c])).

Section Switch.
Context (d : list string) (c t : string) (Hdd : ".." ∉ d) (Hc : c <> "..") (Ht : t <> "..").

Lemma temp_not_prefix k : k ∈ [d ++ [t]] -> k ∉ prefixes [] d.
Proof. intros ->%list_elem_of_singleton. apply child_not_prefix. Qed.
Lemma temp_changes w w' : changes_only [d ++ [t]] w w' -> changes_only [d ++ [c]; d ++ [t]] w w'.
Proof. apply changes_mono. intros k Hk. by right. Qed.

Lemma switch_changes target w : dirs_ok (fs w) d ->
  changes_only [d ++ [c]; d ++ [t]] w (switch_link d c t target w).2.
Proof using All.
  intros Hd. unfold switch_link, mbind, M_bind.
  pose proof (co_unlink w d t Hdd Ht Hd) as C1.
  destruct (unlink_missing_ok _ w) as [[u1|e1] w1]; simpl in C1; [|by apply temp_changes].
  assert (dirs_ok (fs w1) d) as Hd1 by (eapply changes_dirs; [exact C1|apply temp_not_prefix|done]).
  pose proof (co_symlink w1 d t Hdd Ht Hd1 target) as C2.
  destruct (symlink_to _ target w1) as [[u2|e2] w2] eqn:E2; simpl in C2;
    [|etransitivity; by apply temp_changes].
  assert (dirs_ok (fs w2) d) as Hd2 by (eapply changes_dirs; [exact C2|apply temp_not_prefix|done]).
  pose proof (symlink_Ok w1 d t Hdd Ht Hd1 _ _ _ E2) as Hl.
  etransitivity; [|exact (co_replace w2 d c Hdd Hc Hd2 t _ Ht Hl)].
  etransitivity; by apply temp_changes.
Qed.

Lemma switch_Ok target w u w' : dirs_ok (fs w) d -> switch_link d c t target w = (Ok u, w') ->
  fs w' !! (d ++ [c]) = Some (NLink (Path.to_str target)).
Proof using All.
  intros Hd E. unfold switch_link in E. apply M_bind_Ok in E as (u1 & w1 & E1 & E).
  apply M_bind_Ok in E as (u2 & w2 & E2 & E).
  assert (dirs_ok (fs w1) d) as Hd1.
  { pose proof (co_unlink w d t Hdd Ht Hd) as C. rewrite E1 in C.
    eapply changes_dirs; [exact C|apply temp_not_prefix|done]. }
  pose proof (symlink_Ok w1 d t Hdd Ht Hd1 _ _ _ E2) as Hl.
  assert (dirs_ok (fs w2) d) as Hd2.
  { pose proof (co_symlink w1 d t Hdd Ht Hd1 target) as C. rewrite E2 in C.
    eapply changes_dirs; [exact C|apply temp_not_prefix|done]. }
  by apply (replace_Ok w2 d c Hdd Hc Hd2 t _ _ _ Ht Hl) in E as [? _].
Qed.
End Switch.
