(* ===== verification/FsFacts.v ===== *)
(** * Directory trees

    What the operations on directories leave in place: the removal of a tree,
    its rename, and the directories a statement keeps. *)

From Stdlib Require Import Ascii.
From S2P Require Import Prelude PyFloat PyMonad PyValue PyTime PyJson Sha256 PyOs OsFacts.

Lemma strip_parts_Some b l r : Path.strip_parts b l = Some r <-> l = b ++ r.
Proof.
  revert l. induction b as [|x b IH]; intros l.
  - simpl. split; [by intros [= ->]|by intros ->].
  - destruct l as [|c l]; simpl; [done|].
    destruct (String.eqb_spec x c) as [->|Hn]; [rewrite IH; split; [by intros ->|by intros [= ->]]|].
    split; [done|]. by intros [= ? _].
Qed.

(** The guard of the scripts on the paths of documents: a path resolved below a resolved
    root is the root's real directory and components under it. *)
Lemma resolved_below p root w c w1 r w2 x : resolve p w = (Ok c, w1) -> resolve root w1 = (Ok r, w2) ->
  Path.relative_to c r = Some x ->
  w2 = w /\ exists k rest, canon w root = Some k /\ canon w p = Some (k ++ rest) /\ c = MkPath true (k ++ rest).
Proof.
  unfold resolve. destruct (canon w p) as [l|]; [|done]. intros [= <- <-].
  destruct (canon w root) as [k|]; [|done]. intros [= <- <-]. unfold Path.relative_to. cbn [absolute parts Path.of_parts Bool.eqb].
  destruct (Path.strip_parts k l) as [rest|] eqn:E; [|done]. apply strip_parts_Some in E as ->. intros _.
  split; [done|]. by exists k, rest.
Qed.
Lemma below_true k d : below k d = true <-> exists r, k = d ++ r.
Proof.
  unfold below. destruct (Path.strip_parts d k) as [r|] eqn:E.
  - apply strip_parts_Some in E. split; [by exists r|done].
  - split; [done|]. intros [r Hr]. apply strip_parts_Some in Hr. congruence.
Qed.
Lemma below_refl d : below d d = true.
Proof. apply below_true. exists []. by rewrite app_nil_r. Qed.

(** A key below another that is a prefix of a plain path is one itself. *)
Lemma prefix_of_prefixes d k r q : k <> [] -> q ∈ prefixes [] d -> q = k ++ r -> k ∈ prefixes [] d.
Proof.
  assert (forall d acc q, q ∈ prefixes acc d <-> exists x l, d = x ++ l /\ x <> [] /\ q = acc ++ x) as Hp.
  { clear. induction d as [|c d IH]; intros acc q; simpl.
    - split; [by intros ?%not_elem_of_nil|]. intros (x & l & E & Hx & _). symmetry in E. by apply app_eq_nil in E as [-> _].
    - rewrite elem_of_cons, IH. split.
      + intros [->|(x & l & -> & Hx & ->)]; [by exists [c], d|]. exists (c :: x), l. by rewrite <-app_assoc.
      + intros ([|c' x] & l & E & Hx & ->); [done|]. injection E as <- ->. destruct x as [|c2 x]; [by left|].
        right. exists (c2 :: x), l. by rewrite <-app_assoc. }
  intros Hk (x & l & -> & Hx & ->)%Hp E. apply Hp. simpl in E. subst x. exists k, (r ++ l).
  by rewrite app_assoc.
Qed.

Section Trees.
Context (f : filesystem).

Lemma delete_tree_lookup d k : delete_tree d f !! k = if below k d then None else f !! k.
Proof.
  unfold delete_tree. apply option_eq. intros n. rewrite <-elem_of_list_to_map.
  - rewrite list_elem_of_In, filter_In, <-list_elem_of_In, elem_of_map_to_list. simpl.
    destruct (below k d); simpl; split; try done; by intros [].
  - eapply sublist_NoDup; [apply (NoDup_fst_map_to_list f)|].
    induction (map_to_list f) as [|x l IH]; simpl; [constructor|].
    destruct (negb (below x.1 d)); simpl; by constructor.
Qed.

Lemma moved_NoDup src dst : NoDup (map (λ kv : list string * node, (move_key src dst kv.1, kv.2))
  (map_to_list (delete_tree dst f))).*1.
Proof.
  rewrite <-list_fmap_compose. change (fst ∘ _) with ((move_key src dst) ∘ (fst (A:=list string) (B:=node))).
  rewrite list_fmap_compose. apply NoDup_fmap_2_strong; [|apply NoDup_fst_map_to_list].
  assert (forall k, k ∈ (map_to_list (delete_tree dst f)).*1 -> below k dst = false) as Hout.
  { intros k ([k' n] & -> & Hin)%list_elem_of_fmap. apply elem_of_map_to_list in Hin.
    rewrite delete_tree_lookup in Hin. simpl. by destruct (below k' dst). }
  intros k1 k2 H1%Hout H2%Hout. unfold move_key.
  destruct (Path.strip_parts src k1) as [r1|] eqn:E1, (Path.strip_parts src k2) as [r2|] eqn:E2.
  - intros ->%app_inv_head. apply strip_parts_Some in E1, E2. congruence.
  - intros <-. assert (below (dst ++ r1) dst = true) by (apply below_true; eauto). congruence.
  - intros ->. assert (below (dst ++ r2) dst = true) by (apply below_true; eauto). congruence.
  - done.
Qed.

Lemma rename_outside src dst q n : below q src = false -> below q dst = false -> f !! q = Some n ->
  rename_tree src dst f !! q = Some n.
Proof.
  intros Hs Hd Hq. apply elem_of_list_to_map; [apply moved_NoDup|].
  apply list_elem_of_fmap. exists (q, n). split.
  - unfold move_key. simpl. unfold below in Hs. by destruct (Path.strip_parts src q).
  - apply elem_of_map_to_list. rewrite delete_tree_lookup. by rewrite Hd.
Qed.

Lemma rename_root src dst n : below src dst = false -> f !! src = Some n -> rename_tree src dst f !! dst = Some n.
Proof.
  intros Hd Hq. apply elem_of_list_to_map; [apply moved_NoDup|].
  apply list_elem_of_fmap. exists (src, n). split.
  - unfold move_key. simpl. assert (Path.strip_parts src src = Some []) as ->.
    { apply strip_parts_Some. by rewrite app_nil_r. }
    by rewrite app_nil_r.
  - apply elem_of_map_to_list. rewrite delete_tree_lookup. by rewrite Hd.
Qed.

Lemma has_child_true d k n : f !! k = Some n -> below k d = true -> k <> d -> has_child d f = true.
Proof.
  intros Hk Hb Hn. unfold has_child. apply existsb_exists. exists (k, n). split.
  - apply list_elem_of_In. by apply elem_of_map_to_list.
  - simpl. rewrite Hb. by rewrite bool_decide_eq_false_2.
Qed.
End Trees.

(** ** Directories that stay directories *)

Definition dirs_kept (ks : list (list string)) (w w' : world) : Prop :=
  forall k, k ∈ ks -> is_dir_node (fs w !! k) = true -> is_dir_node (fs w' !! k) = true.
#[export] Instance dirs_kept_preorder ks : PreOrder (dirs_kept ks).
Proof. split; [by intros x k|]. intros x y z Hx Hy k Hk Hd. apply Hy; [done|]. by apply Hx. Qed.

Lemma dirs_kept_ok ks d w w' : dirs_kept ks w w' -> (forall k, k ∈ prefixes [] d -> k ∈ ks) ->
  dirs_ok (fs w) d -> dirs_ok (fs w') d.
Proof.
  intros Hk Hs Hd q Hq. destruct (Hd q Hq) as [m Hm].
  assert (is_dir_node (fs w' !! q) = true) as E by (apply Hk; [by apply Hs|by rewrite Hm]).
  destruct (fs w' !! q) as [[| |]|]; try done. by eexists.
Qed.

Lemma dk_writes ks w w' : writes_only w w' -> dirs_kept ks w w'.
Proof.
  intros [_ Hf] k _ Hd. destruct (Hf k) as [->|[[E|E] _]]; [done|by rewrite E in Hd|].
  by destruct (fs w !! k) as [[]|].
Qed.
Lemma dk_pres_writes {A} ks (m : IO A) : Pres writes_only m -> Pres (dirs_kept ks) m.
Proof. intros Hm w. by apply dk_writes. Qed.
Lemma dk_changes ks cs w w' : changes_only cs w w' -> (forall k, k ∈ cs -> k ∉ ks) -> dirs_kept ks w w'.
Proof. intros Hc Hn k Hk. rewrite Hc; [done|]. intros Hin. by apply (Hn k). Qed.
Lemma dk_put ks k n w : is_dir_node (node_at (fs w) k) = false \/ is_dir_node (Some n) = true ->
  dirs_kept ks w (put_node k n w).
Proof.
  intros Hk q _ Hd. simpl. destruct (decide (q = k)) as [->|Hne]; [|by rewrite lookup_insert_ne].
  rewrite lookup_insert_eq. destruct Hk as [Hk|]; [|done].
  unfold node_at in Hk. destruct k; [done|congruence].
Qed.

Lemma dk_mkdir ks p m : Pres (dirs_kept ks) (mkdir p m).
Proof.
  intros w. unfold mkdir. destruct (locate w p) as [k|]; [|reflexivity].
  destruct (is_some_node (node_at (fs w) k)); [reflexivity|].
  destruct (is_dir_node (node_at (fs w) (removelast k))); [|reflexivity]. apply dk_put. by right.
Qed.
Lemma dk_update_meta ks p g : Pres (dirs_kept ks) (update_meta p g).
Proof.
  intros w. unfold update_meta. destruct (canon w p) as [k|]; [|reflexivity].
  destruct (node_at (fs w) k) as [[]|] eqn:E; try reflexivity; apply dk_put; [left; by rewrite E|by right].
Qed.
Lemma dk_chmod ks p m : Pres (dirs_kept ks) (chmod p m).
Proof. apply dk_update_meta. Qed.
Lemma dk_chown ks p u g : Pres (dirs_kept ks) (chown p u g).
Proof. apply dk_update_meta. Qed.
#[export] Hint Resolve dk_mkdir dk_chmod dk_chown : pres.
#[export] Hint Extern 5 (Pres (dirs_kept _) _) => apply dk_pres_writes; solve [eauto with pres] : pres.

(** The rename of a directory no kept directory is below. *)
Lemma dk_rename ks src dst a w : locate w src = Some a -> a <> [] ->
  (forall k, k ∈ ks -> below k a = false) -> dirs_kept ks w (replace src dst w).2.
Proof.
  intros Ha Hnil Hks. unfold replace. rewrite Ha. destruct (locate w dst) as [b|]; [|reflexivity].
  assert (node_at (fs w) a = fs w !! a) as -> by (unfold node_at; by destruct a).
  destruct (fs w !! a) as [n|] eqn:En; [|reflexivity].
  assert (forall k, k ∈ ks -> k <> a) as Hne.
  { intros k Hk ->. specialize (Hks a Hk). by rewrite below_refl in Hks. }
  assert (forall n', is_dir_node (fs w !! b) = false -> dirs_kept ks w (set_fs (<[b:=n']> (delete a (fs w))) w)) as Hfile.
  { intros n' Hb k Hk Hd. simpl. rewrite lookup_insert_ne by congruence.
    rewrite lookup_delete_ne; [done|]. by apply not_eq_sym, Hne. }
  assert (forall m, n = NDir m -> a <> b -> has_child b (fs w) = false ->
    dirs_kept ks w (set_fs (rename_tree a b (fs w)) w)) as Hdir.
  { intros m -> Hab Hch k Hk Hd. assert (below a b = false) as Hba.
    { destruct (below a b) eqn:Hb; [|done]. by rewrite (has_child_true _ _ _ _ En Hb Hab) in Hch. }
    simpl. destruct (decide (k = b)) as [->|Hkb]; [by rewrite (rename_root _ _ _ _ Hba En)|].
    destruct (fs w !! k) as [[d0 m0|mk|t0]|] eqn:Ek; try done.
    rewrite (rename_outside _ _ _ _ (NDir mk) (Hks k Hk)); [done| |done].
    destruct (below k b) eqn:Hb; [|done]. by rewrite (has_child_true _ _ _ _ Ek Hb Hkb) in Hch. }
  assert (forall nb, nb = node_at (fs w) b -> is_dir_node nb = false -> is_dir_node (fs w !! b) = false) as Hb.
  { intros nb -> H. by destruct b. }
  destruct n as [d m|m|t].
  - destruct (bool_decide (a = b)); [reflexivity|]. destruct (is_dir_node (node_at _ b)) eqn:Eb; [reflexivity|].
    destruct (is_dir_node (node_at _ (removelast b))); [apply Hfile; by eapply Hb|reflexivity].
  - destruct (bool_decide (a = b)) eqn:Eab; [reflexivity|]. apply bool_decide_eq_false_1 in Eab.
    destruct (below b a); [reflexivity|].
    destruct (is_some_node _ && _); [reflexivity|]. destruct (has_child b (fs w)) eqn:Hch; [reflexivity|].
    destruct (is_dir_node (node_at _ (removelast b))); [by eapply Hdir|reflexivity].
  - destruct (bool_decide (a = b)); [reflexivity|]. destruct (is_dir_node (node_at _ b)) eqn:Eb; [reflexivity|].
    destruct (is_dir_node (node_at _ (removelast b))); [apply Hfile; by eapply Hb|reflexivity].
Qed.

(** The removal of a tree no kept directory is in. *)
Lemma dk_rmtree ks p a w : locate w p = Some a -> (forall k, k ∈ ks -> below k a = false) ->
  dirs_kept ks w (rmtree_ignore p w).2.
Proof.
  intros Ha Hks. unfold rmtree_ignore. rewrite Ha. destruct (is_dir_node _); [|reflexivity].
  intros k Hk Hd. simpl. rewrite delete_tree_lookup. by rewrite (Hks k Hk).
Qed.

(** ** What is written is read back *)

(** Where a path leads depends on the links only. *)
Lemma walk_links (f g : filesystem) : (forall k t, f !! k = Some (NLink t) <-> g !! k = Some (NLink t)) ->
  forall n dn todo, walk f n dn todo = walk g n dn todo.
Proof.
  intros Hl n. induction n as [|n IH]; intros dn todo; revert dn; induction todo as [|c r IHr]; intros dn; simpl; try done.
  - destruct (String.eqb c ".."); [apply IHr|]. specialize (Hl (dn ++ [c])).
    destruct (f !! (dn ++ [c])) as [[| |t]|], (g !! (dn ++ [c])) as [[| |t']|]; try apply IHr; try done.
    all: try (by destruct (proj1 (Hl t) eq_refl)). all: try (by destruct (proj2 (Hl t') eq_refl)).
    all: try (specialize (proj1 (Hl t) eq_refl); done). all: specialize (proj2 (Hl t') eq_refl); done.
  - destruct (String.eqb c ".."); [apply IHr|]. specialize (Hl (dn ++ [c])).
    destruct (f !! (dn ++ [c])) as [[| |t]|], (g !! (dn ++ [c])) as [[| |t']|]; try apply IHr; try apply IH.
    all: try (specialize (proj1 (Hl t) eq_refl); intros [= ->]; apply IH).
    all: try (specialize (proj1 (Hl t) eq_refl); done). all: specialize (proj2 (Hl t') eq_refl); done.
Qed.
Lemma canon_writes p w w' : writes_only w w' -> cwd w' = cwd w -> canon w' p = canon w p.
Proof.
  intros Hw Hc. unfold canon, absolutize. rewrite Hc. apply walk_links. intros k t. by apply writes_only_link.
Qed.

Lemma write_file_stat p s w u w' : write_file p s w = (Ok u, w') ->
  writes_only w w' /\ cwd w' = cwd w /\ exists m, stat w' p = Some (NFile s m).
Proof.
  intros E. assert (writes_only w w') as Hw by exact (pres_run _ _ _ _ _ (wo_write_file p s) E).
  assert (cwd w' = cwd w) as Hc.
  { unfold write_file in E. repeat (case_match; simplify_eq; try done). }
  split; [done|]. split; [done|]. pose proof (canon_writes p w w' Hw Hc) as Hk.
  unfold stat. rewrite Hk. unfold write_file in E. destruct (canon w p) as [k|]; [|done].
  destruct (node_at (fs w) k) as [[d m|m|t]|] eqn:En; try done.
  - injection E as _ <-. exists m. destruct k; [done|]. simpl. by rewrite lookup_insert_eq.
  - destruct (is_dir_node _); [|done]. injection E as _ <-. exists (Meta 420 0 0). destruct k; [done|]. simpl.
    by rewrite lookup_insert_eq.
Qed.
Lemma write_file_read p s w u w' : write_file p s w = (Ok u, w') -> read_bytes p w' = (Ok s, w').
Proof. intros (_ & _ & m & Hs)%write_file_stat. unfold read_bytes. by rewrite Hs. Qed.

(** A change of permissions keeps the contents. *)
Lemma chmod_read p m s w u w' : read_bytes p w = (Ok s, w) -> chmod p m w = (Ok u, w') -> read_bytes p w' = (Ok s, w').
Proof.
  intros Hr E. unfold chmod, update_meta in E. unfold read_bytes, stat in Hr. destruct (canon w p) as [k|] eqn:Ek; [|done].
  destruct (node_at (fs w) k) as [[d x|x|t]|] eqn:En; try done. injection Hr as ->. injection E as _ <-.
  assert (writes_only w (put_node k (NFile s (Meta m (uid x) (gid x))) w)) as Hw.
  { apply wo_put; [right|by left]. apply node_at_lookup in En; [by rewrite En|done]. }
  unfold read_bytes, stat. rewrite (canon_writes p _ _ Hw) by done. rewrite Ek. destruct k; [done|]. simpl.
  by rewrite lookup_insert_eq.
Qed.

(** ** Plain paths and their texts *)

Module PathText.

(** A component of a path: no separator, and a name of its own. *)
Definition comp (s : string) : bool :=
  negb (String.eqb s "") && negb (String.eqb s ".") && negb (String.eqb s "..") && Str.without ["/"%char] s.

Lemma comp_inv s : comp s = true -> s <> "" /\ s <> "." /\ s <> ".." /\ Str.without ["/"%char] s = true.
Proof.
  unfold comp. intros H. bool_to_prop. repeat split; [..|done].
  all: by apply String.eqb_neq.
Qed.

Lemma split_slashless s : Str.without ["/"%char] s = true -> Str.split_char "/" s = [s].
Proof.
  induction s as [|c s IH]; intros Hs; [done|]. apply Str.without_head in Hs as [Hc Hs]. simpl.
  unfold inb in Hc. simpl in Hc. rewrite orb_false_r in Hc. by rewrite Hc, IH.
Qed.
Lemma split_slash s t : Str.without ["/"%char] s = true -> Str.split_char "/" (s +:+ String "/" t) = s :: Str.split_char "/" t.
Proof.
  induction s as [|c s IH]; intros Hs; [done|]. apply Str.without_head in Hs as [Hc Hs].
  rewrite Str.app_cons. cbn [Str.split_char]. unfold inb in Hc. simpl in Hc. rewrite orb_false_r in Hc. by rewrite Hc, IH.
Qed.
Lemma split_join l : l <> [] -> Forall (λ s, comp s = true) l -> Str.split_char "/" (Str.join "/" l) = l.
Proof.
  intros Hl H. induction H as [|s l Hs H IH]; [done|]. apply comp_inv in Hs as (_ & _ & _ & Hs).
  destruct l as [|t l]; [by apply split_slashless|].
  change (Str.join "/" (s :: t :: l)) with (s +:+ String "/" (Str.join "/" (t :: l))).
  rewrite split_slash by done. f_equal. by apply IH.
Qed.

Lemma filter_comps l : Forall (λ s, comp s = true) l ->
  List.filter (λ c, negb (String.eqb c "" || String.eqb c ".")) l = l.
Proof.
  induction 1 as [|s l Hs _ IH]; [done|]. simpl. apply comp_inv in Hs as (Hs1 & Hs2 & _).
  apply String.eqb_neq in Hs1, Hs2. rewrite Hs1, Hs2. simpl. by rewrite IH.
Qed.

(** An absolute path is what its text says. *)
Lemma of_to_str l : l <> [] -> Forall (λ s, comp s = true) l -> Path.of_str (Path.to_str (MkPath true l)) = MkPath true l.
Proof.
  intros Hl H. unfold Path.to_str. cbn [absolute parts]. unfold Path.of_str.
  change ("/" +:+ Str.join "/" l) with (String "/" (Str.join "/" l)). cbn [Str.split_char].
  rewrite Ascii.eqb_refl. rewrite split_join by done. cbn [List.filter String.eqb orb negb]. by rewrite filter_comps.
Qed.

Lemma of_str_name n : comp n = true -> Path.of_str n = MkPath false [n].
Proof.
  intros Hn. unfold Path.of_str. pose proof (comp_inv n Hn) as (He & _ & _ & Hs).
  rewrite split_slashless, filter_comps by (done || by constructor). f_equal.
  destruct n as [|c n]; [done|]. apply Str.without_head in Hs as [Hc _]. unfold Str.startswith. cbn [Str.strip_prefix].
  unfold inb in Hc. cbn [existsb] in Hc. rewrite orb_false_r in Hc. by rewrite Ascii.eqb_sym, Hc.
Qed.

Section Child.
Context (d : list string) (c : string).

Lemma parent_child : Path.parent (MkPath true (d ++ [c])) = MkPath true d.
Proof. unfold Path.parent. cbn [absolute parts]. by rewrite removelast_last. Qed.
Lemma name_child : Path.name (MkPath true (d ++ [c])) = c.
Proof. unfold Path.name. cbn [parts]. by rewrite last_last. Qed.
Lemma with_name_child n : comp n = true -> Path.with_name (MkPath true (d ++ [c])) n = MkPath true (d ++ [n]).
Proof. intros Hn. unfold Path.with_name. rewrite parent_child. unfold Path.div. by rewrite of_str_name. Qed.

Lemma join_suffix x : Str.join "/" (d ++ [c]) +:+ x = Str.join "/" (d ++ [c +:+ x]).
Proof.
  induction d as [|a l IH]; [done|]. destruct l as [|b l].
  - simpl. by rewrite !Str.app_assoc.
  - change (Str.join "/" ((a :: b :: l) ++ [c])) with (a +:+ "/" +:+ Str.join "/" ((b :: l) ++ [c])).
    change (Str.join "/" ((a :: b :: l) ++ [c +:+ x])) with (a +:+ "/" +:+ Str.join "/" ((b :: l) ++ [c +:+ x])).
    by rewrite !Str.app_assoc, IH.
Qed.
End Child.
End PathText.

(** ** Resolved paths

    A key without a link on its way and without [..] leads to itself; what a
    resolution answers is such a key. *)

Definition straight (f : filesystem) (d : list string) : Prop :=
  ".." ∉ d /\ forall q, q ∈ prefixes [] d -> is_link_node (f !! q) = false.

Lemma prefixes_snoc d c : prefixes [] (d ++ [c]) = prefixes [] d ++ [d ++ [c]].
Proof. by rewrite prefixes_app. Qed.
Lemma straight_nil f : straight f [].
Proof. split; [by intros ?%not_elem_of_nil|by intros q ?%not_elem_of_nil]. Qed.
Lemma straight_snoc f d c : straight f (d ++ [c]) <-> straight f d /\ c <> ".." /\ is_link_node (f !! (d ++ [c])) = false.
Proof.
  unfold straight. setoid_rewrite not_elem_of_app. rewrite not_elem_of_cons. setoid_rewrite prefixes_snoc.
  setoid_rewrite elem_of_app. setoid_rewrite list_elem_of_singleton. split.
  - intros [(Hd & Hc & _) Hl]. split; [split; [done|by intros q Hq; apply Hl; left]|]. split; [done|]. apply Hl. by right.
  - intros ((Hd & Hq) & Hc & Hl). split; [split; [done|split; [done|by intros ?%not_elem_of_nil]]|].
    intros q [H| ->]; [by apply Hq|done].
Qed.
Lemma straight_removelast f d : straight f d -> straight f (removelast d).
Proof.
  destruct d as [|c d _] using rev_ind; [done|]. rewrite removelast_last. by intros [H _]%straight_snoc.
Qed.
Lemma walk_straight f n : forall todo dn k, straight f dn -> walk f n dn todo = Some k -> straight f k.
Proof.
  induction n as [|n IH]; intros todo; induction todo as [|c r IHr]; intros dn k Hs E; simpl in E.
  1, 3: by injection E as <-.
  all: destruct (String.eqb_spec c "..") as [->|Hc]; [by eapply IHr; [apply straight_removelast|]|].
  all: destruct (f !! (dn ++ [c])) as [[?|?|t]|] eqn:En; try done;
    try (eapply IHr; [|exact E]; apply straight_snoc; by rewrite En).
  refine (IH _ _ _ _ E). destruct (Str.startswith "/" t); [apply straight_nil|done].
Qed.
Lemma canon_straight w p k : canon w p = Some k -> straight (fs w) k.
Proof. apply walk_straight, straight_nil. Qed.

Lemma walk_own f n l : forall dn, straight f (dn ++ l) -> walk f n dn l = Some (dn ++ l).
Proof.
  induction l as [|c l IH]; intros dn Hs; [destruct n; simpl; by rewrite app_nil_r|].
  assert (straight f (dn ++ [c])) as [_ [Hc Hl]]%straight_snoc.
  { destruct Hs as [Hdd Hl]. split.
    - intros [|]%elem_of_app; apply Hdd, elem_of_app; [by left|]. right. rewrite list_elem_of_singleton in H. subst. by left.
    - intros q Hq. apply Hl. change (c :: l) with ([c] ++ l). rewrite app_assoc, prefixes_app. apply elem_of_app. by left. }
  assert (walk f n dn (c :: l) = walk f n (dn ++ [c]) l) as ->.
  { destruct n; simpl; (destruct (String.eqb_spec c ".."); [done|]); by destruct (f !! (dn ++ [c])) as [[]|]. }
  rewrite IH; rewrite <-app_assoc; done.
Qed.
Lemma canon_own w d : straight (fs w) d -> canon w (MkPath true d) = Some d.
Proof. intros Hs. by apply (walk_own (fs w) max_links d []). Qed.
Lemma locate_own w d c : straight (fs w) d -> c <> ".." -> locate w (MkPath true (d ++ [c])) = Some (d ++ [c]).
Proof.
  intros Hs Hc. unfold locate, absolutize. cbn [absolute parts]. rewrite rev_app_distr. cbn [rev app].
  destruct (String.eqb_spec c ".."); [done|]. rewrite rev_involutive. by rewrite (walk_own (fs w) max_links d []).
Qed.
(** A name in a resolved directory that is no link leads to itself. *)
Lemma canon_child w d c : straight (fs w) d -> c <> ".." -> is_link_node (lstat w (MkPath true (d ++ [c]))) = false ->
  canon w (MkPath true (d ++ [c])) = Some (d ++ [c]).
Proof.
  intros Hs Hc Hl. apply canon_own, straight_snoc. split; [done|]. split; [done|].
  unfold lstat in Hl. rewrite locate_own in Hl by done. unfold node_at in Hl. by destruct (d ++ [c]) eqn:E; [destruct d|].
Qed.
