(* ===== verification/Fixture.v ===== *)
(** * A host for the concrete runs

    The witnesses of the theorems run the scripts on small worlds: a file
    system built from a list of files, a clock that moves one millisecond at a
    reading, and a jsonschema package that finds no error. *)

From Stdlib Require Import Ascii.
From S2P Require Import Prelude PyFloat PyMonad PyValue PyTime PyJson Sha256 PyOs.

Module Fixture.

(** 2026-07-14T06:00:00Z *)
Definition t0 : Z := 1784008800000000.

Definition host_with (run : list proc -> proc -> filesystem -> proc_out * filesystem * Z) : Platform := {|
  exec := run;
  schema_errors := λ _ _, [];
  schema_check := λ _, None;
  repo_root := Path.of_str "/repo";
  json_error := λ _, "Expecting value: line 1 column 1 (char 0)";
  elapse := λ _, 1000;
  utc_at := λ n, t0 + 1000 * Z.of_nat n;
  local_offset := 0;
  random_hex := λ _, "5f0c1d7e9a3b4c6d8e2f1a0b9c8d7e6f";
  pid := 4242;
  euid := 0;
  os_name := "posix";
  which := λ _, None;
  executable := "/usr/bin/python3";
  home_dir := "/root";
  can_read := λ m, true;
  account := λ n, if String.eqb n "liqi" then Some 991 else if String.eqb n "root" then Some 0 else None;
  group := λ n, if String.eqb n "liqi" then Some 991 else if String.eqb n "root" then Some 0 else None
|}.

(** Every program succeeds, says nothing and changes no file. *)
Definition quiet_host : Platform := host_with (λ _ _ f, (Exited 0 "" "", f, 1000)).

Definition add_file (f : filesystem) (file : string * string) : filesystem :=
  let k := parts (Path.of_str file.1) in
  <[k := NFile file.2 (Meta 420 0 0)]>
    (fold_left (λ f d, <[d := NDir (Meta 493 0 0)]> f) (prefixes [] (removelast k)) f).

Definition world_with (files : list (string * string)) : world :=
  World (fold_left add_file files ∅) ["repo"] [] 0 0 [] [] [].

Definition add_dir (d : string) (w : world) : world :=
  set_fs (<[parts (Path.of_str d) := NDir (Meta 493 0 0)]> (fs w)) w.

Definition json (v : val) : string := Json.dumps Json.compact v.
Definition rec (l : list (string * string)) : val := VDict (map (λ kv, (kv.1, VStr kv.2)) l).
End Fixture.
