(* ===== verification/DocumentFacts.v ===== *)
(** * Documents between programs

    What one program writes with [write_json] another reads with [load_json]:
    the same document, its keys in order. Every document read has distinct keys
    at each level, and the updates of the programs keep it so. *)

From Stdlib Require Import Ascii.
From S2P Require Import Prelude PyFloat PyMonad PyValue PyTime PyJson PyCodecs JsonFacts Sha256 PyOs OsFacts FsFacts Fixture.
From S2P Require Import ReadinessCommon.

Module DocumentFacts.
Import Json JsonFacts.

(** ** The document that is read back equals the one written *)

Lemma py_eq_int z : py_eq (VInt z) (VInt z) = true.
Proof. simpl. unfold num_compare. simpl. by rewrite Z.compare_refl. Qed.
Lemma py_eq_lists (f : val -> val) l : Forall (λ v, py_eq v (f v) = true) l -> py_eq (VList l) (VList (map f l)) = true.
Proof. induction 1 as [|v l Hv Hl IH]; [done|]. simpl in *. by rewrite Hv. Qed.
Lemma py_eq_read_back st v : printable v -> py_eq v (read_back st v) = true.
Proof.
  induction v as [|b|z|f|s|l IH|d IH] using val_ind'; intros Hp; inversion Hp as [| | | |? Hl|? Hn Hd]; subst.
  - done.
  - by destruct b.
  - apply py_eq_int.
  - simpl. apply String.eqb_refl.
  - apply py_eq_lists. rewrite Forall_forall in IH, Hl |- *. intros x Hx. apply IH; [done|by apply Hl].
  - cbn [read_back]. rewrite arranged_map. pose proof (arranged_perm st d) as Hperm.
    change (Nat.eqb (length d) (length (map (λ kx, (kx.1, read_back st kx.2)) (arranged st d))) &&
      forallb (λ '(k, x), match Dict.lookup k (map (λ kx, (kx.1, read_back st kx.2)) (arranged st d)) with
                          | Some y => py_eq x y | None => false end) d = true).
    apply andb_true_intro. split; [by rewrite length_map, Hperm, Nat.eqb_refl|].
    apply forallb_forall. intros [k x] Hx%list_elem_of_In. rewrite Forall_forall in IH, Hd.
    rewrite (Dict.In_lookup k (read_back st x)).
    + apply (IH (k, x) Hx). by apply (Hd (k, x)).
    + unfold Dict.keys in *. rewrite map_map. simpl. change (λ x : string * val, x.1) with (fst (A:=string) (B:=val)).
      by rewrite (Permutation_map fst Hperm).
    + rewrite Hperm. apply list_elem_of_In. by apply list_elem_of_In, (in_map (λ kx, (kx.1, read_back st kx.2))) in Hx.
Qed.

Lemma utf8_plain s : plain s = true -> Codec.utf8_ok 0 s = true.
Proof.
  induction s as [|c s IH]; [done|]. rewrite plain_cons. intros [Hc Hs]%andb_true_iff. unfold plain_char in Hc.
  simpl. apply andb_true_iff in Hc as [-> _]. by apply IH.
Qed.
Lemma newlines_plain s : plain s = true -> newlines s = s.
Proof.
  induction s as [|c s IH]; [done|]. rewrite plain_cons. intros [Hc Hs]%andb_true_iff. unfold plain_char in Hc.
  simpl. apply andb_true_iff in Hc as [_ Hc%negb_true_iff]. rewrite Hc. by rewrite IH.
Qed.
Lemma json_text_plain v : printable v -> plain (json_text v) = true.
Proof.
  intros Hv. unfold json_text. rewrite plain_app. unfold dumps. by rewrite (plain_dump pretty v eq_refl eq_refl Hv 0).
Qed.

Section Files.
Context `{Platform}.

Lemma load_written p v w : printable v -> read_bytes p w = (Ok (json_text v), w) ->
  PyOs.load_json p w = (Ok (read_back pretty v), w).
Proof.
  intros Hv Hr. unfold PyOs.load_json, read_text. pose proof (json_text_plain v Hv) as Hp.
  unfold mbind at 1, M_bind at 1. unfold mbind at 1, M_bind at 1. rewrite Hr, (utf8_plain _ Hp), (newlines_plain _ Hp).
  unfold mret, M_ret, lift, json_loads. unfold json_text at 1.
  by rewrite (loads_dumps pretty v (String (ascii_of_N 10) "") good_pretty Hv eq_refl eq_refl).
Qed.

(** C21: A document of texts, numbers without a fraction, lists and dicts with distinct keys that
    a program wrote with [write_json] is read back by [load_json] as the same document,
    equal in the sense of Python and with the keys of every dict in order, whatever links
    the path went through. *)
Theorem json_round_trip p v w u w' : printable v -> Readiness.write_json p v w = (Ok u, w') ->
  Readiness.load_json p w' = (Ok (read_back pretty v), w') /\ py_eq v (read_back pretty v) = true.
Proof.
  intros Hv E. unfold Readiness.write_json in E. apply M_bind_Ok in E as (u1 & w1 & _ & E).
  split; [|by apply py_eq_read_back]. apply load_written; [done|]. by eapply write_file_read.
Qed.
End Files.

(** ** Distinct keys *)

#[warnings="-register-all"] Inductive distinct : val -> Prop :=
  | di_none : distinct VNone
  | di_bool b : distinct (VBool b)
  | di_int z : distinct (VInt z)
  | di_float f : distinct (VFloat f)
  | di_str s : distinct (VStr s)
  | di_list l : Forall distinct l -> distinct (VList l)
  | di_dict d : NoDup (Dict.keys d) -> Forall (λ kx, distinct kx.2) d -> distinct (VDict d).

Lemma set_values (P : val -> Prop) k x d : P x -> Forall (λ kx : string * val, P kx.2) d -> Forall (λ kx, P kx.2) (Dict.set k x d).
Proof.
  intros Hx. induction 1 as [|[k' x'] d Hx' Hd IH]; simpl; [by repeat constructor|].
  destruct (String.eqb k k'); by constructor.
Qed.
Lemma distinct_set k x d : distinct x -> distinct (VDict d) -> distinct (VDict (Dict.set k x d)).
Proof.
  intros Hx Hd. inversion Hd as [| | | | | |? Hn Hf]; subst. constructor; [by apply Dict.set_NoDup|by apply set_values].
Qed.
Lemma lookup_distinct k d x : distinct (VDict d) -> Dict.lookup k d = Some x -> distinct x.
Proof.
  intros Hd Hx%Dict.lookup_In. inversion Hd as [| | | | | |? _ Hf]; subst. rewrite Forall_forall in Hf. exact (Hf _ Hx).
Qed.
(** The updates of the programs keep keys distinct, and so do the reads. *)
Lemma distinct_set_path ks x v : distinct x -> distinct v -> distinct (vset_path ks x v).
Proof.
  intros Hx. revert v. induction ks as [|k ks IH]; intros v Hv; simpl; [done|]. destruct v; try done.
  apply distinct_set; [|done]. apply IH. destruct (Dict.lookup k d) eqn:E; [by eapply lookup_distinct|constructor].
Qed.
Lemma distinct_getitem v k x : distinct v -> getitem v k = Ok x -> distinct x.
Proof.
  intros Hv E. destruct v; try done. simpl in E. destruct (Dict.lookup k d) eqn:El; [|done]. injection E as <-.
  by eapply lookup_distinct.
Qed.

Lemma number_distinct s v q : parse_number s = Some (v, q) -> distinct v.
Proof. unfold parse_number. intros E. repeat (case_match; simplify_eq; try constructor). Qed.
Lemma const_distinct s v q : parse_const s = Some (v, q) -> distinct v.
Proof. unfold parse_const. intros E. repeat (case_match; simplify_eq; try constructor). Qed.

Lemma parsed_distinct n :
  (forall s v q, parse_value n s = Some (v, q) -> distinct v) /\
  (forall acc s v q, Forall distinct acc -> parse_elems n acc s = Some (v, q) -> distinct v) /\
  (forall acc s v q, distinct (VDict acc) -> parse_members n acc s = Some (v, q) -> distinct v).
Proof.
  induction n as [|n (IHv & IHe & IHm)]; [done|]. split; [|split].
  - intros s v q E. cbn [parse_value] in E. destruct s as [|c s]; [done|].
    destruct (Ascii.eqb c dquote). { destruct (parse_chars s) as [[t q']|]; [|done]. injection E as <- _. constructor. }
    destruct (Ascii.eqb c "["). { destruct (skip_ws s) as [|d r]; [done|]. destruct (Ascii.eqb d "]");
      [injection E as <- _; by repeat constructor|]. eapply IHe; [|exact E]. constructor. }
    destruct (Ascii.eqb c "{"). { destruct (skip_ws s) as [|d r]; [done|]. destruct (Ascii.eqb d "}");
      [injection E as <- _; by repeat constructor|]. eapply IHm; [|exact E]. by repeat constructor. }
    destruct (parse_const (String c s)) as [[x y]|] eqn:Ec; [injection E as <- _; by eapply const_distinct|].
    by eapply number_distinct.
  - intros acc s v q Ha E. cbn [parse_elems] in E. destruct (parse_value n s) as [[x r]|] eqn:Ev; [|done]. simpl in E.
    assert (Forall distinct (acc ++ [x])) as Hx.
    { apply Forall_app. split; [done|]. constructor; [by eapply IHv|constructor]. }
    destruct (skip_ws r) as [|c r']; [done|]. destruct (Ascii.eqb c "]"); [injection E as <- _; by constructor|].
    destruct (Ascii.eqb c ","); [|done]. by eapply IHe.
  - intros acc s v q Ha E. cbn [parse_members] in E. destruct s as [|c s]; [done|]. destruct (Ascii.eqb c dquote); [|done].
    destruct (parse_chars s) as [[k r]|]; [|done]. simpl in E. destruct (skip_ws r) as [|d r1]; [done|].
    destruct (Ascii.eqb d ":"); [|done]. destruct (parse_value n (skip_ws r1)) as [[x r2]|] eqn:Ev; [|done]. simpl in E.
    assert (distinct (VDict (Dict.set k x acc))) as Hx by (apply distinct_set; [by eapply IHv|done]).
    destruct (skip_ws r2) as [|e r3]; [done|]. destruct (Ascii.eqb e "}"); [by injection E as <- _|].
    destruct (Ascii.eqb e ","); [|done]. by eapply IHm.
Qed.

Section Loaded.
Context `{Platform}.

(** Every document [load_json] returns is well formed: no dict in it, at any depth, has a
    key twice, even when the text has; so the last value of a key is the one all programs
    see. *)
Theorem loaded_distinct p w v w' : Readiness.load_json p w = (Ok v, w') -> distinct v.
Proof.
  unfold Readiness.load_json, PyOs.load_json. intros E. apply M_bind_Ok in E as (t & w1 & _ & E). apply lift_Ok in E as [E _].
  unfold json_loads, loads in E. destruct (parse_value _ _) as [[x q]|] eqn:Ep; [|done].
  destruct (skip_ws q); [|done]. injection E as <-. by eapply (proj1 (parsed_distinct _)).
Qed.
End Loaded.
End DocumentFacts.

Module DocumentRun.
Import Fixture Json JsonFacts DocumentFacts.

Definition w0 : world := world_with [("/data/.keep", ""); ("/data/twice.json", dq "{'b': 1, 'a': {'x': 1, 'x': [2]}, 'b': null}")].
Definition document : val := VDict [("status", VStr "passed"); ("blockers", VList [VInt (-7); VNone; VStr "a 'quoted' line"]);
  ("a", VDict [("z", VBool true); ("b", VList [])])].
Definition out : path := Path.of_str "/data/result/status.json".

Lemma text_ascii s : forallb (λ c, (N_of_ascii c <? 128)%N) (Str.to_list s) = true -> text s.
Proof.
  intros H. exists (map N_of_ascii (Str.to_list s)). induction s as [|c s IH]; [done|]. simpl in H |- *.
  apply andb_true_iff in H as [Hc H]. destruct (IH H) as [Hl Hs]. split.
  - constructor; [|exact Hl]. unfold scalar. apply N.ltb_lt in Hc. apply orb_true_iff. left. apply N.ltb_lt. lia.
  - unfold utf8. rewrite Hc. rewrite Str.app_char, ascii_N_embedding. by f_equal.
Qed.
Lemma printable_document : printable document.
Proof.
  repeat first [apply pr_dict | apply pr_list | apply pr_none | apply pr_bool | apply pr_int | apply pr_str
    | constructor | (apply text_ascii; reflexivity) | (apply (bool_decide_unpack _); vm_compute; exact I)].
Qed.
Lemma json_round_trip_witness : let host := quiet_host in let w' := (Readiness.write_json out document w0).2 in
  Readiness.load_json (H := host) out w' = (Ok (read_back pretty document), w') /\
  py_eq document (read_back pretty document) = true.
Proof.
  intros host w'. apply (json_round_trip (H := host) out document w0 tt w'); [exact printable_document|].
  vm_compute. reflexivity.
Defined.
Lemma loaded_distinct_witness : let host := quiet_host in
  exists v, distinct v /\ Readiness.load_json (H := host) (Path.of_str "/data/twice.json") w0 = (Ok v, w0).
Proof.
  intros host. exists (VDict [("b", VNone); ("a", VDict [("x", VList [VInt 2])])]).
  assert (Readiness.load_json (H := host) (Path.of_str "/data/twice.json") w0 =
    (Ok (VDict [("b", VNone); ("a", VDict [("x", VList [VInt 2])])]), w0)) as E by (vm_compute; reflexivity).
  split; [exact (loaded_distinct (H := host) _ _ _ _ E)|exact E].
Defined.
End DocumentRun.
