(* ===== verification/ReadinessProperties.v ===== *)
(** * Properties of the readiness primitives

    The order of statuses, the exact comparison of sets, the instants of the
    evidence and the paths of the repository, on which the composer and the
    runner of the provider gates rest. *)

From S2P Require Import Prelude PyFloat PyMonad PyValue PyTime PyJson PyOs Fixture ReadinessCommon.

Module ReadinessSpec.
Import Readiness.

Lemma rank_1 v : rank v = 1 <-> v = VStr "blocked".
Proof.
  split; [|by intros ->]. destruct v as [| | | |s| |]; try done. unfold rank, STATUS_ORDER.
  cbn [Dict.lookup].
  repeat match goal with |- context [String.eqb s ?k] => destruct (String.eqb_spec s k) as [->|]; [done|] end.
  done.
Qed.

Lemma rank_0 v : rank v = 0 <-> v = VStr "passed".
Proof.
  split; [|by intros ->]. destruct v as [| | | |s| |]; try done. unfold rank, STATUS_ORDER.
  cbn [Dict.lookup].
  repeat match goal with |- context [String.eqb s ?k] => destruct (String.eqb_spec s k) as [->|]; [done|] end.
  done.
Qed.

Lemma max_rank_le l n : 0 <= n -> max_rank l <= n <-> Forall (λ v, rank v <= n) l.
Proof.
  intros Hn. induction l as [|v r IH]; simpl; [split; [constructor|done]|].
  rewrite Forall_cons, <-IH. lia.
Qed.

Lemma max_rank_in l n : 0 < n -> max_rank l = n -> exists v, v ∈ l /\ rank v = n.
Proof.
  intros Hn. induction l as [|v r IH]; simpl; [lia|]. intros H.
  destruct (decide (rank v = n)) as [|Hv]; [exists v; split; [by left|done]|].
  destruct IH as (x & ? & ?); [lia|]. exists x. split; [by right|done].
Qed.

Lemma combine_of_rank l r n : 0 <= n <= 2 -> r = status_of_rank n ->
  combine_status l = Ok r <-> Forall (λ v, hashable v = true) l /\ max_rank l = n.
Proof.
  intros Hn ->. pose proof (max_rank_range l) as Hr. split.
  - intros H. pose proof (combine_hashable _ _ H) as Hh. rewrite combine_status_rank in H by done.
    split; [done|]. injection H as H. unfold status_of_rank in H.
    destruct (Z.eqb_spec (max_rank l) 0), (Z.eqb_spec (max_rank l) 1), (Z.eqb_spec n 0), (Z.eqb_spec n 1);
      done || lia.
  - intros [Hh <-]. by apply combine_status_rank.
Qed.

Definition accepted_status (v : val) : Prop := v = VStr "passed" \/ v = VStr "blocked".

Lemma rank_le_1 v : rank v <= 1 <-> accepted_status v.
Proof. pose proof (rank_range v). unfold accepted_status. rewrite <-rank_0, <-rank_1. lia. Qed.

(** The combined status is the worst of the statuses, whatever their order: passed
    when each is passed, blocked when one is blocked and the others are passed, and
    failed when any is something else, an unknown word or another value included. A
    status that cannot be hashed is the only one that raises. *)
Theorem combine_status_worst l :
  (combine_status l = Ok "passed" <-> Forall (λ v, v = VStr "passed") l) /\
  (combine_status l = Ok "blocked" <-> Forall accepted_status l /\ VStr "blocked" ∈ l) /\
  (combine_status l = Ok "failed" <->
     Forall (λ v, hashable v = true) l /\ Exists (λ v, ~ accepted_status v) l) /\
  ((exists r, combine_status l = Ok r) <-> Forall (λ v, hashable v = true) l).
Proof.
  assert (Forall accepted_status l <-> max_rank l <= 1) as Hacc.
  { rewrite max_rank_le by done. apply Forall_proper; [|done]. intros v. by rewrite rank_le_1. }
  pose proof (max_rank_range l) as Hr.
  split; [apply combine_passed|]. split; [|split].
  - rewrite (combine_of_rank l _ 1), Hacc by done. split.
    + intros [_ H]. split; [lia|]. destruct (max_rank_in l 1) as (v & Hv & ->%rank_1); done.
    + intros [H Hin]. split.
      * apply Forall_forall. intros v Hv. apply Hacc in H. rewrite Forall_forall in H.
        by destruct (H v Hv) as [-> | ->].
      * destruct (decide (max_rank l <= 0)) as [H0|]; [|lia].
        apply max_rank_le in H0; [|done]. rewrite Forall_forall in H0. by specialize (H0 _ Hin).
  - rewrite (combine_of_rank l _ 2) by done. apply and_iff_compat_l. split.
    + intros (v & Hv & H2)%max_rank_in; [|done]. apply Exists_exists. exists v.
      rewrite <-rank_le_1. split; [done|lia].
    + intros (v & Hv & H2)%Exists_exists. rewrite <-rank_le_1 in H2.
      destruct (decide (max_rank l <= 1)) as [H1|]; [|lia].
      apply max_rank_le in H1; [|done]. rewrite Forall_forall in H1. by specialize (H1 _ Hv).
  - split; [intros [r H]; by eapply combine_hashable|]. intros H. eexists.
    by apply combine_status_rank.
Qed.

(** The exact comparison reports nothing precisely for the expected strings, each
    once and in any order: a missing, an additional, a repeated or a value that is no
    string is reported or raises. *)
Theorem exact_set_spec values expected label : NoDup expected ->
  exact_set values expected label = Ok [] <-> exists l, values = map VStr l /\ l ≡ₚ expected.
Proof.
  intros Hexp. split; [by apply exact_set_inv|].
  intros (l & -> & Hl). by apply exact_set_perm.
Qed.

(** An instant survives its text: what [utc_now] writes for any microsecond of the years
    1 to 9999, [parse_datetime] reads back, whatever the local time zone. *)
Theorem datetime_round_trip `{Platform} us : Time.min_us <= us < Time.max_us ->
  parse_datetime (Time.iso_z us) = Ok us.
Proof. apply parse_datetime_iso. Qed.

(** C11: A path of the repository that the control plane accepts lies below the real root:
    the links on the way are resolved first, and neither [..], an absolute path nor a
    link leads outside. Asking changes nothing. *)
Theorem safe_repo_path_contained `{Platform} relative w p w' :
  safe_repo_path relative w = (Ok p, w') ->
  w' = w /\ absolute p = true /\
  exists root rest, canon w repo_root = Some root /\ parts p = root ++ rest /\
    canon w (Path.div repo_root relative) = Some (root ++ rest).
Proof.
  intros Hp. destruct (safe_repo_path_root _ _ _ _ Hp) as (k & rest & Hk & -> & ->).
  split; [done|]. split; [done|]. exists k, rest. split; [done|]. split; [done|].
  unfold safe_repo_path in Hp. apply M_bind_Ok in Hp as (c & s & Hc & Hp). unfold resolve in Hc.
  destruct (canon w _) as [l|] eqn:El; [|done]. injection Hc as <- <-.
  apply M_bind_Ok in Hp as (r & s & Hr & Hp). unfold resolve in Hr. rewrite Hk in Hr.
  injection Hr as <- <-. case_match; [|done]. by injection Hp as ->.
Qed.
End ReadinessSpec.

Module ReadinessRun.
Import Fixture Readiness ReadinessSpec.

Lemma exact_set_spec_witness :
  exact_set (map VStr ["capacity"; "security"]) ["security"; "capacity"] "evidence" = Ok [] <->
  exists l, map VStr ["capacity"; "security"] = map VStr l /\ l ≡ₚ ["security"; "capacity"].
Proof.
  apply (exact_set_spec (map VStr ["capacity"; "security"]) ["security"; "capacity"] "evidence").
  apply (bool_decide_unpack _). vm_compute. exact I.
Defined.

Lemma datetime_round_trip_witness : let host := quiet_host in
  parse_datetime (Time.iso_z 1784008800123456) = Ok 1784008800123456.
Proof.
  intros host. apply (datetime_round_trip (H := host) 1784008800123456). vm_compute. by split.
Defined.

Definition w0 : world := world_with [("/repo/operations/policy.json", "{}")].

Lemma safe_repo_path_contained_witness : let host := quiet_host in
  w0 = w0 /\ absolute (Path.of_str "/repo/operations/policy.json") = true /\
  exists root rest, canon w0 repo_root = Some root /\
    parts (Path.of_str "/repo/operations/policy.json") = root ++ rest /\
    canon w0 (Path.div repo_root "tests/../operations/policy.json") = Some (root ++ rest).
Proof.
  intros host.
  apply (safe_repo_path_contained (H := host) "tests/../operations/policy.json" w0
           (Path.of_str "/repo/operations/policy.json") w0).
  vm_compute. reflexivity.
Defined.
End ReadinessRun.
