(* ===== verification/ComposeReadiness.v ===== *)
(** * operations/bin/compose_readiness_v1.py

    The composer of the V1 readiness verdict: it reads the evidence, the
    checkpoints, the compatibility result and the mutation log of one release,
    turns every defect into a blocker, and writes the only final verdict. *)

From Stdlib Require Import Ascii.
From S2P Require Import Prelude PyFloat PyMonad PyValue PyTime PyJson Sha256 PyOs ReadinessCommon.

Module Compose.
Import Readiness.

Definition CHECKPOINT_NAMES : list string :=
  ["source"; "integration"; "artifact"; "live-staging"; "promotion"; "cutover"; "post-cutover"].
Definition EVIDENCE_OWNER : list (string * string) :=
  [("capacity", "Senior 5"); ("platform-probe", "Senior 1"); ("load", "Senior 5");
   ("reconnect", "Senior 5"); ("recovery", "Senior 2"); ("resilience", "Senior 5");
   ("security", "Senior 5"); ("cutover", "Senior 5"); ("release-recovery", "Senior 4")].
Definition PROBE_CHECKS : list string := ["https-health"; "runtime-readiness";
  "websocket-connect"; "websocket-auth"; "durable-command-commit"; "outbox-handoff";
  "realtime-delivery"; "resume-gap-repair"; "worker-job"; "native-kernel"; "native-fallback"].
Definition RECOVERY_STEPS : list string := ["select-latest-valid-backup";
  "restore-isolated-target"; "wal-pitr"; "verify-migrations"; "verify-platform-invariants";
  "elixir-read-only-probe"; "cleanup"].
Definition RESILIENCE_SCENARIOS : list string := ["postgresql-restart";
  "pgbouncer-unavailable"; "outbox-backlog"; "oban-backlog"; "realtime-slow-consumers";
  "reconnect-storm-25pct"; "native-artifact-disabled"; "native-kernel-panic";
  "telemetry-sink-unavailable"; "disk-pressure"; "beam-process-crash";
  "actor-supervisor-restart"; "release-activation-failure";
  "first-release-deactivation-recovery"; "host-reboot"].
Definition SECURITY_CHECKS : list string := ["public-ports"; "tls"; "secret-scan";
  "vault-references"; "iam-least-privilege"; "instance-principal"; "private-database";
  "private-metrics"; "systemd-hardening"; "dependency-vulnerabilities"; "license-policy";
  "sbom"; "provenance"; "log-redaction"; "session-token-handling"; "websocket-origin-auth";
  "rate-admission-limits"; "native-input-bounds"; "crash-dump-secret-hygiene"].
Definition CUTOVER_PRECONDITIONS : list string := ["source"; "integration"; "artifact";
  "live-staging"; "capacity"; "load-floor"; "reconnect-storm"; "recovery"; "security";
  "release-recovery"; "approved-plan"; "exact-release-binding"].
Definition CUTOVER_BUNDLE : list string := ["platform-probe"; "load"; "reconnect"; "recovery";
  "security"; "release-recovery"; "capacity"; "artifact"; "oci-plan"].
Definition ROLLBACK_STEPS : list string := ["stop-new-admission"; "drain-sessions";
  "disable-traffic"; "stop-release"; "verify-no-public-traffic"; "observe"; "cleanup"].
Definition CAPACITY_OWNERS : list string := ["Senior 1"; "Senior 2"; "Senior 3"; "Senior 4"].

(** [(item.get(key, "") for item in document.get(field, []))] *)
Definition names_of (document : val) (field key : string) : res (list val) :=
  items ← dget_or document field (VList []);
  l ← py_iter items;
  rmap (λ item, dget_or item key (VStr "")) l.

Definition exact_names (document : val) (field key : string) (expected : list string)
    (label : string) : res (list string) :=
  l ← names_of document field key; exact_set l expected label.

Definition semantic_evidence_errors (kind : string) (document : val) : res (list string) :=
  if String.eqb kind "capacity" then
    exact_names document "provider_evidence" "owner" CAPACITY_OWNERS "capacity provider owners"
  else if String.eqb kind "platform-probe" then
    checks ← exact_names document "checks" "name" PROBE_CHECKS "platform probe checks";
    o ← dget document "observed_release_id"; r ← dget document "release_id";
    Ok (checks ++ (if py_ne o r then ["platform probe observed_release_id must equal release_id"] else []))
  else if String.eqb kind "recovery" then
    exact_names document "steps" "name" RECOVERY_STEPS "recovery steps"
  else if String.eqb kind "resilience" then
    exact_names document "scenarios" "id" RESILIENCE_SCENARIOS "resilience scenarios"
  else if String.eqb kind "security" then
    exact_names document "checks" "name" SECURITY_CHECKS "security checks"
  else if String.eqb kind "cutover" then
    a ← exact_names document "preconditions" "name" CUTOVER_PRECONDITIONS "cutover preconditions";
    b ← exact_names document "evidence_bundle" "kind" CUTOVER_BUNDLE "cutover evidence bundle";
    Ok (a ++ b)
  else if String.eqb kind "release-recovery" then
    exact_names document "steps" "name" ROLLBACK_STEPS "release recovery steps"
  else Ok [].

Definition CORRECTNESS_OWNER : list (string * string) :=
  [("authorization-bypass", "Senior 1"); ("secret-exposure", "Senior 5");
   ("duplicate-durable-identity", "Senior 2"); ("event-before-commit", "Senior 2");
   ("durable-event-loss", "Senior 2")].
Definition COMPATIBILITY_OWNER : list (string * string) :=
  [("migrations-expand-compatible", "Senior 2"); ("realtime-protocol-negotiated", "Senior 1");
   ("native-fallback-available", "Senior 3"); ("config-versioned", "Senior 1")].

(** [result[name] = Path(raw).resolve()] for each [name=raw]. *)
Definition parse_assignments (values : list string) (label : string) : IO (list (string * path)) :=
  mfold (λ result value,
    match Str.partition "=" value with
    | None => throw ValueError (label +:+ " must use name=path: " +:+ value)
    | Some (name, raw_path) =>
        if String.eqb name "" || String.eqb raw_path "" then
          throw ValueError (label +:+ " must use non-empty name=path: " +:+ value)
        else if Dict.mem name result then throw ValueError ("duplicate " +:+ label +:+ " name: " +:+ name)
        else p ← resolve (Path.of_str raw_path); mret (Dict.set name p result)
    end) [] values.

Definition observed_at (document : val) : res (option string) :=
  (fix go (keys : list string) : res (option string) :=
     match keys with
     | [] => Ok None
     | key :: r => value ← dget document key;
                   match value with VStr s => Ok (Some s) | _ => go r end
     end) ["observed_at"; "completed_at"; "generated_at"].

Definition evidence_placeholder (kind owner sha release_id status now : string) : val :=
  VDict [("kind", VStr kind); ("owner", VStr owner);
         ("schema_version", VStr ("missing-" +:+ kind +:+ "-v1")); ("status", VStr status);
         ("evidence_mode", VStr "synthetic"); ("git_sha", VStr sha); ("release_id", VStr release_id);
         ("observed_at", VStr now); ("sha256", VStr (Str.zeros 64));
         ("evidence_ref", VStr ("missing:" +:+ kind))].

(** The counters of the zero-tolerance events, in the order of their owners. *)
Definition count_items (mapping : list (string * string)) (counts : list (string * Z))
    (items : list (string * val)) : list (string * Z) :=
  fold_left (λ counts kv,
    match Dict.lookup kv.1 mapping, as_int kv.2 with
    | Some target, Some n => Dict.set target (default 0 (Dict.lookup target counts) + n) counts
    | _, _ => counts
    end) items counts.

Definition correctness_counts (documents : list (string * val)) : res (list (string * Z)) :=
  let counts := map (λ kv, (kv.1, 0)) CORRECTNESS_OWNER in
  let mapping := map (λ kv, (Str.replace "-" "_" kv.1, kv.1)) CORRECTNESS_OWNER in
  rfold (λ counts document,
    rfold (λ counts field,
      container ← dget document field;
      Ok (match container with VDict items => count_items mapping counts items | _ => counts end))
      counts ["correctness_events"; "outcomes"; "data_safety"])
    counts (Dict.values documents).

(** ** The run *)

Record args := Args {
  policy : path; a_git_sha : option string; a_release_id : string; a_environment : string;
  a_evidence : list string; a_checkpoint : list string; a_compatibility : option path;
  a_oci_mutations : option path; a_output : path; allow_not_ready : bool; a_now : option string
}.

(** The variables of [main] that its loops update. *)
Record st := St {
  blockers : list val; primary_documents : list (string * val); evidence_entries : list val;
  status_inputs : list val; checkpoint_summaries : list val; errors : list string
}.
Definition st0 : st := St [] [] [] [] [] [].

Abbreviation C := (M (st * world)).

Definition add_blocker (b : val) : C unit :=
  modl (λ s, St (blockers s ++ [b]) (primary_documents s) (evidence_entries s) (status_inputs s)
                (checkpoint_summaries s) (errors s)).
Definition add_status (v : val) : C unit :=
  modl (λ s, St (blockers s) (primary_documents s) (evidence_entries s) (status_inputs s ++ [v])
                (checkpoint_summaries s) (errors s)).
Definition add_entry (v : val) : C unit :=
  modl (λ s, St (blockers s) (primary_documents s) (evidence_entries s ++ [v]) (status_inputs s)
                (checkpoint_summaries s) (errors s)).
Definition add_summary (v : val) : C unit :=
  modl (λ s, St (blockers s) (primary_documents s) (evidence_entries s) (status_inputs s)
                (checkpoint_summaries s ++ [v]) (errors s)).
Definition set_document (kind : string) (d : val) : C unit :=
  modl (λ s, St (blockers s) (Dict.set kind d (primary_documents s)) (evidence_entries s)
                (status_inputs s) (checkpoint_summaries s) (errors s)).
Definition set_errors (l : list string) : C unit :=
  modl (λ s, St (blockers s) (primary_documents s) (evidence_entries s) (status_inputs s)
                (checkpoint_summaries s) l).
Definition add_errors (l : list string) : C unit :=
  modl (λ s, St (blockers s) (primary_documents s) (evidence_entries s) (status_inputs s)
                (checkpoint_summaries s) (errors s ++ l)).
Definition get_errors : C (list string) := s ← getl; mret (errors s).
(** [if v.get(key) != expected: errors.append(message)] *)
Definition must_equal (document : val) (key expected message : string) : C unit :=
  v ← lift (dget document key);
  mwhen (py_ne v (VStr expected)) (add_errors [message]).

(** A dict whose keys are any hashable values: [{item[key]: item for item in l}]. *)
Definition vlookup (k : val) (d : list (val * val)) : option val :=
  snd <$> List.find (λ kv, py_eq k kv.1) d.
Fixpoint vset_key (k v : val) (d : list (val * val)) : list (val * val) :=
  match d with
  | [] => [(k, v)]
  | (k', v') :: r => if py_eq k k' then (k', v) :: r else (k', v') :: vset_key k v r
  end.
Definition index_by (key : val -> res val) (l : list val) : res (list (val * val)) :=
  rfold (λ d item, k ← key item; _ ← check_hash k; Ok (vset_key k item d)) [] l.

Section Env.
Context `{Platform} (a : args).

Definition FINAL_SCHEMA : path := Path.div repo_root "contracts/readiness/v1-readiness-result.schema.json".
Definition POLICY_PATH : path := Path.div repo_root "operations/readiness/evidence-policy-v1.json".

(** [ROOT / rule["schema"]] *)
Definition schema_of (rule : val) : res path :=
  s ← getitem rule "schema"; t ← expect_str s; Ok (Path.div repo_root t).

Section Run.
Context (sha now_text : string) (now_dt : Z).

Definition release : string := sha +:+ "/" +:+ a_release_id a.

(** The timestamp block of one evidence document. *)
Definition check_evidence_time (kind owner timestamp : string) (p : path) (rule : val) : C unit :=
  catch
    (parsed ← lift (parse_datetime timestamp);
     mwhen ((now_dt - now_dt mod Time.us_per_s <? parsed) && (300 * Time.us_per_s <? parsed - now_dt))
       (add_errors [kind +:+ " timestamp is more than 300 seconds in the future"]) ;;
     age ← lift (age_seconds timestamp now_dt);
     m ← lift (getitem rule "max_age_seconds"); limit ← lift (py_int m);
     mwhen (limit <? age)
       (r ← zoom_snd (relative_ref p);
        add_blocker (blocker (VStr owner) (VStr r) (VStr "EVIDENCE_STALE") (VStr "blocked")
          (kind +:+ " evidence exceeds " +:+ py_str m +:+ " seconds")
          "Regenerate evidence for the exact release.")))
    (on_exn [ValueError] (λ e, add_errors [kind +:+ " timestamp invalid: " +:+ exn_str e])).

(** The checks of a readable evidence document, up to its timestamp. *)
Definition check_evidence (kind owner : string) (p : path) (rule document : val) : C string :=
  schema ← lift (schema_of rule);
  es ← zoom_snd (validate_document schema document kind);
  set_errors es ;;
  sem ← lift (semantic_evidence_errors kind document);
  add_errors sem ;;
  must_equal document "git_sha" sha (kind +:+ ".git_sha must equal " +:+ sha) ;;
  must_equal document "release_id" (a_release_id a)
    (kind +:+ ".release_id must equal " +:+ a_release_id a) ;;
  env ← lift (dget document "environment");
  inenv ← lift (in_set env [VNone; VStr (a_environment a)]);
  mwhen (negb inenv) (add_errors [kind +:+ ".environment must equal " +:+ a_environment a]) ;;
  ts ← lift (observed_at document);
  match ts with
  | None => add_errors [kind +:+ " has no observed_at/completed_at timestamp"] ;; mret now_text
  | Some t => check_evidence_time kind owner t p rule ;; mret t
  end.

(** The verdict on one readable evidence document. *)
Definition record_evidence (kind owner : string) (p : path) (document : val) (timestamp : string) : C unit :=
  status0 ← lift (dget_or document "status" (VStr "failed"));
  known ← lift (in_set status0 [VStr "passed"; VStr "blocked"; VStr "failed"]);
  let document_status := if known : bool then status0 else VStr "failed" in
  es ← get_errors;
  mode ← lift (dget document "evidence_mode");
  let not_live := bool_decide (es = []) && py_eq document_status (VStr "passed") && py_ne mode (VStr "live") in
  mwhen not_live (add_errors [kind +:+ " passed evidence must use evidence_mode=live"]) ;;
  let entry_status := if bool_decide (es = []) && negb not_live then document_status else VStr "failed" in
  es ← get_errors;
  (if negb (bool_decide (es = [])) then
     r ← zoom_snd (relative_ref p);
     add_blocker (blocker (VStr owner) (VStr r) (VStr "EVIDENCE_INVALID") (VStr "failed")
       (Str.join "; " es)
       "Repair the provider or Senior 5 evidence producer; do not bypass schema or binding checks.")
   else if py_ne document_status (VStr "passed") then
     r ← zoom_snd (relative_ref p);
     add_blocker (blocker (VStr owner) (VStr r) (VStr "EVIDENCE_NOT_PASSED") document_status
       (kind +:+ " evidence status is " +:+ py_str document_status)
       "Resolve the recorded evidence failures and regenerate the exact-release result.")
   else mret tt) ;;
  set_document kind document ;;
  add_status entry_status ;;
  sv ← lift (dget_or document "schema_version" (VStr ("unknown-" +:+ kind)));
  em ← lift (dget_or document "evidence_mode" (VStr "synthetic"));
  digest ← zoom_snd (sha256_file p);
  r ← zoom_snd (relative_ref p);
  add_entry (VDict [("kind", VStr kind); ("owner", VStr owner); ("schema_version", VStr (py_str sv));
    ("status", entry_status); ("evidence_mode", VStr (py_str em)); ("git_sha", VStr sha);
    ("release_id", VStr (a_release_id a)); ("observed_at", VStr timestamp);
    ("sha256", VStr digest); ("evidence_ref", VStr r)]).

(** One turn of the loop over the evidence kinds of the policy. *)
Definition evidence_one (paths : list (string * path)) (kr : val * val) : C unit :=
  kind ← lift (match kr.1 with
               | VStr k => if Dict.mem k EVIDENCE_OWNER then Ok k else raise KeyError (repr_str k)
               | k => raise KeyError (repr k)
               end);
  let owner := default "" (Dict.lookup kind EVIDENCE_OWNER) in
  match Dict.lookup kind paths with
  | None =>
      add_status (VStr "blocked") ;;
      add_entry (evidence_placeholder kind owner sha (a_release_id a) "blocked" now_text) ;;
      add_blocker (blocker (VStr owner) (VStr (kind +:+ " evidence")) (VStr "REQUIRED_EVIDENCE_MISSING")
        (VStr "blocked") ("required " +:+ kind +:+ " evidence is missing")
        ("Publish live " +:+ kind +:+ " evidence for " +:+ release +:+ "."))
  | Some p =>
      doc ← catch (d ← zoom_snd (load_json p); mret (inl d))
                  (on_exn [OSError; JSONDecodeError] (λ e, mret (inr (exn_str e))));
      match doc with
      | inr text =>
          add_status (VStr "failed") ;;
          add_entry (evidence_placeholder kind owner sha (a_release_id a) "failed" now_text) ;;
          r ← zoom_snd (relative_ref p);
          add_blocker (blocker (VStr owner) (VStr r) (VStr "EVIDENCE_UNREADABLE") (VStr "failed") text
            "Repair and republish the owning evidence artifact.")
      | inl document =>
          timestamp ← check_evidence kind owner p kr.2 document;
          record_evidence kind owner p document timestamp
      end
  end.

(** [age_seconds] against a rule's limit; a [ValueError] becomes an error. *)
Definition check_age (timestamp : val) (rule_of : res val) (missing : string) (stale : C unit) : C unit :=
  match timestamp with
  | VStr t =>
      catch
        (age ← lift (age_seconds t now_dt);
         rule ← lift rule_of; m ← lift (getitem rule "max_age_seconds"); limit ← lift (py_int m);
         mwhen (limit <? age) stale)
        (on_exn [ValueError] (λ e, add_errors [exn_str e]))
  | _ => add_errors [missing]
  end.

(** [try: document = load_json(path); errors = validate_document(...)]: an
    unreadable document counts as an empty one. *)
Definition load_checked (p : path) (schema_path : res path) (label : string) : C val :=
  catch
    (document ← zoom_snd (load_json p);
     schema ← lift schema_path;
     es ← zoom_snd (validate_document schema document label);
     set_errors es ;; mret document)
    (on_exn [OSError; JSONDecodeError] (λ e, set_errors [exn_str e] ;; mret (VDict []))).

Definition status_unless_errors (document : val) : C val :=
  es ← get_errors;
  if bool_decide (es = []) then lift (dget_or document "status" (VStr "failed")) else mret (VStr "failed").

(** [supporting[kind]] *)
Definition supporting_rule (kind : string) (supporting : list (val * val)) : res val :=
  match vlookup (VStr kind) supporting with
  | Some r => Ok r
  | None => raise KeyError (repr_str kind)
  end.

(** One turn of the loop over the checkpoints. *)
Definition checkpoint_one (paths : list (string * path)) (rule : val) (schema : path) (name : string) : C unit :=
  match Dict.lookup name paths with
  | None =>
      add_status (VStr "blocked") ;;
      add_summary (VDict [("name", VStr name); ("status", VStr "blocked"); ("evidence_refs", VList [])]) ;;
      add_blocker (blocker (VStr "Senior 5") (VStr (name +:+ " checkpoint"))
        (VStr "CHECKPOINT_EVIDENCE_MISSING") (VStr "blocked")
        ("required " +:+ name +:+ " checkpoint is missing")
        "Run the registered provider gates and retain the checkpoint artifact.")
  | Some p =>
      document ← load_checked p (Ok schema) name;
      must_equal document "name" name ("checkpoint name must equal " +:+ name) ;;
      must_equal document "git_sha" sha ("checkpoint git_sha must equal " +:+ sha) ;;
      must_equal document "release_id" (a_release_id a)
        ("checkpoint release_id must equal " +:+ a_release_id a) ;;
      timestamp ← lift (dget document "observed_at");
      check_age timestamp (Ok rule) "checkpoint observed_at is missing"
        (r ← zoom_snd (relative_ref p);
         add_blocker (blocker (VStr "Senior 5") (VStr r) (VStr "CHECKPOINT_STALE") (VStr "blocked")
           (name +:+ " checkpoint is stale") "Regenerate the checkpoint for the exact release.")) ;;
      status ← status_unless_errors document;
      add_status status ;;
      es ← get_errors;
      refs ← (if bool_decide (es = []) then lift (dget_or document "evidence_refs" (VList []))
              else r ← zoom_snd (relative_ref p); mret (VList [VStr r]));
      add_summary (VDict [("name", VStr name); ("status", status); ("evidence_refs", refs)]) ;;
      if bool_decide (es = []) then
        bs ← lift (dget_or document "blockers" (VList []));
        l ← lift (py_iter bs);
        mfor add_blocker l
      else
        r ← zoom_snd (relative_ref p);
        add_blocker (blocker (VStr "Senior 5") (VStr r) (VStr "CHECKPOINT_INVALID") (VStr "failed")
          (Str.join "; " es) "Regenerate the checkpoint with exact provider outputs.")
  end.

Definition compat_keys : list (string * string) :=
  [("migrations_expand_compatible", "migrations-expand-compatible");
   ("realtime_protocol_negotiated", "realtime-protocol-negotiated");
   ("native_fallback_available", "native-fallback-available");
   ("config_versioned", "config-versioned")].

(** [checks.get(name, {}).get("status") == "passed"] *)
Definition compat_value (checks : list (val * val)) (name : string) : res bool :=
  get_eq (default (VDict []) (vlookup (VStr name) checks)) "status" (VStr "passed").

Definition compat_blocker (kc : val * val) : C unit :=
  s ← lift (dget kc.2 "status");
  mwhen (py_ne s (VStr "passed"))
    (sev ← lift (dget_or kc.2 "status" (VStr "failed"));
     let owner := match kc.1 with VStr k => default "Senior 5" (Dict.lookup k COMPATIBILITY_OWNER)
                             | _ => "Senior 5" end in
     add_blocker (blocker (VStr owner) kc.1 (VStr "COMPATIBILITY_NOT_PASSED") sev
       ("compatibility check is " +:+ py_str s)
       "Repair the owning provider seam and republish compatibility evidence.")).

(** The cross-version compatibility block: the four values and the status. *)
Definition compatibility_block (supporting : list (val * val)) : C (list (string * bool) * val) :=
  match a_compatibility a with
  | None =>
      add_blocker (blocker (VStr "Senior 5") (VStr "compatibility-result-v1")
        (VStr "COMPATIBILITY_EVIDENCE_MISSING") (VStr "blocked")
        "release compatibility evidence is missing"
        "Compose provider compatibility checks for migrations, realtime, native fallback and configuration.") ;;
      mret (map (λ kn, (kn.1, false)) compat_keys, VStr "blocked")
  | Some p0 =>
      p ← zoom_snd (resolve p0);
      let rule_of := supporting_rule "compatibility" supporting in
      document ← load_checked p (rule ← rule_of; schema_of rule) "compatibility";
      must_equal document "git_sha" sha ("compatibility git_sha must equal " +:+ sha) ;;
      must_equal document "release_id" (a_release_id a)
        ("compatibility release_id must equal " +:+ a_release_id a) ;;
      timestamp ← lift (dget document "observed_at");
      check_age timestamp rule_of "compatibility observed_at is missing"
        (r ← zoom_snd (relative_ref p);
         add_blocker (blocker (VStr "Senior 5") (VStr r) (VStr "COMPATIBILITY_STALE") (VStr "blocked")
           "compatibility evidence is stale" "Regenerate compatibility evidence for the exact release.")) ;;
      names ← lift (exact_names document "checks" "name" (Dict.keys COMPATIBILITY_OWNER) "compatibility checks");
      add_errors names ;;
      status ← status_unless_errors document;
      items ← lift (dget_or document "checks" (VList []));
      l ← lift (py_iter items);
      checks ← lift (index_by (λ item, dget item "name") l);
      values ← lift (rmap (λ kn, b ← compat_value checks kn.2; Ok (kn.1, b)) compat_keys);
      es ← get_errors;
      (if bool_decide (es = []) then mfor compat_blocker checks
       else
         r ← zoom_snd (relative_ref p);
         add_blocker (blocker (VStr "Senior 5") (VStr r) (VStr "COMPATIBILITY_INVALID") (VStr "failed")
           (Str.join "; " es) "Repair the owning compatibility evidence.")) ;;
      mret (values, status)
  end.

Definition mutation_keys : list string := ["kind"; "approved"; "approval_ref"; "executed_by"; "evidence_ref"].

(** The approved-mutation block: the mutations kept and the status. *)
Definition mutation_block (supporting : list (val * val)) : C (list val * val) :=
  match a_oci_mutations a with
  | None =>
      add_blocker (blocker (VStr "Senior 4") (VStr "oci-mutation-log-v1") (VStr "MUTATION_EVIDENCE_MISSING")
        (VStr "blocked") "approved OCI/live mutation evidence is missing"
        "Publish the Senior 4 mutation log with approval references and exact release binding.") ;;
      mret ([], VStr "blocked")
  | Some p0 =>
      p ← zoom_snd (resolve p0);
      let rule_of := supporting_rule "oci-mutations" supporting in
      document ← load_checked p (rule ← rule_of; schema_of rule) "oci-mutations";
      must_equal document "git_sha" sha ("mutation log git_sha must equal " +:+ sha) ;;
      must_equal document "release_id" (a_release_id a)
        ("mutation log release_id must equal " +:+ a_release_id a) ;;
      must_equal document "environment" (a_environment a)
        ("mutation log environment must equal " +:+ a_environment a) ;;
      timestamp ← lift (dget document "observed_at");
      check_age timestamp rule_of "mutation log observed_at is missing"
        (r ← zoom_snd (relative_ref p);
         add_blocker (blocker (VStr "Senior 4") (VStr r) (VStr "MUTATION_EVIDENCE_STALE") (VStr "blocked")
           "mutation evidence is stale" "Republish the exact-release mutation log.")) ;;
      status ← status_unless_errors document;
      es ← get_errors;
      if bool_decide (es = []) then
        items ← lift (dget_or document "mutations" (VList []));
        l ← lift (py_iter items);
        mutations ← lift (rmap (λ item,
          fields ← rmap (λ k, x ← getitem item k; Ok (k, x)) mutation_keys; Ok (VDict fields)) l);
        mwhen (py_ne status (VStr "passed"))
          (r ← zoom_snd (relative_ref p);
           add_blocker (blocker (VStr "Senior 4") (VStr r) (VStr "MUTATION_EVIDENCE_NOT_PASSED") status
             ("mutation log status is " +:+ py_str status)
             "Resolve approval or execution evidence before cutover.")) ;;
        mret (mutations, status)
      else
        r ← zoom_snd (relative_ref p);
        add_blocker (blocker (VStr "Senior 4") (VStr r) (VStr "MUTATION_EVIDENCE_INVALID") (VStr "failed")
          (Str.join "; " es) "Repair the Senior 4 mutation log; no approval may be inferred.") ;;
        mret ([], status)
  end.

(** The zero-tolerance events: each one observed is a failed blocker. *)
Definition correctness_one (nc : string * Z) : C val :=
  mwhen (0 <? nc.2)
    (add_blocker (blocker (VStr (default "" (Dict.lookup nc.1 CORRECTNESS_OWNER))) (VStr nc.1)
       (VStr "ZERO_TOLERANCE_EVENT") (VStr "failed")
       ("observed " +:+ Str.of_Z nc.2 +:+ " " +:+ nc.1 +:+ " event(s)")
       "Stop promotion/cutover, remediate the owning seam and generate new exact-release evidence.") ;;
     add_status (VStr "failed")) ;;
  mret (VDict [("name", VStr nc.1); ("count", VInt nc.2);
               ("evidence_ref", VStr "aggregated:required-v1-evidence")]).

Definition correctness_block : C (list val) :=
  s ← getl;
  counts ← lift (correctness_counts (primary_documents s));
  mmap correctness_one counts.

(** [recovery_target] *)
Definition recovery_target (documents : list (string * val)) (entries : list val) : res val :=
  let rr := default (VDict []) (Dict.lookup "release-recovery" documents) in
  to ← dget rr "to";
  r ← (if is_dict to then dget to "retained" else Ok VNone);
  let retained := is_dict to && is_true r in
  mode ← dget_or rr "recovery_mode" (VStr "deactivate-first-release");
  let field k := if retained then dget to k else Ok VNone in
  rid ← field "release_id"; rsha ← field "git_sha"; gen ← field "runtime_generation";
  e ← rfind (λ entry, k ← getitem entry "kind"; Ok (py_eq k (VStr "release-recovery"))) entries;
  ref ← match e with Some entry => getitem entry "evidence_ref" | None => Ok (VStr "missing:release-recovery") end;
  Ok (VDict [("mode", VStr (py_str mode)); ("retained_application_release", VBool retained);
             ("release_id", rid); ("git_sha", rsha); ("runtime_generation", gen); ("evidence_ref", ref)]).

(** The overall status, and the blocker of an inconsistent composition. *)
Definition overall_status (bs statuses : list val) (compat : list (string * bool)) : res (string * list val) :=
  failed ← rany (λ item, s ← getitem item "severity"; Ok (py_eq s (VStr "failed"))) bs;
  overall ← (if failed : bool then Ok "failed"
             else match bs with [] => combine_status statuses | _ => Ok "blocked" end);
  Ok (if String.eqb overall "passed" && existsb (λ kv, negb kv.2) compat then
        ("failed", bs ++ [blocker (VStr "Senior 5") (VStr "compatibility-result-v1")
           (VStr "COMPATIBILITY_STATUS_INCONSISTENT") (VStr "failed")
           "passed composition contains a false compatibility value" "Repair compatibility composition."])
      else (overall, bs)).

(** [unique[(owner, seam, code, message)] = item], and the sort of the values. *)
Definition keys_of (ks : list string) (item : val) : res val :=
  l ← rmap (getitem item) ks; Ok (VList l).
Definition unique_step (d : list (val * val)) (item : val) : res (list (val * val)) :=
  k ← rmap (getitem item) ["owner"; "seam"; "code"; "message"];
  _ ← rmap check_hash k;
  Ok (vset_key (VList k) item d).
Definition unique_blockers (bs : list val) : res (list val) :=
  d ← rfold unique_step [] bs;
  keyed ← rmap (λ kv, k ← keys_of ["severity"; "owner"; "code"; "seam"] kv.2; Ok (k, kv.2)) d;
  l ← py_sorted_by fst keyed;
  Ok l.*2.

Definition default_host : val :=
  VDict [("shape", VStr "VM.Standard.A1.Flex"); ("ocpu", VInt 4); ("memory_mib", VInt 24576);
         ("combined_storage_gib", VInt 200)].
Definition default_reserve : val := VDict [("ocpu", VInt 1); ("memory_mib", VInt 4096); ("disk_gib", VInt 20)].

(** [capacity.get("host", ...)], [capacity.get("reserve", ...)] *)
Definition host_and_reserve (documents : list (string * val)) : res (val * val) :=
  let capacity := default (VDict []) (Dict.lookup "capacity" documents) in
  host ← dget_or capacity "host" default_host;
  reserve ← dget_or capacity "reserve" default_reserve;
  Ok (host, reserve).

Definition host_block (host reserve : val) : res val :=
  shape ← dget_or host "shape" (VStr "VM.Standard.A1.Flex");
  ocpu ← dget_or host "ocpu" (VInt 4);
  mem ← dget_or host "memory_mib" (VInt 24576);
  disk ← dget_or host "combined_storage_gib" (VInt 200);
  rocpu ← dget_or reserve "ocpu" (VInt 1);
  rmem ← dget_or reserve "memory_mib" (VInt 4096);
  rdisk ← dget_or reserve "disk_gib" (VInt 20);
  Ok (VDict [("shape", shape); ("ocpu", ocpu); ("memory_mib", mem); ("combined_storage_gib", disk);
             ("reserved_ocpu", rocpu); ("reserved_memory_mib", rmem); ("reserved_disk_gib", rdisk)]).

Definition verdict_of (overall : string) : string :=
  if String.eqb overall "passed" then "V1 PRODUCTION-SHAPED ON OCI" else "V1 NOT READY".

Definition usage {A} (msg : string) (k : A) : IO A :=
  print_err ("ERROR compose-readiness-v1: " +:+ msg) ;; mret k.

(** The loops and blocks of [main], in their order; [None] when an unknown
    checkpoint name ends the run. *)
Definition collect (evidence_paths checkpoint_paths : list (string * path))
    (policy_by_kind supporting : list (val * val)) :
    C (option (list (string * bool) * list val * list val)) :=
  mfor (evidence_one evidence_paths) policy_by_kind ;;
  rule ← lift (supporting_rule "checkpoint" supporting);
  schema ← lift (schema_of rule);
  match sort_strings (List.filter (λ k, negb (inb String.eqb k CHECKPOINT_NAMES)) (Dict.keys checkpoint_paths)) with
  | (_ :: _) as unexpected =>
      zoom_snd (usage ("unexpected checkpoint names: " +:+ repr_strs unexpected) None)
  | [] =>
      mfor (checkpoint_one checkpoint_paths rule schema) CHECKPOINT_NAMES ;;
      '(compat, cstatus) ← compatibility_block supporting;
      add_status cstatus ;;
      '(mutations, mstatus) ← mutation_block supporting;
      add_status mstatus ;;
      correctness ← correctness_block;
      mret (Some (compat, mutations, correctness))
  end.

(** The result document and its status, from what was collected. *)
Definition compose_result (s : st) (compat : list (string * bool)) (mutations correctness : list val) :
    res (string * val) :=
  '(host0, reserve) ← host_and_reserve (primary_documents s);
  target ← recovery_target (primary_documents s) (evidence_entries s);
  '(overall, bs) ← overall_status (blockers s) (status_inputs s) compat;
  bs' ← unique_blockers bs;
  host ← host_block host0 reserve;
  Ok (overall, VDict [
    ("schema_version", VStr "v1-readiness-result"); ("generated_at", VStr now_text); ("git_sha", VStr sha);
    ("release_id", VStr (a_release_id a)); ("environment", VStr (a_environment a));
    ("status", VStr overall); ("verdict", VStr (verdict_of overall)); ("host", host);
    ("checkpoints", VList (checkpoint_summaries s)); ("evidence", VList (evidence_entries s));
    ("correctness_events", VList correctness);
    ("compatibility", VDict (map (λ kv, (kv.1, VBool kv.2)) compat));
    ("recovery_target", target); ("oci_mutations", VList mutations); ("blockers", VList bs')]).

(** The end of [main]: validation, the file, the exit status. *)
Definition publish (overall : string) (result : val) : IO Z :=
  final_errors ← validate_document FINAL_SCHEMA result "v1-readiness-result";
  match final_errors with
  | _ :: _ => mfor (λ m, print_err ("ERROR compose-readiness-v1: " +:+ m)) final_errors ;; mret 65
  | [] =>
      out ← resolve (a_output a);
      write_json out result ;;
      print (verdict_of overall +:+ " (" +:+ overall +:+ ") -> " +:+ Path.to_str (a_output a)) ;;
      mret (if String.eqb overall "failed" then (if allow_not_ready a then 0 else 1)
            else if String.eqb overall "blocked" then (if allow_not_ready a then 0 else 2)
            else 0)
  end.

Definition compose (evidence_paths checkpoint_paths : list (string * path))
    (policy_by_kind supporting : list (val * val)) : IO Z :=
  r ← with_locals st0
    (c ← collect evidence_paths checkpoint_paths policy_by_kind supporting;
     match c with
     | None => mret None
     | Some (compat, mutations, correctness) =>
         s ← getl; x ← lift (compose_result s compat mutations correctness); mret (Some x)
     end);
  match r with
  | None => mret 64
  | Some (overall, result) => publish overall result
  end.
End Run.

(** The start of [main]: the arguments, the SHA, the clock and the policy. *)
Definition main : IO Z :=
  parsed ← catch
    (e ← parse_assignments (a_evidence a) "evidence";
     c ← parse_assignments (a_checkpoint a) "checkpoint";
     mret (Some (e, c)))
    (on_exn [ValueError] (λ e, usage (exn_str e) None));
  match parsed with
  | None => mret 64
  | Some (evidence_paths, checkpoint_paths) =>
      sha ← (match a_git_sha a with
             | Some s => if String.eqb s "" then git_sha else mret s
             | None => git_sha
             end);
      if negb (Str.len sha =? 40) then usage "--git-sha must be a 40-character SHA" 64
      else
        now_dt ← (match a_now a with
                  | Some t => if String.eqb t "" then now else lift (parse_datetime t)
                  | None => now
                  end);
        let now_text := Time.iso_z now_dt in
        pp ← resolve (policy a);
        pol ← load_json pp;
        ev ← lift (getitem pol "evidence"); evl ← lift (py_iter ev);
        policy_by_kind ← lift (index_by (λ item, getitem item "kind") evl);
        sup ← lift (getitem pol "supporting_evidence"); supl ← lift (py_iter sup);
        supporting ← lift (index_by (λ item, getitem item "kind") supl);
        let unexpected := sort_strings (List.filter (λ k, negb (existsb (λ kv, py_eq (VStr k) kv.1) policy_by_kind))
                            (Dict.keys evidence_paths)) in
        match unexpected with
        | _ :: _ => usage ("unexpected evidence kinds: " +:+ repr_strs unexpected) 64
        | [] => compose sha now_text now_dt evidence_paths checkpoint_paths policy_by_kind supporting
        end
  end.
End Env.
End Compose.
