(* ===== verification/ComposeProperties.v ===== *)
(** * What the readiness composer promises

    The composer fails closed: a [passed] verdict means that every evidence
    document, every checkpoint, the compatibility result and the mutation log
    were there, readable, valid, bound to the exact release, fresh and passed.
    [evidence_accepted], [checkpoint_accepted], ... are that specification; they
    speak of documents and instants and of none of the composer's lists. *)

From S2P Require Import Prelude PyFloat PyMonad PyValue PyTime PyJson Sha256 PyOs ReadinessCommon ComposeReadiness Fixture.

Module ComposeSpec.
Import Readiness Compose.

Section Spec.
Context `{Platform} (a : args) (sha : string) (now_dt : Z) (w : world).

(** A document the composer can read, without a schema error. *)
Definition valid_document (label : string) (p : path) (rule document : val) : Prop :=
  load_json p w = (Ok document, w) /\
  exists schema, schema_of rule = Ok schema /\ validate_document schema document label w = (Ok [], w).

(** An instant no older than the limit of a rule. *)
Definition fresh (t : string) (rule : val) : Prop :=
  exists us m limit, parse_datetime t = Ok us /\ getitem rule "max_age_seconds" = Ok m /\
    py_int m = Ok limit /\ Z.max 0 (Time.int_seconds (now_dt - us)) <= limit.

Definition exact_field (document : val) (key expected : string) : Prop :=
  dget document key = Ok (VStr expected).

Definition passed_status (document : val) : Prop :=
  dget_or document "status" (VStr "failed") = Ok (VStr "passed").

Record evidence_accepted (kind : string) (p : path) (rule document : val) : Prop := {
  ea_valid : valid_document kind p rule document;
  ea_semantic : semantic_evidence_errors kind document = Ok [];
  ea_sha : exact_field document "git_sha" sha;
  ea_release : exact_field document "release_id" (a_release_id a);
  ea_environment : exists e, dget document "environment" = Ok e /\
                             (e = VNone \/ e = VStr (a_environment a));
  ea_live : exact_field document "evidence_mode" "live";
  ea_passed : passed_status document;
  ea_fresh : exists t, observed_at document = Ok (Some t) /\ fresh t rule /\
               exists us, parse_datetime t = Ok us /\ us - now_dt <= 300 * Time.us_per_s
}.

Record checkpoint_accepted (name : string) (p : path) (rule document : val) : Prop := {
  ka_valid : valid_document name p rule document;
  ka_name : exact_field document "name" name;
  ka_sha : exact_field document "git_sha" sha;
  ka_release : exact_field document "release_id" (a_release_id a);
  ka_fresh : exists t, exact_field document "observed_at" t /\ fresh t rule;
  ka_passed : passed_status document;
  ka_blockers : exists bs, dget_or document "blockers" (VList []) = Ok bs /\ py_iter bs = Ok []
}.

Record compatibility_accepted (p : path) (rule document : val) : Prop := {
  ca_valid : valid_document "compatibility" p rule document;
  ca_sha : exact_field document "git_sha" sha;
  ca_release : exact_field document "release_id" (a_release_id a);
  ca_fresh : exists t, exact_field document "observed_at" t /\ fresh t rule;
  ca_names : exact_names document "checks" "name" (Dict.keys COMPATIBILITY_OWNER) "compatibility checks" = Ok [];
  ca_passed : passed_status document;
  ca_checks : exists items l, dget_or document "checks" (VList []) = Ok items /\ py_iter items = Ok l /\
    forall name, name ∈ Dict.keys COMPATIBILITY_OWNER -> exists item, item ∈ l /\
      exact_field item "name" name /\ get_eq item "status" (VStr "passed") = Ok true
}.

Record mutations_accepted (p : path) (rule document : val) : Prop := {
  ma_valid : valid_document "oci-mutations" p rule document;
  ma_sha : exact_field document "git_sha" sha;
  ma_release : exact_field document "release_id" (a_release_id a);
  ma_environment : exact_field document "environment" (a_environment a);
  ma_fresh : exists t, exact_field document "observed_at" t /\ fresh t rule;
  ma_passed : passed_status document
}.

(** A release is ready when nothing the policy requires is missing. *)
Record release_ready (evidence_paths checkpoint_paths : list (string * path))
    (policy_by_kind supporting : list (val * val)) : Prop := {
  rr_evidence : forall k rule, (k, rule) ∈ policy_by_kind -> exists kind p document,
    k = VStr kind /\ Dict.lookup kind evidence_paths = Some p /\
    evidence_accepted kind p rule document;
  rr_checkpoints : exists rule, vlookup (VStr "checkpoint") supporting = Some rule /\
    forall name, name ∈ CHECKPOINT_NAMES -> exists p document,
      Dict.lookup name checkpoint_paths = Some p /\ checkpoint_accepted name p rule document;
  rr_compatibility : exists p0 p rule document, a_compatibility a = Some p0 /\
    resolve p0 w = (Ok p, w) /\ vlookup (VStr "compatibility") supporting = Some rule /\
    compatibility_accepted p rule document;
  rr_mutations : exists p0 p rule document, a_oci_mutations a = Some p0 /\
    resolve p0 w = (Ok p, w) /\ vlookup (VStr "oci-mutations") supporting = Some rule /\
    mutations_accepted p rule document
}.
End Spec.

(** ** How the composer's lists grow *)

Definition Grow (s s' : st * world) : Prop :=
  s'.2 = s.2 /\ blockers s.1 `prefix_of` blockers s'.1 /\ status_inputs s.1 `prefix_of` status_inputs s'.1.
(** Between two resets of the error list. *)
Definition GrowErr (s s' : st * world) : Prop := Grow s s' /\ errors s.1 `prefix_of` errors s'.1.

#[export] Instance Grow_preorder : PreOrder Grow.
Proof.
  split; [intros s; unfold Grow; by repeat split|]. intros x y z (?&?&?) (?&?&?).
  split; [congruence|]. split; by etransitivity.
Qed.
#[export] Instance GrowErr_preorder : PreOrder GrowErr.
Proof.
  split; [intros s; split; [reflexivity|done]|]. intros x y z (?&?) (?&?). split; by etransitivity.
Qed.

(** No blocker yet, and every status recorded is [passed]. *)
Definition clean (s : st * world) : Prop :=
  blockers s.1 = [] /\ Forall (λ v, v = VStr "passed") (status_inputs s.1).

Lemma grow_clean s s' : Grow s s' -> clean s' -> clean s.
Proof.
  intros (_ & [l Hb] & [k Hs]) [Hb' Hs']. rewrite Hb' in Hb. symmetry in Hb.
  apply app_eq_nil in Hb as [Hb _]. split; [done|]. rewrite Hs in Hs'. by apply Forall_app in Hs' as [? _].
Qed.

Lemma grow_world s s' : Grow s s' -> s'.2 = s.2.
Proof. by intros [? _]. Qed.

Lemma growerr_grow s s' : GrowErr s s' -> Grow s s'.
Proof. by intros [? _]. Qed.

Lemma growerr_errors s s' : GrowErr s s' -> errors s'.1 = [] -> errors s.1 = [].
Proof. intros [_ [l H]] E. rewrite E in H. symmetry in H. by apply app_eq_nil in H as [? _]. Qed.

Lemma pres_growerr_grow {A} (m : C A) : Pres GrowErr m -> Pres Grow m.
Proof. intros H s. apply growerr_grow, H. Qed.

(** *** The primitive updates *)

Ltac grow := intros s; unfold Grow, GrowErr; simpl; repeat split; simpl;
  try reflexivity; try (by eexists); try (apply prefix_app_r; reflexivity).

Lemma ge_add_blocker b : Pres GrowErr (add_blocker b). Proof. grow. Qed.
Lemma ge_add_status v : Pres GrowErr (add_status v). Proof. grow. Qed.
Lemma ge_add_entry v : Pres GrowErr (add_entry v). Proof. grow. Qed.
Lemma ge_add_summary v : Pres GrowErr (add_summary v). Proof. grow. Qed.
Lemma ge_set_document k d : Pres GrowErr (set_document k d). Proof. grow. Qed.
Lemma ge_add_errors l : Pres GrowErr (add_errors l). Proof. grow. Qed.
Lemma g_set_errors l : Pres Grow (set_errors l). Proof. grow. Qed.
Lemma ge_zoom {A} (m : IO A) : Pres eq m -> Pres GrowErr (zoom_snd m).
Proof.
  intros Hm [l w]. specialize (Hm w). unfold zoom_snd. simpl. destruct (m w) as [r w'].
  simpl in *. subst. reflexivity.
Qed.
Lemma ge_getl : Pres GrowErr getl. Proof. intros s. reflexivity. Qed.
#[export] Hint Resolve ge_add_blocker ge_add_status ge_add_entry ge_add_summary ge_set_document
  ge_add_errors g_set_errors ge_getl : pres.
#[export] Hint Resolve ge_zoom : pres.
#[export] Hint Extern 3 (Pres Grow _) => apply pres_growerr_grow : pres.

(** *** Reading the composer's statements *)

Lemma add_blocker_dirty b s u s' : add_blocker b s = (Ok u, s') -> ~ clean s'.
Proof. intros ->%modl_Ok [E _]. simpl in E. by apply app_eq_nil in E as [_ E]. Qed.

Lemma set_errors_Ok l s u s' :
  set_errors l s = (Ok u, s') -> errors s'.1 = l /\ Grow s s'.
Proof. intros E. split; [by apply modl_Ok in E as ->|]. eapply pres_run; [|exact E]. eauto with pres. Qed.

Lemma add_errors_Ok l s u s' : add_errors l s = (Ok u, s') -> errors s'.1 = [] -> l = [] /\ s' = s.
Proof.
  intros ->%modl_Ok E. simpl in E. apply app_eq_nil in E as [E ->]. split; [done|].
  destruct s as [[] w]. simpl in *. by rewrite E.
Qed.

Lemma add_status_clean v s u s' : add_status v s = (Ok u, s') -> clean s' -> v = VStr "passed".
Proof.
  intros ->%modl_Ok [_ H]. simpl in H. apply Forall_app in H as [_ H]. by apply Forall_cons in H as [? _].
Qed.

Lemma must_equal_Ok d k x msg s u s' :
  must_equal d k x msg s = (Ok u, s') -> errors s'.1 = [] -> exact_field d k x /\ s' = s.
Proof.
  unfold must_equal. intros E Hnil. inv_run. apply when_Ok in E as [[Hb E]|[Hb ->]].
  - by apply add_errors_Ok in E as [? _].
  - split; [|done]. unfold exact_field. rewrite E0. f_equal. unfold py_ne in Hb.
    apply negb_false_iff, py_eq_str_r in Hb. done.
Qed.

Lemma ge_must_equal d k x msg : Pres GrowErr (must_equal d k x msg).
Proof. unfold must_equal. solve_pres. Qed.
#[export] Hint Resolve ge_must_equal : pres.

Lemma in_set_Ok v l : in_set v l = Ok true -> py_in v l = true.
Proof. unfold in_set. intros H. inv_run. by injection H as ->. Qed.

Lemma ro_zoom_Ok {A} (m : IO A) (s : st * world) x s' :
  Pres eq m -> zoom_snd m s = (Ok x, s') -> m s.2 = (Ok x, s.2) /\ s' = s.
Proof.
  intros Hm [E Es]%zoom_Ok. pose proof (pres_run _ _ _ _ _ Hm E) as Hw.
  destruct s as [l w], s' as [l' w']. simpl in *. by subst.
Qed.

Section Steps.
Context `{Platform} (a : args) (sha now_text : string) (now_dt : Z).

Lemma ge_check_age t r m stale : Pres GrowErr stale -> Pres GrowErr (check_age now_dt t r m stale).
Proof. intros ?. unfold check_age. solve_pres. Qed.
Lemma ge_check_evidence_time kind owner t p rule :
  Pres GrowErr (check_evidence_time now_dt kind owner t p rule).
Proof. unfold check_evidence_time. solve_pres. Qed.
Lemma ge_record_evidence kind owner p d t : Pres GrowErr (record_evidence a sha kind owner p d t).
Proof. unfold record_evidence, get_errors. solve_pres. Qed.
#[local] Hint Resolve ge_check_age ge_check_evidence_time ge_record_evidence : pres.

Lemma g_check_evidence kind owner p rule d :
  Pres Grow (check_evidence a sha now_text now_dt kind owner p rule d).
Proof. unfold check_evidence. solve_pres. Qed.
Lemma g_load_checked p schema label : Pres Grow (load_checked p schema label).
Proof. unfold load_checked. solve_pres. Qed.
#[local] Hint Resolve g_check_evidence g_load_checked : pres.

Lemma g_evidence_one paths kr : Pres Grow (evidence_one a sha now_text now_dt paths kr).
Proof. unfold evidence_one. solve_pres. Qed.
Lemma g_checkpoint_one paths rule schema name : Pres Grow (checkpoint_one a sha now_dt paths rule schema name).
Proof. unfold checkpoint_one, status_unless_errors, get_errors. solve_pres. Qed.
Lemma g_compat_blocker kc : Pres Grow (compat_blocker kc).
Proof. unfold compat_blocker. solve_pres. Qed.
#[local] Hint Resolve g_compat_blocker : pres.
Lemma g_compatibility supporting : Pres Grow (compatibility_block a sha now_dt supporting).
Proof. unfold compatibility_block, status_unless_errors, get_errors. solve_pres. Qed.
Lemma g_mutation supporting : Pres Grow (mutation_block a sha now_dt supporting).
Proof. unfold mutation_block, status_unless_errors, get_errors. solve_pres. Qed.
Lemma g_correctness : Pres Grow correctness_block.
Proof. unfold correctness_block, correctness_one. solve_pres. Qed.
End Steps.
#[export] Hint Resolve ge_check_age ge_check_evidence_time ge_record_evidence g_check_evidence
  g_load_checked g_evidence_one g_checkpoint_one g_compat_blocker g_compatibility g_mutation
  g_correctness : pres.

Lemma run_clean {A} (m : C A) s r s' : Pres Grow m -> m s = (r, s') -> clean s' -> clean s.
Proof. intros Hm E. apply grow_clean. by eapply pres_run. Qed.

Lemma run_world {A} (m : C A) s r s' : Pres Grow m -> m s = (r, s') -> s'.2 = s.2.
Proof. intros Hm E. apply grow_world. by eapply pres_run. Qed.

Lemma mfor_clean {A} (f : A -> C unit) l s s' u : (forall x, Pres Grow (f x)) ->
  mfor f l s = (Ok u, s') -> clean s' ->
  Forall (λ x, exists s1 s2, s1.2 = s.2 /\ f x s1 = (Ok tt, s2) /\ clean s2) l.
Proof.
  intros Hf E Hc. eapply Forall_impl; [by eapply (mfor_Ok_In Grow)|].
  intros x (s1 & s2 & Hg & E' & Hg'). exists s1, s2. split; [by apply grow_world|].
  split; [done|]. by eapply grow_clean.
Qed.

(** From a clean state back to the state before a statement. *)
Ltac clean_back H :=
  match goal with Hc : clean _ |- _ =>
    match type of H with ?m _ = _ =>
      let P := fresh in assert (Pres Grow m) as P by solve_pres;
      apply (run_clean _ _ _ _ P H) in Hc; clear P
    end
  end.

(** What the world is after a statement: unchanged. *)
Ltac world_step H :=
  match type of H with ?m _ = _ =>
    let P := fresh in assert (Pres Grow m) as P by solve_pres;
    let W := fresh "W" in pose proof (run_world _ _ _ _ P H) as W; clear P
  end.

(** *** What a clean turn has checked *)

Section Clean.
Context `{Platform} (a : args) (sha now_text : string) (now_dt : Z).

Lemma ref_blocker_dirty p (b : string -> val) s u s' :
  (r ← zoom_snd (relative_ref p); add_blocker (b r)) s = (Ok u, s') -> ~ clean s'.
Proof. intros E. inv_run. by eapply add_blocker_dirty. Qed.

Lemma age_fresh t r rule m limit age : age_seconds t now_dt = Ok age -> r = Ok rule ->
  getitem rule "max_age_seconds" = Ok m -> py_int m = Ok limit -> (limit <? age) = false ->
  fresh now_dt t rule.
Proof.
  unfold age_seconds. intros Ha _ Hm Hl Hlt. inv_run. injection Ha as <-.
  apply Z.ltb_ge in Hlt. by exists a0, m, limit.
Qed.

Lemma check_age_clean t r missing stale s u s' :
  (forall s u s', stale s = (Ok u, s') -> ~ clean s') ->
  check_age now_dt t r missing stale s = (Ok u, s') -> errors s'.1 = [] -> clean s' ->
  s' = s /\ exists t' rule, t = VStr t' /\ r = Ok rule /\ fresh now_dt t' rule.
Proof.
  unfold check_age. intros Hst E He Hc.
  destruct t as [| | | |t| |]; try by apply add_errors_Ok in E as [? _].
  apply catch_Ok in E as [E|(e & s1 & k & E & Hk & Ek)].
  - inv_run. apply when_Ok in E as [[_ E]|[Hb ->]]; [by apply Hst in E|].
    split; [done|]. exists t, a1. split; [done|]. split; [done|]. by eapply age_fresh.
  - apply on_exn_Some in Hk as [_ ->]. by apply add_errors_Ok in Ek as [? _].
Qed.

Lemma check_evidence_time_clean kind owner t p rule s u s' :
  check_evidence_time now_dt kind owner t p rule s = (Ok u, s') -> errors s'.1 = [] -> clean s' ->
  s' = s /\ fresh now_dt t rule /\ exists us, parse_datetime t = Ok us /\ us - now_dt <= 300 * Time.us_per_s.
Proof.
  unfold check_evidence_time. intros E He Hc.
  apply catch_Ok in E as [E|(e & s1 & k & E & Hk & Ek)].
  - inv_run. apply when_Ok in E as [[_ E]|[Hb ->]].
    { by apply ref_blocker_dirty in E. }
    apply when_Ok in E1 as [[_ E1]|[Hf ->]]; [by apply add_errors_Ok in E1 as [? _]|].
    split; [done|]. split; [by eapply (age_fresh t (Ok rule))|]. exists a0. split; [done|].
    unfold Time.us_per_s in *. apply andb_false_iff in Hf as [Hf|Hf]; apply Z.ltb_ge in Hf; [|lia].
    pose proof (Z.mod_pos_bound now_dt 1000000 ltac:(lia)). lia.
  - apply on_exn_Some in Hk as [_ ->]. by apply add_errors_Ok in Ek as [? _].
Qed.

(** What [check_evidence] has checked when it found no error. *)
Record evidence_checked (kind : string) (rule d : val) (w : world) : Prop := {
  ec_schema : exists schema, schema_of rule = Ok schema /\ validate_document schema d kind w = (Ok [], w);
  ec_semantic : semantic_evidence_errors kind d = Ok [];
  ec_sha : exact_field d "git_sha" sha;
  ec_release : exact_field d "release_id" (a_release_id a);
  ec_environment : exists e, dget d "environment" = Ok e /\ (e = VNone \/ e = VStr (a_environment a));
  ec_fresh : exists t, observed_at d = Ok (Some t) /\ fresh now_dt t rule /\
               exists us, parse_datetime t = Ok us /\ us - now_dt <= 300 * Time.us_per_s
}.

Lemma environment_in e x l : in_set e [VNone; VStr x] = Ok l -> negb l = false -> e = VNone \/ e = VStr x.
Proof.
  intros E Hl. apply negb_false_iff in Hl as ->. apply in_set_Ok in E. unfold py_in in E.
  apply existsb_exists in E as (y & [<-|[<-|[]]] & E).
  - left. by apply py_eq_none.
  - right. by apply py_eq_str_r in E.
Qed.

Lemma check_evidence_clean kind owner p rule d s t s' :
  check_evidence a sha now_text now_dt kind owner p rule d s = (Ok t, s') ->
  errors s'.1 = [] -> clean s' -> evidence_checked kind rule d s.2.
Proof.
  unfold check_evidence. intros E He Hc. inv_run.
  apply ro_zoom_Ok in E1 as [E1 ->]; [|solve_pres].
  apply set_errors_Ok in E2 as [E2 Hg]. apply grow_world in Hg.
  destruct a10 as [t'|]; inv_run; [|by apply add_errors_Ok in E11 as [? _]].
  apply check_evidence_time_clean in E11 as (-> & Hf & us & Hus); [|done..].
  apply when_Ok in E9 as [[_ E9]|[Hin ->]]; [by apply add_errors_Ok in E9 as [? _]|].
  apply must_equal_Ok in E6 as [Hr ->]; [|done]. apply must_equal_Ok in E5 as [Hs ->]; [|done].
  apply add_errors_Ok in E4 as [-> ->]; [|done]. rewrite He in E2. subst.
  split; [by eexists|done..| |by eauto].
  eexists. split; [done|]. by eapply environment_in.
Qed.

(** What [record_evidence] has checked when it leaves no blocker. *)
Lemma record_evidence_clean kind owner p d t s u s' :
  record_evidence a sha kind owner p d t s = (Ok u, s') -> clean s' ->
  errors s.1 = [] /\ passed_status d /\ exact_field d "evidence_mode" "live".
Proof.
  unfold record_evidence, get_errors. intros E Hc. inv_run.
  clean_back E. clean_back E12. clean_back E11. clean_back E8. clean_back E7.
  apply getl_Ok in E14 as [-> ->]. apply getl_Ok in E13 as [-> ->]. subst.
  destruct (bool_decide (errors s4.1 = [])) eqn:He; simpl in E6;
    [|by apply ref_blocker_dirty in E6]. apply bool_decide_eq_true in He.
  destruct (py_ne _ _) eqn:Hp in E6; [by apply ref_blocker_dirty in E6|].
  apply negb_false_iff, py_eq_str_r in Hp.
  apply when_Ok in E4 as [[_ E4]|[Hl ->]]; [by apply add_errors_Ok in E4 as [? _]|].
  split; [done|]. rewrite He, Hp in Hl. simpl in Hl.
  apply negb_false_iff, py_eq_str_r in Hl as ->.
  split; [|done]. unfold passed_status. rewrite E0. destruct a1; by simplify_eq.
Qed.

(** A clean turn of the evidence loop has accepted its document. *)
Lemma evidence_one_clean paths k rule s u s' :
  evidence_one a sha now_text now_dt paths (k, rule) s = (Ok u, s') -> clean s' ->
  exists kind p d, k = VStr kind /\ Dict.lookup kind paths = Some p /\
    evidence_accepted a sha now_dt s.2 kind p rule d.
Proof.
  unfold evidence_one. intros E Hc. inv_run. simpl in *.
  destruct k as [| | | |k| |]; try done. destruct (Dict.mem k EVIDENCE_OWNER); [|done].
  injection E0 as <-. destruct (Dict.lookup k paths) as [p|] eqn:Hk.
  2:{ inv_run. by apply add_blocker_dirty in E. }
  inv_run. destruct a0 as [d|msg]; inv_run.
  2:{ by apply add_blocker_dirty in E. }
  apply catch_Ok in E0 as [E0|(e & s9 & h & _ & Hh & E0)].
  2:{ apply on_exn_Some in Hh as [_ ->]. by apply ret_Ok in E0 as [? _]. }
  inv_run. injection E0 as ->. apply ro_zoom_Ok in E2 as [Hd ->]; [|solve_pres].
  pose proof (record_evidence_clean _ _ _ _ _ _ _ _ E Hc) as (He & Hp & Hl).
  clean_back E. apply check_evidence_clean in E1 as [Hv ? ? ? ? ?]; [|done..].
  exists k, p, d. split; [done|]. split; [done|]. by split; [split|..].
Qed.

Lemma load_checked_clean p schema label s d s' :
  load_checked p schema label s = (Ok d, s') -> errors s'.1 = [] ->
  s'.2 = s.2 /\ load_json p s.2 = (Ok d, s.2) /\
  exists sp, schema = Ok sp /\ validate_document sp d label s.2 = (Ok [], s.2).
Proof.
  unfold load_checked. intros E He. apply catch_Ok in E as [E|(e & s9 & h & _ & Hh & E)].
  - inv_run. apply ro_zoom_Ok in E0 as [Hd ->]; [|solve_pres].
    apply ro_zoom_Ok in E2 as [Hv ->]; [|solve_pres].
    apply set_errors_Ok in E3 as [Hes Hg%grow_world]. rewrite He in Hes. subst. by eauto.
  - apply on_exn_Some in Hh as [_ ->]. inv_run. by apply set_errors_Ok in E0 as [Hes _]; rewrite He in Hes.
Qed.

Lemma status_clean d s v s' : status_unless_errors d s = (Ok v, s') ->
  s' = s /\ (v = VStr "passed" -> errors s.1 = [] /\ passed_status d).
Proof.
  unfold status_unless_errors, get_errors. intros E. inv_run. apply getl_Ok in E1 as [-> ->]. subst.
  case_bool_decide; apply lift_Ok in E || apply ret_Ok in E; destruct E as [E ->].
  - split; [done|]. intros Hv. by simplify_eq.
  - split; [done|]. intros Hv. by simplify_eq.
Qed.

Lemma mfor_blocker_clean l s u s' : mfor add_blocker l s = (Ok u, s') -> clean s' -> l = [].
Proof.
  destruct l as [|b r]; [done|]. simpl. intros E Hc. inv_run. clean_back E.
  by apply add_blocker_dirty in E0.
Qed.

(** A clean turn of the checkpoint loop has accepted its document. *)
Lemma checkpoint_one_clean paths rule schema name s u s' : schema_of rule = Ok schema ->
  checkpoint_one a sha now_dt paths rule schema name s = (Ok u, s') -> clean s' ->
  exists p d, Dict.lookup name paths = Some p /\ checkpoint_accepted a sha now_dt s.2 name p rule d.
Proof.
  unfold checkpoint_one, get_errors. intros Hschema E Hc.
  destruct (Dict.lookup name paths) as [p|]; [|inv_run; by apply add_blocker_dirty in E].
  inv_run. apply getl_Ok in E11 as [-> ->].
  destruct (bool_decide (a8 = [])) eqn:Hb; [|by apply ref_blocker_dirty in E].
  apply bool_decide_eq_true in Hb. inv_run.
  assert (a12 = []) as -> by (by eapply mfor_blocker_clean).
  clean_back E. clean_back E10. pose proof (add_status_clean _ _ _ _ E7 Hc) as ->.
  clean_back E7. apply status_clean in E6 as [-> Hst]. destruct (Hst eq_refl) as [He Hp].
  apply check_age_clean in E5 as (-> & t & rule' & -> & [= <-] & Hf); [|by intros ??? ?%ref_blocker_dirty|done..].
  apply must_equal_Ok in E3 as [Hr ->]; [|done]. apply must_equal_Ok in E2 as [Hs ->]; [|done].
  apply must_equal_Ok in E1 as [Hn ->]; [|done].
  apply load_checked_clean in E0 as (_ & Hd & sp & [= <-] & Hv); [|done].
  exists p, a0. split; [done|]. split; [split; [done|by eexists]|done..|by eexists|done|by eexists].
Qed.

(** The same for the compatibility result and for the mutation log. *)
Lemma supporting_rule_Ok kind supporting rule :
  supporting_rule kind supporting = Ok rule -> vlookup (VStr kind) supporting = Some rule.
Proof. unfold supporting_rule. destruct (vlookup _ _); [by intros [= ->]|done]. Qed.

(** An index by a key: what is found under a name is an element of that name. *)
Definition indexed (key : val -> res val) (l : list val) (kv : val * val) : Prop :=
  kv.2 ∈ l /\ forall name, kv.1 = VStr name -> key kv.2 = Ok (VStr name).

Lemma indexed_set key l k x d : x ∈ l -> key x = Ok k ->
  Forall (indexed key l) d -> Forall (indexed key l) (vset_key k x d).
Proof.
  intros Hx Hk. induction d as [|[k' v'] d IH]; intros Hd; simpl.
  - constructor; [|done]. split; [done|]. simpl. intros name ->. done.
  - apply Forall_cons in Hd as [[Hv Hn] Hd]. destruct (py_eq k k') eqn:E.
    + constructor; [|done]. split; [done|]. simpl. intros name ->. by apply py_eq_str_r in E as ->.
    + constructor; [by split|by apply IH].
Qed.

Lemma index_fold key all l : forall acc d, (forall y, y ∈ l -> y ∈ all) -> Forall (indexed key all) acc ->
  rfold (λ d item, k ← key item; _ ← check_hash k; Ok (vset_key k item d)) acc l = Ok d ->
  Forall (indexed key all) d.
Proof.
  induction l as [|y l IH]; intros acc d Hsub Hacc E; simpl in E; [by injection E as <-|].
  inv_run. simplify_eq. eapply IH; [|by eapply indexed_set, Hacc; [apply Hsub; left|]|done].
  intros z Hz. apply Hsub. by right.
Qed.

Lemma index_by_lookup key l d name x : index_by key l = Ok d ->
  vlookup (VStr name) d = Some x -> x ∈ l /\ key x = Ok (VStr name).
Proof.
  intros Hd%(index_fold _ l); [|done|constructor].
  unfold vlookup. destruct (List.find _ d) as [kv|] eqn:Ef; [|done]. intros [= <-].
  apply find_some in Ef as [Hin He%py_eq_str_l]. rewrite Forall_forall in Hd.
  destruct (Hd kv) as [? Hn]; [by apply list_elem_of_In|]. split; [done|]. by apply Hn.
Qed.

Lemma compat_value_passed checks name : compat_value checks name = Ok true ->
  exists item, vlookup (VStr name) checks = Some item /\ get_eq item "status" (VStr "passed") = Ok true.
Proof. unfold compat_value. destruct (vlookup _ checks) as [item|]; [by exists item|done]. Qed.

Lemma compat_values_passed l checks values :
  index_by (λ item, dget item "name") l = Ok checks ->
  rmap (λ kn, b ← compat_value checks kn.2; Ok (kn.1, b)) compat_keys = Ok values ->
  existsb (λ kv, negb kv.2) values = false ->
  forall name, name ∈ Dict.keys COMPATIBILITY_OWNER -> exists item, item ∈ l /\
    exact_field item "name" name /\ get_eq item "status" (VStr "passed") = Ok true.
Proof.
  intros Hi Hm Hv name Hname. assert (compat_value checks name = Ok true) as Hc.
  { unfold compat_keys in Hm. cbn [rmap snd fst] in Hm. inv_run. simplify_eq. simpl in Hv.
    repeat match goal with H : (_ || _)%bool = false |- _ => apply orb_false_iff in H as [? H] end.
    repeat match goal with H : negb _ = false |- _ => apply negb_false_iff in H; simpl in H; subst end.
    unfold COMPATIBILITY_OWNER, Dict.keys in Hname. simpl in Hname.
    repeat rewrite elem_of_cons in Hname. rewrite elem_of_nil in Hname. destruct_or! Hname; subst; [exact Hm11|exact Hm10|exact Hm9|exact Hm8]. }
  apply compat_value_passed in Hc as (item & Hl & Hs).
  apply (index_by_lookup _ _ _ _ _ Hi) in Hl as [? ?]. by exists item.
Qed.

Lemma compatibility_clean supporting s values s' :
  compatibility_block a sha now_dt supporting s = (Ok (values, VStr "passed"), s') -> clean s' ->
  existsb (λ kv, negb kv.2) values = false ->
  exists p0 p rule d, a_compatibility a = Some p0 /\ resolve p0 s.2 = (Ok p, s.2) /\
    vlookup (VStr "compatibility") supporting = Some rule /\
    compatibility_accepted a sha now_dt s.2 p rule d.
Proof.
  unfold compatibility_block, get_errors. intros E Hc Hvals.
  destruct (a_compatibility a) as [p0|] eqn:Hp0; [|inv_run; done].
  inv_run. injection E as -> ->. apply ro_zoom_Ok in E0 as [Hp ->]; [|solve_pres].
  apply getl_Ok in E15 as [-> ->]. apply status_clean in E8 as [-> Hst]. destruct (Hst eq_refl) as [He Hpass].
  destruct (bool_decide (a13 = [])) eqn:Hb; [|by apply ref_blocker_dirty in E14].
  clean_back E14. apply add_errors_Ok in E7 as [-> ->]; [|done].
  apply check_age_clean in E5 as (-> & t & rule & -> & Hrule & Hf); [|by intros ??? ?%ref_blocker_dirty|done..].
  apply must_equal_Ok in E3 as [Hr ->]; [|done]. apply must_equal_Ok in E2 as [Hs ->]; [|done].
  apply load_checked_clean in E1 as (_ & Hd & sp & Hsp & Hv); [|done].
  rewrite Hrule in Hsp. apply supporting_rule_Ok in Hrule.
  exists p0, a0, rule, a1. split; [done|]. split; [done|]. split; [done|].
  split; [split; [done|by eexists]|done..|by eexists|done|done|].
  exists a9, a10. split; [done|]. split; [done|]. by eapply compat_values_passed.
Qed.

Lemma mutation_clean supporting s l s' :
  mutation_block a sha now_dt supporting s = (Ok (l, VStr "passed"), s') -> clean s' ->
  exists p0 p rule d, a_oci_mutations a = Some p0 /\ resolve p0 s.2 = (Ok p, s.2) /\
    vlookup (VStr "oci-mutations") supporting = Some rule /\
    mutations_accepted a sha now_dt s.2 p rule d.
Proof.
  unfold mutation_block, get_errors. intros E Hc.
  destruct (a_oci_mutations a) as [p0|] eqn:Hp0; [|inv_run; done].
  inv_run. apply ro_zoom_Ok in E0 as [Hp ->]; [|solve_pres]. apply getl_Ok in E9 as [-> ->].
  destruct (bool_decide (a8 = [])) eqn:Hb; inv_run.
  2:{ by apply add_blocker_dirty in E9. }
  injection E as -> ->. clean_back E11.
  apply status_clean in E7 as [-> Hst]. destruct (Hst eq_refl) as [He Hpass].
  apply check_age_clean in E6 as (-> & t & rule & -> & Hrule & Hf); [|by intros ??? ?%ref_blocker_dirty|done..].
  apply must_equal_Ok in E4 as [Hr ->]; [|done]. apply must_equal_Ok in E3 as [Hs ->]; [|done].
  apply must_equal_Ok in E2 as [Hn ->]; [|done].
  apply load_checked_clean in E1 as (_ & Hd & sp & Hsp & Hv); [|done].
  rewrite Hrule in Hsp. apply supporting_rule_Ok in Hrule.
  exists p0, a0, rule, a1. split; [done|]. split; [done|]. split; [done|].
  split; [split; [done|by eexists]|done..|by eexists|done].
Qed.

(** The loops and blocks in their order. *)
Lemma collect_clean evidence_paths checkpoint_paths policy_by_kind supporting s compat mutations correctness s' :
  collect a sha now_text now_dt evidence_paths checkpoint_paths policy_by_kind supporting s
    = (Ok (Some (compat, mutations, correctness)), s') ->
  clean s' -> existsb (λ kv, negb kv.2) compat = false ->
  s'.2 = s.2 /\
  release_ready a sha now_dt s.2 evidence_paths checkpoint_paths policy_by_kind supporting.
Proof.
  unfold collect. intros E Hc Hcompat. inv_run.
  destruct (sort_strings _) as [|x r] in E; [|inv_run; apply zoom_Ok in E as [E _]; unfold usage in E; by inv_run].
  apply M_bind_Ok in E as ([] & s1 & Hk & E). apply M_bind_Ok in E as ([cv cs] & s2 & Hco & E).
  apply M_bind_Ok in E as ([] & s3 & Hs3 & E). apply M_bind_Ok in E as ([mu ms] & s4 & Hmu & E).
  apply M_bind_Ok in E as ([] & s5 & Hs5 & E). apply M_bind_Ok in E as (co & s6 & Hcr & E).
  inv_run. injection E as -> -> ->.
  assert (s0.2 = s.2 /\ s1.2 = s.2 /\ s3.2 = s.2 /\ s6.2 = s.2) as (W0 & W1 & W3 & W6).
  { world_step E0. world_step Hk. world_step Hco. world_step Hs3. world_step Hmu. world_step Hs5.
    world_step Hcr. repeat split; congruence. }
  split; [done|].
  clean_back Hcr. pose proof (add_status_clean _ _ _ _ Hs5 Hc) as ->. clean_back Hs5.
  pose proof (mutation_clean _ _ _ _ Hmu Hc) as Hm. rewrite W3 in Hm. clean_back Hmu.
  pose proof (add_status_clean _ _ _ _ Hs3 Hc) as ->. clean_back Hs3.
  pose proof (compatibility_clean _ _ _ _ Hco Hc Hcompat) as Hcm. rewrite W1 in Hcm. clean_back Hco.
  apply (mfor_clean _ _ _ _ _ (λ name, g_checkpoint_one a sha now_dt checkpoint_paths a1 a2 name)) in Hk as Hck; [|done].
  clean_back Hk.
  apply (mfor_clean _ _ _ _ _ (λ kr, g_evidence_one a sha now_text now_dt evidence_paths kr)) in E0 as Hev; [|done].
  rewrite Forall_forall in Hck. rewrite Forall_forall in Hev.
  split; [|exists a1; split; [by apply supporting_rule_Ok|]|done..].
  - intros k rule Hin. destruct (Hev _ Hin) as (t1 & t2 & W & Ht & Hct).
    apply evidence_one_clean in Ht; [|done]. by rewrite W in Ht.
  - intros name Hin. destruct (Hck _ Hin) as (t1 & t2 & W & Ht & Hct).
    apply checkpoint_one_clean in Ht; [|done..]. by rewrite W, W0 in Ht.
Qed.
End Clean.

(** ** The verdict *)

Section Verdict.
Context `{Platform} (a : args) (sha now_text : string) (now_dt : Z).
Context (evidence_paths checkpoint_paths : list (string * path)) (policy_by_kind supporting : list (val * val)).

Let run := compose a sha now_text now_dt evidence_paths checkpoint_paths policy_by_kind supporting.
Let gather := collect a sha now_text now_dt evidence_paths checkpoint_paths policy_by_kind supporting.

Lemma compose_Ok w z w' : run w = (Ok z, w') -> z = 64 \/
  exists s' compat mutations correctness overall result,
    gather (st0, w) = (Ok (Some (compat, mutations, correctness)), s') /\
    compose_result a sha now_text s'.1 compat mutations correctness = Ok (overall, result) /\
    publish a overall result s'.2 = (Ok z, w').
Proof.
  unfold run, compose. intros E. apply M_bind_Ok in E as (r & w1 & E1 & E).
  unfold with_locals in E1. match type of E1 with (let (_, _) := ?x in _) = _ => destruct x as [r1 s'] eqn:E2 end. simplify_eq.
  apply M_bind_Ok in E2 as ([[[compat mutations] correctness]|] & s1 & E2 & E3).
  - right. inv_run. apply getl_Ok in E0 as [-> ->]. destruct a1 as [overall result].
    subst r. by exists s1, compat, mutations, correctness, overall, result.
  - left. inv_run. subst r. by apply ret_Ok in E as [<- _].
Qed.

Lemma overall_passed bs statuses compat bs' :
  overall_status bs statuses compat = Ok ("passed", bs') ->
  bs = [] /\ Forall (λ v, v = VStr "passed") statuses /\ existsb (λ kv, negb kv.2) compat = false /\ bs' = [].
Proof.
  unfold overall_status. intros E. inv_run. destruct a0; [by injection E1 as <-|].
  destruct bs as [|b r]; [|by injection E1 as <-]. destruct (String.eqb a1 "passed") eqn:Ep; simpl in E.
  - apply String.eqb_eq in Ep as ->. apply combine_passed in E1. case_match; by simplify_eq.
  - simplify_eq.
Qed.

Lemma overall_cases bs statuses compat o bs' : overall_status bs statuses compat = Ok (o, bs') ->
  o = "passed" \/ o = "blocked" \/ o = "failed".
Proof.
  unfold overall_status. intros E. inv_run.
  assert (a1 = "passed" \/ a1 = "blocked" \/ a1 = "failed") as Ha.
  { destruct a0; [injection E1 as <-; auto|]. destruct bs; [by eapply combine_cases|injection E1 as <-; auto]. }
  case_match; simplify_eq; auto.
Qed.

Lemma result_status s compat mutations correctness overall result :
  compose_result a sha now_text s compat mutations correctness = Ok (overall, result) ->
  exists bs, overall_status (blockers s) (status_inputs s) compat = Ok (overall, bs) /\
    dget result "status" = Ok (VStr overall) /\ dget result "verdict" = Ok (VStr (verdict_of overall)).
Proof.
  unfold compose_result. intros E. inv_run. destruct a0 as [host0 reserve]. inv_run.
  destruct a1 as [o bs]. inv_run. simplify_eq. by exists bs.
Qed.

Lemma publish_Ok overall result w z w' : publish a overall result w = (Ok z, w') -> z = 65 \/
  exists out, resolve (a_output a) w = (Ok out, w) /\
    validate_document FINAL_SCHEMA result "v1-readiness-result" w = (Ok [], w) /\
    z = (if String.eqb overall "failed" then (if allow_not_ready a then 0 else 1)
         else if String.eqb overall "blocked" then (if allow_not_ready a then 0 else 2) else 0).
Proof.
  unfold publish. intros E. apply M_bind_Ok in E as (es & w1 & Ev & E).
  assert (w1 = w) as -> by (eapply pres_eq_run; [|exact Ev]; auto with pres).
  destruct es as [|e es]; [|inv_run; by left]. right.
  apply M_bind_Ok in E as (out & w2 & Eo & E).
  assert (w2 = w) as -> by (eapply pres_eq_run; [|exact Eo]; auto with pres).
  inv_run. by exists out.
Qed.

(** C1: The composer fails closed. Without [--allow-not-ready], exit status 0 means
    that every evidence kind of the policy and every checkpoint had a document that
    the composer could read, valid against its schema, semantically complete, bound
    to the exact commit and release, fresh, live and passed; and that the
    compatibility result and the mutation log were accepted in the same way. *)
Theorem compose_fail_closed w : allow_not_ready a = false -> (run w).1 = Ok 0 ->
  release_ready a sha now_dt w evidence_paths checkpoint_paths policy_by_kind supporting.
Proof using All.
  intros Ha Hz. destruct (run w) as [r w'] eqn:E. simpl in Hz. subst r.
  apply compose_Ok in E as [?|(s' & compat & mu & co & o & result & Eg & Er & Ep)]; [done|].
  apply result_status in Er as (bs & Ho & _). pose proof (overall_cases _ _ _ _ _ Ho) as Hcases.
  apply publish_Ok in Ep as [?|(_ & _ & _ & Hz)]; [done|]. rewrite Ha in Hz.
  destruct Hcases as [->|[->| ->]]; [|done..].
  apply overall_passed in Ho as (Hb & Hs & Hv & _).
  by apply collect_clean in Eg as [_ ?].
Qed.
End Verdict.
End ComposeSpec.

(** ** A release that is ready *)

Module ComposeRun.
Import Readiness Compose ComposeSpec Fixture.

Definition sha : string := "0123456789abcdef0123456789abcdef01234567".
Definition stamp : string := "2026-07-14T05:59:00Z".
Definition binding : list (string * string) :=
  [("git_sha", sha); ("release_id", "r1"); ("environment", "staging"); ("status", "passed");
   ("observed_at", stamp); ("evidence_mode", "live")].
Definition checks : val :=
  VList (map (λ n, rec [("name", n); ("status", "passed")]) (Dict.keys COMPATIBILITY_OWNER)).

Definition files : list (string * string) :=
  [("/repo/s.json", "{}"); ("/repo/contracts/readiness/v1-readiness-result.schema.json", "{}");
   ("/e/load.json", json (rec binding));
   ("/e/compat.json", json (VDict (("checks", checks) :: map (λ kv, (kv.1, VStr kv.2)) binding)));
   ("/e/oci.json", json (rec binding))]
  ++ map (λ n, ("/e/" +:+ n +:+ ".json", json (rec (("name", n) :: binding)))) CHECKPOINT_NAMES.

Definition the_args : args := {|
  policy := Path.of_str "/repo/p.json"; a_git_sha := Some sha; a_release_id := "r1";
  a_environment := "staging"; a_evidence := []; a_checkpoint := [];
  a_compatibility := Some (Path.of_str "/e/compat.json");
  a_oci_mutations := Some (Path.of_str "/e/oci.json"); a_output := Path.of_str "/out/result.json";
  allow_not_ready := false; a_now := None |}.

Definition a_rule (kind : string) : val * val :=
  (VStr kind, VDict [("kind", VStr kind); ("schema", VStr "s.json"); ("max_age_seconds", VInt 3600)]).

Definition w0 : world := world_with files.
Definition evidence : list (string * path) := [("load", Path.of_str "/e/load.json")].
Definition checkpoints : list (string * path) :=
  map (λ n, (n, Path.of_str ("/e/" +:+ n +:+ ".json"))) CHECKPOINT_NAMES.
Definition supporting : list (val * val) := [a_rule "checkpoint"; a_rule "compatibility"; a_rule "oci-mutations"].

#[local] Existing Instance quiet_host.

Lemma compose_fail_closed_witness :
  (compose the_args sha "2026-07-14T06:00:00Z" t0 evidence checkpoints [a_rule "load"] supporting w0).1 = Ok 0 /\
  release_ready the_args sha t0 w0 evidence checkpoints [a_rule "load"] supporting.
Proof.
  assert ((compose the_args sha "2026-07-14T06:00:00Z" t0 evidence checkpoints [a_rule "load"] supporting w0).1
    = Ok 0) as H by (vm_compute; reflexivity).
  split; [exact H|]. by eapply compose_fail_closed.
Defined.
End ComposeRun.
