(* ===== verification/ProviderGates.v ===== *)
(** * operations/bin/run_provider_gates_v1.py

    The runner of the provider-owned gates of one stage: it decides which
    gates may run, runs them, classifies their outcome and publishes the
    stage's checkpoint. *)

From Stdlib Require Import Ascii.
From S2P Require Import Prelude PyFloat PyMonad PyValue PyTime PyJson Sha256 PyOs OsFacts ReadinessCommon Fixture.

Module ProviderGates.
Import Readiness.

Definition STAGES : list string :=
  ["source"; "integration"; "artifact"; "live-staging"; "promotion"; "cutover"; "post-cutover"].

(** ** The tokens of an argument *)

Definition is_upper (c : ascii) : bool := let n := N_of_ascii c in ((65 <=? n) && (n <=? 90))%N.
Definition is_lower (c : ascii) : bool := let n := N_of_ascii c in ((97 <=? n) && (n <=? 122))%N.
Definition name_char (c : ascii) : bool := is_upper c || Str.is_digit c || Ascii.eqb c "_".
Definition flag_char (c : ascii) : bool := is_lower c || Str.is_digit c || Ascii.eqb c "-".

(** One character of a class, then one to sixty-three of another. No character
    that follows such a run in the patterns belongs to its class, so a match
    takes the whole run. *)
Definition bounded_run (first rest : ascii -> bool) (s : string) : option (string * string) :=
  match s with
  | String c r =>
      if first c then
        let (run, r') := span rest r in
        if Nat.leb 1 (String.length run) && Nat.leb (String.length run) 63
        then Some (String c run, r') else None
      else None
  | EmptyString => None
  end.

(** [ENV_PATTERN] at the head of a text. *)
Definition env_token (s : string) : option (string * string) :=
  r ← Str.strip_prefix "{env:" s;
  '(name, r) ← bounded_run is_upper name_char r;
  r ← Str.strip_prefix "}" r;
  Some (name, r).

(** [ENV_PATTERN.findall(part)]; each step consumes a character. *)
Fixpoint findall_go (fuel : nat) (s : string) : list string :=
  match fuel with
  | O => []
  | S k => match env_token s with
           | Some (name, r) => name :: findall_go k r
           | None => match s with String _ r => findall_go k r | EmptyString => [] end
           end
  end.
Definition findall_env (s : string) : list string := findall_go (S (String.length s)) s.

(** [OPTIONAL_ENV_ARG_PATTERN.fullmatch(part)] *)
Definition optional_token (s : string) : option (string * string) :=
  r ← Str.strip_prefix "{optional-env-arg:" s;
  r ← Str.strip_prefix "--" r;
  '(flag, r) ← bounded_run (λ c, is_lower c || Str.is_digit c) flag_char r;
  r ← Str.strip_prefix ":" r;
  '(name, r) ← bounded_run is_upper name_char r;
  if String.eqb r "}" then Some ("--" +:+ flag, name) else None.

Definition env_value (env : list (string * string)) (name : string) : string :=
  default "" (Dict.lookup name env).

(** The tokens of a part replaced: in the argument, and in its display. *)
Definition substitute (env : list (string * string)) (output : path) (part : string) : string * string :=
  let names := findall_env part in
  let token name := "{env:" +:+ name +:+ "}" in
  (fold_left (λ s name, Str.replace (token name) (env_value env name) s) names
     (Str.replace "{output}" (Path.to_str output) part),
   fold_left (λ s name, Str.replace (token name) ("<env:" +:+ name +:+ ">") s) names
     (Str.replace "{output}" (Path.name output) part)).

(** One turn of the loop of [expand]: the arguments it adds, and their display. *)
Definition expand_part (env : list (string * string)) (output : path) (part : string) :
    res (list string * list string) :=
  if Str.startswith "{optional-env-arg:" part then
    match optional_token part with
    | None => raise ValueError ("invalid optional environment argument token: " +:+ part)
    | Some (flag, name) =>
        let value := env_value env name in
        Ok (if String.eqb value "" then ([], [])
            else ([flag; value], [flag; "<env:" +:+ name +:+ ">"]))
    end
  else
    Ok ([(substitute env output part).1], [(substitute env output part).2]).

Definition expand (env : list (string * string)) (parts : list string) (output : path) :
    res (list string * string) :=
  l ← rmap (expand_part env output) parts;
  Ok (concat l.*1, Str.join " " (concat l.*2)).

(** ** The outcome of a provider's command *)

Definition classify_provider_outcome (returncode : Z) (document_status : option string) :
    string * option string * option string :=
  let says s := bool_decide (document_status = Some s) in
  if says "blocked" then
    ("blocked", Some "PROVIDER_GATE_BLOCKED",
     Some ("provider emitted blocked evidence and exited " +:+ Str.of_Z returncode))
  else if says "failed" then
    ("failed", Some "PROVIDER_GATE_FAILED",
     Some ("provider emitted failed evidence and exited " +:+ Str.of_Z returncode))
  else if says "passed" && negb (returncode =? 0) then
    ("failed", Some "PROVIDER_RESULT_EXIT_MISMATCH",
     Some ("provider emitted passed evidence but exited " +:+ Str.of_Z returncode))
  else if negb (returncode =? 0) then
    ("failed", Some "PROVIDER_GATE_FAILED",
     Some ("provider command exited " +:+ Str.of_Z returncode))
  else ("passed", None, None).

(** ** The run *)

Record args := Args {
  registry : path; stage : string; a_release_id : option string; a_output : path;
  a_evidence_dir : path; allow_blocked : bool; allow_build : bool;
  allow_disposable_database : bool; allow_live_read_only : bool;
  allow_isolated_restore : bool; approval_ref : option string
}.

Record st := St { provider_results : list val; blockers : list val; evidence_refs : list string }.
Definition st0 : st := St [] [] [].

Abbreviation C := (M (st * world)).

(** Python's truth of an optional string. *)
Definition truthy_opt (o : option string) : bool :=
  match o with Some s => negb (String.eqb s "") | None => false end.

(** [add_result]; the registry's [action_required] is a string. *)
Definition add_result (gate : val) (status : string) (evidence_ref code message : option string) : C unit :=
  owner ← lift (getitem gate "owner"); seam ← lift (getitem gate "seam");
  modl (λ s, St (provider_results s ++ [VDict [("owner", owner); ("seam", seam); ("status", VStr status);
                                               ("evidence_ref", opt_val VStr evidence_ref)]])
                (blockers s)
                (evidence_refs s ++ (match evidence_ref with
                                     | Some r => if truthy_opt (Some r) then [r] else []
                                     | None => []
                                     end))) ;;
  match code, message with
  | Some c, Some m =>
      mwhen (truthy_opt (Some c) && truthy_opt (Some m))
        (action ← lift (getitem gate "action_required"); action ← lift (expect_str action);
         let severity := if inb String.eqb status ["blocked"; "failed"] then status else "failed" in
         modl (λ s, St (provider_results s)
                       (blockers s ++ [blocker owner seam (VStr c) (VStr severity) m action])
                       (evidence_refs s)))
  | _, _ => mret tt
  end.

Section Env.
Context `{Platform} (a : args).

Definition CHECKPOINT_SCHEMA : path := Path.div repo_root "contracts/readiness/checkpoint-result-v1.schema.json".

(** [resolve_bash]: Git's bash on Windows, the arguments unchanged elsewhere. *)
Definition resolve_bash (argv : list string) : IO (list string) :=
  match argv with
  | "bash" :: rest =>
      if negb (String.eqb os_name "nt") then mret argv
      else
        from_git ← (match which "git" with
                    | Some git =>
                        if String.eqb git "" then mret []
                        else p ← resolve (Path.of_str git);
                             mret (if Nat.leb 3 (length (parts p))
                                   then [Path.div (Path.parent (Path.parent (Path.parent p))) "usr/bin/bash.exe"]
                                   else [])
                    | None => mret []
                    end);
        pf ← getenv "ProgramFiles";
        let candidates := from_git ++ (match pf with
                                       | Some d => if String.eqb d "" then []
                                                   else [Path.div (Path.of_str d) "Git/usr/bin/bash.exe"]
                                       | None => []
                                       end) in
        (fix go (l : list path) : IO (list string) :=
           match l with
           | [] => throw RuntimeError "Git Bash is required for provider shell commands on Windows"
           | c :: r => b ← is_file c; if b : bool then mret (Path.to_str c :: rest) else go r
           end) candidates
  | _ => mret argv
  end.

(** Why a gate's mutation class keeps it from running, when it does. *)
Definition blocked_reason (mutation : val) : option string :=
  let says s := py_eq mutation (VStr s) in
  if says "approved-live-mutation" then
    Some "automatic live mutations are forbidden in the readiness provider runner"
  else if says "build" && negb (allow_build a) then Some "build execution requires --allow-build"
  else if says "disposable-database" && negb (allow_disposable_database a) then
    Some "disposable database execution requires --allow-disposable-database"
  else if says "live-read-only" && negb (allow_live_read_only a) then
    Some "live read-only execution requires --allow-live-read-only"
  else if says "isolated-restore" && (negb (allow_isolated_restore a) || negb (truthy_opt (approval_ref a))) then
    Some "isolated restore requires --allow-isolated-restore and --approval-ref"
  else None.

Definition gate_text (gate : val) (k : string) : res string := v ← getitem gate k; Ok (py_str v).

(** The code and message of a gate that is not available. *)
Definition unavailable (gate state : val) : res (string * string) :=
  if py_eq state (VStr "pending-integration") then
    c ← gate_text gate "provider_commit"; b ← gate_text gate "provider_branch";
    Ok ("PROVIDER_COMMIT_NOT_INTEGRATED",
        "provider commit " +:+ c +:+ " on " +:+ b +:+ " is published but not integrated")
  else if py_eq state (VStr "pending-live-evidence") then
    c ← gate_text gate "provider_commit";
    Ok ("PROVIDER_LIVE_EVIDENCE_PENDING",
        "provider command is integrated but exact-release live evidence is pending for " +:+ c)
  else Ok ("PROVIDER_SEAM_UNPUBLISHED", "provider has not published a consumer-ready command").

Section Gate.
Context (sha release_id : string).

Definition newline : string := String (ascii_of_N 10) "".

Definition log_text (displayed : string) (duration_ms : Z) (stdout stderr : string) : string :=
  Str.join newline ["COMMAND"; displayed; "DURATION_MS"; Str.of_Z duration_ms;
                    "STDOUT"; stdout; "STDERR"; stderr; ""].

(** The result document of a provider: its reference and its status. *)
Definition provider_document (gate schema : val) (gate_output : path) : IO (string * option string) :=
  document ← load_json gate_output;
  gid ← lift (gate_text gate "id");
  (if is_dict document then mret tt
   else throw ValueError (gid +:+ " result must be a JSON object")) ;;
  schema ← lift (expect_str schema);
  sp ← safe_repo_path schema;
  es ← validate_document sp document gid;
  g ← lift (dget document "git_sha"); gin ← lift (in_set g [VNone; VStr sha]);
  r ← lift (dget document "release_id"); rin ← lift (in_set r [VNone; VStr release_id]);
  let schema_errors := es
    ++ (if negb gin then [gid +:+ ".git_sha does not match " +:+ sha] else [])
    ++ (if negb rin then [gid +:+ ".release_id does not match " +:+ release_id] else []) in
  (match schema_errors with
   | [] => mret tt
   | _ => throw ValueError (Str.join "; " schema_errors)
   end) ;;
  ref ← relative_ref gate_output;
  observed ← lift (dget document "status");
  mret (ref, match observed with VStr s => Some s | _ => None end).

(** The classified outcome, once the result document is known. *)
Definition add_outcome (gate : val) (code : Z) (ref : string) (status : option string) : C unit :=
  let '(st, c, m) := classify_provider_outcome code status in
  add_result gate st (Some ref) c
    (match m with Some t => if String.eqb t "" then m else Some (t +:+ "; see " +:+ ref) | None => None end).

(** The [try] around the result document: a defect is logged and ends the gate. *)
Definition read_result (gate schema : val) (gate_output log_path : path) (log_ref : string) :
    C (option (string * option string)) :=
  catch (d ← zoom_snd (provider_document gate schema gate_output); mret (Some d))
    (on_exn [OSError; JSONDecodeError; ValueError] (λ e,
       old ← zoom_snd (read_text log_path);
       text ← zoom_snd (redact (exn_str e));
       zoom_snd (write_file log_path
         (old +:+ newline +:+ "RESULT_VALIDATION" +:+ newline +:+ text +:+ newline)) ;;
       add_result gate "failed" (Some log_ref) (Some "PROVIDER_RESULT_INVALID") (Some (exn_str e)) ;;
       mret None)).

(** The command itself: run, logged, its result checked and classified. *)
Definition execute_gate (gate : val) (argv : list string) (displayed : string)
    (gate_output log_path : path) (started : Z) : C unit :=
  argv' ← zoom_snd (resolve_bash argv);
  t ← lift (getitem gate "timeout_seconds"); timeout ← lift (expect_int t);
  env ← zoom_snd (gets environ);
  '(code, o, e) ← zoom_snd (run_completed (Proc argv' (Some timeout) env (Some repo_root)));
  finished ← zoom_snd monotonic;
  let duration_ms := Flt.round_ratio (finished - started) 1000 in
  text ← zoom_snd (redact (log_text displayed duration_ms o e));
  zoom_snd (write_file log_path text) ;;
  log_ref ← zoom_snd (relative_ref log_path);
  schema ← lift (dget gate "result_schema");
  if truthy schema then
    r ← read_result gate schema gate_output log_path log_ref;
    match r with
    | Some (ref, status) => add_outcome gate code ref status
    | None => mret tt
    end
  else add_outcome gate code log_ref None.

(** The rest of a gate whose prerequisites hold. *)
Definition run_gate (gate mutation : val) (gate_output log_path : path) : C unit :=
  mwhen (py_eq mutation (VStr "isolated-restore"))
    (zoom_snd (setenv_default "LIQI_RESTORE_APPROVAL_REF" (default "" (approval_ref a)))) ;;
  env ← zoom_snd (gets environ);
  argv0 ← lift (getitem gate "argv"); l ← lift (py_iter argv0); parts ← lift (rmap expect_str l);
  match expand env parts gate_output with
  | Raise e =>
      if exn_in [ValueError] e
      then add_result gate "failed" None (Some "PROVIDER_REGISTRY_INVALID") (Some (exn_str e))
      else mraise e
  | Ok (argv, displayed) =>
      started ← zoom_snd monotonic;
      catch (execute_gate gate argv displayed gate_output log_path started)
        (on_exn [RuntimeError; TimeoutExpired; OSError] (λ e,
           text ← zoom_snd (redact (exn_str e));
           zoom_snd (write_file log_path (text +:+ newline)) ;;
           ref ← zoom_snd (relative_ref log_path);
           add_result gate "failed" (Some ref) (Some "PROVIDER_GATE_EXECUTION_FAILED") (Some (exn_str e))))
  end.

(** [[path for path in gate["required_paths"] if not safe_repo_path(path).exists()]] *)
Definition missing_paths (gate : val) : IO (list string) :=
  v ← lift (getitem gate "required_paths"); l ← lift (py_iter v); paths ← lift (rmap expect_str l);
  mfilter (λ p, q ← safe_repo_path p; b ← exists_ q; mret (negb b)) paths.

(** [[name for name in gate.get("required_environment", []) if not os.environ.get(name)]] *)
Definition missing_env (gate : val) : IO (list string) :=
  v ← lift (dget_or gate "required_environment" (VList [])); l ← lift (py_iter v);
  names ← lift (rmap expect_str l);
  mfilter (λ n, x ← getenv n; mret (negb (truthy_opt x))) names.

(** One turn of the loop over the registered gates. *)
Definition gate_one (evidence_dir : path) (gate : val) : C unit :=
  stages ← lift (getitem gate "stages"); here ← lift (py_contains (VStr (stage a)) stages);
  if negb here then mret tt
  else
    gid ← lift (gate_text gate "id");
    let gate_output := Path.div evidence_dir (gid +:+ ".json") in
    let log_path := Path.div evidence_dir (gid +:+ ".log") in
    state ← lift (getitem gate "provider_state");
    if py_ne state (VStr "available") then
      '(code, message) ← lift (unavailable gate state);
      add_result gate "blocked" None (Some code) (Some message)
    else
      missing ← zoom_snd (missing_paths gate);
      match missing with
      | _ :: _ =>
          add_result gate "failed" None (Some "PROVIDER_PUBLICATION_INCOMPLETE")
            (Some ("available provider gate is missing paths: " +:+ repr_strs missing))
      | [] =>
          menv ← zoom_snd (missing_env gate);
          match menv with
          | _ :: _ =>
              add_result gate "blocked" None (Some "PROVIDER_INPUT_MISSING")
                (Some ("required environment is missing: " +:+ repr_strs menv))
          | [] =>
              mutation ← lift (getitem gate "mutation_class");
              match blocked_reason mutation with
              | Some reason =>
                  add_result gate "blocked" None (Some "PROVIDER_EXECUTION_NOT_APPROVED") (Some reason)
              | None => run_gate gate mutation gate_output log_path
              end
          end
      end.
End Gate.

(** The checkpoint document, from what the loop collected. *)
Definition overall_of (s : st) : res string :=
  match provider_results s with
  | [] => Ok "blocked"
  | l => statuses ← rmap (λ r, getitem r "status") l; combine_status statuses
  end.

Definition final_blockers (s : st) : list val :=
  match provider_results s with
  | [] => blockers s ++ [blocker (VStr "Senior 5") (VStr "operations/readiness/provider-gates-v1.json")
            (VStr "CHECKPOINT_HAS_NO_GATES") (VStr "blocked")
            ("no provider gates are registered for " +:+ stage a)
            "Register at least one provider-owned command for this checkpoint."]
  | _ => blockers s
  end.

Definition checkpoint_document (s : st) (sha release_id observed overall : string) : val :=
  VDict [("schema_version", VStr "checkpoint-result-v1"); ("name", VStr (stage a)); ("git_sha", VStr sha);
         ("release_id", VStr release_id); ("observed_at", VStr observed); ("status", VStr overall);
         ("provider_results", VList (match provider_results s with
            | [] => [VDict [("owner", VStr "Senior 5"); ("seam", VStr "provider gate registry");
                            ("status", VStr "blocked"); ("evidence_ref", VNone)]]
            | l => l
            end));
         ("evidence_refs", VStrs (sort_strings (dedup_by String.eqb [] (evidence_refs s))));
         ("blockers", VList (final_blockers s))].

Definition publish (s : st) (sha release_id : string) : IO Z :=
  overall ← lift (overall_of s);
  observed ← utc_now;
  let result := checkpoint_document s sha release_id observed overall in
  schema_errors ← validate_document CHECKPOINT_SCHEMA result "checkpoint-result-v1";
  match schema_errors with
  | _ :: _ => mfor (λ m, print_err ("ERROR provider-gates-v1: " +:+ m)) schema_errors ;; mret 65
  | [] =>
      out ← resolve (a_output a);
      write_json out result ;;
      print ("V1 checkpoint " +:+ stage a +:+ ": " +:+ overall +:+ " -> " +:+ Path.to_str (a_output a)) ;;
      mret (if String.eqb overall "failed" then 1
            else if String.eqb overall "blocked" && negb (allow_blocked a) then 2
            else 0)
  end.

Definition run_gates (sha release_id : string) (evidence_dir : path) (gates : list val) : IO st :=
  with_locals st0 (mfor (gate_one sha release_id evidence_dir) gates ;; getl).

Definition main : IO Z :=
  sha ← git_sha;
  let release_id := if truthy_opt (a_release_id a) then default "" (a_release_id a)
                    else "liqi-v1-" +:+ stage a +:+ "-" +:+ Str.take 12 sha in
  rp ← resolve (registry a); reg ← load_json rp;
  ed ← resolve (a_evidence_dir a);
  let evidence_dir := Path.div ed (stage a +:+ "-" +:+ Str.take 12 sha) in
  mkdir_p evidence_dir ;;
  g ← lift (getitem reg "gates"); gates ← lift (py_iter g);
  s ← run_gates sha release_id evidence_dir gates;
  publish s sha release_id.
End Env.

Example expand_cases :
  expand [("TOKEN", "s3cr3t"); ("HOST", "h")]
    ["run"; "--o={output}"; "{env:TOKEN}@{env:HOST}"; "{optional-env-arg:--host:HOST}"; "{optional-env-arg:--port:PORT}"]
    (Path.of_str "/e/x.json")
  = Ok (["run"; "--o=/e/x.json"; "s3cr3t@h"; "--host"; "h"], "run --o=x.json <env:TOKEN>@<env:HOST> --host <env:HOST>").
Proof. vm_compute. reflexivity. Qed.

(** ** Properties *)

(** The classification of a provider's outcome: [passed], without a blocker,
    exactly when the command exits 0 and its document says neither [blocked] nor
    [failed]; [blocked] exactly when the document says so, whatever the exit status;
    every other outcome is [failed], and a status other than [passed] names a code. *)
Theorem classify_provider_outcome_spec returncode status :
  let '(st, code, message) := classify_provider_outcome returncode status in
  (st = "passed" <-> returncode = 0 /\ status <> Some "blocked" /\ status <> Some "failed") /\
  (st = "blocked" <-> status = Some "blocked") /\
  (st = "passed" \/ st = "blocked" \/ st = "failed") /\
  (st = "passed" <-> code = None) /\ (code = None <-> message = None).
Proof.
  unfold classify_provider_outcome. repeat case_bool_decide; subst; simpl;
    destruct (Z.eqb_spec returncode 0); simpl; intuition congruence.
Qed.

(** *** The display of a command *)

Lemma expand_part_display env env' output part :
  (forall name, env_value env name = "" <-> env_value env' name = "") ->
  snd <$> expand_part env output part = snd <$> expand_part env' output part.
Proof.
  intros Hsame. unfold expand_part. case_match; [|done]. case_match; [|done]. destruct p as [flag name].
  simpl. specialize (Hsame name).
  destruct (String.eqb_spec (env_value env name) ""), (String.eqb_spec (env_value env' name) "");
    try done; tauto.
Qed.

Lemma rmap_snd {A B D} (f g : A -> res (B * D)) l :
  (forall x, snd <$> f x = snd <$> g x) ->
  (λ r : list (B * D), r.*2) <$> rmap f l = (λ r : list (B * D), r.*2) <$> rmap g l.
Proof.
  intros Hfg. induction l as [|x r IH]; [done|]. simpl. specialize (Hfg x).
  destruct (f x) as [[b d]|e], (g x) as [[b' d']|e']; simplify_eq/=; try done.
  destruct (rmap f r) as [ys|e], (rmap g r) as [ys'|e']; simplify_eq/=; congruence.
Qed.

(** The command line the runner records does not reveal the values of environment
    variables: two environments that leave the same variables empty give the same
    display, so it depends on no value. *)
Theorem expand_display_hides_values env env' parts output :
  (forall name, env_value env name = "" <-> env_value env' name = "") ->
  snd <$> expand env parts output = snd <$> expand env' parts output.
Proof.
  intros Hsame. pose proof (rmap_snd _ _ parts (λ p, expand_part_display env env' output p Hsame)) as Hl.
  unfold expand. destruct (rmap (expand_part env output) parts) as [l|e],
    (rmap (expand_part env' output) parts) as [l'|e']; simplify_eq/=; congruence.
Qed.

Lemma expand_display_hides_values_witness :
  snd <$> expand [("K", "one")] ["{env:K}"; "{optional-env-arg:--k1:K1}"] (Path.of_str "/o") =
  snd <$> expand [("K", "two")] ["{env:K}"; "{optional-env-arg:--k1:K1}"] (Path.of_str "/o").
Proof.
  apply expand_display_hides_values. intros name. unfold env_value. simpl.
  destruct (String.eqb_spec name "K"); by split.
Defined.

(** *** What the runner starts *)

Section Started.
Context `{Platform} (a : args).

(** What the approvals of the command line allow. *)
Record approved (m : val) : Prop := {
  no_live_mutation : m <> VStr "approved-live-mutation";
  build_allowed : m = VStr "build" -> allow_build a = true;
  database_allowed : m = VStr "disposable-database" -> allow_disposable_database a = true;
  live_read_allowed : m = VStr "live-read-only" -> allow_live_read_only a = true;
  restore_allowed : m = VStr "isolated-restore" -> allow_isolated_restore a = true /\
                      exists r, approval_ref a = Some r /\ r <> ""
}.

Lemma blocked_reason_approved m : blocked_reason a m = None <-> approved m.
Proof.
  unfold blocked_reason, truthy_opt.
  assert (forall s, py_eq m (VStr s) = true <-> m = VStr s) as He by (intros; apply py_eq_str_r).
  split.
  - intros Hb. split; [intros ->; discriminate Hb|intros ->; simpl in Hb..].
    + by destruct (allow_build a).
    + by destruct (allow_disposable_database a).
    + by destruct (allow_live_read_only a).
    + destruct (allow_isolated_restore a); [|done]. split; [done|]. simpl in Hb.
      destruct (approval_ref a) as [r|]; [|done]. exists r. split; [done|].
      by destruct (String.eqb_spec r "").
  - intros [H1 H2 H3 H4 H5].
    destruct (py_eq m (VStr "approved-live-mutation")) eqn:E1; [by apply He in E1|].
    destruct (py_eq m (VStr "build")) eqn:E2; [apply He in E2; rewrite (H2 E2); by subst|].
    destruct (py_eq m (VStr "disposable-database")) eqn:E3; [apply He in E3; rewrite (H3 E3); by subst|].
    destruct (py_eq m (VStr "live-read-only")) eqn:E4; [apply He in E4; rewrite (H4 E4); by subst|].
    destruct (py_eq m (VStr "isolated-restore")) eqn:E5; [|done]. apply He in E5.
    destruct (H5 E5) as (-> & r & -> & Hr). simpl. by destruct (String.eqb_spec r "").
Qed.

(** A gate the runner may start: of the stage, published, and approved. *)
Definition may_start (gate : val) : Prop :=
  (exists stages, getitem gate "stages" = Ok stages /\ py_contains (VStr (stage a)) stages = Ok true) /\
  getitem gate "provider_state" = Ok (VStr "available") /\
  exists m, getitem gate "mutation_class" = Ok m /\ approved m.

(** A command of a gate: started in the repository, with the gate's timeout. *)
Definition command_of (gate : val) (p : proc) : Prop :=
  proc_cwd p = Some repo_root /\ exists t z, getitem gate "timeout_seconds" = Ok t /\
    expect_int t = Ok z /\ timeout_s p = Some z.

(** The argument list a process is started with: on Windows a [bash] is the one that was found. *)
Definition resolved_bash (argv real : list string) : Prop :=
  real = argv \/ (os_name = "nt" /\ exists rest c, argv = "bash" :: rest /\ real = Path.to_str c :: rest /\ Path.name c = "bash.exe").
(** The arguments of a gate's command: the parts that the registry gives, expanded in the environment of the process *)
Definition arguments_of (dir : path) (gate : val) (p : proc) : Prop :=
  exists gid l parts expanded displayed, gate_text gate "id" = Ok gid /\ getitem gate "argv" ≫= py_iter = Ok l /\ rmap expect_str l = Ok parts /\
    expand (proc_env p) parts (Path.div dir (gid +:+ ".json")) = Ok (expanded, displayed) /\ resolved_bash expanded (argv p).

(** The environment with the reference of the approval, unless it has one *)
Definition with_approval (env : list (string * string)) : list (string * string) :=
  if Dict.mem "LIQI_RESTORE_APPROVAL_REF" env then env else Dict.set "LIQI_RESTORE_APPROVAL_REF" (default "" (approval_ref a)) env.
Definition environments (env : list (string * string)) : list (list (string * string)) := [env; with_approval env].
(** The environment of a process: the runner's, with the reference for an isolated restore *)
Definition environment_of (env : list (string * string)) (gate : val) (p : proc) : Prop :=
  proc_env p ∈ environments env /\ (getitem gate "mutation_class" = Ok (VStr "isolated-restore") -> proc_env p = with_approval env).
Lemma with_approval_again env : with_approval (with_approval env) = with_approval env.
Proof.
  unfold with_approval. destruct (Dict.mem _ env) eqn:E; [by rewrite E|]. unfold Dict.mem. by rewrite Dict.lookup_set.
Qed.
Lemma environments_approved env e : e ∈ environments env -> with_approval e = with_approval env.
Proof. unfold environments. rewrite !elem_of_cons. intros [->|[->|[]%not_elem_of_nil]]; [done|apply with_approval_again]. Qed.

(** From an environment, just good processes are started, in that environment, and it is kept. *)
Definition runs (ok : proc -> Prop) (w w' : world) : Prop :=
  environ w' = environ w /\ exists new, log w' = new ++ log w /\ Forall (λ p, ok p /\ proc_env p = environ w) new.
#[export] Instance runs_preorder ok : PreOrder (runs ok).
Proof.
  split; [intros w; split; [done|]; by exists []|]. intros x y z (E1 & l1 & L1 & F1) (E2 & l2 & L2 & F2). split; [congruence|].
  exists (l2 ++ l1). split; [by rewrite L2, L1, app_assoc|]. apply Forall_app. rewrite E1 in F2. by split.
Qed.
Definition quiet (w w' : world) : Prop := log w' = log w /\ environ w' = environ w.
#[export] Instance quiet_preorder : PreOrder quiet.
Proof. split; [by intros w|]. intros x y z [] []. split; congruence. Qed.
(** The same for a run that may set the approval's reference *)
Definition gate_runs (env : list (string * string)) (ok : proc -> Prop) (w w' : world) : Prop :=
  environ w ∈ environments env -> environ w' ∈ environments env /\
  exists new, log w' = new ++ log w /\ Forall ok new.
#[export] Instance gate_runs_preorder env ok : PreOrder (gate_runs env ok).
Proof.
  split; [intros w Hw; split; [done|]; by exists []|]. intros x y z H1 H2 Hx. destruct (H1 Hx) as (Hy & l1 & L1 & F1).
  destruct (H2 Hy) as (Hz & l2 & L2 & F2). split; [done|]. exists (l2 ++ l1). split; [by rewrite L2, L1, app_assoc|]. by apply Forall_app.
Qed.
End Started.

Lemma ro_redact t : Pres eq (redact t).
Proof. apply ro_gets. Qed.
#[export] Hint Resolve ro_redact : pres.

Section Safety.
Context `{Platform} (a : args) (sha release_id : string).

Lemma sl_add_result gate status ref code message :
  Pres (on_snd same_log) (add_result gate status ref code message).
Proof. unfold add_result. solve_pres. Qed.
Lemma ro_resolve_bash argv : Pres eq (resolve_bash argv).
Proof.
  unfold resolve_bash. solve_pres.
  match goal with |- Pres _ (?f ?l) => induction l; solve_pres end.
Qed.
Lemma ro_missing_paths gate : Pres eq (missing_paths gate).
Proof. unfold missing_paths. solve_pres. Qed.
Lemma ro_missing_env gate : Pres eq (missing_env gate).
Proof. unfold missing_env. solve_pres. Qed.
Lemma ro_provider_document gate schema p : Pres eq (provider_document sha release_id gate schema p).
Proof. unfold provider_document, load_json. solve_pres. Qed.
#[local] Hint Resolve sl_add_result ro_resolve_bash ro_missing_paths ro_missing_env
  ro_provider_document : pres.

(** *** Statements that start nothing and keep the environment *)

Lemma quiet_ro {A} (m : IO A) : Pres eq m -> Pres quiet m.
Proof. apply pres_of_eq, _. Qed.
Lemma quiet_write p t : Pres quiet (write_file p t).
Proof. intros w. unfold write_file. by repeat case_match. Qed.
Lemma quiet_monotonic : Pres quiet monotonic.
Proof. by intros w. Qed.
Lemma quiet_add_result gate status ref code message : Pres (on_snd quiet) (add_result gate status ref code message).
Proof.
  assert (forall f : st -> st, Pres (on_snd quiet) (modl f)) as Hm by (intros f s; unfold on_snd; simpl; reflexivity).
  unfold add_result. solve_pres.
Qed.
#[local] Hint Extern 4 (Pres quiet _) => apply quiet_ro : pres.
#[local] Hint Resolve quiet_write quiet_monotonic quiet_add_result : pres.
Lemma quiet_outcome gate code ref status : Pres (on_snd quiet) (add_outcome gate code ref status).
Proof. unfold add_outcome. solve_pres. Qed.
Lemma quiet_read_result gate schema out log_path ref : Pres (on_snd quiet) (read_result sha release_id gate schema out log_path ref).
Proof. unfold read_result. solve_pres. Qed.
#[local] Hint Resolve quiet_outcome quiet_read_result : pres.

Lemma runs_quiet_snd {A} ok (m : C A) : Pres (on_snd quiet) m -> Pres (on_snd (runs ok)) m.
Proof. intros Hm s. destruct (Hm s) as [L E]. split; [done|]. by exists []. Qed.
Lemma gate_quiet_snd {A} env ok (m : C A) : Pres (on_snd quiet) m -> Pres (on_snd (gate_runs a env ok)) m.
Proof. intros Hm s Hs. destruct (Hm s) as [L E]. rewrite E. split; [done|]. by exists []. Qed.
(** The rule of a sequence, at one state *)
Lemma at_bind {A B} (R : st * world -> st * world -> Prop) `{!PreOrder R} (m : C A) (f : A -> C B) s :
  R s (m s).2 -> (forall x s1, m s = (Ok x, s1) -> R s1 (f x s1).2) -> R s ((m ≫= f) s).2.
Proof.
  intros Hm Hf. unfold mbind, M_bind. destruct (m s) as [[x|e] s1] eqn:E; [|exact Hm]. etransitivity; [exact Hm|]. by apply Hf.
Qed.
Lemma at_ro {A B} (R : st * world -> st * world -> Prop) `{!PreOrder R} (m : IO A) (f : A -> C B) s : Pres eq m ->
  (forall x, m s.2 = (Ok x, s.2) -> R s (f x s).2) -> R s ((zoom_snd m ≫= f) s).2.
Proof.
  intros Hm Hf. apply at_bind; [apply _|..].
  - pose proof (Hm s.2) as E. unfold zoom_snd. destruct (m s.2) as [r w]. simpl in *. subst w. destruct s. reflexivity.
  - intros x s1 [E F]%zoom_Ok. pose proof (pres_eq_run _ _ _ _ Hm E) as W. rewrite W in E. assert (s1 = s) as -> by (by destruct s1, s; simpl in *; subst).
    by apply Hf.
Qed.
Lemma at_lift {A B} (R : st * world -> st * world -> Prop) `{!PreOrder R} (m : res A) (f : A -> C B) s :
  (forall x, m = Ok x -> R s (f x s).2) -> R s ((lift m ≫= f) s).2.
Proof. intros Hf. apply at_bind; [apply _|unfold lift; simpl; reflexivity|]. intros x s1 [E ->]%lift_Ok. by apply Hf. Qed.

(** *** The command of a gate *)

Lemma resolve_bash_Ok argv w real w' : resolve_bash argv w = (Ok real, w') -> resolved_bash argv real.
Proof.
  intros E. pose proof (pres_eq_run _ _ _ _ (ro_resolve_bash argv) E) as ->. unfold resolve_bash in E.
  destruct argv as [|c rest]; [apply ret_Ok in E as [<- _]; by left|].
  destruct (String.eqb_spec c "bash") as [->|Hc].
  2: { left. revert E Hc. repeat (match goal with |- context [match ?x with _ => _ end] => destruct x; try (by intros [<- _]%ret_Ok); try (by intros _ []) end). }
  destruct (String.eqb_spec os_name "nt") as [Hn|]; cbn [negb] in E; [|apply ret_Ok in E as [<- _]; by left].
  apply M_bind_Ok in E as (git & w1 & Eg & E). apply M_bind_Ok in E as (pf & w2 & _ & E). cbv zeta in E. right. split; [done|].
  assert (Forall (λ c, Path.name c = "bash.exe") git) as Hg.
  { destruct (which "git") as [g|]; [|apply ret_Ok in Eg as [<- _]; constructor]. destruct (String.eqb g ""); [apply ret_Ok in Eg as [<- _]; constructor|].
    apply M_bind_Ok in Eg as (p & w3 & _ & Eg). apply ret_Ok in Eg as [<- _]. destruct (Nat.leb 3 _); constructor; [|constructor].
    unfold Path.name, Path.div. cbn. by rewrite (app_assoc _ ["usr"; "bin"] ["bash.exe"]), List.last_last. }
  match type of E with (_ ?l) w2 = _ => assert (Forall (λ c, Path.name c = "bash.exe") l) as Hl end.
  { apply Forall_app. split; [done|]. destruct pf as [d|]; [|constructor]. destruct (String.eqb d ""); constructor; [|constructor].
    unfold Path.name, Path.div. cbn. by rewrite (app_assoc _ ["Git"; "usr"; "bin"] ["bash.exe"]), List.last_last. }
  revert w2 E Hl. match goal with |- forall w2, (_ ?l) w2 = _ -> _ => generalize l end.
  induction l as [|c l IH]; intros w2 E Hl; [done|]. apply Forall_cons in Hl as [Hc Hl]. apply M_bind_Ok in E as (b & w3 & _ & E).
  destruct b; [apply ret_Ok in E as [<- _]; by exists rest, c|by eapply IH].
Qed.

(** What may be started for a gate *)
Definition starts_gate (dir : path) (env : list (string * string)) (gate : val) (p : proc) : Prop :=
  may_start a gate /\ command_of gate p /\ arguments_of dir gate p /\ environment_of a env gate p.

Lemma execute_gate_runs gate expanded displayed out log_path started s (ok : proc -> Prop) :
  (forall real t z, resolved_bash expanded real -> getitem gate "timeout_seconds" = Ok t -> expect_int t = Ok z ->
     ok (Proc real (Some z) (environ s.2) (Some repo_root))) ->
  on_snd (runs ok) s (execute_gate sha release_id gate expanded displayed out log_path started s).2.
Proof.
  intros Hok. unfold execute_gate. apply at_ro; [apply _|apply ro_resolve_bash|]. intros real Hr. apply at_lift; [apply _|]. intros t Ht.
  apply at_lift; [apply _|]. intros z Hz. apply at_ro; [apply _|solve_pres|]. intros env [= <-].
  apply at_bind; [apply _| |].
  - set (p := Proc real (Some z) (environ s.2) (Some repo_root)).
    assert (runs ok s.2 (run_completed p s.2).2) as Hp.
    { assert (log (run_completed p s.2).2 = p :: log s.2 /\ environ (run_completed p s.2).2 = environ s.2) as [L E].
      { unfold run_completed, mbind, M_bind, subprocess_run. destruct (exec _ _ _) as [[[] f] dt]; done. }
      split; [done|]. exists [p]. split; [done|]. constructor; [|done]. split; [|done]. by eapply Hok; [eapply resolve_bash_Ok|..]. }
    unfold on_snd, zoom_snd. by destruct (run_completed p s.2) as [r w'].
  - intros [[code o] e] s1 _. apply (runs_quiet_snd ok). solve_pres.
Qed.

Lemma environ_setenv k v w : environ (setenv_default k v w).2 = if Dict.mem k (environ w) then environ w else Dict.set k v (environ w).
Proof. unfold setenv_default, modify. simpl. by destruct (Dict.mem k (environ w)). Qed.
Lemma run_gate_runs dir env gate gid mutation log_path s : may_start a gate -> getitem gate "mutation_class" = Ok mutation ->
  gate_text gate "id" = Ok gid ->
  on_snd (gate_runs a env (starts_gate dir env gate)) s (run_gate a sha release_id gate mutation (Path.div dir (gid +:+ ".json")) log_path s).2.
Proof.
  intros Hm Hmu Hg Hs. unfold run_gate.
  match goal with |- context [(mwhen _ _ ≫= ?f) s] => set (rest := f) end.
  assert (forall s1, log s1.2 = log s.2 -> environ s1.2 ∈ environments a env ->
    (mutation = VStr "isolated-restore" -> environ s1.2 = with_approval a env) ->
    environ (rest tt s1).2.2 ∈ environments a env /\
    exists new, log (rest tt s1).2.2 = new ++ log s.2 /\ Forall (starts_gate dir env gate) new) as Hrest.
  { intros s1 L1 E1 A1. rewrite <-L1.
    enough (on_snd (runs (starts_gate dir env gate)) s1 (rest tt s1).2) as (E & new & L & F).
    { rewrite E. split; [done|]. exists new. split; [done|]. eapply Forall_impl; [exact F|]. by intros p [? _]. }
    unfold rest. apply at_ro; [apply _|solve_pres|]. intros e [= <-]. apply at_lift; [apply _|]. intros v Hv.
    apply at_lift; [apply _|]. intros l Hl. apply at_lift; [apply _|]. intros parts Hp.
    destruct (expand (environ s1.2) parts _) as [[expanded displayed]|x] eqn:Ex.
    2: { destruct (exn_in _ _); [apply (runs_quiet_snd _ _ (quiet_add_result _ _ _ _ _) s1)|]. split; [done|]. by exists []. }
    apply at_bind; [apply _|apply (runs_quiet_snd (starts_gate dir env gate)); solve_pres|]. intros started s2 E2.
    assert (environ s2.2 = environ s1.2) as W2.
    { assert (Pres (on_snd (L:=st) quiet) (zoom_snd monotonic)) as Q by solve_pres. exact (proj2 (pres_run _ _ _ _ _ Q E2)). }
    assert (on_snd (runs (starts_gate dir env gate)) s2
      (execute_gate sha release_id gate expanded displayed (Path.div dir (gid +:+ ".json")) log_path started s2).2) as Hx.
    { apply execute_gate_runs. intros real t z R T Z. split; [done|]. split; [split; [done|]; by exists t, z|]. split.
      - exists gid, l, parts, expanded, displayed. split; [done|]. split; [by rewrite Hv|]. split; [done|]. split; [by simpl; rewrite W2|done].
      - split; [simpl; by rewrite W2|]. simpl. rewrite W2, Hmu. by intros [= ->]; apply A1. }
    unfold catch. destruct (execute_gate _ _ _ _ _ _ _ _ s2) as [[x|x] s3]; [exact Hx|]. simpl in Hx.
    destruct (on_exn _ _ x) as [k|] eqn:Ek; [|exact Hx]. etransitivity; [exact Hx|]. unfold on_exn in Ek. destruct (exn_in _ x); [|done].
    injection Ek as <-. apply (runs_quiet_snd (starts_gate dir env gate)). solve_pres. }
  match goal with |- context [(?m ≫= rest) s] => set (r0 := (m ≫= rest) s) end.
  destruct (py_eq mutation (VStr "isolated-restore")) eqn:Em.
  - apply py_eq_str_r in Em as ->. pose proof (environ_setenv "LIQI_RESTORE_APPROVAL_REF" (default "" (approval_ref a)) s.2) as Es.
    assert (log (setenv_default "LIQI_RESTORE_APPROVAL_REF" (default "" (approval_ref a)) s.2).2 = log s.2) as Ls by apply (sl_setenv _ _ s.2).
    destruct (setenv_default _ _ s.2) as [[[]|x] w1] eqn:E1; [|done]. simpl in Es, Ls.
    assert (r0 = rest tt (s.1, w1)) as -> by (unfold r0, mbind at 1, M_bind at 1, mwhen, zoom_snd; by rewrite E1).
    assert (environ w1 = with_approval a env) as Ew by (rewrite Es; exact (environments_approved a env _ Hs)).
    apply (Hrest (s.1, w1)); [done|simpl; rewrite Ew; right; left|done].
  - assert (r0 = rest tt s) as -> by done. apply (Hrest s); [done|done|]. intros ->. discriminate Em.
Qed.

Lemma gate_one_runs dir env gate : Pres (on_snd (gate_runs a env (starts_gate dir env gate))) (gate_one a sha release_id dir gate).
Proof.
  assert (forall status ref code message,
    Pres (on_snd (gate_runs a env (starts_gate dir env gate))) (add_result gate status ref code message)) as Hadd
    by (intros; by apply gate_quiet_snd, quiet_add_result).
  unfold gate_one.
  apply pres_lift_bind; [apply _|intros stages Hs]. apply pres_lift_bind; [apply _|intros here Hh].
  destruct here; simpl; [|solve_pres]. apply pres_lift_bind; [apply _|intros gid Hgid].
  apply pres_lift_bind; [apply _|intros state Hstate]. destruct (py_ne state _) eqn:Hne.
  { apply pres_lift_bind; [apply _|intros [code message] _]. apply Hadd. }
  apply negb_false_iff, py_eq_str_r in Hne as ->.
  apply pres_bind; [apply _|apply (gate_quiet_snd env); solve_pres|intros missing]. destruct missing; [|apply Hadd].
  apply pres_bind; [apply _|apply (gate_quiet_snd env); solve_pres|intros menv]. destruct menv; [|apply Hadd].
  apply pres_lift_bind; [apply _|intros m Hm]. destruct (blocked_reason a m) eqn:Hb; [apply Hadd|].
  intros s. apply run_gate_runs; [|done|done]. split; [by exists stages|]. split; [done|]. exists m. split; [done|].
  by apply blocked_reason_approved.
Qed.

(** C5: The runner starts no process but the commands of approved gates. Whatever the
    registry says and however the run ends, each process started belongs to a gate of
    the stage that is available and whose mutation class the command line approves; its arguments are
    the ones of that gate in the registry, expanded in the environment the process gets, which is the runner's own, with
    the reference of the approval for an isolated restore;
    it runs in the repository with the gate's timeout. An approved-live-mutation gate
    is never started. *)
Theorem run_gates_starts_approved dir gates w :
  exists new, log (run_gates a sha release_id dir gates w).2 = new ++ log w /\
    Forall (λ p, exists gate, gate ∈ gates /\ may_start a gate /\ command_of gate p /\ arguments_of dir gate p /\
      environment_of a (environ w) gate p) new.
Proof.
  set (ok p := exists gate, gate ∈ gates /\ starts_gate dir (environ w) gate p).
  enough (forall l, (forall g, g ∈ l -> g ∈ gates) ->
    Pres (on_snd (gate_runs a (environ w) ok)) (mfor (gate_one a sha release_id dir) l)) as Hfor.
  { unfold run_gates. assert (Pres (gate_runs a (environ w) ok) (with_locals st0 (mfor (gate_one a sha release_id dir) gates ;; getl))) as P.
    { apply (pres_with_locals (gate_runs a (environ w) ok)). apply pres_bind; [apply _|by apply Hfor|solve_pres]. }
    destruct (P w) as (_ & new & L & F); [by left|]. exists new. split; [done|]. eapply Forall_impl; [exact F|]. by intros p (g & Hg & ? & ? & ? & ?); exists g. }
  induction l as [|g l IH]; intros Hl; simpl; [solve_pres|].
  apply pres_bind; [apply _| |intros _; apply IH; set_solver].
  intros s Hs. destruct (gate_one_runs dir (environ w) g s Hs) as (E & new & L & F). split; [done|]. exists new. split; [done|].
  eapply Forall_impl; [exact F|]. intros p Hp. exists g. split; [apply Hl; by left|done].
Qed.
End Safety.

(** *** Every gate of the stage is accounted for *)

Definition same_results (s s' : st * world) : Prop := provider_results s'.1 = provider_results s.1.
#[export] Instance same_results_preorder : PreOrder same_results.
Proof. split; [done|]. intros x y z. unfold same_results. congruence. Qed.

Definition result_of (gate r : val) : Prop :=
  getitem r "owner" = getitem gate "owner" /\ getitem r "seam" = getitem gate "seam".
Definition one_more (gate : val) (s s' : st * world) : Prop :=
  exists r, provider_results s'.1 = provider_results s.1 ++ [r] /\ result_of gate r.

(** The exceptions the loop turns into a result of their own. *)
Definition caught (e : exn) : bool := exn_in [RuntimeError; TimeoutExpired; OSError] e.

(** A statement that ends normally adds one result when [added] says so, and none
    otherwise; ended by an exception the loop catches, it has added none. *)
Definition Adds {A} (gate : val) (added : A -> bool) (m : C A) : Prop :=
  forall s, match m s with
            | (Ok x, s') => if added x then one_more gate s s' else same_results s s'
            | (Raise e, s') => caught e = true -> same_results s s'
            end.
Definition never {A} : A -> bool := λ _, false.
Definition always {A} : A -> bool := λ _, true.

Lemma adds_keep {A} gate (m : C A) : Pres same_results m -> Adds gate never m.
Proof. intros Hm s. specialize (Hm s). by destruct (m s) as [[x|e] s']. Qed.

Lemma adds_bind {A B} gate (m : C A) (f : A -> C B) added :
  Adds gate never m -> (forall x, Adds gate added (f x)) -> Adds gate added (m ≫= f).
Proof.
  intros Hm Hf s. specialize (Hm s). unfold mbind, M_bind. destruct (m s) as [[x|e] s1]; simpl in Hm; [|done].
  specialize (Hf x s1). unfold same_results in *. destruct (f x s1) as [[y|e] s2].
  - destruct (added y); [|congruence]. destruct Hf as (r & E & Hr). exists r. split; [congruence|done].
  - intros He. specialize (Hf He). congruence.
Qed.

Lemma adds_catch {A} gate (m : C A) ks k added : Adds gate added m ->
  (forall e, exn_in ks e = true -> caught e = false -> Pres same_results m) ->
  (forall e, Adds gate added (k e)) -> Adds gate added (catch m (on_exn ks k)).
Proof.
  intros Hm Hs Hk s. pose proof (Hm s) as Hms. unfold catch, on_exn.
  destruct (m s) as [[x|e] s1] eqn:E; [done|]. destruct (exn_in ks e) eqn:He; [|done].
  assert (same_results s s1) as Hs1.
  { destruct (caught e) eqn:Hc; [by apply Hms|]. eapply (pres_run same_results); [by eapply Hs|exact E]. }
  specialize (Hk e s1). unfold same_results in *. destruct (k e s1) as [[y|e'] s2].
  - destruct (added y); [|congruence]. destruct Hk as (r & E' & Hr). exists r. split; [congruence|done].
  - intros Hc. specialize (Hk Hc). congruence.
Qed.

(** A statement that has added its result already is followed by none. *)
Lemma adds_bind_or {A B} gate (m : C A) (f : A -> C B) added :
  Adds gate added m -> (forall x, added x = true -> exists y, f x = mret y) ->
  (forall x, added x = false -> Adds gate always (f x)) -> Adds gate always (m ≫= f).
Proof.
  intros Hm Ht Hf s. specialize (Hm s). unfold mbind, M_bind. destruct (m s) as [[x|e] s1]; [|done].
  destruct (added x) eqn:Hx.
  - destruct (Ht x Hx) as [y ->]. done.
  - specialize (Hf x Hx s1). unfold same_results in *. destruct (f x s1) as [[y|e] s2].
    + destruct Hf as (r & E & Hr). exists r. split; [congruence|done].
    + intros He. specialize (Hf He). congruence.
Qed.

Lemma getitem_not_caught v k e : getitem v k = Raise e -> caught e = false.
Proof. unfold getitem, raise. destruct v; try (by intros [= <-]). destruct (Dict.lookup _ _); by intros [= <-]. Qed.

Lemma adds_add_result gate status ref code message : Adds gate always (add_result gate status ref code message).
Proof.
  intros s. unfold add_result, mbind, M_bind, lift, modl.
  destruct (getitem gate "owner") as [owner|e] eqn:Ho; [|by apply getitem_not_caught in Ho as ->].
  destruct (getitem gate "seam") as [seam|e] eqn:Hs; [|by apply getitem_not_caught in Hs as ->].
  assert (result_of gate (VDict [("owner", owner); ("seam", seam); ("status", VStr status);
                                 ("evidence_ref", opt_val VStr ref)])) as Hr by (by split).
  destruct code as [c|], message as [t|]; try by (eexists; split; [done|exact Hr]).
  unfold mwhen. destruct (truthy_opt (Some c) && truthy_opt (Some t)); [|by (eexists; split; [done|exact Hr])].
  destruct (getitem gate "action_required") as [x|e] eqn:Hx; [|by apply getitem_not_caught in Hx as ->].
  unfold expect_str, raise. destruct x; try done; by (eexists; split; [done|exact Hr]).
Qed.

Lemma sr_zoom {A} (m : IO A) : Pres same_results (zoom_snd m).
Proof. intros [l w]. unfold zoom_snd, same_results. simpl. by destruct (m w). Qed.
#[export] Hint Resolve sr_zoom : pres.

Ltac adds_step :=
  match goal with
  | |- forall _, _ => intros ?
  | |- Adds _ _ (add_result _ _ _ _ _) => apply adds_add_result
  | |- Adds _ _ (mbind _ (lift _)) => apply adds_bind; [apply adds_keep; solve_pres|intros ?]
  | |- Adds _ _ (mbind _ (zoom_snd _)) => apply adds_bind; [apply adds_keep; solve_pres|intros ?]
  | |- Adds _ _ (match ?x with _ => _ end) => destruct x
  end.

Section Accounting.
Context `{Platform} (a : args) (sha release_id : string).

Lemma adds_outcome gate code ref status : Adds gate always (add_outcome gate code ref status).
Proof. unfold add_outcome. repeat adds_step. Qed.

Definition no_document {A} (r : option A) : bool := match r with None => true | Some _ => false end.

Lemma adds_ret {A} gate (x : A) added : added x = false -> Adds gate added (mret x).
Proof. intros Hx s. simpl. by rewrite Hx. Qed.

Lemma adds_then_ret {A B} gate (m : C A) (y : B) added :
  Adds gate always m -> added y = true -> Adds gate added (m ≫= λ _, mret y).
Proof.
  intros Hm Hy s. specialize (Hm s). unfold mbind, M_bind. destruct (m s) as [[x|e] s1]; [|done].
  simpl. by rewrite Hy.
Qed.

Lemma adds_read_result gate schema out log ref :
  Adds gate no_document (read_result sha release_id gate schema out log ref).
Proof.
  unfold read_result. apply adds_catch.
  - adds_step. by apply adds_ret.
  - intros. solve_pres.
  - intros e. do 3 adds_step. apply adds_then_ret; [apply adds_add_result|done].
Qed.

Lemma adds_execute gate argv displayed out log started :
  Adds gate always (execute_gate sha release_id gate argv displayed out log started).
Proof.
  unfold execute_gate. repeat (adds_step || apply adds_outcome).
  apply (adds_bind_or _ _ _ no_document); [apply adds_read_result|..].
  - intros [[]|] H1; try done. by exists tt.
  - intros [[ref st]|] H1; [|done]. apply adds_outcome.
Qed.

Lemma adds_run_gate gate mutation out log :
  Adds gate always (run_gate a sha release_id gate mutation out log).
Proof.
  unfold run_gate. apply adds_bind; [apply adds_keep; solve_pres|intros _]. do 4 adds_step.
  destruct (expand _ _ _) as [[argv displayed]|e].
  - adds_step. apply adds_catch; [apply adds_execute| |].
    + intros e He Hc. unfold caught in Hc. congruence.
    + intros e. repeat (adds_step || apply adds_add_result).
  - destruct (exn_in [ValueError] e) eqn:He; [apply adds_add_result|].
    intros s. simpl. done.
Qed.

(** The gates of the stage. *)
Definition of_stage (gate : val) : res bool :=
  stages ← getitem gate "stages"; py_contains (VStr (stage a)) stages.

Lemma gate_one_results dir gate s u s' : gate_one a sha release_id dir gate s = (Ok u, s') ->
  (of_stage gate = Ok true /\ one_more gate s s') \/ (of_stage gate = Ok false /\ same_results s s').
Proof.
  unfold gate_one, of_stage. intros E. inv_run. rewrite E0. simpl. rewrite E1.
  destruct a1; simpl in E.
  - left. split; [done|]. revert E.
    match goal with |- ?m s = _ -> _ => enough (Adds gate always m) as Hadd end.
    { intros E. specialize (Hadd s). by rewrite E in Hadd. }
    repeat (adds_step || apply adds_add_result || apply adds_run_gate).
  - right. split; [done|]. by apply ret_Ok in E as [_ ->].
Qed.

(** The results are those of the gates of the stage, in their order. *)
Inductive accounts : list val -> list val -> Prop :=
  | acc_nil : accounts [] []
  | acc_skip g gs rs : of_stage g = Ok false -> accounts gs rs -> accounts (g :: gs) rs
  | acc_take g r gs rs : of_stage g = Ok true -> result_of g r -> accounts gs rs ->
                         accounts (g :: gs) (r :: rs).

Lemma gates_account dir gates s u s' : mfor (gate_one a sha release_id dir) gates s = (Ok u, s') ->
  exists rs, provider_results s'.1 = provider_results s.1 ++ rs /\ accounts gates rs.
Proof.
  revert s. induction gates as [|g gs IH]; intros s E; simpl in E.
  - apply ret_Ok in E as [_ ->]. exists []. split; [by rewrite app_nil_r|constructor].
  - apply M_bind_Ok in E as (u1 & s1 & E1 & E). destruct (IH _ E) as (rs & Hrs & Hacc).
    apply gate_one_results in E1 as [[Ho (r & Er & Hr)]|[Ho Hs]].
    + exists (r :: rs). split; [by rewrite Hrs, Er, <-app_assoc|by constructor].
    + exists rs. split; [by rewrite Hrs, Hs|by constructor].
Qed.

Lemma accounts_In gates rs g : accounts gates rs -> g ∈ gates -> of_stage g = Ok true ->
  exists r, r ∈ rs /\ result_of g r.
Proof.
  induction 1 as [|g' gs rs Ho Hacc IH|g' r gs rs Ho Hr Hacc IH]; [by intros ?%not_elem_of_nil|..];
    intros [->|Hin]%elem_of_cons Hg.
  - congruence.
  - by apply IH.
  - exists r. split; [by left|done].
  - destruct (IH Hin Hg) as (r' & ? & ?). exists r'. split; [by right|done].
Qed.

(** The run after the registry has been read. *)
Definition stage_run (dir : path) (gates : list val) : IO Z :=
  s ← run_gates a sha release_id dir gates; publish a s sha release_id.

Lemma publish_zero s w w' : allow_blocked a = false -> publish a s sha release_id w = (Ok 0, w') ->
  overall_of s = Ok "passed".
Proof.
  unfold publish. intros Hb E. apply M_bind_Ok in E as (o & w1 & Eo & E). apply lift_Ok in Eo as [Eo ->].
  apply M_bind_Ok in E as (t & w2 & _ & E). apply M_bind_Ok in E as (es & w3 & _ & E).
  destruct es as [|m ms]; inv_run; [|done]. rewrite Hb in E. rewrite Eo. f_equal.
  assert (o = "passed" \/ o = "blocked" \/ o = "failed") as [->|[->| ->]]; [|done..].
  unfold overall_of in Eo. destruct (provider_results s); [injection Eo as <-; auto|].
  inv_run. by eapply combine_cases.
Qed.

Lemma overall_of_passed s : overall_of s = Ok "passed" ->
  provider_results s <> [] /\
  Forall (λ r, getitem r "status" = Ok (VStr "passed")) (provider_results s).
Proof.
  unfold overall_of. destruct (provider_results s) as [|r rs]; [done|]. intros E. split; [done|].
  inv_run. apply combine_passed in E. apply rmap_Ok in E0. revert E.
  induction E0 as [|x y xs ys Hxy H1 IH]; [constructor|]. intros [-> Hys]%Forall_cons.
  constructor; [done|by apply IH].
Qed.

(** A stage whose runner exits 0 without [--allow-blocked] has passed: at least one
    gate belongs to the stage, and each gate of the stage has a result of its own
    (with its owner and its seam) whose status is [passed]. No gate is lost and none
    passes without having been run to its end. *)
Theorem stage_run_zero_means_passed dir gates w : allow_blocked a = false ->
  (stage_run dir gates w).1 = Ok 0 ->
  (exists gate, gate ∈ gates /\ of_stage gate = Ok true) /\
  exists results, accounts gates results /\
    Forall (λ r, getitem r "status" = Ok (VStr "passed")) results.
Proof.
  intros Hb Hz. destruct (stage_run dir gates w) as [r w'] eqn:E. simpl in Hz. subst r.
  unfold stage_run in E. apply M_bind_Ok in E as (s & w1 & Er & Ep).
  apply publish_zero in Ep; [|done]. apply overall_of_passed in Ep as [Hne Hp].
  unfold run_gates, with_locals in Er.
  match type of Er with (let (_, _) := ?x in _) = _ => destruct x as [r1 s'] eqn:E2 end. simplify_eq.
  apply M_bind_Ok in E2 as ([] & s1 & E2 & E3). apply getl_Ok in E3 as [-> ->].
  apply gates_account in E2 as (rs & Hrs & Hacc). simpl in Hrs. rewrite Hrs in Hne, Hp.
  split; [|by exists rs].
  clear -Hacc Hne. induction Hacc as [|g gs rs Ho Hacc IH|g r gs rs Ho Hr Hacc IH]; [done|..].
  - destruct (IH Hne) as (g' & ? & ?). exists g'. split; [by right|done].
  - exists g. split; [by left|done].
Qed.
End Accounting.

(** A stage with one gate of its own, which passes, and one gate of another stage. *)
Section Run.
Import Fixture.
#[local] Existing Instance quiet_host.

Definition a_gate (id st : string) : val :=
  VDict [("id", VStr id); ("owner", VStr "Senior 1"); ("seam", VStr "seam"); ("stages", VStrs [st]);
         ("provider_state", VStr "available"); ("mutation_class", VStr "read-only");
         ("required_paths", VList []); ("argv", VStrs ["true"]); ("timeout_seconds", VInt 60);
         ("action_required", VStr "fix")].
Definition source_args : args := {|
  registry := Path.of_str "/repo/r.json"; stage := "source"; a_release_id := None;
  a_output := Path.of_str "/out/source.json"; a_evidence_dir := Path.of_str "/e"; allow_blocked := false;
  allow_build := false; allow_disposable_database := false; allow_live_read_only := false;
  allow_isolated_restore := false; approval_ref := None |}.
Definition source_world : world :=
  world_with [("/repo/contracts/readiness/checkpoint-result-v1.schema.json", "{}"); ("/e/keep", "")].

Lemma stage_run_zero_means_passed_witness :
  (stage_run source_args "abc" "r1" (Path.of_str "/e") [a_gate "one" "source"; a_gate "two" "cutover"] source_world).1
    = Ok 0 /\
  exists results, accounts source_args [a_gate "one" "source"; a_gate "two" "cutover"] results /\
    Forall (λ r, getitem r "status" = Ok (VStr "passed")) results.
Proof.
  assert ((stage_run source_args "abc" "r1" (Path.of_str "/e")
    [a_gate "one" "source"; a_gate "two" "cutover"] source_world).1 = Ok 0) as E by (vm_compute; reflexivity).
  split; [exact E|]. by destruct (stage_run_zero_means_passed source_args "abc" "r1" _ _ source_world eq_refl E).
Defined.
End Run.
End ProviderGates.
