(* ===== verification/ReleaseControl.v ===== *)
(** * infrastructure/deployment/release_control.py

    Dry run, activation, rollback and deactivation of a release: a preflight
    over the release's descriptors and the host, the switch of two symbolic
    links around stopped and started services, and the evidence of what was done. *)

From Stdlib Require Import Ascii.
From S2P Require Import Prelude PyFloat PyMonad PyValue PyTime PyJson Sha256 PyOs Fixture.

Module ReleaseControl.

(** ** Helpers *)

Definition check (name status detail : string) (duration_ms : Z) : val :=
  VDict [("name", VStr name); ("status", VStr status); ("duration_ms", VInt duration_ms);
         ("detail", VStr (Str.take 2048 detail))].
Definition recovery_check (name status detail : string) : val :=
  VDict [("name", VStr name); ("status", VStr status); ("detail", VStr (Str.take 2048 detail))].

(** [a or b] on texts, [a and b[k1][k2]] on an optional document. *)
Definition str_or (s t : string) : string := if String.eqb s "" then t else s.
Definition and_item (d : option val) (ks : list string) : res val :=
  match d with
  | None => Ok VNone
  | Some v => if truthy v then item v ks else Ok v
  end.

Section Env.
Context `{Platform}.

(** The two places a contract is looked for, the checkout first. *)
Definition CONTRACT_ROOTS (namespace : string) : list path :=
  [Path.div (Path.div repo_root "contracts") namespace;
   Path.div (Path.of_str "/usr/local/share/liqi/contracts") namespace].

Definition utc : IO string := utc_now.
Definition load (p : path) : IO val := load_json p.
Definition digest (p : path) : IO string := sha256_file p.

Fixpoint first_file (ps : list path) : IO (option path) :=
  match ps with
  | [] => mret None
  | p :: r => b ← is_file p; if b : bool then mret (Some p) else first_file r
  end.

Definition contract (name namespace : string) : IO path :=
  r ← first_file (map (λ root, Path.div root name) (CONTRACT_ROOTS namespace));
  match r with
  | Some p => mret p
  | None => throw FileNotFoundError (namespace +:+ "/" +:+ name)
  end.

Definition validate (name : string) (document : val) (namespace : string) : IO (list string) :=
  p ← contract name namespace; schema ← load p; lift (schema_failures schema document).

(** [run]: success, the end of the output, the duration in milliseconds. *)
Definition run (argv : list string) (timeout : Z) : IO (bool * string * Z) :=
  started ← monotonic;
  env ← gets environ;
  r ← subprocess_run (Proc argv (Some timeout) env None);
  finished ← monotonic;
  let duration := Z.quot (finished - started) 1000 in
  mret (match r with
        | Exited code stdout stderr =>
            (code =? 0, Str.strip (Str.last_n 2048 (str_or stderr stdout)), duration)
        | _ => (false, "command timed out", duration)
        end).

Definition atomic_symlink (target link : path) : IO unit :=
  mkdir_p (Path.parent link) ;;
  let temporary := Path.div (Path.parent link) ("." +:+ Path.name link +:+ ".new." +:+ Str.of_Z pid) in
  unlink_missing_ok temporary ;;
  symlink_to temporary target ;;
  replace temporary link.

Definition descriptor (p : path) : IO val :=
  document ← load p;
  failures ← validate "release-target-v1.schema.json" document "deployment";
  match failures with
  | [] => mret document
  | _ => throw RuntimeError ("invalid descriptor " +:+ Path.to_str p +:+ ": " +:+ Str.join "; " failures)
  end.

Definition releases_root : path := Path.of_str "/opt/liqi/releases".

Definition current_release_id (link : path) : IO (option string) :=
  e ← exists_ link; s ← is_symlink link;
  if negb e && negb s then mret None
  else if negb s then throw RuntimeError ("current link is not a symlink: " +:+ Path.to_str link)
  else
    resolved ← resolve_strict link;
    if bool_decide (Path.parent resolved = releases_root) then mret (Some (Path.name resolved))
    else throw RuntimeError "current release escapes /opt/liqi/releases".

(** ** The preflight's checks *)

(** The conjunction of [database_version], in its order. *)
Definition readiness_exact (document : val) : res bool :=
  rall (λ test : res bool, test)
    [get_eq document "status" (VStr "passed");
     (v ← dget document "ready"; Ok (is_true v));
     (v ← dget document "writeReady"; Ok (is_true v));
     get_eq document "reason" (VStr "ready");
     (a ← dget document "currentVersion"; b ← dget document "requiredVersion"; Ok (py_eq a b));
     (a ← dget document "obanMigrationVersion"; b ← dget document "requiredObanMigrationVersion";
      Ok (py_eq a b && py_eq b (VInt 14)));
     (v ← dget document "inRecovery"; Ok (is_false v))].

Definition database_version (p : path) : IO Z :=
  document ← load p;
  lift (v1 ← get_eq document "schemaVersion" (VStr "migration-readiness-v1");
        if v1 : bool then
          exact ← readiness_exact document;
          if exact : bool then v ← getitem document "currentVersion"; py_int v
          else raise RuntimeError "V1 migration readiness is not exact and write-ready"
        else
          v0 ← rall (λ test : res bool, test)
            [get_eq document "schemaVersion" (VStr "database-readiness-v0");
             (v ← dget document "ready"; Ok (is_true v));
             get_eq document "reason" (VStr "ready")];
          if v0 : bool then v ← getitem document "currentVersion"; py_int v
          else raise RuntimeError "database readiness provider is unsupported or not ready").

Definition compatibility_one (label : string) (document : val) (version : Z) : res unit :=
  boundary ← getitem document "database_compatibility";
  low ← getitem boundary "minimum_migration";
  above ← py_le low (VInt version);
  inside ← (if above : bool then high ← getitem boundary "rollback_safe_through"; py_le (VInt version) high
            else Ok false);
  if negb inside then
    raise RuntimeError ("database version is outside " +:+ label +:+ " release compatibility range")
  else
    r ← getitem boundary "database_rollback_allowed";
    if truthy r then raise RuntimeError "database down migration is forbidden" else Ok tt.

Definition compatibility (target fallback : val) (version : Z) : res unit :=
  _ ← compatibility_one "target" target version; compatibility_one "fallback" fallback version.

Definition path_of (v : val) : res path := s ← expect_str v; Ok (Path.of_str s).

Definition evidence_ready (document : val) : IO unit :=
  evidence ← lift (getitem document "database_compatibility_evidence");
  rp ← lift (getitem evidence "retained_path"); p ← lift (path_of rp);
  f ← is_file p;
  same ← (if f : bool then d ← digest p; h ← lift (getitem evidence "sha256"); mret (py_eq (VStr d) h)
          else mret false);
  if same : bool then mret tt
  else
    rid ← lift (getitem document "release_id");
    throw RuntimeError ("database compatibility evidence missing/tampered for " +:+ py_str rid).

Definition credential_ready (root : path) (name : val) : IO unit :=
  n ← lift (expect_str name);
  let p := Path.div root n in
  f ← is_file p;
  readable ← (if f : bool then access_read p else mret false);
  if negb readable then throw RuntimeError ("required credential unavailable: " +:+ Path.to_str p)
  else
    size ← st_size p;
    if negb ((1 <=? size) && (size <? 25 * 1024 + 1)) then
      throw RuntimeError ("required credential size is invalid: " +:+ Path.to_str p)
    else
      m ← st_mode p;
      if negb (Z.land m 63 =? 0) then
        throw RuntimeError ("required credential permissions are too broad: " +:+ Path.to_str p)
      else mret tt.

Definition configs_ready (document : val) : IO unit :=
  cp ← lift (getitem document "configuration_paths"); paths ← lift (py_iter cp);
  missing ← mfilter (λ v, p ← lift (path_of v); b ← exists_ p; mret (negb b)) paths;
  match missing with
  | _ :: _ => throw RuntimeError ("required configuration paths missing: " +:+ repr (VList missing))
  | [] =>
      evidence_ready document ;;
      directory ← lift (getitem document "credential_directory");
      required ← lift (getitem document "required_credentials");
      if is_none directory then
        if truthy required then throw RuntimeError "release declares credentials without a credential directory"
        else mret tt
      else
        root ← lift (path_of directory); names ← lift (py_iter required);
        mfor (credential_ready root) names
  end.

Definition recovery_evidence (p : option path) (git_sha : val) : IO val :=
  match p with
  | None => throw RuntimeError "first-release recovery evidence is required"
  | Some p =>
      document ← load p;
      failures ← validate "first-release-recovery-v1.schema.json" document "infrastructure";
      match failures with
      | _ :: _ => throw RuntimeError ("invalid first-release recovery evidence: " +:+ Str.join "; " failures)
      | [] =>
          g ← lift (dget document "git_sha"); s ← lift (dget document "status");
          b ← lift (dget document "blockers");
          if py_ne g git_sha || py_ne s (VStr "passed") || truthy b
          then throw RuntimeError "first-release recovery evidence is not exact-SHA and passed"
          else mret document
      end
  end.

(** ** Services *)

Definition services (document : val) (reverse : bool) : res (list val) :=
  s ← getitem document "services"; l ← py_iter s;
  keyed ← rmap (λ it, k ← getitem it "start_order"; Ok (k, it)) l;
  sorted ← (if reverse then py_sorted_rev_by fst keyed else py_sorted_by fst keyed);
  Ok sorted.*2.

(** One [systemctl] call on one unit, and its check. *)
Definition unit_command (systemctl verb name done_text : string) (extra : val -> res Z) (it : val) : IO val :=
  u ← lift (getitem it "unit"); us ← lift (expect_str u); timeout ← lift (extra it);
  '(ok, detail, duration) ← run [systemctl; verb; us] timeout;
  if ok : bool then mret (check name "passed" (us +:+ ": " +:+ str_or detail done_text) duration)
  else throw RuntimeError (verb +:+ " failed for " +:+ us +:+ ": " +:+ detail).

Definition drain_release (document : val) : IO (list val) :=
  drain ← lift (getitem document "drain"); a ← lift (getitem drain "argv");
  if truthy a then
    argv ← lift (argv_of a); t ← lift (getitem drain "timeout_seconds"); timeout ← lift (expect_int t);
    '(ok, detail, duration) ← run argv timeout;
    if ok : bool then mret [check "drain-current" "passed" (str_or detail "drain completed") duration]
    else throw RuntimeError ("drain failed: " +:+ detail)
  else mret [].

Definition stop_release (document : val) (systemctl : string) (drain : bool) : IO (list val) :=
  drained ← (if drain then drain_release document else mret []);
  items ← lift (services document true);
  stopped ← mmap (unit_command systemctl "stop" "stop-service" "stopped"
                    (λ it, t ← getitem it "stop_timeout_seconds"; z ← expect_int t; Ok (z + 5))) items;
  mret (drained ++ stopped).

Definition health_gate (document : val) : IO val :=
  health ← lift (getitem document "health"); a ← lift (getitem health "argv"); argv ← lift (argv_of a);
  t ← lift (getitem health "timeout_seconds"); timeout ← lift (expect_int t);
  '(ok, detail, duration) ← run argv timeout;
  if ok : bool then mret (check "health-gate" "passed" (str_or detail "health passed") duration)
  else throw RuntimeError ("health gate failed: " +:+ detail).

Definition start_release (document : val) (systemctl : string) : IO (list val) :=
  items ← lift (services document false);
  started ← mmap (unit_command systemctl "start" "start-service" "started" (λ _, Ok 60)) items;
  healthy ← health_gate document;
  mret (started ++ [healthy]).

Definition select_release (document : val) (current_link runtime_link : path) : IO unit :=
  rp ← lift (getitem document "release_path"); p ← lift (path_of rp);
  atomic_symlink p current_link ;;
  runtime ← lift (getitem document "runtime_config_path");
  if is_none runtime then unlink_missing_ok runtime_link
  else q ← lift (path_of runtime); atomic_symlink q runtime_link.

Definition clear_selection (current_link runtime_link : path) : IO unit :=
  unlink_missing_ok current_link ;; unlink_missing_ok runtime_link.

Definition root_posix : bool := String.eqb os_name "posix" && (euid =? 0).

(** ** [main] *)

Inductive mode := Activate | Rollback.
Definition is_activate (m : mode) : bool := match m with Activate => true | Rollback => false end.
Definition mode_text (m : mode) : string := match m with Activate => "activate" | Rollback => "rollback" end.

(** The command line, as [parse] declares it. *)
Record args := Args {
  a_mode : mode; target_release_id : option string; deployment_id : string; descriptor_dir : path;
  current_link : path; runtime_config_link : path; host_readiness : path; database_readiness : path;
  first_release_recovery : option path; a_systemctl : string; maximum_duration_seconds : Z;
  approval_reference : option string; execute : bool; activation_output : option path;
  rollback_output : path
}.

(** What the preflight has decided. *)
Record plan := Plan {
  p_current_id : option string; p_current : option val; p_target : option val; p_target_id : val;
  p_first : bool; p_version : Z
}.

Context (a : args).

Definition non_empty (o : option string) : option string :=
  match o with Some s => if String.eqb s "" then None else o | None => None end.

Definition descriptor_of (id : string) : IO val :=
  descriptor (Path.div (descriptor_dir a) (id +:+ ".json")).

(** The release the command is about, its id and whether it is the first. *)
Definition select_target (current_id : option string) (current : option val) : IO (option val * val * bool) :=
  match a_mode a with
  | Activate =>
      match non_empty (target_release_id a) with
      | None => sysexit "activate requires --target-release-id"
      | Some target_id =>
          target ← descriptor_of target_id;
          let first_transition := match current with None => true | Some _ => false end in
          declared ← lift (dget target "rollback_target_release_id");
          if first_transition && negb (is_none declared) then
            sysexit "first activation target must declare no application rollback release"
          else if negb first_transition && py_ne declared (opt_val VStr current_id) then
            sysexit "activation target does not declare the current release as rollback target"
          else mret (Some target, VStr target_id, first_transition)
      end
  | Rollback =>
      match current with
      | None => sysexit "no active release is selected"
      | Some cur =>
          target_id ← (match non_empty (target_release_id a) with
                       | Some t => mret (VStr t)
                       | None => lift (dget cur "rollback_target_release_id")
                       end);
          if is_none target_id then mret (None, VNone, true)
          else
            declared ← lift (dget cur "rollback_target_release_id");
            if py_ne declared target_id then sysexit "requested rollback target is not predeclared"
            else
              target ← descriptor (Path.div (descriptor_dir a) (py_str target_id +:+ ".json"));
              mret (Some target, target_id, false)
      end
  end.

(** A release the preflight admits: compatible, configured, present. *)
Definition release_ready (label : string) (version : Z) (document : val) : IO unit :=
  lift (compatibility_one label document version) ;;
  configs_ready document ;;
  rp ← lift (getitem document "release_path"); p ← lift (path_of rp);
  d ← is_dir p;
  if d : bool then mret tt else sysexit (label +:+ " release directory missing").

Definition host_ready : IO unit :=
  host ← load (host_readiness a);
  failures ← validate "host-runtime-v1.schema.json" host "infrastructure";
  match failures with
  | _ :: _ => sysexit ("host readiness is not ready: " +:+ Str.join "; " failures)
  | [] => s ← lift (dget host "status");
          if py_ne s (VStr "ready") then sysexit "host readiness is not ready: " else mret tt
  end.

Definition approval_ok : IO unit :=
  if negb (execute a) then mret tt
  else if negb root_posix then sysexit "release mutation requires root on POSIX"
  else match approval_reference a with
       | Some r => if String.eqb r "" || (Str.len (Str.strip r) <? 3)
                   then sysexit "release mutation requires approval reference" else mret tt
       | None => sysexit "release mutation requires approval reference"
       end.

Definition preflight : IO plan :=
  (if (1 <=? maximum_duration_seconds a) && (maximum_duration_seconds a <=? 900) then mret tt
   else sysexit "maximum duration must be 1..900 seconds") ;;
  current_id ← current_release_id (current_link a);
  current ← (match non_empty current_id with
             | Some id => d ← descriptor_of id; mret (Some d)
             | None => mret None
             end);
  '(target, target_id, first_transition) ← select_target current_id current;
  host_ready ;;
  version ← database_version (database_readiness a);
  (match target with Some t => release_ready "target" version t | None => mret tt end) ;;
  (match current with Some c => release_ready "current" version c | None => mret tt end) ;;
  (if first_transition then
     bound ← (match target, current with
              | Some t, _ => mret t
              | None, Some c => mret c
              | None, None => throw AssertionError ""
              end);
     sha ← lift (getitem bound "git_sha");
     recovery_evidence (first_release_recovery a) sha ;; mret tt
   else mret tt) ;;
  approval_ok ;;
  mret (Plan current_id current target target_id first_transition version).

(** *** The two documents, before the operation *)

Definition preflight_checks (pl : plan) : list val :=
  [check "host-readiness" "passed" "host readiness passed" 0;
   check "database-compatibility" "passed"
     ("migration " +:+ Str.of_Z (p_version pl) +:+ " is compatible and forward-only") 0;
   check "configuration" "passed" "configuration, evidence and credentials present" 0;
   check "recovery-target" "passed"
     (if p_first pl then "first-release infrastructure recovery is exact-SHA"
      else "retained target " +:+ py_str (p_target_id pl)) 0].

Definition approval : val := if execute a then opt_val VStr (approval_reference a) else VNone.
Definition evidence_class : val := VStr (if execute a then "live-approved" else "dry-run").

(** The release an operation falls back on. *)
Definition fallback_of (pl : plan) : option val :=
  let some_truthy o := match o with Some v => truthy v | None => false end in
  if negb (is_activate (a_mode a)) && some_truthy (p_target pl) then p_target pl
  else if is_activate (a_mode a) && some_truthy (p_current pl) then p_current pl
  else None.

Definition from_release (pl : plan) : val :=
  match non_empty (p_current_id pl) with Some id => VStr id | None => p_target_id pl end.

Definition rollback_document (pl : plan) (started : string) : IO val :=
  let fallback := fallback_of pl in
  rid ← lift (and_item fallback ["release_id"]);
  sha ← lift (and_item fallback ["git_sha"]);
  manifest ← lift (and_item fallback ["source_manifest"; "sha256"]);
  completed ← utc;
  mret (VDict [("schema_version", VStr "liqi.deployment.rollback/v1");
    ("rollback_id", VStr (deployment_id a +:+ "-rollback")); ("from_release_id", from_release pl);
    ("target_release_id", rid);
    ("recovery_mode", VStr (if p_first pl then "deactivate-first-release" else "release-switch"));
    ("target_git_sha", sha); ("target_manifest_sha256", manifest);
    ("database_compatibility", VStr "compatible"); ("config_compatibility", VStr "compatible");
    ("maximum_duration_seconds", VInt (maximum_duration_seconds a));
    ("status", VStr "engineering-complete-evidence-pending"); ("started_at", VStr started);
    ("completed_at", VStr completed); ("approval_reference", approval);
    ("checks", VList [recovery_check "preflight" "passed"
                        "release and infrastructure recovery preflight validated"]);
    ("evidence_class", evidence_class)]).

Definition activation_document (pl : plan) (started : string) : IO (option val) :=
  match a_mode a with
  | Rollback => mret None
  | Activate =>
      match activation_output a, p_target pl with
      | None, _ => sysexit "activate requires --activation-output"
      | Some _, None => throw AssertionError ""
      | Some _, Some target =>
          sha ← lift (getitem target "git_sha");
          manifest ← lift (item target ["source_manifest"; "sha256"]);
          completed ← utc;
          let id := opt_val VStr (p_current_id pl) in
          mret (Some (VDict [("schema_version", VStr "liqi.deployment.activation/v1");
            ("deployment_id", VStr (deployment_id a)); ("release_id", p_target_id pl);
            ("git_sha", sha); ("manifest_sha256", manifest); ("previous_release_id", id);
            ("rollback_target_release_id", id); ("state", VStr "preflight-passed");
            ("status", VStr "engineering-complete-evidence-pending"); ("started_at", VStr started);
            ("completed_at", VStr completed); ("approval_reference", approval);
            ("checks", VList (preflight_checks pl)); ("traffic_enabled", VBool false);
            ("evidence_class", evidence_class)]))
      end
  end.

(** *** The operation *)

(** The lists and documents the operation updates. [activation_doc["checks"]]
    shares its list with [checks]; every path that ends replaces it. *)
Record op := Op { o_checks : list val; o_recovery : list val; o_rollback : val; o_activation : option val }.

Abbreviation O := (M (op * world)).

Definition add_checks (l : list val) : O unit :=
  modl (λ o, Op (o_checks o ++ l) (o_recovery o) (o_rollback o) (o_activation o)).
Definition add_recovery (l : list val) : O unit :=
  modl (λ o, Op (o_checks o) (o_recovery o ++ l) (o_rollback o) (o_activation o)).
Definition update_rollback (u : op -> list (string * val)) : O unit :=
  modl (λ o, Op (o_checks o) (o_recovery o) (vupdate (u o) (o_rollback o)) (o_activation o)).
Definition update_activation (u : op -> list (string * val)) : O unit :=
  modl (λ o, Op (o_checks o) (o_recovery o) (o_rollback o) (vupdate (u o) <$> o_activation o)).

(** The [try] block. *)
Definition operate (pl : plan) (operation_started : Z) : O unit :=
  match a_mode a, p_first pl, p_current pl, p_target pl with
  | Activate, _, current, Some target =>
      (match current with
       | Some c => l ← zoom_snd (stop_release c (a_systemctl a) true); add_checks l
       | None => mret tt
       end) ;;
      zoom_snd (select_release target (current_link a) (runtime_config_link a)) ;;
      rp ← lift (getitem target "release_path"); rc ← lift (getitem target "runtime_config_path");
      add_checks [check "select-release" "passed" (py_str rp +:+ " and " +:+ py_str rc) 0] ;;
      l ← zoom_snd (start_release target (a_systemctl a));
      add_checks l ;;
      finished ← zoom_snd monotonic;
      (if maximum_duration_seconds a <? Z.quot (finished - operation_started) Time.us_per_s
       then throw RuntimeError "release operation exceeded maximum duration" else mret tt) ;;
      t ← zoom_snd utc;
      update_activation (λ o, [("state", VStr "health-gated"); ("status", VStr "passed");
                               ("completed_at", VStr t); ("checks", VList (o_checks o))]) ;;
      update_rollback (λ o, [("checks", VList (
        (match dget (o_rollback o) "checks" with Ok (VList l) => l | _ => [] end)
        ++ [recovery_check "not-executed" "not-run" "recovery was not required"]))])
  | Rollback, true, Some current, _ =>
      l ← zoom_snd (stop_release current (a_systemctl a) true);
      add_recovery l ;;
      zoom_snd (clear_selection (current_link a) (runtime_config_link a)) ;;
      t ← zoom_snd utc;
      update_rollback (λ _, [("status", VStr "passed"); ("completed_at", VStr t);
        ("checks", VList [recovery_check "drain-stop-deactivate" "passed"
                            "first release deactivated; traffic must remain fail-closed"])])
  | Rollback, false, Some current, Some target =>
      l ← zoom_snd (stop_release current (a_systemctl a) true);
      add_recovery l ;;
      zoom_snd (select_release target (current_link a) (runtime_config_link a)) ;;
      l ← zoom_snd (start_release target (a_systemctl a));
      add_recovery l ;;
      t ← zoom_snd utc;
      update_rollback (λ _, [("status", VStr "passed"); ("completed_at", VStr t);
        ("checks", VList [recovery_check "drain-stop-switch-start-health" "passed" "rollback completed"])])
  | _, _, _, _ => throw AssertionError ""
  end.

(** The automatic recovery of a failed activation; a failed rollback raises again. *)
Definition recover (pl : plan) (error : exn) : O unit :=
  match a_mode a, p_target pl with
  | Rollback, _ => mraise error
  | Activate, None => throw AssertionError ""
  | Activate, Some target =>
      _ ← zoom_snd (stop_release target (a_systemctl a) false);
      (match p_current pl with
       | None =>
           zoom_snd (clear_selection (current_link a) (runtime_config_link a)) ;;
           add_recovery [recovery_check "automatic-recovery" "passed" "deactivated failed first release"]
       | Some current =>
           zoom_snd (select_release current (current_link a) (runtime_config_link a)) ;;
           _ ← zoom_snd (start_release current (a_systemctl a));
           add_recovery [recovery_check "automatic-recovery" "passed"
                           ("restored " +:+ default "None" (p_current_id pl))]
       end) ;;
      t ← zoom_snd utc;
      update_rollback (λ o, [("status", VStr "passed"); ("completed_at", VStr t);
                             ("checks", VList (o_recovery o))]) ;;
      t ← zoom_snd utc;
      update_activation (λ o, [("state", VStr "rolled-back"); ("status", VStr "failed");
        ("completed_at", VStr t);
        ("checks", VList (o_checks o ++ [check "automatic-rollback" "passed" (exn_str error) 0]))])
  end.

Definition recovery_failed (recovery_error : exn) : O unit :=
  add_recovery [recovery_check "automatic-recovery" "failed" (exn_str recovery_error)] ;;
  t ← zoom_snd utc;
  update_rollback (λ o, [("status", VStr "failed"); ("completed_at", VStr t);
                         ("checks", VList (o_recovery o))]) ;;
  o ← getl;
  match o_activation o with
  | None => mret tt
  | Some _ =>
      t ← zoom_snd utc;
      update_activation (λ o, [("state", VStr "activation-failed"); ("status", VStr "failed");
        ("completed_at", VStr t);
        ("checks", VList (o_checks o ++ [check "automatic-rollback" "failed" (exn_str recovery_error) 0]))])
  end.

Definition operation (pl : plan) (operation_started : Z) : O unit :=
  catch (operate pl operation_started)
    (on_any (λ error,
       add_recovery [recovery_check "operation-failure" "failed" (exn_str error)] ;;
       catch (recover pl error) (on_any recovery_failed))).

(** *** The evidence *)

Definition publish_one (schema_name : string) (document : option val) (p : option path) : IO unit :=
  match document, p with
  | Some d, Some p =>
      failures ← validate schema_name d "deployment";
      match failures with
      | _ :: _ => throw RuntimeError ("invalid evidence " +:+ schema_name +:+ ": " +:+ Str.join "; " failures)
      | [] => write_document p d
      end
  | _, _ => mret tt
  end.

Definition exit_status (rollback_doc : val) (activation_doc : option val) : res Z :=
  failed ← (match activation_doc with
            | Some d => s ← getitem d "status"; Ok (py_eq s (VStr "failed"))
            | None => Ok false
            end);
  if failed : bool then Ok 3
  else
    s ← getitem rollback_doc "status";
    b ← in_set s [VStr "passed"; VStr "engineering-complete-evidence-pending"];
    Ok (if b : bool then 0 else 4).

Definition publish (rollback_doc : val) (activation_doc : option val) : IO Z :=
  publish_one "rollback-v1.schema.json" (Some rollback_doc) (Some (rollback_output a)) ;;
  publish_one "activation-v1.schema.json" activation_doc (activation_output a) ;;
  s ← lift (match activation_doc with Some d => getitem d "status" | None => Ok VNone end);
  r ← lift (getitem rollback_doc "status");
  print (Json.dumps Json.plain_sorted (VDict [("mode", VStr (mode_text (a_mode a)));
    ("activation_status", s); ("rollback_status", r)])) ;;
  lift (exit_status rollback_doc activation_doc).

Definition dry_run (rollback_doc : val) (activation_doc : option val) : IO Z :=
  write_document (rollback_output a) rollback_doc ;;
  (match activation_doc, activation_output a with
   | Some d, Some p => write_document p d
   | _, _ => mret tt
   end) ;;
  print "release control dry-run passed; no mutation performed" ;;
  mret 0.

(** The operation and its evidence, once the preflight has passed. *)
Definition execute_plan (pl : plan) (rollback_doc : val) (activation_doc : option val) : IO Z :=
  operation_started ← monotonic;
  o ← with_locals (Op (preflight_checks pl) [] rollback_doc activation_doc)
        (operation pl operation_started ;; getl);
  publish (o_rollback o) (o_activation o).

Definition main : IO Z :=
  started ← utc;
  pl ← preflight;
  rollback_doc ← rollback_document pl started;
  activation_doc ← activation_document pl started;
  if execute a then execute_plan pl rollback_doc activation_doc
  else dry_run rollback_doc activation_doc.
End Env.
End ReleaseControl.
