(* ===== verification/ReleaseProperties.v ===== *)
(** * What the release control promises

    A dry run touches no link and starts no process; a preflight that passes
    has established what [admitted] says; an operation always ends with its
    documents updated, and the release that stays selected is the one they name. *)

From Stdlib Require Import Ascii.
From S2P Require Import Prelude PyFloat PyMonad PyValue PyTime PyJson Sha256 PyOs OsFacts Fixture ReleaseControl.

Module ReleaseSpec.
Import ReleaseControl.

(** ** The preflight changes nothing *)

Section ReadOnly.
Context `{Platform} (a : args).

Lemma ro_first_file ps : Pres eq (first_file ps).
Proof. induction ps; simpl; solve_pres. Qed.
Lemma ro_load_release p : Pres eq (load p).
Proof. apply ro_load_json. Qed.
Lemma ro_digest p : Pres eq (digest p).
Proof. apply ro_sha256_file. Qed.
#[local] Hint Resolve ro_first_file ro_load_release ro_digest : pres.
Lemma ro_contract name ns : Pres eq (contract name ns).
Proof. unfold contract. solve_pres. Qed.
#[local] Hint Resolve ro_contract : pres.
Lemma ro_validate_contract name d ns : Pres eq (validate name d ns).
Proof. unfold validate. solve_pres. Qed.
#[local] Hint Resolve ro_validate_contract : pres.
Lemma ro_descriptor p : Pres eq (descriptor p).
Proof. unfold descriptor. solve_pres. Qed.
Lemma ro_current_release_id p : Pres eq (current_release_id p).
Proof. unfold current_release_id. solve_pres. Qed.
Lemma ro_database_version p : Pres eq (database_version p).
Proof. unfold database_version. solve_pres. Qed.
Lemma ro_evidence_ready d : Pres eq (evidence_ready d).
Proof. unfold evidence_ready. solve_pres. Qed.
Lemma ro_credential_ready root n : Pres eq (credential_ready root n).
Proof. unfold credential_ready. solve_pres. Qed.
#[local] Hint Resolve ro_descriptor ro_current_release_id ro_database_version ro_evidence_ready
  ro_credential_ready : pres.
Lemma ro_configs_ready d : Pres eq (configs_ready d).
Proof. unfold configs_ready. solve_pres. Qed.
Lemma ro_recovery_evidence p g : Pres eq (recovery_evidence p g).
Proof. unfold recovery_evidence. solve_pres. Qed.
Lemma ro_select_target id c : Pres eq (select_target a id c).
Proof. unfold select_target, descriptor_of. solve_pres. Qed.
#[local] Hint Resolve ro_configs_ready ro_recovery_evidence ro_select_target : pres.
Lemma ro_release_ready l v d : Pres eq (release_ready l v d).
Proof. unfold release_ready. solve_pres. Qed.
Lemma ro_host_ready : Pres eq (host_ready a).
Proof. unfold host_ready. solve_pres. Qed.
Lemma ro_approval_ok : Pres eq (approval_ok a).
Proof. unfold approval_ok. solve_pres. Qed.
#[local] Hint Resolve ro_release_ready ro_host_ready ro_approval_ok : pres.
Lemma ro_release_preflight : Pres eq (preflight a).
Proof. unfold preflight, descriptor_of. solve_pres. Qed.

Lemma wo_documents pl started :
  Pres writes_only (rollback_document a pl started) /\ Pres writes_only (activation_document a pl started).
Proof. unfold rollback_document, activation_document, utc. split; solve_pres. Qed.
End ReadOnly.
#[export] Hint Resolve ro_first_file ro_load_release ro_digest ro_contract ro_validate_contract ro_descriptor
  ro_current_release_id ro_database_version ro_evidence_ready ro_credential_ready ro_configs_ready
  ro_recovery_evidence ro_select_target ro_release_ready ro_host_ready ro_approval_ok ro_release_preflight : pres.

Section DryRun.
Context `{Platform} (a : args).

Lemma wo_main : execute a = false -> Pres writes_only (main a).
Proof.
  intros Hx. unfold main, utc. rewrite Hx. apply pres_bind; [apply _|solve_pres|intros started].
  apply pres_bind; [apply _|solve_pres|intros pl].
  destruct (wo_documents a pl started) as [Hr Ha].
  apply pres_bind; [apply _|done|intros r]. apply pres_bind; [apply _|done|intros d].
  unfold dry_run. solve_pres.
Qed.

(** Without [--execute] the release control mutates nothing it controls: however
    the run ends, no process has been started, and every symbolic link (the selected
    release and the runtime configuration among them) is what it was; none appears. *)
Theorem dry_run_mutates_nothing w : execute a = false ->
  log (main a w).2 = log w /\
  forall k t, fs (main a w).2 !! k = Some (NLink t) <-> fs w !! k = Some (NLink t).
Proof.
  intros Hx. pose proof (wo_main Hx w) as Hw. split; [apply Hw|]. intros k t. by apply writes_only_link.
Qed.
End DryRun.

(** ** What a preflight that passes has established *)

Section Admission.
Context `{Platform} (a : args).

(** A credential: a file of 1 to 25600 bytes, closed to group and others. *)
Definition credential_safe (w : world) (root : path) (name : val) : Prop :=
  exists n data m, expect_str name = Ok n /\ stat w (Path.div root n) = Some (NFile data m) /\
    1 <= Z.of_nat (String.length data) <= 25 * 1024 /\ Z.land (PyOs.mode m) 63 = 0.

Record release_admitted (w : world) (version : Z) (d : val) : Prop := {
  ra_version : exists b lo hi, getitem d "database_compatibility" = Ok b /\
    getitem b "minimum_migration" = Ok lo /\ getitem b "rollback_safe_through" = Ok hi /\
    py_le lo (VInt version) = Ok true /\ py_le (VInt version) hi = Ok true;
  ra_forward_only : exists b r, getitem d "database_compatibility" = Ok b /\
    getitem b "database_rollback_allowed" = Ok r /\ truthy r = false;
  ra_configs : exists cp l, getitem d "configuration_paths" = Ok cp /\ py_iter cp = Ok l /\
    Forall (λ v, exists p n, path_of v = Ok p /\ stat w p = Some n) l;
  ra_evidence : exists e rp p data m, getitem d "database_compatibility_evidence" = Ok e /\
    getitem e "retained_path" = Ok rp /\ path_of rp = Ok p /\ stat w p = Some (NFile data m) /\
    getitem e "sha256" = Ok (VStr (Sha256.hexdigest data));
  ra_credentials : exists dir req, getitem d "credential_directory" = Ok dir /\
    getitem d "required_credentials" = Ok req /\
    ((dir = VNone /\ truthy req = false) \/
     exists root names, path_of dir = Ok root /\ py_iter req = Ok names /\
       Forall (credential_safe w root) names);
  ra_directory : exists rp p, getitem d "release_path" = Ok rp /\ path_of rp = Ok p /\
    is_dir_node (stat w p) = true
}.

(** The release a first transition is about: the new one, or the one removed. *)
Definition bound_of (pl : plan) : option val :=
  match p_target pl with Some t => Some t | None => p_current pl end.

Record admitted (w : world) (pl : plan) : Prop := {
  ad_duration : 1 <= maximum_duration_seconds a <= 900;
  ad_host : exists host, load (host_readiness a) w = (Ok host, w) /\
    validate "host-runtime-v1.schema.json" host "infrastructure" w = (Ok [], w) /\
    dget host "status" = Ok (VStr "ready");
  ad_version : database_version (database_readiness a) w = (Ok (p_version pl), w);
  ad_target : forall t, p_target pl = Some t -> release_admitted w (p_version pl) t;
  ad_current : forall c, p_current pl = Some c -> release_admitted w (p_version pl) c;
  ad_declared : forall c t, p_current pl = Some c -> p_target pl = Some t ->
    exists v, dget (if is_activate (a_mode a) then t else c) "rollback_target_release_id" = Ok v /\
      py_eq v (if is_activate (a_mode a) then opt_val VStr (p_current_id pl) else p_target_id pl) = true;
  ad_first : p_first pl = true -> exists b sha ev e, bound_of pl = Some b /\
    getitem b "git_sha" = Ok sha /\ first_release_recovery a = Some ev /\ load ev w = (Ok e, w) /\
    validate "first-release-recovery-v1.schema.json" e "infrastructure" w = (Ok [], w) /\
    get_eq e "git_sha" sha = Ok true /\ dget e "status" = Ok (VStr "passed");
  ad_approval : execute a = true -> root_posix = true /\
    exists r, approval_reference a = Some r /\ 3 <= Str.len (Str.strip r)
}.

Lemma compatibility_one_Ok label d version u : compatibility_one label d version = Ok u ->
  (exists b lo hi, getitem d "database_compatibility" = Ok b /\
    getitem b "minimum_migration" = Ok lo /\ getitem b "rollback_safe_through" = Ok hi /\
    py_le lo (VInt version) = Ok true /\ py_le (VInt version) hi = Ok true) /\
  (exists b r, getitem d "database_compatibility" = Ok b /\
    getitem b "database_rollback_allowed" = Ok r /\ truthy r = false).
Proof.
  unfold compatibility_one. intros E. inv_run.
  match goal with E : (if negb ?i then _ else _) = _ |- _ => destruct i eqn:Hi; simpl in E; [|done] end.
  inv_run. destruct a2; [|simplify_eq]. inv_run. subst.
  match goal with E : (if truthy ?r then _ else _) = _ |- _ => destruct (truthy r) eqn:Hr; [done|] end.
  split; repeat eexists; done.
Qed.

Lemma evidence_ready_Ok d w u w' : evidence_ready d w = (Ok u, w') ->
  exists e rp p data m, getitem d "database_compatibility_evidence" = Ok e /\
    getitem e "retained_path" = Ok rp /\ path_of rp = Ok p /\ stat w p = Some (NFile data m) /\
    getitem e "sha256" = Ok (VStr (Sha256.hexdigest data)).
Proof.
  unfold evidence_ready. intros E. inv_run. apply is_file_Ok in E3 as [-> Hf].
  destruct a4; inv_run; try done. destruct a3; inv_run; [|done].
  destruct (Hf eq_refl) as (data & m & Hs). unfold digest in E3.
  apply (sha256_file_Ok _ _ _ _ _ _ Hs) in E3 as [-> ->]. apply py_eq_str_l in E4 as ->. exists a0, a1, a2, data, m. done.
Qed.

Lemma credential_ready_Ok root n w u w' :
  credential_ready root n w = (Ok u, w') -> credential_safe w root n.
Proof.
  unfold credential_ready. intros E. inv_run. apply is_file_Ok in E1 as [-> Hf].
  destruct a2; simpl in E; [|done]. destruct a1; inv_run; try done.
  destruct (Hf eq_refl) as (data & m & Hs). injection E2 as _ <-.
  apply (st_size_file _ _ _ _ _ _ Hs) in E1 as [-> ->].
  destruct (_ && _) eqn:Hsize in E; simpl in E; [|done]. inv_run.
  apply (st_mode_file _ _ _ _ _ _ Hs) in E1 as [-> ->].
  destruct (Z.land (PyOs.mode m) 63 =? 0) eqn:Hm; simpl in E; [|done].
  exists a0, data, m. split; [done|]. split; [done|]. bool_to_prop. lia.
Qed.

Lemma configs_ready_Ok d w u w' : configs_ready d w = (Ok u, w') ->
  (exists cp l, getitem d "configuration_paths" = Ok cp /\ py_iter cp = Ok l /\
    Forall (λ v, exists p n, path_of v = Ok p /\ stat w p = Some n) l) /\
  (exists e rp p data m, getitem d "database_compatibility_evidence" = Ok e /\
    getitem e "retained_path" = Ok rp /\ path_of rp = Ok p /\ stat w p = Some (NFile data m) /\
    getitem e "sha256" = Ok (VStr (Sha256.hexdigest data))) /\
  (exists dir req, getitem d "credential_directory" = Ok dir /\
    getitem d "required_credentials" = Ok req /\
    ((dir = VNone /\ truthy req = false) \/
     exists root names, path_of dir = Ok root /\ py_iter req = Ok names /\
       Forall (credential_safe w root) names)).
Proof.
  unfold configs_ready. intros E. inv_run. same_world E2. destruct a2; inv_run; try done.
  same_world E3. apply evidence_ready_Ok in E3.
  split; [|split; [done|]].
  - exists a0, a1. split; [done|]. split; [done|]. clear -E2.
    assert (forall l, mfilter (λ v : val, p ← lift (path_of v); b ← exists_ p; mret (negb b)) l w = (Ok [], w) ->
      Forall (λ v, exists p n, path_of v = Ok p /\ stat w p = Some n) l) as Hl; [|by apply Hl].
    clear. induction l as [|v l IH]; intros E; [constructor|]. simpl in E. inv_run.
    apply exists_Ok in E3 as [-> Hb]. destruct a2; simpl in E0; subst; try done.
    constructor; [|by apply IH]. destruct (Hb eq_refl) as [n Hn]. by exists a1, n.
  - exists a3, a4. split; [done|]. split; [done|]. destruct (is_none a3) eqn:Hn.
    + left. destruct a3; try done. by destruct (truthy a4).
    + right. inv_run. apply mfor_ro in E as [-> Hc]; [|auto with pres]. exists a5, a6.
      split; [done|]. split; [done|]. eapply Forall_impl; [exact Hc|]. intros x Hx.
      cbv beta in Hx. by eapply credential_ready_Ok.
Qed.

Lemma release_ready_Ok label version d w u w' :
  release_ready label version d w = (Ok u, w') -> release_admitted w version d.
Proof.
  unfold release_ready. intros E. inv_run. same_world E1.
  apply compatibility_one_Ok in E0 as [? ?]. apply configs_ready_Ok in E1 as (? & ? & ?).
  apply is_dir_Ok in E4 as [-> Hd]. destruct a4; [|done]. split; try done. by exists a2, a3.
Qed.

Lemma host_ready_Ok w u w' : host_ready a w = (Ok u, w') ->
  exists host, load (host_readiness a) w = (Ok host, w) /\
    validate "host-runtime-v1.schema.json" host "infrastructure" w = (Ok [], w) /\
    dget host "status" = Ok (VStr "ready").
Proof.
  unfold host_ready. intros E. inv_run. same_world E0. same_world E1.
  destruct a1; inv_run. destruct (py_ne a1 _) eqn:Hs; [done|].
  apply negb_false_iff, py_eq_str_r in Hs as ->. by exists a0.
Qed.

Lemma recovery_evidence_Ok p sha w r w' : recovery_evidence p sha w = (Ok r, w') ->
  exists ev e, p = Some ev /\ load ev w = (Ok e, w) /\
    validate "first-release-recovery-v1.schema.json" e "infrastructure" w = (Ok [], w) /\
    get_eq e "git_sha" sha = Ok true /\ dget e "status" = Ok (VStr "passed").
Proof.
  unfold recovery_evidence. destruct p as [ev|]; [|done]. intros E. inv_run. same_world E0. same_world E1.
  destruct a1; inv_run. destruct (py_ne a1 sha) eqn:H1; [done|]. destruct (py_ne a2 _) eqn:H2; [done|].
  destruct (truthy a3); [done|]. apply negb_false_iff, py_eq_str_r in H2 as ->.
  exists ev, a0. split; [done|]. split; [done|]. split; [done|]. split; [|done].
  unfold get_eq. rewrite E2. simpl. by apply negb_false_iff in H1 as ->.
Qed.

Lemma approval_ok_Ok w u w' : approval_ok a w = (Ok u, w') -> execute a = true ->
  root_posix = true /\ exists r, approval_reference a = Some r /\ 3 <= Str.len (Str.strip r).
Proof.
  unfold approval_ok. intros E Hx. rewrite Hx in E. simpl in E. destruct root_posix; [|done]. split; [done|]. simpl in E.
  destruct (approval_reference a) as [r|]; [|done]. exists r. split; [done|].
  destruct (_ || _) eqn:Hr in E; [done|]. apply orb_false_iff in Hr as [_ Hr]. by apply Z.ltb_ge in Hr.
Qed.

(** How the three ways of choosing a target relate the two releases. *)
Lemma select_target_Ok id current w t tid first w' : select_target a id current w = (Ok (t, tid, first), w') ->
  w' = w /\
  (forall c d, current = Some c -> t = Some d ->
    exists v, dget (if is_activate (a_mode a) then d else c) "rollback_target_release_id" = Ok v /\
      py_eq v (if is_activate (a_mode a) then opt_val VStr id else tid) = true) /\
  (first = true -> t = None \/ current = None) /\ (t = None -> exists c, current = Some c).
Proof.
  intros E. assert (w' = w) as -> by (eapply pres_eq_run; [|exact E]; auto with pres). split; [done|].
  unfold select_target in E. destruct (a_mode a); simpl.
  - destruct (non_empty (target_release_id a)); [|done]. inv_run. same_world E0.
    destruct current as [c|]; simpl in E.
    + destruct (py_ne a1 _) eqn:Hne in E; [done|]. inv_run. simplify_eq. split; [|by split; intros].
      intros c' d [= ->] [= ->]. exists a1. split; [done|]. by apply negb_false_iff in Hne.
    + destruct (is_none a1); [|done]. inv_run. simplify_eq. split; [by intros|]. split; [by right|intros ?; simplify_eq].
  - destruct current as [c|]; [|done]. apply M_bind_Ok in E as (tid' & w1 & E1 & E).
    assert (w1 = w) as -> by (eapply pres_eq_run; [|exact E1]; solve_pres).
    destruct (is_none tid').
    + inv_run. simplify_eq. split; [by intros|]. split; [by left|by exists c].
    + inv_run. destruct (py_ne a0 tid') eqn:Hne; [done|]. inv_run. simplify_eq. split; [|by split; intros].
      intros c' d [= ->] [= ->]. exists a0. split; [done|]. by apply negb_false_iff in Hne.
Qed.

(** A preflight that passes has admitted the operation, and changed nothing: the
    duration is within its bounds, the host is ready, the database version lies in the
    range of both releases and neither wants a down migration, their configuration,
    evidence (by its digest) and credentials (by their size and permissions) are in
    place, the switch between them is declared in advance, a first transition has the
    recovery evidence of its exact commit, and an execution is approved and run as root. *)
Theorem preflight_admits w pl w' : preflight a w = (Ok pl, w') -> w' = w /\ admitted w pl.
Proof.
  intros E. assert (w' = w) as -> by (eapply pres_eq_run; [|exact E]; auto with pres). split; [done|].
  unfold preflight in E. apply M_bind_Ok in E as ([] & w1 & Ed & E).
  destruct (_ && _) eqn:Hd in Ed; [|done]. inv_run. destruct a2 as [[t tid] first].
  unfold descriptor_of in E1. same_world E0. same_world E1.
  apply select_target_Ok in E2 as (-> & Hdecl & Hfirst & Hnone).
  apply M_bind_Ok in E as ([] & w2 & Eh & E). same_world Eh.
  apply M_bind_Ok in E as (version & w3 & Ev & E). same_world Ev.
  apply M_bind_Ok in E as ([] & w4 & Et & E). same_world Et.
  apply M_bind_Ok in E as ([] & w5 & Ec & E). same_world Ec.
  apply M_bind_Ok in E as ([] & w6 & Ef & E). same_world Ef.
  apply M_bind_Ok in E as ([] & w7 & Ea & E). same_world Ea. inv_run. subst pl.
  split; simpl.
  - bool_to_prop. lia.
  - by eapply host_ready_Ok.
  - done.
  - intros d ->. by eapply release_ready_Ok.
  - intros d ->. by eapply release_ready_Ok.
  - done.
  - intros ->. unfold bound_of. simpl. destruct t as [t|]; [|destruct a1 as [c|]; [|done]];
      inv_run; subst; apply recovery_evidence_Ok in Ef2 as (ev & e & ? & ? & ? & ? & ?);
      by eexists _, _, ev, e.
  - by eapply approval_ok_Ok.
Qed.
End Admission.

(** ** The switch of a link *)

Section Switch.
Context `{Platform}.

(** The temporary name [atomic_symlink] builds a link under. *)
Definition temporary_of (link : path) : path :=
  Path.div (Path.parent link) ("." +:+ Path.name link +:+ ".new." +:+ Str.of_Z pid).

Record plain_link (link : path) (d : list string) (c t : string) : Prop := {
  pl_link : link = MkPath true (d ++ [c]);
  pl_temporary : temporary_of link = MkPath true (d ++ [t]);
  pl_dirs : ".." ∉ d; pl_name : c <> ".."; pl_temp : t <> ".."; pl_differ : t <> c
}.

Lemma plain_parent link d c t : plain_link link d c t -> Path.parent link = MkPath true d.
Proof. intros [-> _ _ _ _ _]. unfold Path.parent. simpl. by rewrite removelast_last. Qed.

Lemma atomic_symlink_steps link d c t target w : plain_link link d c t -> dirs_ok (fs w) d ->
  atomic_symlink target link w =
    switch_link d c t target w.
Proof.
  intros Hp Hd. unfold atomic_symlink. fold (temporary_of link).
  rewrite (pl_temporary _ _ _ _ Hp), (plain_parent _ _ _ _ Hp), (pl_link _ _ _ _ Hp).
  unfold switch_link, mbind at 1, M_bind at 1. rewrite mkdir_p_dirs; [done|apply Hp|done].
Qed.

(** However it ends, only the link and its temporary name may have changed. *)
Lemma atomic_symlink_changes link d c t target w : plain_link link d c t -> dirs_ok (fs w) d ->
  changes_only [d ++ [c]; d ++ [t]] w (atomic_symlink target link w).2.
Proof.
  intros Hp Hd. rewrite (atomic_symlink_steps _ d c t) by done. destruct Hp as [_ _ Hdd Hc Ht Hne].
  by apply switch_changes.
Qed.

(** When it ends normally, the link leads to the target. *)
Lemma atomic_symlink_Ok link d c t target w u w' : plain_link link d c t -> dirs_ok (fs w) d ->
  atomic_symlink target link w = (Ok u, w') -> fs w' !! (d ++ [c]) = Some (NLink (Path.to_str target)).
Proof.
  intros Hp Hd. rewrite (atomic_symlink_steps _ d c t) by done. destruct Hp as [_ _ Hdd Hc Ht Hne].
  by apply switch_Ok.
Qed.
End Switch.

(** ** The operation *)

Section Plainness.
Context `{Platform} (a : args).

Lemma mplain_run argv t : MPlain (run argv t).
Proof. unfold run. solve_plain. Qed.
#[local] Hint Resolve mplain_run : plain.
Lemma plain_services d r : Plain (services d r).
Proof. unfold services. solve_plain. Qed.
#[local] Hint Resolve plain_services : plain.
Lemma mplain_stop d s b : MPlain (stop_release d s b).
Proof. unfold stop_release, drain_release, unit_command. solve_plain. Qed.
Lemma mplain_start d s : MPlain (start_release d s).
Proof. unfold start_release, health_gate, unit_command. solve_plain. Qed.
Lemma mplain_select d l r : MPlain (select_release d l r).
Proof. unfold select_release, atomic_symlink, path_of. solve_plain. Qed.
Lemma mplain_clear l r : MPlain (clear_selection l r).
Proof. unfold clear_selection. solve_plain. Qed.
Lemma mplain_utc : MPlain utc.
Proof. apply mplain_utc_now. Qed.
#[local] Hint Resolve mplain_stop mplain_start mplain_select mplain_clear mplain_utc : plain.

Lemma mplain_operate pl t : MPlain (operate a pl t).
Proof.
  unfold operate, add_checks, add_recovery, update_activation, update_rollback. solve_plain.
Qed.
Lemma mplain_recover pl e : is_exception e = true -> MPlain (recover a pl e).
Proof.
  intros He. unfold recover, add_recovery, update_activation, update_rollback. solve_plain.
  by apply mplain_raise.
Qed.

(** The operation never raises: it ends with the documents of one of its paths. *)
Lemma recovery_failed_Ok e s : exists s', recovery_failed e s = (Ok tt, s').
Proof.
  unfold recovery_failed, add_recovery, update_rollback, update_activation, zoom_snd, utc, utc_now, now.
  destruct s as [[ch rec rb [act|]] w]; by eexists.
Qed.
Lemma operation_total pl t s : exists s', operation a pl t s = (Ok tt, s').
Proof.
  unfold operation, catch. pose proof (mplain_operate pl t s) as Ho.
  destruct (operate a pl t s) as [[[]|e] s1] eqn:E; [by eexists|].
  unfold on_any. rewrite (Ho _ _ eq_refl).
  unfold mbind at 1, M_bind at 1, add_recovery at 1, modl at 1.
  set (s2 := (_, s1.2)). pose proof (mplain_recover pl e (Ho _ _ eq_refl) s2) as Hr.
  destruct (recover a pl e s2) as [[[]|e2] s3] eqn:E2; [by eexists|].
  rewrite (Hr _ _ eq_refl). apply recovery_failed_Ok.
Qed.
End Plainness.

Section Outcomes.
Context `{Platform} (a : args) (d dr : list string) (c t cr tr : string).

(** The nodes no program the release control starts may touch: the selected link
    and the directories of the two links. *)
Definition protected : list (list string) := prefixes [] (d ++ [c]) ++ prefixes [] dr.

Context (Hcur : plain_link (current_link a) d c t) (Hrun : plain_link (runtime_config_link a) dr cr tr).
Context (Hsep : ((d ++ [c]) ∉ prefixes [] dr) /\ ((d ++ [t]) ∉ prefixes [] dr) /\
                ((dr ++ [cr]) ∉ protected) /\ ((dr ++ [tr]) ∉ protected)).
Context (Hexec : forall lg p f k, k ∈ protected -> ((exec lg p f).1.2) !! k = f !! k).

Definition dirs (w : world) : Prop := dirs_ok (fs w) d /\ dirs_ok (fs w) dr.
Definition keeps_dirs (w w' : world) : Prop := dirs w -> dirs w'.
#[local] Instance keeps_dirs_preorder : PreOrder keeps_dirs.
Proof. split; [intros w Hw; exact Hw|]. intros x y z Hx Hy Hd. by apply Hy, Hx. Qed.

Definition selected (w : world) : option node := fs w !! (d ++ [c]).

Lemma protected_link : (d ++ [c]) ∈ protected.
Proof. apply elem_of_app. left. rewrite prefixes_app. apply elem_of_app. right. by left. Qed.
Lemma protected_dirs q : q ∈ prefixes [] d \/ q ∈ prefixes [] dr -> q ∈ protected.
Proof.
  intros [Hq|Hq]; apply elem_of_app; [left|by right]. rewrite prefixes_app. apply elem_of_app. by left.
Qed.

Lemma keeps_dirs_of w w' : keeps protected w w' -> keeps_dirs w w'.
Proof.
  intros Hk [H1 H2]. split; intros q Hq.
  - destruct (H1 q Hq) as [m Hm]. exists m. apply Hk; [apply protected_dirs; by left|done].
  - destruct (H2 q Hq) as [m Hm]. exists m. apply Hk; [apply protected_dirs; by right|done].
Qed.
Lemma keeps_selected w w' n : keeps protected w w' -> selected w = Some n -> selected w' = Some n.
Proof. intros Hk Hs. apply Hk; [apply protected_link|done]. Qed.

(** *** Programs and clocks keep the protected nodes *)

Lemma kp_subprocess p : Pres (keeps protected) (subprocess_run p).
Proof using All.
  intros w k Hk n Hn. unfold subprocess_run. pose proof (Hexec (log w) p (fs w) k Hk) as E.
  destruct (exec _ _ _) as [[r f] dt]. simpl in E. destruct r; simpl; by rewrite E.
Qed.
Lemma kp_utc : Pres (keeps protected) utc.
Proof. by apply keeps_fs. Qed.
Lemma kp_monotonic : Pres (keeps protected) monotonic.
Proof. by apply keeps_fs. Qed.
#[local] Hint Resolve kp_subprocess kp_utc kp_monotonic : pres.
Lemma kp_run argv z : Pres (keeps protected) (run argv z).
Proof using All. unfold run. solve_pres. Qed.
#[local] Hint Resolve kp_run : pres.
Lemma kp_stop doc s b : Pres (keeps protected) (stop_release doc s b).
Proof using All. unfold stop_release, drain_release, unit_command. solve_pres. Qed.
Lemma kp_start doc s : Pres (keeps protected) (start_release doc s).
Proof using All. unfold start_release, health_gate, unit_command. solve_pres. Qed.

(** *** The selection *)

Lemma current_changes target w : dirs w -> keeps_dirs w (atomic_symlink target (current_link a) w).2.
Proof using All.
  intros [H1 H2] _. pose proof (atomic_symlink_changes _ d c t target w Hcur H1) as Hch.
  destruct Hsep as (S1 & S2 & _ & _).
  split; (eapply changes_dirs; [exact Hch| |done]); intros k Hk; apply elem_of_cons in Hk as [->|Hk];
    try apply list_elem_of_singleton in Hk as ->; done || apply child_not_prefix.
Qed.

Lemma runtime_keeps target w : dirs w -> keeps protected w (atomic_symlink target (runtime_config_link a) w).2.
Proof using All.
  intros [H1 H2]. eapply changes_keeps; [by eapply (atomic_symlink_changes _ dr cr tr)|].
  destruct Hsep as (_ & _ & S3 & S4). intros k Hk. apply elem_of_cons in Hk as [->|Hk]; [done|].
  by apply list_elem_of_singleton in Hk as ->.
Qed.
Lemma runtime_unlink_keeps w : dirs w -> keeps protected w (unlink_missing_ok (runtime_config_link a) w).2.
Proof using All.
  intros [H1 H2]. destruct Hrun as [-> _ Hdd Hc _ _]. destruct Hsep as (_ & _ & S3 & _).
  by apply keeps_unlink.
Qed.

Lemma select_dirs doc w : dirs w -> keeps_dirs w (select_release doc (current_link a) (runtime_config_link a) w).2.
Proof using All.
  intros Hd _. unfold select_release, mbind, M_bind, lift.
  destruct (getitem doc "release_path") as [rp|]; [|done]. destruct (path_of rp) as [p|]; [|done].
  pose proof (current_changes p w Hd Hd) as H1.
  destruct (atomic_symlink p (current_link a) w) as [[[]|e] w1]; simpl in H1; [|done].
  destruct (getitem doc "runtime_config_path") as [rc|]; [|done]. destruct (is_none rc).
  - by apply (keeps_dirs_of w1); [apply runtime_unlink_keeps|].
  - destruct (path_of rc) as [q|]; [|done]. by apply (keeps_dirs_of w1); [apply runtime_keeps|].
Qed.

(** A release that has been selected is what the link leads to. *)
Lemma select_Ok doc w u w' : dirs w ->
  select_release doc (current_link a) (runtime_config_link a) w = (Ok u, w') ->
  exists rp p, getitem doc "release_path" = Ok rp /\ path_of rp = Ok p /\
    selected w' = Some (NLink (Path.to_str p)).
Proof using All.
  intros Hd E. unfold select_release in E. inv_run. exists a0, a1. split; [done|]. split; [done|].
  pose proof (current_changes a1 w Hd Hd) as Hd1. rewrite E2 in Hd1. simpl in Hd1.
  apply (atomic_symlink_Ok _ d c t) in E2; [|done|apply Hd].
  eapply keeps_selected; [|exact E2].
  destruct (is_none a3).
  - pose proof (runtime_unlink_keeps _ Hd1) as Hk. by rewrite E in Hk.
  - inv_run. pose proof (runtime_keeps a4 _ Hd1) as Hk. by rewrite E in Hk.
Qed.

Lemma clear_dirs w : dirs w -> keeps_dirs w (clear_selection (current_link a) (runtime_config_link a) w).2.
Proof using All.
  intros Hd _. unfold clear_selection, mbind, M_bind.
  assert (dirs (unlink_missing_ok (current_link a) w).2) as H1.
  { destruct Hcur as [-> _ Hdd Hc _ _]. destruct Hd as [H1 H2]. destruct Hsep as (S1 & _).
    pose proof (co_unlink w d c Hdd Hc H1) as C.
    split; (eapply changes_dirs; [exact C| |done]); intros k ->%list_elem_of_singleton;
      done || apply child_not_prefix. }
  destruct (unlink_missing_ok (current_link a) w) as [[[]|e] w1]; simpl in H1; [|done].
  by apply (keeps_dirs_of w1); [apply runtime_unlink_keeps|].
Qed.
Lemma clear_Ok w u w' : dirs w ->
  clear_selection (current_link a) (runtime_config_link a) w = (Ok u, w') -> selected w' = None.
Proof using All.
  intros Hd E. unfold clear_selection in E. apply M_bind_Ok in E as ([] & w1 & E1 & E2).
  rewrite (pl_link _ _ _ _ Hcur) in E1. rewrite (pl_link _ _ _ _ Hrun) in E2.
  destruct Hcur as [_ _ Hdd Hc _ _]. destruct Hrun as [_ _ Hdd' Hc' _ _]. destruct Hd as [H1 H2].
  pose proof (co_unlink w d c Hdd Hc H1) as C. rewrite E1 in C. simpl in C.
  destruct (unlink_Ok _ _ _ _ _ Hdd Hc H1 E1) as (Hn & _ & _).
  assert (dirs_ok (fs w1) dr) as Hd1.
  { eapply changes_dirs; [exact C| |exact H2]. intros k ->%list_elem_of_singleton. apply Hsep. }
  pose proof (co_unlink w1 dr cr Hdd' Hc' Hd1) as C2. rewrite E2 in C2. unfold selected.
  rewrite C2; [done|]. intros Hk%list_elem_of_singleton. destruct Hsep as (_ & _ & S3 & _).
  apply S3. rewrite <-Hk. apply protected_link.
Qed.

(** *** The documents *)

Definition says (doc : val) (k s : string) : Prop := getitem doc k = Ok (VStr s).
Definition is_dict_op (o : op) : Prop :=
  (exists rb, o_rollback o = VDict rb) /\ exists ac, o_activation o = Some (VDict ac).

Lemma says_update u v k s : (exists l, v = VDict l) -> Dict.lookup k (rev u) = Some (VStr s) ->
  says (vupdate u v) k s.
Proof.
  intros [l ->]. unfold says, vupdate, getitem, Dict.update. rewrite <-fold_left_rev_right.
  induction (rev u) as [|[k' v'] r IH]; [done|]. simpl. destruct (String.eqb_spec k k') as [->|Hne].
  - intros [= ->]. by rewrite Dict.lookup_set.
  - intros Hr. rewrite Dict.lookup_set_ne by congruence. by apply IH.
Qed.
Lemma says_update_ne u v k s : Dict.lookup k (rev u) = None -> says v k s -> says (vupdate u v) k s.
Proof.
  destruct v as [| | | | | |l]; try done. unfold says, vupdate, getitem, Dict.update.
  rewrite <-fold_left_rev_right. intros Hu Hs. induction (rev u) as [|[k' v'] r IH]; [done|].
  simpl in *. destruct (String.eqb_spec k k') as [->|Hne]; [done|].
  rewrite Dict.lookup_set_ne by congruence. by apply IH.
Qed.

(** The documents stay dictionaries. *)
Definition keeps_docs (s s' : op * world) : Prop := is_dict_op s.1 -> is_dict_op s'.1.
#[local] Instance keeps_docs_preorder : PreOrder keeps_docs.
Proof. split; [by intros s Hs|]. intros x y z Hx Hy Hd. by apply Hy, Hx. Qed.
Lemma kd_zoom {A} (m : IO A) : Pres keeps_docs (zoom_snd m).
Proof. intros [o w]. unfold zoom_snd, keeps_docs. simpl. by destruct (m w). Qed.
Lemma kd_add_checks l : Pres keeps_docs (add_checks l).
Proof. intros s Hs. exact Hs. Qed.
Lemma kd_add_recovery l : Pres keeps_docs (add_recovery l).
Proof. intros s Hs. exact Hs. Qed.
Lemma kd_rollback u : Pres keeps_docs (update_rollback u).
Proof. intros [[ch rec rb ac] w] [[l Hl] Hac]. simpl in *. subst. split; [by eexists|done]. Qed.
Lemma kd_activation u : Pres keeps_docs (update_activation u).
Proof. intros [[ch rec rb ac] w] [Hrb [l Hl]]. simpl in *. subst. split; [done|by eexists]. Qed.
#[local] Hint Resolve kd_zoom kd_add_checks kd_add_recovery kd_rollback kd_activation : pres.

(** The directories of the links survive every statement. *)
Definition snd_dirs : op * world -> op * world -> Prop := on_snd keeps_dirs.
#[local] Instance snd_dirs_preorder : PreOrder snd_dirs.
Proof. apply on_snd_preorder, _. Qed.
Lemma sd_keeps {A} (m : IO A) : Pres (keeps protected) m -> Pres snd_dirs (zoom_snd m).
Proof.
  intros Hm [o w]. specialize (Hm w). unfold zoom_snd, snd_dirs, on_snd. simpl.
  destruct (m w) as [r w']. by apply keeps_dirs_of.
Qed.
Lemma sd_modl f : Pres snd_dirs (modl f).
Proof. intros s. unfold snd_dirs. simpl. reflexivity. Qed.
Lemma sd_select doc : Pres snd_dirs (zoom_snd (select_release doc (current_link a) (runtime_config_link a))).
Proof using All.
  intros [o w] Hd. pose proof (select_dirs doc w Hd Hd) as H1. unfold zoom_snd. simpl.
  by destruct (select_release doc _ _ w).
Qed.
Lemma sd_clear : Pres snd_dirs (zoom_snd (clear_selection (current_link a) (runtime_config_link a))).
Proof using All.
  intros [o w] Hd. pose proof (clear_dirs w Hd Hd) as H1. unfold zoom_snd. simpl.
  by destruct (clear_selection _ _ w).
Qed.
#[local] Hint Resolve kp_stop kp_start sd_keeps sd_modl sd_select sd_clear : pres.
Lemma sd_operate pl z : Pres snd_dirs (operate a pl z).
Proof using All.
  unfold operate, add_checks, add_recovery, update_activation, update_rollback. solve_pres.
Qed.
Lemma kd_operate pl z : Pres keeps_docs (operate a pl z).
Proof. unfold operate. solve_pres. Qed.
Lemma kd_recover pl e : Pres keeps_docs (recover a pl e).
Proof. unfold recover. solve_pres. Qed.

(** The link leads to the release of a descriptor. *)
Definition selects (doc : val) (w : world) : Prop :=
  exists rp p, getitem doc "release_path" = Ok rp /\ path_of rp = Ok p /\
    selected w = Some (NLink (Path.to_str p)).

(** Its services were started and its health gate passed while it was selected. *)
Definition started_healthy (doc : val) : Prop :=
  exists w1 w2 checks, selects doc w1 /\ start_release doc (a_systemctl a) w1 = (Ok checks, w2).

Lemma selects_keep doc w w' : keeps protected w w' -> selects doc w -> selects doc w'.
Proof. intros Hk (rp & p & ? & ? & Hs). exists rp, p. split; [done|]. split; [done|]. by eapply keeps_selected. Qed.

(** A statement that leaves the selection and the kind of the documents alone. *)
Definition steady (s s' : op * world) : Prop := keeps_docs s s' /\ keeps protected s.2 s'.2.
#[local] Instance steady_preorder : PreOrder steady.
Proof.
  split; [by intros s; split; [reflexivity|]|]. intros x y z [? ?] [? ?]. split; by etransitivity.
Qed.
Lemma st_zoom {A} (m : IO A) : Pres (keeps protected) m -> Pres steady (zoom_snd m).
Proof.
  intros Hm s. split; [apply kd_zoom|]. specialize (Hm s.2). unfold zoom_snd. by destruct (m s.2).
Qed.
Lemma st_add_checks l : Pres steady (add_checks l).
Proof. intros s. split; [apply kd_add_checks|]. reflexivity. Qed.
Lemma st_add_recovery l : Pres steady (add_recovery l).
Proof. intros s. split; [apply kd_add_recovery|]. reflexivity. Qed.
Lemma st_rollback f : Pres steady (update_rollback f).
Proof. intros s. split; [apply kd_rollback|]. reflexivity. Qed.
Lemma st_activation f : Pres steady (update_activation f).
Proof. intros s. split; [apply kd_activation|]. reflexivity. Qed.
#[local] Hint Resolve st_zoom st_add_checks st_add_recovery st_rollback st_activation : pres.

Ltac steady_step H :=
  match type of H with ?m _ = _ =>
    let P := fresh in assert (Pres steady m) as P by solve_pres;
    let Q := fresh "St" in pose proof (pres_run steady _ _ _ _ P H) as Q; clear P
  end.

Lemma steady_selects doc s s' : steady s s' -> selects doc s.2 -> selects doc s'.2.
Proof. intros [_ Hk]. by apply selects_keep. Qed.
Lemma steady_docs s s' : steady s s' -> is_dict_op s.1 -> is_dict_op s'.1.
Proof. by intros [Hd _]. Qed.

Lemma operate_activated pl z s u s' target : a_mode a = Activate -> p_target pl = Some target ->
  dirs s.2 -> is_dict_op s.1 -> operate a pl z s = (Ok u, s') ->
  selects target s'.2 /\ started_healthy target /\
  exists act, o_activation s'.1 = Some act /\ says act "status" "passed" /\ says act "state" "health-gated".
Proof using All.
  intros Hm Ht Hd Hdoc E. unfold operate in E. rewrite Hm, Ht in E.
  apply M_bind_Ok in E as ([] & s1 & E1 & E).
  assert (dirs s1.2 /\ is_dict_op s1.1) as [Hd1 Hdoc1].
  { split.
    - eapply (pres_run snd_dirs); [|exact E1|exact Hd]. unfold add_checks. solve_pres.
    - eapply (pres_run keeps_docs); [|exact E1|exact Hdoc]. solve_pres. }
  apply M_bind_Ok in E as ([] & s2 & E2 & E). apply zoom_Ok in E2 as [E2 Eo2].
  apply select_Ok in E2; [|done]. fold (selects target s2.2) in E2.
  assert (is_dict_op s2.1) as Hdoc2 by (by rewrite Eo2).
  apply M_bind_Ok in E as (rp & s3 & E3 & E). apply lift_Ok in E3 as [_ ->].
  apply M_bind_Ok in E as (rc & s4 & E4 & E). apply lift_Ok in E4 as [_ ->].
  apply M_bind_Ok in E as ([] & s5 & E5 & E). steady_step E5.
  apply M_bind_Ok in E as (l & s6 & E6 & E). steady_step E6.
  apply zoom_Ok in E6 as [E6 _]. pose proof (steady_selects _ _ _ St E2) as Hsel.
  apply M_bind_Ok in E as ([] & s7 & E7 & E). steady_step E7.
  apply M_bind_Ok in E as (fin & s8 & E8 & E). steady_step E8.
  apply M_bind_Ok in E as ([] & s9 & E9 & E). steady_step E9.
  apply M_bind_Ok in E as (now & s10 & E10 & E). steady_step E10.
  apply M_bind_Ok in E as ([] & s11 & E11 & E). steady_step E11. steady_step E.
  assert (steady s2 s10) as St10 by (do 6 (etransitivity; [eassumption|]); reflexivity).
  assert (steady s10 s') as St' by (etransitivity; eassumption).
  split; [by eapply steady_selects; [exact St'|]; eapply steady_selects|].
  split; [by exists s5.2, s6.2, l|]. destruct (steady_docs _ _ St10 Hdoc2) as [_ [ac Hac]].
  apply modl_Ok in E11, E. subst. cbn [fst o_activation]. rewrite Hac.
  eexists. split; [reflexivity|].
  split; (apply says_update; [by eexists|done]).
Qed.

(** The two documents after an activation. *)
Definition documents_say (o : op) (status state rollback : string) : Prop :=
  exists act, o_activation o = Some act /\ says act "status" status /\ says act "state" state /\
    says (o_rollback o) "status" rollback.

Lemma documents_updated o o' u v status state rollback : is_dict_op o ->
  o_rollback o' = vupdate u (o_rollback o) -> o_activation o' = vupdate v <$> o_activation o ->
  Dict.lookup "status" (rev u) = Some (VStr rollback) -> Dict.lookup "status" (rev v) = Some (VStr status) ->
  Dict.lookup "state" (rev v) = Some (VStr state) -> documents_say o' status state rollback.
Proof.
  intros [[rb Hrb] [ac Hac]] Hr Ha Hu Hv Hv'. unfold documents_say. rewrite Hr, Ha, Hac, Hrb.
  eexists. split; [reflexivity|]. repeat split; (apply says_update; [by eexists|done]).
Qed.

Lemma fs_utc (s : op * world) r s' : zoom_snd utc s = (r, s') -> fs s'.2 = fs s.2.
Proof. by intros [= _ <-]. Qed.

Lemma recover_Ok pl e s u s' : a_mode a = Activate -> dirs s.2 -> is_dict_op s.1 ->
  recover a pl e s = (Ok u, s') ->
  documents_say s'.1 "failed" "rolled-back" "passed" /\
  match p_current pl with
  | Some cur => selects cur s'.2 /\ started_healthy cur
  | None => selected s'.2 = None
  end.
Proof using All.
  intros Hm Hd Hdoc E. unfold recover in E. rewrite Hm in E. destruct (p_target pl) as [target|]; [|done].
  apply M_bind_Ok in E as (l & s1 & E1 & E). steady_step E1.
  assert (dirs s1.2) as Hd1.
  { eapply (pres_run snd_dirs); [|exact E1|exact Hd]. solve_pres. }
  pose proof (steady_docs _ _ St Hdoc) as Hdoc1.
  apply M_bind_Ok in E as ([] & s2 & E2 & E).
  apply M_bind_Ok in E as (t1 & s3 & E3 & E). steady_step E3.
  apply M_bind_Ok in E as ([] & s4 & E4 & E). steady_step E4.
  apply M_bind_Ok in E as (t2 & s5 & E5 & E). steady_step E5.
  steady_step E.
  assert (steady s2 s') as St' by (do 3 (etransitivity; [eassumption|]); assumption).
  assert (is_dict_op s2.1 /\ match p_current pl with
                             | Some cur => selects cur s2.2 /\ started_healthy cur
                             | None => selected s2.2 = None /\ dirs s2.2
                             end) as [Hdoc2 Hsel].
  { destruct (p_current pl) as [cur|].
    - apply M_bind_Ok in E2 as ([] & s6 & E6 & E2). apply zoom_Ok in E6 as [E6 Eo6].
      apply select_Ok in E6; [|done]. fold (selects cur s6.2) in E6.
      apply M_bind_Ok in E2 as (l2 & s7 & E7 & E2). steady_step E7. steady_step E2.
      apply zoom_Ok in E7 as [E7 _]. rewrite <-Eo6 in Hdoc1.
      split; [eapply steady_docs; [eassumption|]; by eapply steady_docs|].
      split; [eapply steady_selects; [eassumption|]; by eapply steady_selects|by exists s6.2, s7.2, l2].
    - apply M_bind_Ok in E2 as ([] & s6 & E6 & E2). steady_step E2.
      pose proof (sd_clear s1 Hd1) as Hd6. rewrite E6 in Hd6. simpl in Hd6.
      apply zoom_Ok in E6 as [E6 Eo6]. apply clear_Ok in E6; [|done]. rewrite <-Eo6 in Hdoc1.
      split; [by eapply steady_docs|]. apply modl_Ok in E2 as ->. done. }
  split.
  - apply modl_Ok in E. apply zoom_Ok in E5 as [_ Eo5]. apply modl_Ok in E4. apply zoom_Ok in E3 as [_ Eo3].
    subst s' s4. eapply documents_updated; [exact Hdoc2|..].
    + cbn [fst o_rollback]. rewrite Eo5. cbn [fst o_rollback]. rewrite Eo3. reflexivity.
    + cbn [fst o_activation]. rewrite Eo5. cbn [fst o_activation]. rewrite Eo3. reflexivity.
    + done.
    + done.
    + done.
  - destruct (p_current pl) as [cur|].
    + destruct Hsel. split; [by eapply steady_selects|done].
    + destruct Hsel as [Hn _]. apply fs_utc in E3, E5. apply modl_Ok in E, E4. unfold selected in *.
      subst s' s4. cbn [snd] in *. by rewrite E5, E3.
Qed.

Lemma recovery_failed_says e s u s' : is_dict_op s.1 -> recovery_failed e s = (Ok u, s') ->
  documents_say s'.1 "failed" "activation-failed" "failed".
Proof.
  intros Hdoc E. unfold recovery_failed in E.
  apply M_bind_Ok in E as ([] & s1 & E1 & E). apply M_bind_Ok in E as (t1 & s2 & E2 & E).
  apply M_bind_Ok in E as ([] & s3 & E3 & E). apply M_bind_Ok in E as (o & s4 & E4 & E).
  apply getl_Ok in E4 as [-> ->]. apply modl_Ok in E1, E3. apply zoom_Ok in E2 as [_ Eo2]. subst s3. subst s1.
  cbn [fst snd] in *. destruct Hdoc as [[rb Hrb] [ac Hac]]. rewrite Eo2 in E. cbn [fst o_activation] in E.
  rewrite Hac in E. apply M_bind_Ok in E as (t2 & s5 & E5 & E). apply modl_Ok in E.
  apply zoom_Ok in E5 as [_ Eo5]. subst s'.
  eapply (documents_updated s.1); [split; by eexists|..].
  + cbn [fst o_rollback]. rewrite Eo5. cbn [fst o_rollback]. reflexivity.
  + cbn [fst o_activation]. rewrite Eo5. cbn [fst o_activation]. by rewrite Hac.
  + done.
  + done.
  + done.
Qed.

(** What an activation comes to: it is passed and the target is selected; or the
    release that was selected before is selected again; or the recovery has failed
    as well, and both documents say so. *)
Inductive activation_outcome (pl : plan) (target : val) (o : op) (w : world) : Prop :=
  | activated : selects target w -> started_healthy target ->
      (exists act, o_activation o = Some act /\ says act "status" "passed" /\ says act "state" "health-gated") ->
      activation_outcome pl target o w
  | rolled_back : documents_say o "failed" "rolled-back" "passed" ->
      match p_current pl with
      | Some cur => selects cur w /\ started_healthy cur
      | None => selected w = None
      end -> activation_outcome pl target o w
  | recovery_failed_too : documents_say o "failed" "activation-failed" "failed" ->
      activation_outcome pl target o w.

(** C4: An activation that has started always ends in one of three ways, whatever the
    services, the drain and the health gate do: passed, with the link on the target
    whose services were started and whose health gate passed while it was selected;
    failed and rolled back, with the link on the previous release, restarted and
    healthy (or with no link, for a first release); or failed with the recovery
    failed, and then both documents say so. The operation itself never raises. *)
Theorem activation_outcomes pl target z o w : a_mode a = Activate -> p_target pl = Some target ->
  dirs w -> is_dict_op o ->
  exists o' w', operation a pl z (o, w) = (Ok tt, (o', w')) /\ activation_outcome pl target o' w'.
Proof using All.
  intros Hm Ht Hd Hdoc. destruct (operation_total a pl z (o, w)) as [[o' w'] E].
  exists o', w'. split; [done|]. unfold operation in E.
  apply catch_Ok in E as [E|(e & s1 & k & E1 & Hk & E)].
  - apply operate_activated with (target := target) in E as (Hs & Hh & Hact); [|done..].
    by apply activated.
  - unfold on_any in Hk. destruct (is_exception e); [|done]. injection Hk as <-.
    assert (dirs s1.2) as Hd1 by (eapply (pres_run snd_dirs); [apply sd_operate|exact E1|exact Hd]).
    assert (is_dict_op s1.1) as Hdoc1 by (eapply (pres_run keeps_docs); [apply kd_operate|exact E1|exact Hdoc]).
    apply M_bind_Ok in E as ([] & s2 & E2 & E). steady_step E2. pose proof (steady_docs _ _ St Hdoc1) as Hdoc2.
    assert (dirs s2.2) as Hd2 by (by apply modl_Ok in E2 as ->).
    apply catch_Ok in E as [E|(e2 & s3 & k & E3 & Hk & E)].
    + apply recover_Ok in E as [? ?]; [|done..]. by apply rolled_back.
    + unfold on_any in Hk. destruct (is_exception e2); [|done]. injection Hk as <-.
      apply recovery_failed_too. apply (recovery_failed_says e2 s3 tt (o', w')); [|exact E].
      eapply (pres_run keeps_docs); [apply kd_recover|exact E3|exact Hdoc2].
Qed.

(** The automatic recovery of a failed activation stops at the first service of the
    target that does not stop: it raises that failure and leaves the selected link as
    it was, for a first release too, whose links are then not removed. *)
Theorem failed_stop_keeps_selection pl target e e2 o w w2 n : a_mode a = Activate ->
  p_target pl = Some target -> stop_release target (a_systemctl a) false w = (Raise e2, w2) ->
  selected w = Some n ->
  recover a pl e (o, w) = (Raise e2, (o, w2)) /\ selected w2 = Some n.
Proof using All.
  intros Hm Ht Hs Hn. split.
  - unfold recover. rewrite Hm, Ht. unfold mbind, M_bind at 1, zoom_snd. cbn [snd fst]. by rewrite Hs.
  - eapply keeps_selected; [|exact Hn]. eapply pres_run; [apply kp_stop|exact Hs].
Qed.
End Outcomes.
End ReleaseSpec.

(** ** An activation of [r2] over [r1] *)

Module ReleaseRun.
Import ReleaseControl ReleaseSpec Fixture.

Definition evidence_text : string := "expand-compatible".
Definition release (id previous : string) : val :=
  VDict [("release_id", VStr id); ("git_sha", VStr "abc"); ("rollback_target_release_id", VStr previous);
    ("release_path", VStr ("/opt/liqi/releases/" +:+ id)); ("runtime_config_path", VNone);
    ("source_manifest", rec [("sha256", "m")]);
    ("database_compatibility", VDict [("minimum_migration", VInt 3); ("rollback_safe_through", VInt 9);
                                      ("database_rollback_allowed", VBool false)]);
    ("database_compatibility_evidence", rec [("retained_path", "/e/db.txt");
                                             ("sha256", Sha256.hexdigest evidence_text)]);
    ("configuration_paths", VStrs ["/etc/liqi/app.json"]); ("credential_directory", VStr "/c");
    ("required_credentials", VStrs ["key"]); ("drain", VDict [("argv", VStrs ["drain"]); ("timeout_seconds", VInt 5)]);
    ("services", VList [VDict [("unit", VStr "liqi.service"); ("start_order", VInt 1); ("stop_timeout_seconds", VInt 5)]]);
    ("health", VDict [("argv", VStrs ["health"]); ("timeout_seconds", VInt 5)])].

Definition files : list (string * string) :=
  [("/repo/contracts/deployment/release-target-v1.schema.json", "{}");
   ("/repo/contracts/deployment/rollback-v1.schema.json", "{}");
   ("/repo/contracts/deployment/activation-v1.schema.json", "{}");
   ("/repo/contracts/infrastructure/host-runtime-v1.schema.json", "{}");
   ("/d/r1.json", json (release "r1" "r0")); ("/d/r2.json", json (release "r2" "r1"));
   ("/e/db.txt", evidence_text); ("/etc/liqi/app.json", "{}"); ("/etc/liqi/runtime/keep", "");
   ("/opt/liqi/releases/r1/VERSION", "1"); ("/opt/liqi/releases/r2/VERSION", "2");
   ("/e/host.json", "{'status':'ready'}"); ("/e/ready.json", "")].

Definition ready : val :=
  VDict [("schemaVersion", VStr "database-readiness-v0"); ("ready", VBool true); ("reason", VStr "ready");
         ("currentVersion", VInt 7)].

Definition w0 : world :=
  let w := world_with files in
  let f := add_file (add_file (fs w) ("/e/host.json", json (rec [("status", "ready")]))) ("/e/ready.json", json ready) in
  let f := <[["c"; "key"] := NFile "k" (Meta 256 0 0)]> (<[["c"] := NDir (Meta 448 0 0)]> f) in
  set_fs (<[["opt"; "liqi"; "current"] := NLink "/opt/liqi/releases/r1"]> f) w.

Definition the_args (run : bool) : args := {|
  a_mode := Activate; target_release_id := Some "r2"; deployment_id := "dep"; descriptor_dir := Path.of_str "/d";
  current_link := Path.of_str "/opt/liqi/current"; runtime_config_link := Path.of_str "/etc/liqi/runtime/current.json";
  host_readiness := Path.of_str "/e/host.json"; database_readiness := Path.of_str "/e/ready.json";
  first_release_recovery := None; a_systemctl := "systemctl"; maximum_duration_seconds := 300;
  approval_reference := Some "CHG-1"; execute := run; activation_output := Some (Path.of_str "/out/a.json");
  rollback_output := Path.of_str "/out/r.json" |}.

Definition the_plan : plan :=
  Plan (Some "r1") (Some (release "r1" "r0")) (Some (release "r2" "r1")) (VStr "r2") false 7.

(** The two links of this host are plain and apart, on any host of the fixture. *)
Lemma the_current_link run b : plain_link (H := host_with run) (current_link (the_args b)) ["opt"; "liqi"] "current" ".current.new.4242".
Proof.
  split; first [done | vm_compute; reflexivity | by apply (bool_decide_eq_false_1 (".." ∈ ["opt"; "liqi"]))].
Qed.
Lemma the_runtime_link run b : plain_link (H := host_with run) (runtime_config_link (the_args b))
  ["etc"; "liqi"; "runtime"] "current.json" ".current.json.new.4242".
Proof.
  split; first [done | vm_compute; reflexivity
               | by apply (bool_decide_eq_false_1 (".." ∈ ["etc"; "liqi"; "runtime"]))].
Qed.
Lemma the_links_apart :
  let d := ["opt"; "liqi"] in let dr := ["etc"; "liqi"; "runtime"] in
  ((d ++ ["current"]) ∉ prefixes [] dr) /\ ((d ++ [".current.new.4242"]) ∉ prefixes [] dr) /\
  ((dr ++ ["current.json"]) ∉ protected d dr "current") /\
  ((dr ++ [".current.json.new.4242"]) ∉ protected d dr "current").
Proof.
  simpl. unfold protected.
  repeat split; match goal with |- ~ ?P => apply (bool_decide_eq_false_1 P); vm_compute; reflexivity end.
Qed.

#[local] Existing Instance quiet_host.

Lemma dry_run_mutates_nothing_witness : log (main (the_args false) w0).2 = log w0 /\
  forall k t, fs (main (the_args false) w0).2 !! k = Some (NLink t) <-> fs w0 !! k = Some (NLink t).
Proof. by apply dry_run_mutates_nothing. Defined.

Lemma preflight_admits_witness : preflight (the_args true) w0 = (Ok the_plan, w0) /\
  admitted (the_args true) w0 the_plan.
Proof.
  assert ((preflight (the_args true) w0).1 = Ok the_plan) as E by (vm_compute; reflexivity).
  destruct (preflight (the_args true) w0) as [r w'] eqn:Ew. simpl in E. subst r.
  destruct (preflight_admits _ _ _ _ Ew) as [-> Ha]. by split.
Defined.

Lemma activation_outcomes_witness :
  let o := Op [] [] (VDict []) (Some (VDict [])) in
  exists o' w', operation (the_args true) the_plan t0 (o, w0) = (Ok tt, (o', w')) /\
    activation_outcome (the_args true) ["opt"; "liqi"] "current" the_plan (release "r2" "r1") o' w'.
Proof.
  apply (activation_outcomes (the_args true) ["opt"; "liqi"] ["etc"; "liqi"; "runtime"] "current"
    ".current.new.4242" "current.json" ".current.json.new.4242");
    [apply the_current_link|apply the_runtime_link|apply the_links_apart|done..| |split; by eexists].
  split; apply dirs_okb_true; vm_compute; reflexivity.
Defined.

(** A host on which every program fails. *)
Definition failing_host : Platform := host_with (λ _ _ f, (Exited 1 "" "busy", f, 1000)).
Definition first_plan : plan := Plan None None (Some (release "r1" "r0")) (VStr "r1") true 7.

Lemma failed_stop_keeps_selection_witness : let o := Op [] [] (VDict []) (Some (VDict [])) in
  exists e2 w2, recover (H := failing_host) (the_args true) first_plan (Exn RuntimeError "start failed") (o, w0)
      = (Raise e2, (o, w2)) /\
    selected ["opt"; "liqi"] "current" w2 = Some (NLink "/opt/liqi/releases/r1").
Proof.
  destruct (stop_release (H := failing_host) (release "r1" "r0") "systemctl" false w0) as [r w2] eqn:E.
  assert (r = Raise (Exn RuntimeError "stop failed for liqi.service: busy")) as ->.
  { change r with ((r, w2).1). rewrite <-E. vm_compute. reflexivity. }
  exists (Exn RuntimeError "stop failed for liqi.service: busy"), w2.
  apply (failed_stop_keeps_selection (H := failing_host) (the_args true) ["opt"; "liqi"] ["etc"; "liqi"; "runtime"]
    "current" ".current.new.4242" "current.json" ".current.json.new.4242") with (target := release "r1" "r0");
    [apply the_current_link|apply the_runtime_link|apply the_links_apart|done..|].
  vm_compute. reflexivity.
Defined.
End ReleaseRun.
