(* ===== verification/ActivateRelease.v ===== *)
(** * scripts/release/activate_release.py

    The activation of a staged release on one node, gated by health: a plan by
    default, and with [--execute] the installation, the switch of the link, the
    restart, the health gate, and the bounded rollback of a failure. *)

From Stdlib Require Import Ascii.
From S2P Require Import Prelude PyFloat PyMonad PyValue PyTime PyJson Sha256 PyOs Fixture.

Module ActivateRelease.

Definition REQUIRED_HOST_CHECKS : list string :=
  ["runtime_identities"; "runtime_directories"; "data_volume_mounted"; "swap_disabled";
   "selinux_enforcing"; "firewall_policy"; "ssh_root_disabled"; "ssh_password_auth_disabled";
   "legacy_imds_disabled"; "capacity_controls"; "runtime_service_units"; "edge_fail_closed"].

(** ** The two readiness documents *)

Definition expect_equal (document : val) (key : string) (value : val) : res (list string) :=
  got ← dget document key;
  Ok (if py_ne got value
      then ["host readiness " +:+ key +:+ " expected " +:+ repr value +:+ ", got " +:+ repr got] else []).

Definition host_check_failures (required : list string) (d : list (string * val)) : list string :=
  let missing := sort_strings (List.filter (λ n, negb (Dict.mem n d)) required) in
  let failed := sort_strings
    (List.filter (λ n, py_ne (default VNone (Dict.lookup n d)) (VStr "pass")) required) in
  (match missing with [] => [] | _ => ["host readiness missing checks: " +:+ repr_strs missing] end)
  ++ (match failed with [] => [] | _ => ["host readiness checks not passed: " +:+ repr_strs failed] end).

Definition validate_host_readiness (document spec : val) : res (list string) :=
  if negb (is_dict document) then Ok ["host readiness must be a JSON object"]
  else
    v1 ← item spec ["target"; "host_schema_version"];
    v2 ← item spec ["target"; "host_output_version"];
    v3 ← item spec ["target"; "host_bootstrap_version"];
    f1 ← rmap (λ kv, expect_equal document kv.1 kv.2)
      [("schema_version", VStr "liqi.platform.host-readiness/v0"); ("host_contract_schema_version", v1);
       ("infrastructure_output_version", v2); ("bootstrap_version", v3); ("status", VStr "ready");
       ("architecture", VStr "aarch64")];
    checks ← dget document "checks";
    f2 ← (match checks with
          | VDict d => Ok (host_check_failures REQUIRED_HOST_CHECKS d)
          | _ => Ok ["host readiness checks must be an object"]
          end);
    volume ← dget_or document "data_volume" (VDict []);
    mount ← dget volume "mount_path";
    bad ← (if py_ne mount (VStr "/var/lib/liqi") then Ok true
           else uuid ← dget volume "source_uuid"; Ok (negb (truthy uuid)));
    Ok (concat f1 ++ f2
        ++ (if bad : bool then ["host readiness does not prove the /var/lib/liqi data volume mount"] else [])).

(** [normalize_version]: [int(str(value))], or nothing. *)
Definition normalize_version (value : val) : option Z :=
  match py_int (VStr (py_str value)) with Ok z => Some z | Raise _ => None end.

Definition version_failures (current required spec_required : option Z) : list string :=
  match current, required, spec_required with
  | Some c, Some r, Some s =>
      (if negb (r =? s) then ["database requiredVersion " +:+ Str.of_Z r +:+ " does not match deployment "
                              +:+ Str.of_Z s] else [])
      ++ (if c <? r then ["database currentVersion " +:+ Str.of_Z c +:+ " is below requiredVersion "
                          +:+ Str.of_Z r] else [])
  | _, _, _ => ["database migration versions must be decimal integers"]
  end.

Definition validate_database_readiness (document spec : val) : res (list string) :=
  if negb (is_dict document) then Ok ["database readiness must be a JSON object"]
  else
    cv ← dget document "contractVersion"; db ← dget document "database";
    ready ← dget document "ready"; reason ← dget document "reason";
    current ← dget document "currentVersion"; required ← dget document "requiredVersion";
    spec_required ← item spec ["preflight"; "required_database_migration"];
    observed ← dget document "observedAt";
    Ok ((if py_ne cv (VStr "database-v0") then ["database readiness contractVersion must be database-v0"] else [])
     ++ (if py_ne db (VStr "liqi") then ["database readiness must target database liqi"] else [])
     ++ (if negb (is_true ready) || py_ne reason (VStr "ready")
         then ["database is not ready: " +:+ repr reason] else [])
     ++ version_failures (normalize_version current) (normalize_version required) (normalize_version spec_required)
     ++ (if truthy observed then [] else ["database readiness observedAt is required"])).

(** ** Actions *)

Definition action (sequence : Z) (name : string) (target : val) : val :=
  VDict [("sequence", VInt sequence); ("action", VStr name); ("target", target); ("status", VStr "planned");
         ("duration_ms", VInt 0); ("error", VNone)].

(** [sorted(spec["services"], key=lambda item: item["start_order"], reverse=...)] *)
Definition services (spec : val) (reverse : bool) : res (list val) :=
  s ← getitem spec "services"; l ← py_iter s;
  keyed ← rmap (λ it, k ← getitem it "start_order"; Ok (k, it)) l;
  sorted ← (if reverse then py_sorted_rev_by fst keyed else py_sorted_by fst keyed);
  Ok sorted.*2.

Definition number (l : list (string * val)) : list val :=
  imap (λ i nt, action (Z.of_nat i + 1) nt.1 nt.2) l.

Definition planned_actions (spec : val) : res (list val) :=
  rp ← item spec ["target"; "release_path"];
  stops ← services spec true; stop_units ← rmap (λ s, getitem s "unit") stops;
  link ← item spec ["target"; "current_symlink"];
  starts ← services spec false; start_units ← rmap (λ s, getitem s "unit") starts;
  ref ← item spec ["health_gate"; "target_ref"];
  Ok (number ([("install-release", rp)] ++ map (λ u, ("stop-service", u)) stop_units
              ++ [("select-release", link)] ++ map (λ u, ("start-service", u)) start_units
              ++ [("run-health-gate", ref)])).

(** The health target of a rollback: the identity fields name the previous release. *)
Definition retarget_check (previous : val) (check : val) : res val :=
  json ← getitem check "expected_json";
  json ← rfold (λ json field,
           here ← py_contains (VStr field) json;
           if here : bool then setitem field previous json else Ok json)
         json ["release_id"; "releaseId"; "version"];
  setitem "expected_json" json check.

Definition retarget (target previous : val) : res val :=
  target ← setitem "release_id" previous target;
  checks ← getitem target "checks"; l ← py_iter checks;
  l ← rmap (retarget_check previous) l;
  setitem "checks" (VList l) target.

Section Env.
Context `{Platform}.

Definition SPEC_SCHEMA : path := Path.div repo_root "contracts/operations/deployment-spec-v0.schema.json".
Definition RESULT_SCHEMA : path := Path.div repo_root "contracts/operations/activation-result-v0.schema.json".
Definition HEALTH_SCHEMA : path := Path.div repo_root "contracts/operations/health-gate-target-v0.schema.json".
Definition HEALTH_GATE : path := Path.div repo_root "scripts/release/health_gate.py".

Definition utc_now : IO string := PyOs.utc_now.
Definition load (p : path) : IO val := load_json p.
Definition sha256 (p : path) : IO string := sha256_chunked p.

Definition schema_failures (schema_path : path) (document : val) (label : string) : IO (list string) :=
  schema ← load schema_path;
  errors ← lift (sorted_errors schema document);
  mret (map (λ e, label +:+ "." +:+ render_error e) errors).

Definition verify_artifact (staged_root : path) (artifact : val) : IO (list string) :=
  name ← lift (getitem artifact "name"); n ← lift (expect_str name);
  let p := Path.div staged_root n in
  f ← is_file p;
  if negb f then mret ["staged artifact missing: " +:+ Path.to_str p]
  else
    size ← st_size p; expected ← lift (getitem artifact "size_bytes");
    actual ← sha256 p; digest ← lift (getitem artifact "sha256");
    mret ((if py_ne (VInt size) expected then ["staged artifact size mismatch: " +:+ n] else [])
          ++ (if py_ne (VStr actual) digest then ["staged artifact checksum mismatch: " +:+ n] else [])).

Definition verify_staged_artifacts (spec : val) (staged_root : path) : IO (list string) :=
  a ← lift (getitem spec "artifacts"); l ← lift (py_iter a);
  fs ← mmap (verify_artifact staged_root) l;
  mret (concat fs).

(** The exit code, the ends of the two outputs and the milliseconds; 124 on a timeout. *)
Definition run_bounded (command : list string) (timeout : Z) : IO (Z * string * string * Z) :=
  started ← monotonic;
  env ← gets environ;
  r ← subprocess_run (Proc command (Some timeout) env None);
  finished ← monotonic;
  let duration := Z.quot (finished - started) 1000 in
  mret (match r with
        | Exited code o e => (code, Str.last_n 8192 o, Str.last_n 8192 e, duration)
        | Expired partial => (124, Str.last_n 8192 (default "" partial), "command timed out", duration)
        | NotStarted _ _ => (124, "", "", duration)
        end).

Definition atomic_symlink (target link : path) : IO unit :=
  mkdir_p (Path.parent link) ;;
  let temporary := Path.div (Path.parent link) ("." +:+ Path.name link +:+ ".tmp." +:+ Str.of_Z pid) in
  finally
    (unlink_missing_ok temporary ;;
     symlink_to temporary target ;;
     replace temporary link)
    (unlink_missing_ok temporary).

(** ** The installation *)

(** [tempfile.mkdtemp(prefix=..., dir=...)]: a fresh directory. *)
Definition mkdtemp (prefix : string) (dir : path) : IO path :=
  h ← fresh_hex;
  let p := Path.div dir (prefix +:+ Str.take 8 h) in
  mkdir p 448 ;; mret p.

(** [pwd.getpwnam(name).pw_uid], [grp.getgrnam(name).gr_gid] *)
Definition lookup_id (table : string -> option Z) (v : val) : res Z :=
  n ← expect_str v;
  match table n with
  | Some z => Ok z
  | None => raise KeyError ("getpwnam(): name not found: " +:+ repr_str n)
  end.

Definition install_artifact (staged_root bin_dir : path) (artifact : val) : IO unit :=
  name ← lift (getitem artifact "name"); n ← lift (expect_str name);
  let destination := Path.div bin_dir n in
  copyfile (Path.div staged_root n) destination ;;
  m ← lift (getitem artifact "mode"); m ← lift (py_octal m); chmod destination m ;;
  o ← lift (getitem artifact "owner"); uid ← lift (lookup_id account o);
  g ← lift (getitem artifact "group"); gid ← lift (lookup_id group g);
  chown destination uid gid ;;
  actual ← sha256 destination; digest ← lift (getitem artifact "sha256");
  if py_ne (VStr actual) digest then throw RuntimeError ("installed artifact checksum mismatch: " +:+ n)
  else mret tt.

Definition install_into (spec : val) (staged_root temporary release_path : path) : IO unit :=
  let bin_dir := Path.div temporary "bin" in
  mkdir bin_dir 488 ;;
  a ← lift (getitem spec "artifacts"); l ← lift (py_iter a);
  mfor (install_artifact staged_root bin_dir) l ;;
  gid ← lift (lookup_id group (VStr "liqi"));
  chown temporary 0 gid ;;
  chmod temporary 488 ;;
  replace temporary release_path.

Definition install_release (spec : val) (staged_root : path) : IO unit :=
  if negb (String.eqb os_name "posix")
  then throw RuntimeError "release installation requires POSIX account lookup"
  else
    rp ← lift (item spec ["target"; "release_path"]); rp ← lift (expect_str rp);
    let release_path := Path.of_str rp in
    e ← exists_ release_path;
    if e : bool then throw RuntimeError ("release path already exists: " +:+ Path.to_str release_path)
    else
      mkdir_p (Path.parent release_path) ;;
      rid ← lift (getitem spec "release_id");
      temporary ← mkdtemp ("." +:+ py_str rid +:+ ".") (Path.parent release_path);
      finally (install_into spec staged_root temporary release_path)
        (e ← exists_ temporary; if e : bool then rmtree_ignore temporary else mret tt).

Definition unit_loaded (systemctl : string) (service : val) : IO (list string) :=
  u ← lift (getitem service "unit"); us ← lift (expect_str u);
  '(code, stdout, stderr, _) ← run_bounded [systemctl; "show"; "--property=LoadState"; "--value"; us] 10;
  mret (if negb (code =? 0) || negb (String.eqb (Str.strip stdout) "loaded")
        then ["systemd unit unavailable " +:+ us +:+ ": " +:+
              (if String.eqb (Str.strip stderr) "" then Str.strip stdout else Str.strip stderr)]
        else []).

Definition systemd_units_ready (spec : val) (systemctl : string) : IO (list string) :=
  s ← lift (getitem spec "services"); l ← lift (py_iter s);
  fs ← mmap (unit_loaded systemctl) l; mret (concat fs).

Definition run_health (target output : path) (deadline : Z) : IO (bool * Z * option string) :=
  '(code, _, stderr, duration) ← run_bounded
    [executable; Path.to_str HEALTH_GATE; "--target"; Path.to_str target; "--output"; Path.to_str output]
    (deadline + 15);
  let e := Str.strip stderr in
  mret (code =? 0, duration, if String.eqb e "" then None else Some e).

Definition rollback_health_target (source : path) (previous : val) (destination : path) : IO unit :=
  target ← load source;
  target ← lift (retarget target previous);
  errors ← schema_failures HEALTH_SCHEMA target "rollback_health_target";
  match errors with
  | _ :: _ => throw RuntimeError (Str.join "; " errors)
  | [] => write_file destination (json_text target)
  end.

(** ** [main] *)

Record args := Args {
  a_spec : path; expected_spec_sha256 : string; host_readiness : path; database_readiness : path;
  staged_root : path; health_target : path; state_dir : path; a_output : path;
  approval_ref : option string; a_systemctl : string; execute : bool
}.

Context (a : args).

(** The result document, updated as the run goes. *)
Abbreviation C := (M (val * world)).
Definition setr (ks : list string) (v : val) : C unit := modl (vset_path ks v).
Definition str_take (n : Z) (s : string) : val := VStr (Str.take n s).

Definition write_result (p : path) : C unit :=
  t ← zoom_snd utc_now;
  setr ["completed_at"] (VStr t) ;;
  result ← getl;
  errors ← zoom_snd (schema_failures RESULT_SCHEMA result "activation_result");
  match errors with
  | _ :: _ => throw RuntimeError ("invalid activation result: " +:+ Str.join "; " errors)
  | [] => zoom_snd (write_document p result)
  end.

Definition initial_result (spec : val) (digest started : string) : res val :=
  rid ← dget_or spec "release_id" (VStr "liqi-invalid");
  env ← dget_or spec "environment" (VStr "development");
  rb ← dget_or spec "rollback" (VDict []); prev ← dget rb "previous_release_id";
  Ok (VDict [("schema_version", VStr "activation-result-v0"); ("release_id", rid); ("environment", env);
    ("deployment_spec_sha256", VStr digest); ("mode", VStr (if execute a then "execute" else "dry-run"));
    ("started_at", VStr started); ("completed_at", VStr started); ("status", VStr "failed");
    ("approval_ref", opt_val VStr (approval_ref a));
    ("preflight", VDict [("deployment_spec", VStr "failed"); ("host_readiness", VStr "failed");
       ("database_readiness", VStr "failed"); ("artifacts", VStr "failed");
       ("systemd_units", VStr "not-checked")]);
    ("actions", VList []);
    ("health", VDict [("status", VStr "not-run"); ("result_ref", VNone)]);
    ("rollback", VDict [("attempted", VBool false); ("target_release_id", prev);
       ("status", VStr "not-required"); ("health_result_ref", VNone)]);
    ("mutation", VDict [("performed", VBool false); ("release_installed", VBool false);
       ("systemd_changed", VBool false); ("symlink_changed", VBool false)]);
    ("incident_reason", VNone)]).

Definition unless_empty (l : list string) (k : string) : C unit :=
  match l with [] => setr ["preflight"; k] (VStr "passed") | _ => mret tt end.

(** A readiness document, or why it could not be read. *)
Definition readiness_failures (p : path) (what : string) (spec_ok : bool) (validate : val -> res (list string)) :
    C (list string) :=
  catch (d ← zoom_snd (load p);
         if spec_ok then lift (validate d) else mret ["deployment spec invalid"])
    (on_exn [OSError; JSONDecodeError] (λ e, mret ["cannot read " +:+ what +:+ " readiness: " +:+ exn_str e])).

(** The failures of the preflight, in their order. *)
Definition preflight (spec : val) (digest : string) : C (list string) :=
  f1 ← zoom_snd (schema_failures SPEC_SCHEMA spec "deployment_spec");
  let f1 := f1 ++ (if String.eqb digest (expected_spec_sha256 a) then []
                   else ["deployment specification digest does not match expected digest"]) in
  let spec_ok := bool_decide (f1 = []) in
  unless_empty f1 "deployment_spec" ;;
  f2 ← readiness_failures (host_readiness a) "host" spec_ok (λ d, validate_host_readiness d spec);
  unless_empty f2 "host_readiness" ;;
  f3 ← readiness_failures (database_readiness a) "database" spec_ok (λ d, validate_database_readiness d spec);
  unless_empty f3 "database_readiness" ;;
  f4 ← (if spec_ok then zoom_snd (verify_staged_artifacts spec (staged_root a))
        else mret ["deployment spec invalid"]);
  unless_empty f4 "artifacts" ;;
  h ← zoom_snd (sha256 (health_target a));
  hg ← lift (dget_or spec "health_gate" (VDict [])); expected ← lift (dget hg "target_digest");
  let f5 := if py_ne (VStr h) expected then ["health target digest does not match deployment specification"]
            else [] in
  actions ← (if spec_ok then lift (planned_actions spec) else mret []);
  setr ["actions"] (VList actions) ;;
  mret (f1 ++ f2 ++ f3 ++ f4 ++ f5).

(** *** The execution *)

Definition unit_of (service : val) : res string := u ← getitem service "unit"; expect_str u.
Definition stop_timeout (service : val) : res Z :=
  t ← getitem service "stop_timeout_seconds"; z ← expect_int t; Ok (z + 5).

Definition stop_one (service : val) : IO unit :=
  us ← lift (unit_of service); timeout ← lift (stop_timeout service);
  '(code, _, stderr, _) ← run_bounded [a_systemctl a; "stop"; us] timeout;
  if negb (code =? 0) then throw RuntimeError ("failed to stop " +:+ us +:+ ": " +:+ Str.strip stderr)
  else mret tt.

Definition start_one (what : string) (service : val) : IO unit :=
  us ← lift (unit_of service);
  '(code, _, stderr, _) ← run_bounded [a_systemctl a; "start"; us] 30;
  if negb (code =? 0) then throw RuntimeError (what +:+ us +:+ ": " +:+ Str.strip stderr) else mret tt.

Definition deadline (spec : val) (ks : list string) : res Z := v ← item spec ks; expect_int v.

(** The body of the [try]. *)
Definition activate (spec : val) (target health_result current_link release_path : path) : C Z :=
  zoom_snd (install_release spec (staged_root a)) ;;
  setr ["mutation"; "performed"] (VBool true) ;;
  setr ["mutation"; "release_installed"] (VBool true) ;;
  stops ← lift (services spec true);
  zoom_snd (mfor stop_one stops) ;;
  setr ["mutation"; "systemd_changed"] (VBool true) ;;
  zoom_snd (atomic_symlink release_path current_link) ;;
  setr ["mutation"; "symlink_changed"] (VBool true) ;;
  starts ← lift (services spec false);
  zoom_snd (mfor (start_one "failed to start ") starts) ;;
  d ← lift (deadline spec ["health_gate"; "deadline_seconds"]);
  '(healthy, _, health_error) ← zoom_snd (run_health target health_result d);
  setr ["health"] (VDict [("status", VStr (if healthy : bool then "passed" else "failed"));
                          ("result_ref", VStr (Path.to_str health_result))]) ;;
  if negb healthy then
    throw RuntimeError ("activation health gate failed: " +:+ default "health checks failed" health_error)
  else
    setr ["status"] (VStr "active") ;;
    setr ["rollback"; "status"] (VStr "not-required") ;;
    result ← getl;
    actions ← lift (getitem result "actions"); l ← lift (py_iter actions);
    l ← lift (rmap (setitem "status" (VStr "passed")) l);
    setr ["actions"] (VList l) ;;
    write_result (a_output a) ;;
    zoom_snd (print ("activation passed: " +:+ Path.to_str (a_output a))) ;;
    mret 0.

(** The body of the rollback's [try]. *)
Definition roll_back (spec : val) (target current_link previous_path : path) (previous : val) (error : exn) : C Z :=
  zoom_snd (atomic_symlink previous_path current_link) ;;
  let rollback_target := Path.div (state_dir a) (py_str previous +:+ ".rollback-health-target.json") in
  zoom_snd (rollback_health_target target previous rollback_target) ;;
  starts ← lift (services spec false);
  zoom_snd (mfor (start_one "failed to restart rollback unit ") starts) ;;
  let rollback_health := Path.div (state_dir a) (py_str previous +:+ ".rollback-health.json") in
  d ← lift (deadline spec ["rollback"; "deadline_seconds"]);
  '(healthy, _, rollback_error) ← zoom_snd (run_health rollback_target rollback_health d);
  setr ["rollback"; "health_result_ref"] (VStr (Path.to_str rollback_health)) ;;
  if negb healthy then throw RuntimeError (default "rollback health gate failed" rollback_error)
  else
    setr ["rollback"; "status"] (VStr "passed") ;;
    setr ["status"] (VStr "rolled-back") ;;
    setr ["incident_reason"] (str_take 1000 (exn_str error)) ;;
    write_result (a_output a) ;;
    zoom_snd (print_err ("activation failed and rollback passed: " +:+ Path.to_str (a_output a))) ;;
    mret 3.

(** A result without a recovery: published as an incident. *)
Definition incident : C Z :=
  write_result (a_output a) ;;
  result ← getl;
  reason ← lift (getitem result "incident_reason");
  zoom_snd (print_err ("ERROR activation incident: " +:+ py_str reason)) ;;
  mret 4.

(** The [except] clause: the services are stopped again, then the previous release
    is selected, when there is one. *)
Definition fail_over (spec : val) (target current_link : path) (previous : val) (previous_path : option path)
    (error : exn) : C Z :=
  stops ← lift (services spec true);
  zoom_snd (mfor (λ s, us ← lift (unit_of s); timeout ← lift (stop_timeout s);
                       _ ← run_bounded [a_systemctl a; "stop"; us] timeout; mret tt) stops) ;;
  retained ← zoom_snd (match previous_path with
                       | Some p => if truthy previous then is_dir p else mret false
                       | None => mret false
                       end);
  match previous_path, retained : bool with
  | Some p, true =>
      setr ["rollback"; "attempted"] (VBool true) ;;
      setr ["rollback"; "status"] (VStr "failed") ;;
      r ← catch (z ← roll_back spec target current_link p previous error; mret (Some z))
            (on_any (λ rollback_exc,
               setr ["rollback"; "status"] (VStr "failed") ;;
               setr ["status"] (VStr "incident") ;;
               setr ["incident_reason"] (str_take 1000 ("activation=" +:+ exn_str error +:+ "; rollback="
                                                        +:+ exn_str rollback_exc)) ;;
               mret None));
      match r with Some z => mret z | None => incident end
  | _, _ =>
      setr ["rollback"; "status"] (VStr "not-available") ;;
      setr ["status"] (VStr "incident") ;;
      setr ["incident_reason"] (str_take 1000 ("activation=" +:+ exn_str error +:+ "; no retained rollback target")) ;;
      incident
  end.

Definition execute_release (spec : val) : C Z :=
  unit_failures ← zoom_snd (systemd_units_ready spec (a_systemctl a));
  match unit_failures with
  | _ :: _ =>
      setr ["preflight"; "systemd_units"] (VStr "failed") ;;
      setr ["incident_reason"] (str_take 1000 (Str.join "; " unit_failures)) ;;
      write_result (a_output a) ;;
      mret 1
  | [] =>
      setr ["preflight"; "systemd_units"] (VStr "passed") ;;
      target ← zoom_snd (resolve (health_target a));
      zoom_snd (mkdir_p (state_dir a)) ;;
      rid ← lift (getitem spec "release_id");
      let health_result := Path.div (state_dir a) (py_str rid +:+ ".health.json") in
      link ← lift (item spec ["target"; "current_symlink"]); link ← lift (expect_str link);
      let current_link := Path.of_str link in
      previous ← lift (item spec ["rollback"; "previous_release_id"]);
      previous_path ← (if truthy previous then
                         pp ← lift (item spec ["rollback"; "previous_release_path"]);
                         pp ← lift (expect_str pp); mret (Some (Path.of_str pp))
                       else mret None);
      catch
        (rp ← lift (item spec ["target"; "release_path"]); rp ← lift (expect_str rp);
         activate spec target health_result current_link (Path.of_str rp))
        (on_any (fail_over spec target current_link previous previous_path))
  end.

(** Why an execution is refused, when it is. *)
Definition refusal (spec : val) : res (option string) :=
  expected ← (pf ← getitem spec "preflight"; dget pf "approval_ref");
  Ok (match approval_ref a with
      | Some r =>
          if String.eqb r "" || (truthy expected && py_ne (VStr r) expected)
          then Some "execution requires the approved reference recorded in the deployment specification"
          else if negb (String.eqb os_name "posix") || negb (euid =? 0)
          then Some "execution requires root on the target POSIX host"
          else None
      | None => Some "execution requires the approved reference recorded in the deployment specification"
      end).

Definition with_result (spec : val) (digest : string) : C Z :=
  failures ← preflight spec digest;
  match failures with
  | _ :: _ =>
      setr ["incident_reason"] (str_take 1000 (Str.join "; " failures)) ;;
      write_result (a_output a) ;;
      zoom_snd (mfor (λ f, print_err ("ERROR activation-preflight: " +:+ f)) failures) ;;
      mret 1
  | [] =>
      if negb (execute a) then
        setr ["status"] (VStr "planned") ;;
        write_result (a_output a) ;;
        zoom_snd (print ("activation dry-run passed: " +:+ Path.to_str (a_output a))) ;;
        mret 0
      else
        why ← lift (refusal spec);
        match why with
        | Some reason =>
            setr ["incident_reason"] (VStr reason) ;;
            write_result (a_output a) ;;
            zoom_snd (print_err ("ERROR activation-execute: " +:+ reason)) ;;
            mret 2
        | None => execute_release spec
        end
  end.

Definition main : IO Z :=
  started_at ← utc_now;
  spec_digest ← sha256 (a_spec a);
  spec ← load (a_spec a);
  result ← lift (initial_result spec spec_digest started_at);
  with_locals result (with_result spec spec_digest).
End Env.
End ActivateRelease.
