(* ===== verification/ActivateProperties.v ===== *)
(** * What the release activation promises

    Nothing but evidence files is written until every guard holds; a preflight
    without failures has verified each staged artifact; and an execution that
    ends says truly which release is selected. *)

From Stdlib Require Import Ascii.
From S2P Require Import Prelude PyFloat PyMonad PyValue PyTime PyJson Sha256 PyOs OsFacts Fixture ActivateRelease.

Module ActivationSpec.
Import ActivateRelease.

Section ReadOnly.
Context `{Platform}.

Lemma ro_load_spec p : Pres eq (load p).
Proof. apply ro_load_json. Qed.
Lemma ro_sha256 p : Pres eq (sha256 p).
Proof. apply ro_sha256_chunked. Qed.
#[local] Hint Resolve ro_load_spec ro_sha256 : pres.
Lemma ro_schema_failures p d l : Pres eq (schema_failures p d l).
Proof. unfold schema_failures. solve_pres. Qed.
Lemma ro_verify_artifact r x : Pres eq (verify_artifact r x).
Proof. unfold verify_artifact. solve_pres. Qed.
#[local] Hint Resolve ro_schema_failures ro_verify_artifact : pres.
Lemma ro_verify_staged spec r : Pres eq (verify_staged_artifacts spec r).
Proof. unfold verify_staged_artifacts. solve_pres. Qed.
End ReadOnly.
#[export] Hint Resolve ro_load_spec ro_sha256 ro_schema_failures ro_verify_artifact ro_verify_staged : pres.

Section Guards.
Context `{Platform} (a : args).

Lemma ro_setr ks v : Pres (on_snd eq) (setr ks v).
Proof. by intros s. Qed.
#[local] Hint Resolve ro_setr : pres.
Lemma ro_unless l k : Pres (on_snd eq) (unless_empty l k).
Proof. unfold unless_empty. solve_pres. Qed.
Lemma ro_readiness p what ok v : Pres (on_snd eq) (readiness_failures p what ok v).
Proof. unfold readiness_failures. solve_pres. Qed.
#[local] Hint Resolve ro_unless ro_readiness : pres.
Lemma ro_activation_preflight spec digest : Pres (on_snd eq) (preflight a spec digest).
Proof. unfold preflight. solve_pres. Qed.

Lemma wo_setr ks v : Pres (on_snd writes_only) (setr ks v).
Proof. intros s. unfold on_snd. simpl. reflexivity. Qed.
#[local] Hint Resolve wo_setr : pres.
Lemma wo_print_err t : Pres writes_only (print_err t).
Proof. by apply wo_modify. Qed.
#[local] Hint Resolve wo_print_err : pres.
Lemma wo_write_result p : Pres (on_snd writes_only) (write_result p).
Proof. unfold write_result, utc_now. solve_pres. Qed.
#[local] Hint Resolve wo_write_result : pres.

(** What must hold before the activation starts a process or changes a link. *)
Record guarded (spec : val) (digest : string) : Prop := {
  g_execute : execute a = true;
  g_digest : digest = expected_spec_sha256 a;
  g_root : os_name = "posix" /\ euid = 0;
  g_approval : exists r, approval_ref a = Some r /\ r <> "" /\
    exists pf expected, getitem spec "preflight" = Ok pf /\ dget pf "approval_ref" = Ok expected /\
      (truthy expected = true -> expected = VStr r)
}.

Lemma refusal_none spec : refusal a spec = Ok None ->
  (os_name = "posix" /\ euid = 0) /\ exists r, approval_ref a = Some r /\ r <> "" /\
    exists pf expected, getitem spec "preflight" = Ok pf /\ dget pf "approval_ref" = Ok expected /\
      (truthy expected = true -> expected = VStr r).
Proof.
  unfold refusal. intros E. inv_run. destruct (approval_ref a) as [r|]; [|done].
  destruct (String.eqb_spec r "") as [|Hr]; [done|]. simpl in E.
  destruct (truthy a0 && py_ne (VStr r) a0) eqn:Ha; [done|].
  destruct (String.eqb_spec os_name "posix") as [->|]; [|done]. simpl in E.
  destruct (euid =? 0) eqn:He; [|done]. apply Z.eqb_eq in He. split; [done|].
  exists r. split; [done|]. split; [done|]. exists a1, a0. split; [done|]. split; [done|].
  intros Ht. rewrite Ht in Ha. simpl in Ha. apply negb_false_iff in Ha. by apply py_eq_str_l in Ha.
Qed.

(** *** What a preflight without failures has verified *)

(** The staged file of an artifact has the declared length and digest. *)
Definition artifact_staged (w : world) (artifact : val) : Prop :=
  exists n d m, getitem artifact "name" = Ok (VStr n) /\
    stat w (Path.div (staged_root a) n) = Some (NFile d m) /\
    (exists size, getitem artifact "size_bytes" = Ok size /\ py_eq (VInt (Z.of_nat (String.length d))) size = true) /\
    getitem artifact "sha256" = Ok (VStr (Sha256.hexdigest d)).

(** The database is at least at the version the release requires. *)
Record database_ready (doc spec : val) : Prop := {
  db_identity : dget doc "contractVersion" = Ok (VStr "database-v0") /\ dget doc "database" = Ok (VStr "liqi");
  db_ready : dget doc "ready" = Ok (VBool true) /\ dget doc "reason" = Ok (VStr "ready");
  db_version : exists cv rv sv current required, dget doc "currentVersion" = Ok cv /\
    dget doc "requiredVersion" = Ok rv /\ item spec ["preflight"; "required_database_migration"] = Ok sv /\
    normalize_version cv = Some current /\ normalize_version rv = Some required /\
    normalize_version sv = Some required /\ required <= current
}.

(** The host's record says ready, and each required check has passed. *)
Record host_ready (doc spec : val) : Prop := {
  hr_status : dget doc "status" = Ok (VStr "ready") /\ dget doc "architecture" = Ok (VStr "aarch64");
  hr_checks : exists d, dget doc "checks" = Ok (VDict d) /\
    Forall (λ n, Dict.lookup n d = Some (VStr "pass")) REQUIRED_HOST_CHECKS;
  hr_mount : exists volume, dget_or doc "data_volume" (VDict []) = Ok volume /\
    dget volume "mount_path" = Ok (VStr "/var/lib/liqi")
}.

Record verified (spec : val) (w : world) : Prop := {
  v_schema : exists schema, load SPEC_SCHEMA w = (Ok schema, w) /\ sorted_errors schema spec = Ok [];
  v_host : exists doc, load (host_readiness a) w = (Ok doc, w) /\ host_ready doc spec;
  v_database : exists doc, load (database_readiness a) w = (Ok doc, w) /\ database_ready doc spec;
  v_artifacts : exists v l, getitem spec "artifacts" = Ok v /\ py_iter v = Ok l /\ Forall (artifact_staged w) l;
  v_health : exists d m gate, stat w (health_target a) = Some (NFile d m) /\
    dget_or spec "health_gate" (VDict []) = Ok gate /\
    dget gate "target_digest" = Ok (VStr (Sha256.hexdigest d))
}.

Lemma if_nil {A} (b : bool) (x : A) : (if b then [x] else []) = [] -> b = false.
Proof. by destruct b. Qed.
Lemma if_nil' {A} (b : bool) (x : A) : (if b then [] else [x]) = [] -> b = true.
Proof. by destruct b. Qed.
Lemma py_ne_str v s : py_ne v (VStr s) = false -> v = VStr s.
Proof. unfold py_ne. intros E%negb_false_iff. by apply py_eq_str_r in E. Qed.
Lemma py_ne_str_l v s : py_ne (VStr s) v = false -> v = VStr s.
Proof. unfold py_ne. intros E%negb_false_iff. by apply py_eq_str_l in E. Qed.

Lemma artifact_verified w x : verify_artifact (staged_root a) x w = (Ok [], w) -> artifact_staged w x.
Proof.
  unfold verify_artifact. intros E. apply M_bind_Ok in E as (name & w0 & E0 & E).
  apply lift_Ok in E0 as [E0 ->]. apply M_bind_Ok in E as (n & w0 & E1 & E).
  apply lift_Ok in E1 as [E1 ->]. destruct name; try discriminate. injection E1 as ->.
  apply M_bind_Ok in E as (f & w1 & Ef & E). apply is_file_Ok in Ef as [-> Hf].
  destruct f; cbn [negb] in E; [|by apply ret_Ok in E as [? _]]. destruct (Hf eq_refl) as (d & m & Hs).
  apply M_bind_Ok in E as (sz & w1 & Ez & E). apply (st_size_file _ _ _ _ _ _ Hs) in Ez as [-> ->].
  apply M_bind_Ok in E as (size & w1 & Esz & E). apply lift_Ok in Esz as [Esz ->].
  apply M_bind_Ok in E as (h & w1 & Eh & E). apply sha256_chunked_Ok in Eh as (-> & d' & m' & Hs' & ->).
  rewrite Hs in Hs'. injection Hs' as <- <-.
  apply M_bind_Ok in E as (digest & w1 & Ed & E). apply lift_Ok in Ed as [Ed ->].
  apply ret_Ok in E as [E _]. apply app_eq_nil in E as [E2 E3].
  apply if_nil in E2. apply if_nil, py_ne_str_l in E3. subst digest.
  exists n, d, m. repeat (split; [done|]). split; [|done]. exists size. split; [done|].
  by apply negb_false_iff in E2.
Qed.

Lemma version_failures_nil cv rv sv :
  version_failures (normalize_version cv) (normalize_version rv) (normalize_version sv) = [] ->
  exists current required, normalize_version cv = Some current /\ normalize_version rv = Some required /\
    normalize_version sv = Some required /\ required <= current.
Proof.
  destruct (normalize_version cv) as [c|], (normalize_version rv) as [r|], (normalize_version sv) as [s|];
    try discriminate. simpl. intros E. apply app_eq_nil in E as [E1 E2].
  destruct (Z.eqb_spec r s) as [->|]; [|discriminate]. destruct (Z.ltb_spec c s); [discriminate|]. eauto 8.
Qed.

Lemma database_verified doc spec : validate_database_readiness doc spec = Ok [] -> database_ready doc spec.
Proof.
  unfold validate_database_readiness. destruct (is_dict doc); [|discriminate]. cbn [negb]. intros E.
  apply bind_Ok in E as (cv & E1 & E). apply bind_Ok in E as (db & E2 & E).
  apply bind_Ok in E as (rd & E3 & E). apply bind_Ok in E as (why & E4 & E).
  apply bind_Ok in E as (cur & E5 & E). apply bind_Ok in E as (req & E6 & E).
  apply bind_Ok in E as (sreq & E7 & E). apply bind_Ok in E as (obs & E8 & E). injection E as E.
  apply app_eq_nil in E as [F1 E]. apply app_eq_nil in E as [F2 E]. apply app_eq_nil in E as [F3 E].
  apply app_eq_nil in E as [F4 _].
  apply if_nil, py_ne_str in F1. apply if_nil, py_ne_str in F2. apply if_nil, orb_false_iff in F3 as [F3 F3'].
  apply py_ne_str in F3'. subst. apply version_failures_nil in F4 as (c & r & ? & ? & ? & ?).
  split; [done| |by exists cur, req, sreq, c, r].
  split; [|done]. rewrite E3. f_equal. apply negb_false_iff in F3. by destruct rd as [|[]| | | | |].
Qed.

Lemma filter_nil {A} (f : A -> bool) l : List.filter f l = [] -> Forall (λ x, f x = false) l.
Proof.
  induction l as [|x r IH]; simpl; [constructor|]. destruct (f x) eqn:E; [discriminate|].
  intros H1. constructor; [done|by apply IH].
Qed.

Lemma sort_nil l : sort_strings l = [] -> l = [].
Proof. intros E. apply Permutation_nil. rewrite <-E. apply sort_strings_perm. Qed.

(** Every field compared is the value expected. *)
Lemma expected_fields doc l ys : rmap (λ kv : string * val, expect_equal doc kv.1 kv.2) l = Ok ys ->
  concat ys = [] -> forall k s, (k, VStr s) ∈ l -> dget doc k = Ok (VStr s).
Proof.
  intros E%rmap_Ok Hn k s Hin. induction E as [|[k' v] y r ys' Hy E IH]; [by apply not_elem_of_nil in Hin|].
  simpl in Hn. apply app_eq_nil in Hn as [-> Hn]. apply elem_of_cons in Hin as [[= <- <-]|Hin]; [|by apply IH].
  unfold expect_equal in Hy. simpl in Hy. destruct (dget doc k) as [v|]; [|discriminate]. simpl in Hy.
  injection Hy as Hy. by apply if_nil, py_ne_str in Hy as ->.
Qed.

Lemma host_checks_passed l d : host_check_failures l d = [] ->
  Forall (λ n, Dict.lookup n d = Some (VStr "pass")) l.
Proof.
  unfold host_check_failures. intros E. apply app_eq_nil in E as [_ E].
  destruct (sort_strings (List.filter (λ n, py_ne _ _) _)) eqn:Es; [|discriminate].
  apply sort_nil, filter_nil in Es. eapply Forall_impl; [exact Es|]. simpl. intros n Hn.
  apply py_ne_str in Hn. by destruct (Dict.lookup n d) as [v|]; simpl in Hn; subst.
Qed.

Lemma host_verified doc spec : validate_host_readiness doc spec = Ok [] -> host_ready doc spec.
Proof.
  unfold validate_host_readiness. destruct (is_dict doc); [|discriminate]. cbn [negb]. intros E.
  apply bind_Ok in E as (v1 & _ & E). apply bind_Ok in E as (v2 & _ & E). apply bind_Ok in E as (v3 & _ & E).
  apply bind_Ok in E as (f1 & E1 & E). apply bind_Ok in E as (checks & E2 & E).
  apply bind_Ok in E as (f2 & E3 & E). apply bind_Ok in E as (volume & E4 & E).
  apply bind_Ok in E as (mount & E5 & E). apply bind_Ok in E as (bad & E6 & E). injection E as E.
  apply app_eq_nil in E as [F1 E]. apply app_eq_nil in E as [F2 E].
  pose proof (expected_fields _ _ _ E1 F1) as Hk. split.
  - split; apply Hk; apply list_elem_of_In; simpl; auto 10.
  - destruct checks as [| | | | | |d]; try by injection E3 as <-. exists d. split; [done|].
    injection E3 as <-. by apply host_checks_passed.
  - exists volume. split; [done|]. rewrite E5. f_equal.
    destruct (py_ne mount (VStr "/var/lib/liqi")) eqn:Em; [by injection E6 as <-|]. by apply py_ne_str in Em.
Qed.

Lemma ro_readiness_eq p what ok v s r s' : readiness_failures p what ok v s = (r, s') -> s'.2 = s.2.
Proof. intros E. pose proof (pres_run _ _ _ _ _ (ro_readiness p what ok v) E) as H1. by symmetry. Qed.

(** A readiness document without failures has been read and validated. *)
Lemma readiness_verified p what v s s' : readiness_failures p what true v s = (Ok [], s') ->
  exists doc, load p s.2 = (Ok doc, s.2) /\ v doc = Ok [].
Proof.
  unfold readiness_failures. intros E. apply catch_Ok in E as [E|(e & s1 & k & _ & Hk & E)].
  - apply M_bind_Ok in E as (d & s1 & E1 & E). apply zoom_Ok in E1 as [E1 _]. apply lift_Ok in E as [E ->].
    exists d. split; [|done]. pose proof (pres_eq_run _ _ _ _ (ro_load_spec p) E1) as E2. by rewrite E2 in E1.
  - apply on_exn_Some in Hk as [_ ->]. by apply ret_Ok in E as [E _].
Qed.

Lemma setr_Ok ks v (s : val * world) u s' : setr ks v s = (Ok u, s') -> s'.2 = s.2.
Proof. by intros ->%modl_Ok. Qed.
Lemma unless_Ok l k s u s' : unless_empty l k s = (Ok u, s') -> s'.2 = s.2.
Proof. unfold unless_empty. destruct l; [apply setr_Ok|by intros [_ ->]%ret_Ok]. Qed.

Lemma staged_verified spec s l s' : zoom_snd (L:=val) (verify_staged_artifacts spec (staged_root a)) s = (Ok l, s') ->
  s'.2 = s.2 /\ (l = [] -> exists v xs, getitem spec "artifacts" = Ok v /\ py_iter v = Ok xs /\
    Forall (artifact_staged s.2) xs).
Proof.
  intros [E _]%zoom_Ok. unfold verify_staged_artifacts in E.
  apply M_bind_Ok in E as (v & w1 & E1 & E). apply lift_Ok in E1 as [E1 ->].
  apply M_bind_Ok in E as (xs & w1 & E2 & E). apply lift_Ok in E2 as [E2 ->].
  apply M_bind_Ok in E as (ys & w1 & E3 & E). apply ret_Ok in E as [<- ->].
  pose proof (mmap_ro _ _ _ _ _ (ro_verify_artifact (staged_root a)) E3) as [Hw _]. split; [done|].
  intros Hn. exists v, xs. split; [done|]. split; [done|].
  eapply Forall_impl; [exact (mmap_ro_nil _ _ _ _ _ (ro_verify_artifact (staged_root a)) E3 Hn)|].
  intros x. apply artifact_verified.
Qed.

Lemma schema_verified spec s l s' : zoom_snd (L:=val) (schema_failures SPEC_SCHEMA spec "deployment_spec") s = (Ok l, s') ->
  s'.2 = s.2 /\ (l = [] -> exists schema, load SPEC_SCHEMA s.2 = (Ok schema, s.2) /\ sorted_errors schema spec = Ok []).
Proof.
  intros [E _]%zoom_Ok. pose proof (pres_eq_run _ _ _ _ (ro_schema_failures _ _ _) E) as Hw. split; [done|].
  intros ->. unfold schema_failures in E.
  apply M_bind_Ok in E as (schema & w1 & E1 & E). pose proof (pres_eq_run _ _ _ _ (ro_load_spec _) E1) as ->.
  apply M_bind_Ok in E as (es & w1 & E2 & E). apply lift_Ok in E2 as [E2 _]. apply ret_Ok in E as [E _].
  exists schema. split; [done|]. by destruct es.
Qed.

Lemma health_verified s h s' : zoom_snd (L:=val) (sha256 (health_target a)) s = (Ok h, s') ->
  s'.2 = s.2 /\ exists d m, stat s.2 (health_target a) = Some (NFile d m) /\ h = Sha256.hexdigest d.
Proof. intros [E _]%zoom_Ok. by apply sha256_chunked_Ok in E as [-> ?]. Qed.

Lemma preflight_verified spec digest s s' : preflight a spec digest s = (Ok [], s') ->
  verified spec s.2 /\ digest = expected_spec_sha256 a.
Proof.
  unfold preflight. intros E. apply M_bind_Ok in E as (f1 & s1 & E1 & E).
  apply schema_verified in E1 as [W1 V1]. cbn zeta in E.
  destruct (bool_decide _) eqn:Hok in E.
  - apply M_bind_Ok in E as (u1 & s2 & E2 & E). apply unless_Ok in E2.
    apply M_bind_Ok in E as (f2 & s3 & E3 & E). pose proof (ro_readiness_eq _ _ _ _ _ _ _ E3) as W3.
    apply M_bind_Ok in E as (u2 & s4 & E4 & E). apply unless_Ok in E4.
    apply M_bind_Ok in E as (f3 & s5 & E5 & E). pose proof (ro_readiness_eq _ _ _ _ _ _ _ E5) as W5.
    apply M_bind_Ok in E as (u3 & s6 & E6 & E). apply unless_Ok in E6.
    apply M_bind_Ok in E as (f4 & s7 & E7 & E). apply staged_verified in E7 as [W7 V7].
    apply M_bind_Ok in E as (u4 & s8 & E8 & E). apply unless_Ok in E8.
    apply M_bind_Ok in E as (h & s9 & E9 & E). apply health_verified in E9 as (W9 & hd & hm & Hs & ->).
    apply M_bind_Ok in E as (hg & s10 & E10 & E). apply lift_Ok in E10 as [E10 ->].
    apply M_bind_Ok in E as (expected & s10 & E11 & E). apply lift_Ok in E11 as [E11 ->].
    apply M_bind_Ok in E as (acts & s11 & _ & E). apply M_bind_Ok in E as (u5 & s12 & _ & E).
    apply ret_Ok in E as [E _]. apply app_eq_nil in E as [F1 E]. apply app_eq_nil in E as [F2 E].
    apply app_eq_nil in E as [F3 E]. apply app_eq_nil in E as [F4 F5]. subst f2 f3.
    apply app_eq_nil in F1 as [F1 F0]. apply if_nil' in F0. apply String.eqb_eq in F0.
    apply if_nil, py_ne_str_l in F5. subst expected.
    apply readiness_verified in E3 as (hdoc & L3 & V3). apply readiness_verified in E5 as (ddoc & L5 & V5).
    assert (s2.2 = s.2 /\ s4.2 = s.2 /\ s6.2 = s.2 /\ s8.2 = s.2) as (R2 & R4 & R6 & R8).
    { repeat split; congruence. }
    rewrite R2 in L3. rewrite R4 in L5. rewrite R6 in V7. rewrite R8 in Hs. split; [|done]. split.
    + by apply V1.
    + exists hdoc. split; [done|]. by apply host_verified.
    + exists ddoc. split; [done|]. by apply database_verified.
    + by apply V7.
    + by exists hd, hm, hg.
  - exfalso. apply bool_decide_eq_false_1 in Hok. apply Hok. clear Hok.
    repeat (apply M_bind_Ok in E as (? & ? & _ & E)). apply ret_Ok in E as [E _].
    by apply app_eq_nil in E as [F1 _].
Qed.

(** A statement whose relation the rules prove, run at a state. *)
Ltac solve_run :=
  match goal with
  | |- on_snd writes_only _ (snd (?m _)) =>
      let P := fresh in assert (Pres (on_snd writes_only) m) as P by solve_pres; apply P
  end.

Lemma with_result_guarded spec digest s :
  on_snd writes_only s (with_result a spec digest s).2 \/ guarded spec digest.
Proof.
  unfold with_result. apply pres_bind_or; [apply _| |].
  { intros s0. pose proof (ro_activation_preflight spec digest s0) as E. unfold on_snd in *. by rewrite E. }
  intros [|f fs] s1 Ep.
  - destruct (execute a) eqn:Hx; cbn [negb].
    + apply pres_bind_or; [apply _|solve_pres|]. intros [reason|] s2 Er; [left|right].
      * solve_run.
      * apply lift_Ok in Er as [Er _]. apply refusal_none in Er as [? ?].
        split; [done| |done|done]. by apply preflight_verified in Ep as [_ ?].
    + left. solve_run.
  - left. solve_run.
Qed.

(** The activation ends with code 0, as a plan or as an execution, only after its
    preflight verified everything: the specification has the digest given and no schema
    error, the host's record is ready with each required check passed, the database is
    ready at the required migration or later, each staged artifact has the declared
    size and SHA-256, and the health target has the declared digest. *)
Theorem activation_zero_means_verified w : (main a w).1 = Ok 0 ->
  exists spec d m, stat (utc_now w).2 (a_spec a) = Some (NFile d m) /\
    Sha256.hexdigest d = expected_spec_sha256 a /\
    load (a_spec a) (utc_now w).2 = (Ok spec, (utc_now w).2) /\ verified spec (utc_now w).2.
Proof.
  destruct (main a w) as [r w'] eqn:E. cbn [fst]. intros ->. unfold main in E.
  apply M_bind_Ok in E as (t & w1 & Et & E). rewrite Et. cbn [snd]. apply M_bind_Ok in E as (digest & w2 & Ed & E).
  apply sha256_chunked_Ok in Ed as (-> & d & m & Hs & Hd). apply M_bind_Ok in E as (spec & w2 & Es & E).
  pose proof (pres_eq_run _ _ _ _ (ro_load_spec _) Es) as ->.
  apply M_bind_Ok in E as (doc & w2 & Ei & E). apply lift_Ok in Ei as [Ei ->].
  unfold with_locals in E. destruct (with_result a spec digest (doc, w1)) as [r s'] eqn:Er.
  injection E as -> _. unfold with_result in Er. apply M_bind_Ok in Er as (fl & s1 & Ep & Er).
  destruct fl as [|f fl].
  - apply preflight_verified in Ep as [V ->]. exists spec, d, m. done.
  - do 3 (apply M_bind_Ok in Er as (? & ? & _ & Er)). by apply ret_Ok in Er as [Er _].
Qed.

(** C2: The activation starts no process, and changes no symbolic link and no directory
    that exists, unless every guard holds: [--execute] was given, the specification read
    has the expected digest, the run is root's on POSIX, and the approval reference is
    the one the specification records. Otherwise only evidence files are written. *)
Theorem activation_guarded w : writes_only w (main a w).2 \/
  exists spec digest, sha256 (a_spec a) (utc_now w).2 = (Ok digest, (utc_now w).2) /\
    load (a_spec a) (utc_now w).2 = (Ok spec, (utc_now w).2) /\ guarded spec digest.
Proof.
  unfold main. unfold mbind at 1, M_bind at 1.
  pose proof (wo_utc_now w) as H0. fold utc_now in H0.
  destruct (utc_now w) as [[t|e] w1] eqn:Et; [|by left]. simpl in H0.
  unfold mbind at 1, M_bind at 1.
  destruct (sha256 (a_spec a) w1) as [rd w2] eqn:Ed. same_world Ed.
  destruct rd as [digest|e]; [|by left]. unfold mbind at 1, M_bind at 1.
  destruct (load (a_spec a) w1) as [rs w3] eqn:Es. same_world Es.
  destruct rs as [spec|e]; [|by left]. unfold mbind at 1, M_bind at 1, lift.
  destruct (initial_result a spec digest t) as [result|e]; [|by left].
  unfold with_locals. destruct (with_result_guarded spec digest (result, w1)) as [Hw|Hg].
  - left. destruct (with_result a spec digest (result, w1)) as [r [l w4]]. simpl in *.
    by etransitivity.
  - right. by exists spec, digest.
Qed.
End Guards.
End ActivationSpec.

(** ** Concrete runs *)

Module ActivationRun.
Import Fixture ActivateRelease ActivationSpec.

Definition binary : string := "release binary".
Definition target_text : string := json (VDict [("release_id", VStr "r2"); ("checks", VList [])]).

Definition the_spec : val := VDict [
  ("release_id", VStr "r2"); ("environment", VStr "production");
  ("target", VDict [("release_path", VStr "/opt/liqi/releases/r2"); ("current_symlink", VStr "/opt/liqi/current");
     ("host_schema_version", VStr "s1"); ("host_output_version", VStr "o1"); ("host_bootstrap_version", VStr "b1")]);
  ("artifacts", VList [VDict [("name", VStr "liqi-beam"); ("size_bytes", VInt (Z.of_nat (String.length binary)));
     ("sha256", VStr (Sha256.hexdigest binary)); ("mode", VStr "0755"); ("owner", VStr "root"); ("group", VStr "liqi")]]);
  ("services", VList [VDict [("unit", VStr "liqi.service"); ("start_order", VInt 1); ("stop_timeout_seconds", VInt 30)]]);
  ("health_gate", VDict [("target_ref", VStr "health.json"); ("target_digest", VStr (Sha256.hexdigest target_text));
     ("deadline_seconds", VInt 60)]);
  ("rollback", VDict [("previous_release_id", VStr "r1"); ("previous_release_path", VStr "/opt/liqi/releases/r1");
     ("deadline_seconds", VInt 60)]);
  ("preflight", VDict [("approval_ref", VStr "CHG-1"); ("required_database_migration", VStr "0007")])].

Definition host_record : val := VDict [
  ("schema_version", VStr "liqi.platform.host-readiness/v0"); ("host_contract_schema_version", VStr "s1");
  ("infrastructure_output_version", VStr "o1"); ("bootstrap_version", VStr "b1"); ("status", VStr "ready");
  ("architecture", VStr "aarch64"); ("checks", VDict (map (λ n, (n, VStr "pass")) REQUIRED_HOST_CHECKS));
  ("data_volume", rec [("mount_path", "/var/lib/liqi"); ("source_uuid", "u-1")])].

Definition database_record : val := VDict [
  ("contractVersion", VStr "database-v0"); ("database", VStr "liqi"); ("ready", VBool true); ("reason", VStr "ready");
  ("currentVersion", VStr "8"); ("requiredVersion", VStr "7"); ("observedAt", VStr "2026-07-14T05:59:00Z")].

Definition w0 : world := world_with [
  ("/run/spec.json", json the_spec); ("/run/host.json", json host_record); ("/run/database.json", json database_record);
  ("/run/health.json", target_text); ("/stage/liqi-beam", binary); ("/run/out/.keep", "");
  ("/opt/liqi/releases/r1/.keep", ""); ("/var/state/.keep", "");
  ("/repo/contracts/operations/deployment-spec-v0.schema.json", "{}");
  ("/repo/contracts/operations/activation-result-v0.schema.json", "{}");
  ("/repo/contracts/operations/health-gate-target-v0.schema.json", "{}")].

Definition the_args (execute : bool) : args := Args (Path.of_str "/run/spec.json") (Sha256.hexdigest (json the_spec))
  (Path.of_str "/run/host.json") (Path.of_str "/run/database.json") (Path.of_str "/stage")
  (Path.of_str "/run/health.json") (Path.of_str "/var/state") (Path.of_str "/run/out/activation.json")
  (Some "CHG-1") "systemctl" execute.

Lemma activation_zero_means_verified_witness : let host := quiet_host in let a := the_args false in
  exists spec d m, stat (utc_now w0).2 (a_spec a) = Some (NFile d m) /\ Sha256.hexdigest d = expected_spec_sha256 a /\
  load (a_spec a) (utc_now w0).2 = (Ok spec, (utc_now w0).2) /\ verified a spec (utc_now w0).2.
Proof.
  intros host a. apply (activation_zero_means_verified (H := host) a w0).
  assert ((main (H := host) a w0).1 = Ok 0) as E by (vm_compute; reflexivity). exact E.
Defined.
End ActivationRun.
