(* ===== verification/ActivateOutcomes.v ===== *)
(** * How an execution of the activation ends

    The link that selects the release, the status of the result document and
    the exit code agree: 0 only after the new release is selected and its health
    gate has passed, 3 only after the previous release is selected again and its
    own gate has passed, 4 for an incident. *)

From Stdlib Require Import Ascii.
From S2P Require Import Prelude PyFloat PyMonad PyValue PyTime PyJson Sha256 PyOs OsFacts FsFacts Fixture ActivateRelease ActivateProperties.

(** Relations on the locals only: the operations of the host keep them. *)
Definition on_fst {L W} (R : L -> L -> Prop) (s s' : L * W) : Prop := R s.1 s'.1.
#[export] Instance on_fst_preorder {L W} (R : L -> L -> Prop) `{!PreOrder R} : PreOrder (on_fst (W:=W) R).
Proof. split; [intros s; unfold on_fst; reflexivity|]. intros x y z. unfold on_fst. by etransitivity. Qed.
Lemma fst_zoom {L W A} (R : L -> L -> Prop) `{!PreOrder R} (m : M W A) : Pres (on_fst R) (zoom_snd (L:=L) m).
Proof. intros [l w]. unfold on_fst, zoom_snd. destruct (m (l, w).2). simpl. reflexivity. Qed.
Lemma fst_modl {L W} (R : L -> L -> Prop) (f : L -> L) : (forall l, R l (f l)) -> Pres (on_fst (W:=W) R) (modl f).
Proof. intros Hf s. apply Hf. Qed.
Lemma fst_getl {L W} (R : L -> L -> Prop) `{!PreOrder R} : Pres (on_fst (W:=W) R) getl.
Proof. intros s. unfold on_fst. simpl. reflexivity. Qed.
#[export] Hint Extern 1 (Pres (on_fst _) (zoom_snd _)) => apply fst_zoom; apply _ : pres.
#[export] Hint Extern 1 (Pres (on_fst _) getl) => apply fst_getl; apply _ : pres.

Module ActivationOutcome.
Import ActivateRelease ActivationSpec.

(** ** The status of the result document *)

Definition dict_kept (v v' : val) : Prop := is_dict v = true -> is_dict v' = true.
#[export] Instance dict_kept_preorder : PreOrder dict_kept.
Proof. split; [intros v Hv; exact Hv|]. intros x y z Hx Hy Hd. by apply Hy, Hx. Qed.

Definition status_is (st : string) (v : val) : Prop :=
  exists d, v = VDict d /\ Dict.lookup "status" d = Some (VStr st).
Definition status_kept (v v' : val) : Prop := forall st, status_is st v -> status_is st v'.
#[export] Instance status_kept_preorder : PreOrder status_kept.
Proof. split; [intros v st Hv; exact Hv|]. intros x y z Hx Hy st Hs. by apply Hy, Hx. Qed.

Section Status.
Context `{Platform} (a : args).

Lemma dict_setr k ks v : Pres (on_fst dict_kept) (setr (k :: ks) v).
Proof. apply fst_modl. by intros []. Qed.
Lemma status_setr k ks v : k <> "status" -> Pres (on_fst status_kept) (setr (k :: ks) v).
Proof.
  intros Hk. apply fst_modl. intros l st (d & -> & Hd). eexists. split; [done|].
  by rewrite Dict.lookup_set_ne.
Qed.
Lemma status_set st s u s' : is_dict s.1 = true -> setr ["status"] (VStr st) s = (Ok u, s') -> status_is st s'.1.
Proof.
  intros Hd ->%modl_Ok. simpl. destruct s as [[] w]; try done. eexists. split; [done|]. by rewrite Dict.lookup_set.
Qed.
End Status.
#[export] Hint Resolve dict_setr : pres.
#[export] Hint Extern 2 (Pres (on_fst status_kept) (setr _ _)) => apply status_setr; discriminate : pres.

Section Documents.
Context `{Platform} (a : args).
Lemma dict_write_result p : Pres (on_fst dict_kept) (write_result p).
Proof. unfold write_result. solve_pres. Qed.
Lemma status_write_result p : Pres (on_fst status_kept) (write_result p).
Proof. unfold write_result. solve_pres. Qed.
#[local] Hint Resolve dict_write_result status_write_result : pres.
Lemma dict_activate spec t h l r : Pres (on_fst dict_kept) (activate a spec t h l r).
Proof. unfold activate. solve_pres. Qed.
Lemma dict_roll_back spec t l p v e : Pres (on_fst dict_kept) (roll_back a spec t l p v e).
Proof. unfold roll_back. solve_pres. Qed.
Lemma status_incident : Pres (on_fst status_kept) (incident a).
Proof. unfold incident. solve_pres. Qed.
End Documents.
#[export] Hint Resolve dict_write_result status_write_result dict_activate dict_roll_back status_incident : pres.

(** ** The links *)

Section Links.
Context `{Platform} (d D : list string) (c t v : string) (link release_path : path).

(** The link and the release are on plain paths that are no part of one another;
    temporary names are names. *)
Record plain_paths : Prop := {
  pp_link : link = MkPath true (d ++ [c]);
  pp_release : release_path = MkPath true (D ++ [v]);
  pp_temporary : Path.div (MkPath true d) ("." +:+ Path.name link +:+ ".tmp." +:+ Str.of_Z pid) = MkPath true (d ++ [t]);
  pp_dirs : (".." ∉ d) /\ (".." ∉ D);
  pp_names : c <> ".." /\ t <> ".." /\ v <> ".." /\ t <> c;
  pp_apart : ((d ++ [c]) ∉ prefixes [] D) /\ ((d ++ [t]) ∉ prefixes [] D)
}.
Context (Hp : plain_paths).

Definition ways : list (list string) := prefixes [] d ++ prefixes [] D.

(** No program the activation starts removes those directories, or the link. *)
Context (Hexec : forall lg p f, let f' := (exec lg p f).1.2 in
  (forall k, k ∈ ways -> is_dir_node (f !! k) = true -> is_dir_node (f' !! k) = true) /\
  (forall tgt, f !! (d ++ [c]) = Some (NLink tgt) -> f' !! (d ++ [c]) = Some (NLink tgt))).

Definition selected (w : world) : option node := fs w !! (d ++ [c]).
Definition placed (w : world) : Prop := dirs_ok (fs w) d /\ dirs_ok (fs w) D.
Definition placed_kept (w w' : world) : Prop := placed w -> placed w'.
Definition link_kept (w w' : world) : Prop :=
  forall tgt, selected w = Some (NLink tgt) -> selected w' = Some (NLink tgt).

#[export] Instance placed_kept_preorder : PreOrder placed_kept.
Proof. split; [intros w Hw; exact Hw|]. intros x y z Hx Hy Hw. by apply Hy, Hx. Qed.
#[export] Instance link_kept_preorder : PreOrder link_kept.
Proof. split; [intros w tgt Hw; exact Hw|]. intros x y z Hx Hy tgt Hw. by apply Hy, Hx. Qed.

Lemma placed_dirs w w' : dirs_kept ways w w' -> placed_kept w w'.
Proof.
  intros Hk [H1 H2]. split; (eapply dirs_kept_ok; [exact Hk| |done]); intros k Hin; apply elem_of_app; auto.
Qed.
Lemma placed_pres {A} (m : IO A) : Pres (dirs_kept ways) m -> Pres placed_kept m.
Proof. intros Hm w. by apply placed_dirs. Qed.
Lemma link_writes {A} (m : IO A) : Pres writes_only m -> Pres link_kept m.
Proof. intros Hm w tgt Hs. unfold selected. by apply (writes_only_link _ _ _ _ (Hm w)). Qed.

#[local] Hint Extern 5 (Pres placed_kept _) => apply placed_pres; solve [eauto with pres] : pres.
#[local] Hint Extern 5 (Pres link_kept _) => apply link_writes; solve [eauto with pres] : pres.

Lemma subprocess_fs p w : fs (subprocess_run p w).2 = (exec (log w) p (fs w)).1.2.
Proof.
  unfold subprocess_run. destruct (exec (log w) p (fs w)) as [[r f] dt].
  by destruct r. Qed.
Lemma placed_subprocess p : Pres placed_kept (subprocess_run p).
Proof.
  apply placed_pres. intros w k Hk Hd. rewrite subprocess_fs. by apply (Hexec (log w) p (fs w)).
Qed.
Lemma link_subprocess p : Pres link_kept (subprocess_run p).
Proof. intros w tgt Hs. unfold selected. rewrite subprocess_fs. by apply (Hexec (log w) p (fs w)). Qed.
#[local] Hint Resolve placed_subprocess link_subprocess : pres.

Lemma placed_run_bounded argv n : Pres placed_kept (run_bounded argv n).
Proof. unfold run_bounded. solve_pres. Qed.
Lemma link_run_bounded argv n : Pres link_kept (run_bounded argv n).
Proof. unfold run_bounded. solve_pres. Qed.
#[local] Hint Resolve placed_run_bounded link_run_bounded : pres.

Context (a : args).

Lemma placed_stop_one s : Pres placed_kept (stop_one a s).
Proof. unfold stop_one. solve_pres. Qed.
Lemma link_start_one what s : Pres link_kept (start_one a what s).
Proof. unfold start_one. solve_pres. Qed.
Lemma placed_start_one what s : Pres placed_kept (start_one a what s).
Proof. unfold start_one. solve_pres. Qed.
Lemma link_run_health x y n : Pres link_kept (run_health x y n).
Proof. unfold run_health. solve_pres. Qed.
Lemma placed_run_health x y n : Pres placed_kept (run_health x y n).
Proof. unfold run_health. solve_pres. Qed.
Lemma link_units spec u : Pres link_kept (systemd_units_ready spec u).
Proof. unfold systemd_units_ready, unit_loaded. solve_pres. Qed.
Lemma placed_units spec u : Pres placed_kept (systemd_units_ready spec u).
Proof. unfold systemd_units_ready, unit_loaded. solve_pres. Qed.
Lemma wo_rollback_target x y z : Pres writes_only (rollback_health_target x y z).
Proof. unfold rollback_health_target. solve_pres. Qed.
#[local] Hint Resolve placed_stop_one link_start_one placed_start_one link_run_health placed_run_health
  link_units placed_units wo_rollback_target : pres.

(** *** The switch *)

Lemma symlink_steps target w : placed w -> atomic_symlink target link w =
  finally (switch_link d c t target) (unlink_missing_ok (MkPath true (d ++ [t]))) w.
Proof using Hp.
  intros [Hd _]. unfold atomic_symlink, mbind at 1, M_bind at 1.
  assert (Path.parent link = MkPath true d) as ->.
  { rewrite (pp_link Hp). unfold Path.parent. simpl. by rewrite removelast_last. }
  rewrite mkdir_p_dirs; [|apply (pp_dirs Hp)|done]. cbn zeta. rewrite (pp_temporary Hp).
  unfold switch_link. by rewrite (pp_link Hp).
Qed.

Lemma ct_apart cs w w' : changes_only cs w w' -> (forall k, k ∈ cs -> k = d ++ [c] \/ k = d ++ [t]) ->
  placed_kept w w'.
Proof using Hp.
  intros Hc Hcs. apply placed_dirs. eapply dk_changes; [exact Hc|]. destruct (pp_apart Hp) as [A1 A2]. intros k [->| ->]%Hcs Hin;
    (apply elem_of_app in Hin as [Hin|Hin]; [by apply child_not_prefix in Hin|by apply A1 || by apply A2]).
Qed.

Lemma switch_kept target w : placed w -> placed_kept w (switch_link d c t target w).2.
Proof using Hp.
  intros Hw. eapply ct_apart.
  - apply switch_changes; try apply Hp. apply Hw.
  - intros k [->|[->|[]%not_elem_of_nil]%elem_of_cons]%elem_of_cons; auto.
Qed.
Lemma unlink_kept w : placed w -> placed_kept w (unlink_missing_ok (MkPath true (d ++ [t])) w).2.
Proof using Hp.
  intros Hw. eapply ct_apart.
  - apply co_unlink; try apply Hp. apply Hw.
  - intros k [->|[]%not_elem_of_nil]%elem_of_cons; auto.
Qed.

Lemma placed_switch target : Pres placed_kept (atomic_symlink target link).
Proof using Hp.
  intros w Hw. rewrite symlink_steps by done. unfold finally.
  pose proof (switch_kept target w Hw Hw) as H1. destruct (switch_link d c t target w) as [r w1]. simpl in H1.
  pose proof (unlink_kept w1 H1 H1) as H2. by destruct (unlink_missing_ok _ w1) as [[] w2].
Qed.

(** When the switch ends normally, the link leads to the target. *)
Lemma switch_selects target w u w' : placed w -> atomic_symlink target link w = (Ok u, w') ->
  selected w' = Some (NLink (Path.to_str target)).
Proof using Hp.
  intros Hw. rewrite symlink_steps by done. unfold finally.
  pose proof (switch_kept target w Hw Hw) as H1.
  destruct (switch_link d c t target w) as [[[]|e] w1] eqn:E1; simpl in H1.
  - apply (switch_Ok d c t) in E1; try apply Hp; [|apply Hw].
    pose proof (co_unlink w1 d t ltac:(apply Hp) ltac:(apply Hp) ltac:(apply H1)) as C.
    destruct (unlink_missing_ok _ w1) as [[] w2]; [|done]. intros [= _ <-]. unfold selected.
    pose proof (pp_names Hp) as (_ & _ & _ & Hne).
    simpl in C. rewrite C; [done|]. intros E%list_elem_of_singleton. apply app_inv_head in E. congruence.
  - by destruct (unlink_missing_ok _ w1) as [[] w2].
Qed.
(** *** The installation *)

(** The temporary directory of the installation: no directory on the way is below it. *)
Definition outside (k : list string) : Prop := forall q, q ∈ ways -> below q k = false.

Lemma fresh_outside w k : placed w -> k <> [] -> node_at (fs w) k = None -> outside k.
Proof.
  intros [Hd HD] Hk Hn q Hq. destruct (below q k) eqn:E; [|done]. apply below_true in E as [r ->]. exfalso.
  apply node_at_none in Hn. apply elem_of_app in Hq as [Hq|Hq].
  - destruct (Hd k) as [m Hm]; [by eapply prefix_of_prefixes|congruence].
  - destruct (HD k) as [m Hm]; [by eapply prefix_of_prefixes|congruence].
Qed.

Section Temporary.
Context (tmp : string) (Htmp : tmp <> "..") (Hout : outside (D ++ [tmp])).

Lemma locate_tmp w : placed w -> locate w (MkPath true (D ++ [tmp])) = Some (D ++ [tmp]).
Proof using Hp Htmp. intros [_ HD]. apply locate_plain; [apply (pp_dirs Hp)|done|done]. Qed.
Lemma placed_rename dst : Pres placed_kept (replace (MkPath true (D ++ [tmp])) dst).
Proof using All.
  intros w Hw. eapply placed_dirs; [|done]. eapply dk_rename; [by apply locate_tmp| |done].
  by destruct D.
Qed.
Lemma placed_rmtree : Pres placed_kept (rmtree_ignore (MkPath true (D ++ [tmp]))).
Proof using All. intros w Hw. eapply placed_dirs; [|done]. eapply dk_rmtree; [by apply locate_tmp|done]. Qed.
#[local] Hint Resolve placed_rename placed_rmtree : pres.

Lemma wo_copyfile x y : Pres writes_only (copyfile x y).
Proof. unfold copyfile. solve_pres. Qed.
#[local] Hint Resolve wo_copyfile : pres.
Lemma placed_install_artifact x y z : Pres placed_kept (install_artifact x y z).
Proof. unfold install_artifact. solve_pres. Qed.
#[local] Hint Resolve placed_install_artifact : pres.
Lemma placed_install_into spec staged dst : Pres placed_kept (install_into spec staged (MkPath true (D ++ [tmp])) dst).
Proof using All. unfold install_into. solve_pres. Qed.
Lemma placed_install_body spec staged dst :
  Pres placed_kept (finally (install_into spec staged (MkPath true (D ++ [tmp])) dst)
    (e ← exists_ (MkPath true (D ++ [tmp])); if e : bool then rmtree_ignore (MkPath true (D ++ [tmp])) else mret tt)).
Proof using All. pose proof (placed_install_into spec staged dst). solve_pres. Qed.
End Temporary.

(** What the specification says, and the names [mkdtemp] builds from it. *)
Record release_spec (spec : val) : Prop := {
  rs_path : forall v rp, item spec ["target"; "release_path"] = Ok v -> expect_str v = Ok rp -> Path.of_str rp = release_path;
  rs_link : forall v l, item spec ["target"; "current_symlink"] = Ok v -> expect_str v = Ok l -> Path.of_str l = link;
  rs_temporary : forall rid h, getitem spec "release_id" = Ok rid -> exists tmp, tmp <> ".." /\
    Path.div (MkPath true D) (("." +:+ py_str rid +:+ ".") +:+ Str.take 8 (random_hex h)) = MkPath true (D ++ [tmp])
}.

Lemma placed_install_release spec : release_spec spec -> Pres placed_kept (install_release spec (staged_root a)).
Proof using All.
  intros Hs. unfold install_release. destruct (negb _); [solve_pres|].
  apply pres_lift_bind; [apply _|]. intros rv Erv. apply pres_lift_bind; [apply _|]. intros rp Erp.
  rewrite (rs_path _ Hs _ _ Erv Erp). cbn zeta.
  apply pres_bind; [apply _|solve_pres|]. intros [|]; [solve_pres|].
  apply pres_bind; [apply _|solve_pres|]. intros _. apply pres_lift_bind; [apply _|]. intros rid Erid.
  assert (Path.parent release_path = MkPath true D) as ->.
  { rewrite (pp_release Hp). unfold Path.parent. simpl. by rewrite removelast_last. }
  intros w Hw. unfold mbind at 1, M_bind at 1, mkdtemp. unfold mbind at 1, M_bind at 1, fresh_hex.
  destruct (rs_temporary _ Hs rid (ticks w) Erid) as (tmp & Htmp & ->).
  set (w1 := advance 0 w). assert (placed w1) as H1 by exact Hw.
  unfold mbind at 1, M_bind at 1.
  pose proof (placed_pres _ (dk_mkdir ways (MkPath true (D ++ [tmp])) 448) w1 H1) as H2.
  destruct (mkdir _ 448 w1) as [[[]|e] w2] eqn:Em; [|done]. simpl in H2 |- *.
  assert (outside (D ++ [tmp])) as Hout.
  { unfold mkdir in Em. rewrite locate_tmp in Em by done. apply (fresh_outside w1); [done|by destruct D|].
    by destruct (node_at (fs w1) (D ++ [tmp])). }
  by apply (placed_install_body tmp Htmp Hout).
Qed.
(** *** The runs *)

(** The health gate was run on a target, from one world to another, and answered with code 0. *)
Definition gate_passed (target output : path) (deadline : Z) (w w' : world) : Prop :=
  let p := Proc [executable; Path.to_str HEALTH_GATE; "--target"; Path.to_str target; "--output"; Path.to_str output]
             (Some (deadline + 15)) (environ w) None in
  (exists o e t, exec (log w) p (fs w) = (Exited 0 o e, fs w', t)) /\ log w' = p :: log w.

Lemma run_bounded_zero argv n w o e dt w' : run_bounded argv n w = (Ok (0, o, e, dt), w') ->
  let p := Proc argv (Some n) (environ w) None in (exists o e t, exec (log w) p (fs w) = (Exited 0 o e, fs w', t)) /\ log w' = p :: log w.
Proof.
  unfold run_bounded. intros E. apply M_bind_Ok in E as (t1 & w1 & [= _ <-] & E).
  apply M_bind_Ok in E as (env & w2 & [= <- <-] & E). apply M_bind_Ok in E as (r & w3 & E1 & E).
  apply M_bind_Ok in E as (t2 & w4 & [= _ <-] & E). apply ret_Ok in E as [E ->].
  unfold subprocess_run in E1. cbn in E1 |- *. destruct (exec _ _ _) as [[r1 f1] d1] eqn:Ex.
  destruct r1 as [code o1 e1|p1|cl m]; try discriminate.
  - injection E1 as <- <-. injection E as -> _ _ _. split; [by exists o1, e1, d1|done].
  - injection E1 as <- <-. discriminate.
Qed.
Lemma run_health_passed x y n w q w' : run_health x y n w = (Ok (true, q.1, q.2), w') -> gate_passed x y n w w'.
Proof.
  unfold run_health. intros E. apply M_bind_Ok in E as ([[[code o] e] dt] & w1 & E1 & E).
  apply ret_Ok in E as [E ->]. injection E as E _ _. apply Z.eqb_eq in E as ->. by apply run_bounded_zero in E1.
Qed.

#[local] Hint Resolve placed_switch placed_install_release : pres.

Lemma link_write_result p : Pres (on_snd link_kept) (write_result p).
Proof. intros s tgt Hs. by apply (writes_only_link _ _ _ _ (wo_write_result p s)). Qed.
Lemma link_setr ks x : Pres (on_snd link_kept) (setr ks x).
Proof. intros s. unfold on_snd. simpl. reflexivity. Qed.
Lemma placed_write_result p : Pres (on_snd placed_kept) (write_result p).
Proof. intros s. apply placed_dirs, dk_writes, wo_write_result. Qed.
Lemma placed_setr ks x : Pres (on_snd placed_kept) (setr ks x).
Proof. intros s. unfold on_snd. simpl. reflexivity. Qed.
Lemma wo_err x : Pres writes_only (print_err x).
Proof. apply wo_print_err. Qed.
Lemma quiet_setr ks x : Pres (on_snd same_log) (setr ks x).
Proof. intros s. unfold on_snd. simpl. reflexivity. Qed.
#[local] Hint Resolve quiet_setr : pres.
Lemma quiet_write_result p : Pres (on_snd same_log) (write_result p).
Proof. unfold write_result, schema_failures. solve_pres. Qed.
#[local] Hint Resolve link_write_result link_setr placed_write_result placed_setr wo_err quiet_write_result : pres.

Lemma placed_activate spec x y : release_spec spec ->
  Pres (on_snd placed_kept) (activate a spec x y link release_path).
Proof using All.
  intros Hs. pose proof (placed_install_release spec Hs). unfold activate. solve_pres.
Qed.

(** The invariant before the switch, and what the statements after it keep. *)
Definition ready (s : val * world) : Prop := placed s.2 /\ is_dict s.1 = true.
Definition ready_kept (s s' : val * world) : Prop := ready s -> ready s'.
Definition settled (st : string) (tgt : path) (s : val * world) : Prop :=
  status_is st s.1 /\ selected s.2 = Some (NLink (Path.to_str tgt)).
Lemma ready_run {A} (m : M (val * world) A) s r s' : Pres (on_snd placed_kept) m -> Pres (on_fst dict_kept) m ->
  m s = (r, s') -> ready s -> ready s'.
Proof.
  intros H1 H2 E [Hw Hd]. split; [exact (pres_run _ _ _ _ _ H1 E Hw)|exact (pres_run _ _ _ _ _ H2 E Hd)].
Qed.
Lemma link_run {A} (m : M (val * world) A) s r s' tgt : Pres (on_snd link_kept) m -> m s = (r, s') ->
  selected s.2 = Some (NLink tgt) -> selected s'.2 = Some (NLink tgt).
Proof. intros H1 E. exact (pres_run _ _ _ _ _ H1 E tgt). Qed.
Lemma settled_run {A} (m : M (val * world) A) s r s' st tgt : Pres (on_snd link_kept) m -> Pres (on_fst status_kept) m ->
  m s = (r, s') -> settled st tgt s -> settled st tgt s'.
Proof.
  intros H1 H2 E [Hs Hl]. split; [exact (pres_run _ _ _ _ _ H2 E st Hs)|exact (pres_run _ _ _ _ _ H1 E _ Hl)].
Qed.

(** The first statement of a run that ended normally, with the invariant after it. *)
Ltac first_step E E1 := let x := fresh "x" in let s := fresh "s" in apply M_bind_Ok in E as (x & s & E1 & E).
Ltac ready_step E R := let E1 := fresh in first_step E E1; apply ready_run in E1; [|solve_pres|solve_pres|exact R];
  clear R; rename E1 into R.
Ltac switched_step E R L := let E1 := fresh in first_step E E1;
  match type of E1 with ?m _ = _ =>
    let P := fresh in assert (Pres (on_snd link_kept) m) as P by solve_pres;
    apply (link_run m _ _ _ _ P E1) in L; clear P end; apply ready_run in E1; [|solve_pres|solve_pres|exact R];
  clear R; rename E1 into R.
(** Such a step after the gate, which starts no process *)
Ltac quiet_step E T K := let E1 := fresh in first_step E E1;
  match type of E1 with ?m ?s1 = (_, ?s2) =>
    let P := fresh in assert (Pres (on_snd same_log) m) as P by solve_pres;
    let Q := fresh in pose proof (pres_run _ _ _ _ _ P E1) as Q; rewrite <-Q in K; clear P Q end;
  match type of T with settled ?st ?tgt _ => apply (settled_run _ _ _ _ st tgt) in E1 end; [|solve_pres|solve_pres|exact T];
  clear T; rename E1 into T.
Ltac settled_step E T := let E1 := fresh in first_step E E1;
  match type of T with settled ?st ?tgt _ => apply (settled_run _ _ _ _ st tgt) in E1 end; [|solve_pres|solve_pres|exact T];
  clear T; rename E1 into T.

(** The gate of the new release: the last process of the run, started when the release was selected *)
Definition activated (spec : val) (x y : path) (w' : world) : Prop :=
  exists v n w2 w3, item spec ["health_gate"; "deadline_seconds"] = Ok v /\ expect_int v = Ok n /\
    selected w2 = Some (NLink (Path.to_str release_path)) /\ gate_passed x y n w2 w3 /\ log w' = log w3.
Lemma activate_Ok spec x y s z s' : release_spec spec -> ready s ->
  activate a spec x y link release_path s = (Ok z, s') ->
  z = 0 /\ settled "active" release_path s' /\ activated spec x y s'.2.
Proof using All.
  intros Hs R E. pose proof (placed_install_release spec Hs). unfold activate in E.
  do 6 ready_step E R. first_step E E0.
  apply zoom_Ok in E0 as E0'. destruct E0' as [Esw _].
  pose proof (switch_selects _ _ _ _ (proj1 R) Esw) as L.
  apply ready_run in E0; [|solve_pres|solve_pres|exact R]. clear R. rename E0 into R.
  do 3 switched_step E R L. apply M_bind_Ok in E as (n & sd & [Dl ->]%lift_Ok & E). apply bind_Ok in Dl as (dv & Dv & Dl).
  apply M_bind_Ok in E as ([[healthy dt] err] & sh & E0 & E). match type of E0 with _ ?s1 = _ => rename s1 into sg end. pose proof L as Lg.
  assert (healthy = true -> gate_passed x y n sg.2 sh.2) as Hg.
  { intros ->. apply zoom_Ok in E0 as [E0 _]. by apply (run_health_passed _ _ _ _ (dt, err)) in E0. }
  match type of E0 with ?m _ = _ =>
    let P := fresh in assert (Pres (on_snd link_kept) m) as P by solve_pres;
    apply (link_run m _ _ _ _ P E0) in L; clear P end.
  apply ready_run in E0; [|solve_pres|solve_pres|exact R].
  clear R. rename E0 into R. assert (log sh.2 = log sh.2) as K by done. first_step E E1. apply modl_Ok in E1 as Em.
  match type of E1 with _ = (_, ?s2) => assert (log s2.2 = log sh.2) as K1 by (by rewrite Em) end. clear K Em.
  apply (link_run _ _ _ _ _ (link_setr _ _) E1) in L. apply ready_run in E1; [|solve_pres|solve_pres|exact R]. clear R. rename E1 into R.
  destruct healthy; [|discriminate]. cbn [negb] in E. apply M_bind_Ok in E as (u & sa & E0 & E). apply modl_Ok in E0 as Em.
  apply (link_run _ _ _ _ _ (link_setr _ _) E0) in L. apply status_set in E0 as Est; [|apply R].
  assert (settled "active" release_path sa) as T by (split; [exact Est|exact L]).
  assert (log sa.2 = log sh.2) as K by (by rewrite Em). clear K1 Em.
  do 7 quiet_step E T K. apply ret_Ok in E as [<- ->]. split; [done|]. split; [exact T|].
  exists dv, n, sg.2, sh.2. do 3 (split; [done|]). split; [by apply Hg|exact K].
Qed.
(** The rollback: the previous release is selected, the health target is rewritten for it, its units are started, and its own gate is the
    last process of the run. *)
Definition restored (spec : val) (source : path) (previous : val) (p : path) (w' : world) : Prop :=
  exists wx wy target target' wz starts v n w2 w3,
    atomic_symlink p link wx = (Ok tt, wy) /\ load source wy = (Ok target, wy) /\ retarget target previous = Ok target' /\
    schema_failures HEALTH_SCHEMA target' "rollback_health_target" wy = (Ok [], wy) /\
    let checked := Path.div (state_dir a) (py_str previous +:+ ".rollback-health-target.json") in
    write_file checked (json_text target') wy = (Ok tt, wz) /\ services spec false = Ok starts /\
    mfor (start_one a "failed to restart rollback unit ") starts wz = (Ok tt, w2) /\
    item spec ["rollback"; "deadline_seconds"] = Ok v /\ expect_int v = Ok n /\ selected w2 = Some (NLink (Path.to_str p)) /\
    gate_passed checked (Path.div (state_dir a) (py_str previous +:+ ".rollback-health.json")) n w2 w3 /\ log w' = log w3.
Lemma rollback_target_Ok source previous p w u w' : rollback_health_target source previous p w = (Ok u, w') ->
  exists target target', load source w = (Ok target, w) /\ retarget target previous = Ok target' /\
    schema_failures HEALTH_SCHEMA target' "rollback_health_target" w = (Ok [], w) /\ write_file p (json_text target') w = (Ok tt, w').
Proof.
  unfold rollback_health_target. intros E. apply M_bind_Ok in E as (target & w1 & E1 & E). pose proof (pres_eq_run _ _ _ _ (ro_load_json _) E1) as ->.
  apply M_bind_Ok in E as (target' & w1 & [T ->]%lift_Ok & E). apply M_bind_Ok in E as (errors & w1 & E2 & E).
  pose proof (pres_eq_run _ _ _ _ (ro_schema_failures _ _ _) E2) as ->. destruct errors; [|done]. destruct u. by exists target, target'.
Qed.
Lemma roll_back_Ok spec x pp previous e s z s' : ready s ->
  roll_back a spec x link pp previous e s = (Ok z, s') ->
  z = 3 /\ settled "rolled-back" pp s' /\ restored spec x previous pp s'.2.
Proof using All.
  intros R E. unfold roll_back in E. apply M_bind_Ok in E as ([] & s0 & E0 & E).
  apply zoom_Ok in E0 as E0'. destruct E0' as [Esw _].
  pose proof (switch_selects _ _ _ _ (proj1 R) Esw) as L.
  apply ready_run in E0; [|solve_pres|solve_pres|exact R]. clear R. rename E0 into R.
  cbn zeta in E. apply M_bind_Ok in E as (u1 & s1 & E1 & E). apply zoom_Ok in E1 as E1'. destruct E1' as [Ert _].
  match type of E1 with ?m _ = _ => assert (Pres (on_snd link_kept) m) as P1 by solve_pres; apply (link_run m _ _ _ _ P1 E1) in L; clear P1 end.
  apply ready_run in E1; [|solve_pres|solve_pres|exact R]. clear R. rename E1 into R.
  apply M_bind_Ok in E as (starts & s2 & [Est ->]%lift_Ok & E).
  apply M_bind_Ok in E as ([] & s2 & E2 & E). apply zoom_Ok in E2 as E2'. destruct E2' as [Estart _].
  match type of E2 with ?m _ = _ => assert (Pres (on_snd link_kept) m) as P1 by solve_pres; apply (link_run m _ _ _ _ P1 E2) in L; clear P1 end.
  apply ready_run in E2; [|solve_pres|solve_pres|exact R]. clear R. rename E2 into R. pose proof L as Lg.
  apply M_bind_Ok in E as (n & sd & [Dl ->]%lift_Ok & E). apply bind_Ok in Dl as (dv & Dv & Dl).
  apply M_bind_Ok in E as ([[healthy dt] err] & sh & E0 & E).
  match type of E0 with zoom_snd (run_health ?t ?o _) _ = _ => assert (healthy = true -> gate_passed t o n s2.2 sh.2) as Hg end.
  { intros ->. apply zoom_Ok in E0 as [E0 _]. by apply (run_health_passed _ _ _ _ (dt, err)) in E0. }
  match type of E0 with ?m _ = _ =>
    let P := fresh in assert (Pres (on_snd link_kept) m) as P by solve_pres;
    apply (link_run m _ _ _ _ P E0) in L; clear P end.
  apply ready_run in E0; [|solve_pres|solve_pres|exact R].
  clear R. rename E0 into R. first_step E E1. apply modl_Ok in E1 as Em.
  match type of E1 with _ = (_, ?s2) => assert (log s2.2 = log sh.2) as K1 by (by rewrite Em) end. clear Em.
  apply (link_run _ _ _ _ _ (link_setr _ _) E1) in L. apply ready_run in E1; [|solve_pres|solve_pres|exact R]. clear R. rename E1 into R.
  destruct healthy; [|discriminate]. cbn [negb] in E. first_step E E1. apply modl_Ok in E1 as Em.
  match type of E1 with _ = (_, ?s2) => assert (log s2.2 = log sh.2) as K2 by (by rewrite Em) end. clear Em K1.
  apply (link_run _ _ _ _ _ (link_setr _ _) E1) in L. apply ready_run in E1; [|solve_pres|solve_pres|exact R]. clear R. rename E1 into R.
  apply M_bind_Ok in E as (u & sa & E1 & E). apply modl_Ok in E1 as Em.
  apply (link_run _ _ _ _ _ (link_setr _ _) E1) in L. apply status_set in E1 as Eset; [|apply R].
  assert (settled "rolled-back" pp sa) as T by (split; [exact Eset|exact L]).
  assert (log sa.2 = log sh.2) as K by (by rewrite Em). clear K2 Em.
  do 3 quiet_step E T K. apply ret_Ok in E as [<- ->]. split; [done|]. split; [exact T|].
  destruct (rollback_target_Ok _ _ _ _ _ _ Ert) as (target & target' & T1 & T2 & T3 & T4).
  exists s.2, s0.2, target, target', s1.2, starts, dv, n, s2.2, sh.2. do 4 (split; [done|]). cbv zeta. do 6 (split; [done|]).
  split; [by apply Hg|exact K].
Qed.

Lemma placed_roll_back spec x pp previous e : Pres (on_snd placed_kept) (roll_back a spec x link pp previous e).
Proof using All. unfold roll_back. solve_pres. Qed.

Lemma incident_Ok st s z s' : status_is st s.1 -> incident a s = (Ok z, s') -> z = 4 /\ status_is st s'.1.
Proof.
  intros Hs E. assert (z = 4) as ->.
  { unfold incident in E. do 4 (apply M_bind_Ok in E as (? & ? & _ & E)). by apply ret_Ok in E as [<- _]. }
  split; [done|]. exact (pres_run _ _ _ _ _ (status_incident a) E st Hs).
Qed.

(** How the failure of an activation ends. *)
Definition failed_over (spec : val) (x : path) (previous : val) (pp : option path) (z : Z) (s' : val * world) : Prop :=
  (exists p, pp = Some p /\ z = 3 /\ settled "rolled-back" p s' /\ restored spec x previous p s'.2) \/
  (z = 4 /\ status_is "incident" s'.1).

Lemma fail_over_Ok spec x previous pp e s z s' : ready s ->
  fail_over a spec x link previous pp e s = (Ok z, s') -> failed_over spec x previous pp z s'.
Proof using All.
  intros R E. unfold fail_over in E. do 2 ready_step E R. apply M_bind_Ok in E as (retained & s2 & E0 & E).
  apply ready_run in E0; [|solve_pres|solve_pres|exact R]. clear R. rename E0 into R.
  assert (forall s z s', is_dict s.1 = true ->
    (setr ["status"] (VStr "incident") ;; setr ["incident_reason"] (str_take 1000 ("activation=" +:+ exn_str e +:+ "; no retained rollback target")) ;;
      incident a) s = (Ok z, s') -> z = 4 /\ status_is "incident" s'.1) as Hno.
  { clear. intros s z s' Hd E. apply M_bind_Ok in E as (u & s1 & E1 & E). apply status_set in E1; [|done].
    apply M_bind_Ok in E as (u2 & s2 & E2 & E). eapply incident_Ok; [|exact E].
    eapply (pres_run (on_fst status_kept)); [|exact E2|exact E1]. solve_pres. }
  destruct pp as [pp|]; [destruct retained|].
  - do 2 ready_step E R. apply M_bind_Ok in E as (r & sr & E0 & E).
    apply catch_Ok in E0 as [E0|(e2 & sx & k & E1 & Ek & E2)].
    + apply M_bind_Ok in E0 as (z0 & sy & E1 & E0). apply ret_Ok in E0 as [<- ->]. apply ret_Ok in E as [<- ->].
      left. exists pp. split; [done|]. by eapply roll_back_Ok.
    + right. assert (ready sx) as R3.
      { eapply ready_run; [| |exact E1|exact R].
        - pose proof (placed_roll_back spec x pp previous e). solve_pres.
        - solve_pres. }
      clear R E1. rename R3 into R. unfold on_any in Ek. destruct (is_exception e2); [|discriminate].
      injection Ek as <-. ready_step E2 R. apply M_bind_Ok in E2 as (u & su & E1 & E2).
      apply status_set in E1; [|apply R]. apply M_bind_Ok in E2 as (u2 & sv & E3 & E2).
      apply ret_Ok in E2 as [<- ->]. eapply incident_Ok; [|exact E].
      eapply (pres_run (on_fst status_kept)); [|exact E3|exact E1]. solve_pres.
  - right. ready_step E R. eapply Hno; [apply R|exact E].
  - right. ready_step E R. eapply Hno; [apply R|exact E].
Qed.
(** *** The outcomes *)

(** The previous release of the specification: its identifier and its path *)
Definition previous_of (spec previous : val) (p : path) : Prop :=
  item spec ["rollback"; "previous_release_id"] = Ok previous /\ truthy previous = true /\
  exists pv pp, item spec ["rollback"; "previous_release_path"] = Ok pv /\ expect_str pv = Ok pp /\ p = Path.of_str pp.

(** The health target of the command line, as it was resolved when the units were found to be loaded *)
Definition target_resolved (spec : val) (w : world) (x : path) : Prop :=
  exists w1, systemd_units_ready spec (a_systemctl a) w = (Ok [], w1) /\ resolve (health_target a) w1 = (Ok x, w1).

(** The exit code, the document and the link agree. *)
Definition outcome (spec : val) (w : world) (z : Z) (s' : val * world) : Prop :=
  (z = 0 /\ settled "active" release_path s' /\ exists x rid, target_resolved spec w x /\ getitem spec "release_id" = Ok rid /\
     activated spec x (Path.div (state_dir a) (py_str rid +:+ ".health.json")) s'.2) \/
  (exists previous p x, previous_of spec previous p /\ z = 3 /\ settled "rolled-back" p s' /\ target_resolved spec w x /\
     restored spec x previous p s'.2) \/
  (z = 4 /\ status_is "incident" s'.1) \/
  ((z = 1 \/ z = 2) /\ status_is "failed" s'.1 /\ link_kept w s'.2).

Lemma execute_release_Ok spec s z s' : release_spec spec -> ready s -> status_is "failed" s.1 ->
  execute_release a spec s = (Ok z, s') -> outcome spec s.2 z s'.
Proof using All.
  intros Hs R Hf E. unfold execute_release in E. apply M_bind_Ok in E as (uf & s1 & E1 & E).
  assert (link_kept s.2 s1.2) as L.
  { eapply (pres_run (on_snd link_kept)); [|exact E1]. solve_pres. }
  apply zoom_Ok in E1 as E1'. destruct E1' as [_ Hl]. rewrite <-Hl in Hf. pose proof E1 as Eu.
  apply ready_run in E1; [|solve_pres|solve_pres|exact R]. clear R. rename E1 into R.
  destruct uf as [|f fs0].
  - apply zoom_Ok in Eu as [Eu _]. first_step E E1. apply modl_Ok in E1 as Em. apply ready_run in E1; [|solve_pres|solve_pres|exact R]. clear R. rename E1 into R.
    apply M_bind_Ok in E as (tgt & st & E1 & E). apply zoom_Ok in E1 as [Et Ft]. assert (Pres eq (resolve (health_target a))) as PR by solve_pres.
    pose proof (pres_eq_run _ _ _ _ PR Et) as Wt. rewrite Em in Wt, Et. cbn [snd] in Wt, Et. rewrite Wt in Et.
    assert (ready st) as R0 by (split; [rewrite Wt|rewrite Ft]; by destruct R as [R1 R2]; rewrite Em in R1). clear R. rename R0 into R.
    assert (target_resolved spec s.2 tgt) as Tr by (by exists s1.2). clear Em Ft Wt Et PR.
    ready_step E R. match type of R with ready ?x => rename x into sr end.
    apply M_bind_Ok in E as (rid & s5 & E1 & E). apply lift_Ok in E1 as [Erid ->].
    cbn zeta in E. apply M_bind_Ok in E as (lv & s6 & E1 & E). apply lift_Ok in E1 as [Elv ->].
    apply M_bind_Ok in E as (l & s6 & E1 & E). apply lift_Ok in E1 as [El ->].
    rewrite (rs_link _ Hs _ _ Elv El) in E.
    apply M_bind_Ok in E as (previous & s6 & E1 & E). apply lift_Ok in E1 as [Eprev ->].
    apply M_bind_Ok in E as (pp & s6 & Epp & E).
    assert (s6 = sr /\ forall p, pp = Some p -> previous_of spec previous p) as [-> Hpp].
    { destruct (truthy previous) eqn:Etr.
      - apply M_bind_Ok in Epp as (pv & s7 & E2 & E3). apply lift_Ok in E2 as [E2 ->].
        apply M_bind_Ok in E3 as (ppv & s7 & E4 & E3). apply lift_Ok in E4 as [E4 ->].
        apply ret_Ok in E3 as [<- ->]. split; [done|]. intros p [= <-]. do 2 (split; [done|]). by exists pv, ppv.
      - apply ret_Ok in Epp as [<- ->]. by split. }
    apply catch_Ok in E as [E|(e & s7 & k & E1 & Ek & E)].
    + apply M_bind_Ok in E as (rv & s7 & E1 & E). apply lift_Ok in E1 as [Erv ->].
      apply M_bind_Ok in E as (rp & s7 & E1 & E). apply lift_Ok in E1 as [Erp ->].
      rewrite (rs_path _ Hs _ _ Erv Erp) in E.
      apply activate_Ok in E as (-> & T & Hg); [|done|done]. left. split; [done|]. split; [done|]. by exists tgt, rid.
    + assert (ready s7) as R7.
      { eapply ready_run; [| |exact E1|exact R]; [|solve_pres].
        apply pres_lift_bind; [apply _|]. intros rv Erv. apply pres_lift_bind; [apply _|]. intros rp Erp.
        rewrite (rs_path _ Hs _ _ Erv Erp). by apply placed_activate. }
      unfold on_any in Ek. destruct (is_exception e); [|discriminate]. injection Ek as <-. right.
      apply fail_over_Ok in E as [(p & Hp1 & -> & T & Hg)|[-> Hst]]; [left|right; left; done|exact R7].
      exists previous, p, tgt. split; [by apply Hpp|done].
  - right. right. right.
    assert (forall A (m : M (val * world) A) r s2, m s1 = (r, s2) -> Pres (on_snd link_kept) m -> Pres (on_fst status_kept) m ->
      status_is "failed" s2.1 /\ link_kept s.2 s2.2) as Hm.
    { intros A m r s2 Em P1 P2. split; [exact (pres_run _ _ _ _ _ P2 Em _ Hf)|].
      etransitivity; [exact L|]. exact (pres_run _ _ _ _ _ P1 Em). }
    split; [|eapply Hm; [exact E|solve_pres|solve_pres]].
    do 3 (apply M_bind_Ok in E as (? & ? & _ & E)). apply ret_Ok in E as [<- _]. by left.
Qed.
Lemma initial_status spec digest started doc : initial_result a spec digest started = Ok doc -> status_is "failed" doc.
Proof.
  unfold initial_result. intros E. inv_run. injection E as <-. eexists. split; [done|]. done.
Qed.

Lemma link_preflight spec digest : Pres (on_snd link_kept) (preflight a spec digest).
Proof. intros s. pose proof (ro_activation_preflight a spec digest s) as E. unfold on_snd in *. by rewrite <-E. Qed.
Lemma status_preflight spec digest : Pres (on_fst status_kept) (preflight a spec digest).
Proof. unfold preflight, readiness_failures, unless_empty. solve_pres. Qed.
Lemma dict_preflight spec digest : Pres (on_fst dict_kept) (preflight a spec digest).
Proof. unfold preflight, readiness_failures, unless_empty. solve_pres. Qed.
Lemma placed_preflight spec digest : Pres (on_snd placed_kept) (preflight a spec digest).
Proof. intros s. pose proof (ro_activation_preflight a spec digest s) as E. unfold on_snd in *. by rewrite <-E. Qed.
#[local] Hint Resolve link_preflight status_preflight dict_preflight placed_preflight : pres.

(** C3: An execution that ends with an exit code tells the truth about the release that is
    selected. With 0 the link leads to the new release, the document says [active] and
    the last process of the run is the health gate, which was started on the health target of the command line
    with that release selected and the deadline of the specification, and answered 0; with 3 the link leads to the previous release, the
    document says [rolled-back], and the last process is the gate of the previous release: its target is the one
    the rollback wrote, retargeted to that release, after it had selected it, it was started after the units of the release, and answered 0; with 4
    the document says [incident]; with 1 and 2 the document says [failed] and the link is
    what it was. There is no other code. *)
Theorem activation_outcome spec digest started doc w z :
  release_spec spec -> placed w -> execute a = true -> initial_result a spec digest started = Ok doc ->
  (with_result a spec digest (doc, w)).1 = Ok z ->
  outcome spec w z (with_result a spec digest (doc, w)).2.
Proof using All.
  intros Hs Hw Hx Hi%initial_status. destruct (with_result a spec digest (doc, w)) as [r s'] eqn:E.
  simpl. intros ->. assert (ready (doc, w)) as R by (split; [done|by destruct Hi as (dd & -> & _)]).
  unfold with_result in E. apply M_bind_Ok in E as (fl & s1 & E1 & E).
  assert (settled_failed : status_is "failed" s1.1 /\ link_kept w s1.2).
  { split; [exact (pres_run _ _ _ _ _ (status_preflight spec digest) E1 _ Hi)|].
    exact (pres_run _ _ _ _ _ (link_preflight spec digest) E1). }
  destruct settled_failed as [Hf L].
  assert (s1.2 = w) as W1 by (symmetry; exact (pres_run _ _ _ _ _ (ro_activation_preflight a spec digest) E1)).
  assert (forall A (m : M (val * world) A) r s2, m s1 = (r, s2) -> Pres (on_snd link_kept) m -> Pres (on_fst status_kept) m ->
    status_is "failed" s2.1 /\ link_kept w s2.2) as Hm.
  { intros A m r s2 Em P1 P2. split; [exact (pres_run _ _ _ _ _ P2 Em _ Hf)|].
    etransitivity; [exact L|]. exact (pres_run _ _ _ _ _ P1 Em). }
  apply ready_run in E1; [|solve_pres|solve_pres|exact R]. clear R. rename E1 into R.
  destruct fl as [|f fs0].
  - rewrite Hx in E. cbn [negb] in E. apply M_bind_Ok in E as (why & s2 & E2 & E). apply lift_Ok in E2 as [_ ->].
    destruct why as [reason|].
    + right. right. right. split; [|eapply Hm; [exact E|solve_pres|solve_pres]].
      do 3 (apply M_bind_Ok in E as (? & ? & _ & E)). apply ret_Ok in E as [<- _]. by right.
    + apply execute_release_Ok in E; [|done|exact R|exact Hf]. rewrite W1 in E.
      destruct E as [E|[E|[E|(Hz & Hst & Hl)]]]; [by left|by right; left|by right; right; left|].
      right. right. right. done.
  - right. right. right. split; [|eapply Hm; [exact E|solve_pres|solve_pres]].
    do 3 (apply M_bind_Ok in E as (? & ? & _ & E)). apply ret_Ok in E as [<- _]. by left.
Qed.
End Links.

(** ** A failed installation *)

Section FailedInstall.
Context `{Platform} (a : args).

(** The part of the document that says what was changed. *)
Definition mutation_kept (v v' : val) : Prop := getitem v' "mutation" = getitem v "mutation".
#[export] Instance mutation_kept_preorder : PreOrder mutation_kept.
Proof. split; [by intros v|]. intros x y z Hx Hy. unfold mutation_kept in *. congruence. Qed.
Lemma mutation_setr k ks v : k <> "mutation" -> Pres (on_fst mutation_kept) (setr (k :: ks) v).
Proof.
  intros Hk. apply fst_modl. intros [| | | | | |d]; try done. unfold mutation_kept, getitem. simpl.
  by rewrite Dict.lookup_set_ne.
Qed.
#[local] Hint Extern 2 (Pres (on_fst mutation_kept) (setr _ _)) => apply mutation_setr; discriminate : pres.
Lemma mutation_fail_over spec x l previous pp e : Pres (on_fst mutation_kept) (fail_over a spec x l previous pp e).
Proof. unfold fail_over, roll_back, incident, write_result. solve_pres. Qed.

Lemma lg_run_bounded argv n : Pres log_grows (run_bounded argv n).
Proof. unfold run_bounded. solve_pres. Qed.
#[local] Hint Resolve lg_run_bounded : pres.
Lemma sl_atomic_symlink x y : Pres same_log (atomic_symlink x y).
Proof. unfold atomic_symlink. solve_pres. Qed.
Lemma sl_rollback_target x y z : Pres same_log (rollback_health_target x y z).
Proof. unfold rollback_health_target. solve_pres. Qed.
#[local] Hint Resolve sl_atomic_symlink sl_rollback_target : pres.
Lemma lg_setr ks v : Pres (on_snd log_grows) (setr ks v).
Proof. intros s. unfold on_snd. simpl. reflexivity. Qed.
Lemma lg_write_result p : Pres (on_snd log_grows) (write_result p).
Proof. intros s. exists []. apply (wo_write_result p s). Qed.
#[local] Hint Resolve lg_setr lg_write_result : pres.

(** The turn of the loop that stops a service, as the recovery does it. *)
Definition stopped (svc : val) (w : world) : Prop :=
  exists us t env, unit_of svc = Ok us /\ Proc [a_systemctl a; "stop"; us] (Some t) env None ∈ log w.

Lemma run_bounded_logged argv n w r w' : run_bounded argv n w = (Ok r, w') ->
  exists env, Proc argv (Some n) env None ∈ log w'.
Proof.
  unfold run_bounded. intros E. apply M_bind_Ok in E as (t1 & w1 & _ & E).
  apply M_bind_Ok in E as (env & w2 & _ & E). apply M_bind_Ok in E as (r1 & w3 & E1 & E).
  exists env. assert (Proc argv (Some n) env None ∈ log w3) as Hin.
  { unfold subprocess_run in E1. destruct (exec _ _ _) as [[r2 f1] d1]. destruct r2; simplify_eq; simpl; by left. }
  eapply log_grows_in; [|exact Hin]. eapply pres_run; [|exact E]. solve_pres.
Qed.

(** C9: When the installation of the release fails, the recovery still stops every service
    of the specification, although nothing was stopped or switched before; and the
    published document keeps the [mutation] object it had, which denies the change. *)
Theorem failed_install_stops_services spec x y link rp previous pp s e w1 z s' :
  install_release spec (staged_root a) s.2 = (Raise e, w1) -> is_exception e = true ->
  catch (activate a spec x y link rp) (on_any (fail_over a spec x link previous pp)) s = (Ok z, s') ->
  getitem s'.1 "mutation" = getitem s.1 "mutation" /\
  exists stops, services spec true = Ok stops /\ Forall (λ svc, stopped svc s'.2) stops.
Proof.
  intros Ei He E. unfold catch, activate in E. unfold mbind at 1, M_bind at 1 in E.
  unfold zoom_snd at 1 in E. rewrite Ei in E. unfold on_any at 1 in E. rewrite He in E.
  split; [exact (pres_run _ _ _ _ _ (mutation_fail_over spec x link previous pp e) E)|].
  unfold fail_over in E. apply M_bind_Ok in E as (stops & s1 & E1 & E). apply lift_Ok in E1 as [E1 ->].
  exists stops. split; [done|]. apply M_bind_Ok in E as (u & s2 & E2 & E). apply zoom_Ok in E2 as [E2 _].
  assert (log_grows s2.2 s'.2) as Hg.
  { eapply (pres_run (on_snd log_grows)); [|exact E]. unfold roll_back, incident, start_one, run_health. solve_pres. }
  eapply Forall_impl; [apply (mfor_Ok_In log_grows) in E2; [exact E2|solve_pres]|]. simpl.
  intros svc (t1 & t2 & _ & Et & Hgrow). apply M_bind_Ok in Et as (us & t3 & Eu & Et).
  apply lift_Ok in Eu as [Eu ->]. apply M_bind_Ok in Et as (tm & t3 & Em & Et). apply lift_Ok in Em as [_ ->].
  apply M_bind_Ok in Et as (r & t3 & Er & Et). apply ret_Ok in Et as [_ ->].
  apply run_bounded_logged in Er as [env Hin]. exists us, tm, env. split; [done|].
  eapply log_grows_in; [|exact Hin]. by etransitivity.
Qed.
End FailedInstall.
End ActivationOutcome.

(** ** Concrete runs *)

Module ActivationOutcomeRun.
Import Fixture ActivateRelease ActivationSpec ActivationRun ActivationOutcome.

(** Every program succeeds, and says that a unit is loaded. *)
Definition loaded_host : Platform := host_with (λ _ _ f, (Exited 0 "loaded" "", f, 1000)).

Lemma item_is spec ks x v : item spec ks = Ok x -> Ok v = item spec ks -> v = x.
Proof. intros ->. by intros [= ->]. Qed.

Lemma the_paths : plain_paths (H := loaded_host) ["opt"; "liqi"] ["opt"; "liqi"; "releases"] "current" ".current.tmp.4242" "r2"
  (Path.of_str "/opt/liqi/current") (Path.of_str "/opt/liqi/releases/r2").
Proof.
  split; try reflexivity.
  - split; apply (bool_decide_eq_false_1 (_ ∈ _)); reflexivity.
  - done.
  - split; apply (bool_decide_eq_false_1 (_ ∈ _)); reflexivity.
Qed.

Lemma the_release_spec : release_spec (H := loaded_host) ["opt"; "liqi"; "releases"]
  (Path.of_str "/opt/liqi/current") (Path.of_str "/opt/liqi/releases/r2") the_spec.
Proof.
  split.
  - intros v rp E1 E2. apply (item_is _ _ _ (VStr "/opt/liqi/releases/r2")) in E1; [|reflexivity].
    subst v. by injection E2 as <-.
  - intros v l E1 E2. apply (item_is _ _ _ (VStr "/opt/liqi/current")) in E1; [|reflexivity].
    subst v. by injection E2 as <-.
  - intros rid h E. assert (rid = VStr "r2") as ->.
    { assert (getitem the_spec "release_id" = Ok (VStr "r2")) as E2 by reflexivity. congruence. }
    exists ".r2.5f0c1d7e". split; [done|]. reflexivity.
Qed.

Lemma the_placed w : dirs_okb (fs w) ["opt"; "liqi"; "releases"] = true ->
  placed ["opt"; "liqi"] ["opt"; "liqi"; "releases"] w.
Proof.
  intros E%dirs_okb_true. split; [|done]. intros q Hq. apply E. simpl in *. rewrite !elem_of_cons in *. tauto.
Qed.

(** The execution on a host where every program succeeds. *)
Definition doc0 : val := match initial_result (the_args true) the_spec (expected_spec_sha256 (the_args true)) "2026-07-14T06:00:00Z" with Ok v => v | _ => VNone end.

Lemma activation_outcome_witness : let host := loaded_host in
  outcome (H := host) ["opt"; "liqi"] "current" (Path.of_str "/opt/liqi/current") (Path.of_str "/opt/liqi/releases/r2") (the_args true) the_spec w0 0
    (with_result (the_args true) the_spec (expected_spec_sha256 (the_args true)) (doc0, w0)).2.
Proof.
  intros host.
  apply (activation_outcome (H := host) ["opt"; "liqi"] ["opt"; "liqi"; "releases"] "current" ".current.tmp.4242" "r2"
    (Path.of_str "/opt/liqi/current") (Path.of_str "/opt/liqi/releases/r2") the_paths) with (started := "2026-07-14T06:00:00Z").
  - intros lg p f. split; [by intros k _ Hk|by intros tgt Ht].
  - exact the_release_spec.
  - apply the_placed. vm_compute. reflexivity.
  - reflexivity.
  - vm_compute. reflexivity.
  - vm_compute. reflexivity.
Defined.

(** The release path exists: the installation refuses it, the service is stopped. *)
Definition w1 : world := add_dir "/opt/liqi/releases/r2" w0.
Definition install_error : exn := Exn RuntimeError "release path already exists: /opt/liqi/releases/r2".
Definition failed_run : res Z * (val * world) :=
  catch (activate (H := loaded_host) (the_args true) the_spec (Path.of_str "/run/health.json") (Path.of_str "/var/state/h")
           (Path.of_str "/opt/liqi/current") (Path.of_str "/opt/liqi/releases/r2"))
        (on_any (fail_over (H := loaded_host) (the_args true) the_spec (Path.of_str "/run/health.json")
           (Path.of_str "/opt/liqi/current") (VStr "r1") (Some (Path.of_str "/opt/liqi/releases/r1")))) (doc0, w1).

Lemma failed_install_stops_services_witness :
  getitem failed_run.2.1 "mutation" = getitem doc0 "mutation" /\
  exists stops, services the_spec true = Ok stops /\ Forall (λ svc, stopped (the_args true) svc failed_run.2.2) stops.
Proof.
  destruct (install_release (H := loaded_host) the_spec (staged_root (the_args true)) w1) as [r w2] eqn:Ei.
  assert (r = Raise install_error) as ->.
  { change r with ((r, w2).1). rewrite <-Ei. vm_compute. reflexivity. }
  destruct failed_run as [r s'] eqn:Er. assert (r = Ok 3) as ->.
  { change r with ((r, s').1). rewrite <-Er. vm_compute. reflexivity. }
  apply (failed_install_stops_services (H := loaded_host) (the_args true) the_spec (Path.of_str "/run/health.json")
    (Path.of_str "/var/state/h") (Path.of_str "/opt/liqi/current") (Path.of_str "/opt/liqi/releases/r2") (VStr "r1")
    (Some (Path.of_str "/opt/liqi/releases/r1")) (doc0, w1) install_error w2 3 s'); [exact Ei|reflexivity|exact Er].
Defined.
End ActivationOutcomeRun.
