(* ===== verification/HealthGate.v ===== *)
(** * scripts/release/health_gate.py

    The bounded health gate: the checks of a target are repeated until all of
    them pass in one attempt or the deadline is over. The network is a
    parameter; [urllib.parse.urlsplit] is written out. *)

From Stdlib Require Import Ascii.
From S2P Require Import Prelude PyFloat PyMonad PyValue PyTime PyJson Sha256 PyOs OsFacts.

(** ** What the network answers

    [http_get n url timeout_ms] is the answer to a request made at reading [n]
    of the clocks, and the time it took: a response whose status and body were
    read, an exception of the classes [perform] catches with its class name, or
    another one. [netloc_refusal] is the standard library's refusal of an IP
    literal or of characters outside ASCII in a URL. *)
Inductive http_out :=
  | Response (status : Z) (body : string)
  | RequestFailed (class msg : string)
  | RequestRaised (c : exn_class) (msg : string).

Class Network := {
  http_get : nat -> string -> Z -> http_out * Z;
  netloc_refusal : string -> option string
}.

Module Url.
(** [urllib.parse.urlsplit]: the parts the gate looks at. *)
Record split := Split { scheme : string; netloc : string; url_path : string; query : string; fragment : string }.

Definition is_alpha (c : ascii) : bool :=
  let n := N_of_ascii c in (((65 <=? n) && (n <=? 90)) || ((97 <=? n) && (n <=? 122)))%N.
Definition scheme_char (c : ascii) : bool := is_alpha c || Str.is_digit c || inb Ascii.eqb c ["+"; "-"; "."]%char.
Definition c0_or_space (c : ascii) : bool := (N_of_ascii c <=? 32)%N.
Definition unsafe (c : ascii) : bool := inb N.eqb (N_of_ascii c) [9; 10; 13]%N.

(** The characters before the first of [stops], and the rest from it on. *)
Fixpoint span (stops : list ascii) (s : string) : string * string :=
  match s with
  | EmptyString => ("", "")
  | String c r => if inb Ascii.eqb c stops then ("", s)
                  else let p := span stops r in (String c p.1, p.2)
  end.

Definition split_scheme (url : string) : string * string :=
  match Str.partition ":" url with
  | Some (s, r) =>
      match s with
      | String c _ => if is_alpha c && Str.all_chars scheme_char s then (Str.lower s, r) else ("", url)
      | EmptyString => ("", url)
      end
  | None => ("", url)
  end.

(** [rpartition("@")] and [partition(":")] on the network location. *)
Fixpoint last_at (l : list string) : option string :=
  match l with
  | [] | [_] => None
  | x :: r => match last_at r with Some y => Some (x +:+ "@" +:+ y) | None => Some x end
  end.
Definition userinfo (netloc : string) : option string := last_at (Str.split_char "@" netloc).
Definition username (u : split) : option string :=
  match userinfo (netloc u) with
  | Some i => Some (match Str.partition ":" i with Some (n, _) => n | None => i end)
  | None => None
  end.
Definition password (u : split) : option string :=
  match userinfo (netloc u) with
  | Some i => match Str.partition ":" i with Some (_, p) => Some p | None => None end
  | None => None
  end.

Section Split.
Context `{Network}.

Definition netloc_error (netloc : string) : option string :=
  let l := Str.contains "[" netloc in let r := Str.contains "]" netloc in
  if xorb l r then Some "Invalid IPv6 URL"
  else if l && r || negb (Str.all_chars (λ c, (N_of_ascii c <? 128)%N) netloc) then netloc_refusal netloc else None.

Definition urlsplit (url : string) : res split :=
  let url := Str.lstrip_by c0_or_space url in
  let url := Str.of_list (List.filter (λ c, negb (unsafe c)) (Str.to_list url)) in
  let '(scheme, url) := split_scheme url in
  '(netloc, url) ← (match Str.strip_prefix "//" url with
                    | Some r =>
                        let '(netloc, rest) := span ["/"; "?"; "#"]%char r in
                        match netloc_error netloc with
                        | Some m => raise ValueError m
                        | None => Ok (netloc, rest)
                        end
                    | None => Ok ("", url)
                    end);
  let '(url, fragment) := match Str.partition "#" url with Some p => p | None => (url, "") end in
  let '(url, query) := match Str.partition "?" url with Some p => p | None => (url, "") end in
  Ok (Split scheme netloc url query fragment).
End Split.
End Url.

Module HealthGate.
Section Env.
Context `{Platform} `{Network}.

Definition ROOT : path := repo_root.
Definition SCHEMA : path := Path.div ROOT "contracts/operations/health-gate-target-v0.schema.json".

Definition load (p : path) : IO val := load_json p.
Definition utc_now : IO string := PyOs.utc_now.

Definition nonempty (o : option string) : bool := match o with Some s => negb (String.eqb s "") | None => false end.

Definition safe_url (url environment : string) : res (option string) :=
  parsed ← Url.urlsplit url;
  Ok (if nonempty (Url.username parsed) || nonempty (Url.password parsed)
         || negb (String.eqb (Url.query parsed) "") || negb (String.eqb (Url.fragment parsed) "")
      then Some "health URL must not contain credentials, query parameters or fragments"
      else if inb String.eqb environment ["staging"; "production"] && negb (String.eqb (Url.scheme parsed) "https")
      then Some "staging and production health URLs must use HTTPS"
      else if negb (inb String.eqb (Url.scheme parsed) ["http"; "https"])
      then Some "health URL scheme must be http or https"
      else None).

(** [body.read(65537)] *)
Definition read_limit (n : nat) (s : string) : string := String.substring 0 n s.

Fixpoint fields_match (payload : val) (fields : list (string * val)) : res (option string) :=
  match fields with
  | [] => Ok None
  | (key, expected) :: r =>
      got ← dget payload key;
      if py_ne got expected
      then Ok (Some ("field " +:+ repr_str key +:+ " expected " +:+ repr expected +:+ ", got " +:+ repr got))
      else fields_match payload r
  end.

(** The answer of one check: passed, the error, the payload. *)
Record outcome := Outcome { o_ok : bool; o_error : option string; o_payload : val }.

Definition judge (check : val) (status : Z) (body : string) : res outcome :=
  expected ← getitem check "expected_status";
  if py_ne (VInt status) expected
  then Ok (Outcome false (Some ("unexpected HTTP status " +:+ Str.of_Z status)) VNone)
  else if 65536 <? Z.of_nat (String.length body)
  then Ok (Outcome false (Some "health response exceeded 65536 bytes") VNone)
  else
    match loads_bytes body with
    | Raise e =>
        if exn_in [JSONDecodeError] e then Ok (Outcome false (Some ("invalid JSON: " +:+ exn_str e)) VNone)
        else Raise e
    | Ok payload =>
        fields ← getitem check "expected_json"; fields ← py_items fields;
        mismatch ← fields_match payload fields;
        Ok (match mismatch with
            | Some e => Outcome false (Some e) payload
            | None => Outcome true None payload
            end)
    end.

(** [urlopen] and [read]: the request takes its time. *)
Definition request (url : string) (timeout_ms : Z) : IO http_out :=
  λ w, let '(r, d) := http_get (ticks w) url timeout_ms in (Ok r, advance d w).

Definition perform (check : val) : IO outcome :=
  url ← lift (getitem check "url"); url ← lift (expect_str url);
  timeout ← lift (getitem check "timeout_ms"); timeout ← lift (expect_int timeout);
  r ← request url timeout;
  match r with
  | Response status body => lift (judge check status (read_limit (N.to_nat 65537) body))
  | RequestFailed class msg => mret (Outcome false (Some ("request failed: " +:+ class +:+ ": " +:+ msg)) VNone)
  | RequestRaised c msg => throw c msg
  end.

(** [(payload.get("release_id") or ...) if payload else None] *)
Definition observed_release (payload : val) : res val :=
  if truthy payload then
    a ← dget payload "release_id";
    if truthy a then Ok a else b ← dget payload "releaseId"; if truthy b then Ok b else dget payload "version"
  else Ok VNone.

Definition record (check : val) (o : outcome) : res (string * val) :=
  name ← getitem check "name"; name ← expect_str name;
  owner ← getitem check "owner"; kind ← getitem check "kind";
  observed ← observed_release (o_payload o);
  Ok (name, VDict [("owner", owner); ("kind", kind); ("status", VStr (if o_ok o then "passed" else "failed"));
                   ("error", opt_val VStr (o_error o)); ("observed_release_id", observed)]).

(** *** The attempts *)

(** The locals of the loop: the attempts made, the latest record of each check. *)
Record state := State { attempts : Z; latest : list (string * val) }.
Abbreviation C := (M (state * world)).

Definition run_check (all_passed : bool) (check : val) : C bool :=
  o ← zoom_snd (perform check);
  kv ← lift (record check o);
  modl (λ s, State (attempts s) (Dict.set kv.1 kv.2 (latest s))) ;;
  mret (all_passed && o_ok o).

(** [while time.monotonic() < deadline]; [None] when the fuel is over. *)
Fixpoint poll (fuel : nat) (checks : list val) (deadline interval_us : Z) : C (option bool) :=
  match fuel with
  | O => mret None
  | S fuel =>
      t ← zoom_snd monotonic;
      if negb (t <? deadline) then mret (Some false)
      else
        modl (λ s, State (attempts s + 1) (latest s)) ;;
        all_passed ← mfold run_check true checks;
        if all_passed : bool then mret (Some true)
        else
          t ← zoom_snd monotonic;
          let remaining := deadline - t in
          if remaining <=? 0 then mret (Some false)
          else zoom_snd (sleep (Z.min interval_us remaining)) ;; poll fuel checks deadline interval_us
  end.

Definition url_ok (environment check : val) : IO unit :=
  url ← lift (getitem check "url"); url ← lift (expect_str url);
  env ← lift (expect_str environment);
  e ← lift (safe_url url env);
  match e with
  | Some m => name ← lift (getitem check "name"); throw ValueError (py_str name +:+ ": " +:+ m)
  | None => mret tt
  end.

Definition report (target : val) (started completed : string) (passed : bool) (s : state) : res val :=
  rid ← getitem target "release_id"; env ← getitem target "environment";
  checks ← rmap (λ n, match Dict.lookup n (latest s) with
                      | Some (VDict d) => Ok (VDict (("name", VStr n) :: d))
                      | _ => raise KeyError (repr_str n)
                      end) (sort_strings (Dict.keys (latest s)));
  Ok (VDict [("schema_version", VStr "health-gate-result-v0"); ("release_id", rid); ("environment", env);
    ("started_at", VStr started); ("completed_at", VStr completed);
    ("status", VStr (if passed then "passed" else "failed")); ("attempts", VInt (attempts s));
    ("checks", VList checks)]).

Record args := Args { a_target : path; a_output : path }.

(** The fuel of the attempts: one a microsecond of the deadline. *)
Definition poll_fuel (deadline_seconds : Z) : nat := S (Z.to_nat (deadline_seconds * 1000000)).

(** The exit code; [None] when the fuel of the attempts is over. *)
Definition main (a : args) : IO (option Z) :=
  target ← load (a_target a);
  schema ← load SCHEMA;
  errors ← lift (sorted_errors schema target);
  match errors with
  | _ :: _ => throw ValueError (Str.join "; " (map (λ e, dotted e.1 +:+ ": " +:+ e.2) errors))
  | [] =>
      cs ← lift (getitem target "checks"); checks ← lift (py_iter cs);
      environment ← lift (getitem target "environment");
      mfor (url_ok environment) checks ;;
      started_at ← utc_now;
      t ← monotonic;
      d ← lift (getitem target "deadline_seconds"); d ← lift (expect_int d);
      interval ← lift (getitem target "poll_interval_ms"); interval ← lift (expect_int interval);
      '(r, s) ← with_locals (State 0 [])
        (r ← poll (poll_fuel d) checks (t + d * 1000000) (interval * 1000); s ← getl; mret (r, s));
      match r with
      | None => mret None
      | Some passed =>
          completed ← utc_now;
          result ← lift (report target started_at completed passed s);
          write_document (a_output a) result ;;
          print (Json.dumps Json.pretty result) ;;
          mret (Some (if passed : bool then 0 else 1))
      end
  end.
End Env.
End HealthGate.
