(* ===== verification/HealthProperties.v ===== *)
(** * What the health gate promises

    It always ends; it passes only when every check was answered as expected in
    one attempt; and the URLs it accepts are split as they were written. *)

From Stdlib Require Import Ascii.
From S2P Require Import Prelude PyFloat PyMonad PyValue PyTime PyJson Sha256 PyOs OsFacts Fixture HealthGate.

(** ** URLs are split as they were written *)

Module UrlSpec.
Import Url.

Definition visible : string -> bool := Str.all_chars (λ c, negb (c0_or_space c)).

Lemma span_stop stops a b : Str.without stops a = true ->
  b = "" \/ (exists c r, b = String c r /\ inb Ascii.eqb c stops = true) -> span stops (a +:+ b) = (a, b).
Proof.
  intros Ha Hb. induction a as [|x a IH].
  - rewrite Str.app_nil_l. destruct Hb as [->|(c & r & -> & Hc)]; simpl; [done|]. by rewrite Hc.
  - apply Str.without_head in Ha as [Hx Ha]. rewrite Str.app_cons. simpl. rewrite Hx. by rewrite IH.
Qed.
Lemma visible_lstrip a : visible a = true -> Str.lstrip_by c0_or_space a = a.
Proof.
  destruct a as [|c a]; [done|]. unfold visible. rewrite Str.all_chars_cons.
  intros [H%negb_true_iff _]%andb_true_iff. simpl. by rewrite H.
Qed.
Lemma visible_filter a : visible a = true ->
  Str.of_list (List.filter (λ c, negb (unsafe c)) (Str.to_list a)) = a.
Proof.
  induction a as [|c a IH]; [done|]. unfold visible. rewrite Str.all_chars_cons.
  intros [H%negb_true_iff Ha]%andb_true_iff. simpl. assert (unsafe c = false) as ->.
  { unfold unsafe, c0_or_space in *. apply N.leb_gt in H. unfold inb. simpl.
    rewrite !orb_false_iff, !N.eqb_neq. lia. }
  simpl. by rewrite IH.
Qed.

(** The text of a split URL. *)
Definition tail (mark text : string) : string := if String.eqb text "" then "" else mark +:+ text.
Definition unsplit (u : split) : string :=
  scheme u +:+ "://" +:+ netloc u +:+ url_path u +:+ tail "?" (query u) +:+ tail "#" (fragment u).

(** The parts of a URL without characters that end them. *)
Record plain (u : split) : Prop := {
  pl_scheme : exists c r, scheme u = String c r /\ is_alpha c = true;
  pl_scheme_chars : Str.all_chars scheme_char (scheme u) = true /\ Str.lower (scheme u) = scheme u;
  pl_visible : visible (netloc u) && visible (url_path u) && visible (query u) && visible (fragment u) = true;
  pl_netloc : Str.without ["/"; "?"; "#"; "["; "]"]%char (netloc u) = true /\
    Str.all_chars (λ c, (N_of_ascii c <? 128)%N) (netloc u) = true;
  pl_path : Str.without ["?"; "#"]%char (url_path u) = true /\ (url_path u = "" \/ exists r, url_path u = String "/" r);
  pl_query : Str.without ["#"]%char (query u) = true
}.

Lemma without_mono l l' a : (forall c, inb Ascii.eqb c l' = true -> inb Ascii.eqb c l = true) ->
  Str.without l a = true -> Str.without l' a = true.
Proof.
  intros Hl. apply Str.all_chars_impl. intros c Hc%negb_true_iff. apply negb_true_iff.
  destruct (inb Ascii.eqb c l') eqn:E; [by rewrite (Hl c E) in Hc|done].
Qed.
Ltac fewer := apply without_mono; intros c; unfold inb; simpl; repeat (rewrite !orb_true_iff); tauto.

Lemma scheme_visible a : Str.all_chars scheme_char a = true -> visible a = true /\ Str.without [":"%char] a = true.
Proof.
  intros Ha. split; (eapply Str.all_chars_impl; [|exact Ha]); intros c; revert c;
    intros [[] [] [] [] [] [] [] []]; vm_compute; congruence.
Qed.

Lemma visible_app a b : visible (a +:+ b) = visible a && visible b.
Proof. apply Str.all_chars_app. Qed.
Lemma visible_tail m a : visible m = true -> visible a = true -> visible (tail m a) = true.
Proof. intros Hm Ha. unfold tail. destruct (String.eqb a ""); [done|]. by rewrite visible_app, Hm, Ha. Qed.
Lemma contains_without c a : Str.without [c] a = true -> Str.contains (String c "") a = false.
Proof. intros H. unfold Str.contains. by rewrite Str.partition_none. Qed.

Lemma partition_tail c a t : Str.without [c] a = true ->
  (match Str.partition (String c "") (a +:+ tail (String c "") t) with Some p => p | None => (a +:+ tail (String c "") t, "") end)
  = (a, t).
Proof.
  intros Ha. unfold tail. destruct (String.eqb_spec t "") as [->|Ht].
  - rewrite Str.app_nil_r. by rewrite Str.partition_none.
  - rewrite Str.app_char. by rewrite Str.partition_char.
Qed.

Lemma split_scheme_plain s rest : (exists c r, s = String c r /\ is_alpha c = true) ->
  Str.all_chars scheme_char s = true -> Str.lower s = s -> split_scheme (s +:+ String ":" rest) = (s, rest).
Proof.
  intros (c & r & -> & Hc) Hs Hl. unfold split_scheme.
  rewrite (Str.partition_char ":"%char) by apply scheme_visible, Hs. by rewrite Hc, Hs, Hl.
Qed.

Section RoundTrip.
Context `{N : Network}.

(** A URL composed of a scheme, a network location, a path, a query and a fragment
    (none of them with a character that ends it) is split into these parts. *)
Lemma urlsplit_unsplit u : plain u -> urlsplit (unsplit u) = Ok u.
Proof.
  intros [Hs [Hsc Hlow] Hv [Hn Ha] [Hp Hpath] Hq].
  apply andb_true_iff in Hv as [Hv Vf]. apply andb_true_iff in Hv as [Hv Vq]. apply andb_true_iff in Hv as [Vn Vp].
  destruct (scheme_visible _ Hsc) as [Vs _]. unfold urlsplit, unsplit.
  assert (visible (scheme u +:+ "://" +:+ netloc u +:+ url_path u +:+ tail "?" (query u) +:+ tail "#" (fragment u)) = true) as V.
  { rewrite !visible_app, Vs, Vn, Vp, !visible_tail by done. done. }
  rewrite (visible_lstrip _ V), (visible_filter _ V). clear V.
  change ("://" +:+ ?x) with (String ":" ("//" +:+ x)). rewrite split_scheme_plain by done.
  change (Str.strip_prefix "//" ("//" +:+ ?x)) with (Some x). cbv beta iota.
  rewrite (span_stop ["/"; "?"; "#"]%char (netloc u)).
  - unfold netloc_error. rewrite !contains_without by (revert Hn; fewer). rewrite Ha. simpl.
    rewrite <-Str.app_assoc, partition_tail.
    + rewrite partition_tail by (revert Hp; fewer). by destruct u.
    + rewrite Str.without_app. apply andb_true_iff. split; [revert Hp; fewer|]. unfold tail.
      destruct (String.eqb (query u) ""); [done|]. by rewrite Str.without_app, Hq.
  - revert Hn; fewer.
  - destruct Hpath as [->|[r ->]]; [|right; by eexists _, _]. rewrite Str.app_nil_l. unfold tail.
    destruct (String.eqb (query u) ""); [|right; by eexists _, _]. rewrite Str.app_nil_l.
    destruct (String.eqb (fragment u) ""); [by left|right; by eexists _, _].
Qed.
End RoundTrip.
End UrlSpec.

Module HealthSpec.
Import HealthGate.

Section Gate.
Context `{P : Platform} `{N : Network}.

(** ** The URLs *)

Lemma userinfo_none n : Str.without ["@"%char] n = true -> Url.userinfo n = None.
Proof.
  intros Hn. unfold Url.userinfo. assert (exists x, Str.split_char "@" n = [x]) as [x ->]; [|done].
  induction n as [|c n IH]; [by exists ""|]. apply Str.without_head in Hn as [Hc Hn]. simpl.
  unfold inb in Hc. simpl in Hc. rewrite orb_false_r in Hc. rewrite Hc. destruct (IH Hn) as [x ->]. by eexists.
Qed.

(** A composed URL without user information is accepted exactly when it has neither
    query nor fragment, its scheme is http or https, and it is https in staging and in
    production. *)
Theorem safe_url_spec u environment : UrlSpec.plain u -> Str.without ["@"%char] (Url.netloc u) = true ->
  safe_url (UrlSpec.unsplit u) environment = Ok None <->
  Url.query u = "" /\ Url.fragment u = "" /\ (Url.scheme u = "http" \/ Url.scheme u = "https") /\
  (environment = "staging" \/ environment = "production" -> Url.scheme u = "https").
Proof.
  intros Hu Ha. unfold safe_url. rewrite UrlSpec.urlsplit_unsplit by done. simpl.
  unfold Url.username, Url.password. rewrite userinfo_none by done. simpl. unfold inb. simpl. rewrite !orb_false_r.
  destruct (String.eqb_spec (Url.query u) ""); [|split; [done|tauto]].
  destruct (String.eqb_spec (Url.fragment u) ""); [|split; [done|tauto]]. simpl.
  destruct (String.eqb_spec environment "staging"), (String.eqb_spec environment "production"),
    (String.eqb_spec (Url.scheme u) "https"), (String.eqb_spec (Url.scheme u) "http"); simpl;
    (split; [intros ?; try done; try (split; [done|split; [done|split; tauto]])|try done; try tauto]).
Qed.

(** ** The answers of an attempt *)

(** A request for the check was answered, and the answer is the one expected: the
    status, a body of at most 64 KiB, and the value of each field. *)
Definition answered (check : val) : Prop :=
  exists n url timeout status raw dt payload fields,
    getitem check "url" = Ok (VStr url) /\ getitem check "timeout_ms" = Ok timeout /\
    (exists t, expect_int timeout = Ok t /\ http_get n url t = (Response status raw, dt)) /\
    let body := read_limit (N.to_nat 65537) raw in
    (exists expected, getitem check "expected_status" = Ok expected /\ py_eq (VInt status) expected = true) /\
    Z.of_nat (String.length body) <= 65536 /\ loads_bytes body = Ok payload /\
    (exists ej, getitem check "expected_json" = Ok ej /\ py_items ej = Ok fields) /\
    Forall (λ kv, exists got, dget payload kv.1 = Ok got /\ py_eq got kv.2 = true) fields.

Lemma fields_match_none payload fields : fields_match payload fields = Ok None ->
  Forall (λ kv, exists got, dget payload kv.1 = Ok got /\ py_eq got kv.2 = true) fields.
Proof.
  induction fields as [|[k x] r IH]; simpl; [constructor|]. intros E. apply bind_Ok in E as (got & Eg & E).
  destruct (py_ne got x) eqn:En; [discriminate|]. apply negb_false_iff in En.
  constructor; [by exists got|by apply IH].
Qed.

Lemma perform_answered check w o w' : perform check w = (Ok o, w') -> o_ok o = true -> answered check.
Proof.
  unfold perform. intros E Ho. apply M_bind_Ok in E as (uv & w1 & E1 & E). apply lift_Ok in E1 as [E1 ->].
  apply M_bind_Ok in E as (url & w1 & E2 & E). apply lift_Ok in E2 as [E2 ->].
  apply M_bind_Ok in E as (tv & w1 & E3 & E). apply lift_Ok in E3 as [E3 ->].
  apply M_bind_Ok in E as (t & w1 & E4 & E). apply lift_Ok in E4 as [E4 ->].
  apply M_bind_Ok in E as (r & w1 & E5 & E). unfold request in E5.
  destruct (http_get (ticks w) url t) as [r0 dt] eqn:Eh. injection E5 as -> <-.
  destruct r as [status raw|cl m|cl m]; [|by apply ret_Ok in E as [<- _]|done].
  apply lift_Ok in E as [E _]. unfold judge in E. set (body := read_limit _ raw) in *.
  apply bind_Ok in E as (expected & Ee & E).
  destruct (py_ne (VInt status) expected) eqn:En; [by injection E as <-|]. apply negb_false_iff in En.
  destruct (Z.ltb_spec 65536 (Z.of_nat (String.length body))); [by injection E as <-|].
  destruct (loads_bytes body) as [payload|e] eqn:El; [|destruct (exn_in _ e); [by injection E as <-|discriminate]].
  apply bind_Ok in E as (ej & Ej & E). apply bind_Ok in E as (fields & Ef & E).
  apply bind_Ok in E as (mis & Em & E). destruct mis; [by injection E as <-|].
  destruct uv; try discriminate. injection E2 as ->.
  exists (ticks w), url, tv, status, raw, dt, payload, fields. split; [done|]. split; [done|].
  split; [by exists t|]. split; [by exists expected|]. split; [done|]. split; [done|].
  split; [by exists ej|]. by apply fields_match_none.
Qed.

Lemma run_check_passed b check s s' : run_check b check s = (Ok true, s') -> b = true /\ answered check.
Proof.
  unfold run_check. intros E. apply M_bind_Ok in E as (o & s1 & E1 & E). apply zoom_Ok in E1 as [E1 _].
  apply M_bind_Ok in E as (kv & s2 & _ & E). apply M_bind_Ok in E as (u & s3 & _ & E).
  apply ret_Ok in E as [E _]. apply andb_true_iff in E as [-> Ho]. split; [done|]. by eapply perform_answered.
Qed.

Lemma attempt_passed checks : forall b s s', mfold run_check b checks s = (Ok true, s') ->
  b = true /\ Forall answered checks.
Proof.
  induction checks as [|c r IH]; intros b s s' E; simpl in E.
  - apply ret_Ok in E as [-> _]. by split.
  - apply M_bind_Ok in E as (b' & s1 & E1 & E). apply IH in E as [-> Hr].
    apply run_check_passed in E1 as [-> Hc]. split; [done|]. by constructor.
Qed.

Lemma poll_passed fuel checks d i : forall s s', poll fuel checks d i s = (Ok (Some true), s') -> Forall answered checks.
Proof.
  induction fuel as [|fuel IH]; intros s s' E; simpl in E; [by apply ret_Ok in E as [? _]|].
  apply M_bind_Ok in E as (t & s1 & _ & E). destruct (negb (t <? d)); [by apply ret_Ok in E as [? _]|].
  apply M_bind_Ok in E as (u & s2 & _ & E). apply M_bind_Ok in E as (b & s3 & E3 & E).
  destruct b; [by apply attempt_passed in E3 as [_ ?]|].
  apply M_bind_Ok in E as (t2 & s4 & _ & E). destruct (d - t2 <=? 0); [by apply ret_Ok in E as [? _]|].
  apply M_bind_Ok in E as (u2 & s5 & _ & E). by eapply IH.
Qed.

(** C6: The gate exits with code 0 only when, for a target without a schema error and with
    URLs it accepts, every check was answered with the expected status, a body of at
    most 64 KiB and the expected value of each expected field. *)
Theorem health_gate_passed (a : args) w : (main a w).1 = Ok (Some 0) ->
  exists target w1 cs checks, load (a_target a) w = (Ok target, w1) /\ getitem target "checks" = Ok cs /\
    py_iter cs = Ok checks /\
    (exists env, getitem target "environment" = Ok (VStr env) \/ checks = []) /\
    Forall answered checks.
Proof.
  destruct (main a w) as [r w'] eqn:E. cbn [fst]. intros ->. unfold main in E.
  apply M_bind_Ok in E as (target & w1 & E1 & E). exists target, w1.
  apply M_bind_Ok in E as (schema & w2 & _ & E). apply M_bind_Ok in E as (errors & w3 & _ & E).
  destruct errors; [|done]. apply M_bind_Ok in E as (cs & w4 & Ec & E). apply lift_Ok in Ec as [Ec ->].
  apply M_bind_Ok in E as (checks & w4 & Ei & E). apply lift_Ok in Ei as [Ei ->].
  apply M_bind_Ok in E as (env & w4 & Ev & E). apply lift_Ok in Ev as [Ev ->].
  apply M_bind_Ok in E as (u & w4 & Eu & E).
  do 6 (apply M_bind_Ok in E as (? & ? & _ & E)). apply M_bind_Ok in E as ([r s] & w5 & Ep & E).
  exists cs, checks. split; [done|]. split; [done|]. split; [done|]. split.
  - destruct checks as [|c checks]; [exists ""; by right|]. simpl in Eu.
    apply M_bind_Ok in Eu as (u1 & w6 & Eu & _). unfold url_ok in Eu.
    do 2 (apply M_bind_Ok in Eu as (? & ? & _ & Eu)). apply M_bind_Ok in Eu as (es & ? & Es & _).
    apply lift_Ok in Es as [Es _]. destruct env; try discriminate. exists s0. by left.
  - destruct r as [passed|]; [|by apply ret_Ok in E as [? _]].
    do 4 (apply M_bind_Ok in E as (? & ? & _ & E)). apply ret_Ok in E as [E _].
    destruct passed; [|done]. apply with_locals_Ok in Ep as [l' Eb].
    apply M_bind_Ok in Eb as (pr & s6 & Ep & Eb). apply M_bind_Ok in Eb as (st & s7 & _ & Eb).
    apply ret_Ok in Eb as [[= -> _] _]. by eapply poll_passed.
Qed.

(** ** Termination *)

(** A reading of the clock takes at least a microsecond; no time flows back. *)
Context (Helapse : forall n, 1 <= elapse n).

Definition later (w w' : world) : Prop := mono w <= mono w'.
#[export] Instance later_preorder : PreOrder later.
Proof. split; [intros w; unfold later; lia|]. intros x y z. unfold later. lia. Qed.
Context (Hhttp : forall n u t, 0 <= (http_get n u t).2).

Lemma later_monotonic : Pres later monotonic.
Proof using Helapse. intros w. unfold later. simpl. specialize (Helapse (ticks w)). lia. Qed.
Lemma later_request u t : Pres later (request u t).
Proof using Hhttp.
  intros w. unfold request. specialize (Hhttp (ticks w) u t). destruct (http_get _ _ _) as [r dt].
  unfold later. simpl in *. lia.
Qed.
Lemma later_perform c : Pres later (perform c).
Proof using All. pose proof later_request. unfold perform. solve_pres. Qed.
Lemma later_run_check b c : Pres (on_snd later) (run_check b c).
Proof using All. pose proof later_perform. unfold run_check. solve_pres. Qed.
Lemma later_attempt b l : Pres (on_snd later) (mfold run_check b l).
Proof using All. pose proof later_run_check. solve_pres. Qed.

(** Each turn leaves at least a microsecond less, so the fuel is enough. *)
Lemma poll_ends fuel checks d i : 0 <= i -> forall s, (Z.to_nat (d - mono s.2) < fuel)%nat ->
  (poll fuel checks d i s).1 <> Ok None.
Proof using All.
  intros Hi. induction fuel as [|fuel IH]; intros s Hf E; [lia|].
  destruct (poll (S fuel) checks d i s) as [r s'] eqn:Er. simpl in E. subst r. simpl in Er.
  apply M_bind_Ok in Er as (t & s1 & E1 & Er). apply zoom_Ok in E1 as [E1 _].
  unfold monotonic in E1. injection E1 as <- E1.
  destruct (Z.ltb_spec (mono s.2) d) as [Hlt|]; [|by apply ret_Ok in Er as [? _]]. cbn [negb] in Er.
  apply M_bind_Ok in Er as (u & s2 & E2 & Er). apply modl_Ok in E2.
  apply M_bind_Ok in Er as (b & s3 & E3 & Er). pose proof (pres_run _ _ _ _ _ (later_attempt _ _) E3) as L3.
  destruct b; [by apply ret_Ok in Er as [? _]|].
  apply M_bind_Ok in Er as (t2 & s4 & E4 & Er). apply zoom_Ok in E4 as [E4 _]. unfold monotonic in E4.
  injection E4 as <- E4. destruct (Z.leb_spec (d - mono s3.2) 0) as [|Hr]; [by apply ret_Ok in Er as [? _]|].
  apply M_bind_Ok in Er as (u2 & s5 & E5 & Er). apply zoom_Ok in E5 as [E5 _]. unfold sleep in E5.
  injection E5 as _ E5. assert (Z.to_nat (d - mono s5.2) < fuel)%nat as Hm.
  { pose proof (Helapse (ticks s.2)). pose proof (Helapse (ticks s3.2)). pose proof (Helapse (ticks s4.2)).
    unfold on_snd, later in L3. apply (f_equal mono) in E1, E4, E5. apply (f_equal snd), (f_equal mono) in E2.
    simpl in *. lia. }
  apply (IH s5 Hm). by rewrite Er.
Qed.

(** C7: The gate always ends, within the fuel it computes from the deadline: the attempts
    stop, whatever the endpoints answer, when the clock moves between two readings. *)
Theorem health_gate_ends (a : args) w :
  (forall target w1 i z, load (a_target a) w = (Ok target, w1) -> getitem target "poll_interval_ms" = Ok i ->
     expect_int i = Ok z -> 0 <= z) ->
  (main a w).1 <> Ok None.
Proof using All.
  intros Hi E. destruct (main a w) as [r w'] eqn:Em. simpl in E. subst r. unfold main in Em.
  apply M_bind_Ok in Em as (target & w1 & E1 & Em).
  apply M_bind_Ok in Em as (schema & w2 & _ & Em). apply M_bind_Ok in Em as (errors & w3 & _ & Em).
  destruct errors; [|done]. do 5 (apply M_bind_Ok in Em as (? & ? & _ & Em)).
  apply M_bind_Ok in Em as (t & w4 & Et & Em). unfold monotonic in Et. injection Et as <- <-.
  apply M_bind_Ok in Em as (dv & w5 & Ed & Em). apply lift_Ok in Ed as [_ ->].
  apply M_bind_Ok in Em as (d & w5 & Ed & Em). apply lift_Ok in Ed as [_ ->].
  apply M_bind_Ok in Em as (iv & w5 & Eiv & Em). apply lift_Ok in Eiv as [Eiv ->].
  apply M_bind_Ok in Em as (i & w5 & Ei & Em). apply lift_Ok in Ei as [Ei ->].
  apply M_bind_Ok in Em as ([r s] & w5 & Ep & Em).
  destruct r as [passed|]; [by do 4 (apply M_bind_Ok in Em as (? & ? & _ & Em)); apply ret_Ok in Em as [? _]|].
  apply with_locals_Ok in Ep as [l' Eb].
  apply M_bind_Ok in Eb as (pr & s6 & Epoll & Eb). apply M_bind_Ok in Eb as (st & s7 & _ & Eb).
  apply ret_Ok in Eb as [[= -> _] _]. apply (f_equal fst) in Epoll. cbn [fst] in Epoll. revert Epoll.
  apply (poll_ends (poll_fuel d)); [specialize (Hi _ _ _ _ E1 Eiv Ei); lia|]. unfold poll_fuel. cbn [snd].
  match goal with |- context [advance (elapse (ticks ?v)) ?v] => specialize (Helapse (ticks v)) end. simpl. lia.
Qed.
End Gate.
End HealthSpec.

(** ** Concrete runs *)

Module HealthRun.
Import Fixture HealthGate HealthSpec.

(** Every endpoint answers after 20 milliseconds; the one of the probe at its second request. *)
Definition body : string := json (VDict [("status", VStr "ok"); ("release_id", VStr "r2")]).
#[local] Instance slow_probe : Network := {|
  http_get := λ n url _,
    (if String.eqb url "https://liqi.example/probe" && Nat.leb n 6
     then RequestFailed "URLError" "<urlopen error [Errno 111] Connection refused>"
     else Response 200 body, 20000);
  netloc_refusal := λ _, None
|}.

Definition check (name : string) : val := VDict [
  ("name", VStr name); ("owner", VStr "Senior 4"); ("kind", VStr "platform-probe");
  ("url", VStr ("https://liqi.example/" +:+ name)); ("timeout_ms", VInt 500); ("expected_status", VInt 200);
  ("expected_json", VDict [("status", VStr "ok")])].
Definition target : val := VDict [
  ("release_id", VStr "r2"); ("environment", VStr "production"); ("deadline_seconds", VInt 1);
  ("poll_interval_ms", VInt 100); ("checks", VList [check "live"; check "probe"])].

Definition w0 : world := world_with [("/run/target.json", json target); ("/run/.keep", "");
  ("/repo/contracts/operations/health-gate-target-v0.schema.json", "{}")].
Definition the_args : args := Args (Path.of_str "/run/target.json") (Path.of_str "/run/health.json").

Lemma health_gate_passed_witness : let host := quiet_host in
  exists target w1 cs checks, load (a_target the_args) w0 = (Ok target, w1) /\ getitem target "checks" = Ok cs /\
    py_iter cs = Ok checks /\ (exists env, getitem target "environment" = Ok (VStr env) \/ checks = []) /\
    Forall answered checks.
Proof.
  intros host. apply (health_gate_passed (P := host) the_args w0). vm_compute. reflexivity.
Defined.

Lemma health_gate_ends_witness : (main (H := quiet_host) the_args w0).1 <> Ok None.
Proof.
  apply (health_gate_ends (P := quiet_host)).
  - intros n. simpl. lia.
  - intros n u t. simpl. lia.
  - intros t w1 i z E Ei Ez.
    assert (load (H := quiet_host) (a_target the_args) w0 = (Ok target, w0)) as E2 by (vm_compute; reflexivity).
    rewrite E2 in E. injection E as <- _. change (Ok (VInt 100) = Ok i) in Ei. injection Ei as <-.
    injection Ez as <-. lia.
Defined.

Definition the_url : Url.split := Url.Split "https" "liqi.example:8443" "/health/ready" "" "".
Lemma safe_url_spec_witness : safe_url (UrlSpec.unsplit the_url) "production" = Ok None <->
  Url.query the_url = "" /\ Url.fragment the_url = "" /\ (Url.scheme the_url = "http" \/ Url.scheme the_url = "https") /\
  ("production" = "staging" \/ "production" = "production" -> Url.scheme the_url = "https").
Proof.
  apply (safe_url_spec the_url "production"); [|reflexivity]. split; try (vm_compute; auto; fail).
  - by eexists _, _.
  - split; [reflexivity|]. right. by eexists.
Defined.
End HealthRun.
