(* ===== verification/HealthLiveness.v ===== *)
(** * A healthy target passes the gate

    The polling loop is not only safe: when every check is answered as expected
    from some reading of the clock on, and the deadline leaves time for the
    attempts before it, the loop ends with success. *)

From S2P Require Import Prelude PyFloat PyMonad PyValue PyTime PyJson PyOs Fixture HealthGate HealthProperties.

Module HealthLive.
Import HealthGate.

Section Live.
Context `{P : Platform} `{N : Network}.

(** A check that raises nothing and takes at most [limit] microseconds an attempt *)
Definition steady (limit : Z) (check : val) : Prop := forall w, exists o w' kv,
  perform check w = (Ok o, w') /\ record check o = Ok kv /\
  mono w <= mono w' <= mono w + limit /\ ticks w' = S (ticks w).
(** A check whose endpoint answers as expected from the [from]-th event on *)
Definition healthy (from : nat) (check : val) : Prop := forall w o w',
  (from <= ticks w)%nat -> perform check w = (Ok o, w') -> o_ok o = true.

Context (limit slack : Z) (from : nat) (Hslack : forall n, 0 < elapse n <= slack) (Hlimit : 0 <= limit).

Lemma run_check_runs b check s : steady limit check -> healthy from check -> exists b' s', run_check b check s = (Ok b', s') /\
  mono s.2 <= mono s'.2 <= mono s.2 + limit /\ ticks s'.2 = S (ticks s.2) /\
  ((from <= ticks s.2)%nat -> b = true -> b' = true).
Proof using All.
  intros Hs Hh. destruct s as [l w]. destruct (Hs w) as (o & w' & kv & Hp & Hr & Hm & Ht). unfold run_check.
  exists (b && o_ok o), (State (attempts l) (Dict.set kv.1 kv.2 (latest l)), w'). cbn [snd]. split; [|split; [done|split; [done|]]].
  - unfold mbind at 1, M_bind at 1, zoom_snd at 1. cbn [fst snd]. rewrite Hp. by rewrite (lift_run _ _ _ _ Hr).
  - intros Hf ->. by rewrite (Hh w o w' Hf Hp).
Qed.
Lemma attempt_runs checks : Forall (steady limit) checks -> Forall (healthy from) checks -> forall b s,
  exists b' s', mfold run_check b checks s = (Ok b', s') /\
    mono s.2 <= mono s'.2 <= mono s.2 + Z.of_nat (length checks) * limit /\ (ticks s.2 <= ticks s'.2)%nat /\
    ((from <= ticks s.2)%nat -> b = true -> b' = true).
Proof using All.
  induction 1 as [|c l Hc Hl IH]; intros Hh b s.
  - exists b, s. split; [done|]. simpl. split; [lia|]. by split.
  - apply Forall_cons in Hh as [Hhc Hh]. destruct (run_check_runs b c s Hc Hhc) as (b1 & s1 & E1 & M1 & T1 & P1).
    destruct (IH Hh b1 s1) as (b2 & s2 & E2 & M2 & T2 & P2). exists b2, s2. split; [|split; [|split]].
    + cbn [mfold]. by rewrite (M_bind_run _ _ _ _ _ E1).
    + cbn [length]. lia.
    + lia.
    + intros Hf Hb. apply P2; [lia|by apply P1].
Qed.

(** The time of one attempt that fails, with the sleep after it *)
Definition round (checks : list val) (interval_us : Z) : Z := 3 * slack + Z.of_nat (length checks) * limit + interval_us.

Lemma poll_live checks deadline interval_us : 0 <= interval_us -> Forall (steady limit) checks -> Forall (healthy from) checks ->
  forall rounds fuel s, (from <= ticks s.2 + rounds)%nat ->
  Z.of_nat rounds * round checks interval_us < deadline - mono s.2 -> (Z.to_nat (deadline - mono s.2) < fuel)%nat ->
  exists s', poll fuel checks deadline interval_us s = (Ok (Some true), s').
Proof using All.
  intros Hi Hs Hh rounds. assert (0 <= round checks interval_us) as Hround.
  { unfold round. pose proof (Hslack 0). nia. }
  induction rounds as [|rounds IH]; intros fuel s Hf Hd Hfuel;
    [change (Z.of_nat 0 * round checks interval_us) with 0 in Hd
    |rewrite Nat2Z.inj_succ, Z.mul_succ_l in Hd; assert (0 <= Z.of_nat rounds * round checks interval_us) by nia];
    (destruct fuel as [|fuel]; [lia|]); destruct s as [l w]; cbn [snd] in *; pose proof (Hslack (ticks w)) as Hw;
    cbn [poll]; unfold mbind at 1, M_bind at 1, zoom_snd at 1, monotonic; cbn [fst snd];
    (assert ((mono w <? deadline) = true) as -> by (apply Z.ltb_lt; lia)); cbn [negb]; cbv iota;
    unfold mbind at 1, M_bind at 1, modl; cbn [fst snd];
    set (s1 := (State (attempts l + 1) (latest l), advance (elapse (ticks w)) w));
    destruct (attempt_runs checks Hs Hh true s1) as (b & s2 & E2 & M2 & T2 & P2); rewrite (M_bind_run _ _ _ _ _ E2);
    cbn [s1 snd advance mono ticks] in M2, T2, P2.
  - rewrite P2 by (done || lia). by eexists.
  - destruct b; [by eexists|]. destruct s2 as [l2 w2]. cbn [snd] in *. pose proof (Hslack (ticks w2)) as Hw2.
    unfold mbind at 1, M_bind at 1, zoom_snd at 1. cbn [fst snd].
    assert ((deadline - mono w2 <=? 0) = false) as -> by (apply Z.leb_gt; unfold round in *; lia).
    unfold mbind at 1, M_bind at 1, zoom_snd at 1, sleep. cbn [fst snd].
    pose proof (Hslack (S (ticks w2))) as Hw3. apply IH; cbn [snd advance mono ticks].
    + lia.
    + unfold round in *. lia.
    + lia.
Qed.

(** C20: A target that becomes healthy passes: when no check raises, each takes at most a limit,
    every check is answered as expected from some event on, and the deadline is longer than
    the failing attempts that fit before that event, the polling loop ends, within its
    fuel, with success. *)
Theorem healthy_target_passes checks d interval_us s : 0 <= interval_us ->
  Forall (steady limit) checks -> Forall (healthy from) checks ->
  Z.of_nat (from - ticks s.2) * round checks interval_us < d * 1000000 ->
  exists s', poll (poll_fuel d) checks (mono s.2 + d * 1000000) interval_us s = (Ok (Some true), s').
Proof using All.
  intros Hi Hs Hh Hd. apply (poll_live checks _ _ Hi Hs Hh (from - ticks s.2)); [lia|lia|]. unfold poll_fuel. lia.
Qed.
End Live.
End HealthLive.

Module HealthLiveRun.
Import Fixture HealthGate HealthRun HealthLive.
#[local] Existing Instance slow_probe.

Lemma live_steady : steady (P := quiet_host) (N := slow_probe) 20000 (check "live").
Proof. intros w. do 3 eexists. split; [reflexivity|]. split; [vm_compute; reflexivity|]. simpl. split; [lia|done]. Qed.
Lemma perform_probe w : @perform quiet_host slow_probe (check "probe") w =
  (if Nat.leb (ticks w) 6
   then Ok (Outcome false (Some "request failed: URLError: <urlopen error [Errno 111] Connection refused>") VNone)
   else Ok (Outcome true None (VDict [("status", VStr "ok"); ("release_id", VStr "r2")])), advance 20000 w).
Proof.
  unfold perform, request. cbn -[Nat.leb judge]. unfold mbind, M_bind, mret, M_ret. cbn -[Nat.leb judge].
  by destruct (Nat.leb (ticks w) 6).
Qed.
Lemma probe_steady : steady (P := quiet_host) (N := slow_probe) 20000 (check "probe").
Proof.
  intros w. setoid_rewrite perform_probe. destruct (Nat.leb (ticks w) 6);
    (do 3 eexists; split; [reflexivity|split; [vm_compute; reflexivity|simpl; split; [lia|done]]]).
Qed.
Lemma live_healthy : healthy (P := quiet_host) (N := slow_probe) 7 (check "live").
Proof.
  intros w o w' _ E. assert ((@perform quiet_host slow_probe (check "live") w).1 =
    Ok (Outcome true None (VDict [("status", VStr "ok"); ("release_id", VStr "r2")]))) as E1 by reflexivity.
  rewrite E in E1. by injection E1 as ->.
Qed.
Lemma probe_healthy : healthy (P := quiet_host) (N := slow_probe) 7 (check "probe").
Proof.
  intros w o w' Hw E. rewrite perform_probe in E. assert (Nat.leb (ticks w) 6 = false) as El by (apply Nat.leb_gt; lia).
  rewrite El in E. by injection E as <- _.
Qed.

Lemma healthy_target_passes_witness : exists s',
  @poll quiet_host slow_probe (poll_fuel 2) [check "live"; check "probe"] (mono w0 + 2 * 1000000) 100000 (State 0 [], w0)
  = (Ok (Some true), s').
Proof.
  apply (healthy_target_passes (P := quiet_host) (N := slow_probe) 20000 1000 7); [intros n; simpl; lia|lia|lia| | |].
  - repeat constructor; [apply live_steady|apply probe_steady].
  - repeat constructor; [apply live_healthy|apply probe_healthy].
  - unfold round. cbn [snd w0]. change (ticks (State 0 [], w0).2) with 0%nat. simpl. lia.
Defined.
End HealthLiveRun.
