(* ===== verification/DeploymentMachine.v ===== *)
(** * The deployment state machine

    [scripts/release/check_deployment_transition.py] answers whether one
    transition of the machine in operations/deployment is allowed. *)

From Stdlib Require Import Ascii.
From S2P Require Import Prelude PyFloat PyMonad PyValue PyTime PyJson Sha256 PyOs OsFacts Fixture.

Module DeploymentMachine.

(** operations/deployment/deployment-state-machine-v0.json *)
Definition transitions : list (string * list string) :=
  [("drafted", ["validated"]); ("validated", ["artifacts-ready"; "failed"]);
   ("artifacts-ready", ["preflight-passed"; "failed"]); ("preflight-passed", ["activating"; "failed"]);
   ("activating", ["active"; "failed"]); ("failed", ["rolled-back"; "incident"]);
   ("rolled-back", ["incident"]); ("active", ["incident"]); ("incident", [])].
Definition terminal_states : list string := ["active"; "rolled-back"; "incident"].
Definition initial_state : string := "drafted".
Definition machine_v0 : val := VDict [
  ("schema_version", VStr "deployment-state-machine-v0"); ("strategy", VStr "health-gated-replacement");
  ("claims", VDict [("high_availability", VBool false); ("zero_downtime", VBool false); ("canary", VBool false)]);
  ("initial_state", VStr initial_state); ("terminal_states", VStrs terminal_states);
  ("transitions", VDict (map (λ kv, (kv.1, VStrs kv.2)) transitions))].

Section Check.
Context `{Platform}.

Record args := Args { from_state : string; to_state : string; a_machine : path }.

Definition main (a : args) : IO Z :=
  machine ← load_json (a_machine a);
  ts ← lift (getitem machine "transitions");
  allowed ← lift (dget ts (from_state a));
  if is_none allowed then print ("invalid source state: " +:+ from_state a) ;; mret 2
  else
    ok ← lift (py_contains (VStr (to_state a)) allowed);
    if negb ok then
      print ("transition denied: " +:+ from_state a +:+ " -> " +:+ to_state a +:+ "; allowed=" +:+ py_str allowed) ;;
      mret 1
    else print ("transition allowed: " +:+ from_state a +:+ " -> " +:+ to_state a) ;; mret 0.
End Check.

(** ** The machine as a step relation *)

Inductive step : string -> string -> Prop :=
  | validate : step "drafted" "validated"
  | collect : step "validated" "artifacts-ready"
  | pass_preflight : step "artifacts-ready" "preflight-passed"
  | begin_activation : step "preflight-passed" "activating"
  | activate : step "activating" "active"
  | fail s : s ∈ ["validated"; "artifacts-ready"; "preflight-passed"; "activating"] -> step s "failed"
  | roll_back : step "failed" "rolled-back"
  | declare s : s ∈ ["failed"; "rolled-back"; "active"] -> step s "incident".

(** A run: the states visited, each allowed after the one before. *)
Inductive run : list string -> Prop :=
  | run_start : run [initial_state]
  | run_step l s s' : run (s :: l) -> step s s' -> run (s' :: s :: l).
End DeploymentMachine.

Module DeploymentSpec.
Import DeploymentMachine.

Definition allowedb (s s' : string) : bool :=
  match Dict.lookup s transitions with Some l => inb String.eqb s' l | None => false end.

Lemma allowed_step s s' : allowedb s s' = true <-> step s s'.
Proof.
  split.
  - unfold allowedb. intros E. destruct (Dict.lookup s transitions) as [l|] eqn:El; [|done].
    apply Dict.lookup_In in El. apply elem_of_existsb_string in E. unfold transitions in El.
    rewrite !elem_of_cons, elem_of_nil in El. destruct_or?; simplify_eq;
      rewrite ?elem_of_cons, ?elem_of_nil in E; destruct_or?; subst; try done;
      try (constructor; fail); first [apply fail|apply declare]; rewrite !elem_of_cons; tauto.
  - destruct 1 as [| | | | |s Hs| |s Hs]; try reflexivity;
      rewrite !elem_of_cons, elem_of_nil in Hs; destruct_or?; subst; done.
Qed.

Section Checker.
Context `{Platform}.

Lemma dget_transitions k : dget (VDict (map (λ kv, (kv.1, VStrs kv.2)) transitions)) k
  = Ok (match Dict.lookup k transitions with Some l => VStrs l | None => VNone end).
Proof.
  unfold dget, dget_or. f_equal. induction transitions as [|[k' l] r IH]; simpl; [done|].
  by destruct (String.eqb k k').
Qed.
Lemma in_strings x l : py_in (VStr x) (map VStr l) = inb String.eqb x l.
Proof. unfold py_in, inb. induction l as [|y l IH]; [done|]. cbn [map existsb]. by rewrite IH. Qed.

(** C10: On the repository's machine the checker answers 0 exactly for the steps of the
    relation, 1 for another pair from a known state, and 2 for an unknown one. *)
Theorem transition_checker_refines a w w1 : load_json (a_machine a) w = (Ok machine_v0, w1) ->
  exists z, (main a w).1 = Ok z /\ (z = 0 \/ z = 1 \/ z = 2) /\
    (z = 0 <-> step (from_state a) (to_state a)) /\
    (z = 2 <-> (from_state a) ∉ map fst transitions).
Proof.
  intros E. unfold main. rewrite (M_bind_run _ _ _ _ _ E).
  rewrite (lift_run _ _ _ (VDict (map (λ kv, (kv.1, VStrs kv.2)) transitions))) by reflexivity.
  rewrite (lift_run _ _ _ _ (dget_transitions _)). setoid_rewrite <-allowed_step. unfold allowedb.
  destruct (Dict.lookup (from_state a) transitions) as [l|] eqn:El; cbn [is_none VStrs].
  - apply Dict.lookup_In in El.
    assert ((from_state a) ∈ map fst transitions) as Hin.
    { apply list_elem_of_In, in_map_iff. eexists. split; [|by apply list_elem_of_In]. done. }
    rewrite (lift_run _ _ _ (inb String.eqb (to_state a) l)) by (simpl; by rewrite in_strings).
    destruct (inb String.eqb (to_state a) l); cbn [negb]; eexists; (split; [reflexivity|]).
    + split; [tauto|]. split; [done|]. split; [done|]. by intros [].
    + split; [tauto|]. split; [done|]. split; [done|]. by intros [].
  - eexists. split; [reflexivity|]. split; [tauto|]. split; [done|]. split; [|done]. intros _ Hin.
    apply (Dict.mem_keys (from_state a) transitions) in Hin. unfold Dict.mem in Hin. by rewrite El in Hin.
Qed.
End Checker.

(** ** The runs of the machine *)

Lemma run_inv l s : run (s :: l) -> (l = [] /\ s = initial_state) \/ exists s0 l', l = s0 :: l' /\ run l /\ step s0 s.
Proof. intros R. inversion R; subst; [by left|]. right. by exists s0, l0. Qed.

(** A release is active only after the whole sequence: the one run of allowed steps that
      ends in [active] goes through the validation, the artifacts, the preflight and the
      activation, and nothing else. *)
Theorem active_run_unique l : run ("active" :: l) ->
  l = ["activating"; "preflight-passed"; "artifacts-ready"; "validated"; "drafted"].
Proof.
  intros R. do 5 (let E := fresh in let R' := fresh in let St := fresh in
    apply run_inv in R as [[_ E]|(? & ? & -> & R' & St)]; [discriminate|];
    inversion St; subst; clear St; rename R' into R).
  apply run_inv in R as [[-> _]|(? & ? & -> & _ & St)]; [done|]. inversion St.
Qed.

(** The position of a state: every step increases it. *)
Definition rank (s : string) : nat :=
  default 0%nat (Dict.lookup s [("drafted", 0); ("validated", 1); ("artifacts-ready", 2); ("preflight-passed", 3);
    ("activating", 4); ("active", 5); ("failed", 5); ("rolled-back", 6); ("incident", 7)]%nat).

Lemma step_rank s s' : step s s' -> (rank s < rank s')%nat /\ (rank s' <= 7)%nat.
Proof.
  destruct 1 as [| | | | |s Hs| |s Hs]; try (vm_compute; lia);
    rewrite !elem_of_cons, elem_of_nil in Hs; destruct_or?; subst; try done; vm_compute; lia.
Qed.

(** A deployment ends: a run of allowed steps visits at most eight states, none twice. *)
Theorem runs_end l : run l -> (length l <= 8)%nat /\ NoDup l.
Proof.
  intros R. assert (forall s l', l = s :: l' -> (length l' <= rank s)%nat /\ (rank s <= 7)%nat /\
    Forall (λ s', rank s' < rank s)%nat l' /\ NoDup l) as H.
  { induction R as [|l s s' R IH St].
    - intros s l' [= <- <-]. split; [simpl; lia|]. split; [vm_compute; lia|]. split; [constructor|apply NoDup_singleton].
    - intros s0 l' [= <- <-]. destruct (IH _ _ eq_refl) as (H1 & H2 & H3 & H4). apply step_rank in St as [S1 S2].
      assert (Forall (λ s1, rank s1 < rank s')%nat (s :: l)) as Hall.
      { constructor; [done|]. eapply Forall_impl; [exact H3|]. simpl. lia. }
      split; [simpl; lia|]. split; [done|]. split; [done|]. constructor; [|done].
      intros Hin. rewrite Forall_forall in Hall. specialize (Hall _ Hin). simpl in Hall. lia. }
  destruct l as [|s l]; [split; [simpl; lia|constructor]|].
  destruct (H _ _ eq_refl) as (H1 & H2 & _ & H4). split; [simpl; lia|done].
Qed.

(** Two of the states the machine calls terminal have a successor. *)
Lemma terminal_states_continue : "active" ∈ terminal_states /\ "rolled-back" ∈ terminal_states /\
  step "active" "incident" /\ step "rolled-back" "incident".
Proof. unfold terminal_states. rewrite !elem_of_cons. repeat split; try tauto; apply allowed_step; reflexivity. Qed.
End DeploymentSpec.

(** ** Concrete runs *)

Module DeploymentRun.
Import Fixture DeploymentMachine DeploymentSpec.

Definition w0 : world := world_with [("/repo/machine.json", json machine_v0)].
Definition the_args : args := Args "failed" "active" (Path.of_str "/repo/machine.json").

Lemma transition_checker_refines_witness : exists z, (main (H := quiet_host) the_args w0).1 = Ok z /\
  (z = 0 \/ z = 1 \/ z = 2) /\ (z = 0 <-> step "failed" "active") /\ (z = 2 <-> "failed" ∉ map fst transitions).
Proof. apply (transition_checker_refines (H := quiet_host) the_args w0 w0). vm_compute. reflexivity. Defined.

Definition full : list string := ["activating"; "preflight-passed"; "artifacts-ready"; "validated"; "drafted"].
Lemma full_run : run ("active" :: full).
Proof. unfold full. repeat (eapply run_step; [|constructor]). apply run_start. Defined.

Lemma active_run_unique_witness : full = ["activating"; "preflight-passed"; "artifacts-ready"; "validated"; "drafted"].
Proof. apply (active_run_unique full). apply full_run. Defined.

Lemma runs_end_witness : (length ("active" :: full) <= 8)%nat /\ NoDup ("active" :: full).
Proof. apply (runs_end ("active" :: full)). apply full_run. Defined.
End DeploymentRun.
