(* ===== verification/SelectRollback.v ===== *)
(** * scripts/release/select_rollback.py

    The choice of the release an application rollback goes to: the one the
    current manifest names in advance, retained and once active. *)

From Stdlib Require Import Ascii.
From S2P Require Import Prelude PyFloat PyMonad PyValue PyTime PyJson Sha256 PyOs OsFacts Fixture.

Module SelectRollback.
Section Env.
Context `{Platform}.

Definition SCHEMA_PATH : path := Path.div repo_root "contracts/operations/release-manifest-v0.schema.json".

Definition load (p : path) : IO val := load_json p.

Definition validate (document : val) (p : path) : IO (list string) :=
  schema ← load SCHEMA_PATH;
  errors ← lift (sorted_errors schema document);
  mret (map (λ e, Path.to_str p +:+ ": " +:+ dotted e.1 +:+ ": " +:+ e.2) errors).

Record args := Args { a_current : path; history_dir : path; a_output : path }.

(** What the current manifest declares. *)
Definition declaration_failures (rollback target_id : val) : res (list string) :=
  compatible ← dget rollback "compatible";
  Ok ((if truthy compatible then [] else ["current release does not declare application rollback compatibility"])
      ++ (if truthy target_id then [] else ["current release has no previous_release_id"])).

(** What the retained manifest says of itself. *)
Definition target_failures (current target target_id : val) : res (list string) :=
  rid ← dget target "release_id";
  sha ← dget target "git_sha"; current_sha ← dget current "git_sha";
  deployment ← dget_or target "deployment" (VDict []); status ← dget deployment "status";
  known ← in_set status [VStr "active"; VStr "rolled-back"];
  Ok ((if py_ne rid target_id then ["rollback manifest release_id does not match requested target"] else [])
      ++ (if py_eq sha current_sha then ["rollback target must reference a different Git SHA"] else [])
      ++ (if known : bool then [] else ["rollback target was never an active retained release"])).

Definition target_path (a : args) (target_id : val) : path :=
  Path.div (history_dir a) (if truthy target_id then py_str target_id +:+ ".json" else "missing.json").

Definition retained_failures (a : args) (current target_id : val) : IO (list string) :=
  if truthy target_id then
    let p := target_path a target_id in
    f ← is_file p;
    if negb f then mret ["rollback manifest not retained: " +:+ Path.to_str p]
    else
      target ← load p;
      f1 ← validate target p;
      f2 ← lift (target_failures current target target_id);
      mret (f1 ++ f2)
  else mret [].

Definition selection (a : args) (current rollback target_id : val) (failures : list string) : res val :=
  rid ← dget current "release_id"; deadline ← dget rollback "deadline_seconds";
  Ok (VDict [("schema_version", VStr "rollback-selection-v0");
    ("status", VStr (match failures with [] => "passed" | _ => "failed" end));
    ("current_release_id", rid); ("target_release_id", target_id);
    ("target_manifest", if truthy target_id then VStr (Path.to_str (target_path a target_id)) else VNone);
    ("deadline_seconds", deadline); ("database_rollback_allowed", VBool false); ("failures", VStrs failures)]).

Definition main (a : args) : IO Z :=
  current ← load (a_current a);
  f0 ← validate current (a_current a);
  rollback ← lift (dget_or current "rollback" (VDict []));
  target_id ← lift (dget rollback "previous_release_id");
  f1 ← lift (declaration_failures rollback target_id);
  f2 ← retained_failures a current target_id;
  let failures := f0 ++ f1 ++ f2 in
  result ← lift (selection a current rollback target_id failures);
  write_document (a_output a) result ;;
  print (Json.dumps Json.pretty result) ;;
  mret (match failures with [] => 0 | _ => 1 end).
End Env.
End SelectRollback.

Module RollbackSpec.
Import SelectRollback.

Section Selection.
Context `{Platform} (a : args).

(** The manifest at [p] has no schema error. *)
Definition valid_manifest (w : world) (p : path) (d : val) : Prop :=
  load p w = (Ok d, w) /\ exists schema, load SCHEMA_PATH w = (Ok schema, w) /\ sorted_errors schema d = Ok [].

(** What makes a manifest a target of a rollback. *)
Record selectable (w : world) (current target_id target : val) : Prop := {
  s_named : truthy target_id = true;
  s_manifest : valid_manifest w (target_path a target_id) target;
  s_identity : exists rid, dget target "release_id" = Ok rid /\ py_eq rid target_id = true;
  s_different : exists sha current_sha, dget target "git_sha" = Ok sha /\ dget current "git_sha" = Ok current_sha /\
    py_eq sha current_sha = false;
  s_was_active : exists d, dget_or target "deployment" (VDict []) = Ok d /\
    (dget d "status" = Ok (VStr "active") \/ dget d "status" = Ok (VStr "rolled-back"))
}.

Lemma ro_load_manifest p : Pres eq (load p).
Proof. apply ro_load_json. Qed.
#[local] Hint Resolve ro_load_manifest : pres.
Lemma validate_none d p w w' : validate d p w = (Ok [], w') ->
  w' = w /\ exists schema, load SCHEMA_PATH w = (Ok schema, w) /\ sorted_errors schema d = Ok [].
Proof.
  unfold validate. intros E. apply M_bind_Ok in E as (schema & w1 & E1 & E).
  pose proof (pres_eq_run _ _ _ _ (ro_load_manifest _) E1) as ->. apply M_bind_Ok in E as (errors & w2 & E2 & E).
  apply lift_Ok in E2 as [E2 ->]. apply ret_Ok in E as [E ->]. split; [done|]. exists schema. split; [done|].
  by destruct errors.
Qed.

Lemma ne_nil {A} (b : bool) (x : A) : (if b then [] else [x]) = [] -> b = true.
Proof. by destruct b. Qed.

Lemma in_set_two v x y b : in_set v [VStr x; VStr y] = Ok b -> b = true -> v = VStr x \/ v = VStr y.
Proof.
  unfold in_set. intros E ->. apply bind_Ok in E as (u & _ & E). injection E as E.
  unfold py_in in E. simpl in E. rewrite orb_false_r in E. apply orb_true_iff in E as [E|E].
  - left. by apply py_eq_str_r in E.
  - right. by apply py_eq_str_r in E.
Qed.

(** C8: A rollback is selected (exit code 0) only when the current manifest is valid and
    declares rollback compatible, and the manifest of the release it names is retained,
    valid, names itself, has another Git SHA and was active once. *)
Theorem rollback_selected w : (main a w).1 = Ok 0 ->
  exists current rollback compatible target_id target, valid_manifest w (a_current a) current /\
    dget_or current "rollback" (VDict []) = Ok rollback /\ dget rollback "compatible" = Ok compatible /\
    truthy compatible = true /\ dget rollback "previous_release_id" = Ok target_id /\
    selectable w current target_id target.
Proof.
  destruct (main a w) as [r w'] eqn:E. cbn [fst]. intros ->. unfold main in E.
  apply M_bind_Ok in E as (current & w1 & Ec & E). pose proof (pres_eq_run _ _ _ _ (ro_load_manifest _) Ec) as ->.
  apply M_bind_Ok in E as (f0 & w1 & E0 & E). apply M_bind_Ok in E as (rollback & w2 & Er & E).
  apply lift_Ok in Er as [Er ->]. apply M_bind_Ok in E as (tid & w2 & Et & E). apply lift_Ok in Et as [Et ->].
  apply M_bind_Ok in E as (f1 & w2 & E1 & E). apply lift_Ok in E1 as [E1 ->].
  apply M_bind_Ok in E as (f2 & w3 & E2 & E). cbn zeta in E. do 3 (apply M_bind_Ok in E as (? & ? & _ & E)).
  apply ret_Ok in E as [E _]. destruct (f0 ++ f1 ++ f2) eqn:Ef; [|discriminate].
  apply app_eq_nil in Ef as [-> Ef]. apply app_eq_nil in Ef as [-> ->].
  apply validate_none in E0 as (-> & Hv).
  unfold declaration_failures in E1. apply bind_Ok in E1 as (comp & Ecomp & E1). injection E1 as E1.
  apply app_eq_nil in E1 as [Hcomp Htid]. apply ne_nil in Hcomp, Htid.
  unfold retained_failures in E2. rewrite Htid in E2. cbn zeta in E2.
  apply M_bind_Ok in E2 as (f & w4 & Ei & E2). apply is_file_Ok in Ei as [-> _].
  destruct f; cbn [negb] in E2; [|by apply ret_Ok in E2 as [? _]].
  apply M_bind_Ok in E2 as (target & w4 & El & E2). pose proof (pres_eq_run _ _ _ _ (ro_load_manifest _) El) as ->.
  apply M_bind_Ok in E2 as (g1 & w4 & Eg1 & E2). apply M_bind_Ok in E2 as (g2 & w5 & Eg2 & E2).
  apply lift_Ok in Eg2 as [Eg2 ->]. apply ret_Ok in E2 as [E2 _]. apply app_eq_nil in E2 as [-> ->].
  apply validate_none in Eg1 as (-> & Hvt). unfold target_failures in Eg2.
  apply bind_Ok in Eg2 as (rid & Erid & Eg2). apply bind_Ok in Eg2 as (sha & Esha & Eg2).
  apply bind_Ok in Eg2 as (csha & Ecsha & Eg2). apply bind_Ok in Eg2 as (dep & Edep & Eg2).
  apply bind_Ok in Eg2 as (st & Est & Eg2). apply bind_Ok in Eg2 as (known & Ek & Eg2). injection Eg2 as Eg2.
  apply app_eq_nil in Eg2 as [F1 F]. apply app_eq_nil in F as [F2 F3].
  exists current, rollback, comp, tid, target. split; [by split|]. split; [done|]. split; [done|]. split; [done|].
  split; [done|]. split; [done|by split| | |].
  - exists rid. split; [done|]. unfold py_ne in F1. by destruct (py_eq rid tid).
  - exists sha, csha. split; [done|]. split; [done|]. by destruct (py_eq sha csha).
  - exists dep. split; [done|]. apply ne_nil in F3. destruct (in_set_two _ _ _ _ Ek F3) as [->| ->]; auto.
Qed.
End Selection.
End RollbackSpec.

(** ** Concrete runs *)

Module RollbackRun.
Import Fixture SelectRollback RollbackSpec.

Definition manifest (rid sha status : string) : val := VDict [
  ("release_id", VStr rid); ("git_sha", VStr sha); ("deployment", rec [("status", status)]);
  ("rollback", VDict [("compatible", VBool true); ("previous_release_id", VStr "r1"); ("deadline_seconds", VInt 300)])].
Definition w0 : world := world_with [("/run/current.json", json (manifest "r2" "bb" "active"));
  ("/history/r1.json", json (manifest "r1" "aa" "rolled-back")); ("/run/out/.keep", "");
  ("/repo/contracts/operations/release-manifest-v0.schema.json", "{}")].
Definition the_args : args := Args (Path.of_str "/run/current.json") (Path.of_str "/history") (Path.of_str "/run/out/s.json").

Lemma rollback_selected_witness : let host := quiet_host in
  exists current rollback compatible target_id target, valid_manifest w0 (a_current the_args) current /\
    dget_or current "rollback" (VDict []) = Ok rollback /\ dget rollback "compatible" = Ok compatible /\
    truthy compatible = true /\ dget rollback "previous_release_id" = Ok target_id /\
    selectable the_args w0 current target_id target.
Proof. intros host. apply (rollback_selected (H := host) the_args w0). vm_compute. reflexivity. Defined.
End RollbackRun.
