(* ===== verification/RecoveryFreshness.v ===== *)
(** * scripts/operations/check_recovery_freshness.py

    The age of the backup, of the WAL archive and of the verified restore,
    against the recovery policy. *)

From Stdlib Require Import Ascii.
From S2P Require Import Prelude PyFloat PyMonad PyValue PyTime PyJson Sha256 PyOs OsFacts FloatFacts Fixture.

(** ** Differences of datetimes *)

Module Delta.
(** [a - b], in microseconds: both with an offset, or both without. *)
Definition sub (a b : Time.datetime) : res Z :=
  match Time.offset a, Time.offset b with
  | Some x, Some y => Ok ((Time.wall a - x) - (Time.wall b - y))
  | None, None => Ok (Time.wall a - Time.wall b)
  | _, _ => raise TypeError "can't subtract offset-naive and offset-aware datetimes"
  end.

(** The suffix [isoformat] writes for an offset. *)
Definition offset_text (o : option Z) : string :=
  match o with
  | None => ""
  | Some z =>
      let a := Z.abs z in
      let s := a / Time.us_per_s in
      (if z <? 0 then "-" else "+") +:+ Time.digits 2 (s / 3600) +:+ ":" +:+ Time.digits 2 (s / 60 mod 60)
      +:+ (if a mod (60 * Time.us_per_s) =? 0 then "" else ":" +:+ Time.digits 2 (s mod 60))
      +:+ Time.fraction_text a
  end.

(** [d.isoformat().replace("+00:00", "Z")] *)
Definition iso (d : Time.datetime) : string :=
  Str.replace "+00:00" "Z" (Time.iso_body (Time.wall d) +:+ offset_text (Time.offset d)).

Definition of_utc (us : Z) : Time.datetime := Time.DT us (Some 0).
End Delta.

Module RecoveryFreshness.
Section Env.
Context `{Platform}.

Definition SCHEMA : path := Path.div repo_root "contracts/operations/recovery-status-v0.schema.json".
Definition POLICY : path := Path.div repo_root "operations/disaster-recovery/recovery-policy-v0.json".

Definition load (p : path) : IO val := load_json p.

Definition instant (value : string) : res Time.datetime := Time.fromisoformat (Str.replace "Z" "+00:00" value).

Record args := Args { a_status : path; a_policy : path; as_of : option string; a_output : option path }.

(** [max(0, int((now - instant(document[...])).total_seconds()))] *)
Definition age (now : Time.datetime) (document : val) (ks : list string) : res Z :=
  v ← item document ks; s ← expect_str v; t ← instant s; d ← Delta.sub now t;
  Ok (Z.max 0 (Time.int_seconds d)).

(** A measure above its limit in the policy. *)
Definition exceeds (measure policy : val) (limit : string) (message : val -> string) : res (list string) :=
  l ← getitem policy limit; over ← py_gt measure l;
  Ok (if over : bool then [message l] else []).

Definition over_limit (what : string) (n : Z) (l : val) : string :=
  what +:+ " " +:+ Str.of_Z n +:+ "s exceeds " +:+ py_str l +:+ "s".

Record measures := Measures { backup_age : Z; restore_age : Z; wal_lag : Z }.

Definition measure (now : Time.datetime) (document : val) : res measures :=
  b ← age now document ["backup"; "completed_at"];
  r ← age now document ["restore_verification"; "verified_at"];
  lag ← item document ["wal_archive"; "lag_seconds"]; lag ← py_int lag;
  Ok (Measures b r lag).

Definition freshness_failures (m : measures) (document policy : val) : res (list string) :=
  f1 ← exceeds (VInt (backup_age m)) policy "backup_max_age_seconds" (over_limit "backup age" (backup_age m));
  f2 ← exceeds (VInt (wal_lag m)) policy "wal_archive_max_lag_seconds" (over_limit "WAL archive lag" (wal_lag m));
  f3 ← exceeds (VInt (restore_age m)) policy "restore_verification_max_age_seconds"
         (over_limit "restore verification age" (restore_age m));
  rpo ← item document ["restore_verification"; "rpo_observed_seconds"];
  f4 ← exceeds rpo policy "rpo_target_seconds" (λ _, "observed restore RPO exceeds target");
  rto ← item document ["restore_verification"; "rto_observed_seconds"];
  f5 ← exceeds rto policy "rto_target_seconds" (λ _, "observed restore RTO exceeds target");
  Ok (f1 ++ f2 ++ f3 ++ f4 ++ f5).

Definition report (m : measures) (now : Time.datetime) (document : val) (failures : list string) : res val :=
  completed ← item document ["backup"; "completed_at"];
  verified ← item document ["restore_verification"; "verified_at"];
  rpo ← item document ["restore_verification"; "rpo_observed_seconds"];
  rto ← item document ["restore_verification"; "rto_observed_seconds"];
  evidence ← item document ["restore_verification"; "evidence_ref"];
  Ok (VDict [("schema_version", VStr "recovery-freshness-result-v0");
    ("status", VStr (match failures with [] => "passed" | _ => "failed" end)); ("as_of", VStr (Delta.iso now));
    ("backup_completed_at", completed); ("backup_age_seconds", VInt (backup_age m));
    ("wal_archive_lag_seconds", VInt (wal_lag m)); ("restore_verified_at", verified);
    ("restore_verification_age_seconds", VInt (restore_age m)); ("rpo_observed_seconds", rpo);
    ("rto_observed_seconds", rto); ("evidence_ref", evidence); ("failures", VStrs failures)]).

Definition reference (a : args) : IO Time.datetime :=
  match as_of a with
  | Some s => if String.eqb s "" then t ← now; mret (Delta.of_utc t) else lift (instant s)
  | None => t ← now; mret (Delta.of_utc t)
  end.

Definition main (a : args) : IO Z :=
  document ← load (a_status a);
  schema ← load SCHEMA;
  policy ← load (a_policy a);
  errors ← lift (sorted_errors schema document);
  let f0 := map (λ e : list val * string, dotted e.1 +:+ ": " +:+ e.2) errors in
  t ← reference a;
  m ← lift (measure t document);
  f1 ← lift (freshness_failures m document policy);
  let failures := f0 ++ f1 in
  result ← lift (report m t document failures);
  match a_output a with Some p => write_document p result | None => mret tt end ;;
  print (Json.dumps Json.pretty result) ;;
  mret (match failures with [] => 0 | _ => 1 end).
End Env.
End RecoveryFreshness.

Module FreshnessSpec.
Import RecoveryFreshness.

Section Passed.
Context `{Platform}.

(** The measure of an age: the whole seconds since the instant at [ks], at most [limit]. *)
Definition recent (now : Time.datetime) (document : val) (ks : list string) (limit : Z) : Prop :=
  exists text t d, item document ks = Ok (VStr text) /\ instant text = Ok t /\ Delta.sub now t = Ok d /\
    Time.int_seconds d <= limit.
Definition at_most (document : val) (ks : list string) (limit : Z) : Prop :=
  exists v, item document ks = Ok v /\ py_gt v (VInt limit) = Ok false.

Record policy_limits (policy : val) (backup wal restore rpo rto : Z) : Prop := {
  pl_backup : getitem policy "backup_max_age_seconds" = Ok (VInt backup) /\ 0 <= backup;
  pl_wal : getitem policy "wal_archive_max_lag_seconds" = Ok (VInt wal);
  pl_restore : getitem policy "restore_verification_max_age_seconds" = Ok (VInt restore) /\ 0 <= restore;
  pl_rpo : getitem policy "rpo_target_seconds" = Ok (VInt rpo);
  pl_rto : getitem policy "rto_target_seconds" = Ok (VInt rto)
}.

Lemma exceeds_nil v policy limit message l : exceeds v policy limit message = Ok [] ->
  getitem policy limit = Ok l -> py_gt v l = Ok false.
Proof.
  unfold exceeds. intros E El. rewrite El in E. cbn [mbind res_bind] in E. apply bind_Ok in E as (b & -> & E). by destruct b.
Qed.

Lemma age_recent now document ks z limit : age now document ks = Ok z -> z <= limit -> recent now document ks limit.
Proof.
  unfold age. intros E Hz. apply bind_Ok in E as (v & E1 & E). apply bind_Ok in E as (s & E2 & E).
  apply bind_Ok in E as (t & E3 & E). apply bind_Ok in E as (d & E4 & E). injection E as <-.
  destruct v; try discriminate. injection E2 as ->. exists s, t, d. repeat (split; [done|]). lia.
Qed.

Lemma gt_int a b : py_gt (VInt a) (VInt b) = Ok false -> a <= b.
Proof. unfold py_gt. rewrite py_lt_int. intros [= ?%Z.ltb_ge]. lia. Qed.

(** Recovery is reported fresh (exit code 0) only for a status document without a schema
    error in which the backup and the verified restore are no older than the policy
    allows, and the lag of the archive and the observed RPO and RTO are within it. *)
Theorem freshness_passed (a : args) w backup wal restore rpo rto :
  (forall policy w1, load (a_policy a) w = (Ok policy, w1) -> policy_limits policy backup wal restore rpo rto) ->
  (main a w).1 = Ok 0 ->
  exists document schema now lag, load (a_status a) w = (Ok document, w) /\ load SCHEMA w = (Ok schema, w) /\
    sorted_errors schema document = Ok [] /\
    recent now document ["backup"; "completed_at"] backup /\
    recent now document ["restore_verification"; "verified_at"] restore /\
    (item document ["wal_archive"; "lag_seconds"] ≫= py_int = Ok lag /\ lag <= wal) /\
    at_most document ["restore_verification"; "rpo_observed_seconds"] rpo /\
    at_most document ["restore_verification"; "rto_observed_seconds"] rto.
Proof.
  intros Hp. destruct (main a w) as [r w'] eqn:E. cbn [fst]. intros ->. unfold main in E.
  apply M_bind_Ok in E as (doc & w1 & E1 & E). pose proof (pres_eq_run _ _ _ _ (ro_load_json _) E1) as ->.
  apply M_bind_Ok in E as (schema & w1 & E2 & E). pose proof (pres_eq_run _ _ _ _ (ro_load_json _) E2) as ->.
  apply M_bind_Ok in E as (policy & w1 & E3 & E). apply Hp in E3 as [[Hb Hb0] Hw [Hr Hr0] Hrpo Hrto].
  apply M_bind_Ok in E as (errors & w2 & E4 & E). apply lift_Ok in E4 as [E4 ->]. cbn zeta in E.
  apply M_bind_Ok in E as (now & w2 & _ & E). apply M_bind_Ok in E as (m & w3 & Em & E).
  apply lift_Ok in Em as [Em ->]. apply M_bind_Ok in E as (f1 & w3 & Ef & E). apply lift_Ok in Ef as [Ef ->].
  do 3 (apply M_bind_Ok in E as (? & ? & _ & E)). apply ret_Ok in E as [E _].
  destruct (map _ errors ++ f1) eqn:Ea; [|discriminate]. apply app_eq_nil in Ea as [Ee ->].
  destruct errors; [|discriminate]. unfold measure in Em.
  apply bind_Ok in Em as (b & Eb & Em). apply bind_Ok in Em as (rs & Er & Em).
  apply bind_Ok in Em as (lv & El & Em). apply bind_Ok in Em as (lag & Elag & Em). injection Em as <-.
  unfold freshness_failures in Ef. cbn [backup_age restore_age wal_lag] in Ef.
  apply bind_Ok in Ef as (g1 & G1 & Ef). apply bind_Ok in Ef as (g2 & G2 & Ef). apply bind_Ok in Ef as (g3 & G3 & Ef).
  apply bind_Ok in Ef as (vrpo & V4 & Ef). apply bind_Ok in Ef as (g4 & G4 & Ef).
  apply bind_Ok in Ef as (vrto & V5 & Ef). apply bind_Ok in Ef as (g5 & G5 & Ef). injection Ef as Ef.
  repeat (apply app_eq_nil in Ef as [-> Ef]). subst g5.
  exists doc, schema, now, lag. do 3 (split; [done|]).
  split; [eapply age_recent; [exact Eb|]; by apply gt_int, (exceeds_nil _ _ _ _ _ G1 Hb)|].
  split; [eapply age_recent; [exact Er|]; by apply gt_int, (exceeds_nil _ _ _ _ _ G3 Hr)|].
  split; [split; [by rewrite El|by apply gt_int, (exceeds_nil _ _ _ _ _ G2 Hw)]|].
  split; [exists vrpo|exists vrto]; (split; [done|]); by eapply exceeds_nil.
Qed.

(** *** Ages of texts the platform writes *)

Lemma digits_without_Z w : forall n, Str.without ["Z"%char] (Time.digits w n) = true.
Proof.
  induction w as [|k IH]; intros n; cbn [Time.digits]; [done|].
  unfold Str.without. rewrite Str.all_chars_cons. unfold inb. cbn [existsb].
  destruct (Time.digit_char_props (n / 10 ^ Z.of_nat k mod 10)) as (_ & _ & _ & ->); [by apply Z.mod_pos_bound|].
  apply IH.
Qed.
Lemma body_without_Z us : Str.without ["Z"%char] (Time.iso_body us) = true.
Proof.
  unfold Time.iso_body, Time.date_text, Time.hms_text, Time.fraction_text.
  destruct (Time.civil_from_days _) as [[y m] d]. rewrite !Str.without_app, !digits_without_Z.
  destruct (us mod Time.us_per_s =? 0); [done|]. by rewrite Str.without_app, digits_without_Z.
Qed.

Lemma instant_iso us : Time.min_us <= us < Time.max_us -> instant (Time.iso_z us) = Ok (Delta.of_utc us).
Proof.
  intros Hus. unfold instant, Str.replace. rewrite Time.iso_z_body. cbn [Str.replace_go].
  rewrite Str.partition_char by apply body_without_Z.
  assert (forall n q, Str.replace_go n "Z" q "" = "") as -> by (intros [|n] q; reflexivity).
  rewrite Str.app_nil_r. by apply Time.fromisoformat_body.
Qed.

(** C12: The age of an instant the platform wrote is the truncated float of the seconds
    since then: zero for an instant that is still to come (a backup dated in the future
    is never too old), the whole number of seconds for one of the last 285 years, and
    at most one second above it for any other. *)
Theorem age_of_instant reference us document ks : Time.min_us <= us < Time.max_us ->
  Time.min_us <= reference < Time.max_us -> item document ks = Ok (VStr (Time.iso_z us)) ->
  exists z, age (Delta.of_utc reference) document ks = Ok z /\
    (reference < us -> z = 0) /\
    (us <= reference -> (reference - us) / Time.us_per_s <= z <= (reference - us) / Time.us_per_s + 1) /\
    (us <= reference < us + 2 ^ 53 -> z = (reference - us) / Time.us_per_s).
Proof.
  intros Hus Href Hi. unfold age. rewrite Hi. cbn [mbind res_bind expect_str]. rewrite instant_iso by done.
  cbn [mbind res_bind]. unfold Delta.sub, Delta.of_utc. cbn [Time.offset Time.wall mbind res_bind].
  rewrite !Z.sub_0_r. change Time.min_us with (-62135596800000000) in Hus, Href. change Time.max_us with 253402300800000000 in Hus, Href.
  exists (Z.max 0 (Time.int_seconds (reference - us))). split; [done|].
  destruct (decide (reference < us)) as [Hlt|Hge].
  - pose proof (Seconds.int_seconds_neg (reference - us) ltac:(lia)). split; lia.
  - destruct (Seconds.int_seconds_pos (reference - us) ltac:(lia)) as [Hb Hx].
    pose proof (Z.div_pos (reference - us) Time.us_per_s ltac:(lia) ltac:(done)).
    split; [lia|]. split; [lia|]. intros H53. rewrite Hx by lia. lia.
Qed.
End Passed.
End FreshnessSpec.

(** ** Concrete runs *)

Module FreshnessRun.
Import Fixture RecoveryFreshness FreshnessSpec.

Definition policy : val := VDict [("backup_max_age_seconds", VInt 86400); ("wal_archive_max_lag_seconds", VInt 300);
  ("restore_verification_max_age_seconds", VInt 2592000); ("rpo_target_seconds", VInt 300); ("rto_target_seconds", VInt 3600)].
Definition status : val := VDict [
  ("backup", rec [("completed_at", "2026-07-14T01:00:00Z")]);
  ("wal_archive", VDict [("lag_seconds", VInt 30)]);
  ("restore_verification", VDict [("verified_at", VStr "2026-07-01T00:00:00Z"); ("rpo_observed_seconds", VInt 60);
     ("rto_observed_seconds", VInt 1200); ("evidence_ref", VStr "evidence://restore/1")])].
Definition w0 : world := world_with [("/run/status.json", json status); ("/run/policy.json", json policy);
  ("/repo/contracts/operations/recovery-status-v0.schema.json", "{}")].
Definition the_args : args := Args (Path.of_str "/run/status.json") (Path.of_str "/run/policy.json") None
  (Some (Path.of_str "/run/result.json")).

Lemma freshness_passed_witness : let host := quiet_host in
  exists document schema now lag, load (a_status the_args) w0 = (Ok document, w0) /\ load SCHEMA w0 = (Ok schema, w0) /\
    sorted_errors schema document = Ok [] /\
    recent now document ["backup"; "completed_at"] 86400 /\
    recent now document ["restore_verification"; "verified_at"] 2592000 /\
    (item document ["wal_archive"; "lag_seconds"] ≫= py_int = Ok lag /\ lag <= 300) /\
    at_most document ["restore_verification"; "rpo_observed_seconds"] 300 /\
    at_most document ["restore_verification"; "rto_observed_seconds"] 3600.
Proof.
  intros host. apply (freshness_passed (H := host) the_args w0).
  - intros p w1 E. assert (load (H := host) (a_policy the_args) w0 = (Ok policy, w0)) as E2 by (vm_compute; reflexivity).
    rewrite E2 in E. injection E as <- _. split; try (split; [reflexivity|lia]); reflexivity.
  - vm_compute. reflexivity.
Defined.

(** A backup dated a year ahead has the age zero. *)
Lemma age_of_instant_witness :
  age (Delta.of_utc t0) (VDict [("backup", VDict [("completed_at", VStr (Time.iso_z (t0 + 365 * 86400000000)))])])
    ["backup"; "completed_at"] = Ok 0.
Proof.
  destruct (age_of_instant t0 (t0 + 365 * 86400000000)
    (VDict [("backup", VDict [("completed_at", VStr (Time.iso_z (t0 + 365 * 86400000000)))])]) ["backup"; "completed_at"])
    as (z & -> & Hz & _); [vm_compute; split; congruence|vm_compute; split; congruence|reflexivity|by rewrite Hz].
Defined.
End FreshnessRun.
