(* ===== verification/RecoveryStatus.v ===== *)
(** * database/tools/recovery_status_v1.py

    The recovery status of a release: the verified backup status and restore
    result, each bound by a checksum sidecar, and the overall verdict. *)

From Stdlib Require Import Ascii.
From S2P Require Import Prelude PyFloat PyMonad PyValue PyTime PyJson Sha256 PyOs OsFacts Fixture.

Module RecoveryStatus.
Section Env.
Context `{Platform}.

Definition SCHEMA : path := Path.div repo_root "contracts/database/recovery-status-v1.schema.json".
Definition BACKUP_SCHEMA : path := Path.div repo_root "contracts/platform/database-backup-status-v0.schema.json".
Definition RESTORE_SCHEMA : path := Path.div repo_root "contracts/platform/database-restore-result-v0.schema.json".

Definition load (p : path) : IO val := load_json p.

Definition validate_document (value : val) (schema_path : path) (label : string) : IO unit :=
  schema ← load schema_path;
  errors ← lift (sorted_errors schema value);
  match errors with
  | [] => mret tt
  | _ => throw ValueError ("invalid " +:+ label +:+ " document: " +:+
           Str.join "; " (map (λ e, (if String.eqb (dotted e.1) "" then "<root>" else dotted e.1) +:+ ": " +:+ e.2) errors))
  end.

Definition verify (p checksum schema_path : path) (label : string) : IO val :=
  text ← read_text checksum;
  match Str.words (Str.strip text) with
  | token :: _ =>
      if negb (Str.len token =? 64) then throw ValueError ("invalid checksum sidecar: " +:+ Path.to_str checksum)
      else
        observed ← sha256_file p;
        if negb (String.eqb observed (Str.lower token)) then throw ValueError ("checksum mismatch: " +:+ Path.to_str p)
        else value ← load p; validate_document value schema_path label ;; mret value
  | [] => throw ValueError ("invalid checksum sidecar: " +:+ Path.to_str checksum)
  end.

Definition parse_time (value : val) : res Z :=
  s ← expect_str value;
  d ← Time.fromisoformat (Str.replace "Z" "+00:00" s); Time.to_utc local_offset d.

(** [iso(value)] *)
Definition iso (t : option Z) : val := opt_val (λ us, VStr (Time.iso_z us)) t.

(** [observed - timedelta(seconds=age)] *)
Definition minus_seconds (t seconds : Z) : res Z :=
  let us := t - seconds * Time.us_per_s in
  if (Time.min_us <=? us) && (us <? Time.max_us) then Ok us else raise OverflowError "date value out of range".

Record args := Args {
  database_state : path; source_revision : string; release_id : string;
  backup_status : option string; backup_status_checksum : option string;
  restore_result : option string; restore_result_checksum : option string;
  restored_source_revision : option string; a_output : option path
}.

(** The part of the status that speaks of the backup. *)
Record backup_part := Backup {
  b_status : string; b_latest : option Z; b_wal : option Z; b_freshness : option Z; b_verified : bool
}.
Definition no_backup : backup_part := Backup "blocked" None None None false.

Definition archive_of (backup : val) (k : string) : res val := item backup ["archive"; k].

Definition backup_ready (backup : val) (freshness : Z) : res bool :=
  ready ← dget backup "recoveryReady";
  if negb (is_true ready) then Ok false
  else
    mv ← dget_or backup "migrationVersion" (VInt 0); mv ← py_int mv;
    if negb (8 <=? mv) then Ok false
    else
      archive ← getitem backup "archive";
      failed ← dget_or archive "failedCount" (VInt 0); failed ← py_int failed;
      Ok ((failed =? 0) && (freshness <=? 300)).

Definition judge_backup (backup : val) : res backup_part :=
  observed ← getitem backup "observedAt"; observed ← parse_time observed;
  age ← item backup ["latestBackup"; "ageSeconds"]; age ← py_int age;
  latest ← minus_seconds observed age;
  wal ← archive_of backup "lastArchivedAt"; wal ← parse_time wal;
  freshness ← archive_of backup "secondsSinceLastArchive"; freshness ← py_int freshness;
  ready ← backup_ready backup freshness;
  Ok (Backup (if ready : bool then "passed" else "failed") (Some latest) (Some wal) (Some freshness) true).

(** The part that speaks of the verified restore. *)
Record restore_part := Restore {
  r_status : string; r_verified_at : option Z; r_duration : option Z; r_migration : option Z; r_invariants : bool
}.
Definition no_restore : restore_part := Restore "blocked" None None None false.

(** [int(round(float(v)))] *)
Definition int_round (v : val) : res Z :=
  f ← py_float v;
  match Flt.round_int f with
  | Some z => Ok z
  | None => match f with
            | SpecFloat.S754_nan => raise ValueError "cannot convert float NaN to integer"
            | _ => raise OverflowError "cannot convert float infinity to integer"
            end
  end.

(** [all(check.get("passed") for check in checks)]: it stops at the first that has not. *)
Fixpoint all_passed (checks : list val) : res bool :=
  match checks with
  | [] => Ok true
  | c :: r => p ← dget c "passed"; if truthy p then all_passed r else Ok false
  end.

(** [next((check for check in checks if check.get("name") == "migration-version"), None)] *)
Fixpoint migration_check (checks : list val) : res val :=
  match checks with
  | [] => Ok VNone
  | c :: r => here ← get_eq c "name" (VStr "migration-version"); if here : bool then Ok c else migration_check r
  end.

Definition restored_version (check : val) : res (option Z) :=
  if truthy check then
    match actual ← getitem check "actual"; py_int actual with
    | Ok z => Ok (Some z)
    | Raise e => if exn_in [TypeError; ValueError] e then Ok None else Raise e
    end
  else Ok None.

Definition judge_restore (restore : val) (restored_revision : option string) : res restore_part :=
  finished ← getitem restore "finishedAt"; finished ← parse_time finished;
  duration ← getitem restore "durationSeconds"; duration ← int_round duration;
  checks ← dget_or restore "checks" (VList []);
  success ← dget restore "success";
  invariants ← (if truthy success then l ← py_iter checks; all_passed l else Ok false);
  l ← py_iter checks; check ← migration_check l;
  version ← restored_version check;
  Ok (Restore (if invariants && match version with Some v => 8 <=? v | None => false end
                  && (duration <=? 3600) && match restored_revision with Some _ => true | None => false end
               then "passed" else "failed")
        (Some finished) (Some duration) version invariants).

Definition overall (migration_version : Z) (b : backup_part) (r : restore_part) (a : args) : string :=
  if (8 <=? migration_version) && String.eqb (b_status b) "passed" && String.eqb (r_status r) "passed"
     && match restored_source_revision a with Some s => String.eqb s (source_revision a) | None => false end
  then "passed"
  else if inb String.eqb "failed" [b_status b; r_status r] then "failed" else "blocked".

Definition document (a : args) (now migration_version : Z) (b : backup_part) (r : restore_part) : val :=
  VDict [("$schema", VStr "./recovery-status-v1.schema.json"); ("schemaVersion", VStr "recovery-status-v1");
    ("status", VStr (overall migration_version b r a)); ("sourceRevision", VStr (source_revision a));
    ("releaseId", VStr (release_id a)); ("migrationVersion", VInt migration_version);
    ("requiredMigrationVersion", VInt 8);
    ("backup", VDict [("status", VStr (b_status b)); ("repositoryFormat", VStr "pgbackrest-encrypted-posix-tls-v1");
       ("latestBackupAt", iso (b_latest b)); ("latestWalArchivedAt", iso (b_wal b));
       ("metadataChecksumVerified", VBool (b_verified b)); ("freshnessSeconds", opt_val VInt (b_freshness b))]);
    ("restore", VDict [("status", VStr (r_status r)); ("verifiedAt", iso (r_verified_at r));
       ("durationSeconds", opt_val VInt (r_duration r));
       ("restoredSourceRevision", opt_val VStr (restored_source_revision a));
       ("restoredMigrationVersion", opt_val VInt (r_migration r)); ("invariantsPassed", VBool (r_invariants r))]);
    ("targets", VDict [("rpoSeconds", VInt 300); ("rtoSeconds", VInt 3600)]);
    ("observedAt", iso (Some now))].

(** A pair of options given and not empty. *)
Definition given (x y : option string) : option (path * path) :=
  match x, y with
  | Some s, Some t => if String.eqb s "" || String.eqb t "" then None else Some (Path.of_str s, Path.of_str t)
  | _, _ => None
  end.

Definition backup_evidence (a : args) : IO backup_part :=
  match given (backup_status a) (backup_status_checksum a) with
  | Some (p, c) => d ← verify p c BACKUP_SCHEMA "backup status"; lift (judge_backup d)
  | None => mret no_backup
  end.
Definition restore_evidence (a : args) : IO restore_part :=
  match given (restore_result a) (restore_result_checksum a) with
  | Some (p, c) => d ← verify p c RESTORE_SCHEMA "restore result"; lift (judge_restore d (restored_source_revision a))
  | None => mret no_restore
  end.

Definition valid_revision (s : string) : bool := (Str.len s =? 40) && Str.all_chars Str.is_hex_lower s.

Definition main (a : args) : IO Z :=
  if negb (valid_revision (source_revision a))
  then sysexit "source revision must be a lowercase 40-character Git SHA"
  else
    now ← PyOs.now;
    state ← load (database_state a);
    mv ← lift (dget_or state "migrationVersion" (VInt 0)); mv ← lift (py_int mv);
    b ← backup_evidence a;
    r ← restore_evidence a;
    let value := document a now mv b r in
    schema ← load SCHEMA;
    errors ← lift (sorted_errors schema value);
    match errors with
    | _ :: _ => sysexit (Str.join "; " errors.*2)
    | [] =>
        match a_output a with Some p => write_document p value | None => mret tt end ;;
        print (Json.dumps Json.compact value) ;;
        mret (if String.eqb (overall mv b r a) "passed" then 0 else 1)
    end.
End Env.
End RecoveryStatus.

Module RecoveryStatusSpec.
Import RecoveryStatus.

Section Status.
Context `{Platform} (a : args).

(** A document bound by its checksum sidecar, without a schema error. *)
Definition bound (w : world) (p checksum schema_path : path) (d : val) : Prop :=
  exists data m text token rest, stat w p = Some (NFile data m) /\ read_text checksum w = (Ok text, w) /\
    Str.words (Str.strip text) = token :: rest /\ Str.lower token = Sha256.hexdigest data /\
    load p w = (Ok d, w) /\
    exists schema, load schema_path w = (Ok schema, w) /\ sorted_errors schema d = Ok [].

Lemma ro_load_evidence p : Pres eq (load p).
Proof. apply ro_load_json. Qed.
#[local] Hint Resolve ro_load_evidence : pres.
Lemma ro_validate_evidence v p l : Pres eq (validate_document v p l).
Proof. unfold validate_document. solve_pres. Qed.
#[local] Hint Resolve ro_validate_evidence : pres.
Lemma ro_verify p c s l : Pres eq (verify p c s l).
Proof. unfold verify. solve_pres. Qed.
#[local] Hint Resolve ro_verify : pres.

Lemma verify_bound p c s l w d w' : verify p c s l w = (Ok d, w') -> w' = w /\ bound w p c s d.
Proof.
  intros E. same_world E. split; [done|]. unfold verify in E.
  apply M_bind_Ok in E as (text & w1 & E1 & E). same_world E1.
  destruct (Str.words (Str.strip text)) as [|token rest] eqn:Ew; [done|].
  destruct (negb (Str.len token =? 64)); [done|].
  apply M_bind_Ok in E as (h & w1 & E2 & E). same_world E2.
  unfold sha256_file in E2. apply M_bind_Ok in E2 as (data & w1 & E3 & E2). apply ret_Ok in E2 as [<- <-].
  unfold read_bytes in E3. destruct (stat w p) as [[data' m| |]|] eqn:Es; try discriminate. injection E3 as ->.
  destruct (String.eqb_spec (Sha256.hexdigest data) (Str.lower token)) as [Ht|]; [|done]. cbn [negb] in E.
  apply M_bind_Ok in E as (v & w2 & E4 & E). same_world E4.
  apply M_bind_Ok in E as (u & w2 & E5 & E). apply ret_Ok in E as [<- ->].
  exists data, m, text, token, rest. do 5 (split; [done|]).
  unfold validate_document in E5. apply M_bind_Ok in E5 as (schema & w3 & E6 & E5). same_world E6.
  exists schema. split; [done|]. apply M_bind_Ok in E5 as (es & w3 & E7 & E5). apply lift_Ok in E7 as [E7 _].
  by destruct es.
Qed.

(** What a passed backup and a passed restore have shown. *)
Definition backup_shown (d : val) : Prop :=
  dget d "recoveryReady" = Ok (VBool true) /\
  (exists mv z, dget_or d "migrationVersion" (VInt 0) = Ok mv /\ py_int mv = Ok z /\ 8 <= z) /\
  (exists archive failed, getitem d "archive" = Ok archive /\ dget_or archive "failedCount" (VInt 0) = Ok failed /\
     py_int failed = Ok 0) /\
  exists seconds z, archive_of d "secondsSinceLastArchive" = Ok seconds /\ py_int seconds = Ok z /\ z <= 300.

Definition restore_shown (d : val) : Prop :=
  (exists success, dget d "success" = Ok success /\ truthy success = true) /\
  (exists checks l, dget_or d "checks" (VList []) = Ok checks /\ py_iter checks = Ok l /\
     Forall (λ c, exists p, dget c "passed" = Ok p /\ truthy p = true) l /\
     exists c actual z, c ∈ l /\ dget c "name" = Ok (VStr "migration-version") /\ getitem c "actual" = Ok actual /\
       py_int actual = Ok z /\ 8 <= z) /\
  exists duration z, getitem d "durationSeconds" = Ok duration /\ int_round duration = Ok z /\ z <= 3600.

Lemma is_true_inv v : negb (is_true v) = false -> v = VBool true.
Proof. by destruct v as [|[]| | | | |]. Qed.

Lemma judge_backup_passed d b : judge_backup d = Ok b -> b_status b = "passed" -> backup_shown d.
Proof.
  unfold judge_backup. intros E Hb. do 6 (apply bind_Ok in E as (? & _ & E)).
  apply bind_Ok in E as (? & _ & E).
  apply bind_Ok in E as (sec & Es & E). apply bind_Ok in E as (z & Ez & E). apply bind_Ok in E as (ready & Er & E).
  injection E as <-. destruct ready; [|done]. unfold backup_ready in Er.
  apply bind_Ok in Er as (rr & Err & Er). destruct (negb (is_true rr)) eqn:Et; [done|]. apply is_true_inv in Et as ->.
  apply bind_Ok in Er as (mv & Emv & Er). apply bind_Ok in Er as (m & Em & Er).
  destruct (Z.leb_spec 8 m); [|done]. cbn [negb] in Er.
  apply bind_Ok in Er as (ar & Ear & Er). apply bind_Ok in Er as (fv & Efv & Er). apply bind_Ok in Er as (f & Ef & Er).
  injection Er as Er. apply andb_true_iff in Er as [->%Z.eqb_eq Hz%Z.leb_le].
  split; [done|]. split; [by exists mv, m|]. split; [by exists ar, fv|]. by exists sec, z.
Qed.

Lemma all_passed_true l : all_passed l = Ok true -> Forall (λ c, exists p, dget c "passed" = Ok p /\ truthy p = true) l.
Proof.
  induction l as [|c r IH]; simpl; [constructor|]. intros E. apply bind_Ok in E as (p & Ep & E).
  destruct (truthy p) eqn:Et; [|discriminate]. constructor; [by exists p|by apply IH].
Qed.
Lemma migration_check_found l c : migration_check l = Ok c -> c = VNone \/ (c ∈ l /\ dget c "name" = Ok (VStr "migration-version")).
Proof.
  induction l as [|x r IH]; simpl; [intros [= <-]; by left|]. intros E. apply bind_Ok in E as (b & Eb & E).
  unfold get_eq in Eb. apply bind_Ok in Eb as (n & En & Eb). injection Eb as Eb. destruct b.
  - injection E as <-. right. apply py_eq_str_r in Eb as ->. split; [by left|done].
  - apply IH in E as [->|[? ?]]; [by left|right]. split; [by right|done].
Qed.

Lemma judge_restore_passed d rev r : judge_restore d rev = Ok r -> r_status r = "passed" -> restore_shown d.
Proof.
  unfold judge_restore. intros E Hr. do 2 (apply bind_Ok in E as (? & _ & E)).
  apply bind_Ok in E as (dv & Ed & E). apply bind_Ok in E as (dz & Edz & E).
  apply bind_Ok in E as (checks & Ec & E). apply bind_Ok in E as (success & Es & E).
  apply bind_Ok in E as (inv & Ei & E). apply bind_Ok in E as (l & El & E). apply bind_Ok in E as (c & Em & E).
  apply bind_Ok in E as (version & Ev & E). injection E as <-.
  destruct (inv && _ && _ && _) eqn:Eb in Hr; [|done]. clear Hr.
  apply andb_true_iff in Eb as [Eb _]. apply andb_true_iff in Eb as [Eb Hd%Z.leb_le].
  apply andb_true_iff in Eb as [-> Hv]. destruct version as [v|]; [|done]. apply Z.leb_le in Hv.
  destruct (truthy success) eqn:Et; [|done]. apply bind_Ok in Ei as (l' & El' & Ei).
  rewrite El in El'. injection El' as <-. unfold restored_version in Ev.
  destruct (truthy c) eqn:Etc; [|done].
  destruct (actual ← getitem c "actual"; py_int actual) as [z|e] eqn:Ea; [|destruct (exn_in _ e); discriminate].
  injection Ev as ->. apply bind_Ok in Ea as (actual & Ea & Eact).
  split; [by exists success|]. split; [|by exists dv, dz]. exists checks, l. do 2 (split; [done|]).
  split; [by apply all_passed_true|]. apply migration_check_found in Em as [->|[Hin Hn]]; [done|].
  by exists c, actual, v.
Qed.

(** The recovery status is published as passed (exit code 0) only for a lowercase Git
    SHA and a database at migration 8 or later, with a backup status and a restore
    result each bound by its SHA-256 sidecar and without a schema error, the backup ready
    with a WAL archive at most 300 seconds old and no failure, and the restore, of
    this very revision, done within an hour with every check passed. *)
Theorem recovery_status_passed w : (main a w).1 = Ok 0 ->
  valid_revision (source_revision a) = true /\ restored_source_revision a = Some (source_revision a) /\
  exists w1 state mv version backup restore bp bc rp rc, fs w1 = fs w /\
    load (database_state a) w1 = (Ok state, w1) /\
    dget_or state "migrationVersion" (VInt 0) = Ok mv /\ py_int mv = Ok version /\ 8 <= version /\
    given (backup_status a) (backup_status_checksum a) = Some (bp, bc) /\ bound w1 bp bc BACKUP_SCHEMA backup /\
    backup_shown backup /\
    given (restore_result a) (restore_result_checksum a) = Some (rp, rc) /\ bound w1 rp rc RESTORE_SCHEMA restore /\
    restore_shown restore.
Proof.
  destruct (main a w) as [r w'] eqn:E. cbn [fst]. intros ->. unfold main in E.
  destruct (valid_revision (source_revision a)); [|done]. cbn [negb] in E. split; [done|].
  apply M_bind_Ok in E as (now & w1 & En & E). injection En as <- <-. set (w1 := advance _ w) in *.
  apply M_bind_Ok in E as (state & w2 & Es & E). same_world Es.
  apply M_bind_Ok in E as (mv & w2 & Emv & E). apply lift_Ok in Emv as [Emv ->].
  apply M_bind_Ok in E as (version & w2 & Ez & E). apply lift_Ok in Ez as [Ez ->].
  apply M_bind_Ok in E as (b & w2 & Eb & E). apply M_bind_Ok in E as (rp & w3 & Er & E). cbn zeta in E.
  apply M_bind_Ok in E as (schema & w4 & _ & E). apply M_bind_Ok in E as (errors & w5 & _ & E).
  destruct errors; [|done]. do 2 (apply M_bind_Ok in E as (? & ? & _ & E)). apply ret_Ok in E as [E _].
  destruct (String.eqb_spec (overall version b rp a) "passed") as [Ho|]; [|done]. clear E. unfold overall in Ho.
  destruct ((8 <=? version) && _ && _ && _) eqn:Eo in Ho; [|by destruct (inb _ _ _)]. clear Ho.
  apply andb_true_iff in Eo as [Eo Hrev]. apply andb_true_iff in Eo as [Eo Hrs%String.eqb_eq].
  apply andb_true_iff in Eo as [Hv%Z.leb_le Hbs%String.eqb_eq].
  destruct (restored_source_revision a) as [rev|] eqn:Erev; [|done]. apply String.eqb_eq in Hrev as ->. split; [done|].
  unfold backup_evidence in Eb. destruct (given (backup_status a) _) as [[bp bc]|]; [|by apply ret_Ok in Eb as [<- _]].
  apply M_bind_Ok in Eb as (bd & w6 & Eb1 & Eb). apply verify_bound in Eb1 as [-> Hbb]. apply lift_Ok in Eb as [Eb ->].
  unfold restore_evidence in Er. destruct (given (restore_result a) _) as [[rp' rc]|]; [|by apply ret_Ok in Er as [<- _]].
  apply M_bind_Ok in Er as (rd & w6 & Er1 & Er). apply verify_bound in Er1 as [-> Hrb]. apply lift_Ok in Er as [Er ->].
  exists w1, state, mv, version, bd, rd, bp, bc, rp', rc. do 7 (split; [done|]).
  split; [by eapply judge_backup_passed|]. do 2 (split; [done|]). by eapply judge_restore_passed.
Qed.
End Status.
End RecoveryStatusSpec.

(** ** Concrete runs *)

Module RecoveryStatusRun.
Import Fixture RecoveryStatus RecoveryStatusSpec.

Definition revision : string := "0123456789abcdef0123456789abcdef01234567".
Definition backup : string := json (VDict [("recoveryReady", VBool true); ("migrationVersion", VInt 9);
  ("observedAt", VStr "2026-07-14T05:00:00Z"); ("latestBackup", VDict [("ageSeconds", VInt 3600)]);
  ("archive", VDict [("lastArchivedAt", VStr "2026-07-14T04:59:00Z"); ("secondsSinceLastArchive", VInt 60);
     ("failedCount", VInt 0)])]).
Definition restore : string := json (VDict [("finishedAt", VStr "2026-07-14T04:00:00Z"); ("durationSeconds", VInt 900);
  ("success", VBool true);
  ("checks", VList [VDict [("name", VStr "migration-version"); ("passed", VBool true); ("actual", VStr "9")]])]).
Definition w0 : world := world_with [("/run/state.json", json (VDict [("migrationVersion", VInt 9)]));
  ("/run/backup.json", backup); ("/run/backup.sha256", Sha256.hexdigest backup +:+ "  backup.json");
  ("/run/restore.json", restore); ("/run/restore.sha256", Sha256.hexdigest restore);
  ("/repo/contracts/database/recovery-status-v1.schema.json", "{}");
  ("/repo/contracts/platform/database-backup-status-v0.schema.json", "{}");
  ("/repo/contracts/platform/database-restore-result-v0.schema.json", "{}")].
Definition the_args : args := Args (Path.of_str "/run/state.json") revision "r2" (Some "/run/backup.json")
  (Some "/run/backup.sha256") (Some "/run/restore.json") (Some "/run/restore.sha256") (Some revision) None.

Lemma recovery_status_passed_witness : let host := quiet_host in let a := the_args in let w := w0 in
  valid_revision (source_revision a) = true /\ restored_source_revision a = Some (source_revision a) /\
    exists w1 state mv version backup restore bp bc rp rc, fs w1 = fs w /\
      load (database_state a) w1 = (Ok state, w1) /\
      dget_or state "migrationVersion" (VInt 0) = Ok mv /\ py_int mv = Ok version /\ 8 <= version /\
      given (backup_status a) (backup_status_checksum a) = Some (bp, bc) /\ bound w1 bp bc BACKUP_SCHEMA backup /\
      backup_shown backup /\
      given (restore_result a) (restore_result_checksum a) = Some (rp, rc) /\ bound w1 rp rc RESTORE_SCHEMA restore /\
      restore_shown restore.
Proof.
  intros host a w. apply (recovery_status_passed (H := host) a w).
  assert ((main (H := host) a w).1 = Ok 0) as E by (vm_compute; reflexivity). exact E.
Defined.
End RecoveryStatusRun.
