(* ===== verification/Capacity.v ===== *)
(** * scripts/operations/check_capacity.py

    The capacity of the single node: the budgets of the providers summed
    against the limits of the envelope, and the database connections they
    reserve and demand. *)

From S2P Require Import Prelude PyFloat PyMonad PyValue PyTime PyJson PyOs OsFacts Fixture.

Module Capacity.

Definition EPSILON : pyfloat := Eval vm_compute in Flt.of_dec 1 (-9).
Definition REQUIRED_PROVIDERS : list string := ["infrastructure"; "database"; "runtime"; "operations"].
Definition RESOURCE_KEYS : list string := ["ocpu"; "memory_mib"; "disk_gib"].

(** The totals of a kind: the memory is an integer, the two others are floats. *)
Record totals := Totals { ocpu : pyfloat; memory_mib : Z; disk_gib : pyfloat; postgres_connections : Z }.

Definition empty_totals : totals := Totals (Flt.of_Z 0) 0 (Flt.of_Z 0) 0.

Definition rounded (t : totals) : totals :=
  Totals (Flt.round_to 6 (ocpu t)) (memory_mib t) (Flt.round_to 6 (disk_gib t)) (postgres_connections t).

(** [totals[key]] for a resource key *)
Definition total_of (t : totals) (key : string) : val :=
  if String.eqb key "ocpu" then VFloat (ocpu t)
  else if String.eqb key "memory_mib" then VInt (memory_mib t) else VFloat (disk_gib t).

(** [totals[key] += float(v) if key != "memory_mib" else int(v)] *)
Definition add_total (t : totals) (key : string) (v : val) : res totals :=
  if String.eqb key "memory_mib" then
    z ← py_int v; Ok (Totals (ocpu t) (memory_mib t + z) (disk_gib t) (postgres_connections t))
  else
    f ← py_float v;
    Ok (if String.eqb key "ocpu"
        then Totals (Flt.add (ocpu t) f) (memory_mib t) (disk_gib t) (postgres_connections t)
        else Totals (ocpu t) (memory_mib t) (Flt.add (disk_gib t) f) (postgres_connections t)).

(** [float(a) > float(b) + EPSILON] *)
Definition exceeds (a b : val) : res bool :=
  x ← py_float a; y ← py_float b;
  Ok match Flt.compare (Flt.add y EPSILON) x with Some Lt => true | _ => false end.

(** [float(h) + EPSILON < float(s)] *)
Definition below_steady (h s : val) : res bool :=
  x ← py_float h; y ← py_float s;
  Ok match Flt.compare (Flt.add x EPSILON) y with Some Lt => true | _ => false end.

Record st := St {
  failures : list string; providers : list val; steady_totals : totals; hard_totals : totals;
  components : list val; server_reservation : Z; pooled_server_capacity : Z; direct_reserved_capacity : Z;
  pooled_runtime_demand : Z
}.
Definition initial : st := St [] [] empty_totals empty_totals [] 0 0 0 0.

Definition fail_with (m : string) (s : st) : st :=
  St (failures s ++ [m]) (providers s) (steady_totals s) (hard_totals s) (components s) (server_reservation s)
     (pooled_server_capacity s) (direct_reserved_capacity s) (pooled_runtime_demand s).

(** The body of [for key in RESOURCE_KEYS]. *)
Definition resource_step (provider component steady hard : val) (s : st) (key : string) : res st :=
  h ← getitem hard key; x ← getitem steady key; low ← below_steady h x;
  s ← (if low : bool then
         n ← getitem component "name";
         Ok (fail_with (py_str provider +:+ "/" +:+ py_str n +:+ ": hard " +:+ key +:+ " is below steady-state") s)
       else Ok s);
  st' ← add_total (steady_totals s) key x;
  ht' ← add_total (hard_totals s) key h;
  Ok (St (failures s) (providers s) st' ht' (components s) (server_reservation s) (pooled_server_capacity s)
         (direct_reserved_capacity s) (pooled_runtime_demand s)).

(** The connections of a component, by the kind of its provider. *)
Definition account (provider class : val) (c : Z) (s : st) : st :=
  if py_eq provider (VStr "database") then
    if py_eq class (VStr "pooler") then
      St (failures s) (providers s) (steady_totals s) (hard_totals s) (components s) (server_reservation s + c)
         (pooled_server_capacity s + c) (direct_reserved_capacity s) (pooled_runtime_demand s)
    else
      St (failures s) (providers s) (steady_totals s) (hard_totals s) (components s) (server_reservation s + c)
         (pooled_server_capacity s) (direct_reserved_capacity s + c) (pooled_runtime_demand s)
  else St (failures s) (providers s) (steady_totals s) (hard_totals s) (components s) (server_reservation s)
         (pooled_server_capacity s) (direct_reserved_capacity s) (pooled_runtime_demand s + c).

(** [{key: v[key] for key in RESOURCE_KEYS}] *)
Definition resources (v : val) : res val :=
  l ← rmap (λ k, x ← getitem v k; Ok (k, x)) RESOURCE_KEYS; Ok (VDict l).

Definition component_record (provider component steady hard : val) (c : Z) : res val :=
  name ← getitem component "name"; s ← resources steady; h ← resources hard;
  o ← getitem hard "ocpu"; m ← getitem hard "memory_mib"; d ← getitem hard "disk_gib";
  Ok (VDict [("provider", provider); ("name", name); ("steady_state", s); ("hard_limit", h); ("ocpu", o);
             ("memory_mib", m); ("disk_gib", d); ("postgres_connections", VInt c)]).

Definition component_class (provider component : val) : res val :=
  if py_eq provider (VStr "database") then dget component "class" else Ok VNone.

(** The body of [for component in budget.get("components", [])]. *)
Definition component_step (provider : val) (s : st) (component : val) : res st :=
  enabled ← dget component "default_enabled";
  if negb (truthy enabled) then Ok s
  else
    steady ← getitem component "steady_state";
    hard ← getitem component "hard_limit";
    s ← rfold (resource_step provider component steady hard) s RESOURCE_KEYS;
    c ← getitem component "postgres_connections"; c ← py_int c;
    class ← component_class provider component;
    let s := account provider class c s in
    r ← component_record provider component steady hard c;
    Ok (St (failures s) (providers s) (steady_totals s) (hard_totals s) (components s ++ [r]) (server_reservation s)
           (pooled_server_capacity s) (direct_reserved_capacity s) (pooled_runtime_demand s)).

(** [providers.add(provider)] *)
Definition add_provider (provider : val) (s : st) : st :=
  if py_in provider (providers s) then s
  else St (failures s) (providers s ++ [provider]) (steady_totals s) (hard_totals s) (components s)
          (server_reservation s) (pooled_server_capacity s) (direct_reserved_capacity s) (pooled_runtime_demand s).

(** A budget that has been read, with its errors, taken into account. *)
Definition take_budget (p : path) (errors : list (list val * string)) (s : st) (budget : val) : res st :=
  let s := fold_left (λ s e, fail_with (Path.to_str p +:+ ": " +:+ dotted e.1 +:+ ": " +:+ e.2) s) errors s in
  provider ← dget budget "provider";
  seen ← in_set provider (providers s);
  let s := if seen : bool then fail_with ("duplicate provider budget: " +:+ py_str provider) s else s in
  let s := add_provider provider s in
  cs ← dget_or budget "components" (VList []); cs ← py_iter cs;
  rfold (component_step provider) s cs.

(** [REQUIRED_PROVIDERS - providers], as the text of the failure *)
Definition missing_providers (s : st) : list string :=
  sort_strings (List.filter (λ r, negb (py_in (VStr r) (providers s))) REQUIRED_PROVIDERS).

(** The totals as they are compared and reported. *)
Definition close (s : st) : st :=
  let a := steady_totals s in let h := hard_totals s in
  St (failures s) (providers s)
     (rounded (Totals (ocpu a) (memory_mib a) (disk_gib a) (pooled_runtime_demand s)))
     (rounded (Totals (ocpu h) (memory_mib h) (disk_gib h) (server_reservation s)))
     (components s) (server_reservation s) (pooled_server_capacity s) (direct_reserved_capacity s)
     (pooled_runtime_demand s).

(** A comparison of a total, or of a limit, with a bound, for each resource. *)
Definition compare_all (text : string -> string -> string -> string) (a : string -> res val) (b : string -> res val)
  (keys : list string) : res (list string) :=
  l ← rmap (λ k, x ← a k; y ← b k; over ← exceeds x y;
            Ok (if over : bool then [text k (py_str x) (py_str y)] else [])) keys;
  Ok (concat l).

Definition available (envelope : val) : res (string -> val) :=
  host ← getitem envelope "host"; reserved ← getitem envelope "reserved";
  a ← getitem host "ocpu"; a ← py_float a; b ← getitem reserved "ocpu"; b ← py_float b;
  m ← getitem host "memory_mib"; m ← py_int m; n ← getitem reserved "memory_mib"; n ← py_int n;
  d ← getitem host "combined_storage_gib"; d ← py_float d; e ← getitem reserved "disk_gib"; e ← py_float e;
  Ok (λ key, if String.eqb key "ocpu" then VFloat (Flt.sub a b)
             else if String.eqb key "memory_mib" then VInt (m - n) else VFloat (Flt.sub d e)).

Definition steady_text (k x y : string) : string :=
  "steady-state capacity exceeded for " +:+ k +:+ ": declared=" +:+ x +:+ " limit=" +:+ y.
Definition hard_reserve_text (k x y : string) : string :=
  "provider hard limit consumes host reserve for " +:+ k +:+ ": limit=" +:+ x +:+ " available=" +:+ y.
Definition steady_reserve_text (k x y : string) : string :=
  "steady-state limit consumes host reserve for " +:+ k +:+ ": limit=" +:+ x +:+ " available=" +:+ y.
Definition ceiling_text (k x y : string) : string :=
  "hard ceiling exceeded for " +:+ k +:+ ": declared=" +:+ x +:+ " limit=" +:+ y.

(** The failures of the totals against the envelope, in the order of the code. *)
Definition envelope_failures (s : st) (envelope : val) : res (list string) :=
  steady_limits ← getitem envelope "steady_state_limit";
  f1 ← compare_all steady_text (λ k, Ok (total_of (steady_totals s) k)) (getitem steady_limits) RESOURCE_KEYS;
  hard_limits ← getitem envelope "provider_hard_limit";
  av ← available envelope;
  f2 ← rmap (λ k,
         a ← compare_all hard_reserve_text (getitem hard_limits) (λ k, Ok (av k)) [k];
         b ← compare_all steady_reserve_text (getitem steady_limits) (λ k, Ok (av k)) [k];
         Ok (a ++ b)) RESOURCE_KEYS;
  f3 ← compare_all ceiling_text (λ k, Ok (total_of (hard_totals s) k)) (getitem hard_limits) RESOURCE_KEYS;
  limit ← getitem hard_limits "postgres_connections";
  over ← py_gt (VInt (server_reservation s)) limit;
  Ok (f1 ++ concat f2 ++ f3 ++
      (if over : bool then ["PostgreSQL server reservation exceeded: declared=" +:+ Str.of_Z (server_reservation s)
                            +:+ " limit=" +:+ py_str limit] else []) ++
      (if pooled_server_capacity s <? pooled_runtime_demand s
       then ["pooled runtime demand exceeds PgBouncer server capacity: demand=" +:+ Str.of_Z (pooled_runtime_demand s)
             +:+ " capacity=" +:+ Str.of_Z (pooled_server_capacity s)] else [])).

(** The connection budget of the database contract. *)
Record budget := Budget { postgres_max : Z; runtime_server : Z; operational_pool : Z; direct_admin : Z; headroom : Z }.

Definition read_int (v : val) (k : string) : res Z := x ← getitem v k; py_int x.
Definition connection_budget (contract : val) : res budget :=
  b ← getitem contract "connectionBudget";
  limit ← read_int b "postgresMaxConnections";
  runtime ← read_int b "runtimeServerConnections";
  operational ← read_int b "operationalPoolConnections";
  direct ← read_int b "directAdministrativeConnections";
  head ← read_int b "reservedHeadroom";
  Ok (Budget limit runtime operational direct head).

Definition pair_text (a b : string) (x y : Z) : string := a +:+ "=" +:+ Str.of_Z x +:+ " " +:+ b +:+ "=" +:+ Str.of_Z y.

Definition connection_failures (s : st) (b : budget) : list string :=
  let expected_pooled := runtime_server b + operational_pool b in
  unless (expected_pooled + direct_admin b + headroom b =? postgres_max b)
    "database connection contract does not partition postgresMaxConnections" ++
  unless (pooled_server_capacity s =? expected_pooled)
    ("PgBouncer server reservation mismatch: "
     +:+ pair_text "declared" "expected" (pooled_server_capacity s) expected_pooled) ++
  unless (pooled_runtime_demand s =? runtime_server b)
    ("runtime pooled demand mismatch: " +:+ pair_text "declared" "expected" (pooled_runtime_demand s) (runtime_server b)) ++
  unless (direct_reserved_capacity s =? direct_admin b)
    ("direct administrative/recovery reservation mismatch: "
     +:+ pair_text "declared" "expected" (direct_reserved_capacity s) (direct_admin b)) ++
  unless (server_reservation s + headroom b =? postgres_max b)
    ("PostgreSQL reservation plus headroom mismatch: "
     +:+ pair_text "reservation" "headroom" (server_reservation s) (headroom b)
     +:+ " limit=" +:+ Str.of_Z (postgres_max b)) ++
  unless (server_reservation s <=? postgres_max b)
    ("PostgreSQL server reservation exceeds max_connections: "
     +:+ pair_text "reservation" "limit" (server_reservation s) (postgres_max b)).

Definition totals_val (t : totals) : val :=
  VDict [("ocpu", VFloat (ocpu t)); ("memory_mib", VInt (memory_mib t)); ("disk_gib", VFloat (disk_gib t));
         ("postgres_connections", VInt (postgres_connections t))].

Definition component_key (c : val) : val :=
  let text k := match getitem c k with Ok v => py_str v | Raise _ => "" end in
  VList [VStr (text "provider"); VStr (text "name")].

Definition report (s : st) (envelope : val) (all : list string) : res val :=
  cs ← py_sorted_by component_key (components s);
  Ok (VDict [("schema_version", VStr "capacity-result-v0");
    ("status", VStr (if bool_decide (all = []) then "passed" else "failed"));
    ("envelope", envelope); ("totals", totals_val (hard_totals s));
    ("steady_state_totals", totals_val (steady_totals s)); ("hard_limit_totals", totals_val (hard_totals s));
    ("postgres_connection_accounting", VDict [
      ("server_reservation", VInt (server_reservation s)); ("pooled_server_capacity", VInt (pooled_server_capacity s));
      ("pooled_runtime_demand", VInt (pooled_runtime_demand s));
      ("direct_reserved_capacity", VInt (direct_reserved_capacity s))]);
    ("components", VList cs); ("failures", VStrs all)]).

Section Env.
Context `{Platform}.

Definition load (p : path) : IO val := load_json p.

Record args := Args { budgets : list path; a_schema : path; a_envelope : path; database_contract : path;
                      output : option path }.

(** The body of [for path in args.budgets]. *)
Definition budget_step (schema : val) (s : st) (p : path) : IO st :=
  b ← load p; errors ← lift (sorted_errors schema b); lift (take_budget p errors s b).

(** The failures once every budget has been read. *)
Definition judge (s : st) (envelope contract : val) : res (list string) :=
  let missing := missing_providers s in
  e ← envelope_failures s envelope;
  b ← connection_budget contract;
  Ok (failures s ++
      (if bool_decide (missing = []) then [] else ["missing provider budgets: " +:+ Str.join ", " missing]) ++
      e ++ connection_failures s b).

Definition main (a : args) : IO Z :=
  schema ← load (a_schema a);
  envelope ← load (a_envelope a);
  contract ← load (database_contract a);
  s ← mfold (budget_step schema) initial (budgets a);
  let s := close s in
  all ← lift (judge s envelope contract);
  r ← lift (report s envelope all);
  match output a with Some p => write_document p r | None => mret tt end ;;
  print (Json.dumps Json.pretty r) ;;
  mret (if bool_decide (all = []) then 0 else 1).
End Env.
End Capacity.

Module CapacitySpec.
Import Capacity.

(** ** What the rows of the budgets say: a row is an enabled component and its provider *)

Definition row : Type := val * val.
Definition database (x : row) : bool := py_eq x.1 (VStr "database").
Definition pooler (x : row) : bool := match dget x.2 "class" with Ok c => py_eq c (VStr "pooler") | Raise _ => false end.
Definition connections (x : row) : res Z := read_int x.2 "postgres_connections".
Definition conn (x : row) : Z := match connections x with Ok z => z | Raise _ => 0 end.
Definition resource (x : row) (kind key : string) : res val := item x.2 [kind; key].
Definition memory (x : row) (kind : string) : Z :=
  match v ← resource x kind "memory_mib"; py_int v with Ok z => z | Raise _ => 0 end.

(** A hard limit that is no lower than the steady state. *)
Definition fits (x : row) : Prop :=
  forall key, key ∈ RESOURCE_KEYS -> exists h s,
    resource x "hard_limit" key = Ok h /\ resource x "steady_state" key = Ok s /\ below_steady h s = Ok false.

Definition enabled (c : val) : res bool := e ← dget c "default_enabled"; Ok (truthy e).
Definition rows_of (budget : val) : res (list row) :=
  provider ← dget budget "provider"; cs ← dget_or budget "components" (VList []); cs ← py_iter cs;
  cs ← rfilter enabled cs; Ok (map (pair provider) cs).

Definition reserved (x : row) : Z := if database x then conn x else 0.
Definition pooled (x : row) : Z := if database x && pooler x then conn x else 0.
Definition direct (x : row) : Z := if database x && negb (pooler x) then conn x else 0.
Definition demanded (x : row) : Z := if database x then 0 else conn x.

(** The accumulators are the sums over the rows taken into account. *)
Record counted (rows : list row) (s : st) : Prop := {
  k_reserved : server_reservation s = zsum reserved rows;
  k_pooled : pooled_server_capacity s = zsum pooled rows;
  k_direct : direct_reserved_capacity s = zsum direct rows;
  k_demand : pooled_runtime_demand s = zsum demanded rows;
  k_steady : memory_mib (steady_totals s) = zsum (λ x, memory x "steady_state") rows;
  k_hard : memory_mib (hard_totals s) = zsum (λ x, memory x "hard_limit") rows;
  k_conn : Forall (λ x, exists z, connections x = Ok z) rows;
  k_fits : failures s = [] -> Forall fits rows
}.

(** Only the failures and the totals differ. *)
Definition same_counts (s s' : st) : Prop :=
  providers s' = providers s /\ server_reservation s' = server_reservation s /\
  pooled_server_capacity s' = pooled_server_capacity s /\
  direct_reserved_capacity s' = direct_reserved_capacity s /\ pooled_runtime_demand s' = pooled_runtime_demand s.

(** A step adds failures and removes none. *)
Definition fails_more (s s' : st) : Prop := failures s' = [] -> failures s = [].
#[export] Instance fails_more_preorder : PreOrder fails_more.
Proof. unfold fails_more. split; [by intros s|]. intros a b c. auto. Qed.

Lemma fail_with_not_nil m s : failures (fail_with m s) <> [].
Proof. simpl. by destruct (failures s). Qed.

Definition mem_int (key : string) (v : val) : Z :=
  if String.eqb key "memory_mib" then match py_int v with Ok z => z | Raise _ => 0 end else 0.

Lemma add_total_memory t key v t' : add_total t key v = Ok t' -> memory_mib t' = memory_mib t + mem_int key v.
Proof.
  unfold add_total, mem_int. destruct (String.eqb key "memory_mib"); intros E;
    apply bind_Ok in E as (z & Ez & E); injection E as <-; simpl.
  - by rewrite Ez.
  - destruct (String.eqb key "ocpu"); simpl; lia.
Qed.

Lemma resource_step_Ok provider component steady hard s key s' :
  resource_step provider component steady hard s key = Ok s' ->
  exists h x low, getitem hard key = Ok h /\ getitem steady key = Ok x /\ below_steady h x = Ok low /\
    same_counts s s' /\ fails_more s s' /\ (failures s' = [] -> low = false) /\
    memory_mib (steady_totals s') = memory_mib (steady_totals s) + mem_int key x /\
    memory_mib (hard_totals s') = memory_mib (hard_totals s) + mem_int key h.
Proof.
  unfold resource_step. intros E. apply bind_Ok in E as (h & Eh & E). apply bind_Ok in E as (x & Ex & E).
  apply bind_Ok in E as (low & El & E). apply bind_Ok in E as (s1 & E1 & E).
  apply bind_Ok in E as (t1 & Et & E). apply bind_Ok in E as (t2 & Et2 & E). injection E as <-.
  apply add_total_memory in Et, Et2. exists h, x, low. do 3 (split; [done|]).
  destruct low; [apply bind_Ok in E1 as (n & _ & E1)|]; injection E1 as <-; simpl in *.
  - split; [done|]. unfold fails_more. simpl. split; [|split; [|done]]; by intros [_ ?]%app_eq_nil.
  - split; [done|]. split; [|done]. by unfold fails_more.
Qed.

(** The three resources of an enabled component. *)
Lemma resources_Ok provider component steady hard s s' :
  getitem component "steady_state" = Ok steady -> getitem component "hard_limit" = Ok hard ->
  rfold (resource_step provider component steady hard) s RESOURCE_KEYS = Ok s' ->
  same_counts s s' /\ fails_more s s' /\ (failures s' = [] -> fits (provider, component)) /\
  memory_mib (steady_totals s') = memory_mib (steady_totals s) + memory (provider, component) "steady_state" /\
  memory_mib (hard_totals s') = memory_mib (hard_totals s) + memory (provider, component) "hard_limit".
Proof.
  intros Hs Hh E. unfold RESOURCE_KEYS in E. cbn [rfold] in E.
  apply bind_Ok in E as (s1 & E1 & E). apply bind_Ok in E as (s2 & E2 & E). apply bind_Ok in E as (s3 & E3 & E).
  injection E as ->.
  apply resource_step_Ok in E1 as (h1 & x1 & l1 & Eh1 & Ex1 & El1 & C1 & F1 & N1 & M1 & M1').
  apply resource_step_Ok in E2 as (h2 & x2 & l2 & Eh2 & Ex2 & El2 & C2 & F2 & N2 & M2 & M2').
  apply resource_step_Ok in E3 as (h3 & x3 & l3 & Eh3 & Ex3 & El3 & C3 & F3 & N3 & M3 & M3').
  unfold fails_more in *. split; [unfold same_counts in *; intuition congruence|]. split; [auto|].
  assert (forall k v, getitem hard k = Ok v -> resource (provider, component) "hard_limit" k = Ok v) as Rh
    by (intros k v Hv; unfold resource; simpl; rewrite Hh; simpl; by rewrite Hv).
  assert (forall k v, getitem steady k = Ok v -> resource (provider, component) "steady_state" k = Ok v) as Rs
    by (intros k v Hv; unfold resource; simpl; rewrite Hs; simpl; by rewrite Hv).
  split.
  - intros Hf key Hk. unfold RESOURCE_KEYS in Hk.
    rewrite !elem_of_cons, elem_of_nil in Hk. destruct Hk as [->|[->|[->|[]]]].
    + exists h1, x1. rewrite (N1 (F2 (F3 Hf))) in El1. auto.
    + exists h2, x2. rewrite (N2 (F3 Hf)) in El2. auto.
    + exists h3, x3. rewrite (N3 Hf) in El3. auto.
  - unfold memory. rewrite (Rs _ _ Ex2), (Rh _ _ Eh2). cbn [mbind res_bind].
    rewrite M3, M2, M1, M3', M2', M1'. unfold mem_int. cbn [String.eqb Ascii.eqb Bool.eqb]. lia.
Qed.

Lemma zsum_one {A} (f : A -> Z) x : zsum f [x] = f x.
Proof. unfold zsum. simpl. lia. Qed.

Lemma account_counts provider component class c s :
  conn (provider, component) = c ->
  (database (provider, component) = true -> pooler (provider, component) = py_eq class (VStr "pooler")) ->
  let x := (provider, component) in let s' := account provider class c s in
  server_reservation s' = server_reservation s + reserved x /\
  pooled_server_capacity s' = pooled_server_capacity s + pooled x /\
  direct_reserved_capacity s' = direct_reserved_capacity s + direct x /\
  pooled_runtime_demand s' = pooled_runtime_demand s + demanded x /\
  steady_totals s' = steady_totals s /\ hard_totals s' = hard_totals s.
Proof.
  intros Hc Hp x s'. subst x s'. unfold reserved, pooled, direct, demanded, account. rewrite Hc.
  unfold database in *. cbn [fst] in *. destruct (py_eq provider (VStr "database")) eqn:Ed.
  - rewrite (Hp eq_refl). destruct (py_eq class (VStr "pooler")); cbn; repeat split; lia.
  - cbn. repeat split; lia.
Qed.

(** A component: a row of its own when it is enabled, nothing otherwise. *)
Lemma component_step_Ok provider rows s component s' :
  counted rows s -> component_step provider s component = Ok s' ->
  providers s' = providers s /\ fails_more s s' /\
  exists e, enabled component = Ok e /\ counted (rows ++ if e then [(provider, component)] else []) s'.
Proof.
  intros [K1 K2 K3 K4 K5 K6 K7 K8] E. unfold component_step in E. apply bind_Ok in E as (e & Ee & E).
  assert (enabled component = Ok (truthy e)) as Hen by (unfold enabled; by rewrite Ee).
  destruct (truthy e); cbn [negb] in E.
  2:{ injection E as <-. split; [done|]. split; [done|]. exists false. split; [done|]. rewrite app_nil_r. by constructor. }
  apply bind_Ok in E as (steady & Es & E). apply bind_Ok in E as (hard & Eh & E).
  apply bind_Ok in E as (s1 & E1 & E). apply bind_Ok in E as (cv & Ecv & E). apply bind_Ok in E as (c & Ec & E).
  apply bind_Ok in E as (class & Ecl & E). apply bind_Ok in E as (r & _ & E). injection E as <-.
  destruct (resources_Ok _ _ _ _ _ _ Es Eh E1) as ((P1 & P2 & P3 & P4 & P5) & F & Hfits & M & M').
  assert (connections (provider, component) = Ok c) as Hc by (unfold connections, read_int; simpl; by rewrite Ecv).
  assert (conn (provider, component) = c) as Hcn by (unfold conn; by rewrite Hc).
  assert (failures (account provider class c s1) = failures s1) as Hfa by (unfold account; by repeat case_match).
  split; [simpl; unfold account; by repeat case_match|]. split; [unfold fails_more in *; simpl; by rewrite Hfa|].
  exists true. split; [done|].
  assert (database (provider, component) = true -> pooler (provider, component) = py_eq class (VStr "pooler")) as Hp.
  { unfold database, pooler. simpl. unfold component_class in Ecl. intros Hd. rewrite Hd in Ecl. by rewrite Ecl. }
  destruct (account_counts provider component class c s1 Hcn Hp) as (A1 & A2 & A3 & A4 & A5 & A6).
  split; rewrite ?zsum_app, ?zsum_one; cbn [server_reservation pooled_server_capacity direct_reserved_capacity
    pooled_runtime_demand steady_totals hard_totals failures]; rewrite ?A1, ?A2, ?A3, ?A4, ?A5, ?A6, ?Hfa; try lia.
  - apply Forall_app. split; [done|]. constructor; [by exists c|constructor].
  - intros Hf. apply Forall_app. split; [by apply K8, F|]. constructor; [by apply Hfits|constructor].
Qed.

Lemma components_Ok provider cs : forall rows s s', counted rows s ->
  rfold (component_step provider) s cs = Ok s' ->
  providers s' = providers s /\ fails_more s s' /\
  exists kept, rfilter enabled cs = Ok kept /\ counted (rows ++ map (pair provider) kept) s'.
Proof.
  induction cs as [|c cs IH]; intros rows s s' K E; simpl in E.
  - injection E as <-. split; [done|]. split; [done|]. exists []. split; [done|]. by rewrite app_nil_r.
  - apply bind_Ok in E as (s1 & E1 & E).
    destruct (component_step_Ok _ _ _ _ _ K E1) as (P1 & F1 & e & Ee & K1).
    destruct (IH _ _ _ K1 E) as (P2 & F2 & kept & Ek & K2).
    split; [congruence|]. split; [by etrans|].
    exists (if e then c :: kept else kept). simpl. rewrite Ee. cbn [mbind res_bind]. rewrite Ek.
    split; [done|]. rewrite <-app_assoc in K2. by destruct e.
Qed.

Lemma counted_weaken rows s s' : counted rows s -> same_counts s s' -> steady_totals s' = steady_totals s ->
  hard_totals s' = hard_totals s -> fails_more s s' -> counted rows s'.
Proof.
  intros [K1 K2 K3 K4 K5 K6 K7 K8] (P & C1 & C2 & C3 & C4) Hs Hh F.
  split; rewrite ?Hs, ?Hh, ?C1, ?C2, ?C3, ?C4; auto.
Qed.

Lemma fail_all_Ok {A} (text : A -> string) l : forall s, let s' := fold_left (λ s e, fail_with (text e) s) l s in
  same_counts s s' /\ steady_totals s' = steady_totals s /\ hard_totals s' = hard_totals s /\ fails_more s s' /\
  (failures s' = [] -> l = []).
Proof.
  induction l as [|x l IH]; intros s; simpl; [done|].
  destruct (IH (fail_with (text x) s)) as (C & Hs & Hh & F & _). split; [done|]. split; [done|]. split; [done|].
  unfold fails_more in *. split; intros Hf; apply F in Hf; by destruct (fail_with_not_nil (text x) s).
Qed.

Lemma take_budget_Ok p errors rows s budget s' : counted rows s -> take_budget p errors s budget = Ok s' ->
  fails_more s s' /\ exists provider r, dget budget "provider" = Ok provider /\ rows_of budget = Ok r /\
    counted (rows ++ r) s' /\
    (failures s' = [] -> errors = [] /\ py_in provider (providers s) = false /\
                         providers s' = providers s ++ [provider]).
Proof.
  intros K E. unfold take_budget in E. revert E.
  destruct (fail_all_Ok (λ e, Path.to_str p +:+ ": " +:+ dotted e.1 +:+ ": " +:+ e.2) errors s) as (C & Hs & Hh & F & Hn).
  generalize dependent (fold_left (λ s e, fail_with (Path.to_str p +:+ ": " +:+ dotted e.1 +:+ ": " +:+ e.2) s) errors s).
  intros s1 C Hs Hh F Hn E. assert (providers s1 = providers s) as Hp1 by apply C.
  apply (counted_weaken _ _ _ K C Hs Hh) in F as K1. clear K C Hs Hh.
  apply bind_Ok in E as (provider & Ep & E). apply bind_Ok in E as (seen & Esn & E).
  unfold in_set in Esn. apply bind_Ok in Esn as (u & _ & Esn). injection Esn as Esn.
  set (s2 := if seen then _ else _) in E.
  assert (counted rows s2 /\ fails_more s1 s2 /\ providers s2 = providers s1 /\ (failures s2 = [] -> seen = false))
    as (K2 & F2 & Hp2 & Hseen).
  { subst s2. destruct seen; [|done]. split; [|split; [|split]].
    - apply (counted_weaken _ _ _ K1); [done..|]. intros Hf. destruct (fail_with_not_nil _ _ Hf).
    - intros Hf. destruct (fail_with_not_nil _ _ Hf).
    - done.
    - by intros ?%fail_with_not_nil. }
  clearbody s2. apply bind_Ok in E as (cv & Ecv & E). apply bind_Ok in E as (cs & Ecs & E).
  assert (counted rows (add_provider provider s2)) as K3.
  { unfold add_provider. destruct (py_in provider (providers s2)); [exact K2|]. destruct K2; split; assumption. }
  assert (fails_more s2 (add_provider provider s2)) as F3
    by (unfold fails_more, add_provider; by destruct (py_in provider (providers s2))).
  destruct (components_Ok _ _ _ _ _ K3 E) as (P4 & F4 & kept & Ek & K4).
  assert (fails_more s s') as Fall by (unfold fails_more in *; auto). split; [done|].
  exists provider, (map (pair provider) kept). split; [done|]. split.
  { unfold rows_of. rewrite Ep. cbn [mbind res_bind]. rewrite Ecv. cbn [mbind res_bind]. rewrite Ecs.
    cbn [mbind res_bind]. by rewrite Ek. }
  split; [done|]. intros Hf. unfold fails_more in *.
  assert (seen = false) as -> by auto. rewrite <-Hp1, Esn.
  split; [by auto|]. split; [done|]. rewrite P4. unfold add_provider. by rewrite Hp2, Esn.
Qed.

(** ** The whole run *)

Section Run.
Context `{Platform} (a : args).

Definition named_once (ps : list val) : Prop :=
  forall s : string, (length (List.filter (py_eq (VStr s)) ps) <= 1)%nat.

Lemma named_once_app ps p : named_once ps -> py_in p ps = false -> named_once (ps ++ [p]).
Proof.
  intros Hn Hp s. rewrite List.filter_app, length_app. cbn [List.filter]. specialize (Hn s).
  destruct (py_eq (VStr s) p) eqn:E; cbn [length]; [|lia]. apply py_eq_str_l in E as ->.
  assert (List.filter (py_eq (VStr s)) ps = []) as ->; [|cbn [length]; lia].
  apply filter_nil_iff, Forall_forall. intros x Hx. destruct (py_eq (VStr s) x) eqn:E; [|done].
  unfold py_in in Hp. assert (existsb (py_eq (VStr s)) ps = true) as Hc; [|congruence].
  apply existsb_exists. exists x. split; [by apply list_elem_of_In|done].
Qed.

(** The budgets read so far and what they say. *)
Definition read_budgets (schema : val) (w : world) (ps : list path) (s : st) : Prop :=
  exists bs rs, Forall2 (λ p b, load p w = (Ok b, w)) ps bs /\ Forall2 (λ b r, rows_of b = Ok r) bs rs /\
    counted (concat rs) s /\
    (failures s = [] -> Forall (λ b, sorted_errors schema b = Ok []) bs /\ named_once (providers s) /\
                        Forall2 (λ b p, dget b "provider" = Ok p) bs (providers s)).

Lemma ro_load_budget p : Pres eq (load p).
Proof. apply ro_load_json. Qed.
#[local] Hint Resolve ro_load_budget : pres.
Lemma ro_budget_step schema s p : Pres eq (budget_step schema s p).
Proof. unfold budget_step. solve_pres. Qed.

Lemma budget_step_Ok schema w ps s p s' : read_budgets schema w ps s -> budget_step schema s p w = (Ok s', w) ->
  read_budgets schema w (ps ++ [p]) s'.
Proof.
  intros (bs & rs & Hb & Hr & K & Hf) E. unfold budget_step in E.
  apply M_bind_Ok in E as (b & w1 & E1 & E). same_world E1.
  apply M_bind_Ok in E as (errors & w1 & E2 & E). apply lift_Ok in E2 as [E2 ->]. apply lift_Ok in E as [E _].
  destruct (take_budget_Ok _ _ _ _ _ _ K E) as (F & provider & r & Ep & Er & K' & Hn).
  exists (bs ++ [b]), (rs ++ [r]). split; [by apply Forall2_app; [|constructor]|].
  split; [by apply Forall2_app; [|constructor]|]. split; [by rewrite concat_app; simpl; rewrite app_nil_r|].
  intros Hf'. destruct (Hf (F Hf')) as (H1 & H2 & H3). destruct (Hn Hf') as (-> & Hin & ->).
  split; [apply Forall_app; split; [done|by constructor]|]. split; [by apply named_once_app|].
  by apply Forall2_app; [|constructor].
Qed.

Lemma compare_all_nil text x y keys : compare_all text x y keys = Ok [] ->
  Forall (λ k, exists u v, x k = Ok u /\ y k = Ok v /\ exceeds u v = Ok false) keys.
Proof.
  unfold compare_all. intros E. apply bind_Ok in E as (l & E & En). injection En as En.
  apply rmap_Ok in E. induction E as [|k r keys l Hk E IH]; [constructor|].
  apply app_eq_nil in En as [Er En]. constructor; [|by apply IH]. subst r.
  apply bind_Ok in Hk as (u & Eu & Hk). apply bind_Ok in Hk as (v & Ev & Hk). apply bind_Ok in Hk as (o & Eo & Hk).
  destruct o; [done|]. by exists u, v.
Qed.

Definition within (s : st) (envelope : val) : Prop :=
  exists steady hard, getitem envelope "steady_state_limit" = Ok steady /\
    getitem envelope "provider_hard_limit" = Ok hard /\
    forall k, k ∈ RESOURCE_KEYS -> exists ls lh, getitem steady k = Ok ls /\ getitem hard k = Ok lh /\
      exceeds (total_of (steady_totals s) k) ls = Ok false /\ exceeds (total_of (hard_totals s) k) lh = Ok false.

Lemma envelope_failures_nil s envelope : envelope_failures s envelope = Ok [] ->
  within s envelope /\ pooled_runtime_demand s <= pooled_server_capacity s.
Proof.
  unfold envelope_failures. intros E. apply bind_Ok in E as (sl & Esl & E). apply bind_Ok in E as (f1 & E1 & E).
  apply bind_Ok in E as (hl & Ehl & E). apply bind_Ok in E as (av & _ & E). apply bind_Ok in E as (f2 & _ & E).
  apply bind_Ok in E as (f3 & E3 & E). apply bind_Ok in E as (lim & _ & E). apply bind_Ok in E as (over & _ & E).
  injection E as E. apply app_eq_nil in E as [-> E]. apply app_eq_nil in E as [_ E].
  apply app_eq_nil in E as [-> E]. apply app_eq_nil in E as [_ E].
  apply compare_all_nil in E1, E3. rewrite Forall_forall in E1, E3. split.
  - exists sl, hl. do 2 (split; [done|]). intros k Hk.
    destruct (E1 k Hk) as (u & v & [= <-] & Ev & Ex). destruct (E3 k Hk) as (u' & v' & [= <-] & Ev' & Ex').
    by exists v, v'.
  - destruct (Z.ltb_spec (pooled_server_capacity s) (pooled_runtime_demand s)); [done|lia].
Qed.

Lemma Forall2_and_r {A B} (P : A -> B -> Prop) (Q : B -> Prop) l m :
  Forall2 P l m -> Forall Q m -> Forall2 (λ x y, P x y /\ Q y) l m.
Proof. induction 1; inversion 1; subst; constructor; auto. Qed.

Lemma missing_none s p : (if bool_decide (missing_providers s = []) then []
    else ["missing provider budgets: " +:+ Str.join ", " (missing_providers s)]) = [] ->
  p ∈ REQUIRED_PROVIDERS -> VStr p ∈ providers s.
Proof.
  intros Hm Hp. case_bool_decide as Hn; [|done]. clear Hm. unfold missing_providers in Hn.
  pose proof (sort_strings_perm (List.filter (λ r, negb (py_in (VStr r) (providers s))) REQUIRED_PROVIDERS)) as Hs.
  rewrite Hn in Hs. apply Permutation_nil_l in Hs; symmetry in Hs; apply filter_nil_iff in Hs. rewrite Forall_forall in Hs.
  specialize (Hs p Hp). apply negb_false_iff in Hs. unfold py_in in Hs. apply existsb_exists in Hs as (y & Hy & E).
  apply py_eq_str_l in E as ->. by apply list_elem_of_In.
Qed.


Lemma connection_failures_nil s b : connection_failures s b = [] ->
  runtime_server b + operational_pool b + direct_admin b + headroom b = postgres_max b /\
  pooled_server_capacity s = runtime_server b + operational_pool b /\ pooled_runtime_demand s = runtime_server b /\
  direct_reserved_capacity s = direct_admin b /\ server_reservation s + headroom b = postgres_max b /\
  server_reservation s <= postgres_max b.
Proof.
  unfold connection_failures. intros E. repeat (apply app_eq_nil in E as [?%unless_nil E]).
  apply unless_nil in E. bool_to_prop. lia.
Qed.

(** The capacity check passes (exit code 0) only for budgets that fit: each is read,
    without a schema error, from a provider of its own, the four required providers are
    there, and each enabled component has a hard limit no lower than its steady state.
    The sums of its components' memory are within the limits of the envelope, and their
    connections partition the database: the pooled and the direct ones, exactly those of
    the contract, and its headroom add up to the maximum, and the demand of the other
    providers is the runtime's share of the pool. *)
Theorem capacity_passed w : (main a w).1 = Ok 0 ->
  exists schema envelope contract bs rs ps b, let rows := concat rs in
    load (a_schema a) w = (Ok schema, w) /\ load (a_envelope a) w = (Ok envelope, w) /\
    load (database_contract a) w = (Ok contract, w) /\ connection_budget contract = Ok b /\
    Forall2 (λ p b, load p w = (Ok b, w) /\ sorted_errors schema b = Ok []) (budgets a) bs /\
    Forall2 (λ b r, rows_of b = Ok r) bs rs /\ Forall2 (λ b p, dget b "provider" = Ok p) bs ps /\
    named_once ps /\ (forall p, p ∈ REQUIRED_PROVIDERS -> VStr p ∈ ps) /\ Forall fits rows /\
    (exists limit, item envelope ["steady_state_limit"; "memory_mib"] = Ok limit /\
       exceeds (VInt (zsum (λ x, memory x "steady_state") rows)) limit = Ok false) /\
    (exists limit, item envelope ["provider_hard_limit"; "memory_mib"] = Ok limit /\
       exceeds (VInt (zsum (λ x, memory x "hard_limit") rows)) limit = Ok false) /\
    Forall (λ x, exists z, connections x = Ok z) rows /\
    zsum pooled rows = runtime_server b + operational_pool b /\ zsum direct rows = direct_admin b /\
    zsum demanded rows = runtime_server b /\ zsum demanded rows <= zsum pooled rows /\
    zsum pooled rows + zsum direct rows = zsum reserved rows /\
    zsum reserved rows + headroom b = postgres_max b.
Proof.
  destruct (main a w) as [r w'] eqn:E. cbn [fst]. intros ->. unfold main in E.
  apply M_bind_Ok in E as (schema & w1 & E1 & E). same_world E1.
  apply M_bind_Ok in E as (envelope & w1 & E2 & E). same_world E2.
  apply M_bind_Ok in E as (contract & w1 & E3 & E). same_world E3.
  apply M_bind_Ok in E as (s & w1 & E4 & E).
  apply (mfold_inv (read_budgets schema w)) in E4 as [-> (bs & rs & Hb & Hr & K & Hf)];
    [|apply ro_budget_step| |by intros; eapply budget_step_Ok].
  2:{ exists [], []. split; [constructor|]. split; [constructor|]. split; [by split|]. intros _.
      split; [constructor|]. split; [intros x; cbn; lia|constructor]. }
  cbn zeta in E. apply M_bind_Ok in E as (all & w1 & E5 & E). apply lift_Ok in E5 as [E5 ->].
  apply M_bind_Ok in E as (rep & w1 & _ & E). do 2 (apply M_bind_Ok in E as (? & ? & _ & E)).
  apply ret_Ok in E as [E _]. destruct (bool_decide (all = [])) eqn:Ea; [|done]. apply bool_decide_eq_true in Ea as ->.
  unfold judge in E5. apply bind_Ok in E5 as (fe & Ee & E5). apply bind_Ok in E5 as (b & Eb & E5). injection E5 as E5.
  apply app_eq_nil in E5 as [Hfail E5]. apply app_eq_nil in E5 as [Hmiss E5]. apply app_eq_nil in E5 as [-> E5].
  apply envelope_failures_nil in Ee as ((sl & hl & Esl & Ehl & Hk) & Hd). apply connection_failures_nil in E5.
  cbn [close failures pooled_server_capacity pooled_runtime_demand direct_reserved_capacity server_reservation
       steady_totals hard_totals] in *.
  destruct (Hf Hfail) as (Hse & Hn & Hp). destruct K as [K1 K2 K3 K4 K5 K6 K7 K8].
  exists schema, envelope, contract, bs, rs, (providers s), b. do 4 (split; [done|]).
  split; [by apply Forall2_and_r|]. do 3 (split; [done|]).
  assert (zsum reserved (concat rs) = zsum pooled (concat rs) + zsum direct (concat rs)) as Hsum.
  { apply zsum_add. intros y. unfold reserved, pooled, direct. destruct (database y), (pooler y); cbn; lia. }
  assert ("memory_mib" ∈ RESOURCE_KEYS) as Hmem by (apply list_elem_of_In; simpl; auto).
  destruct (Hk _ Hmem) as (ls & lh & El & Eh & Xl & Xh).
  change (total_of _ "memory_mib") with (VInt (memory_mib (steady_totals s))) in Xl.
  change (total_of _ "memory_mib") with (VInt (memory_mib (hard_totals s))) in Xh. rewrite K5 in Xl. rewrite K6 in Xh.
  split; [intros p Hin; by apply missing_none|]. split; [by apply K8|].
  split; [exists ls; split; [by cbn [item]; rewrite Esl; cbn [mbind res_bind]; rewrite El|done]|].
  split; [exists lh; split; [by cbn [item]; rewrite Ehl; cbn [mbind res_bind]; rewrite Eh|done]|].
  split; [done|]. rewrite K1, K2, K3, K4 in *. lia.
Qed.
End Run.
End CapacitySpec.

(** ** Concrete runs *)

Module CapacityRun.
Import Fixture Capacity CapacitySpec.

Definition use (o m d : Z) : val := VDict [("ocpu", VFloat (Flt.of_dec o (-1))); ("memory_mib", VInt m); ("disk_gib", VInt d)].
Definition component (name class : string) (c : Z) : val :=
  VDict [("name", VStr name); ("class", VStr class); ("default_enabled", VBool true); ("steady_state", use 1 512 4);
         ("hard_limit", use 3 1024 8); ("postgres_connections", VInt c)].
Definition idle : val := VDict [("name", VStr "spare"); ("default_enabled", VBool false)].
Definition budget_of (provider : string) (cs : list val) : string :=
  json (VDict [("provider", VStr provider); ("components", VList cs)]).

Definition envelope : string := json (VDict [
  ("steady_state_limit", use 20 8192 60); ("provider_hard_limit", VDict [("ocpu", VInt 3); ("memory_mib", VInt 16384);
     ("disk_gib", VInt 100); ("postgres_connections", VInt 40)]);
  ("host", VDict [("ocpu", VInt 4); ("memory_mib", VInt 24576); ("combined_storage_gib", VInt 200)]);
  ("reserved", use 5 2048 20)]).
Definition contract : string := json (VDict [("connectionBudget", VDict [("postgresMaxConnections", VInt 30);
  ("runtimeServerConnections", VInt 15); ("operationalPoolConnections", VInt 5);
  ("directAdministrativeConnections", VInt 5); ("reservedHeadroom", VInt 5)])]).

Definition w0 : world := world_with [("/c/schema.json", "{}"); ("/c/envelope.json", envelope); ("/c/database.json", contract);
  ("/b/database.json", budget_of "database" [component "pgbouncer" "pooler" 20; component "admin" "service" 5]);
  ("/b/runtime.json", budget_of "runtime" [component "beam" "service" 12; idle]);
  ("/b/operations.json", budget_of "operations" [component "otel" "service" 3]);
  ("/b/infrastructure.json", budget_of "infrastructure" [])].
Definition the_args : args := Args (map Path.of_str ["/b/database.json"; "/b/runtime.json"; "/b/operations.json";
  "/b/infrastructure.json"]) (Path.of_str "/c/schema.json") (Path.of_str "/c/envelope.json")
  (Path.of_str "/c/database.json") None.

(** One direct connection more than the contract allows is reported twice. *)
Example reported : connection_failures (St [] [] empty_totals empty_totals [] 26 20 6 15) (Budget 30 15 5 5 5) =
  ["direct administrative/recovery reservation mismatch: declared=6 expected=5";
   "PostgreSQL reservation plus headroom mismatch: reservation=26 headroom=5 limit=30"].
Proof. vm_compute. reflexivity. Qed.

Lemma capacity_passed_witness : let host := quiet_host in let a := the_args in let w := w0 in
  exists schema envelope contract bs rs ps b, let rows := concat rs in
    load (a_schema a) w = (Ok schema, w) /\ load (a_envelope a) w = (Ok envelope, w) /\
    load (database_contract a) w = (Ok contract, w) /\ connection_budget contract = Ok b /\
    Forall2 (λ p b, load p w = (Ok b, w) /\ sorted_errors schema b = Ok []) (budgets a) bs /\
    Forall2 (λ b r, rows_of b = Ok r) bs rs /\ Forall2 (λ b p, dget b "provider" = Ok p) bs ps /\
    named_once ps /\ (forall p, p ∈ REQUIRED_PROVIDERS -> VStr p ∈ ps) /\ Forall fits rows /\
    (exists limit, item envelope ["steady_state_limit"; "memory_mib"] = Ok limit /\
       exceeds (VInt (zsum (λ x, memory x "steady_state") rows)) limit = Ok false) /\
    (exists limit, item envelope ["provider_hard_limit"; "memory_mib"] = Ok limit /\
       exceeds (VInt (zsum (λ x, memory x "hard_limit") rows)) limit = Ok false) /\
    Forall (λ x, exists z, connections x = Ok z) rows /\
    zsum pooled rows = runtime_server b + operational_pool b /\ zsum direct rows = direct_admin b /\
    zsum demanded rows = runtime_server b /\ zsum demanded rows <= zsum pooled rows /\
    zsum pooled rows + zsum direct rows = zsum reserved rows /\
    zsum reserved rows + headroom b = postgres_max b.
Proof.
  intros host a w. apply (capacity_passed (H := host) a w).
  assert ((main (H := host) a w).1 = Ok 0) as E by (vm_compute; reflexivity). exact E.
Defined.
End CapacityRun.
