(* ===== verification/RecoveryContract.v ===== *)
(** * database/tools/recovery_contract.py

    The evidence of backups and restores: documents written beside their
    SHA-256 sidecars and read back through them, the backup selected from the
    repository's own list, the metadata rebuilt from its annotations, the
    verification of a restored cluster and the recovery status. *)

From Stdlib Require Import Ascii SpecFloat.
From S2P Require Import Prelude PyFloat PyMonad PyValue PyTime PyJson PyCodecs Sha256 PyOs OsFacts Fixture.

Module RecoveryContract.

(** ** Values *)

(** [uuid.UUID(s)] answers: 32 hexadecimal digits once the decoration is gone. *)
Definition hex_digit_value (c : ascii) : option Z :=
  let n := Z.of_N (N_of_ascii (Str.lower_char c)) in
  if Str.is_digit c then Some (n - 48) else if (97 <=? n) && (n <=? 102) then Some (n - 87) else None.
(** [int(s, 16)] without its sign, white space and prefix: single underscores may part the digits. *)
Fixpoint hex_digits (ok_underscore : bool) (s : string) : bool :=
  match s with
  | EmptyString => ok_underscore
  | String c r => match hex_digit_value c with
                  | Some _ => hex_digits true r
                  | None => Ascii.eqb c "_" && ok_underscore && hex_digits false r
                  end
  end.
Definition is_int16 (s : string) : bool :=
  let s := Str.removeprefix "+" (Str.strip s) in
  match Str.strip_prefix "0x" (Str.lower s) with
  | Some r => hex_digits true r && negb (String.eqb r "")
  | None => hex_digits false s
  end.
Definition strip_braces (s : string) : string :=
  let brace c := Ascii.eqb c "{" || Ascii.eqb c "}" in
  Str.rev (Str.lstrip_by brace (Str.rev (Str.lstrip_by brace s))).
Definition check_uuid (s : string) : res unit :=
  let hex := Str.replace "-" "" (strip_braces (Str.replace "uuid:" "" (Str.replace "urn:" "" s))) in
  if negb (Str.len hex =? 32) then raise ValueError "badly formed hexadecimal UUID string"
  else if is_int16 hex then Ok tt
  else raise ValueError ("invalid literal for int() with base 16: " +:+ repr_str hex).

(** [datetime.fromtimestamp(v, timezone.utc)], in microseconds *)
Definition in_years (us : Z) : res Z :=
  let sec := us / Time.us_per_s in
  let '(year, _, _) := Time.civil_from_days (sec / 86400) in
  if 2 ^ 63 <=? Z.abs sec then raise OverflowError "timestamp out of range for platform time_t"
  else if 2147483647 <? Z.abs (year - 1900) then raise OSError "[Errno 75] Value too large for defined data type"
  else if (Time.min_us <=? us) && (us <? Time.max_us) then Ok us
  else raise ValueError ("year " +:+ Str.of_Z year +:+ " is out of range").
Definition from_timestamp (v : val) : res Z :=
  match v with
  | VFloat f =>
      match Flt.trunc f with
      | Some i => let frac := Flt.mul (Flt.sub f (Flt.of_Z i)) (Flt.of_Z 1000000) in
                  in_years (i * Time.us_per_s + default 0 (Flt.round_int frac))
      | None => match f with
                | S754_nan => raise ValueError "Invalid value NaN (not a number)"
                | _ => raise OverflowError "cannot convert float infinity to integer"
                end
      end
  | _ => z ← expect_int v; in_years (z * Time.us_per_s)
  end.

Section Values.
Context `{Platform}.

(** [datetime.fromisoformat(v.replace("Z", "+00:00")).astimezone(timezone.utc)] *)
Definition instant (s : string) : res Z :=
  d ← Time.fromisoformat (Str.replace "Z" "+00:00" s); Time.to_utc local_offset d.
Definition instant_of (v : val) : res Z :=
  match v with VStr s => instant s | _ => no_attr v "replace" end.

Definition timestamp (value : val) : res string :=
  if is_num value then us ← from_timestamp value; Ok (Time.iso_z us)
  else if is_str value && truthy value then us ← instant_of value; Ok (Time.iso_z us)
  else raise ValueError ("invalid timestamp: " +:+ repr value).

(** [math.ceil(x)] *)
Definition py_ceil (f : pyfloat) : res Z :=
  match Flt.ceil f with
  | Some z => Ok z
  | None => match f with
            | S754_nan => raise ValueError "cannot convert float NaN to integer"
            | _ => raise OverflowError "cannot convert float infinity to integer"
            end
  end.
(** [max(0.0, x)] and [max(0, math.ceil(x))] *)
Definition max0 (f : pyfloat) : pyfloat := match Flt.compare f (Flt.of_Z 0) with Some Gt => f | _ => Flt.of_Z 0 end.
Definition ceil0 (f : pyfloat) : res Z := z ← py_ceil f; Ok (Z.max 0 z).
End Values.

(** ** Migration manifests: [<sha256> <version>_<name>.sql] on each line *)

Definition unpack_error {A} (n : nat) : res A :=
  raise ValueError ("not enough values to unpack (expected 2, got " +:+ Str.of_Z (Z.of_nat n) +:+ ")").
Definition manifest_entry (line : string) : res val :=
  match Str.split_once line with
  | [checksum; filename] =>
      let filename := Str.lstrip_by (λ c, Ascii.eqb c "*") filename in
      match Str.partition "_" filename with
      | Some (version_text, remainder) =>
          version ← py_int (VStr version_text);
          Ok (VDict [("version", VInt version); ("name", VStr (Str.removesuffix ".sql" remainder));
                     ("checksumSha256", VStr checksum)])
      | None => unpack_error 1
      end
  | l => unpack_error (length l)
  end.
Definition entries_of (text : string) : res (list val) := rmap manifest_entry (Str.splitlines text).
Definition manifest_entries (p : path) : IO (list val) := text ← read_text p; lift (entries_of text).

(** ** The backup the repository lists *)

(** A selector of [select_backup]: [None] is not asked for. *)
Definition differs (actual : res val) (wanted : option string) : res bool :=
  match wanted with
  | None => Ok false
  | Some s => a ← actual; Ok (py_ne a (VStr s))
  end.
Definition annotation_of (backup : val) (key : string) : res val :=
  a ← dget_or backup "annotation" (VDict []); dget a key.
Definition selected (run_id backup_type label : option string) (backup : val) : res bool :=
  other ← differs (dget backup "label") label;
  if other : bool then Ok false
  else
    other ← differs (dget backup "type") backup_type;
    if other : bool then Ok false
    else other ← differs (annotation_of backup "liqi-run-id") run_id; Ok (negb other).
Definition or_text (o : option string) (t : string) : string :=
  match o with Some s => if String.eqb s "" then t else s | None => t end.
Definition select_backup (info : val) (stanza_name : string) (run_id backup_type label : option string) : res (val * val) :=
  match info with
  | VList items =>
      found ← rfind (λ i, get_eq i "name" (VStr stanza_name)) items;
      match found with
      | None => raise ValueError ("pgBackRest stanza not found: " +:+ stanza_name)
      | Some stanza =>
          backups ← dget_or stanza "backup" (VList []); backups ← py_iter backups;
          candidates ← rfilter (selected run_id backup_type label) backups;
          match candidates with
          | [b] => Ok (stanza, b)
          | l => raise ValueError ("expected one pgBackRest backup for "
                   +:+ or_text label (or_text run_id "requested selector") +:+ ", found "
                   +:+ Str.of_Z (Z.of_nat (length l)))
          end
      end
  | _ => raise ValueError "pgBackRest info must be a JSON array"
  end.

Definition REPOSITORY_REF : string := "management://database-backup-repository".
Definition REPOSITORY_PATH : string := "/independent-storage/pgbackrest/liqi".
Definition REPOSITORY_PORT : Z := 8432.

Definition require (b : bool) (message : string) : res unit := if b then Ok tt else raise ValueError message.
(** [v.get(k) or {}] *)
Definition get_or_empty (v : val) (k : string) : res val := x ← dget v k; Ok (if truthy x then x else VDict []).

(** The guards of [metadata_from_backup], and the version of pgBackRest. *)
Definition backup_guards (stanza backup : val) : res (val * val) :=
  annotation ← dget backup "annotation";
  _ ← require (is_dict annotation) "pgBackRest backup annotations are missing";
  ok ← get_eq stanza "cipher" (VStr "aes-256-cbc");
  _ ← require ok "pgBackRest repository must use aes-256-cbc client-side encryption";
  ok ← get_eq annotation "liqi-repository-ref" (VStr REPOSITORY_REF);
  _ ← require ok "backup annotation repository reference mismatch";
  ok ← get_eq annotation "liqi-repository-path" (VStr REPOSITORY_PATH);
  _ ← require ok "backup annotation repository path mismatch";
  ok ← get_eq annotation "liqi-repository-port" (VStr (Str.of_Z REPOSITORY_PORT));
  _ ← require ok "backup annotation repository port mismatch";
  r ← dget_or backup "backrest" (VDict []); version ← dget r "version";
  _ ← require (truthy version) "pgBackRest version is absent from repository info";
  Ok (annotation, version).

Section Env.
Context `{Platform}.

Definition metadata_document (info_raw generated_at : string) (backup annotation version : val) : res val :=
  let note k := getitem annotation k in
  archive ← get_or_empty backup "archive";
  times ← get_or_empty backup "timestamp";
  run_id ← note "liqi-run-id"; host ← note "liqi-host-ref"; sha ← note "liqi-source-git-sha";
  label ← getitem backup "label"; type ← getitem backup "type";
  started ← getitem times "start"; started ← timestamp started;
  stopped ← getitem times "stop"; stopped ← timestamp stopped;
  archive_start ← dget archive "start"; archive_stop ← dget archive "stop";
  postgresql ← note "liqi-postgresql-version";
  migration ← note "liqi-migration-version"; migration ← py_int migration;
  manifest ← note "liqi-manifest-sha256";
  probe ← note "liqi-probe-id"; event ← note "liqi-probe-event-id"; status ← note "liqi-probe-status";
  outbox ← note "liqi-outbox-state"; effects ← note "liqi-effect-count"; effects ← py_int effects;
  completed ← note "liqi-probe-completed-at";
  Ok (VDict [
    ("$schema", VStr "./backup-metadata-v1.schema.json"); ("schemaVersion", VStr "database-backup-metadata-v1");
    ("generatedAt", VStr generated_at); ("backupRunId", run_id); ("stanza", VStr "liqi");
    ("source", VDict [("database", VStr "liqi"); ("authority", VStr "postgresql"); ("hostRef", host); ("gitSha", sha)]);
    ("repository", VDict [("type", VStr "pgbackrest-tls-remote-posix");
       ("authority", VStr "independent-management-storage"); ("repositoryRef", VStr REPOSITORY_REF);
       ("port", VInt REPOSITORY_PORT); ("path", VStr REPOSITORY_PATH); ("transport", VStr "mutual-tls-over-wireguard");
       ("clientSideEncryption", VStr "aes-256-cbc"); ("dedicated", VBool true);
       ("metadataAuthority", VStr "pgbackrest-backup-annotations")]);
    ("backup", VDict [("label", label); ("type", type); ("startedAt", VStr started); ("stoppedAt", VStr stopped);
       ("archiveStart", archive_start); ("archiveStop", archive_stop); ("annotation", annotation);
       ("infoSha256", VStr (Sha256.hexdigest info_raw))]);
    ("postgresql", VDict [("major", VInt 17); ("version", postgresql)]);
    ("migration", VDict [("currentVersion", VInt migration); ("manifestSha256", manifest)]);
    ("probe", VDict [("probeId", probe); ("eventId", event); ("probeStatus", status); ("outboxState", outbox);
       ("effectCount", VInt effects); ("completedAt", completed)]);
    ("pgBackRest", VDict [("version", version); ("repositoryFormat", VStr "pgbackrest-encrypted-posix-tls-v1")]);
    ("recoveryTargets", VDict [("workingRpo", VStr "5m"); ("workingRto", VStr "60m"); ("pitr", VBool true);
       ("restoreScope", VStr "entire-postgresql-cluster")]);
    ("costClassification", VDict [("class", VStr "external-owner-provisioned-independent-storage");
       ("ociResourceCreated", VBool false)])]).

(** ** Documents and their sidecars *)

Definition DATABASE_CONTRACTS : path := Path.div repo_root "contracts/database".
Definition PLATFORM_CONTRACTS : path := Path.div repo_root "contracts/platform".
Definition BACKUP_SCHEMA : path := Path.div DATABASE_CONTRACTS "backup-metadata-v1.schema.json".
Definition BACKUP_EXAMPLE : path := Path.div DATABASE_CONTRACTS "backup-metadata-v1.example.json".
Definition BACKUP_STATUS_SCHEMA : path := Path.div PLATFORM_CONTRACTS "database-backup-status-v0.schema.json".
Definition BACKUP_STATUS_EXAMPLE : path := Path.div PLATFORM_CONTRACTS "database-backup-status-v0.example.json".
Definition RESTORE_SCHEMA : path := Path.div PLATFORM_CONTRACTS "database-restore-result-v0.schema.json".
Definition RESTORE_EXAMPLE : path := Path.div PLATFORM_CONTRACTS "database-restore-result-v0.example.json".

Definition load_json (p : path) : IO val :=
  catch (PyOs.load_json p) (on_exn [OSError; JSONDecodeError] (λ e,
    throw ValueError ("cannot read JSON " +:+ Path.to_str p +:+ ": " +:+ exn_str e))).

Definition validate (instance : val) (schema_path : path) : IO unit :=
  schema ← load_json schema_path;
  errors ← lift (sorted_errors schema instance);
  match errors with
  | [] => mret tt
  | _ => throw ValueError (Path.name schema_path +:+ " validation failed: " +:+ Str.join "; " (map render_error errors))
  end.

Definition sha256_file (p : path) : IO string := PyOs.sha256_file p.

(** [path.with_name(name)] *)
Definition with_name (p : path) (n : string) : IO path :=
  if String.eqb (Path.name p) "" then throw ValueError (repr_str (Path.to_str p) +:+ " has an empty name")
  else mret (Path.with_name p n).

Definition sidecar (p : path) : path := Path.of_str (Path.to_str p +:+ ".sha256").
Definition temporary_name (p : path) (token : string) : string := "." +:+ Path.name p +:+ "." +:+ token +:+ ".tmp".
Definition sidecar_text (encoded name : string) : string :=
  Sha256.hexdigest encoded +:+ "  " +:+ name +:+ String (ascii_of_N 10) "".

Definition write_json_with_checksum (output : path) (value : val) : IO path :=
  mkdir_p (Path.parent output) ;;
  let encoded := json_text value in
  let checksum_path := sidecar output in
  token ← fresh_hex;
  temporary_output ← with_name output (temporary_name output token);
  temporary_checksum ← with_name checksum_path (temporary_name checksum_path token);
  finally
    (write_file temporary_output encoded ;;
     write_file temporary_checksum (sidecar_text encoded (Path.name output)) ;;
     replace temporary_output output ;;
     replace temporary_checksum checksum_path)
    (unlink_missing_ok temporary_output ;; unlink_missing_ok temporary_checksum) ;;
  mret checksum_path.

Definition checksum_in (text : string) : option string :=
  match Str.words (Str.strip text) with
  | w :: _ => if Str.len w =? 64 then Some (Str.lower w) else None
  | [] => None
  end.
Definition expected_checksum (checksum_path : path) : IO string :=
  text ← read_text checksum_path;
  match checksum_in text with
  | Some h => mret h
  | None => throw ValueError ("invalid SHA-256 sidecar: " +:+ Path.to_str checksum_path)
  end.

(** The document the sidecar binds, without a schema error. *)
Definition validate_bound (what : string) (document_path checksum_path schema_path : path) : IO val :=
  expected ← expected_checksum checksum_path;
  actual ← sha256_file document_path;
  if negb (String.eqb expected actual)
  then throw ValueError (what +:+ " checksum mismatch: expected=" +:+ expected +:+ " actual=" +:+ actual)
  else document ← load_json document_path; validate document schema_path ;; mret document.
Definition validate_metadata (metadata_path checksum_path : path) : IO val :=
  validate_bound "backup metadata" metadata_path checksum_path BACKUP_SCHEMA.
Definition validate_checksummed_document (document_path checksum_path schema_path : path) : IO val :=
  validate_bound "document" document_path checksum_path schema_path.

Definition metadata_from_backup (info_raw : string) (stanza backup : val) : IO val :=
  g ← lift (backup_guards stanza backup);
  generated ← utc_now;
  metadata ← lift (metadata_document info_raw generated backup g.1 g.2);
  validate metadata BACKUP_SCHEMA ;; mret metadata.

(** ** The commands *)

Definition say (d : list (string * val)) : IO unit := print (Json.dumps Json.compact (VDict d)).

Definition command_validate_contracts : IO Z :=
  mfor (λ se, d ← load_json se.2; validate d se.1 ;; print (Path.name se.2 +:+ ": valid"))
    [(BACKUP_SCHEMA, BACKUP_EXAMPLE); (BACKUP_STATUS_SCHEMA, BACKUP_STATUS_EXAMPLE); (RESTORE_SCHEMA, RESTORE_EXAMPLE)] ;;
  mret 0.

Record create_args := Create {
  c_info : string; c_database_state : string; c_manifest : string; c_run_id : string; c_backup_type : string;
  c_host_ref : string; c_source_git_sha : string; c_output : string
}.

(** The recovery probe of the database state, complete and unique. *)
Definition probe_guards (state : val) : res val :=
  probe ← dget state "probe";
  _ ← require (is_dict probe) "database state does not contain a completed recovery probe";
  ok ← get_eq state "failedMigrationRuns" (VInt 0);
  _ ← require ok "backup refused because failed migration runs are present";
  a ← get_eq probe "probeStatus" (VStr "completed"); b ← get_eq probe "outboxState" (VStr "succeeded");
  c ← get_eq probe "effectCount" (VInt 1);
  _ ← require (a && b && c) "backup recovery probe invariant is not terminal and unique";
  Ok probe.

(** [str(v[k])] *)
Definition text_of (v : val) (k : string) : res string := x ← getitem v k; Ok (py_str x).
Definition expected_annotations (a : create_args) (state probe : val) (manifest_sha : string) : res (list (string * string)) :=
  postgresql ← text_of state "postgresqlVersion"; migration ← text_of state "migrationVersion";
  probe_id ← text_of probe "probeId"; event ← text_of probe "eventId"; completed ← text_of probe "completedAt";
  status ← text_of probe "probeStatus"; outbox ← text_of probe "outboxState"; effects ← text_of probe "effectCount";
  Ok [("liqi-run-id", c_run_id a); ("liqi-source-git-sha", c_source_git_sha a); ("liqi-host-ref", c_host_ref a);
      ("liqi-postgresql-version", postgresql); ("liqi-migration-version", migration); ("liqi-probe-id", probe_id);
      ("liqi-probe-event-id", event); ("liqi-probe-completed-at", completed); ("liqi-probe-status", status);
      ("liqi-outbox-state", outbox); ("liqi-effect-count", effects); ("liqi-manifest-sha256", manifest_sha);
      ("liqi-repository-ref", REPOSITORY_REF); ("liqi-repository-path", REPOSITORY_PATH);
      ("liqi-repository-port", Str.of_Z REPOSITORY_PORT)].
Fixpoint match_annotations (annotation : val) (expected : list (string * string)) : res unit :=
  match expected with
  | [] => Ok tt
  | (key, text) :: r =>
      actual ← dget annotation key;
      if py_ne actual (VStr text)
      then raise ValueError ("pgBackRest annotation mismatch for " +:+ key +:+ ": " +:+ repr actual +:+ " != " +:+ repr_str text)
      else match_annotations annotation r
  end.

(** The end of the two commands that write metadata. *)
Definition publish_metadata (metadata : val) (output : path) (origin : string * string) : IO Z :=
  checksum ← write_json_with_checksum output metadata;
  label ← lift (item metadata ["backup"; "label"]);
  say [("backupLabel", label); ("metadata", VStr (Path.to_str output)); ("checksum", VStr (Path.to_str checksum));
       (origin.1, VStr origin.2); ("passed", VBool true)] ;;
  mret 0.

Definition command_create_metadata (a : create_args) : IO Z :=
  info_raw ← read_bytes (Path.of_str (c_info a));
  info ← lift (loads_bytes info_raw);
  state ← load_json (Path.of_str (c_database_state a));
  sb ← lift (select_backup info "liqi" (Some (c_run_id a)) (Some (c_backup_type a)) None);
  annotation ← lift (dget_or sb.2 "annotation" (VDict []));
  probe ← lift (probe_guards state);
  manifest_sha ← sha256_file (Path.of_str (c_manifest a));
  expected ← lift (expected_annotations a state probe manifest_sha);
  lift (match_annotations annotation expected) ;;
  metadata ← metadata_from_backup info_raw sb.1 sb.2;
  publish_metadata metadata (Path.of_str (c_output a)) ("durableAuthority", "pgbackrest-backup-annotations").

Definition command_reconstruct_metadata (info label output : string) : IO Z :=
  info_raw ← read_bytes (Path.of_str info);
  d ← lift (loads_bytes info_raw);
  sb ← lift (select_backup d "liqi" None None (Some label));
  metadata ← metadata_from_backup info_raw sb.1 sb.2;
  publish_metadata metadata (Path.of_str output) ("reconstructedFrom", "pgbackrest-backup-annotations").

Definition command_validate_metadata (metadata checksum : string) : IO Z :=
  d ← validate_metadata (Path.of_str metadata) (Path.of_str checksum);
  label ← lift (item d ["backup"; "label"]);
  say [("validation", VStr "database-backup-metadata-v1"); ("backupLabel", label); ("passed", VBool true)] ;; mret 0.

Definition command_write_backup_status (input output : string) : IO Z :=
  value ← load_json (Path.of_str input);
  validate value BACKUP_STATUS_SCHEMA ;;
  checksum ← write_json_with_checksum (Path.of_str output) value;
  say [("backupStatus", VStr output); ("checksum", VStr (Path.to_str checksum)); ("passed", VBool true)] ;; mret 0.

Definition command_validate_backup_status (status checksum : string) : IO Z :=
  value ← validate_checksummed_document (Path.of_str status) (Path.of_str checksum) BACKUP_STATUS_SCHEMA;
  ready ← lift (getitem value "recoveryReady");
  say [("validation", VStr "database-backup-status-v0"); ("recoveryReady", ready); ("passed", VBool true)] ;; mret 0.

Definition command_validate_restore_result (result checksum : string) : IO Z :=
  d ← validate_checksummed_document (Path.of_str result) (Path.of_str checksum) RESTORE_SCHEMA;
  id ← lift (getitem d "restoreId"); success ← lift (getitem d "success");
  say [("validation", VStr "database-restore-result-v0"); ("restoreId", id); ("success", success); ("passed", VBool true)] ;;
  mret 0.

(** ** Verification of a restored cluster *)

Record restore_args := Restore {
  r_metadata : string; r_checksum : string; r_actual : string; r_manifest : string; r_restore_id : string;
  r_started_at : string; r_target_pgdata : string; r_socket_directory : string; r_port : Z; r_output : string
}.

(** [add_check(checks, name, expected, actual)] *)
Definition check_of (name : string) (expected actual : val) : val :=
  VDict [("name", VStr name); ("passed", VBool (py_eq expected actual)); ("expected", expected); ("actual", actual)].

Definition probe_of (actual : val) (key : string) : res val :=
  p ← dget_or actual "probe" (VDict []); dget p key.

(** The comparisons of the metadata and the manifest with the restored cluster. *)
Definition cluster_checks (metadata actual : val) (manifest_sha : string) (expected_rows : list val) (actual_rows : val)
  : res (list (string * val * val)) :=
  version ← dget metadata "schemaVersion";
  major ← item metadata ["postgresql"; "major"]; a_major ← dget actual "postgresqlMajor";
  migration ← item metadata ["migration"; "currentVersion"]; a_migration ← dget actual "migrationVersion";
  m_sha ← item metadata ["migration"; "manifestSha256"];
  p_status ← probe_of actual "probeStatus"; p_outbox ← probe_of actual "outboxState"; p_effects ← probe_of actual "effectCount";
  failed ← dget actual "failedMigrationRuns";
  m_probe ← item metadata ["probe"; "probeId"]; p_probe ← probe_of actual "probeId";
  m_event ← item metadata ["probe"; "eventId"]; p_event ← probe_of actual "eventId";
  in_recovery ← dget actual "inRecovery"; archive_mode ← dget actual "archiveMode"; listen ← dget actual "listenAddresses";
  Ok [("backup-metadata-schema", VStr "database-backup-metadata-v1", version);
      ("postgres-major", major, a_major);
      ("migration-version", migration, a_migration);
      ("migration-manifest-checksum", m_sha, VStr manifest_sha);
      ("migration-row-checksums", VList expected_rows, actual_rows);
      ("probe-state", VStr "completed", p_status);
      ("probe-outbox-terminal-state", VStr "succeeded", p_outbox);
      ("probe-terminal-effect", VInt 1, p_effects);
      ("failed-migration-runs", VInt 0, failed);
      ("probe-identity", m_probe, p_probe);
      ("probe-event-identity", m_event, p_event);
      ("recovery-promoted", VBool false, in_recovery);
      ("restore-archive-disabled", VStr "off", archive_mode);
      ("restore-network-isolated", VStr "", listen)].

Definition passed (check : string * val * val) : bool := py_eq check.1.2 check.2.

(** The times of the restore: its start, its duration, and the observed RPO and RTO. *)
Record drill := Drill { d_started : Z; d_finished : Z; d_duration : pyfloat; d_rpo : Z; d_rto : Z }.
Definition drill_of (metadata : val) (started finished : Z) : res drill :=
  let duration := max0 (Time.total_seconds (finished - started)) in
  stopped ← item metadata ["backup"; "stoppedAt"]; stopped ← instant_of stopped;
  completed ← item metadata ["probe"; "completedAt"]; completed ← instant_of completed;
  rpo ← ceil0 (Time.total_seconds (stopped - completed));
  rto ← ceil0 duration;
  Ok (Drill started finished duration rpo rto).

Definition restore_document (a : restore_args) (t : drill) (label : val) (metadata_sha : string)
  (checks : list (string * val * val)) : val :=
  let success := forallb passed checks in
  VDict [
    ("$schema", VStr "./database-restore-result-v0.schema.json"); ("schemaVersion", VStr "database-restore-result-v0");
    ("restoreId", VStr (r_restore_id a)); ("startedAt", VStr (Time.iso_z (d_started t)));
    ("finishedAt", VStr (Time.iso_z (d_finished t))); ("durationSeconds", VFloat (Flt.round_to 3 (d_duration t)));
    ("backupLabel", label); ("backupMetadataSha256", VStr metadata_sha);
    ("target", VDict [("database", VStr "liqi"); ("pgData", VStr (r_target_pgdata a));
       ("socketDirectory", VStr (r_socket_directory a)); ("port", VInt (r_port a)); ("isolated", VBool true);
       ("archiveMode", VStr "off")]);
    ("success", VBool success);
    ("checks", VList (map (λ c, check_of c.1.1 c.1.2 c.2) checks));
    ("workingTargets", VDict [("rpo", VStr "5m"); ("rto", VStr "60m"); ("rpoObservedSeconds", VInt (d_rpo t));
       ("rtoObservedSeconds", VInt (d_rto t)); ("rtoMet", VBool (d_rto t <=? 3600))]);
    ("operatorAction", VStrs (if success then [] else [
       "Do not promote or route traffic to the restored cluster.";
       "Inspect failed checks, repair the recovery path, and repeat the isolated restore drill."]))].

Definition command_verify_restore (a : restore_args) : IO Z :=
  let metadata_path := Path.of_str (r_metadata a) in
  let checksum_path := Path.of_str (r_checksum a) in
  metadata ← validate_metadata metadata_path checksum_path;
  actual ← load_json (Path.of_str (r_actual a));
  let manifest := Path.of_str (r_manifest a) in
  manifest_sha ← sha256_file manifest;
  expected_rows ← manifest_entries manifest;
  actual_rows ← lift (dget_or actual "migrations" (VList []));
  expected ← expected_checksum checksum_path;
  observed ← sha256_file metadata_path;
  rest ← lift (cluster_checks metadata actual manifest_sha expected_rows actual_rows);
  let checks := ("backup-metadata-checksum", VStr expected, VStr observed) :: rest in
  started ← lift (instant (r_started_at a));
  finished ← now;
  t ← lift (drill_of metadata started finished);
  label ← lift (item metadata ["backup"; "label"]);
  metadata_sha ← sha256_file metadata_path;
  let result := restore_document a t label metadata_sha checks in
  validate result RESTORE_SCHEMA ;;
  write_json_with_checksum (Path.of_str (r_output a)) result ;;
  say [("validation", VStr "database-restore-result-v0"); ("success", VBool (forallb passed checks));
       ("output", VStr (r_output a))] ;;
  mret (if forallb passed checks then 0 else 1).

(** ** The recovery status *)

Record status_args := Status {
  s_environment : string; s_metadata : string; s_metadata_checksum : string; s_restore_result : string;
  s_restore_checksum : string; s_restore_source_metadata : option string;
  s_restore_source_metadata_checksum : option string; s_backup_status : string; s_backup_status_checksum : string;
  s_backup_evidence_ref : option string; s_restore_evidence_ref : option string;
  s_restore_source_evidence_ref : option string; s_wal_evidence_ref : string; s_output : option string
}.

Definition given (o : option string) : option string :=
  match o with Some s => if String.eqb s "" then None else Some s | None => None end.

(** Where the metadata of the restored backup is. *)
Definition restore_source (a : status_args) (restore : val) : res (path * path) :=
  p ← (match given (s_restore_source_metadata a) with
       | Some s => Ok (Path.of_str s)
       | None => label ← getitem restore "backupLabel";
                 Ok (Path.div (Path.parent (Path.of_str (s_metadata a))) (py_str label +:+ ".json"))
       end);
  Ok (p, match given (s_restore_source_metadata_checksum a) with Some s => Path.of_str s | None => sidecar p end).

Definition label_of (metadata : val) : res val := item metadata ["backup"; "label"].
Definition version_of (metadata : val) : res val := item metadata ["migration"; "currentVersion"].

Definition PROBE_KEYS : list string := ["probeId"; "eventId"; "probeStatus"; "outboxState"; "effectCount"].
Fixpoint same_probe (current expected : val) (keys : list string) : res unit :=
  match keys with
  | [] => Ok tt
  | k :: r =>
      x ← dget current k; y ← dget expected k;
      if py_ne x y then raise ValueError ("current backup status probe differs for " +:+ k) else same_probe current expected r
  end.

(** The guards on the backup status and the restore result, up to the digest. *)
Definition status_guards (a : status_args) (latest restore backup source : val) : res unit :=
  _ ← require (inb String.eqb (s_environment a) ["development"; "staging"; "production"])
        ("invalid environment: " +:+ s_environment a);
  ready ← dget backup "recoveryReady"; reasons ← dget backup "reasons";
  _ ← require (truthy ready && negb (truthy reasons))
        ("current backup/archive status is not recovery-ready: " +:+ py_str reasons);
  success ← dget restore "success";
  _ ← require (truthy success) "restore verification did not pass";
  label ← label_of latest;
  latest_backup ← dget backup "latestBackup";
  named ← (if is_dict latest_backup then get_eq latest_backup "label" label else Ok false);
  _ ← require named "current backup status does not identify latest backup metadata";
  restored ← dget restore "backupLabel"; source_label ← label_of source;
  require (py_eq restored source_label) "restore result references a different source backup label".

(** The guards after it, and the WAL archive. *)
Definition currency_guards (latest restore backup source : val) : res (val * val) :=
  current ← version_of latest;
  migration ← dget backup "migrationVersion";
  _ ← require (py_eq migration current) "current migration version differs from latest backup metadata";
  source_version ← version_of source;
  _ ← require (py_eq source_version current) "restore proof predates the current migration version";
  x ← item source ["postgresql"; "major"]; y ← item latest ["postgresql"; "major"];
  _ ← require (py_eq x y) "restore source PostgreSQL major differs from current backup";
  probe ← dget backup "probe"; expected ← getitem latest "probe";
  _ ← require (is_dict probe) "current backup status probe is missing";
  _ ← same_probe probe expected PROBE_KEYS;
  archive ← dget backup "archive";
  archived ← (if is_dict archive then x ← dget archive "lastArchivedAt"; Ok (truthy x) else Ok false);
  _ ← require archived "current WAL archive status is incomplete";
  lag ← dget archive "secondsSinceLastArchive";
  negative ← (if is_num lag then py_lt lag (VInt 0) else Ok true);
  _ ← require (negb negative) "current WAL archive lag is unavailable";
  Ok (archive, lag).

Definition repository_ref (label : val) : string :=
  "pgbackrest://management/database-backup-repository/liqi/" +:+ py_str label.

Definition recovery_document (a : status_args) (latest restore source archive lag : val) (restore_ref : string) : res val :=
  label ← label_of latest;
  source_label ← label_of source;
  current ← version_of latest;
  major ← item latest ["postgresql"; "major"];
  completed ← item latest ["backup"; "stoppedAt"];
  cipher ← item latest ["repository"; "clientSideEncryption"];
  archived ← getitem archive "lastArchivedAt";
  seconds ← py_float lag; seconds ← py_ceil seconds;
  verified ← getitem restore "finishedAt";
  rpo ← item restore ["workingTargets"; "rpoObservedSeconds"]; rto ← item restore ["workingTargets"; "rtoObservedSeconds"];
  Ok (VDict [
    ("schema_version", VStr "recovery-status-v0"); ("owner", VStr "Senior 2"); ("environment", VStr (s_environment a));
    ("database", VDict [("authority_version", VStr ("database-v0-postgresql-" +:+ py_str major));
       ("migration_version", VStr (py_str current))]);
    ("backup", VDict [("completed_at", completed); ("off_host", VBool true);
       ("encrypted", VBool (py_eq cipher (VStr "aes-256-cbc")));
       ("evidence_ref", VStr (or_text (s_backup_evidence_ref a) (repository_ref label)))]);
    ("wal_archive", VDict [("last_archived_at", archived); ("lag_seconds", VInt seconds);
       ("evidence_ref", VStr (s_wal_evidence_ref a))]);
    ("restore_verification", VDict [("status", VStr "passed"); ("verified_at", verified); ("rpo_observed_seconds", rpo);
       ("rto_observed_seconds", rto);
       ("source_backup_ref", VStr (or_text (s_restore_source_evidence_ref a) (repository_ref source_label)));
       ("evidence_ref", VStr restore_ref)])]).

Definition operations_schema : path := Path.div repo_root "contracts/operations/recovery-status-v0.schema.json".

Definition command_create_recovery_status (a : status_args) : IO Z :=
  let restore_path := Path.of_str (s_restore_result a) in
  latest ← validate_metadata (Path.of_str (s_metadata a)) (Path.of_str (s_metadata_checksum a));
  restore ← validate_checksummed_document restore_path (Path.of_str (s_restore_checksum a)) RESTORE_SCHEMA;
  backup ← validate_checksummed_document (Path.of_str (s_backup_status a)) (Path.of_str (s_backup_status_checksum a))
             BACKUP_STATUS_SCHEMA;
  where_ ← lift (restore_source a restore);
  source ← validate_metadata where_.1 where_.2;
  lift (status_guards a latest restore backup source) ;;
  recorded ← lift (dget restore "backupMetadataSha256");
  source_sha ← sha256_file where_.1;
  lift (require (py_eq recorded (VStr source_sha)) "restore result references a different source backup metadata checksum") ;;
  al ← lift (currency_guards latest restore backup source);
  restore_ref ← (match given (s_restore_evidence_ref a) with
                 | Some r => mret r
                 | None => p ← resolve restore_path; mret ("file://" +:+ Path.to_str p)
                 end);
  status ← lift (recovery_document a latest restore source al.1 al.2 restore_ref);
  known ← exists_ operations_schema;
  mwhen known (validate status operations_schema) ;;
  match given (s_output a) with Some o => write_document (Path.of_str o) status | None => mret tt end ;;
  print (Json.dumps Json.pretty status) ;;
  mret 0.

(** ** The program *)

Inductive command :=
  | ValidateContracts
  | CreateMetadata (a : create_args)
  | ReconstructMetadata (info label output : string)
  | ValidateMetadata (metadata checksum : string)
  | WriteBackupStatus (input output : string)
  | ValidateBackupStatus (status checksum : string)
  | ValidateRestoreResult (result checksum : string)
  | CreateRecoveryStatus (a : status_args)
  | VerifyRestore (a : restore_args).

(** The identifiers [main] checks: [args.run_id], [args.restore_id]. *)
Definition identifiers (c : command) : list string :=
  match c with CreateMetadata a => [c_run_id a] | VerifyRestore a => [r_restore_id a] | _ => [] end.

Definition func (c : command) : IO Z :=
  match c with
  | ValidateContracts => command_validate_contracts
  | CreateMetadata a => command_create_metadata a
  | ReconstructMetadata i l o => command_reconstruct_metadata i l o
  | ValidateMetadata m c => command_validate_metadata m c
  | WriteBackupStatus i o => command_write_backup_status i o
  | ValidateBackupStatus s c => command_validate_backup_status s c
  | ValidateRestoreResult r c => command_validate_restore_result r c
  | CreateRecoveryStatus a => command_create_recovery_status a
  | VerifyRestore a => command_verify_restore a
  end.

Definition main (c : command) : IO Z :=
  catch (lift (rmap check_uuid (identifiers c)) ;; func c)
    (on_exn [OSError; KeyError; TypeError; ValueError; JSONDecodeError] (λ e,
       print_err (Json.dumps Json.compact (VDict [("error", VStr "database-recovery-contract"); ("message", VStr (exn_str e));
                                                  ("passed", VBool false)])) ;;
       mret 1)).
End Env.
End RecoveryContract.
