(* ===== verification/ContractProperties.v ===== *)
(** * Properties of the recovery contract

    What a bound document is, what a verified restore and a recovery status
    have shown, the selection of the backup, and the round trip of a document
    and its sidecar. *)

From Stdlib Require Import Ascii.
From S2P Require Import Prelude PyFloat PyMonad PyValue PyTime PyJson PyCodecs Sha256 PyOs OsFacts Fixture RecoveryContract.

Module ContractSpec.
Import RecoveryContract.

Lemma require_Ok b m u : require b m = Ok u -> b = true.
Proof. by destruct b. Qed.

(** [get_eq] answers true: the value is there and equal. *)
Lemma get_eq_true v k x : get_eq v k x = Ok true <-> exists y, dget v k = Ok y /\ py_eq y x = true.
Proof.
  unfold get_eq. rewrite bind_Ok. split; intros (y & Hy & E); exists y; (split; [done|]).
  - by injection E.
  - by rewrite E.
Qed.

Section Evidence.
Context `{Platform}.

(** A document bound by its checksum sidecar, without a schema error. *)
Definition bound (w : world) (p checksum schema_path : path) (d : val) : Prop :=
  exists data m text schema, stat w p = Some (NFile data m) /\ read_text checksum w = (Ok text, w) /\
    checksum_in text = Some (Sha256.hexdigest data) /\ load_json p w = (Ok d, w) /\
    load_json schema_path w = (Ok schema, w) /\ sorted_errors schema d = Ok [].

Lemma ro_load_contract p : Pres eq (load_json p).
Proof. unfold load_json. solve_pres. Qed.
#[local] Hint Resolve ro_load_contract : pres.
Lemma ro_validate_instance v p : Pres eq (validate v p).
Proof. unfold validate. solve_pres. Qed.
Lemma ro_sha_contract p : Pres eq (sha256_file p).
Proof. unfold sha256_file, PyOs.sha256_file. solve_pres. Qed.
Lemma ro_expected_checksum p : Pres eq (expected_checksum p).
Proof. unfold expected_checksum. solve_pres. Qed.
#[local] Hint Resolve ro_validate_instance ro_sha_contract ro_expected_checksum : pres.
Lemma ro_validate_bound what p c s : Pres eq (validate_bound what p c s).
Proof. unfold validate_bound. solve_pres. Qed.
Lemma ro_manifest_entries p : Pres eq (manifest_entries p).
Proof. unfold manifest_entries. solve_pres. Qed.
#[local] Hint Resolve ro_validate_bound ro_manifest_entries : pres.
Lemma ro_validate_metadata p c : Pres eq (validate_metadata p c).
Proof. unfold validate_metadata. solve_pres. Qed.
Lemma ro_validate_document p c s : Pres eq (validate_checksummed_document p c s).
Proof. unfold validate_checksummed_document. solve_pres. Qed.
#[local] Hint Resolve ro_validate_metadata ro_validate_document : pres.

Lemma expected_checksum_Ok p w h w' : expected_checksum p w = (Ok h, w') ->
  w' = w /\ exists text, read_text p w = (Ok text, w) /\ checksum_in text = Some h.
Proof.
  intros E. same_world E. split; [done|]. unfold expected_checksum in E.
  apply M_bind_Ok in E as (text & w1 & E1 & E). same_world E1. exists text. split; [done|].
  destruct (checksum_in text); [|done]. by apply ret_Ok in E as [-> _].
Qed.
Lemma sha_Ok p w h w' : sha256_file p w = (Ok h, w') ->
  w' = w /\ exists data m, stat w p = Some (NFile data m) /\ h = Sha256.hexdigest data.
Proof.
  intros E. unfold sha256_file, PyOs.sha256_file in E. apply M_bind_Ok in E as (data & w1 & E1 & E).
  apply ret_Ok in E as [<- <-]. unfold read_bytes in E1.
  destruct (stat w p) as [[data' m| |]|]; try discriminate. injection E1 as -> ->. split; [done|]. by exists data, m.
Qed.
Lemma validate_bound_Ok what p c s w d w' : validate_bound what p c s w = (Ok d, w') -> w' = w /\ bound w p c s d.
Proof.
  intros E. same_world E. split; [done|]. unfold validate_bound in E.
  apply M_bind_Ok in E as (h & w1 & E1 & E). apply expected_checksum_Ok in E1 as (-> & text & Et & Eh).
  apply M_bind_Ok in E as (h' & w1 & E2 & E). apply sha_Ok in E2 as (-> & data & m & Es & ->).
  destruct (String.eqb_spec h (Sha256.hexdigest data)) as [->|]; [|done]. cbn [negb] in E.
  apply M_bind_Ok in E as (v & w1 & E3 & E). same_world E3.
  apply M_bind_Ok in E as (u & w1 & E4 & E). apply ret_Ok in E as [<- ->].
  unfold validate in E4. apply M_bind_Ok in E4 as (schema & w2 & E5 & E4). same_world E5.
  apply M_bind_Ok in E4 as (errors & w2 & E6 & E4). apply lift_Ok in E6 as [E6 _].
  exists data, m, text, schema. by destruct errors.
Qed.

(** Exit status 0 of the program is that of the command. *)
Lemma main_zero c w : (main c w).1 = Ok 0 ->
  Forall (λ i, check_uuid i = Ok tt) (identifiers c) /\ exists w', func c w = (Ok 0, w').
Proof.
  destruct (main c w) as [r w'] eqn:E. cbn [fst]. intros ->. unfold main in E.
  apply catch_Ok in E as [E|(e & w3 & k & _ & Hk & E)].
  - apply M_bind_Ok in E as (us & w1 & E1 & E). apply lift_Ok in E1 as [E1 ->]. split; [|by exists w'].
    apply rmap_Ok in E1. induction E1 as [|x u l us Hx _ IH]; constructor; [by destruct u|done].
  - unfold on_exn in Hk. destruct (exn_in _ e); [|done]. injection Hk as <-.
    apply M_bind_Ok in E as (? & ? & _ & E). by apply ret_Ok in E as [? _].
Qed.

(** ** The selection of a backup *)

(** A backup that has each of the properties asked for. *)
Definition wanted (run_id backup_type label : option string) (b : val) : Prop :=
  (forall s, label = Some s -> dget b "label" = Ok (VStr s)) /\
  (forall s, backup_type = Some s -> dget b "type" = Ok (VStr s)) /\
  (forall s, run_id = Some s -> exists a, dget_or b "annotation" (VDict []) = Ok a /\ dget a "liqi-run-id" = Ok (VStr s)).

Lemma differs_false actual o : differs actual o = Ok false <-> forall s, o = Some s -> actual = Ok (VStr s).
Proof.
  destruct o as [s|]; simpl; [|by split]. rewrite bind_Ok. split.
  - intros (a & -> & E) t [= <-]. injection E as E. unfold py_ne in E. apply negb_false_iff, py_eq_str_r in E. by subst.
  - intros E. exists (VStr s). split; [by apply E|]. unfold py_ne. simpl. by rewrite String.eqb_refl.
Qed.

Lemma selected_wanted r t l b : selected r t l b = Ok true <-> wanted r t l b.
Proof.
  unfold selected, wanted. rewrite <-!differs_false. split.
  - intros E. apply bind_Ok in E as (o1 & E1 & E). destruct o1; [done|]. apply bind_Ok in E as (o2 & E2 & E).
    destruct o2; [done|]. apply bind_Ok in E as (o3 & E3 & E). destruct o3; [done|].
    split; [done|]. split; [done|]. intros s Hs.
    rewrite differs_false in E3. specialize (E3 s Hs). unfold annotation_of in E3.
    apply bind_Ok in E3 as (a & Ea & E3). by exists a.
  - intros (-> & -> & E3). cbn [mbind res_bind]. assert (differs (annotation_of b "liqi-run-id") r = Ok false) as ->; [|done].
    apply differs_false. intros s Hs. destruct (E3 s Hs) as (a & Ea & Er). unfold annotation_of. rewrite Ea. exact Er.
Qed.

Lemma rfilter_Ok {A} (f : A -> res bool) l l' : rfilter f l = Ok l' ->
  Forall (λ x, exists b, f x = Ok b) l /\ l' = List.filter (λ x, match f x with Ok b => b | Raise _ => false end) l.
Proof.
  revert l'. induction l as [|x r IH]; intros l' E; simpl in E; [by injection E as <-|].
  apply bind_Ok in E as (b & Eb & E). apply bind_Ok in E as (ys & Ey & E). injection E as <-.
  destruct (IH _ Ey) as [Hf ->]. simpl. rewrite Eb. split; [constructor; [by exists b|done]|done].
Qed.

(** The backup selected is the only one of its stanza, the first of the name, with the
    label, the type and the run asked for: any other backup of the list differs in one of
    them, so the evidence cannot be attached to another backup. *)
Theorem backup_unique items stanza_name r t l stanza b :
  select_backup (VList items) stanza_name r t l = Ok (stanza, b) ->
  stanza ∈ items /\ dget stanza "name" = Ok (VStr stanza_name) /\
  exists v before after, dget_or stanza "backup" (VList []) = Ok v /\ py_iter v = Ok (before ++ b :: after) /\
    wanted r t l b /\ Forall (λ c, ~ wanted r t l c) (before ++ after).
Proof.
  intros E. unfold select_backup in E. apply bind_Ok in E as (found & Ef & E). destruct found as [s|]; [|done].
  apply bind_Ok in E as (v & Ev & E). apply bind_Ok in E as (backups & Eb & E).
  apply bind_Ok in E as (cs & Ec & E). destruct cs as [|c [|c2 cs]]; try discriminate. injection E as -> ->.
  assert (stanza ∈ items /\ dget stanza "name" = Ok (VStr stanza_name)) as [Hin Hn].
  { clear -Ef. induction items as [|x items IH]; simpl in Ef; [done|]. apply bind_Ok in Ef as (o & Eo & Ef).
    destruct o; [injection Ef as ->|destruct (IH Ef); split; [by right|done]].
    apply get_eq_true in Eo as (y & Ey & ->%py_eq_str_r). split; [by left|done]. }
  split; [done|]. split; [done|]. apply rfilter_Ok in Ec as [Hok Hc].
  assert (exists before after, backups = before ++ b :: after /\ selected r t l b = Ok true /\
    Forall (λ c, selected r t l c <> Ok true) (before ++ after)) as (before & after & -> & Hs & Ha).
  { clear -Hok Hc. induction Hok as [|x backups [o Ho] Hok IH]; simpl in Hc; [done|]. rewrite Ho in Hc. destruct o.
    - injection Hc as -> Hc. exists [], backups. split; [done|]. split; [done|]. simpl. symmetry in Hc.
      apply filter_nil_iff in Hc. eapply Forall_impl; [exact Hc|]. intros y Hy E. simpl in Hy. by rewrite E in Hy.
    - destruct (IH Hc) as (before & after & -> & Hs & Ha). exists (x :: before), after.
      split; [done|]. split; [done|]. simpl. constructor; [by rewrite Ho|done]. }
  exists v, before, after. split; [done|]. split; [done|]. rewrite <-selected_wanted. split; [done|].
  eapply Forall_impl; [exact Ha|]. intros d Hd Hw. by apply Hd, selected_wanted.
Qed.

(** ** A verified restore *)

(** Two values that are there and equal, as Python compares them. *)
Definition agree (x y : res val) : Prop := exists u v, x = Ok u /\ y = Ok v /\ py_eq u v = true.

Record cluster_verified (metadata actual : val) (manifest_sha : string) (rows : list val) : Prop := {
  v_schema : agree (Ok (VStr "database-backup-metadata-v1")) (dget metadata "schemaVersion");
  v_major : agree (item metadata ["postgresql"; "major"]) (dget actual "postgresqlMajor");
  v_migration : agree (item metadata ["migration"; "currentVersion"]) (dget actual "migrationVersion");
  v_manifest : agree (item metadata ["migration"; "manifestSha256"]) (Ok (VStr manifest_sha));
  v_rows : agree (Ok (VList rows)) (dget_or actual "migrations" (VList []));
  v_state : agree (Ok (VStr "completed")) (probe_of actual "probeStatus");
  v_outbox : agree (Ok (VStr "succeeded")) (probe_of actual "outboxState");
  v_effect : agree (Ok (VInt 1)) (probe_of actual "effectCount");
  v_failed : agree (Ok (VInt 0)) (dget actual "failedMigrationRuns");
  v_probe : agree (item metadata ["probe"; "probeId"]) (probe_of actual "probeId");
  v_event : agree (item metadata ["probe"; "eventId"]) (probe_of actual "eventId");
  v_promoted : agree (Ok (VBool false)) (dget actual "inRecovery");
  v_archive : agree (Ok (VStr "off")) (dget actual "archiveMode");
  v_isolated : agree (Ok (VStr "")) (dget actual "listenAddresses")
}.

Lemma agree_intro x y u v : x = Ok u -> y = Ok v -> py_eq u v = true -> agree x y.
Proof. intros. by exists u, v. Qed.

Lemma cluster_checks_passed metadata actual sha rows arows checks :
  dget_or actual "migrations" (VList []) = Ok arows ->
  cluster_checks metadata actual sha rows arows = Ok checks -> forallb passed checks = true ->
  cluster_verified metadata actual sha rows.
Proof.
  intros Ha E Hp. unfold cluster_checks in E. inv_run. injection E as <-.
  cbn [forallb] in Hp. rewrite !andb_true_iff in Hp. destr_and.
  split; (eapply agree_intro; [first [eassumption|reflexivity]..|eassumption]).
Qed.

Lemma drill_run {A} (f : Z -> IO A) w : (now ≫= f) w = f (utc_at (ticks w)) (advance (elapse (ticks w)) w).
Proof. done. Qed.

(** C13: A restore is reported verified (exit code 0) only for a bound metadata document and a
    restored cluster that agrees with it and with the manifest at hand: the same
    PostgreSQL major, migration and migration rows, the manifest's own digest, the
    recovery probe complete, with its identity and exactly one effect, no failed
    migration, and a cluster that is promoted, archives nothing and listens nowhere. *)
Theorem restore_verified (a : restore_args) w : (main (VerifyRestore a) w).1 = Ok 0 ->
  check_uuid (r_restore_id a) = Ok tt /\
  exists metadata actual data m rows,
    bound w (Path.of_str (r_metadata a)) (Path.of_str (r_checksum a)) BACKUP_SCHEMA metadata /\
    load_json (Path.of_str (r_actual a)) w = (Ok actual, w) /\
    stat w (Path.of_str (r_manifest a)) = Some (NFile data m) /\
    manifest_entries (Path.of_str (r_manifest a)) w = (Ok rows, w) /\
    cluster_verified metadata actual (Sha256.hexdigest data) rows.
Proof.
  intros (Hid & w' & E)%main_zero. cbn [func identifiers] in *. rewrite Forall_singleton in Hid. split; [exact Hid|].
  unfold command_verify_restore in E. cbn zeta in E.
  apply M_bind_Ok in E as (metadata & w1 & E1 & E). apply validate_bound_Ok in E1 as [-> Hb].
  apply M_bind_Ok in E as (actual & w1 & E2 & E). same_world E2.
  apply M_bind_Ok in E as (sha & w1 & E3 & E). apply sha_Ok in E3 as (-> & data & m & Hs & ->).
  apply M_bind_Ok in E as (rows & w1 & E4 & E). same_world E4.
  apply M_bind_Ok in E as (arows & w1 & E5 & E). apply lift_Ok in E5 as [E5 ->].
  apply M_bind_Ok in E as (expected & w1 & E6 & E). same_world E6.
  apply M_bind_Ok in E as (observed & w1 & E7 & E). same_world E7.
  apply M_bind_Ok in E as (checks & w1 & E8 & E). apply lift_Ok in E8 as [E8 ->].
  apply M_bind_Ok in E as (started & w1 & _ & E). do 6 (apply M_bind_Ok in E as (? & ? & _ & E)).
  apply M_bind_Ok in E as (? & ? & _ & E). apply ret_Ok in E as [E _].
  destruct (forallb passed _) eqn:Ep; [|done]. cbn [forallb] in Ep. apply andb_true_iff in Ep as [_ Ep].
  exists metadata, actual, data, m, rows. do 4 (split; [done|]). by eapply cluster_checks_passed.
Qed.

(** ** The recovery status *)

(** What the guards have established of the four documents. *)
Record status_bound (a : status_args) (latest restore backup source : val) (source_sha : string) : Prop := {
  b_environment : s_environment a ∈ ["development"; "staging"; "production"];
  b_ready : exists r, dget backup "recoveryReady" = Ok r /\ truthy r = true;
  b_reasons : exists r, dget backup "reasons" = Ok r /\ truthy r = false;
  b_success : exists s, dget restore "success" = Ok s /\ truthy s = true;
  b_latest : exists l, dget backup "latestBackup" = Ok l /\ agree (dget l "label") (label_of latest);
  b_source : agree (dget restore "backupLabel") (label_of source);
  b_digest : dget restore "backupMetadataSha256" = Ok (VStr source_sha);
  b_current : agree (dget backup "migrationVersion") (version_of latest);
  b_proof : agree (version_of source) (version_of latest);
  b_major : agree (item source ["postgresql"; "major"]) (item latest ["postgresql"; "major"]);
  b_probe : exists p q, dget backup "probe" = Ok p /\ getitem latest "probe" = Ok q /\
    Forall (λ k, agree (dget p k) (dget q k)) PROBE_KEYS;
  b_lag : exists ar lag, dget backup "archive" = Ok ar /\ dget ar "secondsSinceLastArchive" = Ok lag /\
    is_num lag = true /\ py_lt lag (VInt 0) = Ok false
}.

Lemma same_probe_Ok p q keys u : same_probe p q keys = Ok u -> Forall (λ k, agree (dget p k) (dget q k)) keys.
Proof.
  induction keys as [|k keys IH]; intros E; simpl in E; [constructor|].
  apply bind_Ok in E as (x & Ex & E). apply bind_Ok in E as (y & Ey & E). unfold py_ne in E.
  destruct (py_eq x y) eqn:Exy; [|done]. constructor; [by exists x, y|by apply IH].
Qed.

Lemma status_guards_Ok a latest restore backup source u : status_guards a latest restore backup source = Ok u ->
  s_environment a ∈ ["development"; "staging"; "production"] /\
  (exists r, dget backup "recoveryReady" = Ok r /\ truthy r = true) /\
  (exists r, dget backup "reasons" = Ok r /\ truthy r = false) /\
  (exists s, dget restore "success" = Ok s /\ truthy s = true) /\
  (exists l, dget backup "latestBackup" = Ok l /\ agree (dget l "label") (label_of latest)) /\
  agree (dget restore "backupLabel") (label_of source).
Proof.
  unfold status_guards. intros E. apply bind_Ok in E as (u1 & E1%require_Ok & E).
  apply bind_Ok in E as (ready & Er & E). apply bind_Ok in E as (reasons & Es & E).
  apply bind_Ok in E as (u2 & E2%require_Ok & E). apply andb_true_iff in E2 as [Hr Hs%negb_true_iff].
  apply bind_Ok in E as (success & Ec & E). apply bind_Ok in E as (u3 & E3%require_Ok & E).
  apply bind_Ok in E as (label & El & E). apply bind_Ok in E as (lb & Elb & E).
  apply bind_Ok in E as (named & En & E). apply bind_Ok in E as (u4 & E4%require_Ok & E). subst named.
  apply bind_Ok in E as (restored & Ert & E). apply bind_Ok in E as (sl & Esl & E). apply require_Ok in E.
  split; [by apply elem_of_existsb_string|]. split; [by exists ready|]. split; [by exists reasons|]. split; [by exists success|].
  split; [|by exists restored, sl]. exists lb. split; [done|].
  destruct (is_dict lb); [|done]. apply get_eq_true in En as (y & Ey & Eq). by exists y, label.
Qed.

Lemma currency_guards_Ok latest restore backup source al : currency_guards latest restore backup source = Ok al ->
  agree (dget backup "migrationVersion") (version_of latest) /\ agree (version_of source) (version_of latest) /\
  agree (item source ["postgresql"; "major"]) (item latest ["postgresql"; "major"]) /\
  (exists p q, dget backup "probe" = Ok p /\ getitem latest "probe" = Ok q /\
     Forall (λ k, agree (dget p k) (dget q k)) PROBE_KEYS) /\
  (exists ar lag, dget backup "archive" = Ok ar /\ dget ar "secondsSinceLastArchive" = Ok lag /\
     is_num lag = true /\ py_lt lag (VInt 0) = Ok false).
Proof.
  unfold currency_guards. intros E. apply bind_Ok in E as (current & Ec & E). apply bind_Ok in E as (mv & Em & E).
  apply bind_Ok in E as (u1 & E1%require_Ok & E). apply bind_Ok in E as (sv & Esv & E).
  apply bind_Ok in E as (u2 & E2%require_Ok & E). apply bind_Ok in E as (x & Ex & E). apply bind_Ok in E as (y & Ey & E).
  apply bind_Ok in E as (u3 & E3%require_Ok & E). apply bind_Ok in E as (p & Ep & E). apply bind_Ok in E as (q & Eq & E).
  apply bind_Ok in E as (u4 & _ & E). apply bind_Ok in E as (u5 & E5%same_probe_Ok & E).
  apply bind_Ok in E as (ar & Ear & E). apply bind_Ok in E as (ad & _ & E). apply bind_Ok in E as (u6 & _ & E).
  apply bind_Ok in E as (lag & El & E). apply bind_Ok in E as (neg & En & E).
  apply bind_Ok in E as (u7 & E7%require_Ok & E). apply negb_true_iff in E7 as ->.
  split; [by exists mv, current|]. split; [by exists sv, current|]. split; [by exists x, y|].
  split; [by exists p, q|]. exists ar, lag. split; [done|]. split; [done|].
  by destruct (is_num lag).
Qed.

(** A recovery status is created (exit code 0) only from four documents, each bound by
    its sidecar and without a schema error, that speak of the same history: the backup
    status names the latest metadata, is ready and without a reason against it; the
    restore passed and names the source metadata by label and by digest; all have the
    migration, the PostgreSQL major and the recovery probe of the latest backup, and the
    lag of the WAL archive is a number that is not negative. *)
Theorem recovery_status_bound (a : status_args) w : (main (CreateRecoveryStatus a) w).1 = Ok 0 ->
  exists latest restore backup source p c data m,
    bound w (Path.of_str (s_metadata a)) (Path.of_str (s_metadata_checksum a)) BACKUP_SCHEMA latest /\
    bound w (Path.of_str (s_restore_result a)) (Path.of_str (s_restore_checksum a)) RESTORE_SCHEMA restore /\
    bound w (Path.of_str (s_backup_status a)) (Path.of_str (s_backup_status_checksum a)) BACKUP_STATUS_SCHEMA backup /\
    restore_source a restore = Ok (p, c) /\ bound w p c BACKUP_SCHEMA source /\
    stat w p = Some (NFile data m) /\
    status_bound a latest restore backup source (Sha256.hexdigest data).
Proof.
  intros (_ & w' & E)%main_zero. cbn [func] in E. unfold command_create_recovery_status in E. cbn zeta in E.
  apply M_bind_Ok in E as (latest & w1 & E1 & E). apply validate_bound_Ok in E1 as [-> H1].
  apply M_bind_Ok in E as (restore & w1 & E2 & E). apply validate_bound_Ok in E2 as [-> H2].
  apply M_bind_Ok in E as (backup & w1 & E3 & E). apply validate_bound_Ok in E3 as [-> H3].
  apply M_bind_Ok in E as ([p c] & w1 & E4 & E). apply lift_Ok in E4 as [E4 ->]. cbn [fst snd] in E.
  apply M_bind_Ok in E as (source & w1 & E5 & E). apply validate_bound_Ok in E5 as [-> H5].
  apply M_bind_Ok in E as (u & w1 & E6 & E). apply lift_Ok in E6 as [E6%status_guards_Ok ->].
  apply M_bind_Ok in E as (recorded & w1 & E7 & E). apply lift_Ok in E7 as [E7 ->].
  apply M_bind_Ok in E as (sha & w1 & E8 & E). apply sha_Ok in E8 as (-> & data & m & Hs & ->).
  apply M_bind_Ok in E as (u2 & w1 & E9 & E). apply lift_Ok in E9 as [E9%require_Ok ->].
  apply py_eq_str_r in E9 as ->.
  apply M_bind_Ok in E as (al & w1 & E10 & E). apply lift_Ok in E10 as [E10%currency_guards_Ok ->].
  exists latest, restore, backup, source, p, c, data, m. do 6 (split; [done|]).
  destruct E6 as (? & ? & ? & ? & ? & ?), E10 as (? & ? & ? & ? & ?). by split.
Qed.
End Evidence.
End ContractSpec.

(** ** Concrete runs *)

Module ContractRun.
Import Fixture RecoveryContract ContractSpec.

Definition run_id : string := "7d1f6d0e-2b0a-4c7e-9c8e-0a1b2c3d4e5f".
Definition manifest : string := Sha256.hexdigest "create table a;" +:+ "  0001_init.sql
" +:+ Sha256.hexdigest "create table b;" +:+ " *0002_jobs.sql
".
Definition rows : val := VList [
  VDict [("version", VInt 1); ("name", VStr "init"); ("checksumSha256", VStr (Sha256.hexdigest "create table a;"))];
  VDict [("version", VInt 2); ("name", VStr "jobs"); ("checksumSha256", VStr (Sha256.hexdigest "create table b;"))]].
Definition probe : list (string * val) := [("probeId", VStr "p1"); ("eventId", VStr "e1"); ("probeStatus", VStr "completed");
  ("outboxState", VStr "succeeded"); ("effectCount", VInt 1)].
Definition metadata : string := json (VDict [("schemaVersion", VStr "database-backup-metadata-v1");
  ("backup", VDict [("label", VStr "20260714-050000F"); ("stoppedAt", VStr "2026-07-14T05:00:00Z")]);
  ("postgresql", VDict [("major", VInt 17)]);
  ("migration", VDict [("currentVersion", VInt 2); ("manifestSha256", VStr (Sha256.hexdigest manifest))]);
  ("repository", VDict [("clientSideEncryption", VStr "aes-256-cbc")]);
  ("probe", VDict (probe ++ [("completedAt", VStr "2026-07-14T04:58:30Z")]))]).
Definition cluster : string := json (VDict [("postgresqlMajor", VInt 17); ("migrationVersion", VInt 2);
  ("migrations", rows); ("failedMigrationRuns", VInt 0); ("inRecovery", VBool false); ("archiveMode", VStr "off");
  ("listenAddresses", VStr ""); ("probe", VDict probe)]).
Definition restore : string := json (VDict [("backupLabel", VStr "20260714-050000F"); ("success", VBool true);
  ("backupMetadataSha256", VStr (Sha256.hexdigest metadata)); ("finishedAt", VStr "2026-07-14T05:40:00Z");
  ("workingTargets", VDict [("rpoObservedSeconds", VInt 90); ("rtoObservedSeconds", VInt 900)])]).
Definition backup : string := json (VDict [("recoveryReady", VBool true); ("reasons", VList []);
  ("latestBackup", VDict [("label", VStr "20260714-050000F")]); ("migrationVersion", VInt 2); ("probe", VDict probe);
  ("archive", VDict [("lastArchivedAt", VStr "2026-07-14T05:59:00Z"); ("secondsSinceLastArchive", VInt 60)])]).

(** A document and its sidecar. *)
Definition with_sidecar (name text : string) : list (string * string) :=
  [("/e/" +:+ name, text); ("/e/" +:+ name +:+ ".sha256", sidecar_text text name)].
Definition w0 : world := world_with (
  with_sidecar "20260714-050000F.json" metadata ++ with_sidecar "restore.json" restore ++ with_sidecar "backup.json" backup ++
  [("/e/cluster.json", cluster); ("/e/manifest.sha256", manifest);
   ("/repo/contracts/database/backup-metadata-v1.schema.json", "{}");
   ("/repo/contracts/platform/database-backup-status-v0.schema.json", "{}");
   ("/repo/contracts/platform/database-restore-result-v0.schema.json", "{}")]).

Definition the_restore : restore_args := Restore "/e/20260714-050000F.json" "/e/20260714-050000F.json.sha256"
  "/e/cluster.json" "/e/manifest.sha256" run_id "2026-07-14T05:50:00Z" "/var/lib/restore" "/run/restore" 5433 "/e/result.json".
Definition the_status : status_args := Status "production" "/e/20260714-050000F.json" "/e/20260714-050000F.json.sha256"
  "/e/restore.json" "/e/restore.json.sha256" None None "/e/backup.json" "/e/backup.json.sha256" None None None
  "pgbackrest://management/archive" None.

Lemma restore_verified_witness : let host := quiet_host in let a := the_restore in let w := w0 in
  check_uuid (r_restore_id a) = Ok tt /\
  exists metadata actual data m rows,
    bound w (Path.of_str (r_metadata a)) (Path.of_str (r_checksum a)) BACKUP_SCHEMA metadata /\
    load_json (Path.of_str (r_actual a)) w = (Ok actual, w) /\
    stat w (Path.of_str (r_manifest a)) = Some (NFile data m) /\
    manifest_entries (Path.of_str (r_manifest a)) w = (Ok rows, w) /\
    cluster_verified metadata actual (Sha256.hexdigest data) rows.
Proof.
  intros host a w. apply (restore_verified (H := host) a w).
  assert ((main (H := host) (VerifyRestore a) w).1 = Ok 0) as E by (vm_compute; reflexivity). exact E.
Defined.

Lemma recovery_status_bound_witness : let host := quiet_host in let a := the_status in let w := w0 in
  exists latest restore backup source p c data m,
    bound w (Path.of_str (s_metadata a)) (Path.of_str (s_metadata_checksum a)) BACKUP_SCHEMA latest /\
    bound w (Path.of_str (s_restore_result a)) (Path.of_str (s_restore_checksum a)) RESTORE_SCHEMA restore /\
    bound w (Path.of_str (s_backup_status a)) (Path.of_str (s_backup_status_checksum a)) BACKUP_STATUS_SCHEMA backup /\
    restore_source a restore = Ok (p, c) /\ bound w p c BACKUP_SCHEMA source /\
    stat w p = Some (NFile data m) /\
    status_bound a latest restore backup source (Sha256.hexdigest data).
Proof.
  intros host a w. apply (recovery_status_bound (H := host) a w).
  assert ((main (H := host) (CreateRecoveryStatus a) w).1 = Ok 0) as E by (vm_compute; reflexivity). exact E.
Defined.

Definition full : val := VDict [("label", VStr "20260714-050000F"); ("type", VStr "full");
  ("annotation", VDict [("liqi-run-id", VStr run_id)])].
Definition diff : val := VDict [("label", VStr "20260714-050000F_20260714-055000D"); ("type", VStr "diff")].
Definition stanza : val := VDict [("name", VStr "liqi"); ("backup", VList [diff; full])].

Lemma backup_unique_witness :
  stanza ∈ [stanza] /\ dget stanza "name" = Ok (VStr "liqi") /\
  exists v before after, dget_or stanza "backup" (VList []) = Ok v /\ py_iter v = Ok (before ++ full :: after) /\
    wanted (Some run_id) (Some "full") None full /\ Forall (λ c, ~ wanted (Some run_id) (Some "full") None c) (before ++ after).
Proof.
  apply (backup_unique [stanza] "liqi" (Some run_id) (Some "full") None stanza full). vm_compute. reflexivity.
Defined.
End ContractRun.
