(* ===== verification/SidecarFacts.v ===== *)
(** * Sidecars: the shape of a digest and its reading back

    A SHA-256 sidecar holds the digest, two spaces and the name of the file.
    The digest is 64 lowercase hexadecimal digits, and the first word of the
    sidecar's text is the digest, whatever the name is. *)

From Stdlib Require Import Ascii.
From S2P Require Import Prelude PyFloat PyMonad PyValue PyTime PyJson PyCodecs Sha256 PyOs OsFacts FsFacts Fixture RecoveryContract.

Module SidecarFacts.
Import Str.

(** ** The first word of a text *)

Definition solid (s : string) : bool := all_chars (λ c, negb (is_space c)) s.

Lemma lstrip_solid s t : s <> "" -> solid s = true -> lstrip (s +:+ t) = s +:+ t.
Proof.
  destruct s as [|c s]; [done|]. intros _ Hs. unfold solid in Hs. rewrite all_chars_cons in Hs.
  apply andb_true_iff in Hs as [Hc%negb_true_iff _]. unfold lstrip. simpl. by rewrite Hc.
Qed.

Lemma lstrip_keeps f a b : (exists c r, b = String c r /\ f c = false) -> lstrip_by f (a +:+ b) = lstrip_by f a +:+ b.
Proof.
  intros (c & r & -> & Hc). induction a as [|x a IH]; [simpl; by rewrite Hc|].
  rewrite app_cons. simpl. by destruct (f x).
Qed.
Lemma lstrip_last f c a : lstrip_by f (a +:+ String c "") = "" \/ exists b, lstrip_by f (a +:+ String c "") = b +:+ String c "".
Proof.
  induction a as [|x a IH].
  - simpl. destruct (f c); [by left|right]. by exists "".
  - rewrite app_cons. simpl. destruct (f x); [exact IH|]. right. exists (String x a). by rewrite app_cons.
Qed.

Lemma of_list_app l m : of_list (l ++ m) = of_list l +:+ of_list m.
Proof. induction l as [|x l IH]; [done|]. simpl. by rewrite IH. Qed.
Lemma rev_app a b : rev (a +:+ b) = rev b +:+ rev a.
Proof. unfold rev. by rewrite to_list_app, rev_app_distr, of_list_app. Qed.
Lemma to_of_list l : to_list (of_list l) = l.
Proof. induction l as [|x l IH]; simpl; [done|]. by rewrite IH. Qed.
Lemma rev_rev a : rev (rev a) = a.
Proof. unfold rev. by rewrite to_of_list, rev_involutive, of_to_list. Qed.
Lemma rev_cons c a : rev (String c a) = rev a +:+ String c "".
Proof. change (String c a) with (String c "" +:+ a). by rewrite rev_app. Qed.
Lemma solid_rev s : solid (rev s) = solid s.
Proof.
  unfold solid, all_chars, rev. rewrite to_of_list. generalize (to_list s). intros l.
  induction l as [|x l IH]; [done|]. simpl. rewrite forallb_app, IH. simpl. by rewrite andb_true_r, andb_comm.
Qed.

Lemma strip_solid s t : s <> "" -> solid s = true -> strip (s +:+ t) = s +:+ rstrip t.
Proof.
  intros Hn Hs. unfold strip. rewrite lstrip_solid by done. unfold rstrip. rewrite rev_app.
  unfold lstrip. rewrite lstrip_keeps.
  - by rewrite rev_app, rev_rev.
  - rewrite <-solid_rev in Hs. destruct (rev s) as [|c r] eqn:E.
    + exfalso. apply Hn. by rewrite <-(rev_rev s), E.
    + exists c, r. split; [done|]. unfold solid in Hs. rewrite all_chars_cons in Hs.
      by apply andb_true_iff in Hs as [?%negb_true_iff _].
Qed.
Lemma rstrip_head c t : rstrip (String c t) = "" \/ exists r, rstrip (String c t) = String c r.
Proof.
  unfold rstrip. rewrite rev_cons. destruct (lstrip_last is_space c (rev t)) as [E|[b E]]; unfold lstrip; rewrite E.
  - by left.
  - right. exists (rev b). by rewrite rev_app.
Qed.

Lemma words_go_solid s t : forall cur, solid s = true ->
  words_go cur (s +:+ t) = words_go (match s with "" => cur | _ => Some (List.rev (to_list s) ++ default [] cur) end) t.
Proof.
  induction s as [|c s IH]; intros cur Hs; [done|]. unfold solid in *. rewrite all_chars_cons in Hs.
  apply andb_true_iff in Hs as [Hc%negb_true_iff Hs]. rewrite app_cons. cbn [words_go]. rewrite Hc, IH by done.
  cbn [to_list List.rev]. destruct s as [|d s]; [done|]. cbn [default]. by rewrite <-List.app_assoc.
Qed.
Lemma words_first s t : s <> "" -> solid s = true -> (t = "" \/ exists c r, t = String c r /\ is_space c = true) ->
  exists l, words (s +:+ t) = s :: l.
Proof.
  intros Hn Hs Ht. unfold words. rewrite words_go_solid by done. destruct s as [|c s]; [done|].
  cbn [default]. rewrite List.app_nil_r.
  assert (of_list (List.rev (List.rev (to_list (String c s)))) = String c s) as E by (by rewrite rev_involutive, of_to_list).
  destruct Ht as [->|(d & r & -> & Hd)]; cbn [words_go]; [|rewrite Hd]; rewrite E; by eexists.
Qed.

(** The first word of [s], white space and anything else is [s]. *)
Lemma first_word s c t : s <> "" -> solid s = true -> is_space c = true -> exists l, words (strip (s +:+ String c t)) = s :: l.
Proof.
  intros Hn Hs Hc. rewrite strip_solid by done. apply words_first; [done..|].
  destruct (rstrip_head c t) as [->|[r ->]]; [by left|right; by exists c, r].
Qed.

(** ** The shape of a digest *)

(** A property of the hexadecimal digits, by cases on the byte. *)
Lemma hex_digit_props c : is_hex_lower c = true ->
  lower_char c = c /\ is_space c = false /\ is_cont c = false /\ (N_of_ascii c <? 128)%N = true /\ (N_of_ascii c =? 13)%N = false.
Proof. destruct c as [[] [] [] [] [] [] [] []]; vm_compute; intros; by repeat split. Qed.

Lemma lower_hex s : all_chars is_hex_lower s = true -> lower s = s.
Proof.
  induction s as [|c s IH]; [done|]. rewrite all_chars_cons. intros [Hc Hs]%andb_true_iff. simpl. rewrite IH by done.
  by destruct (hex_digit_props c Hc) as (-> & _).
Qed.
Lemma hex_solid s : all_chars is_hex_lower s = true -> solid s = true.
Proof.
  apply all_chars_impl. intros c Hc. by destruct (hex_digit_props c Hc) as (_ & -> & _).
Qed.
Lemma len_hex s : all_chars is_hex_lower s = true -> len s = Z.of_nat (String.length s).
Proof.
  induction s as [|c s IH]; [done|]. rewrite all_chars_cons. intros [Hc Hs]%andb_true_iff. simpl. rewrite IH by done.
  destruct (hex_digit_props c Hc) as (_ & _ & -> & _). lia.
Qed.

Lemma round_length h kw : length h = 8%nat -> length (Sha256.round h kw) = 8%nat.
Proof. by do 9 (destruct h as [|? h]; try done). Qed.
Lemma rounds_length l : forall h, length h = 8%nat -> length (fold_left Sha256.round l h) = 8%nat.
Proof. induction l as [|x l IH]; intros h Hh; [done|]. simpl. by apply IH, round_length. Qed.
Lemma blocks_length fuel : forall h w, length h = 8%nat -> length (Sha256.blocks fuel h w) = 8%nat.
Proof.
  induction fuel as [|k IH]; intros h w Hh; [done|]. cbn [Sha256.blocks]. destruct w as [|x w]; [done|].
  apply IH. unfold Sha256.compress. rewrite length_zip_with, rounds_length, Hh by done. done.
Qed.
Lemma digest_length s : length (Sha256.digest s) = 8%nat.
Proof. by apply blocks_length. Qed.

Lemma hex_digit_hex n : (n < 16)%N -> is_hex_lower (hex_digit n) = true.
Proof.
  intros Hn. assert (n ∈ [0;1;2;3;4;5;6;7;8;9;10;11;12;13;14;15]%N) as Hin.
  { apply list_elem_of_In. simpl. lia. }
  repeat (apply elem_of_cons in Hin as [->|Hin]; [reflexivity|]). by apply not_elem_of_nil in Hin.
Qed.
Lemma hex2_hex n : (n < 256)%N -> all_chars is_hex_lower (hex2 n) = true.
Proof.
  intros Hn. unfold hex2. rewrite !all_chars_cons.
  rewrite !hex_digit_hex; [done|apply N.mod_lt; lia|]. apply N.Div0.div_lt_upper_bound; lia.
Qed.
Lemma be_bytes_range n z : Forall (λ b, 0 <= b < 256) (Sha256.be_bytes n z).
Proof.
  induction n as [|k IH]; cbn [Sha256.be_bytes]; constructor; [|done].
  change 255 with (Z.ones 8). rewrite Z.land_ones by lia. apply Z.mod_pos_bound. lia.
Qed.
Lemma be_bytes_length n z : length (Sha256.be_bytes n z) = n.
Proof. induction n as [|k IH]; cbn [Sha256.be_bytes length]; [done|by rewrite IH]. Qed.

Lemma hex_join l : Forall (λ b, 0 <= b < 256) l ->
  let t := join "" (map (λ b, hex2 (Z.to_N b)) l) in
  all_chars is_hex_lower t = true /\ String.length t = (2 * length l)%nat.
Proof.
  induction 1 as [|b l Hb Hl IH]; [done|]. cbn zeta in *. destruct IH as [IH1 IH2].
  assert (all_chars is_hex_lower (hex2 (Z.to_N b)) = true) as Hx by (apply hex2_hex; lia).
  destruct l as [|b2 l]; [by split|]. cbn [map]. cbn [map] in IH1, IH2.
  change (join "" (?x :: ?y :: ?r)) with (x +:+ join "" (y :: r)).
  rewrite all_chars_app, Hx, IH1. split; [done|]. unfold hex2 at 1. rewrite !app_cons, app_nil_l. cbn [String.length].
  rewrite IH2. cbn [length]. lia.
Qed.

Lemma hexdigest_shape s :
  all_chars is_hex_lower (Sha256.hexdigest s) = true /\ String.length (Sha256.hexdigest s) = 64%nat.
Proof.
  unfold Sha256.hexdigest. destruct (hex_join (Sha256.digest s ≫= Sha256.be_bytes 4)) as [H1 H2].
  - pose proof (digest_length s) as _. induction (Sha256.digest s) as [|z l IH]; [constructor|].
    cbn [mbind list_bind]. apply Forall_app. split; [apply be_bytes_range|exact IH].
  - split; [exact H1|]. rewrite H2. pose proof (digest_length s) as Hl.
    assert (forall l, length (l ≫= Sha256.be_bytes 4) = (4 * length l)%nat) as Hb; [|by rewrite Hb, Hl].
    induction l as [|z l IH]; [done|]. change (length (Sha256.be_bytes 4 z ++ (l ≫= Sha256.be_bytes 4)) = (4 * S (length l))%nat).
    rewrite length_app, be_bytes_length, IH. lia.
Qed.

(** The checksum in the text of a sidecar is the digest it was written with. *)
Lemma checksum_in_sidecar data t :
  RecoveryContract.checksum_in (Sha256.hexdigest data +:+ String " " t) = Some (Sha256.hexdigest data).
Proof.
  destruct (hexdigest_shape data) as [Hh Hl]. unfold RecoveryContract.checksum_in.
  destruct (first_word (Sha256.hexdigest data) " " t) as [l ->]; [|by apply hex_solid|done|].
  - by intros E; rewrite E in Hl.
  - by rewrite len_hex, Hl, lower_hex.
Qed.
End SidecarFacts.

(** ** Plain paths and their texts *)

Module PathFacts.

Export PathText.

Section Child.
Context (d : list string) (c : string).

Lemma sidecar_child : Forall (λ s, comp s = true) d -> comp (c +:+ ".sha256") = true ->
  RecoveryContract.sidecar (MkPath true (d ++ [c])) = MkPath true (d ++ [c +:+ ".sha256"]).
Proof.
  intros Hd Hc. unfold RecoveryContract.sidecar, Path.to_str at 1. cbn [absolute parts].
  rewrite Str.app_assoc, join_suffix. apply (of_to_str (d ++ [c +:+ ".sha256"])); [by destruct d|].
  apply Forall_app. split; [done|by constructor].
Qed.
End Child.

(** ** Running forward in a plain directory *)

Section Directory.
Context (d : list string) (Hdd : ".." ∉ d).

Lemma dir_node f : dirs_ok f d -> is_dir_node (node_at f d) = true.
Proof using Hdd.
  intros Hd. destruct d as [|x l] eqn:E; [done|]. rewrite <-E in *.
  destruct (Hd d) as [m Hm].
  - destruct (exists_last (l := d)) as (l' & y & ->); [by rewrite E|]. rewrite prefixes_app. apply elem_of_app. right. by left.
  - unfold node_at. rewrite Hm. by rewrite E.
Qed.

Lemma canon_below w c : c <> ".." -> dirs_ok (fs w) d -> (forall t, fs w !! (d ++ [c]) <> Some (NLink t)) ->
  canon w (MkPath true (d ++ [c])) = Some (d ++ [c]).
Proof using Hdd.
  intros Hc Hd Hl. unfold canon, absolutize. cbn [absolute parts]. generalize max_links. intros n.
  assert (forall l done, ".." ∉ l -> (forall q, q ∈ prefixes done l -> exists m, fs w !! q = Some (NDir m)) ->
    (forall t, fs w !! (done ++ l ++ [c]) <> Some (NLink t)) -> walk (fs w) n done (l ++ [c]) = Some (done ++ l ++ [c])) as Hw.
  { induction l as [|x l IH]; intros don Hx Hp Hk.
    - destruct n; simpl in *; (destruct (String.eqb_spec c "..") as [->|]; [done|]);
        destruct (fs w !! (don ++ [c])) as [[]|] eqn:E; try done; by destruct (Hk target).
    - apply not_elem_of_cons in Hx as [Hx Hll].
      assert (walk (fs w) n don ((x :: l) ++ [c]) = walk (fs w) n (don ++ [x]) (l ++ [c])) as ->.
      { destruct (Hp (don ++ [x])) as [m Hm]; [by left|].
        destruct n; simpl; (destruct (String.eqb_spec x "..") as [->|]; [done|]); by rewrite Hm. }
      rewrite IH; [by rewrite <-app_assoc|done|..].
      + intros q Hq. apply Hp. by right.
      + intros t. rewrite <-app_assoc. apply Hk. }
  by apply (Hw d []).
Qed.

Lemma write_new w c t : c <> ".." -> dirs_ok (fs w) d -> fs w !! (d ++ [c]) = None ->
  write_file (MkPath true (d ++ [c])) t w = (Ok tt, put_node (d ++ [c]) (NFile t (Meta 420 0 0)) w).
Proof using Hdd.
  intros Hc Hd Hn. unfold write_file. rewrite canon_below by (done || by rewrite Hn).
  by rewrite node_at_app, Hn, removelast_last, dir_node.
Qed.

Lemma replace_file w c t data m : c <> ".." -> t <> ".." -> c <> t -> dirs_ok (fs w) d ->
  fs w !! (d ++ [t]) = Some (NFile data m) -> (forall x, fs w !! (d ++ [c]) <> Some (NDir x)) ->
  replace (MkPath true (d ++ [t])) (MkPath true (d ++ [c])) w =
  (Ok tt, set_fs (<[d ++ [c] := NFile data m]> (delete (d ++ [t]) (fs w))) w).
Proof using Hdd.
  intros Hc Ht Hct Hd Hs Hk. unfold replace. rewrite !locate_plain, !node_at_app, Hs by done.
  rewrite bool_decide_false by (intros [_ [= ->]]%app_inj_2; done).
  rewrite removelast_last, dir_node by done. destruct (fs w !! (d ++ [c])) as [[]|] eqn:E; try done. by destruct (Hk m0).
Qed.

Lemma unlink_absent w c : c <> ".." -> dirs_ok (fs w) d -> fs w !! (d ++ [c]) = None ->
  unlink_missing_ok (MkPath true (d ++ [c])) w = (Ok tt, w).
Proof using Hdd. intros Hc Hd Hn. unfold unlink_missing_ok. by rewrite locate_plain, node_at_app, Hn. Qed.

Lemma read_child w c data m : c <> ".." -> dirs_ok (fs w) d -> fs w !! (d ++ [c]) = Some (NFile data m) ->
  read_bytes (MkPath true (d ++ [c])) w = (Ok data, w).
Proof using Hdd.
  intros Hc Hd Hn. unfold read_bytes, stat. rewrite canon_below by (done || by rewrite Hn). by rewrite node_at_app, Hn.
Qed.
End Directory.
End PathFacts.

(** ** The round trip of a document and its sidecar *)

Module SidecarSpec.
Import RecoveryContract SidecarFacts PathFacts.

Section RoundTrip.
Context `{Platform} (d : list string) (c : string).

(** [uuid.uuid4().hex]: 32 lowercase hexadecimal digits, as its documentation says. *)
Definition hex_tokens : Prop :=
  forall n, Str.all_chars Str.is_hex_lower (random_hex n) = true /\ String.length (random_hex n) = 32%nat.

Definition temporary (name token : string) : string := "." +:+ name +:+ "." +:+ token +:+ ".tmp".
Definition sidecar_name : string := c +:+ ".sha256".

(** An output below a plain directory, whose name, sidecar and temporary names are free for files. *)
Record writable (w : world) : Prop := {
  w_dirs : dirs_ok (fs w) d;
  w_comps : Forall (λ s, comp s = true) d;
  w_name : comp c = true;
  w_output : forall m, fs w !! (d ++ [c]) <> Some (NDir m);
  w_sidecar : forall m, fs w !! (d ++ [sidecar_name]) <> Some (NDir m);
  w_temporary : fs w !! (d ++ [temporary c (random_hex (ticks w))]) = None;
  w_temporary_sidecar : fs w !! (d ++ [temporary sidecar_name (random_hex (ticks w))]) = None
}.

Lemma string_app_length (s t : string) : String.length (s +:+ t) = (String.length s + String.length t)%nat.
Proof. induction s as [|x s IH]; [done|]. rewrite Str.app_cons. simpl. by rewrite IH. Qed.

Lemma slash_hex s : Str.all_chars Str.is_hex_lower s = true -> Str.without ["/"%char] s = true.
Proof. apply Str.all_chars_impl. intros x. destruct x as [[] [] [] [] [] [] [] []]; vm_compute; done. Qed.

(** A longer text of a component and slashless texts is a component. *)
Lemma comp_long s : Str.without ["/"%char] s = true -> (2 < String.length s)%nat -> comp s = true.
Proof.
  intros Hs Hl. unfold comp. rewrite Hs. do 3 (destruct s as [|? s]; [simpl in Hl; lia|]).
  rewrite !andb_true_r. cbn [String.eqb]. by repeat case_match.
Qed.
Lemma comp_sidecar : comp c = true -> comp sidecar_name = true.
Proof.
  intros (_ & _ & _ & Hs)%comp_inv. apply comp_long; unfold sidecar_name.
  - by rewrite Str.without_app, Hs.
  - rewrite string_app_length. simpl. lia.
Qed.
Lemma comp_temporary n token : comp n = true -> Str.all_chars Str.is_hex_lower token = true -> comp (temporary n token) = true.
Proof.
  intros (_ & _ & _ & Hs)%comp_inv Ht. apply comp_long; unfold temporary.
  - rewrite !Str.without_app, Hs, (slash_hex token) by done. done.
  - rewrite !string_app_length. simpl. lia.
Qed.
Lemma temporary_length n token : String.length (temporary n token) = (String.length n + String.length token + 6)%nat.
Proof. unfold temporary. rewrite !string_app_length. simpl. lia. Qed.

Lemma shorter_ne (s t : string) : (String.length s < String.length t)%nat -> s <> t.
Proof. intros Hl ->. lia. Qed.
Lemma child_ne (s t : string) : s <> t -> d ++ [s] <> d ++ [t].
Proof. by intros Hst [_ [= ->]]%app_inj_2. Qed.

Lemma newlines_hex s t : Str.all_chars Str.is_hex_lower s = true -> newlines (s +:+ t) = s +:+ newlines t.
Proof.
  induction s as [|x s IH]; [done|]. rewrite Str.all_chars_cons. intros [Hx Hs]%andb_true_iff.
  rewrite Str.app_cons. cbn [newlines]. destruct (hex_digit_props x Hx) as (_ & _ & _ & _ & ->). by rewrite IH.
Qed.
Lemma utf8_hex s t : Str.all_chars Str.is_hex_lower s = true -> Codec.utf8_ok 0 (s +:+ t) = Codec.utf8_ok 0 t.
Proof.
  induction s as [|x s IH]; [done|]. rewrite Str.all_chars_cons. intros [Hx Hs]%andb_true_iff.
  rewrite Str.app_cons. cbn [Codec.utf8_ok]. destruct (hex_digit_props x Hx) as (_ & _ & _ & -> & _). by rewrite IH.
Qed.
Lemma utf8_app s t : forall n, Codec.utf8_ok n s = true -> Codec.utf8_ok n (s +:+ t) = Codec.utf8_ok 0 t.
Proof.
  induction s as [|x s IH]; intros n Hs; cbn [Codec.utf8_ok] in Hs.
  - apply Nat.eqb_eq in Hs as ->. done.
  - rewrite Str.app_cons. cbn [Codec.utf8_ok]. destruct n as [|k].
    + repeat case_match; try done; by apply IH.
    + apply andb_true_iff in Hs as [-> Hs]. by apply IH.
Qed.

(** The sidecar, read as a text, holds the digest. *)
Lemma sidecar_reads w data m : ".." ∉ d -> comp sidecar_name = true -> dirs_ok (fs w) d -> Codec.utf8_ok 0 c = true ->
  fs w !! (d ++ [sidecar_name]) = Some (NFile (sidecar_text data c) m) ->
  expected_checksum (MkPath true (d ++ [sidecar_name])) w = (Ok (Sha256.hexdigest data), w).
Proof.
  intros Hdd Hn Hd Hu Hs. apply comp_inv in Hn as (_ & _ & Hn & _). destruct (hexdigest_shape data) as [Hh _].
  unfold expected_checksum, read_text. erewrite M_bind_run.
  2:{ erewrite M_bind_run; [|by eapply read_child]. unfold sidecar_text. rewrite utf8_hex by done.
      change (Codec.utf8_ok 0 ("  " +:+ ?x)) with (Codec.utf8_ok 0 x). rewrite utf8_app by done.
      change (Codec.utf8_ok 0 (String (ascii_of_N 10) "")) with true. rewrite newlines_hex by done. done. }
  change (newlines ("  " +:+ ?x)) with (String " " (String " " (newlines x))).
  by rewrite checksum_in_sidecar.
Qed.

(** The four names of a writing are distinct. *)
Lemma names_distinct token : String.length token = 32%nat ->
  NoDup [c; sidecar_name; temporary c token; temporary sidecar_name token].
Proof.
  intros Hlen. assert (String.length sidecar_name = (String.length c + 7)%nat) as Hsl
    by (unfold sidecar_name; rewrite string_app_length; done).
  pose proof (temporary_length c token) as Hl1. pose proof (temporary_length sidecar_name token) as Hl2.
  rewrite !NoDup_cons, !not_elem_of_cons. repeat split; try apply not_elem_of_nil; try apply NoDup_nil_2;
    apply shorter_ne; lia.
Qed.

(** Changing a file of the directory keeps the directory. *)
Lemma dirs_insert f x n : dirs_ok f d -> dirs_ok (<[d ++ [x] := n]> f) d.
Proof.
  intros Hd q Hq. rewrite lookup_insert_ne; [by apply Hd|]. intros <-. by apply child_not_prefix in Hq.
Qed.
Lemma dirs_delete f x : dirs_ok f d -> dirs_ok (delete (d ++ [x]) f) d.
Proof.
  intros Hd q Hq. rewrite lookup_delete_ne; [by apply Hd|]. intros <-. by apply child_not_prefix in Hq.
Qed.

(** Two files written under temporary names and renamed, the temporary names removed. *)
Lemma two_files w a b t u x y : ".." ∉ d -> dirs_ok (fs w) d -> Forall (λ s, comp s = true) [a; b; t; u] ->
  NoDup [a; b; t; u] -> fs w !! (d ++ [t]) = None -> fs w !! (d ++ [u]) = None ->
  (forall m, fs w !! (d ++ [a]) <> Some (NDir m)) -> (forall m, fs w !! (d ++ [b]) <> Some (NDir m)) ->
  let at_ s := MkPath true (d ++ [s]) in
  finally (write_file (at_ t) x ;; write_file (at_ u) y ;; replace (at_ t) (at_ a) ;; replace (at_ u) (at_ b))
    (unlink_missing_ok (at_ t) ;; unlink_missing_ok (at_ u)) w =
  (Ok tt, set_fs (<[d ++ [b] := NFile y (Meta 420 0 0)]> (<[d ++ [a] := NFile x (Meta 420 0 0)]> (fs w))) w).
Proof.
  intros Hdd Hd Hc Hn Ht Hu Ha Hb at_. subst at_. cbn beta.
  rewrite !Forall_cons in Hc. destruct Hc as (Ca & Cb & Ct & Cu & _).
  apply comp_inv in Ca as (_ & _ & Ca & _), Cb as (_ & _ & Cb & _), Ct as (_ & _ & Ct & _), Cu as (_ & _ & Cu & _).
  rewrite !NoDup_cons, !not_elem_of_cons in Hn. destruct Hn as ((N1 & N2 & N3 & _) & (N4 & N5 & _) & (N6 & _) & _).
  pose proof (child_ne _ _ N1) as K1. pose proof (child_ne _ _ N2) as K2. pose proof (child_ne _ _ N3) as K3.
  pose proof (child_ne _ _ N4) as K4. pose proof (child_ne _ _ N5) as K5. pose proof (child_ne _ _ N6) as K6.
  unfold finally. rewrite (M_bind_run _ _ _ _ _ (write_new d Hdd _ _ _ Ct Hd Ht)). unfold put_node.
  erewrite M_bind_run.
  2:{ apply (write_new d Hdd _ u y); cbn [fs set_fs]; [done|by apply dirs_insert|by rewrite lookup_insert_ne]. }
  unfold put_node. cbn [fs set_fs].
  erewrite M_bind_run.
  2:{ apply (replace_file d Hdd _ a t x (Meta 420 0 0)); cbn [fs set_fs]; [done|done|done| | |].
      - by do 2 apply dirs_insert.
      - by rewrite lookup_insert_ne, lookup_insert_eq.
      - intros m. rewrite !lookup_insert_ne by done. apply Ha. }
  rewrite (replace_file d Hdd _ b u y (Meta 420 0 0)); cbn [fs set_fs]; [|done|done|done| | |].
  2:{ by apply dirs_insert, dirs_delete, dirs_insert, dirs_insert. }
  2:{ by rewrite lookup_insert_ne, lookup_delete_ne, lookup_insert_eq. }
  2:{ intros m. rewrite lookup_insert_ne, lookup_delete_ne, !lookup_insert_ne by done. apply Hb. }
  set (f := <[d ++ [b] := _]> (delete (d ++ [u]) _)).
  assert (f = <[d ++ [b]:=NFile y (Meta 420 0 0)]> (<[d ++ [a]:=NFile x (Meta 420 0 0)]> (fs w))) as ->.
  { subst f. apply map_eq. intros k.
    destruct (decide (k = d ++ [b])) as [->|]; [by rewrite !lookup_insert_eq|]. rewrite !(lookup_insert_ne _ (d ++ [b])) by done.
    destruct (decide (k = d ++ [u])) as [->|]; [by rewrite lookup_delete_eq, lookup_insert_ne|].
    rewrite lookup_delete_ne by done.
    destruct (decide (k = d ++ [a])) as [->|]; [by rewrite !lookup_insert_eq|]. rewrite !(lookup_insert_ne _ (d ++ [a])) by done.
    destruct (decide (k = d ++ [t])) as [->|]; [by rewrite lookup_delete_eq|].
    by rewrite lookup_delete_ne, !lookup_insert_ne. }
  erewrite M_bind_run.
  2:{ apply (unlink_absent d Hdd _ t); cbn [fs set_fs]; [done|by do 2 apply dirs_insert|by rewrite !lookup_insert_ne]. }
  rewrite (unlink_absent d Hdd _ u Cu); [done|by do 2 apply dirs_insert|simpl; by rewrite !lookup_insert_ne].
Qed.

(** A document written with its checksum is read back through it. In a plain directory,
    with names that are free, the writing succeeds, puts the document and its sidecar there
    and changes nothing else, no temporary file is left, and the checksum then read from
    the sidecar is the digest of the file: every later verification accepts the pair. *)
Theorem sidecar_round_trip v w : hex_tokens -> writable w -> Codec.utf8_ok 0 c = true ->
  let output := MkPath true (d ++ [c]) in let side := MkPath true (d ++ [sidecar_name]) in
  exists w', write_json_with_checksum output v w = (Ok side, w') /\
    fs w' = <[d ++ [sidecar_name] := NFile (sidecar_text (json_text v) c) (Meta 420 0 0)]>
              (<[d ++ [c] := NFile (json_text v) (Meta 420 0 0)]> (fs w)) /\
    expected_checksum side w' = (Ok (Sha256.hexdigest (json_text v)), w') /\
    sha256_file output w' = (Ok (Sha256.hexdigest (json_text v)), w').
Proof.
  intros Htok [Hd Hcs Hc Ho Hs Ht Hts] Hu output side.
  set (token := random_hex (ticks w)) in *. destruct (Htok (ticks w)) as [Hhex Hlen]. fold token in Hhex, Hlen.
  assert (".." ∉ d) as Hdd.
  { intros Hin. rewrite Forall_forall in Hcs. by specialize (Hcs _ Hin). }
  pose proof (comp_sidecar Hc) as Hcs'.
  pose proof (comp_temporary c token Hc Hhex) as Hct. pose proof (comp_temporary _ token Hcs' Hhex) as Hcts.
  assert (NoDup [c; sidecar_name; temporary c token; temporary sidecar_name token]) as Hnd by (by apply names_distinct).
  assert (dirs_ok (fs w) d) as Hd0 by done.
  set (f := <[d ++ [sidecar_name] := _]> (<[d ++ [c] := _]> (fs w))).
  set (w1 := advance 0 w).
  assert (write_json_with_checksum output v w = (Ok side, set_fs f w1)) as E.
  { unfold write_json_with_checksum. subst output. rewrite parent_child.
    rewrite (M_bind_run _ _ _ _ _ (mkdir_p_dirs w d Hdd Hd)). cbn zeta. rewrite sidecar_child by done.
    rewrite (M_bind_run fresh_hex _ w token w1) by done.
    unfold temporary_name. rewrite !name_child. change ("." +:+ c +:+ _) with (temporary c token).
    change ("." +:+ (c +:+ ".sha256") +:+ _) with (temporary sidecar_name token).
    unfold with_name at 1 2. rewrite !name_child. rewrite !with_name_child by done.
    assert (String.eqb c "" = false) as -> by (by apply String.eqb_neq, comp_inv).
    assert (String.eqb (c +:+ ".sha256") "" = false) as -> by (by apply String.eqb_neq, comp_inv).
    erewrite M_bind_run by done. erewrite M_bind_run by done.
    erewrite M_bind_run; [done|]. apply (two_files w1 c sidecar_name); try done. by repeat constructor. }
  exists (set_fs f w1). split; [exact E|]. split; [done|].
  assert (dirs_ok (fs (set_fs f w1)) d) as Hd2 by (by do 2 apply dirs_insert).
  split.
  - eapply sidecar_reads; [done..|]. simpl. subst f. by rewrite lookup_insert_eq.
  - unfold sha256_file, PyOs.sha256_file. erewrite M_bind_run; [done|].
    eapply read_child; [done| |done|]; [by apply comp_inv|]. simpl. subst f.
    rewrite lookup_insert_ne, lookup_insert_eq; [done|]. apply child_ne.
    intros Heq. rewrite NoDup_cons, not_elem_of_cons in Hnd. by destruct Hnd as [[? _] _].
Qed.
End RoundTrip.
End SidecarSpec.

(** ** A concrete run *)

Module SidecarRun.
Import Fixture RecoveryContract PathFacts SidecarSpec.

Definition w0 : world := world_with [("/srv/evidence/.keep", "")].
Definition status : val := VDict [("recoveryReady", VBool true); ("reasons", VList [])].

Lemma sidecar_round_trip_witness : let host := quiet_host in let d := ["srv"; "evidence"] in let c := "backup.json" in
  let output := MkPath true (d ++ [c]) in let side := MkPath true (d ++ [sidecar_name c]) in
  exists w', write_json_with_checksum output status w0 = (Ok side, w') /\
    fs w' = <[d ++ [sidecar_name c] := NFile (sidecar_text (json_text status) c) (Meta 420 0 0)]>
              (<[d ++ [c] := NFile (json_text status) (Meta 420 0 0)]> (fs w0)) /\
    expected_checksum side w' = (Ok (Sha256.hexdigest (json_text status)), w') /\
    sha256_file output w' = (Ok (Sha256.hexdigest (json_text status)), w').
Proof.
  intros host d c. apply (sidecar_round_trip (H := host) d c status w0).
  - intros n. by split.
  - split; [by apply dirs_okb_true|by repeat constructor|done|..]; vm_compute; done.
  - done.
Defined.
End SidecarRun.
