(* ===== verification/GenerateSpec.v ===== *)
(** * scripts/release/generate_deployment_spec.py

    The deployment specification [activate_release.py] executes: generated,
    without executing anything, from a manifest, an integration result, the
    host's output and a health target that agree with each other. *)

From S2P Require Import Prelude PyFloat PyMonad PyValue PyTime PyJson Sha256 PyOs OsFacts Fixture.

(** ** Shared by the programs that compose evidence *)

Module Evidence.

(** [a or b]: the second test is made when the first has failed. *)
Definition ror (a b : res bool) : res bool := x ← a; if x : bool then Ok true else b.
Definition rand (a b : res bool) : res bool := x ← a; if x : bool then b else Ok false.
(** [v.get(k) != x] *)
Definition get_ne (v : val) (k : string) (x : val) : res bool := y ← dget v k; Ok (py_ne y x).
(** [v.get(k, {}).get(l)] *)
Definition get2 (v : val) (k l : string) : res val := x ← dget_or v k (VDict []); dget x l.

(** [v.get(k, {}).get(l) != s] *)
Definition get2_ne (v : val) (k l s : string) : res bool := x ← get2 v k l; Ok (py_ne x (VStr s)).

(** [a.get(k) != b.get(l)] *)
Definition fields_differ (a : val) (k : string) (b : val) (l : string) : res bool :=
  x ← dget a k; y ← dget b l; Ok (py_ne x y).

(** The failure a test adds when it answers true. *)
Definition failure_if (test : res bool) (message : string) : res (list string) :=
  b ← test; Ok (if b : bool then [message] else []).
Fixpoint failures_of (tests : list (res (list string))) : res (list string) :=
  match tests with
  | [] => Ok []
  | t :: r => x ← t; y ← failures_of r; Ok (x ++ y)
  end.

Lemma failures_nil tests : failures_of tests = Ok [] <-> Forall (λ t, t = Ok []) tests.
Proof.
  induction tests as [|t r IH]; simpl; [by split|]. rewrite Forall_cons, <-IH, bind_Ok. split.
  - intros (x & Hx & E). apply bind_Ok in E as (y & Hy & E). injection E as E. by apply app_eq_nil in E as [-> ->].
  - intros [Ht Hr]. exists []. split; [done|]. by rewrite Hr.
Qed.
Lemma failure_if_nil test m : failure_if test m = Ok [] <-> test = Ok false.
Proof.
  unfold failure_if. rewrite bind_Ok. split; [by intros ([] & -> & E)|]. intros ->. by exists false.
Qed.
Lemma ror_false a b : ror a b = Ok false <-> a = Ok false /\ b = Ok false.
Proof.
  unfold ror. rewrite bind_Ok. split; [by intros ([] & -> & E)|]. intros [-> ->]. by exists false.
Qed.
Lemma rand_false a b : rand a b = Ok false -> a = Ok false \/ (a = Ok true /\ b = Ok false).
Proof. unfold rand. rewrite bind_Ok. intros ([] & -> & E); auto. Qed.
Lemma get_ne_false v k x : get_ne v k x = Ok false <-> exists y, dget v k = Ok y /\ py_eq y x = true.
Proof.
  unfold get_ne, py_ne. rewrite bind_Ok. split; intros (y & Hy & E); exists y; (split; [done|]).
  - injection E as E. by apply negb_false_iff in E.
  - by rewrite E.
Qed.
Lemma get2_ne_str v k l s : get2_ne v k l s = Ok false <-> get2 v k l = Ok (VStr s).
Proof.
  unfold get2_ne, py_ne. rewrite bind_Ok. split.
  - intros (y & Hy & E). injection E as E%negb_false_iff. by apply py_eq_str_r in E as ->.
  - intros Hv. exists (VStr s). split; [done|]. simpl. by rewrite String.eqb_refl.
Qed.
Lemma get_ne_str v k s : get_ne v k (VStr s) = Ok false <-> dget v k = Ok (VStr s).
Proof.
  rewrite get_ne_false. split; [by intros (y & Hy & ->%py_eq_str_r)|]. intros Hv. exists (VStr s).
  by rewrite String.eqb_refl || (split; [done|simpl; apply String.eqb_refl]).
Qed.

Lemma fields_agree a k b l : fields_differ a k b l = Ok false ->
  exists x y, dget a k = Ok x /\ dget b l = Ok y /\ py_eq x y = true.
Proof.
  unfold fields_differ, py_ne. intros E. apply bind_Ok in E as (x & Hx & E). apply bind_Ok in E as (y & Hy & E).
  injection E as E%negb_false_iff. eauto.
Qed.

(** A dict comprehension [{i[k]: f(i) for i in l}], by its pairs, and the lookup of a string. *)
Definition keyed {A} (f : val -> res A) (key : string) (l : list val) : res (list (val * A)) :=
  rmap (λ i, k ← getitem i key; x ← f i; _ ← check_hash k; Ok (k, x)) l.
Definition at_key {A} (s : string) (l : list (val * A)) : res A :=
  match List.filter (λ kx, py_eq kx.1 (VStr s)) (List.rev l) with
  | kx :: _ => Ok kx.2
  | [] => raise KeyError (repr_str s)
  end.

Section Schemas.
Context `{Platform}.

(** The errors of a document against the schema at a path, each with a label. *)
Definition labelled_errors (schema_path : path) (document : val) (label : string) : IO (list string) :=
  schema ← PyOs.load_json schema_path;
  errors ← lift (sorted_errors schema document);
  mret (map (λ e, label +:+ "." +:+ render_error e) errors).

Definition valid (w : world) (schema_path : path) (document : val) : Prop :=
  exists schema, PyOs.load_json schema_path w = (Ok schema, w) /\ sorted_errors schema document = Ok [].

Lemma ro_labelled p v l : Pres eq (labelled_errors p v l).
Proof. unfold labelled_errors. solve_pres. Qed.
Lemma labelled_nil p v l w es w' : labelled_errors p v l w = (Ok es, w') ->
  w' = w /\ (es = [] -> valid w p v).
Proof.
  intros E. pose proof (pres_eq_run _ _ _ _ (ro_labelled p v l) E) as ->. split; [done|]. intros ->.
  unfold labelled_errors in E. apply M_bind_Ok in E as (s & w1 & E1 & E).
  assert (w1 = w) as -> by (by apply (pres_eq_run _ _ _ _ (ro_load_json p)) in E1).
  apply M_bind_Ok in E as (errors & w1 & E2 & E). apply lift_Ok in E2 as [E2 _]. apply ret_Ok in E as [E _].
  exists s. split; [done|]. by destruct errors.
Qed.
End Schemas.
#[export] Hint Resolve ro_labelled : pres.
End Evidence.

Module GenerateSpec.
Import Evidence.
Section Env.
Context `{Platform}.

Definition OPERATIONS : path := Path.div repo_root "contracts/operations".
Definition MANIFEST_SCHEMA : path := Path.div OPERATIONS "release-manifest-v0.schema.json".
Definition INTEGRATION_SCHEMA : path := Path.div OPERATIONS "integration-result-v0.schema.json".
Definition HEALTH_SCHEMA : path := Path.div OPERATIONS "health-gate-target-v0.schema.json".
Definition DEPLOYMENT_SCHEMA : path := Path.div OPERATIONS "deployment-spec-v0.schema.json".

Definition load (p : path) : IO val := load_json p.
Definition digest (p : path) : IO string := sha256_file p.
Definition schema_errors (p : path) (v : val) (label : string) : IO (list string) := labelled_errors p v label.

Record args := Args {
  a_manifest : path; integration_result : path; host_output : path; health_target : path;
  approval_ref : option string; a_output : path
}.

Definition approved (o : option string) : bool := match o with Some s => negb (String.eqb s "") | None => false end.

Definition required_target : list (string * string) := [
  ("transport_user", "opc"); ("deployment_path", "/opt/liqi/releases"); ("current_symlink", "/opt/liqi/current");
  ("staging_path", "/var/tmp/liqi/releases");
  ("installation_semantics", "upload-to-staging-then-root-owned-atomic-install")].

(** The tests of the preflight, in order, each with the failure it reports. *)
Definition document_tests (manifest integration host health release_id environment : val) : list (res (list string)) := [
  failure_if (ror (get_ne integration "overall_status" (VStr "passed")) (get_ne integration "mode" (VStr "provider")))
    "deployment requires a passed provider-mode integration result";
  failure_if (ror (get_ne integration "release_id" release_id) (get_ne health "release_id" release_id))
    "release ID mismatch across manifest, integration result and health target";
  failure_if (x ← dget integration "git_sha"; y ← dget manifest "git_sha"; Ok (py_ne x y))
    "Git SHA mismatch between manifest and integration result";
  failure_if (ror (get_ne integration "environment" environment)
                (ror (get_ne health "environment" environment) (get_ne host "environment" environment)))
    "environment mismatch across deployment inputs";
  failure_if (get2_ne integration "capacity" "status" "passed") "capacity preflight is not passed";
  failure_if (get2_ne integration "platform_probe" "status" "passed") "platform probe preflight is not passed";
  failure_if (rand (in_set environment [VStr "staging"; VStr "production"]) (get2_ne integration "recovery" "status" "passed"))
    "staging/production deployment requires passed recovery evidence";
  failure_if (s ← get2 manifest "database_migration" "destructive_allowed"; Ok (negb (is_false s)))
    "destructive database migration is forbidden"].
Definition cost_tests (approval : option string) (manifest_cost host_cost : val) : list (res (list string)) := [
  failure_if (Ok (py_ne manifest_cost host_cost))
    ("cost classification mismatch: manifest=" +:+ py_str manifest_cost +:+ " host=" +:+ py_str host_cost);
  failure_if (rand (in_set manifest_cost [VStr "free-trial-only"; VStr "paid"; VStr "unknown"]) (Ok (negb (approved approval))))
    (py_str manifest_cost +:+ " infrastructure requires explicit approval reference")].
Definition target_tests (release_target : val) : list (res (list string)) :=
  map (λ ke, failure_if (get_ne release_target ke.1 (VStr ke.2))
               ("host release target " +:+ ke.1 +:+ " must be " +:+ repr_str ke.2)) required_target.

(** The failures of the documents; the values the tests share are read on the way. *)
Definition preflight_failures (manifest integration host health : val) (approval : option string) : res (list string) :=
  release_id ← dget manifest "release_id";
  environment ← get2 manifest "deployment" "environment";
  f1 ← failures_of (document_tests manifest integration host health release_id environment);
  cost ← get2 manifest "infrastructure" "cost_classification";
  host_cost ← get2 host "capacity_profile" "cost_classification";
  f2 ← failures_of (cost_tests approval cost host_cost);
  target ← dget_or host "release_target" (VDict []);
  f3 ← failures_of (target_tests target);
  Ok (f1 ++ f2 ++ f3).

Definition service_order : list string := ["liqi-api"; "liqi-realtime"; "liqi-worker"].

Definition artifact_entry (by_name : list (val * val)) (identity : list (val * val)) (release_path name : string) : res val :=
  a ← at_key name by_name; sha ← getitem a "sha256"; size ← getitem a "size_bytes"; owner ← at_key name identity;
  Ok (VDict [("name", VStr name); ("sha256", sha); ("size_bytes", size);
    ("target_path", VStr (release_path +:+ "/bin/" +:+ name)); ("owner", owner); ("group", VStr "liqi");
    ("mode", VStr "0550")]).
Definition service_entry (index : nat) (name : string) : val :=
  VDict [("name", VStr name); ("unit", VStr (name +:+ ".service")); ("artifact", VStr name);
    ("start_order", VInt (Z.of_nat index + 1));
    ("stop_timeout_seconds", VInt (if String.eqb name "liqi-worker" then 60 else 30)); ("shutdown_signal", VStr "SIGTERM")].

(** The parts of the specification before the digest of the health target, and after it. *)
Definition spec_head (manifest integration host : val) (approval : option string) : res (list (string * val)) :=
  release_id ← dget manifest "release_id";
  environment ← get2 manifest "deployment" "environment";
  cost ← get2 manifest "infrastructure" "cost_classification";
  target ← dget_or host "release_target" (VDict []);
  deployment_path ← getitem target "deployment_path";
  let release_path := py_str deployment_path +:+ "/" +:+ py_str release_id in
  identities ← dget_or host "identities" (VDict []); users ← dget_or identities "services" (VList []);
  users ← py_iter users; identity ← keyed (λ i, getitem i "user") "service" users;
  items ← getitem manifest "artifacts"; items ← py_iter items; by_name ← keyed Ok "name" items;
  artifacts ← rmap (artifact_entry by_name identity release_path) (sort_strings service_order);
  _ ← item manifest ["rollback"; "previous_release_id"];
  git_sha ← getitem manifest "git_sha";
  schema_version ← getitem host "schema_version"; output_version ← getitem host "infrastructure_output_version";
  bootstrap ← getitem host "bootstrap_version"; instance ← item host ["host"; "instance_id"];
  user ← getitem target "transport_user"; staging ← getitem target "staging_path";
  current ← getitem target "current_symlink"; semantics ← getitem target "installation_semantics";
  id ← getitem integration "integration_id"; status ← getitem integration "overall_status";
  capacity ← item integration ["capacity"; "status"]; recovery ← item integration ["recovery"; "status"];
  probe ← item integration ["platform_probe"; "status"];
  maximum ← item manifest ["database_migration"; "maximum"];
  compatibility ← item manifest ["database_migration"; "compatibility"];
  Ok [("schema_version", VStr "deployment-spec-v0"); ("release_id", release_id); ("git_sha", git_sha);
    ("environment", environment); ("strategy", VStr "health-gated-replacement");
    ("claims", VDict [("high_availability", VBool false); ("zero_downtime", VBool false); ("canary", VBool false)]);
    ("target", VDict [("host_schema_version", schema_version); ("host_output_version", output_version);
       ("host_bootstrap_version", bootstrap); ("host_instance_ref", instance); ("transport_user", user);
       ("staging_path", staging); ("deployment_root", deployment_path); ("release_path", VStr release_path);
       ("current_symlink", current); ("installation_semantics", semantics)]);
    ("artifacts", VList artifacts); ("services", VList (imap service_entry service_order));
    ("preflight", VDict [("integration_id", id); ("integration_status", status); ("capacity_status", capacity);
       ("recovery_status", recovery); ("platform_probe_status", probe); ("required_database_migration", maximum);
       ("database_compatibility", compatibility); ("infrastructure_cost_classification", cost);
       ("approval_ref", opt_val VStr approval)])].

Definition spec_tail (manifest host health : val) (target_ref target_digest : string) : res (list (string * val)) :=
  deadline ← getitem health "deadline_seconds";
  compatible ← item manifest ["rollback"; "compatible"];
  previous ← item manifest ["rollback"; "previous_release_id"];
  target ← dget_or host "release_target" (VDict []); root ← getitem target "deployment_path";
  rollback_deadline ← item manifest ["rollback"; "deadline_seconds"];
  Ok [("health_gate", VDict [("target_ref", VStr target_ref); ("target_digest", VStr target_digest);
       ("deadline_seconds", deadline);
       ("failure_action", VStr "stop-new-release-select-predeclared-rollback-or-incident")]);
    ("rollback", VDict [("compatible", compatible); ("previous_release_id", previous);
       ("previous_release_path", if truthy previous then VStr (py_str root +:+ "/" +:+ py_str previous) else VNone);
       ("deadline_seconds", rollback_deadline); ("database_rollback_allowed", VBool false);
       ("first_release_failure_action", VStr "stop-services-and-enter-incident")]);
    ("mutation_policy", VDict [("owner_approval_required", VBool true); ("oci_apply", VBool false);
       ("destructive_migration", VBool false); ("automatic_activation", VBool false)])].

Definition specification (a : args) (manifest integration host health : val) : IO val :=
  head ← lift (spec_head manifest integration host (approval_ref a));
  d ← digest (health_target a);
  tail ← lift (spec_tail manifest host health (Path.to_str (health_target a)) d);
  mret (VDict (head ++ tail)).

Definition main (a : args) : IO Z :=
  manifest ← load (a_manifest a);
  integration ← load (integration_result a);
  host ← load (host_output a);
  health ← load (health_target a);
  e1 ← schema_errors MANIFEST_SCHEMA manifest "manifest";
  e2 ← schema_errors INTEGRATION_SCHEMA integration "integration";
  e3 ← schema_errors HEALTH_SCHEMA health "health";
  e4 ← lift (preflight_failures manifest integration host health (approval_ref a));
  match e1 ++ e2 ++ e3 ++ e4 with
  | _ :: _ => mfor (λ f, print_err ("ERROR deployment-preflight: " +:+ f)) (e1 ++ e2 ++ e3 ++ e4) ;; mret 1
  | [] =>
      spec ← specification a manifest integration host health;
      output_errors ← schema_errors DEPLOYMENT_SCHEMA spec "deployment_spec";
      match output_errors with
      | _ :: _ => mfor (λ f, print_err ("ERROR deployment-spec: " +:+ f)) output_errors ;; mret 65
      | [] =>
          write_document (a_output a) spec ;;
          print ("generated deployment specification: " +:+ Path.to_str (a_output a)) ;;
          mret 0
      end
  end.
End Env.
End GenerateSpec.

Module GenerateSpecSpec.
Import Evidence GenerateSpec.

(** Four documents that agree on a deployment. *)
Record agreed (approval : option string) (manifest integration host health : val) : Prop := {
  g_passed : dget integration "overall_status" = Ok (VStr "passed");
  g_provider : dget integration "mode" = Ok (VStr "provider");
  g_release : exists r, dget manifest "release_id" = Ok r /\
    forall d, d ∈ [integration; health] -> get_ne d "release_id" r = Ok false;
  g_sha : exists s, dget manifest "git_sha" = Ok s /\ exists t, dget integration "git_sha" = Ok t /\ py_eq t s = true;
  g_environment : exists e, get2 manifest "deployment" "environment" = Ok e /\
    (forall d, d ∈ [integration; health; host] -> get_ne d "environment" e = Ok false) /\
    (e = VStr "staging" \/ e = VStr "production" -> get2 integration "recovery" "status" = Ok (VStr "passed"));
  g_capacity : get2 integration "capacity" "status" = Ok (VStr "passed");
  g_probe : get2 integration "platform_probe" "status" = Ok (VStr "passed");
  g_migration : get2 manifest "database_migration" "destructive_allowed" = Ok (VBool false);
  g_cost : exists c h, get2 manifest "infrastructure" "cost_classification" = Ok c /\
    get2 host "capacity_profile" "cost_classification" = Ok h /\ py_eq c h = true /\
    (c ∈ map VStr ["free-trial-only"; "paid"; "unknown"] -> exists r, approval = Some r /\ r <> "");
  g_target : exists t, dget_or host "release_target" (VDict []) = Ok t /\
    Forall (λ ke, dget t ke.1 = Ok (VStr ke.2)) required_target
}.

Lemma in_set_map v l b : in_set v (map VStr l) = Ok b -> b = true <-> v ∈ map VStr l.
Proof.
  unfold in_set. intros E. apply bind_Ok in E as (u & _ & E). injection E as <-. rewrite py_in_strings. split.
  - intros (s & -> & Hs). by apply list_elem_of_In, in_map, list_elem_of_In.
  - intros (s & <- & Hs)%list_elem_of_In%in_map_iff. exists s. split; [done|by apply list_elem_of_In].
Qed.

Lemma preflight_agreed manifest integration host health approval :
  preflight_failures manifest integration host health approval = Ok [] ->
  agreed approval manifest integration host health.
Proof.
  unfold preflight_failures. intros E. apply bind_Ok in E as (rid & Er & E). apply bind_Ok in E as (env & Ee & E).
  apply bind_Ok in E as (f1 & E1 & E). apply bind_Ok in E as (cost & Ec & E). apply bind_Ok in E as (hc & Eh & E).
  apply bind_Ok in E as (f2 & E2 & E). apply bind_Ok in E as (target & Et & E). apply bind_Ok in E as (f3 & E3 & E).
  injection E as E. apply app_eq_nil in E as [-> E]. apply app_eq_nil in E as [-> ->].
  apply failures_nil in E1, E2, E3. unfold document_tests in E1. unfold cost_tests in E2.
  rewrite !Forall_cons, !failure_if_nil in E1. rewrite !Forall_cons, !failure_if_nil in E2.
  destruct E1 as ([A1 A2]%ror_false & [B1 B2]%ror_false & S & [C1 [C2 C3]%ror_false]%ror_false & Hca & Hpr & Hre & Hmi & _).
  destruct E2 as (Hco & Hap & _). apply get_ne_str in A1, A2. apply get2_ne_str in Hca, Hpr.
  apply bind_Ok in S as (x & Hx & S). apply bind_Ok in S as (y & Hy & S). injection S as S%negb_false_iff.
  apply bind_Ok in Hmi as (m & Hm & Hmi). injection Hmi as Hmi%negb_false_iff. injection Hco as Hco%negb_false_iff.
  split; try done.
  - exists rid. split; [done|]. intros d Hd. by repeat (apply elem_of_cons in Hd as [->|Hd]; [done|]); apply not_elem_of_nil in Hd.
  - exists y. split; [done|]. by exists x.
  - exists env. split; [done|]. split.
    + intros d Hd. by repeat (apply elem_of_cons in Hd as [->|Hd]; [done|]); apply not_elem_of_nil in Hd.
    + intros He. apply rand_false in Hre as [Hre|[_ Hre]]; [|by apply get2_ne_str].
      by destruct He as [-> | ->].
  - by destruct m as [|[]| | | | |].
  - exists cost, hc. do 3 (split; [done|]). intros Hin. apply rand_false in Hap as [Hap|[_ Hap]].
    + apply (in_set_map _ ["free-trial-only"; "paid"; "unknown"]) in Hap. by apply Hap in Hin.
    + injection Hap as Hap%negb_false_iff. unfold approved in Hap. destruct approval as [r|]; [|done].
      exists r. split; [done|]. by apply negb_true_iff, String.eqb_neq in Hap.
  - exists target. split; [done|]. unfold target_tests in E3. apply Forall_map in E3.
    eapply Forall_impl; [exact E3|]. intros ke Hke. cbn beta in Hke. by apply failure_if_nil, get_ne_str in Hke.
Qed.

Section Run.
Context `{Platform} (a : args).

Lemma ro_load_input p : Pres eq (load p).
Proof. apply ro_load_json. Qed.
Lemma ro_schema_errors p v l : Pres eq (schema_errors p v l).
Proof. apply ro_labelled. Qed.
Lemma ro_spec_digest p : Pres eq (digest p).
Proof. unfold digest, sha256_file. solve_pres. Qed.
#[local] Hint Resolve ro_load_input ro_schema_errors ro_spec_digest : pres.
Lemma ro_specification m i h t : Pres eq (specification a m i h t).
Proof. unfold specification. solve_pres. Qed.
#[local] Hint Resolve ro_specification : pres.

(** A deployment specification is generated (exit code 0) only from documents without a
    schema error that agree: a passed provider-mode integration of the manifest's release,
    Git SHA and environment, with capacity and platform probe passed, recovery too for
    staging and production, no destructive migration, a cost class that is the host's
    and that is approved where it must be, and the one layout of the host. What is written
    names the digest of the health target at hand, keeps the approval reference for the
    activation, and forbids an automatic one. *)
Theorem spec_generated w : (main a w).1 = Ok 0 ->
  exists manifest integration host health spec data m,
    load (a_manifest a) w = (Ok manifest, w) /\ load (integration_result a) w = (Ok integration, w) /\
    load (host_output a) w = (Ok host, w) /\ load (health_target a) w = (Ok health, w) /\
    valid w MANIFEST_SCHEMA manifest /\ valid w INTEGRATION_SCHEMA integration /\ valid w HEALTH_SCHEMA health /\
    agreed (approval_ref a) manifest integration host health /\
    valid w DEPLOYMENT_SCHEMA spec /\ (write_document (a_output a) spec w).1 = Ok tt /\
    stat w (health_target a) = Some (NFile data m) /\
    item spec ["health_gate"; "target_digest"] = Ok (VStr (Sha256.hexdigest data)) /\
    item spec ["preflight"; "approval_ref"] = Ok (opt_val VStr (approval_ref a)) /\
    item spec ["mutation_policy"; "automatic_activation"] = Ok (VBool false).
Proof.
  destruct (main a w) as [r w'] eqn:E. cbn [fst]. intros ->. unfold main in E.
  apply M_bind_Ok in E as (manifest & w1 & E1 & E). same_world E1.
  apply M_bind_Ok in E as (integration & w1 & E2 & E). same_world E2.
  apply M_bind_Ok in E as (host & w1 & E3 & E). same_world E3.
  apply M_bind_Ok in E as (health & w1 & E4 & E). same_world E4.
  apply M_bind_Ok in E as (e1 & w1 & E5 & E). apply labelled_nil in E5 as [-> V1].
  apply M_bind_Ok in E as (e2 & w1 & E6 & E). apply labelled_nil in E6 as [-> V2].
  apply M_bind_Ok in E as (e3 & w1 & E7 & E). apply labelled_nil in E7 as [-> V3].
  apply M_bind_Ok in E as (e4 & w1 & E8 & E). apply lift_Ok in E8 as [E8 ->].
  destruct (e1 ++ e2 ++ e3 ++ e4) eqn:En; [|by apply M_bind_Ok in E as (? & ? & _ & [? _]%ret_Ok)].
  apply app_eq_nil in En as [He1 En]. apply app_eq_nil in En as [He2 En]. apply app_eq_nil in En as [He3 ->].
  apply M_bind_Ok in E as (spec & w1 & E9 & E). same_world E9.
  apply M_bind_Ok in E as (eo & w1 & E10 & E). apply labelled_nil in E10 as [-> V4].
  destruct eo; [|by apply M_bind_Ok in E as (? & ? & _ & [? _]%ret_Ok)].
  apply M_bind_Ok in E as (u & w1 & E11 & E). clear E.
  unfold specification in E9. apply M_bind_Ok in E9 as (head & w2 & Eh & E9). apply lift_Ok in Eh as [Eh ->].
  apply M_bind_Ok in E9 as (dg & w2 & Ed & E9). same_world Ed. apply M_bind_Ok in E9 as (tl & w2 & Et & E9).
  apply lift_Ok in Et as [Et ->]. apply ret_Ok in E9 as [<- _].
  unfold digest, sha256_file in Ed. apply M_bind_Ok in Ed as (data & w2 & Er & Ed). apply ret_Ok in Ed as [<- _].
  unfold read_bytes in Er. destruct (stat w (health_target a)) as [[data' m| |]|] eqn:Es; try discriminate.
  injection Er as -> _. unfold spec_head in Eh. unfold spec_tail in Et. inv_run. injection Eh as <-. injection Et as <-.
  exists manifest, integration, host, health. eexists _, data, m. do 4 (split; [done|]).
  split; [by apply V1|]. split; [by apply V2|]. split; [by apply V3|]. split; [by apply preflight_agreed|].
  split; [by apply V4|]. split; [rewrite E11; by destruct u|]. done.
Qed.
End Run.
End GenerateSpecSpec.

(** ** A concrete run *)

Module GenerateSpecRun.
Import Fixture Evidence GenerateSpec GenerateSpecSpec.

Definition sha : string := "0123456789abcdef0123456789abcdef01234567".
Definition artifact (name : string) : val := VDict [("name", VStr name); ("sha256", VStr sha); ("size_bytes", VInt 10)].
Definition manifest : string := json (VDict [("release_id", VStr "r2"); ("git_sha", VStr sha);
  ("deployment", VDict [("environment", VStr "production")]);
  ("database_migration", VDict [("destructive_allowed", VBool false); ("maximum", VInt 8); ("compatibility", VStr "expand")]);
  ("infrastructure", VDict [("cost_classification", VStr "paid")]);
  ("artifacts", VList (map artifact service_order));
  ("rollback", VDict [("compatible", VBool true); ("previous_release_id", VStr "r1"); ("deadline_seconds", VInt 300)])]).
Definition ok : val := rec [("status", "passed")].
Definition integration : string := json (VDict [("integration_id", VStr "i1"); ("overall_status", VStr "passed");
  ("mode", VStr "provider"); ("release_id", VStr "r2"); ("git_sha", VStr sha); ("environment", VStr "production");
  ("capacity", ok); ("platform_probe", ok); ("recovery", ok)]).
Definition host : string := json (VDict [("environment", VStr "production"); ("schema_version", VStr "host-v0");
  ("infrastructure_output_version", VStr "v0"); ("bootstrap_version", VStr "b1"); ("host", rec [("instance_id", "ocid1")]);
  ("capacity_profile", rec [("cost_classification", "paid")]); ("release_target", rec required_target);
  ("identities", VDict [("services", VList (map (λ n, rec [("service", n); ("user", n)]) service_order))])]).
Definition health : string := json (VDict [("release_id", VStr "r2"); ("environment", VStr "production");
  ("deadline_seconds", VInt 60)]).
Definition w0 : world := world_with ([("/in/manifest.json", manifest); ("/in/integration.json", integration);
  ("/in/host.json", host); ("/in/health.json", health); ("/out/.keep", "")] ++
  map (λ n, ("/repo/contracts/operations/" +:+ n +:+ ".schema.json", "{}"))
    ["release-manifest-v0"; "integration-result-v0"; "health-gate-target-v0"; "deployment-spec-v0"]).
Definition the_args : args := Args (Path.of_str "/in/manifest.json") (Path.of_str "/in/integration.json")
  (Path.of_str "/in/host.json") (Path.of_str "/in/health.json") (Some "CHG-1") (Path.of_str "/out/spec.json").

(** Without the approval a paid class is refused, and nothing else is wrong. *)
Example unapproved : let host := quiet_host in
  let a := Args (a_manifest the_args) (integration_result the_args) (host_output the_args) (health_target the_args) None
             (a_output the_args) in
  (main (H := host) a w0).1 = Ok 1 /\ err (main (H := host) a w0).2 =
    ["ERROR deployment-preflight: paid infrastructure requires explicit approval reference"].
Proof. vm_compute. by split. Qed.

Lemma spec_generated_witness : let host := quiet_host in let a := the_args in let w := w0 in
  exists manifest integration host health spec data m,
    load (a_manifest a) w = (Ok manifest, w) /\ load (integration_result a) w = (Ok integration, w) /\
    load (host_output a) w = (Ok host, w) /\ load (health_target a) w = (Ok health, w) /\
    valid w MANIFEST_SCHEMA manifest /\ valid w INTEGRATION_SCHEMA integration /\ valid w HEALTH_SCHEMA health /\
    agreed (approval_ref a) manifest integration host health /\
    valid w DEPLOYMENT_SCHEMA spec /\ (write_document (a_output a) spec w).1 = Ok tt /\
    stat w (health_target a) = Some (NFile data m) /\
    item spec ["health_gate"; "target_digest"] = Ok (VStr (Sha256.hexdigest data)) /\
    item spec ["preflight"; "approval_ref"] = Ok (opt_val VStr (approval_ref a)) /\
    item spec ["mutation_policy"; "automatic_activation"] = Ok (VBool false).
Proof.
  intros host a w. apply (spec_generated (H := host) a w).
  assert ((main (H := host) a w).1 = Ok 0) as E by (vm_compute; reflexivity). exact E.
Defined.
End GenerateSpecRun.
