(* ===== verification/CiProvenance.v ===== *)
(** * scripts/operations/verify_ci_provenance.py

    The provenance of a run of continuous integration: the commit checked out,
    the commit of the event and the release identity must be one. *)

From Stdlib Require Import Ascii.
From S2P Require Import Prelude PyFloat PyMonad PyValue PyTime PyJson Sha256 PyOs OsFacts Fixture GenerateSpec.

Module CiProvenance.
Import Evidence.

(** [SHA.fullmatch(value)] *)
Definition is_sha (s : string) : bool := (Str.len s =? 40) && Str.all_chars Str.is_hex_lower s.

(** [payload.get("pull_request", {}).get("head", {}).get("sha")] *)
Definition head_sha (payload : val) : res val :=
  p ← dget_or payload "pull_request" (VDict []); get2 p "head" "sha".

Definition event_source_sha (event_name : string) (payload : val) : res (option string) :=
  value ← (if String.eqb event_name "push" then dget payload "after"
           else if String.eqb event_name "pull_request" then head_sha payload else Ok VNone);
  Ok (match value with VStr s => Some s | _ => None end).

Definition PREFIX : string := "liqi-v1-ci-".

Definition shape_failures (named : list (string * string)) : list string :=
  concat (map (λ nv, if is_sha nv.2 then [] else [nv.1 +:+ " is not an exact lowercase Git SHA"]) named).

Definition opt_is (o : option string) (s : string) : bool := match o with Some t => String.eqb t s | None => false end.

(** The failures of an event, and the kind of [GITHUB_SHA]. *)
Definition event_failures (event_name github_sha expected_sha : string) : list string * string :=
  if String.eqb event_name "push"
  then (unless (String.eqb github_sha expected_sha) "push github.sha differs from event after/source SHA", "source")
  else if String.eqb event_name "pull_request"
  then ([], if String.eqb github_sha expected_sha then "source" else "pull-request-merge")
  else (["unsupported CI event: " +:+ event_name], "source").

Definition evaluate (actual_sha expected_sha github_sha event_name : string) (payload : val) (release_id : string)
  : res (list string * list (string * val)) :=
  derived ← event_source_sha event_name payload;
  let release_suffix := Str.removeprefix PREFIX release_id in
  let '(event, kind) := event_failures event_name github_sha expected_sha in
  let failures :=
    shape_failures [("actual checkout SHA", actual_sha); ("expected source SHA", expected_sha); ("GitHub SHA", github_sha);
                    ("event source SHA", default "" derived); ("release ID suffix", release_suffix)] ++
    unless (String.eqb actual_sha expected_sha) "checked-out SHA differs from expected source SHA" ++
    unless (opt_is derived expected_sha) "GitHub event source SHA differs from expected source SHA" ++
    unless (String.eqb release_suffix expected_sha) "release ID suffix differs from expected source SHA" ++ event in
  after ← dget payload "after";
  head ← (if String.eqb event_name "pull_request" then head_sha payload else Ok VNone);
  merge ← (if String.eqb event_name "pull_request" then get2 payload "pull_request" "merge_commit_sha" else Ok VNone);
  Ok (failures, [("actual_sha", VStr actual_sha); ("expected_sha", VStr expected_sha);
    ("event_source_sha", opt_val VStr derived); ("event_after", if is_str after then after else VNone);
    ("pull_request_head_sha", head); ("pull_request_merge_sha", merge); ("github_sha", VStr github_sha);
    ("github_sha_kind", VStr kind); ("release_id", VStr release_id)]).

Section Env.
Context `{Platform}.

Definition utc_now : IO string := t ← now; mret (Time.iso_z_seconds t).

Record args := Args { a_job : string; a_expected_sha : string; a_release_id : string; a_output : path }.

(** [str] of a [CalledProcessError]; a negative status is a signal's. *)
Definition SIGNALS : list string := ["SIGHUP"; "SIGINT"; "SIGQUIT"; "SIGILL"; "SIGTRAP"; "SIGABRT"; "SIGBUS"; "SIGFPE";
  "SIGKILL"; "SIGUSR1"; "SIGSEGV"; "SIGUSR2"; "SIGPIPE"; "SIGALRM"; "SIGTERM"; "SIGSTKFLT"; "SIGCHLD"; "SIGCONT"; "SIGSTOP";
  "SIGTSTP"; "SIGTTIN"; "SIGTTOU"; "SIGURG"; "SIGXCPU"; "SIGXFSZ"; "SIGVTALRM"; "SIGPROF"; "SIGWINCH"; "SIGIO"; "SIGPWR";
  "SIGSYS"].
Definition called_text (argv : list string) (code : Z) : string :=
  "Command '" +:+ repr_strs argv +:+ "' " +:+
  (if 0 <=? code then "returned non-zero exit status " +:+ Str.of_Z code +:+ "."
   else match nth_error SIGNALS (Z.to_nat (- code - 1)) with
        | Some n => "died with <Signals." +:+ n +:+ ": " +:+ Str.of_Z (- code) +:+ ">."
        | None => "died with unknown signal " +:+ Str.of_Z (- code) +:+ "."
        end).

Definition rev_parse : list string := ["git"; "rev-parse"; "HEAD"].
(** [subprocess.check_output(["git", "rev-parse", "HEAD"], text=True, timeout=10).strip()] *)
Definition checkout_sha : IO string :=
  env ← gets environ;
  r ← run_completed (Proc rev_parse (Some 10) env None);
  let '(code, o, _) := r in
  if code =? 0 then mret (Str.strip o)
  else throw CalledProcessError (called_text rev_parse code).

Definition env_or (k d : string) : IO string := v ← getenv k; mret (default d v).

Definition observe (a : args) (event_path : path) : IO (list string * list (string * val)) :=
  payload ← load_json event_path;
  actual_sha ← checkout_sha;
  github_sha ← env_or "GITHUB_SHA" "";
  event_name ← env_or "GITHUB_EVENT_NAME" "";
  lift (evaluate actual_sha (a_expected_sha a) github_sha event_name payload (a_release_id a)).

(** What is reported when the input cannot be read. *)
Definition unreadable (a : args) (e : exn) : IO (list string * list (string * val)) :=
  github_sha ← getenv "GITHUB_SHA";
  mret (["provenance input could not be read: " +:+ exn_str e],
    [("actual_sha", VNone); ("expected_sha", VStr (a_expected_sha a)); ("event_source_sha", VNone); ("event_after", VNone);
     ("pull_request_head_sha", VNone); ("pull_request_merge_sha", VNone); ("github_sha", opt_val VStr github_sha);
     ("github_sha_kind", VStr "unknown"); ("release_id", VStr (a_release_id a))]).

(** [OSError], [JSONDecodeError] and the two classes of [SubprocessError] *)
Definition input_errors : list exn_class := [OSError; JSONDecodeError; CalledProcessError; TimeoutExpired].

Definition main (a : args) : IO Z :=
  event_path ← env_or "GITHUB_EVENT_PATH" "";
  fd ← catch (observe a (Path.of_str event_path)) (on_exn input_errors (unreadable a));
  observed ← utc_now;
  event_name ← getenv "GITHUB_EVENT_NAME";
  let status := if bool_decide (fd.1 = []) then "passed" else "failed" in
  write_document (a_output a) (VDict (Dict.update fd.2 [("schema_version", VStr "ci-provenance-v1");
    ("observed_at", VStr observed); ("job", VStr (a_job a)); ("event_name", opt_val VStr event_name);
    ("status", VStr status)] ++ [("failures", VStrs fd.1)])) ;;
  print (Json.dumps Json.plain_sorted (VDict [("job", VStr (a_job a)); ("status", VStr status);
                                              ("source_sha", VStr (a_expected_sha a))])) ;;
  mret (if bool_decide (fd.1 = []) then 0 else 1).
End Env.
End CiProvenance.

Module CiProvenanceSpec.
Import Evidence CiProvenance.

Lemma opt_is_true o s : opt_is o s = true -> o = Some s.
Proof. destruct o as [t|]; [|done]. by intros ->%String.eqb_eq. Qed.

Lemma removeprefix_eq p s t : Str.removeprefix p s = t -> s = t \/ s = p +:+ t.
Proof.
  unfold Str.removeprefix. intros <-. assert (forall p s r, Str.strip_prefix p s = Some r -> s = p +:+ r) as H.
  { clear. induction p as [|c p IH]; intros s r E; [by injection E as ->|]. destruct s as [|d s]; [done|]. simpl in E.
    destruct (Ascii.eqb c d) eqn:Ec; [|done]. apply Ascii.eqb_eq in Ec as ->. rewrite Str.app_cons. by rewrite <-(IH _ _ E). }
  destruct (Str.strip_prefix p s) as [r|] eqn:E; [right; by apply H|by left].
Qed.

(** The commit an event speaks of. *)
Definition event_names (payload : val) (event_name sha : string) : Prop :=
  (event_name = "push" /\ dget payload "after" = Ok (VStr sha)) \/
  (event_name = "pull_request" /\ head_sha payload = Ok (VStr sha)).

Lemma evaluate_nil actual expected github event_name payload release_id details :
  evaluate actual expected github event_name payload release_id = Ok ([], details) ->
  is_sha expected = true /\ is_sha github = true /\ actual = expected /\ event_names payload event_name expected /\
  (release_id = expected \/ release_id = PREFIX +:+ expected) /\ (event_name = "push" -> github = expected).
Proof.
  unfold evaluate. intros E. apply bind_Ok in E as (derived & Ed & E). cbn zeta in E.
  destruct (event_failures event_name github expected) as [event kind] eqn:Ee.
  do 3 (apply bind_Ok in E as (? & _ & E)). injection E as E _. apply app_eq_nil in E as [Hs E].
  apply app_eq_nil in E as [Ha%unless_nil%String.eqb_eq E]. apply app_eq_nil in E as [Hd%unless_nil%opt_is_true E].
  apply app_eq_nil in E as [Hr%unless_nil%String.eqb_eq ->]. unfold shape_failures in Hs. cbn [map concat fst snd] in Hs.
  apply app_eq_nil in Hs as [_ Hs]. apply app_eq_nil in Hs as [H1 Hs]. apply app_eq_nil in Hs as [H2 Hs].
  destruct (is_sha expected); [|done]. destruct (is_sha github); [|done]. do 2 (split; [done|]). split; [done|].
  assert (event_names payload event_name expected /\ (event_name = "push" -> github = expected)) as [? ?].
  { subst derived. unfold event_source_sha in Ed. apply bind_Ok in Ed as (v & Ev & Ed). injection Ed as Ed.
    destruct v as [| | | |s| |]; try done. injection Ed as ->. unfold event_failures in Ee.
    destruct (String.eqb_spec event_name "push") as [->|].
    - split; [by left|]. intros _. injection Ee as Hn _. by apply unless_nil, String.eqb_eq in Hn.
    - destruct (String.eqb_spec event_name "pull_request") as [->|]; [|done]. split; [by right|done]. }
  split; [done|]. split; [by apply removeprefix_eq|done].
Qed.

Section Run.
Context `{Platform} (a : args).

(** The provenance check passes (exit code 0) only when it has read the event and [git]
    has answered, and one lowercase Git SHA, the one expected, is the commit checked out,
    the commit the event names (pushed, or the head of the pull request) and the commit
    of the release identity; for a push [GITHUB_SHA] is that commit too. *)
Theorem ci_provenance_passed w : (main a w).1 = Ok 0 ->
  exists payload o e f d github event_name, let expected := a_expected_sha a in
    load_json (Path.of_str (default "" (Dict.lookup "GITHUB_EVENT_PATH" (environ w)))) w = (Ok payload, w) /\
    exec (log w) (Proc rev_parse (Some 10) (environ w) None) (fs w) = (Exited 0 o e, f, d) /\
    Str.strip o = expected /\ is_sha expected = true /\
    default "" (Dict.lookup "GITHUB_EVENT_NAME" (environ w)) = event_name /\ event_names payload event_name expected /\
    default "" (Dict.lookup "GITHUB_SHA" (environ w)) = github /\ is_sha github = true /\
    (event_name = "push" -> github = expected) /\
    (a_release_id a = expected \/ a_release_id a = PREFIX +:+ expected).
Proof.
  destruct (main a w) as [r w'] eqn:E. cbn [fst]. intros ->. unfold main in E.
  apply M_bind_Ok in E as (p & w1 & E1 & E). unfold env_or in E1. apply M_bind_Ok in E1 as (v & w2 & Ev & E1).
  injection Ev as <- <-. apply ret_Ok in E1 as [<- ->].
  apply M_bind_Ok in E as ([failures details] & w1 & E2 & E). cbn [fst snd] in E.
  apply M_bind_Ok in E as (? & ? & _ & E). apply M_bind_Ok in E as (? & ? & _ & E). cbn zeta in E.
  do 2 (apply M_bind_Ok in E as (? & ? & _ & E)). apply ret_Ok in E as [E _].
  destruct (bool_decide (failures = [])) eqn:Ef; [|done]. apply bool_decide_eq_true in Ef as ->. clear E.
  apply catch_Ok in E2 as [E|(ex & w3 & k & _ & Hk & E)].
  2:{ unfold on_exn in Hk. destruct (exn_in _ ex); [|done]. injection Hk as <-.
      apply M_bind_Ok in E as (? & ? & _ & E). by apply ret_Ok in E as [E _]. }
  unfold observe in E. apply M_bind_Ok in E as (payload & w2 & E3 & E). same_world E3.
  apply M_bind_Ok in E as (sha & w2 & E4 & E).
  unfold checkout_sha in E4. apply M_bind_Ok in E4 as (env & w3 & Een & E4). injection Een as <- <-.
  apply M_bind_Ok in E4 as ([[code o] er] & w3 & E5 & E4). unfold run_completed in E5.
  apply M_bind_Ok in E5 as (pr & w4 & E6 & E5). unfold subprocess_run in E6.
  destruct (exec _ _ _) as [[po f] d] eqn:Ex. destruct po as [c o' e'| |]; [|by injection E6 as <- <-|done].
  injection E6 as <- <-. apply ret_Ok in E5 as [[= <- <- <-] ->]. destruct (Z.eqb_spec c 0) as [->|]; [|done].
  apply ret_Ok in E4 as [<- ->]. unfold env_or in E.
  apply M_bind_Ok in E as (gs & w5 & Eg & E). apply M_bind_Ok in Eg as (? & ? & [= <- <-] & [<- ->]%ret_Ok).
  apply M_bind_Ok in E as (en & w5 & Een & E). apply M_bind_Ok in Een as (? & ? & [= <- <-] & [<- ->]%ret_Ok).
  apply lift_Ok in E as [E _]. apply evaluate_nil in E as (H1 & H2 & H3 & H4 & H5 & H6).
  cbn [environ] in *. exists payload, o', e', f, d. eexists _, _. repeat split; done.
Qed.
End Run.
End CiProvenanceSpec.

(** ** A concrete run *)

Module CiProvenanceRun.
Import Fixture Evidence CiProvenance CiProvenanceSpec.

Definition sha : string := "0123456789abcdef0123456789abcdef01234567".
Definition git_host : Platform := host_with (λ _ _ f, (Exited 0 (sha +:+ String (ascii_of_N 10) "") "", f, 1000)).
Definition merge : string := "76543210fedcba9876543210fedcba9876543210".
Definition event : string := json (VDict [("pull_request", VDict [("head", rec [("sha", sha)]); ("merge_commit_sha", VStr merge)])]).
Definition w0 : world :=
  let w := world_with [("/ci/event.json", event); ("/out/.keep", "")] in
  World (fs w) (cwd w) [("GITHUB_EVENT_PATH", "/ci/event.json"); ("GITHUB_EVENT_NAME", "pull_request"); ("GITHUB_SHA", merge)]
    0 0 [] [] [].
Definition the_args : args := Args "build" sha ("liqi-v1-ci-" +:+ sha) (Path.of_str "/out/provenance.json").

Lemma ci_provenance_passed_witness : let host := git_host in let a := the_args in let w := w0 in
  exists payload o e f d github event_name, let expected := a_expected_sha a in
    load_json (Path.of_str (default "" (Dict.lookup "GITHUB_EVENT_PATH" (environ w)))) w = (Ok payload, w) /\
    exec (log w) (Proc rev_parse (Some 10) (environ w) None) (fs w) = (Exited 0 o e, f, d) /\
    Str.strip o = expected /\ is_sha expected = true /\
    default "" (Dict.lookup "GITHUB_EVENT_NAME" (environ w)) = event_name /\ event_names payload event_name expected /\
    default "" (Dict.lookup "GITHUB_SHA" (environ w)) = github /\ is_sha github = true /\
    (event_name = "push" -> github = expected) /\
    (a_release_id a = expected \/ a_release_id a = PREFIX +:+ expected).
Proof.
  intros host a w. apply (ci_provenance_passed (H := host) a w).
  assert ((main (H := host) a w).1 = Ok 0) as E by (vm_compute; reflexivity). exact E.
Defined.
End CiProvenanceRun.
