(* ===== verification/IntegrationResult.v ===== *)
(** * scripts/operations/assemble_integration_result.py

    The evidence of a promotion composed into one integration result: the
    provider gates, the capacity, the recovery and the platform probe. *)

From S2P Require Import Prelude PyFloat PyMonad PyValue PyTime PyJson Sha256 PyOs OsFacts Fixture GenerateSpec.

Module IntegrationResult.
Import Evidence.
Section Env.
Context `{Platform}.

Definition OPERATIONS : path := Path.div repo_root "contracts/operations".
Definition RESULT_SCHEMA : path := Path.div OPERATIONS "integration-result-v0.schema.json".
Definition PROBE_SCHEMA : path := Path.div OPERATIONS "platform-probe-result-v0.schema.json".
Definition CAPACITY_SCHEMA : path := Path.div OPERATIONS "capacity-result-v0.schema.json".
Definition RECOVERY_SCHEMA : path := Path.div OPERATIONS "recovery-freshness-result-v0.schema.json".

Definition load (p : path) : IO val := load_json p.
Definition validate (schema_path : path) (document : val) (label : string) : IO (list string) :=
  labelled_errors schema_path document label.

Definition gate (seam command status output_ref : string) (failure_class : option string) : val :=
  VDict [("owner", VStr "Senior 4"); ("seam", VStr seam); ("command", VStr command); ("status", VStr status);
    ("exit_code", VInt (if String.eqb status "passed" then 0 else 1)); ("duration_ms", VInt 0);
    ("output_ref", VStr output_ref); ("failure_class", opt_val VStr failure_class)].

Record args := Args { provider_result : path; capacity_result : path; recovery_result : path; platform_probe : path;
                      a_output : path }.

(** The documents of a promotion. *)
Record documents := Documents { provider : val; capacity : val; recovery : val; probe : val }.

(** [any(check.get("status") != "passed" for check in probe.get("checks", []))] *)
Definition any_failed_check (probe : val) : res bool :=
  checks ← dget_or probe "checks" (VList []); checks ← py_iter checks;
  rany (λ c, get_ne c "status" (VStr "passed")) checks.

Definition promotion_tests (d : documents) (overall : val) : list (res (list string)) := [
  failure_if (get_ne (provider d) "mode" (VStr "provider")) "provider result must use provider mode; mock evidence cannot promote";
  failure_if (get_ne (provider d) "overall_status" (VStr "passed")) ("provider result is not passed: " +:+ py_str overall);
  failure_if (get_ne (capacity d) "status" (VStr "passed")) "capacity result is not passed";
  failure_if (rand (e ← dget (provider d) "environment"; in_set e [VStr "staging"; VStr "production"])
                (get_ne (recovery d) "status" (VStr "passed")))
    "staging/production promotion requires passed recovery freshness";
  failure_if (get_ne (probe d) "status" (VStr "passed")) "platform probe is not passed";
  failure_if (ror (fields_differ (probe d) "release_id" (provider d) "release_id")
                  (fields_differ (probe d) "observed_release_id" (provider d) "release_id"))
    "platform probe release ID does not match integration release";
  failure_if (fields_differ (probe d) "environment" (provider d) "environment")
    "platform probe environment does not match integration environment";
  failure_if (any_failed_check (probe d)) "platform probe contains a failed check"].
Definition promotion_failures (d : documents) : res (list string) :=
  mode ← dget (provider d) "mode";
  overall ← dget (provider d) "overall_status";
  failures_of (promotion_tests d overall).

Definition violation (message : string) : val :=
  VDict [("owner", VStr "Senior 4"); ("seam", VStr "promotion evidence composition");
    ("code", VStr "PROMOTION_EVIDENCE_INVALID"); ("message", VStr message);
    ("action_required", VStr "Correct the owning provider evidence; do not add a Senior 4 fallback or mock.")].

(** ["passed" if v.get("status") == "passed" else "failed"], and the class of its gate *)
Definition status_word (v : val) : res string := b ← get_eq v "status" (VStr "passed"); Ok (if b : bool then "passed" else "failed").
Definition status_gate (seam command : string) (v : val) (output_ref class : string) : res val :=
  s ← status_word v;
  Ok (gate seam command s output_ref (if String.eqb s "passed" then None else Some class)).
(** [list(v.get(k, []))] *)
Definition list_of (v : val) (k : string) : res (list val) := l ← dget_or v k (VList []); py_iter l.
Definition get2_or (v : val) (k l : string) (d : Z) : res val := x ← dget_or v k (VDict []); dget_or x l (VInt d).

Definition capacity_part (capacity : val) : res val :=
  envelope ← dget_or capacity "envelope" (VDict []);
  totals ← dget_or capacity "totals" (VDict []); hard ← dget_or capacity "hard_limit_totals" totals;
  steady ← dget_or capacity "steady_state_totals" (VDict []);
  s ← status_word capacity;
  a ← get2_or envelope "provider_hard_limit" "ocpu" 3; b ← get2_or envelope "provider_hard_limit" "memory_mib" 20480;
  c ← get2_or envelope "reserved" "ocpu" 1; d ← get2_or envelope "reserved" "memory_mib" 4096;
  e ← dget_or hard "ocpu" (VInt 0); f ← dget_or hard "memory_mib" (VInt 0);
  g ← dget_or steady "ocpu" (VInt 0); h ← dget_or steady "memory_mib" (VInt 0); i ← dget_or hard "disk_gib" (VInt 0);
  Ok (VDict [("status", VStr s); ("hard_limit_ocpu", a); ("hard_limit_memory_mib", b); ("reserved_ocpu", c);
    ("reserved_memory_mib", d); ("declared_ocpu", e); ("declared_memory_mib", f); ("steady_state_ocpu", g);
    ("steady_state_memory_mib", h); ("disk_budget_gib", i)]).
Definition recovery_part (recovery : val) : res val :=
  s ← status_word recovery; a ← dget recovery "backup_age_seconds"; b ← dget recovery "wal_archive_lag_seconds";
  c ← dget recovery "restore_verified_at"; d ← dget recovery "evidence_ref";
  Ok (VDict [("status", VStr s); ("backup_age_seconds", a); ("wal_archive_lag_seconds", b); ("restore_verified_at", c);
             ("evidence_ref", d)]).
Definition probe_part (probe : val) (result_ref : string) : res val :=
  s ← status_word probe; r ← dget probe "observed_release_id";
  Ok (VDict [("status", VStr s); ("result_ref", VStr result_ref); ("release_id_observed", r)]).

Definition result (a : args) (d : documents) (failures : list string) : res val :=
  old ← list_of (provider d) "violations";
  fields ← py_items (provider d);
  gates ← list_of (provider d) "gates";
  g1 ← status_gate "capacity aggregation" "scripts/operations/collect_provider_capacity.py" (capacity d)
         (Path.to_str (capacity_result a)) "capacity";
  g2 ← status_gate "recovery freshness" "scripts/operations/check_recovery_freshness.py" (recovery d)
         (Path.to_str (recovery_result a)) "recovery";
  g3 ← status_gate "platform probe evaluation" "provider-owned platform probe" (probe d)
         (Path.to_str (platform_probe a)) "runtime";
  let status := if bool_decide (failures = []) then "passed" else "failed" in
  let g4 := gate "promotion evidence compatibility" "scripts/operations/assemble_integration_result.py" status
              (Path.to_str (a_output a)) (if bool_decide (failures = []) then None else Some "contract") in
  c ← capacity_part (capacity d); r ← recovery_part (recovery d);
  p ← probe_part (probe d) (Path.to_str (platform_probe a));
  Ok (VDict (Dict.update [("overall_status", VStr status); ("gates", VList (gates ++ [g1; g2; g3; g4])); ("capacity", c);
    ("recovery", r); ("platform_probe", p); ("violations", VList (old ++ map violation failures))] fields)).

Definition main (a : args) : IO Z :=
  pr ← load (provider_result a);
  ca ← load (capacity_result a);
  re ← load (recovery_result a);
  pb ← load (platform_probe a);
  let d := Documents pr ca re pb in
  e1 ← validate RESULT_SCHEMA pr "provider_result";
  e2 ← validate CAPACITY_SCHEMA ca "capacity_result";
  e3 ← validate RECOVERY_SCHEMA re "recovery_result";
  e4 ← validate PROBE_SCHEMA pb "platform_probe";
  e5 ← lift (promotion_failures d);
  let failures := e1 ++ e2 ++ e3 ++ e4 ++ e5 in
  r ← lift (result a d failures);
  output_errors ← validate RESULT_SCHEMA r "integration_result";
  match output_errors with
  | _ :: _ => mfor (λ f, print_err ("ERROR assemble-integration: " +:+ f)) output_errors ;; mret 65
  | [] =>
      write_document (a_output a) r ;;
      print ("assembled integration result " +:+ (if bool_decide (failures = []) then "passed" else "failed") +:+ ": "
             +:+ Path.to_str (a_output a)) ;;
      mret (if bool_decide (failures = []) then 0 else 1)
  end.
End Env.
End IntegrationResult.

Module IntegrationSpec.
Import Evidence IntegrationResult.

(** Evidence that promotes a release. *)
Record promotable (d : documents) : Prop := {
  p_mode : dget (provider d) "mode" = Ok (VStr "provider");
  p_passed : dget (provider d) "overall_status" = Ok (VStr "passed");
  p_capacity : dget (capacity d) "status" = Ok (VStr "passed");
  p_recovery : forall e, dget (provider d) "environment" = Ok (VStr e) -> e ∈ ["staging"; "production"] ->
    dget (recovery d) "status" = Ok (VStr "passed");
  p_probe : dget (probe d) "status" = Ok (VStr "passed");
  p_release : fields_differ (probe d) "release_id" (provider d) "release_id" = Ok false;
  p_observed : fields_differ (probe d) "observed_release_id" (provider d) "release_id" = Ok false;
  p_environment : fields_differ (probe d) "environment" (provider d) "environment" = Ok false;
  p_checks : exists v l, dget_or (probe d) "checks" (VList []) = Ok v /\ py_iter v = Ok l /\
    Forall (λ c, dget c "status" = Ok (VStr "passed")) l
}.

Lemma any_failed_false p : any_failed_check p = Ok false ->
  exists v l, dget_or p "checks" (VList []) = Ok v /\ py_iter v = Ok l /\ Forall (λ c, dget c "status" = Ok (VStr "passed")) l.
Proof.
  unfold any_failed_check. intros E. apply bind_Ok in E as (v & Ev & E). apply bind_Ok in E as (l & El & E).
  exists v, l. do 2 (split; [done|]). clear -E. induction l as [|c l IH]; [constructor|]. simpl in E.
  apply bind_Ok in E as (b & Eb & E). destruct b; [done|]. apply get_ne_str in Eb. constructor; [done|by apply IH].
Qed.

Lemma promotion_nil d : promotion_failures d = Ok [] -> promotable d.
Proof.
  unfold promotion_failures. intros E. apply bind_Ok in E as (m & _ & E). apply bind_Ok in E as (o & _ & E).
  apply failures_nil in E. unfold promotion_tests in E. rewrite !Forall_cons, !failure_if_nil in E.
  destruct E as (A%get_ne_str & B%get_ne_str & C%get_ne_str & R & P%get_ne_str & [F1 F2]%ror_false & F3 & Ch%any_failed_false & _).
  split; try done. intros e He Hin. apply rand_false in R as [R|[_ R]]; [|by apply get_ne_str].
  rewrite He in R. cbn [mbind res_bind] in R. unfold in_set in R. simpl in R. exfalso.
  apply elem_of_cons in Hin as [->|Hin]; [done|]. apply elem_of_cons in Hin as [->|Hin]; [done|].
  by apply not_elem_of_nil in Hin.
Qed.

Section Run.
Context `{Platform} (a : args).

Lemma ro_load_evidence_file p : Pres eq (load p).
Proof. apply ro_load_json. Qed.
#[local] Hint Resolve ro_load_evidence_file : pres.

(** A promotion is assembled as passed (exit code 0) only from four documents without a
    schema error: a passed result of the real providers, a passed capacity, a passed
    recovery for staging and production, and a passed platform probe of the same release
    and environment without a failed check. The published result is valid, says
    [passed], and adds no violation to the ones of the providers. *)
Theorem integration_passed w : (main a w).1 = Ok 0 ->
  exists d r old, load (provider_result a) w = (Ok (provider d), w) /\ load (capacity_result a) w = (Ok (capacity d), w) /\
    load (recovery_result a) w = (Ok (recovery d), w) /\ load (platform_probe a) w = (Ok (probe d), w) /\
    valid w RESULT_SCHEMA (provider d) /\ valid w CAPACITY_SCHEMA (capacity d) /\
    valid w RECOVERY_SCHEMA (recovery d) /\ valid w PROBE_SCHEMA (probe d) /\ promotable d /\
    valid w RESULT_SCHEMA r /\ (write_document (a_output a) r w).1 = Ok tt /\
    dget r "overall_status" = Ok (VStr "passed") /\
    list_of (provider d) "violations" = Ok old /\ dget r "violations" = Ok (VList old).
Proof.
  destruct (main a w) as [rr w'] eqn:E. cbn [fst]. intros ->. unfold main in E.
  apply M_bind_Ok in E as (pr & w1 & E1 & E). same_world E1.
  apply M_bind_Ok in E as (ca & w1 & E2 & E). same_world E2.
  apply M_bind_Ok in E as (re & w1 & E3 & E). same_world E3.
  apply M_bind_Ok in E as (pb & w1 & E4 & E). same_world E4. cbn zeta in E.
  apply M_bind_Ok in E as (e1 & w1 & E5 & E). apply labelled_nil in E5 as [-> V1].
  apply M_bind_Ok in E as (e2 & w1 & E6 & E). apply labelled_nil in E6 as [-> V2].
  apply M_bind_Ok in E as (e3 & w1 & E7 & E). apply labelled_nil in E7 as [-> V3].
  apply M_bind_Ok in E as (e4 & w1 & E8 & E). apply labelled_nil in E8 as [-> V4].
  apply M_bind_Ok in E as (e5 & w1 & E9 & E). apply lift_Ok in E9 as [E9 ->].
  apply M_bind_Ok in E as (r & w1 & E10 & E). apply lift_Ok in E10 as [E10 ->].
  apply M_bind_Ok in E as (eo & w1 & E11 & E). apply labelled_nil in E11 as [-> V5].
  destruct eo; [|by apply M_bind_Ok in E as (? & ? & _ & [? _]%ret_Ok)].
  apply M_bind_Ok in E as (u & w1 & E12 & E). apply M_bind_Ok in E as (? & ? & _ & E). apply ret_Ok in E as [E _].
  destruct (bool_decide (e1 ++ e2 ++ e3 ++ e4 ++ e5 = [])) eqn:En; [|done]. apply bool_decide_eq_true in En.
  rewrite En in E10. apply app_eq_nil in En as [N1 En]. apply app_eq_nil in En as [N2 En].
  apply app_eq_nil in En as [N3 En]. apply app_eq_nil in En as [N4 ->].
  unfold result in E10. inv_run. injection E10 as <-.
  eexists (Documents pr ca re pb), _, _. cbn [provider capacity recovery probe]. do 4 (split; [done|]).
  split; [by apply V1|]. split; [by apply V2|]. split; [by apply V3|]. split; [by apply V4|].
  split; [by apply promotion_nil|]. split; [by apply V5|]. split; [rewrite E12; by destruct u|].
  cbn [map]. rewrite app_nil_r. unfold dget, dget_or, Dict.update. cbn [fold_left fst snd].
  rewrite !Dict.lookup_set_ne by done. rewrite !Dict.lookup_set. cbn [default]. split; [done|]. by split; [eassumption|].
Qed.
End Run.
End IntegrationSpec.

(** ** A concrete run *)

Module IntegrationRun.
Import Fixture Evidence IntegrationResult IntegrationSpec.

Definition passed : (string * val) := ("status", VStr "passed").
Definition provider_text : string := json (VDict [("mode", VStr "provider"); ("overall_status", VStr "passed");
  ("release_id", VStr "r2"); ("environment", VStr "production"); ("violations", VList []); ("gates", VList [])]).
Definition capacity_text : string := json (VDict [passed; ("totals", VDict [("ocpu", VInt 2); ("memory_mib", VInt 8192)])]).
Definition recovery_text : string := json (VDict [passed; ("backup_age_seconds", VInt 60)]).
Definition probe_text (check : string) : string := json (VDict [passed; ("release_id", VStr "r2");
  ("observed_release_id", VStr "r2"); ("environment", VStr "production"); ("checks", VList [rec [("status", check)]])]).
Definition world_of (check : string) : world := world_with ([("/in/provider.json", provider_text);
  ("/in/capacity.json", capacity_text); ("/in/recovery.json", recovery_text); ("/in/probe.json", probe_text check);
  ("/out/.keep", "")] ++
  map (λ n, ("/repo/contracts/operations/" +:+ n +:+ ".schema.json", "{}"))
    ["integration-result-v0"; "platform-probe-result-v0"; "capacity-result-v0"; "recovery-freshness-result-v0"]).
Definition w0 : world := world_of "passed".
Definition the_args : args := Args (Path.of_str "/in/provider.json") (Path.of_str "/in/capacity.json")
  (Path.of_str "/in/recovery.json") (Path.of_str "/in/probe.json") (Path.of_str "/out/result.json").

(** A failed check of the probe fails the promotion, although the probe says [passed]. *)
Example failed_check_fails : (main (H := quiet_host) the_args (world_of "failed")).1 = Ok 1.
Proof. vm_compute. reflexivity. Qed.

Lemma integration_passed_witness : let host := quiet_host in let a := the_args in let w := w0 in
  exists d r old, load (provider_result a) w = (Ok (provider d), w) /\ load (capacity_result a) w = (Ok (capacity d), w) /\
    load (recovery_result a) w = (Ok (recovery d), w) /\ load (platform_probe a) w = (Ok (probe d), w) /\
    valid w RESULT_SCHEMA (provider d) /\ valid w CAPACITY_SCHEMA (capacity d) /\
    valid w RECOVERY_SCHEMA (recovery d) /\ valid w PROBE_SCHEMA (probe d) /\ promotable d /\
    valid w RESULT_SCHEMA r /\ (write_document (a_output a) r w).1 = Ok tt /\
    dget r "overall_status" = Ok (VStr "passed") /\
    list_of (provider d) "violations" = Ok old /\ dget r "violations" = Ok (VList old).
Proof.
  intros host a w. apply (integration_passed (H := host) a w).
  assert ((main (H := host) a w).1 = Ok 0) as E by (vm_compute; reflexivity). exact E.
Defined.
End IntegrationRun.
