(* ===== verification/SourceReadiness.v ===== *)
(** * scripts/operations/assemble_source_readiness.py

    The source, compatibility and capacity evidence of the providers composed
    into one readiness result, with the blockers each owner has to remove. *)

From S2P Require Import Prelude PyFloat PyMonad PyValue PyTime PyJson Sha256 PyOs OsFacts Fixture GenerateSpec.

Module SourceReadiness.
Import Evidence.

(** A blocker: a dict with these six keys. *)
Record blocker_record := Blocker { b_owner : val; b_seam : val; b_code : val; b_severity : val; b_message : val;
                                   b_action : val }.
Definition blocker_val (b : blocker_record) : val :=
  VDict [("owner", b_owner b); ("seam", b_seam b); ("code", b_code b); ("severity", b_severity b);
         ("message", b_message b); ("action_required", b_action b)].
Definition blocker (owner seam code severity message action : val) : res blocker_record :=
  m ← py_slice_to 1000 message; a ← py_slice_to 1000 action; Ok (Blocker owner seam code severity m a).

Definition overall (statuses : list val) : string :=
  if py_in (VStr "failed") statuses then "failed" else if py_in (VStr "blocked") statuses then "blocked" else "passed".

(** A violation of the providers, and a check of their compatibility *)
Definition violation_severity (item : val) : res string :=
  c ← dget item "code"; b ← in_set c [VStr "PROVIDER_GATE_FAILED"; VStr "PROVIDER_GATE_TIMEOUT"];
  Ok (if b : bool then "failed" else "blocked").
Definition item_blocker (item severity : val) : res blocker_record :=
  owner ← getitem item "owner"; seam ← getitem item "seam"; code ← getitem item "code";
  message ← getitem item "message"; action ← getitem item "action_required";
  blocker owner seam code severity message action.
Definition violation_blocker (item : val) : res blocker_record :=
  s ← violation_severity item; item_blocker item (VStr s).
Definition check_blocker (item : val) : res (list blocker_record) :=
  s ← getitem item "status";
  if py_ne s (VStr "passed") then
    owner ← getitem item "owner"; seam ← getitem item "seam"; code ← getitem item "code";
    severity ← getitem item "status"; message ← getitem item "message"; action ← getitem item "action_required";
    b ← blocker owner seam code severity message action; Ok [b]
  else Ok [].

(** A dict with values of any hashable type as keys: an assignment keeps the place of a key. *)
Fixpoint put {K A} (eqb : K -> K -> bool) (k : K) (x : A) (d : list (K * A)) : list (K * A) :=
  match d with
  | [] => [(k, x)]
  | (k', y) :: r => if eqb k k' then (k', x) :: r else (k', y) :: put eqb k x r
  end.
Definition dict_of {K A} (eqb : K -> K -> bool) (l : list (K * A)) : list (K * A) :=
  fold_left (λ d kx, put eqb kx.1 kx.2 d) l [].

(** [{record['provider']: record for record in registry.get('providers', [])}] *)
Definition records_of (registry : val) : res (list (val * val)) :=
  l ← dget_or registry "providers" (VList []); l ← py_iter l; kv ← keyed Ok "provider" l; Ok (dict_of py_eq kv).

(** The record a failure of the capacity speaks of: the first whose provider or path it contains. *)
Definition mentions (message : val) (name_record : val * val) : res bool :=
  ror (py_contains name_record.1 message) (p ← getitem name_record.2 "path"; py_contains p message).
Definition failure_blocker (records : list (val * val)) (message : val) : res blocker_record :=
  matched ← rfind (mentions message) records;
  match matched with
  | Some (_, r) =>
      if truthy r then
        owner ← getitem r "owner"; name ← getitem r "provider"; action ← getitem r "action_required";
        blocker owner (VStr (py_str name +:+ " capacity budget")) (VStr "PROVIDER_CAPACITY_INVALID") (VStr "failed")
          message action
      else
        blocker (VStr "Senior 4") (VStr "capacity envelope aggregation") (VStr "CAPACITY_ENVELOPE_FAILED") (VStr "failed")
          message (VStr "Coordinate the provider budget that consumes shared headroom; do not increase the envelope silently.")
  | None =>
      blocker (VStr "Senior 4") (VStr "capacity envelope aggregation") (VStr "CAPACITY_ENVELOPE_FAILED") (VStr "failed")
        message (VStr "Coordinate the provider budget that consumes shared headroom; do not increase the envelope silently.")
  end.

(** The blockers without repetition, the last of each key, in the order of the result *)
Definition unique_key (b : blocker_record) : res (list val) :=
  let k := [b_owner b; b_seam b; b_code b; b_message b] in
  _ ← rmap check_hash k; Ok k.
Definition unique_blockers (l : list blocker_record) : res (list blocker_record) :=
  kv ← rmap (λ b, k ← unique_key b; Ok (k, b)) l;
  Ok (map snd (dict_of (λ a b, py_eq (VList a) (VList b)) kv)).
Definition sort_key (b : blocker_record) : val :=
  VList [b_severity b; b_owner b; b_code b; b_seam b; b_message b].

Definition ZERO_SHA : string := "0000000000000000000000000000000000000000".
Definition checkpoint (name : string) (status : val) (evidence_ref : string) : val :=
  VDict [("name", VStr name); ("status", status); ("evidence_ref", VStr evidence_ref)].
Definition readiness (git_sha status : val) (checkpoints : list val) (blockers : list blocker_record) : val :=
  VDict [("schema_version", VStr "integration-readiness-result-v0"); ("git_sha", git_sha); ("status", status);
         ("checkpoints", VList checkpoints); ("blockers", VList (map blocker_val blockers))].

(** The commit of the provider document in a result about unreadable evidence *)
Definition failed_sha (provider : option val) : string :=
  match dget_or (default (VDict []) provider) "git_sha" (VStr ZERO_SHA) with Ok v => py_str v | Raise _ => ZERO_SHA end.

Section Env.
Context `{Platform}.

Definition OPERATIONS : path := Path.div repo_root "contracts/operations".
Definition PROVIDER_SCHEMA : path := Path.div OPERATIONS "integration-result-v0.schema.json".
Definition COMPAT_SCHEMA : path := Path.div OPERATIONS "provider-compatibility-result-v0.schema.json".
Definition CAPACITY_SCHEMA : path := Path.div OPERATIONS "capacity-result-v0.schema.json".
Definition RESULT_SCHEMA : path := Path.div OPERATIONS "integration-readiness-result-v0.schema.json".
Definition CAPACITY_REGISTRY : path := Path.div repo_root "operations/capacity/provider-capacity-registry-v0.json".

Definition load (p : path) : IO val := load_json p.
Definition errors (schema : path) (document : val) (label : string) : IO (list string) :=
  labelled_errors schema document label.
Definition ref (p : path) : IO string :=
  resolved ← resolve p; root ← resolve repo_root;
  mret (default (Path.to_str resolved) (Path.relative_to resolved root)).

Record args := Args { provider_result : path; compatibility_result : path; capacity_result : path;
                      capacity_registry : path; a_output : path; allow_blocked : bool }.

(** The body of the loop over the documents: what is read, and the failures. *)
Definition unreadable : list exn_class := [OSError; JSONDecodeError].
Definition cannot_read (name : string) (e : exn) : string := name +:+ ": cannot read evidence: " +:+ exn_str e.
Definition read_document (name : string) (p schema : path) : IO (option val * list string) :=
  d ← catch (v ← load p; mret (inl v)) (on_exn unreadable (λ e, mret (inr (cannot_read name e))));
  match d with
  | inr m => mret (None, [m])
  | inl v => es ← catch (errors schema v name) (on_exn unreadable (λ e, mret [cannot_read name e])); mret (Some v, es)
  end.

(** The blockers of the capacity *)
Definition unavailable (record : val) : IO (list blocker_record) :=
  p ← lift (getitem record "path"); s ← lift (expect_str p); target ← resolve (Path.div repo_root s);
  state ← lift (getitem record "state");
  there ← (if py_ne state (VStr "available") then mret false else is_file target);
  if there : bool then mret []
  else
    lift (owner ← getitem record "owner"; name ← getitem record "provider"; action ← getitem record "action_required";
          b ← blocker owner (VStr (py_str name +:+ " capacity budget")) (VStr "PROVIDER_CAPACITY_UNAVAILABLE") (VStr "blocked")
                (VStr ("capacity budget unavailable at " +:+ s +:+ " (state=" +:+ py_str state +:+ ")")) action;
          Ok [b]).
Definition capacity_blockers (capacity : val) (records : list (val * val)) : IO (list blocker_record) :=
  s ← lift (getitem capacity "status");
  b1 ← (if py_eq s (VStr "blocked") then mmap unavailable (map snd records) else mret []);
  b2 ← lift (if py_eq s (VStr "failed")
             then l ← dget_or capacity "failures" (VList []); l ← py_iter l; rmap (failure_blocker records) l else Ok []);
  mret (concat b1 ++ b2).

(** The result of evidence that was read and is valid *)
Definition composed (a : args) (provider compat capacity : val) : IO (string * list blocker_record * val) :=
  s1 ← lift (getitem provider "overall_status"); s2 ← lift (getitem compat "overall_status");
  s3 ← lift (getitem capacity "status");
  violations ← lift (l ← dget_or provider "violations" (VList []); l ← py_iter l; rmap violation_blocker l);
  checks ← lift (l ← dget_or compat "checks" (VList []); l ← py_iter l; rmap check_blocker l);
  registry ← load (capacity_registry a);
  records ← lift (records_of registry);
  limits ← capacity_blockers capacity records;
  blocks ← lift (u ← unique_blockers (violations ++ concat checks ++ limits); py_sorted_by sort_key u);
  let status := overall [s1; s2; s3] in
  inconsistent ← lift (blocker (VStr "Senior 4") (VStr "source readiness semantics") (VStr "READINESS_STATUS_INCONSISTENT")
    (VStr "failed") (VStr "all checkpoints passed but blockers remain") (VStr "Repair readiness composition invariants."));
  let wrong := String.eqb status "passed" && bool_decide (blocks <> []) in
  let status := if wrong then "failed" else status in
  let blocks := if wrong then blocks ++ [inconsistent] else blocks in
  git_sha ← lift (getitem provider "git_sha");
  r1 ← ref (provider_result a); r2 ← ref (compatibility_result a); r3 ← ref (capacity_result a);
  mret (status, blocks, readiness git_sha (VStr status)
    [checkpoint "provider-source" s1 r1; checkpoint "provider-compatibility" s2 r2; checkpoint "provider-capacity" s3 r3]
    blocks).

(** The result of evidence that was not read, or is not valid *)
Definition invalid (a : args) (provider : option val) (failures : list string) : IO (string * list blocker_record * val) :=
  r1 ← ref (provider_result a); r2 ← ref (compatibility_result a); r3 ← ref (capacity_result a);
  b ← lift (blocker (VStr "Senior 4") (VStr "source readiness evidence validation") (VStr "READINESS_INPUT_INVALID")
    (VStr "failed") (VStr (Str.join "; " failures))
    (VStr "Repair the owning evidence producer or schema; do not bypass readiness composition."));
  let failed := VStr "failed" in
  mret ("failed", [b], readiness (VStr (failed_sha provider)) failed
    [checkpoint "provider-source" failed r1; checkpoint "provider-compatibility" failed r2;
     checkpoint "provider-capacity" failed r3] [b]).

Definition semantic_errors (status : string) (blocks : list blocker_record) : list string :=
  (if String.eqb status "passed" && bool_decide (blocks <> []) then ["passed readiness cannot contain blockers"] else []) ++
  (if negb (String.eqb status "passed") && bool_decide (blocks = [])
   then ["blocked/failed readiness must contain blockers"] else []).

Definition main (a : args) : IO Z :=
  d1 ← read_document "provider-source" (provider_result a) PROVIDER_SCHEMA;
  d2 ← read_document "provider-compatibility" (compatibility_result a) COMPAT_SCHEMA;
  d3 ← read_document "provider-capacity" (capacity_result a) CAPACITY_SCHEMA;
  let failures := d1.2 ++ d2.2 ++ d3.2 in
  sbr ← match failures, d1.1, d2.1, d3.1 with
        | [], Some provider, Some compat, Some capacity => composed a provider compat capacity
        | _, _, _, _ => invalid a d1.1 failures
        end;
  let '(status, blocks, result) := sbr in
  output_errors ← errors RESULT_SCHEMA result "readiness_result";
  match output_errors ++ semantic_errors status blocks with
  | _ :: _ => mfor (λ m, print_err ("ERROR source-readiness: " +:+ m)) (output_errors ++ semantic_errors status blocks) ;; mret 65
  | [] =>
      write_document (a_output a) result ;;
      print ("source integration readiness " +:+ status +:+ ": " +:+ Path.to_str (a_output a)) ;;
      mret (if String.eqb status "failed" then 1
            else if String.eqb status "blocked" && negb (allow_blocked a) then 2 else 0)
  end.
End Env.
End SourceReadiness.

Module SourceReadinessSpec.
Import Evidence SourceReadiness.

Lemma put_not_nil {K A} (eqb : K -> K -> bool) k (x : A) d : put eqb k x d <> [].
Proof. destruct d as [|[k' y] r]; simpl; [done|]. by destruct (eqb k k'). Qed.
Lemma dict_of_nil {K A} (eqb : K -> K -> bool) (l : list (K * A)) : dict_of eqb l = [] -> l = [].
Proof.
  unfold dict_of. destruct l as [|[k x] l] using rev_ind; [done|]. rewrite fold_left_app. simpl. intros E.
  by apply put_not_nil in E.
Qed.
Lemma rmap_nil {A B} (f : A -> res B) l : rmap f l = Ok [] -> l = [].
Proof. intros E%rmap_Ok. by apply Forall2_nil_inv_r in E. Qed.

(** No blocker remains only when there was none. *)
Lemma no_blocker l u : unique_blockers l = Ok u -> py_sorted_by sort_key u = Ok [] -> l = [].
Proof.
  unfold unique_blockers. intros E S%py_sorted_by_perm. apply bind_Ok in E as (kv & Ek & E). injection E as <-.
  apply Permutation_nil, map_eq_nil, dict_of_nil in S as ->. by apply rmap_nil in Ek.
Qed.
Lemma check_blocker_nil c : check_blocker c = Ok [] -> getitem c "status" = Ok (VStr "passed").
Proof.
  unfold check_blocker. intros E. apply bind_Ok in E as (s & Es & E). unfold py_ne in E.
  destruct (py_eq s (VStr "passed")) eqn:Ep; [by apply py_eq_str_r in Ep as ->|].
  simpl negb in E. by repeat (apply bind_Ok in E as (? & _ & E)).
Qed.
Lemma check_blockers_nil l bs : rmap check_blocker l = Ok bs -> concat bs = [] ->
  Forall (λ c, getitem c "status" = Ok (VStr "passed")) l.
Proof.
  intros E%rmap_Ok. induction E as [|c b l bs Hc E IH]; [constructor|]. simpl. intros [-> Hbs]%app_eq_nil.
  constructor; [by apply check_blocker_nil|by apply IH].
Qed.

(** A status of the three that fails nothing *)
Definition calm (s : val) : Prop := py_eq (VStr "failed") s = false /\ py_eq (VStr "blocked") s = false.
Lemma overall_calm l : overall l = "passed" -> Forall calm l.
Proof.
  unfold overall, py_in. destruct (existsb (py_eq (VStr "failed")) l) eqn:E1; [done|].
  destruct (existsb (py_eq (VStr "blocked")) l) eqn:E2; [done|]. intros _.
  apply Forall_forall. intros s Hs%list_elem_of_In. split.
  - apply not_true_iff_false. intros E. apply not_true_iff_false in E1. apply E1, existsb_exists. by exists s.
  - apply not_true_iff_false. intros E. apply not_true_iff_false in E2. apply E2, existsb_exists. by exists s.
Qed.
Lemma overall_words l : overall l = "failed" \/ overall l = "blocked" \/ overall l = "passed".
Proof. unfold overall. repeat case_match; auto. Qed.

Section Run.
Context `{Platform} (a : args).

Lemma ro_load_source p : Pres eq (load p).
Proof. apply ro_load_json. Qed.
Lemma ro_source_errors p v l : Pres eq (errors p v l).
Proof. apply ro_labelled. Qed.
#[local] Hint Resolve ro_load_source ro_source_errors ro_resolve : pres.
Lemma ro_ref p : Pres eq (ref p).
Proof. unfold ref. solve_pres. Qed.
Lemma ro_read_document n p s : Pres eq (read_document n p s).
Proof. unfold read_document. solve_pres. Qed.
Lemma ro_unavailable r : Pres eq (unavailable r).
Proof. unfold unavailable, is_file. solve_pres. Qed.
#[local] Hint Resolve ro_ref ro_read_document ro_unavailable : pres.
Lemma ro_capacity_blockers c r : Pres eq (capacity_blockers c r).
Proof. unfold capacity_blockers. solve_pres. Qed.
#[local] Hint Resolve ro_capacity_blockers : pres.
Lemma ro_composed p c k : Pres eq (composed a p c k).
Proof. unfold composed. solve_pres. Qed.
Lemma ro_invalid o f : Pres eq (invalid a o f).
Proof. unfold invalid. solve_pres. Qed.

(** A document without a failure was read and is valid. *)
Lemma read_document_clean n p s w d w' : read_document n p s w = (Ok (d, []), w') ->
  exists v, d = Some v /\ load p w = (Ok v, w) /\ valid w s v.
Proof.
  intros E. pose proof (pres_eq_run _ _ _ _ (ro_read_document n p s) E) as ->. unfold read_document in E.
  apply M_bind_Ok in E as (r & w1 & E1 & E). apply catch_Ok in E1 as [E1|(e & w2 & k & _ & Hk & E1)].
  - apply M_bind_Ok in E1 as (v & w2 & E1 & E2). apply ret_Ok in E2 as [<- ->]. same_world E1.
    apply M_bind_Ok in E as (es & w2 & E2 & E). apply ret_Ok in E as [[= <- ->] ->].
    exists v. do 2 (split; [done|]). apply catch_Ok in E2 as [E2|(e & w3 & k & _ & Hk & E2)].
    + apply labelled_nil in E2 as [_ V]. by apply V.
    + apply on_exn_Some in Hk as [_ ->]. by apply ret_Ok in E2 as [? _].
  - apply on_exn_Some in Hk as [_ ->]. apply ret_Ok in E1 as [<- ->]. by apply ret_Ok in E as [? _].
Qed.

(** Evidence of three documents that leaves nothing to remove *)
Record clear (provider compat capacity : val) : Prop := {
  c_source : exists s, getitem provider "overall_status" = Ok s /\ calm s;
  c_compat : exists s, getitem compat "overall_status" = Ok s /\ calm s;
  c_capacity : exists s, getitem capacity "status" = Ok s /\ calm s;
  c_violations : exists v, dget_or provider "violations" (VList []) = Ok v /\ py_iter v = Ok [];
  c_checks : exists v l, dget_or compat "checks" (VList []) = Ok v /\ py_iter v = Ok l /\
    Forall (λ c, getitem c "status" = Ok (VStr "passed")) l
}.

Lemma composed_passed p c k w bs r w' : composed a p c k w = (Ok ("passed", bs, r), w') ->
  clear p c k /\ bs = [] /\ dget r "status" = Ok (VStr "passed") /\ dget r "blockers" = Ok (VList []).
Proof.
  unfold composed. intros E. apply M_bind_Ok in E as (s1 & w1 & E1 & E). apply lift_Ok in E1 as [E1 _].
  apply M_bind_Ok in E as (s2 & w2 & E2 & E). apply lift_Ok in E2 as [E2 _].
  apply M_bind_Ok in E as (s3 & w3 & E3 & E). apply lift_Ok in E3 as [E3 _].
  apply M_bind_Ok in E as (vs & w4 & E4 & E). apply lift_Ok in E4 as [E4 _].
  apply M_bind_Ok in E as (cs & w5 & E5 & E). apply lift_Ok in E5 as [E5 _].
  apply M_bind_Ok in E as (registry & w6 & _ & E). apply M_bind_Ok in E as (records & w7 & _ & E).
  apply M_bind_Ok in E as (limits & w8 & _ & E). apply M_bind_Ok in E as (blocks & w9 & E9 & E).
  apply lift_Ok in E9 as [E9 _]. apply bind_Ok in E9 as (u & Eu & E9).
  apply M_bind_Ok in E as (inc & w10 & _ & E). cbn zeta in E.
  apply M_bind_Ok in E as (g & w11 & _ & E). apply M_bind_Ok in E as (r1 & w12 & _ & E).
  apply M_bind_Ok in E as (r2 & w13 & _ & E). apply M_bind_Ok in E as (r3 & w14 & _ & E).
  apply ret_Ok in E as [E _]. injection E as Es Eb <-.
  destruct (String.eqb (overall [s1; s2; s3]) "passed") eqn:Eo; [|simpl in Es; by rewrite Es in Eo].
  apply String.eqb_eq in Eo. destruct (bool_decide (blocks <> [])) eqn:En; [done|]. simpl in Es, Eb. subst bs.
  apply bool_decide_eq_false in En. assert (blocks = []) as -> by (by destruct blocks; [|destruct En]).
  split; [|by rewrite Eo]. apply (no_blocker _ _ Eu) in E9.
  apply app_eq_nil in E9 as [-> E9]. apply app_eq_nil in E9 as [Ec _].
  apply overall_calm in Eo. rewrite !Forall_cons in Eo. destruct Eo as (C1 & C2 & C3 & _).
  apply bind_Ok in E4 as (v & Ev & E4). apply bind_Ok in E4 as (l & El & E4). apply rmap_nil in E4 as ->.
  apply bind_Ok in E5 as (v' & Ev' & E5). apply bind_Ok in E5 as (l & El' & E5).
  split; eauto. exists v', l. do 2 (split; [done|]). by eapply check_blockers_nil.
Qed.

Lemma composed_words p c k w s bs r w' : composed a p c k w = (Ok (s, bs, r), w') ->
  s = "failed" \/ s = "blocked" \/ s = "passed".
Proof.
  unfold composed. intros E. repeat (apply M_bind_Ok in E as (? & ? & _ & E)). cbn zeta in E.
  repeat (apply M_bind_Ok in E as (? & ? & _ & E)).
  apply ret_Ok in E as [E _]. injection E as <- _ _. case_match; [by left|]. apply overall_words.
Qed.

(** The source readiness is passed (exit code 0, blocked evidence not allowed) only
    when the three documents were read and are valid, none of their statuses is failed or
    blocked, the providers have no violation and every compatibility check passed. The
    published result is valid, says [passed] and has no blocker. *)
Theorem source_readiness_passed w : allow_blocked a = false -> (main a w).1 = Ok 0 ->
  exists provider compat capacity r,
    load (provider_result a) w = (Ok provider, w) /\ load (compatibility_result a) w = (Ok compat, w) /\
    load (capacity_result a) w = (Ok capacity, w) /\ valid w PROVIDER_SCHEMA provider /\ valid w COMPAT_SCHEMA compat /\
    valid w CAPACITY_SCHEMA capacity /\ clear provider compat capacity /\ valid w RESULT_SCHEMA r /\
    (write_document (a_output a) r w).1 = Ok tt /\
    dget r "status" = Ok (VStr "passed") /\ dget r "blockers" = Ok (VList []).
Proof.
  intros Hb. destruct (main a w) as [rr w'] eqn:E. cbn [fst]. intros ->. unfold main in E.
  apply M_bind_Ok in E as ([d1 f1] & w1 & E1 & E). pose proof (pres_eq_run _ _ _ _ (ro_read_document _ _ _) E1) as ->.
  apply M_bind_Ok in E as ([d2 f2] & w1 & E2 & E). pose proof (pres_eq_run _ _ _ _ (ro_read_document _ _ _) E2) as ->.
  apply M_bind_Ok in E as ([d3 f3] & w1 & E3 & E). pose proof (pres_eq_run _ _ _ _ (ro_read_document _ _ _) E3) as ->.
  cbn [fst snd] in E. cbn zeta in E. apply M_bind_Ok in E as ([[s bs] r] & w1 & E4 & E).
  apply M_bind_Ok in E as (eo & w2 & E5 & E). apply labelled_nil in E5 as [-> V].
  destruct (eo ++ semantic_errors s bs) eqn:En; [|by apply M_bind_Ok in E as (? & ? & _ & [? _]%ret_Ok)].
  apply app_eq_nil in En as [-> _]. apply M_bind_Ok in E as (u & w2 & E6 & E).
  apply M_bind_Ok in E as (u' & w3 & _ & E). apply ret_Ok in E as [E _]. rewrite Hb, andb_true_r in E.
  assert (w1 = w /\ exists p c k, f1 = [] /\ f2 = [] /\ f3 = [] /\ d1 = Some p /\ d2 = Some c /\ d3 = Some k /\
          composed a p c k w = (Ok (s, bs, r), w1)) as [-> (p & c & k & -> & -> & -> & -> & -> & -> & E7)].
  { destruct (f1 ++ f2 ++ f3) eqn:Ef.
    - apply app_eq_nil in Ef as [-> Ef]. apply app_eq_nil in Ef as [-> ->].
      apply read_document_clean in E1 as (p & -> & _), E2 as (c & -> & _), E3 as (k & -> & _).
      split; [by apply (pres_eq_run _ _ _ _ (ro_composed p c k)) in E4|]. by exists p, c, k.
    - exfalso. unfold invalid in E4. repeat (apply M_bind_Ok in E4 as (? & ? & _ & E4)).
      apply ret_Ok in E4 as [E4 _]. by injection E4 as <- _ _. }
  apply read_document_clean in E1 as (p' & [= <-] & L1 & V1), E2 as (c' & [= <-] & L2 & V2), E3 as (k' & [= <-] & L3 & V3).
  destruct (composed_words _ _ _ _ _ _ _ _ E7) as [-> | [-> | ->]]; try done.
  apply composed_passed in E7 as (C & _ & S & B).
  exists p, c, k, r. do 7 (split; [done|]). split; [by apply V|]. split; [rewrite E6; by destruct u|done].
Qed.
End Run.
End SourceReadinessSpec.

(** ** A concrete run *)

Module SourceReadinessRun.
Import Fixture Evidence SourceReadiness SourceReadinessSpec.

Definition provider_text (violations : list val) : string := json (VDict [("overall_status", VStr "passed");
  ("git_sha", VStr "0123456789abcdef0123456789abcdef01234567"); ("violations", VList violations)]).
Definition compat_text : string := json (VDict [("overall_status", VStr "passed"); ("checks", VList [rec [("status", "passed")]])]).
Definition world_of (violations : list val) : world := world_with ([("/in/provider.json", provider_text violations);
  ("/in/compat.json", compat_text); ("/in/capacity.json", json (rec [("status", "passed")])); ("/out/.keep", "");
  ("/repo/operations/capacity/provider-capacity-registry-v0.json", "{}")] ++
  map (λ n, ("/repo/contracts/operations/" +:+ n +:+ ".schema.json", "{}"))
    ["integration-result-v0"; "provider-compatibility-result-v0"; "capacity-result-v0"; "integration-readiness-result-v0"]).
Definition w0 : world := world_of [].
Definition the_args : args := Args (Path.of_str "/in/provider.json") (Path.of_str "/in/compat.json")
  (Path.of_str "/in/capacity.json") (Path.of_str "/repo/operations/capacity/provider-capacity-registry-v0.json")
  (Path.of_str "/out/readiness.json") false.

(** A violation left by providers that say [passed] makes the result inconsistent, and so failed. *)
Definition left_over : val := rec [("owner", "Senior 1"); ("seam", "s"); ("code", "C"); ("message", "m"); ("action_required", "a")].
Example inconsistent_fails : (main (H := quiet_host) the_args (world_of [left_over])).1 = Ok 1.
Proof. vm_compute. reflexivity. Qed.

Lemma source_readiness_passed_witness : let host := quiet_host in let a := the_args in let w := w0 in
  exists provider compat capacity r,
    load (provider_result a) w = (Ok provider, w) /\ load (compatibility_result a) w = (Ok compat, w) /\
    load (capacity_result a) w = (Ok capacity, w) /\ valid w PROVIDER_SCHEMA provider /\ valid w COMPAT_SCHEMA compat /\
    valid w CAPACITY_SCHEMA capacity /\ clear provider compat capacity /\ valid w RESULT_SCHEMA r /\
    (write_document (a_output a) r w).1 = Ok tt /\
    dget r "status" = Ok (VStr "passed") /\ dget r "blockers" = Ok (VList []).
Proof.
  intros host a w. apply (source_readiness_passed (H := host) a w); [reflexivity|].
  assert ((main (H := host) a w).1 = Ok 0) as E by (vm_compute; reflexivity). exact E.
Defined.
End SourceReadinessRun.
