(* ===== verification/GenerateManifest.v ===== *)
(** * scripts/release/generate_release_manifest.py

    The release manifest, generated from a source document and from the files
    it names, all of them below the root of the repository. *)

From Stdlib Require Import Ascii.
From S2P Require Import Prelude PyFloat PyMonad PyValue PyTime PyJson Sha256 PyOs OsFacts FsFacts Fixture GenerateSpec CiProvenance.

Module GenerateManifest.
Import Evidence.

(** [datetime.fromtimestamp(epoch, tz=timezone.utc)], in microseconds: the platform's
    [gmtime] has a year of 32 bits, [datetime] one from 1 to 9999. *)
Definition fromtimestamp (epoch : Z) : res Z :=
  let us := epoch * Time.us_per_s in
  if (epoch <? -2 ^ 63) || (2 ^ 63 <=? epoch) then raise OverflowError "timestamp out of range for platform time_t"
  else if (epoch <? -67768040609740800) || (67768036191676799 <? epoch)
  then raise OSError "[Errno 75] Value too large for defined data type"
  else if (Time.min_us <=? us) && (us <? Time.max_us) then Ok us
  else raise ValueError ("year " +:+ Str.of_Z (Time.civil_from_days (us / Time.us_per_day)).1.1 +:+ " is out of range").

(** [{"environment": environment, **deployment}] *)
Definition deployment_part (environment deployment : val) : res val :=
  match deployment with
  | VDict d => Ok (VDict (Dict.update d [("environment", environment)]))
  | _ => raise TypeError ("'" +:+ type_name deployment +:+ "' object is not a mapping")
  end.

(** [sorted(items, key=lambda item: item["name"])] *)
Definition sorted_items (items : list val) : res (list val) :=
  named ← rmap (λ i, n ← getitem i "name"; Ok (n, i)) items;
  l ← py_sorted_by fst named; Ok (map snd l).

Section Env.
Context `{Platform}.

Definition SCHEMA : path := Path.div repo_root "contracts/operations/release-manifest-v0.schema.json".

Definition digest (p : path) : IO string := sha256_chunked p.

Definition git_value (args : list string) : IO string :=
  env ← gets environ;
  r ← run_completed (Proc ("git" :: args) None env (Some repo_root));
  let '(code, o, _) := r in
  if code =? 0 then mret (Str.strip o)
  else throw CalledProcessError (CiProvenance.called_text ("git" :: args) code).

Definition resolve_path (value : val) : IO path :=
  s ← lift (expect_str value);
  p ← resolve (Path.div repo_root s);
  root ← resolve repo_root;
  match Path.relative_to p root with
  | None => throw ValueError ("input path escapes repository root: " +:+ s)
  | Some _ =>
      there ← is_file p;
      if there : bool then mret p else throw FileNotFoundError (Path.to_str p)
  end.

Record args := Args { a_input : path; a_output : path; a_git_sha : option string; a_source_date_epoch : option Z }.

(** The commit and the instant of the release *)
Definition git_identity (a : args) : IO (string * Z) :=
  git_sha ← match a_git_sha a with
            | Some (String _ _ as s) => mret s
            | _ => git_value ["rev-parse"; "HEAD"]
            end;
  (if Str.len git_sha =? 40 then mret tt else throw ValueError "git SHA must be the full 40-character commit ID") ;;
  epoch ← match a_source_date_epoch a with
          | Some z => mret z
          | None => t ← git_value ["show"; "-s"; "--format=%ct"; git_sha]; lift (py_int (VStr t))
          end;
  mret (git_sha, epoch).

Definition artifact_entry (artifact : val) : IO val :=
  value ← lift (getitem artifact "path");
  p ← resolve_path value;
  name ← lift (getitem artifact "name");
  media_type ← lift (getitem artifact "media_type");
  sha256 ← digest p;
  size_bytes ← st_size p;
  sbom_ref ← lift (getitem artifact "sbom_ref");
  provenance_ref ← lift (getitem artifact "provenance_ref");
  mret (VDict [("name", name); ("media_type", media_type); ("sha256", VStr sha256); ("size_bytes", VInt size_bytes);
               ("sbom_ref", sbom_ref); ("provenance_ref", provenance_ref)]).

(** A document of the supply chain: its place and the digest of the file *)
Definition evidence_part (source : val) (kind : string) (p : path) : IO val :=
  uri ← lift (item source ["supply_chain"; kind; "uri"]);
  sha256 ← digest p;
  mret (VDict [("uri", uri); ("sha256", VStr sha256)]).

Definition manifest (source : val) (git_sha : string) (epoch us : Z) : IO (string * val) :=
  items ← lift (l ← getitem source "artifacts"; l ← py_iter l; sorted_items l);
  artifacts ← mmap artifact_entry items;
  plan_path ← lift (item source ["infrastructure"; "plan_path"]); plan_path ← resolve_path plan_path;
  config_path ← lift (item source ["configuration"; "path"]); config_path ← resolve_path config_path;
  sbom_path ← lift (item source ["supply_chain"; "sbom"; "path"]); sbom_path ← resolve_path sbom_path;
  provenance_path ← lift (item source ["supply_chain"; "provenance"; "path"]);
  provenance_path ← resolve_path provenance_path;
  prefix ← lift (getitem source "release_id_prefix");
  let release_id := py_str prefix +:+ "-" +:+ Str.take 12 git_sha in
  toolchain ← lift (getitem source "rust_toolchain");
  versions ← lift (getitem source "contract_versions");
  migration ← lift (getitem source "database_migration");
  output_version ← lift (item source ["infrastructure"; "required_output_version"]);
  cost ← lift (item source ["infrastructure"; "cost_classification"]);
  plan_digest ← digest plan_path;
  config_version ← lift (item source ["configuration"; "schema_version"]);
  config_digest ← digest config_path;
  rollback ← lift (getitem source "rollback");
  sbom ← evidence_part source "sbom" sbom_path;
  provenance ← evidence_part source "provenance" provenance_path;
  policy ← lift (item source ["supply_chain"; "attestation_policy"]);
  deployment ← lift (e ← getitem source "environment"; d ← getitem source "deployment"; deployment_part e d);
  mret (release_id, VDict [("schema_version", VStr "release-manifest-v0"); ("release_id", VStr release_id);
    ("git_sha", VStr git_sha); ("source_timestamp", VStr (Time.iso_z us)); ("source_date_epoch", VInt epoch);
    ("rust_toolchain", toolchain); ("artifacts", VList artifacts); ("contract_versions", versions);
    ("database_migration", migration);
    ("infrastructure", VDict [("required_output_version", output_version); ("cost_classification", cost);
       ("plan_digest", VStr plan_digest)]);
    ("configuration", VDict [("schema_version", config_version); ("digest", VStr config_digest);
       ("contains_secrets", VBool false)]);
    ("rollback", rollback);
    ("supply_chain", VDict [("sbom", sbom); ("provenance", provenance); ("attestation_policy", policy)]);
    ("deployment", deployment)]).

Definition rendered (errors : list (list val * string)) : string :=
  Str.join (String (ascii_of_N 10) "") (map (λ e, dotted e.1 +:+ ": " +:+ e.2) errors).

Definition main (a : args) : IO Z :=
  source ← load_json (a_input a);
  identity ← git_identity a;
  let '(git_sha, epoch) := identity in
  us ← lift (fromtimestamp epoch);
  m ← manifest source git_sha epoch us;
  schema ← load_json SCHEMA;
  errors ← lift (sorted_errors schema m.2);
  (if bool_decide (errors = []) then mret tt
   else throw ValueError ("generated release manifest is invalid:" +:+ String (ascii_of_N 10) "" +:+ rendered errors)) ;;
  write_document (a_output a) m.2 ;;
  print ("generated " +:+ Path.to_str (a_output a) +:+ " release_id=" +:+ m.1) ;;
  mret 0.
End Env.
End GenerateManifest.

Module GenerateManifestSpec.
Import Evidence GenerateManifest.

Section Run.
Context `{Platform} (a : args).

Lemma ro_manifest_digest p : Pres eq (digest p).
Proof. apply ro_sha256_chunked. Qed.
Lemma ro_resolve_path v : Pres eq (resolve_path v).
Proof. unfold resolve_path, is_file. solve_pres. Qed.
#[local] Hint Resolve ro_manifest_digest ro_resolve_path : pres.
Lemma ro_artifact_entry v : Pres eq (artifact_entry v).
Proof. unfold artifact_entry. solve_pres. Qed.
Lemma ro_evidence_part s k p : Pres eq (evidence_part s k p).
Proof. unfold evidence_part. solve_pres. Qed.
#[local] Hint Resolve ro_artifact_entry ro_evidence_part : pres.
Lemma ro_manifest s g e u : Pres eq (manifest s g e u).
Proof. unfold manifest. solve_pres. Qed.

(** A resolved path is a file below the root of the repository. *)
Definition input_file (w : world) (value : val) (p : path) (data : string) : Prop :=
  resolve_path value w = (Ok p, w) /\
  exists root rest m, canon w repo_root = Some root /\ p = MkPath true (root ++ rest) /\ stat w p = Some (NFile data m).
Lemma resolve_path_file v w p w' : resolve_path v w = (Ok p, w') -> w' = w /\ exists data, input_file w v p data.
Proof.
  intros E. pose proof (pres_eq_run _ _ _ _ (ro_resolve_path v) E) as ->. split; [done|].
  unfold input_file. rewrite E. unfold resolve_path in E. apply M_bind_Ok in E as (s & w1 & E1 & E).
  apply lift_Ok in E1 as [_ ->].
  apply M_bind_Ok in E as (q & w1 & E1 & E). apply M_bind_Ok in E as (r & w2 & E2 & E).
  destruct (Path.relative_to q r) as [x|] eqn:Es; [|done].
  destruct (resolved_below _ _ _ _ _ _ _ _ E1 E2 Es) as (-> & root & rest & Er & _ & ->).
  apply M_bind_Ok in E as (there & w3 & E3 & E). apply is_file_Ok in E3 as [-> Hf]. destruct there; [|done].
  apply ret_Ok in E as [<- _]. destruct (Hf eq_refl) as (data & m & Hs). exists data. split; [done|]. by exists root, rest, m.
Qed.
Lemma digest_file w v p data h w' : input_file w v p data -> digest p w = (Ok h, w') ->
  w' = w /\ h = Sha256.hexdigest data.
Proof.
  intros (_ & root & rest & m & _ & _ & Hs) E. apply sha256_chunked_Ok in E as (-> & d & m' & Hs' & ->).
  rewrite Hs in Hs'. by injection Hs' as -> _.
Qed.

(** An entry of the manifest describes the file of the artifact. *)
Definition describes (w : world) (artifact entry : val) : Prop :=
  exists value p data, getitem artifact "path" = Ok value /\ input_file w value p data /\
    getitem entry "name" = getitem artifact "name" /\
    getitem entry "sha256" = Ok (VStr (Sha256.hexdigest data)) /\
    getitem entry "size_bytes" = Ok (VInt (Z.of_nat (String.length data))).
Lemma artifact_entry_describes v w x w' : artifact_entry v w = (Ok x, w') -> describes w v x.
Proof.
  unfold artifact_entry. intros E. apply M_bind_Ok in E as (value & w1 & E1 & E). apply lift_Ok in E1 as [E1 ->].
  apply M_bind_Ok in E as (p & w1 & E2 & E). apply resolve_path_file in E2 as (-> & data & F).
  apply M_bind_Ok in E as (name & w1 & E3 & E). apply lift_Ok in E3 as [E3 ->].
  apply M_bind_Ok in E as (mt & w1 & E4 & E). apply lift_Ok in E4 as [_ ->].
  apply M_bind_Ok in E as (h & w1 & E5 & E). apply (digest_file _ _ _ _ _ _ F) in E5 as [-> ->].
  apply M_bind_Ok in E as (z & w1 & E6 & E).
  destruct F as (Fr & root & rest & m & Fc & Fp & Fs). apply (st_size_file _ _ _ _ _ _ Fs) in E6 as [-> ->].
  apply M_bind_Ok in E as (sb & w1 & _ & E). apply M_bind_Ok in E as (pr & w2 & _ & E). apply ret_Ok in E as [<- _].
  exists value, p, data. split; [done|]. split; [split; [done|by exists root, rest, m]|]. by rewrite E3.
Qed.

(** The file a path of the source names is pinned by its digest in the manifest. *)
Definition pinned (w : world) (source : val) (at_path : list string) (m : val) (at_digest : list string) : Prop :=
  exists value p data, item source at_path = Ok value /\ input_file w value p data /\
    item m at_digest = Ok (VStr (Sha256.hexdigest data)).

Lemma sorted_items_perm l items : sorted_items l = Ok items -> items ≡ₚ l.
Proof.
  unfold sorted_items. intros E. apply bind_Ok in E as (named & E1 & E). apply bind_Ok in E as (s & E2 & E).
  injection E as <-. apply py_sorted_by_perm in E2 as ->. apply rmap_Ok in E1.
  induction E1 as [|i ni l named Hi E1 IH]; [done|]. apply bind_Ok in Hi as (n & _ & Hi). injection Hi as <-.
  simpl. by constructor.
Qed.

(** What a generated manifest says of its inputs. *)
Record faithful (w : world) (source : val) (git_sha : string) (m : val) : Prop := {
  m_sha : dget m "git_sha" = Ok (VStr git_sha);
  m_release : exists prefix, getitem source "release_id_prefix" = Ok prefix /\
    dget m "release_id" = Ok (VStr (py_str prefix +:+ "-" +:+ Str.take 12 git_sha));
  m_artifacts : exists v items sorted entries, getitem source "artifacts" = Ok v /\ py_iter v = Ok items /\
    sorted ≡ₚ items /\ Forall2 (describes w) sorted entries /\ dget m "artifacts" = Ok (VList entries);
  m_plan : pinned w source ["infrastructure"; "plan_path"] m ["infrastructure"; "plan_digest"];
  m_config : pinned w source ["configuration"; "path"] m ["configuration"; "digest"];
  m_sbom : pinned w source ["supply_chain"; "sbom"; "path"] m ["supply_chain"; "sbom"; "sha256"];
  m_provenance : pinned w source ["supply_chain"; "provenance"; "path"] m ["supply_chain"; "provenance"; "sha256"]
}.

Lemma evidence_part_digest s k v p data w x w' : input_file w v p data -> evidence_part s k p w = (Ok x, w') ->
  getitem x "sha256" = Ok (VStr (Sha256.hexdigest data)).
Proof.
  intros F E. unfold evidence_part in E. apply M_bind_Ok in E as (u & w1 & E1 & E). apply lift_Ok in E1 as [_ ->].
  apply M_bind_Ok in E as (h & w1 & E2 & E). apply (digest_file _ _ _ _ _ _ F) in E2 as [-> ->].
  by apply ret_Ok in E as [<- _].
Qed.

Tactic Notation "next" hyp(E) ident(n) := let w1 := fresh "w" in let E1 := fresh "E" in apply M_bind_Ok in E as (n & w1 & E1 & E).
Tactic Notation "value_step" hyp(E) ident(n) ident(H) := next E n;
  match goal with E1 : lift _ _ = (Ok n, _) |- _ => apply lift_Ok in E1 as [H ->] end.
Tactic Notation "path_step" hyp(E) ident(p) ident(F) := next E p;
  match goal with E1 : resolve_path _ _ = (Ok p, _) |- _ => apply resolve_path_file in E1 as (-> & ? & F) end.
Tactic Notation "digest_step" hyp(E) ident(h) hyp(F) := next E h;
  match goal with E1 : digest _ _ = (Ok h, _) |- _ => apply (digest_file _ _ _ _ _ _ F) in E1 as [-> ->] end.

Lemma manifest_faithful source g e us w id m w' : manifest source g e us w = (Ok (id, m), w') -> faithful w source g m.
Proof.
  unfold manifest. intros E. value_step E items Hi. apply bind_Ok in Hi as (v & Hv & Hi).
  apply bind_Ok in Hi as (l & Hl & Hi). apply sorted_items_perm in Hi.
  next E entries. match goal with A : mmap _ _ _ = _ |- _ => apply mmap_ro in A as [-> Ha]; [|apply ro_artifact_entry] end.
  assert (Forall2 (describes w) items entries) as Hd.
  { eapply Forall2_impl; [exact Ha|]. cbn beta. intros x y Hxy. exact (artifact_entry_describes _ _ _ _ Hxy). }
  value_step E p1 H1. path_step E f1 F1. value_step E p2 H2. path_step E f2 F2.
  value_step E p3 H3. path_step E f3 F3. value_step E p4 H4. path_step E f4 F4.
  value_step E pre Hp. cbn zeta in E.
  value_step E q1 Q1. value_step E q2 Q2. value_step E q3 Q3. value_step E q4 Q4. value_step E q5 Q5.
  digest_step E h1 F1. value_step E q6 Q6. digest_step E h2 F2. value_step E q7 Q7.
  next E sb. match goal with A : evidence_part _ "sbom" _ _ = _ |- _ =>
    pose proof (evidence_part_digest _ _ _ _ _ _ _ _ F3 A) as D3; apply (pres_eq_run _ _ _ _ (ro_evidence_part _ _ _)) in A as -> end.
  next E pv. match goal with A : evidence_part _ "provenance" _ _ = _ |- _ =>
    pose proof (evidence_part_digest _ _ _ _ _ _ _ _ F4 A) as D4; clear A end.
  next E pol. next E dep. apply ret_Ok in E as [E _]. injection E as _ <-.
  split; [done|by exists pre|by exists v, l, items, entries| | | |].
  - by eexists _, _, _.
  - by eexists _, _, _.
  - eexists _, _, _. split; [done|]. split; [done|]. transitivity (x ← getitem sb "sha256"; Ok x); [reflexivity|by rewrite D3].
  - eexists _, _, _. split; [done|]. split; [done|]. transitivity (x ← getitem pv "sha256"; Ok x); [reflexivity|by rewrite D4].
Qed.

Lemma manifest_timestamp source g e us w id m w' : manifest source g e us w = (Ok (id, m), w') ->
  dget m "source_timestamp" = Ok (VStr (Time.iso_z us)).
Proof.
  unfold manifest. intros E. repeat (apply M_bind_Ok in E as (? & ? & _ & E)). cbn zeta in E.
  repeat (apply M_bind_Ok in E as (? & ? & _ & E)). apply ret_Ok in E as [E _]. by injection E as _ <-.
Qed.
Lemma git_identity_length w g e w' : git_identity a w = (Ok (g, e), w') -> Str.len g = 40.
Proof.
  unfold git_identity. intros E. next E sha. next E u. destruct (Str.len sha =? 40) eqn:L; [|done].
  next E epoch. apply ret_Ok in E as [[= <- _] _]. by apply Z.eqb_eq in L.
Qed.

(** A manifest is generated (exit code 0) only for a full commit name and a valid
    document. What is written is bound to the commit, in its identity too, describes each
    artifact of the source by the digest and the size of its file, and pins the plan, the
    configuration, the SBOM and the provenance by their digests; each of these files lies
    below the real root of the repository. *)
Theorem manifest_generated w : (main a w).1 = Ok 0 ->
  exists source git_sha epoch us w1 m, load_json (a_input a) w = (Ok source, w) /\
    git_identity a w = (Ok (git_sha, epoch), w1) /\ Str.len git_sha = 40 /\
    fromtimestamp epoch = Ok us /\ dget m "source_timestamp" = Ok (VStr (Time.iso_z us)) /\
    faithful w1 source git_sha m /\ valid w1 SCHEMA m /\ (write_document (a_output a) m w1).1 = Ok tt.
Proof.
  destruct (main a w) as [rr w'] eqn:E. cbn [fst]. intros ->. unfold main in E.
  next E source. same_world E0. next E ge. destruct ge as [g epoch]. rename E1 into Ei.
  value_step E us Hu. next E mm. destruct mm as [id m]. rename E1 into Em.
  pose proof (manifest_faithful _ _ _ _ _ _ _ _ Em) as Hm.
  pose proof (manifest_timestamp _ _ _ _ _ _ _ _ Em) as Ht.
  apply (pres_eq_run _ _ _ _ (ro_manifest _ _ _ _)) in Em as ->. cbn [fst snd] in E.
  next E schema. rename E1 into Es. same_world Es. value_step E errors He.
  next E u. destruct (bool_decide (errors = [])) eqn:Hn; [|done]. apply bool_decide_eq_true in Hn as ->.
  apply ret_Ok in E1 as [_ ->]. next E u'. clear E.
  exists source, g, epoch, us, w0, m. do 2 (split; [done|]). split; [by eapply git_identity_length|].
  do 3 (split; [done|]). split; [by exists schema|]. rewrite E1. by destruct u'.
Qed.
End Run.
End GenerateManifestSpec.

(** ** A concrete run *)

Module GenerateManifestRun.
Import Fixture Evidence GenerateManifest GenerateManifestSpec.

Definition sha : string := "0123456789abcdef0123456789abcdef01234567".
Definition artifact (name p : string) : val := rec [("name", name); ("path", p); ("media_type", "application/octet-stream");
  ("sbom_ref", "s"); ("provenance_ref", "p")].
Definition source_text (first : string) : string := json (VDict [("release_id_prefix", VStr "liqi");
  ("artifacts", VList [artifact "worker" "dist/worker"; artifact "api" first]);
  ("infrastructure", rec [("plan_path", "plan"); ("required_output_version", "v0"); ("cost_classification", "paid")]);
  ("configuration", rec [("path", "config"); ("schema_version", "c0")]);
  ("supply_chain", VDict [("sbom", rec [("path", "sbom"); ("uri", "u1")]); ("provenance", rec [("path", "prov"); ("uri", "u2")]);
                          ("attestation_policy", VStr "required")]);
  ("rust_toolchain", VStr "1.90.0"); ("contract_versions", VDict []); ("database_migration", VDict []);
  ("rollback", VDict []); ("environment", VStr "staging"); ("deployment", rec [("strategy", "replace")])]).
Definition world_of (first : string) : world := world_with [("/in/source.json", source_text first); ("/repo/dist/worker", "ww");
  ("/repo/dist/api", "aaa"); ("/repo/plan", "p"); ("/repo/config", "c"); ("/repo/sbom", "s"); ("/repo/prov", "v"); ("/etc/key", "k");
  ("/out/.keep", ""); ("/repo/contracts/operations/release-manifest-v0.schema.json", "{}")].
Definition w0 : world := world_of "dist/api".
Definition the_args : args := Args (Path.of_str "/in/source.json") (Path.of_str "/out/manifest.json") (Some sha) (Some 1784008800).

(** The artifacts are sorted by name, and the instant is the commit's. *)
Example manifest_written : match stat (main (H := quiet_host) the_args w0).2 (a_output the_args) with
  | Some (NFile t _) =>
      match Json.loads t with
      | Some m => dget m "source_timestamp" = Ok (VStr "2026-07-14T06:00:00Z") /\
                  (l ← getitem m "artifacts"; l ← py_iter l; rmap (λ x, getitem x "name") l) = Ok [VStr "api"; VStr "worker"]
      | None => False
      end
  | _ => False
  end.
Proof. vm_compute. by split. Qed.
(** A path that leaves the repository ends the run. *)
Example escape_refused : (main (H := quiet_host) the_args (world_of "../etc/key")).1 =
  Raise (Exn ValueError "input path escapes repository root: ../etc/key").
Proof. vm_compute. reflexivity. Qed.
Example year_10000 : fromtimestamp 253402300800 = Raise (Exn ValueError "year 10000 is out of range").
Proof. vm_compute. reflexivity. Qed.

Lemma manifest_generated_witness : let host := quiet_host in let a := the_args in let w := w0 in
  exists source git_sha epoch us w1 m, load_json (a_input a) w = (Ok source, w) /\
    git_identity a w = (Ok (git_sha, epoch), w1) /\ Str.len git_sha = 40 /\
    fromtimestamp epoch = Ok us /\ dget m "source_timestamp" = Ok (VStr (Time.iso_z us)) /\
    faithful w1 source git_sha m /\ valid w1 SCHEMA m /\ (write_document (a_output a) m w1).1 = Ok tt.
Proof.
  intros host a w. apply (manifest_generated (H := host) a w).
  assert ((main (H := host) a w).1 = Ok 0) as E by (vm_compute; reflexivity). exact E.
Defined.
End GenerateManifestRun.
