(* ===== verification/OwnerEvidence.v ===== *)
(** * scripts/operations/owner_build_evidence.py and redaction.py

    The evidence a project owner leaves of a build gate, accepted only for the
    exact commit, command and bytes; and the redaction of command output. *)

From Stdlib Require Import Ascii.
From S2P Require Import Prelude PyFloat PyMonad PyValue PyTime PyJson Sha256 PyOs OsFacts FsFacts Fixture.
From S2P Require Import ReadinessCommon GenerateSpec.

Module Redaction.
Import Readiness.

Definition not_dash (c : ascii) : bool := negb (Ascii.eqb c "-").
(** [-----BEGIN ... PRIVATE KEY-----] where the dots are no dashes, and the same with END:
    the run of characters that are no dashes is maximal, for a dash follows it. *)
Definition key_marker (word s : string) : option string :=
  r ← Str.strip_prefix ("-----" +:+ word +:+ " ") s;
  let (run, r) := span not_dash r in
  if Str.endswith "PRIVATE KEY" run then Str.strip_prefix "-----" r else None.
Fixpoint after_key (s : string) : option string :=
  match key_marker "END" s with
  | Some r => Some r
  | None => match s with String _ r => after_key r | EmptyString => None end
  end.
Definition PRIVATE_KEY_BLOCK : matcher := λ s,
  r ← key_marker "BEGIN" s; r ← after_key r; Some ("[REDACTED_PRIVATE_KEY]", r).

Definition token_char (c : ascii) : bool :=
  let n := N_of_ascii c in
  ((65 <=? n) && (n <=? 90) || (97 <=? n) && (n <=? 122) || (48 <=? n) && (n <=? 57))%N
  || inb Ascii.eqb c ["."; "_"; "~"; "+"; "/"; "-"]%char.
Definition BEARER : matcher := λ s,
  '(_, r) ← lit_i "bearer" s;
  '(_, r) ← non_empty (span Str.is_space r);
  '(_, r) ← non_empty (span token_char r);
  Some ("Bearer [REDACTED]", (span (Ascii.eqb "=") r).2).

Definition SECRET_ASSIGNMENT : matcher := λ s,
  '(k, r) ← first_some (map (λ p, lit_i p s)
    ["password"; "passwd"; "secret"; "token"; "authorization"; "private_key"; "private-key"; "privatekey"]);
  '(_, r) ← (let (_, r) := span Str.is_space r in first_some [lit_i ":" r; lit_i "=" r]);
  '(_, r) ← (let (_, r) := span Str.is_space r in
             non_empty (span (λ c, negb (Str.is_space c || Ascii.eqb c "," || Ascii.eqb c ";")) r));
  Some (k +:+ "=[REDACTED]", r).

Definition redact (text : string) : string :=
  sub SECRET_ASSIGNMENT (sub BEARER (sub PRIVATE_KEY_BLOCK text)).

Example owner_redact_cases :
  map redact ["bearer abc.def== rest"; "Password : hunter2,next"; "token=Bearer x"; "nothing"] =
  ["Bearer [REDACTED] rest"; "Password=[REDACTED],next"; "token=[REDACTED] [REDACTED]"; "nothing"].
Proof. vm_compute. reflexivity. Qed.
End Redaction.

Module OwnerEvidence.
Import Evidence.
Section Env.
Context `{Platform}.

Definition SCHEMA : path := Path.div repo_root "contracts/operations/owner-build-evidence-v0.schema.json".

Definition load_json (p : path) : IO val := PyOs.load_json p.
Definition sha256 (p : path) : IO string := sha256_chunked p.

Definition inside (p root : path) : IO string :=
  match Path.relative_to p root with
  | Some r => mret r
  | None => throw ValueError (repr_str (Path.to_str p) +:+ " is not in the subpath of " +:+ repr_str (Path.to_str root))
  end.
Definition repository_ref (p root : path) : IO string :=
  q ← resolve p; r ← resolve root; inside q r.
Definition resolve_repository_ref (reference : val) (root : path) : IO path :=
  s ← lift (expect_str reference);
  candidate ← resolve (Path.div root s);
  r ← resolve root;
  _ ← inside candidate r;
  mret candidate.

(** The body of the loop over [log_ref] and [result_ref] *)
Definition reference_failures (record : val) (root : path) (ref_key digest_key : string) : IO (list string) :=
  reference ← lift (dget record ref_key);
  match reference with
  | VNone => mret []
  | _ =>
      artifact ← catch (p ← resolve_repository_ref (VStr (py_str reference)) root; mret (Some p))
                   (on_exn [ValueError; OSError] (λ _, mret None));
      match artifact with
      | None => mret [ref_key +:+ " escapes repository"]
      | Some artifact =>
          there ← is_file artifact;
          if negb there then mret [ref_key +:+ " does not exist: " +:+ py_str reference]
          else
            actual ← sha256 artifact; expected ← lift (dget record digest_key);
            mret (if py_ne (VStr actual) expected then [digest_key +:+ " does not match exact artifact bytes"] else [])
      end
  end.

(** The document of a gate whose result is what its command printed *)
Definition result_failures (record gate : val) (root : path) : IO (list string) :=
  mode ← lift (dget gate "result_mode");
  if py_eq mode (VStr "stdout-json") then
    reference ← lift (dget record "result_ref");
    if negb (truthy reference) then mret ["stdout-json owner gate requires checksummed result_ref"]
    else catch (p ← resolve_repository_ref reference root; _ ← load_json p; mret [])
           (on_exn [ValueError; OSError; JSONDecodeError] (λ e, mret ["owner JSON result is invalid: " +:+ exn_str e]))
  else mret [].

Definition binding_tests (record gate : val) (git_sha : string) : list (res (list string)) := [
  failure_if (fields_differ record "gate_id" gate "id") "owner evidence gate_id does not match provider gate";
  failure_if (get_ne record "git_sha" (VStr git_sha)) "owner evidence git_sha does not match current HEAD";
  failure_if (fields_differ record "command" gate "argv")
    "owner evidence command does not exactly match provider registry argv"].

Definition validate_owner_evidence (record_path : path) (gate : val) (git_sha : string) (root : path)
  : IO (option val * list string) :=
  there ← is_file record_path;
  if negb there then mret (None, ["owner evidence missing at " +:+ Path.to_str record_path])
  else
    record ← catch (v ← load_json record_path; mret (inl v)) (on_exn [OSError; JSONDecodeError] (λ e, mret (inr e)));
    match record with
    | inr e => mret (None, ["owner evidence is unreadable: " +:+ exn_str e])
    | inl record =>
        schema ← load_json SCHEMA;
        errors ← lift (sorted_errors schema record);
        f1 ← lift (failures_of (binding_tests record gate git_sha));
        f2 ← reference_failures record root "log_ref" "log_sha256";
        f3 ← reference_failures record root "result_ref" "result_sha256";
        f4 ← result_failures record gate root;
        mret (Some record, map render_error errors ++ f1 ++ f2 ++ f3 ++ f4)
    end.
End Env.
End OwnerEvidence.

Module OwnerEvidenceSpec.
Import Evidence OwnerEvidence.

Section Run.
Context `{Platform}.

Lemma ro_owner_load p : Pres eq (load_json p).
Proof. apply ro_load_json. Qed.
Lemma ro_owner_sha256 p : Pres eq (sha256 p).
Proof. apply ro_sha256_chunked. Qed.
#[local] Hint Resolve ro_owner_load ro_owner_sha256 : pres.
Lemma ro_resolve_reference v root : Pres eq (resolve_repository_ref v root).
Proof. unfold resolve_repository_ref, inside. solve_pres. Qed.
#[local] Hint Resolve ro_resolve_reference : pres.
Lemma ro_reference_failures r root k d : Pres eq (reference_failures r root k d).
Proof. unfold reference_failures, is_file. solve_pres. Qed.
Lemma ro_result_failures r g root : Pres eq (result_failures r g root).
Proof. unfold result_failures. solve_pres. Qed.
#[local] Hint Resolve ro_reference_failures ro_result_failures : pres.
Lemma ro_validate_owner p g s root : Pres eq (validate_owner_evidence p g s root).
Proof. unfold validate_owner_evidence, is_file. solve_pres. Qed.

(** A reference names a file below the real root. *)
Definition names_file (w : world) (root : path) (reference : val) (p : path) (data : string) : Prop :=
  exists s k rest m, reference = VStr s /\ canon w root = Some k /\ canon w (Path.div root s) = Some (k ++ rest) /\
    p = MkPath true (k ++ rest) /\ stat w p = Some (NFile data m).

Lemma resolve_reference_Ok v root w p w' : resolve_repository_ref v root w = (Ok p, w') ->
  w' = w /\ exists s k rest, v = VStr s /\ canon w root = Some k /\ canon w (Path.div root s) = Some (k ++ rest) /\
    p = MkPath true (k ++ rest).
Proof.
  intros E. pose proof (pres_eq_run _ _ _ _ (ro_resolve_reference v root) E) as ->. split; [done|].
  unfold resolve_repository_ref in E. apply M_bind_Ok in E as (s & w1 & E1 & E). apply lift_Ok in E1 as [Hs ->].
  apply M_bind_Ok in E as (q & w1 & E1 & E). apply M_bind_Ok in E as (r & w2 & E2 & E).
  apply M_bind_Ok in E as (x & w3 & E3 & E). apply ret_Ok in E as [<- _]. unfold inside in E3.
  destruct (Path.relative_to q r) as [t|] eqn:Er; [|done].
  destruct (resolved_below _ _ _ _ _ _ _ _ E1 E2 Er) as (_ & k & rest & Hk & Hc & ->).
  destruct v; try done. injection Hs as ->. by exists s, k, rest.
Qed.

(** A reference of the record is absent, or binds the bytes of the file it names. *)
Definition bound (w : world) (root : path) (record : val) (ref_key digest_key : string) : Prop :=
  exists reference, dget record ref_key = Ok reference /\
    (reference = VNone \/ exists p data, names_file w root (VStr (py_str reference)) p data /\
       dget record digest_key = Ok (VStr (Sha256.hexdigest data))).

Lemma reference_bound record root k d w w' : reference_failures record root k d w = (Ok [], w') ->
  bound w root record k d.
Proof.
  unfold reference_failures. intros E. apply M_bind_Ok in E as (reference & w1 & E1 & E).
  apply lift_Ok in E1 as [Hr ->]. exists reference. split; [done|].
  assert (forall (m : IO (list string)), match reference with VNone => mret [] | _ => m end w = (Ok [], w') ->
    reference = VNone \/ m w = (Ok [], w')) as Hm by (intros m Hm; destruct reference; auto).
  apply Hm in E as [E|E]; [by left|]. right. clear Hm.
  apply M_bind_Ok in E as (art & w1 & E1 & E).
  apply catch_Ok in E1 as [E1|(e & w2 & h & _ & Hh & E1)]; last first.
  { apply on_exn_Some in Hh as [_ ->]. apply ret_Ok in E1 as [<- ->]. by apply ret_Ok in E as [? _]. }
  apply M_bind_Ok in E1 as (p & w2 & E1 & E2). apply ret_Ok in E2 as [<- ->].
  apply resolve_reference_Ok in E1 as (-> & s & k' & rest & Hs & Hk & Hc & Hp).
  apply M_bind_Ok in E as (there & w2 & E1 & E). apply is_file_Ok in E1 as [-> Hf].
  destruct there; simpl negb in E; [|by apply ret_Ok in E as [? _]]. destruct (Hf eq_refl) as (data & m & Hst).
  apply M_bind_Ok in E as (h & w2 & E1 & E). apply sha256_chunked_Ok in E1 as (-> & data' & m' & Hst' & ->).
  rewrite Hst in Hst'. injection Hst' as <- <-.
  apply M_bind_Ok in E as (x & w2 & E1 & E). apply lift_Ok in E1 as [Hx ->]. apply ret_Ok in E as [E _].
  unfold py_ne in E. destruct (py_eq (VStr (Sha256.hexdigest data)) x) eqn:Ex; [|done]. apply py_eq_str_l in Ex as ->.
  exists p, data. split; [|done]. by exists s, k', rest, m.
Qed.

(** The result of a gate that prints JSON is a JSON document. *)
Lemma result_readable record gate root w w' : result_failures record gate root w = (Ok [], w') ->
  dget gate "result_mode" = Ok (VStr "stdout-json") ->
  exists reference p v, dget record "result_ref" = Ok reference /\
    resolve_repository_ref reference root w = (Ok p, w) /\ load_json p w = (Ok v, w).
Proof.
  unfold result_failures. intros E Hm. apply M_bind_Ok in E as (m & w1 & E1 & E). apply lift_Ok in E1 as [E1 ->].
  rewrite Hm in E1. injection E1 as <-. simpl py_eq in E. apply M_bind_Ok in E as (reference & w1 & E1 & E).
  apply lift_Ok in E1 as [Hr ->]. destruct (truthy reference); [|by apply ret_Ok in E as [? _]].
  apply catch_Ok in E as [E|(e & w2 & h & _ & Hh & E)]; last first.
  { apply on_exn_Some in Hh as [_ ->]. by apply ret_Ok in E as [? _]. }
  apply M_bind_Ok in E as (p & w1 & E1 & E). same_world E1. apply M_bind_Ok in E as (v & w1 & E2 & E). same_world E2.
  by exists reference, p, v.
Qed.

(** Evidence of a project owner is accepted (no failure) only from a record that is
    valid and speaks of this gate, this commit and exactly the command of the registry;
    the log and the result it refers to are absent, or files below the real root whose
    bytes have the recorded digests; and a gate that prints JSON has a result that is
    a JSON document. Nothing is changed by the validation. *)
Theorem owner_evidence_accepted p gate sha root w record w' :
  validate_owner_evidence p gate sha root w = (Ok (Some record, []), w') ->
  w' = w /\ load_json p w = (Ok record, w) /\ valid w SCHEMA record /\
  (exists x y, dget record "gate_id" = Ok x /\ dget gate "id" = Ok y /\ py_eq x y = true) /\
  dget record "git_sha" = Ok (VStr sha) /\
  (exists x y, dget record "command" = Ok x /\ dget gate "argv" = Ok y /\ py_eq x y = true) /\
  bound w root record "log_ref" "log_sha256" /\ bound w root record "result_ref" "result_sha256" /\
  (dget gate "result_mode" = Ok (VStr "stdout-json") ->
   exists reference q v, dget record "result_ref" = Ok reference /\
     resolve_repository_ref reference root w = (Ok q, w) /\ load_json q w = (Ok v, w)).
Proof.
  intros E. pose proof (pres_eq_run _ _ _ _ (ro_validate_owner p gate sha root) E) as ->. split; [done|].
  unfold validate_owner_evidence in E. apply M_bind_Ok in E as (there & w1 & E1 & E).
  apply is_file_Ok in E1 as [-> _]. destruct there; simpl negb in E; [|by apply ret_Ok in E as [? _]].
  apply M_bind_Ok in E as (r & w1 & E1 & E).
  apply catch_Ok in E1 as [E1|(e & w2 & h & _ & Hh & E1)]; last first.
  { apply on_exn_Some in Hh as [_ ->]. apply ret_Ok in E1 as [<- ->]. by apply ret_Ok in E as [? _]. }
  apply M_bind_Ok in E1 as (v & w2 & E1 & E2). same_world E1. apply ret_Ok in E2 as [<- ->].
  apply M_bind_Ok in E as (schema & w1 & E2 & E). same_world E2.
  apply M_bind_Ok in E as (errors & w1 & E3 & E). apply lift_Ok in E3 as [E3 ->].
  apply M_bind_Ok in E as (f1 & w1 & E4 & E). apply lift_Ok in E4 as [E4 ->].
  apply M_bind_Ok in E as (f2 & w1 & E5 & E). same_world E5.
  apply M_bind_Ok in E as (f3 & w1 & E6 & E). same_world E6.
  apply M_bind_Ok in E as (f4 & w1 & E7 & E). same_world E7. apply ret_Ok in E as [E _]. injection E as -> E.
  apply app_eq_nil in E as [->%map_eq_nil E]. apply app_eq_nil in E as [-> E]. apply app_eq_nil in E as [-> E].
  apply app_eq_nil in E as [-> ->]. apply failures_nil in E4. unfold binding_tests in E4.
  rewrite !Forall_cons, !failure_if_nil in E4. destruct E4 as (A & B%get_ne_str & C & _).
  split; [done|]. split; [by exists schema|]. split; [by apply fields_agree|]. split; [done|].
  split; [by apply fields_agree|]. split; [by eapply reference_bound|]. split; [by eapply reference_bound|].
  by eapply result_readable.
Qed.
End Run.
End OwnerEvidenceSpec.

(** ** A concrete run *)

Module OwnerEvidenceRun.
Import Fixture Evidence OwnerEvidence OwnerEvidenceSpec.

Definition sha : string := "0123456789abcdef0123456789abcdef01234567".
Definition gate : val := VDict [("id", VStr "native"); ("argv", VList [VStr "make"; VStr "build"]); ("result_mode", VStr "stdout-json")].
Definition record (git_sha log_sha : string) : val := VDict [("gate_id", VStr "native"); ("git_sha", VStr git_sha);
  ("command", VList [VStr "make"; VStr "build"]); ("status", VStr "passed"); ("exit_code", VInt 0);
  ("log_ref", VStr "evidence/native.log"); ("log_sha256", VStr log_sha);
  ("result_ref", VStr "evidence/native.json"); ("result_sha256", VStr (Sha256.hexdigest "{}"))].
Definition world_of (r : val) : world := world_with [("/repo/evidence/native.log", "built"); ("/repo/evidence/native.json", "{}");
  ("/owner/native.json", json r); ("/repo/contracts/operations/owner-build-evidence-v0.schema.json", "{}")].
Definition good : val := record sha (Sha256.hexdigest "built").
Definition w0 : world := world_of good.
Definition the_path : path := Path.of_str "/owner/native.json".

(** A changed log and another commit are both reported. *)
Example stale_evidence : let host := quiet_host in
  (validate_owner_evidence (H := host) the_path gate sha (repo_root (Platform := host)) (world_of (record "main" "00"))).1 =
  Ok (Some (record "main" "00"), ["owner evidence git_sha does not match current HEAD";
                                  "log_sha256 does not match exact artifact bytes"]).
Proof. vm_compute. reflexivity. Qed.

Lemma owner_evidence_accepted_witness : let host := quiet_host in let root := repo_root in
  let w := w0 in let record := good in
  w = w /\ load_json the_path w = (Ok record, w) /\ valid w SCHEMA record /\
  (exists x y, dget record "gate_id" = Ok x /\ dget gate "id" = Ok y /\ py_eq x y = true) /\
  dget record "git_sha" = Ok (VStr sha) /\
  (exists x y, dget record "command" = Ok x /\ dget gate "argv" = Ok y /\ py_eq x y = true) /\
  bound w root record "log_ref" "log_sha256" /\ bound w root record "result_ref" "result_sha256" /\
  (dget gate "result_mode" = Ok (VStr "stdout-json") ->
   exists reference q v, dget record "result_ref" = Ok reference /\
     resolve_repository_ref reference root w = (Ok q, w) /\ load_json q w = (Ok v, w)).
Proof.
  intros host root w r. apply (owner_evidence_accepted (H := host) the_path gate sha root w r w).
  vm_compute. reflexivity.
Defined.
End OwnerEvidenceRun.
