(* ===== verification/ProviderGatesV0.v ===== *)
(** * scripts/operations/run_provider_gates.py

    The first runner of the provider-owned gates: it invokes the commands of a
    stage, or takes over the evidence of an owner, and composes one integration
    result. Every turn of its loop adds one row to the result, and at most one
    violation; a turn is modelled by the row it adds. *)

From Stdlib Require Import Ascii.
From S2P Require Import Prelude PyFloat PyMonad PyValue PyTime PyJson Sha256 PyOs OsFacts FsFacts Fixture.
From S2P Require Import ReadinessCommon ProviderGates GenerateSpec CiProvenance SourceReadiness GenerateManifest OwnerEvidence.

Module GatesV0.
Import Evidence ProviderGates.

(** The command line of a gate, and what is recorded of it *)
Definition expand_argv (env : list (string * string)) (parts : list string) (output_path : path) : list string * string :=
  (map (λ p, (substitute env output_path p).1) parts,
   Str.join " " (map (λ p, (substitute env output_path p).2) parts)).

Definition opt_int (o : option Z) : val := opt_val VInt o.
Definition check_result (gate : val) (status command : string) (exit_code : option Z) (duration_ms : Z)
  (output_ref : option string) (failure_class : val) : res val :=
  id ← getitem gate "id"; owner ← getitem gate "owner"; seam ← getitem gate "seam";
  Ok (VDict [("gate_id", id); ("owner", owner); ("seam", seam); ("command", VStr command); ("status", VStr status);
    ("exit_code", opt_int exit_code); ("duration_ms", VInt duration_ms); ("output_ref", opt_val VStr output_ref);
    ("failure_class", failure_class)]).
Definition violation (gate : val) (code message : string) : res val :=
  owner ← getitem gate "owner"; seam ← getitem gate "seam"; action ← getitem gate "action_required";
  Ok (VDict [("owner", owner); ("seam", seam); ("code", VStr code); ("message", VStr message); ("action_required", action)]).

(** A row of the result, and the violation that goes with it *)
Definition row : Type := val * option val.
Definition clean_row (gate : val) (status command : string) (exit_code duration_ms : Z) (output_ref : string)
  (failure_class : val) : res row :=
  r ← check_result gate status command (Some exit_code) duration_ms (Some output_ref) failure_class; Ok (r, None).
Definition bad_row (gate : val) (status command : string) (exit_code : option Z) (duration_ms : Z)
  (output_ref : option string) (code message : string) : res row :=
  class ← getitem gate "failure_class";
  r ← check_result gate status command exit_code duration_ms output_ref class;
  v ← violation gate code message; Ok (r, Some v).
Definition blocked_row (gate : val) (command message : string) : res row :=
  bad_row gate "blocked" command None 0 None "PROVIDER_GATE_BLOCKED" message.

Definition newline : string := String (ascii_of_N 10) "".

Section Env.
Context `{Platform}.

Definition RESULT_SCHEMA : path := Path.div repo_root "contracts/operations/integration-result-v0.schema.json".

Definition git_sha : IO string := GenerateManifest.git_value ["rev-parse"; "HEAD"].

(** Git's bash on Windows, the arguments unchanged elsewhere *)
Definition bash_candidates : IO (list path) :=
  from_git ← (match which "git" with
              | Some git =>
                  if String.eqb git "" then mret []
                  else p ← resolve (Path.of_str git);
                       mret (if Nat.leb 3 (length (parts p))
                             then [Path.div (Path.parent (Path.parent (Path.parent p))) "usr/bin/bash.exe"] else [])
              | None => mret []
              end);
  pf ← getenv "ProgramFiles";
  mret (from_git ++
        (if truthy_opt pf then [Path.div (Path.of_str (default "" pf)) "Git/usr/bin/bash.exe"] else []) ++
        (if truthy_opt (which "bash.exe") then [Path.of_str (default "" (which "bash.exe"))] else [])).
Fixpoint first_bash (rest : list string) (l : list path) : IO (list string) :=
  match l with
  | [] => throw RuntimeError "Git Bash is required to run provider shell gates on Windows"
  | c :: r => b ← is_file c;
              if b && inb String.eqb "Git" (parts c) then mret (Path.to_str c :: rest) else first_bash rest r
  end.
Definition resolve_executable (argv : list string) : IO (list string) :=
  match argv with
  | x :: rest =>
      if negb (String.eqb os_name "nt") || negb (String.eqb x "bash") then mret argv
      else c ← bash_candidates; first_bash rest c
  | [] => mret argv
  end.

Definition safe_path (relative : string) : IO path := Readiness.safe_repo_path relative.

Record args := Args { registry : path; stage : string; environment : string; a_output : path; evidence_dir : path;
                      owner_evidence_dir : option path; allow_blocked : bool; allow_disposable_database : bool }.
Context (a : args).

(** [p.relative_to(ROOT).as_posix() if p.is_relative_to(ROOT) else p.as_posix()] *)
Definition ref_of (p : path) : string := default (Path.to_str p) (Path.relative_to p repo_root).

(** What the evidence of an owner adds: a row, or the reason it is blocked *)
Definition owner_row (gate : val) (gid sha command : string) : IO (option row) :=
  match owner_evidence_dir a with
  | None => mret None
  | Some d =>
      d ← resolve d;
      let record_path := Path.div d (gid +:+ ".json") in
      there ← is_file record_path;
      if negb there then mret None
      else
        '(record, failures) ← OwnerEvidence.validate_owner_evidence record_path gate sha repo_root;
        match record, failures with
        | Some record, [] =>
            status ← lift (getitem record "status");
            code ← lift (getitem record "exit_code"); code ← lift (py_int code);
            class ← lift (if String.eqb (py_str status) "passed" then Ok VNone else getitem gate "failure_class");
            r ← lift (check_result gate (py_str status) command (Some code) 0 (Some (ref_of record_path)) class);
            v ← lift (if String.eqb (py_str status) "failed"
                      then v ← violation gate "PROVIDER_GATE_FAILED"
                                 ("project-owner evidence reports failure; see " +:+ ref_of record_path); Ok (Some v)
                      else Ok None);
            mret (Some (r, v))
        | _, _ =>
            r ← lift (bad_row gate "failed" command (Some 65) 0 (Some (ref_of record_path)) "OWNER_BUILD_EVIDENCE_INVALID"
                        (Str.take 1000 (Str.join "; " failures)));
            mret (Some r)
        end
  end.
Definition owner_reason : string := "provider state is pending-owner-build; exact-SHA owner evidence is unavailable".

(** The reason a gate is not run, in the order of the tests *)
Definition blocked_reason (gate state : val) (missing missing_env : list string) : res (option string) :=
  if py_ne state (VStr "available") then Ok (Some ("provider state is " +:+ py_str state))
  else match missing, missing_env with
  | _ :: _, _ => Ok (Some ("required provider paths are missing: " +:+ repr_strs missing))
  | [], _ :: _ => Ok (Some ("required environment is missing: " +:+ repr_strs missing_env))
  | [], [] =>
      m ← getitem gate "mutation_class"; b ← in_set m [VStr "host-mutation"; VStr "oci-mutation"];
      if b : bool then Ok (Some "host and OCI mutations are forbidden in provider validation")
      else if py_eq m (VStr "disposable-database") && negb (allow_disposable_database a)
      then Ok (Some "disposable database mutation requires --allow-disposable-database")
      else Ok None
  end.

(** The document of a gate that passed: read, or written from what it printed *)
Definition result_document (mode : val) (stdout : string) (result_path : path) : IO string :=
  (if py_eq mode (VStr "stdout-json")
   then document ← lift (json_loads stdout); write_file result_path (json_text document)
   else _ ← load_json result_path; mret tt) ;;
  mret (ref_of result_path).

Definition log_text (stdout stderr : string) : string :=
  "STDOUT" +:+ newline +:+ stdout +:+ newline +:+ "STDERR" +:+ newline +:+ stderr.

(** The status, the exit code and the reference of a command that has ended *)
Definition settle (gate : val) (code : Z) (stdout redacted : string) (log_path result_path : path) : IO (string * Z * string) :=
  let log_ref := ref_of log_path in
  if negb (code =? 0) then mret ("failed", code, log_ref)
  else
    mode ← lift (getitem gate "result_mode");
    has ← lift (in_set mode [VStr "json-file"; VStr "stdout-json"]);
    if negb has then mret ("passed", code, log_ref)
    else catch (ref ← result_document mode stdout result_path; mret ("passed", code, ref))
           (on_exn [OSError; JSONDecodeError] (λ e,
              write_file log_path (redacted +:+ newline +:+ "RESULT ERROR" +:+ newline +:+
                                   Redaction.redact (exn_str e) +:+ newline) ;;
              mret ("failed", 65, log_ref))).

(** A command that runs to its end *)
Definition run_command (gate : val) (argv : list string) (command : string) (started : Z) (log_path result_path : path) : IO row :=
  t ← lift (getitem gate "timeout_seconds"); timeout ← lift (expect_int t);
  env ← gets environ;
  '(code, o, e) ← run_completed (Proc argv (Some timeout) env (Some repo_root));
  finished ← monotonic;
  let duration_ms := Flt.round_ratio (finished - started) 1000 in
  let redacted := Redaction.redact (log_text o e) in
  write_file log_path redacted ;;
  '(status, code, ref) ← settle gate code o redacted log_path result_path;
  lift (if String.eqb status "passed" then clean_row gate status command code duration_ms ref VNone
        else bad_row gate status command (Some code) duration_ms (Some ref) "PROVIDER_GATE_FAILED"
               ("provider command failed; see " +:+ ref)).

Definition execute (gate : val) (gid : string) (argv : list string) (command : string) (dir result_path : path) : IO row :=
  started ← monotonic;
  let log_path := Path.div dir (gid +:+ ".log") in
  catch (run_command gate argv command started log_path result_path)
    (on_exn [TimeoutExpired] (λ e,
       finished ← monotonic;
       let duration_ms := Flt.round_ratio (finished - started) 1000 in
       write_file log_path (Redaction.redact ("provider command timed out: " +:+ exn_str e)) ;;
       lift (t ← getitem gate "timeout_seconds";
             bad_row gate "failed" command (Some 124) duration_ms (Some (ref_of log_path)) "PROVIDER_GATE_TIMEOUT"
               ("provider command exceeded " +:+ py_str t +:+ " seconds")))).

(** A gate whose executable is known *)
Definition judge_gate (gate : val) (gid sha : string) (argv : list string) (command : string) (dir result_path : path) : IO row :=
  missing ← missing_paths gate;
  absent ← missing_env gate;
  state ← lift (getitem gate "provider_state");
  if py_eq state (VStr "pending-owner-build") && bool_decide (missing = []) then
    r ← owner_row gate gid sha command;
    match r with
    | Some r => mret r
    | None => lift (blocked_row gate command owner_reason)
    end
  else
    reason ← lift (blocked_reason gate state missing absent);
    match reason with
    | Some m => lift (blocked_row gate command m)
    | None => execute gate gid argv command dir result_path
    end.

(** One turn of the loop *)
Definition gate_one (sha : string) (dir : path) (gate : val) : IO (option row) :=
  stages ← lift (getitem gate "stages"); here ← lift (py_contains (VStr (stage a)) stages);
  if negb here then mret None
  else
    gid ← lift (gate_text gate "id");
    let gate_output := Path.div dir (gid +:+ ".json") in
    argv ← lift (v ← getitem gate "argv"; l ← py_iter v; rmap expect_str l);
    env ← gets environ;
    let '(argv, command) := expand_argv env argv gate_output in
    resolved ← catch (x ← resolve_executable argv; mret (inl x)) (on_exn [RuntimeError] (λ e, mret (inr (exn_str e))));
    r ← match resolved with
        | inr m => lift (blocked_row gate command m)
        | inl argv => judge_gate gate gid sha argv command dir gate_output
        end;
    mret (Some r).

Definition run_gates (sha : string) (dir : path) (gates : list val) : IO (list row) :=
  rows ← mmap (gate_one sha dir) gates; mret (omap id rows).

Definition overall_of (statuses : list val) : string :=
  if py_in (VStr "failed") statuses then "failed" else if py_in (VStr "blocked") statuses then "blocked" else "passed".

Definition own_gate : val := VDict [("owner", VStr "Senior 4"); ("seam", VStr "operations/integration/provider-gates-v0.json");
  ("command", VStr "scripts/operations/run_provider_gates.py"); ("status", VStr "passed"); ("exit_code", VInt 0);
  ("duration_ms", VInt 0); ("output_ref", VNone); ("failure_class", VNone)].
Definition no_capacity : val := VDict [("status", VStr "blocked"); ("hard_limit_ocpu", VInt 3); ("hard_limit_memory_mib", VInt 20480);
  ("reserved_ocpu", VInt 1); ("reserved_memory_mib", VInt 4096); ("declared_ocpu", VInt 0); ("declared_memory_mib", VInt 0);
  ("steady_state_ocpu", VInt 0); ("steady_state_memory_mib", VInt 0); ("disk_budget_gib", VInt 0)].
Definition no_recovery (stage : string) : val := VDict [
  ("status", VStr (if String.eqb stage "source" then "not-applicable" else "blocked")); ("backup_age_seconds", VNone);
  ("wal_archive_lag_seconds", VNone); ("restore_verified_at", VNone); ("evidence_ref", VNone)].
Definition no_probe : val := VDict [("status", VStr "not-run"); ("result_ref", VNone); ("release_id_observed", VNone)].

Definition result_of (sha integration_id started completed overall : string) (rows : list row) : val :=
  VDict [("schema_version", VStr "integration-result-v0"); ("integration_id", VStr integration_id);
    ("release_id", VStr ("liqi-" +:+ stage a +:+ "-" +:+ Str.take 12 sha)); ("git_sha", VStr sha);
    ("environment", VStr (environment a)); ("mode", VStr "provider"); ("started_at", VStr started);
    ("completed_at", VStr completed); ("overall_status", VStr overall); ("provider_results", VList (map fst rows));
    ("gates", VList [own_gate]); ("capacity", no_capacity); ("recovery", no_recovery (stage a)); ("platform_probe", no_probe);
    ("violations", VList (omap snd rows))].

Definition error_line (e : list val * string) : string := "ERROR integration-result: " +:+ dotted e.1 +:+ ": " +:+ e.2.

(** What follows the loop *)
Definition publish (sha integration_id started : string) (rows : list row) : IO Z :=
  statuses ← lift (rmap (λ r : row, getitem r.1 "status") rows);
  let overall := overall_of statuses in
  completed ← utc_now;
  let result := result_of sha integration_id started completed overall rows in
  schema ← load_json RESULT_SCHEMA;
  schema_errors ← lift (sorted_errors schema result);
  match schema_errors with
  | _ :: _ => mfor (λ e, print_err (error_line e)) schema_errors ;; mret 65
  | [] =>
      write_document (a_output a) result ;;
      print ("provider gates " +:+ overall +:+ ": " +:+ Path.to_str (a_output a)) ;;
      mret (if String.eqb overall "failed" then 1
            else if String.eqb overall "blocked" && negb (allow_blocked a) then 2 else 0)
  end.

Definition main : IO Z :=
  rp ← resolve (registry a); reg ← load_json rp;
  sha ← git_sha;
  started ← utc_now;
  let integration_id := "int-" +:+ stage a +:+ "-" +:+ Str.take 12 sha in
  ed ← resolve (evidence_dir a);
  let dir := Path.div ed integration_id in
  mkdir_p dir ;;
  gates ← lift (g ← getitem reg "gates"; py_iter g);
  rows ← run_gates sha dir gates;
  publish sha integration_id started rows.
End Env.
End GatesV0.

Module GatesV0Spec.
Import Evidence GatesV0.

Section Run.
Context `{Platform} (a : args).

#[local] Hint Resolve ProviderGates.ro_missing_paths ProviderGates.ro_missing_env OwnerEvidenceSpec.ro_validate_owner : pres.
Lemma ro_first_bash rest l : Pres eq (first_bash rest l).
Proof. induction l as [|c l IH]; simpl; unfold is_file; solve_pres. Qed.
#[local] Hint Resolve ro_first_bash : pres.
Lemma ro_resolve_executable l : Pres eq (resolve_executable l).
Proof. unfold resolve_executable, bash_candidates. solve_pres. Qed.
Lemma ro_owner_row gate gid sha c : Pres eq (owner_row a gate gid sha c).
Proof. unfold owner_row, is_file. solve_pres. Qed.
#[local] Hint Resolve ro_resolve_executable ro_owner_row : pres.
Lemma sl_settle gate code o t l r : Pres same_log (settle gate code o t l r).
Proof. unfold settle, result_document. solve_pres. Qed.

(** *** What the runner starts *)

(** A gate the runner may start *)
Record may_run (gate : val) : Prop := {
  r_stage : exists stages, getitem gate "stages" = Ok stages /\ py_contains (VStr (stage a)) stages = Ok true;
  r_state : getitem gate "provider_state" = Ok (VStr "available");
  r_mutation : exists m, getitem gate "mutation_class" = Ok m /\ m <> VStr "host-mutation" /\ m <> VStr "oci-mutation" /\
    (m = VStr "disposable-database" -> allow_disposable_database a = true)
}.
Definition starts_gate (gate : val) : world -> world -> Prop :=
  starts_only (λ p, may_run gate /\ ProviderGates.command_of gate p).

#[local] Instance starts_gate_preorder gate : PreOrder (starts_gate gate).
Proof. unfold starts_gate. apply _. Qed.
Lemma v0_same_log {A} gate (m : IO A) : Pres same_log m -> Pres (starts_gate gate) m.
Proof. intros Hm w. apply same_log_starts, Hm. Qed.
#[local] Hint Extern 3 (Pres (starts_gate _) _) => apply v0_same_log : pres.
#[local] Hint Resolve sl_settle : pres.

Lemma blocked_reason_None gate state missing absent : blocked_reason a gate state missing absent = Ok None ->
  state = VStr "available" /\ missing = [] /\ absent = [] /\
  exists m, getitem gate "mutation_class" = Ok m /\ m <> VStr "host-mutation" /\ m <> VStr "oci-mutation" /\
    (m = VStr "disposable-database" -> allow_disposable_database a = true).
Proof.
  unfold blocked_reason. intros E. destruct (py_ne state (VStr "available")) eqn:Es; [done|].
  apply negb_false_iff, py_eq_str_r in Es as ->. destruct missing; [|done]. destruct absent; [|done].
  apply bind_Ok in E as (m & Hm & E). apply bind_Ok in E as (b & Hb & E). destruct b; [done|].
  do 3 (split; [done|]). exists m. split; [done|]. split; [by intros ->|]. split; [by intros ->|].
  intros ->. simpl in E. by destruct (allow_disposable_database a).
Qed.

Lemma run_command_starts gate argv c s l r : may_run gate -> Pres (starts_gate gate) (run_command gate argv c s l r).
Proof.
  intros Hm. unfold run_command. apply pres_lift_bind; [apply _|intros t Ht].
  apply pres_lift_bind; [apply _|intros z Hz]. apply pres_bind; [apply _|solve_pres|intros env].
  apply pres_bind; [apply _| |solve_pres; apply _].
  unfold run_completed. apply pres_bind; [apply _| |solve_pres; apply _].
  intros w. unfold subprocess_run. destruct (exec _ _ _) as [[x f] d].
  eexists [_]. split; [by destruct x|]. constructor; [|done]. split; [done|]. split; [done|]. by exists t, z.
Qed.

Lemma judge_gate_starts gate gid sha argv c dir p :
  (exists stages, getitem gate "stages" = Ok stages /\ py_contains (VStr (stage a)) stages = Ok true) ->
  Pres (starts_gate gate) (judge_gate a gate gid sha argv c dir p).
Proof.
  intros Hst. unfold judge_gate. apply pres_bind; [apply _|solve_pres|intros missing].
  apply pres_bind; [apply _|solve_pres|intros absent]. apply pres_lift_bind; [apply _|intros state Hs].
  destruct (_ && _); [solve_pres|]. apply pres_lift_bind; [apply _|intros reason Hr]. destruct reason; [solve_pres|].
  apply blocked_reason_None in Hr as (-> & _ & _ & Hm). assert (may_run gate) as Hrun by by split.
  pose proof (run_command_starts gate) as Hc. unfold execute. solve_pres.
Qed.

Lemma gate_v0_starts sha dir gate : Pres (starts_gate gate) (gate_one a sha dir gate).
Proof.
  unfold gate_one. apply pres_lift_bind; [apply _|intros stages Hs]. apply pres_lift_bind; [apply _|intros here Hh].
  destruct here; cbn [negb]; cbv iota; [|solve_pres].
  pose proof (λ gid argv c p, judge_gate_starts gate gid sha argv c dir p) as Hj.
  solve_pres.
Qed.

(** The runner starts no process but the commands of permitted gates. However the run
    ends, each process started belongs to a gate of the stage whose provider is available
    and whose mutation class is neither a host mutation nor an OCI mutation, nor a
    disposable database without its approval; it runs in the repository with the gate's
    timeout. A gate that awaits the evidence of its owner is never started. *)
Theorem gates_v0_start_permitted sha dir gates w :
  exists new, log (run_gates a sha dir gates w).2 = new ++ log w /\
    Forall (λ p, exists gate, gate ∈ gates /\ may_run gate /\ ProviderGates.command_of gate p) new.
Proof.
  set (ok p := exists gate, gate ∈ gates /\ may_run gate /\ ProviderGates.command_of gate p).
  enough (forall l, (forall g, g ∈ l -> g ∈ gates) -> Pres (starts_only ok) (mmap (gate_one a sha dir) l)) as Hl.
  { unfold run_gates. change (starts_only ok w (mbind (λ rows, mret (omap id rows)) (mmap (gate_one a sha dir) gates) w).2).
    apply pres_bind; [apply _|by apply Hl|solve_pres; apply _]. }
  induction l as [|g l IH]; intros Hg; simpl; [solve_pres; apply _|].
  apply pres_bind; [apply _| |intros o; apply pres_bind; [apply _|apply IH; set_solver|solve_pres; apply _]].
  intros s. destruct (gate_v0_starts sha dir g s) as (new & E & Hnew). exists new. split; [done|].
  eapply Forall_impl; [exact Hnew|]. intros p [? ?]. exists g. split; [apply Hg; by left|done].
Qed.

(** *** What a passed run has shown *)

(** A row speaks of its gate. *)
Definition names (gate r : val) : Prop :=
  getitem r "gate_id" = getitem gate "id" /\ getitem r "owner" = getitem gate "owner" /\ getitem r "seam" = getitem gate "seam".
Lemma check_result_names gate s c e d o k r : check_result gate s c e d o k = Ok r ->
  names gate r /\ getitem r "status" = Ok (VStr s) /\ getitem r "exit_code" = Ok (opt_int e).
Proof.
  unfold check_result. intros E. apply bind_Ok in E as (id & Hi & E). apply bind_Ok in E as (ow & Ho & E).
  apply bind_Ok in E as (se & Hs & E). injection E as <-. unfold names. by rewrite Hi, Ho, Hs.
Qed.
Lemma bad_row_status gate s c e d o k m r : bad_row gate s c e d o k m = Ok r -> getitem r.1 "status" = Ok (VStr s).
Proof.
  unfold bad_row. intros E. apply bind_Ok in E as (cl & _ & E). apply bind_Ok in E as (x & Hx & E).
  apply bind_Ok in E as (v & _ & E). injection E as <-. by apply check_result_names in Hx as (_ & ? & _).
Qed.

(** What a gate whose row is neither failed nor blocked has: its command was run and exited
    0, or the evidence of its owner was accepted; and no violation. *)
Definition performed (gate r : val) : Prop :=
  getitem gate "provider_state" = Ok (VStr "available") /\ getitem r "status" = Ok (VStr "passed") /\
  getitem r "exit_code" = Ok (VInt 0).
Definition vouched (gate r : val) (sha : string) : Prop :=
  getitem gate "provider_state" = Ok (VStr "pending-owner-build") /\
  exists p w1 record w2 s, OwnerEvidence.validate_owner_evidence p gate sha repo_root w1 = (Ok (Some record, []), w2) /\
    getitem record "status" = Ok s /\ getitem r "status" = Ok (VStr (py_str s)).
Definition good_row (gate : val) (sha : string) (r : row) : Prop :=
  r.2 = None /\ names gate r.1 /\ (performed gate r.1 \/ vouched gate r.1 sha).

(** A row is failed, blocked or good. *)
Definition settled (gate : val) (sha : string) (r : row) : Prop :=
  exists s, getitem r.1 "status" = Ok (VStr s) /\ (s = "failed" \/ s = "blocked" \/ good_row gate sha r).
Lemma bad_row_settled gate sha s c e d o k m r : s = "failed" \/ s = "blocked" ->
  bad_row gate s c e d o k m = Ok r -> settled gate sha r.
Proof. intros Hs E%bad_row_status. exists s. split; [done|]. destruct Hs; auto. Qed.

Lemma owner_row_settled gate gid sha c w r w' : getitem gate "provider_state" = Ok (VStr "pending-owner-build") ->
  owner_row a gate gid sha c w = (Ok (Some r), w') -> settled gate sha r.
Proof.
  unfold owner_row. intros Hst E. destruct (owner_evidence_dir a) as [d|]; [|by apply ret_Ok in E as [? _]].
  apply M_bind_Ok in E as (q & w1 & _ & E). apply M_bind_Ok in E as (there & w2 & _ & E).
  destruct there; cbn [negb] in E; [|by apply ret_Ok in E as [? _]].
  apply M_bind_Ok in E as ([record failures] & w3 & Ev & E). destruct record as [record|], failures as [|f fs].
  2-4: apply M_bind_Ok in E as (x & w4 & Ex & E); apply lift_Ok in Ex as [Ex _]; apply ret_Ok in E as [[= <-] _];
       eapply bad_row_settled; [by left|exact Ex].
  apply M_bind_Ok in E as (s & w4 & Es & E). apply lift_Ok in Es as [Es ->].
  apply M_bind_Ok in E as (code & w5 & _ & E). apply M_bind_Ok in E as (z & w6 & _ & E).
  apply M_bind_Ok in E as (cl & w7 & _ & E). apply M_bind_Ok in E as (x & w8 & Ex & E).
  apply lift_Ok in Ex as [Ex _]. apply M_bind_Ok in E as (v & w9 & Ev' & E). apply lift_Ok in Ev' as [Ev' _].
  apply ret_Ok in E as [[= <-] _]. apply check_result_names in Ex as (Hn & Hs & _). exists (py_str s). split; [done|].
  destruct (String.eqb (py_str s) "failed") eqn:Ef; [left; by apply String.eqb_eq|]. injection Ev' as <-.
  right; right. split; [done|]. split; [done|]. right. split; [done|]. by exists (Path.div q (gid +:+ ".json")), w2, record, w3, s.
Qed.

Lemma settle_code gate code o t l r w s z ref w' : settle gate code o t l r w = (Ok (s, z, ref), w') ->
  (s = "passed" /\ z = 0) \/ s = "failed".
Proof.
  unfold settle. cbn zeta. destruct (code =? 0) eqn:Ec; cbn [negb].
  - apply Z.eqb_eq in Ec as ->. intros E. apply M_bind_Ok in E as (m & w1 & _ & E). apply M_bind_Ok in E as (has & w2 & _ & E).
    destruct has; cbn [negb] in E; [|apply ret_Ok in E as [[= <- <- _] _]; by left].
    apply catch_Ok in E as [E|(e & w3 & k & _ & Hk & E)].
    + apply M_bind_Ok in E as (ref' & w3 & _ & E). apply ret_Ok in E as [[= <- <- _] _]. by left.
    + apply on_exn_Some in Hk as [_ ->]. apply M_bind_Ok in E as (u & w4 & _ & E). apply ret_Ok in E as [[= <- _ _] _]. by right.
  - intros [[= <- _ _] _]%ret_Ok. by right.
Qed.

Lemma execute_settled gate gid sha argv c dir p w r w' : getitem gate "provider_state" = Ok (VStr "available") ->
  execute gate gid argv c dir p w = (Ok r, w') -> settled gate sha r.
Proof.
  intros Hst. unfold execute. intros E. apply M_bind_Ok in E as (st & w1 & _ & E). cbn zeta in E.
  apply catch_Ok in E as [E|(e & w2 & k & _ & Hk & E)].
  - unfold run_command in E. apply M_bind_Ok in E as (t & w2 & _ & E). apply M_bind_Ok in E as (z & w3 & _ & E).
    apply M_bind_Ok in E as (env & w4 & _ & E). apply M_bind_Ok in E as ([[code o] e] & w5 & _ & E).
    apply M_bind_Ok in E as (f & w6 & _ & E). cbn zeta in E. apply M_bind_Ok in E as (u & w7 & _ & E).
    apply M_bind_Ok in E as ([[s n] ref] & w8 & Es & E). apply lift_Ok in E as [E _].
    apply settle_code in Es as [[-> ->] | ->]; [|eapply bad_row_settled; [by left|exact E]].
    unfold clean_row in E. apply bind_Ok in E as (x & Hx & E). injection E as <-.
    apply check_result_names in Hx as (Hn & Hs & He). exists "passed". split; [done|]. right; right.
    split; [done|]. split; [done|]. by left.
  - apply on_exn_Some in Hk as [_ ->]. apply M_bind_Ok in E as (f & w3 & _ & E). cbn zeta in E.
    apply M_bind_Ok in E as (u & w4 & _ & E). apply lift_Ok in E as [E _]. apply bind_Ok in E as (t & _ & E).
    eapply bad_row_settled; [by left|exact E].
Qed.

Definition outside (gate : val) : Prop :=
  exists stages, getitem gate "stages" = Ok stages /\ py_contains (VStr (stage a)) stages = Ok false.
Lemma gate_v0_settled sha dir gate w o w' : gate_one a sha dir gate w = (Ok o, w') ->
  match o with None => outside gate | Some r => settled gate sha r end.
Proof.
  unfold gate_one. intros E. apply M_bind_Ok in E as (stages & w1 & Hs & E). apply lift_Ok in Hs as [Hs ->].
  apply M_bind_Ok in E as (here & w1 & Hh & E). apply lift_Ok in Hh as [Hh ->].
  destruct here; cbn [negb] in E; [|apply ret_Ok in E as [<- _]; by exists stages].
  apply M_bind_Ok in E as (gid & w1 & _ & E). apply M_bind_Ok in E as (argv & w2 & _ & E).
  apply M_bind_Ok in E as (env & w3 & _ & E). unfold expand_argv in E. cbv beta iota zeta in E.
  apply M_bind_Ok in E as (res & w4 & _ & E). apply M_bind_Ok in E as (r & w5 & Er & E). apply ret_Ok in E as [<- _].
  destruct res as [x|m]; [|apply lift_Ok in Er as [Er _]; eapply bad_row_settled; [by right|exact Er]].
  unfold judge_gate in Er. apply M_bind_Ok in Er as (missing & w6 & _ & Er). apply M_bind_Ok in Er as (absent & w7 & _ & Er).
  apply M_bind_Ok in Er as (state & w8 & Hst & Er). apply lift_Ok in Hst as [Hst ->].
  destruct (py_eq state (VStr "pending-owner-build") && bool_decide (missing = [])) eqn:Ep.
  - apply andb_prop in Ep as [->%py_eq_str_r _]. apply M_bind_Ok in Er as (o & w9 & Eo & Er). destruct o as [r'|].
    + apply ret_Ok in Er as [<- _]. by eapply owner_row_settled.
    + apply lift_Ok in Er as [Er _]. eapply bad_row_settled; [by right|exact Er].
  - apply M_bind_Ok in Er as (reason & w9 & Hr & Er). apply lift_Ok in Hr as [Hr ->]. destruct reason as [m|].
    + apply lift_Ok in Er as [Er _]. eapply bad_row_settled; [by right|exact Er].
    + apply blocked_reason_None in Hr as (-> & _). by eapply execute_settled.
Qed.

Lemma calm_row gate sha r s : settled gate sha r -> getitem r.1 "status" = Ok s -> SourceReadinessSpec.calm s -> good_row gate sha r.
Proof.
  intros (t & Ht & Hr) Hs [C1 C2]. rewrite Ht in Hs. injection Hs as <-. destruct Hr as [-> | [-> | Hr]]; [..|done].
  - by vm_compute in C1.
  - by vm_compute in C2.
Qed.
Lemma good_rows sha gates os statuses :
  Forall2 (λ gate o, match o with None => outside gate | Some r => settled gate sha r end) gates os ->
  rmap (λ r : row, getitem r.1 "status") (omap id os) = Ok statuses -> Forall SourceReadinessSpec.calm statuses ->
  Forall2 (λ gate o, match o with None => outside gate | Some r => good_row gate sha r end) gates os /\ omap snd (omap id os) = [].
Proof.
  intros Hg. revert statuses. induction Hg as [|gate o gates os Ho Hg IH]; intros statuses E C; [by split|].
  destruct o as [r|]; simpl in E.
  - apply bind_Ok in E as (s & Es & E). apply bind_Ok in E as (ss & Ess & E). injection E as <-.
    apply Forall_cons in C as [C1 C2]. pose proof (calm_row _ _ _ _ Ho Es C1) as Hr. destruct (IH _ Ess C2) as [I1 I2].
    split; [by constructor|]. simpl. destruct Hr as [Hr _]. rewrite Hr. done.
  - destruct (IH _ E C) as [I1 I2]. split; [by constructor|done].
Qed.

(** Exit code 0 without [--allow-blocked] means that every gate of the registry is of
    another stage or has its own row, which names it: an available gate whose command was
    run and exited 0, or a gate whose owner's evidence for this very commit was accepted.
    The published result is a valid one of mode [provider] that says [passed], holds these
    rows, one a gate in order, and has no violation. *)
Theorem gates_v0_passed w : allow_blocked a = false -> (main a w).1 = Ok 0 ->
  exists reg gates sha os result w1, (rp ← resolve (registry a); load_json rp) w = (Ok reg, w) /\
    (g ← getitem reg "gates"; py_iter g) = Ok gates /\
    Forall2 (λ gate o, match o with None => outside gate | Some r => good_row gate sha r end) gates os /\
    valid w1 RESULT_SCHEMA result /\ (write_document (a_output a) result w1).1 = Ok tt /\
    dget result "mode" = Ok (VStr "provider") /\ dget result "git_sha" = Ok (VStr sha) /\
    dget result "overall_status" = Ok (VStr "passed") /\
    dget result "provider_results" = Ok (VList (map fst (omap id os))) /\ dget result "violations" = Ok (VList []).
Proof.
  intros Hb. destruct (main a w) as [rr w'] eqn:E. cbn [fst]. intros ->. unfold main in E.
  apply M_bind_Ok in E as (rp & w1 & E1 & E). same_world E1. apply M_bind_Ok in E as (reg & w1 & E2 & E). same_world E2.
  apply M_bind_Ok in E as (sha & w2 & _ & E). apply M_bind_Ok in E as (started & w3 & _ & E). cbn zeta in E.
  apply M_bind_Ok in E as (ed & w4 & _ & E). apply M_bind_Ok in E as (u & w5 & _ & E).
  apply M_bind_Ok in E as (gates & w6 & Eg & E). apply lift_Ok in Eg as [Eg ->].
  apply M_bind_Ok in E as (rows & w7 & Er & E). unfold run_gates in Er. apply M_bind_Ok in Er as (os & w8 & Er & Eo).
  apply ret_Ok in Eo as [<- ->]. apply mmap_Ok in Er.
  assert (Forall2 (λ gate o, match o with None => outside gate | Some r => settled gate sha r end) gates os) as Hs.
  { eapply Forall2_impl; [exact Er|]. cbn beta. intros gate o (s1 & s2 & Ho). exact (gate_v0_settled _ _ _ _ _ _ Ho). }
  unfold publish in E. apply M_bind_Ok in E as (statuses & w9 & Es & E). apply lift_Ok in Es as [Es ->]. cbn zeta in E.
  apply M_bind_Ok in E as (completed & w10 & _ & E). apply M_bind_Ok in E as (schema & w11 & El & E). same_world El.
  apply M_bind_Ok in E as (errors & w12 & Ee & E). apply lift_Ok in Ee as [Ee ->].
  destruct errors; [|by apply M_bind_Ok in E as (? & ? & _ & [? _]%ret_Ok)].
  apply M_bind_Ok in E as (u' & w13 & Ew & E). apply M_bind_Ok in E as (? & ? & _ & E). apply ret_Ok in E as [E _].
  rewrite Hb, andb_true_r in E. assert (overall_of statuses = "passed") as Ho.
  { destruct (SourceReadinessSpec.overall_words statuses) as [Ho|[Ho|Ho]]; unfold SourceReadiness.overall in Ho;
      unfold overall_of in *; rewrite Ho in E |- *; done. }
  destruct (good_rows sha gates os statuses Hs Es (SourceReadinessSpec.overall_calm _ Ho)) as [Hg Hv].
  eexists reg, gates, sha, os, _, w10. split; [unfold mbind at 1, M_bind; by rewrite E1|]. do 2 (split; [done|]).
  split; [by exists schema|]. split; [rewrite Ew; by destruct u'|]. rewrite <-Ho. do 4 (split; [done|]). rewrite <-Hv. done.
Qed.
End Run.
End GatesV0Spec.

(** ** A concrete run *)

Module GatesV0Run.
Import Fixture Evidence GatesV0 GatesV0Spec.

Definition sha : string := "0123456789abcdef0123456789abcdef01234567".
Definition git_host : Platform := host_with (λ _ p f,
  (Exited 0 (match argv p with "git" :: _ => sha +:+ String (ascii_of_N 10) "" | _ => "password=hunter2" end) "", f, 1000)).
Definition gate (id state mutation stage : string) : val := VDict [("id", VStr id); ("owner", VStr "Senior 1"); ("seam", VStr id);
  ("stages", VList [VStr stage]); ("argv", VList [VStr "check"; VStr "{output}"]); ("provider_state", VStr state);
  ("required_paths", VList [VStr "contracts"]); ("mutation_class", VStr mutation); ("result_mode", VStr "exit-code");
  ("timeout_seconds", VInt 60); ("failure_class", VStr "contract"); ("action_required", VStr "Repair.")].
Definition record : val := VDict [("gate_id", VStr "native"); ("git_sha", VStr sha);
  ("command", VList [VStr "check"; VStr "{output}"]); ("status", VStr "passed"); ("exit_code", VInt 0)].
Definition world_of (mutation : string) : world := world_with [("/repo/registry.json", json (VDict [("gates", VList
    [gate "api" "available" mutation "source"; gate "native" "pending-owner-build" "none" "source";
     gate "live" "unpublished" "none" "promotion"])]));
  ("/owner/native.json", json record); ("/out/.keep", "");
  ("/repo/contracts/operations/owner-build-evidence-v0.schema.json", "{}");
  ("/repo/contracts/operations/integration-result-v0.schema.json", "{}")].
Definition w0 : world := world_of "none".
Definition the_args : args := Args (Path.of_str "registry.json") "source" "staging" (Path.of_str "/out/result.json")
  (Path.of_str "/out/evidence") (Some (Path.of_str "/owner")) false false.

(** A host mutation is not started, and blocks the run. *)
Example host_mutation_blocked : let r := main (H := git_host) the_args (world_of "host-mutation") in
  r.1 = Ok 2 /\ map argv (log r.2) = [["git"; "rev-parse"; "HEAD"]].
Proof. vm_compute. by split. Qed.
(** The log keeps no secret of the output. *)
Example log_redacted : match stat (main (H := git_host) the_args w0).2
    (Path.of_str "/out/evidence/int-source-0123456789ab/api.log") with
  | Some (NFile t _) => Str.contains "password=[REDACTED]" t && negb (Str.contains "hunter2" t) = true
  | _ => False
  end.
Proof. vm_compute. reflexivity. Qed.
(** A stage without gates passes. *)
Example empty_stage_passes :
  let a := Args (registry the_args) "integration" "staging" (a_output the_args) (evidence_dir the_args) None false false in
  (main (H := git_host) a w0).1 = Ok 0.
Proof. vm_compute. reflexivity. Qed.

Lemma gates_v0_passed_witness : let host := git_host in let a := the_args in let w := w0 in
  exists reg gates sha os result w1, (rp ← resolve (registry a); load_json rp) w = (Ok reg, w) /\
    (g ← getitem reg "gates"; py_iter g) = Ok gates /\
    Forall2 (λ gate o, match o with None => outside a gate | Some r => good_row gate sha r end) gates os /\
    valid w1 RESULT_SCHEMA result /\ (write_document (a_output a) result w1).1 = Ok tt /\
    dget result "mode" = Ok (VStr "provider") /\ dget result "git_sha" = Ok (VStr sha) /\
    dget result "overall_status" = Ok (VStr "passed") /\
    dget result "provider_results" = Ok (VList (map fst (omap id os))) /\ dget result "violations" = Ok (VList []).
Proof.
  intros host a w. apply (gates_v0_passed (H := host) a w); [reflexivity|].
  assert ((main (H := host) a w).1 = Ok 0) as E by (vm_compute; reflexivity). exact E.
Defined.
End GatesV0Run.
