(* ===== verification/PlanV1.v ===== *)
(** * infrastructure/validation/validate_v1_plan.py

    The policy on the plan of the live environment: what may be created or
    changed, what the host, its storage and its network must look like, and
    which ports are open to the world. *)

From Stdlib Require Import Ascii.
From S2P Require Import Prelude PyFloat PyMonad PyValue PyTime PyJson Sha256 PyOs OsFacts FsFacts Fixture.
From S2P Require Import ReadinessCommon GenerateSpec.

Module PlanV1.
Import Evidence.

Definition EXPECTED_COUNTS : list (string * Z) := [
  ("oci_core_instance", 1); ("oci_core_internet_gateway", 1); ("oci_core_nat_gateway", 1); ("oci_core_service_gateway", 1);
  ("oci_core_network_security_group", 2); ("oci_core_network_security_group_security_rule", 16);
  ("oci_core_route_table", 3); ("oci_core_security_list", 1); ("oci_core_subnet", 3); ("oci_core_vcn", 1);
  ("oci_core_volume", 1); ("oci_core_volume_attachment", 1); ("oci_identity_compartment", 1);
  ("oci_identity_dynamic_group", 1); ("oci_identity_policy", 1); ("oci_kms_key", 1); ("oci_kms_vault", 1);
  ("oci_network_load_balancer_network_load_balancer", 1); ("oci_network_load_balancer_backend_set", 2);
  ("oci_network_load_balancer_backend", 2); ("oci_network_load_balancer_listener", 2); ("terraform_data", 7)].
Definition EXPECTED_OUTPUTS : list string := ["oci_live_v1"; "host_bootstrap_sha256"; "replacement_impact"].
Definition FORBIDDEN_TYPES : list string :=
  ["oci_vault_secret"; "oci_database_db_system"; "oci_containerengine_cluster"; "oci_objectstorage_bucket"].
Definition BASTION_SOURCES : list string := ["10.42.20.100/32"; "10.42.20.109/32"].

(** ** Credential material in the text of a plan *)

(** [pattern.search(text)], for a pattern that is tried at each position. *)
Fixpoint search (m : string -> bool) (s : string) : bool :=
  m s || match s with String _ r => search m r | EmptyString => false end.

Definition letter_or_space (c : ascii) : bool :=
  let n := N_of_ascii (Str.lower_char c) in ((97 <=? n) && (n <=? 122) || (n =? 32))%N.
Definition private_key (s : string) : bool :=
  match Readiness.lit_i "-----begin " s with
  | Some (_, r) => let (run, r) := Readiness.span letter_or_space r in
                   Str.endswith "private key" (Str.lower run) && Str.startswith "-----" r
  | None => false
  end.
Definition none_of (stops : list ascii) (c : ascii) : bool := negb (Str.is_space c || inb Ascii.eqb c stops).
Definition database_url (s : string) : bool :=
  match (r ← Readiness.lit_i "postgres" s;
         let r := match Readiness.lit_i "ql" r.2 with Some (_, r') => r' | None => r.2 end in
         r ← Str.strip_prefix "://" r;
         r ← Readiness.non_empty (Readiness.span (none_of [":"; "/"]%char) r);
         r ← Str.strip_prefix ":" r.2;
         r ← Readiness.non_empty (Readiness.span (none_of ["@"; "/"]%char) r);
         Str.strip_prefix "@" r.2) with Some _ => true | None => false end.
Definition quote : string := String dquote "".
Definition not_quote (c : ascii) : bool := negb (Ascii.eqb c dquote).
Definition secret_field (s : string) : bool :=
  match (r ← Str.strip_prefix quote s;
         r ← Readiness.first_some (map (λ p, Readiness.lit_i p r)
               ["password"; "secret_value"; "access_token"; "refresh_token"; "private_key"]);
         r ← Str.strip_prefix quote r.2;
         r ← Str.strip_prefix ":" (Readiness.span Str.is_space r).2;
         Str.strip_prefix quote (Readiness.span Str.is_space r).2) with
  | Some r => negb (Str.startswith "<" r) && negb (Str.startswith "${" r) &&
              (let (run, r) := Readiness.span not_quote r in Nat.leb 8 (String.length run) && Str.startswith quote r)
  | None => false
  end.
Definition FORBIDDEN_TEXT : list (string * (string -> bool)) := [
  ("-----BEGIN [A-Z ]*PRIVATE KEY-----", private_key);
  ("postgres(?:ql)?://[^\s:/]+:[^\s@/]+@", database_url);
  (dq "(?i)'(?:password|secret_value|access_token|refresh_token|private_key)'\s*:\s*'(?!<|\$\{)[^']{8,}'", secret_field)].

(** ** Values *)

Definition fail {A} (message : string) : res A := raise AssertionError message.
(** [if test: fail(message)] *)
Definition refuse (test : res bool) (message : res string) : res unit :=
  b ← test; if b : bool then m ← message; fail m else Ok tt.
Definition refuse_if (test : res bool) (message : string) : res unit := refuse test (Ok message).

(** [v or []], [v[0]] *)
Definition or_list (v : val) : val := if truthy v then v else VList [].
Definition or_dict (v : val) : val := if truthy v then v else VDict [].
Definition index0 (v : val) : res val :=
  match v with
  | VList (x :: _) => Ok x
  | VList [] => raise IndexError "list index out of range"
  | VStr s => if String.eqb s "" then raise IndexError "string index out of range" else Ok (VStr (Str.take 1 s))
  | VDict _ => raise KeyError "0"
  | _ => raise TypeError ("'" +:+ type_name v +:+ "' object is not subscriptable")
  end.
Definition get_or (v : val) (k : string) : res val := x ← dget v k; Ok (or_list x).
Definition len_ne_1 (v : val) : res bool := n ← py_len v; Ok (negb (n =? 1)).
(** [v[0].get(k) != x] *)
Definition first_ne (v : val) (k : string) (x : val) : res bool := f ← index0 v; get_ne f k x.

(** [v.get(k) is not b] *)
Definition not_bool (v : val) (k : string) (b : bool) : res bool :=
  x ← dget v k; Ok (negb match x with VBool c => Bool.eqb b c | _ => false end).
Definition is_not_none (v : val) (k : string) : res bool := x ← dget v k; Ok (negb (is_none x)).

(** A set of hashable values against a set of strings; a set of pairs, as lists of two *)
Definition set_ne (l : list val) (expected : list val) : res bool :=
  s ← Readiness.py_set l;
  Ok (negb (forallb (λ x, py_in x expected) s && forallb (λ e, py_in e s) expected)).
Definition pair_set (l : list (val * val)) : res (list val) :=
  rmap (λ ab, _ ← check_hash ab.1; _ ← check_hash ab.2; Ok (VList [ab.1; ab.2])) l.
Definition strings (l : list string) : list val := map VStr l.

(** [Counter(l)], and its comparison as a dict *)
Definition counted (l : list val) : res (list (val * Z)) :=
  s ← Readiness.py_set l; Ok (map (λ v, (v, Z.of_nat (Readiness.count_eq v l))) s).
Definition count_of (k : val) (expected : list (string * Z)) : option Z :=
  match k with VStr s => Dict.lookup s expected | _ => None end.
Definition counts_match (counts : list (val * Z)) (expected : list (string * Z)) : bool :=
  Nat.eqb (length counts) (length expected) && forallb (λ kn, bool_decide (count_of kn.1 expected = Some kn.2)) counts.
Definition counts_text (l : list (val * Z)) : res string :=
  s ← py_sorted_by (λ kn, VList [kn.1; VInt kn.2]) l;
  Ok ("{" +:+ Str.join ", " (map (λ kn, repr kn.1 +:+ ": " +:+ Str.of_Z kn.2) s) +:+ "}").
Definition expected_text (l : list (string * Z)) : res string := counts_text (map (λ kn, (VStr kn.1, kn.2)) l).

(** ** The resources of a plan *)

(** The resources of a module and of its children, in order *)
Fixpoint module_resources (m : val) : res (list val) :=
  own ← dget_or m "resources" (VList []); own ← py_iter own;
  below ← match m with
          | VDict d =>
              (fix find (d : list (string * val)) : res (list val) :=
                 match d with
                 | [] => Ok []
                 | (k, x) :: r =>
                     if String.eqb k "child_modules" then
                       match x with
                       | VList l =>
                           (fix go (l : list val) : res (list val) :=
                              match l with [] => Ok [] | c :: l' => a ← module_resources c; b ← go l'; Ok (a ++ b) end) l
                       | VDict [] | VStr EmptyString => Ok []
                       | VDict _ | VStr _ => no_attr (VStr "") "get"
                       | _ => raise TypeError ("'" +:+ type_name x +:+ "' object is not iterable")
                       end
                     else find r
                 end) d
          | _ => Ok []
          end;
  Ok (own ++ below).
Definition get_dict (v : val) (k : string) : res val := dget_or v k (VDict []).
Definition all_resources (plan : val) : res (list val) :=
  p ← get_dict plan "planned_values"; root ← get_dict p "root_module"; module_resources root.

Definition resources_of (resources : list val) (resource_type : string) : res (list val) :=
  rfilter (λ item, get_eq item "type" (VStr resource_type)) resources.
Definition the_one (matches : list val) (message : string) : res val :=
  match matches with
  | [m] => Ok m
  | l => fail (message +:+ ", got " +:+ Str.of_Z (Z.of_nat (length l)))
  end.
Definition one (resources : list val) (resource_type : string) : res val :=
  matches ← resources_of resources resource_type; the_one matches ("expected one " +:+ resource_type).
Definition by_address (resources : list val) (suffix : string) : res val :=
  matches ← rfilter (λ item, a ← dget_or item "address" (VStr ""); Ok (Str.endswith suffix (py_str a))) resources;
  the_one matches ("expected one planned resource ending " +:+ repr_str suffix).
Definition one_values (resources : list val) (resource_type : string) : res val :=
  r ← one resources resource_type; getitem r "values".
Definition values_at (resources : list val) (suffix : string) : res val :=
  r ← by_address resources suffix; getitem r "values".

Definition expected_counts (allow_reserved_ip : bool) : list (string * Z) :=
  if allow_reserved_ip then Dict.set "oci_core_public_ip" 1 EXPECTED_COUNTS else EXPECTED_COUNTS.

(** ** The changes *)

Definition pair_text (a b : val) : string := "(" +:+ repr a +:+ ", " +:+ repr b +:+ ")".
Definition listed (l : list string) : string := "[" +:+ Str.join ", " l +:+ "]".
Definition counts_message (what : string) (counts : list (val * Z)) (expected : list (string * Z)) : res string :=
  a ← counts_text counts; e ← expected_text expected;
  Ok (what +:+ ": actual=" +:+ a +:+ " expected=" +:+ e).

Definition actions_of (item : val) : res val := c ← get_dict item "change"; dget c "actions".
Definition create_only (changes : list val) : res unit :=
  invalid ← rfilter (λ item, a ← actions_of item; Ok (py_ne a (VList [VStr "create"]))) changes;
  shown ← rmap (λ item, address ← dget item "address"; a ← actions_of item; Ok (pair_text address a)) invalid;
  refuse_if (Ok (bool_decide (shown <> []))) ("initial V1 plan must contain create-only actions: " +:+ listed shown).

Definition allowed_actions : list val := map (λ a, VList [VStr a]) ["no-op"; "create"; "update"].
(** What the item adds to the invalid ones. *)
Definition adopt_step (item : val) : res (list string) :=
  a ← actions_of item; actions ← py_iter (or_list a); _ ← rmap check_hash actions;
  if py_in (VList actions) allowed_actions then Ok []
  else address ← dget item "address"; Ok [pair_text address (VList actions)].
Definition adopt_only (changes : list val) : res unit :=
  invalid ← rmap adopt_step changes;
  refuse_if (Ok (bool_decide (concat invalid <> [])))
    ("adoption plan forbids delete/replacement or unknown actions: " +:+ listed (concat invalid)).

Definition managed_changes (plan : val) : res (list val) :=
  l ← dget_or plan "resource_changes" (VList []); l ← py_iter l;
  rfilter (λ item, get_eq item "mode" (VStr "managed")) l.
Definition type_counts (items : list val) : res (list (val * Z)) :=
  l ← rmap (λ item, dget item "type") items; counted l.
Definition validate_actions (plan : val) (allow_reserved_ip : bool) (plan_mode : string) : res unit :=
  changes ← managed_changes plan; counts ← type_counts changes;
  let forbidden := sort_strings (List.filter (λ t, py_in (VStr t) (map fst counts)) FORBIDDEN_TYPES) in
  _ ← refuse_if (Ok (bool_decide (forbidden <> []))) ("forbidden paid/secret resource types in plan: " +:+ repr_strs forbidden);
  if String.eqb plan_mode "initial-create" then
    _ ← create_only changes;
    let expected := expected_counts allow_reserved_ip in
    refuse (Ok (negb (counts_match counts expected))) (counts_message "planned resource counts changed" counts expected)
  else
    _ ← refuse_if (Ok (negb (String.eqb plan_mode "adopt-existing"))) ("unsupported plan mode: " +:+ plan_mode);
    adopt_only changes.

Definition validate_planned_resource_counts (resources : list val) (allow_reserved_ip : bool) : res unit :=
  managed ← rfilter (λ item, m ← dget_or item "mode" (VStr "managed"); Ok (py_eq m (VStr "managed"))) resources;
  counts ← type_counts managed;
  let expected := expected_counts allow_reserved_ip in
  refuse (Ok (negb (counts_match counts expected))) (counts_message "planned resource graph changed" counts expected).

(** ** The host and its storage *)

Definition profiles : list (string * (string * Z)) :=
  [("a1-target", ("VM.Standard.A1.Flex", 50)); ("e5-temporary", ("VM.Standard.E5.Flex", 200))].
Definition profile_of {A} (capacity_profile : string) (l : list (string * A)) : res A :=
  match Dict.lookup capacity_profile l with Some e => Ok e | None => raise KeyError (repr_str capacity_profile) end.

Definition public_vnic (values vnic : val) : res bool :=
  ror (len_ne_1 vnic)
    (ror (f ← index0 vnic; ip ← dget f "assign_public_ip"; Ok (negb (inb String.eqb (Str.lower (py_str ip)) ["false"; "0"])))
         (ip ← dget values "public_ip"; b ← in_set ip [VNone; VStr ""]; Ok (negb b))).
Definition plugins_of (agent : val) : res (list val) :=
  blocks ← py_iter agent;
  l ← rmap (λ block, p ← get_or block "plugins_config"; py_iter p) blocks; Ok (concat l).
Definition enabled_plugins (plugins : list val) : res (list val) :=
  on ← rfilter (λ item, get_eq item "desired_state" (VStr "ENABLED")) plugins; rmap (λ item, dget item "name") on.

Definition validate_instance (resources : list val) (capacity_profile : string) : res unit :=
  expected ← profile_of capacity_profile profiles;
  let '(shape_name, boot) := expected in
  values ← values_at resources "oci_core_instance.host";
  _ ← refuse_if (get_ne values "shape" (VStr shape_name))
        ("primary compute shape must be " +:+ shape_name +:+ " for " +:+ capacity_profile);
  shape ← get_or values "shape_config";
  _ ← refuse_if (ror (len_ne_1 shape) (ror (first_ne shape "ocpus" (VInt 4)) (first_ne shape "memory_in_gbs" (VInt 24))))
        ("primary compute capacity must be 4 OCPU/24 GiB, got " +:+ py_str shape);
  source ← get_or values "source_details";
  _ ← refuse_if (if truthy source
                 then f ← index0 source; s ← dget_or f "boot_volume_size_in_gbs" (VInt 0); n ← py_int s; Ok (negb (n =? boot))
                 else Ok false)
        ("primary boot volume must be " +:+ Str.of_Z boot +:+ " GiB for " +:+ capacity_profile);
  vnic ← get_or values "create_vnic_details";
  _ ← refuse_if (public_vnic values vnic) "retained primary must remain without a public IP";
  agent ← get_or values "agent_config"; plugins ← plugins_of agent; enabled ← enabled_plugins plugins;
  refuse_if (set_ne enabled (strings ["Compute Instance Run Command"; "Compute Instance Monitoring"; "Bastion"]))
    "Run Command, Monitoring and Bastion plugins must remain explicitly enabled on the retained primary".

(** [re.fullmatch(r"0|[1-9][0-9]*", s)] *)
Definition decimal (s : string) : bool :=
  match s with
  | String c r => if Ascii.eqb c "0" then String.eqb r "" else Str.is_digit c && Str.all_chars Str.is_digit r
  | EmptyString => false
  end.
Definition provider_decimal_integer (value : val) (label : string) : res Z :=
  let wrong := fail (label +:+ " must be a non-negative decimal integer") in
  match value with
  | VInt z => if 0 <=? z then Ok z else wrong
  | VStr s => if decimal s then py_int (VStr s) else wrong
  | _ => wrong
  end.

Definition validate_storage (resources : list val) : res unit :=
  volume ← one_values resources "oci_core_volume";
  s ← dget volume "size_in_gbs"; size_in_gbs ← provider_decimal_integer s "data volume size_in_gbs";
  v ← dget volume "vpus_per_gb"; vpus_per_gb ← provider_decimal_integer v "data volume vpus_per_gb";
  _ ← refuse_if (Ok (negb (size_in_gbs =? 130) || negb (vpus_per_gb =? 0)))
        "preserved block volume must be 130 GiB at the declared lower-cost performance tier";
  vault ← one_values resources "oci_kms_vault";
  key ← one_values resources "oci_kms_key";
  refuse_if (ror (get_ne vault "vault_type" (VStr "DEFAULT")) (get_ne key "protection_mode" (VStr "SOFTWARE")))
    "V1 must use the free DEFAULT Vault/software-protected key profile".

(** ** The network *)

Definition port_range (values : val) (kind : string) : res (option (Z * Z)) :=
  options ← get_or values kind;
  many ← len_ne_1 options;
  if many : bool then Ok None else
  f ← index0 options; ranges ← get_or f "destination_port_range";
  many ← len_ne_1 ranges;
  if many : bool then Ok None else
  r ← index0 ranges; lo ← getitem r "min"; lo ← py_int lo;
  r ← index0 ranges; hi ← getitem r "max"; hi ← py_int hi;
  Ok (Some (lo, hi)).

Definition validate_security_list (resources : list val) : res unit :=
  values ← one_values resources "oci_core_security_list";
  _ ← refuse_if (i ← dget values "ingress_security_rules"; Ok (negb (py_in i [VNone; VList []])))
        "subnet Security List must contain no ingress rules";
  egress ← get_or values "egress_security_rules";
  _ ← refuse_if (len_ne_1 egress) "subnet Security List must contain exactly one stateful egress rule";
  rule ← index0 egress;
  refuse_if (ror (get_ne rule "destination" (VStr "0.0.0.0/0")) (ror (get_ne rule "destination_type" (VStr "CIDR_BLOCK"))
              (ror (get_ne rule "protocol" (VStr "all")) (not_bool rule "stateless" false))))
    "subnet Security List egress baseline does not match technical acceptance".

Definition validate_nlb_nsg_cardinality (values : val) : res unit :=
  ids ← dget values "network_security_group_ids";
  refuse_if (Ok match ids with VNone => false | VList [_] => false | _ => true end)
    "edge NLB must attach exactly one dedicated NSG".

Definition default_route : val := VList [VStr "0.0.0.0/0"; VStr "CIDR_BLOCK"].
Definition destinations (route : val) : res (list val) :=
  l ← py_iter route;
  l ← rmap (λ r, d ← dget r "destination"; t ← dget r "destination_type"; Ok (d, t)) l; pair_set l.
Definition to_service (pair : val) : bool := match pair with VList [_; t] => py_eq t (VStr "SERVICE_CIDR_BLOCK") | _ => false end.
Definition nat_only_ne (l : list val) : bool := negb (py_in default_route l) || negb (existsb to_service l).
Definition edge_only_ne (l : list val) : bool :=
  negb (forallb (λ p, py_eq p default_route) l && py_in default_route l).

Definition validate_gateways (resources : list val) : res unit :=
  igw ← one_values resources "oci_core_internet_gateway";
  nat ← one_values resources "oci_core_nat_gateway";
  service ← one_values resources "oci_core_service_gateway";
  _ ← refuse_if (not_bool igw "enabled" true) "separated public-edge Internet Gateway must be enabled";
  _ ← refuse_if (x ← dget nat "block_traffic"; Ok (is_true x)) "private-host NAT Gateway must not block traffic";
  refuse_if (s ← get_or service "services"; len_ne_1 s)
    "Service Gateway must target exactly one regional all-services entry".
Definition validate_routes (resources : list val) : res unit :=
  legacy ← values_at resources "oci_core_route_table.edge"; legacy_route ← get_or legacy "route_rules";
  host ← values_at resources "oci_core_route_table.private_host"; host_route ← get_or host "route_rules";
  edge ← values_at resources "oci_core_route_table.public_edge"; edge_route ← get_or edge "route_rules";
  host_destinations ← destinations host_route;
  _ ← refuse_if (Ok (nat_only_ne host_destinations)) "host route table must contain NAT default and Service Gateway route";
  legacy_destinations ← destinations legacy_route;
  _ ← refuse_if (Ok (nat_only_ne legacy_destinations)) "retained legacy route table must remain NAT-only plus Service Gateway";
  edge_destinations ← destinations edge_route;
  refuse_if (Ok (edge_only_ne edge_destinations))
    "public NLB edge route table must contain only an Internet Gateway default route".
Definition validate_subnets (resources : list val) : res unit :=
  legacy ← values_at resources "oci_core_subnet.edge";
  host ← values_at resources "oci_core_subnet.private_host";
  edge ← values_at resources "oci_core_subnet.public_edge";
  _ ← refuse_if (not_bool host "prohibit_public_ip_on_vnic" true) "host subnet must prohibit public IP assignment";
  _ ← refuse_if (not_bool legacy "prohibit_public_ip_on_vnic" false)
        "retained legacy subnet identity must match its immutable public-IP-capable setting";
  refuse_if (not_bool edge "prohibit_public_ip_on_vnic" false) "public NLB edge subnet must permit a public edge address".
Definition validate_network (resources : list val) : res unit :=
  _ ← validate_gateways resources;
  _ ← validate_routes resources;
  _ ← validate_subnets resources;
  nlb ← one_values resources "oci_network_load_balancer_network_load_balancer";
  _ ← refuse_if (ror (not_bool nlb "is_private" false) (not_bool nlb "is_preserve_source_destination" false))
        "edge NLB must be public and use full NAT rather than exposing source addresses to the single backend";
  validate_nlb_nsg_cardinality nlb.

(** ** The open ports *)

Record ingress := Ingress { public_tcp : list Z; bastion : list string; backend_ports : list Z }.
Definition web_port (p : Z) : bool := (p =? 80) || (p =? 443).
Definition sort_Z (l : list Z) : list Z := default l (sort_by (λ a b, Some (a <? b)) l).
Definition web_set_ne (l : list Z) : bool := negb (forallb web_port l && inb Z.eqb 80 l && inb Z.eqb 443 l).

(** The body of the loop for a rule that opens one port *)
Definition open_port (address : string) (values : val) (port : Z) (s : ingress) : res ingress :=
  source ← dget values "source"; source_type ← dget values "source_type";
  let world := py_eq source (VStr "0.0.0.0/0") in
  _ ← refuse_if (Ok (world && negb (Str.contains "public_edge_ingress" address)))
        ("world TCP ingress is allowed outside the NLB edge: " +:+ address);
  _ ← (if port =? 22 then
         refuse_if (ror (Ok (py_ne source_type (VStr "CIDR_BLOCK"))) (b ← in_set source (strings BASTION_SOURCES); Ok (negb b)))
           ("SSH ingress must be one of the exact OCI Bastion /32 addresses: " +:+ address)
       else Ok tt);
  let host_edge := Str.contains "host_edge_ingress" address in
  _ ← refuse_if (Ok (host_edge && (py_ne source_type (VStr "NETWORK_SECURITY_GROUP") || negb (web_port port))))
        ("host edge ingress must be NSG-to-NSG on 80/443: " +:+ address);
  Ok (Ingress (if world then public_tcp s ++ [port] else public_tcp s)
        (if port =? 22 then bastion s ++ [py_str source] else bastion s)
        (if host_edge then backend_ports s ++ [port] else backend_ports s)).
Definition ingress_step (s : ingress) (resource : val) : res ingress :=
  a ← dget_or resource "address" (VStr ""); values ← get_dict resource "values";
  skip ← ror (get_ne values "direction" (VStr "INGRESS")) (get_ne values "protocol" (VStr "6"));
  if skip : bool then Ok s else
  ports ← port_range values "tcp_options";
  match ports with
  | Some (lo, hi) => if lo =? hi then open_port (py_str a) values lo s else Ok s
  | None => Ok s
  end.
Definition web_ports_text (l : list Z) : string :=
  listed (map (λ p, "(" +:+ Str.of_Z p +:+ ", " +:+ Str.of_Z p +:+ ")") (sort_Z l)).
Definition validate_ingress (resources : list val) : res unit :=
  rules ← resources_of resources "oci_core_network_security_group_security_rule";
  s ← rfold ingress_step (Ingress [] [] []) rules;
  _ ← refuse_if (Ok (negb (bool_decide (sort_Z (public_tcp s) = [80; 443]))))
        ("public TCP ingress must be exactly NLB 80/443, got " +:+ web_ports_text (public_tcp s));
  _ ← refuse_if (set_ne (strings (bastion s)) (strings BASTION_SOURCES))
        ("SSH ingress must contain exactly the two accepted OCI Bastion sources, got "
         +:+ repr_strs (sort_strings (dedup_by String.eqb [] (bastion s))));
  refuse_if (Ok (web_set_ne (backend_ports s)))
    ("host must accept exactly NLB backend ports 80/443, got "
     +:+ listed (map Str.of_Z (sort_Z (dedup_by Z.eqb [] (backend_ports s))))).

(** ** The load balancer *)

Definition get_int (v : val) (k : string) : res Z := x ← dget_or v k (VInt 0); py_int x.
Definition check_backend_set (item : val) : res unit :=
  values ← getitem item "values";
  _ ← refuse_if (ror (get_ne values "policy" (VStr "FIVE_TUPLE"))
                   (ror (not_bool values "is_fail_open" false) (not_bool values "is_preserve_source" false)))
        "NLB backend sets must use FIVE_TUPLE, fail closed, and not preserve source";
  health ← get_or values "health_checker";
  refuse_if (ror (len_ne_1 health) (ror (first_ne health "protocol" (VStr "TCP"))
               (f ← index0 health; p ← get_int f "port"; Ok (negb (web_port p)))))
    "NLB backend health checks must be TCP on the matching 80/443 port".
(** The port of a backend, and whether it is offline *)
Definition backend_of (item : val) : res (Z * bool) :=
  values ← getitem item "values"; port ← get_int values "port";
  _ ← refuse_if (ror (Ok (negb (web_port port))) (ror (not_bool values "is_backup" false) (ror (not_bool values "is_drain" false)
                   (x ← dget values "is_offline"; Ok match x with VBool _ => false | _ => true end))))
        "NLB backends must be explicit fail-closed primary host ports 80/443";
  off ← getitem values "is_offline"; Ok (port, is_true off).
Definition listener_of (item : val) : res Z :=
  values ← getitem item "values"; port ← get_int values "port";
  _ ← refuse_if (ror (get_ne values "protocol" (VStr "TCP")) (ror (Ok (negb (web_port port)))
                   (t ← get_int values "tcp_idle_timeout"; Ok (negb (t =? 1800)))))
        "NLB listeners must be TCP 80/443 with the OCI-supported 1800-second WebSocket idle timeout";
  Ok port.
Definition validate_nlb (resources : list val) : res bool :=
  sets ← resources_of resources "oci_network_load_balancer_backend_set"; _ ← rmap check_backend_set sets;
  backends ← resources_of resources "oci_network_load_balancer_backend"; backends ← rmap backend_of backends;
  listeners ← resources_of resources "oci_network_load_balancer_listener"; listeners ← rmap listener_of listeners;
  _ ← refuse_if (Ok (web_set_ne (map fst backends) || web_set_ne listeners))
        "NLB must contain exactly backend and listener ports 80/443";
  match dedup_by Bool.eqb [] (map snd backends) with
  | [offline] => Ok (negb offline)
  | _ => fail "NLB HTTP and HTTPS backends must transition online/offline together"
  end.

(** ** The references of the configuration *)

Fixpoint get_path (v : val) (ks : list string) : res val :=
  match ks with [] => Ok v | k :: r => x ← get_dict v k; get_path x r end.
Definition configured_of (module : val) : res (list (val * val)) :=
  l ← dget_or module "resources" (VList []); l ← py_iter l;
  rmap (λ item, a ← dget item "address"; _ ← check_hash a; Ok (a, item)) l.
(** [configured.get(address) or {}]: the last of the items at an address *)
Definition configured_at (configured : list (val * val)) (address : string) : val :=
  match List.filter (λ kx, py_eq kx.1 (VStr address)) (List.rev configured) with kx :: _ => or_dict kx.2 | [] => VDict [] end.
Definition without_id (item : val) : res string :=
  match item with VStr s => Ok (Str.removesuffix ".id" s) | _ => no_attr item "endswith" end.
Definition references (configured : list (val * val)) (address expression : string) : res (list string) :=
  let resource := configured_at configured address in
  e ← get_dict resource "expressions"; e ← dget e expression; raw ← get_or (or_dict e) "references";
  raw ← py_iter raw; rmap without_id raw.
Definition refs_ne (l expected : list string) : bool :=
  negb (forallb (λ s, inb String.eqb s expected) l && forallb (λ s, inb String.eqb s l) expected).

Definition primary : string := "oci_core_instance.host".
Definition fallback : string := "var.retained_fallback_instance_ocid".
Definition edge_nsg : string := "oci_core_network_security_group.public_edge".
Definition validate_private_host_references (plan : val) : res unit :=
  module ← get_path plan ["configuration"; "root_module"; "module_calls"; "v1_live"; "module"];
  configured ← configured_of module;
  let refuse_refs address expression expected message :=
    refuse_if (r ← references configured address expression; Ok (refs_ne r expected)) message in
  _ ← refuse_refs "oci_core_volume_attachment.data" "instance_id" [primary]
        "preserved data volume must attach only to the retained private primary";
  _ ← refuse_refs "oci_network_load_balancer_backend.host" "target_id" [primary]
        "NLB backend must target the retained private primary";
  _ ← refuse_refs "oci_network_load_balancer_network_load_balancer.edge" "network_security_group_ids" [edge_nsg]
        "edge NLB must reference exactly its dedicated public-edge NSG";
  refuse_refs "oci_identity_dynamic_group.host" "matching_rule" [primary; fallback]
    "instance-principal dynamic group must bind exactly the retained primary and stopped recovery fallback".

Definition management_step (resource : val) : res unit :=
  values ← get_dict resource "values";
  refuse_if (rand (get_eq values "direction" (VStr "EGRESS")) (rand (get_eq values "protocol" (VStr "17"))
               (d ← dget values "destination"; b ← in_set d [VStr "169.254.169.254/32"; VNone]; Ok (negb b))))
    "superseded external WireGuard UDP egress remains in the plan".
Definition validate_management (resources : list val) : res unit :=
  rules ← resources_of resources "oci_core_network_security_group_security_rule";
  _ ← rmap management_step rules; Ok tt.

(** ** The outputs *)

Record expected_capacity := ExpectedCapacity { x_shape : string; architecture : string; target_triple : string;
                                               cost : string; temporary : bool }.
Definition capacity_profiles : list (string * expected_capacity) := [
  ("a1-target", ExpectedCapacity "VM.Standard.A1.Flex" "aarch64" "aarch64-unknown-linux-gnu" "free-trial-only" false);
  ("e5-temporary", ExpectedCapacity "VM.Standard.E5.Flex" "x86_64" "x86_64-unknown-linux-gnu" "paid-approved" true)].
Definition field_ne (v : val) (kx : string * val) (message : val -> string) : res unit :=
  x ← dget v kx.1; refuse_if (Ok (py_ne x kx.2)) (message x).

Definition validate_capacity_output (capacity : val) (capacity_profile : string) : res unit :=
  expected ← profile_of capacity_profile capacity_profiles;
  _ ← rmap (λ kx, field_ne capacity kx (λ x, "capacity " +:+ kx.1 +:+ " does not match " +:+ capacity_profile +:+ ": " +:+ repr x))
        [("shape", VStr (x_shape expected)); ("architecture", VStr (architecture expected));
         ("target_triple", VStr (target_triple expected)); ("temporary", VBool (temporary expected))];
  _ ← refuse_if (ror (get_ne capacity "profile" (VStr capacity_profile)) (get_ne capacity "cost_classification" (VStr (cost expected))))
        "capacity profile or cost classification mismatch";
  if String.eqb capacity_profile "e5-temporary" then
    refuse_if (ror (e ← dget capacity "expires_at"; Ok (negb (truthy e))) (get_ne capacity "migration_target_profile" (VStr "a1-target")))
      "temporary E5 output must carry expiry and A1 migration target"
  else
    refuse_if (ror (is_not_none capacity "expires_at") (is_not_none capacity "migration_target_profile"))
      "A1 target output must not carry temporary migration metadata".

Definition required_network : list (string * val) := [
  ("host_public_ip_enabled", VBool false); ("outbound_internet_path", VStr "nat-gateway");
  ("oracle_services_path", VStr "service-gateway"); ("ssh_default_enabled", VBool true)].
Definition validate_network_output (network : val) (public_backend_enabled : bool) : res unit :=
  _ ← rmap (λ kx, field_ne network kx (λ _, "network output " +:+ kx.1 +:+ " does not match private-host topology")) required_network;
  _ ← refuse_if (not_bool network "public_backend_enabled" public_backend_enabled)
        "network output public cutover marker does not match NLB backend state";
  _ ← refuse_if (c ← get_or network "ssh_source_cidrs"; l ← py_iter c; set_ne l (strings BASTION_SOURCES))
        "network output does not bind the two accepted OCI Bastion sources";
  management ← get_dict network "management_access";
  refuse_if (ror (get_ne management "primary" (VStr "oci-bastion-private-ssh"))
              (ror (get_ne management "secondary" (VStr "oci-run-command")) (not_bool management "public_ssh" false)))
    "network output management access does not match accepted Bastion/Run Command boundary".

Definition validate_hosts_output (contract : val) : res unit :=
  host ← get_dict contract "host";
  _ ← refuse_if (ror (is_not_none host "public_ipv4") (get_ne host "public_ip_mode" (VStr "none")))
        "primary host output must not expose a public IP";
  recovery ← get_dict contract "recovery";
  _ ← refuse_if (ror (get_ne recovery "public_ip_mode" (VStr "none")) (get_ne recovery "fallback_state" (VStr "STOPPED")))
        "retained recovery fallback output must be explicit, non-public and STOPPED";
  retained ← get_dict contract "legacy_retained";
  refuse_if (ror (not_bool retained "traffic_eligible" false) (not_bool retained "deletion_allowed" false))
    "legacy host and subnet must remain retained and ineligible for NLB traffic".
Definition validate_mutation_output (contract : val) (mode capacity_profile : string) : res unit :=
  let apply := String.eqb mode "approved-apply" in
  _ ← refuse_if (Ok (apply && negb (String.eqb capacity_profile "e5-temporary")))
        "approved apply is enabled only for the temporary E5 bridge in this source revision";
  mutation ← get_dict contract "mutation";
  _ ← refuse_if (not_bool mutation "applied" apply) ("plan mutation marker does not match mode=" +:+ mode);
  _ ← refuse_if (rand (Ok apply) (x ← dget mutation "approval_reference"; Ok (negb (truthy x))))
        "approved apply plan must carry the explicit approval reference";
  refuse_if (rand (Ok (String.eqb mode "plan")) (is_not_none mutation "approval_reference"))
    "read-only plan must not claim an approval reference".

Definition validate_contract (contract : val) (mode capacity_profile : string) (public_backend_enabled : bool) : res unit :=
  _ ← refuse_if (ror (get_ne contract "schema_version" (VStr "liqi.infrastructure.oci-live/v1"))
                   (ror (get_ne contract "classification" (VStr "production"))
                        (get_ne contract "infrastructure_output_version" (VStr "1.4.0"))))
        "unexpected OCI output schema/classification/version";
  capacity ← get_dict contract "capacity"; _ ← validate_capacity_output capacity capacity_profile;
  network ← get_dict contract "network"; _ ← validate_network_output network public_backend_enabled;
  _ ← validate_hosts_output contract;
  validate_mutation_output contract mode capacity_profile.
Definition validate_outputs (plan : val) (mode capacity_profile : string) (public_backend_enabled : bool) : res unit :=
  outputs ← get_path plan ["planned_values"; "outputs"];
  _ ← refuse (l ← py_iter outputs; set_ne l (strings EXPECTED_OUTPUTS))
        (l ← py_iter outputs; s ← py_sorted l; Ok ("planned outputs changed: " +:+ repr (VList s)));
  live ← getitem outputs "oci_live_v1"; contract ← dget live "value";
  if is_dict contract then validate_contract contract mode capacity_profile public_backend_enabled else Ok tt.

(** ** The program *)

Record args := Args { plan_json : path; mode : string; allow_reserved_ip : bool; capacity_profile : string;
                      plan_mode : string; a_output : option path }.

Definition check_text (rendered : string) : res unit :=
  _ ← rmap (λ p, refuse_if (Ok (search p.2 rendered)) ("plan contains forbidden credential material matching " +:+ p.1)) FORBIDDEN_TEXT;
  Ok tt.
(** The checks in order, and whether the public backends are on *)
Definition validate (a : args) (plan : val) : res bool :=
  _ ← check_text (Json.dumps Json.plain_sorted plan);
  _ ← validate_actions plan (allow_reserved_ip a) (plan_mode a);
  resources ← all_resources plan;
  _ ← validate_planned_resource_counts resources (allow_reserved_ip a);
  _ ← validate_instance resources (capacity_profile a);
  _ ← validate_storage resources;
  _ ← validate_security_list resources;
  _ ← validate_network resources;
  _ ← validate_ingress resources;
  public_backend_enabled ← validate_nlb resources;
  _ ← validate_private_host_references plan;
  _ ← validate_management resources;
  _ ← validate_outputs plan (mode a) (capacity_profile a) public_backend_enabled;
  Ok public_backend_enabled.

Definition result_doc (a : args) (plan_sha256 : string) (public_backend_enabled : bool) : val := VDict [
  ("schema_version", VStr "liqi.infrastructure.plan-validation-result/v1"); ("status", VStr "passed");
  ("mode", VStr (mode a)); ("plan_mode", VStr (plan_mode a)); ("capacity_profile", VStr (capacity_profile a));
  ("plan_sha256", VStr plan_sha256); ("public_tcp_ports", VList [VInt 80; VInt 443]);
  ("public_backend_enabled", VBool public_backend_enabled); ("oci_mutation_performed", VBool false)].

Section Env.
Context `{Platform}.

Definition load (p : path) : IO val :=
  d ← load_json p; if is_dict d then mret d else lift (fail "plan JSON root must be an object").

Definition caught : list exn_class := [AssertionError; ValueError; KeyError; TypeError; OSError; JSONDecodeError].
Definition main (a : args) : IO Z :=
  r ← catch (plan ← load (plan_json a); b ← lift (validate a plan); mret (Some b))
        (on_exn caught (λ e, print_err ("ERROR v1-plan: " +:+ exn_str e) ;; mret None));
  match r with
  | None => mret 1
  | Some public_backend_enabled =>
      d ← sha256_file (plan_json a);
      let result := result_doc a d public_backend_enabled in
      match a_output a with
      | Some p => write_document p result ;; print (Json.dumps Json.pretty result)
      | None => print (Json.dumps Json.pretty result)
      end ;;
      mret 0
  end.
End Env.
End PlanV1.
