(* ===== verification/PlanProperties.v ===== *)
(** * What an accepted plan is

    The plans the policy of the live environment lets through: their actions and
    their resources, the host, the storage, the network and the open ports. *)

From Stdlib Require Import Ascii.
From S2P Require Import Prelude PyFloat PyMonad PyValue PyTime PyJson Sha256 PyOs OsFacts FsFacts Fixture.
From S2P Require Import ReadinessCommon GenerateSpec PlanV1.

Module PlanV1Spec.
Import Evidence PlanV1.

Lemma refuse_if_Ok test m u : refuse_if test m = Ok u -> test = Ok false.
Proof. unfold refuse_if, refuse. intros E. apply bind_Ok in E as ([] & -> & E); [done|done]. Qed.
Lemma refuse_Ok test m u : refuse test m = Ok u -> test = Ok false.
Proof. unfold refuse. intros E. apply bind_Ok in E as ([] & -> & E); [|done]. by apply bind_Ok in E as (? & _ & E). Qed.
Lemma negated b : Ok (A:=bool) (negb b) = Ok false -> b = true.
Proof. by intros [= E%negb_false_iff]. Qed.
Lemma get_eq_str v k s : get_eq v k (VStr s) = Ok true <-> dget v k = Ok (VStr s).
Proof.
  unfold get_eq. rewrite bind_Ok. split.
  - intros (y & Hy & E). injection E as E. by apply py_eq_str_r in E as ->.
  - intros E. exists (VStr s). split; [done|]. simpl. by rewrite String.eqb_refl.
Qed.
Lemma not_bool_false v k b : not_bool v k b = Ok false -> dget v k = Ok (VBool b).
Proof.
  unfold not_bool. intros E. apply bind_Ok in E as (x & -> & E). apply negated in E.
  destruct x as [|c| | | | |]; try done. by apply eqb_prop in E as ->.
Qed.
Lemma is_not_none_false v k : is_not_none v k = Ok false -> dget v k = Ok VNone.
Proof. unfold is_not_none. intros E. apply bind_Ok in E as (x & -> & E). apply negated in E. by destruct x. Qed.

Lemma rfilter_in {A} (f : A -> res bool) l r : rfilter f l = Ok r -> forall x, x ∈ r <-> x ∈ l /\ f x = Ok true.
Proof.
  revert r. induction l as [|y l IH]; intros r E x; simpl in E.
  - injection E as <-. split; [by intros ?%not_elem_of_nil|by intros [?%not_elem_of_nil _]].
  - apply bind_Ok in E as (b & Eb & E). apply bind_Ok in E as (ys & Ey & E). injection E as <-.
    rewrite (elem_of_cons l). destruct b; rewrite ?elem_of_cons; split.
    + intros [->|Hx]; [by split; [left|]|]. apply (IH _ Ey) in Hx as [Hx Hf]. split; [by right|done].
    + intros [[->|Hx] Hf]; [by left|]. right. by apply (IH _ Ey).
    + intros Hx. apply (IH _ Ey) in Hx as [Hx Hf]. split; [by right|done].
    + intros [[->|Hx] Hf]; [by rewrite Eb in Hf|]. by apply (IH _ Ey).
Qed.
Lemma rmap_In {A B} (f : A -> res B) l r : rmap f l = Ok r -> forall x, x ∈ l -> exists y, f x = Ok y /\ y ∈ r.
Proof.
  intros E%rmap_Ok x Hx. apply list_elem_of_lookup in Hx as [i Hi].
  destruct (Forall2_lookup_l _ _ _ _ _ E Hi) as (y & Hy & Hf). exists y. split; [done|]. by eapply list_elem_of_lookup_2.
Qed.
Lemma refused_nil (l : list string) m u : refuse_if (Ok (bool_decide (l <> []))) m = Ok u -> l = [].
Proof. intros E%refuse_if_Ok. injection E as E%bool_decide_eq_false_1. by destruct l; [|destruct E]. Qed.

(** *** Counts *)

Lemma dedup_NoDup {A} (eqb : A -> A -> bool) l : forall seen, (forall x, x ∈ dedup_by eqb seen l -> eqb x x = true) ->
  NoDup (dedup_by eqb seen l) /\ forall x, x ∈ seen -> eqb x x = true -> x ∉ dedup_by eqb seen l.
Proof.
  induction l as [|y l IH]; intros seen Hr; simpl in *; [split; [constructor|by intros ? _ _ ?%not_elem_of_nil]|].
  destruct (inb eqb y seen) eqn:Ey; [by apply IH|].
  destruct (IH (y :: seen)) as [Hn Hs]; [intros x Hx; apply Hr; by right|]. split.
  - constructor; [|done]. apply Hs; [by left|]. apply Hr. by left.
  - intros x Hx Hxx [->|Hin]%elem_of_cons.
    + apply not_true_iff_false in Ey. apply Ey. unfold inb. apply existsb_exists. exists y.
      split; [by apply list_elem_of_In|done].
    + eapply Hs; [|done|done]. by right.
Qed.

Lemma counts_match_spec l counts expected : counted l = Ok counts -> counts_match counts expected = true ->
  NoDup (map fst expected) ->
  (forall v, v ∈ l -> exists t, v = VStr t /\ t ∈ map fst expected) /\
  (forall t n, Dict.lookup t expected = Some n -> Z.of_nat (Readiness.count_eq (VStr t) l) = n).
Proof.
  intros E. unfold counted in E. apply bind_Ok in E as (s & ->%Readiness.py_set_Ok & E). injection E as <-.
  set (s := dedup_by _ [] l). unfold counts_match. rewrite length_map.
  intros [El%Nat.eqb_eq Em]%andb_true_iff Hnd. rewrite forallb_forall in Em.
  assert (forall v, v ∈ s -> exists t, v = VStr t /\ Dict.lookup t expected = Some (Z.of_nat (Readiness.count_eq v l))) as Hs.
  { intros v Hv. specialize (Em (v, Z.of_nat (Readiness.count_eq v l))). simpl in Em.
    apply bool_decide_eq_true_1 in Em; [by destruct v; try done; eexists|].
    apply (in_map (λ v, (v, Z.of_nat (Readiness.count_eq v l)))). by apply list_elem_of_In. }
  assert (NoDup s) as Hn.
  { apply dedup_NoDup. intros v (t & -> & _)%Hs. simpl. apply String.eqb_refl. }
  assert (incl s (map VStr (map fst expected))) as Hi.
  { intros v Hv. apply list_elem_of_In, Hs in Hv as (t & -> & Ht%Dict.lookup_In). apply in_map.
    apply list_elem_of_In in Ht. by apply (in_map fst) in Ht. }
  assert (incl (map VStr (map fst expected)) s) as Hc.
  { apply NoDup_length_incl; [by apply NoDup_ListNoDup| |done]. rewrite !length_map. lia. }
  split.
  - intros v Hv. destruct (dedup_by_covers (λ x y, py_eq y x) l [] v Hv) as [H|(y & [H|H] & Heq)].
    + apply Hs in H as (t & -> & Ht). exists t. split; [done|]. by apply Dict.mem_keys; unfold Dict.mem; rewrite Ht.
    + apply Hs in H as (t & -> & Ht). apply py_eq_str_l in Heq as ->. exists t. split; [done|].
      by apply Dict.mem_keys; unfold Dict.mem; rewrite Ht.
    + by apply not_elem_of_nil in H.
  - intros t n Ht. assert (VStr t ∈ s) as Hv.
    { apply list_elem_of_In, Hc, in_map, list_elem_of_In, Dict.mem_keys. unfold Dict.mem. by rewrite Ht. }
    apply Hs in Hv as (t' & [= <-] & Ht'). congruence.
Qed.

Lemma expected_NoDup b : NoDup (map fst (expected_counts b)).
Proof. apply (bool_decide_unpack _). by destruct b; vm_compute. Qed.

(** Exactly the expected number of items of each type, and no item of another type *)
Definition exact_counts (items : list val) (expected : list (string * Z)) : Prop :=
  exists types, rmap (λ i, dget i "type") items = Ok types /\
    (forall v, v ∈ types -> exists t, v = VStr t /\ t ∈ map fst expected) /\
    (forall t n, Dict.lookup t expected = Some n -> Z.of_nat (Readiness.count_eq (VStr t) types) = n).
Lemma type_counts_exact items counts b : type_counts items = Ok counts ->
  counts_match counts (expected_counts b) = true -> exact_counts items (expected_counts b).
Proof.
  unfold type_counts. intros E. apply bind_Ok in E as (types & Et & E). intros Em. exists types. split; [done|].
  by apply (counts_match_spec _ _ _ E Em), expected_NoDup.
Qed.

(** *** Actions *)

Definition permitted (plan_mode : string) : list val :=
  if String.eqb plan_mode "initial-create" then [VList [VStr "create"]] else allowed_actions.
Record actions_ok (a : args) (plan : val) (changes : list val) : Prop := {
  ac_managed : managed_changes plan = Ok changes;
  ac_type : forall c, c ∈ changes -> exists t, dget c "type" = Ok t /\ t ∉ strings FORBIDDEN_TYPES;
  ac_action : forall c, c ∈ changes -> exists v l, actions_of c = Ok v /\ py_iter (or_list v) = Ok l /\
    VList l ∈ permitted (plan_mode a);
  ac_counts : plan_mode a = "initial-create" -> exact_counts changes (expected_counts (allow_reserved_ip a))
}.

Lemma allowed_word l : py_in (VList l) allowed_actions = true -> VList l ∈ allowed_actions.
Proof.
  unfold py_in, allowed_actions. intros H. apply existsb_exists in H as (v & Hv & E).
  apply in_map_iff in Hv as (s & <- & Hs). destruct l as [|x [|y l]]; [done| |simpl in E; by rewrite andb_false_r in E].
  simpl in E. rewrite andb_true_r in E. apply py_eq_str_r in E as ->. by apply list_elem_of_In, (in_map (λ a, VList [VStr a])).
Qed.
Lemma create_word v : py_ne v (VList [VStr "create"]) = false -> v = VList [VStr "create"].
Proof.
  unfold py_ne. intros E%negb_false_iff. destruct v as [| | | | |[|x [|y l]]|]; try done.
  - simpl in E. rewrite andb_true_r in E. by apply py_eq_str_r in E as ->.
  - simpl in E. by rewrite andb_false_r in E.
Qed.
Lemma create_only_Ok changes u : create_only changes = Ok u -> forall c, c ∈ changes -> actions_of c = Ok (VList [VStr "create"]).
Proof.
  unfold create_only. intros E c Hc. apply bind_Ok in E as (inv & Ei & E). apply bind_Ok in E as (shown & Es & E).
  apply refused_nil in E as ->. apply rmap_Ok, Forall2_nil_inv_r in Es as ->.
  assert (Forall (λ c, exists a, actions_of c = Ok a /\ py_ne a (VList [VStr "create"]) = false) changes) as Hf.
  { clear Hc c. revert Ei. induction changes as [|c l IH]; intros E; [constructor|]. simpl in E.
    apply bind_Ok in E as (b & Eb & E). apply bind_Ok in E as (ys & Ey & E). apply bind_Ok in Eb as (a & Ea & Eb).
    injection Eb as Eb. destruct b; [done|]. injection E as ->. constructor; [by exists a|by apply IH]. }
  rewrite Forall_forall in Hf. destruct (Hf c Hc) as (a & Ha & E). by apply create_word in E as <-.
Qed.
Lemma adopt_only_Ok changes u : adopt_only changes = Ok u ->
  forall c, c ∈ changes -> exists v l, actions_of c = Ok v /\ py_iter (or_list v) = Ok l /\ VList l ∈ allowed_actions.
Proof.
  unfold adopt_only. intros E c Hc. apply bind_Ok in E as (inv & Ei & E). apply refused_nil in E.
  destruct (rmap_In _ _ _ Ei c Hc) as (y & Ey & Hy). unfold adopt_step in Ey.
  apply bind_Ok in Ey as (v & Ev & Ey). apply bind_Ok in Ey as (l & El & Ey). apply bind_Ok in Ey as (us & _ & Ey).
  exists v, l. do 2 (split; [done|]). destruct (py_in (VList l) allowed_actions) eqn:Ep; [by apply allowed_word|].
  apply bind_Ok in Ey as (ad & _ & [= <-]). apply list_elem_of_In, List.in_split in Hy as (l1 & l2 & ->).
  rewrite concat_app in E. apply app_eq_nil in E as [_ E]. done.
Qed.

Lemma forbidden_nil counts changes : type_counts changes = Ok counts ->
  sort_strings (List.filter (λ t, py_in (VStr t) (map fst counts)) FORBIDDEN_TYPES) = [] ->
  forall c, c ∈ changes -> exists t, dget c "type" = Ok t /\ t ∉ strings FORBIDDEN_TYPES.
Proof.
  intros Et E c Hc. unfold type_counts in Et. apply bind_Ok in Et as (types & Ety & Et).
  destruct (rmap_In _ _ _ Ety c Hc) as (t & Ht & Hin). exists t. split; [done|].
  unfold counted in Et. apply bind_Ok in Et as (s & ->%Readiness.py_set_Ok & Et). injection Et as <-.
  rewrite map_map, map_id in E. pose proof (sort_strings_perm (List.filter
    (λ t, py_in (VStr t) (dedup_by (λ x y, py_eq y x) [] types)) FORBIDDEN_TYPES)) as Hp.
  rewrite E in Hp. apply Permutation_nil in Hp. apply filter_nil_iff in Hp. rewrite Forall_forall in Hp.
  intros (x & -> & Hx)%list_elem_of_fmap. specialize (Hp x Hx). cbv beta in Hp. unfold py_in in Hp.
  apply not_true_iff_false in Hp. apply Hp, existsb_exists.
  destruct (dedup_by_covers (λ x y, py_eq y x) types [] _ Hin) as [H|(y & [H|H] & Heq)].
  - exists (VStr x). split; [by apply list_elem_of_In|]. by apply py_eq_str_r.
  - exists y. split; [by apply list_elem_of_In|]. apply py_eq_str_r in Heq as ->. by apply py_eq_str_r.
  - by apply not_elem_of_nil in H.
Qed.

Lemma validate_actions_Ok a plan u : validate_actions plan (allow_reserved_ip a) (plan_mode a) = Ok u ->
  exists changes, actions_ok a plan changes.
Proof.
  unfold validate_actions. intros E. apply bind_Ok in E as (changes & Ec & E). apply bind_Ok in E as (counts & Et & E).
  apply bind_Ok in E as (u1 & Ef%refused_nil & E). exists changes.
  pose proof (forbidden_nil _ _ Et Ef) as Hf. split; try done; unfold permitted;
    destruct (String.eqb_spec (plan_mode a) "initial-create") as [Em|Em]; try done.
  - apply bind_Ok in E as (u2 & E1 & _). intros c Hc. exists (VList [VStr "create"]), [VStr "create"].
    rewrite (create_only_Ok _ _ E1 c Hc). split; [done|]. split; [done|by left].
  - apply bind_Ok in E as (u2 & _ & E). by apply (adopt_only_Ok _ _ E).
  - intros _. apply bind_Ok in E as (u2 & _ & E). apply refuse_Ok, negated in E. by apply (type_counts_exact _ _ _ Et).
Qed.


(** *** The host and the storage *)

Lemma the_one_Ok matches m r : the_one matches m = Ok r -> matches = [r].
Proof. destruct matches as [|x [|y l]]; simpl; try done. by intros [= ->]. Qed.

(** The planned resource of a type, or at an address, and its values *)
Definition only_of (resources : list val) (resource_type : string) (values : val) : Prop :=
  exists r, resources_of resources resource_type = Ok [r] /\ getitem r "values" = Ok values.
Definition only_at (resources : list val) (suffix : string) (values : val) : Prop :=
  exists r, by_address resources suffix = Ok r /\ getitem r "values" = Ok values.
Lemma one_values_Ok resources t v : one_values resources t = Ok v -> only_of resources t v.
Proof.
  unfold one_values, one. intros E. apply bind_Ok in E as (r & E1 & E). apply bind_Ok in E1 as (m & E0 & E1).
  apply the_one_Ok in E1 as ->. by exists r.
Qed.
Lemma values_at_Ok resources t v : values_at resources t = Ok v -> only_at resources t v.
Proof. unfold values_at. intros E. apply bind_Ok in E as (r & E1 & E). by exists r. Qed.

(** [v.get(k) or []] is one block, and the block *)
Definition one_block (v : val) (k : string) (f : val) : Prop :=
  exists l, get_or v k = Ok l /\ py_len l = Ok 1 /\ index0 l = Ok f.
Lemma len_1 v : len_ne_1 v = Ok false -> py_len v = Ok 1.
Proof. unfold len_ne_1. intros E. apply bind_Ok in E as (n & -> & E). apply negated in E. by apply Z.eqb_eq in E as ->. Qed.
Lemma first_ne_block v k l f x : get_or v k = Ok l -> py_len l = Ok 1 -> first_ne l f x = Ok false ->
  exists b y, one_block v k b /\ dget b f = Ok y /\ py_eq y x = true.
Proof.
  intros Hl H1. unfold first_ne. intros E. apply bind_Ok in E as (b & Eb & E).
  apply get_ne_false in E as (y & Hy & Hx). exists b, y. split; [by exists l|done].
Qed.

Record host_ok (resources : list val) (capacity_profile : string) (values : val) : Prop := {
  h_at : only_at resources "oci_core_instance.host" values;
  h_shape : exists s, Dict.lookup capacity_profile profiles = Some s /\ dget values "shape" = Ok (VStr s.1);
  h_capacity : exists b o m, one_block values "shape_config" b /\ dget b "ocpus" = Ok o /\ py_eq o (VInt 4) = true /\
    dget b "memory_in_gbs" = Ok m /\ py_eq m (VInt 24) = true;
  h_private : exists b ip, one_block values "create_vnic_details" b /\ dget b "assign_public_ip" = Ok ip /\
    Str.lower (py_str ip) ∈ ["false"; "0"];
  h_no_ip : exists ip, dget values "public_ip" = Ok ip /\ py_in ip [VNone; VStr ""] = true
}.
Lemma validate_instance_Ok resources profile u : validate_instance resources profile = Ok u ->
  exists values, host_ok resources profile values.
Proof.
  unfold validate_instance. intros E. apply bind_Ok in E as ([shape boot] & Ep & E).
  unfold profile_of in Ep. destruct (Dict.lookup profile profiles) as [x|] eqn:El; [|done]. injection Ep as ->.
  apply bind_Ok in E as (values & Ev%values_at_Ok & E). apply bind_Ok in E as (u1 & E1%refuse_if_Ok & E).
  apply get_ne_str in E1. apply bind_Ok in E as (sc & Es & E). apply bind_Ok in E as (u2 & E2%refuse_if_Ok & E).
  apply ror_false in E2 as [H1%len_1 E2]. apply ror_false in E2 as [Eo Em].
  apply bind_Ok in E as (src & _ & E). apply bind_Ok in E as (u3 & _ & E). apply bind_Ok in E as (vnic & En & E).
  apply bind_Ok in E as (u4 & E4%refuse_if_Ok & _). unfold public_vnic in E4.
  apply ror_false in E4 as [H2%len_1 E4]. apply ror_false in E4 as [E5 E6].
  exists values. split; [done|by eexists| | |].
  - destruct (first_ne_block _ _ _ _ _ Es H1 Eo) as (b & o & Hb & Ho & Ho').
    destruct (first_ne_block _ _ _ _ _ Es H1 Em) as (b' & m & Hb' & Hm & Hm').
    assert (b' = b) as -> by (destruct Hb as (? & ? & ? & ?), Hb' as (? & ? & ? & ?); congruence).
    by exists b, o, m.
  - apply bind_Ok in E5 as (b & Eb & E5). apply bind_Ok in E5 as (ip & Ei & E5). apply negated in E5.
    exists b, ip. split; [by exists vnic|]. split; [done|]. by apply elem_of_existsb_string in E5.
  - apply bind_Ok in E6 as (ip & Ei & E6). apply bind_Ok in E6 as (b & Eb & E6). apply negated in E6 as ->.
    exists ip. split; [done|]. unfold in_set in Eb. apply bind_Ok in Eb as (? & _ & Eb). by injection Eb.
Qed.

(** *** The network *)

Record network_ok (resources : list val) : Prop := {
  n_host : exists v, only_at resources "oci_core_subnet.private_host" v /\ dget v "prohibit_public_ip_on_vnic" = Ok (VBool true);
  n_no_ingress : exists v i, only_of resources "oci_core_security_list" v /\ dget v "ingress_security_rules" = Ok i /\
    py_in i [VNone; VList []] = true;
  n_nat : exists v r l, only_at resources "oci_core_route_table.private_host" v /\ get_or v "route_rules" = Ok r /\
    destinations r = Ok l /\ py_in default_route l = true /\ existsb to_service l = true;
  n_edge : exists v, only_of resources "oci_network_load_balancer_network_load_balancer" v /\
    dget v "is_private" = Ok (VBool false) /\ dget v "is_preserve_source_destination" = Ok (VBool false)
}.
Lemma validate_security_Ok resources u : validate_security_list resources = Ok u ->
  exists v i, only_of resources "oci_core_security_list" v /\ dget v "ingress_security_rules" = Ok i /\
    py_in i [VNone; VList []] = true.
Proof.
  unfold validate_security_list. intros E. apply bind_Ok in E as (v & Ev%one_values_Ok & E).
  apply bind_Ok in E as (u1 & E1%refuse_if_Ok & _). apply bind_Ok in E1 as (i & Ei & E1). apply negated in E1.
  by exists v, i.
Qed.
Lemma validate_network_Ok resources u u' : validate_security_list resources = Ok u' -> validate_network resources = Ok u ->
  network_ok resources.
Proof.
  intros Es%validate_security_Ok. unfold validate_network. intros E. apply bind_Ok in E as (u1 & _ & E).
  apply bind_Ok in E as (u2 & E2 & E). apply bind_Ok in E as (u3 & E3 & E).
  apply bind_Ok in E as (nlb & En%one_values_Ok & E). apply bind_Ok in E as (u4 & E4%refuse_if_Ok & _).
  apply ror_false in E4 as [P1%not_bool_false P2%not_bool_false]. split; [|done| |by exists nlb].
  - unfold validate_subnets in E3. apply bind_Ok in E3 as (legacy & _ & E3).
    apply bind_Ok in E3 as (host & Eh%values_at_Ok & E3). apply bind_Ok in E3 as (edge & _ & E3).
    apply bind_Ok in E3 as (u5 & E5%refuse_if_Ok & _). apply not_bool_false in E5. by exists host.
  - unfold validate_routes in E2. apply bind_Ok in E2 as (? & _ & E2). apply bind_Ok in E2 as (? & _ & E2).
    apply bind_Ok in E2 as (host & Eh%values_at_Ok & E2). apply bind_Ok in E2 as (r & Er & E2).
    apply bind_Ok in E2 as (? & _ & E2). apply bind_Ok in E2 as (? & _ & E2).
    apply bind_Ok in E2 as (l & El & E2). apply bind_Ok in E2 as (u6 & E6%refuse_if_Ok & _).
    injection E6 as E6. unfold nat_only_ne in E6. apply orb_false_elim in E6 as [A%negb_false_iff B%negb_false_iff].
    by exists host, r, l.
Qed.

(** *** The open ports *)

(** An ingress rule for TCP that opens a single port *)
Definition opens (r : val) (values : val) (port : Z) : Prop :=
  get_dict r "values" = Ok values /\ dget values "direction" = Ok (VStr "INGRESS") /\
  dget values "protocol" = Ok (VStr "6") /\ port_range values "tcp_options" = Ok (Some (port, port)).
Definition address (r : val) : string := match dget_or r "address" (VStr "") with Ok a => py_str a | Raise _ => "" end.

Record rule_ok (r values : val) (port : Z) (source : val) : Prop := {
  ru_source : dget values "source" = Ok source;
  ru_world : source = VStr "0.0.0.0/0" -> Str.contains "public_edge_ingress" (address r) = true /\ (port = 80 \/ port = 443);
  ru_ssh : port = 22 -> dget values "source_type" = Ok (VStr "CIDR_BLOCK") /\ source ∈ strings BASTION_SOURCES;
  ru_host : Str.contains "host_edge_ingress" (address r) = true ->
    dget values "source_type" = Ok (VStr "NETWORK_SECURITY_GROUP") /\ (port = 80 \/ port = 443)
}.
Lemma in_set_member v l : in_set v (strings l) = Ok true -> v ∈ strings l.
Proof.
  unfold in_set. intros E. apply bind_Ok in E as (? & _ & [= E]). apply py_in_strings in E as (s & -> & Hs).
  by apply list_elem_of_In, in_map, list_elem_of_In.
Qed.
Lemma web_port_true p : web_port p = true -> p = 80 \/ p = 443.
Proof. unfold web_port. intros [E|E]%orb_true_iff; apply Z.eqb_eq in E; auto. Qed.

(** What the loop has established of a rule, when [s] is the state after it *)
Definition seen (s : ingress) (r : val) : Prop := forall values port, opens r values port ->
  exists source, dget values "source" = Ok source /\
    (source = VStr "0.0.0.0/0" -> Str.contains "public_edge_ingress" (address r) = true /\ port ∈ public_tcp s) /\
    (port = 22 -> dget values "source_type" = Ok (VStr "CIDR_BLOCK") /\ source ∈ strings BASTION_SOURCES) /\
    (Str.contains "host_edge_ingress" (address r) = true ->
       dget values "source_type" = Ok (VStr "NETWORK_SECURITY_GROUP") /\ (port = 80 \/ port = 443)).

Lemma open_port_Ok a values port s s' : open_port a values port s = Ok s' ->
  (forall p, p ∈ public_tcp s -> p ∈ public_tcp s') /\
  exists source, dget values "source" = Ok source /\
    (source = VStr "0.0.0.0/0" -> Str.contains "public_edge_ingress" a = true /\ port ∈ public_tcp s') /\
    (port = 22 -> dget values "source_type" = Ok (VStr "CIDR_BLOCK") /\ source ∈ strings BASTION_SOURCES) /\
    (Str.contains "host_edge_ingress" a = true ->
       dget values "source_type" = Ok (VStr "NETWORK_SECURITY_GROUP") /\ (port = 80 \/ port = 443)).
Proof.
  unfold open_port. intros E. apply bind_Ok in E as (src & Hs & E). apply bind_Ok in E as (st & Ht & E).
  apply bind_Ok in E as (u1 & E1%refuse_if_Ok & E). injection E1 as E1. apply bind_Ok in E as (u2 & E2 & E).
  apply bind_Ok in E as (u3 & E3%refuse_if_Ok & E). injection E3 as E3. injection E as <-. cbn [public_tcp]. split.
  - intros p Hp. destruct (py_eq src _); [apply elem_of_app; by left|done].
  - exists src. split; [done|]. split; [|split].
    + intros ->. simpl (py_eq _ _) in E1 |- *. cbn [andb] in E1. apply negb_false_iff in E1. split; [done|].
      apply elem_of_app. right. by left.
    + intros ->. change (22 =? 22) with true in E2. cbv iota in E2. apply refuse_if_Ok, ror_false in E2 as [E2 E4].
      injection E2 as E2%negb_false_iff. apply py_eq_str_r in E2 as ->. split; [done|].
      apply bind_Ok in E4 as (b & Eb & E4). apply negated in E4 as ->. by apply (in_set_member src BASTION_SOURCES).
    + intros Hh. rewrite Hh in E3. cbn [andb] in E3. apply orb_false_elim in E3 as [A%negb_false_iff B%negb_false_iff].
      apply py_eq_str_r in A as ->. split; [done|]. by apply web_port_true.
Qed.

Lemma port_values v (p : Z) kind x : port_range v kind = Ok (Some x) -> port_range v kind = Ok (Some (p, p)) -> x = (p, p).
Proof. intros -> E. by injection E. Qed.

Lemma ingress_step_Ok s r s' : ingress_step s r = Ok s' ->
  (forall p, p ∈ public_tcp s -> p ∈ public_tcp s') /\ seen s' r.
Proof.
  unfold ingress_step. intros E. apply bind_Ok in E as (a & Ha & E). apply bind_Ok in E as (values & Hv & E).
  apply bind_Ok in E as (skip & Hk & E). assert (address r = py_str a) as Hadr by (unfold address; by rewrite Ha).
  destruct skip.
  - injection E as <-. split; [done|]. intros v p (Hv' & Hd & Hp & _). exfalso.
    assert (v = values) as -> by congruence. revert Hk. unfold ror.
    rewrite (proj2 (get_ne_str values "direction" "INGRESS") Hd).
    cbn [mbind res_bind]. rewrite (proj2 (get_ne_str values "protocol" "6") Hp). done.
  - apply bind_Ok in E as (ports & Hr & E). destruct ports as [[lo hi]|].
    + destruct (Z.eqb_spec lo hi) as [->|Hne].
      * apply open_port_Ok in E as [Hmono Hs]. split; [done|]. intros v p (Hv' & _ & _ & Hr').
        assert (v = values) as -> by congruence. assert (p = hi) as -> by congruence.
        unfold address in *. by rewrite Hadr.
      * injection E as <-. split; [done|]. intros v p (Hv' & _ & _ & Hr'). exfalso.
        assert (v = values) as -> by congruence. congruence.
    + injection E as <-. split; [done|]. intros v p (Hv' & _ & _ & Hr'). exfalso.
      assert (v = values) as -> by congruence. congruence.
Qed.

Lemma sort_Z_perm l : sort_Z l ≡ₚ l.
Proof.
  unfold sort_Z. destruct (sort_by_total (λ a b, Some (a <? b)) ltac:(by eexists) l) as [l' E].
  rewrite E. simpl. by eapply sort_by_perm.
Qed.
Lemma ingress_seen rules s : rfold ingress_step (Ingress [] [] []) rules = Ok s -> forall r, r ∈ rules -> seen s r.
Proof.
  apply (rfold_inv (λ l s, forall r, r ∈ l -> seen s r)); [by intros r ?%not_elem_of_nil|].
  intros dn x s1 s2 Hd [Hm Hx]%ingress_step_Ok r [Hr|Hr]%elem_of_app.
  - intros v p Ho. destruct (Hd r Hr v p Ho) as (src & Hs & Hw & Hrest). exists src. split; [done|]. split; [|done].
    intros H. destruct (Hw H) as [? ?]. split; [done|]. by apply Hm.
  - apply list_elem_of_singleton in Hr as ->. done.
Qed.

(** Every rule that opens one port opens it to whom the policy says. *)
Definition ports_ok (resources : list val) : Prop :=
  exists rules, resources_of resources "oci_core_network_security_group_security_rule" = Ok rules /\
    forall r values port, r ∈ rules -> opens r values port -> exists source, rule_ok r values port source.
Lemma validate_ingress_Ok resources u : validate_ingress resources = Ok u -> ports_ok resources.
Proof.
  unfold validate_ingress. intros E. apply bind_Ok in E as (rules & Er & E). apply bind_Ok in E as (s & Es & E).
  apply bind_Ok in E as (u1 & E1%refuse_if_Ok & _). apply negated, bool_decide_eq_true_1 in E1.
  pose proof (sort_Z_perm (public_tcp s)) as Hp. rewrite E1 in Hp. exists rules. split; [done|].
  intros r values port Hr Ho. destruct (ingress_seen _ _ Es r Hr values port Ho) as (src & Hs & Hw & Hssh & Hhost).
  exists src. split; [done| |done|done]. intros H. destruct (Hw H) as [? Hin]. split; [done|].
  rewrite <-Hp in Hin. by apply elem_of_cons in Hin as [->|Hin]; [left|right; apply list_elem_of_singleton in Hin].
Qed.

(** A rule for a range of ports, and one for another protocol, passes unseen. *)
Lemma range_unseen s r values lo hi : get_dict r "values" = Ok values ->
  dget values "direction" = Ok (VStr "INGRESS") -> dget values "protocol" = Ok (VStr "6") ->
  port_range values "tcp_options" = Ok (Some (lo, hi)) -> lo <> hi -> ingress_step s r = Ok s.
Proof.
  intros Hv Hd Hp Hr Hne. unfold ingress_step. rewrite Hv.
  assert (exists a, dget_or r "address" (VStr "") = Ok a) as [a ->].
  { unfold get_dict, dget_or in *. destruct r; try done. by eexists. }
  cbn [mbind res_bind]. unfold ror. rewrite (proj2 (get_ne_str values "direction" "INGRESS") Hd).
  cbn [mbind res_bind]. rewrite (proj2 (get_ne_str values "protocol" "6") Hp). cbn [mbind res_bind].
  rewrite Hr. cbn [mbind res_bind]. destruct (Z.eqb_spec lo hi); [done|done].
Qed.

(** *** The references and the outputs *)

Definition refers (plan : val) (resource expression : string) (expected : list string) : Prop :=
  exists module configured l, get_path plan ["configuration"; "root_module"; "module_calls"; "v1_live"; "module"] = Ok module /\
    configured_of module = Ok configured /\ references configured resource expression = Ok l /\
    forall s, s ∈ l <-> s ∈ expected.
Lemma refs_same l expected : refs_ne l expected = false -> forall s, s ∈ l <-> s ∈ expected.
Proof.
  unfold refs_ne. intros E%negb_false_iff s. apply andb_prop in E as [A B]. rewrite forallb_forall in A, B.
  split; intros Hs%list_elem_of_In; [specialize (A s Hs)|specialize (B s Hs)]; by apply elem_of_existsb_string.
Qed.
Record references_ok (plan : val) : Prop := {
  rf_volume : refers plan "oci_core_volume_attachment.data" "instance_id" [primary];
  rf_backend : refers plan "oci_network_load_balancer_backend.host" "target_id" [primary];
  rf_nsg : refers plan "oci_network_load_balancer_network_load_balancer.edge" "network_security_group_ids" [edge_nsg];
  rf_principal : refers plan "oci_identity_dynamic_group.host" "matching_rule" [primary; fallback]
}.
Lemma validate_references_Ok plan u : validate_private_host_references plan = Ok u -> references_ok plan.
Proof.
  unfold validate_private_host_references. intros E. apply bind_Ok in E as (module & Hm & E).
  apply bind_Ok in E as (configured & Hc & E). cbv zeta in E.
  assert (forall a e x m u, refuse_if (r ← references configured a e; Ok (refs_ne r x)) m = Ok u -> refers plan a e x) as Hr.
  { intros a e x m u1 E1%refuse_if_Ok. apply bind_Ok in E1 as (l & El & E1). injection E1 as E1.
    exists module, configured, l. do 3 (split; [done|]). by apply refs_same. }
  apply bind_Ok in E as (u1 & E1 & E). apply bind_Ok in E as (u2 & E2 & E). apply bind_Ok in E as (u3 & E3 & E).
  apply Hr in E1, E2, E3, E. by split.
Qed.

(** What the output contract of the plan says of the mutation, the fallback and the public cutover *)
Record contract_ok (a : args) (contract : val) (public : bool) : Prop := {
  k_mutation : exists m x, get_dict contract "mutation" = Ok m /\
    dget m "applied" = Ok (VBool (String.eqb (mode a) "approved-apply")) /\ dget m "approval_reference" = Ok x /\
    (mode a = "approved-apply" -> truthy x = true /\ capacity_profile a = "e5-temporary") /\
    (mode a = "plan" -> x = VNone);
  k_fallback : exists r, get_dict contract "recovery" = Ok r /\ dget r "fallback_state" = Ok (VStr "STOPPED");
  k_retained : exists r, get_dict contract "legacy_retained" = Ok r /\ dget r "traffic_eligible" = Ok (VBool false) /\
    dget r "deletion_allowed" = Ok (VBool false);
  k_public : exists n, get_dict contract "network" = Ok n /\ dget n "public_backend_enabled" = Ok (VBool public)
}.
Lemma validate_mutation_Ok a contract u : validate_mutation_output contract (mode a) (capacity_profile a) = Ok u ->
  exists m x, get_dict contract "mutation" = Ok m /\
    dget m "applied" = Ok (VBool (String.eqb (mode a) "approved-apply")) /\ dget m "approval_reference" = Ok x /\
    (mode a = "approved-apply" -> truthy x = true /\ capacity_profile a = "e5-temporary") /\ (mode a = "plan" -> x = VNone).
Proof.
  unfold validate_mutation_output. intros E. apply bind_Ok in E as (u1 & E1%refuse_if_Ok & E). injection E1 as E1.
  apply bind_Ok in E as (m & Hm & E). apply bind_Ok in E as (u2 & E2%refuse_if_Ok & E). apply not_bool_false in E2.
  apply bind_Ok in E as (u3 & E3%refuse_if_Ok & E4%refuse_if_Ok).
  assert (exists x, dget m "approval_reference" = Ok x) as [x Hx] by (destruct m; try done; by eexists).
  exists m, x. do 3 (split; [done|]). split.
  - intros Ha. rewrite Ha in *. change (String.eqb "approved-apply" "approved-apply") with true in *. split.
    + apply rand_false in E3 as [E3|[_ E3]]; [done|]. rewrite Hx in E3. by apply negated in E3.
    + cbn [andb] in E1. apply negb_false_iff in E1. by apply String.eqb_eq in E1.
  - intros Hp. rewrite Hp in *. apply rand_false in E4 as [E4|[_ E4]]; [done|]. apply is_not_none_false in E4. congruence.
Qed.
Lemma validate_contract_Ok a contract public u :
  validate_contract contract (mode a) (capacity_profile a) public = Ok u -> contract_ok a contract public.
Proof.
  unfold validate_contract. intros E. apply bind_Ok in E as (u1 & _ & E). apply bind_Ok in E as (c & _ & E).
  apply bind_Ok in E as (u2 & _ & E). apply bind_Ok in E as (n & Hn & E). apply bind_Ok in E as (u3 & E3 & E).
  apply bind_Ok in E as (u4 & E4 & E5%validate_mutation_Ok). unfold validate_hosts_output in E4.
  apply bind_Ok in E4 as (h & _ & E4). apply bind_Ok in E4 as (u6 & _ & E4). apply bind_Ok in E4 as (r & Hr & E4).
  apply bind_Ok in E4 as (u7 & E7%refuse_if_Ok & E4). apply ror_false in E7 as [_ E7%get_ne_str].
  apply bind_Ok in E4 as (t & Ht & E8%refuse_if_Ok). apply ror_false in E8 as [A%not_bool_false B%not_bool_false].
  unfold validate_network_output in E3. apply bind_Ok in E3 as (u9 & _ & E3).
  apply bind_Ok in E3 as (u10 & E10%refuse_if_Ok & _). apply not_bool_false in E10.
  split; [done|by exists r|by exists t|by exists n].
Qed.

(** *** The plan *)

(** The planned resources that are managed *)
Definition managed_resources (resources managed : list val) : Prop :=
  rfilter (λ item, m ← dget_or item "mode" (VStr "managed"); Ok (py_eq m (VStr "managed"))) resources = Ok managed.

Record accepted (a : args) (plan : val) (resources : list val) : Prop := {
  p_text : Forall (λ p, search p.2 (Json.dumps Json.plain_sorted plan) = false) FORBIDDEN_TEXT;
  p_actions : exists changes, actions_ok a plan changes;
  p_resources : all_resources plan = Ok resources;
  p_counts : exists managed, managed_resources resources managed /\ exact_counts managed (expected_counts (allow_reserved_ip a));
  p_host : exists values, host_ok resources (capacity_profile a) values;
  p_network : network_ok resources;
  p_ports : ports_ok resources;
  p_references : references_ok plan;
  p_outputs : exists public live contract, validate_nlb resources = Ok public /\
    (x ← get_path plan ["planned_values"; "outputs"]; getitem x "oci_live_v1") = Ok live /\
    dget live "value" = Ok contract /\ (is_dict contract = true -> contract_ok a contract public)
}.

Lemma check_text_Ok t u : check_text t = Ok u -> Forall (λ p, search p.2 t = false) FORBIDDEN_TEXT.
Proof.
  unfold check_text. intros E. apply bind_Ok in E as (us & E & _). apply Forall_forall. intros p Hp.
  destruct (rmap_In _ _ _ E p Hp) as (u1 & E1%refuse_if_Ok & _). by injection E1.
Qed.
Lemma validate_counts_Ok resources b u : validate_planned_resource_counts resources b = Ok u ->
  exists managed, managed_resources resources managed /\ exact_counts managed (expected_counts b).
Proof.
  unfold validate_planned_resource_counts. intros E. apply bind_Ok in E as (m & Hm & E).
  apply bind_Ok in E as (counts & Ec & E). apply refuse_Ok, negated in E. exists m. split; [done|].
  by apply (type_counts_exact _ _ _ Ec).
Qed.
Lemma validate_outputs_Ok a plan public u : validate_outputs plan (mode a) (capacity_profile a) public = Ok u ->
  exists live contract, (x ← get_path plan ["planned_values"; "outputs"]; getitem x "oci_live_v1") = Ok live /\
    dget live "value" = Ok contract /\ (is_dict contract = true -> contract_ok a contract public).
Proof.
  unfold validate_outputs. intros E. apply bind_Ok in E as (o & Ho & E). apply bind_Ok in E as (u1 & _ & E).
  apply bind_Ok in E as (live & Hl & E). apply bind_Ok in E as (c & Hc & E). exists live, c. rewrite Ho.
  do 2 (split; [done|]). intros Hd. rewrite Hd in E. by apply validate_contract_Ok in E.
Qed.

Lemma validate_accepted a plan public : validate a plan = Ok public -> exists resources, accepted a plan resources.
Proof.
  unfold validate. intros E. apply bind_Ok in E as (u1 & E1%check_text_Ok & E).
  apply bind_Ok in E as (u2 & E2%validate_actions_Ok & E). apply bind_Ok in E as (resources & Er & E).
  apply bind_Ok in E as (u3 & E3%validate_counts_Ok & E). apply bind_Ok in E as (u4 & E4%validate_instance_Ok & E).
  apply bind_Ok in E as (u5 & _ & E). apply bind_Ok in E as (u6 & E6 & E). apply bind_Ok in E as (u7 & E7 & E).
  apply bind_Ok in E as (u8 & E8%validate_ingress_Ok & E). apply bind_Ok in E as (b & Eb & E).
  apply bind_Ok in E as (u9 & E9%validate_references_Ok & E). apply bind_Ok in E as (u10 & _ & E).
  apply bind_Ok in E as (u11 & E11 & _). apply validate_outputs_Ok in E11 as (live & contract & H1 & H2 & H3).
  pose proof (validate_network_Ok _ _ _ E6 E7) as E12. exists resources. split; try done. by exists b, live, contract.
Qed.

Section Run.
Context `{Platform} (a : args).

Lemma ro_load_plan p : Pres eq (load p).
Proof. unfold load. solve_pres. Qed.

(** C14: A plan the validator accepts (exit code 0) has no credential in its text; each of its
    managed changes only creates (or, for an adoption, also updates or leaves) a resource of
    no forbidden type; its managed resources are exactly the expected number of each type;
    the host is the one of the profile, 4 OCPU and 24 GiB, without a public address, in a
    subnet that prohibits one, its default route through the NAT gateway; every rule that opens one TCP port opens 22
    only to the two bastion addresses, and opens a port to the world only at the edge, 80 or
    443; the data volume, the load balancer and the instance principals refer to the host (and the
    principals to the fallback), and nothing else; and the output contract keeps the fallback stopped, the legacy host
    retained, and claims to be applied only in the approved mode with a reference. *)
Theorem plan_accepted w : (main a w).1 = Ok 0 ->
  exists plan resources, load (plan_json a) w = (Ok plan, w) /\ accepted a plan resources.
Proof.
  destruct (main a w) as [r w'] eqn:E. cbn [fst]. intros ->. unfold main in E.
  apply M_bind_Ok in E as (o & w1 & E1 & E). apply catch_Ok in E1 as [E1|(e & w2 & k & _ & Hk & E1)].
  - apply M_bind_Ok in E1 as (plan & w2 & E1 & E2). pose proof (pres_eq_run _ _ _ _ (ro_load_plan _) E1) as ->.
    apply M_bind_Ok in E2 as (b & w2 & E2 & _). apply lift_Ok in E2 as [E2 _].
    apply validate_accepted in E2 as [resources E2]. by exists plan, resources.
  - apply on_exn_Some in Hk as [_ ->]. apply M_bind_Ok in E1 as (? & ? & _ & E1). apply ret_Ok in E1 as [<- _].
    by apply ret_Ok in E as [? _].
Qed.
End Run.
End PlanV1Spec.

(** ** A concrete plan *)

Module PlanV1Run.
Import Fixture Evidence PlanV1 PlanV1Spec.

Definition resource (type address : string) (values : list (string * val)) : val :=
  VDict [("type", VStr type); ("address", VStr ("module.v1_live." +:+ address)); ("mode", VStr "managed"); ("values", VDict values)].
Definition block (l : list (string * val)) : val := VList [VDict l].
Definition plain (type : string) (n : nat) : list val :=
  map (λ i, resource type (type +:+ "." +:+ Str.of_Z (Z.of_nat i)) []) (seq 0 n).
Definition nsg_rule := "oci_core_network_security_group_security_rule".
Definition rule (name direction protocol source source_type : string) (lo hi : Z) : val :=
  resource nsg_rule (nsg_rule +:+ "." +:+ name) [("direction", VStr direction); ("protocol", VStr protocol);
    ("source", VStr source); ("source_type", VStr source_type);
    ("tcp_options", block [("destination_port_range", block [("min", VInt lo); ("max", VInt hi)])])].
Definition route (destinations : list (string * string)) : list (string * val) :=
  [("route_rules", VList (map (λ d, rec [("destination", d.1); ("destination_type", d.2)]) destinations))].

Definition host_values : list (string * val) := [
  ("shape", VStr "VM.Standard.A1.Flex"); ("shape_config", block [("ocpus", VInt 4); ("memory_in_gbs", VInt 24)]);
  ("create_vnic_details", block [("assign_public_ip", VStr "false")]);
  ("agent_config", block [("plugins_config", VList (map (λ n, rec [("name", n); ("desired_state", "ENABLED")])
     ["Bastion"; "Compute Instance Run Command"; "Compute Instance Monitoring"]))])].
Definition nat_routes : list (string * string) := [("0.0.0.0/0", "CIDR_BLOCK"); ("all-services", "SERVICE_CIDR_BLOCK")].
Definition subnet (name : string) (prohibit : bool) : val :=
  resource "oci_core_subnet" ("oci_core_subnet." +:+ name) [("prohibit_public_ip_on_vnic", VBool prohibit)].
Definition nlb (kind : string) (values : list (string * val)) : val := resource kind kind values.
Definition web (kind : string) (values : list (string * val)) : list val :=
  map (λ p, nlb kind (("port", VInt p) :: values)) [80; 443].

(** The sixteen rules, the last of them [extra] *)
Definition rules (extra : val) : list val := [
  rule "public_edge_ingress_80" "INGRESS" "6" "0.0.0.0/0" "CIDR_BLOCK" 80 80;
  rule "public_edge_ingress_443" "INGRESS" "6" "0.0.0.0/0" "CIDR_BLOCK" 443 443;
  rule "bastion_1" "INGRESS" "6" "10.42.20.100/32" "CIDR_BLOCK" 22 22;
  rule "bastion_2" "INGRESS" "6" "10.42.20.109/32" "CIDR_BLOCK" 22 22;
  rule "host_edge_ingress_80" "INGRESS" "6" "nsg" "NETWORK_SECURITY_GROUP" 80 80;
  rule "host_edge_ingress_443" "INGRESS" "6" "nsg" "NETWORK_SECURITY_GROUP" 443 443] ++
  repeat (rule "egress" "EGRESS" "6" "" "" 443 443) 9 ++ [extra].

Definition resources_with (extra : val) : list val :=
  flat_map (λ t, plain t 1) ["oci_core_vcn"; "oci_core_volume_attachment"; "oci_identity_compartment";
    "oci_identity_dynamic_group"; "oci_identity_policy"] ++
  plain "oci_core_network_security_group" 2 ++ plain "terraform_data" 7 ++ rules extra ++ [
  resource "oci_core_instance" "oci_core_instance.host" host_values;
  resource "oci_core_internet_gateway" "igw" [("enabled", VBool true)]; resource "oci_core_nat_gateway" "nat" [];
  resource "oci_core_service_gateway" "sgw" [("services", block [])];
  resource "oci_core_route_table" "oci_core_route_table.edge" (route nat_routes);
  resource "oci_core_route_table" "oci_core_route_table.private_host" (route nat_routes);
  resource "oci_core_route_table" "oci_core_route_table.public_edge" (route [("0.0.0.0/0", "CIDR_BLOCK")]);
  resource "oci_core_security_list" "sl" [("egress_security_rules", block [("destination", VStr "0.0.0.0/0");
    ("destination_type", VStr "CIDR_BLOCK"); ("protocol", VStr "all"); ("stateless", VBool false)])];
  subnet "edge" false; subnet "private_host" true; subnet "public_edge" false;
  resource "oci_core_volume" "data" [("size_in_gbs", VStr "130"); ("vpus_per_gb", VStr "0")];
  resource "oci_kms_key" "key" [("protection_mode", VStr "SOFTWARE")];
  resource "oci_kms_vault" "vault" [("vault_type", VStr "DEFAULT")];
  nlb "oci_network_load_balancer_network_load_balancer"
    [("is_private", VBool false); ("is_preserve_source_destination", VBool false)]] ++
  repeat (nlb "oci_network_load_balancer_backend_set" [("policy", VStr "FIVE_TUPLE"); ("is_fail_open", VBool false);
    ("is_preserve_source", VBool false); ("health_checker", block [("protocol", VStr "TCP"); ("port", VInt 443)])]) 2 ++
  web "oci_network_load_balancer_backend" [("is_backup", VBool false); ("is_drain", VBool false); ("is_offline", VBool true)] ++
  web "oci_network_load_balancer_listener" [("protocol", VStr "TCP"); ("tcp_idle_timeout", VInt 1800)].

Definition contract : val := VDict [
  ("schema_version", VStr "liqi.infrastructure.oci-live/v1"); ("classification", VStr "production");
  ("infrastructure_output_version", VStr "1.4.0");
  ("capacity", VDict [("shape", VStr "VM.Standard.A1.Flex"); ("architecture", VStr "aarch64");
     ("target_triple", VStr "aarch64-unknown-linux-gnu"); ("temporary", VBool false); ("profile", VStr "a1-target");
     ("cost_classification", VStr "free-trial-only")]);
  ("network", VDict [("host_public_ip_enabled", VBool false); ("outbound_internet_path", VStr "nat-gateway");
     ("oracle_services_path", VStr "service-gateway"); ("ssh_default_enabled", VBool true);
     ("public_backend_enabled", VBool false); ("ssh_source_cidrs", VStrs BASTION_SOURCES);
     ("management_access", VDict [("primary", VStr "oci-bastion-private-ssh"); ("secondary", VStr "oci-run-command");
        ("public_ssh", VBool false)])]);
  ("host", rec [("public_ip_mode", "none")]); ("recovery", rec [("public_ip_mode", "none"); ("fallback_state", "STOPPED")]);
  ("legacy_retained", VDict [("traffic_eligible", VBool false); ("deletion_allowed", VBool false)]);
  ("mutation", VDict [("applied", VBool false)])].
Definition reference (address expression : string) (l : list string) : val :=
  VDict [("address", VStr address); ("expressions", VDict [(expression, VDict [("references", VStrs l)])])].
Definition configured : val := VList [
  reference "oci_core_volume_attachment.data" "instance_id" ["oci_core_instance.host.id"; "oci_core_instance.host"];
  reference "oci_network_load_balancer_backend.host" "target_id" ["oci_core_instance.host.id"];
  reference "oci_network_load_balancer_network_load_balancer.edge" "network_security_group_ids" [edge_nsg];
  reference "oci_identity_dynamic_group.host" "matching_rule" ["oci_core_instance.host.id"; fallback]].
Definition change (actions : list string) (r : val) : val :=
  match r with VDict d => VDict (d ++ [("change", VDict [("actions", VStrs actions)])]) | v => v end.
Definition plan_with (extra : val) : val := VDict [
  ("planned_values", VDict [("outputs", VDict [("oci_live_v1", VDict [("value", contract)]);
      ("host_bootstrap_sha256", VDict []); ("replacement_impact", VDict [])]);
    ("root_module", VDict [("child_modules", VList [VDict [("resources", VList (resources_with extra))]])])]);
  ("resource_changes", VList (map (change ["create"]) (resources_with extra)));
  ("configuration", VDict [("root_module", VDict [("module_calls", VDict [("v1_live", VDict [("module",
     VDict [("resources", configured)])])])])])].
Definition world_of (extra : val) : world := world_with [("/in/plan.json", json (plan_with extra))].
Definition the_args : args := Args (Path.of_str "/in/plan.json") "plan" false "a1-target" "initial-create" None.
Definition harmless : val := rule "egress" "EGRESS" "6" "" "" 443 443.

Lemma plan_accepted_witness : let host := quiet_host in
  exists plan resources, load (H := host) (plan_json the_args) (world_of harmless) = (Ok plan, world_of harmless) /\
    accepted the_args plan resources.
Proof.
  intros host. apply (plan_accepted (H := host) the_args (world_of harmless)).
  assert ((main (H := host) the_args (world_of harmless)).1 = Ok 0) as E by (vm_compute; reflexivity). exact E.
Defined.

(** A rule that opens every port of the host to the world is not among the rules checked. *)
Definition wide_open : val := rule "anything" "INGRESS" "6" "0.0.0.0/0" "CIDR_BLOCK" 1 65535.
Example wide_ingress_accepted : (main (H := quiet_host) the_args (world_of wide_open)).1 = Ok 0.
Proof. vm_compute. reflexivity. Qed.
Example one_port_refused : (main (H := quiet_host) the_args
  (world_of (rule "anything" "INGRESS" "6" "0.0.0.0/0" "CIDR_BLOCK" 8080 8080))).1 = Ok 1.
Proof. vm_compute. reflexivity. Qed.
End PlanV1Run.
