(* ===== verification/FirstReleaseRecovery.v ===== *)
(** * infrastructure/deployment/establish_first_release_recovery.py

    The recovery of a first release: a full backup of the primary's boot volume,
    the public traffic off, and the start and stop of the fallback host, through
    the [oci] command, which is a started process. *)

From Stdlib Require Import Ascii.
From S2P Require Import Prelude PyFloat PyMonad PyValue PyTime PyJson Sha256 PyOs PyConfig OsFacts FsFacts Fixture.
From S2P Require Import ReadinessCommon GenerateSpec CiProvenance PlanV1.

Module FirstRelease.
Import Evidence PlanV1.

(** ** Redaction *)

Definition ocid_char (c : ascii) : bool :=
  let n := N_of_ascii (Str.lower_char c) in
  (Str.is_digit c || ((97 <=? n) && (n <=? 122))%N || inb Ascii.eqb c ["."; "_"; "-"]%char).
Definition OCID : Readiness.matcher := λ s,
  r ← Str.strip_prefix "ocid1." s;
  '(_, r) ← Readiness.non_empty (Readiness.span ocid_char r);
  Some ("<oci-id-redacted>", r).
Definition redact (value : string) : string := Str.take 1000 (Readiness.sub OCID value).

(** [sha256_text(v)] *)
Definition sha256_text (v : val) : res val :=
  if truthy v then match v with VStr s => Ok (VStr (Sha256.hexdigest s)) | _ => no_attr v "encode" end else Ok VNone.

(** ** Values of the inventory *)

Definition normalize_data (data : val) : val :=
  match data with
  | VDict d => match Dict.lookup "items" d with Some (VList l) => VList l | _ => data end
  | _ => data
  end.

Definition runtime {A} (message : string) : res A := raise RuntimeError message.
Definition active_in (gone : list string) (item : val) : res bool :=
  s ← dget item "lifecycle-state"; b ← in_set s (strings gone); Ok (negb b).
Definition matching (field value : string) (gone : list string) (items : val) : res (list val) :=
  l ← py_iter items; rfilter (λ item, rand (get_eq item field (VStr value)) (active_in gone item)) l.
Definition one_active (items : val) (field value label : string) : res val :=
  m ← matching field value ["TERMINATED"; "DELETED"] items;
  match m with [x] => Ok x | _ => runtime (label +:+ " must resolve to exactly one active resource") end.
Definition not_in_state (state : string) (items : val) : res (list val) :=
  l ← py_iter items; rfilter (λ item, get_ne item "lifecycle-state" (VStr state)) l.

Definition fallback_capacity (instance : val) : res (val * val * val) :=
  shape ← dget instance "shape-config"; let shape := or_dict shape in
  name ← dget instance "shape"; ocpus ← dget shape "ocpus"; memory ← dget shape "memory-in-gbs";
  Ok (name, ocpus, memory).
Definition reviewed_fallback_capacity (instance : val) : res bool :=
  c ← fallback_capacity instance;
  let '(name, ocpus, memory) := c in
  Ok (py_eq name (VStr "VM.Standard.E5.Flex") && py_eq ocpus (VInt 4) && py_eq memory (VInt 24)).

(** The backup of a list that a restore may use: by its name, or the newest one made for it *)
Definition reusable_backup (item : val) : res bool :=
  rand (get_eq item "lifecycle-state" (VStr "AVAILABLE")) (rand (get_eq item "type" (VStr "FULL"))
    (t ← dget item "freeform-tags"; get_eq (or_dict t) "liqi_purpose" (VStr "predeploy-restore-point"))).
Definition created_key (item : val) : res (val * val) :=
  t ← dget item "time-created"; Ok (if truthy t then t else VStr "", item).
Definition head_or_none (l : list val) : option val := match l with x :: _ => Some x | [] => None end.
Definition choose_backup (backups : val) (backup_name : option string) : res (option val) :=
  active ← not_in_state "TERMINATED" backups;
  match backup_name with
  | Some n =>
      m ← rfilter (λ item, get_eq item "display-name" (VStr n)) active;
      if Nat.ltb 1 (length m) then runtime "boot-volume backup name is ambiguous for the primary boot volume"
      else Ok (head_or_none m)
  | None =>
      reusable ← rfilter reusable_backup active; keyed ← rmap created_key reusable;
      s ← py_sorted_rev_by fst keyed; Ok (head_or_none (map snd s))
  end.

Definition full (backup : val) : res bool :=
  b ← ror (get_ne backup "lifecycle-state" (VStr "AVAILABLE")) (get_ne backup "type" (VStr "FULL")); Ok (negb b).

Section Env.
Context `{Platform}.

Definition ROOT : path := repo_root.
Definition SCHEMA : path := Path.div ROOT "contracts/infrastructure/first-release-recovery-v1.schema.json".

Definition utc : IO string := t ← now; mret (Time.iso_z_seconds t).

(** [Path.home()] *)
Definition home : IO path :=
  h ← getenv "HOME"; let h := default home_dir h in mret (Path.of_str (if String.eqb h "" then "/" else h)).

Definition load_region (profile : string) : IO string :=
  h ← home; c ← getenv "OCI_CLI_CONFIG_FILE";
  let p := match c with Some s => Path.of_str s | None => Path.div (Path.div h ".oci") "config" end in
  parser ← Config.read p;
  if negb (String.eqb profile "DEFAULT") && negb (Config.has_section profile parser)
  then throw RuntimeError ("OCI profile is missing: " +:+ profile)
  else
    let region := if String.eqb profile "DEFAULT" then default "" (Config.get_default "region" parser)
                  else Config.get profile "region" "" parser in
    if String.eqb region "" then throw RuntimeError "OCI profile does not declare a region" else mret region.

(** ** The command line of the cloud *)

Definition command_of (profile region : string) (args : list string) : list string :=
  ["oci"] ++ args ++ ["--profile"; profile; "--region"; region; "--output"; "json"].
Definition process_of (profile region : string) (args : list string) (timeout : Z) (w : world) : proc :=
  Proc (command_of profile region args) (Some timeout) (environ w) None.
Definition first_text (l : list string) : string :=
  default "" (List.find (λ s, negb (String.eqb s "")) l).
Definition oci_answer (command : list string) (code : Z) (stdout stderr : string) : res val :=
  if negb (code =? 0) then
    runtime (redact (first_text [Str.strip stderr; Str.strip stdout;
                                 "OCI command failed: " +:+ Str.join " " (firstn 4 command)]))
  else match Json.loads stdout with
       | None => runtime "OCI command returned invalid JSON"
       | Some payload => data ← dget payload "data"; Ok (normalize_data data)
       end.
(** The words of a command, its options and a last flag *)
Definition call (words : list string) (options : list (string * val)) (flags : list string) : list val :=
  map VStr words ++ flat_map (λ o, [VStr o.1; o.2]) options ++ map VStr flags.
Definition oci (profile region : string) (args : list val) (timeout : Z) : IO val :=
  args ← lift (rmap expect_str args);
  p ← gets (process_of profile region args timeout);
  r ← run_completed p;
  let '(code, o, e) := r in lift (oci_answer (argv p) code o e).

Section Calls.
Context (profile region : string).

Definition query (args : list val) : IO val := oci profile region args 180.

(** ** The inventory *)

Definition attachment_posture (acc : bool * bool) (attachment : val) : IO (bool * bool) :=
  vnic_id ← lift (getitem attachment "vnic-id");
  vnic ← query (call ["network"; "vnic"; "get"] [("--vnic-id", vnic_id)] []);
  ip ← lift (dget vnic "public-ip");
  subnet_id ← lift (getitem vnic "subnet-id");
  subnet ← query (call ["network"; "subnet"; "get"] [("--subnet-id", subnet_id)] []);
  prohibited ← lift (dget subnet "prohibit-public-ip-on-vnic");
  mret (acc.1 && negb (truthy ip), acc.2 && is_true prohibited).
(** Whether the instance has no public address, and its subnets prohibit one *)
Definition instance_network_posture (compartment_id instance : val) : IO (bool * bool) :=
  id ← lift (getitem instance "id");
  attachments ← query (call ["compute"; "vnic-attachment"; "list"] [("--compartment-id", compartment_id); ("--instance-id", id)] ["--all"]);
  active ← lift (not_in_state "DETACHED" attachments);
  match active with
  | [] => throw RuntimeError "instance has no active VNIC attachment"
  | _ => mfold attachment_posture (true, true) active
  end.

(** Whether every backend of each set is offline; the first that is not ends the loop. *)
Fixpoint sets_offline (nlb_id : val) (backend_sets : list val) : IO bool :=
  match backend_sets with
  | [] => mret true
  | backend_set :: rest =>
      name ← lift (dget backend_set "name");
      if negb (truthy name) then throw RuntimeError "network load balancer backend set has no stable name"
      else
        backends ← query (call ["nlb"; "backend"; "list"] [("--network-load-balancer-id", nlb_id); ("--backend-set-name", name)] ["--all"]);
        online ← lift (l ← py_iter backends; rany (λ item, x ← dget item "is-offline"; Ok (negb (is_true x))) l);
        if online : bool then mret false else sets_offline nlb_id rest
  end.
Definition traffic_is_off (compartment_id : val) (nlb_name : string) : IO bool :=
  nlbs ← query (call ["nlb"; "network-load-balancer"; "list"] [("--compartment-id", compartment_id)] ["--all"]);
  matches ← lift (matching "display-name" nlb_name ["DELETED"; "FAILED"] nlbs);
  match matches with
  | [] => mret true
  | [nlb] =>
      id ← lift (getitem nlb "id");
      backend_sets ← query (call ["nlb"; "backend-set"; "list"] [("--network-load-balancer-id", id)] ["--all"]);
      l ← lift (py_iter backend_sets); sets_offline id l
  | _ => throw RuntimeError "public network load balancer name is ambiguous"
  end.

Definition primary_boot_volume (compartment_id instance : val) : IO val :=
  id ← lift (getitem instance "id"); domain ← lift (getitem instance "availability-domain");
  attachments ← query (call ["compute"; "boot-volume-attachment"; "list"] [("--compartment-id", compartment_id); ("--instance-id", id); ("--availability-domain", domain)] []);
  active ← lift (not_in_state "DETACHED" attachments);
  match active with
  | [x] => lift (getitem x "boot-volume-id")
  | _ => throw RuntimeError "primary instance must have exactly one active boot volume attachment"
  end.

(** ** The backup *)

Definition matching_backup (compartment_id boot_volume_id : val) (backup_name : option string) : IO (option val) :=
  backups ← query (call ["bv"; "boot-volume-backup"; "list"] [("--compartment-id", compartment_id); ("--boot-volume-id", boot_volume_id)] ["--all"]);
  lift (choose_backup backups backup_name).

Definition created_at (backup : val) : res Z :=
  raw ← dget backup "time-created";
  match raw with
  | VStr raw =>
      created ← Time.fromisoformat (Str.replace "Z" "+00:00" raw);
      match Time.offset created with
      | None => runtime "boot-volume backup timestamp has no timezone"
      | Some _ => Time.to_utc local_offset created
      end
  | _ => runtime "boot-volume backup has no creation timestamp"
  end.
Definition age_at (created observed : Z) : res Z :=
  let age := Time.int_seconds (observed - created) in
  if age <? -300 then runtime "boot-volume backup timestamp is in the future" else Ok (Z.max 0 age).
Definition backup_age_seconds (backup : val) : IO Z :=
  created ← lift (created_at backup); observed ← now; lift (age_at created observed).

Definition backup_tags (git_sha : string) : string :=
  Json.dumps Json.compact (VDict [("liqi_git_sha", VStr git_sha); ("liqi_purpose", VStr "predeploy-restore-point")]).
Definition create_backup (boot_volume_id : val) (name git_sha : string) (max_wait_seconds : Z) : IO val :=
  oci profile region (call ["bv"; "boot-volume-backup"; "create"] [("--boot-volume-id", boot_volume_id); ("--display-name", VStr name); ("--type", VStr "FULL"); ("--freeform-tags", VStr (backup_tags git_sha)); ("--wait-for-state", VStr "AVAILABLE"); ("--max-wait-seconds", VStr (Str.of_Z max_wait_seconds))] []) (max_wait_seconds + 120).
Definition ensure_full_backup (compartment_id boot_volume_id : val) (backup_name : option string) (git_sha : string)
    (execute : bool) (max_wait_seconds : Z) : IO (option val * bool) :=
  existing ← matching_backup compartment_id boot_volume_id backup_name;
  match existing with
  | Some b =>
      ok ← lift (full b);
      if ok : bool then mret (Some b, false) else throw RuntimeError "named boot-volume backup is not AVAILABLE and FULL"
  | None =>
      if negb execute then mret (None, false)
      else
        let create_name := match backup_name with
                           | Some n => if String.eqb n "" then "liqi-v1-predeploy-" +:+ Str.take 12 git_sha else n
                           | None => "liqi-v1-predeploy-" +:+ Str.take 12 git_sha
                           end in
        created ← create_backup boot_volume_id create_name git_sha max_wait_seconds;
        ok ← lift (full created);
        if ok : bool then mret (Some created, true)
        else throw RuntimeError "created boot-volume backup did not become AVAILABLE and FULL"
  end.

(** ** The exercise of the fallback *)

Definition power (id : val) (action state : string) (max_wait_seconds : Z) : IO val :=
  oci profile region (call ["compute"; "instance"; "action"] [("--instance-id", id); ("--action", VStr action); ("--wait-for-state", VStr state); ("--max-wait-seconds", VStr (Str.of_Z max_wait_seconds))] []) (max_wait_seconds + 120).
(** [x.get("lifecycle-state") == state] *)
Definition in_state (x : val) (state : string) : res bool := get_eq x "lifecycle-state" (VStr state).

(** The locals [started] and [restored] of the exercise *)
Record progress := Progress { started : bool; restored : bool }.
Definition start_and_stop (instance : val) (max_wait_seconds : Z) : M (progress * world) (string * bool * bool) :=
  id ← lift (getitem instance "id");
  running ← zoom_snd (power id "START" "RUNNING" max_wait_seconds);
  up ← lift (in_state running "RUNNING");
  modl (λ p, Progress up (restored p)) ;;
  (if negb up then throw RuntimeError "fallback instance did not reach RUNNING" else mret tt) ;;
  id ← lift (getitem instance "id");
  stopped ← zoom_snd (power id "STOP" "STOPPED" max_wait_seconds);
  down ← lift (in_state stopped "STOPPED");
  modl (λ p, Progress (started p) down) ;;
  (if negb down then throw RuntimeError "fallback instance did not return to STOPPED" else mret tt) ;;
  mret ("passed", true, true).
Definition stop_again (instance : val) (max_wait_seconds : Z) : M (progress * world) unit :=
  catch
    (id ← lift (getitem instance "id");
     stopped ← zoom_snd (power id "STOP" "STOPPED" max_wait_seconds);
     down ← lift (in_state stopped "STOPPED");
     modl (λ p, Progress (started p) down))
    (on_any (λ _, modl (λ p, Progress (started p) false))).
Definition exercise_fallback (instance : val) (execute : bool) (max_wait_seconds : Z) : IO (string * bool * bool) :=
  initial ← lift (dget instance "lifecycle-state");
  if py_ne initial (VStr "STOPPED")
  then throw RuntimeError "fallback instance must be STOPPED before the recovery exercise"
  else if negb execute then mret ("not-run", true, false)
  else with_locals (Progress false false)
    (catch (start_and_stop instance max_wait_seconds)
       (on_any (λ e,
          p ← getl;
          mwhen (started p && negb (restored p)) (stop_again instance max_wait_seconds) ;;
          mraise e))).
End Calls.

(** ** The evidence *)

Definition write_evidence (p : path) (document : val) : IO unit :=
  schema ← load_json SCHEMA;
  (match schema_errors schema document with
   | e :: _ => throw RuntimeError ("generated recovery evidence is invalid: " +:+ e.2)
   | [] => mret tt
   end) ;;
  p ← resolve p;
  mkdir_p (Path.parent p) ;;
  let temporary := Path.with_name p ("." +:+ Path.name p +:+ ".new." +:+ Str.of_Z pid) in
  write_file temporary (json_text document) ;;
  chmod temporary 384 ;;
  replace temporary p.

(** ** The program *)

Record args := Args {
  a_profile : string; compartment_name : string; primary_instance_name : string; fallback_instance_name : string;
  network_load_balancer_name : string; backup_name : option string; approval_reference : option string;
  max_wait_seconds : Z; execute : bool; a_output : path
}.

Definition nonempty (o : option string) : option string :=
  match o with Some s => if String.eqb s "" then None else Some s | None => None end.

(** The refusal of the arguments, in order *)
Definition refuse_args (a : args) : IO path :=
  there ← exists_ (a_output a); link ← is_symlink (a_output a);
  if there || link : bool then sysexit "--output must name a new regular file" else
  output ← resolve (a_output a);
  root ← resolve ROOT;
  match Path.relative_to output root with
  | Some _ => sysexit "--output must remain outside the source repository"
  | None =>
      if negb ((60 <=? max_wait_seconds a) && (max_wait_seconds a <=? 7200))
      then sysexit "--max-wait-seconds must be 60..7200"
      else match execute a, nonempty (approval_reference a) with
           | true, None => sysexit "--execute requires a non-secret approval reference"
           | true, Some r => if Str.len (Str.strip r) <? 3
                             then sysexit "--execute requires a non-secret approval reference" else mret output
           | false, Some _ => sysexit "approval reference is valid only with --execute"
           | false, None => mret output
           end
  end.

(** [subprocess.check_output(["git", ...], cwd=ROOT, text=True, timeout=30).strip()] *)
Definition git (args : list string) : IO string :=
  p ← gets (λ w, Proc ("git" :: args) (Some 30) (environ w) (Some ROOT));
  r ← run_completed p;
  let '(code, o, _) := r in
  if code =? 0 then mret (Str.strip o) else throw CalledProcessError (CiProvenance.called_text ("git" :: args) code).

Definition initial_document (a : args) (git_sha observed_at : string) : val := VDict [
  ("schema_version", VStr "liqi.infrastructure.first-release-recovery/v1"); ("git_sha", VStr git_sha);
  ("environment", VStr "production"); ("status", VStr "blocked");
  ("strategy", VStr "traffic-disable-and-boot-volume-restore"); ("public_traffic_enabled", VBool false);
  ("primary", VDict [("instance_id_sha256", VNone); ("public_ip_present", VNone); ("subnet_public_ip_prohibited", VNone);
     ("boot_volume_backup_id_sha256", VNone); ("backup_state", VStr "MISSING"); ("backup_type", VNone);
     ("backup_age_seconds", VNone); ("backup_purpose", VStr "predeploy-restore-point")]);
  ("fallback", VDict [("instance_id_sha256", VNone); ("lifecycle_state", VStr "UNKNOWN"); ("public_ip_present", VNone);
     ("subnet_public_ip_prohibited", VNone); ("start_stop_test_status", VStr "not-run");
     ("restored_original_state", VBool false); ("shape", VNone); ("ocpus", VNone); ("memory_gib", VNone)]);
  ("database", VDict [("down_migration_allowed", VBool false); ("recovery_mode", VStr "forward-only")]);
  ("approval_reference", VStr (default "dry-run-no-approval" (nonempty (approval_reference a))));
  ("observed_at", VStr observed_at); ("oci_mutation_performed", VBool false); ("blockers", VList [])].

(** The document, updated as the run goes *)
Abbreviation C := (M (val * world)).
Definition setd (ks : list string) (v : val) : C unit := modl (vset_path ks v).
Definition add_blocker (s : string) (document : val) : val :=
  match dget document "blockers" with Ok (VList l) => vset "blockers" (VList (l ++ [VStr s])) document | _ => document end.
Definition block (s : string) : C unit := modl (add_blocker s).
Definition runtime_if (b : bool) (message : string) : C unit := if b then throw RuntimeError message else mret tt.

Section Main.
Context (a : args) (region git_sha : string).

Definition compartment_and_instances : C (val * val * val) :=
  compartments ← zoom_snd (query (a_profile a) region (call ["iam"; "compartment"; "list"] [] ["--all"]));
  compartment ← lift (one_active compartments "name" (compartment_name a) "production compartment");
  id ← lift (getitem compartment "id");
  instances ← zoom_snd (query (a_profile a) region (call ["compute"; "instance"; "list"] [("--compartment-id", id)] ["--all"]));
  primary ← lift (one_active instances "display-name" (primary_instance_name a) "primary instance");
  fallback ← lift (one_active instances "display-name" (fallback_instance_name a) "fallback instance");
  same ← lift (x ← getitem primary "id"; y ← getitem fallback "id"; Ok (py_eq x y));
  runtime_if same "primary and fallback instances must be distinct" ;;
  stopped ← lift (get_ne primary "lifecycle-state" (VStr "RUNNING"));
  runtime_if stopped "primary instance must be RUNNING while the predeploy restore point is established" ;;
  mret (compartment, primary, fallback).

Definition describe_instances (primary fallback : val) : C unit :=
  p ← lift (x ← getitem primary "id"; sha256_text x); setd ["primary"; "instance_id_sha256"] p ;;
  f ← lift (x ← getitem fallback "id"; sha256_text x); setd ["fallback"; "instance_id_sha256"] f ;;
  s ← lift (dget_or fallback "lifecycle-state" (VStr "UNKNOWN")); setd ["fallback"; "lifecycle_state"] s ;;
  c ← lift (fallback_capacity fallback);
  setd ["fallback"; "shape"] c.1.1 ;; setd ["fallback"; "ocpus"] c.1.2 ;; setd ["fallback"; "memory_gib"] c.2 ;;
  reviewed ← lift (reviewed_fallback_capacity fallback);
  runtime_if (negb reviewed) "fallback instance must retain the reviewed E5 4 OCPU/24 GiB capacity".

(** The posture of the instance under [key] of the document *)
Definition describe_posture (compartment instance : val) (key message : string) : C unit :=
  id ← lift (getitem compartment "id");
  p ← zoom_snd (instance_network_posture (a_profile a) region id instance);
  setd [key; "public_ip_present"] (VBool (negb p.1)) ;;
  setd [key; "subnet_public_ip_prohibited"] (VBool p.2) ;;
  runtime_if (negb p.1) message.

Definition check_traffic (compartment : val) : C unit :=
  id ← lift (getitem compartment "id");
  off ← zoom_snd (traffic_is_off (a_profile a) region id (network_load_balancer_name a));
  if off : bool then mret tt
  else setd ["public_traffic_enabled"] (VBool true) ;;
       throw RuntimeError "public network load balancer still has an online backend".

Definition describe_backup (backup : option val) : C unit :=
  match backup with
  | None => block "Fresh full predeploy boot-volume backup is missing; rerun with --execute and approval."
  | Some b =>
      age ← zoom_snd (backup_age_seconds b);
      runtime_if (86400 <? age) "full boot-volume backup is older than the 24-hour production recovery window" ;;
      h ← lift (x ← getitem b "id"; sha256_text x);
      s ← lift (dget_or b "lifecycle-state" (VStr "UNKNOWN")); t ← lift (dget b "type");
      setd ["primary"; "boot_volume_backup_id_sha256"] h ;; setd ["primary"; "backup_state"] s ;;
      setd ["primary"; "backup_type"] t ;; setd ["primary"; "backup_age_seconds"] (VInt age)
  end.

Definition establish_backup (compartment primary : val) : C bool :=
  id ← lift (getitem compartment "id");
  boot_volume_id ← zoom_snd (primary_boot_volume (a_profile a) region id primary);
  mwhen (execute a) (setd ["oci_mutation_performed"] (VBool true)) ;;
  id ← lift (getitem compartment "id");
  r ← zoom_snd (ensure_full_backup (a_profile a) region id boot_volume_id (backup_name a) git_sha (execute a) (max_wait_seconds a));
  describe_backup r.1 ;;
  mret r.2.

Definition establish : C unit :=
  cpf ← compartment_and_instances;
  let '(compartment, primary, fallback) := cpf in
  describe_instances primary fallback ;;
  describe_posture compartment primary "primary" "primary instance has a public IP before cutover" ;;
  describe_posture compartment fallback "fallback" "fallback instance has a public IP" ;;
  check_traffic compartment ;;
  backup_mutation ← establish_backup compartment primary;
  r ← zoom_snd (exercise_fallback (a_profile a) region fallback (execute a) (max_wait_seconds a));
  let '(test_status, restored, fallback_mutation) := r in
  s ← lift (if restored then Ok (VStr "STOPPED") else dget_or fallback "lifecycle-state" (VStr "UNKNOWN"));
  setd ["fallback"; "lifecycle_state"] s ;;
  setd ["fallback"; "start_stop_test_status"] (VStr test_status) ;;
  setd ["fallback"; "restored_original_state"] (VBool restored) ;;
  document ← getl;
  m ← lift (getitem document "oci_mutation_performed");
  setd ["oci_mutation_performed"] (if truthy m then m else VBool (backup_mutation || fallback_mutation)) ;;
  mwhen (negb (execute a)) (block "Fallback start/stop recovery exercise was not executed.") ;;
  document ← getl;
  blockers ← lift (getitem document "blockers");
  setd ["status"] (VStr (if negb (truthy blockers) && execute a then "passed" else "blocked")).

Definition attempt : C unit :=
  catch establish (on_any (λ e, setd ["status"] (VStr "failed") ;; block (redact (exn_str e)))).

Definition summary (document : val) (output : path) : res val :=
  status ← getitem document "status"; backup_state ← item document ["primary"; "backup_state"];
  fallback_state ← item document ["fallback"; "lifecycle_state"]; traffic ← getitem document "public_traffic_enabled";
  mutation ← getitem document "oci_mutation_performed";
  Ok (VDict [("status", status); ("git_sha", VStr git_sha); ("backup_state", backup_state); ("fallback_state", fallback_state);
    ("traffic_enabled", traffic); ("oci_mutation_performed", mutation); ("output", VStr (Path.to_str output))]).
Definition exit_code (status : val) : Z :=
  if py_eq status (VStr "passed") then 0 else if py_eq status (VStr "blocked") then 2 else 3.

Definition conclude (output : path) : C Z :=
  attempt ;;
  t ← zoom_snd utc; setd ["observed_at"] (VStr t) ;;
  document ← getl;
  zoom_snd (write_evidence output document) ;;
  s ← lift (summary document output); zoom_snd (print (Json.dumps Json.plain_sorted s)) ;;
  status ← lift (getitem document "status");
  mret (exit_code status).
End Main.

Definition main (a : args) : IO Z :=
  output ← refuse_args a;
  status ← git ["status"; "--porcelain"; "--untracked-files=all"];
  if negb (String.eqb status "") then sysexit "clean exact-SHA worktree is required" else
  git_sha ← git ["rev-parse"; "HEAD"];
  region ← load_region (a_profile a);
  if negb (String.eqb region "ap-singapore-2") then sysexit "first-release recovery is restricted to ap-singapore-2" else
  t ← utc;
  with_locals (initial_document a git_sha t) (conclude a region git_sha output).
End Env.
End FirstRelease.
