(* ===== verification/FirstReleaseFacts.v ===== *)
(** * What the recovery of a first release does

    A dry run starts queries only; a run that passes has a backup, a private
    fallback that went up and came down; a fallback that was seen running is
    told to stop, whatever happens next. *)

From Stdlib Require Import Ascii.
From S2P Require Import Prelude PyFloat PyMonad PyValue PyTime PyJson Sha256 PyOs PyConfig OsFacts FsFacts Fixture.
From S2P Require Import ReadinessCommon GenerateSpec PlanV1 PlanProperties FirstReleaseRecovery.

Module FirstReleaseSpec.
Import Evidence PlanV1 PlanV1Spec FirstRelease.

(** *** The command lines *)

Definition query_words : list (list string) := [
  ["iam"; "compartment"; "list"]; ["compute"; "instance"; "list"]; ["compute"; "vnic-attachment"; "list"];
  ["compute"; "boot-volume-attachment"; "list"]; ["network"; "vnic"; "get"]; ["network"; "subnet"; "get"];
  ["nlb"; "network-load-balancer"; "list"]; ["nlb"; "backend-set"; "list"]; ["nlb"; "backend"; "list"];
  ["bv"; "boot-volume-backup"; "list"]].
Definition git_queries : list (list string) :=
  [["git"; "status"; "--porcelain"; "--untracked-files=all"]; ["git"; "rev-parse"; "HEAD"]].
(** A command that changes nothing in the cloud or the repository *)
Definition observes (p : proc) : Prop :=
  argv p ∈ git_queries \/ exists words rest, words ∈ query_words /\ argv p = "oci" :: words ++ rest.

Lemma command_first words l args : rmap expect_str (map VStr words ++ l) = Ok args -> exists rest, args = words ++ rest.
Proof.
  revert args. induction words as [|x words IH]; intros args E; [by exists args|]. simpl in E.
  apply bind_Ok in E as (r & E1 & E). injection E as <-. destruct (IH _ E1) as [rest ->]. by exists rest.
Qed.

Section Facts.
Context `{Platform}.

Lemma sl_advance d w : log (advance d w) = log w.
Proof. done. Qed.

(** A command starts one process, when its words are strings. *)
Lemma oci_log profile region l t w args : rmap expect_str l = Ok args ->
  log (oci profile region l t w).2 = process_of profile region args t w :: log w.
Proof.
  intros E. unfold oci. rewrite (lift_run _ _ _ _ E). unfold mbind at 1, M_bind at 1, gets.
  pose proof (run_completed_log (process_of profile region args t w) w) as Er. unfold mbind, M_bind.
  destruct (run_completed _ w) as [[[[code o] e]|e] w1]; done.
Qed.
Lemma oci_query profile region words options flags t : words ∈ query_words ->
  Pres (starts_only observes) (oci profile region (call words options flags) t).
Proof.
  intros Hw w. destruct (rmap expect_str (call words options flags)) as [args|e] eqn:E.
  - exists [process_of profile region args t w]. rewrite (oci_log _ _ _ _ _ _ E). split; [done|].
    apply command_first in E as [rest ->]. constructor; [|constructor]. right. exists words.
    exists (rest ++ ["--profile"; profile; "--region"; region; "--output"; "json"]). split; [done|].
    unfold process_of, command_of. cbn [argv]. by rewrite <-!app_assoc.
  - unfold oci. rewrite E. by exists [].
Qed.
Lemma query_observes profile region words options flags : words ∈ query_words ->
  Pres (starts_only observes) (query profile region (call words options flags)).
Proof. intros Hw. by apply oci_query. Qed.
Lemma lg_oci profile region l t : Pres log_grows (oci profile region l t).
Proof.
  intros w. destruct (rmap expect_str l) as [args|e] eqn:E.
  - exists [process_of profile region args t w]. by rewrite (oci_log _ _ _ _ _ _ E).
  - unfold oci. rewrite E. by exists [].
Qed.
#[local] Hint Resolve lg_oci : pres.
Lemma git_observes args : ("git" :: args) ∈ git_queries -> Pres (starts_only observes) (git args).
Proof.
  intros Hg w. unfold git, mbind at 1, M_bind at 1, gets.
  set (p := Proc ("git" :: args) (Some 30) (environ w) (Some ROOT)).
  assert (Pres (starts_only observes) (r ← run_completed p; let '(code, o, _) := r in
    if code =? 0 then mret (Str.strip o) else throw CalledProcessError (CiProvenance.CiProvenance.called_text ("git" :: args) code))) as Hp.
  { apply pres_bind; [apply _| |solve_pres]. apply so_run_completed. by left. }
  apply (Hp w).
Qed.
End Facts.

(** Membership of a literal in a literal list *)
Ltac listed := apply list_elem_of_In; simpl; tauto.
Ltac observe := apply query_observes; listed.
#[local] Hint Extern 3 (Pres (starts_only observes) (query _ _ _)) => observe : pres.
#[local] Hint Extern 3 (Pres (starts_only observes) (git _)) => apply git_observes; listed : pres.

Section DryRun.
Context `{Platform}.

Lemma ob_posture p r c i : Pres (starts_only observes) (instance_network_posture p r c i).
Proof. unfold instance_network_posture, attachment_posture. solve_pres. Qed.
Lemma ob_sets p r n l : Pres (starts_only observes) (sets_offline p r n l).
Proof.
  induction l as [|b l IH]; simpl; [apply pres_ret, _|]. apply pres_bind; [apply _|apply pres_lift, _|intros name].
  destruct (negb (truthy name)); [apply pres_throw, _|]. apply pres_bind; [apply _|observe|intros bs].
  apply pres_bind; [apply _|apply pres_lift, _|intros online]. destruct online; [apply pres_ret, _|done].
Qed.
#[local] Hint Resolve ob_posture ob_sets : pres.
Lemma ob_traffic p r c n : Pres (starts_only observes) (traffic_is_off p r c n).
Proof. unfold traffic_is_off. solve_pres. Qed.
Lemma ob_boot p r c i : Pres (starts_only observes) (primary_boot_volume p r c i).
Proof. unfold primary_boot_volume. solve_pres. Qed.
Lemma ob_matching p r c b n : Pres (starts_only observes) (matching_backup p r c b n).
Proof. unfold matching_backup. solve_pres. Qed.
#[local] Hint Resolve ob_traffic ob_boot ob_matching : pres.
Lemma ob_ensure p r c b n g m : Pres (starts_only observes) (ensure_full_backup p r c b n g false m).
Proof. unfold ensure_full_backup. cbn [negb]. solve_pres. Qed.
Lemma ob_exercise p r i m : Pres (starts_only observes) (exercise_fallback p r i false m).
Proof. unfold exercise_fallback. cbn [negb]. solve_pres. Qed.
#[local] Hint Resolve ob_ensure ob_exercise : pres.
Lemma ob_age b : Pres (starts_only observes) (backup_age_seconds b).
Proof. unfold backup_age_seconds. solve_pres. Qed.
#[local] Hint Resolve ob_age : pres.

Lemma ob_establish a region sha : execute a = false -> Pres (on_snd (starts_only observes)) (establish a region sha).
Proof.
  intros He. unfold establish. apply pres_bind; [apply _| |intros [[c p] f]].
  { unfold compartment_and_instances, runtime_if. solve_pres. }
  apply pres_bind; [apply _|unfold describe_instances, setd, runtime_if; solve_pres|intros _].
  apply pres_bind; [apply _|unfold describe_posture, setd, runtime_if; solve_pres|intros _].
  apply pres_bind; [apply _|unfold describe_posture, setd, runtime_if; solve_pres|intros _].
  apply pres_bind; [apply _|unfold check_traffic, setd; solve_pres|intros _].
  apply pres_bind; [apply _| |intros bm].
  { unfold establish_backup, describe_backup, runtime_if, setd, block. rewrite He. solve_pres. }
  rewrite He. unfold setd, block. cbn [negb]. solve_pres.
Qed.

Lemma ob_evidence p d : Pres (starts_only observes) (write_evidence p d).
Proof.
  unfold write_evidence. apply so_same. solve_pres.
Qed.
Lemma ob_region p : Pres (starts_only observes) (load_region p).
Proof. unfold load_region, home, Config.read. solve_pres. Qed.
Lemma ob_refuse a : Pres (starts_only observes) (refuse_args a).
Proof. unfold refuse_args. solve_pres. Qed.
#[local] Hint Resolve ob_evidence ob_region ob_refuse : pres.
Lemma ob_utc : Pres (starts_only observes) utc.
Proof. unfold utc. solve_pres. Qed.
#[local] Hint Resolve ob_utc : pres.

(** Without [--execute] every process the program starts is one of the ten queries of the
    cloud or one of the two questions to git: no backup is created and no host is started
    or stopped, whatever the cloud answers and however the run ends. *)
Theorem dry_run_observes a w : execute a = false -> starts_only observes w (main a w).2.
Proof.
  intros He. enough (Pres (starts_only observes) (main a)) as Hp by apply Hp.
  unfold main. solve_pres. unfold conclude. apply pres_bind; [apply _| |intros _].
  - unfold attempt. apply pres_catch; [apply _|by apply ob_establish|]. intros e k Hk.
    unfold on_any in Hk. destruct (is_exception e); [|done]. injection Hk as <-. unfold setd, block. solve_pres.
  - unfold setd. solve_pres.
Qed.
End DryRun.

(** *** The fallback is stopped again *)

Definition power_args (id : val) (action state : string) (max_wait_seconds : Z) : list val :=
  call ["compute"; "instance"; "action"] [("--instance-id", id); ("--action", VStr action);
    ("--wait-for-state", VStr state); ("--max-wait-seconds", VStr (Str.of_Z max_wait_seconds))] [].
Definition power_words (id action state : string) (max_wait_seconds : Z) : list string :=
  ["compute"; "instance"; "action"; "--instance-id"; id; "--action"; action; "--wait-for-state"; state;
   "--max-wait-seconds"; Str.of_Z max_wait_seconds].

Section Stop.
Context `{Platform} (profile region : string) (max : Z).
#[local] Hint Resolve lg_oci : pres.

Lemma power_string id action state w r w' : power profile region id action state max w = (Ok r, w') ->
  exists s, id = VStr s.
Proof.
  unfold power, oci. intros E. apply M_bind_Ok in E as (args & w1 & E & _). apply lift_Ok in E as [E _].
  simpl in E. destruct id; try done. by eexists.
Qed.
Lemma power_log s action state w :
  log (power profile region (VStr s) action state max w).2 =
  process_of profile region (power_words s action state max) (max + 120) w :: log w.
Proof. unfold power. by apply oci_log. Qed.

Lemma lg_power id action state : Pres log_grows (power profile region id action state max).
Proof. apply lg_oci. Qed.
#[local] Hint Resolve lg_power : pres.
Lemma lg_stop_again i : Pres (on_snd log_grows) (stop_again profile region i max).
Proof. unfold stop_again. solve_pres. Qed.
#[local] Hint Resolve lg_stop_again : pres.

Lemma zoom_run {L W A} (m : M W A) (l : L) w r w' : m w = (r, w') -> zoom_snd m (l, w) = (r, (l, w')).
Proof. unfold zoom_snd. simpl. by intros ->. Qed.
Lemma catch_grows {L A} (m : M (L * world) A) h s w1 : log_grows w1 (m s).2.2 ->
  (forall e k, h e = Some k -> Pres (on_snd log_grows) k) -> log_grows w1 (catch m h s).2.2.
Proof.
  intros Hm Hh. unfold catch. destruct (m s) as [[x|e] s'] eqn:E; simpl in *; [done|].
  destruct (h e) as [k|] eqn:Eh; [|done]. etransitivity; [exact Hm|]. by apply (Hh e k).
Qed.

(** A fallback whose start command answered that it runs is told to stop afterwards: the
    stop command of this host is started after the start, whether the exercise then passes,
    the stop fails, times out or answers anything; and the exercise passes only when a stop
    answered that it is stopped. *)
Theorem started_is_stopped instance id w running w1 r w' :
  dget instance "lifecycle-state" = Ok (VStr "STOPPED") -> getitem instance "id" = Ok id ->
  power profile region id "START" "RUNNING" max w = (Ok running, w1) -> in_state running "RUNNING" = Ok true ->
  exercise_fallback profile region instance true max w = (r, w') ->
  exists s later, id = VStr s /\
    log w' = later ++ process_of profile region (power_words s "STOP" "STOPPED" max) (max + 120) w1 :: log w1 /\
    (forall x, r = Ok x -> exists stopped w2, power profile region id "STOP" "STOPPED" max w1 = (Ok stopped, w2) /\
       in_state stopped "STOPPED" = Ok true).
Proof.
  intros Hs Hid Hp Hr. unfold exercise_fallback. rewrite (lift_run _ _ _ _ Hs).
  change (py_ne (VStr "STOPPED") (VStr "STOPPED")) with false. cbn [negb]. cbv iota.
  destruct (power_string _ _ _ _ _ _ Hp) as [s ->].
  set (q := process_of profile region (power_words s "STOP" "STOPPED" max) (max + 120) w1).
  pose proof (power_log s "STOP" "STOPPED" w1) as Hlog. fold q in Hlog.
  intros E. unfold with_locals in E. destruct (catch _ _ _) as [rc sc] eqn:Ec in E. injection E as <- <-.
  assert (start_and_stop profile region instance max (Progress false false, w) =
    (stopped ← zoom_snd (power profile region (VStr s) "STOP" "STOPPED" max);
     down ← lift (in_state stopped "STOPPED");
     modl (λ p, Progress (started p) down) ;;
     (if negb down then throw RuntimeError "fallback instance did not return to STOPPED" else mret tt) ;;
     mret ("passed", true, true)) (Progress true false, w1)) as Est.
  { unfold start_and_stop. rewrite (lift_run _ _ _ _ Hid).
    rewrite (M_bind_run _ _ _ _ _ (zoom_run _ _ _ _ _ Hp)). rewrite (lift_run _ _ _ _ Hr).
    unfold mbind at 1, M_bind at 1, modl at 1. cbn [fst snd negb]. cbv iota.
    unfold mbind at 1, M_bind at 1. cbn [mret M_ret]. by rewrite (lift_run _ _ _ _ Hid). }
  destruct (power profile region (VStr s) "STOP" "STOPPED" max w1) as [rs w2] eqn:E2. cbn [snd] in Hlog.
  assert (log_grows w2 sc.2) as [later Hl].
  { replace sc with (rc, sc).2 by done. rewrite <-Ec. apply catch_grows.
    - rewrite Est. destruct rs as [stopped|e].
      + rewrite (M_bind_run _ _ _ _ _ (zoom_run _ _ _ _ _ E2)).
        assert (Pres (on_snd log_grows) (down ← lift (in_state stopped "STOPPED");
          modl (λ p : progress, Progress (started p) down) ;;
          (if negb down then throw (S:=progress * world) RuntimeError "fallback instance did not return to STOPPED" else mret tt) ;;
          mret ("passed", true, true))) as Hg by solve_pres. apply (Hg (Progress true false, w2)).
      + unfold mbind at 1, M_bind at 1. rewrite (zoom_run _ _ _ _ _ E2). simpl. reflexivity.
    - intros e k Hk. unfold on_any in Hk. destruct (is_exception e); [|done]. injection Hk as <-. solve_pres. }
  exists s, later. split; [done|]. split; [by rewrite Hl, Hlog|].
  intros x ->.
  apply catch_Ok in Ec as [Ec|(e & s1 & k & _ & Hk & Ec)].
  - rewrite Est in Ec. apply M_bind_Ok in Ec as (stopped & s1 & E3 & Ec).
    apply zoom_Ok in E3 as [E3 _]. cbn [snd] in E3.
    exists stopped, (s1.2). split; [by rewrite <-E2|]. apply M_bind_Ok in Ec as (down & s3 & E4 & Ec). apply lift_Ok in E4 as [E4 _].
    apply M_bind_Ok in Ec as (u & s4 & _ & Ec). destruct down; [done|]. by apply M_bind_Ok in Ec as (? & ? & ? & _).
  - unfold on_any in Hk. destruct (is_exception e); [|done]. injection Hk as <-.
    apply M_bind_Ok in Ec as (p & s2 & _ & Ec). by apply M_bind_Ok in Ec as (? & ? & _ & ?).
Qed.

(** A start command that fails may have started the host all the same: no stop follows. *)
Lemma failed_start_not_stopped instance id w e w1 :
  dget instance "lifecycle-state" = Ok (VStr "STOPPED") -> getitem instance "id" = Ok id ->
  power profile region id "START" "RUNNING" max w = (Raise e, w1) -> is_exception e = true ->
  exercise_fallback profile region instance true max w = (Raise e, w1).
Proof.
  intros Hs Hid Hp He. unfold exercise_fallback. rewrite (lift_run _ _ _ _ Hs).
  change (py_ne (VStr "STOPPED") (VStr "STOPPED")) with false. cbn [negb]. cbv iota.
  unfold with_locals, catch, start_and_stop. rewrite (lift_run _ _ _ _ Hid).
  unfold mbind at 1, M_bind at 1. rewrite (zoom_run _ _ _ _ _ Hp). unfold on_any. by rewrite He.
Qed.
End Stop.

(** *** What a passed run has established *)

(** One statement of a block: any, a pure one, an assignment, one of the program's world *)
Ltac stmt E x H := let s := fresh "s" in apply M_bind_Ok in E as (x & s & H & E).
Ltac pure E x H := stmt E x H; apply lift_Ok in H as [H ->].
Ltac sets E := let u := fresh "u" in let H := fresh in stmt E u H; apply modl_Ok in H as ->.
Ltac runs E x H := stmt E x H; let L := fresh "L" in apply zoom_Ok in H as [H L].
Ltac grows := repeat match goal with
  | H : log_grows ?x ?y |- log_grows ?x ?z => first [exact H | transitivity y; [exact H|]]
  end; try reflexivity.

Section Passed.
Context `{Platform} (a : args) (region sha : string).
#[local] Hint Resolve lg_oci lg_power : pres.

Lemma lg_query p r l : Pres log_grows (query p r l).
Proof. apply lg_oci. Qed.
#[local] Hint Resolve lg_query : pres.
Lemma lg_posture p r c i : Pres log_grows (instance_network_posture p r c i).
Proof. unfold instance_network_posture, attachment_posture. solve_pres. Qed.
Lemma lg_sets p r n l : Pres log_grows (sets_offline p r n l).
Proof.
  induction l as [|b l IH]; simpl; [apply pres_ret, _|]. apply pres_bind; [apply _|apply pres_lift, _|intros name].
  destruct (negb (truthy name)); [apply pres_throw, _|]. apply pres_bind; [apply _|apply lg_query|intros bs].
  apply pres_bind; [apply _|apply pres_lift, _|intros online]. destruct online; [apply pres_ret, _|done].
Qed.
#[local] Hint Resolve lg_posture lg_sets : pres.
Lemma lg_traffic p r c n : Pres log_grows (traffic_is_off p r c n).
Proof. unfold traffic_is_off. solve_pres. Qed.
Lemma lg_boot p r c i : Pres log_grows (primary_boot_volume p r c i).
Proof. unfold primary_boot_volume. solve_pres. Qed.
Lemma lg_ensure p r c b n g x m : Pres log_grows (ensure_full_backup p r c b n g x m).
Proof. unfold ensure_full_backup, matching_backup, create_backup. solve_pres. Qed.
Lemma lg_exercise p r i x m : Pres log_grows (exercise_fallback p r i x m).
Proof. unfold exercise_fallback, start_and_stop, stop_again. solve_pres. Qed.
Lemma lg_age b : Pres log_grows (backup_age_seconds b).
Proof. unfold backup_age_seconds. solve_pres. Qed.
#[local] Hint Resolve lg_traffic lg_boot lg_ensure lg_exercise lg_age : pres.


Lemma lg_instances : Pres (on_snd log_grows) (compartment_and_instances a region).
Proof. unfold compartment_and_instances, runtime_if. solve_pres. Qed.
Lemma lg_describe p f : Pres (on_snd log_grows) (describe_instances p f).
Proof. unfold describe_instances, setd, runtime_if. solve_pres. Qed.
Lemma lg_describe_posture c i k m : Pres (on_snd log_grows) (describe_posture a region c i k m).
Proof. unfold describe_posture, setd, runtime_if. solve_pres. Qed.
Lemma lg_check c : Pres (on_snd log_grows) (check_traffic a region c).
Proof. unfold check_traffic, setd. solve_pres. Qed.
Lemma lg_describe_backup b : Pres (on_snd log_grows) (describe_backup b).
Proof. unfold describe_backup, runtime_if, setd, block. solve_pres. Qed.
#[local] Hint Resolve lg_instances lg_describe lg_describe_posture lg_check lg_describe_backup : pres.
Lemma lg_backup c p : Pres (on_snd log_grows) (establish_backup a region sha c p).
Proof. unfold establish_backup, setd. solve_pres. Qed.
#[local] Hint Resolve lg_backup : pres.

Lemma runtime_if_Ok b m s u s' : runtime_if b m s = (Ok u, s') -> b = false /\ s' = s.
Proof. destruct b; [done|]. by intros [_ ->]%ret_Ok. Qed.

(** The command that starts or stops a host *)
Definition power_command (id : val) (action state : string) : IO val :=
  oci (a_profile a) region (power_args id action state (max_wait_seconds a)) (max_wait_seconds a + 120).

(** The compartment and its two instances, as the cloud lists them *)
Definition located (w w' : world) (c primary fallback : val) : Prop :=
  exists compartments compartment instances w1 p f,
    query (a_profile a) region (call ["iam"; "compartment"; "list"] [] ["--all"]) w = (Ok compartments, w1) /\
    matching "name" (compartment_name a) ["TERMINATED"; "DELETED"] compartments = Ok [compartment] /\
    getitem compartment "id" = Ok c /\
    query (a_profile a) region (call ["compute"; "instance"; "list"] [("--compartment-id", c)] ["--all"]) w1 = (Ok instances, w') /\
    matching "display-name" (primary_instance_name a) ["TERMINATED"; "DELETED"] instances = Ok [primary] /\
    matching "display-name" (fallback_instance_name a) ["TERMINATED"; "DELETED"] instances = Ok [fallback] /\
    getitem primary "id" = Ok p /\ getitem fallback "id" = Ok f /\ py_eq p f = false /\
    dget primary "lifecycle-state" = Ok (VStr "RUNNING").

(** The reviewed capacity of the fallback *)
Definition reviewed (fallback ocpus memory : val) : Prop :=
  fallback_capacity fallback = Ok (VStr "VM.Standard.E5.Flex", ocpus, memory) /\
  py_eq ocpus (VInt 4) = true /\ py_eq memory (VInt 24) = true.

(** No public address and no public backend; whether the subnets prohibit one *)
Definition private (w w' : world) (c primary fallback : val) (subnets : bool * bool) : Prop :=
  exists w1 w2, instance_network_posture (a_profile a) region c primary w = (Ok (true, subnets.1), w1) /\
    instance_network_posture (a_profile a) region c fallback w1 = (Ok (true, subnets.2), w2) /\
    traffic_is_off (a_profile a) region c (network_load_balancer_name a) w2 = (Ok true, w').

(** The backup of the primary's boot volume, the one found or the one just made, and
    its age when the run looked *)
Definition available (w w' : world) (c volume backup : val) : Prop :=
  (exists found w1, matching_backup (a_profile a) region c volume (backup_name a) w = (Ok found, w1) /\
    match found with
    | Some b => b = backup /\ w' = w1
    | None => create_backup (a_profile a) region volume (default ("liqi-v1-predeploy-" +:+ Str.take 12 sha) (nonempty (backup_name a)))
        sha (max_wait_seconds a) w1 = (Ok backup, w')
    end) /\
  dget backup "lifecycle-state" = Ok (VStr "AVAILABLE") /\ dget backup "type" = Ok (VStr "FULL").
Definition aged (w w' : world) (backup : val) (age : Z) : Prop :=
  exists created observed, created_at backup = Ok created /\ now w = (Ok observed, w') /\
    -300 <= Time.int_seconds (observed - created) /\ age = Z.max 0 (Time.int_seconds (observed - created)).
Definition backed_up (w w' : world) (c primary backup : val) (age : Z) : Prop :=
  exists volume w1 w2, primary_boot_volume (a_profile a) region c primary w = (Ok volume, w1) /\
    available w1 w2 c volume backup /\ aged w2 w' backup age /\ age <= 86400.

(** The fallback went up from a stop, and then came down. *)
Definition exercised (w w' : world) (fallback : val) : Prop :=
  dget fallback "lifecycle-state" = Ok (VStr "STOPPED") /\
  exists f f' running stopped w1, getitem fallback "id" = Ok f /\ getitem fallback "id" = Ok f' /\
    power_command f "START" "RUNNING" w = (Ok running, w1) /\ dget running "lifecycle-state" = Ok (VStr "RUNNING") /\
    power_command f' "STOP" "STOPPED" w1 = (Ok stopped, w') /\ dget stopped "lifecycle-state" = Ok (VStr "STOPPED").

(** The evidence of a recovery that passed *)
Definition digest_of (x : val) : res val := i ← getitem x "id"; sha256_text i.
Definition passed_document (observed_at reference : string) (p f b : val) (subnets : bool * bool) (age : Z) (ocpus memory : val) : val := VDict [
  ("schema_version", VStr "liqi.infrastructure.first-release-recovery/v1"); ("git_sha", VStr sha);
  ("environment", VStr "production"); ("status", VStr "passed");
  ("strategy", VStr "traffic-disable-and-boot-volume-restore"); ("public_traffic_enabled", VBool false);
  ("primary", VDict [("instance_id_sha256", p); ("public_ip_present", VBool false);
     ("subnet_public_ip_prohibited", VBool subnets.1); ("boot_volume_backup_id_sha256", b);
     ("backup_state", VStr "AVAILABLE"); ("backup_type", VStr "FULL"); ("backup_age_seconds", VInt age);
     ("backup_purpose", VStr "predeploy-restore-point")]);
  ("fallback", VDict [("instance_id_sha256", f); ("lifecycle_state", VStr "STOPPED"); ("public_ip_present", VBool false);
     ("subnet_public_ip_prohibited", VBool subnets.2); ("start_stop_test_status", VStr "passed");
     ("restored_original_state", VBool true); ("shape", VStr "VM.Standard.E5.Flex"); ("ocpus", ocpus); ("memory_gib", memory)]);
  ("database", VDict [("down_migration_allowed", VBool false); ("recovery_mode", VStr "forward-only")]);
  ("approval_reference", VStr reference); ("observed_at", VStr observed_at);
  ("oci_mutation_performed", VBool true); ("blockers", VList [])].

(** A recovery, from the world its first query meets to the one its last answer leaves;
    the document says what was seen on the way. *)
Definition recovered (w w' : world) (observed_at reference : string) (document : val) : Prop :=
  exists c primary fallback backup ocpus memory subnets age p f b w1 w2 w3,
    located w w1 c primary fallback /\ reviewed fallback ocpus memory /\
    private w1 w2 c primary fallback subnets /\ backed_up w2 w3 c primary backup age /\ exercised w3 w' fallback /\
    digest_of primary = Ok p /\ digest_of fallback = Ok f /\ digest_of backup = Ok b /\
    document = passed_document observed_at reference p f b subnets age ocpus memory.

Lemma one_active_Ok items k v label x : one_active items k v label = Ok x -> matching k v ["TERMINATED"; "DELETED"] items = Ok [x].
Proof.
  unfold one_active. intros E. apply bind_Ok in E as (m & -> & E). destruct m as [|y [|? ?]]; [done| |done]. by injection E as ->.
Qed.
Lemma instances_Ok s c p f s' : compartment_and_instances a region s = (Ok (c, p, f), s') ->
  s'.1 = s.1 /\ exists id, getitem c "id" = Ok id /\ located s.2 s'.2 id p f.
Proof.
  unfold compartment_and_instances. intros E. runs E cs E1. pure E compartment E2. pure E ci E3. runs E l E4.
  pure E pr E5. pure E fb E6. pure E same E7. apply bind_Ok in E7 as (x & Hx & E7). apply bind_Ok in E7 as (y & Hy & [= <-]).
  stmt E u E8. apply runtime_if_Ok in E8 as [E8 ->]. pure E stopped E9. stmt E u1 E10. apply runtime_if_Ok in E10 as [-> ->].
  apply ret_Ok in E as [[= -> -> ->] ->]. split; [congruence|]. exists ci. split; [done|].
  exists cs, c, l, s0.2, x, y. do 3 (split; [by eauto using one_active_Ok|]). split; [done|].
  do 2 (split; [by eauto using one_active_Ok|]). do 3 (split; [done|]). by apply get_ne_str.
Qed.
Lemma describe_Ok p f s u s' : describe_instances p f s = (Ok u, s') -> exists ph fh st ocpus memory,
  digest_of p = Ok ph /\ digest_of f = Ok fh /\ reviewed f ocpus memory /\
  s' = (vset_path ["fallback"; "memory_gib"] memory (vset_path ["fallback"; "ocpus"] ocpus
         (vset_path ["fallback"; "shape"] (VStr "VM.Standard.E5.Flex") (vset_path ["fallback"; "lifecycle_state"] st
         (vset_path ["fallback"; "instance_id_sha256"] fh (vset_path ["primary"; "instance_id_sha256"] ph s.1))))), s.2).
Proof.
  unfold describe_instances, setd. intros E. pure E ph E1. sets E. pure E fh E2. sets E. pure E st E3. sets E.
  pure E cap E4. destruct cap as [[name ocpus] memory]. sets E. sets E. sets E. pure E rv E5. apply runtime_if_Ok in E as [Hr%negb_false_iff ->].
  unfold reviewed_fallback_capacity in E5. rewrite E4 in E5. subst rv. injection E5 as Hr.
  apply andb_prop in Hr as [Hr Hm]. apply andb_prop in Hr as [Hn Ho]. apply py_eq_str_r in Hn as ->.
  by exists ph, fh, st, ocpus, memory.
Qed.
Lemma posture_Ok c id i k m s u s' : getitem c "id" = Ok id -> describe_posture a region c i k m s = (Ok u, s') -> exists b,
  instance_network_posture (a_profile a) region id i s.2 = (Ok (true, b), s'.2) /\
  s'.1 = vset_path [k; "subnet_public_ip_prohibited"] (VBool b) (vset_path [k; "public_ip_present"] (VBool false) s.1).
Proof.
  unfold describe_posture, setd. intros Hc E. pure E id' E1. rewrite Hc in E1. injection E1 as <-. runs E pb E2. destruct pb as [pr b].
  sets E. sets E. apply runtime_if_Ok in E as [Hp%negb_false_iff ->]. simpl in *. subst pr. exists b. by rewrite L.
Qed.
Lemma traffic_Ok c id s u s' : getitem c "id" = Ok id -> check_traffic a region c s = (Ok u, s') ->
  traffic_is_off (a_profile a) region id (network_load_balancer_name a) s.2 = (Ok true, s'.2) /\ s'.1 = s.1.
Proof.
  unfold check_traffic. intros Hc E. pure E id' E1. rewrite Hc in E1. injection E1 as <-. runs E off E2. destruct off.
  - by apply ret_Ok in E as [_ ->].
  - by apply M_bind_Ok in E as (? & ? & _ & ?).
Qed.

Lemma full_Ok b : full b = Ok true -> dget b "lifecycle-state" = Ok (VStr "AVAILABLE") /\ dget b "type" = Ok (VStr "FULL").
Proof.
  unfold full. intros E. apply bind_Ok in E as (x & E & [= Hx%negb_true_iff]). subst x. unfold ror in E.
  apply bind_Ok in E as (y & E1 & E). destruct y; [done|]. by split; apply get_ne_str.
Qed.
Lemma ensure_Ok c v w r mu w' :
  ensure_full_backup (a_profile a) region c v (backup_name a) sha true (max_wait_seconds a) w = (Ok (r, mu), w') ->
  exists b, r = Some b /\ available w w' c v b.
Proof.
  unfold ensure_full_backup. intros E. stmt E o E1. destruct o as [b|].
  - pure E ok E2. destruct ok; [|done]. apply ret_Ok in E as [[= <- _] ->]. exists b. split; [done|]. apply full_Ok in E2.
    split; [|done]. by exists (Some b), s.
  - cbn [negb] in E. cbv iota in E. stmt E b E2. pure E ok E3. destruct ok; [|done].
    apply ret_Ok in E as [[= <- _] ->]. exists b. split; [done|]. apply full_Ok in E3. split; [|done].
    exists None, s. split; [done|]. rewrite <-E2. f_equal. f_equal. unfold nonempty. by destruct (backup_name a) as [n|]; [destruct (String.eqb n "")|].
Qed.
Lemma age_Ok b w age w' : backup_age_seconds b w = (Ok age, w') -> aged w w' b age.
Proof.
  unfold backup_age_seconds. intros E. pure E created E1. stmt E observed E2. apply lift_Ok in E as [E ->].
  unfold age_at in E. cbv zeta in E. destruct (Time.int_seconds _ <? -300) eqn:El; [done|]. apply Z.ltb_ge in El. injection E as <-.
  by exists created, observed.
Qed.
Lemma backup_Ok c id p s mu s' : execute a = true -> getitem c "id" = Ok id -> establish_backup a region sha c p s = (Ok mu, s') ->
  exists b age h, backed_up s.2 s'.2 id p b age /\ digest_of b = Ok h /\
    s'.1 = vset_path ["primary"; "backup_age_seconds"] (VInt age) (vset_path ["primary"; "backup_type"] (VStr "FULL")
      (vset_path ["primary"; "backup_state"] (VStr "AVAILABLE") (vset_path ["primary"; "boot_volume_backup_id_sha256"] h
      (vset_path ["oci_mutation_performed"] (VBool true) s.1)))).
Proof.
  intros He Hc. unfold establish_backup, setd. rewrite He. intros E. pure E i1 E1. rewrite Hc in E1. injection E1 as <-. runs E v E2.
  cbn [mwhen] in E. sets E. pure E i2 E3. rewrite Hc in E3. injection E3 as <-. runs E r E4. destruct r as [r m].
  apply ensure_Ok in E4 as (b & -> & Hb). stmt E u1 E5. apply ret_Ok in E as [_ ->]. unfold describe_backup, setd in E5. cbn [fst] in E5.
  runs E5 age E6. apply age_Ok in E6. stmt E5 u2 E7. apply runtime_if_Ok in E7 as [E7%Z.ltb_ge ->].
  pure E5 h E8. pure E5 st E9. pure E5 ty E10. sets E5. sets E5. sets E5. apply modl_Ok in E5 as ->.
  exists b, age, h. assert (ty = VStr "FULL") as -> by (destruct Hb as (_ & _ & Ht); congruence).
  assert (st = VStr "AVAILABLE") as ->.
  { destruct Hb as (_ & Hs & _). clear - Hs E9. unfold dget, dget_or in Hs, E9. destruct b as [| | | | | |d]; try done.
    destruct (Dict.lookup "lifecycle-state" d); cbn [default from_option] in *; congruence. }
  split; [|split; [done|]].
  - exists v, s0.2, s1.2. split; [done|]. cbn [snd] in *. split; [congruence|]. split; [exact E6|done].
  - cbn [fst snd] in *. congruence.
Qed.

Lemma in_state_Ok x st : in_state x st = Ok true -> dget x "lifecycle-state" = Ok (VStr st).
Proof. by intros E%get_eq_str. Qed.
Lemma exercise_Ok i w x w' : exercise_fallback (a_profile a) region i true (max_wait_seconds a) w = (Ok x, w') ->
  x = ("passed", true, true) /\ exercised w w' i.
Proof.
  unfold exercise_fallback. intros E. pure E st E1. destruct (py_ne st (VStr "STOPPED")) eqn:Es; [done|].
  apply negb_false_iff, py_eq_str_r in Es as ->. cbn [negb] in E. cbv iota in E.
  apply with_locals_Ok in E as [l E]. apply catch_Ok in E as [E|(e & s1 & k & _ & Hk & E)].
  - unfold start_and_stop in E. pure E f E2. runs E running E3. pure E up E4. sets E. stmt E u1 E5. destruct up; [|done].
    apply ret_Ok in E5 as [_ ->]. pure E f' E6. runs E stopped E7. pure E down E8. sets E. stmt E u3 E9. destruct down; [|done].
    apply ret_Ok in E9 as [_ ->]. apply ret_Ok in E as [<- Ew]. apply (f_equal snd) in Ew. cbn [snd] in *. subst w'. split; [done|].
    split; [done|]. exists f, f', running, stopped, s.2. by eauto 10 using in_state_Ok.
  - unfold on_any in Hk. destruct (is_exception e); [|done]. injection Hk as <-.
    apply M_bind_Ok in E as (p & s2 & _ & E). by apply M_bind_Ok in E as (? & ? & _ & ?).
Qed.

(** The status written last, whatever the document was *)
Lemma status_recorded x d y : getitem (vset_path ["status"] x d) "status" = Ok y -> y = x.
Proof. destruct d; try done. simpl. rewrite Dict.lookup_set. by intros [= ->]. Qed.
Lemma status_other k x d y : k <> "status" -> getitem (vset_path [k] x d) "status" = Ok y -> getitem d "status" = Ok y.
Proof. intros Hk. destruct d; try done. simpl. by rewrite Dict.lookup_set_ne by done. Qed.
Lemma status_blocker m d y : getitem (add_blocker m d) "status" = Ok y -> getitem d "status" = Ok y.
Proof.
  unfold add_blocker. destruct (dget d "blockers") as [[]|]; try done. destruct d; try done. simpl.
  by rewrite Dict.lookup_set_ne.
Qed.

Lemma establish_Ok s u s' t r : establish a region sha s = (Ok u, s') -> getitem s'.1 "status" = Ok (VStr "passed") ->
  s.1 = initial_document a sha t -> (execute a = true -> nonempty (approval_reference a) = Some r) ->
  execute a = true /\ recovered s.2 s'.2 t r s'.1.
Proof.
  intros E Hp Hd Hr. unfold establish in E. unfold setd, block in E.
  assert (execute a = true) as He.
  { clear - E Hp. stmt E cpf E1. destruct cpf as [[c p] f]. do 5 (apply M_bind_Ok in E as (? & ? & _ & E)).
    apply M_bind_Ok in E as ([[ts re] fm] & ? & _ & E). do 10 (apply M_bind_Ok in E as (? & ? & _ & E)).
    apply modl_Ok in E as ->. cbn [fst] in Hp. apply status_recorded in Hp. destruct (execute a); [done|]. by rewrite andb_false_r in Hp. }
  split; [done|]. specialize (Hr He). stmt E cpf E1. destruct cpf as [[c p] f]. apply instances_Ok in E1 as (L1 & id & Hc & E1).
  stmt E u2 E2. apply describe_Ok in E2 as (ph & fh & st & ocpus & memory & Hph & Hfh & Hcap & ->).
  stmt E u3 E3. apply (posture_Ok _ _ _ _ _ _ _ _ Hc) in E3 as (b3 & E3 & L3).
  stmt E u4 E4. apply (posture_Ok _ _ _ _ _ _ _ _ Hc) in E4 as (b4 & E4 & L4).
  stmt E u5 E5. apply (traffic_Ok _ _ _ _ _ Hc) in E5 as (E5 & L5).
  stmt E mu E6. apply (backup_Ok _ _ _ _ _ _ He Hc) in E6 as (b & age & h & E6 & Hh & L6).
  runs E x E7. rewrite He in E7. apply exercise_Ok in E7 as [-> E7]. pure E lc E8. injection E8 as <-.
  sets E. sets E. sets E. stmt E d0 E8. apply getl_Ok in E8 as [-> ->]. pure E m E8. sets E. rewrite He in E. cbn [mwhen negb] in E.
  stmt E u9 E9. apply ret_Ok in E9 as [_ ->]. stmt E d1 E9. apply getl_Ok in E9 as [-> ->]. pure E bl E9.
  apply modl_Ok in E as ->. cbn [fst snd] in *. rewrite L6, L5, L4, L3, L1, Hd in L. clear L6 L5 L4 L3 L1. rewrite L in *.
  assert (m = VBool true) as ->.
  { match type of E8 with ?x = _ => assert (x = Ok (VBool true)) as Em by (vm_compute; reflexivity) end. congruence. }
  assert (bl = VList []) as ->.
  { match type of E9 with ?x = _ => assert (x = Ok (VList [])) as Em by (vm_compute; reflexivity) end. congruence. }
  clear L E8 E9.
  exists id, p, f, b, ocpus, memory, (b3, b4), age, ph, fh, h, s0.2, s3.2, s4.2.
  split; [exact E1|]. split; [exact Hcap|]. split; [exists s1.2, s2.2; split; [exact E3|split; [exact E4|exact E5]]|].
  split; [exact E6|]. split; [exact E7|]. do 3 (split; [assumption|]).
  unfold initial_document. rewrite Hr. vm_compute. reflexivity.
Qed.

Lemma attempt_established s u s' t r : attempt a region sha s = (Ok u, s') -> getitem s'.1 "status" = Ok (VStr "passed") ->
  s.1 = initial_document a sha t -> (execute a = true -> nonempty (approval_reference a) = Some r) ->
  execute a = true /\ recovered s.2 s'.2 t r s'.1.
Proof.
  unfold attempt. intros E Hp Hd Hr. apply catch_Ok in E as [E|(e & s1 & k & _ & Hk & E)]; [by eapply establish_Ok|].
  unfold on_any in Hk. destruct (is_exception e); [|done]. injection Hk as <-. unfold setd, block in E. sets E. apply modl_Ok in E as ->.
  cbn [fst] in Hp. by apply status_blocker, status_recorded in Hp.
Qed.
Lemma recovered_observed w w' t t' r d : recovered w w' t r d -> recovered w w' t' r (vset_path ["observed_at"] (VStr t') d).
Proof.
  intros (id & p & f & b & ocpus & memory & sn & age & ph & fh & h & w1 & w2 & w3 & R1 & R2 & R3 & R4 & R5 & R6 & R7 & R8 & ->).
  by exists id, p, f, b, ocpus, memory, sn, age, ph, fh, h, w1, w2, w3.
Qed.
End Passed.

Section Main.
Context `{Platform} (a : args).

Lemma refuse_args_Ok w output w' : refuse_args a w = (Ok output, w') -> w' = w /\
  (execute a = true -> exists r, approval_reference a = Some r /\ 3 <= Str.len (Str.strip r)).
Proof.
  intros E. assert (w' = w) as -> by (eapply pres_eq_run; [|exact E]; unfold refuse_args; solve_pres).
  split; [done|]. unfold refuse_args in E. apply M_bind_Ok in E as (x & w1 & _ & E).
  apply M_bind_Ok in E as (y & w2 & _ & E). destruct (x || y); [done|]. apply M_bind_Ok in E as (o & w3 & _ & E).
  apply M_bind_Ok in E as (root & w4 & _ & E). destruct (Path.relative_to _ _); [done|].
  destruct (negb _); [done|]. intros He. rewrite He in E. unfold nonempty in E.
  destruct (approval_reference a) as [r|]; [|done]. destruct (String.eqb r ""); [done|].
  destruct (Str.len (Str.strip r) <? 3) eqn:El; [done|]. apply Z.ltb_ge in El. by exists r.
Qed.
Lemma exit_code_0 s : exit_code s = 0 -> s = VStr "passed".
Proof.
  unfold exit_code. destruct (py_eq s (VStr "passed")) eqn:E; [by apply py_eq_str_r in E|].
  by destruct (py_eq s (VStr "blocked")).
Qed.

(** Evidence that is written has been found valid against the schema of the repository. *)
Definition recorded (w w' : world) (output : path) (document : val) : Prop :=
  exists schema w1 line, load_json SCHEMA w = (Ok schema, w) /\ schema_errors schema document = [] /\
    write_evidence output document w = (Ok tt, w1) /\ print line w1 = (Ok tt, w').

Lemma write_evidence_Ok output d w w1 : write_evidence output d w = (Ok tt, w1) ->
  exists schema, load_json SCHEMA w = (Ok schema, w) /\ schema_errors schema d = [].
Proof.
  unfold write_evidence. intros E. stmt E schema E1. stmt E u E2. exists schema.
  assert (s = w) as -> by (eapply pres_eq_run; [|exact E1]; solve_pres). split; [done|]. by destruct (schema_errors schema d).
Qed.
Lemma conclude_passed region sha output t w r c l w' : conclude a region sha output (initial_document a sha t, w) = (Ok c, (l, w')) -> c = 0 ->
  (execute a = true -> nonempty (approval_reference a) = Some r) ->
  execute a = true /\ exists w1 w2 t' document, recovered a region sha w w1 t' r document /\
    utc w1 = (Ok t', w2) /\ recorded w2 w' output document.
Proof.
  intros E -> Hr. unfold conclude, setd in E. stmt E u E1. runs E t' E2. sets E. stmt E doc E3. apply getl_Ok in E3 as [-> ->].
  runs E u3 E4. destruct u3. pure E sm E5. runs E u4 E6. destruct u4. pure E st E7. apply ret_Ok in E as [E Es]. subst s2. cbn [fst snd] in *.
  apply exit_code_0 in E as ->. apply status_other in E7; [|done]. rewrite L in E7, E4, E5.
  destruct (attempt_established _ _ _ _ _ _ _ _ E1 E7 eq_refl Hr) as (He & R). split; [done|].
  exists s.2, s0.2, t', (vset_path ["observed_at"] (VStr t') s.1). split; [by eapply recovered_observed|]. split; [done|].
  destruct (write_evidence_Ok _ _ _ _ E4) as (schema & Hs & Hv). exists schema, s1.2, (Json.dumps Json.plain_sorted sm).
  by repeat split.
Qed.

(** C15: The recovery of a first release is established (exit code 0) only by an execution
    with an approval reference of three characters at least, on a clean checkout and in the one region. From
    the world of its first query on, each answer met in the world the one before it left: two
    distinct instances, each the only active one of its name; the primary runs and has no public address, the
    fallback of the reviewed capacity has none either and every public backend is offline; the backup of the
    primary's boot volume, found or just made, is available and full and at most 24 hours old when the run looks at
    the clock; the fallback, stopped, answered the start command that it runs and then the stop command that it is
    stopped. The evidence written last is valid against the schema and has every one of these facts: the checkout, the
    digests of the identifiers, the age, the subnets and the capacity. *)
Theorem recovery_established w w' : main a w = (Ok 0, w') ->
  execute a = true /\ exists reference output sha t0 observed_at document w1 w2 w3 w4 w5 w6,
    approval_reference a = Some reference /\ 3 <= Str.len (Str.strip reference) /\
    refuse_args a w = (Ok output, w) /\ git ["status"; "--porcelain"; "--untracked-files=all"] w = (Ok "", w1) /\
    git ["rev-parse"; "HEAD"] w1 = (Ok sha, w2) /\ load_region (a_profile a) w2 = (Ok "ap-singapore-2", w3) /\ utc w3 = (Ok t0, w4) /\
    recovered a "ap-singapore-2" sha w4 w5 observed_at reference document /\ utc w5 = (Ok observed_at, w6) /\
    recorded w6 w' output document.
Proof.
  intros E. unfold main in E. stmt E output E1. destruct (refuse_args_Ok _ _ _ E1) as [-> Ha].
  stmt E status E2. destruct (String.eqb_spec status "") as [->|]; [|done]. cbn [negb] in E. cbv iota in E.
  stmt E sha E3. stmt E region E4. destruct (String.eqb_spec region "ap-singapore-2") as [->|]; [|done]. cbn [negb] in E. cbv iota in E.
  stmt E t E5. apply with_locals_Ok in E as [l E].
  assert (execute a = true -> nonempty (approval_reference a) = Some (default "" (approval_reference a))) as Hr.
  { intros He. destruct (Ha He) as (r & -> & Hl). simpl. by destruct (String.eqb_spec r "") as [->|]. }
  destruct (conclude_passed _ _ _ _ _ _ _ _ _ E eq_refl Hr) as (He & w5 & w6 & t' & d & R & Hu & W).
  split; [done|]. destruct (Ha He) as (r & Hre & Hl). rewrite Hre in R.
  exists r, output, sha, t, t', d, s, s0, s1, s2, w5, w6. by repeat (split; [done|]).
Qed.
End Main.
End FirstReleaseSpec.

(** ** A concrete cloud *)

Module FirstReleaseRun.
Import Fixture Evidence PlanV1 FirstRelease FirstReleaseSpec.

Definition data (v : val) : string := json (VDict [("data", v)]).
Definition instance (id name state : string) : val := VDict [("id", VStr id); ("display-name", VStr name);
  ("lifecycle-state", VStr state); ("availability-domain", VStr "AD-1"); ("shape", VStr "VM.Standard.E5.Flex");
  ("shape-config", VDict [("ocpus", VInt 4); ("memory-in-gbs", VInt 24)])].
Definition backup : val := rec [("id", "backup-1"); ("lifecycle-state", "AVAILABLE"); ("type", "FULL"); ("time-created", "2026-07-14T05:00:00Z")].
Definition answers : list (list string * val) := [
  (["iam"; "compartment"; "list"], VList [rec [("id", "c-1"); ("name", "liqi-live"); ("lifecycle-state", "ACTIVE")]]);
  (["compute"; "instance"; "list"], VList [instance "i-1" "liqi-live-primary" "RUNNING";
     instance "i-2" "liqi-live-primary-fallback-stopped" "STOPPED"]);
  (["compute"; "vnic-attachment"; "list"], VList [rec [("vnic-id", "v-1"); ("lifecycle-state", "ATTACHED")]]);
  (["network"; "vnic"; "get"], rec [("subnet-id", "s-1")]);
  (["network"; "subnet"; "get"], VDict [("prohibit-public-ip-on-vnic", VBool true)]);
  (["nlb"; "network-load-balancer"; "list"], VDict [("items", VList [])]);
  (["compute"; "boot-volume-attachment"; "list"], VList [rec [("boot-volume-id", "b-1"); ("lifecycle-state", "ATTACHED")]]);
  (["bv"; "boot-volume-backup"; "list"], VList []);
  (["bv"; "boot-volume-backup"; "create"], backup)].
Definition has (word : string) (p : proc) : bool := inb String.eqb word (argv p).
(** The answer of the cloud, where the start command exits with [start] *)
Definition cloud (start : Z) (_ : list proc) (p : proc) (f : filesystem) : proc_out * filesystem * Z :=
  (match argv p with
   | "git" :: w :: _ => Exited 0 (if String.eqb w "rev-parse" then "0123456789abcdef0123456789abcdef01234567" else "") ""
   | _ =>
       if has "START" p then Exited start (data (rec [("lifecycle-state", "RUNNING")])) "wait time exceeded"
       else if has "STOP" p then Exited 0 (data (rec [("lifecycle-state", "STOPPED")])) ""
       else match List.find (λ wv, bool_decide (firstn 3 (tl (argv p)) = wv.1)) answers with
            | Some (_, v) => Exited 0 (data v) ""
            | None => Exited 1 "" "unknown command"
            end
   end, f, 1000).
Definition the_cloud : Platform := host_with (cloud 0).
Definition w0 : world := world_with [("/root/.oci/config", Config.lines ["[DEFAULT]"; "region=ap-singapore-2"]);
  ("/repo/contracts/infrastructure/first-release-recovery-v1.schema.json", "{}"); ("/out/.keep", "")].
Definition the_args : args := Args "DEFAULT" "liqi-live" "liqi-live-primary" "liqi-live-primary-fallback-stopped"
  "liqi-live-edge-nlb" None (Some "CHG-1042") 1800 true (Path.of_str "/out/recovery.json").
Definition dry_args : args := Args "DEFAULT" "liqi-live" "liqi-live-primary" "liqi-live-primary-fallback-stopped"
  "liqi-live-edge-nlb" None None 1800 false (Path.of_str "/out/recovery.json").

Lemma recovery_established_witness : let host := the_cloud in let w' := (main (H := host) the_args w0).2 in
  execute the_args = true /\ exists reference output sha t0 observed_at document w1 w2 w3 w4 w5 w6,
    approval_reference the_args = Some reference /\ 3 <= Str.len (Str.strip reference) /\
    refuse_args (H := host) the_args w0 = (Ok output, w0) /\
    git (H := host) ["status"; "--porcelain"; "--untracked-files=all"] w0 = (Ok "", w1) /\
    git (H := host) ["rev-parse"; "HEAD"] w1 = (Ok sha, w2) /\
    load_region (H := host) (a_profile the_args) w2 = (Ok "ap-singapore-2", w3) /\ utc (H := host) w3 = (Ok t0, w4) /\
    recovered (H := host) the_args "ap-singapore-2" sha w4 w5 observed_at reference document /\
    utc (H := host) w5 = (Ok observed_at, w6) /\ recorded (H := host) w6 w' output document.
Proof.
  intros host w'. apply (recovery_established (H := host) the_args w0 w').
  assert ((main (H := host) the_args w0).1 = Ok 0) as E by (vm_compute; reflexivity).
  unfold w'. destruct (main (H := host) the_args w0) as [r x]. cbn [fst snd] in E |- *. by rewrite E.
Defined.

Lemma dry_run_observes_witness : let host := the_cloud in
  starts_only observes w0 (main (H := host) dry_args w0).2 /\ length (log (main (H := host) dry_args w0).2) = 13%nat.
Proof.
  intros host. split; [apply (dry_run_observes (H := host) dry_args w0); reflexivity|].
  vm_compute. reflexivity.
Defined.

Definition the_fallback : val := instance "i-2" "liqi-live-primary-fallback-stopped" "STOPPED".
Definition running : val := rec [("lifecycle-state", "RUNNING")].
Definition w1 : world := (power (H := the_cloud) "DEFAULT" "ap-singapore-2" (VStr "i-2") "START" "RUNNING" 1800 w0).2.
Lemma started_is_stopped_witness : let host := the_cloud in
  let r := (exercise_fallback (H := host) "DEFAULT" "ap-singapore-2" the_fallback true 1800 w0).1 in
  let w' := (exercise_fallback (H := host) "DEFAULT" "ap-singapore-2" the_fallback true 1800 w0).2 in
  exists s later, VStr "i-2" = VStr s /\
    log w' = later ++ process_of "DEFAULT" "ap-singapore-2" (power_words s "STOP" "STOPPED" 1800) (1800 + 120) w1 :: log w1 /\
    (forall x, r = Ok x -> exists stopped w2, power (H := host) "DEFAULT" "ap-singapore-2" (VStr "i-2") "STOP" "STOPPED" 1800 w1 = (Ok stopped, w2) /\
       in_state stopped "STOPPED" = Ok true).
Proof.
  intros host r w'. apply (started_is_stopped (H := host) "DEFAULT" "ap-singapore-2" 1800 the_fallback (VStr "i-2") w0 running w1 r w');
    [reflexivity|reflexivity| |reflexivity|].
  - unfold w1. assert ((power (H := host) "DEFAULT" "ap-singapore-2" (VStr "i-2") "START" "RUNNING" 1800 w0).1 = Ok running) as E
      by (vm_compute; reflexivity).
    fold host. destruct (power (H := host) "DEFAULT" "ap-singapore-2" (VStr "i-2") "START" "RUNNING" 1800 w0) as [x y].
    cbn [fst snd] in E |- *. by rewrite E.
  - unfold r, w'. by destruct (exercise_fallback (H := host) "DEFAULT" "ap-singapore-2" the_fallback true 1800 w0).
Defined.

(** A start command whose wait fails: no stop command follows, and the evidence says that the fallback is stopped. *)
Definition late : Platform := host_with (cloud 1).
Definition evidence (host : Platform) : option val :=
  let w' := (main (H := host) the_args w0).2 in
  match stat w' (Path.of_str "/out/recovery.json") with Some (NFile d _) => Json.loads d | _ => None end.
Example late_start :
  (main (H := late) the_args w0).1 = Ok 3 /\
  existsb (has "STOP") (log (main (H := late) the_args w0).2) = false /\
  (d ← evidence late; Some (item d ["fallback"; "lifecycle_state"])) = Some (Ok (VStr "STOPPED")).
Proof. vm_compute. auto. Qed.
End FirstReleaseRun.
