(* ===== verification/RetainV0.v ===== *)
(** * infrastructure/deployment/adapt_v0_rollback.py

    The retention of an installed release of the first generation as a rollback
    target: its documents, the evidence that it works on the newer database,
    and the descriptor that binds them. *)

From Stdlib Require Import Ascii.
From S2P Require Import Prelude PyFloat PyMonad PyValue PyTime PyJson Sha256 PyOs OsFacts FsFacts Fixture.
From S2P Require Import ReadinessCommon GenerateSpec.

Module RetainV0.
Import Evidence.

Record args := Args {
  release_manifest : path; deployment_spec : path; a_health_target : path; upgrade_compatibility_result : path;
  database_provider_git_sha : string; release_path : path; recovery_root : path;
  approval_reference : option string; execute : bool; a_output : path
}.

(** ** The documents *)

Definition exact_upgrade : val := VDict [
  ("test", VStr "v0-upgrade-compatibility-v1"); ("fromMigration", VInt 4); ("toMigration", VInt 8);
  ("v0FunctionsRetained", VBool true); ("passed", VBool true)].
Definition full_sha (s : string) : bool := (Str.len s =? 40) && Str.all_chars Str.is_hex_lower s.

(** The tests on the identity of the documents, each with the failure it reports *)
Definition identity_tests (manifest spec health release_id : val) : list (res (list string)) := [
  failure_if (ror (get_ne spec "release_id" release_id) (get_ne health "release_id" release_id)) "V0 release ID mismatch";
  failure_if (fields_differ spec "git_sha" manifest "git_sha") "V0 Git SHA mismatch"].
(** [Path(spec.get("target", {}).get("release_path", "/invalid")) != args.release_path] *)
Definition other_path (spec : val) (p : path) : res bool :=
  t ← dget_or spec "target" (VDict []); v ← dget_or t "release_path" (VStr "/invalid"); s ← expect_str v;
  Ok (negb (bool_decide (Path.of_str s = p))).
Definition closing_tests (a : args) (upgrade : val) : list (res (list string)) := [
  failure_if (Ok (negb (py_eq upgrade exact_upgrade))) "Senior 2 V0 upgrade compatibility result is not exact/passed";
  failure_if (Ok (negb (full_sha (database_provider_git_sha a)))) "database provider Git SHA is invalid"].

Definition compatibility (a : args) (release_id : val) (source_sha observed : string) : val := VDict [
  ("schema_version", VStr "liqi.deployment.v0-rollback-compatibility/v1"); ("status", VStr "passed");
  ("database_provider_git_sha", VStr (database_provider_git_sha a)); ("v0_release_id", release_id);
  ("from_migration", VInt 4); ("to_migration", VInt 8); ("v0_functions_retained", VBool true);
  ("source_result_sha256", VStr source_sha); ("observed_at", VStr observed)].

(** The places of the retained files *)
Definition input_root (a : args) : path := Path.div (recovery_root a) "release-inputs".
Definition input_at (a : args) (release_id : val) (suffix : string) : path := Path.div (input_root a) (py_str release_id +:+ suffix).
Definition descriptor_path (a : args) (release_id : val) : path :=
  Path.div (Path.div (recovery_root a) "release-targets") (py_str release_id +:+ ".json").
Definition retained_manifest a r := input_at a r ".release-manifest-v0.json".
Definition retained_spec a r := input_at a r ".deployment-spec-v0.json".
Definition retained_health a r := input_at a r ".health-target-v0.json".
Definition retained_compatibility a r := input_at a r ".v0-rollback-compatibility-v1.json".
Definition health_output (a : args) (release_id : val) : path :=
  Path.div (Path.div (recovery_root a) "health") (py_str release_id +:+ ".json").

Definition service_entry (item : val) : res val :=
  u ← getitem item "unit"; o ← getitem item "start_order"; s ← getitem item "stop_timeout_seconds";
  Ok (VDict [("unit", u); ("start_order", o); ("stop_timeout_seconds", s)]).
Definition pstr (p : path) : val := VStr (Path.to_str p).

(** The fields up to the digest of the manifest, and those after it *)
Definition descriptor_head (a : args) (manifest release_id : val) : res (list (string * val) * val) :=
  g ← getitem manifest "git_sha"; v ← getitem manifest "schema_version";
  Ok ([("schema_version", VStr "liqi.deployment.release-target/v1"); ("release_id", release_id);
       ("runtime_generation", VStr "rust-v0"); ("git_sha", g); ("release_path", pstr (release_path a))], v).
Definition descriptor_tail (a : args) (manifest spec health release_id : val) (compatibility_sha : string) : res (list (string * val)) :=
  services ← getitem spec "services"; services ← py_iter services; services ← rmap service_entry services;
  deadline ← getitem health "deadline_seconds"; deadline ← py_add deadline (VInt 15);
  previous ← item manifest ["rollback"; "previous_release_id"];
  created ← getitem manifest "source_timestamp";
  Ok [("services", VList services); ("drain", VDict [("argv", VNone); ("timeout_seconds", VInt 1)]);
    ("health", VDict [("argv", VList [VStr "/usr/bin/python3"; VStr "/usr/local/lib/liqi-v0/scripts/release/health_gate.py";
        VStr "--target"; pstr (retained_health a release_id); VStr "--output"; pstr (health_output a release_id)]);
      ("timeout_seconds", deadline)]);
    ("database_compatibility", VDict [("minimum_migration", VInt 4); ("maximum_migration", VInt 8);
      ("rollback_safe_through", VInt 8); ("database_rollback_allowed", VBool false)]);
    ("database_compatibility_evidence", VDict [("schema_version", VStr "liqi.deployment.v0-rollback-compatibility/v1");
      ("sha256", VStr compatibility_sha); ("retained_path", pstr (retained_compatibility a release_id))]);
    ("rollback_target_release_id", previous); ("runtime_config_path", VNone); ("credential_directory", VNone);
    ("required_credentials", VList []);
    ("configuration_paths", VStrs ["/etc/liqi/api.json"; "/etc/liqi/realtime.json"; "/etc/liqi/worker.json";
      "/run/liqi/secrets/liqi-api"; "/run/liqi/secrets/liqi-realtime"; "/run/liqi/secrets/liqi-worker"]);
    ("created_at", created)].
Definition descriptor_of (a : args) (head : list (string * val) * val) (manifest_sha : string) (tail : list (string * val))
    (release_id : val) : val :=
  VDict (head.1 ++ [("source_manifest", VDict [("schema_version", head.2); ("sha256", VStr manifest_sha);
    ("retained_path", pstr (retained_manifest a release_id))])] ++ tail).

Definition result_of (a : args) (release_id git_sha : val) (status descriptor_text compatibility_text observed : string) : val := VDict [
  ("schema_version", VStr "liqi.deployment.v0-rollback-retention-result/v1"); ("release_id", release_id); ("git_sha", git_sha);
  ("status", VStr status); ("descriptor_sha256", VStr (Sha256.hexdigest descriptor_text));
  ("compatibility_evidence_sha256", VStr (Sha256.hexdigest compatibility_text));
  ("approval_reference", if execute a then opt_val VStr (approval_reference a) else VNone); ("observed_at", VStr observed);
  ("mutation_performed", VBool (execute a))].

Section Env.
Context `{Platform}.

Definition SEARCH_ROOTS : list path := [Path.div repo_root "contracts"; Path.of_str "/usr/local/share/liqi/contracts"].
Fixpoint first_file (roots : list path) (relative : string) : IO path :=
  match roots with
  | [] => throw FileNotFoundError relative
  | root :: rest => let p := Path.div root relative in
                    there ← is_file p; if there : bool then mret p else first_file rest relative
  end.
Definition contract (relative : string) : IO path := first_file SEARCH_ROOTS relative.
Definition load (p : path) : IO val := load_json p.
Definition digest (p : path) : IO string := sha256_file p.
Definition errors (schema_path : path) (document : val) : IO (list string) :=
  schema ← load schema_path; lift (schema_failures schema document).
Definition contract_errors (relative : string) (document : val) : IO (list string) :=
  p ← contract relative; errors p document.

(** ** The failures *)

Definition artifact_failure (a : args) (artifact : val) : IO (list string) :=
  n ← lift (getitem artifact "name"); n ← lift (expect_str n);
  let p := Path.div (Path.div (release_path a) "bin") n in
  there ← is_file p; mret (if there : bool then [] else ["V0 artifact missing: " +:+ Path.to_str p]).
Definition failures (a : args) (manifest spec health upgrade : val) : IO (list string) :=
  f1 ← contract_errors "operations/release-manifest-v0.schema.json" manifest;
  f2 ← contract_errors "operations/deployment-spec-v0.schema.json" spec;
  f3 ← contract_errors "operations/health-gate-target-v0.schema.json" health;
  release_id ← lift (dget manifest "release_id");
  f4 ← lift (failures_of (identity_tests manifest spec health release_id));
  f5 ← lift (failure_if (other_path spec (release_path a)) "V0 installed release path does not match deployment spec");
  there ← is_dir (release_path a);
  artifacts ← lift (l ← dget_or spec "artifacts" (VList []); py_iter l);
  f7 ← mmap (artifact_failure a) artifacts;
  f8 ← lift (failures_of (closing_tests a upgrade));
  mret (f1 ++ f2 ++ f3 ++ f4 ++ f5 ++ (if there : bool then [] else ["V0 installed release directory is missing"]) ++ concat f7 ++ f8).

Definition refuse_mutation (a : args) : IO unit :=
  if execute a && (negb (String.eqb os_name "posix") || negb (euid =? 0))
  then sysexit "V0 retention mutation requires root on POSIX"
  else if execute a && match approval_reference a with Some r => Str.len (Str.strip r) <? 3 | None => true end
  then sysexit "V0 retention mutation requires approval reference"
  else mret tt.

(** ** The retention *)

Definition verify_units (spec : val) : IO unit :=
  units ← lift (l ← getitem spec "services"; l ← py_iter l;
                rmap (λ i, u ← getitem i "unit"; u ← expect_str u; Ok ("/etc/systemd/system/" +:+ u)) l);
  p ← gets (λ w, Proc (["systemd-analyze"; "verify"] ++ units) (Some 60) (environ w) None);
  r ← run_completed p;
  let '(code, o, e) := r in
  if code =? 0 then mret tt
  else throw RuntimeError (default "" (List.find (λ s, negb (String.eqb s ""))
         [Str.strip e; Str.strip o; "V0 systemd verification failed"])).
Definition retain_copy (source target : path) : IO unit := copyfile source target ;; chmod target 288.
Definition retain_text (target : path) (text : string) : IO unit := write_file target text ;; chmod target 288.
Definition retain (a : args) (spec release_id : val) (compatibility_text descriptor_text : string) : IO unit :=
  verify_units spec ;;
  mfor mkdir_p [input_root a; Path.parent (descriptor_path a release_id); Path.parent (health_output a release_id)] ;;
  mfor (λ st, retain_copy st.1 st.2) [
    (release_manifest a, retained_manifest a release_id); (deployment_spec a, retained_spec a release_id);
    (a_health_target a, retained_health a release_id)] ;;
  retain_text (retained_compatibility a release_id) compatibility_text ;;
  retain_text (descriptor_path a release_id) descriptor_text.

Definition compatibility_evidence (a : args) (release_id : val) (observed : string) : IO val :=
  source ← digest (upgrade_compatibility_result a);
  let c := compatibility a release_id source observed in
  e ← contract_errors "deployment/v0-rollback-compatibility-v1.schema.json" c;
  match e with [] => mret c | _ => sysexit ("invalid V0 compatibility evidence: " +:+ Str.join "; " e) end.
Definition release_descriptor (a : args) (manifest spec health release_id c : val) : IO val :=
  head ← lift (descriptor_head a manifest release_id);
  sha ← digest (release_manifest a);
  tail ← lift (descriptor_tail a manifest spec health release_id (Sha256.hexdigest (json_text c)));
  let d := descriptor_of a head sha tail release_id in
  e ← contract_errors "deployment/release-target-v1.schema.json" d;
  match e with [] => mret d | _ => sysexit ("invalid V0 release descriptor: " +:+ Str.join "; " e) end.

Definition main (a : args) : IO Z :=
  manifest ← load (release_manifest a);
  spec ← load (deployment_spec a);
  health ← load (a_health_target a);
  upgrade ← load (upgrade_compatibility_result a);
  fs ← failures a manifest spec health upgrade;
  match fs with
  | _ :: _ => mfor (λ f, print_err ("ERROR v0-retain: " +:+ f)) fs ;; mret 1
  | [] =>
      refuse_mutation a ;;
      observed ← utc_now;
      release_id ← lift (dget manifest "release_id");
      c ← compatibility_evidence a release_id observed;
      d ← release_descriptor a manifest spec health release_id c;
      mwhen (execute a) (retain a spec release_id (json_text c) (json_text d)) ;;
      git_sha ← lift (getitem manifest "git_sha");
      let result := result_of a release_id git_sha (if execute a then "retained" else "validated")
                      (json_text d) (json_text c) observed in
      write_document (a_output a) result ;;
      print (Json.dumps Json.pretty result) ;;
      mret 0
  end.
End Env.
End RetainV0.

(** ** What is retained *)

Module RetainV0Spec.
Import Evidence RetainV0.

Section Facts.
Context `{Platform} (a : args).

(** Documents that agree on an installed release *)
Record agreed (w : world) (manifest spec health upgrade : val) : Prop := {
  a_manifest : exists p, contract "operations/release-manifest-v0.schema.json" w = (Ok p, w) /\ valid w p manifest;
  a_spec : exists p, contract "operations/deployment-spec-v0.schema.json" w = (Ok p, w) /\ valid w p spec;
  a_health : exists p, contract "operations/health-gate-target-v0.schema.json" w = (Ok p, w) /\ valid w p health;
  a_release : exists r, dget manifest "release_id" = Ok r /\ get_ne spec "release_id" r = Ok false /\
    get_ne health "release_id" r = Ok false;
  a_sha : exists x y, dget spec "git_sha" = Ok x /\ dget manifest "git_sha" = Ok y /\ py_eq x y = true;
  a_path : exists t s, dget_or spec "target" (VDict []) = Ok t /\
    dget_or t "release_path" (VStr "/invalid") = Ok (VStr s) /\ Path.of_str s = release_path a;
  a_dir : is_dir_node (stat w (release_path a)) = true;
  a_artifacts : exists v l, dget_or spec "artifacts" (VList []) = Ok v /\ py_iter v = Ok l /\
    Forall (λ x, exists n, getitem x "name" = Ok (VStr n) /\
      is_file_node (stat w (Path.div (Path.div (release_path a) "bin") n)) = true) l;
  a_upgrade : py_eq upgrade exact_upgrade = true;
  a_provider : full_sha (database_provider_git_sha a) = true
}.

Lemma ro_v0_first_file l r : Pres eq (first_file l r).
Proof.
  induction l as [|x l IH]; simpl; [apply pres_throw, _|]. apply pres_bind; [apply _|apply ro_is_file|intros b].
  destruct b; [apply pres_ret, _|done].
Qed.
Lemma ro_v0_contract r : Pres eq (contract r).
Proof. apply ro_v0_first_file. Qed.
#[local] Hint Resolve ro_v0_contract : pres.
Lemma ro_errors p v : Pres eq (errors p v).
Proof. unfold errors, load. solve_pres. Qed.
#[local] Hint Resolve ro_errors : pres.
Lemma ro_contract_errors r v : Pres eq (contract_errors r v).
Proof. unfold contract_errors. solve_pres. Qed.
#[local] Hint Resolve ro_contract_errors : pres.
Lemma ro_artifact x : Pres eq (artifact_failure a x).
Proof. unfold artifact_failure. solve_pres. Qed.
#[local] Hint Resolve ro_artifact : pres.
Lemma ro_failures m s h u : Pres eq (failures a m s h u).
Proof. unfold failures. solve_pres. Qed.

Lemma contract_valid r v w w' : contract_errors r v w = (Ok [], w') -> exists p, contract r w = (Ok p, w) /\ valid w p v.
Proof.
  unfold contract_errors. intros E. apply M_bind_Ok in E as (p & w1 & E1 & E).
  pose proof (pres_eq_run _ _ _ _ (ro_v0_contract r) E1) as ->. exists p. split; [done|].
  unfold errors, load in E. apply M_bind_Ok in E as (s & w2 & E2 & E).
  pose proof (pres_eq_run _ _ _ _ (ro_load_json p) E2) as ->. apply lift_Ok in E as [E _].
  unfold schema_failures in E. apply bind_Ok in E as (es & Es & E). injection E as E. exists s. split; [done|]. by destruct es.
Qed.

Lemma artifact_clean x w w' : artifact_failure a x w = (Ok [], w') -> exists n, getitem x "name" = Ok (VStr n) /\
  is_file_node (stat w (Path.div (Path.div (release_path a) "bin") n)) = true.
Proof.
  unfold artifact_failure. intros E. apply M_bind_Ok in E as (v & w1 & E1 & E). apply lift_Ok in E1 as [E1 ->].
  apply M_bind_Ok in E as (n & w1 & E2 & E). apply lift_Ok in E2 as [E2 ->]. destruct v; try done. injection E2 as ->.
  apply M_bind_Ok in E as (b & w1 & E3 & E). injection E3 as <- _. apply ret_Ok in E as [E _].
  exists n. split; [done|]. by destruct (is_file_node _).
Qed.

Lemma failures_agreed w manifest spec health upgrade w' : failures a manifest spec health upgrade w = (Ok [], w') ->
  agreed w manifest spec health upgrade.
Proof.
  unfold failures. intros E. apply M_bind_Ok in E as (f1 & w1 & E1 & E).
  pose proof (pres_eq_run _ _ _ _ (ro_contract_errors _ _) E1) as ->. apply M_bind_Ok in E as (f2 & w1 & E2 & E).
  pose proof (pres_eq_run _ _ _ _ (ro_contract_errors _ _) E2) as ->. apply M_bind_Ok in E as (f3 & w1 & E3 & E).
  pose proof (pres_eq_run _ _ _ _ (ro_contract_errors _ _) E3) as ->. apply M_bind_Ok in E as (r & w1 & E4 & E).
  apply lift_Ok in E4 as [E4 ->]. apply M_bind_Ok in E as (f4 & w1 & E5 & E). apply lift_Ok in E5 as [E5 ->].
  apply M_bind_Ok in E as (f5 & w1 & E6 & E). apply lift_Ok in E6 as [E6 ->].
  apply M_bind_Ok in E as (there & w1 & E7 & E). injection E7 as <- <-.
  apply M_bind_Ok in E as (arts & w1 & E8 & E). apply lift_Ok in E8 as [E8 ->]. apply bind_Ok in E8 as (v & Ev & E8).
  apply M_bind_Ok in E as (f7 & w1 & E9 & E). apply M_bind_Ok in E as (f8 & w2 & E10 & E). apply lift_Ok in E10 as [E10 _].
  apply ret_Ok in E as [E _]. apply app_eq_nil in E as [-> E]. apply app_eq_nil in E as [-> E].
  apply app_eq_nil in E as [-> E]. apply app_eq_nil in E as [-> E]. apply app_eq_nil in E as [-> E].
  apply app_eq_nil in E as [Ed E]. apply app_eq_nil in E as [Ea ->].
  apply failures_nil in E5, E10. unfold identity_tests in E5. unfold closing_tests in E10.
  rewrite !Forall_cons, !failure_if_nil in E5. rewrite !Forall_cons, !failure_if_nil in E10.
  destruct E5 as ([A1 A2]%ror_false & B & _). destruct E10 as (C1 & C2 & _). apply fields_agree in B as (x & y & B).
  apply failure_if_nil in E6. unfold other_path in E6. apply bind_Ok in E6 as (t & Ht & E6).
  apply bind_Ok in E6 as (pv & Hp & E6). apply bind_Ok in E6 as (s & Hs & E6). injection E6 as E6%negb_false_iff.
  apply bool_decide_eq_true_1 in E6. destruct pv; try done. injection Hs as ->.
  apply contract_valid in E1, E2, E3. split; try done.
  - exists r. by split.
  - by exists x, y.
  - by exists t, s.
  - by destruct (is_dir_node _).
  - exists v, arts. do 2 (split; [done|]). destruct (mmap_ro (artifact_failure a) arts w f7 w1 ro_artifact E9) as [_ E11].
    clear E9 E8. induction E11 as [|x' y' l l' Hx Hl IH]; [constructor|]. simpl in Ea. apply app_eq_nil in Ea as [-> Ea].
    constructor; [by eapply artifact_clean|by apply IH].
  - by injection C1 as C1%negb_false_iff.
  - by injection C2 as C2%negb_false_iff.
Qed.

(** A descriptor binds the documents it was made from. *)
Record bound (w : world) (manifest c d r : val) : Prop := {
  b_schema : exists w1 p, fs w1 = fs w /\ contract "deployment/release-target-v1.schema.json" w1 = (Ok p, w1) /\ valid w1 p d;
  b_evidence : exists w1 p, fs w1 = fs w /\ contract "deployment/v0-rollback-compatibility-v1.schema.json" w1 = (Ok p, w1) /\ valid w1 p c;
  b_manifest : exists text, stat w (release_manifest a) = Some text /\ exists data m, text = NFile data m /\
    item d ["source_manifest"; "sha256"] = Ok (VStr (Sha256.hexdigest data));
  b_compatibility : item d ["database_compatibility_evidence"; "sha256"] = Ok (VStr (Sha256.hexdigest (json_text c)));
  b_source : exists data m, stat w (upgrade_compatibility_result a) = Some (NFile data m) /\
    getitem c "source_result_sha256" = Ok (VStr (Sha256.hexdigest data));
  b_sha : getitem d "git_sha" = getitem manifest "git_sha" /\ getitem d "release_id" = Ok r /\ getitem c "v0_release_id" = Ok r
}.

Lemma digest_Ok p w h w' : digest p w = (Ok h, w') -> w' = w /\ exists data m, stat w p = Some (NFile data m) /\ h = Sha256.hexdigest data.
Proof.
  unfold digest. intros E. pose proof (pres_eq_run _ _ _ _ (ro_sha256_file p) E) as ->. split; [done|].
  unfold sha256_file in E. apply M_bind_Ok in E as (x & w1 & E1 & E). apply ret_Ok in E as [<- _].
  unfold read_bytes in E1. destruct (stat w p) as [[data m| |]|]; try done. injection E1 as -> _. by exists x, m.
Qed.
Lemma stat_fs p w w1 : fs w1 = fs w -> cwd w1 = cwd w -> stat w1 p = stat w p.
Proof. intros Hf Hc. unfold stat, canon, absolutize. by rewrite Hf, Hc. Qed.

Lemma compatibility_Ok r observed w c w' : compatibility_evidence a r observed w = (Ok c, w') -> w' = w /\
  exists h, digest (upgrade_compatibility_result a) w = (Ok h, w) /\ c = compatibility a r h observed /\
  exists p, contract "deployment/v0-rollback-compatibility-v1.schema.json" w = (Ok p, w) /\ valid w p c.
Proof.
  unfold compatibility_evidence. intros E. apply M_bind_Ok in E as (h & w1 & E1 & E).
  destruct (digest_Ok _ _ _ _ E1) as [-> _]. cbv zeta in E. apply M_bind_Ok in E as (e & w1 & E2 & E).
  pose proof (pres_eq_run _ _ _ _ (ro_contract_errors _ _) E2) as ->. destruct e; [|done]. apply ret_Ok in E as [<- ->].
  split; [done|]. exists h. do 2 (split; [done|]). by apply contract_valid in E2.
Qed.
Lemma descriptor_Ok manifest spec health r c w d w' : release_descriptor a manifest spec health r c w = (Ok d, w') -> w' = w /\
  (exists p, contract "deployment/release-target-v1.schema.json" w = (Ok p, w) /\ valid w p d) /\
  (exists h, digest (release_manifest a) w = (Ok h, w) /\ item d ["source_manifest"; "sha256"] = Ok (VStr h)) /\
  item d ["database_compatibility_evidence"; "sha256"] = Ok (VStr (Sha256.hexdigest (json_text c))) /\
  getitem d "git_sha" = getitem manifest "git_sha" /\ getitem d "release_id" = Ok r.
Proof.
  unfold release_descriptor. intros E. apply M_bind_Ok in E as (head & w1 & E1 & E). apply lift_Ok in E1 as [E1 ->].
  apply M_bind_Ok in E as (h & w1 & E2 & E). destruct (digest_Ok _ _ _ _ E2) as [-> _].
  apply M_bind_Ok in E as (tail & w1 & E3 & E). apply lift_Ok in E3 as [E3 ->]. cbv zeta in E.
  apply M_bind_Ok in E as (e & w1 & E4 & E). pose proof (pres_eq_run _ _ _ _ (ro_contract_errors _ _) E4) as ->.
  destruct e; [|done]. apply ret_Ok in E as [<- ->]. split; [done|]. apply contract_valid in E4. split; [done|].
  unfold descriptor_head in E1. apply bind_Ok in E1 as (g & Eg & E1). apply bind_Ok in E1 as (v & _ & E1). injection E1 as <-.
  unfold descriptor_tail in E3. do 7 (apply bind_Ok in E3 as (? & _ & E3)). injection E3 as <-.
  split; [by exists h|]. split; [done|]. by rewrite Eg.
Qed.

Lemma retain_read spec r ct dt w u w' : retain a spec r ct dt w = (Ok u, w') ->
  read_bytes (descriptor_path a r) w' = (Ok dt, w').
Proof.
  unfold retain. intros E. do 4 (apply M_bind_Ok in E as (? & ? & _ & E)).
  unfold retain_text in E. apply M_bind_Ok in E as (u1 & w1 & E1 & E). apply write_file_read in E1. by eapply chmod_read.
Qed.

Lemma refuse_mutation_Ok w u w' : refuse_mutation a w = (Ok u, w') -> w' = w /\
  (execute a = true -> os_name = "posix" /\ euid = 0 /\ exists r, approval_reference a = Some r /\ 3 <= Str.len (Str.strip r)).
Proof.
  unfold refuse_mutation. intros E. destruct (execute a); [|by apply ret_Ok in E as [_ ->]]. cbn [andb] in E.
  destruct (negb (String.eqb os_name "posix") || negb (euid =? 0)) eqn:E1; [done|].
  apply orb_false_elim in E1 as [E1%negb_false_iff E2%negb_false_iff]. apply String.eqb_eq in E1. apply Z.eqb_eq in E2.
  destruct (approval_reference a) as [r|]; [|done]. destruct (Str.len (Str.strip r) <? 3) eqn:El; [done|].
  apply Z.ltb_ge in El. apply ret_Ok in E as [_ ->]. split; [done|]. intros _. eauto.
Qed.

(** An installed release is validated or retained (exit code 0) only when its manifest, its
    specification and its health target are valid and agree on release, commit and
    installed path, that directory and each artifact in it exist, and the upgrade result is
    exactly the passed one; the descriptor is valid and binds the digests of the manifest
    and of the compatibility evidence, itself valid and bound to the upgrade result. Without
    [--execute] only files were written. With it the program ran as root with an approval
    of three characters at least, and the descriptor is read back from its place. *)
Theorem v0_retained w w' : main a w = (Ok 0, w') ->
  exists manifest spec health upgrade c d r,
    load (release_manifest a) w = (Ok manifest, w) /\ load (deployment_spec a) w = (Ok spec, w) /\
    load (a_health_target a) w = (Ok health, w) /\ load (upgrade_compatibility_result a) w = (Ok upgrade, w) /\
    agreed w manifest spec health upgrade /\ dget manifest "release_id" = Ok r /\ bound w manifest c d r /\
    (execute a = false -> writes_only w w') /\
    (execute a = true -> euid = 0 /\ (exists s, approval_reference a = Some s /\ 3 <= Str.len (Str.strip s)) /\
       exists w1 w2, log w1 = log w /\ retain a spec r (json_text c) (json_text d) w1 = (Ok tt, w2) /\
         read_bytes (descriptor_path a r) w2 = (Ok (json_text d), w2)).
Proof.
  intros E. unfold main in E. apply M_bind_Ok in E as (manifest & w1 & E1 & E). same_world E1.
  apply M_bind_Ok in E as (spec & w1 & E2 & E). same_world E2. apply M_bind_Ok in E as (health & w1 & E3 & E). same_world E3.
  apply M_bind_Ok in E as (upgrade & w1 & E4 & E). same_world E4. apply M_bind_Ok in E as (fl & w1 & E5 & E).
  pose proof (pres_eq_run _ _ _ _ (ro_failures _ _ _ _) E5) as ->.
  destruct fl; [|by apply M_bind_Ok in E as (? & ? & _ & [? _]%ret_Ok)]. apply failures_agreed in E5.
  apply M_bind_Ok in E as (u & w1 & E6 & E). apply refuse_mutation_Ok in E6 as [-> Hx].
  apply M_bind_Ok in E as (observed & w1 & E7 & E).
  assert (fs w1 = fs w /\ cwd w1 = cwd w /\ log w1 = log w) as (Hf & Hc & Hl) by (unfold utc_now in E7; injection E7 as _ <-; done).
  apply M_bind_Ok in E as (r & w2 & E8 & E). apply lift_Ok in E8 as [E8 ->].
  apply M_bind_Ok in E as (c & w2 & E9 & E). apply compatibility_Ok in E9 as (-> & h & Hh & Hcm & p & Hp & Vc).
  apply M_bind_Ok in E as (d & w2 & E10 & E). apply descriptor_Ok in E10 as (-> & (q & Hq & Vd) & (h' & Hh' & Hm) & Hcs & Hg & Hr).
  destruct (digest_Ok _ _ _ _ Hh) as [_ (data & m & Hst & ->)]. destruct (digest_Ok _ _ _ _ Hh') as [_ (data' & m' & Hst' & ->)].
  rewrite (stat_fs _ w w1 Hf Hc) in Hst. rewrite (stat_fs _ w w1 Hf Hc) in Hst'.
  apply M_bind_Ok in E as (u2 & w3 & E11 & E). exists manifest, spec, health, upgrade, c, d, r.
  do 6 (split; [done|]). split; [|split].
  - split; [by exists w1, q|by exists w1, p| |done| |].
    + exists (NFile data' m'). split; [done|]. by exists data', m'.
    + exists data, m. split; [done|]. by rewrite Hcm.
    + by rewrite Hcm.
  - intros He. rewrite He in E11. apply ret_Ok in E11 as [_ ->].
    assert (writes_only w w1) as W1 by exact (pres_run _ _ _ _ _ wo_utc_now E7). etransitivity; [exact W1|].
    eapply pres_run; [|exact E]. solve_pres.
  - intros He. rewrite He in E11. destruct u2. destruct (Hx He) as (_ & Hu & Ha). do 2 (split; [done|]).
    exists w1, w3. do 2 (split; [done|]). by apply retain_read in E11.
Qed.
End Facts.
End RetainV0Spec.

(** ** A concrete release *)

Module RetainV0Run.
Import Fixture Evidence RetainV0 RetainV0Spec.

Definition manifest : val := VDict [("schema_version", VStr "release-manifest-v0"); ("release_id", VStr "r1");
  ("git_sha", VStr "0123456789abcdef0123456789abcdef01234567"); ("source_timestamp", VStr "2026-07-01T00:00:00Z");
  ("rollback", VDict [("previous_release_id", VNone)])].
Definition spec : val := VDict [("release_id", VStr "r1"); ("git_sha", VStr "0123456789abcdef0123456789abcdef01234567");
  ("target", rec [("release_path", "/opt/liqi/releases/r1")]); ("artifacts", VList [rec [("name", "liqi-api")]]);
  ("services", VList [VDict [("unit", VStr "liqi-api.service"); ("start_order", VInt 1); ("stop_timeout_seconds", VInt 30)]])].
Definition health : val := VDict [("release_id", VStr "r1"); ("deadline_seconds", VInt 120)].
Definition schemas : list (string * string) :=
  map (λ n, ("/repo/contracts/" +:+ n +:+ ".schema.json", "{}"))
    ["operations/release-manifest-v0"; "operations/deployment-spec-v0"; "operations/health-gate-target-v0";
     "deployment/release-target-v1"; "deployment/v0-rollback-compatibility-v1"].
Definition w0 : world := world_with ([("/in/manifest.json", json manifest); ("/in/spec.json", json spec);
  ("/in/health.json", json health); ("/in/upgrade.json", json exact_upgrade);
  ("/opt/liqi/releases/r1/bin/liqi-api", "binary"); ("/out/.keep", "")] ++ schemas).
Definition the_args (go : bool) : args := Args (Path.of_str "/in/manifest.json") (Path.of_str "/in/spec.json")
  (Path.of_str "/in/health.json") (Path.of_str "/in/upgrade.json") "fedcba9876543210fedcba9876543210fedcba98"
  (Path.of_str "/opt/liqi/releases/r1") (Path.of_str "/var/lib/liqi/recovery") (if go then Some "CHG-7" else None) go
  (Path.of_str "/out/result.json").

Lemma v0_retained_witness : let host := quiet_host in let a := the_args true in let w := w0 in
  let w' := (main (H := host) a w).2 in
  exists manifest spec health upgrade c d r,
    load (H := host) (release_manifest a) w = (Ok manifest, w) /\ load (H := host) (deployment_spec a) w = (Ok spec, w) /\
    load (H := host) (a_health_target a) w = (Ok health, w) /\ load (H := host) (upgrade_compatibility_result a) w = (Ok upgrade, w) /\
    agreed (H := host) a w manifest spec health upgrade /\ dget manifest "release_id" = Ok r /\ bound (H := host) a w manifest c d r /\
    (execute a = false -> writes_only w w') /\
    (execute a = true -> euid (Platform := host) = 0 /\ (exists s, approval_reference a = Some s /\ 3 <= Str.len (Str.strip s)) /\
       exists w1 w2, log w1 = log w /\ retain (H := host) a spec r (json_text c) (json_text d) w1 = (Ok tt, w2) /\
         read_bytes (descriptor_path a r) w2 = (Ok (json_text d), w2)).
Proof.
  intros host a w w'. apply (v0_retained (H := host) a w w').
  assert ((main (H := host) a w).1 = Ok 0) as E by (vm_compute; reflexivity).
  unfold w'. destruct (main (H := host) a w) as [r x]. cbn [fst snd] in E |- *. by rewrite E.
Defined.
Example dry_run_starts_nothing : (main (H := quiet_host) (the_args false) w0).1 = Ok 0 /\
  log (main (H := quiet_host) (the_args false) w0).2 = [].
Proof. vm_compute. auto. Qed.
End RetainV0Run.
