(* ===== verification/BuildResult.v ===== *)
(** * beam/scripts/validate_linux_release_build_result.py

    The verification of a published Linux release: every file of the publication
    is bound by name and digest, the documents agree, the signatures verify under
    trusted keys that are three different keys, and the native handoff verifies.
    [openssl] and the handoff verifier are started processes. *)

From Stdlib Require Import Ascii.
From S2P Require Import Prelude PyFloat PyMonad PyValue PyTime PyJson PyCodecs Sha256 PyOs OsFacts FsFacts Fixture.
From S2P Require Import GenerateSpec.

Module BuildResult.

Definition TARGETS : list string := ["aarch64-unknown-linux-gnu"; "x86_64-unknown-linux-gnu"].

(** [SHA] and [KEY_ID], matched in full *)
Definition SHA (s : string) : bool := (Str.len s =? 40) && Str.all_chars Str.is_hex_lower s.
Definition key_start (c : ascii) : bool :=
  let n := N_of_ascii c in Str.is_digit c || ((97 <=? n) && (n <=? 122))%N.
Definition key_char (c : ascii) : bool := key_start c || inb Ascii.eqb c ["."; "_"; "-"]%char.
Definition KEY_ID (s : string) : bool :=
  match s with
  | String c r => key_start c && Str.all_chars key_char r && (2 <=? Str.len r) && (Str.len r <=? 63)
  | EmptyString => false
  end.

(** [x[k1][k2]... != y] *)
Definition item_ne (x : val) (ks : list string) (y : val) : res bool := v ← item x ks; Ok (py_ne v y).
Definition items_ne (x : val) (ks : list string) (y : val) (js : list string) : res bool :=
  v ← item x ks; u ← item y js; Ok (py_ne v u).

Section Env.
Context `{Platform}.

Definition ROOT : path := repo_root.
Definition BUILD_RESULT_SCHEMA : path := Path.div ROOT "contracts/runtime/linux-release-build-result-v1.schema.json".
Definition MIX_SCHEMA : path := Path.div ROOT "contracts/deployment/mix-release-v1.schema.json".
Definition RUNTIME_RESULT_SCHEMA : path := Path.div ROOT "contracts/runtime/runtime-artifact-result-v1.schema.json".
Definition NATIVE_SCHEMA : path := Path.div ROOT "contracts/native/native-artifact-v1.schema.json".
Definition NATIVE_DEPLOYMENT_SCHEMA : path := Path.div ROOT "contracts/deployment/native-artifact-v1.schema.json".
Definition NATIVE_HANDOFF_VERIFIER : path := Path.div ROOT "native/scripts/verify_deployment_manifest.py".

Definition load (p : path) : IO val :=
  document ← load_json p;
  if is_dict document then mret document
  else throw ValueError ("JSON root must be an object: " +:+ Path.name p).
Definition validate (schema_path : path) (document : val) (label : string) : IO unit :=
  schema ← load_json schema_path;
  errors ← lift (sorted_errors schema document);
  match errors with
  | e :: _ => throw ValueError (label +:+ " invalid at " +:+ render_error e)
  | [] => mret tt
  end.
Definition digest (p : path) : IO string := sha256_chunked p.

Definition process_of (argv : list string) (timeout : Z) (cwd : option path) (w : world) : proc :=
  Proc argv (Some timeout) (environ w) cwd.
Definition run (argv : list string) (timeout : Z) : IO string :=
  p ← gets (process_of argv timeout (Some ROOT));
  r ← run_completed p;
  let '(code, o, e) := r in
  if code =? 0 then mret (Str.strip o)
  else let detail := Str.strip (if String.eqb e "" then o else e) in
       let tail := Str.last_n 4096 detail in
       throw ValueError (if String.eqb tail "" then "command failed: " +:+ List.hd "" argv else tail).

(** ** Trusted keys *)

Definition trust_root (p : path) (label : string) : IO path :=
  d ← is_dir p; l ← is_symlink p;
  if negb d || l : bool then throw FileNotFoundError (label +:+ " trust directory is missing or is a symlink")
  else resolve p.

Definition public_key_fingerprint (key : path) : IO string :=
  p ← gets (process_of ["openssl"; "pkey"; "-pubin"; "-in"; Path.to_str key; "-outform"; "DER"] 60 None);
  r ← run_completed p;
  let '(code, o, e) := r in
  if code =? 0 then mret (Sha256.hexdigest o)
  else let detail := Str.strip (Codec.replace_errors e) in
       throw ValueError (if String.eqb detail "" then "cannot canonicalize public key" else detail).

Definition add_key (fingerprints : list (string * string)) (labelled : string * path) : IO (list (string * string)) :=
  fingerprint ← public_key_fingerprint labelled.2;
  match Dict.lookup fingerprint fingerprints with
  | Some other => throw ValueError ("public key material is reused by " +:+ other +:+ " and " +:+ labelled.1)
  | None => mret (Dict.set fingerprint labelled.1 fingerprints)
  end.
Definition require_distinct_public_keys (keys : list (string * path)) : IO unit :=
  _ ← mfold add_key [] keys; mret tt.

Definition trusted_key (trust_dir : path) (key_id : val) (label : string) : IO path :=
  key_id ← lift (expect_str key_id);
  if negb (KEY_ID key_id) then throw ValueError (label +:+ " key ID is invalid") else
  root ← trust_root trust_dir label;
  let candidate := Path.div root (key_id +:+ ".pem") in
  link ← is_symlink candidate;
  if link : bool then throw FileNotFoundError (label +:+ " public key is missing or is a symlink") else
  key ← resolve candidate;
  match Path.relative_to key root with
  | None => throw ValueError (label +:+ " key escapes trust directory")
  | Some _ =>
      f ← is_file key; l ← is_symlink key;
      if negb f || l : bool then throw FileNotFoundError (label +:+ " public key is missing or is a symlink")
      else mret key
  end.

Definition verify_ed25519 (payload signature key : path) : IO unit :=
  _ ← run ["openssl"; "pkeyutl"; "-verify"; "-rawin"; "-pubin"; "-inkey"; Path.to_str key; "-in"; Path.to_str payload;
           "-sigfile"; Path.to_str signature] 60;
  mret tt.

(** ** The publication *)

(** A file of the publication, by its record in the result *)
Definition evidence_file (base : path) (record : val) (label : string) : IO path :=
  v ← lift (dget_or record "filename" (VStr "")); let filename := py_str v in
  let relative := Path.of_str filename in
  if absolute relative || negb (Nat.eqb (length (parts relative)) 1) || inb String.eqb ".." (parts relative)
  then throw ValueError (label +:+ " filename is not portable: " +:+ filename) else
  p ← resolve (Path.div base filename);
  root ← resolve base;
  match Path.relative_to p root with
  | None => throw ValueError (label +:+ " escapes publication directory")
  | Some _ =>
      f ← is_file p; l ← is_symlink p;
      if negb f || l : bool
      then throw FileNotFoundError (label +:+ " is missing, non-regular, or a symlink: " +:+ filename) else
      actual ← digest p;
      expected ← lift (dget record "sha256");
      if py_ne (VStr actual) expected then throw ValueError (label +:+ " SHA256 mismatch") else mret p
  end.
Definition file_of (base : path) (result : val) (key label : string) : IO path :=
  record ← lift (getitem result key); evidence_file base record label.

(** [if a or b or ...: raise ValueError(message)] *)
Definition refuse_any (tests : list (res bool)) (message : string) : IO unit :=
  b ← lift (rany id tests); if b : bool then throw ValueError message else mret tt.

Record args := Args {
  a_result : path; git_sha : string; target_triple : string; release_trust_dir : path; native_trust_dir : path
}.
Record publication := Publication {
  manifest_path : path; artifact_path : path; artifact_signature : path; manifest_signature : path;
  runtime_result_path : path; native_provider_path : path; native_deployment_path : path
}.

Section Verify.
Context (a : args).
Let expected_sha : val := VStr (git_sha a).
Let expected_target : val := VStr (target_triple a).

Definition load_result (result_path : path) : IO val :=
  f ← is_file result_path; l ← is_symlink result_path;
  if negb f || l : bool then throw FileNotFoundError "build result must be a regular non-symlink file" else
  result ← load result_path;
  validate BUILD_RESULT_SCHEMA result "Linux release build result" ;;
  refuse_any [item_ne result ["git_sha"] expected_sha; item_ne result ["target_triple"] expected_target]
    "build result Git SHA or target mismatch" ;;
  refuse_any [item_ne result ["status"] (VStr "passed"); (v ← getitem result "build_on_host"; Ok (negb (is_false v)))]
    "build result is not a passed off-host build" ;;
  mret result.

Definition publication_of (base : path) (result : val) : IO publication :=
  manifest_path ← file_of base result "manifest" "Mix manifest";
  artifact_path ← file_of base result "artifact" "Mix archive";
  artifact_signature ← file_of base result "artifact_signature" "Mix archive signature";
  manifest_signature ← file_of base result "manifest_signature" "Mix manifest signature";
  runtime_result_path ← file_of base result "runtime_artifact_result" "runtime artifact result";
  native_provider_path ← file_of base result "native_provider_manifest" "native provider manifest";
  native_deployment_path ← file_of base result "native_deployment_manifest" "native deployment manifest";
  size ← st_size artifact_path;
  refuse_any [(v ← item result ["artifact"; "size_bytes"]; Ok (py_ne (VInt size) v))] "Mix archive size mismatch" ;;
  mret (Publication manifest_path artifact_path artifact_signature manifest_signature runtime_result_path
          native_provider_path native_deployment_path).

Definition load_manifest (result : val) (p : publication) : IO val :=
  manifest ← load (manifest_path p);
  validate MIX_SCHEMA manifest "Mix release manifest" ;;
  refuse_any [items_ne manifest ["release_id"] result ["release_id"]; item_ne manifest ["git_sha"] expected_sha;
              item_ne manifest ["target_triple"] expected_target] "Mix manifest identity mismatch" ;;
  artifact_contract ← lift (getitem manifest "artifact");
  refuse_any [item_ne artifact_contract ["filename"] (VStr (Path.name (artifact_path p)));
    items_ne artifact_contract ["sha256"] result ["artifact"; "sha256"];
    items_ne artifact_contract ["size_bytes"] result ["artifact"; "size_bytes"];
    item_ne artifact_contract ["signature"; "signature_filename"] (VStr (Path.name (artifact_signature p)));
    items_ne artifact_contract ["signature"; "signature_sha256"] result ["artifact_signature"; "sha256"];
    item_ne manifest ["manifest_signature"; "signature_filename"] (VStr (Path.name (manifest_signature p)))]
    "Mix manifest artifact/signature binding mismatch" ;;
  mret manifest.

(** The keys of the archive and of the manifest *)
Definition release_keys (manifest : val) : IO (path * path) :=
  artifact_key_id ← lift (item manifest ["artifact"; "signature"; "key_id"]);
  manifest_key_id ← lift (item manifest ["manifest_signature"; "key_id"]);
  if py_eq artifact_key_id manifest_key_id
  then throw ValueError "release artifact and manifest key IDs must be distinct" else
  artifact_key ← trusted_key (release_trust_dir a) artifact_key_id "release artifact";
  manifest_key ← trusted_key (release_trust_dir a) manifest_key_id "release manifest";
  mret (artifact_key, manifest_key).

Definition check_runtime_result (result : val) (p : publication) : IO unit :=
  runtime_result ← load (runtime_result_path p);
  validate RUNTIME_RESULT_SCHEMA runtime_result "runtime artifact result" ;;
  refuse_any [item_ne runtime_result ["status"] (VStr "passed"); (v ← getitem runtime_result "blockers"; Ok (truthy v));
    item_ne runtime_result ["git_sha"] expected_sha; items_ne runtime_result ["release_id"] result ["release_id"];
    items_ne runtime_result ["artifact_sha256"] result ["artifact"; "sha256"]] "runtime artifact result identity mismatch".

(** [references.get(name)] on the dict of the native artifacts by their manifest's name: the last one counts *)
Definition reference_key (item : val) : res (val * val) :=
  k ← getitem item "manifest_filename"; _ ← check_hash k; Ok (k, item).
Definition reference_of (manifest : val) (name : string) : res val :=
  l ← getitem manifest "native_artifacts"; l ← py_iter l; pairs ← rmap reference_key l;
  Ok match List.find (λ kv, py_eq kv.1 (VStr name)) (rev pairs) with Some kv => kv.2 | None => VNone end.

Definition check_native (result manifest : val) (p : publication) : IO val :=
  native_provider ← load (native_provider_path p);
  native_deployment ← load (native_deployment_path p);
  validate NATIVE_SCHEMA native_provider "native provider manifest" ;;
  validate NATIVE_DEPLOYMENT_SCHEMA native_deployment "native deployment manifest" ;;
  refuse_any [item_ne native_provider ["source_revision"] expected_sha; item_ne native_deployment ["git_sha"] expected_sha;
    item_ne native_provider ["target_triple"] expected_target; item_ne native_deployment ["target_triple"] expected_target;
    items_ne native_provider ["artifact_sha256"] native_deployment ["artifact"; "sha256"]]
    "native provider/deployment identity mismatch" ;;
  reference ← lift (reference_of manifest (Path.name (native_deployment_path p)));
  refuse_any [Ok (negb (truthy reference));
    items_ne reference ["manifest_sha256"] result ["native_deployment_manifest"; "sha256"];
    (v ← getitem reference "required"; Ok (negb (is_true v)))]
    "Mix manifest does not require the exact native deployment handoff" ;;
  mret native_deployment.

Definition verify_handoff (p : publication) : IO unit :=
  root ← trust_root (native_trust_dir a) "native deployment";
  _ ← run [executable; Path.to_str NATIVE_HANDOFF_VERIFIER; "--native-manifest"; Path.to_str (native_provider_path p);
           "--deployment-manifest"; Path.to_str (native_deployment_path p); "--trust-dir"; Path.to_str root] 600;
  mret tt.

Definition output_of (release_id : val) (sha : string) : val := VDict [
  ("validation", VStr "liqi.runtime.linux-release-build-result/v1"); ("status", VStr "passed");
  ("release_id", release_id); ("git_sha", expected_sha); ("target_triple", expected_target);
  ("build_result_sha256", VStr sha)].

Definition verify : IO val :=
  result_path ← resolve (a_result a);
  result ← load_result result_path;
  p ← publication_of (Path.parent result_path) result;
  manifest ← load_manifest result p;
  keys ← release_keys manifest;
  verify_ed25519 (artifact_path p) (artifact_signature p) keys.1 ;;
  verify_ed25519 (manifest_path p) (manifest_signature p) keys.2 ;;
  check_runtime_result result p ;;
  native_deployment ← check_native result manifest p;
  key_id ← lift (item native_deployment ["artifact"; "signature"; "key_id"]);
  native_key ← trusted_key (native_trust_dir a) key_id "native deployment";
  require_distinct_public_keys [("release artifact", keys.1); ("release manifest", keys.2); ("native deployment", native_key)] ;;
  verify_handoff p ;;
  release_id ← lift (getitem result "release_id");
  sha ← digest result_path;
  mret (output_of release_id sha).

(** The refusal of the arguments is argparse's: it exits with status 2. *)
Definition main : IO Z :=
  if negb (inb String.eqb (target_triple a) TARGETS) || negb (SHA (git_sha a)) then mraise (SystemExit (ExitCode 2)) else
  catch (output ← verify; print (Json.dumps (Json.Style None "," ":" true) output) ;; mret 0)
    (on_exn [FileNotFoundError; ValueError; JSONDecodeError] (λ e,
       print_err ("Linux release build result verification failed: " +:+ exn_str e) ;; mret 1)).
End Verify.
End Env.
End BuildResult.
