(* ===== verification/BuildResultFacts.v ===== *)
(** * A verified publication is bound, signed and trusted

    What exit code 0 of the verifier of a Linux release means: the files of the
    publication and their digests, the agreement of the documents, the keys that
    were trusted, and the processes that vouched for the signatures. *)

From Stdlib Require Import Ascii.
From S2P Require Import Prelude PyFloat PyMonad PyValue PyTime PyJson PyCodecs Sha256 PyOs OsFacts FsFacts Fixture.
From S2P Require Import GenerateSpec BuildResult.

Module BuildResultFacts.
Import Evidence BuildResult PathText.

(** ** Tests that did not refuse *)

Lemma item_ne_str x ks s : item_ne x ks (VStr s) = Ok false -> item x ks = Ok (VStr s).
Proof.
  unfold item_ne, py_ne. intros E. apply bind_Ok in E as (v & -> & E). injection E as E%negb_false_iff.
  by apply py_eq_str_r in E as ->.
Qed.
(** [x[k1]... == y[j1]...] *)
Definition same_item (x : val) (ks : list string) (y : val) (js : list string) : Prop :=
  exists v u, item x ks = Ok v /\ item y js = Ok u /\ py_eq v u = true.
Lemma items_ne_false x ks y js : items_ne x ks y js = Ok false -> same_item x ks y js.
Proof.
  unfold items_ne, py_ne. intros E. apply bind_Ok in E as (v & Hv & E). apply bind_Ok in E as (u & Hu & E).
  injection E as E%negb_false_iff. by exists v, u.
Qed.
Lemma refuse_any_Ok tests m (w : world) u w' : refuse_any tests m w = (Ok u, w') ->
  w' = w /\ Forall (λ t, t = Ok false) tests.
Proof.
  unfold refuse_any. intros E. apply M_bind_Ok in E as (b & w1 & E1 & E). apply lift_Ok in E1 as [E1 ->].
  destruct b; [done|]. apply ret_Ok in E as [_ ->]. split; [done|]. by apply rany_false in E1.
Qed.
Ltac refused H :=
  let T := fresh "T" in apply M_bind_Ok in H as (? & ? & [-> T]%refuse_any_Ok & H); rewrite ?Forall_cons in T.

Section Facts.
Context `{Platform}.

Lemma ro_refuse_any t m : Pres eq (refuse_any t m).
Proof. unfold refuse_any. solve_pres. Qed.
Lemma ro_load_object p : Pres eq (load p).
Proof. unfold load. solve_pres. Qed.
Lemma ro_validate_label s d l : Pres eq (validate s d l).
Proof. unfold validate. solve_pres. Qed.
#[local] Hint Resolve ro_refuse_any ro_load_object ro_validate_label : pres.
Lemma ro_evidence_file b r l : Pres eq (evidence_file b r l).
Proof. unfold evidence_file, digest. solve_pres. Qed.
Lemma ro_trust_root p l : Pres eq (trust_root p l).
Proof. unfold trust_root. solve_pres. Qed.
#[local] Hint Resolve ro_evidence_file ro_trust_root : pres.
Lemma ro_trusted_key d v l : Pres eq (trusted_key d v l).
Proof. unfold trusted_key. solve_pres. Qed.
Lemma ro_load_result a p : Pres eq (load_result a p).
Proof. unfold load_result. solve_pres. Qed.
Lemma ro_publication b r : Pres eq (publication_of b r).
Proof. unfold publication_of, file_of. solve_pres. Qed.
Lemma ro_load_mix a r p : Pres eq (load_manifest a r p).
Proof. unfold load_manifest. solve_pres. Qed.
#[local] Hint Resolve ro_trusted_key ro_load_result ro_publication ro_load_mix : pres.
Lemma ro_release_keys a m : Pres eq (release_keys a m).
Proof. unfold release_keys. solve_pres. Qed.
Lemma ro_runtime_result a r p : Pres eq (check_runtime_result a r p).
Proof. unfold check_runtime_result. solve_pres. Qed.
Lemma ro_check_native a r m p : Pres eq (check_native a r m p).
Proof. unfold check_native. solve_pres. Qed.
#[local] Hint Resolve ro_release_keys ro_runtime_result ro_check_native : pres.

(** A document read at a world, valid under its schema there *)
Definition read_valid (w : world) (schema_path p : path) (v : val) : Prop :=
  load p w = (Ok v, w) /\ valid w schema_path v.
Lemma validate_Ok s d l w u w' : validate s d l w = (Ok u, w') -> w' = w /\ valid w s d.
Proof.
  intros E. same_world E. split; [done|]. unfold validate in E. apply M_bind_Ok in E as (sc & w1 & E1 & E).
  same_world E1. apply M_bind_Ok in E as (es & w1 & E2 & E). apply lift_Ok in E2 as [E2 _]. exists sc. split; [done|]. by destruct es.
Qed.

(** ** Files bound by name and digest *)

(** The record names a file of the directory [dir], or a link to one below it, that has the
    recorded digest; [p] is the file. *)
Definition bound_file (w : world) (dir : list string) (record : val) (p : path) : Prop :=
  exists v c data m rest, dget_or record "filename" (VStr "") = Ok v /\
    Path.of_str (py_str v) = MkPath false [c] /\ c <> ".." /\ canon w (MkPath true (dir ++ [c])) = Some (dir ++ rest) /\
    p = MkPath true (dir ++ rest) /\ stat w p = Some (NFile data m) /\
    dget record "sha256" = Ok (VStr (Sha256.hexdigest data)).

Lemma digest_found p w h w' : digest p w = (Ok h, w') -> w' = w /\ exists data m, stat w p = Some (NFile data m) /\ h = Sha256.hexdigest data.
Proof. apply sha256_chunked_Ok. Qed.

Lemma evidence_file_Ok dir record label w p w' : straight (fs w) dir ->
  evidence_file (MkPath true dir) record label w = (Ok p, w') -> w' = w /\ bound_file w dir record p.
Proof.
  intros Hd E. same_world E. split; [done|]. unfold evidence_file in E. apply M_bind_Ok in E as (v & w1 & E1 & E).
  apply lift_Ok in E1 as [E1 ->]. destruct (Path.of_str (py_str v)) as [ab ps] eqn:Eq. cbn [absolute parts] in E.
  destruct (ab || _ || _) eqn:Et; [done|]. apply orb_false_iff in Et as [[-> Hl]%orb_false_iff Hdd].
  apply negb_false_iff, Nat.eqb_eq in Hl. destruct ps as [|c [|]]; try done. simpl in Hdd. rewrite orb_false_r in Hdd.
  assert (c <> "..") as Hc by (intros ->; done).
  apply M_bind_Ok in E as (q & wq & E2 & E). apply M_bind_Ok in E as (r & wr & E3 & E).
  destruct (Path.relative_to q r) as [x|] eqn:Er; [|done].
  destruct (resolved_below _ _ _ _ _ _ _ _ E2 E3 Er) as (-> & k & rest & Hk & Hq & ->).
  rewrite canon_own in Hk by done. injection Hk as <-. unfold Path.div in Hq. rewrite Eq in Hq. cbn [absolute parts] in Hq.
  apply M_bind_Ok in E as (f & w1 & E4 & E). injection E4 as <- <-. apply M_bind_Ok in E as (l & w1 & E5 & E). injection E5 as <- <-.
  destruct (negb _ || _) eqn:Et; [done|]. clear Et.
  apply M_bind_Ok in E as (h & w1 & E6 & E). apply digest_found in E6 as (-> & data & m & Hs & ->).
  apply M_bind_Ok in E as (sh & w1 & E7 & E). apply lift_Ok in E7 as [E7 ->].
  destruct (py_ne _ _) eqn:Ep; [done|]. apply ret_Ok in E as [<- _].
  unfold py_ne in Ep. apply negb_false_iff, py_eq_str_l in Ep as ->.
  exists v, c, data, m, rest. do 3 (split; [done|]). split; [done|]. split; [done|]. split; [|done]. done.
Qed.

(** ** Trusted keys *)

(** The key is the file [<id>.pem] of a trust directory; neither is a link. *)
Definition trusted (w : world) (d : path) (v : val) (key : path) : Prop :=
  exists id root data m, v = VStr id /\ KEY_ID id = true /\ is_link_node (lstat w d) = false /\
    canon w d = Some root /\ key = MkPath true (root ++ [id +:+ ".pem"]) /\
    fs w !! (root ++ [id +:+ ".pem"]) = Some (NFile data m).

Lemma key_comp id : KEY_ID id = true -> comp (id +:+ ".pem") = true.
Proof.
  destruct id as [|c id]; [done|]. unfold KEY_ID. intros [[[Hc Ha]%andb_true_iff _]%andb_true_iff _]%andb_true_iff.
  assert (forall x, key_char x = true -> Ascii.eqb x "/" = false) as Hsl.
  { intros x Hx. apply Ascii.eqb_neq. intros ->. by vm_compute in Hx. }
  assert (key_char c = true) as Hc' by (unfold key_char; by rewrite Hc).
  assert (Str.without ["/"%char] (String c id) = true) as Hw.
  { unfold Str.without, Str.all_chars. apply forallb_forall. intros x Hx. unfold inb. simpl. rewrite orb_false_r.
    apply negb_true_iff, Hsl. cbn [Str.to_list] in Hx. destruct Hx as [<-|Hx]; [done|].
    unfold Str.all_chars in Ha. by apply (proj1 (forallb_forall _ _) Ha). }
  unfold comp. rewrite Str.without_app, Hw. rewrite andb_true_r.
  assert (String.eqb (String c id +:+ ".pem") "." = false) as -> by (apply String.eqb_neq; by destruct id).
  assert (String.eqb (String c id +:+ ".pem") ".." = false) as -> by (apply String.eqb_neq; by destruct id as [|d [|]]).
  done.
Qed.

Lemma trust_root_Ok p l w r w' : trust_root p l w = (Ok r, w') ->
  w' = w /\ is_link_node (lstat w p) = false /\ exists k, canon w p = Some k /\ r = MkPath true k.
Proof.
  unfold trust_root. intros E. apply M_bind_Ok in E as (d & w1 & E1 & E). injection E1 as <- <-.
  apply M_bind_Ok in E as (x & w1 & E2 & E). injection E2 as <- <-.
  destruct (negb _ || _) eqn:Et; [done|]. apply orb_false_iff in Et as [_ Hl].
  unfold resolve in E. destruct (canon w p) as [k|]; [|done]. injection E as <- <-. split; [done|]. split; [done|]. by exists k.
Qed.
Lemma trusted_key_Ok d v label w key w' : trusted_key d v label w = (Ok key, w') -> w' = w /\ trusted w d v key.
Proof.
  intros E. same_world E. split; [done|]. unfold trusted_key in E. apply M_bind_Ok in E as (id & w1 & E1 & E).
  apply lift_Ok in E1 as [E1 ->]. destruct v; try done. injection E1 as ->.
  destruct (KEY_ID id) eqn:Ek; [|done]. cbn [negb] in E. apply M_bind_Ok in E as (r & w1 & E2 & E).
  apply trust_root_Ok in E2 as (-> & Hl & root & Hr & ->). pose proof (key_comp _ Ek) as Hcomp.
  assert (Path.div (MkPath true root) (id +:+ ".pem") = MkPath true (root ++ [id +:+ ".pem"])) as Hdiv
    by (unfold Path.div; by rewrite of_str_name).
  rewrite Hdiv in E. apply M_bind_Ok in E as (b & w1 & E3 & E). injection E3 as <- <-.
  destruct (is_link_node (lstat w (MkPath true (root ++ _)))) eqn:Elink; [done|].
  assert (canon w (MkPath true (root ++ [id +:+ ".pem"])) = Some (root ++ [id +:+ ".pem"])) as Hcan.
  { apply canon_child; [by eapply canon_straight| |done]. by apply comp_inv in Hcomp as (_ & _ & ? & _). }
  apply M_bind_Ok in E as (k & w1 & E4 & E). unfold resolve in E4. rewrite Hcan in E4. injection E4 as <- <-.
  destruct (Path.relative_to _ _); [|done]. apply M_bind_Ok in E as (f & w1 & E5 & E).
  apply is_file_Ok in E5 as [-> Hf]. apply M_bind_Ok in E as (l & w1 & E6 & E). injection E6 as <- <-.
  destruct f; [|done]. destruct (negb true || _); [done|]. apply ret_Ok in E as [<- _].
  destruct (Hf eq_refl) as (data & m & Hs). exists id, root, data, m. do 5 (split; [done|]).
  unfold stat in Hs. unfold Path.of_parts in Hs. rewrite Hcan in Hs. unfold node_at in Hs.
  destruct (root ++ [id +:+ ".pem"]) eqn:En; [by destruct root|done].
Qed.

(** ** Processes that succeeded *)

(** Each of the processes exited with status 0, started after the ones listed behind it. *)
Fixpoint successes (new old : list proc) : Prop :=
  match new with
  | [] => True
  | p :: r => (exists f o e f' d, exec (r ++ old) p f = (Exited 0 o e, f', d)) /\ successes r old
  end.
(** Between the worlds exactly these processes ran, the last one first, and each succeeded. *)
Definition ran (new : list proc) (w w' : world) : Prop :=
  log w' = new ++ log w /\ successes new (log w) /\ environ w' = environ w.

Lemma successes_app n2 n1 old : successes (n2 ++ n1) old <-> successes n2 (n1 ++ old) /\ successes n1 old.
Proof. induction n2 as [|p r IH]; simpl; [tauto|]. rewrite IH, app_assoc. tauto. Qed.
Lemma ran_nil w : ran [] w w.
Proof. by split. Qed.
Lemma ran_trans n1 n2 w w1 w2 : ran n1 w w1 -> ran n2 w1 w2 -> ran (n2 ++ n1) w w2.
Proof.
  intros (L1 & S1 & E1) (L2 & S2 & E2). split; [by rewrite L2, L1, app_assoc|]. split; [|congruence].
  apply successes_app. rewrite L1 in S2. by split.
Qed.
Lemma run_completed_ran p w o e w' : run_completed p w = (Ok (0, o, e), w') -> ran [p] w w'.
Proof.
  unfold run_completed, subprocess_run. intros E. apply M_bind_Ok in E as (r & w1 & E1 & E).
  destruct (exec (log w) p (fs w)) as [[x f] d] eqn:Ex. destruct x as [code so se|s|c m]; try done.
  - injection E1 as <- <-. apply ret_Ok in E as [E ->]. injection E as -> -> ->. split; [done|].
    split; [|done]. simpl. split; [|done]. by exists (fs w), o, e, f, d.
  - injection E1 as <- <-. done.
Qed.

(** These command lines, the last one first, were started in turn and succeeded. *)
Definition did (l : list (list string)) (w w' : world) : Prop :=
  exists ps, map argv ps = l /\ log w' = ps ++ log w /\ successes ps (log w).
Lemma did_nothing w w' : same_log w w' -> did [] w w'.
Proof. intros E. by exists []. Qed.
Lemma did_then l1 l2 w w1 w2 : did l1 w w1 -> did l2 w1 w2 -> did (l2 ++ l1) w w2.
Proof.
  intros (p1 & <- & L1 & S1) (p2 & <- & L2 & S2). exists (p2 ++ p1). split; [by rewrite map_app|].
  split; [by rewrite L2, L1, app_assoc|]. apply successes_app. by rewrite <-L1.
Qed.
Lemma did_before l w w1 w2 : same_log w w1 -> did l w1 w2 -> did l w w2.
Proof. intros E D. rewrite <-(app_nil_r l). eapply did_then; [by apply did_nothing|done]. Qed.
Lemma did_after l w w1 w2 : did l w w1 -> same_log w1 w2 -> did l w w2.
Proof. intros D E. change l with ([] ++ l). eapply did_then; [done|by apply did_nothing]. Qed.

Lemma run_ran argv t w o w' : run argv t w = (Ok o, w') -> ran [process_of argv t (Some ROOT) w] w w'.
Proof.
  unfold run. intros E. apply M_bind_Ok in E as (p & w1 & E1 & E). injection E1 as <- <-.
  apply M_bind_Ok in E as ([[code so] se] & w1 & E1 & E). cbv beta iota in E.
  destruct (code =? 0) eqn:Ec; [apply Z.eqb_eq in Ec as ->|done].
  apply ret_Ok in E as [_ ->]. by eapply run_completed_ran.
Qed.

Definition signature_argv (payload signature key : path) : list string :=
  ["openssl"; "pkeyutl"; "-verify"; "-rawin"; "-pubin"; "-inkey"; Path.to_str key; "-in"; Path.to_str payload;
   "-sigfile"; Path.to_str signature].
Lemma verify_ed25519_ran x s k w u w' : verify_ed25519 x s k w = (Ok u, w') ->
  ran [process_of (signature_argv x s k) 60 (Some ROOT) w] w w'.
Proof. intros E. apply M_bind_Ok in E as (o & w1 & E1 & E). apply ret_Ok in E as [_ ->]. by eapply run_ran. Qed.

Definition key_argv (key : path) : list string := ["openssl"; "pkey"; "-pubin"; "-in"; Path.to_str key; "-outform"; "DER"].
Lemma fingerprint_ran k w h w' : public_key_fingerprint k w = (Ok h, w') -> ran [process_of (key_argv k) 60 None w] w w'.
Proof.
  unfold public_key_fingerprint. intros E. apply M_bind_Ok in E as (p & w1 & E1 & E). injection E1 as <- <-.
  apply M_bind_Ok in E as ([[code so] se] & w1 & E1 & E). cbv beta iota in E.
  destruct (code =? 0) eqn:Ec; [apply Z.eqb_eq in Ec as ->|done].
  apply ret_Ok in E as [_ ->]. by eapply run_completed_ran.
Qed.

Lemma add_key_Ok fps lk w fps' w' : add_key fps lk w = (Ok fps', w') ->
  exists h, public_key_fingerprint lk.2 w = (Ok h, w') /\ Dict.lookup h fps = None /\ fps' = Dict.set h lk.1 fps.
Proof.
  intros E. apply M_bind_Ok in E as (h & w1 & E1 & E). destruct (Dict.lookup h fps) eqn:El; [done|].
  apply ret_Ok in E as [<- ->]. by exists h.
Qed.
(** Three keys passed the test: their canonical forms have three digests. *)
Lemma distinct_three l1 l2 l3 k1 k2 k3 w u w' :
  require_distinct_public_keys [(l1, k1); (l2, k2); (l3, k3)] w = (Ok u, w') ->
  exists h1 h2 h3 w1 w2, public_key_fingerprint k1 w = (Ok h1, w1) /\ public_key_fingerprint k2 w1 = (Ok h2, w2) /\
    public_key_fingerprint k3 w2 = (Ok h3, w') /\ NoDup [h1; h2; h3].
Proof.
  unfold require_distinct_public_keys. intros E. apply M_bind_Ok in E as (fps & w3 & E & E'). apply ret_Ok in E' as [_ ->].
  cbn [mfold] in E. apply M_bind_Ok in E as (f1 & w1 & (h1 & H1 & _ & ->)%add_key_Ok & E).
  apply M_bind_Ok in E as (f2 & w2 & (h2 & H2 & N2 & ->)%add_key_Ok & E).
  apply M_bind_Ok in E as (f3 & w4 & (h3 & H3 & N3 & ->)%add_key_Ok & E). apply ret_Ok in E as [_ ->].
  exists h1, h2, h3, w1, w2. do 3 (split; [done|]).
  assert (h2 <> h1) as D21 by (intros ->; by rewrite Dict.lookup_set in N2).
  assert (h3 <> h2) as D32 by (intros ->; by rewrite Dict.lookup_set in N3).
  assert (h3 <> h1) as D31 by (intros ->; by rewrite Dict.lookup_set_ne, Dict.lookup_set in N3).
  repeat (constructor; [rewrite ?not_elem_of_cons; split_and?; try done; apply not_elem_of_nil|]). constructor.
Qed.

(** ** The publication *)

Section Publication.
Context (a : args).

Definition files (p : publication) : list (string * path) := [
  ("manifest", manifest_path p); ("artifact", artifact_path p); ("artifact_signature", artifact_signature p);
  ("manifest_signature", manifest_signature p); ("runtime_artifact_result", runtime_result_path p);
  ("native_provider_manifest", native_provider_path p); ("native_deployment_manifest", native_deployment_path p)].

(** What holds of the files before a process is started *)
Record published (w : world) (dir : list string) (name : string) (result manifest : val) (p : publication) (k1 k2 : path) : Prop := {
  p_place : canon w (a_result a) = Some (dir ++ [name]);
  p_result : read_valid w BUILD_RESULT_SCHEMA (MkPath true (dir ++ [name])) result;
  p_identity : getitem result "git_sha" = Ok (VStr (git_sha a)) /\ getitem result "target_triple" = Ok (VStr (target_triple a));
  p_passed : getitem result "status" = Ok (VStr "passed") /\ getitem result "build_on_host" = Ok (VBool false);
  p_files : Forall (λ kp, exists r, getitem result kp.1 = Ok r /\ bound_file w dir r kp.2) (files p);
  p_size : exists data m z, stat w (artifact_path p) = Some (NFile data m) /\ item result ["artifact"; "size_bytes"] = Ok z /\
    py_eq (VInt (Z.of_nat (String.length data))) z = true;
  p_manifest : read_valid w MIX_SCHEMA (manifest_path p) manifest;
  p_release : same_item manifest ["release_id"] result ["release_id"] /\
    getitem manifest "git_sha" = Ok (VStr (git_sha a)) /\ getitem manifest "target_triple" = Ok (VStr (target_triple a));
  p_artifact : item manifest ["artifact"; "filename"] = Ok (VStr (Path.name (artifact_path p))) /\
    same_item manifest ["artifact"; "sha256"] result ["artifact"; "sha256"] /\
    same_item manifest ["artifact"; "size_bytes"] result ["artifact"; "size_bytes"];
  p_signatures : item manifest ["artifact"; "signature"; "signature_filename"] = Ok (VStr (Path.name (artifact_signature p))) /\
    same_item manifest ["artifact"; "signature"; "signature_sha256"] result ["artifact_signature"; "sha256"] /\
    item manifest ["manifest_signature"; "signature_filename"] = Ok (VStr (Path.name (manifest_signature p)));
  p_keys : exists i1 i2, item manifest ["artifact"; "signature"; "key_id"] = Ok i1 /\
    item manifest ["manifest_signature"; "key_id"] = Ok i2 /\ py_eq i1 i2 = false /\
    trusted w (release_trust_dir a) i1 k1 /\ trusted w (release_trust_dir a) i2 k2
}.

(** What holds of the other documents, and the key of the native deployment *)
Record handed_off (w : world) (result manifest : val) (p : publication) (k3 : path) : Prop := {
  h_runtime : exists r, read_valid w RUNTIME_RESULT_SCHEMA (runtime_result_path p) r /\
    getitem r "status" = Ok (VStr "passed") /\ (exists b, getitem r "blockers" = Ok b /\ truthy b = false) /\
    getitem r "git_sha" = Ok (VStr (git_sha a)) /\ same_item r ["release_id"] result ["release_id"] /\
    same_item r ["artifact_sha256"] result ["artifact"; "sha256"];
  h_native : exists provider deployment, read_valid w NATIVE_SCHEMA (native_provider_path p) provider /\
    read_valid w NATIVE_DEPLOYMENT_SCHEMA (native_deployment_path p) deployment /\
    getitem provider "source_revision" = Ok (VStr (git_sha a)) /\ getitem deployment "git_sha" = Ok (VStr (git_sha a)) /\
    getitem provider "target_triple" = Ok (VStr (target_triple a)) /\ getitem deployment "target_triple" = Ok (VStr (target_triple a)) /\
    same_item provider ["artifact_sha256"] deployment ["artifact"; "sha256"] /\
    exists i3, item deployment ["artifact"; "signature"; "key_id"] = Ok i3 /\ trusted w (native_trust_dir a) i3 k3;
  h_required : exists reference, reference_of manifest (Path.name (native_deployment_path p)) = Ok reference /\
    same_item reference ["manifest_sha256"] result ["native_deployment_manifest"; "sha256"] /\
    getitem reference "required" = Ok (VBool true)
}.

Lemma item1 x k r : item x [k] = Ok r -> getitem x k = Ok r.
Proof. simpl. intros E. by apply bind_Ok in E as (v & -> & [= ->]). Qed.
Lemma item_cons x k ks v r : getitem x k = Ok v -> item x (k :: ks) = r <-> item v ks = r.
Proof. intros E. simpl. by rewrite E. Qed.

Lemma load_result_Ok rp w result w' : load_result a rp w = (Ok result, w') -> w' = w /\
  read_valid w BUILD_RESULT_SCHEMA rp result /\
  (getitem result "git_sha" = Ok (VStr (git_sha a)) /\ getitem result "target_triple" = Ok (VStr (target_triple a))) /\
  (getitem result "status" = Ok (VStr "passed") /\ getitem result "build_on_host" = Ok (VBool false)).
Proof.
  intros E. pose proof (pres_eq_run _ _ _ _ (ro_load_result a rp) E) as ->. split; [done|]. unfold load_result in E.
  apply M_bind_Ok in E as (f & w1 & E1 & E). injection E1 as <- <-. apply M_bind_Ok in E as (l & w1 & E2 & E). injection E2 as <- <-.
  destruct (negb _ || _); [done|]. apply M_bind_Ok in E as (d & w1 & E1 & E). pose proof (pres_eq_run _ _ _ _ (ro_load_object _) E1) as ->.
  apply M_bind_Ok in E as (u & w1 & [-> Hv]%validate_Ok & E). refused E. refused E. apply ret_Ok in E as [<- _].
  destruct T as (A1%item_ne_str%item1 & A2%item_ne_str%item1 & _). destruct T0 as (B1%item_ne_str%item1 & B2 & _).
  split; [done|]. split; [done|]. split; [done|]. apply bind_Ok in B2 as (v & -> & B2). destruct v as [|b| | | | |]; try done. by destruct b.
Qed.

Lemma file_of_Ok dir result k l w p w' : straight (fs w) dir -> file_of (MkPath true dir) result k l w = (Ok p, w') ->
  w' = w /\ exists r, getitem result k = Ok r /\ bound_file w dir r p.
Proof.
  intros Hd E. apply M_bind_Ok in E as (r & w1 & E1 & E). apply lift_Ok in E1 as [E1 ->].
  apply evidence_file_Ok in E as [-> E]; [|done]. split; [done|]. by exists r.
Qed.
Lemma publication_Ok dir result w p w' : straight (fs w) dir -> publication_of (MkPath true dir) result w = (Ok p, w') ->
  w' = w /\ Forall (λ kp, exists r, getitem result kp.1 = Ok r /\ bound_file w dir r kp.2) (files p) /\
  exists data m z, stat w (artifact_path p) = Some (NFile data m) /\ item result ["artifact"; "size_bytes"] = Ok z /\
    py_eq (VInt (Z.of_nat (String.length data))) z = true.
Proof.
  intros Hd E. unfold publication_of in E.
  do 7 (apply M_bind_Ok in E as (? & ? & [-> ?F]%file_of_Ok & E); [|done]).
  apply M_bind_Ok in E as (z & w1 & E1 & E). pose proof (pres_eq_run _ _ _ _ (ro_st_size _) E1) as ->.
  refused E. apply ret_Ok in E as [<- ->]. split; [done|]. split; [by repeat constructor|]. cbn [artifact_path].
  destruct T as [T _]. apply bind_Ok in T as (v & Hv & T). injection T as T%negb_false_iff.
  destruct F0 as (r & _ & (v0 & c & data & m & rest & _ & _ & _ & _ & _ & Hs & _)).
  exists data, m, v. split; [done|]. split; [done|]. unfold st_size in E1. rewrite Hs in E1. by injection E1 as <-.
Qed.

Lemma load_manifest_Ok result p w manifest w' : load_manifest a result p w = (Ok manifest, w') -> w' = w /\
  read_valid w MIX_SCHEMA (manifest_path p) manifest /\
  (same_item manifest ["release_id"] result ["release_id"] /\
    getitem manifest "git_sha" = Ok (VStr (git_sha a)) /\ getitem manifest "target_triple" = Ok (VStr (target_triple a))) /\
  (item manifest ["artifact"; "filename"] = Ok (VStr (Path.name (artifact_path p))) /\
    same_item manifest ["artifact"; "sha256"] result ["artifact"; "sha256"] /\
    same_item manifest ["artifact"; "size_bytes"] result ["artifact"; "size_bytes"]) /\
  (item manifest ["artifact"; "signature"; "signature_filename"] = Ok (VStr (Path.name (artifact_signature p))) /\
    same_item manifest ["artifact"; "signature"; "signature_sha256"] result ["artifact_signature"; "sha256"] /\
    item manifest ["manifest_signature"; "signature_filename"] = Ok (VStr (Path.name (manifest_signature p)))).
Proof.
  intros E. pose proof (pres_eq_run _ _ _ _ (ro_load_mix a result p) E) as ->. split; [done|]. unfold load_manifest in E.
  apply M_bind_Ok in E as (d & w1 & E1 & E). pose proof (pres_eq_run _ _ _ _ (ro_load_object _) E1) as ->.
  apply M_bind_Ok in E as (u & w1 & [-> Hv]%validate_Ok & E). refused E.
  apply M_bind_Ok in E as (c & w1 & E2 & E). apply lift_Ok in E2 as [E2 ->]. refused E. apply ret_Ok in E as [<- _].
  destruct T as (A1%items_ne_false & A2%item_ne_str%item1 & A3%item_ne_str%item1 & _).
  destruct T0 as (B1%item_ne_str & B2%items_ne_false & B3%items_ne_false & B4%item_ne_str & B5%items_ne_false & B6%item_ne_str & _).
  assert (forall ks, item d ("artifact" :: ks) = item c ks) as Ha by (intros ks; simpl; by rewrite E2).
  unfold same_item. rewrite !Ha. split_and!; try done.
Qed.

Lemma release_keys_Ok manifest w k1 k2 w' : release_keys a manifest w = (Ok (k1, k2), w') -> w' = w /\
  exists i1 i2, item manifest ["artifact"; "signature"; "key_id"] = Ok i1 /\
    item manifest ["manifest_signature"; "key_id"] = Ok i2 /\ py_eq i1 i2 = false /\
    trusted w (release_trust_dir a) i1 k1 /\ trusted w (release_trust_dir a) i2 k2.
Proof.
  unfold release_keys. intros E. apply M_bind_Ok in E as (i1 & w1 & E1 & E). apply lift_Ok in E1 as [E1 ->].
  apply M_bind_Ok in E as (i2 & w1 & E2 & E). apply lift_Ok in E2 as [E2 ->]. destruct (py_eq i1 i2) eqn:Ep; [done|].
  apply M_bind_Ok in E as (x1 & w1 & [-> T1]%trusted_key_Ok & E). apply M_bind_Ok in E as (x2 & w1 & [-> T2]%trusted_key_Ok & E).
  apply ret_Ok in E as [E ->]. injection E as <- <-. split; [done|]. by exists i1, i2.
Qed.

Lemma runtime_result_Ok result p w u w' : check_runtime_result a result p w = (Ok u, w') -> w' = w /\
  exists r, read_valid w RUNTIME_RESULT_SCHEMA (runtime_result_path p) r /\
    getitem r "status" = Ok (VStr "passed") /\ (exists b, getitem r "blockers" = Ok b /\ truthy b = false) /\
    getitem r "git_sha" = Ok (VStr (git_sha a)) /\ same_item r ["release_id"] result ["release_id"] /\
    same_item r ["artifact_sha256"] result ["artifact"; "sha256"].
Proof.
  intros E. pose proof (pres_eq_run _ _ _ _ (ro_runtime_result a result p) E) as ->. split; [done|]. unfold check_runtime_result in E.
  apply M_bind_Ok in E as (d & w1 & E1 & E). pose proof (pres_eq_run _ _ _ _ (ro_load_object _) E1) as ->.
  apply M_bind_Ok in E as (u1 & w1 & [-> Hv]%validate_Ok & E). apply refuse_any_Ok in E as [_ T]. rewrite !Forall_cons in T.
  destruct T as (A1%item_ne_str%item1 & A2 & A3%item_ne_str%item1 & A4%items_ne_false & A5%items_ne_false & _).
  apply bind_Ok in A2 as (b & Hb & A2). injection A2 as A2. exists d. split_and!; try done. by exists b.
Qed.

Lemma check_native_Ok result manifest p w deployment w' : check_native a result manifest p w = (Ok deployment, w') -> w' = w /\
  (exists provider, read_valid w NATIVE_SCHEMA (native_provider_path p) provider /\
    read_valid w NATIVE_DEPLOYMENT_SCHEMA (native_deployment_path p) deployment /\
    getitem provider "source_revision" = Ok (VStr (git_sha a)) /\ getitem deployment "git_sha" = Ok (VStr (git_sha a)) /\
    getitem provider "target_triple" = Ok (VStr (target_triple a)) /\ getitem deployment "target_triple" = Ok (VStr (target_triple a)) /\
    same_item provider ["artifact_sha256"] deployment ["artifact"; "sha256"]) /\
  (exists reference, reference_of manifest (Path.name (native_deployment_path p)) = Ok reference /\
    same_item reference ["manifest_sha256"] result ["native_deployment_manifest"; "sha256"] /\
    getitem reference "required" = Ok (VBool true)).
Proof.
  intros E. pose proof (pres_eq_run _ _ _ _ (ro_check_native a result manifest p) E) as ->. split; [done|]. unfold check_native in E.
  apply M_bind_Ok in E as (d & w1 & E1 & E). pose proof (pres_eq_run _ _ _ _ (ro_load_object _) E1) as ->.
  apply M_bind_Ok in E as (d2 & w1 & E2 & E). pose proof (pres_eq_run _ _ _ _ (ro_load_object _) E2) as ->.
  apply M_bind_Ok in E as (u1 & w1 & [-> V1]%validate_Ok & E). apply M_bind_Ok in E as (u2 & w1 & [-> V2]%validate_Ok & E).
  refused E. apply M_bind_Ok in E as (r & w1 & E3 & E). apply lift_Ok in E3 as [E3 ->]. refused E. apply ret_Ok in E as [<- _].
  destruct T as (A1%item_ne_str%item1 & A2%item_ne_str%item1 & A3%item_ne_str%item1 & A4%item_ne_str%item1 & A5%items_ne_false & _).
  destruct T0 as (_ & B2%items_ne_false & B3 & _). split; [by exists d|]. exists r. split; [done|]. split; [done|].
  apply bind_Ok in B3 as (v & -> & B3). destruct v as [|b| | | | |]; try done. by destruct b.
Qed.

Definition handoff_argv (p : publication) (root : path) : list string :=
  [executable; Path.to_str NATIVE_HANDOFF_VERIFIER; "--native-manifest"; Path.to_str (native_provider_path p);
   "--deployment-manifest"; Path.to_str (native_deployment_path p); "--trust-dir"; Path.to_str root].
Lemma verify_handoff_ran p w u w' : verify_handoff a p w = (Ok u, w') -> exists root, canon w (native_trust_dir a) = Some root /\
  ran [process_of (handoff_argv p (MkPath true root)) 600 (Some ROOT) w] w w'.
Proof.
  unfold verify_handoff. intros E. apply M_bind_Ok in E as (r & w1 & (-> & _ & root & Hr & ->)%trust_root_Ok & E).
  apply M_bind_Ok in E as (o & w1 & E1 & E). apply ret_Ok in E as [_ ->]. exists root. split; [done|]. by eapply run_ran.
Qed.

(** The whole of a verification: the publication, the two signatures, the documents, the three
    keys and the native handoff. The six processes are the only ones started. *)
Definition verified_between (w w' : world) : Prop :=
  exists dir name result manifest p k1 k2 k3 root w2 w3 w4 w5 h1 h2 h3,
    published w dir name result manifest p k1 k2 /\
    ran (map (λ argv, process_of argv 60 (Some ROOT) w) [signature_argv (manifest_path p) (manifest_signature p) k2;
           signature_argv (artifact_path p) (artifact_signature p) k1]) w w2 /\
    handed_off w2 result manifest p k3 /\
    public_key_fingerprint k1 w2 = (Ok h1, w3) /\ public_key_fingerprint k2 w3 = (Ok h2, w4) /\
    public_key_fingerprint k3 w4 = (Ok h3, w5) /\ NoDup [h1; h2; h3] /\ canon w5 (native_trust_dir a) = Some root /\
    ran (process_of (handoff_argv p (MkPath true root)) 600 (Some ROOT) w ::
         map (λ k, process_of (key_argv k) 60 None w) [k3; k2; k1]) w2 w'.

Lemma same_process argv t c w w' : environ w' = environ w -> process_of argv t c w' = process_of argv t c w.
Proof. unfold process_of. by intros ->. Qed.

(** The result was read from a file, so its path has a name. *)
Lemma read_named w s k v : read_valid w s (MkPath true k) v -> k <> [].
Proof.
  intros [R _] ->. unfold load, PyOs.load_json, read_text in R.
  apply M_bind_Ok in R as (? & ? & R & _). apply M_bind_Ok in R as (? & ? & R & _).
  by apply M_bind_Ok in R as (? & ? & R & _).
Qed.

Lemma verify_Ok w out w' : verify a w = (Ok out, w') -> verified_between w w'.
Proof.
  intros E. unfold verify in E.
  apply M_bind_Ok in E as (rp & w1 & E1 & E). unfold resolve in E1. destruct (canon w (a_result a)) as [k|] eqn:Ek; [|done].
  injection E1 as <- <-. apply M_bind_Ok in E as (result & w1 & (-> & R1 & R2 & R3)%load_result_Ok & E).
  pose proof (read_named _ _ _ _ R1) as Hk0. destruct k as [|name dir _] using rev_ind; [done|].
  pose proof (canon_straight _ _ _ Ek) as [Hst _]%straight_snoc. unfold Path.of_parts in E. rewrite parent_child in E.
  apply M_bind_Ok in E as (p & w1 & (-> & Hf & Hz)%publication_Ok & E); [|done].
  apply M_bind_Ok in E as (manifest & w1 & (-> & M1 & M2 & M3 & M4)%load_manifest_Ok & E).
  apply M_bind_Ok in E as ([k1 k2] & w1 & [-> Hk]%release_keys_Ok & E). cbn [fst snd] in E.
  apply M_bind_Ok in E as (u1 & w1 & S1%verify_ed25519_ran & E). apply M_bind_Ok in E as (u2 & w2 & S2%verify_ed25519_ran & E).
  apply M_bind_Ok in E as (u3 & w3 & [-> Hr]%runtime_result_Ok & E).
  apply M_bind_Ok in E as (deployment & w3 & (-> & (provider & N1 & N2 & N3 & N4 & N5 & N6 & N7) & Hn)%check_native_Ok & E).
  apply M_bind_Ok in E as (i3 & w3 & [Hi ->]%lift_Ok & E). apply M_bind_Ok in E as (k3 & w3 & [-> Hk3]%trusted_key_Ok & E).
  apply M_bind_Ok in E as (u4 & w5 & (h1 & h2 & h3 & v3 & v4 & F1 & F2 & F3 & Hd)%distinct_three & E).
  apply M_bind_Ok in E as (u5 & w6 & (root & Hroot & S6)%verify_handoff_ran & E).
  apply M_bind_Ok in E as (rid & w7 & [_ ->]%lift_Ok & E). apply M_bind_Ok in E as (sha & w7 & [-> _]%digest_found & E).
  apply ret_Ok in E as [_ ->].
  pose proof (ran_trans _ _ _ _ _ S1 S2) as R12.
  pose proof (fingerprint_ran _ _ _ _ F1) as Q1. pose proof (fingerprint_ran _ _ _ _ F2) as Q2.
  pose proof (fingerprint_ran _ _ _ _ F3) as Q3.
  pose proof (ran_trans _ _ _ _ _ (ran_trans _ _ _ _ _ (ran_trans _ _ _ _ _ Q1 Q2) Q3) S6) as R36.
  exists dir, name, result, manifest, p, k1, k2, k3, root, w2, v3, v4, w5, h1, h2, h3.
  split; [by split|].
  assert (environ w2 = environ w /\ environ v3 = environ w /\ environ v4 = environ w /\ environ w5 = environ w) as (E2 & E3 & E4 & E5).
  { destruct R12 as (_ & _ & ?), Q1 as (_ & _ & ?), Q2 as (_ & _ & ?), Q3 as (_ & _ & ?). split_and!; congruence. }
  split; [|split; [split; [done| |done]|]].
  - destruct S1 as (_ & _ & E1). by rewrite (same_process _ _ _ w w1) in R12.
  - exists provider, deployment. split_and!; try done. by exists i3.
  - do 5 (split; [done|]). rewrite (same_process _ _ _ w w5), (same_process _ _ _ w v4), (same_process _ _ _ w v3),
      (same_process _ _ _ w w2) in R36 by done. exact R36.
Qed.

(** C17: A published Linux release is verified (exit code 0) only when its result is valid, passed
    and built off the host for the commit and target asked for; each of its seven files is a
    file of the publication directory with the recorded digest; the manifest describes exactly this
    archive and its signatures, under two different key names; the archive, then the manifest
    were verified by openssl under the files of these names in the trust directory, no links; the
    runtime result and the native documents agree with the release; the three keys have three
    different canonical forms; and the handoff verifier accepted the native documents. These six
    processes, all successful, are the only ones started. *)
Theorem build_result_verified w w' : main a w = (Ok 0, w') ->
  SHA (git_sha a) = true /\ target_triple a ∈ TARGETS /\ verified_between w w'.
Proof.
  unfold main. destruct (negb (inb _ _ _) || _) eqn:Ea; [done|].
  apply orb_false_iff in Ea as [Et%negb_false_iff Es%negb_false_iff]. intros E. split; [done|].
  split. { unfold inb in Et. apply existsb_exists in Et as (t & Ht & ->%String.eqb_eq). by apply list_elem_of_In. }
  apply catch_Ok in E as [E|(e & w1 & k & _ & [_ ->]%on_exn_Some & E)];
    [|by apply M_bind_Ok in E as (? & ? & _ & [? _]%ret_Ok)].
  apply M_bind_Ok in E as (out & wo & E & E'). apply M_bind_Ok in E' as (u & w1 & E1 & E').
  apply ret_Ok in E' as [_ ->]. injection E1 as _ <-. by apply verify_Ok in E.
Qed.
End Publication.
End Facts.
End BuildResultFacts.

(** ** A concrete publication *)

Module BuildResultRun.
Import Fixture Evidence BuildResult BuildResultFacts.

Definition sha_of (s : string) : val := VStr (Sha256.hexdigest s).
Definition commit : string := "0123456789abcdef0123456789abcdef01234567".
Definition target : string := "x86_64-unknown-linux-gnu".
Definition archive : string := "the archive".
Definition provider : string := json (rec [("source_revision", commit); ("target_triple", target); ("artifact_sha256", "aa")]).
Definition deployment : string := json (VDict [("git_sha", VStr commit); ("target_triple", VStr target);
  ("artifact", VDict [("sha256", VStr "aa"); ("signature", rec [("key_id", "native-key")])])]).
Definition manifest : string := json (VDict [("release_id", VStr "r1"); ("git_sha", VStr commit); ("target_triple", VStr target);
  ("artifact", VDict [("filename", VStr "r1.tar.gz"); ("sha256", sha_of archive); ("size_bytes", VInt 11);
     ("signature", VDict [("signature_filename", VStr "r1.sig"); ("signature_sha256", sha_of "sig-a"); ("key_id", VStr "archive-key")])]);
  ("manifest_signature", rec [("signature_filename", "manifest.sig"); ("key_id", "manifest-key")]);
  ("native_artifacts", VList [VDict [("manifest_filename", VStr "deployment.json"); ("manifest_sha256", sha_of deployment); ("required", VBool true)]])]).
Definition runtime_result : string := json (VDict [("status", VStr "passed"); ("blockers", VList []); ("git_sha", VStr commit);
  ("release_id", VStr "r1"); ("artifact_sha256", sha_of archive)]).
Definition listed (name data : string) (more : list (string * val)) : val :=
  VDict ([("filename", VStr name); ("sha256", sha_of data)] ++ more).
Definition result : string := json (VDict [("git_sha", VStr commit); ("target_triple", VStr target); ("status", VStr "passed");
  ("build_on_host", VBool false); ("release_id", VStr "r1"); ("manifest", listed "manifest.json" manifest []);
  ("artifact", listed "r1.tar.gz" archive [("size_bytes", VInt 11)]); ("artifact_signature", listed "r1.sig" "sig-a" []);
  ("manifest_signature", listed "manifest.sig" "sig-m" []); ("runtime_artifact_result", listed "runtime.json" runtime_result []);
  ("native_provider_manifest", listed "provider.json" provider []);
  ("native_deployment_manifest", listed "deployment.json" deployment [])]).
Definition w0 : world := world_with ([("/pub/result.json", result); ("/pub/manifest.json", manifest); ("/pub/r1.tar.gz", archive);
  ("/pub/r1.sig", "sig-a"); ("/pub/manifest.sig", "sig-m"); ("/pub/runtime.json", runtime_result);
  ("/pub/provider.json", provider); ("/pub/deployment.json", deployment); ("/trust/archive-key.pem", "A");
  ("/trust/manifest-key.pem", "M"); ("/native/native-key.pem", "N")] ++
  map (λ n, ("/repo/contracts/" +:+ n +:+ "-v1.schema.json", "{}"))
    ["runtime/linux-release-build-result"; "deployment/mix-release"; "runtime/runtime-artifact-result"; "native/native-artifact";
     "deployment/native-artifact"]).
(** A host whose [openssl pkey] answers with the file of the key; [same] answers with one form for all. *)
Definition tools (same : bool) (_ : list proc) (p : proc) (f : filesystem) : proc_out * filesystem * Z :=
  (Exited 0 (match argv p with
             | [_; "pkey"; _; _; key; _; _] => if same then "DER" else key
             | _ => ""
             end) "", f, 1000).
Definition the_args : args := Args (Path.of_str "/pub/result.json") commit target (Path.of_str "/trust") (Path.of_str "/native").

Lemma build_result_verified_witness : let host := host_with (tools false) in
  let w' := (main (H := host) the_args w0).2 in
  SHA (git_sha the_args) = true /\ target_triple the_args ∈ TARGETS /\ verified_between (H := host) the_args w0 w'.
Proof.
  intros host w'. apply (build_result_verified (H := host) the_args w0 w').
  assert ((main (H := host) the_args w0).1 = Ok 0) as E by (vm_compute; reflexivity).
  unfold w'. destruct (main (H := host) the_args w0) as [r x]. cbn [fst snd] in E |- *. by rewrite E.
Defined.

(** One key under three names is refused before the handoff is verified. *)
Example reused_key_refused : let r := main (H := host_with (tools true)) the_args w0 in
  r.1 = Ok 1 /\ length (log r.2) = 4%nat /\
  err r.2 = ["Linux release build result verification failed: public key material is reused by release artifact and release manifest"].
Proof. vm_compute. auto. Qed.

(** The result may be a link: its path is resolved before the test for links. *)
Example linked_result_accepted :
  let w := set_fs (<[["tmp"; "latest.json"] := NLink "/pub/result.json"]> (fs w0)) w0 in
  (main (H := host_with (tools false))
     (Args (Path.of_str "/tmp/latest.json") commit target (Path.of_str "/trust") (Path.of_str "/native")) w).1 = Ok 0.
Proof. vm_compute. auto. Qed.
End BuildResultRun.
