(* ===== verification/LiveAdoption.v ===== *)
(** * infrastructure/deployment/discover_v1_live_adoption.py

    The discovery of the cloud resources that the state of the live environment
    may adopt: which exist and match the reviewed graph, which are missing, and
    what blocks the adoption. The [oci] and [git] commands are started processes. *)

From Stdlib Require Import Ascii.
From S2P Require Import Prelude PyFloat PyMonad PyValue PyTime PyJson Sha256 PyOs PyConfig OsFacts FsFacts Fixture.
From S2P Require Import ReadinessCommon GenerateSpec CiProvenance PlanV1 FirstReleaseRecovery.

Module LiveAdoption.
Import Evidence PlanV1.

Definition ADDRESSES : list (string * (string * string)) := [
  ("compartment", ("module.v1_live.oci_identity_compartment.environment", "oci_identity_compartment"));
  ("vcn", ("module.v1_live.oci_core_vcn.main", "oci_core_vcn"));
  ("internet_gateway", ("module.v1_live.oci_core_internet_gateway.main", "oci_core_internet_gateway"));
  ("nat_gateway", ("module.v1_live.oci_core_nat_gateway.outbound", "oci_core_nat_gateway"));
  ("service_gateway", ("module.v1_live.oci_core_service_gateway.oracle_services", "oci_core_service_gateway"));
  ("legacy_route_table", ("module.v1_live.oci_core_route_table.edge", "oci_core_route_table"));
  ("route_table", ("module.v1_live.oci_core_route_table.private_host", "oci_core_route_table"));
  ("public_edge_route_table", ("module.v1_live.oci_core_route_table.public_edge", "oci_core_route_table"));
  ("security_list", ("module.v1_live.oci_core_security_list.empty", "oci_core_security_list"));
  ("legacy_subnet", ("module.v1_live.oci_core_subnet.edge", "oci_core_subnet"));
  ("subnet", ("module.v1_live.oci_core_subnet.private_host", "oci_core_subnet"));
  ("public_edge_subnet", ("module.v1_live.oci_core_subnet.public_edge", "oci_core_subnet"));
  ("nsg", ("module.v1_live.oci_core_network_security_group.host", "oci_core_network_security_group"));
  ("nlb_nsg", ("module.v1_live.oci_core_network_security_group.public_edge", "oci_core_network_security_group"));
  ("bastion_100", (dq "module.v1_live.oci_core_network_security_group_security_rule.bastion_ssh_ingress['10.42.20.100/32']", "oci_core_network_security_group_security_rule"));
  ("bastion_109", (dq "module.v1_live.oci_core_network_security_group_security_rule.bastion_ssh_ingress['10.42.20.109/32']", "oci_core_network_security_group_security_rule"));
  ("host_http", (dq "module.v1_live.oci_core_network_security_group_security_rule.host_edge_ingress['http']", "oci_core_network_security_group_security_rule"));
  ("host_https", (dq "module.v1_live.oci_core_network_security_group_security_rule.host_edge_ingress['https']", "oci_core_network_security_group_security_rule"));
  ("host_pmtu", ("module.v1_live.oci_core_network_security_group_security_rule.host_path_mtu_ingress", "oci_core_network_security_group_security_rule"));
  ("egress_80", (dq "module.v1_live.oci_core_network_security_group_security_rule.web_egress['80']", "oci_core_network_security_group_security_rule"));
  ("egress_443", (dq "module.v1_live.oci_core_network_security_group_security_rule.web_egress['443']", "oci_core_network_security_group_security_rule"));
  ("dns_udp", ("module.v1_live.oci_core_network_security_group_security_rule.dns_udp_egress", "oci_core_network_security_group_security_rule"));
  ("dns_tcp", ("module.v1_live.oci_core_network_security_group_security_rule.dns_tcp_egress", "oci_core_network_security_group_security_rule"));
  ("ntp", ("module.v1_live.oci_core_network_security_group_security_rule.ntp_egress", "oci_core_network_security_group_security_rule"));
  ("oracle_services_egress", ("module.v1_live.oci_core_network_security_group_security_rule.oracle_services_egress", "oci_core_network_security_group_security_rule"));
  ("edge_http", (dq "module.v1_live.oci_core_network_security_group_security_rule.public_edge_ingress['http']", "oci_core_network_security_group_security_rule"));
  ("edge_https", (dq "module.v1_live.oci_core_network_security_group_security_rule.public_edge_ingress['https']", "oci_core_network_security_group_security_rule"));
  ("edge_pmtu", ("module.v1_live.oci_core_network_security_group_security_rule.public_edge_path_mtu_ingress", "oci_core_network_security_group_security_rule"));
  ("edge_egress_http", (dq "module.v1_live.oci_core_network_security_group_security_rule.public_edge_egress['http']", "oci_core_network_security_group_security_rule"));
  ("edge_egress_https", (dq "module.v1_live.oci_core_network_security_group_security_rule.public_edge_egress['https']", "oci_core_network_security_group_security_rule"));
  ("legacy_instance", ("module.v1_live.oci_core_instance.host", "oci_core_instance"));
  ("data_volume", ("module.v1_live.oci_core_volume.data", "oci_core_volume"));
  ("data_attachment", ("module.v1_live.oci_core_volume_attachment.data", "oci_core_volume_attachment"));
  ("vault", ("module.v1_live.oci_kms_vault.main", "oci_kms_vault"));
  ("key", ("module.v1_live.oci_kms_key.main", "oci_kms_key"));
  ("dynamic_group", ("module.v1_live.oci_identity_dynamic_group.host", "oci_identity_dynamic_group"));
  ("policy", ("module.v1_live.oci_identity_policy.host", "oci_identity_policy"));
  ("nlb", ("module.v1_live.oci_network_load_balancer_network_load_balancer.edge", "oci_network_load_balancer_network_load_balancer"));
  ("backend_set_http", (dq "module.v1_live.oci_network_load_balancer_backend_set.edge['http']", "oci_network_load_balancer_backend_set"));
  ("backend_set_https", (dq "module.v1_live.oci_network_load_balancer_backend_set.edge['https']", "oci_network_load_balancer_backend_set"));
  ("backend_http", (dq "module.v1_live.oci_network_load_balancer_backend.host['http']", "oci_network_load_balancer_backend"));
  ("backend_https", (dq "module.v1_live.oci_network_load_balancer_backend.host['https']", "oci_network_load_balancer_backend"));
  ("listener_http", (dq "module.v1_live.oci_network_load_balancer_listener.edge['http']", "oci_network_load_balancer_listener"));
  ("listener_https", (dq "module.v1_live.oci_network_load_balancer_listener.edge['https']", "oci_network_load_balancer_listener"))].
Definition RESOURCE_NAME_KEYS : list string := [
  "compartment"; "vcn"; "internet_gateway"; "nat_gateway"; "service_gateway"; "legacy_route_table";
  "route_table"; "public_edge_route_table"; "security_list"; "legacy_subnet"; "subnet"; "public_edge_subnet";
  "nsg"; "nlb_nsg"; "network_load_balancer"; "legacy_instance"; "legacy_vnic"; "legacy_fallback_instance";
  "data_volume"; "data_attachment"; "vault"; "key"; "reserved_public_ip"; "dynamic_group"; "policy"].
Definition BASTION_SOURCES : list (string * string) := [("10.42.20.100/32", "bastion_100"); ("10.42.20.109/32", "bastion_109")].

(** ** Values of the inventory *)

(** The active resource of a name, [None] where there is none *)
Definition named (field : string) (value item : val) : res bool :=
  rand (get_eq item field value) (s ← dget item "lifecycle-state"; b ← in_set s (strings ["DELETED"; "TERMINATED"]); Ok (negb b)).
Definition one (items : val) (field : string) (value : val) : res val :=
  l ← py_iter items; matches ← rfilter (named field value) l;
  match matches with
  | [] => Ok VNone
  | [x] => Ok x
  | _ => raise RuntimeError ("multiple active resources match " +:+ field +:+ "=" +:+ repr value)
  end.

Definition nsg_rule_import_id (nsg_id rule_id : val) : string :=
  "networkSecurityGroups/" +:+ py_str nsg_id +:+ "/securityRules/" +:+ py_str rule_id.

(** The destination ports of a rule for a protocol's options *)
Definition destination (options : string) (rule : val) : res (option (Z * Z)) :=
  o ← dget rule options; r ← dget (or_dict o) "destination-port-range"; let value := or_dict r in
  lo ← py_contains (VStr "min") value; hi ← (if lo : bool then py_contains (VStr "max") value else Ok false);
  if hi : bool then x ← getitem value "min"; x ← py_int x; y ← getitem value "max"; y ← py_int y; Ok (Some (x, y)) else Ok None.
Definition tcp_destination : val -> res (option (Z * Z)) := destination "tcp-options".
Definition udp_destination : val -> res (option (Z * Z)) := destination "udp-options".
Definition icmp_type_code (rule : val) : res (option (Z * option Z)) :=
  o ← dget rule "icmp-options"; let options := or_dict o in
  there ← py_contains (VStr "type") options;
  if there : bool then
    code ← dget options "code"; t ← getitem options "type"; t ← py_int t;
    if is_none code then Ok (Some (t, None)) else c ← py_int code; Ok (Some (t, Some c))
  else Ok None.

(** The tests of a rule, each made only where those before it hold *)
Definition ports_are (d : res (option (Z * Z))) (port : Z) : res bool := o ← d; Ok (bool_decide (o = Some (port, port))).
Definition pmtu (d : res (option (Z * option Z))) : res bool := o ← d; Ok (bool_decide (o = Some (3, Some 4))).
Definition field_is (k v : string) (r : val) : res bool := get_eq r k (VStr v).
Definition field_is_id (k : string) (owner r : val) : res bool := id ← getitem owner "id"; get_eq r k id.

Definition bastion_rule (source : string) (r : val) : list (res bool) :=
  [field_is "direction" "INGRESS" r; field_is "protocol" "6" r; field_is "source" source r; ports_are (tcp_destination r) 22].
Definition host_edge_rule (nlb_nsg : val) (port : Z) (r : val) : list (res bool) :=
  [field_is "direction" "INGRESS" r; field_is "protocol" "6" r; field_is "source-type" "NETWORK_SECURITY_GROUP" r;
   field_is_id "source" nlb_nsg r; ports_are (tcp_destination r) port].
Definition pmtu_rule (source : string) (r : val) : list (res bool) :=
  [field_is "direction" "INGRESS" r; field_is "protocol" "1" r; field_is "source" source r; pmtu (icmp_type_code r)].
Definition web_egress_rule (port : Z) (r : val) : list (res bool) :=
  [field_is "direction" "EGRESS" r; field_is "protocol" "6" r; field_is "destination" "0.0.0.0/0" r; ports_are (tcp_destination r) port].
Definition resolver_rule (protocol : string) (port : Z) (r : val) : list (res bool) :=
  [field_is "direction" "EGRESS" r; field_is "protocol" protocol r; field_is "destination" "169.254.169.254/32" r;
   ports_are (if String.eqb protocol "17" then udp_destination r else tcp_destination r) port].
Definition oracle_rule (r : val) : list (res bool) :=
  [field_is "direction" "EGRESS" r; field_is "protocol" "6" r; field_is "destination-type" "SERVICE_CIDR_BLOCK" r;
   ports_are (tcp_destination r) 443].
Definition public_rule (port : Z) (r : val) : list (res bool) :=
  [field_is "direction" "INGRESS" r; field_is "protocol" "6" r; field_is "source" "0.0.0.0/0" r; ports_are (tcp_destination r) port].
Definition edge_egress_rule (host_nsg : val) (port : Z) (r : val) : list (res bool) :=
  [field_is "direction" "EGRESS" r; field_is "protocol" "6" r; field_is "destination-type" "NETWORK_SECURITY_GROUP" r;
   field_is_id "destination" host_nsg r; ports_are (tcp_destination r) port].

(** A key of the graph, the tests of its rule, the rule's label, and whether it must be there *)
Definition rule_spec : Type := string * (val -> list (res bool)) * string * bool.
Definition port_text (port : Z) : string := Str.of_Z port.
Definition host_rules (nlb_nsg : val) : list rule_spec :=
  map (λ sk, (sk.2, bastion_rule sk.1, "Bastion SSH rule for " +:+ sk.1, true)) BASTION_SOURCES ++
  (if truthy nlb_nsg then map (λ kp, (kp.1, host_edge_rule nlb_nsg kp.2, "NLB-to-host TCP/" +:+ port_text kp.2, false))
     [("host_http", 80); ("host_https", 443)] else []) ++
  [("host_pmtu", pmtu_rule "10.42.0.0/16", "VCN path-MTU ICMP", false)] ++
  map (λ kp, (kp.1, web_egress_rule kp.2, "web egress TCP/" +:+ port_text kp.2, false)) [("egress_80", 80); ("egress_443", 443)] ++
  [("dns_udp", resolver_rule "17" 53, "OCI resolver UDP/53", false); ("dns_tcp", resolver_rule "6" 53, "OCI resolver TCP/53", false);
   ("ntp", resolver_rule "17" 123, "OCI NTP UDP/123", false); ("oracle_services_egress", oracle_rule, "Oracle Services TCP/443", false)].
Definition edge_rules (host_nsg : val) : list rule_spec :=
  map (λ kp, (kp.1, public_rule kp.2, "public TCP/" +:+ port_text kp.2, false)) [("edge_http", 80); ("edge_https", 443)] ++
  [("edge_pmtu", pmtu_rule "0.0.0.0/0", "public path-MTU ICMP", false)] ++
  (if truthy host_nsg then map (λ kp, (kp.1, edge_egress_rule host_nsg kp.2, "edge-to-host TCP/" +:+ port_text kp.2, false))
     [("edge_egress_http", 80); ("edge_egress_https", 443)] else []).

(** ** Tests of the resources *)

(** Whether a gateway is there, available and unblocked *)
Definition gateway_bad (g : val) : res bool :=
  if negb (truthy g) then Ok true
  else ror (get_ne g "lifecycle-state" (VStr "AVAILABLE")) (b ← dget g "block-traffic"; Ok (truthy b)).
Definition route_bad (route nat service : val) : res bool :=
  r ← dget route "route-rules"; rules ← py_iter (or_list r);
  default_ok ← rany (λ r, rand (field_is "destination" "0.0.0.0/0" r) (field_is_id "network-entity-id" nat r)) rules;
  service_ok ← rany (λ r, rand (field_is "destination-type" "SERVICE_CIDR_BLOCK" r) (field_is_id "network-entity-id" service r)) rules;
  Ok (negb default_ok || negb service_ok).
Definition subnet_bad (subnet : val) (cidr : string) (prohibits : bool) : res bool :=
  ror (get_ne subnet "cidr-block" (VStr cidr))
      (p ← dget subnet "prohibit-public-ip-on-vnic"; Ok (negb (if prohibits then is_true p else is_false p))).
Definition egress_ok (rules : val) : res bool :=
  n ← py_len rules;
  if n =? 1 then
    r ← index0 rules;
    rall id [field_is "destination" "0.0.0.0/0" r; field_is "destination-type" "CIDR_BLOCK" r; field_is "protocol" "all" r;
             (s ← dget_or r "is-stateless" (VBool false); Ok (negb (truthy s)))]
  else Ok false.
Definition security_list_bad (l : val) : res bool :=
  i ← dget l "ingress-security-rules"; e ← dget l "egress-security-rules"; ok ← egress_ok (or_list e);
  Ok (truthy (or_list i) || negb ok).
Definition in_lifecycle (state : string) (items : val) : res (list val) :=
  l ← py_iter items; rfilter (λ i, get_eq i "lifecycle-state" (VStr state)) l.
Definition shape_bad (candidate : val) : res bool :=
  s ← dget candidate "shape-config"; let shape := or_dict s in
  rany id [get_ne candidate "shape" (VStr "VM.Standard.E5.Flex"); get_ne shape "ocpus" (VInt 4); get_ne shape "memory-in-gbs" (VInt 24)].
Definition int_ne (v : val) (k : string) (n : Z) : res bool := x ← dget_or v k (VInt 0); z ← py_int x; Ok (negb (z =? n)).
Definition backend_set_bad (backend_set : val) (port : Z) : res bool :=
  h ← dget backend_set "health-checker"; let health := or_dict h in
  rany id [get_ne backend_set "policy" (VStr "FIVE_TUPLE"); (o ← dget backend_set "is-fail-open"; Ok (negb (is_false o)));
           get_ne health "protocol" (VStr "TCP"); int_ne health "port" port].
Definition listener_bad (listener : val) (port : Z) : res bool :=
  rany id [get_ne listener "protocol" (VStr "TCP"); int_ne listener "port" port; int_ne listener "tcp-idle-timeout" 1800].
Definition unnamed (item : val) : res val := n ← dget item "display-name"; Ok (if truthy n then n else VStr "unnamed").

(** ** The program *)

Record args := Args { a_profile : string; compartment_name : string; resource_names : path; a_output : path }.

(** The lists the discovery fills *)
Record found := Found { imports : list val; blockers : list string; unmanaged : list val }.

Section Env.
Context `{Platform}.

Definition ROOT : path := repo_root.
Definition SCHEMA : path := Path.div ROOT "contracts/infrastructure/adoption-manifest-v1.schema.json".

Definition utc : IO string := t ← now; mret (Time.iso_z_seconds t).
Definition load_config (profile : string) : IO (string * string) :=
  h ← FirstRelease.home; c ← getenv "OCI_CLI_CONFIG_FILE";
  let p := match c with Some s => Path.of_str s | None => Path.div (Path.div h ".oci") "config" end in
  parser ← Config.read p;
  let value o := if String.eqb profile "DEFAULT" then default "" (Config.get_default o parser) else Config.get profile o "" parser in
  if negb (String.eqb profile "DEFAULT") && negb (Config.has_section profile parser)
  then sysexit ("OCI profile is missing: " +:+ profile)
  else if String.eqb (value "tenancy") "" || String.eqb (value "region") ""
  then sysexit "OCI profile must contain tenancy and region"
  else mret (value "tenancy", value "region").

Definition oci_answer (command args : list string) (code : Z) (stdout stderr : string) : res val :=
  if negb (code =? 0) then
    let text := Str.strip stderr in
    raise RuntimeError (if String.eqb text "" then "OCI command failed: " +:+ Str.join " " (firstn 4 command) else text)
  else
    let payload := Str.strip stdout in
    if String.eqb payload "" then
      if inb String.eqb "list" args then Ok (VList []) else raise RuntimeError "OCI get command returned empty JSON"
    else match Json.loads payload with
         | None => raise RuntimeError "OCI command returned invalid JSON"
         | Some v => data ← dget v "data"; Ok (FirstRelease.normalize_data data)
         end.
Definition process_of (profile region : string) (args : list string) (w : world) : proc :=
  Proc (FirstRelease.command_of profile region args) (Some 120) (environ w) None.

(** [subprocess] on git with [check=True], the output stripped *)
Definition git (argv : list string) : IO string :=
  p ← gets (λ w, Proc ("git" :: argv) None (environ w) (Some ROOT));
  r ← run_completed p;
  let '(code, o, _) := r in
  if code =? 0 then mret (Str.strip o) else throw CalledProcessError (CiProvenance.called_text ("git" :: argv) code).

Abbreviation C := (M (found * world)).
Definition block (message : string) : C unit := modl (λ f, Found (imports f) (blockers f ++ [message]) (unmanaged f)).
(** [if test: blockers.append(message)] *)
Definition block_if (test : res bool) (message : string) : C unit := b ← lift test; mwhen b (block message).
Definition leave (kind : string) (item : val) (reason : string) : C unit :=
  n ← lift (unnamed item);
  modl (λ f, Found (imports f) (blockers f)
    (unmanaged f ++ [VDict [("kind", VStr kind); ("display_name", n); ("reason", VStr reason)]])).
Definition record_of (key : string) (id display_name : val) : res val :=
  match Dict.lookup key ADDRESSES with
  | Some (address, resource_type) => Ok (VDict [("address", VStr address); ("id", id); ("resource_type", VStr resource_type);
                                                ("display_name", display_name)])
  | None => raise KeyError (repr_str key)
  end.
Definition add_import (key : string) (item display_name : val) (import_id : option string) : C unit :=
  mwhen (truthy item)
    (id ← lift (match import_id with
                | Some i => if String.eqb i "" then getitem item "id" else Ok (VStr i)
                | None => getitem item "id"
                end);
     r ← lift (record_of key id display_name);
     modl (λ f, Found (imports f ++ [r]) (blockers f) (unmanaged f))).

Section Discovery.
Context (a : args) (tenancy region : string) (names : val).

Definition oci (args : list val) : C val :=
  args ← lift (rmap expect_str args);
  p ← zoom_snd (gets (process_of (a_profile a) region args));
  r ← zoom_snd (run_completed p);
  let '(code, o, e) := r in lift (oci_answer (argv p) args code o e).
Definition name_of (key : string) : C val := lift (getitem names key).
Definition one_named (items : val) (key : string) : C val := n ← name_of key; lift (one items "display-name" n).
Definition listing (words : list string) (options : list (string * val)) : C val := oci (FirstRelease.call words options ["--all"]).
Definition import_named (key : string) (item : val) : C unit := n ← name_of key; add_import key item n None.

(** *** The network *)

Record network := Network { igw : val; nat_gw : val; service_gw : val; legacy_route : val; host_route : val; public_edge_route : val;
  security_list : val; legacy_subnet : val; host_subnet : val; public_edge_subnet : val; host_nsg : val; nlb_nsg : val; nsgs : val }.
Definition members (n : network) : list (string * val) := [
  ("internet_gateway", igw n); ("nat_gateway", nat_gw n); ("service_gateway", service_gw n); ("legacy_route_table", legacy_route n);
  ("route_table", host_route n); ("public_edge_route_table", public_edge_route n); ("security_list", security_list n);
  ("legacy_subnet", legacy_subnet n); ("subnet", host_subnet n); ("public_edge_subnet", public_edge_subnet n);
  ("nsg", host_nsg n); ("nlb_nsg", nlb_nsg n)].

Definition find_vcn (compartment_id : val) : C val :=
  vcns ← listing ["network"; "vcn"; "list"] [("--compartment-id", compartment_id)];
  vcn ← one_named vcns "vcn";
  import_named "vcn" vcn ;;
  if truthy vcn then
    id ← lift (getitem vcn "id");
    block_if (b ← dget vcn "cidr-blocks"; Ok (py_ne (or_list b) (VStrs ["10.42.0.0/16"]))) "adopted VCN must be exactly 10.42.0.0/16" ;;
    mret id
  else block "adopted VCN is missing" ;; mret VNone.
Definition fetch_network (compartment_id vcn_id : val) : C network :=
  let in_compartment word := listing ["network"; word; "list"] [("--compartment-id", compartment_id)] in
  igws ← in_compartment "internet-gateway"; igw ← one_named igws "internet_gateway";
  nats ← in_compartment "nat-gateway"; nat ← one_named nats "nat_gateway";
  services ← in_compartment "service-gateway"; service ← one_named services "service_gateway";
  routes ← in_compartment "route-table";
  legacy_route ← one_named routes "legacy_route_table"; host_route ← one_named routes "route_table";
  public_edge_route ← one_named routes "public_edge_route_table";
  security_lists ← listing ["network"; "security-list"; "list"] [("--compartment-id", compartment_id); ("--vcn-id", vcn_id)];
  security_list ← one_named security_lists "security_list";
  subnets ← in_compartment "subnet";
  legacy_subnet ← one_named subnets "legacy_subnet"; host_subnet ← one_named subnets "subnet";
  public_edge_subnet ← one_named subnets "public_edge_subnet";
  nsgs ← in_compartment "nsg"; host_nsg ← one_named nsgs "nsg"; nlb_nsg ← one_named nsgs "nlb_nsg";
  mret (Network igw nat service legacy_route host_route public_edge_route security_list legacy_subnet host_subnet
          public_edge_subnet host_nsg nlb_nsg nsgs).
(** A member of another network blocks; the others are imported. *)
Definition import_member (vcn_id : val) (member : string * val) : C unit :=
  elsewhere ← lift (if truthy member.2 then get_ne member.2 "vcn-id" vcn_id else Ok false);
  if elsewhere : bool then block (member.1 +:+ " does not belong to the adopted VCN") else import_named member.1 member.2.

Definition when_there (l : list val) (test : res bool) : res bool := if forallb truthy l then test else Ok false.
Definition check_network (n : network) : C unit :=
  mwhen (negb (truthy (igw n))) (block "internet gateway required for the separated NLB edge is missing") ;;
  block_if (gateway_bad (nat_gw n)) "adopted NAT gateway must be AVAILABLE and unblocked" ;;
  block_if (gateway_bad (service_gw n)) "adopted Service Gateway must be AVAILABLE and unblocked" ;;
  block_if (when_there [host_route n; nat_gw n; service_gw n] (route_bad (host_route n) (nat_gw n) (service_gw n)))
    "host route table must retain NAT default and Service Gateway Oracle Services routes" ;;
  block_if (when_there [legacy_route n; nat_gw n; service_gw n] (route_bad (legacy_route n) (nat_gw n) (service_gw n)))
    "legacy route table must remain NAT-only plus Oracle Services while retained" ;;
  block_if (when_there [legacy_subnet n] (subnet_bad (legacy_subnet n) "10.42.10.0/24" false))
    "retained legacy subnet must remain the existing public-IP-capable 10.42.10.0/24 resource" ;;
  mwhen (negb (truthy (legacy_subnet n)) || negb (truthy (legacy_route n)))
    (block "retained legacy subnet and route table must exist before additive migration") ;;
  block_if (when_there [host_subnet n] (subnet_bad (host_subnet n) "10.42.20.0/24" true))
    "adopted production host subnet must be private 10.42.20.0/24 and prohibit public IPs" ;;
  mwhen (negb (truthy (host_subnet n)) || negb (truthy (host_route n)))
    (block "existing private host subnet and route table are required for additive migration") ;;
  block_if (when_there [public_edge_subnet n] (get_ne (public_edge_subnet n) "cidr-block" (VStr "10.42.30.0/24")))
    "public NLB edge subnet must be exactly 10.42.30.0/24" ;;
  block_if (when_there [security_list n] (security_list_bad (security_list n)))
    "adopted subnet Security List must have zero ingress and one stateful all-protocol egress rule".

(** *** The rules of a security group *)

(** The one rule of a specification is imported and recognized. *)
Definition add_rule (prefix : string) (nsg : val) (rules : list val) (recognized : list val) (spec : rule_spec) : C (list val) :=
  let '(key, tests, label, required) := spec in
  candidates ← lift (rfilter (λ r, rall id (tests r)) rules);
  match candidates with
  | _ :: _ :: _ => block (prefix +:+ " contains multiple rules matching " +:+ label) ;; mret recognized
  | [] => mwhen required (block (prefix +:+ " is missing required " +:+ label)) ;; mret recognized
  | [rule] =>
      id ← lift (getitem rule "id"); lift (check_hash id) ;;
      owner ← lift (getitem nsg "id");
      add_import key rule (VStr label) (Some (nsg_rule_import_id owner id)) ;;
      mret (recognized ++ [id])
  end.
Definition check_rules (prefix : string) (nsg : val) (specs : list rule_spec) (unknown : string) : C unit :=
  id ← lift (getitem nsg "id");
  rules ← listing ["network"; "nsg"; "rules"; "list"] [("--nsg-id", id)];
  rules ← lift (py_iter rules);
  recognized ← mfold (add_rule prefix nsg rules) [] specs;
  ids ← lift (l ← rmap (λ r, dget r "id") rules; Readiness.py_set l);
  mwhen (existsb (λ i, negb (py_in i recognized)) ids) (block unknown).
Definition leave_nsg (item : val) : C unit :=
  host ← name_of "nsg"; edge ← name_of "nlb_nsg";
  known ← lift (n ← dget item "display-name"; _ ← check_hash host; _ ← check_hash edge; in_set n [host; edge]);
  mwhen (negb known) (leave "network-security-group" item "Additional NSG remains outside the reviewed V1 graph.").
Definition discover_network (compartment_id vcn_id : val) : C val :=
  n ← fetch_network compartment_id vcn_id;
  mfor (import_member vcn_id) (members n) ;;
  check_network n ;;
  mwhen (truthy (host_nsg n)) (check_rules "workload NSG" (host_nsg n) (host_rules (nlb_nsg n))
    "workload NSG contains rules outside the exact retained-compute source graph") ;;
  mwhen (truthy (nlb_nsg n)) (check_rules "public-edge NSG" (nlb_nsg n) (edge_rules (host_nsg n))
    "public-edge NSG contains rules outside the exact source graph") ;;
  items ← lift (py_iter (nsgs n)); mfor leave_nsg items ;;
  mret (host_nsg n).

(** *** The hosts *)

Definition check_vnic (role : string) (host_nsg attachment : val) : C unit :=
  id ← lift (getitem attachment "vnic-id");
  vnic ← oci (FirstRelease.call ["network"; "vnic"; "get"] [("--vnic-id", id)] []);
  block_if (ip ← dget vnic "public-ip"; Ok (truthy ip)) (role +:+ " must not have a public IP") ;;
  block_if (if truthy host_nsg
            then id ← getitem host_nsg "id"; l ← dget vnic "nsg-ids"; b ← py_contains id (or_list l); Ok (negb b)
            else Ok false) (role +:+ " VNIC is not attached to the adopted workload NSG").
Definition check_boot (role : string) (attachment : val) : C unit :=
  id ← lift (getitem attachment "boot-volume-id");
  boot ← oci (FirstRelease.call ["bv"; "boot-volume"; "get"] [("--boot-volume-id", id)] []);
  block_if (int_ne boot "size-in-gbs" 200) (role +:+ " boot volume must be exactly 200 GiB").
Definition check_candidate (compartment_id host_nsg : val) (rc : string * val) : C unit :=
  let '(role, candidate) := rc in
  mwhen (truthy candidate)
    (block_if (shape_bad candidate) (role +:+ " must be VM.Standard.E5.Flex at exactly 4 OCPU/24 GiB") ;;
     id ← lift (getitem candidate "id");
     attachments ← listing ["compute"; "vnic-attachment"; "list"] [("--compartment-id", compartment_id); ("--instance-id", id)];
     active ← lift (in_lifecycle "ATTACHED" attachments);
     match active with
     | [attachment] => check_vnic role host_nsg attachment
     | _ => block (role +:+ " must have exactly one attached primary VNIC")
     end ;;
     id ← lift (getitem candidate "id"); domain ← lift (getitem candidate "availability-domain");
     boots ← oci (FirstRelease.call ["compute"; "boot-volume-attachment"; "list"]
       [("--compartment-id", compartment_id); ("--instance-id", id); ("--availability-domain", domain)] []);
     active ← lift (in_lifecycle "ATTACHED" boots);
     match active with
     | [attachment] => check_boot role attachment
     | _ => block (role +:+ " must have exactly one active boot volume attachment")
     end).
Definition leave_instance (primary fallback item : val) : C unit :=
  n ← lift (dget item "display-name");
  known ← lift (in_set n [primary; fallback]);
  live ← lift (get_ne item "lifecycle-state" (VStr "TERMINATED"));
  if negb known && live then
    leave "compute-instance" item "Additional instance remains outside the reviewed retained-compute source graph." ;;
    block "unexpected non-terminated compute instance exists outside the retained primary/fallback pair"
  else mwhen (py_eq n fallback && live)
    (leave "compute-instance" item "Retained stopped first-release fallback is the recovery authority and remains outside OpenTofu mutation scope.").
(** The retained primary *)
Definition discover_hosts (compartment_id host_nsg : val) : C val :=
  instances ← listing ["compute"; "instance"; "list"] [("--compartment-id", compartment_id)];
  legacy_instance ← one_named instances "legacy_instance";
  retained_fallback ← one_named instances "legacy_fallback_instance";
  import_named "legacy_instance" legacy_instance ;;
  mwhen (negb (truthy legacy_instance)) (block "retained private primary must exist before first-release reconciliation") ;;
  mwhen (negb (truthy retained_fallback)) (block "retained stopped first-release fallback must exist") ;;
  mfor (check_candidate compartment_id host_nsg) [("retained primary", legacy_instance); ("retained fallback", retained_fallback)] ;;
  block_if (when_there [legacy_instance] (get_ne legacy_instance "lifecycle-state" (VStr "RUNNING"))) "retained primary must be RUNNING" ;;
  block_if (when_there [retained_fallback] (get_ne retained_fallback "lifecycle-state" (VStr "STOPPED")))
    "retained first-release fallback must remain STOPPED" ;;
  primary ← name_of "legacy_instance"; fallback ← name_of "legacy_fallback_instance";
  lift (_ ← check_hash primary; check_hash fallback) ;;
  items ← lift (py_iter instances); mfor (leave_instance primary fallback) items ;;
  mret legacy_instance.

(** *** The volume, the vault, the identities *)

Definition attached_to (volume instance item : val) : res bool :=
  rand (id ← getitem volume "id"; get_eq item "volume-id" id)
    (rand (id ← getitem instance "id"; get_eq item "instance-id" id) (get_ne item "lifecycle-state" (VStr "DETACHED"))).
Definition discover_volume (compartment_id legacy_instance : val) : C unit :=
  volumes ← listing ["bv"; "volume"; "list"] [("--compartment-id", compartment_id)];
  volume ← one_named volumes "data_volume";
  import_named "data_volume" volume ;;
  block_if (when_there [volume] (ror (int_ne volume "size-in-gbs" 130) (int_ne volume "vpus-per-gb" 0)))
    "adopted data volume must be 130 GiB at 0 VPUs/GB" ;;
  mwhen (truthy volume && truthy legacy_instance)
    (attachments ← listing ["compute"; "volume-attachment"; "list"] [("--compartment-id", compartment_id)];
     o ← lift (l ← py_iter attachments; rfind (attached_to volume legacy_instance) l);
     import_named "data_attachment" (default VNone o)).
Definition discover_vault (compartment_id : val) : C unit :=
  vaults ← listing ["kms"; "management"; "vault"; "list"] [("--compartment-id", compartment_id)];
  vault ← one_named vaults "vault";
  import_named "vault" vault ;;
  mwhen (truthy vault)
    (endpoint ← lift (getitem vault "management-endpoint");
     keys ← listing ["kms"; "management"; "key"; "list"] [("--compartment-id", compartment_id); ("--endpoint", endpoint)];
     key ← one_named keys "key";
     n ← name_of "key";
     import_id ← lift (if truthy key
       then e ← getitem vault "management-endpoint"; i ← getitem key "id";
            Ok (Some ("managementEndpoint/" +:+ py_str e +:+ "/keys/" +:+ py_str i))
       else Ok None);
     add_import "key" key n import_id).
Definition discover_identities : C unit :=
  dynamic_groups ← listing ["iam"; "dynamic-group"; "list"] [("--compartment-id", VStr tenancy)];
  policies ← listing ["iam"; "policy"; "list"] [("--compartment-id", VStr tenancy)];
  n ← name_of "dynamic_group"; g ← lift (one dynamic_groups "name" n); add_import "dynamic_group" g n None ;;
  n ← name_of "policy"; p ← lift (one policies "name" n); add_import "policy" p n None.

(** *** The load balancer *)

Definition target_of (legacy_instance : val) (port : Z) (item : val) : res bool :=
  if truthy legacy_instance
  then rand (id ← getitem legacy_instance "id"; get_eq item "target-id" id) (b ← int_ne item "port" port; Ok (negb b))
  else Ok false.
Definition discover_backend (nlb_id : val) (lane : string) (port : Z) (legacy_instance : val) (set_name set_id : string) : C unit :=
  backends ← listing ["nlb"; "backend"; "list"] [("--network-load-balancer-id", nlb_id); ("--backend-set-name", VStr set_name)];
  matches ← lift (l ← py_iter backends; rfilter (target_of legacy_instance port) l);
  match matches with
  | [] => mret tt
  | [backend] =>
      n ← lift (getitem backend "name");
      add_import ("backend_" +:+ lane) backend n (Some (set_id +:+ "/backends/" +:+ py_str n)) ;;
      block_if (o ← dget backend "is-offline"; Ok (negb (is_true o)))
        ("existing " +:+ lane +:+ " backend must remain offline before public cutover")
  | _ => block ("multiple retained-primary backends exist for " +:+ lane)
  end.
Definition discover_lane (nlb legacy_instance backend_sets listeners : val) (lp : string * Z) : C unit :=
  let '(lane, port) := lp in
  let set_name := "liqi-" +:+ lane +:+ "-backends" in
  backend_set ← lift (one backend_sets "name" (VStr set_name));
  nlb_id ← lift (getitem nlb "id");
  let set_id := "networkLoadBalancers/" +:+ py_str nlb_id +:+ "/backendSets/" +:+ set_name in
  add_import ("backend_set_" +:+ lane) backend_set (VStr set_name) (Some set_id) ;;
  mwhen (truthy backend_set)
    (block_if (backend_set_bad backend_set port) ("existing " +:+ lane +:+ " backend set does not match the fail-closed source contract") ;;
     discover_backend nlb_id lane port legacy_instance set_name set_id) ;;
  let listener_name := "liqi-" +:+ lane +:+ "-listener" in
  listener ← lift (one listeners "name" (VStr listener_name));
  add_import ("listener_" +:+ lane) listener (VStr listener_name)
    (Some ("networkLoadBalancers/" +:+ py_str nlb_id +:+ "/listeners/" +:+ listener_name)) ;;
  block_if (when_there [listener] (listener_bad listener port))
    ("existing " +:+ lane +:+ " listener does not match TCP/" +:+ port_text port +:+ " with 1800-second idle timeout").
Definition discover_nlb (compartment_id legacy_instance : val) : C unit :=
  nlbs ← listing ["nlb"; "network-load-balancer"; "list"] [("--compartment-id", compartment_id)];
  nlb ← one_named nlbs "network_load_balancer";
  n ← name_of "network_load_balancer"; add_import "nlb" nlb n None ;;
  mwhen (truthy nlb)
    (id ← lift (getitem nlb "id");
     backend_sets ← listing ["nlb"; "backend-set"; "list"] [("--network-load-balancer-id", id)];
     listeners ← listing ["nlb"; "listener"; "list"] [("--network-load-balancer-id", id)];
     mfor (discover_lane nlb legacy_instance backend_sets listeners) [("http", 80); ("https", 443)]).

Definition discover (compartment : val) : C unit :=
  compartment_id ← lift (getitem compartment "id");
  add_import "compartment" compartment (VStr (compartment_name a)) None ;;
  vcn_id ← find_vcn compartment_id;
  host_nsg ← (if truthy vcn_id then discover_network compartment_id vcn_id else mret VNone);
  legacy_instance ← discover_hosts compartment_id host_nsg;
  discover_volume compartment_id legacy_instance ;;
  discover_vault compartment_id ;;
  discover_identities ;;
  discover_nlb compartment_id legacy_instance.

(** *** The manifest *)

Definition address_of (item : val) : res val := getitem item "address".
Definition missing_of (imported : list val) : list string :=
  sort_strings (List.filter (λ s, negb (py_in (VStr s) imported)) (map (λ a, a.2.1) ADDRESSES)).
Definition manifest_of (git_sha discovered_at : string) (f : found) (sorted_imports sorted_unmanaged : list val) (missing : list string) : val := VDict [
  ("schema_version", VStr "liqi.infrastructure.adoption-manifest/v1"); ("git_sha", VStr git_sha);
  ("capacity_profile", VStr "e5-temporary"); ("region", VStr region); ("compartment_name", VStr (compartment_name a));
  ("discovered_at", VStr discovered_at); ("status", VStr (if bool_decide (blockers f = []) then "passed" else "blocked"));
  ("imports", VList sorted_imports); ("missing_addresses", VStrs missing); ("unmanaged_resources", VList sorted_unmanaged);
  ("blockers", VStrs (blockers f)); ("oci_mutation_performed", VBool false)].
Definition with_key (keys : list string) (item : val) : res (val * val) := k ← rmap (getitem item) keys; Ok (VList k, item).
Definition sorted_on (keys : list string) (l : list val) : res (list val) :=
  keyed ← rmap (with_key keys) l; s ← py_sorted_by fst keyed; Ok (map snd s).
Definition build_manifest (f : found) : IO val :=
  imported ← lift (l ← rmap address_of (imports f); Readiness.py_set l);
  git_sha ← git ["rev-parse"; "HEAD"];
  t ← utc;
  si ← lift (sorted_on ["address"] (imports f));
  su ← lift (sorted_on ["kind"; "display_name"] (unmanaged f));
  mret (manifest_of git_sha t f si su (missing_of imported)).

Definition write_manifest (document : val) : IO string :=
  schema ← load_json SCHEMA;
  (match schema_errors schema document with
   | e :: _ => sysexit ("generated adoption manifest is invalid: " +:+ e.2)
   | [] => mret tt
   end) ;;
  output ← resolve (a_output a);
  mkdir_p (Path.parent output) ;;
  let temporary := Path.with_name output ("." +:+ Path.name output +:+ ".new." +:+ Str.of_Z pid) in
  write_file temporary (json_text document) ;;
  chmod temporary 384 ;;
  replace temporary output ;;
  sha256_file output.
Definition summary (document : val) (f : found) (missing : Z) (sha : string) : res val :=
  status ← getitem document "status";
  Ok (VDict [("status", status); ("imports", VInt (Z.of_nat (length (imports f)))); ("missing", VInt missing);
    ("unmanaged", VInt (Z.of_nat (length (unmanaged f)))); ("blockers", VInt (Z.of_nat (length (blockers f)))); ("sha256", VStr sha)]).

Definition conclude (compartment : val) : C Z :=
  discover compartment ;;
  f ← getl;
  document ← zoom_snd (build_manifest f);
  sha ← zoom_snd (write_manifest document);
  n ← lift (m ← getitem document "missing_addresses"; py_len m);
  s ← lift (summary document f n sha);
  zoom_snd (print (Json.dumps Json.plain_sorted s)) ;;
  mret (if bool_decide (blockers f = []) then 0 else 3).
End Discovery.

Definition main (a : args) : IO Z :=
  status ← git ["status"; "--porcelain"; "--untracked-files=all"];
  if negb (String.eqb status "") then sysexit "clean worktree is required for an exact-SHA adoption manifest" else
  names ← load_json (resource_names a);
  other ← lift (l ← py_iter names; set_ne l (strings RESOURCE_NAME_KEYS));
  if other : bool then sysexit "resource-names JSON keys do not match the adoption contract" else
  tr ← load_config (a_profile a);
  let '(tenancy, region) := tr in
  if negb (String.eqb region "ap-singapore-2") then sysexit "V1 adoption is restricted to ap-singapore-2" else
  with_locals (Found [] [] [])
    (compartments ← listing a region ["iam"; "compartment"; "list"] [("--compartment-id", VStr tenancy)];
     compartment ← lift (one compartments "name" (VStr (compartment_name a)));
     if negb (truthy compartment) then sysexit "target compartment does not exist"
     else conclude a tenancy region names compartment).
End Env.
End LiveAdoption.
