(* ===== verification/PreApply.v ===== *)
(** * infrastructure/validation/pre_apply_readiness.py

    The readiness of an apply to the live environment: the adoption manifest,
    the state backend, the executed adoption, the protected variables, the signed
    release, the recovery evidence and the protected environment. The verifier of
    the release and [git] are started processes. *)

From Stdlib Require Import Ascii.
From S2P Require Import Prelude PyFloat PyMonad PyValue PyTime PyJson Sha256 PyOs PyNet OsFacts FsFacts Fixture.
From S2P Require Import ReadinessCommon GenerateSpec CiProvenance PlanV1 BuildResult LiveAdoption.

Module PreApply.
Import Evidence PlanV1.

Definition OWNERS : list (string * string) := [("oci-adoption-handoff", "infrastructure-lead");
  ("state-backend", "deployment-operator"); ("state-adoption", "deployment-operator"); ("protected-tfvars", "deployment-operator");
  ("signed-x86-release", "deployment-operator"); ("recovery-target", "deployment-operator");
  ("protected-environment", "deployment-operator")].
Definition EXPECTED_ADDRESSES : list string := map (λ a, a.2.1) LiveAdoption.ADDRESSES.

Definition check (name status detail : string) : val := VDict [
  ("name", VStr name); ("owner", VStr (default "" (Dict.lookup name OWNERS))); ("status", VStr status);
  ("detail", VStr (Str.take 1000 detail))].

(** ** The text of the variables *)

Definition newline : ascii := ascii_of_N 10.

(** [FORBIDDEN_KEY_MATERIAL] *)
Definition FORBIDDEN_KEY_MATERIAL (text : string) : bool :=
  existsb (λ kind, Str.contains ("-----BEGIN " +:+ kind +:+ "PRIVATE KEY-----") text) [""; "RSA "; "EC "; "OPENSSH "].

(** The first match of a pattern that is anchored at the start of a line *)
Fixpoint search_lines {A} (f : string -> option A) (start : bool) (s : string) : option A :=
  match (if start then f s else None) with
  | Some x => Some x
  | None => match s with EmptyString => None | String c r => search_lines f (Ascii.eqb c newline) r end
  end.
(** White space, the name, an equals sign between white space; and what follows *)
Definition assigned (name s : string) : option string :=
  r ← Str.strip_prefix name (Str.lstrip s); r ← Str.strip_prefix "=" (Str.lstrip r); Some (Str.lstrip r).
(** The end of an assignment: white space up to the end of the text, to a comment or past the end of a line *)
Definition value_end (s : string) : bool :=
  let (ws, r) := Readiness.span Str.is_space s in
  String.eqb r "" || Str.startswith "#" r || Str.contains (String newline "") ws.
Definition string_at (name s : string) : option string :=
  r ← assigned name s; r ← Str.strip_prefix PlanV1.quote r;
  let (v, r) := Readiness.span PlanV1.not_quote r in
  r ← Str.strip_prefix PlanV1.quote r; if value_end r then Some v else None.
Definition assignment (text name : string) : option string := option_map Str.strip (search_lines (string_at name) true text).
Definition bool_at (name s : string) : option bool :=
  r ← assigned name s;
  match Str.strip_prefix "true" r with
  | Some t => if value_end t then Some true else None
  | None => t ← Str.strip_prefix "false" r; if value_end t then Some false else None
  end.
Definition bool_assignment (text name : string) : option bool := search_lines (bool_at name) true text.
Definition list_at (name s : string) : option string :=
  r ← assigned name s; r ← Str.strip_prefix "[" r; option_map fst (Str.partition "]" r).

Definition reviewed_topology : list (string * string) := [
  ("vcn_cidr", "10.42.0.0/16"); ("vcn_dns_label", "liqilive"); ("legacy_host_subnet_cidr", "10.42.10.0/24");
  ("legacy_host_subnet_label", "live"); ("host_subnet_cidr", "10.42.20.0/24"); ("host_subnet_label", "livepriv");
  ("public_edge_subnet_cidr", "10.42.30.0/24"); ("public_edge_subnet_label", "edge"); ("compartment", "liqi-live");
  ("vcn", "liqi-live-vcn"); ("internet_gateway", "liqi-live-igw"); ("nat_gateway", "liqi-live-nat-gw");
  ("service_gateway", "liqi-live-service-gw"); ("legacy_route_table", "liqi-live-public-rt");
  ("route_table", "liqi-live-private-rt"); ("public_edge_route_table", "liqi-live-nlb-public-rt");
  ("security_list", "liqi-live-egress-only-sl"); ("legacy_subnet", "liqi-live-public-subnet");
  ("subnet", "liqi-live-private-subnet"); ("public_edge_subnet", "liqi-live-nlb-public-subnet");
  ("nsg", "liqi-live-workload-nsg"); ("nlb_nsg", "liqi-live-edge-nlb-nsg"); ("network_load_balancer", "liqi-live-edge-nlb");
  ("legacy_instance", "liqi-live-primary"); ("legacy_vnic", "liqi-live-primary-v2");
  ("legacy_fallback_instance", "liqi-live-primary-fallback-stopped"); ("instance", "liqi-live-v1-private-primary");
  ("vnic", "liqi-live-v1-private-primary-vnic"); ("fallback_instance", "liqi-live-v1-private-fallback");
  ("fallback_vnic", "liqi-live-v1-private-fallback-vnic"); ("data_volume", "liqi-live-data");
  ("data_attachment", "liqi-live-data-attachment"); ("vault", "liqi-live-vault"); ("key", "liqi-live-software-key");
  ("reserved_public_ip", "liqi-live-edge-ip"); ("dynamic_group", "liqi_v1_live_host"); ("policy", "liqi_v1_live_host_policy")].

(** [if b: blockers.append(message)] *)
Definition blocks (b : bool) (message : string) : list string := if b then [message] else [].
Definition equals (o : option string) (s : string) : bool := match o with Some t => String.eqb t s | None => false end.
Definition mentions (word s : string) : bool := Str.contains word (Str.lower s).
Definition said (o : option bool) (b : bool) : bool := match o with Some c => Bool.eqb b c | None => false end.

Definition ip_blockers (text : string) : list string :=
  match Net.ip_address (default "" (assignment text "retained_fallback_private_ipv4")) with
  | Some ip => blocks (negb (Net.is_private ip)) "retained fallback IPv4 must be private"
  | None => ["retained fallback private IPv4 is missing or invalid"]
  end.

Definition ninety_days : Z := 90 * Time.us_per_day.
Definition utc_of (d : Time.datetime) : Z := Time.wall d - default 0 (Time.offset d).
(** [now < expiry <= now.replace(microsecond=0) + timedelta(days=90)] *)
Definition expires_in_time (now expiry : Time.datetime) : res bool :=
  if utc_of expiry <=? utc_of now then Ok false
  else let latest := Time.wall now / Time.us_per_s * Time.us_per_s + ninety_days in
       if Time.max_us <=? latest then raise OverflowError "date value out of range"
       else Ok (utc_of expiry <=? latest - default 0 (Time.offset now)).
Definition expiry_blockers (text : string) (now : Time.datetime) : res (list string) :=
  let expires := default "" (assignment text "temporary_e5_expires_at") in
  let bad := Ok ["temporary E5 expiry is missing or invalid"] in
  match Time.fromisoformat (Str.replace "Z" "+00:00" expires) with
  | Raise e => if exn_in [ValueError] e then bad else Raise e
  | Ok expiry =>
      match Time.offset expiry with
      | None => bad
      | Some _ => ok ← expires_in_time now expiry;
                  Ok (blocks (negb ok) "temporary E5 expiry must be in the future and within 90 days")
      end
  end.

Definition mode_blockers (text : string) : list string :=
  let public_backend_enabled := bool_assignment text "public_backend_enabled" in
  let cutover_acknowledged := bool_assignment text "acknowledge_public_cutover" in
  blocks (negb (equals (assignment text "capacity_profile") "e5-temporary")) "capacity_profile must be e5-temporary" ++
  blocks (negb (said (bool_assignment text "acknowledge_capacity_availability_and_cost") true))
    "capacity/cost acknowledgement must be true" ++
  blocks (negb (said (bool_assignment text "acknowledge_host_bundle_signing_key") true))
    "host-bundle trust acknowledgement must be true" ++
  blocks (negb (equals (assignment text "operation_mode") "plan")) "operation_mode must remain plan before saved-plan approval" ++
  blocks (bool_decide (public_backend_enabled = None)) "public_backend_enabled must be explicit" ++
  blocks (bool_decide (cutover_acknowledged = None)) "acknowledge_public_cutover must be explicit" ++
  blocks (said public_backend_enabled false && negb (said cutover_acknowledged false))
    "public cutover acknowledgement must remain false while NLB backends are offline" ++
  blocks (said public_backend_enabled true && negb (said cutover_acknowledged true))
    "public cutover acknowledgement must be true when NLB backends are enabled" ++
  blocks (negb (equals (assignment text "fallback_desired_state") "STOPPED"))
    "retained first-release fallback requires fallback_desired_state=STOPPED".

Definition identity_blockers (text git_sha : string) : list string :=
  let value name := default "" (assignment text name) in
  let retained_fallback := value "retained_fallback_instance_ocid" in
  let availability_domain := value "availability_domain" in
  let image := value "oracle_linux_image_ocid" in
  let tenancy := value "tenancy_ocid" in
  let key_id := value "host_bundle_signing_key_id" in
  blocks (negb (Str.startswith "ocid1.instance." retained_fallback) || mentions "replace" retained_fallback)
    "retained fallback instance identity is missing" ++
  ip_blockers text ++
  blocks (negb (equals (assignment text "source_git_sha") git_sha)) "source_git_sha must match the exact checkout" ++
  blocks (negb (String.eqb availability_domain "AP-SINGAPORE-2-AD-1" || Str.endswith ":AP-SINGAPORE-2-AD-1" availability_domain))
    "availability_domain must resolve to AP-SINGAPORE-2-AD-1" ++
  blocks (negb (Str.startswith "ocid1.image.oc1.ap-singapore-2." image) || Str.contains "REPLACE" (Str.upper image))
    "reviewed Singapore x86_64 Oracle Linux image OCID is missing" ++
  blocks (negb (Str.startswith "ocid1.tenancy.oc1.." tenancy) || mentions "replace" tenancy) "live tenancy OCID is missing" ++
  concat (map (λ name, blocks (Str.len (value name) <? 3) (name +:+ " is missing"))
    ["management_plane_evidence_id"; "state_backend_lock_evidence_id"]) ++
  blocks ((Str.len key_id <? 3) || String.eqb key_id "source-validation-v1" || mentions "replace" key_id)
    "reviewed production host-bundle key ID is missing" ++
  blocks (Str.contains "REPLACE_WITH_REVIEWED_ED25519_PUBLIC_KEY" text || negb (Str.contains "-----BEGIN PUBLIC KEY-----" text))
    "reviewed host-bundle Ed25519 public key is missing".

Definition network_blockers (text : string) : list string :=
  blocks (negb (forallb (λ source, Str.contains source text) ["10.42.20.100/32"; "10.42.20.109/32"]))
    "both technically accepted OCI Bastion /32 sources are required" ++
  blocks (match search_lines (list_at "bastion_ssh_source_cidrs") true text with
          | None => true
          | Some group => Str.contains "0.0.0.0/0" group
          end) "Bastion SSH sources must remain exact and non-world" ++
  concat (map (λ ne, blocks (negb (equals (assignment text ne.1) ne.2))
    ("reviewed blue-green topology input is missing or mismatched: " +:+ ne.1)) reviewed_topology) ++
  blocks (Str.contains "management_wireguard_peer_cidr" text) "superseded WireGuard management input is forbidden".

Definition tfvars_blockers (text git_sha : string) (now : Time.datetime) : res (list string) :=
  expiry ← expiry_blockers text now;
  Ok (mode_blockers text ++ identity_blockers text git_sha ++ network_blockers text ++ expiry).

(** ** The documents *)

(** A set of the values of a list, as the list of its distinct values *)
Definition set_of (v : val) : res (list val) := l ← py_iter v; Readiness.py_set l.
Definition same_set (a b : list val) : bool := forallb (λ x, py_in x b) a && forallb (λ x, py_in x a) b.
Definition disjoint (a b : list val) : bool := forallb (λ x, negb (py_in x b)) a.

Section Env.
Context `{Platform}.

Definition ROOT : path := repo_root.
Definition SCHEMAS (name : string) : path :=
  Path.div ROOT (default "" (Dict.lookup name [
    ("adoption", "contracts/infrastructure/adoption-manifest-v1.schema.json");
    ("state_backend", "contracts/infrastructure/state-backend-evidence-v1.schema.json");
    ("adoption_result", "contracts/infrastructure/adoption-result-v1.schema.json");
    ("build_result", "contracts/runtime/linux-release-build-result-v1.schema.json");
    ("recovery", "contracts/infrastructure/first-release-recovery-v1.schema.json");
    ("output", "contracts/infrastructure/pre-apply-readiness-v1.schema.json")])).
Definition PUBLICATION_VERIFIER : path := Path.div ROOT "beam/scripts/validate_linux_release_build_result.py".

Definition sha256 (p : path) : IO string := sha256_chunked p.
Definition irregular (p : path) : IO bool := f ← is_file p; l ← is_symlink p; mret (negb f || l).
Definition load_json (p schema : path) (label : string) : IO val :=
  bad ← irregular p;
  if bad : bool then throw ValueError (label +:+ " must be a regular non-symlink file") else
  document ← PyOs.load_json p;
  if negb (is_dict document) then throw ValueError (label +:+ " JSON root must be an object") else
  BuildResult.validate schema document label ;; mret document.
Definition digest_if_regular (p : option path) : IO (option string) :=
  match p with
  | None => mret None
  | Some p => bad ← irregular p; if bad : bool then mret None else h ← sha256 p; mret (Some h)
  end.
Definition unreadable : list exn_class := [OSError; ValueError; JSONDecodeError].
(** The document, or the text of what made it unreadable *)
Definition attempt (p : path) (schema label : string) : IO (val + string) :=
  catch (d ← load_json p (SCHEMAS schema) label; mret (inl d)) (on_exn unreadable (λ e, mret (inr (exn_str e)))).

(** [item["address"] for item in document["imports"]], as a set *)
Definition import_addresses (document : val) : res (list val) :=
  l ← getitem document "imports"; l ← py_iter l; a ← rmap (λ item, getitem item "address") l; Readiness.py_set a.
Definition expected_set : list val := strings EXPECTED_ADDRESSES.
(** [addresses | missing == EXPECTED_ADDRESSES], and no address in both *)
Definition graph_is_exact (addresses missing : list val) : bool :=
  disjoint addresses missing && same_set (addresses ++ missing) expected_set.

Definition adoption_verdict (document : val) : res val :=
  addresses ← import_addresses document;
  missing ← (v ← getitem document "missing_addresses"; set_of v);
  let exact := graph_is_exact addresses missing in
  status ← getitem document "status";
  open ← (if py_ne status (VStr "passed") then Ok true else b ← getitem document "blockers"; Ok (truthy b || negb exact));
  if open : bool then
    b ← getitem document "blockers"; l ← py_iter b; parts ← rmap expect_str l;
    let text := Str.join "; " (parts ++ blocks (negb exact) "imported and missing addresses do not partition the exact source graph") in
    Ok (check "oci-adoption-handoff" "blocked" (if String.eqb text "" then "OCI handoff is not complete." else text))
  else
    Ok (check "oci-adoption-handoff" "passed" ("Compatible existing OCI resources are ready for no-replacement adoption." +:+
      (if Nat.eqb (length missing) 0 then ""
       else " The reviewed plan may create " +:+ Str.of_Z (Z.of_nat (length missing)) +:+
            " explicitly missing source-managed resources."))).
Definition adoption_check (p : option path) (git_sha : string) : IO (val * option val) :=
  match p with
  | None => mret (check "oci-adoption-handoff" "blocked" "OCI adoption manifest is missing; wait for the infrastructure lead handoff.", None)
  | Some p =>
      d ← attempt p "adoption" "adoption manifest";
      match d with
      | inr e => mret (check "oci-adoption-handoff" "failed" e, None)
      | inl document =>
          other ← lift (ror (get_ne document "git_sha" (VStr git_sha)) (get_ne document "capacity_profile" (VStr "e5-temporary")));
          if other : bool
          then mret (check "oci-adoption-handoff" "failed" "Adoption manifest source SHA or capacity profile does not match this checkout.", Some document)
          else c ← lift (adoption_verdict document); mret (c, Some document)
      end
  end.

Definition state_backend_check (p : option path) (git_sha : string) : IO (val * option val) :=
  match p with
  | None => mret (check "state-backend" "blocked" "Independent PostgreSQL state-backend evidence is missing.", None)
  | Some p =>
      d ← attempt p "state_backend" "state-backend evidence";
      match d with
      | inr e => mret (check "state-backend" "failed" e, None)
      | inl document =>
          other ← lift (get_ne document "git_sha" (VStr git_sha));
          mret (if other : bool then check "state-backend" "failed" "State-backend evidence Git SHA does not match this checkout."
                else check "state-backend" "passed" "TLS verify-full, advisory locking, encrypted backup and isolated restore evidence passed.",
                Some document)
      end
  end.

(** *** The protected variables *)

Definition tfvars_failed (detail : string) : IO (val * option string) := mret (check "protected-tfvars" "failed" detail, None).
Definition tfvars_content (resolved : path) (git_sha : string) (now : Time.datetime) : IO (val * option string) :=
  text ← read_text resolved;
  if FORBIDDEN_KEY_MATERIAL text then tfvars_failed "Private key material is forbidden in tfvars." else
  blockers ← lift (tfvars_blockers text git_sha now);
  h ← sha256 resolved;
  mret (match blockers with
        | [] => check "protected-tfvars" "passed" "Protected E5 tfvars contain exact-SHA reviewed inputs and no private key material."
        | _ => check "protected-tfvars" "blocked" (Str.join "; " blockers)
        end, Some h).
Definition tfvars_place (resolved : path) (git_sha : string) (now : Time.datetime) : IO (val * option string) :=
  f ← is_file resolved;
  if negb f then tfvars_failed "Protected tfvars must be a regular non-symlink file." else
  root ← resolve ROOT;
  match Path.relative_to resolved root with
  | Some _ => tfvars_failed "Live tfvars must remain outside the source repository."
  | None =>
      exposed ← (if String.eqb os_name "posix" then m ← st_mode resolved; mret (negb (Z.land m 63 =? 0)) else mret false);
      if exposed : bool then tfvars_failed "Protected tfvars permissions must not grant group or world access."
      else tfvars_content resolved git_sha now
  end.
Definition tfvars_check (p : option path) (git_sha : string) (now : Time.datetime) : IO (val * option string) :=
  match p with
  | None => mret (check "protected-tfvars" "blocked" "Protected temporary-E5 tfvars file is missing.", None)
  | Some p =>
      link ← is_symlink p;
      if link : bool then tfvars_failed "Protected tfvars must be a regular non-symlink file." else
      r ← catch (q ← resolve_strict p; mret (inl q)) (on_exn [OSError] (λ e, mret (inr (exn_str e))));
      match r with
      | inr e => tfvars_failed ("Protected tfvars is unreadable: " +:+ e)
      | inl resolved => tfvars_place resolved git_sha now
      end
  end.

(** *** The executed adoption *)

Definition adopted_addresses (document : val) : res (list val) :=
  x ← dget_or document "imported_addresses" (VList []); x ← set_of x;
  y ← dget_or document "already_present_addresses" (VList []); y ← set_of y; Ok (x ++ y).
Definition result_verdict (document : val) (git_sha : string) (adoption_sha var_sha : option string) (expected : option (list val)) : res val :=
  let failed detail := Ok (check "state-adoption" "failed" detail) in
  other ← ror (get_ne document "git_sha" (VStr git_sha)) (get_ne document "capacity_profile" (VStr "e5-temporary"));
  if other : bool then failed "Adoption result source SHA or profile mismatch." else
  match adoption_sha, var_sha, expected with
  | Some a, Some v, Some expected =>
      unbound ← ror (get_ne document "manifest_sha256" (VStr a)) (get_ne document "var_file_sha256" (VStr v));
      if unbound : bool then failed "Adoption result input digest binding mismatch." else
      addresses ← adopted_addresses document;
      if negb (same_set addresses expected) then failed "Adoption result does not cover the exact manifest import address set." else
      open ← rany id [get_ne document "operation" (VStr "execute"); get_ne document "status" (VStr "passed");
        (b ← dget document "blockers"; Ok (truthy b));
        (m ← dget document "state_mutation_performed"; Ok match m with VBool _ => false | _ => true end);
        (m ← dget document "oci_mutation_performed"; Ok (negb (is_false m)))];
      Ok (if open : bool then check "state-adoption" "blocked" "State adoption has not completed as an executed pass."
          else check "state-adoption" "passed" "All reviewed existing resources are present in encrypted OpenTofu state.")
  | _, _, _ => Ok (check "state-adoption" "blocked" "Adoption result cannot be bound until manifest and protected tfvars are present.")
  end.
Definition adoption_result_check (p : option path) (git_sha : string) (adoption_sha var_sha : option string)
    (expected : option (list val)) : IO (val * option val) :=
  match p with
  | None => mret (check "state-adoption" "blocked" "Executed OpenTofu state-adoption result is missing.", None)
  | Some p =>
      d ← attempt p "adoption_result" "adoption result";
      match d with
      | inr e => mret (check "state-adoption" "failed" e, None)
      | inl document => c ← lift (result_verdict document git_sha adoption_sha var_sha expected); mret (c, Some document)
      end
  end.

(** *** The signed release *)

Definition verifier_argv (p release_trust native_trust : path) (git_sha : string) : list string := [
  executable; Path.to_str PUBLICATION_VERIFIER; "--result"; Path.to_str p; "--git-sha"; git_sha;
  "--target-triple"; "x86_64-unknown-linux-gnu"; "--release-trust-dir"; Path.to_str release_trust;
  "--native-trust-dir"; Path.to_str native_trust].
Definition publication_failed (detail : string) : IO (val * option val) := mret (check "signed-x86-release" "failed" detail, None).
Definition run_verifier (p release_trust native_trust : path) (git_sha : string) : IO (val * option val) :=
  rp ← resolve p; rt ← resolve release_trust; nt ← resolve native_trust;
  proc ← gets (λ w, Proc (verifier_argv rp rt nt git_sha) (Some 900) (environ w) (Some ROOT));
  r ← run_completed proc;
  let '(code, o, e) := r in
  if negb (code =? 0) then
    publication_failed (Str.last_n 1000 (Str.strip (default "" (List.find (λ s, negb (String.eqb s "")) [e; o; "publication verification failed"]))))
  else
    d ← attempt p "build_result" "Linux release build result";
    match d with
    | inr e => publication_failed e
    | inl document => mret (check "signed-x86-release" "passed" "Exact-SHA x86_64 release and native artifacts passed cryptographic cross-binding verification.", Some document)
    end.
Definition publication_check (p release_trust_dir native_trust_dir : option path) (git_sha : string) : IO (val * option val) :=
  match p, release_trust_dir, native_trust_dir with
  | None, _, _ => mret (check "signed-x86-release" "blocked" "Signed x86_64 Linux release build result is missing.", None)
  | Some p, Some rt, Some nt =>
      bad ← irregular p;
      if bad : bool then publication_failed "Linux release build result must be a regular non-symlink file."
      else run_verifier p rt nt git_sha
  | Some _, _, _ => mret (check "signed-x86-release" "blocked" "Release and native public trust directories are required.", None)
  end.

(** *** The recovery evidence *)

Definition forward_only : val := VDict [("minimum_migration", VInt 8); ("maximum_migration", VInt 8); ("rollback_safe_through", VInt 8)].
Definition recovery_unbound (recovery manifest : val) (git_sha : string) : res bool :=
  rany id [get_ne recovery "git_sha" (VStr git_sha); get_ne recovery "status" (VStr "passed");
    (b ← dget recovery "blockers"; Ok (truthy b)); (t ← dget recovery "public_traffic_enabled"; Ok (negb (is_false t)));
    (r ← dget manifest "rollback_target_release_id"; Ok (negb (is_none r)));
    (d ← dget manifest "database_compatibility"; Ok (py_ne (or_dict d) forward_only))].
Definition not_prohibited (recovery : val) (host : string) : res bool :=
  h ← get_dict recovery host; p ← dget h "subnet_public_ip_prohibited"; Ok (negb (is_true p)).
Definition cutover_unsafe (recovery : val) : res bool :=
  rany id [not_prohibited recovery "primary"; not_prohibited recovery "fallback";
    (h ← get_dict recovery "fallback"; get_ne h "lifecycle_state" (VStr "STOPPED"))].
Definition recovery_failed (detail : string) : IO val := mret (check "recovery-target" "failed" detail).
(** The evidence and the manifest of the release, or the text of what made them unreadable *)
Definition recovery_documents (p build_path : path) (build : val) : IO (val * val + string) :=
  catch
    (recovery ← load_json p (SCHEMAS "recovery") "first-release recovery evidence";
     rp ← resolve build_path;
     n ← lift (v ← item build ["manifest"; "filename"]; expect_str v);
     manifest ← PyOs.load_json (Path.div (Path.parent rp) n);
     mret (inl (recovery, manifest)))
    (on_exn [OSError; ValueError; KeyError; JSONDecodeError] (λ e, mret (inr (exn_str e)))).
Definition public_backend (var_file : option path) : IO bool :=
  match var_file with
  | None => mret false
  | Some p => f ← is_file p;
              if f : bool then text ← read_text p; mret (said (bool_assignment text "public_backend_enabled") true) else mret false
  end.
Definition recovery_verdict (recovery manifest : val) (git_sha : string) (var_file : option path) : IO val :=
  _ ← lift (dget manifest "database_compatibility");
  public ← public_backend var_file;
  unbound ← lift (recovery_unbound recovery manifest git_sha);
  if unbound : bool then recovery_failed "First-release recovery or forward-only release identity binding failed." else
  unsafe ← lift (if public : bool then cutover_unsafe recovery else Ok false);
  if unsafe : bool
  then recovery_failed "Public cutover requires recovery evidence for the new private-subnet primary and stopped private-subnet fallback."
  else mret (check "recovery-target" "passed" "First-release recovery is bound to a stopped private fallback, a full predeploy boot-volume backup, traffic-off state and forward-only database recovery.").
Definition recovery_check (p build_path : option path) (build : option val) (git_sha : string) (var_file : option path) : IO val :=
  match p, build_path, build with
  | None, _, _ => mret (check "recovery-target" "blocked" "First-release infrastructure recovery evidence is missing.")
  | Some p, Some bp, Some build =>
      d ← recovery_documents p bp build;
      match d with
      | inr e => recovery_failed ("Recovery evidence is unreadable or invalid: " +:+ e)
      | inl (recovery, manifest) => recovery_verdict recovery manifest git_sha var_file
      end
  | Some _, _, _ => mret (check "recovery-target" "blocked" "Recovery cannot be bound until the signed release publication passes.")
  end.

(** *** The environment *)

Definition missing_environment (env : list (string * string)) : list string :=
  blocks (String.eqb (default "" (Dict.lookup "TF_ENCRYPTION" env)) "") "TF_ENCRYPTION" ++
  blocks (negb (Str.contains "sslmode=verify-full" (default "" (Dict.lookup "PG_CONN_STR" env)))) "PG_CONN_STR verify-full" ++
  blocks (negb (equals (Dict.lookup "PG_SCHEMA_NAME" env) "opentofu_v1_live")) "PG_SCHEMA_NAME" ++
  concat (map (λ n, blocks (negb (equals (Dict.lookup n env) "true")) n)
    ["PG_SKIP_SCHEMA_CREATION"; "PG_SKIP_TABLE_CREATION"; "PG_SKIP_INDEX_CREATION"]).
Definition environment_check : IO val :=
  missing ← gets (λ w, missing_environment (environ w));
  mret match missing with
       | [] => check "protected-environment" "passed" "Encrypted state and verify-full PostgreSQL backend environment is present."
       | _ => check "protected-environment" "blocked" ("Protected backend environment is incomplete: " +:+ Str.join ", " missing)
       end.

(** ** The program *)

Record args := Args {
  adoption_manifest : option path; state_backend_evidence : option path; adoption_result : option path; var_file : option path;
  linux_release_build_result : option path; release_trust_dir : option path; native_trust_dir : option path;
  recovery_target : option path; a_output : path; a_now : option string
}.

(** [subprocess.check_output(["git", ...], cwd=ROOT, text=True).strip()] *)
Definition git (argv : list string) : IO string :=
  p ← gets (λ w, Proc ("git" :: argv) None (environ w) (Some ROOT));
  r ← run_completed p;
  let '(code, o, _) := r in
  if code =? 0 then mret (Str.strip o) else throw CalledProcessError (CiProvenance.called_text ("git" :: argv) code).
Definition the_now (a : args) : IO Time.datetime :=
  match a_now a with
  | Some s => if String.eqb s "" then t ← now; mret (Time.DT t (Some 0))
              else lift (Time.fromisoformat (Str.replace "Z" "+00:00" s))
  | None => t ← now; mret (Time.DT t (Some 0))
  end.
Definition output_place (a : args) : IO path :=
  link ← is_symlink (a_output a);
  if link : bool then sysexit "--output must not be a symlink" else
  output ← resolve (a_output a);
  root ← resolve ROOT;
  match Path.relative_to output root with
  | Some _ => sysexit "--output must be outside the source repository"
  | None => there ← exists_ output; link ← is_symlink output;
            if there || link : bool then sysexit "--output must not already exist" else mret output
  end.

(** The checks in the order they are made, and the digest of the variables *)
Record checked := Checked { adoption : val; state_backend : val; tfvars : val; state_adoption : val; publication : val;
                            recovery : val; protected_environment : val; adoption_sha : option string; var_sha : option string }.
Definition run_checks (a : args) (git_sha : string) (now : Time.datetime) : IO checked :=
  ad ← adoption_check (adoption_manifest a) git_sha;
  sb ← state_backend_check (state_backend_evidence a) git_sha;
  tv ← tfvars_check (var_file a) git_sha now;
  ash ← digest_if_regular (adoption_manifest a);
  expected ← lift (match ad.2 with None => Ok None | Some d => s ← import_addresses d; Ok (Some s) end);
  sa ← adoption_result_check (adoption_result a) git_sha ash tv.2 expected;
  pu ← publication_check (linux_release_build_result a) (release_trust_dir a) (native_trust_dir a) git_sha;
  re ← recovery_check (recovery_target a) (linux_release_build_result a) pu.2 git_sha (var_file a);
  en ← environment_check;
  mret (Checked ad.1 sb.1 tv.1 sa.1 pu.1 re en ash tv.2).
(** [[by_name[name] for name in CHECK_ORDER]]: each check carries its own name *)
Definition ordered (c : checked) : list val :=
  [adoption c; state_backend c; state_adoption c; tfvars c; publication c; recovery c; protected_environment c].
Definition status_of (check : val) : val := match getitem check "status" with Ok v => v | Raise _ => VNone end.
Definition overall (checks : list val) : string :=
  let statuses := map status_of checks in
  if py_in (VStr "failed") statuses then "failed" else if py_in (VStr "blocked") statuses then "blocked" else "passed".
Definition open_checks (checks : list val) : list string :=
  concat (map (λ c, blocks (py_ne (status_of c) (VStr "passed"))
    match getitem c "name", getitem c "detail" with Ok n, Ok d => py_str n +:+ ": " +:+ py_str d | _, _ => "" end) checks).

Definition document_of (a : args) (git_sha generated_at : string) (c : checked)
    (state_sha result_sha build_sha recovery_sha : option string) : val := VDict [
  ("schema_version", VStr "liqi.infrastructure.pre-apply-readiness/v1"); ("generated_at", VStr generated_at);
  ("git_sha", VStr git_sha); ("capacity_profile", VStr "e5-temporary"); ("status", VStr (overall (ordered c)));
  ("checks", VList (ordered c));
  ("inputs", VDict [("adoption_manifest_sha256", opt_val VStr (adoption_sha c)); ("state_backend_evidence_sha256", opt_val VStr state_sha);
     ("adoption_result_sha256", opt_val VStr result_sha); ("var_file_sha256", opt_val VStr (var_sha c));
     ("linux_release_build_result_sha256", opt_val VStr build_sha); ("recovery_target_sha256", opt_val VStr recovery_sha)]);
  ("blockers", VStrs (open_checks (ordered c))); ("state_mutation_performed", VBool false); ("oci_mutation_performed", VBool false)].

Definition publish (output : path) (document : val) : IO unit :=
  schema ← PyOs.load_json (SCHEMAS "output");
  (match schema_errors schema document with
   | e :: _ => sysexit ("generated readiness result is invalid: " +:+ e.2)
   | [] => mret tt
   end) ;;
  mkdir_p (Path.parent output) ;;
  let temporary := Path.with_name output ("." +:+ Path.name output +:+ ".new." +:+ Str.of_Z pid) in
  write_file temporary (json_text document) ;;
  chmod temporary 384 ;;
  replace temporary output.

Definition main (a : args) : IO Z :=
  status ← git ["status"; "--porcelain"; "--untracked-files=all"];
  if negb (String.eqb status "") then sysexit "clean exact-SHA worktree is required for pre-apply readiness" else
  git_sha ← git ["rev-parse"; "HEAD"];
  now ← the_now a;
  match Time.offset now with
  | None => sysexit "--now must include a timezone"
  | Some _ =>
      output ← output_place a;
      c ← run_checks a git_sha now;
      t ← lift (Time.to_utc local_offset now);
      state_sha ← digest_if_regular (state_backend_evidence a);
      result_sha ← digest_if_regular (adoption_result a);
      build_sha ← digest_if_regular (linux_release_build_result a);
      recovery_sha ← digest_if_regular (recovery_target a);
      publish output (document_of a git_sha (Time.iso_z_seconds t) c state_sha result_sha build_sha recovery_sha) ;;
      h ← sha256 output;
      let blockers := open_checks (ordered c) in
      print (Json.dumps Json.plain_sorted (VDict [("status", VStr (overall (ordered c))); ("blockers", VInt (Z.of_nat (length blockers)));
        ("sha256", VStr h)])) ;;
      mret (if String.eqb (overall (ordered c)) "passed" then 0 else if String.eqb (overall (ordered c)) "blocked" then 2 else 1)
  end.
End Env.
End PreApply.
