(* ===== verification/PreApplyFacts.v ===== *)
(** * Ready to apply

    What the exit codes of the readiness of an apply mean: each check that passed
    has established its part, at the world it was made in. *)

From Stdlib Require Import Ascii.
From S2P Require Import Prelude PyFloat PyMonad PyValue PyTime PyJson Sha256 PyOs PyConfig PyNet OsFacts FsFacts Fixture.
From S2P Require Import ReadinessCommon GenerateSpec CiProvenance PlanV1 BuildResult BuildResultFacts LiveAdoption PreApply.

Module PreApplyFacts.
Import Evidence PlanV1 PreApply BuildResultFacts.

(** ** The sets of addresses *)

Lemma py_in_str s l : py_in (VStr s) l = true <-> VStr s ∈ l.
Proof.
  unfold py_in. rewrite existsb_exists. split.
  - intros (x & Hx & E%py_eq_str_l). subst x. by apply list_elem_of_In.
  - intros Hs. exists (VStr s). split; [by apply list_elem_of_In|]. by apply py_eq_str_l.
Qed.
(** Each address of the source graph is imported or missing, not both, and there is no other one. *)
Definition partitions (addresses missing : list val) : Prop :=
  (forall s, s ∈ EXPECTED_ADDRESSES -> VStr s ∈ addresses \/ VStr s ∈ missing) /\
  (forall s, VStr s ∈ addresses -> VStr s ∈ missing -> False) /\
  (forall v, v ∈ addresses \/ v ∈ missing -> exists s, v = VStr s /\ s ∈ EXPECTED_ADDRESSES).

Lemma graph_partitions addresses missing : graph_is_exact addresses missing = true <-> partitions addresses missing.
Proof.
  unfold graph_is_exact, disjoint, same_set, expected_set, strings. rewrite !andb_true_iff, !forallb_forall. split.
  - intros (Hd & Hs & He). split; [|split].
    + intros s Hs'. specialize (He (VStr s)). rewrite py_in_str, elem_of_app in He. apply He. by apply in_map, list_elem_of_In.
    + intros s Ha Hm. apply list_elem_of_In in Ha. specialize (Hd _ Ha). apply negb_true_iff in Hd.
      apply py_in_str in Hm. by rewrite Hm in Hd.
    + intros v Hv. apply py_in_strings, Hs. apply in_app_iff. by rewrite <-!list_elem_of_In.
  - intros (He & Hd & Hs). split; [|split].
    + intros v Hv. apply list_elem_of_In in Hv. destruct (Hs v (or_introl Hv)) as (s & -> & _). apply negb_true_iff.
      destruct (py_in (VStr s) missing) eqn:E; [|done]. apply py_in_str in E. by destruct (Hd s Hv E).
    + intros v Hv. apply py_in_strings, Hs. apply in_app_iff in Hv. by rewrite !list_elem_of_In.
    + intros v (s & <- & Hv)%in_map_iff. apply py_in_str, elem_of_app, He. by apply list_elem_of_In.
Qed.

(** ** Checks *)

(** A check that is neither failed nor blocked *)
Definition clear (c : val) : Prop := status_of c <> VStr "failed" /\ status_of c <> VStr "blocked".
Lemma not_failed n d : ~ clear (check n "failed" d).
Proof. by intros [E _]. Qed.
Lemma not_blocked n d : ~ clear (check n "blocked" d).
Proof. by intros [_ E]. Qed.
Lemma overall_clear checks : overall checks = "passed" -> Forall clear checks.
Proof.
  unfold overall. intros E. apply Forall_forall. intros c Hc.
  destruct (py_in (VStr "failed") (map status_of checks)) eqn:Ef; [done|].
  destruct (py_in (VStr "blocked") (map status_of checks)) eqn:Eb; [done|]. split; intros Es.
  - assert (py_in (VStr "failed") (map status_of checks) = true) as E1; [|congruence].
    apply py_in_str. rewrite <-Es. by apply list_elem_of_fmap_2.
  - assert (py_in (VStr "blocked") (map status_of checks) = true) as E1; [|congruence].
    apply py_in_str. rewrite <-Es. by apply list_elem_of_fmap_2.
Qed.
Ltac not_clear := match goal with
  | H : clear (check _ "failed" _) |- _ => by destruct (not_failed _ _ H)
  | H : clear (check _ "blocked" _) |- _ => by destruct (not_blocked _ _ H)
  end.

Section Facts.
Context `{Platform}.

Lemma ro_irregular p : Pres eq (irregular p).
Proof. unfold irregular. solve_pres. Qed.
#[local] Hint Resolve ro_irregular ro_validate_label : pres.
Lemma ro_load_document p s l : Pres eq (load_json p s l).
Proof. unfold load_json. solve_pres. Qed.
#[local] Hint Resolve ro_load_document : pres.
Lemma ro_attempt p s l : Pres eq (attempt p s l).
Proof. unfold attempt. solve_pres. Qed.
Lemma ro_digest_if p : Pres eq (digest_if_regular p).
Proof. unfold digest_if_regular, sha256. solve_pres. Qed.
#[local] Hint Resolve ro_attempt ro_digest_if : pres.
Lemma ro_adoption p s : Pres eq (adoption_check p s).
Proof. unfold adoption_check. solve_pres. Qed.
Lemma ro_state_backend p s : Pres eq (state_backend_check p s).
Proof. unfold state_backend_check. solve_pres. Qed.
Lemma ro_tfvars p s n : Pres eq (tfvars_check p s n).
Proof. unfold tfvars_check, tfvars_place, tfvars_content, tfvars_failed, sha256. solve_pres. Qed.
Lemma ro_adoption_result p s a v e : Pres eq (adoption_result_check p s a v e).
Proof. unfold adoption_result_check. solve_pres. Qed.
Lemma ro_environment : Pres eq environment_check.
Proof. unfold environment_check. solve_pres. Qed.
Lemma ro_recovery p b d s v : Pres eq (recovery_check p b d s v).
Proof. unfold recovery_check, recovery_documents, recovery_verdict, public_backend, recovery_failed. solve_pres. Qed.

(** A regular file, no link, whose document is a valid object *)
Definition readable (w : world) (p : path) (schema : string) (v : val) : Prop :=
  is_file_node (stat w p) = true /\ is_link_node (lstat w p) = false /\ is_dict v = true /\
  PyOs.load_json p w = (Ok v, w) /\ valid w (SCHEMAS schema) v.

Lemma load_document_Ok p s l w v w' : load_json p (SCHEMAS s) l w = (Ok v, w') -> w' = w /\ readable w p s v.
Proof.
  intros E. same_world E. split; [done|]. unfold load_json, irregular in E. apply M_bind_Ok in E as (b & w1 & E1 & E).
  apply M_bind_Ok in E1 as (f & w2 & Ef & E1). injection Ef as <- <-. apply M_bind_Ok in E1 as (k & w2 & Ek & E1). injection Ek as <- <-.
  apply ret_Ok in E1 as [<- ->]. destruct (negb _ || _) eqn:Eb; [done|]. apply orb_false_iff in Eb as [Ef%negb_false_iff El].
  apply M_bind_Ok in E as (d & w1 & E1 & E). same_world E1. destruct (is_dict d) eqn:Ed; [|done].
  apply M_bind_Ok in E as (u & w1 & [-> Hv]%validate_Ok & E). apply ret_Ok in E as [<- _]. by split.
Qed.
Lemma attempt_Ok p s l w r w' : attempt p s l w = (Ok r, w') -> w' = w /\ forall v, r = inl v -> readable w p s v.
Proof.
  intros E. pose proof (pres_eq_run _ _ _ _ (ro_attempt p s l) E) as ->. split; [done|]. intros v ->. unfold attempt in E.
  apply catch_Ok in E as [E|(e & w1 & k & _ & [_ ->]%on_exn_Some & E)]; [|by apply ret_Ok in E as [E _]].
  apply M_bind_Ok in E as (d & w1 & [-> Hd]%load_document_Ok & E). apply ret_Ok in E as [E _]. by injection E as ->.
Qed.

(** *** The adoption *)

Record adopted (w : world) (p : path) (sha : string) (document : val) : Prop := {
  ad_document : readable w p "adoption" document;
  ad_identity : dget document "git_sha" = Ok (VStr sha) /\ dget document "capacity_profile" = Ok (VStr "e5-temporary");
  ad_passed : getitem document "status" = Ok (VStr "passed") /\ exists b, getitem document "blockers" = Ok b /\ truthy b = false;
  ad_graph : exists addresses missing v, import_addresses document = Ok addresses /\
    getitem document "missing_addresses" = Ok v /\ set_of v = Ok missing /\ partitions addresses missing
}.
Lemma verdict_clear document c : adoption_verdict document = Ok c -> clear c ->
  (getitem document "status" = Ok (VStr "passed") /\ exists b, getitem document "blockers" = Ok b /\ truthy b = false) /\
  exists addresses missing v, import_addresses document = Ok addresses /\
    getitem document "missing_addresses" = Ok v /\ set_of v = Ok missing /\ partitions addresses missing.
Proof.
  unfold adoption_verdict. intros E Hc. apply bind_Ok in E as (ad & Ha & E). apply bind_Ok in E as (mi & Hm & E).
  apply bind_Ok in Hm as (v & Hv & Hm). apply bind_Ok in E as (st & Hs & E). apply bind_Ok in E as (o & Ho & E).
  destruct o.
  - apply bind_Ok in E as (b & _ & E). apply bind_Ok in E as (l & _ & E). apply bind_Ok in E as (ps & _ & E).
    injection E as <-. not_clear.
  - destruct (py_ne st (VStr "passed")) eqn:Ep; [done|]. unfold py_ne in Ep. apply negb_false_iff, py_eq_str_r in Ep as ->.
    apply bind_Ok in Ho as (b & Hb & Ho). injection Ho as [Ht Hg%negb_false_iff]%orb_false_iff.
    split; [split; [done|by exists b]|]. exists ad, mi, v. do 3 (split; [done|]). by apply graph_partitions.
Qed.
Lemma adoption_clear p sha w c d w' : adoption_check p sha w = (Ok (c, d), w') -> clear c ->
  w' = w /\ exists q document, p = Some q /\ d = Some document /\ adopted w q sha document.
Proof.
  intros E Hc. pose proof (pres_eq_run _ _ _ _ (ro_adoption p sha) E) as ->. split; [done|]. unfold adoption_check in E.
  destruct p as [q|]; [|injection E as <- _; not_clear].
  apply M_bind_Ok in E as (r & w1 & [-> Hr]%attempt_Ok & E). destruct r as [document|e]; [|injection E as <- _; not_clear].
  apply M_bind_Ok in E as (o & w1 & E1 & E). apply lift_Ok in E1 as [E1 ->].
  destruct o; [injection E as <- _; not_clear|]. apply ror_false in E1 as [A1%get_ne_str A2%get_ne_str].
  apply M_bind_Ok in E as (x & w1 & E2 & E). apply lift_Ok in E2 as [E2 ->]. injection E as -> <-.
  exists q, document. do 2 (split; [done|]). destruct (verdict_clear _ _ E2 Hc) as [Hp Hg]. split; [by apply Hr|done..].
Qed.

Lemma state_backend_clear p sha w c d w' : state_backend_check p sha w = (Ok (c, d), w') -> clear c ->
  w' = w /\ exists q document, p = Some q /\ readable w q "state_backend" document /\ dget document "git_sha" = Ok (VStr sha).
Proof.
  intros E Hc. pose proof (pres_eq_run _ _ _ _ (ro_state_backend p sha) E) as ->. split; [done|]. unfold state_backend_check in E.
  destruct p as [q|]; [|injection E as <- _; not_clear].
  apply M_bind_Ok in E as (r & w1 & [-> Hr]%attempt_Ok & E). destruct r as [document|e]; [|injection E as <- _; not_clear].
  apply M_bind_Ok in E as (o & w1 & E1 & E). apply lift_Ok in E1 as [E1 ->].
  destruct o; [injection E as <- _; not_clear|]. apply get_ne_str in E1. exists q, document.
  split; [done|]. split; [by apply Hr|done].
Qed.

(** *** The protected variables *)

(** What the text of the variables says when nothing in it blocks *)
Record reviewed (text sha : string) (now : Time.datetime) : Prop := {
  rv_profile : assignment text "capacity_profile" = Some "e5-temporary" /\
    bool_assignment text "acknowledge_capacity_availability_and_cost" = Some true /\
    bool_assignment text "acknowledge_host_bundle_signing_key" = Some true;
  rv_mode : assignment text "operation_mode" = Some "plan" /\ assignment text "fallback_desired_state" = Some "STOPPED";
  rv_cutover : exists b, bool_assignment text "public_backend_enabled" = Some b /\ bool_assignment text "acknowledge_public_cutover" = Some b;
  rv_source : assignment text "source_git_sha" = Some sha;
  rv_fallback : exists ip, Net.ip_address (default "" (assignment text "retained_fallback_private_ipv4")) = Some ip /\ Net.is_private ip = true;
  rv_topology : Forall (λ ne, assignment text ne.1 = Some ne.2) reviewed_topology;
  rv_sources : Str.contains "10.42.20.100/32" text = true /\ Str.contains "10.42.20.109/32" text = true /\
    exists group, search_lines (list_at "bastion_ssh_source_cidrs") true text = Some group /\ Str.contains "0.0.0.0/0" group = false;
  rv_expiry : exists d o, Time.fromisoformat (Str.replace "Z" "+00:00" (default "" (assignment text "temporary_e5_expires_at"))) = Ok d /\
    Time.offset d = Some o /\ utc_of now < utc_of d <= Time.wall now / Time.us_per_s * Time.us_per_s + ninety_days - default 0 (Time.offset now)
}.
Lemma blocks_nil b m : blocks b m = [] <-> b = false.
Proof. by destruct b. Qed.
Lemma equals_Some o s : negb (equals o s) = false <-> o = Some s.
Proof.
  rewrite negb_false_iff. destruct o as [t|]; [|done]. simpl. rewrite String.eqb_eq. split; [by intros ->|by intros [= ->]].
Qed.
Lemma said_Some o b : negb (said o b) = false <-> o = Some b.
Proof.
  rewrite negb_false_iff. destruct o as [c|]; [|done]. simpl. split; [by destruct b, c|intros [= ->]; by destruct b].
Qed.
Lemma concat_blocks {A} (f : A -> bool) (g : A -> string) l : concat (map (λ x, blocks (f x) (g x)) l) = [] <-> Forall (λ x, f x = false) l.
Proof.
  induction l as [|x l IH]; [by split|]. simpl. rewrite app_nil, Forall_cons, IH, blocks_nil. done.
Qed.
Lemma in_time_Ok now d : expires_in_time now d = Ok true ->
  utc_of now < utc_of d <= Time.wall now / Time.us_per_s * Time.us_per_s + ninety_days - default 0 (Time.offset now).
Proof.
  unfold expires_in_time. destruct (Z.leb_spec (utc_of d) (utc_of now)); [done|].
  destruct (_ <=? _); [done|]. intros [= E%Z.leb_le]. done.
Qed.
Lemma expiry_clear text now : expiry_blockers text now = Ok [] ->
  exists d o, Time.fromisoformat (Str.replace "Z" "+00:00" (default "" (assignment text "temporary_e5_expires_at"))) = Ok d /\
    Time.offset d = Some o /\ utc_of now < utc_of d <= Time.wall now / Time.us_per_s * Time.us_per_s + ninety_days - default 0 (Time.offset now).
Proof.
  unfold expiry_blockers. destruct (Time.fromisoformat _) as [d|e]; [|by destruct (exn_in _ _)].
  destruct (Time.offset d) as [o|] eqn:Eo; [|done]. intros E. apply bind_Ok in E as (ok & E1 & E). injection E as E%blocks_nil%negb_false_iff.
  subst ok. exists d, o. do 2 (split; [done|]). by apply in_time_Ok.
Qed.
Lemma cutover_agrees o c : bool_decide (o = None) = false -> bool_decide (c = None) = false ->
  said o false && negb (said c false) = false -> said o true && negb (said c true) = false -> exists b, o = Some b /\ c = Some b.
Proof. destruct o as [[]|], c as [[]|]; try done; by eexists. Qed.
Lemma tfvars_reviewed text sha now : tfvars_blockers text sha now = Ok [] -> reviewed text sha now.
Proof.
  unfold tfvars_blockers. intros E. apply bind_Ok in E as (ex & Hx & E). injection E as E. apply app_nil in E as [Hm E].
  apply app_nil in E as [Hi E]. apply app_nil in E as [Hn ->]. apply expiry_clear in Hx.
  unfold mode_blockers in Hm. rewrite !app_nil, !blocks_nil, !equals_Some, !said_Some in Hm.
  destruct Hm as (M1 & M2 & M3 & M4 & M5 & M6 & M7 & M8 & M9).
  unfold identity_blockers in Hi. rewrite !app_nil in Hi. destruct Hi as (_ & I2 & I3 & _). apply blocks_nil, equals_Some in I3.
  unfold ip_blockers in I2. destruct (Net.ip_address _) as [ip|] eqn:Eip; [|done]. apply blocks_nil, negb_false_iff in I2.
  unfold network_blockers in Hn. rewrite !app_nil, !blocks_nil, concat_blocks in Hn. destruct Hn as (N1 & N2 & N3 & _).
  split.
  - exact (conj M1 (conj M2 M3)).
  - exact (conj M4 M9).
  - exact (cutover_agrees _ _ M5 M6 M7 M8).
  - exact I3.
  - exists ip. exact (conj Eip I2).
  - eapply Forall_impl; [exact N3|]. intros ne Hne. exact (proj1 (equals_Some _ _) Hne).
  - apply negb_false_iff in N1. simpl in N1. rewrite andb_true_r in N1. apply andb_true_iff in N1 as [N1 N1'].
    split; [exact N1|]. split; [exact N1'|]. destruct (search_lines (list_at _) _ _) as [group|]; [|discriminate N2]. exists group. exact (conj eq_refl N2).
  - exact Hx.
Qed.

(** The file of the variables: no link, outside the repository, for the owner's eyes only *)
Record protected (w : world) (p : path) (resolved : list string) (text : string) (h : string) : Prop := {
  pr_place : is_link_node (lstat w p) = false /\ canon w p = Some resolved;
  pr_outside : forall root r, canon w ROOT = Some root -> resolved <> root ++ r;
  pr_mode : os_name = "posix" -> exists m, st_mode (MkPath true resolved) w = (Ok m, w) /\ Z.land m 63 = 0;
  pr_text : read_text (MkPath true resolved) w = (Ok text, w) /\ FORBIDDEN_KEY_MATERIAL text = false;
  pr_digest : sha256 (MkPath true resolved) w = (Ok h, w)
}.
Lemma relative_to_None k root r : Path.relative_to (MkPath true k) (MkPath true root) = None -> k <> root ++ r.
Proof.
  unfold Path.relative_to. simpl. destruct (Path.strip_parts root k) eqn:E; [done|]. intros _ Hk.
  apply strip_parts_Some in Hk. congruence.
Qed.
Lemma content_clear resolved sha now w c h w' : tfvars_content resolved sha now w = (Ok (c, h), w') -> clear c ->
  exists text d, read_text resolved w = (Ok text, w) /\ FORBIDDEN_KEY_MATERIAL text = false /\ reviewed text sha now /\
    h = Some d /\ sha256 resolved w = (Ok d, w).
Proof.
  unfold tfvars_content. intros E Hc. apply M_bind_Ok in E as (text & w1 & E1 & E). same_world E1.
  destruct (FORBIDDEN_KEY_MATERIAL text) eqn:Ef; [injection E as <- _; not_clear|].
  apply M_bind_Ok in E as (bs & w1 & E2 & E). apply lift_Ok in E2 as [E2 ->]. apply M_bind_Ok in E as (d & w1 & E3 & E).
  assert (w1 = w) as -> by (unfold sha256 in E3; by same_world E3). apply ret_Ok in E as [E _]. injection E as <- <-.
  destruct bs as [|b bs]; [|not_clear]. exists text, d. split_and!; try done. by apply tfvars_reviewed.
Qed.
Lemma tfvars_clear p sha now w c h w' : tfvars_check p sha now w = (Ok (c, h), w') -> clear c -> w' = w /\
  exists q k text d, p = Some q /\ h = Some d /\ protected w q k text d /\ reviewed text sha now.
Proof.
  intros E Hc. pose proof (pres_eq_run _ _ _ _ (ro_tfvars p sha now) E) as ->. split; [done|]. unfold tfvars_check in E.
  destruct p as [q|]; [|injection E as <- _; not_clear].
  apply M_bind_Ok in E as (l & w1 & E1 & E). injection E1 as <- <-.
  destruct (is_link_node _) eqn:El; [injection E as <- _; not_clear|]. apply M_bind_Ok in E as (r & w1 & E2 & E).
  apply catch_Ok in E2 as [E2|(e & w2 & k & E2' & [_ ->]%on_exn_Some & E2)].
  2: { apply ret_Ok in E2 as [<- ->]. injection E as <- _. not_clear. }
  apply M_bind_Ok in E2 as (x & w2 & E2 & E3). apply ret_Ok in E3 as [<- ->]. unfold resolve_strict in E2.
  destruct (canon w q) as [k|] eqn:Ek; [|done]. destruct (is_some_node _); [|done]. injection E2 as <- <-.
  unfold tfvars_place in E. apply M_bind_Ok in E as (f & w1 & E4 & E). injection E4 as <- <-.
  destruct (negb _); [injection E as <- _; not_clear|]. apply M_bind_Ok in E as (root & w1 & E5 & E).
  unfold resolve in E5. destruct (canon w ROOT) as [kr|] eqn:Er; [|done]. injection E5 as <- <-.
  destruct (Path.relative_to _ _) eqn:Erel; [injection E as <- _; not_clear|].
  apply M_bind_Ok in E as (ex & w1 & E6 & E). destruct ex; [injection E as <- _; not_clear|].
  assert (w1 = w /\ (os_name = "posix" -> exists m, st_mode (MkPath true k) w = (Ok m, w) /\ Z.land m 63 = 0)) as [-> Hmode].
  { destruct (String.eqb_spec os_name "posix") as [_|]; [|by apply ret_Ok in E6 as [_ ->]].
    apply M_bind_Ok in E6 as (m & w2 & E6 & E7). same_world E6. apply ret_Ok in E7 as [E7%negb_false_iff ->].
    split; [done|]. intros _. exists m. split; [done|]. by apply Z.eqb_eq. }
  destruct (content_clear _ _ _ _ _ _ _ E Hc) as (text & d & R1 & R2 & R3 & -> & R4).
  exists q, k, text, d. do 2 (split; [done|]). split; [|done]. split; try done.
  intros kr' r Hkr. rewrite Er in Hkr. injection Hkr as <-. by eapply relative_to_None.
Qed.

(** *** The executed adoption *)

Record executed (w : world) (p : path) (sha adoption_sha var_sha : string) (expected : list val) (document : val) : Prop := {
  xe_document : readable w p "adoption_result" document;
  xe_identity : dget document "git_sha" = Ok (VStr sha) /\ dget document "capacity_profile" = Ok (VStr "e5-temporary");
  xe_inputs : dget document "manifest_sha256" = Ok (VStr adoption_sha) /\ dget document "var_file_sha256" = Ok (VStr var_sha);
  xe_addresses : exists addresses, adopted_addresses document = Ok addresses /\ same_set addresses expected = true;
  xe_passed : dget document "operation" = Ok (VStr "execute") /\ dget document "status" = Ok (VStr "passed") /\
    (exists b, dget document "blockers" = Ok b /\ truthy b = false) /\ dget document "oci_mutation_performed" = Ok (VBool false)
}.
Lemma adoption_result_clear p sha a v e w c d w' : adoption_result_check p sha a v e w = (Ok (c, d), w') -> clear c -> w' = w /\
  exists q a' v' e' document, p = Some q /\ a = Some a' /\ v = Some v' /\ e = Some e' /\ executed w q sha a' v' e' document.
Proof.
  intros E Hc. pose proof (pres_eq_run _ _ _ _ (ro_adoption_result p sha a v e) E) as ->. split; [done|]. unfold adoption_result_check in E.
  destruct p as [q|]; [|injection E as <- _; not_clear].
  apply M_bind_Ok in E as (r & w1 & [-> Hr]%attempt_Ok & E). destruct r as [document|x]; [|injection E as <- _; not_clear].
  apply M_bind_Ok in E as (y & w1 & E1 & E). apply lift_Ok in E1 as [E1 ->]. injection E as -> _. unfold result_verdict in E1.
  apply bind_Ok in E1 as (o & Ho & E1). destruct o; [injection E1 as <-; not_clear|]. apply ror_false in Ho as [A1%get_ne_str A2%get_ne_str].
  destruct a as [a'|], v as [v'|], e as [e'|]; try (injection E1 as <-; not_clear).
  apply bind_Ok in E1 as (u & Hu & E1). destruct u; [injection E1 as <-; not_clear|]. apply ror_false in Hu as [B1%get_ne_str B2%get_ne_str].
  apply bind_Ok in E1 as (ads & Hads & E1). destruct (same_set ads e') eqn:Es; [|injection E1 as <-; not_clear]. cbn [negb] in E1.
  apply bind_Ok in E1 as (op & Hop & E1). injection E1 as <-. destruct op; [not_clear|].
  apply rany_false in Hop. rewrite !Forall_cons in Hop. destruct Hop as (C1%get_ne_str & C2%get_ne_str & C3 & _ & C5 & _).
  exists q, a', v', e', document. do 4 (split; [done|]). split; try done; [by apply Hr|by exists ads|].
  split; [done|]. split; [done|]. apply bind_Ok in C3 as (b & Hb & C3). injection C3 as C3. split; [by exists b|].
  apply bind_Ok in C5 as (m & -> & C5). destruct m as [|x| | | | |]; try done. by destruct x.
Qed.

(** *** The signed release *)

Definition verifier (p rt nt : path) (sha : string) (w : world) : proc :=
  Proc (verifier_argv p rt nt sha) (Some 900) (environ w) (Some ROOT).
(** The verifier accepted the release, and the result is readable afterwards *)
Record released (w w' : world) (p rt nt : path) (sha : string) (build : val) : Prop := {
  rl_places : exists kp kr kn, canon w p = Some kp /\ canon w rt = Some kr /\ canon w nt = Some kn /\
    ran [verifier (MkPath true kp) (MkPath true kr) (MkPath true kn) sha w] w w';
  rl_regular : is_file_node (stat w p) = true /\ is_link_node (lstat w p) = false;
  rl_document : readable w' p "build_result" build
}.
Lemma publication_clear p rt nt sha w c d w' : publication_check p rt nt sha w = (Ok (c, d), w') -> clear c ->
  exists q r n build, p = Some q /\ rt = Some r /\ nt = Some n /\ d = Some build /\ released w w' q r n sha build.
Proof.
  intros E Hc. unfold publication_check in E. destruct p as [q|]; [|injection E as <- _; not_clear].
  destruct rt as [r|], nt as [n|]; try (injection E as <- _; not_clear).
  apply M_bind_Ok in E as (b & w1 & E1 & E). pose proof (pres_eq_run _ _ _ _ (ro_irregular q) E1) as ->.
  unfold irregular in E1. apply M_bind_Ok in E1 as (f & w2 & Ef & E1). injection Ef as <- <-.
  apply M_bind_Ok in E1 as (l & w2 & El & E1). injection El as <- <-. apply ret_Ok in E1 as [Eb _].
  destruct b; [injection E as <- _; not_clear|]. apply orb_false_iff in Eb as [Hf%negb_false_iff Hl].
  unfold run_verifier in E. apply M_bind_Ok in E as (kp & w1 & E1 & E). unfold resolve in E1.
  destruct (canon w q) as [xp|] eqn:Ep; [|done]. injection E1 as <- <-.
  apply M_bind_Ok in E as (kr & w1 & E1 & E). unfold resolve in E1. destruct (canon w r) as [xr|] eqn:Er; [|done].
  injection E1 as <- <-. apply M_bind_Ok in E as (kn & w1 & E1 & E). unfold resolve in E1.
  destruct (canon w n) as [xn|] eqn:En; [|done]. injection E1 as <- <-.
  apply M_bind_Ok in E as (pr & w1 & E1 & E). injection E1 as <- <-.
  apply M_bind_Ok in E as ([[code o] e] & w1 & E1 & E). cbv beta iota in E.
  destruct (code =? 0) eqn:Ec; [|injection E as <- _; not_clear]. apply Z.eqb_eq in Ec as ->. cbn [negb] in E.
  apply run_completed_ran in E1. apply M_bind_Ok in E as (x & w2 & [-> Hx]%attempt_Ok & E).
  destruct x as [build|x]; [|injection E as <- _; not_clear]. apply ret_Ok in E as [E ->]. injection E as _ <-.
  exists q, r, n, build. do 4 (split; [done|]). split; [by exists xp, xr, xn|done|by apply Hx].
Qed.

(** *** The recovery evidence *)

Record recoverable (w : world) (p build_path : path) (build : val) (var_file : option path) (sha : string) (recovery manifest : val) : Prop := {
  rc_document : readable w p "recovery" recovery;
  rc_manifest : exists k n, canon w build_path = Some k /\ item build ["manifest"; "filename"] = Ok (VStr n) /\
    PyOs.load_json (Path.div (Path.parent (MkPath true k)) n) w = (Ok manifest, w);
  rc_bound : dget recovery "git_sha" = Ok (VStr sha) /\ dget recovery "status" = Ok (VStr "passed") /\
    (exists b, dget recovery "blockers" = Ok b /\ truthy b = false) /\ dget recovery "public_traffic_enabled" = Ok (VBool false);
  rc_first : dget manifest "rollback_target_release_id" = Ok VNone /\
    exists d, dget manifest "database_compatibility" = Ok d /\ py_eq (or_dict d) forward_only = true;
  rc_cutover : exists public, public_backend var_file w = (Ok public, w) /\ (public = true ->
    (exists h, get_dict recovery "primary" = Ok h /\ dget h "subnet_public_ip_prohibited" = Ok (VBool true)) /\
    (exists h, get_dict recovery "fallback" = Ok h /\ dget h "subnet_public_ip_prohibited" = Ok (VBool true)) /\
    exists h, get_dict recovery "fallback" = Ok h /\ dget h "lifecycle_state" = Ok (VStr "STOPPED"))
}.
Lemma recovery_bound recovery manifest sha : recovery_unbound recovery manifest sha = Ok false ->
  (dget recovery "git_sha" = Ok (VStr sha) /\ dget recovery "status" = Ok (VStr "passed") /\
    (exists b, dget recovery "blockers" = Ok b /\ truthy b = false) /\ dget recovery "public_traffic_enabled" = Ok (VBool false)) /\
  (dget manifest "rollback_target_release_id" = Ok VNone /\
    exists d, dget manifest "database_compatibility" = Ok d /\ py_eq (or_dict d) forward_only = true).
Proof.
  unfold recovery_unbound. intros E%rany_false. rewrite !Forall_cons in E.
  destruct E as (A1%get_ne_str & A2%get_ne_str & A3 & A4 & A5 & A6 & _).
  apply bind_Ok in A3 as (b & Hb & A3). injection A3 as A3. apply bind_Ok in A4 as (t & Ht & A4).
  apply bind_Ok in A5 as (r & Hr & A5). apply bind_Ok in A6 as (d & Hd & A6). injection A6 as A6%negb_false_iff.
  split.
  - do 2 (split; [done|]). split; [by exists b|]. destruct t as [|x| | | | |]; try done. by destruct x.
  - destruct r; try done. split; [done|]. by exists d.
Qed.
Lemma prohibited recovery host : not_prohibited recovery host = Ok false ->
  exists h, get_dict recovery host = Ok h /\ dget h "subnet_public_ip_prohibited" = Ok (VBool true).
Proof.
  unfold not_prohibited. intros E. apply bind_Ok in E as (h & Hh & E). apply bind_Ok in E as (p & Hp & E).
  exists h. split; [done|]. destruct p as [|x| | | | |]; try done. by destruct x.
Qed.
Lemma cutover_safe recovery : cutover_unsafe recovery = Ok false ->
  (exists h, get_dict recovery "primary" = Ok h /\ dget h "subnet_public_ip_prohibited" = Ok (VBool true)) /\
  (exists h, get_dict recovery "fallback" = Ok h /\ dget h "subnet_public_ip_prohibited" = Ok (VBool true)) /\
  exists h, get_dict recovery "fallback" = Ok h /\ dget h "lifecycle_state" = Ok (VStr "STOPPED").
Proof.
  unfold cutover_unsafe. intros E%rany_false. rewrite !Forall_cons in E. destruct E as (A1%prohibited & A2%prohibited & A3 & _).
  split_and!; try done. apply bind_Ok in A3 as (h & Hh & A3%get_ne_str). by exists h.
Qed.
Lemma recovery_clear p bp d sha v w c w' : recovery_check p bp d sha v w = (Ok c, w') -> clear c -> w' = w /\
  exists q b build recovery manifest, p = Some q /\ bp = Some b /\ d = Some build /\ recoverable w q b build v sha recovery manifest.
Proof.
  intros E Hc. pose proof (pres_eq_run _ _ _ _ (ro_recovery p bp d sha v) E) as ->. split; [done|]. unfold recovery_check in E.
  destruct p as [q|]; [|injection E as <-; not_clear]. destruct bp as [b|], d as [build|]; try (injection E as <-; not_clear).
  apply M_bind_Ok in E as (r & w1 & E1 & E). destruct r as [[recovery manifest]|e]; [|injection E as <- _; not_clear].
  unfold recovery_documents in E1. apply catch_Ok in E1 as [E1|(e & w2 & k & _ & [_ ->]%on_exn_Some & E1)]; [|by apply ret_Ok in E1 as [E1 _]].
  apply M_bind_Ok in E1 as (x & w2 & [-> Hx]%load_document_Ok & E1). apply M_bind_Ok in E1 as (y & w2 & E2 & E1).
  unfold resolve in E2. destruct (canon w b) as [kb|] eqn:Ekb; [|done]. injection E2 as <- <-.
  apply M_bind_Ok in E1 as (n & w2 & E2 & E1). apply lift_Ok in E2 as [E2 ->]. apply bind_Ok in E2 as (nv & Hn & E2).
  destruct nv; try done. injection E2 as ->.
  apply M_bind_Ok in E1 as (m & w2 & E3 & E1). same_world E3. apply ret_Ok in E1 as [E1 ->]. injection E1 as -> ->.
  unfold recovery_verdict in E. apply M_bind_Ok in E as (dc & w2 & E4 & E). apply lift_Ok in E4 as [_ ->].
  apply M_bind_Ok in E as (pb & w2 & E5 & E).
  assert (w2 = w) as -> by (unfold public_backend in E5; by same_world E5).
  apply M_bind_Ok in E as (un & w2 & E6 & E). apply lift_Ok in E6 as [E6 ->].
  destruct un; [injection E as <-; not_clear|]. apply M_bind_Ok in E as (us & w2 & E7 & E). apply lift_Ok in E7 as [E7 ->].
  destruct us; [injection E as <-; not_clear|]. apply recovery_bound in E6 as [R1 R2].
  exists q, b, build, recovery, manifest. do 3 (split; [done|]). split; try done; [by exists kb, n|].
  exists pb. split; [done|]. intros ->. by apply cutover_safe.
Qed.

(** *** The environment *)

Definition environment_ready (env : list (string * string)) : Prop :=
  (exists s, Dict.lookup "TF_ENCRYPTION" env = Some s /\ s <> "") /\
  Str.contains "sslmode=verify-full" (default "" (Dict.lookup "PG_CONN_STR" env)) = true /\
  Dict.lookup "PG_SCHEMA_NAME" env = Some "opentofu_v1_live" /\
  Forall (λ n, Dict.lookup n env = Some "true") ["PG_SKIP_SCHEMA_CREATION"; "PG_SKIP_TABLE_CREATION"; "PG_SKIP_INDEX_CREATION"].
Lemma environment_clear w c w' : environment_check w = (Ok c, w') -> clear c -> w' = w /\ environment_ready (environ w).
Proof.
  intros E Hc. pose proof (pres_eq_run _ _ _ _ ro_environment E) as ->. split; [done|]. unfold environment_check in E.
  apply M_bind_Ok in E as (m & w1 & E1 & E). injection E1 as <- <-. apply ret_Ok in E as [<- _].
  destruct (missing_environment (environ w)) eqn:Em; [|not_clear]. unfold missing_environment in Em.
  rewrite !app_nil, !blocks_nil, concat_blocks in Em. destruct Em as (M1 & M2%negb_false_iff & M3%equals_Some & M4).
  split; [|split; [done|split; [done|]]].
  - destruct (Dict.lookup "TF_ENCRYPTION" (environ w)) as [s|]; [|done]. exists s. split; [done|]. by apply String.eqb_neq.
  - eapply Forall_impl; [exact M4|]. intros n Hn. by apply equals_Some.
Qed.

(** ** The whole program *)

Section Program.
Context (a : args).

(** Each of the seven parts, the last three after the verifier of the release has run *)
Record ready (sha : string) (now : Time.datetime) (w w' : world) : Prop := {
  rd_inputs : exists manifest document adoption_sha vars resolved text var_sha result executed_result addresses,
    adoption_manifest a = Some manifest /\ adopted w manifest sha document /\ sha256 manifest w = (Ok adoption_sha, w) /\
    var_file a = Some vars /\ protected w vars resolved text var_sha /\ reviewed text sha now /\
    adoption_result a = Some result /\ import_addresses document = Ok addresses /\
    executed w result sha adoption_sha var_sha addresses executed_result;
  rd_backend : exists backend document, state_backend_evidence a = Some backend /\
    readable w backend "state_backend" document /\ dget document "git_sha" = Ok (VStr sha);
  rd_release : exists p rt nt build, linux_release_build_result a = Some p /\ release_trust_dir a = Some rt /\
    native_trust_dir a = Some nt /\ released w w' p rt nt sha build /\
    exists r recovery manifest, recovery_target a = Some r /\ recoverable w' r p build (var_file a) sha recovery manifest;
  rd_environment : environment_ready (environ w)
}.

Lemma digest_if_Ok p w h w' : digest_if_regular (Some p) w = (Ok (Some h), w') -> w' = w /\ sha256 p w = (Ok h, w).
Proof.
  intros E. pose proof (pres_eq_run _ _ _ _ (ro_digest_if _) E) as ->. split; [done|]. unfold digest_if_regular in E.
  apply M_bind_Ok in E as (b & w1 & E1 & E). pose proof (pres_eq_run _ _ _ _ (ro_irregular p) E1) as ->.
  destruct b; [done|]. apply M_bind_Ok in E as (x & w1 & E2 & E). apply ret_Ok in E as [E ->]. by injection E as ->.
Qed.

Lemma run_checks_clear sha now w c w' : run_checks a sha now w = (Ok c, w') -> Forall clear (ordered c) ->
  ready sha now w w' /\ (exists p, ran [p] w w') /\
  exists backend vars resolved text result adoption_sha' var_sha' addresses executed_result,
    state_backend_evidence a = Some backend /\ var_file a = Some vars /\ adoption_result a = Some result /\
    (exists d, readable w backend "state_backend" d) /\ protected w vars resolved text var_sha' /\
    executed w result sha adoption_sha' var_sha' addresses executed_result /\
    adoption_sha c = Some adoption_sha' /\ var_sha c = Some var_sha'.
Proof.
  unfold run_checks. intros E Hc. apply M_bind_Ok in E as ([c1 d1] & w1 & E1 & E). apply M_bind_Ok in E as ([c2 d2] & w2 & E2 & E).
  apply M_bind_Ok in E as ([c3 h3] & w3 & E3 & E). apply M_bind_Ok in E as (ash & w4 & E4 & E).
  apply M_bind_Ok in E as (ex & w5 & E5 & E). apply lift_Ok in E5 as [E5 ->]. apply M_bind_Ok in E as ([c6 d6] & w6 & E6 & E).
  apply M_bind_Ok in E as ([c7 d7] & w7 & E7 & E). apply M_bind_Ok in E as (c8 & w8 & E8 & E).
  apply M_bind_Ok in E as (c9 & w9 & E9 & E). apply ret_Ok in E as [<- ->]. cbn [fst snd] in *.
  unfold ordered in Hc. cbn in Hc. rewrite !Forall_cons in Hc. destruct Hc as (H1 & H2 & H6 & H3 & H7 & H8 & H9 & _).
  apply adoption_clear in E1 as (-> & ma & doc & Ema & -> & Had); [|done].
  apply state_backend_clear in E2 as (-> & sb & sd & Esb & Hsb & Hsd); [|done].
  apply tfvars_clear in E3 as (-> & vf & k & text & vs & Evf & -> & Hpr & Hrv); [|done].
  pose proof (pres_eq_run _ _ _ _ (ro_digest_if _) E4) as ->.
  apply adoption_result_clear in E6 as (-> & ar & as' & vs' & ads & xd & Ear & -> & Evs & -> & Hx); [|done]. injection Evs as <-.
  rewrite Ema in E4. apply digest_if_Ok in E4 as [_ E4]. apply bind_Ok in E5 as (ads' & Hads & E5). injection E5 as <-.
  apply publication_clear in E7 as (lb & rt & nt & build & Elb & Ert & Ent & -> & Hrel); [|done].
  apply recovery_clear in E8 as (-> & rq & b & bd & rec & mf & Erq & Eb & Ebd & Hrc); [|done]. injection Ebd as <-.
  rewrite Elb in Eb. injection Eb as <-. apply environment_clear in E9 as [-> Henv]; [|done].
  pose proof (rl_places _ _ _ _ _ _ _ Hrel) as (kp & kr & kn & _ & _ & _ & Hran).
  split; [|split; [by eexists|exists sb, vf, k, text, ar, as', vs, ads', xd; split_and!; try done; by exists sd]]. split.
  - exists ma, doc, as', vf, k, text, vs, ar, xd, ads'. split_and!; done.
  - by exists sb, sd.
  - exists lb, rt, nt, build. do 4 (split; [done|]). by exists rq, rec, mf.
  - destruct Hran as (_ & _ & He). by rewrite He in Henv.
Qed.

(** *** The exit code *)

Lemma sl_publish output document : Pres same_log (publish output document).
Proof. unfold publish. solve_pres. Qed.
Lemma the_now_log w now w' : the_now a w = (Ok now, w') -> log w' = log w /\ fs w' = fs w /\ environ w' = environ w.
Proof.
  unfold the_now. destruct (a_now a) as [s|]; [destruct (String.eqb s "")|]; intros E.
  1, 3: apply M_bind_Ok in E as (t & w1 & E1 & E); apply ret_Ok in E as [_ ->]; injection E1 as _ <-; done.
  by apply lift_Ok in E as [_ ->].
Qed.
Lemma git_ran argv w o w' : git argv w = (Ok o, w') -> ran [Proc ("git" :: argv) None (environ w) (Some ROOT)] w w'.
Proof.
  unfold git. intros E. apply M_bind_Ok in E as (p & w1 & E1 & E). injection E1 as <- <-.
  apply M_bind_Ok in E as ([[code x] e] & w1 & E1 & E). cbv beta iota in E.
  destruct (code =? 0) eqn:Ec; [|done]. apply Z.eqb_eq in Ec as ->. apply ret_Ok in E as [_ ->]. by eapply run_completed_ran.
Qed.
Lemma overall_code checks : (if String.eqb (overall checks) "passed" then 0 else if String.eqb (overall checks) "blocked" then 2 else 1) = 0 ->
  overall checks = "passed".
Proof. destruct (String.eqb_spec (overall checks) "passed"); [done|]. by destruct (String.eqb (overall checks) "blocked"). Qed.

Definition status_words : list string := ["status"; "--porcelain"; "--untracked-files=all"].
Definition git_process (argv : list string) (w : world) : proc := Proc ("git" :: argv) None (environ w) (Some ROOT).

(** C16: An apply is ready (exit code 0) only on a clean checkout for whose commit: the adoption
    manifest is valid, passed, and each address of the reviewed source graph is in exactly one
    of its two lists; the state backend's evidence is of this commit; the variables are a private file
    outside the repository, without key material, with every reviewed value, a cutover
    acknowledged exactly as enabled and an expiry within 90 days; the adoption was executed on
    exactly these inputs and addresses; the verifier accepted the release; the recovery evidence is
    passed, of this commit and, for a cutover, of private hosts; and the environment of the
    backend is complete. Just the two questions to git and the verifier were started, and
    a valid document that says passed was published. *)
Theorem pre_apply_ready w w' : main a w = (Ok 0, w') ->
  exists sha now w1 w2 w3 w4 w5 output document p,
    git status_words w = (Ok "", w1) /\ git ["rev-parse"; "HEAD"] w1 = (Ok sha, w2) /\
    the_now a w2 = (Ok now, w3) /\ ready sha now w3 w4 /\
    publish output document w4 = (Ok tt, w5) /\ fs w' = fs w5 /\ getitem document "status" = Ok (VStr "passed") /\
    log w' = p :: git_process ["rev-parse"; "HEAD"] w :: git_process status_words w :: log w.
Proof.
  unfold main. intros E. apply M_bind_Ok in E as (st & w1 & E1 & E). destruct (String.eqb_spec st "") as [->|]; [|done].
  cbn [negb] in E. apply M_bind_Ok in E as (sha & w2 & E2 & E). apply M_bind_Ok in E as (now & w3 & E3 & E).
  destruct (Time.offset now) as [o|]; [|done]. apply M_bind_Ok in E as (output & w4 & E4 & E).
  assert (w4 = w3) as -> by (unfold output_place in E4; by same_world E4).
  apply M_bind_Ok in E as (c & w4 & E5 & E). apply M_bind_Ok in E as (t & w5 & E6 & E). apply lift_Ok in E6 as [E6 ->].
  do 4 (apply M_bind_Ok in E as (? & w5 & X & E); pose proof (pres_eq_run _ _ _ _ (ro_digest_if _) X) as ->; clear X).
  apply M_bind_Ok in E as ([] & w5 & E7 & E). apply M_bind_Ok in E as (h & w6 & E8 & E).
  assert (w6 = w5) as -> by (unfold sha256 in E8; by same_world E8).
  apply M_bind_Ok in E as (u & w6 & E9 & E). injection E9 as _ <-. apply ret_Ok in E as [E ->]. apply overall_code in E.
  destruct (run_checks_clear _ _ _ _ _ E5 (overall_clear _ E)) as (Hr & (p & Hran) & _).
  exists sha, now, w1, w2, w3, w4, w5, output. eexists. exists p.
  do 4 (split; [done|]). split; [exact E7|]. split; [done|]. split; [cbn; by rewrite E|]. cbn [log].
  apply git_ran in E1 as (L1 & _ & V1), E2 as (L2 & _ & _). apply the_now_log in E3 as (L3 & _ & _). destruct Hran as (L4 & _ & _).
  pose proof (pres_run _ _ _ _ _ (sl_publish _ _) E7) as L5. unfold same_log in L5.
  rewrite L5, L4, L3, L2, L1, V1. done.
Qed.
End Program.
End Facts.
End PreApplyFacts.

(** ** A concrete apply *)

Module PreApplyRun.
Import Fixture Evidence PlanV1 PreApply PreApplyFacts.

Definition commit : string := "0123456789abcdef0123456789abcdef01234567".
Definition quoted (name value : string) : string := name +:+ dq " = '" +:+ value +:+ dq "'".
Definition vars_with (backend cutover : string) : string := Config.lines (
  ["# reviewed"; quoted "capacity_profile" "e5-temporary"; "acknowledge_capacity_availability_and_cost = true";
   "acknowledge_host_bundle_signing_key = true # reviewed"; quoted "operation_mode" "plan";
   "public_backend_enabled = " +:+ backend; "acknowledge_public_cutover = " +:+ cutover;
   quoted "fallback_desired_state" "STOPPED"; quoted "retained_fallback_instance_ocid" "ocid1.instance.oc1..fallback";
   quoted "retained_fallback_private_ipv4" "10.42.20.9"; quoted "source_git_sha" commit;
   quoted "availability_domain" "xyz:AP-SINGAPORE-2-AD-1"; quoted "oracle_linux_image_ocid" "ocid1.image.oc1.ap-singapore-2.image";
   quoted "tenancy_ocid" "ocid1.tenancy.oc1..tenancy"; quoted "management_plane_evidence_id" "MGMT-1";
   quoted "state_backend_lock_evidence_id" "LOCK-1"; quoted "host_bundle_signing_key_id" "bundle-2026";
   quoted "host_bundle_public_key" "-----BEGIN PUBLIC KEY-----";
   dq "bastion_ssh_source_cidrs = ['10.42.20.100/32', '10.42.20.109/32']"; "resource_names = {"] ++
  map (λ ne, "  " +:+ quoted ne.1 ne.2) reviewed_topology ++
  ["}"; quoted "temporary_e5_expires_at" "2026-08-01T00:00:00Z"]).
Definition vars : string := vars_with "false" "false".
Definition adoption_document : val := VDict [("git_sha", VStr commit); ("capacity_profile", VStr "e5-temporary");
  ("status", VStr "passed"); ("blockers", VList []);
  ("imports", VList (map (λ s, rec [("address", s)]) (firstn 40 EXPECTED_ADDRESSES)));
  ("missing_addresses", VStrs (skipn 40 EXPECTED_ADDRESSES))].
Definition sha_of (s : string) : val := VStr (Sha256.hexdigest s).
Definition adoption_text : string := Json.dumps Json.compact adoption_document.
Definition executed_document : val := VDict [("git_sha", VStr commit); ("capacity_profile", VStr "e5-temporary");
  ("manifest_sha256", sha_of adoption_text); ("var_file_sha256", sha_of vars);
  ("imported_addresses", VStrs (firstn 40 EXPECTED_ADDRESSES)); ("operation", VStr "execute"); ("status", VStr "passed");
  ("blockers", VList []); ("state_mutation_performed", VBool true); ("oci_mutation_performed", VBool false)].
Definition recovery_document : val := VDict [("git_sha", VStr commit); ("status", VStr "passed"); ("blockers", VList []);
  ("public_traffic_enabled", VBool false)].
Definition manifest : val := VDict [("rollback_target_release_id", VNone); ("database_compatibility", forward_only)].
Definition schemas : list (string * string) := map (λ n, ("/repo/contracts/" +:+ n +:+ "-v1.schema.json", "{}"))
  ["infrastructure/adoption-manifest"; "infrastructure/state-backend-evidence"; "infrastructure/adoption-result";
   "runtime/linux-release-build-result"; "infrastructure/first-release-recovery"; "infrastructure/pre-apply-readiness"].
Definition world_of (text : string) : world :=
  let w := world_with ([("/in/adoption.json", adoption_text); ("/in/backend.json", json (rec [("git_sha", commit)]));
    ("/in/result.json", json executed_document); ("/pub/build.json", json (VDict [("manifest", rec [("filename", "manifest.json")])]));
    ("/pub/manifest.json", json manifest); ("/in/recovery.json", json recovery_document); ("/trust/r/.keep", ""); ("/trust/n/.keep", "");
    ("/out/.keep", "")] ++ schemas) in
  World (<[["in"; "live.tfvars"] := NFile text (Meta 384 0 0)]> (fs w)) (cwd w)
    [("TF_ENCRYPTION", "key"); ("PG_CONN_STR", "host=db sslmode=verify-full"); ("PG_SCHEMA_NAME", "opentofu_v1_live");
     ("PG_SKIP_SCHEMA_CREATION", "true"); ("PG_SKIP_TABLE_CREATION", "true"); ("PG_SKIP_INDEX_CREATION", "true")] 0 0 [] [] [].
Definition tools (_ : list proc) (p : proc) (f : filesystem) : proc_out * filesystem * Z :=
  (Exited 0 (match argv p with "git" :: "rev-parse" :: _ => commit | _ => "" end) "", f, 1000).
Definition the_args : args := Args (Some (Path.of_str "/in/adoption.json")) (Some (Path.of_str "/in/backend.json"))
  (Some (Path.of_str "/in/result.json")) (Some (Path.of_str "/in/live.tfvars")) (Some (Path.of_str "/pub/build.json"))
  (Some (Path.of_str "/trust/r")) (Some (Path.of_str "/trust/n")) (Some (Path.of_str "/in/recovery.json"))
  (Path.of_str "/out/readiness.json") None.

Lemma pre_apply_ready_witness : let host := host_with tools in let w := world_of vars in let w' := (main (H := host) the_args w).2 in
  exists sha now w1 w2 w3 w4 w5 output document p,
    git (H := host) status_words w = (Ok "", w1) /\ git (H := host) ["rev-parse"; "HEAD"] w1 = (Ok sha, w2) /\
    the_now (H := host) the_args w2 = (Ok now, w3) /\ ready (H := host) the_args sha now w3 w4 /\
    publish (H := host) output document w4 = (Ok tt, w5) /\ fs w' = fs w5 /\ getitem document "status" = Ok (VStr "passed") /\
    log w' = p :: git_process (H := host) ["rev-parse"; "HEAD"] w :: git_process (H := host) status_words w :: log w.
Proof.
  intros host w w'. apply (pre_apply_ready (H := host) the_args w w').
  assert ((main (H := host) the_args w).1 = Ok 0) as E by (vm_compute; reflexivity).
  unfold w'. destruct (main (H := host) the_args w) as [r x]. cbn [fst snd] in E |- *. by rewrite E.
Defined.

(** A cutover that is enabled but not acknowledged blocks, and so does an expiry of a naive instant. *)
Example unacknowledged : tfvars_blockers (vars_with "true" "false") commit (Time.DT t0 (Some 0)) =
  Ok ["public cutover acknowledgement must be true when NLB backends are enabled"] /\
  expiry_blockers (quoted "temporary_e5_expires_at" "2026-08-01T00:00:00") (Time.DT t0 (Some 0)) =
  Ok ["temporary E5 expiry is missing or invalid"].
Proof. vm_compute. auto. Qed.
(** A comment on the next line or white space ends a value; a longer name is another one. *)
Example assignments : let text := Config.lines ["vcn_cidr = 1"; dq "  vcn = 'a' # c"; dq "vcn = 'b'"; dq "x = 'y' z"; dq "key"; dq "  = 'k'"] in
  map (assignment text) ["vcn"; "vcn_cidr"; "x"; "key"] = [Some "a"; None; None; Some "k"].
Proof. vm_compute. reflexivity. Qed.
End PreApplyRun.
