(* ===== verification/LiveAdoptionFacts.v ===== *)
(** * What the discovery of the live state does

    The discovery walks the reviewed graph once: no address is imported twice, no
    blocker is withdrawn, and the cloud is only asked. Its manifest parts the graph,
    and the readiness of an apply accepts it exactly where it ended with 0. *)

From Stdlib Require Import Ascii.
From S2P Require Import Prelude PyFloat PyMonad PyValue PyTime PyJson Sha256 PyOs PyConfig OsFacts FsFacts Fixture.
From S2P Require Import ReadinessCommon GenerateSpec CiProvenance PlanV1 FirstReleaseRecovery FirstReleaseFacts BuildResultFacts LiveAdoption PreApply PreApplyFacts.

Module LiveAdoptionFacts.
Import Evidence PlanV1 FirstReleaseSpec LiveAdoption.

(** *** The commands *)

Definition reading_words : list (list string) := [
  ["iam"; "compartment"; "list"]; ["iam"; "dynamic-group"; "list"]; ["iam"; "policy"; "list"];
  ["network"; "vcn"; "list"]; ["network"; "internet-gateway"; "list"]; ["network"; "nat-gateway"; "list"];
  ["network"; "service-gateway"; "list"]; ["network"; "route-table"; "list"]; ["network"; "security-list"; "list"];
  ["network"; "subnet"; "list"]; ["network"; "nsg"; "list"]; ["network"; "nsg"; "rules"; "list"]; ["network"; "vnic"; "get"];
  ["compute"; "instance"; "list"]; ["compute"; "vnic-attachment"; "list"]; ["compute"; "boot-volume-attachment"; "list"];
  ["compute"; "volume-attachment"; "list"]; ["bv"; "boot-volume"; "get"]; ["bv"; "volume"; "list"];
  ["kms"; "management"; "vault"; "list"]; ["kms"; "management"; "key"; "list"];
  ["nlb"; "network-load-balancer"; "list"]; ["nlb"; "backend-set"; "list"]; ["nlb"; "backend"; "list"]; ["nlb"; "listener"; "list"]].
(** A question to git, or one of the queries of the cloud *)
Definition reads (p : proc) : Prop :=
  argv p ∈ git_queries \/ exists words rest, words ∈ reading_words /\ argv p = "oci" :: words ++ rest.

(** *** Walks over the graph *)

(** The record of a key of the graph *)
Definition is_record (key : string) (r : val) : Prop :=
  exists address resource_type id name, Dict.lookup key ADDRESSES = Some (address, resource_type) /\
    r = VDict [("address", VStr address); ("id", id); ("resource_type", VStr resource_type); ("display_name", name)].
(** Of the keys given, some are imported in their order; blockers are added; the cloud is only read. *)
Record walked (keys : list string) (s s' : found * world) : Prop := {
  wk_imports : exists walked records, walked `sublist_of` keys /\ imports s'.1 = imports s.1 ++ records /\
    Forall2 is_record walked records;
  wk_blockers : blockers s.1 `prefix_of` blockers s'.1;
  wk_reads : starts_only reads s.2 s'.2
}.
Abbreviation Walks ks m := (Pres (walked ks) m).

Lemma walked_app k1 k2 x y z : walked k1 x y -> walked k2 y z -> walked (k1 ++ k2) x z.
Proof.
  intros [(w1 & r1 & S1 & E1 & F1) B1 R1] [(w2 & r2 & S2 & E2 & F2) B2 R2]. split.
  - exists (w1 ++ w2), (r1 ++ r2). split; [by apply sublist_app|]. split; [by rewrite E2, E1, app_assoc|]. by apply Forall2_app.
  - by etransitivity.
  - by etransitivity.
Qed.
Lemma walked_sub k k' s s' : walked k s s' -> k `sublist_of` k' -> walked k' s s'.
Proof.
  intros [(w & r & S & E & F) B R] Hk. split; try done. exists w, r. split; [by etransitivity|]. by split.
Qed.
#[export] Instance walked_nil : PreOrder (walked []).
Proof.
  split.
  - intros s. split; [|done|reflexivity]. exists [], []. split; [constructor|]. split; [by rewrite app_nil_r|constructor].
  - intros x y z. apply (walked_app [] []).
Qed.
Lemma walks_sub {A} k k' (m : M (found * world) A) : Walks k m -> k `sublist_of` k' -> Walks k' m.
Proof. intros Hm Hk s. eapply walked_sub; [apply Hm|done]. Qed.
Lemma walks_bind {A B} k1 k2 (m : M (found * world) A) (f : A -> M (found * world) B) :
  Walks k1 m -> (forall a, Walks k2 (f a)) -> Walks (k1 ++ k2) (m ≫= f).
Proof.
  intros Hm Hf s. specialize (Hm s). unfold mbind, M_bind. destruct (m s) as [[a|e] s'] eqn:E; simpl in *.
  - eapply walked_app; [exact Hm|apply Hf].
  - eapply walked_sub; [exact Hm|]. rewrite <-(app_nil_r k1) at 1. apply sublist_app; [done|apply sublist_nil_l].
Qed.
Lemma walks_nothing {A} k (m : M (found * world) A) : Walks [] m -> Walks k m.
Proof. intros Hm. eapply walks_sub; [exact Hm|apply sublist_nil_l]. Qed.
Lemma walks_then {A B} k (m : M (found * world) A) (f : A -> M (found * world) B) :
  Walks [] m -> (forall a, Walks k (f a)) -> Walks k (m ≫= f).
Proof. apply (walks_bind []). Qed.
Lemma walks_before {A B} k (m : M (found * world) A) (f : A -> M (found * world) B) :
  Walks k m -> (forall a, Walks [] (f a)) -> Walks k (m ≫= f).
Proof. intros Hm Hf. rewrite <-(app_nil_r k). by apply walks_bind. Qed.
Lemma walks_when k b (m : M (found * world) unit) : Walks k m -> Walks k (mwhen b m).
Proof. destruct b; [done|]. intros _. by apply walks_nothing, pres_ret, _. Qed.
Lemma walks_for {A} (g : A -> list string) (f : A -> M (found * world) unit) l :
  (forall x, Walks (g x) (f x)) -> Walks (concat (map g l)) (mfor f l).
Proof. intros Hf. induction l as [|x l IH]; simpl; [apply pres_ret, _|]. by apply walks_bind. Qed.
Lemma walks_fold {A B} (g : A -> list string) (f : B -> A -> M (found * world) B) l acc :
  (forall b x, Walks (g x) (f b x)) -> Walks (concat (map g l)) (mfold f acc l).
Proof. intros Hf. revert acc. induction l as [|x l IH]; intros acc; simpl; [apply pres_ret, _|]. by apply walks_bind. Qed.

Lemma walks_zoom {A} (m : IO A) : Pres (starts_only reads) m -> Walks [] (zoom_snd (L:=found) m).
Proof.
  intros Hm [f w]. specialize (Hm w). unfold zoom_snd. cbn [fst snd]. destruct (m w) as [r w']. split; [|done|done].
  exists [], []. split; [constructor|]. split; [by rewrite app_nil_r|constructor].
Qed.
Lemma walks_add (f : found -> found) : (forall x, imports (f x) = imports x /\ blockers x `prefix_of` blockers (f x)) -> Walks [] (modl f).
Proof.
  intros Hf [x w]. destruct (Hf x) as [Hi Hb]. split; [|done|cbn; reflexivity]. exists [], []. split; [constructor|].
  split; [by rewrite app_nil_r|constructor].
Qed.
Lemma walks_block m : Walks [] (block m).
Proof. apply walks_add. intros x. split; [done|]. by apply prefix_app_r. Qed.
#[local] Hint Resolve walks_block : pres.
Lemma walks_block_if t m : Walks [] (block_if t m).
Proof. unfold block_if. solve_pres. Qed.
Lemma walks_leave k i r : Walks [] (leave k i r).
Proof. unfold leave. apply pres_bind; [apply _|apply pres_lift, _|intros n]. by apply walks_add. Qed.
Lemma walks_import key item name id : Walks [key] (add_import key item name id).
Proof.
  unfold add_import. apply walks_when, walks_then; [apply pres_lift, _|intros i]. intros [f w]. unfold record_of.
  destruct (Dict.lookup key ADDRESSES) as [[address ty]|] eqn:E.
  - split; [|done|cbn; reflexivity]. eexists [key], [_]. split; [done|]. split; [done|]. repeat constructor. by eexists _, _, _, _.
  - eapply walked_sub; [|apply sublist_nil_l]. cbn. reflexivity.
Qed.
#[local] Hint Resolve walks_block_if walks_leave : pres.

Section Facts.
Context `{Platform} (a : args) (tenancy region : string) (names : val).

Lemma oci_reads words options flags : words ∈ reading_words -> Walks [] (oci a region (FirstRelease.call words options flags)).
Proof.
  intros Hw s. unfold oci. destruct (rmap expect_str _) as [l|e] eqn:E; [|cbn; reflexivity].
  apply command_first in E as [rest ->].
  set (p := process_of (a_profile a) region (words ++ rest) s.2).
  assert (Walks [] (r ← zoom_snd (L:=found) (run_completed p);
    let '(code, o, e) := r in lift (oci_answer (argv p) (words ++ rest) code o e))) as Hr.
  { apply pres_bind; [apply _| |solve_pres]. apply walks_zoom, so_run_completed. right.
    exists words, (rest ++ ["--profile"; a_profile a; "--region"; region; "--output"; "json"]). split; [done|].
    unfold p, process_of, FirstRelease.command_of. cbn [argv]. by rewrite <-!app_assoc. }
  specialize (Hr s). destruct s as [f w]. exact Hr.
Qed.
Lemma listing_reads words options : words ∈ reading_words -> Walks [] (listing a region words options).
Proof. apply oci_reads. Qed.
Lemma walks_name key : Walks [] (name_of names key).
Proof. unfold name_of. solve_pres. Qed.
#[local] Hint Resolve walks_name : pres.
Lemma walks_one items key : Walks [] (one_named names items key).
Proof. unfold one_named. solve_pres. Qed.
#[local] Hint Resolve walks_one : pres.
Lemma walks_import_named key item : Walks [key] (import_named names key item).
Proof. unfold import_named. apply walks_then; [apply walks_name|intros n; apply walks_import]. Qed.
End Facts.
#[local] Hint Resolve walks_name walks_one : pres.
#[local] Hint Extern 3 (Pres (walked []) (listing _ _ _ _)) => apply listing_reads; listed : pres.
#[local] Hint Extern 3 (Pres (walked []) (oci _ _ _)) => apply oci_reads; listed : pres.

(** Statements that import nothing are passed over, the rest is walked in order. *)
Ltac walk_step :=
  first [ apply walks_import | apply walks_import_named
        | apply walks_then; [solve [solve_pres]|intros ?]
        | apply walks_before; [|solve [solve_pres]] ].

Section Walk.
Context `{Platform} (a : args) (tenancy region : string) (names : val).

Lemma walks_vcn c : Walks ["vcn"] (find_vcn a region names c).
Proof.
  unfold find_vcn. repeat walk_step.
Qed.
Lemma walks_fetch c v : Walks [] (fetch_network a region names c v).
Proof. unfold fetch_network. cbv zeta. solve_pres. Qed.
Lemma walks_check n : Walks [] (check_network n).
Proof. unfold check_network. solve_pres. Qed.
Lemma walks_member v m : Walks [m.1] (import_member names v m).
Proof.
  unfold import_member. apply walks_then; [apply pres_lift, _|intros b]. destruct b; [|apply walks_import_named].
  apply walks_nothing, walks_block.
Qed.
Lemma walks_rule prefix nsg rules r spec : Walks [spec.1.1.1] (add_rule prefix nsg rules r spec).
Proof.
  unfold add_rule. destruct spec as [[[key tests] label] required]. cbn [fst].
  apply walks_then; [apply pres_lift, _|intros c]. destruct c as [|x [|y c]]; [apply walks_nothing; solve_pres| |apply walks_nothing; solve_pres].
  do 3 (apply walks_then; [apply pres_lift, _|intros ?]). apply walks_before; [apply walks_import|intros _; apply pres_ret, _].
Qed.
Lemma walks_rules prefix nsg specs unknown : Walks (map (λ s : rule_spec, s.1.1.1) specs) (check_rules a region prefix nsg specs unknown).
Proof.
  unfold check_rules. do 3 (apply walks_then; [solve_pres|intros ?]). apply walks_before; [|solve_pres].
  assert (map (λ s : rule_spec, s.1.1.1) specs = concat (map (λ s : rule_spec, [s.1.1.1]) specs)) as ->
    by (clear; induction specs as [|s l IH]; [done|]; simpl; by rewrite IH).
  apply walks_fold. intros b x. apply walks_rule.
Qed.

Definition host_keys : list string := ["bastion_100"; "bastion_109"; "host_http"; "host_https"; "host_pmtu"; "egress_80"; "egress_443";
  "dns_udp"; "dns_tcp"; "ntp"; "oracle_services_egress"].
Definition edge_keys : list string := ["edge_http"; "edge_https"; "edge_pmtu"; "edge_egress_http"; "edge_egress_https"].
Definition member_keys : list string := ["internet_gateway"; "nat_gateway"; "service_gateway"; "legacy_route_table"; "route_table";
  "public_edge_route_table"; "security_list"; "legacy_subnet"; "subnet"; "public_edge_subnet"; "nsg"; "nlb_nsg"].
Lemma host_rules_keys v : map (λ s : rule_spec, s.1.1.1) (host_rules v) `sublist_of` host_keys.
Proof. unfold host_rules. destruct (truthy v); simpl; repeat constructor. Qed.
Lemma edge_rules_keys v : map (λ s : rule_spec, s.1.1.1) (edge_rules v) `sublist_of` edge_keys.
Proof. unfold edge_rules. destruct (truthy v); simpl; repeat constructor. Qed.

Lemma walks_nsg i : Walks [] (leave_nsg names i).
Proof. unfold leave_nsg. solve_pres. Qed.
#[local] Hint Resolve walks_fetch walks_check walks_nsg : pres.
Lemma walks_network c v : Walks (member_keys ++ host_keys ++ edge_keys) (discover_network a region names c v).
Proof.
  unfold discover_network. apply walks_then; [solve_pres|intros n].
  apply walks_bind; [exact (walks_for (λ m, [m.1]) _ (members n) (walks_member v))|intros _].
  apply walks_then; [solve_pres|intros _].
  apply walks_bind; [apply walks_when; eapply walks_sub; [apply walks_rules|apply host_rules_keys]|intros _].
  apply walks_before; [apply walks_when; eapply walks_sub; [apply walks_rules|apply edge_rules_keys]|solve_pres].
Qed.

Lemma walks_vnic r h v : Walks [] (check_vnic a region r h v).
Proof. unfold check_vnic. solve_pres. Qed.
Lemma walks_boot r v : Walks [] (check_boot a region r v).
Proof. unfold check_boot. solve_pres. Qed.
#[local] Hint Resolve walks_vnic walks_boot : pres.
Lemma walks_candidate c h rc : Walks [] (check_candidate a region c h rc).
Proof. unfold check_candidate. solve_pres. Qed.
Lemma walks_instance p f i : Walks [] (leave_instance p f i).
Proof. unfold leave_instance. solve_pres. Qed.
#[local] Hint Resolve walks_candidate walks_instance : pres.
Lemma walks_hosts c h : Walks ["legacy_instance"] (discover_hosts a region names c h).
Proof. unfold discover_hosts. repeat walk_step. Qed.

Lemma walks_volume c i : Walks ["data_volume"; "data_attachment"] (discover_volume a region names c i).
Proof.
  unfold discover_volume. repeat walk_step. apply (walks_bind ["data_volume"]); [apply walks_import_named|intros _].
  apply walks_then; [solve_pres|intros _]. apply walks_when. repeat walk_step.
Qed.
Lemma walks_vault c : Walks ["vault"; "key"] (discover_vault a region names c).
Proof.
  unfold discover_vault. repeat walk_step. apply (walks_bind ["vault"]); [apply walks_import_named|intros _].
  apply walks_when. repeat walk_step.
Qed.
Lemma walks_identities : Walks ["dynamic_group"; "policy"] (discover_identities a tenancy region names).
Proof.
  unfold discover_identities. repeat walk_step. apply (walks_bind ["dynamic_group"]); [apply walks_import|intros _].
  repeat walk_step.
Qed.

Lemma walks_backend n lane port i sn si : Walks ["backend_" +:+ lane] (discover_backend a region n lane port i sn si).
Proof.
  unfold discover_backend. apply walks_then; [solve_pres|intros ?]. apply walks_then; [apply pres_lift, _|intros m].
  destruct m as [|b [|y m]]; [apply walks_nothing; solve_pres| |apply walks_nothing; solve_pres]. repeat walk_step.
Qed.
Definition lane_keys (lane : string) : list string := ["backend_set_" +:+ lane; "backend_" +:+ lane; "listener_" +:+ lane].
Lemma walks_lane nlb i bs ls lp : Walks (lane_keys lp.1) (discover_lane a region nlb i bs ls lp).
Proof.
  unfold discover_lane. destruct lp as [lane port]. cbv zeta. repeat walk_step.
  apply (walks_bind ["backend_set_" +:+ lane]); [apply walks_import|intros _].
  apply (walks_bind ["backend_" +:+ lane]); [|intros _; repeat walk_step].
  apply walks_when, walks_then; [solve_pres|intros _; apply walks_backend].
Qed.
Lemma walks_nlb c i : Walks ("nlb" :: lane_keys "http" ++ lane_keys "https") (discover_nlb a region names c i).
Proof.
  unfold discover_nlb. repeat walk_step. apply (walks_bind ["nlb"]); [apply walks_import|intros _].
  apply walks_when. repeat walk_step.
  exact (walks_for (λ lp, lane_keys lp.1) _ [("http", 80); ("https", 443)] (walks_lane _ _ _ _)).
Qed.

(** The keys of the graph in the order of the walk *)
Definition walk_order : list string := "compartment" :: "vcn" :: (member_keys ++ host_keys ++ edge_keys) ++
  "legacy_instance" :: ["data_volume"; "data_attachment"] ++ ["vault"; "key"] ++ ["dynamic_group"; "policy"] ++
  "nlb" :: lane_keys "http" ++ lane_keys "https".
Lemma walks_discover compartment : Walks walk_order (discover a tenancy region names compartment).
Proof.
  unfold discover, walk_order. apply walks_then; [apply pres_lift, _|intros id].
  apply (walks_bind ["compartment"]); [apply walks_import|intros _].
  apply (walks_bind ["vcn"]); [apply walks_vcn|intros v].
  apply walks_bind; [destruct (truthy v); [apply walks_network|apply walks_nothing, pres_ret, _]|intros h].
  apply (walks_bind ["legacy_instance"]); [apply walks_hosts|intros i].
  apply walks_bind; [apply walks_volume|intros _]. apply walks_bind; [apply walks_vault|intros _].
  apply walks_bind; [apply walks_identities|intros _]. apply walks_nlb.
Qed.
End Walk.

(** *** The manifest *)

Definition address_of_key (key : string) : string := default "" (option_map fst (Dict.lookup key ADDRESSES)).
Lemma address_in_graph key address ty : Dict.lookup key ADDRESSES = Some (address, ty) -> address ∈ PreApply.EXPECTED_ADDRESSES.
Proof. intros E%Dict.lookup_In. apply list_elem_of_In, in_map_iff. exists (key, (address, ty)). split; [reflexivity|]. by apply list_elem_of_In. Qed.
Lemma records_map keys records : Forall2 is_record keys records ->
  rmap address_of records = Ok (map (λ k, VStr (address_of_key k)) keys).
Proof.
  induction 1 as [|k r keys records (address & ty & id & name & E & ->) _ IH]; [reflexivity|].
  assert (address_of_key k = address) as Hk by (unfold address_of_key; by rewrite E). cbn [rmap map]. rewrite IH, Hk. reflexivity.
Qed.
Lemma records_graph keys records : Forall2 is_record keys records -> forall k, k ∈ keys -> address_of_key k ∈ PreApply.EXPECTED_ADDRESSES.
Proof.
  induction 1 as [|k r keys records (address & ty & id & name & E & _) _ IH]; intros q Hq; [by apply not_elem_of_nil in Hq|].
  apply elem_of_cons in Hq as [->|Hq]; [|by apply IH]. unfold address_of_key. rewrite E. by eapply address_in_graph.
Qed.
Lemma set_strings l : exists d, Readiness.py_set (strings l) = Ok d /\ forall v, v ∈ d <-> exists s, v = VStr s /\ s ∈ l.
Proof.
  destruct (Readiness.py_set_strings l) as [d E]. exists d. split; [exact E|]. intros v. rewrite (Readiness.py_set_Ok _ _ E). split.
  - intros Hv%dedup_by_In%list_elem_of_In%in_map_iff. destruct Hv as (s & <- & Hs%list_elem_of_In). by exists s.
  - intros (s & -> & Hs). apply list_elem_of_In in Hs. apply (in_map VStr), list_elem_of_In in Hs.
    destruct (dedup_by_covers (λ x y, py_eq y x) _ [] _ Hs) as [?|(y & [Hy|Hy] & Hq)]; [done| |by apply not_elem_of_nil in Hy].
    by apply py_eq_str_r in Hq as ->.
Qed.

(** Records of the graph, in any order, have the addresses of their keys. *)
Lemma records_addresses keys records sorted : Forall2 is_record keys records -> sorted ≡ₚ records ->
  exists addresses, (l ← rmap address_of sorted; Readiness.py_set l) = Ok addresses /\ forall v, v ∈ addresses <-> exists s, v = VStr s /\ s ∈ map address_of_key keys.
Proof.
  intros Hrec Hs. apply Forall2_flip in Hrec. symmetry in Hs. destruct (Permutation_Forall2 Hs Hrec) as (keys' & Hk & Hrec').
  apply Forall2_flip in Hrec'. rewrite (records_map _ _ Hrec').
  destruct (set_strings (map address_of_key keys')) as (d & Ed & Hd). unfold strings in Ed. rewrite map_map in Ed.
  exists d. split; [exact Ed|]. intros v. rewrite Hd. by setoid_rewrite Hk.
Qed.
Lemma missing_addresses imported keys : (forall v, v ∈ imported <-> exists s, v = VStr s /\ s ∈ map address_of_key keys) ->
  forall s, s ∈ missing_of imported <-> s ∈ PreApply.EXPECTED_ADDRESSES /\ s ∉ map address_of_key keys.
Proof.
  intros Hi s. unfold missing_of. rewrite sort_strings_perm. rewrite list_elem_of_In, filter_In, <-list_elem_of_In.
  apply and_iff_compat_l. rewrite negb_true_iff, <-not_true_iff_false. apply not_iff_compat.
  rewrite PreApplyFacts.py_in_str, Hi. split; [by intros (t & [= <-] & ?)|by exists s].
Qed.
Lemma parts_graph keys records imported addresses missing : Forall2 is_record keys records ->
  (forall v, v ∈ imported <-> exists s, v = VStr s /\ s ∈ map address_of_key keys) ->
  (forall v, v ∈ addresses <-> exists s, v = VStr s /\ s ∈ map address_of_key keys) ->
  (forall v, v ∈ missing <-> exists s, v = VStr s /\ s ∈ missing_of imported) ->
  PreApplyFacts.partitions addresses missing.
Proof.
  intros Hrec Hi Ha Hm. pose proof (records_graph _ _ Hrec) as Hk. pose proof (missing_addresses _ _ Hi) as Hmi. split; [|split].
  - intros s Hs. rewrite Ha, Hm. destruct (decide (s ∈ map address_of_key keys)) as [H|H]; [left; by exists s|right].
    exists s. split; [done|]. by apply Hmi.
  - intros s. rewrite Ha, Hm. intros (t & [= <-] & Ht) (u & [= <-] & [_ Hu]%Hmi). done.
  - intros v [Hv|Hv].
    + apply Ha in Hv as (s & -> & Hs). exists s. split; [done|]. apply list_elem_of_In, in_map_iff in Hs as (k & <- & Hin).
      by apply Hk, list_elem_of_In.
    + apply Hm in Hv as (s & -> & [Hs _]%Hmi). by exists s.
Qed.

Lemma with_key_Ok keys item x : with_key keys item = Ok x -> x.2 = item.
Proof. unfold with_key. intros E. apply bind_Ok in E as (k & _ & E). by injection E as <-. Qed.
Lemma sorted_on_perm keys l l' : sorted_on keys l = Ok l' -> l' ≡ₚ l.
Proof.
  unfold sorted_on. intros E. apply bind_Ok in E as (keyed & E1 & E). apply bind_Ok in E as (s & E2 & E). injection E as <-.
  apply py_sorted_by_perm in E2. rewrite E2. clear E2 s. apply rmap_Ok in E1. induction E1 as [|x y l keyed Hx _ IH]; [done|].
  simpl. rewrite IH. by rewrite (with_key_Ok _ _ _ Hx).
Qed.

Section Program.
Context `{Platform} (a : args).

Lemma git_reads argv : ("git" :: argv) ∈ git_queries -> Pres (starts_only reads) (git argv).
Proof.
  intros Hg w. unfold git, mbind at 1, M_bind at 1, gets. set (p := Proc ("git" :: argv) None (environ w) (Some ROOT)).
  assert (Pres (starts_only reads) (r ← run_completed p; let '(code, o, _) := r in
    if code =? 0 then mret (Str.strip o) else throw CalledProcessError (CiProvenance.called_text ("git" :: argv) code))) as Hp.
  { apply pres_bind; [apply _| |solve_pres]. apply so_run_completed. by left. }
  apply (Hp w).
Qed.
#[local] Hint Extern 3 (Pres (starts_only reads) (git _)) => apply git_reads; listed : pres.
Lemma reads_build region f : Pres (starts_only reads) (build_manifest a region f).
Proof. unfold build_manifest, utc. solve_pres. Qed.
Lemma reads_write document : Pres (starts_only reads) (write_manifest a document).
Proof. unfold write_manifest. solve_pres. Qed.
Lemma reads_config p : Pres (starts_only reads) (load_config p).
Proof. unfold load_config, FirstRelease.home, Config.read. solve_pres. Qed.
#[local] Hint Resolve reads_build reads_write reads_config : pres.

Definition status_text (f : found) : string := if bool_decide (blockers f = []) then "passed" else "blocked".
Lemma expect_strings l : rmap expect_str (map VStr l) = Ok l.
Proof. induction l as [|s l IH]; [done|]. simpl. by rewrite IH. Qed.
Lemma verdict_of document f addresses missing : PreApply.import_addresses document = Ok addresses ->
  (v ← getitem document "missing_addresses"; PreApply.set_of v) = Ok missing -> PreApply.graph_is_exact addresses missing = true ->
  getitem document "status" = Ok (VStr (status_text f)) -> getitem document "blockers" = Ok (VStrs (blockers f)) ->
  exists verdict, PreApply.adoption_verdict document = Ok verdict /\ PreApply.status_of verdict = VStr (status_text f).
Proof.
  intros Hi Hm Hg Hs Hb. unfold PreApply.adoption_verdict. rewrite Hi. cbn [mbind res_bind]. rewrite Hm. cbn [mbind res_bind].
  rewrite Hs, Hg, Hb. unfold status_text. cbn [mbind res_bind]. destruct (bool_decide _) eqn:E.
  - apply bool_decide_eq_true_1 in E. rewrite E. eexists. split; reflexivity.
  - cbn [mbind res_bind py_iter]. change (py_ne (VStr "blocked") (VStr "passed")) with true. cbn iota. cbn [mbind res_bind py_iter VStrs].
    unfold VStrs. cbn [py_iter mbind res_bind]. rewrite expect_strings. cbn [mbind res_bind]. eexists. split; reflexivity.
Qed.

Lemma manifest_fields region sha t f si su m : let d := manifest_of a region sha t f si su m in
  getitem d "imports" = Ok (VList si) /\ getitem d "missing_addresses" = Ok (VStrs m) /\
  getitem d "status" = Ok (VStr (status_text f)) /\ getitem d "blockers" = Ok (VStrs (blockers f)).
Proof. by repeat split. Qed.

(** A manifest built from records of the graph parts it, and the readiness of an apply has its verdict. *)
Lemma manifest_verdict region f w document w' keys : Forall2 is_record keys (imports f) ->
  build_manifest a region f w = (Ok document, w') ->
  (exists addresses v missing, PreApply.import_addresses document = Ok addresses /\
    getitem document "missing_addresses" = Ok v /\ PreApply.set_of v = Ok missing /\ PreApplyFacts.partitions addresses missing) /\
  getitem document "status" = Ok (VStr (status_text f)) /\
  exists verdict, PreApply.adoption_verdict document = Ok verdict /\ PreApply.status_of verdict = VStr (status_text f).
Proof.
  intros Hrec E. unfold build_manifest in E. apply M_bind_Ok in E as (imported & w1 & E1 & E). apply lift_Ok in E1 as [E1 ->].
  apply M_bind_Ok in E as (sha & w1 & _ & E). apply M_bind_Ok in E as (t & w2 & _ & E).
  apply M_bind_Ok in E as (si & w3 & E2 & E). apply lift_Ok in E2 as [E2%sorted_on_perm ->].
  apply M_bind_Ok in E as (su & w3 & E3 & E). apply lift_Ok in E3 as [_ ->]. apply ret_Ok in E as [<- _].
  destruct (records_addresses _ _ _ Hrec (Permutation_refl _)) as (im & E1' & Him). rewrite E1' in E1. injection E1 as ->.
  destruct (records_addresses _ _ _ Hrec E2) as (addresses & Ea & Ha).
  destruct (set_strings (missing_of imported)) as (missing & Em & Hm).
  pose proof (parts_graph _ _ _ _ _ Hrec Him Ha Hm) as Hp.
  revert Hp Hm Em. generalize (missing_of imported). intros m Hp Hm Em. clear Him Hm. apply PreApplyFacts.graph_partitions in Hp as Hg.
  destruct (manifest_fields region sha t f si su m) as (F1 & F2 & F3 & F4).
  revert F1 F2 F3 F4. generalize (manifest_of a region sha t f si su m). intros d F1 F2 F3 F4.
  assert (PreApply.import_addresses d = Ok addresses) as Hia by (unfold PreApply.import_addresses; rewrite F1; exact Ea).
  split; [by exists addresses, (VStrs m), missing|]. split; [exact F3|].
  apply (verdict_of d f addresses missing Hia); [rewrite F2; exact Em|done..].
Qed.

Lemma walk_order_NoDup : NoDup walk_order.
Proof. apply (bool_decide_unpack _). vm_compute. exact I. Qed.

(** C18: However the discovery of a compartment goes on and ends, it has appended to the imports the
    records of pairwise different keys of the reviewed graph, so no address is imported twice and
    none from outside the graph; the blockers it was given are still there; and every process
    it has started is a question to git or one of the 25 queries of the cloud: nothing is created,
    changed or deleted. *)
Theorem discovery_walks tenancy region names compartment s : let s' := (discover a tenancy region names compartment s).2 in
  (exists keys records, NoDup keys /\ imports s'.1 = imports s.1 ++ records /\ Forall2 is_record keys records) /\
  blockers s.1 `prefix_of` blockers s'.1 /\ starts_only reads s.2 s'.2.
Proof.
  intros s'. destruct (walks_discover a tenancy region names compartment s) as [(keys & records & Hk & Hi & Hr) Hb Hs].
  split; [|by split]. exists keys, records. split; [|by split]. eapply sublist_NoDup; [apply walk_order_NoDup|exact Hk].
Qed.

Lemma reads_conclude tenancy region names compartment : Pres (on_snd (starts_only reads)) (conclude a tenancy region names compartment).
Proof.
  unfold conclude. apply pres_bind; [apply _| |solve_pres]. intros s. exact (wk_reads _ _ _ (walks_discover a tenancy region names compartment s)).
Qed.
Lemma reads_listing region words options : words ∈ reading_words -> Pres (on_snd (starts_only reads)) (listing a region words options).
Proof. intros Hw s. exact (wk_reads _ _ _ (listing_reads a region words options Hw s)). Qed.
#[local] Hint Extern 3 (Pres (on_snd _) (listing _ _ _ _)) => apply reads_listing; listed : pres.
#[local] Hint Resolve reads_conclude : pres.
Lemma reads_main : Pres (starts_only reads) (main a).
Proof. unfold main. solve_pres. Qed.

Lemma conclude_Ok tenancy region names compartment s c f' w' : imports s.1 = [] ->
  conclude a tenancy region names compartment s = (Ok c, (f', w')) ->
  exists f document sha keys w1 w2 w3, Forall2 is_record keys (imports f) /\
    build_manifest a region f w1 = (Ok document, w2) /\ write_manifest a document w2 = (Ok sha, w3) /\ fs w' = fs w3 /\
    c = (if bool_decide (blockers f = []) then 0 else 3).
Proof.
  intros H0 E. unfold conclude in E. apply M_bind_Ok in E as (u & [f w1] & E1 & E).
  destruct (walks_discover a tenancy region names compartment s) as [(keys & records & Hk & Hi & Hr) _ _].
  rewrite E1, H0 in Hi. simpl in Hi. apply M_bind_Ok in E as (g & s2 & E2 & E). apply getl_Ok in E2 as [-> ->].
  apply M_bind_Ok in E as (document & s3 & E3 & E). apply zoom_Ok in E3 as [E3 _].
  apply M_bind_Ok in E as (sha & s4 & E4 & E). apply zoom_Ok in E4 as [E4 _].
  apply M_bind_Ok in E as (n & s5 & E5 & E). apply lift_Ok in E5 as [_ ->].
  apply M_bind_Ok in E as (sm & s6 & E6 & E). apply lift_Ok in E6 as [_ ->].
  apply M_bind_Ok in E as (u2 & s7 & E7 & E). apply zoom_Ok in E7 as [E7 _]. apply ret_Ok in E as [<- <-].
  exists f, document, sha, keys, w1, s3.2, s4.2. injection E7 as _ E7. cbn [fst snd] in *. split; [by rewrite Hi|].
  split; [exact E3|]. split; [exact E4|]. split; [by rewrite <-E7|done].
Qed.

(** C19: A discovery that ends has written a manifest, valid for its schema, whose imports and missing
    addresses part the reviewed graph: each address is in exactly one of the two and no other one
    is. Its exit code is the verdict the readiness of an apply reaches on this manifest: 0 where
    that check passes, 3 where it is blocked. And it only asked git and the cloud. *)
Theorem discovery_accepted w c w' : main a w = (Ok c, w') ->
  exists document sha w1 w2 verdict, write_manifest a document w1 = (Ok sha, w2) /\ fs w' = fs w2 /\ starts_only reads w w' /\
    (exists addresses v missing, PreApply.import_addresses document = Ok addresses /\
      getitem document "missing_addresses" = Ok v /\ PreApply.set_of v = Ok missing /\ PreApplyFacts.partitions addresses missing) /\
    PreApply.adoption_verdict document = Ok verdict /\
    (c = 0 /\ PreApply.status_of verdict = VStr "passed" \/ c = 3 /\ PreApply.status_of verdict = VStr "blocked").
Proof.
  intros E. pose proof (pres_run _ _ _ _ _ reads_main E) as Hs.
  unfold main in E. apply M_bind_Ok in E as (st & w1 & _ & E). destruct (negb (String.eqb st "")); [done|].
  apply M_bind_Ok in E as (names & w2 & _ & E). apply M_bind_Ok in E as (other & w3 & _ & E). destruct other; [done|].
  apply M_bind_Ok in E as ([tenancy region] & w4 & _ & E). destruct (negb _); [done|].
  apply with_locals_Ok in E as [f' E]. apply M_bind_Ok in E as (cs & s5 & E5 & E).
  destruct (listing_reads a region _ [("--compartment-id", VStr tenancy)] ltac:(listed) (Found [] [] [], w4))
    as [(ks & rs & Hk & Hi & Hr) _ _].
  apply sublist_nil_r in Hk as ->. inversion Hr; subst rs. rewrite E5 in Hi. simpl in Hi.
  apply M_bind_Ok in E as (compartment & s6 & E6 & E). apply lift_Ok in E6 as [_ ->]. destruct (negb _); [done|].
  destruct (conclude_Ok _ _ _ _ _ _ _ _ Hi E) as (f & document & sha & keys & x1 & x2 & x3 & Hrec & Eb & Ew & Ef & ->).
  destruct (manifest_verdict _ _ _ _ _ _ Hrec Eb) as (Hp & _ & verdict & Hv & Hst).
  exists document, sha, x2, x3, verdict. do 3 (split; [done|]). split; [exact Hp|]. split; [done|].
  rewrite Hst. unfold status_text. destruct (bool_decide _); auto.
Qed.
End Program.
End LiveAdoptionFacts.

(** ** A concrete cloud *)

Module LiveAdoptionRun.
Import Fixture Evidence PlanV1 FirstReleaseSpec LiveAdoption LiveAdoptionFacts.

Definition commit : string := "0123456789abcdef0123456789abcdef01234567".
Definition data (v : val) : string := json (VDict [("data", v)]).
(** A resource of the reviewed name of a key *)
Definition member (key : string) (more : list (string * val)) : val :=
  VDict ([("id", VStr ("id-" +:+ key)); ("display-name", VStr ("live-" +:+ key)); ("vcn-id", VStr "id-vcn");
    ("lifecycle-state", VStr "AVAILABLE")] ++ more).
Definition routes : val := VList [rec [("destination", "0.0.0.0/0"); ("network-entity-id", "id-nat_gateway")];
  rec [("destination-type", "SERVICE_CIDR_BLOCK"); ("network-entity-id", "id-service_gateway")]].
Definition bastion (source : string) : val := VDict [("id", VStr ("rule-" +:+ source)); ("direction", VStr "INGRESS");
  ("protocol", VStr "6"); ("source", VStr source);
  ("tcp-options", VDict [("destination-port-range", VDict [("min", VInt 22); ("max", VInt 22)])])].
Definition host (key state : string) : val := VDict [("id", VStr ("id-" +:+ key)); ("display-name", VStr ("live-" +:+ key));
  ("lifecycle-state", VStr state); ("availability-domain", VStr "AD-1"); ("shape", VStr "VM.Standard.E5.Flex");
  ("shape-config", VDict [("ocpus", VInt 4); ("memory-in-gbs", VInt 24)])].
Definition subnet (key cidr : string) (private : bool) : val :=
  member key [("cidr-block", VStr cidr); ("prohibit-public-ip-on-vnic", VBool private)].
Definition answers (bastions : list string) : list (list string * val) := [
  (["iam"; "compartment"; "list"], VList [rec [("id", "c-1"); ("name", "liqi-live"); ("lifecycle-state", "ACTIVE")]]);
  (["network"; "vcn"; "list"], VList [member "vcn" [("cidr-blocks", VStrs ["10.42.0.0/16"])]]);
  (["network"; "internet-gateway"; "list"], VList [member "internet_gateway" []]);
  (["network"; "nat-gateway"; "list"], VList [member "nat_gateway" []]);
  (["network"; "service-gateway"; "list"], VList [member "service_gateway" []]);
  (["network"; "route-table"; "list"], VList [member "legacy_route_table" [("route-rules", routes)]; member "route_table" [("route-rules", routes)]]);
  (["network"; "subnet"; "list"], VList [subnet "legacy_subnet" "10.42.10.0/24" false; subnet "subnet" "10.42.20.0/24" true]);
  (["network"; "nsg"; "list"], VList [member "nsg" []]);
  (["network"; "nsg"; "rules"], VList (map bastion bastions));
  (["compute"; "instance"; "list"], VList [host "legacy_instance" "RUNNING"; host "legacy_fallback_instance" "STOPPED"]);
  (["compute"; "vnic-attachment"; "list"], VList [rec [("vnic-id", "v-1"); ("lifecycle-state", "ATTACHED")]]);
  (["network"; "vnic"; "get"], VDict [("nsg-ids", VStrs ["id-nsg"])]);
  (["compute"; "boot-volume-attachment"; "list"], VList [rec [("boot-volume-id", "b-1"); ("lifecycle-state", "ATTACHED")]]);
  (["bv"; "boot-volume"; "get"], VDict [("size-in-gbs", VInt 200)])].
Definition cloud (bastions : list string) (_ : list proc) (p : proc) (f : filesystem) : proc_out * filesystem * Z :=
  (match argv p with
   | "git" :: w :: _ => Exited 0 (if String.eqb w "rev-parse" then commit else "") ""
   | _ => match List.find (λ wv, bool_decide (firstn 3 (tl (argv p)) = wv.1)) (answers bastions) with
          | Some (_, v) => Exited 0 (data v) ""
          | None => Exited 0 "" ""
          end
   end, f, 1000).
Definition w0 : world := world_with [("/root/.oci/config", Config.lines ["[DEFAULT]"; "tenancy=t-1"; "region=ap-singapore-2"]);
  ("/repo/contracts/infrastructure/adoption-manifest-v1.schema.json", "{}"); ("/out/.keep", "");
  ("/in/names.json", json (VDict (map (λ k, (k, VStr ("live-" +:+ k))) RESOURCE_NAME_KEYS)))].
Definition the_args : args := Args "DEFAULT" "liqi-live" (Path.of_str "/in/names.json") (Path.of_str "/out/adoption.json").
Definition reviewed_sources : list string := map fst BASTION_SOURCES.

Lemma discovery_accepted_witness : let host := host_with (cloud reviewed_sources) in let w' := (main (H := host) the_args w0).2 in
  exists document sha w1 w2 verdict, write_manifest (H := host) the_args document w1 = (Ok sha, w2) /\ fs w' = fs w2 /\
    starts_only reads w0 w' /\
    (exists addresses v missing, PreApply.import_addresses document = Ok addresses /\
      getitem document "missing_addresses" = Ok v /\ PreApply.set_of v = Ok missing /\ PreApplyFacts.partitions addresses missing) /\
    PreApply.adoption_verdict document = Ok verdict /\
    (0 = 0 /\ PreApply.status_of verdict = VStr "passed" \/ 0 = 3 /\ PreApply.status_of verdict = VStr "blocked").
Proof.
  intros host w'. apply (discovery_accepted (H := host) the_args w0 0 w').
  assert ((main (H := host) the_args w0).1 = Ok 0) as E by (vm_compute; reflexivity).
  unfold w'. destruct (main (H := host) the_args w0) as [r x]. cbn [fst snd] in E |- *. by rewrite E.
Defined.

(** A missing rule of the bastion blocks the adoption, after 26 queries. *)
Example missing_bastion : let w' := (main (H := host_with (cloud ["10.42.20.100/32"])) the_args w0).2 in
  (main (H := host_with (cloud ["10.42.20.100/32"])) the_args w0).1 = Ok 3 /\
  (match stat w' (a_output the_args) with Some (NFile d _) => (v ← Json.loads d; Some (getitem v "blockers")) | _ => None end) =
    Some (Ok (VStrs ["workload NSG is missing required Bastion SSH rule for 10.42.20.109/32"])) /\ length (log w') = 26%nat.
Proof. vm_compute. auto. Qed.
End LiveAdoptionRun.
