(* ===== verification/ValidateAdoption.v ===== *)
(** * infrastructure/validation/validate_adoption_result.py

    The validator of the adoption of the live state: it was executed, it passed, and
    nothing but the state was touched. [Tests] holds what both validators of the plan share. *)

From Stdlib Require Import Ascii.
From S2P Require Import Prelude PyFloat PyMonad PyValue PyTime PyJson Sha256 PyOs OsFacts FsFacts Fixture.
From S2P Require Import ReadinessCommon GenerateSpec CiProvenance PlanV1 BuildResult.

(** Tests made in order, each with the message of its refusal *)
Module Tests.
Import BuildResult.
Definition refuse_first (l : list (list (res bool) * string)) : IO unit := mfor (λ t, refuse_any t.1 t.2) l.
Definition hold (l : list (list (res bool) * string)) : Prop := Forall (λ t, rany id t.1 = Ok false) l.
End Tests.

Module AdoptionResult.
Import Evidence PlanV1 Tests.
Section Env.
Context `{Platform}.

Definition ROOT : path := repo_root.
Definition SCHEMA : path := Path.div ROOT "contracts/infrastructure/adoption-result-v1.schema.json".

Definition result_tests (document : val) (git_sha : string) : list (list (res bool) * string) := [
  ([get_ne document "git_sha" (VStr git_sha); get_ne document "capacity_profile" (VStr "e5-temporary")],
   "adoption result source/profile mismatch");
  ([get_ne document "operation" (VStr "execute"); get_ne document "status" (VStr "passed"); (b ← dget document "blockers"; Ok (truthy b))],
   "adoption result is not an executed pass");
  ([(m ← dget document "state_mutation_performed"; Ok match m with VBool _ => false | _ => true end)],
   "executed adoption result must record a boolean state mutation flag");
  ([(m ← dget document "oci_mutation_performed"; Ok (negb (is_false m)))], "adoption result incorrectly claims OCI mutation")].
Definition validate_result (document : val) (git_sha : string) : IO unit :=
  schema ← load_json SCHEMA;
  match schema_errors schema document with
  | e :: _ => throw ValueError ("invalid adoption result: " +:+ e.2)
  | [] => refuse_first (result_tests document git_sha)
  end.
Definition main (result : path) (git_sha : string) : IO Z :=
  catch (document ← load_json result; validate_result document git_sha)
    (on_exn [ValueError; OSError; JSONDecodeError] (λ e, sysexit (exn_str e))) ;;
  print "validated exact-SHA E5 state adoption result" ;;
  mret 0.
End Env.
End AdoptionResult.
