(* ===== verification/ValidateReady.v ===== *)
(** * infrastructure/validation/validate_pre_apply_readiness.py

    The validator of the readiness of an apply: it is passed, for this commit and
    for these input files. *)

From Stdlib Require Import Ascii.
From S2P Require Import Prelude PyFloat PyMonad PyValue PyTime PyJson Sha256 PyOs OsFacts FsFacts Fixture.
From S2P Require Import ReadinessCommon GenerateSpec CiProvenance PlanV1 BuildResult ValidateAdoption.

Module ReadyResult.
Import Evidence PlanV1 Tests.
Definition CHECKS : list string := ["oci-adoption-handoff"; "state-backend"; "state-adoption"; "protected-tfvars";
  "signed-x86-release"; "recovery-target"; "protected-environment"].

Section Env.
Context `{Platform}.

Definition ROOT : path := repo_root.
Definition SCHEMA : path := Path.div ROOT "contracts/infrastructure/pre-apply-readiness-v1.schema.json".

Definition digest (p : path) : IO string := sha256_chunked p.
Definition regular (p : path) (label : string) : IO path :=
  l ← is_symlink p; f ← is_file p;
  if l || negb f then throw ValueError (label +:+ " must be a regular non-symlink file") else resolve p.
Definition load (p : path) (label : string) : IO val :=
  q ← regular p label; document ← load_json q;
  if is_dict document then mret document else throw ValueError (label +:+ " JSON root must be an object").

Definition document_tests (document : val) (git_sha : string) : list (list (res bool) * string) := [
  ([get_ne document "git_sha" (VStr git_sha); get_ne document "capacity_profile" (VStr "e5-temporary")],
   "pre-apply readiness source/profile mismatch");
  ([get_ne document "status" (VStr "passed"); (b ← dget document "blockers"; Ok (truthy b))], "pre-apply readiness is not passed");
  ([(m ← dget document "state_mutation_performed"; Ok (negb (is_false m)));
    (m ← dget document "oci_mutation_performed"; Ok (negb (is_false m)))], "pre-apply readiness incorrectly claims mutation");
  ([(l ← dget_or document "checks" (VList []); l ← py_iter l; names ← rmap (λ c, dget c "name") l; set_ne names (strings CHECKS));
    (l ← dget_or document "checks" (VList []); l ← py_iter l; rany (λ c, get_ne c "status" (VStr "passed")) l)],
   "pre-apply readiness does not contain the exact seven passed checks")].
Definition validate_document (document : val) (git_sha : string) : IO unit :=
  schema ← load_json SCHEMA;
  match schema_errors schema document with
  | e :: _ => throw ValueError ("invalid pre-apply readiness result: " +:+ e.2)
  | [] => refuse_first (document_tests document git_sha)
  end.

Definition input_test (inputs : val) (expected : string * val) : list (res bool) * string :=
  ([match expected.2 with VStr _ => get_ne inputs expected.1 expected.2 | _ => Ok true end],
   "pre-apply readiness input digest mismatch: " +:+ expected.1).
Definition validate_result (document : val) (git_sha : string) (state_backend_evidence adoption_result_path var_file : path) : IO unit :=
  validate_document document git_sha ;;
  b ← regular state_backend_evidence "state-backend evidence";
  r ← regular adoption_result_path "adoption result";
  v ← regular var_file "protected tfvars";
  adoption_result ← load r "adoption result";
  inputs ← lift (dget_or document "inputs" (VDict []));
  bd ← digest b; rd ← digest r; vd ← digest v;
  m ← lift (dget adoption_result "manifest_sha256");
  refuse_first (map (input_test inputs) [("state_backend_evidence_sha256", VStr bd); ("adoption_result_sha256", VStr rd);
    ("var_file_sha256", VStr vd); ("adoption_manifest_sha256", m)]).

Record args := Args { a_result : path; a_git_sha : string; a_backend : path; a_adoption_result : path; a_var_file : path }.
Definition main (a : args) : IO Z :=
  catch
    (p ← regular (a_result a) "pre-apply readiness result";
     document ← load p "pre-apply readiness result";
     validate_result document (a_git_sha a) (a_backend a) (a_adoption_result a) (a_var_file a))
    (on_exn [ValueError; OSError; JSONDecodeError] (λ e, sysexit (exn_str e))) ;;
  print "validated exact-SHA passed E5 pre-apply readiness" ;;
  mret 0.
End Env.
End ReadyResult.
