(* ===== verification/AdoptState.v ===== *)
(** * infrastructure/deployment/adopt_v1_live_state.py

    The adoption of the discovered resources into the encrypted state: the manifest
    is validated, and an approved execution imports each address that the state does
    not hold yet. [git] and [tofu] are started processes. *)

From Stdlib Require Import Ascii.
From S2P Require Import Prelude PyFloat PyMonad PyValue PyTime PyJson Sha256 PyOs OsFacts FsFacts Fixture.
From S2P Require Import ReadinessCommon GenerateSpec CiProvenance PlanV1 LiveAdoption PreApply.

Module AdoptState.
Import Evidence PlanV1.

(** ** Redaction *)

Definition letter (c : ascii) : bool := let n := N_of_ascii c in ((65 <=? n) && (n <=? 90) || (97 <=? n) && (n <=? 122))%N.
Definition id_char (c : ascii) : bool := letter c || Str.is_digit c || inb Ascii.eqb c ["."; "_"; "-"]%char.
(** A match of [OCID] at the start, as what follows it *)
Definition OCID (s : string) : option string :=
  r ← Str.strip_prefix "ocid1." s;
  let (name, rest) := Readiness.span id_char r in if String.eqb name "" then None else Some rest.
(** [OCID.sub]; [n] bounds the characters to read *)
Fixpoint redacted (n : nat) (s : string) : string :=
  match n with
  | O => ""
  | S n => match OCID s with
           | Some r => "<oci-id-redacted>" +:+ redacted n r
           | None => match s with EmptyString => "" | String c r => String c (redacted n r) end
           end
  end.
Definition redact (value : string) : string := Str.take 1000 (redacted (S (String.length value)) value).
(** [a.strip() or b.strip() or message] *)
Definition first_text (a b message : string) : string :=
  default message (List.find (λ s, negb (String.eqb s "")) [Str.strip a; Str.strip b]).

(** ** The state *)

Definition default_style : Json.style := Json.Style None ", " ": " false.
Definition managed (resource : val) : res bool :=
  m ← dget_or resource "mode" (VStr "managed");
  if py_ne m (VStr "managed") then Ok false
  else t ← dget_or resource "type" (VStr ""); Ok (Str.startswith "oci_" (py_str t)).
Definition base_address (resource : val) : res string :=
  module ← dget resource "module"; t ← dget resource "type"; n ← dget resource "name";
  Ok ((if truthy module then py_str module +:+ "." else "") +:+ py_str t +:+ "." +:+ py_str n).
Definition add_instance (base : string) (result : list (string * string)) (instance : val) : res (list (string * string)) :=
  a ← dget instance "attributes"; identifier ← dget (or_dict a) "id";
  match identifier with
  | VStr identifier =>
      key ← dget instance "index_key";
      let address := if is_none key then base else base +:+ "[" +:+ Json.dumps default_style key +:+ "]" in
      if Dict.mem address result then raise RuntimeError ("duplicate state address: " +:+ address)
      else Ok (Dict.set address identifier result)
  | _ => Ok result
  end.
Definition add_resource (result : list (string * string)) (resource : val) : res (list (string * string)) :=
  ours ← managed resource;
  if ours : bool then
    base ← base_address resource; l ← dget resource "instances"; l ← py_iter (or_list l); rfold (add_instance base) result l
  else Ok result.
Definition state_ids (document : val) : res (list (string * string)) :=
  l ← dget_or document "resources" (VList []); l ← py_iter l; rfold add_resource [] l.

Definition no_endswith (v : val) (suffix : string) : res bool :=
  match v with VStr s => Ok (Str.endswith suffix s) | _ => no_attr v "endswith" end.
Definition identifiers_match (address : string) (expected : val) (actual : string) : res bool :=
  if py_eq (VStr actual) expected then Ok true
  else if Str.startswith "module.v1_live.oci_core_network_security_group_security_rule." address
  then no_endswith expected ("/securityRules/" +:+ actual)
  else if String.eqb address "module.v1_live.oci_kms_key.main" then no_endswith expected ("/keys/" +:+ actual)
  else Ok false.

(** [{item["address"]: item["id"] for item in imports}] *)
Fixpoint set_key (k x : val) (d : list (val * val)) : list (val * val) :=
  match d with
  | [] => [(k, x)]
  | (k', y) :: r => if py_eq k' k then (k', x) :: r else (k', y) :: set_key k x r
  end.
Definition add_expected (d : list (val * val)) (item : val) : res (list (val * val)) :=
  k ← getitem item "address"; x ← getitem item "id"; _ ← check_hash k; Ok (set_key k x d).
Definition expected_of (manifest : val) : res (list (val * val)) :=
  l ← getitem manifest "imports"; l ← py_iter l; rfold add_expected [] l.
Definition unexpected_of (current : list (string * string)) (expected : list (val * val)) : list string :=
  sort_strings (List.filter (λ s, negb (py_in (VStr s) (map fst expected))) (Dict.keys current)).
(** What the state holds under an address *)
Definition held (current : list (string * string)) (address : val) : option (string * string) :=
  match address with VStr s => option_map (pair s) (Dict.lookup s current) | _ => None end.

(** ** The program *)

Record args := Args { a_manifest : path; a_var_file : path; a_output : path; approval_reference : string; execute : bool }.
(** What the execution has done so far *)
Record progress := Progress { imported : list val; present : list val; mutated : bool }.

Section Env.
Context `{Platform}.

Definition ROOT : path := repo_root.
Definition ENV_DIR : path := Path.div ROOT "infrastructure/opentofu/environments/v1-live".
Definition MANIFEST_SCHEMA : path := Path.div ROOT "contracts/infrastructure/adoption-manifest-v1.schema.json".
Definition RESULT_SCHEMA : path := Path.div ROOT "contracts/infrastructure/adoption-result-v1.schema.json".

Definition sha (p : path) : IO string := sha256_file p.
Definition validate (schema_path : path) (document : val) (label : string) : IO unit :=
  schema ← load_json schema_path;
  match schema_errors schema document with
  | e :: _ => throw RuntimeError ("invalid " +:+ label +:+ ": " +:+ e.2)
  | [] => mret tt
  end.
Definition process_of (argv : list string) (env : list (string * string)) (timeout : Z) : proc :=
  Proc argv (Some timeout) env (Some ENV_DIR).
Definition run (argv : list string) (env : list (string * string)) (timeout : Z) : IO string :=
  r ← run_completed (process_of argv env timeout);
  let '(code, o, e) := r in
  if code =? 0 then mret o else throw RuntimeError (redact (first_text e o ("command failed: " +:+ hd "" argv))).

Definition write_result (p : path) (document : val) : IO unit :=
  validate RESULT_SCHEMA document "adoption result" ;;
  p ← resolve p;
  mkdir_p (Path.parent p) ;;
  let temporary := Path.with_name p ("." +:+ Path.name p +:+ ".new." +:+ Str.of_Z pid) in
  write_file temporary (json_text document) ;;
  chmod temporary 384 ;;
  replace temporary p.

Definition regular (p : path) (label : string) : IO unit :=
  f ← is_file p; l ← is_symlink p;
  if negb f || l then sysexit (label +:+ " must be a regular non-symlink file") else mret tt.
(** The manifest, bound to this commit and passed *)
Definition load_manifest (a : args) (git_sha : string) : IO val :=
  manifest ← load_json (a_manifest a);
  validate MANIFEST_SCHEMA manifest "adoption manifest" ;;
  other ← lift (ror (s ← getitem manifest "git_sha"; Ok (py_ne s (VStr git_sha)))
                    (p ← getitem manifest "capacity_profile"; Ok (py_ne p (VStr "e5-temporary"))));
  if other : bool then sysexit "adoption manifest is not bound to this exact E5 source revision" else
  blocked ← lift (ror (s ← getitem manifest "status"; Ok (py_ne s (VStr "passed"))) (b ← getitem manifest "blockers"; Ok (truthy b)));
  if blocked : bool then sysexit "blocked adoption manifest cannot be consumed" else mret manifest.

(** The inputs of the result, as the run has read them *)
Record inputs := Inputs { i_sha : string; manifest_sha : string; var_sha : string }.
Definition result_of (a : args) (i : inputs) (status : string) (p : progress) (blockers : list string) : val := VDict [
  ("schema_version", VStr "liqi.infrastructure.adoption-result/v1"); ("git_sha", VStr (i_sha i));
  ("capacity_profile", VStr "e5-temporary"); ("operation", VStr (if execute a then "execute" else "validate"));
  ("approval_reference", if String.eqb (approval_reference a) "" then VNone else VStr (approval_reference a));
  ("manifest_sha256", VStr (manifest_sha i)); ("var_file_sha256", VStr (var_sha i)); ("status", VStr status);
  ("imported_addresses", VList (imported p)); ("already_present_addresses", VList (present p)); ("blockers", VStrs blockers);
  ("state_mutation_performed", VBool (mutated p)); ("oci_mutation_performed", VBool false)].

(** The environment of the commands, or the refusal of this one *)
Definition missing_variable (env : list (string * string)) : option string :=
  if String.eqb (default "" (Dict.lookup "TF_ENCRYPTION" env)) "" then Some "TF_ENCRYPTION is required"
  else if negb (Str.contains "sslmode=verify-full" (default "" (Dict.lookup "PG_CONN_STR" env)))
  then Some "PG_CONN_STR with sslmode=verify-full is required"
  else if negb (PreApply.equals (Dict.lookup "PG_SCHEMA_NAME" env) "opentofu_v1_live") then Some "PG_SCHEMA_NAME must be opentofu_v1_live"
  else option_map (λ n, n +:+ " must be true") (List.find (λ n, negb (PreApply.equals (Dict.lookup n env) "true"))
         ["PG_SKIP_SCHEMA_CREATION"; "PG_SKIP_TABLE_CREATION"; "PG_SKIP_INDEX_CREATION"]).
Definition pop (k : string) (env : list (string * string)) : list (string * string) :=
  List.filter (λ kv, negb (String.eqb kv.1 k)) env.
Definition command_env (output : path) (env : list (string * string)) : list (string * string) :=
  Dict.set "TF_DATA_DIR" (Path.to_str (Path.div (Path.parent output) "tfdata-adoption")) (pop "PGPASSFILE" (pop "PGSERVICEFILE" env)).

Definition init_argv : list string := ["tofu"; "init"; "-input=false"; "-reconfigure"].
Definition pull_argv : list string := ["tofu"; "state"; "pull"].
Definition current_of (code : Z) (stdout stderr : string) : res (list (string * string)) :=
  if code =? 0 then
    if String.eqb (Str.strip stdout) "" then Ok [] else document ← json_loads stdout; state_ids document
  else if Str.contains "no state" (Str.lower (stderr +:+ stdout)) then Ok []
  else raise RuntimeError (redact (first_text stderr stdout "unable to read OpenTofu state")).
Definition import_argv (var_file : path) (git_sha : string) (address identifier : val) : list val :=
  map VStr ["tofu"; "import"; "-input=false"; "-var-file=" +:+ Path.to_str var_file; "-var=source_git_sha=" +:+ git_sha;
    "-var=capacity_profile=e5-temporary"] ++ [address; identifier].

Abbreviation E := (M (progress * world)).
Section Execution.
Context (a : args) (git_sha : string) (env : list (string * string)).

Definition import_resource (address identifier : val) : IO unit :=
  v ← resolve (a_var_file a);
  argv ← lift (rmap expect_str (import_argv v git_sha address identifier));
  _ ← run argv env 300; mret tt.
Definition adopt_one (current : list (string * string)) (entry : val * val) : E unit :=
  let '(address, identifier) := entry in
  match held current address with
  | Some (s, actual) =>
      same ← lift (identifiers_match s identifier actual);
      if negb same then throw RuntimeError ("state ID mismatch for " +:+ s)
      else modl (λ p, Progress (imported p) (present p ++ [address]) (mutated p))
  | None =>
      zoom_snd (import_resource address identifier) ;;
      modl (λ p, Progress (imported p ++ [address]) (present p) true)
  end.
Definition read_state : IO (list (string * string)) :=
  _ ← run init_argv env 300;
  r ← run_completed (process_of pull_argv env 180);
  let '(code, o, e) := r in lift (current_of code o e).
Definition adopt (manifest : val) : E unit :=
  current ← zoom_snd read_state;
  expected ← lift (expected_of manifest);
  match unexpected_of current expected with
  | [] => entries ← lift (py_sorted_by fst expected); mfor (adopt_one current) entries
  | unexpected => throw RuntimeError ("state contains unexpected managed addresses: " +:+ repr_strs unexpected)
  end.
End Execution.

Definition count (l : list val) : val := VInt (Z.of_nat (length l)).
Definition fail_with (a : args) (i : inputs) (e : exn) : E Z :=
  p ← getl;
  zoom_snd (write_result (a_output a) (result_of a i "failed" p [redact (exn_str e)])) ;;
  zoom_snd (print (Json.dumps Json.plain_sorted (VDict [("status", VStr "failed"); ("state_mutation_performed", VBool (mutated p));
    ("oci_mutation_performed", VBool false)]))) ;;
  mret 4.
Definition succeed (a : args) (i : inputs) : E Z :=
  p ← getl;
  zoom_snd (write_result (a_output a) (result_of a i "passed" p [])) ;;
  zoom_snd (print (Json.dumps Json.plain_sorted (VDict [("status", VStr "passed"); ("imported", count (imported p));
    ("already_present", count (present p)); ("oci_mutation_performed", VBool false)]))) ;;
  mret 0.
Definition execution (a : args) (i : inputs) (env : list (string * string)) (manifest : val) : E Z :=
  r ← catch (adopt a (i_sha i) env manifest ;; mret None) (on_any (λ e, mret (Some e)));
  match r with Some e => fail_with a i e | None => succeed a i end.

Definition nothing : progress := Progress [] [] false.
Definition validation (a : args) (i : inputs) (manifest : val) : IO Z :=
  if negb (String.eqb (approval_reference a) "") then sysexit "approval reference is accepted only with --execute" else
  write_result (a_output a) (result_of a i "validated" nothing []) ;;
  n ← lift (l ← getitem manifest "imports"; py_len l);
  print (Json.dumps Json.plain_sorted (VDict [("status", VStr "validated"); ("imports", VInt n); ("oci_mutation_performed", VBool false)])) ;;
  mret 0.

Definition main (a : args) : IO Z :=
  regular (a_manifest a) "manifest" ;;
  regular (a_var_file a) "var file" ;;
  status ← PreApply.git ["status"; "--porcelain"; "--untracked-files=all"];
  if negb (String.eqb status "") then sysexit "clean worktree is required for exact-SHA adoption" else
  git_sha ← PreApply.git ["rev-parse"; "HEAD"];
  manifest ← load_manifest a git_sha;
  manifest_sha ← sha (a_manifest a);
  var_sha ← sha (a_var_file a);
  let i := Inputs git_sha manifest_sha var_sha in
  if negb (execute a) then validation a i manifest else
  if Str.len (Str.strip (approval_reference a)) <? 3 then sysexit "--execute requires a non-empty approval reference" else
  env ← gets environ;
  match missing_variable env with
  | Some message => sysexit message
  | None =>
      output ← resolve (a_output a);
      with_locals nothing (execution a i (command_env output env) manifest)
  end.
End Env.
End AdoptState.
