(* ===== verification/AdoptStateFacts.v ===== *)
(** * What the adoption of the live state does

    The result lists exactly the imports that succeeded, however the execution ends;
    and a result that passed is the one the readiness of an apply accepts. *)

From Stdlib Require Import Ascii.
From S2P Require Import Prelude PyFloat PyMonad PyValue PyTime PyJson Sha256 PyOs OsFacts FsFacts Fixture.
From S2P Require Import ReadinessCommon GenerateSpec CiProvenance PlanV1 FirstReleaseFacts LiveAdoption PreApply PreApplyFacts LiveAdoptionFacts ValidateAdoption ValidateReady AdoptState.

Module AdoptStateFacts.
Import Evidence PlanV1 FirstReleaseSpec AdoptState.

(** *** The imports of a run *)

Definition is_import (p : proc) : bool := match argv p with "tofu" :: "import" :: _ => true | _ => false end.

Section Facts.
Context `{Platform}.

(** The command that imports an entry of the manifest, in a world *)
Definition imports_entry (a : args) (sha : string) (env : list (string * string)) (w : world) (entry : val * val) (p : proc) : Prop :=
  exists v args, resolve (a_var_file a) w = (Ok v, w) /\ rmap expect_str (import_argv v sha entry.1 entry.2) = Ok args /\
    p = process_of args env 300.
(** Entries imported one after the other: each command, run in the world the one before it left, exited with 0. *)
Inductive imports (a : args) (sha : string) (env : list (string * string)) : list (val * val) -> world -> world -> Prop :=
| imports_nil w : imports a sha env [] w w
| imports_cons entry new p o e w w1 w2 : imports_entry a sha env w entry p ->
    subprocess_run p w = (Ok (Exited 0 o e), w1) -> imports a sha env new w1 w2 -> imports a sha env (entry :: new) w w2.
(** What is left to import is left alone, or its first command ran and did not exit with 0. *)
Definition stopped (a : args) (sha : string) (env : list (string * string)) (rest : list (val * val)) (w w' : world) : Prop :=
  w' = w \/ exists entry p r, head rest = Some entry /\ imports_entry a sha env w entry p /\ subprocess_run p w = (r, w') /\
    forall o e, r <> Ok (Exited 0 o e).
(** A part of a plan was imported: all of it when the execution did not fail. *)
Record imports_made (a : args) (sha : string) (env : list (string * string)) (plan new : list (val * val)) (passed : bool)
    (s s' : progress * world) : Prop := {
  im_addresses : imported s'.1 = imported s.1 ++ map fst new;
  im_mutated : mutated s'.1 = mutated s.1 || negb (bool_decide (new = []));
  im_plan : exists rest w1, plan = new ++ rest /\ imports a sha env new s.2 w1 /\
    if passed then rest = [] /\ s'.2 = w1 else stopped a sha env rest w1 s'.2
}.
Lemma made_nothing a sha env plan s s' : imported s'.1 = imported s.1 -> mutated s'.1 = mutated s.1 -> s'.2 = s.2 ->
  imports_made a sha env plan [] false s s'.
Proof.
  intros E1 E2 E3. split; [by rewrite app_nil_r|by rewrite orb_false_r|]. exists plan, s.2. split; [done|]. split; [constructor|by left].
Qed.
Lemma made_all a sha env s s' : imported s'.1 = imported s.1 -> mutated s'.1 = mutated s.1 -> s'.2 = s.2 ->
  imports_made a sha env [] [] true s s'.
Proof.
  intros E1 E2 E3. split; [by rewrite app_nil_r|by rewrite orb_false_r|]. exists [], s.2. split; [done|]. by split; [constructor|].
Qed.
Lemma imports_app a sha env l1 l2 x y z : imports a sha env l1 x y -> imports a sha env l2 y z -> imports a sha env (l1 ++ l2) x z.
Proof. induction 1; simpl; [done|]. intros. econstructor; eauto. Qed.
Lemma made_app a sha env p1 p2 n2 b x y z : imports_made a sha env p1 p1 true x y -> imports_made a sha env p2 n2 b y z ->
  imports_made a sha env (p1 ++ p2) (p1 ++ n2) b x z.
Proof.
  intros [A1 M1 (r1 & w1 & _ & I1 & _ & W1)] [A2 M2 (r2 & w2 & -> & I2 & F)]. split.
  - by rewrite A2, A1, map_app, app_assoc.
  - rewrite M2, M1, <-orb_assoc. f_equal. by destruct p1, n2.
  - exists r2, w2. split; [by rewrite app_assoc|]. split; [|done]. eapply imports_app; [exact I1|]. by rewrite <-W1.
Qed.
Lemma made_more a sha env p1 p2 n x y : imports_made a sha env p1 n false x y -> imports_made a sha env (p1 ++ p2) n false x y.
Proof.
  intros [A M (r & w1 & -> & I & F)]. split; [done|done|]. exists (r ++ p2), w1. split; [by rewrite app_assoc|]. split; [done|].
  destruct F as [->|(en & p & o & Hh & Hi)]; [by left|]. right. exists en, p, o. split; [by destruct r|done].
Qed.

(** The entries that the state does not hold yet *)
Definition missing (current : list (string * string)) (entry : val * val) : bool :=
  match held current entry.1 with Some _ => false | None => true end.
Definition to_import (current : list (string * string)) (entries : list (val * val)) : list (val * val) :=
  List.filter (missing current) entries.

Section Execution.
Context (a : args) (sha : string) (env : list (string * string)).

(** The import of one entry runs its command, and succeeds just when the command exits with 0. *)
Lemma import_runs entry w r w' : import_resource a sha env entry.1 entry.2 w = (r, w') ->
  (exists p o e, r = Ok tt /\ imports_entry a sha env w entry p /\ subprocess_run p w = (Ok (Exited 0 o e), w')) \/
  (exists x, r = Raise x) /\ stopped a sha env [entry] w w'.
Proof.
  unfold import_resource, mbind at 1, M_bind at 1. destruct (resolve (a_var_file a) w) as [[v|x] w1] eqn:Ev.
  2: { intros [= <- <-]. right. split; [by eexists|left]. unfold resolve in Ev. destruct (canon w (a_var_file a)); by injection Ev. }
  assert (w1 = w) as -> by (eapply pres_eq_run; [|exact Ev]; solve_pres).
  unfold mbind at 1, M_bind at 1, lift. destruct (rmap expect_str _) as [args|x] eqn:E.
  2: { intros [= <- <-]. right. split; [by eexists|by left]. }
  set (p := process_of args env 300). assert (imports_entry a sha env w entry p) as Hp by (by exists v, args).
  unfold run, run_completed. fold p. unfold mbind, M_bind. destruct (subprocess_run p w) as [[q|x] w1] eqn:Eq.
  2: { intros [= <- <-]. right. split; [by eexists|right]. by exists entry, p, (Raise x). }
  assert (forall x : exn, (forall o e, q <> Exited 0 o e) -> (exists y, @Raise unit x = Raise y) /\ stopped a sha env [entry] w w1) as Hf.
  { intros x Hq. split; [by eexists|right]. exists entry, p, (Ok q). do 3 (split; [done|]). intros o e [= ->]. by eapply Hq. }
  destruct q as [code o e| |]; [|by intros [= <- <-]; right; apply Hf|by intros [= <- <-]; right; apply Hf].
  unfold mret, M_ret. destruct (Z.eqb_spec code 0) as [->|Hc]; intros [= <- <-]; [left; by exists p, o, e|right]. apply Hf.
  intros o' e' [= -> _ _]. done.
Qed.

(** An entry that is held is left alone; the others are imported. *)
Lemma adopt_one_made current entry s r s' : adopt_one a sha env current entry s = (r, s') ->
  match r with
  | Ok _ => imports_made a sha env (to_import current [entry]) (to_import current [entry]) true s s' /\
      present s'.1 ++ map fst (to_import current [entry]) ≡ₚ present s.1 ++ [entry.1] /\ is_str entry.1 = true
  | Raise _ => imports_made a sha env (to_import current [entry]) [] false s s'
  end.
Proof.
  destruct entry as [address identifier]. unfold adopt_one, to_import, List.filter, missing. cbn [fst].
  destruct (held current address) as [[x actual]|] eqn:Eh.
  - unfold mbind, M_bind, lift. destruct (identifiers_match _ _ _) as [same|e].
    + destruct same; cbn [negb]; intros [= <- <-]; [|by apply made_nothing]. split; [by apply made_all|].
      cbn [fst present map]. rewrite app_nil_r. split; [done|]. by destruct address.
    + intros [= <- <-]. by apply made_nothing.
  - destruct s as [p w]. unfold mbind, M_bind, zoom_snd. cbn [fst snd].
    destruct (import_resource a sha env address identifier w) as [ri w1] eqn:Ei.
    destruct (import_runs (address, identifier) w ri w1 Ei) as [(q & o & e & -> & Hq & Hr)|[[e ->] Hl]].
    + intros [= <- <-]. split; [split|].
      * done.
      * rewrite bool_decide_eq_false_2 by done. by rewrite orb_true_r.
      * exists [], w1. split; [done|]. split; [econstructor; [exact Hq|exact Hr|constructor]|done].
      * split; [done|]. destruct Hq as (v & args & _ & E & _). unfold import_argv in E.
        cbn [fst snd map app rmap] in E. do 6 (apply bind_Ok in E as (? & _ & E); apply bind_Ok in E as (? & E' & E); clear E; rename E' into E).
        apply bind_Ok in E as (? & E & _). by destruct address.
    + intros [= <- <-]. split; [by rewrite app_nil_r|by rewrite orb_false_r|]. exists [(address, identifier)], w. split; [done|].
      by split; [constructor|].
Qed.
Lemma adopt_all_made current entries : forall s r s', mfor (adopt_one a sha env current) entries s = (r, s') ->
  match r with
  | Ok _ => imports_made a sha env (to_import current entries) (to_import current entries) true s s' /\
      present s'.1 ++ map fst (to_import current entries) ≡ₚ present s.1 ++ map fst entries /\ Forall (λ e, is_str e.1 = true) entries
  | Raise _ => exists new, imports_made a sha env (to_import current entries) new false s s'
  end.
Proof.
  induction entries as [|entry entries IH]; intros s r s'; cbn [mfor].
  - intros [= <- <-]. split; [by apply made_all|]. by rewrite !app_nil_r.
  - assert (to_import current (entry :: entries) = to_import current [entry] ++ to_import current entries) as ->.
    { unfold to_import. simpl. by destruct (missing current entry). }
    unfold mbind, M_bind. destruct (adopt_one a sha env current entry s) as [r1 s1] eqn:E1.
    pose proof (adopt_one_made _ _ _ _ _ E1) as M1. destruct r1 as [[]|e].
    + destruct M1 as (M1 & P1 & S1). intros E2. pose proof (IH _ _ _ E2) as M2. destruct r as [u|e].
      * destruct M2 as (M2 & P2 & S2). split; [by eapply made_app|]. split; [|by constructor].
        rewrite map_app, (Permutation_app_comm (map fst (to_import current [entry]))), app_assoc, P2.
        rewrite <-app_assoc, (Permutation_app_comm (map fst entries)), app_assoc, P1, <-app_assoc. done.
      * destruct M2 as (n2 & M2). exists (to_import current [entry] ++ n2). by eapply made_app.
    + intros [= <- <-]. exists []. by apply made_more.
Qed.

(** Not one of the first commands is an import. *)
Lemma reads_state : Pres (starts_only (λ p, is_import p = false)) (read_state env).
Proof.
  unfold read_state, run. apply pres_bind; [apply _| |intros _].
  - apply pres_bind; [apply _|by apply so_run_completed|solve_pres].
  - apply pres_bind; [apply _|by apply so_run_completed|solve_pres].
Qed.
(** The entries of the manifest to import, by their addresses, when the state and the manifest can be read *)
Definition plan (manifest : val) (w : world) : list (val * val) :=
  match (read_state env w).1, expected_of manifest with
  | Ok current, Ok expected => match py_sorted_by fst expected with Ok entries => to_import current entries | Raise _ => [] end
  | _, _ => []
  end.
Lemma adopt_made manifest p w r s' : adopt a sha env manifest (p, w) = (r, s') -> exists new,
  match r with
  | Ok _ => imports_made a sha env (plan manifest w) new true (p, (read_state env w).2) s' /\
      exists expected, expected_of manifest = Ok expected /\
      present s'.1 ++ map fst new ≡ₚ present p ++ map fst expected /\ Forall (λ k, is_str k = true) (map fst expected)
  | Raise _ => imports_made a sha env (plan manifest w) new false (p, (read_state env w).2) s'
  end.
Proof.
  unfold adopt, plan, mbind at 1, M_bind at 1, zoom_snd. cbn [fst snd].
  destruct (read_state env w) as [[current|e] w1]; cbn [fst snd].
  2: { intros [= <- <-]. exists []. by apply made_nothing. }
  unfold mbind at 1, M_bind at 1, lift at 1. destruct (expected_of manifest) as [expected|e] eqn:Ee.
  2: { intros [= <- <-]. exists []. by apply made_nothing. }
  destruct (unexpected_of current expected) as [|x l].
  2: { intros [= <- <-]. exists []. by apply made_nothing. }
  unfold mbind at 1, M_bind at 1, lift at 1. destruct (py_sorted_by fst expected) as [entries|e] eqn:Es.
  2: { intros [= <- <-]. exists []. by apply made_nothing. }
  intros E. pose proof (adopt_all_made _ _ _ _ _ E) as M. destruct r as [u|e]; [|exact M]. destruct M as (M & P & S).
  exists (to_import current entries). split; [done|]. exists expected. split; [done|].
  apply py_sorted_by_perm in Es. rewrite <-Es. split; [done|]. rewrite Forall_map. exact S.
Qed.
End Execution.

(** *** The result *)

Lemma sl_write p d : Pres same_log (write_result p d).
Proof. unfold write_result, validate. solve_pres. Qed.
Lemma fail_written a i e s c s' : fail_with a i e s = (Ok c, s') ->
  c = 4 /\ exists w2, write_result (a_output a) (result_of a i "failed" s.1 [redact (exn_str e)]) s.2 = (Ok tt, w2) /\
    fs s'.2 = fs w2 /\ log s'.2 = log s.2.
Proof.
  intros E. unfold fail_with in E. apply M_bind_Ok in E as (p & s1 & E1 & E). apply getl_Ok in E1 as [-> ->].
  apply M_bind_Ok in E as ([] & s2 & E2 & E). apply zoom_Ok in E2 as [E2 _].
  apply M_bind_Ok in E as (u & s3 & E3 & E). apply zoom_Ok in E3 as [E3 _]. apply ret_Ok in E as [<- ->]. split; [done|].
  exists s2.2. split; [exact E2|]. pose proof (pres_run _ _ _ _ _ (sl_write _ _) E2) as L. injection E3 as _ <-. by split.
Qed.
Lemma success_written a i s c s' : succeed a i s = (Ok c, s') ->
  c = 0 /\ exists w2, write_result (a_output a) (result_of a i "passed" s.1 []) s.2 = (Ok tt, w2) /\
    fs s'.2 = fs w2 /\ log s'.2 = log s.2.
Proof.
  intros E. unfold succeed in E. apply M_bind_Ok in E as (p & s1 & E1 & E). apply getl_Ok in E1 as [-> ->].
  apply M_bind_Ok in E as ([] & s2 & E2 & E). apply zoom_Ok in E2 as [E2 _].
  apply M_bind_Ok in E as (u & s3 & E3 & E). apply zoom_Ok in E3 as [E3 _]. apply ret_Ok in E as [<- ->]. split; [done|].
  exists s2.2. split; [exact E2|]. pose proof (pres_run _ _ _ _ _ (sl_write _ _) E2) as L. injection E3 as _ <-. by split.
Qed.

Lemma execution_Ok a i env manifest w c s' : execution a i env manifest (nothing, w) = (Ok c, s') ->
  exists new s1 status blockers w2, imports_made a (i_sha i) env (plan env manifest w) new (c =? 0) (nothing, (read_state env w).2) s1 /\
    write_result (a_output a) (result_of a i status s1.1 blockers) s1.2 = (Ok tt, w2) /\ fs s'.2 = fs w2 /\ log s'.2 = log s1.2 /\
    (c = 4 /\ status = "failed" \/ c = 0 /\ status = "passed" /\ blockers = [] /\
       exists expected, expected_of manifest = Ok expected /\ present s1.1 ++ map fst new ≡ₚ map fst expected /\
         Forall (λ k, is_str k = true) (map fst expected)).
Proof.
  unfold execution. intros E. apply M_bind_Ok in E as (r & s1 & E1 & E). apply catch_Ok in E1 as [E1|(e & s2 & k & E1 & Hk & E2)].
  - apply M_bind_Ok in E1 as (u & s2 & E1 & E2). apply ret_Ok in E2 as [<- ->].
    destruct (adopt_made _ _ _ _ _ _ _ _ E1) as (new & M & expected & He & P & S). apply success_written in E as (-> & w2 & Ew & Ef & El).
    exists new, s2, "passed", [], w2. do 4 (split; [done|]). right. do 3 (split; [done|]). by exists expected.
  - unfold on_any in Hk. destruct (is_exception e); [|done]. injection Hk as <-. apply ret_Ok in E2 as [<- ->].
    unfold mbind, M_bind in E1. destruct (adopt a (i_sha i) env manifest (nothing, w)) as [[u|e'] s3] eqn:E3; [done|].
    injection E1 as <- <-. destruct (adopt_made _ _ _ _ _ _ _ _ E3) as (new & M).
    apply fail_written in E as (-> & w2 & Ew & Ef & El).
    exists new, s3, "failed", [redact (exn_str e')], w2. do 4 (split; [done|]). by left.
Qed.

(** *** The program *)

Section Program.
Context (a : args).

(** The inputs as the run has read them, all in the same world *)
Record inputs_read (w : world) (i : inputs) (manifest : val) : Prop := {
  ir_manifest : load_manifest a (i_sha i) w = (Ok manifest, w);
  ir_digests : sha (a_manifest a) w = (Ok (manifest_sha i), w) /\ sha (a_var_file a) w = (Ok (var_sha i), w)
}.
Lemma ro_load_adoption s : Pres eq (load_manifest a s).
Proof. unfold load_manifest, validate. solve_pres. Qed.
Lemma ro_regular_input p l : Pres eq (regular p l).
Proof. unfold regular. solve_pres. Qed.
Lemma git_quiet argv : Pres (starts_only (λ p, is_import p = false)) (PreApply.git argv).
Proof.
  intros w. unfold PreApply.git, mbind at 1, M_bind at 1, gets.
  set (p := Proc ("git" :: argv) None (environ w) (Some PreApply.ROOT)).
  assert (Pres (starts_only (λ p, is_import p = false)) (r ← run_completed p; let '(code, o, _) := r in
    if code =? 0 then mret (Str.strip o) else throw CalledProcessError (CiProvenance.called_text ("git" :: argv) code))) as Hp.
  { apply pres_bind; [apply _|by apply so_run_completed|solve_pres]. }
  apply (Hp w).
Qed.
(** An execution from its first question to git on: the inputs are read in the world [w1], and the commands
    have the environment [env]. *)
Definition started (w w1 : world) (i : inputs) (manifest : val) (env : list (string * string)) : Prop :=
  exists w0 output, PreApply.git ["status"; "--porcelain"; "--untracked-files=all"] w = (Ok "", w0) /\
    PreApply.git ["rev-parse"; "HEAD"] w0 = (Ok (i_sha i), w1) /\ inputs_read w1 i manifest /\
    3 <= Str.len (Str.strip (approval_reference a)) /\ missing_variable (environ w1) = None /\
    resolve (a_output a) w1 = (Ok output, w1) /\ env = command_env output (environ w1).
Lemma started_quiet w w1 i manifest env : started w w1 i manifest env -> starts_only (λ p, is_import p = false) w w1.
Proof.
  intros (w0 & output & E1 & E2 & _).
  etransitivity; [exact (pres_run _ _ _ _ _ (git_quiet _) E1)|exact (pres_run _ _ _ _ _ (git_quiet _) E2)].
Qed.
Lemma main_executes w c w' : execute a = true -> main a w = (Ok c, w') ->
  exists i manifest env w1 s', started w w1 i manifest env /\ execution a i env manifest (nothing, w1) = (Ok c, (s', w')).
Proof.
  intros Hx E. unfold main in E. rewrite Hx in E. cbn [negb] in E.
  apply M_bind_Ok in E as (u & w1 & E1 & E). pose proof (pres_eq_run _ _ _ _ (ro_regular_input _ _) E1) as ->.
  apply M_bind_Ok in E as (u2 & w1 & E2 & E). pose proof (pres_eq_run _ _ _ _ (ro_regular_input _ _) E2) as ->.
  apply M_bind_Ok in E as (st & w1 & E3 & E). destruct (String.eqb_spec st "") as [->|]; [|done]. cbn [negb] in E. cbv iota in E.
  apply M_bind_Ok in E as (git_sha & w2 & E4 & E).
  apply M_bind_Ok in E as (manifest & w3 & E5 & E). pose proof (pres_eq_run _ _ _ _ (ro_load_adoption _) E5) as ->.
  apply M_bind_Ok in E as (ms & w3 & E6 & E). unfold sha in E6. same_world E6.
  apply M_bind_Ok in E as (vs & w3 & E7 & E). unfold sha in E7. same_world E7.
  destruct (_ <? 3) eqn:El; [done|]. apply Z.ltb_ge in El.
  apply M_bind_Ok in E as (env & w3 & E8 & E). injection E8 as <- <-.
  destruct (missing_variable (environ w2)) eqn:Em; [done|]. apply M_bind_Ok in E as (output & w3 & E9 & E). same_world E9.
  apply with_locals_Ok in E as [s' E]. exists (Inputs git_sha ms vs), manifest, (command_env output (environ w2)), w2, s'. split; [|exact E].
  exists w1, output. by repeat (split; [done|]).
Qed.

(** C23: However an execution of the adoption ends with a document, passed (exit code 0) or failed (4),
    the document tells what was done to the state. The addresses it lists as imported are those of the first
    entries, in order, of the ones the state did not hold: the import command of each ran, in the world the one before
    it left, and exited with 0; the mutation flag says whether there is one. When the execution passed these are all
    the entries; when it failed, at most one other import was started, the next one, and it did not exit with 0. No
    process before them is an import. *)
Theorem adoption_recorded w c w' : execute a = true -> main a w = (Ok c, w') ->
  exists i manifest env new rest document w1 w2 w3 w4,
    started w w1 i manifest env /\ starts_only (λ p, is_import p = false) w (read_state env w1).2 /\
    plan env manifest w1 = new ++ rest /\ imports a (i_sha i) env new (read_state env w1).2 w2 /\
    (c = 4 /\ stopped a (i_sha i) env rest w2 w3 /\ getitem document "status" = Ok (VStr "failed") \/
     c = 0 /\ rest = [] /\ w3 = w2 /\ getitem document "status" = Ok (VStr "passed")) /\
    getitem document "imported_addresses" = Ok (VList (map fst new)) /\
    getitem document "state_mutation_performed" = Ok (VBool (negb (bool_decide (new = [])))) /\
    write_result (a_output a) document w3 = (Ok tt, w4) /\ fs w' = fs w4 /\ log w' = log w3.
Proof.
  intros Hx E. destruct (main_executes _ _ _ Hx E) as (i & manifest & env & w1 & s' & Hs & Ee).
  destruct (execution_Ok _ _ _ _ _ _ _ Ee) as (new & s1 & status & blockers & w4 & [A X (rest & w2 & P & I & F)] & Ew & Ef & El & Hc).
  cbn [fst snd imported mutated nothing app orb] in A, X, I.
  exists i, manifest, env, new, rest, (result_of a i status s1.1 blockers), w1, w2, s1.2, w4.
  split; [done|]. split; [etransitivity; [by eapply started_quiet|apply reads_state]|]. do 2 (split; [done|]).
  split; [|split; [simpl; by rewrite A|split; [simpl; by rewrite X|done]]].
  destruct Hc as [[-> ->]|(-> & -> & -> & _)]; [by left|right]. by destruct F as [-> ->].
Qed.
End Program.
End Facts.

(** *** The addresses of a passed execution *)

Lemma set_key_keys k x d v : v ∈ map fst (set_key k x d) -> v ∈ map fst d \/ v = k.
Proof.
  induction d as [|[k' y] d IH]; simpl; [intros ->%list_elem_of_singleton; by right|].
  destruct (py_eq k' k); simpl; [by left|]. intros [->|Hv]%elem_of_cons; [left; by left|].
  destruct (IH Hv) as [| ->]; [left; by right|by right].
Qed.
Lemma set_key_has k x d : exists k', k' ∈ map fst (set_key k x d) /\ (k' = k \/ py_eq k' k = true).
Proof.
  induction d as [|[k' y] d IH]; simpl; [exists k; split; [by left|by left]|].
  destruct (py_eq k' k) eqn:E; simpl; [exists k'; split; [by left|by right]|].
  destruct IH as (q & Hq & Hk). exists q. split; [by right|done].
Qed.
Lemma set_key_keeps k x d v : v ∈ map fst d -> v ∈ map fst (set_key k x d).
Proof.
  induction d as [|[k' y] d IH]; simpl; [by intros ?%not_elem_of_nil|]. destruct (py_eq k' k); simpl; [done|].
  intros [->|Hv]%elem_of_cons; [by left|right; by apply IH].
Qed.
(** The keys of the expected entries are the addresses of the items, up to equality of values. *)
Lemma expected_keys l : forall d0 d, rfold add_expected d0 l = Ok d -> exists addresses,
  rmap (λ item, getitem item "address") l = Ok addresses /\ (exists us, rmap check_hash addresses = Ok us) /\
  (forall v, v ∈ map fst d -> v ∈ map fst d0 \/ v ∈ addresses) /\ (forall v, v ∈ map fst d0 -> v ∈ map fst d) /\
  (forall v, v ∈ addresses -> exists k, k ∈ map fst d /\ (k = v \/ py_eq k v = true)).
Proof.
  induction l as [|item l IH]; intros d0 d E; simpl in E.
  - injection E as <-. exists []. split; [done|]. split; [by eexists|]. split; [by left|]. split; [done|by intros v ?%not_elem_of_nil].
  - apply bind_Ok in E as (d1 & E1 & E). destruct (IH _ _ E) as (ads & Ea & (us & Eu) & H1 & H2 & H3).
    unfold add_expected in E1. apply bind_Ok in E1 as (k & Ek & E1). apply bind_Ok in E1 as (x & _ & E1).
    apply bind_Ok in E1 as (u & Eh & E1). injection E1 as <-. exists (k :: ads). split; [simpl; by rewrite Ek, Ea|].
    split; [exists (u :: us); simpl; by rewrite Eh, Eu|]. split; [|split].
    + intros v Hv. destruct (H1 v Hv) as [Hv'|Hv']; [|right; by right].
      destruct (set_key_keys _ _ _ _ Hv') as [| ->]; [by left|right; by left].
    + intros v Hv. by apply H2, set_key_keeps.
    + intros v [->|Hv]%elem_of_cons; [|by apply H3]. destruct (set_key_has k x d0) as (q & Hq & Hk). exists q. split; [by apply H2|done].
Qed.
(** String keys: the manifest's addresses are these strings. *)
Lemma expected_addresses manifest expected : expected_of manifest = Ok expected -> Forall (λ k, is_str k = true) (map fst expected) ->
  exists addresses, PreApply.import_addresses manifest = Ok addresses /\ forall v, v ∈ addresses <-> v ∈ map fst expected.
Proof.
  unfold expected_of, PreApply.import_addresses. intros E Hs. apply bind_Ok in E as (x & Ex & E). apply bind_Ok in E as (l & El & E).
  destruct (expected_keys _ _ _ E) as (ads & Ea & (us & Eu) & H1 & _ & H3). rewrite Ex. cbn [mbind res_bind]. rewrite El.
  cbn [mbind res_bind]. rewrite Ea. cbn [mbind res_bind]. unfold Readiness.py_set. rewrite Eu. cbn [mbind res_bind].
  eexists. split; [reflexivity|]. rewrite Forall_forall in Hs.
  assert (forall v, v ∈ ads -> v ∈ map fst expected) as Hin.
  { intros v Hv. destruct (H3 v Hv) as (k & Hk & [->|Heq]); [done|]. pose proof (Hs k Hk) as Hk'.
    destruct k; try done. apply py_eq_str_l in Heq as ->. done. }
  intros v. split.
  - intros Hv%dedup_by_In. by apply Hin.
  - intros Hv. destruct (H1 v Hv) as [Hv'|Hv']; [by apply not_elem_of_nil in Hv'|].
    destruct (dedup_by_covers (λ x y, py_eq y x) ads [] v Hv') as [?|(y & [Hy|Hy] & Heq)]; [done| |by apply not_elem_of_nil in Hy].
    pose proof (Hs v Hv) as Hv''. destruct v; try done. by apply py_eq_str_r in Heq as ->.
Qed.
Lemma string_list l : Forall (λ k, is_str k = true) l -> exists t, l = strings t.
Proof.
  induction 1 as [|k l Hk _ [t ->]]; [by exists []|]. destruct k; try done. by exists (s :: t).
Qed.
Lemma same_strings x y : (forall v, v ∈ x -> is_str v = true) -> (forall v, v ∈ x <-> v ∈ y) -> PreApply.same_set x y = true.
Proof.
  intros Hs He. unfold PreApply.same_set. apply andb_true_iff. rewrite !forallb_forall. split; intros v Hv%list_elem_of_In.
  - pose proof (Hs v Hv) as Hk. destruct v; try done. by apply PreApplyFacts.py_in_str, He.
  - apply He in Hv. pose proof (Hs v Hv) as Hk. destruct v; try done. by apply PreApplyFacts.py_in_str.
Qed.

Section Accepted.
Context `{Platform} (a : args).

Lemma adopted_all i p (new : list (val * val)) expected : execute a = true -> expected = present p ++ map fst new -> imported p = map fst new ->
  Forall (λ k, is_str k = true) expected -> exists addresses, PreApply.adopted_addresses (result_of a i "passed" p []) = Ok addresses /\
    forall v, v ∈ addresses <-> v ∈ expected.
Proof.
  intros Hx -> Hi [Hp Hn]%Forall_app. rewrite <-Hi in Hn. destruct (string_list _ Hp) as [tp Ep], (string_list _ Hn) as [tn En].
  destruct (LiveAdoptionFacts.set_strings tn) as (dn & Edn & Hdn), (LiveAdoptionFacts.set_strings tp) as (dp & Edp & Hdp).
  exists (dn ++ dp). split.
  - unfold PreApply.adopted_addresses, result_of, PreApply.set_of. simpl. rewrite En, Ep, Edn. simpl. by rewrite Edp.
  - intros v. rewrite <-Hi, En, Ep, !elem_of_app, Hdn, Hdp. unfold strings. rewrite !list_elem_of_In, !in_map_iff.
    setoid_rewrite list_elem_of_In. firstorder (subst; eauto).
Qed.

Lemma get_ne_same d k s : dget d k = Ok (VStr s) -> get_ne d k (VStr s) = Ok false.
Proof. intros E. unfold get_ne. rewrite E. cbn [mbind res_bind]. unfold py_ne. by rewrite (proj2 (py_eq_str_r (VStr s) s) eq_refl). Qed.
(** What a passed result says *)
Lemma result_says i p : execute a = true -> let d := result_of a i "passed" p [] in
  (get_ne d "git_sha" (VStr (i_sha i)) = Ok false /\ get_ne d "capacity_profile" (VStr "e5-temporary") = Ok false) /\
  (get_ne d "manifest_sha256" (VStr (manifest_sha i)) = Ok false /\ get_ne d "var_file_sha256" (VStr (var_sha i)) = Ok false) /\
  (get_ne d "operation" (VStr "execute") = Ok false /\ get_ne d "status" (VStr "passed") = Ok false) /\
  dget d "blockers" = Ok (VStrs []) /\ dget d "state_mutation_performed" = Ok (VBool (mutated p)) /\
  dget d "oci_mutation_performed" = Ok (VBool false).
Proof. intros Hx d. unfold d, result_of. rewrite Hx. repeat split; by apply get_ne_same. Qed.
Lemma verdict_passed i p addresses adopted : execute a = true ->
  PreApply.adopted_addresses (result_of a i "passed" p []) = Ok adopted -> PreApply.same_set adopted addresses = true ->
  exists verdict, PreApply.result_verdict (result_of a i "passed" p []) (i_sha i) (Some (manifest_sha i)) (Some (var_sha i)) (Some addresses) =
    Ok verdict /\ PreApply.status_of verdict = VStr "passed".
Proof.
  intros Hx Ha Hs. destruct (result_says i p Hx) as ((A1 & A2) & (B1 & B2) & (C1 & C2) & D1 & D2 & D3).
  unfold PreApply.result_verdict. rewrite A1, A2. cbn [ror mbind res_bind]. rewrite B1, B2, Ha. cbn [ror mbind res_bind]. rewrite Hs.
  cbn [negb rany mbind res_bind id]. rewrite C1, C2, D1, D2, D3. eexists. split; reflexivity.
Qed.
Lemma result_tests_hold i p : execute a = true -> Tests.hold (AdoptionResult.result_tests (result_of a i "passed" p []) (i_sha i)).
Proof.
  intros Hx. destruct (result_says i p Hx) as ((A1 & A2) & _ & (C1 & C2) & D1 & D2 & D3). unfold Tests.hold, AdoptionResult.result_tests.
  repeat constructor; cbn [fst rany id]; by rewrite ?A1, ?A2, ?C1, ?C2, ?D1, ?D2, ?D3.
Qed.

(** C24: An execution that passed (exit code 0) has written a result that the readiness of an apply and the
    validator of the plan accept for the commit, the manifest and the variables it was run on: it
    covers exactly the addresses of the manifest's imports, each of them imported now or found in
    the state under an identifier that matches. *)
Theorem adoption_accepted w w' : execute a = true -> main a w = (Ok 0, w') ->
  exists i manifest addresses document w1 w2 w3 verdict,
    inputs_read a w1 i manifest /\ PreApply.import_addresses manifest = Ok addresses /\
    write_result (a_output a) document w2 = (Ok tt, w3) /\ fs w' = fs w3 /\
    PreApply.result_verdict document (i_sha i) (Some (manifest_sha i)) (Some (var_sha i)) (Some addresses) = Ok verdict /\
    PreApply.status_of verdict = VStr "passed" /\ Tests.hold (AdoptionResult.result_tests document (i_sha i)).
Proof.
  intros Hx E. destruct (main_executes _ _ _ _ Hx E) as (i & manifest & env & w1 & s' & (w0 & output & _ & _ & Hi & _) & Ee).
  destruct (execution_Ok _ _ _ _ _ _ _ Ee) as (new & s1 & status & blockers & w3 & M & Ew & Ef & _ & Hc).
  destruct Hc as [[Hc _]|(_ & -> & -> & expected & He & Hp & Hs)]; [done|].
  destruct (expected_addresses _ _ He Hs) as (addresses & Ea & Ha).
  assert (Forall (λ k, is_str k = true) (present s1.1 ++ map fst new)) as Hs' by (by rewrite Hp).
  destruct (adopted_all i s1.1 new _ Hx eq_refl (im_addresses _ _ _ _ _ _ _ _ M) Hs') as (adopted & Ead & Had).
  assert (PreApply.same_set adopted addresses = true) as Hsame.
  { apply same_strings.
    - intros v Hv%Had. rewrite Forall_forall in Hs'. by apply Hs'.
    - intros v. by rewrite Had, Ha, Hp. }
  destruct (verdict_passed i s1.1 _ _ Hx Ead Hsame) as (verdict & Hv & Hst).
  exists i, manifest, addresses, (result_of a i "passed" s1.1 []), w1, s1.2, w3, verdict.
  do 6 (split; [done|]). by apply result_tests_hold.
Qed.
End Accepted.
End AdoptStateFacts.

(** ** A concrete adoption *)

Module AdoptStateRun.
Import Fixture Evidence PlanV1 AdoptState AdoptStateFacts.

Definition commit : string := "0123456789abcdef0123456789abcdef01234567".
Definition vcn : string := "module.v1_live.oci_core_vcn.main".
Definition rule : string := dq "module.v1_live.oci_core_network_security_group_security_rule.web_egress['80']".
Definition manifest : val := VDict [("git_sha", VStr commit); ("capacity_profile", VStr "e5-temporary"); ("status", VStr "passed");
  ("blockers", VList []); ("imports", VList [rec [("address", vcn); ("id", "ocid1.vcn.oc1..a")];
    rec [("address", rule); ("id", "networkSecurityGroups/n-1/securityRules/r-80")]])].
(** The state holds the network already. *)
Definition state : val := VDict [("resources", VList [VDict [("module", VStr "module.v1_live"); ("type", VStr "oci_core_vcn");
  ("name", VStr "main"); ("instances", VList [VDict [("attributes", rec [("id", "ocid1.vcn.oc1..a")])]])]])].
Definition tools (imports : proc_out) (_ : list proc) (p : proc) (f : filesystem) : proc_out * filesystem * Z :=
  (match argv p with
   | "git" :: w :: _ => Exited 0 (if String.eqb w "rev-parse" then commit else "") ""
   | ["tofu"; "state"; "pull"] => Exited 0 (json state) ""
   | "tofu" :: "import" :: _ => imports
   | _ => Exited 0 "" ""
   end, f, 1000).
Definition w0 : world :=
  let w := world_with [("/in/adoption.json", json manifest); ("/in/live.tfvars", "x"); ("/out/.keep", "");
    ("/repo/contracts/infrastructure/adoption-manifest-v1.schema.json", "{}");
    ("/repo/contracts/infrastructure/adoption-result-v1.schema.json", "{}")] in
  World (fs w) (cwd w) [("TF_ENCRYPTION", "key"); ("PG_CONN_STR", "host=db sslmode=verify-full"); ("PG_SCHEMA_NAME", "opentofu_v1_live");
    ("PG_SKIP_SCHEMA_CREATION", "true"); ("PG_SKIP_TABLE_CREATION", "true"); ("PG_SKIP_INDEX_CREATION", "true")] 0 0 [] [] [].
Definition the_args : args := Args (Path.of_str "/in/adoption.json") (Path.of_str "/in/live.tfvars") (Path.of_str "/out/result.json") "CHG-7" true.
Definition works : Platform := host_with (tools (Exited 0 "" "")).
(** The import takes longer than its five minutes. *)
Definition slow : Platform := host_with (tools (Expired None)).

Lemma adoption_accepted_witness : let host := works in let w' := (main (H := host) the_args w0).2 in
  execute the_args = true /\ exists i manifest addresses document w1 w2 w3 verdict,
    inputs_read (H := host) the_args w1 i manifest /\ PreApply.import_addresses manifest = Ok addresses /\
    write_result (H := host) (a_output the_args) document w2 = (Ok tt, w3) /\ fs w' = fs w3 /\
    PreApply.result_verdict document (i_sha i) (Some (manifest_sha i)) (Some (var_sha i)) (Some addresses) = Ok verdict /\
    PreApply.status_of verdict = VStr "passed" /\ Tests.hold (AdoptionResult.result_tests document (i_sha i)).
Proof.
  intros host w'. split; [reflexivity|]. apply (adoption_accepted (H := host) the_args w0 w'); [reflexivity|].
  assert ((main (H := host) the_args w0).1 = Ok 0) as E by (vm_compute; reflexivity).
  unfold w'. destruct (main (H := host) the_args w0) as [r x]. cbn [fst snd] in E |- *. by rewrite E.
Defined.
Lemma adoption_recorded_witness : let host := slow in let w' := (main (H := host) the_args w0).2 in
  execute the_args = true /\ exists i manifest env new rest document w1 w2 w3 w4,
    started (H := host) the_args w0 w1 i manifest env /\ starts_only (λ p, is_import p = false) w0 (read_state (H := host) env w1).2 /\
    plan (H := host) env manifest w1 = new ++ rest /\
    imports (H := host) the_args (i_sha i) env new (read_state (H := host) env w1).2 w2 /\
    (4 = 4 /\ stopped (H := host) the_args (i_sha i) env rest w2 w3 /\ getitem document "status" = Ok (VStr "failed") \/
     4 = 0 /\ rest = [] /\ w3 = w2 /\ getitem document "status" = Ok (VStr "passed")) /\
    getitem document "imported_addresses" = Ok (VList (map fst new)) /\
    getitem document "state_mutation_performed" = Ok (VBool (negb (bool_decide (new = [])))) /\
    write_result (H := host) (a_output the_args) document w3 = (Ok tt, w4) /\ fs w' = fs w4 /\ log w' = log w3.
Proof.
  intros host w'. split; [reflexivity|]. apply (adoption_recorded (H := host) the_args w0 4 w'); [reflexivity|].
  assert ((main (H := host) the_args w0).1 = Ok 4) as E by (vm_compute; reflexivity).
  unfold w'. destruct (main (H := host) the_args w0) as [r x]. cbn [fst snd] in E |- *. by rewrite E.
Defined.

Definition result (host : Platform) : option val :=
  match stat (main (H := host) the_args w0).2 (a_output the_args) with Some (NFile d _) => Json.loads d | _ => None end.
(** The network is left alone and the rule is imported by its identifier. *)
Example rule_imported : option_map (λ d, (getitem d "imported_addresses", getitem d "already_present_addresses")) (result works) =
    Some (Ok (VStrs [rule]), Ok (VStrs [vcn])) /\
  map (λ p, skipn 6 (argv p)) (List.filter is_import (log (main (H := works) the_args w0).2)) =
    [[rule; "networkSecurityGroups/n-1/securityRules/r-80"]].
Proof. vm_compute. auto. Qed.
(** An import that was started and timed out leaves no trace in the result: the state is said to be untouched. *)
Example slow_import : option_map (λ d, (getitem d "imported_addresses", getitem d "state_mutation_performed")) (result slow) =
    Some (Ok (VStrs []), Ok (VBool false)) /\ existsb is_import (log (main (H := slow) the_args w0).2) = true.
Proof. vm_compute. auto. Qed.
Example identifiers_redacted : redact "no ocid1.vcn.oc1..a-b_c: and ocid1. or ocid1.x" = "no <oci-id-redacted>: and ocid1. or <oci-id-redacted>".
Proof. vm_compute. reflexivity. Qed.
End AdoptStateRun.
