(* ===== verification/ReadyFacts.v ===== *)
(** * The readiness of an apply and its validator

    A readiness that is published as passed is accepted by the validator the plan
    runs, as long as the input files are the ones it was made from. *)

From Stdlib Require Import Ascii.
From S2P Require Import Prelude PyFloat PyMonad PyValue PyTime PyJson Sha256 PyOs PyConfig PyNet OsFacts FsFacts Fixture.
From S2P Require Import ReadinessCommon GenerateSpec CiProvenance PlanV1 BuildResult BuildResultFacts LiveAdoption PreApply PreApplyFacts ValidateAdoption ValidateReady.

Module ReadyFacts.
Import Evidence PlanV1 PreApply PreApplyFacts.

(** *** What a statement answers, whenever it answers *)

Definition Yields {S A} (P : A -> Prop) (m : M S A) : Prop := forall s x s', m s = (Ok x, s') -> P x.
Lemma yields_ret {S A} (P : A -> Prop) x : P x -> Yields P (mret (M:=M S) x).
Proof. intros Hx s y s' [= <- _]. exact Hx. Qed.
Lemma yields_bind {S A B} (P : B -> Prop) (m : M S A) (f : A -> M S B) : (forall x, Yields P (f x)) -> Yields P (m ≫= f).
Proof. intros Hf s y s' E. apply M_bind_Ok in E as (x & s1 & _ & E). by eapply Hf. Qed.
Lemma yields_lift_bind {S A B} (P : B -> Prop) (m : res A) (f : A -> M S B) : (forall x, m = Ok x -> Yields P (f x)) -> Yields P (lift m ≫= f).
Proof. intros Hf s y s' E. apply M_bind_Ok in E as (x & s1 & E1 & E). apply lift_Ok in E1 as [E1 ->]. by eapply Hf. Qed.

(** A check of that name, with one of the three verdicts *)
Definition shaped (name : string) (c : val) : Prop :=
  exists status detail, c = check name status detail /\ status ∈ ["passed"; "blocked"; "failed"].
Lemma shaped_check name status detail : status ∈ ["passed"; "blocked"; "failed"] -> shaped name (check name status detail).
Proof. intros Hs. by exists status, detail. Qed.
Lemma shaped_clear name c : shaped name c -> clear c -> exists detail, c = check name "passed" detail.
Proof.
  intros (st & d & -> & Hs) Hc. apply elem_of_cons in Hs as [->|Hs]; [by exists d|].
  apply elem_of_cons in Hs as [->|Hs]; [by destruct (not_blocked _ _ Hc)|].
  apply list_elem_of_singleton in Hs as ->. by destruct (not_failed _ _ Hc).
Qed.
Ltac verdict := apply shaped_check, list_elem_of_In; simpl; tauto.
Lemma verdict_shaped d c : adoption_verdict d = Ok c -> shaped "oci-adoption-handoff" c.
Proof.
  unfold adoption_verdict. intros E. do 4 (apply bind_Ok in E as (? & _ & E)). destruct x2.
  - do 3 (apply bind_Ok in E as (? & _ & E)). injection E as <-. verdict.
  - injection E as <-. verdict.
Qed.
Lemma result_shaped d g a v e c : result_verdict d g a v e = Ok c -> shaped "state-adoption" c.
Proof.
  unfold result_verdict. intros E. apply bind_Ok in E as (o & _ & E). destruct o; [injection E as <-; verdict|].
  destruct a, v, e; try (injection E as <-; verdict). apply bind_Ok in E as (u & _ & E). destruct u; [injection E as <-; verdict|].
  apply bind_Ok in E as (ads & _ & E). destruct (negb _); [injection E as <-; verdict|].
  apply bind_Ok in E as (op & _ & E). injection E as <-. destruct op; verdict.
Qed.

Ltac yield := repeat match goal with
  | |- forall _, _ => intros ?
  | |- Yields _ (mret _) => apply yields_ret; cbn [fst snd]
  | |- Yields _ (mbind _ (lift _)) => apply yields_lift_bind
  | |- Yields _ (mbind _ _) => apply yields_bind
  | |- Yields _ (if ?b then _ else _) => destruct b
  | |- Yields _ (match ?x with _ => _ end) => destruct x
  | |- shaped _ (if ?b then _ else _) => destruct b
  | |- shaped _ (match ?x with _ => _ end) => destruct x
  | |- shaped _ (check _ _ _) => verdict
  | |- shaped _ _ => first [by eapply verdict_shaped | by eapply result_shaped]
  end.


Section Shapes.
Context `{Platform}.
Abbreviation Shaped n m := (Yields (λ x, shaped n x.1) m).

Lemma adoption_shaped p s : Shaped "oci-adoption-handoff" (adoption_check p s).
Proof. unfold adoption_check. yield. Qed.
Lemma backend_shaped p s : Shaped "state-backend" (state_backend_check p s).
Proof. unfold state_backend_check. yield. Qed.
Lemma tfvars_shaped p s n : Shaped "protected-tfvars" (tfvars_check p s n).
Proof. unfold tfvars_check, tfvars_place, tfvars_content, tfvars_failed. yield. Qed.
Lemma executed_shaped p s a v e : Shaped "state-adoption" (adoption_result_check p s a v e).
Proof. unfold adoption_result_check. yield. Qed.
Lemma publication_shaped p r n s : Shaped "signed-x86-release" (publication_check p r n s).
Proof. unfold publication_check, run_verifier, publication_failed. yield. Qed.
Lemma recovery_shaped p b d s v : Yields (shaped "recovery-target") (recovery_check p b d s v).
Proof. unfold recovery_check, recovery_verdict, recovery_failed. yield. Qed.
Lemma environment_shaped : Yields (shaped "protected-environment") environment_check.
Proof. unfold environment_check. yield. Qed.

(** *** The checks of a passed readiness *)

Lemma run_checks_shaped a sha now w c w' : run_checks a sha now w = (Ok c, w') ->
  Forall2 shaped ReadyResult.CHECKS (ordered c).
Proof.
  unfold run_checks. intros E. apply M_bind_Ok in E as ([c1 d1] & w1 & E1 & E). apply M_bind_Ok in E as ([c2 d2] & w2 & E2 & E).
  apply M_bind_Ok in E as ([c3 h3] & w3 & E3 & E). apply M_bind_Ok in E as (ash & w4 & _ & E).
  apply M_bind_Ok in E as (ex & w5 & _ & E). apply M_bind_Ok in E as ([c6 d6] & w6 & E6 & E).
  apply M_bind_Ok in E as ([c7 d7] & w7 & E7 & E). apply M_bind_Ok in E as (c8 & w8 & E8 & E).
  apply M_bind_Ok in E as (c9 & w9 & E9 & E). apply ret_Ok in E as [<- ->]. unfold ordered, ReadyResult.CHECKS. cbn.
  apply adoption_shaped in E1. apply backend_shaped in E2. apply tfvars_shaped in E3. apply executed_shaped in E6.
  apply publication_shaped in E7. apply recovery_shaped in E8. apply environment_shaped in E9. by repeat constructor.
Qed.
(** All clear: the list of the passed checks, each under its name *)
Lemma all_passed a sha now w c w' : run_checks a sha now w = (Ok c, w') -> Forall clear (ordered c) ->
  exists details, length details = 7%nat /\ ordered c = zip_with (λ n d, check n "passed" d) ReadyResult.CHECKS details.
Proof.
  intros E Hc. apply run_checks_shaped in E. revert E Hc. unfold ReadyResult.CHECKS. generalize (ordered c). intros l E.
  repeat match goal with H : Forall2 _ (_ :: _) _ |- _ => inversion H; clear H; subst end.
  match goal with H : Forall2 _ [] _ |- _ => inversion H; clear H; subst end.
  rewrite !Forall_cons. intros (K1 & K2 & K3 & K4 & K5 & K6 & K7 & _).
  repeat match goal with H : shaped _ ?y, K : clear ?y |- _ => destruct (shaped_clear _ _ H K) as [? ->]; clear H K end.
  eexists [_; _; _; _; _; _; _]. split; reflexivity.
Qed.

Lemma get_ne_says d k s : dget d k = Ok (VStr s) -> get_ne d k (VStr s) = Ok false.
Proof. intros E. unfold get_ne. rewrite E. cbn [mbind res_bind]. unfold py_ne. by rewrite (proj2 (py_eq_str_r (VStr s) s) eq_refl). Qed.
Lemma passed_names details : length details = 7%nat -> let l := zip_with (λ n d, check n "passed" d) ReadyResult.CHECKS details in
  (names ← rmap (λ c, dget c "name") l; set_ne names (strings ReadyResult.CHECKS)) = Ok false /\
  rany (λ c, get_ne c "status" (VStr "passed")) l = Ok false /\ overall l = "passed" /\ open_checks l = [].
Proof. do 8 (destruct details as [|? details]; try done). Qed.
(** The tests of the validator on a document of passed checks *)
Lemma document_accepted a sha t c details ss rs bs es : ordered c = zip_with (λ n d, check n "passed" d) ReadyResult.CHECKS details ->
  length details = 7%nat -> Tests.hold (ReadyResult.document_tests (document_of a sha t c ss rs bs es) sha).
Proof.
  intros Ho Hl. destruct (passed_names details Hl) as (N1 & N2 & N3 & N4). unfold Tests.hold, ReadyResult.document_tests, document_of.
  rewrite Ho, N3, N4. generalize dependent (zip_with (λ n d, check n "passed" d) ReadyResult.CHECKS details). intros l Ho N1 N2 N3 N4.
  repeat constructor; cbn [fst rany id].
  - rewrite (get_ne_says _ "git_sha" sha) by done. by rewrite (get_ne_says _ "capacity_profile" "e5-temporary").
  - match goal with |- context [dget_or ?d "checks" ?x] => change (dget_or d "checks" x) with (Ok (VList l) : res val) end.
    cbn [mbind res_bind py_iter] in N1 |- *. rewrite N1. cbn iota. cbn [mbind res_bind py_iter]. by rewrite N2.
Qed.

(** *** The input files *)

(** The file at a path is the same one in both worlds. *)
Definition unchanged (w w' : world) (p : path) : Prop := stat w' p = stat w p /\ lstat w' p = lstat w p.
(** A file by its own name *)
Definition plain_file (w : world) (p : path) (d : string) : Prop :=
  (exists m, stat w p = Some (NFile d m)) /\ is_link_node (lstat w p) = false.
Lemma plain_unchanged w w' p d : unchanged w w' p -> plain_file w p d -> plain_file w' p d.
Proof. intros [E1 E2] [Hm Hl]. unfold plain_file. by rewrite E1, E2. Qed.

Lemma stat_own w p k : canon w p = Some k -> stat w (MkPath true k) = stat w p.
Proof. intros Hk. unfold stat. rewrite (canon_own w k) by (by eapply canon_straight). by rewrite Hk. Qed.
Lemma resolved_plain w p d : plain_file w p d -> exists k, canon w p = Some k /\ plain_file w (MkPath true k) d.
Proof.
  intros [[m Hm] _]. destruct (canon w p) as [k|] eqn:Ek; [|by unfold stat in Hm; rewrite Ek in Hm]. exists k. split; [done|].
  pose proof (stat_own w p k Ek) as Es. split; [exists m; by rewrite Es|]. pose proof (canon_straight _ _ _ Ek) as Hs.
  destruct k as [|c k _] using rev_ind; [done|]. pose proof Hs as [Hd [Hc Hl]]%straight_snoc. unfold lstat.
  rewrite locate_own by done. by rewrite node_at_app.
Qed.
Lemma regular_runs w p d l : plain_file w p d -> exists k, ReadyResult.regular p l w = (Ok (MkPath true k), w) /\ plain_file w (MkPath true k) d.
Proof.
  intros Hp. destruct (resolved_plain _ _ _ Hp) as (k & Ek & Hk). exists k. split; [|done]. destruct Hp as [[m Hm] Hl].
  unfold ReadyResult.regular, is_symlink, is_file, gets, mbind, M_bind. rewrite Hl, Hm. cbn. unfold resolve. by rewrite Ek.
Qed.
Lemma digest_runs w p d : plain_file w p d -> ReadyResult.digest p w = (Ok (Sha256.hexdigest d), w).
Proof.
  intros [[m Hm] _]. unfold ReadyResult.digest, sha256_chunked, read_bytes, mbind, M_bind. rewrite Hm. cbv beta iota. unfold mret, M_ret.
  by rewrite Sha256.hexdigest_chunks_eq by lia.
Qed.
Lemma sha256_plain w p h : (exists d, plain_file w p d) -> sha256 p w = (Ok h, w) -> exists d, plain_file w p d /\ h = Sha256.hexdigest d.
Proof.
  intros [d Hp] E. exists d. split; [done|]. pose proof (digest_runs _ _ _ Hp) as E'. unfold sha256 in E. unfold ReadyResult.digest in E'. congruence.
Qed.
Lemma digest_if_plain w p h w' : digest_if_regular (Some p) w = (Ok h, w') -> (exists d, plain_file w p d) ->
  exists d, plain_file w p d /\ h = Some (Sha256.hexdigest d).
Proof.
  intros E [d Hp]. exists d. split; [done|]. unfold digest_if_regular, irregular, is_file, is_symlink, gets in E. destruct Hp as [[m Hm] Hl].
  unfold mbind, M_bind in E. cbn in E. rewrite Hm, Hl in E. cbn in E. unfold sha256 in E.
  pose proof (digest_runs w p d ltac:(split; [by exists m|done])) as E'. unfold ReadyResult.digest in E'. rewrite E' in E. by injection E as <-.
Qed.
Lemma readable_plain w p s v : readable w p s v -> exists d, plain_file w p d.
Proof.
  intros (Hf & Hl & _). destruct (stat w p) as [[d m| |]|] eqn:E; try done. exists d. split; [by exists m|done].
Qed.
Lemma load_runs w w' p q l v s d : readable w p s v -> plain_file w p d -> plain_file w' q d -> ReadyResult.load q l w' = (Ok v, w').
Proof.
  intros (_ & _ & Hv & E & _) [[m Hm] _] Hq. destruct (regular_runs _ _ _ l Hq) as (k & Er & [[m' Hm'] _]).
  unfold ReadyResult.load. rewrite (M_bind_run _ _ _ _ _ Er).
  assert (PyOs.load_json (MkPath true k) w' = (Ok v, w')) as E'.
  { unfold PyOs.load_json, read_text, read_bytes, mbind, M_bind in E |- *. rewrite Hm in E. rewrite Hm'. cbv beta iota in E |- *.
    match type of E with context [if ?b then _ else _] => destruct b end; [|done]. cbn in E |- *. unfold lift in E |- *.
    injection E as ->. done. }
  rewrite (M_bind_run _ _ _ _ _ E'). by rewrite Hv.
Qed.
Lemma load_unchanged w w' p v x : stat w' p = stat w p -> PyOs.load_json p w = (Ok v, x) -> PyOs.load_json p w' = (Ok v, w').
Proof.
  intros Es E. unfold PyOs.load_json, read_text, read_bytes, mbind, M_bind in E |- *. rewrite Es. destruct (stat w p) as [[d m| |]|]; try done.
  cbv beta iota in E |- *. match type of E with context [if ?b then _ else _] => destruct b end; [|done]. cbn in E |- *.
  unfold lift in E |- *. injection E as ->. done.
Qed.
Lemma protected_plain w p k text h : protected w p k text h -> exists d, plain_file w p d /\ h = Sha256.hexdigest d.
Proof.
  intros [[Hl Hk] _ _ [Ht _] Hs]. pose proof (stat_own w p k Hk) as Es. unfold read_text, read_bytes, mbind, M_bind in Ht. rewrite Es in Ht.
  destruct (stat w p) as [[d m| |]|] eqn:E; try done. exists d. assert (plain_file w p d) as Hp by (split; [by exists m|done]). split; [done|].
  destruct (resolved_plain _ _ _ Hp) as (k' & Hk' & Hp'). rewrite Hk in Hk'. injection Hk' as <-.
  pose proof (digest_runs _ _ _ Hp') as E'. unfold sha256 in Hs. unfold ReadyResult.digest in E'. congruence.
Qed.
Lemma refuse_none l (w : world) : Tests.hold l -> Tests.refuse_first l w = (Ok tt, w).
Proof.
  unfold Tests.refuse_first. induction 1 as [|t l Ht _ IH]; [done|]. cbn [mfor]. unfold BuildResult.refuse_any.
  unfold mbind at 1, M_bind at 1. unfold mbind, M_bind, lift. rewrite Ht. exact IH.
Qed.
Lemma same_digest (inputs : val) k h : dget inputs k = Ok (VStr h) -> rany id (ReadyResult.input_test inputs (k, VStr h)).1 = Ok false.
Proof. intros E. unfold ReadyResult.input_test. cbn. by rewrite (get_ne_says _ _ _ E). Qed.

Lemma plain_same w p d d' : plain_file w p d -> plain_file w p d' -> d = d'.
Proof. intros [[m Hm] _] [[m' Hm'] _]. congruence. Qed.

(** *** The validator, on unchanged files *)

Lemma validate_document_runs output document sha w w5 x : publish output document w = (Ok tt, w5) ->
  stat x ReadyResult.SCHEMA = stat w ReadyResult.SCHEMA -> Tests.hold (ReadyResult.document_tests document sha) ->
  ReadyResult.validate_document document sha x = (Ok tt, x).
Proof.
  unfold publish, ReadyResult.validate_document. intros E Es Hd. apply M_bind_Ok in E as (schema & w1 & E1 & E).
  rewrite (M_bind_run _ _ _ _ _ (load_unchanged _ _ _ _ _ Es E1)). apply M_bind_Ok in E as (u & w2 & E2 & _).
  destruct (schema_errors schema document); [by apply refuse_none|done].
Qed.
Lemma validate_result_runs document sha b r v x rv inputs db dr dv mh : ReadyResult.validate_document document sha x = (Ok tt, x) ->
  plain_file x b db -> plain_file x r dr -> plain_file x v dv -> (forall q l, plain_file x q dr -> ReadyResult.load q l x = (Ok rv, x)) ->
  dget rv "manifest_sha256" = Ok (VStr mh) -> dget_or document "inputs" (VDict []) = Ok inputs ->
  dget inputs "adoption_manifest_sha256" = Ok (VStr mh) -> dget inputs "state_backend_evidence_sha256" = Ok (VStr (Sha256.hexdigest db)) ->
  dget inputs "adoption_result_sha256" = Ok (VStr (Sha256.hexdigest dr)) -> dget inputs "var_file_sha256" = Ok (VStr (Sha256.hexdigest dv)) ->
  ReadyResult.validate_result document sha b r v x = (Ok tt, x).
Proof.
  intros Hv Hb Hr Hw Hl Hm Hi I1 I2 I3 I4. unfold ReadyResult.validate_result. rewrite (M_bind_run _ _ _ _ _ Hv).
  destruct (regular_runs _ _ _ "state-backend evidence" Hb) as (kb & Eb & Hb'). rewrite (M_bind_run _ _ _ _ _ Eb).
  destruct (regular_runs _ _ _ "adoption result" Hr) as (kr & Er & Hr'). rewrite (M_bind_run _ _ _ _ _ Er).
  destruct (regular_runs _ _ _ "protected tfvars" Hw) as (kv & Ev & Hw'). rewrite (M_bind_run _ _ _ _ _ Ev).
  rewrite (M_bind_run _ _ _ _ _ (Hl _ _ Hr')), (lift_run _ _ _ _ Hi).
  rewrite (M_bind_run _ _ _ _ _ (digest_runs _ _ _ Hb')), (M_bind_run _ _ _ _ _ (digest_runs _ _ _ Hr')), (M_bind_run _ _ _ _ _ (digest_runs _ _ _ Hw')).
  rewrite (lift_run _ _ _ _ Hm). apply refuse_none. by repeat constructor; apply same_digest.
Qed.

(** *** The two programs *)

(** C22: A readiness that ended as passed (exit code 0) is accepted by the validator that the plan
    runs: the published document passes each of the validator's tests, and the four digests in it are
    the ones the validator computes, in every later world in which the schema, the state backend's
    evidence, the adoption result and the protected variables are still the files they were; the
    verifier that runs in between must have left them alone as well. *)
Theorem readiness_validates a w w' : main a w = (Ok 0, w') ->
  exists sha now w1 w2 w3 w4 w5 c output document backend result vars,
    git status_words w = (Ok "", w1) /\ git ["rev-parse"; "HEAD"] w1 = (Ok sha, w2) /\ the_now a w2 = (Ok now, w3) /\
    run_checks a sha now w3 = (Ok c, w4) /\ publish output document w4 = (Ok tt, w5) /\ fs w' = fs w5 /\
    state_backend_evidence a = Some backend /\ adoption_result a = Some result /\ var_file a = Some vars /\
    forall x, (forall p, p ∈ [backend; result; vars] -> unchanged w3 w4 p) ->
      (forall p, p ∈ [ReadyResult.SCHEMA; backend; result; vars] -> unchanged w4 x p) ->
      ReadyResult.validate_result document sha backend result vars x = (Ok tt, x).
Proof.
  unfold main. intros E. apply M_bind_Ok in E as (st & w1 & E1 & E). destruct (String.eqb_spec st "") as [->|]; [|done].
  cbn [negb] in E. apply M_bind_Ok in E as (sha & w2 & E2 & E). apply M_bind_Ok in E as (now & w3 & E3 & E).
  destruct (Time.offset now) as [o|]; [|done]. apply M_bind_Ok in E as (output & w4 & E4 & E).
  assert (w4 = w3) as -> by (unfold output_place in E4; by same_world E4).
  apply M_bind_Ok in E as (c & w4 & E5 & E). apply M_bind_Ok in E as (t & w5 & E6 & E). apply lift_Ok in E6 as [E6 ->].
  apply M_bind_Ok in E as (ss & w5 & Xs & E). pose proof (pres_eq_run _ _ _ _ (ro_digest_if _) Xs) as ->.
  apply M_bind_Ok in E as (rs & w5 & Xr & E). pose proof (pres_eq_run _ _ _ _ (ro_digest_if _) Xr) as ->.
  do 2 (apply M_bind_Ok in E as (? & w5 & X & E); pose proof (pres_eq_run _ _ _ _ (ro_digest_if _) X) as ->; clear X).
  apply M_bind_Ok in E as ([] & w5 & E7 & E). apply M_bind_Ok in E as (h & w6 & E8 & E).
  assert (w6 = w5) as -> by (unfold sha256 in E8; by same_world E8).
  apply M_bind_Ok in E as (u & w6 & E9 & E). injection E9 as _ <-. apply ret_Ok in E as [E ->]. apply overall_code, overall_clear in E.
  destruct (run_checks_clear _ _ _ _ _ _ E5 E) as (_ & _ & sb & vf & k & text & ar & as' & vs & ads & xd & Hsb & Hvf & Har & [bd Hbd] & Hpr & Hx & Has & Hvs).
  destruct (all_passed _ _ _ _ _ _ E5 E) as (details & Hlen & Hord).
  exists sha, now, w1, w2, w3, w4, w5, c, output. eexists. exists sb, ar, vf. split_and!; try done.
  intros y H34 H4y. rewrite Hsb in Xs. rewrite Har in Xr.
  assert (forall p d, p ∈ [sb; ar; vf] -> plain_file w3 p d -> plain_file w4 p d) as P34.
  { intros p d Hp. by apply plain_unchanged, H34. }
  assert (forall p d, p ∈ [sb; ar; vf] -> plain_file w4 p d -> plain_file y p d) as P4y.
  { intros p d Hp. apply plain_unchanged, H4y. by apply elem_of_cons; right. }
  destruct (readable_plain _ _ _ _ Hbd) as [db3 Hb3]. destruct (readable_plain _ _ _ _ (xe_document _ _ _ _ _ _ _ Hx)) as [dr3 Hr3].
  destruct (protected_plain _ _ _ _ _ Hpr) as (dv & Hv3 & ->).
  destruct (digest_if_plain _ _ _ _ Xs) as (db & Hb4 & ->); [exists db3; apply P34; [set_solver|done]|].
  destruct (digest_if_plain _ _ _ _ Xr) as (dr & Hr4 & ->); [exists dr3; apply P34; [set_solver|done]|].
  assert (dr3 = dr) as -> by (eapply (plain_same w4 ar); [apply P34; [set_solver|exact Hr3]|exact Hr4]).
  eapply validate_result_runs.
  - eapply validate_document_runs; [exact E7|apply H4y; set_solver|]. by eapply document_accepted.
  - apply P4y; [set_solver|done].
  - apply P4y; [set_solver|exact Hr4].
  - apply P4y; [set_solver|]. apply P34; [set_solver|done].
  - intros q l Hq. eapply load_runs; [exact (xe_document _ _ _ _ _ _ _ Hx)|exact Hr3|done].
  - exact (proj1 (xe_inputs _ _ _ _ _ _ _ Hx)).
  - reflexivity.
  - cbn. by rewrite Has.
  - reflexivity.
  - reflexivity.
  - cbn. by rewrite Hvs.
Qed.
End Shapes.
End ReadyFacts.

(** ** The two programs, one after the other *)

Module ReadyRun.
Import Fixture Evidence PreApply PreApplyFacts PreApplyRun ReadyFacts.

Lemma readiness_validates_witness : let host := host_with tools in let w := world_of vars in let w' := (main (H := host) the_args w).2 in
  exists sha now w1 w2 w3 w4 w5 c output document backend result vars,
    git (H := host) status_words w = (Ok "", w1) /\ git (H := host) ["rev-parse"; "HEAD"] w1 = (Ok sha, w2) /\
    the_now (H := host) the_args w2 = (Ok now, w3) /\
    run_checks (H := host) the_args sha now w3 = (Ok c, w4) /\ publish (H := host) output document w4 = (Ok tt, w5) /\ fs w' = fs w5 /\
    state_backend_evidence the_args = Some backend /\ adoption_result the_args = Some result /\ var_file the_args = Some vars /\
    forall x, (forall p, p ∈ [backend; result; vars] -> unchanged w3 w4 p) ->
      (forall p, p ∈ [ReadyResult.SCHEMA (H := host); backend; result; vars] -> unchanged w4 x p) ->
      ReadyResult.validate_result (H := host) document sha backend result vars x = (Ok tt, x).
Proof.
  intros host w w'. apply (readiness_validates (H := host) the_args w w').
  assert ((main (H := host) the_args w).1 = Ok 0) as E by (vm_compute; reflexivity).
  unfold w'. destruct (main (H := host) the_args w) as [r x]. cbn [fst snd] in E |- *. by rewrite E.
Defined.

Definition in_file (s : string) : path := Path.of_str s.
Definition validator_args (sha : string) : ReadyResult.args := ReadyResult.Args (in_file "/out/readiness.json") sha
  (in_file "/in/backend.json") (in_file "/in/result.json") (in_file "/in/live.tfvars").
Definition validates (sha : string) (w : world) : res Z := (ReadyResult.main (H := host_with tools) (validator_args sha) w).1.

(** The published file validates for its commit and for no other one, and not once the variables have been edited. *)
Example published_validates : let w := (main (H := host_with tools) the_args (world_of vars)).2 in
  let edited := World (<[["in"; "live.tfvars"] := NFile (vars ++ "# edited") (Meta 384 0 0)]> (fs w)) (cwd w) (environ w) 0 0 [] [] [] in
  validates commit w = Ok 0 /\
  validates "f" w = Raise (SystemExit (ExitMsg "pre-apply readiness source/profile mismatch")) /\
  validates commit edited = Raise (SystemExit (ExitMsg "pre-apply readiness input digest mismatch: var_file_sha256")).
Proof. vm_compute. auto. Qed.
End ReadyRun.
