(* ===== verification/RestoreDrill.v ===== *)
(** * database/tools/run_restore_drill_v1.py

    The restore drill: a backup is selected, restored into a disposable target at a
    reviewed instant, verified and probed, the target is cleaned up whatever has
    happened, and the evidence of the seven steps is published. The recovery scripts
    and [git] are started processes. *)

From Stdlib Require Import Ascii.
From S2P Require Import Prelude PyFloat PyMonad PyValue PyTime PyJson Sha256 PyOs OsFacts FsFacts Fixture.
From S2P Require Import GenerateSpec CiProvenance.

Module RestoreDrill.
Import Evidence.

(** ** The patterns *)

Definition lower_alnum (c : ascii) : bool :=
  let n := N_of_ascii c in Str.is_digit c || ((97 <=? n) && (n <=? 122))%N.
Definition alnum (c : ascii) : bool := lower_alnum (Str.lower_char c).
Definition one_of (l : list ascii) (c : ascii) : bool := inb Ascii.eqb c l.
Definition between (lo hi : nat) (f : ascii -> bool) (s : string) : bool :=
  Str.all_chars f s && Nat.leb lo (String.length s) && Nat.leb (String.length s) hi.
Definition RELEASE_RE (s : string) : bool :=
  match Str.strip_prefix "liqi-v1-" s with
  | Some (String c r) => lower_alnum c && between 2 95 (λ c, lower_alnum c || one_of ["."; "_"; "-"]%char c) r
  | _ => false
  end.
(** [[0-9]{8}-[0-9]{6}] and a kind: what follows it *)
Fixpoint digits (n : nat) (s : string) : option string :=
  match n, s with
  | O, _ => Some s
  | S n, String c r => if Str.is_digit c then digits n r else None
  | _, _ => None
  end.
Definition stamp (kinds : list ascii) (s : string) : option string :=
  r ← digits 8 s; r ← Str.strip_prefix "-" r; r ← digits 6 r;
  match r with String c r => if one_of kinds c then Some r else None | _ => None end.
Definition BACKUP_LABEL_RE (s : string) : bool :=
  match stamp ["F"; "D"; "I"]%char s with
  | Some EmptyString => true
  | Some (String "_" r) => match stamp ["D"; "I"]%char r with Some EmptyString => true | _ => false end
  | _ => false
  end.
Definition TARGET_DB_RE (s : string) : bool :=
  match Str.strip_prefix "liqi_restore_" s with
  | Some r => between 3 48 (λ c, lower_alnum c || one_of ["_"]%char c) r
  | None => false
  end.
Definition hex_digits (n : nat) : string -> bool := between n n Str.is_hex_lower.
Definition database_id (s : string) : bool := between 1 128 (λ c, alnum c || one_of ["."; "_"; ":"; "-"]%char c) s.

(** ** Texts *)

Definition newline : string := String (ascii_of_N 10) "".
Definition carriage : string := String (ascii_of_N 13) "".
Definition safe_message (e : exn) : string :=
  let text := Str.strip (Str.replace newline " " (Str.replace carriage " " (exn_str e))) in
  Str.take 1000 (if String.eqb text "" then exn_name e else text).

(** [value.removeprefix(BACKUP_PREFIX)] *)
Definition BACKUP_PREFIX : string := "pgbackrest://management/database-backup-repository/liqi/".
Definition TARGET_BASE : path := Path.of_str "/var/lib/liqi/recovery-exercises".
(** [p.parents] *)
Definition parents (p : path) : list path :=
  map (λ n, MkPath (absolute p) (firstn n (parts p))) (seq 0 (length (parts p))).

(** ** The steps *)

Record step := Step { name : string; owner : string; status : string; duration_ms : Z; ref : option string }.
Definition document (s : step) : val := VDict [("name", VStr (name s)); ("owner", VStr (owner s)); ("status", VStr (status s));
  ("duration_ms", VInt (duration_ms s)); ("evidence_ref", opt_val VStr (ref s))].
Definition step_names : list string := ["select-latest-valid-backup"; "restore-isolated-target"; "wal-pitr"; "verify-migrations";
  "verify-platform-invariants"; "elixir-read-only-probe"; "cleanup"].
Definition initial_steps : list step :=
  map (λ n, Step n (if String.eqb n "elixir-read-only-probe" then "Senior 1" else "Senior 2") "blocked" 0 None) step_names.
(** [self.steps[n]], changed *)
Definition on_step (n : string) (f : step -> step) : list step -> list step := map (λ s, if String.eqb (name s) n then f s else s).
Definition took (ms : Z) (s : step) : step := Step (name s) (owner s) (status s) (duration_ms s + ms) (ref s).
Definition lasted (ms : Z) (s : step) : step := Step (name s) (owner s) (status s) ms (ref s).
Definition ended (st : string) (s : step) : step := Step (name s) (owner s) st (duration_ms s) (ref s).
Definition shown (r : string) (s : step) : step := Step (name s) (owner s) (status s) (duration_ms s) (Some r).
Definition duration_of (n : string) (l : list step) : Z :=
  match List.find (λ s, String.eqb (name s) n) l with Some s => duration_ms s | None => 0 end.
(** [round((time.monotonic() - started) * 1000)] *)
Definition round_ms (us : Z) : Z := Flt.round_ratio us 1000.

Record args := Args { release_id : string; approval_ref : string; a_output : path }.
(** What the constructor has read *)
Record drill := Drill { git_sha : string; environment : string; backup_ref : string; label : string; target_root : path;
  target_database : string; source_database_id : string; pitr_target : Z; rollback_path : path; api_password_path : path;
  release_bin : path; runtime_config : path; backup_status : path; backup_status_checksum : path; backup_status_document : val;
  output : path; exercise_id : string; evidence_dir : path; started_at : string }.
(** What a run changes *)
Record state := State { steps : list step; failures : list string; target_prepared : bool; metadata : option val;
  restore_result : option val; beam_result : option val; verdict : string }.
Definition initial : state := State initial_steps [] false None None None "failed".
Definition with_steps (f : list step -> list step) (s : state) : state :=
  State (f (steps s)) (failures s) (target_prepared s) (metadata s) (restore_result s) (beam_result s) (verdict s).
Definition with_failure (m : string) (s : state) : state :=
  State (steps s) (failures s ++ [m]) (target_prepared s) (metadata s) (restore_result s) (beam_result s) (verdict s).
Definition with_prepared (s : state) : state :=
  State (steps s) (failures s) true (metadata s) (restore_result s) (beam_result s) (verdict s).
Definition with_metadata (v : val) (s : state) : state :=
  State (steps s) (failures s) (target_prepared s) (Some v) (restore_result s) (beam_result s) (verdict s).
Definition with_restore (v : val) (s : state) : state :=
  State (steps s) (failures s) (target_prepared s) (metadata s) (Some v) (beam_result s) (verdict s).
Definition with_beam (v : val) (s : state) : state :=
  State (steps s) (failures s) (target_prepared s) (metadata s) (restore_result s) (Some v) (verdict s).
Definition with_verdict (v : string) (s : state) : state :=
  State (steps s) (failures s) (target_prepared s) (metadata s) (restore_result s) (beam_result s) v.

Section Env.
Context `{Platform}.
Abbreviation E := (M (state * world)).

Definition ROOT : path := repo_root.
Definition RECOVERY_SCHEMA : path := Path.div ROOT "contracts/readiness/recovery-result-v1.schema.json".
Definition BACKUP_SCHEMA : path := Path.div ROOT "contracts/database/backup-metadata-v1.schema.json".
Definition BACKUP_STATUS_SCHEMA : path := Path.div ROOT "contracts/platform/database-backup-status-v0.schema.json".
Definition RESTORE_SCHEMA : path := Path.div ROOT "contracts/platform/database-restore-result-v0.schema.json".
Definition BEAM_SCHEMA : path := Path.div ROOT "contracts/database/restore-beam-probe-v1.schema.json".
Definition ROLLBACK_SCHEMA : path := Path.div ROOT "contracts/deployment/v0-rollback-compatibility-v1.schema.json".

(** ** Helpers *)

Definition error {S A} (m : string) : M S A := throw DrillError m.
(** The instant, in microseconds since the epoch *)
Definition parse_time (value : val) : res Z :=
  match value with
  | VStr s =>
      parsed ← Time.fromisoformat (Str.replace "Z" "+00:00" s);
      match Time.offset parsed with
      | None => raise DrillError "date-time must include a UTC offset"
      | Some _ => Time.to_utc local_offset parsed
      end
  | _ => no_attr value "replace"
  end.
Definition load_json (p : path) : IO val :=
  value ← catch (PyOs.load_json p) (on_exn [OSError; JSONDecodeError] (λ _, error ("cannot read JSON evidence " +:+ Path.name p)));
  if is_dict value then mret value else error ("JSON evidence must be an object: " +:+ Path.name p).
Definition validate (schema_path : path) (value : val) (text : string) : IO unit :=
  schema ← load_json schema_path;
  (match schema_check schema with Some m => throw SchemaError m | None => mret tt end) ;;
  errors ← lift (sorted_errors schema value);
  match errors with
  | e :: _ => error (text +:+ " contract invalid at " +:+ render_error e)
  | [] => mret tt
  end.
Definition sha256 (p : path) : IO string := sha256_chunked p.
Definition write_json_atomic (p : path) (value : val) : IO unit :=
  mkdir_p (Path.parent p) ;;
  hex ← fresh_hex;
  let temporary := Path.with_name p ("." +:+ Path.name p +:+ "." +:+ hex +:+ ".tmp") in
  finally (write_file temporary (json_text value) ;; chmod temporary 384 ;; replace temporary p) (unlink_missing_ok temporary).
Definition current_git_sha : IO string :=
  p ← gets (λ w, Proc CiProvenance.rev_parse None (environ w) (Some ROOT));
  r ← run_completed p;
  let '(code, o, _) := r in
  if negb (code =? 0) then throw CalledProcessError (CiProvenance.called_text CiProvenance.rev_parse code) else
  if hex_digits 40 (Str.strip o) then mret (Str.strip o) else error "current Git SHA is invalid".
Definition required_env (n : string) : IO string :=
  value ← gets (λ w, default "" (Dict.lookup n (environ w)));
  if String.eqb value "" then error ("required protected input is missing: " +:+ n) else mret value.
Definition regular_file (p : path) (text : string) : IO path :=
  f ← is_file p; l ← is_symlink p;
  if negb f || l then error (text +:+ " must be a regular non-symlink file") else mret p.
Definition file_env (n text : string) : IO path := s ← required_env n; regular_file (Path.of_str s) text.
Definition evidence_ref (p : path) : IO string := q ← resolve p; mret ("file://" +:+ Path.to_str q).
(** [p.mkdir(parents=True, exist_ok=False)] *)
Definition mkdir_new (p : path) : IO unit :=
  catch (mkdir p 493) (on_exn [FileNotFoundError] (λ _, mkdir_p (Path.parent p) ;; mkdir p 493)).
(** [shutil.copy2(src, dst)] *)
Definition copy2 (src dst : path) : IO unit :=
  d ← is_dir dst;
  let dst := if d : bool then Path.div dst (Path.name src) else dst in
  same ← gets (λ w, bool_decide (canon w src = canon w dst /\ is_some_node (stat w dst) = true));
  if same : bool then throw OSError (repr_str (Path.to_str src) +:+ " and " +:+ repr_str (Path.to_str dst) +:+ " are the same file")
  else copyfile src dst ;; m ← st_mode src; chmod dst m.
Definition beside (p : path) (suffix : string) : path := Path.of_str (Path.to_str p +:+ suffix).

(** ** The constructor *)

Definition target_of : IO path :=
  s ← required_env "LIQI_RECOVERY_TARGET_ROOT";
  mret (Path.of_str s).
Definition checked_target (target : path) : IO path :=
  resolved ← resolve target;
  match Path.relative_to resolved TARGET_BASE with
  | None => error "restore target must be below the approved recovery root"
  | Some _ =>
      if bool_decide (resolved = TARGET_BASE) || negb (String.eqb (Path.to_str target) (Path.to_str resolved))
      then error "restore target must be a canonical child of the approved recovery root" else mret resolved
  end.
Definition checked_status (status_path checksum : path) : IO val :=
  text ← read_text checksum;
  expected ← lift (match Str.words (Str.strip text) with x :: _ => Ok (Str.lower x) | [] => raise IndexError "list index out of range" end);
  (if hex_digits 64 expected then
     actual ← sha256 status_path;
     if String.eqb expected actual then mret tt else error "backup status checksum verification failed"
   else error "backup status checksum verification failed") ;;
  d ← load_json status_path;
  validate BACKUP_STATUS_SCHEMA d "backup status" ;;
  bad ← lift (ror (r ← getitem d "recoveryReady"; Ok (negb (is_true r))) (r ← getitem d "reasons"; Ok (truthy r)));
  if bad : bool then error "backup and WAL archive are not recovery-ready" else mret d.
Definition guard (b : bool) (m : string) : IO unit := if b then mret tt else error m.
Definition init (a : args) : IO drill :=
  git ← current_git_sha;
  env ← required_env "LIQI_RECOVERY_ENVIRONMENT";
  guard (inb String.eqb env ["staging"; "production"]) "LIQI_RECOVERY_ENVIRONMENT must be staging or production" ;;
  guard (RELEASE_RE (release_id a)) "release ID is invalid" ;;
  guard (negb (String.eqb (approval_ref a) "") && (Str.len (approval_ref a) <=? 512)) "restore approval reference is invalid" ;;
  backup ← required_env "LIQI_RECOVERY_BACKUP_REF";
  guard (Str.startswith BACKUP_PREFIX backup) "backup reference must use the independent pgBackRest repository" ;;
  let label := Str.removeprefix BACKUP_PREFIX backup in
  guard (BACKUP_LABEL_RE label) "backup label is invalid" ;;
  target ← target_of;
  database ← required_env "LIQI_RECOVERY_TARGET_DATABASE";
  guard (TARGET_DB_RE database) "restore target database identity is invalid" ;;
  target ← checked_target target;
  source ← required_env "LIQI_RECOVERY_SOURCE_DATABASE_ID";
  guard (database_id source) "source database identity is invalid" ;;
  time ← required_env "LIQI_RESTORE_TARGET_TIME";
  pitr ← lift (parse_time (VStr time));
  today ← now;
  guard (pitr <=? today) "PITR target cannot be in the future" ;;
  rollback ← file_env "LIQI_V0_ROLLBACK_COMPATIBILITY" "V0 rollback compatibility evidence";
  password ← file_env "LIQI_DATABASE_API_PASSWORD_FILE" "database API credential";
  bin ← required_env "LIQI_RECOVERY_RELEASE_BIN";
  config ← file_env "LIQI_RUNTIME_CONFIG_PATH" "runtime configuration";
  status_path ← file_env "LIQI_BACKUP_STATUS_FILE" "backup status evidence";
  checksum ← file_env "LIQI_BACKUP_STATUS_CHECKSUM_FILE" "backup status checksum";
  status_document ← checked_status status_path checksum;
  out ← resolve (a_output a);
  guard (negb (bool_decide (out = target) || bool_decide (target ∈ parents out)))
    "final recovery evidence must be outside the disposable restore target" ;;
  hex ← fresh_hex;
  let exercise := "restore-v1-" +:+ Str.take 16 hex in
  let evidence := Path.div (Path.parent out) (exercise +:+ "-evidence") in
  mkdir_new evidence ;;
  chmod evidence 448 ;;
  started ← utc_now;
  mret (Drill git env backup label target database source pitr rollback password (Path.of_str bin) config status_path checksum
    status_document out exercise evidence started).

(** ** The steps of a run *)

Section Run.
Context (a : args) (d : drill).

Definition on (n : string) (f : step -> step) : E unit := modl (with_steps (on_step n f)).
Definition show (n : string) (p : path) : E unit := r ← zoom_snd (evidence_ref p); on n (shown r).
Definition write_log (p : path) (text : string) : IO unit := write_file p text ;; chmod p 384.
Definition tail_text (code : Z) (stdout stderr : string) : list string :=
  ["RETURN_CODE"; Str.of_Z code; "STDOUT"; stdout; "STDERR"; stderr; ""].
Definition lines (l : list string) : string := Str.join newline l.
(** [{**os.environ, **env}] *)
Definition env_with (extra : list (string * val)) : IO (list (string * string)) :=
  env ← gets environ;
  extra ← lift (rmap (λ kv, v ← expect_str kv.2; Ok (kv.1, v)) extra);
  mret (Dict.update extra env).
Definition bash (script : string) (arguments : list string) : list string := "bash" :: ("database/recovery/" +:+ script) :: arguments.
Definition start (argv : list string) (extra : list (string * val)) (timeout : Z) : IO (Z * string * string) :=
  env ← env_with extra; run_completed (Proc argv (Some timeout) env (Some ROOT)).
Definition root_text : string := Path.to_str (target_root d).
Definition in_evidence (n : string) : path := Path.div (evidence_dir d) n.

Definition command (n : string) (argv : list string) (extra : list (string * val)) (evidence : path) (timeout : Z) : E unit :=
  started ← zoom_snd monotonic;
  let log_path := in_evidence (n +:+ ".log") in
  r ← zoom_snd (start argv extra timeout);
  let '(code, o, e) := r in
  finished ← zoom_snd monotonic;
  on n (took (round_ms (finished - started))) ;;
  zoom_snd (write_log log_path (lines ("COMMAND" :: Str.join " " argv :: tail_text code o e))) ;;
  there ← zoom_snd (exists_ evidence);
  show n (if there : bool then evidence else log_path) ;;
  if negb (code =? 0) then
    on n (ended "failed") ;;
    error (n +:+ " command failed with exit " +:+ Str.of_Z code +:+ "; see " +:+ Path.name log_path)
  else on n (ended "passed").

Definition timed (n : string) (operation : E unit) (evidence : option path) : E unit :=
  started ← zoom_snd monotonic;
  operation ;;
  finished ← zoom_snd monotonic;
  on n (took (round_ms (finished - started))) ;;
  on n (ended "passed") ;;
  match evidence with Some p => show n p | None => mret tt end.

Definition validate_rollback : IO unit :=
  rollback ← load_json (rollback_path d);
  validate ROLLBACK_SCHEMA rollback "V0 rollback compatibility" ;;
  g ← lift (getitem rollback "database_provider_git_sha");
  guard (py_eq g (VStr (git_sha d))) "V0 rollback compatibility evidence is not bound to the exact integrated SHA" ;;
  uncovered ← lift (ror (m ← getitem rollback "to_migration"; Ok (py_ne m (VInt 8)))
                        (f ← getitem rollback "v0_functions_retained"; Ok (negb (is_true f))));
  guard (negb uncovered) "V0 rollback compatibility does not cover migration 8".

Definition metadata_path : path := in_evidence (label d +:+ ".backup-metadata.json").
Definition rename_metadata : IO unit :=
  let generated := in_evidence (label d +:+ ".json") in
  f ← is_file generated;
  g ← (if f : bool then is_file (beside generated ".sha256") else mret false);
  guard g "backup metadata reconstruction did not create checksummed evidence" ;;
  replace generated metadata_path ;;
  replace (beside generated ".sha256") (beside metadata_path ".sha256").
(** The tests of the metadata; they end with the instants between which a restore can end. *)
Definition check_metadata (m : val) : IO unit :=
  validate BACKUP_SCHEMA m "backup metadata" ;;
  g ← lift (item m ["source"; "gitSha"]);
  guard (py_eq g (VStr (git_sha d))) "backup source SHA does not match the exact integrated source" ;;
  v ← lift (item m ["migration"; "currentVersion"]);
  guard (py_eq v (VInt 8)) "backup does not contain migration version 8" ;;
  started ← lift (t ← item m ["backup"; "startedAt"]; parse_time t);
  text ← lift (archive ← getitem (backup_status_document d) "archive"; dget archive "lastArchivedAt");
  guard (truthy text) "WAL archive coverage timestamp is unavailable" ;;
  archived ← lift (parse_time text);
  guard ((started <=? pitr_target d) && (pitr_target d <=? archived))
    "reviewed PITR target is outside the proven backup/WAL recovery window".
Definition select_backup : E unit :=
  command "select-latest-valid-backup" (bash "fetch-backup-metadata.sh" [label d; Path.to_str (evidence_dir d)]) [] metadata_path 900 ;;
  zoom_snd rename_metadata ;;
  m ← zoom_snd (load_json metadata_path);
  modl (with_metadata m) ;;
  zoom_snd (check_metadata m) ;;
  show "select-latest-valid-backup" metadata_path.

(** Both steps that the restore is the work of *)
Definition both (f : step -> step) : E unit := on "restore-isolated-target" f ;; on "wal-pitr" f.
Definition restore_failed (m : string) : E unit := both (ended "failed") ;; error m.
Definition restore_result_path : path := in_evidence "database-restore-result.json".
Definition restore_log : path := in_evidence "restore-isolated-target.restore.log".
Definition take_restore_result : E unit :=
  let source := Path.div (target_root d) "evidence/restore-result.json" in
  f ← zoom_snd (is_file source);
  g ← (if f : bool then zoom_snd (is_file (beside source ".sha256")) else mret false);
  (if g : bool then mret tt else restore_failed "restore verification result is missing") ;;
  zoom_snd (copy2 source restore_result_path) ;;
  zoom_snd (copy2 (beside source ".sha256") (beside restore_result_path ".sha256")) ;;
  v ← zoom_snd (load_json restore_result_path);
  modl (with_restore v) ;;
  zoom_snd (validate RESTORE_SCHEMA v "database restore result") ;;
  success ← lift (getitem v "success");
  (if is_true success then mret tt else restore_failed "database restore verification failed") ;;
  show "restore-isolated-target" restore_result_path ;;
  show "wal-pitr" restore_result_path.
Definition restore : E unit :=
  command "restore-isolated-target" (bash "prepare-restore-exercise.sh" [root_text; target_database d]) []
    (Path.div (target_root d) "exercise.json") 120 ;;
  modl with_prepared ;;
  started ← zoom_snd monotonic;
  r ← zoom_snd (start (bash "restore-exercise.sh" [backup_ref d; root_text; target_database d])
    [("LIQI_KEEP_RESTORE_RUNNING", VStr "true"); ("LIQI_RESTORE_TARGET_TIME", VStr (Time.iso_z (pitr_target d)));
     ("LIQI_BACKUP_STATUS_FILE", VStr (Path.to_str (backup_status d)))] 7200);
  let '(code, o, e) := r in
  finished ← zoom_snd monotonic;
  both (took (round_ms (finished - started))) ;;
  zoom_snd (write_log restore_log (lines (tail_text code o e))) ;;
  show "restore-isolated-target" restore_log ;;
  show "wal-pitr" restore_log ;;
  (if negb (code =? 0)
   then restore_failed ("isolated restore/PITR failed with exit " +:+ Str.of_Z code +:+ "; see " +:+ Path.name restore_log) else mret tt) ;;
  both (ended "passed") ;;
  take_restore_result.

Definition migration_names : list string :=
  ["migration-version"; "migration-manifest-checksum"; "migration-row-checksums"; "failed-migration-runs"].
(** [{item["name"]: item["passed"] for item in checks}], the last entry of a name first *)
Definition check_entry (acc : list (val * val)) (item : val) : res (list (val * val)) :=
  n ← getitem item "name"; v ← getitem item "passed"; _ ← check_hash n; Ok ((n, v) :: acc).
Definition checks_of (restored : val) : res (list (val * val)) :=
  l ← getitem restored "checks"; l ← py_iter l; rfold check_entry [] l.
Definition passed_check (checks : list (val * val)) (n : string) : bool :=
  match List.find (λ kv, py_eq kv.1 (VStr n)) checks with Some kv => is_true kv.2 | None => false end.
Definition recovery_status_path : path := in_evidence "recovery-status.json".
(** [assert x is not None] *)
Definition assert_some (o : option val) : E val := match o with Some v => mret v | None => throw AssertionError "" end.
Definition verify_database : E unit :=
  command "verify-platform-invariants" (bash "verify-restore-exercise.sh"
      [root_text; target_database d; "8"; Path.to_str recovery_status_path; environment d])
    [("LIQI_BACKUP_STATUS_FILE", VStr (Path.to_str (backup_status d)));
     ("LIQI_BACKUP_STATUS_CHECKSUM_FILE", VStr (Path.to_str (backup_status_checksum d)))] recovery_status_path 900 ;;
  s ← getl;
  restored ← assert_some (restore_result s);
  checks ← lift (checks_of restored);
  (if forallb (passed_check checks) migration_names then mret tt
   else on "verify-migrations" (ended "failed") ;; error "restored migration verification did not pass") ;;
  on "verify-migrations" (ended "passed") ;;
  on "verify-migrations" (lasted (duration_of "verify-platform-invariants" (steps s))) ;;
  show "verify-migrations" restore_result_path.

Definition beam_output : path := in_evidence "restore-beam-probe.json".
Definition beam_env (port : string) (m : val) : res (list (string * val)) :=
  probe ← item m ["probe"; "probeId"]; event ← item m ["probe"; "eventId"];
  Ok [("LIQI_RECOVERY_RELEASE_BIN", VStr (Path.to_str (release_bin d)));
      ("LIQI_DATABASE_SOCKET_DIR", VStr (Path.to_str (Path.div (target_root d) "run")));
      ("LIQI_DATABASE_PORT", VStr port); ("LIQI_DATABASE_NAME", VStr "liqi");
      ("LIQI_DATABASE_API_PASSWORD_FILE", VStr (Path.to_str (api_password_path d)));
      ("LIQI_SOURCE_GIT_SHA", VStr (git_sha d)); ("LIQI_RELEASE_ID", VStr (release_id a));
      ("LIQI_RESTORE_PROBE_ID", probe); ("LIQI_RESTORE_PROBE_EVENT_ID", event);
      ("LIQI_RUNTIME_CONFIG_PATH", VStr (Path.to_str (runtime_config d)))].
Definition beam_probe : E unit :=
  s ← getl;
  m ← assert_some (metadata s);
  port ← zoom_snd (getenv "LIQI_RESTORE_PORT");
  env ← lift (beam_env (default "55432" port) m);
  command "elixir-read-only-probe" ["bash"; "beam/bin/database-restore-probe"; "--output"; Path.to_str beam_output] env beam_output 300 ;;
  v ← zoom_snd (load_json beam_output);
  modl (with_beam v) ;;
  zoom_snd (validate BEAM_SCHEMA v "BEAM restore probe") ;;
  other ← lift (ror (g ← getitem v "git_sha"; Ok (py_ne g (VStr (git_sha d))))
                    (r ← getitem v "release_id"; Ok (py_ne r (VStr (release_id a)))));
  if other : bool then error "BEAM restore probe is not bound to the exact release" else mret tt.

Definition cleanup_log : path := in_evidence "cleanup.log".
Definition cleanup : E unit :=
  started ← zoom_snd monotonic;
  s ← getl;
  if negb (target_prepared s) then
    zoom_snd (write_log cleanup_log (lines ["target was not prepared; no cleanup mutation was required"; ""])) ;;
    finished ← zoom_snd monotonic;
    on "cleanup" (lasted (round_ms (finished - started))) ;;
    on "cleanup" (ended "passed") ;;
    show "cleanup" cleanup_log
  else
    r ← zoom_snd (start (bash "cleanup-restore-exercise.sh" [root_text; target_database d]) [] 900);
    let '(code, o, e) := r in
    finished ← zoom_snd monotonic;
    on "cleanup" (lasted (round_ms (finished - started))) ;;
    zoom_snd (write_log cleanup_log (lines (tail_text code o e))) ;;
    show "cleanup" cleanup_log ;;
    left_over ← (if negb (code =? 0) then mret true else zoom_snd (exists_ (target_root d)));
    if left_over : bool then
      on "cleanup" (ended "failed") ;; error ("isolated restore cleanup failed; see " +:+ Path.name cleanup_log)
    else on "cleanup" (ended "passed").

(** ** The evidence *)

Definition no_metadata : val := VDict [
  ("backup", VDict [("label", VStr (label d)); ("startedAt", VStr (started_at d)); ("stoppedAt", VStr (started_at d)); ("archiveStop", VStr "unknown")]);
  ("source", VDict [("gitSha", VStr (git_sha d))]); ("migration", VDict [("currentVersion", VInt 0)])].
Definition no_restore : val := VDict [
  ("workingTargets", VDict [("rpoObservedSeconds", VInt 0); ("rtoObservedSeconds", VInt 0)]); ("finishedAt", VStr (started_at d))].
(** [x or y] *)
Definition or_else (o : option val) (y : val) : val := match o with Some x => if truthy x then x else y | None => y end.
(** [max(0, int((now - t).total_seconds()))] *)
Definition seconds_since (now t : Z) : Z := Z.max 0 (Time.int_seconds (now - t)).
Definition metadata_digest : IO string :=
  f ← is_file metadata_path; if f : bool then sha256 metadata_path else mret (Str.zeros 64).
Definition wal_end (m : val) : res val :=
  b ← getitem m "backup"; v ← dget b "archiveStop"; Ok (if truthy v then v else VStr "not-recorded").
Definition observed_int (restored : val) (k : string) : res val :=
  w ← getitem restored "workingTargets"; v ← dget_or w k (VInt 0); z ← py_int v; Ok (VInt z).
Definition status_of (n : string) (l : list step) : option step := List.find (λ s, String.eqb (name s) n) l.
Definition cleanup_status (l : list step) : val :=
  match status_of "cleanup" l with
  | Some s => VDict [("required", VBool true); ("status", VStr (status s)); ("evidence_ref", opt_val VStr (ref s))]
  | None => VNone
  end.

Definition result (s : state) (st : string) : IO val :=
  today ← now;
  let m := or_else (metadata s) no_metadata in
  let restored := or_else (restore_result s) no_restore in
  created ← lift (t ← item m ["backup"; "stoppedAt"]; parse_time t);
  finished ← lift (t ← dget_or restored "finishedAt" (VStr (started_at d)); parse_time t);
  let compatible := VBool (String.eqb st "passed" && match beam_result s with Some _ => true | None => false end) in
  completed ← utc_now;
  version ← lift (item m ["migration"; "currentVersion"]);
  backup_id ← lift (item m ["backup"; "label"]); stopped ← lift (item m ["backup"; "stoppedAt"]);
  digest ← metadata_digest;
  wal ← lift (wal_end m);
  rpo ← lift (observed_int restored "rpoObservedSeconds"); rto ← lift (observed_int restored "rtoObservedSeconds");
  let result := VDict [
    ("schema_version", VStr "recovery-result-v1"); ("evidence_mode", VStr "live"); ("git_sha", VStr (git_sha d));
    ("release_id", VStr (release_id a)); ("environment", VStr (environment d)); ("exercise_id", VStr (exercise_id d));
    ("started_at", VStr (started_at d)); ("completed_at", VStr completed); ("status", VStr st); ("approval_ref", VStr (approval_ref a));
    ("source", VDict [("database_id", VStr (source_database_id d)); ("schema_version", VStr ("migration-" +:+ py_str version));
       ("release_id", VStr (release_id a)); ("mutated", VBool false)]);
    ("target", VDict [("database_id", VStr (target_database d)); ("isolated", VBool true); ("publicly_reachable", VBool false)]);
    ("backup", VDict [("backup_id", backup_id); ("created_at", stopped); ("sha256", VStr digest); ("wal_end", wal);
       ("repository_ref", VStr (backup_ref d))]);
    ("objectives", VDict [("max_rpo_seconds", VInt 300); ("max_rto_seconds", VInt 3600)]);
    ("observed", VDict [("rpo_seconds", rpo); ("rto_seconds", rto); ("backup_age_seconds", VInt (seconds_since today created));
       ("restore_freshness_seconds", VInt (seconds_since today finished))]);
    ("steps", VList (map document (steps s)));
    ("compatibility", VDict [("release_schema_compatible", compatible); ("migrations_expand_compatible", compatible);
       ("v0_rollback_readable", compatible)]);
    ("mutations", VDict [("isolated_target_mutated", VBool (target_prepared s)); ("source_database_mutated", VBool false);
       ("production_traffic_changed", VBool false); ("oci_mutated", VBool false)]);
    ("cleanup", cleanup_status (steps s));
    ("failures", VStrs (failures s))] in
  validate RECOVERY_SCHEMA result "recovery result" ;;
  mret result.

(** ** The run *)

Definition body : E unit :=
  zoom_snd validate_rollback ;; select_backup ;; restore ;; verify_database ;; beam_probe ;; modl (with_verdict "passed").
Definition body_errors : list exn_class := [DrillError; TimeoutExpired; CalledProcessError; OSError; ValueError].
Definition attempted : E unit :=
  finally
    (catch body (on_exn body_errors (λ e, modl (with_failure (safe_message e)))))
    (catch cleanup (on_exn [DrillError; TimeoutExpired; CalledProcessError; OSError]
       (λ e, modl (with_failure (safe_message e)) ;; modl (with_verdict "failed")))).
Definition all_passed (l : list step) : bool := forallb (λ s, String.eqb (status s) "passed") l.
Definition run : E Z :=
  attempted ;;
  s ← getl;
  let st := if all_passed (steps s) then verdict s else "failed" in
  result ← zoom_snd (result s st);
  zoom_snd (write_json_atomic (output d) result) ;;
  zoom_snd (print ("V1 isolated recovery drill: " +:+ st +:+ " -> " +:+ Path.to_str (output d))) ;;
  mret (if String.eqb st "passed" then 0 else 1).
End Run.

Definition main (a : args) : IO Z :=
  catch (d ← init a; with_locals initial (run a d))
    (on_exn body_errors (λ e, print_err ("ERROR recovery-provider: " +:+ safe_message e) ;; mret 64)).
End Env.
End RestoreDrill.
