(* ===== verification/RestoreDrillFacts.v ===== *)
(** * The restore drill: its theorems

    A target that was prepared is cleaned up however the drill goes on; a drill that
    passed has done every step, in order, on the evidence of this commit; and the
    published evidence says how it ended. *)

From Stdlib Require Import Ascii.
From S2P Require Import Prelude PyFloat PyMonad PyValue PyTime PyJson Sha256 PyOs OsFacts FsFacts Fixture.
From S2P Require Import GenerateSpec CiProvenance BuildResultFacts RestoreDrill.

Module RestoreDrillFacts.
Import Evidence RestoreDrill BuildResultFacts.

(** ** Statements that start no process *)

Section Quiet.
Context `{Platform}.
Lemma ro_drill_load p : Pres eq (load_json p).
Proof. unfold load_json, error. solve_pres. Qed.
#[local] Hint Resolve ro_drill_load : pres.
Lemma ro_drill_validate p v t : Pres eq (validate p v t).
Proof. unfold validate, error. solve_pres. Qed.
Lemma ro_guard b m : Pres eq (guard b m).
Proof. unfold guard, error. solve_pres. Qed.
Lemma ro_evidence_ref p : Pres eq (evidence_ref p).
Proof. unfold evidence_ref. solve_pres. Qed.
#[local] Hint Resolve ro_drill_validate ro_guard ro_evidence_ref : pres.
Lemma ro_rollback d : Pres eq (validate_rollback d).
Proof. unfold validate_rollback. solve_pres. Qed.
Lemma ro_check_metadata d m : Pres eq (check_metadata d m).
Proof. unfold check_metadata. solve_pres. Qed.
Lemma ro_env_with extra : Pres eq (env_with extra).
Proof. unfold env_with. solve_pres. Qed.
Lemma ro_metadata_digest d : Pres eq (metadata_digest d).
Proof. unfold metadata_digest, sha256. solve_pres. Qed.
#[local] Hint Resolve ro_rollback ro_check_metadata ro_env_with ro_metadata_digest : pres.

Lemma sl_mkdir p m : Pres same_log (mkdir p m).
Proof. intros w. unfold mkdir. by repeat case_match. Qed.
#[local] Hint Resolve sl_mkdir : pres.
Lemma sl_fresh_hex : Pres same_log fresh_hex.
Proof. by intros w. Qed.
#[local] Hint Resolve sl_fresh_hex : pres.
Lemma sl_write_log p t : Pres same_log (write_log p t).
Proof. unfold write_log. solve_pres. Qed.
Lemma sl_rename d : Pres same_log (rename_metadata d).
Proof. unfold rename_metadata. solve_pres. Qed.
Lemma sl_copy2 p q : Pres same_log (copy2 p q).
Proof. unfold copy2, copyfile. solve_pres. Qed.
Lemma sl_write_json p v : Pres same_log (write_json_atomic p v).
Proof. unfold write_json_atomic. solve_pres. Qed.
Lemma sl_result a d s st : Pres same_log (result a d s st).
Proof. unfold result. solve_pres. Qed.
Lemma sl_init_rest a : exists f, init a = current_git_sha ≫= f /\ forall g, Pres same_log (f g).
Proof. eexists. split; [reflexivity|]. intros g. unfold target_of, checked_target, checked_status, file_env, regular_file, required_env, mkdir_new, sha256, error. solve_pres. Qed.
End Quiet.
#[export] Hint Resolve ro_drill_load ro_drill_validate ro_guard ro_evidence_ref ro_rollback ro_check_metadata ro_env_with ro_metadata_digest
  sl_mkdir sl_fresh_hex sl_write_log sl_rename sl_copy2 sl_write_json sl_result : pres.

(** ** What is started, however a statement ends *)

Section Trace.
Context {L : Type}.

(** The command lines started so far, the last one first *)
Definition started_argv (s : L * world) : list (list string) := map argv (log s.2).
(** An initial segment of [l] is started, and the whole of it when the statement ends normally. *)
Definition traced (l : list (list string)) {A} (m : M (L * world) A) : Prop := forall s r s', m s = (r, s') ->
  exists k, started_argv s' = rev (firstn k l) ++ started_argv s /\ (forall x, r = Ok x -> k = length l).

Lemma traced_quiet {A} (m : M (L * world) A) : Pres (on_snd same_log) m -> traced [] m.
Proof.
  intros Hm s r s' E. pose proof (pres_run _ _ _ _ _ Hm E) as Hl. unfold on_snd, same_log in Hl. exists O.
  unfold started_argv. by rewrite Hl.
Qed.
Lemma traced_bind {A B} l1 l2 (m : M (L * world) A) (f : A -> M (L * world) B) :
  traced l1 m -> (forall x, traced l2 (f x)) -> traced (l1 ++ l2) (m ≫= f).
Proof.
  intros Hm Hf s r s' E. unfold mbind, M_bind in E. destruct (m s) as [[x|e] s1] eqn:E1.
  - destruct (Hm _ _ _ E1) as (k1 & T1 & K1). rewrite (K1 x eq_refl), firstn_all in T1. destruct (Hf _ _ _ _ E) as (k2 & T2 & K2).
    exists (length l1 + k2)%nat. split; [by rewrite T2, T1, firstn_app_2, rev_app_distr, app_assoc|].
    intros y Hy. by rewrite length_app, (K2 y Hy).
  - injection E as <- <-. destruct (Hm _ _ _ E1) as (k & T & _). exists (min k (length l1)). split; [|done].
    rewrite firstn_app. replace (min k (length l1) - length l1)%nat with O by lia. rewrite app_nil_r, T. do 2 f_equal.
    destruct (Nat.le_ge_cases k (length l1)); [by rewrite Nat.min_l|]. by rewrite Nat.min_r, !firstn_all2 by lia.
Qed.
Lemma traced_then {A B} l (m : M (L * world) A) (f : A -> M (L * world) B) :
  Pres (on_snd same_log) m -> (forall x, traced l (f x)) -> traced l (m ≫= f).
Proof. intros Hm. apply (traced_bind [] l). by apply traced_quiet. Qed.
Lemma traced_last {A B} l (m : M (L * world) A) (f : A -> M (L * world) B) :
  traced l m -> (forall x, Pres (on_snd same_log) (f x)) -> traced l (m ≫= f).
Proof. intros Hm Hf. rewrite <-(app_nil_r l). apply traced_bind; [done|]. intros x. by apply traced_quiet. Qed.
End Trace.

Section Facts.
Context `{Platform} (a : args) (d : drill).

Lemma traced_start argv extra timeout : traced [argv] (zoom_snd (L:=state) (start argv extra timeout)).
Proof.
  intros [st w] r s' E. unfold zoom_snd in E. cbn [fst snd] in E. destruct (start argv extra timeout w) as [x w1] eqn:E1.
  injection E as <- <-. unfold start, mbind, M_bind in E1. destruct (env_with extra w) as [[env|e] w2] eqn:E2.
  - pose proof (pres_eq_run _ _ _ _ (ro_env_with extra) E2) as ->. exists 1%nat.
    pose proof (run_completed_log (Proc argv (Some timeout) env (Some ROOT)) w) as El. rewrite E1 in El. cbn [snd] in El.
    unfold started_argv. cbn [snd]. by rewrite El.
  - injection E1 as <- <-. pose proof (pres_eq_run _ _ _ _ (ro_env_with extra) E2) as ->. by exists O.
Qed.
Lemma sl_on n f : Pres (on_snd same_log) (on n f).
Proof. unfold on. solve_pres. Qed.
#[local] Hint Resolve sl_on : pres.
Lemma sl_show n p : Pres (on_snd same_log) (show n p).
Proof. unfold show. solve_pres. Qed.
#[local] Hint Resolve sl_show : pres.
Lemma sl_both f : Pres (on_snd same_log) (both f).
Proof. unfold both. solve_pres. Qed.
#[local] Hint Resolve sl_both : pres.
Lemma sl_assert o : Pres (on_snd same_log) (assert_some o).
Proof. unfold assert_some. solve_pres. Qed.
#[local] Hint Resolve sl_assert : pres.
Lemma traced_command n argv extra evidence timeout : traced [argv] (command d n argv extra evidence timeout).
Proof.
  unfold command. apply traced_then; [solve_pres|intros started]. apply traced_last; [apply traced_start|].
  intros [[code o] e]. unfold error. solve_pres.
Qed.

(** *** The commands of a drill *)

Definition fetch_argv : list string := bash "fetch-backup-metadata.sh" [label d; Path.to_str (evidence_dir d)].
Definition prepare_argv : list string := bash "prepare-restore-exercise.sh" [root_text d; target_database d].
Definition restore_argv : list string := bash "restore-exercise.sh" [backup_ref d; root_text d; target_database d].
Definition verify_argv : list string := bash "verify-restore-exercise.sh"
  [root_text d; target_database d; "8"; Path.to_str (recovery_status_path d); environment d].
Definition probe_argv : list string := ["bash"; "beam/bin/database-restore-probe"; "--output"; Path.to_str (beam_output d)].
Definition cleanup_argv : list string := bash "cleanup-restore-exercise.sh" [root_text d; target_database d].
Definition stages : list (list string) := [fetch_argv; prepare_argv; restore_argv; verify_argv; probe_argv].

(** The part of the body before the target is known to be prepared, and the rest of it *)
Definition before : M (state * world) unit :=
  zoom_snd (validate_rollback d) ;; select_backup d ;;
  command d "restore-isolated-target" prepare_argv [] (Path.div (target_root d) "exercise.json") 120.
Definition restore_rest : M (state * world) unit :=
  started ← zoom_snd monotonic;
  r ← zoom_snd (start restore_argv
    [("LIQI_KEEP_RESTORE_RUNNING", VStr "true"); ("LIQI_RESTORE_TARGET_TIME", VStr (Time.iso_z (pitr_target d)));
     ("LIQI_BACKUP_STATUS_FILE", VStr (Path.to_str (backup_status d)))] 7200);
  let '(code, o, e) := r in
  finished ← zoom_snd monotonic;
  both (took (round_ms (finished - started))) ;;
  zoom_snd (write_log (restore_log d) (lines (tail_text code o e))) ;;
  show "restore-isolated-target" (restore_log d) ;;
  show "wal-pitr" (restore_log d) ;;
  (if negb (code =? 0)
   then restore_failed ("isolated restore/PITR failed with exit " +:+ Str.of_Z code +:+ "; see " +:+ Path.name (restore_log d)) else mret tt) ;;
  both (ended "passed") ;;
  take_restore_result d.
Definition after : M (state * world) unit :=
  restore_rest ;; verify_database d ;; beam_probe a d ;; modl (with_verdict "passed").
Lemma bind_run_eq {S A B} (m m' : M S A) (f f' : A -> M S B) s : m s = m' s -> (forall x s1, f x s1 = f' x s1) -> (m ≫= f) s = (m' ≫= f') s.
Proof. intros E Ef. unfold mbind, M_bind. rewrite E. destruct (m' s) as [[]]; [apply Ef|done]. Qed.
Lemma bind_assoc {S A B C} (m : M S A) (f : A -> M S B) (g : B -> M S C) s : ((m ≫= f) ≫= g) s = (m ≫= (λ x, f x ≫= g)) s.
Proof. unfold mbind, M_bind. by destruct (m s) as [[]]. Qed.
Lemma body_parts s : body a d s = (before ;; modl with_prepared ;; after) s.
Proof.
  unfold body, before, after. rewrite !bind_assoc. apply bind_run_eq; [done|intros _ s1]. rewrite !bind_assoc.
  apply bind_run_eq; [done|intros _ s2]. unfold restore. fold restore_rest prepare_argv. rewrite !bind_assoc.
  apply bind_run_eq; [done|intros _ s3]. rewrite !bind_assoc. done.
Qed.

(** *** What the statements leave alone *)

(** The part [f] of the state is the same before and after. *)
Definition kept {B} (f : state -> B) (s s' : state * world) : Prop := f s'.1 = f s.1.
#[export] Instance kept_preorder {B} (f : state -> B) : PreOrder (kept f).
Proof. split; [done|]. intros x y z. unfold kept. congruence. Qed.
Lemma kept_zoom {B} (f : state -> B) {A} (m : IO A) : Pres (kept f) (zoom_snd m).
Proof. intros [l w]. unfold kept, zoom_snd. simpl. by destruct (m w). Qed.
Lemma kept_getl {B} (f : state -> B) : Pres (kept f) getl.
Proof. by intros s. Qed.
Lemma kept_modl {B} (f : state -> B) g : (forall l, f (g l) = f l) -> Pres (kept f) (modl g).
Proof. intros Hg s. apply Hg. Qed.
#[local] Hint Resolve kept_zoom kept_getl : pres.
#[local] Hint Extern 3 (Pres (kept _) (modl _)) => (apply kept_modl; intros ?; reflexivity) : pres.

(** What is no step, of the state *)
Definition others (s : state) := (failures s, target_prepared s, metadata s, restore_result s, beam_result s, verdict s).
Lemma on_others n g : Pres (kept others) (on n g).
Proof. unfold on. solve_pres. Qed.
#[local] Hint Resolve on_others : pres.
Lemma show_others n p : Pres (kept others) (show n p).
Proof. unfold show. solve_pres. Qed.
#[local] Hint Resolve show_others : pres.
Lemma both_others g : Pres (kept others) (both g).
Proof. unfold both. solve_pres. Qed.
#[local] Hint Resolve both_others : pres.
Lemma command_others n argv extra evidence timeout : Pres (kept others) (command d n argv extra evidence timeout).
Proof. unfold command, error. solve_pres. Qed.
Lemma cleanup_others : Pres (kept others) (cleanup d).
Proof. unfold cleanup, error. solve_pres. Qed.
#[local] Hint Resolve command_others cleanup_others : pres.
Lemma kept_of {B} (f : state -> B) {A} (m : M (state * world) A) : (forall x y, others x = others y -> f x = f y) ->
  Pres (kept others) m -> Pres (kept f) m.
Proof. intros Hf Hm s. apply Hf, Hm. Qed.
#[local] Hint Extern 4 (Pres (kept _) _) => (apply kept_of; [let E := fresh in intros [] [] E; unfold others in E; simpl in E; simplify_eq; reflexivity|solve [eauto with pres]]) : pres.

Definition flags (s : state) := (target_prepared s, failures s, verdict s).
Lemma assert_kept {B} (f : state -> B) o : Pres (kept f) (assert_some o).
Proof. unfold assert_some. solve_pres. Qed.
#[local] Hint Resolve assert_kept : pres.
Lemma before_flags : Pres (kept flags) before.
Proof. unfold before, select_backup. solve_pres. Qed.
Lemma restore_rest_flags : Pres (kept flags) restore_rest.
Proof. unfold restore_rest, take_restore_result, restore_failed, error. solve_pres. Qed.
Lemma verify_flags : Pres (kept flags) (verify_database d).
Proof. unfold verify_database, error. solve_pres. Qed.
Lemma probe_flags : Pres (kept flags) (beam_probe a d).
Proof. unfold beam_probe, error. solve_pres. Qed.

(** *** The order of the commands *)

Lemma traced_before : traced [fetch_argv; prepare_argv] before.
Proof.
  unfold before. apply traced_then; [solve_pres|intros _]. apply (traced_bind [fetch_argv] [prepare_argv]).
  - unfold select_backup. apply traced_last; [apply traced_command|intros _; solve_pres].
  - intros _. apply traced_command.
Qed.
Lemma traced_restore_rest : traced [restore_argv] restore_rest.
Proof.
  unfold restore_rest. apply traced_then; [solve_pres|intros started]. apply traced_last; [apply traced_start|].
  intros [[code o] e]. unfold take_restore_result, restore_failed, error. solve_pres.
Qed.
Lemma traced_after : traced [restore_argv; verify_argv; probe_argv] after.
Proof.
  unfold after. apply (traced_bind [restore_argv] [verify_argv; probe_argv]); [apply traced_restore_rest|intros _].
  apply (traced_bind [verify_argv] [probe_argv]).
  - unfold verify_database. apply traced_last; [apply traced_command|intros _]. unfold error. solve_pres.
  - intros _. apply traced_last; [|intros _; solve_pres]. unfold beam_probe.
    do 4 (apply traced_then; [solve_pres|intros ?]). apply traced_last; [apply traced_command|intros _]. unfold error. solve_pres.
Qed.

(** How far a run has come: [k] commands of the five, and whether the target is known to be prepared *)
Definition came (k : nat) (s s' : state * world) : Prop :=
  started_argv s' = rev (firstn k stages) ++ started_argv s /\
  (if target_prepared s'.1 then (2 <= k)%nat else (k <= 2)%nat).
Lemma flags_prepared {A} (m : M (state * world) A) : Pres (kept flags) m -> Pres (kept target_prepared) m.
Proof. intros Hm s. specialize (Hm s). unfold kept, flags in Hm |- *. by injection Hm as ->. Qed.
Lemma after_prepared : Pres (kept target_prepared) after.
Proof.
  unfold after. apply pres_bind; [apply _|apply flags_prepared, restore_rest_flags|intros _].
  apply pres_bind; [apply _|apply flags_prepared, verify_flags|intros _].
  apply pres_bind; [apply _|apply flags_prepared, probe_flags|intros _]. by apply kept_modl.
Qed.
Lemma body_came s r s' : body a d s = (r, s') -> target_prepared s.1 = false -> exists k, came k s s'.
Proof.
  intros E Hp. rewrite body_parts in E. unfold mbind at 1, M_bind at 1 in E. destruct (before s) as [[u|e] s1] eqn:E1.
  all: destruct (traced_before _ _ _ E1) as (k & T & K); pose proof (pres_run _ _ _ _ _ before_flags E1) as F1; unfold kept, flags in F1.
  - rewrite (K u eq_refl) in T. unfold mbind, M_bind in E. cbn [modl] in E. destruct (traced_after _ _ _ E) as (k2 & T2 & _).
    pose proof (pres_run _ _ _ _ _ after_prepared E) as F2. unfold kept in F2. cbn [fst] in F2. exists (2 + k2)%nat. split.
    + rewrite T2. unfold started_argv in T |- *. cbn [snd]. rewrite T. simpl. by rewrite <-!app_assoc.
    + rewrite F2. simpl. lia.
  - injection E as <- <-. exists (min k 2). split; [|injection F1 as -> _ _; rewrite Hp; lia]. rewrite T. do 2 f_equal.
    destruct k as [|[|k]]; [done..|]. by destruct k.
Qed.
Lemma start_logs argv timeout w : map PyOs.argv (log (start argv [] timeout w).2) = argv :: map PyOs.argv (log w).
Proof.
  unfold start, mbind, M_bind, env_with. cbn [gets rmap lift mret]. unfold mbind, M_bind, gets, lift, mret, M_ret. cbn.
  by rewrite run_completed_log.
Qed.
Lemma cleanup_started s r s' : cleanup d s = (r, s') ->
  started_argv s' = (if target_prepared s.1 then [cleanup_argv] else []) ++ started_argv s.
Proof.
  intros E. unfold cleanup in E. unfold mbind at 1, M_bind at 1, zoom_snd at 1 in E. cbn [monotonic fst snd] in E.
  unfold mbind at 1, M_bind at 1, getl at 1 in E. cbn [fst snd] in E. destruct (target_prepared s.1) eqn:Ep; cbn [negb] in E.
  - match type of E with (mbind ?f ?m) ?s1 = _ =>
      assert (forall x, Pres (on_snd same_log) (f x)) as P by (intros [[code o] e]; unfold error; solve_pres) end.
    unfold mbind at 1, M_bind at 1, zoom_snd at 1 in E. cbn [fst snd] in E.
    match type of E with context [start ?x [] ?t ?w] => pose proof (start_logs x t w) as Hl; destruct (start x [] t w) as [[x1|e] w1] end; cbn [snd] in Hl.
    + pose proof (pres_run _ _ _ _ _ (P x1) E) as Hs. unfold on_snd, same_log in Hs. cbn [snd] in Hs. unfold started_argv. by rewrite Hs, Hl.
    + injection E as _ <-. exact Hl.
  - match type of E with ?m ?s1 = _ => assert (Pres (on_snd same_log) m) as P by solve_pres end.
    pose proof (pres_run _ _ _ _ _ P E) as Hl. unfold on_snd, same_log in Hl. unfold started_argv. by rewrite Hl.
Qed.
Lemma attempted_came s r s' : attempted a d s = (r, s') -> target_prepared s.1 = false -> exists k prepared,
  started_argv s' = (if prepared : bool then [cleanup_argv] else []) ++ rev (firstn k stages) ++ started_argv s /\
  (if prepared then (2 <= k)%nat else (k <= 2)%nat) /\ target_prepared s'.1 = prepared.
Proof.
  intros E Hp. unfold attempted, finally in E. destruct (catch (body a d) _ s) as [rb sb] eqn:Eb.
  assert (exists k, came k s sb) as (k & T & F).
  { unfold catch in Eb. destruct (body a d s) as [[u|e] s1] eqn:E1; destruct (body_came _ _ _ E1 Hp) as (k & T & F); exists k.
    - injection Eb as _ <-. by split.
    - destruct (on_exn body_errors _ e) as [h|] eqn:Eh.
      + apply on_exn_Some in Eh as [_ ->]. injection Eb as _ <-. split; [exact T|exact F].
      + injection Eb as _ <-. by split. }
  exists k, (target_prepared sb.1). split; [|split; [exact F|]].
  2: { assert (forall h, Pres (kept target_prepared) (catch (cleanup d) (on_exn h (λ e, modl (with_failure (safe_message e)) ;; modl (with_verdict "failed"))))) as P by (intros h; solve_pres).
    pose proof (P [DrillError; TimeoutExpired; CalledProcessError; OSError] sb) as Pk. unfold kept in Pk. destruct (catch (cleanup d) _ sb) as [[u|e] sc]; injection E as _ <-; exact Pk. }
  assert (exists rc sc, cleanup d sb = (rc, sc) /\ started_argv s' = started_argv sc) as (rc & sc & Ec & ->).
  { destruct (cleanup d sb) as [rc sc] eqn:Ec. exists rc, sc. split; [done|]. unfold catch in E. rewrite Ec in E. destruct rc as [u|e].
    - by destruct rb, u; injection E as _ <-.
    - destruct (on_exn _ _ e) as [h|] eqn:Eh; [apply on_exn_Some in Eh as [_ ->]|]; by destruct rb; injection E as _ <-. }
  rewrite (cleanup_started _ _ _ Ec), T. by destruct (target_prepared sb.1).
Qed.

(** *** Statements that have ended normally *)

Lemma start_did argv extra timeout w o e w' : start argv extra timeout w = (Ok (0, o, e), w') -> did [argv] w w'.
Proof.
  unfold start. intros E. apply M_bind_Ok in E as (env & w1 & E1 & E). pose proof (pres_eq_run _ _ _ _ (ro_env_with extra) E1) as ->.
  apply run_completed_ran in E as (L & S & _). by exists [Proc argv (Some timeout) env (Some ROOT)].
Qed.

(** The names and verdicts of the steps *)
Definition statuses (s : state) : list (string * string) := map (λ x, (name x, status x)) (steps s).
Definition mark (n v : string) (l : list (string * string)) : list (string * string) :=
  map (λ p, if String.eqb p.1 n then (p.1, v) else p) l.
Lemma on_mark n v (s s' : state * world) u : on n (ended v) s = (Ok u, s') -> statuses s'.1 = mark n v (statuses s.1) /\ s'.2 = s.2.
Proof.
  intros ->%modl_Ok. split; [|done]. unfold statuses, mark, with_steps, on_step. simpl. rewrite !map_map. apply map_ext. intros x.
  simpl. by destruct (String.eqb (name x) n).
Qed.
Lemma on_statuses n g : (forall x, name (g x) = name x /\ status (g x) = status x) -> Pres (kept statuses) (on n g).
Proof.
  intros Hg. apply kept_modl. intros l. unfold statuses, with_steps, on_step. simpl. rewrite map_map. apply map_ext. intros x.
  destruct (String.eqb (name x) n); [|done]. by destruct (Hg x) as [-> ->].
Qed.
#[local] Hint Extern 3 (Pres (kept statuses) (on _ _)) => (apply on_statuses; by intros []) : pres.
Lemma show_statuses n p : Pres (kept statuses) (show n p).
Proof. unfold show. solve_pres. Qed.
#[local] Hint Resolve show_statuses : pres.
Lemma both_statuses g : (forall x, name (g x) = name x /\ status (g x) = status x) -> Pres (kept statuses) (both g).
Proof. intros Hg. unfold both. apply pres_bind; [apply _| |intros _]; by apply on_statuses. Qed.
#[local] Hint Extern 3 (Pres (kept statuses) (both _)) => (apply both_statuses; by intros []) : pres.
Lemma both_mark v (s s' : state * world) u : both (ended v) s = (Ok u, s') ->
  statuses s'.1 = mark "wal-pitr" v (mark "restore-isolated-target" v (statuses s.1)) /\ s'.2 = s.2.
Proof.
  unfold both. intros E. apply M_bind_Ok in E as (u1 & s1 & E1 & E). apply on_mark in E1 as [E1 W1], E as [E W]. by rewrite E, E1, W, W1.
Qed.

(** What a statement on the world, and one on the steps, leaves behind *)
Ltac quiet E := let L := fresh "L" in let T := fresh "T" in
  match type of E with ?m ?s0 = _ =>
    assert (same_log s0.2 (m s0).2.2) as L by (assert (Pres (on_snd same_log) m) as L by solve_pres; exact (L s0));
    assert (statuses (m s0).2.1 = statuses s0.1) as T by (assert (Pres (kept statuses) m) as T by solve_pres; exact (T s0));
    rewrite E in L, T; cbn [fst snd] in L, T end.

Lemma command_Ok n argv extra evidence timeout s u s' : command d n argv extra evidence timeout s = (Ok u, s') ->
  did [argv] s.2 s'.2 /\ statuses s'.1 = mark n "passed" (statuses s.1) /\ others s'.1 = others s.1.
Proof.
  intros E. split_and!; [| |exact (pres_run _ _ _ _ _ (command_others n argv extra evidence timeout) E)].
  all: unfold command in E; apply M_bind_Ok in E as (started & s1 & E1 & E); quiet E1.
  all: apply M_bind_Ok in E as ([[code o] e] & s2 & E2 & E); apply zoom_Ok in E2 as [E2 F2]; cbv beta iota in E.
  all: do 5 (apply M_bind_Ok in E as (? & ? & ?X & E)).
  all: destruct (Z.eqb_spec code 0) as [->|]; cbn [negb] in E; [|by apply M_bind_Ok in E as (? & ? & _ & E)].
  - apply start_did in E2. quiet X. quiet X0. quiet X1. quiet X2. quiet X3. apply on_mark in E as [_ ->].
    eapply did_before; [exact L|]. eapply did_after; [exact E2|]. unfold same_log in *; congruence.
  - quiet X. quiet X0. quiet X1. quiet X2. quiet X3. apply on_mark in E as [-> _]. congruence.
Qed.

(** *** The commands and their environment *)

(** What a command is told, whatever it inherits *)
Ltac by_lookup := unfold Dict.update; cbn [fold_left fst snd];
  repeat (rewrite Dict.lookup_set_ne by done); by rewrite Dict.lookup_set.

(** A process of this command line started between two worlds *)
Definition began (w w' : world) (argv : list string) (p : proc) : Prop :=
  PyOs.argv p = argv /\ exists new, log w' = new ++ log w /\ p ∈ new.
Lemma began_before w w1 w2 argv p : log_grows w w1 -> began w1 w2 argv p -> began w w2 argv p.
Proof. intros [l E] (A & new & L & Hp). split; [done|]. exists (new ++ l). split; [by rewrite L, E, app_assoc|]. apply elem_of_app. by left. Qed.
Lemma began_after w w1 w2 argv p : began w w1 argv p -> log_grows w1 w2 -> began w w2 argv p.
Proof. intros (A & new & L & Hp) [l E]. split; [done|]. exists (l ++ new). split; [by rewrite E, L, app_assoc|]. apply elem_of_app. by right. Qed.
Lemma did_grows l w w' : did l w w' -> log_grows w w'.
Proof. intros (ps & _ & L & _). by exists ps. Qed.
Definition strings_of (extra : list (string * val)) : res (list (string * string)) := rmap (λ kv, v ← expect_str kv.2; Ok (kv.1, v)) extra.
Lemma start_began argv extra timeout w r w' : start argv extra timeout w = (Ok r, w') -> exists own env p,
  strings_of extra = Ok own /\ began w w' argv p /\ proc_env p = Dict.update own env.
Proof.
  unfold start. intros E. apply M_bind_Ok in E as (env & w1 & E1 & E). unfold env_with in E1.
  apply M_bind_Ok in E1 as (base & w2 & [= <- <-] & E1). apply M_bind_Ok in E1 as (own & w2 & [O ->]%lift_Ok & E1). apply ret_Ok in E1 as [<- ->].
  exists own, (environ w), (Proc argv (Some timeout) (Dict.update own (environ w)) (Some ROOT)). split; [exact O|]. split; [|reflexivity].
  pose proof (run_completed_log (Proc argv (Some timeout) (Dict.update own (environ w)) (Some ROOT)) w) as El. rewrite E in El. cbn [snd] in El.
  split; [done|]. exists [Proc argv (Some timeout) (Dict.update own (environ w)) (Some ROOT)]. split; [exact El|by left].
Qed.
Lemma command_began n argv extra evidence timeout s u s' : command d n argv extra evidence timeout s = (Ok u, s') -> exists own env p,
  strings_of extra = Ok own /\ began s.2 s'.2 argv p /\ proc_env p = Dict.update own env.
Proof.
  intros E. unfold command in E. apply M_bind_Ok in E as (started & s1 & E1 & E). quiet E1.
  apply M_bind_Ok in E as (r & s2 & [E2 _]%zoom_Ok & E). destruct (start_began _ _ _ _ _ _ E2) as (own & env & p & O & B & P). destruct r as [[code o] e].
  cbv beta iota in E. exists own, env, p. split; [done|]. split; [|done]. match type of E with ?m ?s0 = _ => assert (Pres (on_snd same_log) m) as Q by (unfold error; solve_pres) end.
  pose proof (pres_run _ _ _ _ _ Q E) as Q'. clear E. eapply began_after; [|by exists []; exact Q'].
  eapply began_before; [|exact B]. by exists [].
Qed.

(** *** The evidence of a step *)

Lemma contract_Ok p v t w u w' : validate p v t w = (Ok u, w') ->
  exists schema, load_json p w = (Ok schema, w) /\ sorted_errors schema v = Ok [].
Proof.
  unfold validate. intros E. apply M_bind_Ok in E as (schema & w1 & E1 & E). pose proof (pres_eq_run _ _ _ _ (ro_drill_load p) E1) as ->.
  exists schema. split; [done|]. apply M_bind_Ok in E as (? & w2 & _ & E). apply M_bind_Ok in E as (es & w3 & [Es _]%lift_Ok & E).
  by destruct es.
Qed.
(** A document as it is in the world these commands have left, where it fits its schema *)
Definition documented (l : list (list string)) (w : world) (p schema : path) (v : val) : Prop :=
  exists w1 contract, did l w w1 /\ load_json p w1 = (Ok v, w1) /\ load_json schema w1 = (Ok contract, w1) /\ sorted_errors contract v = Ok [].
Lemma documented_then l1 l2 w w1 p schema v : did l1 w w1 -> documented l2 w1 p schema v -> documented (l2 ++ l1) w p schema v.
Proof. intros D (w2 & c & D2 & E). exists w2, c. split; [by eapply did_then|done]. Qed.


(** The backup is of this commit and migration, and the reviewed instant is inside what can be restored. *)
Record restorable (m : val) : Prop := {
  bk_source : item m ["source"; "gitSha"] = Ok (VStr (git_sha d));
  bk_migration : exists v, item m ["migration"; "currentVersion"] = Ok v /\ py_eq v (VInt 8) = true;
  bk_window : exists t started archive text archived,
    item m ["backup"; "startedAt"] = Ok t /\ parse_time t = Ok started /\
    getitem (backup_status_document d) "archive" = Ok archive /\ dget archive "lastArchivedAt" = Ok text /\
    parse_time text = Ok archived /\ started <= pitr_target d <= archived
}.
Lemma guard_Ok b m (w : world) u w' : guard b m w = (Ok u, w') -> b = true /\ w' = w.
Proof. unfold guard. destruct b; [|done]. by intros [_ ->]%ret_Ok. Qed.
Lemma check_metadata_Ok m w u w' : check_metadata d m w = (Ok u, w') -> restorable m /\
  exists contract, load_json BACKUP_SCHEMA w = (Ok contract, w) /\ sorted_errors contract m = Ok [].
Proof.
  unfold check_metadata. intros E. apply M_bind_Ok in E as (? & w1 & E1%contract_Ok & E). split; [clear E1|done].
  apply M_bind_Ok in E as (g & w2 & [G ->]%lift_Ok & E). apply M_bind_Ok in E as (? & w2 & [Hg ->]%guard_Ok & E).
  apply M_bind_Ok in E as (v & w2 & [V ->]%lift_Ok & E). apply M_bind_Ok in E as (? & w2 & [Hv ->]%guard_Ok & E).
  apply M_bind_Ok in E as (t & w2 & [T ->]%lift_Ok & E). apply bind_Ok in T as (started & Ts & T).
  apply M_bind_Ok in E as (text & w2 & [X ->]%lift_Ok & E). apply bind_Ok in X as (archive & Xa & X).
  apply M_bind_Ok in E as (? & w2 & [Hx ->]%guard_Ok & E). apply M_bind_Ok in E as (archived & w2 & [A ->]%lift_Ok & E).
  apply guard_Ok in E as [[W1%Z.leb_le W2%Z.leb_le]%andb_true_iff _]. apply py_eq_str_r in Hg as ->.
  split; [done|by exists v|]. by exists started, t, archive, text, archived.
Qed.
(** The evidence that the release before this one can still be used *)
Definition compatible (v : val) : Prop := getitem v "database_provider_git_sha" = Ok (VStr (git_sha d)) /\
  (exists m, getitem v "to_migration" = Ok m /\ py_eq m (VInt 8) = true) /\ getitem v "v0_functions_retained" = Ok (VBool true).
Lemma is_true_Some v : is_true v = true -> v = VBool true.
Proof. destruct v as [|[]| | | | |]; done. Qed.
Lemma rollback_Ok w u w' : validate_rollback d w = (Ok u, w') -> exists v, documented [] w (rollback_path d) ROLLBACK_SCHEMA v /\ compatible v.
Proof.
  unfold validate_rollback. intros E. apply M_bind_Ok in E as (v & w1 & E1 & E). same_world E1.
  apply M_bind_Ok in E as (? & w1 & E2 & E). apply contract_Ok in E2 as C. same_world E2.
  apply M_bind_Ok in E as (g & w2 & [G ->]%lift_Ok & E). apply M_bind_Ok in E as (? & w2 & [Hg ->]%guard_Ok & E).
  apply M_bind_Ok in E as (b & w2 & [B ->]%lift_Ok & E). apply guard_Ok in E as [->%negb_true_iff _].
  apply py_eq_str_r in Hg as ->. apply ror_false in B as [B1 B2]. apply bind_Ok in B1 as (m & Hm & B1), B2 as (f & Hf & B2).
  injection B1 as B1%negb_false_iff. injection B2 as B2%negb_false_iff%is_true_Some. subst f. exists v.
  split; [destruct C as (c & C1 & C2); exists w, c; by split; [by apply did_nothing|]|].
  split; [done|]. split; [by exists m|done].
Qed.

(** *** The steps *)

Lemma selected_Ok s u s' : select_backup d s = (Ok u, s') -> did [fetch_argv] s.2 s'.2 /\
  statuses s'.1 = mark "select-latest-valid-backup" "passed" (statuses s.1) /\
  restore_result s'.1 = restore_result s.1 /\ beam_result s'.1 = beam_result s.1 /\
  exists m, metadata s'.1 = Some m /\ restorable m /\ documented [fetch_argv] s.2 (metadata_path d) BACKUP_SCHEMA m.
Proof.
  unfold select_backup. intros E. apply M_bind_Ok in E as (? & s1 & (D1 & T1 & O1)%command_Ok & E).
  apply M_bind_Ok in E as (? & s2 & E2 & E). quiet E2. apply zoom_Ok in E2 as [_ F2].
  apply M_bind_Ok in E as (m & s3 & E3 & E). quiet E3. apply zoom_Ok in E3 as [E3 F3].
  pose proof (pres_eq_run _ _ _ _ (ro_drill_load _) E3) as W3. rewrite W3 in E3.
  apply M_bind_Ok in E as (? & s4 & ->%modl_Ok & E). apply M_bind_Ok in E as (? & s5 & [E5 F5]%zoom_Ok & E). cbn [fst snd] in E5, F5.
  pose proof (pres_eq_run _ _ _ _ (ro_check_metadata d m) E5) as W5. apply check_metadata_Ok in E5 as (E5 & contract & C1 & C2). rewrite W3 in C1. pose proof (pres_run _ _ _ _ _ (show_others _ _) E) as O6. quiet E.
  split; [eapply did_after; [exact D1|unfold same_log in *; congruence]|].
  split; [rewrite T2, F5; unfold with_metadata, statuses; simpl; rewrite F3, F2; exact T1|].
  unfold kept, others in O1, O6. rewrite F5, F3, F2 in O6. unfold with_metadata in O6. simpl in O6. injection O6 as _ _ -> -> -> _. injection O1 as _ _ _ -> -> _.
  split; [done|]. split; [done|]. exists m. do 2 (split; [done|]). exists s2.2, contract. split; [by eapply did_after|done].
Qed.

(** The restored cluster: the result says so, and so does each of the four checks of the migrations. *)
Definition restored (v : val) : Prop := getitem v "success" = Ok (VBool true).
Definition migrated (v : val) : Prop := exists checks, checks_of v = Ok checks /\
  forall n, n ∈ migration_names -> passed_check checks n = true.
Lemma take_Ok s u s' : take_restore_result d s = (Ok u, s') -> did [] s.2 s'.2 /\ statuses s'.1 = statuses s.1 /\
  metadata s'.1 = metadata s.1 /\ beam_result s'.1 = beam_result s.1 /\
  exists v, restore_result s'.1 = Some v /\ restored v /\ documented [] s.2 (restore_result_path d) RESTORE_SCHEMA v.
Proof.
  unfold take_restore_result. intros E. apply M_bind_Ok in E as (f & s1 & E1 & E). quiet E1. apply zoom_Ok in E1 as [_ F1].
  apply M_bind_Ok in E as (g & s2 & E2 & E). quiet E2. assert (s2.1 = s1.1) as F2.
  { destruct f; [by apply zoom_Ok in E2 as [_ ->]|by apply ret_Ok in E2 as [_ ->]]. }
  apply M_bind_Ok in E as (? & s3 & E3 & E). assert (s3 = s2) as ->.
  { destruct g; [by apply ret_Ok in E3 as [_ ->]|]. unfold restore_failed in E3. by apply M_bind_Ok in E3 as (? & ? & _ & E3). }
  clear E3. apply M_bind_Ok in E as (? & s3 & E3 & E). quiet E3. apply zoom_Ok in E3 as [_ F3].
  apply M_bind_Ok in E as (? & s4 & E4 & E). quiet E4. apply zoom_Ok in E4 as [_ F4].
  apply M_bind_Ok in E as (v & s5 & E5 & E). quiet E5. apply zoom_Ok in E5 as [E5 F5].
  pose proof (pres_eq_run _ _ _ _ (ro_drill_load _) E5) as W5. rewrite W5 in E5.
  apply M_bind_Ok in E as (? & s6 & ->%modl_Ok & E). apply M_bind_Ok in E as (? & s7 & E7 & E). quiet E7. apply zoom_Ok in E7 as [E7 F7].
  cbn [snd] in E7. apply contract_Ok in E7 as (contract & C1 & C2). rewrite W5 in C1.
  apply M_bind_Ok in E as (success & s8 & [E8 ->]%lift_Ok & E). apply M_bind_Ok in E as (? & s8 & E9 & E).
  destruct (is_true success) eqn:Es; [apply ret_Ok in E9 as [_ ->]|by apply M_bind_Ok in E9 as (? & ? & _ & E9)].
  apply is_true_Some in Es as ->. apply M_bind_Ok in E as (? & s9 & E9 & E).
  pose proof (pres_run _ _ _ _ _ (show_others _ _) E9) as O1. quiet E9. pose proof (pres_run _ _ _ _ _ (show_others _ _) E) as O2. quiet E.
  unfold kept, others in O1, O2. rewrite O1, F7 in O2. unfold with_restore in O2. simpl in O2. rewrite F5, F4, F3, F2, F1 in O2.
  injection O2 as _ _ -> -> -> _. split; [apply did_nothing; unfold same_log in *; simpl in *; congruence|].
  split; [rewrite T6, T5, F7; unfold with_restore, statuses; simpl; by rewrite F5, F4, F3, F2, F1|].
  split; [done|]. split; [done|]. exists v. do 2 (split; [done|]). exists s4.2, contract. split; [|done].
  apply did_nothing. unfold same_log in *; simpl in *; congruence.
Qed.
Lemma restore_Ok s u s' : restore d s = (Ok u, s') -> did [restore_argv; prepare_argv] s.2 s'.2 /\
  statuses s'.1 = mark "wal-pitr" "passed" (mark "restore-isolated-target" "passed" (mark "restore-isolated-target" "passed" (statuses s.1))) /\
  metadata s'.1 = metadata s.1 /\ beam_result s'.1 = beam_result s.1 /\
  (exists p, began s.2 s'.2 restore_argv p /\ Dict.lookup "LIQI_RESTORE_TARGET_TIME" (proc_env p) = Some (Time.iso_z (pitr_target d))) /\
  exists v, restore_result s'.1 = Some v /\ restored v /\
    documented [restore_argv; prepare_argv] s.2 (restore_result_path d) RESTORE_SCHEMA v.
Proof.
  unfold restore. fold prepare_argv restore_argv. intros E. apply M_bind_Ok in E as (? & s1 & (D1 & T1 & O1)%command_Ok & E).
  apply M_bind_Ok in E as (? & s2 & ->%modl_Ok & E). apply M_bind_Ok in E as (started & s3 & E3 & E). quiet E3. apply zoom_Ok in E3 as [_ F3].
  apply M_bind_Ok in E as ([[code o] e] & s4 & [E4 F4]%zoom_Ok & E). cbv beta iota in E.
  apply M_bind_Ok in E as (finished & s5 & E5 & E). quiet E5. apply zoom_Ok in E5 as [_ F5].
  apply M_bind_Ok in E as (? & s6 & E6 & E). pose proof (pres_run _ _ _ _ _ (both_others _) E6) as O6. quiet E6.
  apply M_bind_Ok in E as (? & s7 & E7 & E). quiet E7. apply zoom_Ok in E7 as [_ F7].
  apply M_bind_Ok in E as (? & s8 & E8 & E). pose proof (pres_run _ _ _ _ _ (show_others _ _) E8) as O8. quiet E8.
  apply M_bind_Ok in E as (? & s9 & E9 & E). pose proof (pres_run _ _ _ _ _ (show_others _ _) E9) as O9. quiet E9.
  apply M_bind_Ok in E as (? & s10 & E10 & E). destruct (Z.eqb_spec code 0) as [->|]; cbn [negb] in E10; [|by apply M_bind_Ok in E10 as (? & ? & _ & E10)].
  apply ret_Ok in E10 as [_ ->]. destruct (start_began _ _ _ _ _ _ E4) as (own & env & p & O & B & P). apply start_did in E4. apply M_bind_Ok in E as (? & s11 & E11 & E).
  pose proof (pres_run _ _ _ _ _ (both_others _) E11) as O11. apply both_mark in E11 as [T11 W11].
  apply take_Ok in E as (D12 & T12 & M12 & B12 & R12).
  assert (did [restore_argv; prepare_argv] s.2 s11.2) as D11.
  { change [restore_argv; prepare_argv] with ([restore_argv] ++ [prepare_argv]). eapply did_then; [exact D1|].
    eapply did_before; [exact L|]. eapply did_after; [exact E4|]. rewrite W11. unfold same_log in *; simpl in *; congruence. }
  split; [exact (did_then [restore_argv; prepare_argv] [] _ _ _ D11 D12)|].
  split; [rewrite T12, T11, T5, T4, T3, T2, T0, F4, T; change (statuses (with_prepared s1.1)) with (statuses s1.1); by rewrite T1|].
  unfold kept, others in O1, O6, O8, O9, O11. rewrite O9, O8, F7, O6, F5, F4, F3 in O11. simpl in O11.
  injection O11 as _ _ M11 _ B11 _. injection O1 as _ _ M1 _ B1 _. do 2 (split; [by rewrite ?M12, ?B12, ?M11, ?B11, ?M1, ?B1|]). split.
  - exists p. split; [|rewrite P; by injection O as <-; by_lookup].
    eapply began_before; [exact (did_grows _ _ _ D1)|]. eapply began_before; [exists []; exact L|]. eapply began_after; [exact B|].
    transitivity s11.2; [exists []; rewrite W11; unfold same_log in *; simpl in *; congruence|exact (did_grows _ _ _ D12)].
  - destruct R12 as (v & Rv & Rr & Rd). exists v. do 2 (split; [done|]). exact (documented_then _ [] _ _ _ _ _ D11 Rd).
Qed.
Lemma verified_Ok s u s' : verify_database d s = (Ok u, s') -> did [verify_argv] s.2 s'.2 /\
  statuses s'.1 = mark "verify-migrations" "passed" (mark "verify-platform-invariants" "passed" (statuses s.1)) /\
  metadata s'.1 = metadata s.1 /\ restore_result s'.1 = restore_result s.1 /\ beam_result s'.1 = beam_result s.1 /\
  forall v, restore_result s.1 = Some v -> migrated v.
Proof.
  unfold verify_database. fold verify_argv. intros E. apply M_bind_Ok in E as (? & s1 & (D1 & T1 & O1)%command_Ok & E).
  apply M_bind_Ok in E as (st & s2 & [-> ->]%getl_Ok & E). unfold kept, others in O1. injection O1 as _ _ M1 R1 B1 _.
  apply M_bind_Ok in E as (v & s2 & E2 & E). destruct (restore_result s1.1) as [v'|] eqn:Ev; [|done]. apply ret_Ok in E2 as [-> ->].
  apply M_bind_Ok in E as (checks & s2 & [E2 ->]%lift_Ok & E). apply M_bind_Ok in E as (? & s2 & E3 & E).
  destruct (forallb _ migration_names) eqn:Ef; [apply ret_Ok in E3 as [_ ->]|by apply M_bind_Ok in E3 as (? & ? & _ & E3)].
  apply M_bind_Ok in E as (? & s2 & E3 & E). pose proof (pres_run _ _ _ _ _ (on_others _ _) E3) as O3. apply on_mark in E3 as [T3 W3].
  apply M_bind_Ok in E as (? & s3 & E4 & E). pose proof (pres_run _ _ _ _ _ (on_others _ _) E4) as O4. quiet E4.
  pose proof (pres_run _ _ _ _ _ (show_others _ _) E) as O5. quiet E.
  split; [eapply did_after; [exact D1|]; unfold same_log in *; congruence|]. split; [by rewrite T0, T, T3, T1|].
  unfold kept, others in O3, O4, O5. rewrite O4, O3 in O5. injection O5 as _ _ -> -> -> _. rewrite Ev.
  do 3 (split; [congruence|]). intros y Hy. exists checks. rewrite <-R1 in Hy. injection Hy as <-. split; [done|].
  intros n Hn. rewrite forallb_forall in Ef. by apply Ef, list_elem_of_In.
Qed.
(** The probe through the release was made for this commit and this release. *)
Definition probed (v : val) : Prop := getitem v "git_sha" = Ok (VStr (git_sha d)) /\ getitem v "release_id" = Ok (VStr (release_id a)).
Lemma probe_Ok s u s' : beam_probe a d s = (Ok u, s') -> did [probe_argv] s.2 s'.2 /\
  statuses s'.1 = mark "elixir-read-only-probe" "passed" (statuses s.1) /\
  metadata s'.1 = metadata s.1 /\ restore_result s'.1 = restore_result s.1 /\
  (exists p, began s.2 s'.2 probe_argv p /\ Dict.lookup "LIQI_SOURCE_GIT_SHA" (proc_env p) = Some (git_sha d) /\
     Dict.lookup "LIQI_RELEASE_ID" (proc_env p) = Some (release_id a)) /\
  exists v, beam_result s'.1 = Some v /\ probed v /\ documented [probe_argv] s.2 (beam_output d) BEAM_SCHEMA v.
Proof.
  unfold beam_probe. fold probe_argv. intros E. apply M_bind_Ok in E as (st & s1 & [-> ->]%getl_Ok & E).
  apply M_bind_Ok in E as (m & s1 & E1 & E). assert (s1 = s) as ->. { destruct (metadata s.1); [by apply ret_Ok in E1 as [_ ->]|done]. }
  apply M_bind_Ok in E as (port & s1 & E2 & E). quiet E2. apply zoom_Ok in E2 as [_ F2].
  apply M_bind_Ok in E as (env & s2 & [Env ->]%lift_Ok & E). apply M_bind_Ok in E as (? & s3 & E3 & E).
  destruct (command_began _ _ _ _ _ _ _ _ E3) as (own & base & p & O & B & P). apply command_Ok in E3 as (D3 & T3 & O3).
  apply M_bind_Ok in E as (v & s4 & E4 & E). quiet E4. apply zoom_Ok in E4 as [E4 F4].
  pose proof (pres_eq_run _ _ _ _ (ro_drill_load _) E4) as W4. rewrite W4 in E4.
  apply M_bind_Ok in E as (? & s5 & ->%modl_Ok & E). apply M_bind_Ok in E as (? & s6 & E6 & E). quiet E6. apply zoom_Ok in E6 as [E6 F6].
  cbn [snd] in E6. apply contract_Ok in E6 as (contract & C1 & C2). rewrite W4 in C1.
  apply M_bind_Ok in E as (b & s7 & [E7 ->]%lift_Ok & E). destruct b; [done|]. apply ret_Ok in E as [_ ->].
  apply ror_false in E7 as [B1 B2]. apply bind_Ok in B1 as (g & Hg & B1), B2 as (r & Hr & B2).
  injection B1 as B1%negb_false_iff%py_eq_str_r. injection B2 as B2%negb_false_iff%py_eq_str_r. subst g r.
  split; [eapply did_before; [exact L|]; eapply did_after; [exact D3|]; unfold same_log in *; simpl in *; congruence|].
  rewrite F6. unfold kept, others in O3. injection O3 as _ _ M3 R3 _ _. unfold with_beam, statuses. simpl. rewrite F4.
  split; [change (map _ (steps s3.1)) with (statuses s3.1); by rewrite T3, T|]. rewrite M3, R3, F2. do 2 (split; [done|]). split.
  - exists p. split; [eapply began_before; [exists []; exact L|]; eapply began_after; [exact B|]; exists []; unfold same_log in *; simpl in *; congruence|].
    apply bind_Ok in Env as (probe & _ & Env). apply bind_Ok in Env as (event & _ & [= <-]). unfold strings_of in O.
    destruct probe; try done; destruct event; try done. injection O as <-. rewrite P. split; by_lookup.
  - exists v. do 2 (split; [done|]). exists s3.2, contract. split; [by eapply did_before|done].
Qed.
Lemma cleanup_Ok s u s' : cleanup d s = (Ok u, s') -> target_prepared s.1 = true -> did [cleanup_argv] s.2 s'.2 /\
  statuses s'.1 = mark "cleanup" "passed" (statuses s.1) /\ stat s'.2 (target_root d) = None.
Proof.
  unfold cleanup. fold cleanup_argv. intros E Hp. apply M_bind_Ok in E as (started & s1 & E1 & E). quiet E1. apply zoom_Ok in E1 as [_ F1].
  apply M_bind_Ok in E as (st & s2 & [-> ->]%getl_Ok & E). rewrite F1, Hp in E. cbn [negb] in E.
  apply M_bind_Ok in E as ([[code o] e] & s2 & [E2 F2]%zoom_Ok & E). cbv beta iota in E.
  apply M_bind_Ok in E as (finished & s3 & E3 & E). quiet E3. apply zoom_Ok in E3 as [_ F3].
  do 3 (apply M_bind_Ok in E as (? & ? & ?X & E)). quiet X. quiet X0. quiet X1. apply M_bind_Ok in E as (left_over & s4 & E4 & E).
  destruct left_over; [by apply M_bind_Ok in E as (? & ? & _ & E)|]. destruct (Z.eqb_spec code 0) as [->|]; cbn [negb] in E4; [|done].
  apply zoom_Ok in E4 as [E4 F4]. injection E4 as E4 W4. apply start_did in E2. apply on_mark in E as [T5 W5].
  split; [eapply did_before; [exact L|]; eapply did_after; [exact E2|]; unfold same_log in *; congruence|].
  split; [rewrite T5, F4; congruence|]. rewrite W5, <-W4. by destruct (stat _ (target_root d)).
Qed.

(** *** The ends of an attempt *)

Definition after_work : M (state * world) unit := restore_rest ;; verify_database d ;; beam_probe a d.
Lemma after_work_flags : Pres (kept flags) after_work.
Proof.
  unfold after_work. apply pres_bind; [apply _|apply restore_rest_flags|intros _].
  apply pres_bind; [apply _|apply verify_flags|intros _]. apply probe_flags.
Qed.
Lemma after_parts s : after s = (after_work ;; modl (with_verdict "passed")) s.
Proof. unfold after, after_work. rewrite !bind_assoc. apply bind_run_eq; [done|intros _ s1]. by rewrite !bind_assoc. Qed.
(** The verdict is given last. *)
Lemma body_flags s r s' : body a d s = (r, s') -> failures s'.1 = failures s.1 /\
  verdict s'.1 = (match r with Ok _ => "passed" | Raise _ => verdict s.1 end) /\ forall u, r = Ok u -> target_prepared s'.1 = true.
Proof.
  intros E. rewrite body_parts in E. unfold mbind at 1, M_bind at 1 in E. destruct (before s) as [[u|e] s1] eqn:E1.
  all: pose proof (pres_run _ _ _ _ _ before_flags E1) as F1; unfold kept, flags in F1; injection F1 as _ F1 V1.
  - unfold mbind at 1, M_bind at 1 in E. cbn [modl] in E. rewrite after_parts in E.
    unfold mbind at 1, M_bind at 1 in E. destruct (after_work _) as [[u2|e] s2] eqn:E2.
    all: pose proof (pres_run _ _ _ _ _ after_work_flags E2) as F2; unfold kept, flags in F2; injection F2 as P2 F2 V2; simpl in P2, F2, V2.
    all: injection E as <- <-; simpl; split; [congruence|]; split; [congruence|]; done.
  - injection E as <- <-. done.
Qed.

(** A complete attempt: everything was done, in order, each document was as it should be when it was read, and
    nothing is left of the target. *)
Record completed (w w' : world) (s : state) : Prop := {
  cp_did : did (cleanup_argv :: rev stages) w w';
  cp_rollback : exists v, documented [] w (rollback_path d) ROLLBACK_SCHEMA v /\ compatible v;
  cp_backup : exists m, metadata s = Some m /\ restorable m /\ documented [fetch_argv] w (metadata_path d) BACKUP_SCHEMA m;
  cp_instant : exists p, began w w' restore_argv p /\
    Dict.lookup "LIQI_RESTORE_TARGET_TIME" (proc_env p) = Some (Time.iso_z (pitr_target d));
  cp_restored : exists v, restore_result s = Some v /\ restored v /\ migrated v /\
    documented [restore_argv; prepare_argv; fetch_argv] w (restore_result_path d) RESTORE_SCHEMA v;
  cp_release : exists p, began w w' probe_argv p /\ Dict.lookup "LIQI_SOURCE_GIT_SHA" (proc_env p) = Some (git_sha d) /\
    Dict.lookup "LIQI_RELEASE_ID" (proc_env p) = Some (release_id a);
  cp_probed : exists v, beam_result s = Some v /\ probed v /\ documented (rev stages) w (beam_output d) BEAM_SCHEMA v;
  cp_gone : stat w' (target_root d) = None;
  cp_steps : all_passed (steps s) = true;
  cp_end : failures s = [] /\ verdict s = "passed"
}.
Lemma all_passed_statuses s : all_passed (steps s) = forallb (λ p, String.eqb p.2 "passed") (statuses s).
Proof. unfold all_passed, statuses. induction (steps s) as [|x l IH]; [done|]. simpl. by rewrite IH. Qed.
Lemma body_Ok w u s' : body a d (initial, w) = (Ok u, s') -> did (rev stages) w s'.2 /\
  (exists v, documented [] w (rollback_path d) ROLLBACK_SCHEMA v /\ compatible v) /\
  (exists m, metadata s'.1 = Some m /\ restorable m /\ documented [fetch_argv] w (metadata_path d) BACKUP_SCHEMA m) /\
  (exists p, began w s'.2 restore_argv p /\ Dict.lookup "LIQI_RESTORE_TARGET_TIME" (proc_env p) = Some (Time.iso_z (pitr_target d))) /\
  (exists v, restore_result s'.1 = Some v /\ restored v /\ migrated v /\
     documented [restore_argv; prepare_argv; fetch_argv] w (restore_result_path d) RESTORE_SCHEMA v) /\
  (exists p, began w s'.2 probe_argv p /\ Dict.lookup "LIQI_SOURCE_GIT_SHA" (proc_env p) = Some (git_sha d) /\
     Dict.lookup "LIQI_RELEASE_ID" (proc_env p) = Some (release_id a)) /\
  (exists v, beam_result s'.1 = Some v /\ probed v /\ documented (rev stages) w (beam_output d) BEAM_SCHEMA v) /\
  statuses s'.1 = mark "elixir-read-only-probe" "passed" (mark "verify-migrations" "passed" (mark "verify-platform-invariants" "passed"
    (mark "wal-pitr" "passed" (mark "restore-isolated-target" "passed" (mark "restore-isolated-target" "passed"
    (mark "select-latest-valid-backup" "passed" (statuses initial))))))).
Proof.
  unfold body. intros E. apply M_bind_Ok in E as (? & s1 & [E1 F1]%zoom_Ok & E). cbn [fst snd] in E1, F1.
  pose proof (pres_eq_run _ _ _ _ (ro_rollback d) E1) as W1. apply rollback_Ok in E1 as R1.
  apply M_bind_Ok in E as (? & s2 & (D2 & T2 & _ & _ & m & M2 & B2 & Q2)%selected_Ok & E).
  apply M_bind_Ok in E as (? & s3 & (D3 & T3 & M3 & _ & (q & Bq & Lq) & v & V3 & R3 & Q3)%restore_Ok & E).
  apply M_bind_Ok in E as (? & s4 & (D4 & T4 & M4 & V4 & _ & G4)%verified_Ok & E).
  apply M_bind_Ok in E as (? & s5 & (D5 & T5 & M5 & V5 & (q2 & Bx & Lx) & b & H5 & P5 & Q5)%probe_Ok & E). apply modl_Ok in E as ->. cbn [fst snd].
  rewrite W1 in D2, Q2. pose proof (did_then _ _ _ _ _ D2 D3) as K3. pose proof (did_then _ _ _ _ _ K3 D4) as K4.
  pose proof (did_then _ _ _ _ _ K4 D5) as K5. split; [exact K5|]. split; [done|].
  unfold with_verdict, statuses. simpl. split; [exists m; split; [congruence|done]|].
  split; [exists q; split; [|done]; eapply began_before; [exact (did_grows _ _ _ D2)|]; eapply began_after; [exact Bq|]; exact (did_grows _ _ _ (did_then _ _ _ _ _ D4 D5))|].
  split; [exists v; split; [congruence|]; split; [done|]; split; [by apply G4|exact (documented_then _ _ _ _ _ _ _ D2 Q3)]|].
  split; [exists q2; split; [eapply began_before; [exact (did_grows _ _ _ K4)|exact Bx]|done]|].
  split; [exists b; do 2 (split; [done|]); exact (documented_then _ _ _ _ _ _ _ K4 Q5)|].
  change (map _ (steps s5.1)) with (statuses s5.1). by rewrite T5, T4, T3, T2, F1.
Qed.
Lemma attempted_ends w u s' : attempted a d (initial, w) = (Ok u, s') ->
  completed w s'.2 s'.1 \/ failures s'.1 <> [] /\ verdict s'.1 = "failed".
Proof.
  unfold attempted, finally. intros E. destruct (catch (body a d) _ (initial, w)) as [rb sb] eqn:Eb.
  destruct (catch (cleanup d) _ sb) as [[uc|e] sc] eqn:Ec; [|done]. injection E as -> <-.
  apply catch_Ok in Ec as [Ec|(e & s2 & k & Ec & [_ ->]%on_exn_Some & Ek)].
  2: { right. apply M_bind_Ok in Ek as (? & s3 & ->%modl_Ok & ->%modl_Ok). simpl. by destruct (failures s2.1). }
  pose proof (pres_run _ _ _ _ _ cleanup_others Ec) as Oc. unfold kept, others in Oc. injection Oc as Fc Pc Mc Rc Bc Vc.
  apply catch_Ok in Eb as [Eb|(e & s2 & k & Eb & [_ ->]%on_exn_Some & Ek)].
  - left. destruct (body_flags _ _ _ Eb) as (F & V & P). specialize (P u eq_refl). destruct (body_Ok _ _ _ Eb) as (D & R & M & (q & Bq & Lq) & G & (q2 & Bx & Lx) & B & T).
    apply cleanup_Ok in Ec as (Dc & Tc & Sc); [|done]. pose proof (did_grows _ _ _ Dc) as Gc. split; rewrite ?Mc, ?Rc, ?Bc; try done.
    all: try (by eexists; split; [by eapply began_after|]).
    + exact (did_then _ _ _ _ _ D Dc).
    + rewrite all_passed_statuses, Tc, T. reflexivity.
    + by rewrite Fc, Vc, F, V.
  - right. destruct (body_flags _ _ _ Eb) as (F & V & _). apply modl_Ok in Ek as ->. simpl in Fc, Vc. rewrite Fc, Vc, F, V.
    split; [|done]. simpl. done.
Qed.

(** *** The published evidence *)

(** A document that says how the drill ended *)
Record reports (s : state) (st : string) (v : val) : Prop := {
  rp_identity : getitem v "git_sha" = Ok (VStr (git_sha d)) /\ getitem v "release_id" = Ok (VStr (release_id a));
  rp_status : getitem v "status" = Ok (VStr st);
  rp_steps : getitem v "steps" = Ok (VList (map document (steps s)));
  rp_failures : getitem v "failures" = Ok (VStrs (failures s));
  rp_mutated : item v ["mutations"; "isolated_target_mutated"] = Ok (VBool (target_prepared s));
  rp_valid : exists schema w, load_json RECOVERY_SCHEMA w = (Ok schema, w) /\ sorted_errors schema v = Ok []
}.
Lemma result_reports s st w v w' : result a d s st w = (Ok v, w') -> reports s st v.
Proof.
  unfold result. intros E. do 11 (apply M_bind_Ok in E as (? & ? & _ & E)). apply M_bind_Ok in E as (? & w1 & E1 & E).
  apply ret_Ok in E as [<- _]. apply contract_Ok in E1 as (schema & Es & Ev). split; try done. exists schema. by eexists.
Qed.
Definition published (s : state) (st : string) (w w' : world) : Prop :=
  exists v w1 w2, result a d s st w = (Ok v, w1) /\ reports s st v /\ write_json_atomic (output d) v w1 = (Ok tt, w2) /\ fs w' = fs w2.
Lemma run_ends w c s' : run a d (initial, w) = (Ok c, s') -> exists s1 st, attempted a d (initial, w) = (Ok tt, s1) /\
  published s1.1 st s1.2 s'.2 /\ log s'.2 = log s1.2 /\
  (c = 0 /\ st = "passed" /\ completed w s1.2 s1.1 \/ c = 1 /\ st = "failed" /\ failures s1.1 <> []).
Proof.
  unfold run. intros E. apply M_bind_Ok in E as ([] & s1 & E1 & E). apply M_bind_Ok in E as (l & s2 & [-> ->]%getl_Ok & E).
  set (st := if all_passed (steps s1.1) then verdict s1.1 else "failed") in E.
  apply M_bind_Ok in E as (v & s2 & E2 & E). quiet E2. apply zoom_Ok in E2 as [E2 _]. apply M_bind_Ok in E as ([] & s3 & E3 & E). quiet E3.
  apply zoom_Ok in E3 as [E3 _]. apply M_bind_Ok in E as (u & s4 & E4 & E). apply zoom_Ok in E4 as [E4 _]. injection E4 as _ E4.
  apply ret_Ok in E as [<- ->]. exists s1, st. split; [done|].
  split; [exists v, s2.2, s3.2; split; [done|]; split; [by eapply result_reports|]; split; [done|by rewrite <-E4]|].
  split; [rewrite <-E4; unfold same_log in *; simpl; congruence|]. destruct (attempted_ends _ _ _ E1) as [C|[F V]].
  - left. assert (st = "passed") as ->; [|done]. unfold st. rewrite (cp_steps _ _ _ C). apply (cp_end _ _ _ C).
  - right. assert (st = "failed") as ->; [|done]. unfold st. rewrite V. by destruct (all_passed _).
Qed.
End Facts.

Section Program.
Context `{Platform} (a : args).

Lemma current_git_logs w : map argv (log (current_git_sha w).2) = CiProvenance.rev_parse :: map argv (log w).
Proof.
  unfold current_git_sha, error, throw, mraise, mbind, M_bind, gets.
  pose proof (run_completed_log (Proc CiProvenance.rev_parse None (environ w) (Some ROOT)) w) as El.
  destruct (run_completed _ w) as [[[[c o] e]|e] w1]; simpl in El |- *; [|by rewrite El].
  destruct (negb _); [simpl; by rewrite El|]. destruct (hex_digits _ _); simpl; by rewrite El.
Qed.
Lemma init_started w r w' : init a w = (r, w') -> map argv (log w') = CiProvenance.rev_parse :: map argv (log w).
Proof.
  destruct (sl_init_rest a) as (f & -> & Hf). intros E. unfold mbind, M_bind in E. pose proof (current_git_logs w) as El.
  destruct (current_git_sha w) as [[g|e] w1]; cbn [snd] in El; [|by injection E as _ <-].
  pose proof (pres_run _ _ _ _ _ (Hf g) E) as Hs. unfold same_log in Hs. by rewrite Hs.
Qed.
Lemma run_started d w l r s' : run a d (l, w) = (r, s') -> exists r1 s1, attempted a d (l, w) = (r1, s1) /\ log s'.2 = log s1.2.
Proof.
  unfold run. intros E. unfold mbind at 1, M_bind at 1 in E. destruct (attempted a d (l, w)) as [[u|e] s1].
  - exists (Ok u), s1. split; [done|]. match type of E with ?m ?s0 = _ => assert (Pres (on_snd same_log) m) as P by solve_pres end.
    exact (pres_run _ _ _ _ _ P E).
  - injection E as _ <-. by exists (Raise e), s1.
Qed.

(** The disposable target is a place of its own below the approved root. *)
Definition disposable (d : drill) : Prop := exists r, r <> [] /\ target_root d = MkPath true (parts TARGET_BASE ++ r).
Lemma target_base : TARGET_BASE = MkPath true ["var"; "lib"; "liqi"; "recovery-exercises"].
Proof. vm_compute. reflexivity. Qed.
Lemma checked_target_Ok t w p w' : checked_target t w = (Ok p, w') -> exists r, r <> [] /\ p = MkPath true (parts TARGET_BASE ++ r).
Proof.
  unfold checked_target. rewrite target_base. intros E. apply M_bind_Ok in E as (q & w1 & E1 & E). unfold resolve in E1.
  destruct (canon w t) as [k|]; [|done]. injection E1 as <- _. destruct (Path.relative_to _ _) eqn:Er; [|done].
  destruct (bool_decide _ || _) eqn:Eb; [done|]. apply orb_false_iff in Eb as [Hb%bool_decide_eq_false _]. apply ret_Ok in E as [<- _].
  unfold Path.relative_to, Path.of_parts in *. cbn [absolute Bool.eqb parts] in *.
  destruct (Path.strip_parts _ k) as [r|] eqn:Es; [|done]. apply strip_parts_Some in Es as ->. exists r. split; [|done].
  intros ->. apply Hb. by rewrite app_nil_r.
Qed.
Lemma init_disposable w d w' : init a w = (Ok d, w') -> disposable d.
Proof.
  unfold init. intros E. repeat (apply M_bind_Ok in E as (? & ? & ?X & E)). apply ret_Ok in E as [<- _].
  match goal with H : checked_target _ _ = _ |- _ => apply checked_target_Ok in H as (r & Hr & ->) end. by exists r.
Qed.
Lemma main_Ok w c w' : main a w = (Ok c, w') -> c = 64 \/
  exists d w1 s1 st, init a w = (Ok d, w1) /\ attempted a d (initial, w1) = (Ok tt, s1) /\ published a d s1.1 st s1.2 w' /\
    log w' = log s1.2 /\
    (c = 0 /\ st = "passed" /\ completed a d w1 s1.2 s1.1 \/ c = 1 /\ st = "failed" /\ failures s1.1 <> []).
Proof.
  unfold main. intros E. apply catch_Ok in E as [E|(e & w1 & k & _ & [_ ->]%on_exn_Some & E)].
  2: { left. apply M_bind_Ok in E as (? & w2 & _ & E). by apply ret_Ok in E as [<- _]. }
  right. apply M_bind_Ok in E as (d & w1 & E1 & E). apply with_locals_Ok in E as (l & E).
  destruct (run_ends _ _ _ _ _ E) as (s1 & st & Ea & P & L & C). by exists d, w1, s1, st.
Qed.


(** A drill that ends with a verdict, passed (exit code 0) or failed (1), has published a valid document
    with that verdict, and with the reason of every failure: there is none when it passed and at least one
    when it failed. The document says that the target was changed exactly when the clean-up was started. *)
Theorem drill_reported w c w' : main a w = (Ok c, w') -> c <> 64 ->
  exists d w1 s st w2 k, init a w = (Ok d, w1) /\ published a d s st w2 w' /\
    (c = 0 /\ st = "passed" /\ failures s = [] \/ c = 1 /\ st = "failed" /\ failures s <> []) /\
    map argv (log w') = (if target_prepared s then [cleanup_argv d] else []) ++ rev (firstn k (stages d)) ++
      CiProvenance.rev_parse :: map argv (log w).
Proof.
  intros E Hc. destruct (main_Ok _ _ _ E) as [E'|(d & w1 & s1 & st & E1 & Ea & P & L & C)]; [done|].
  destruct (attempted_came a d _ _ _ Ea eq_refl) as (k & prepared & T & _ & <-). exists d, w1, s1.1, st, s1.2, k.
  split; [done|]. split; [done|]. split.
  - destruct C as [(-> & -> & C)|C]; [left|by right]. by rewrite (proj1 (cp_end _ _ _ _ _ C)).
  - rewrite L. unfold started_argv in T. cbn [snd] in T. by rewrite T, (init_started _ _ _ E1).
Qed.

(** C39: However a drill goes on and ends, normally or by an exception: once its inputs are accepted it
    starts an initial segment of its five commands, in their order, on one database and one disposable target;
    the backup is restored only into a target that is known to be prepared; and a prepared target is
    always followed by its clean-up, as the last command of all. *)
Theorem drill_cleans_up w : let (r, w') := main a w in
  map argv (log w') = CiProvenance.rev_parse :: map argv (log w) \/
  exists d w1 k prepared, init a w = (Ok d, w1) /\ disposable d /\
    map argv (log w') = (if prepared : bool then [cleanup_argv d] else []) ++ rev (firstn k (stages d)) ++
      CiProvenance.rev_parse :: map argv (log w) /\
    (if prepared then (2 <= k)%nat else (k <= 2)%nat).
Proof.
  destruct (main a w) as [r w'] eqn:E. unfold main, catch in E.
  assert (exists r1 w1, (d ← init a; with_locals initial (run a d)) w = (r1, w1) /\ log w' = log w1) as (r1 & w1 & E1 & ->).
  { destruct ((d ← init a; with_locals initial (run a d)) w) as [[z|e] w1].
    - injection E as _ <-. by exists (Ok z), w1.
    - exists (Raise e), w1. split; [done|]. destruct (on_exn _ _ e) as [h|] eqn:Eh; [|by injection E as _ <-].
      apply on_exn_Some in Eh as [_ ->]. by injection E as _ <-. }
  unfold mbind, M_bind in E1. destruct (init a w) as [[d|e] w2] eqn:E2; pose proof (init_started _ _ _ E2) as Hi.
  2: { injection E1 as _ <-. by left. }
  right. unfold with_locals in E1. destruct (run a d (initial, w2)) as [r3 [l3 w3]] eqn:E3. injection E1 as _ <-.
  destruct (run_started _ _ _ _ _ E3) as (r4 & s4 & E4 & Hl). destruct (attempted_came a d _ _ _ E4 eq_refl) as (k & prepared & T & F & _).
  exists d, w2, k, prepared. split; [done|]. split; [by eapply init_disposable|]. split; [|done]. cbn [snd] in Hl. rewrite Hl. unfold started_argv in T. by rewrite T, <-Hi.
Qed.
End Program.
End RestoreDrillFacts.

(** ** A concrete drill *)

Module RestoreDrillRun.
Import Fixture RestoreDrill RestoreDrillFacts.

Definition commit : string := "0123456789abcdef0123456789abcdef01234567".
Definition base : string := "/var/lib/liqi/recovery-exercises/".
Definition evidence : string := "/out/restore-v1-5f0c1d7e9a3b4c6d-evidence/".
Definition the_label : string := "20260713-020000F".
Definition backup_metadata : val := VDict [("source", rec [("gitSha", commit)]); ("migration", VDict [("currentVersion", VInt 8)]);
  ("backup", rec [("label", the_label); ("startedAt", "2026-07-13T02:00:00Z"); ("stoppedAt", "2026-07-13T02:10:00Z")]);
  ("probe", rec [("probeId", "p-1"); ("eventId", "e-1")])].
Definition check_of (ok : bool) (n : string) : val := VDict [("name", VStr n); ("passed", VBool ok)].
Definition restore_document (ok : bool) : val := VDict [("success", VBool true); ("finishedAt", VStr "2026-07-14T05:59:00Z");
  ("workingTargets", VDict [("rpoObservedSeconds", VInt 20); ("rtoObservedSeconds", VInt 600)]);
  ("checks", VList (map (check_of ok) migration_names))].
Definition probe_document : val := rec [("git_sha", commit); ("release_id", "liqi-v1-2026.07")].
Definition status_text : string := json (VDict [("recoveryReady", VBool true); ("reasons", VList []);
  ("archive", rec [("lastArchivedAt", "2026-07-14T05:00:00Z")])]).
(** The scripts: the preparation, and whether the restored migrations are good, are given. *)
Definition tools (prepared : proc_out) (ok : bool) (_ : list proc) (p : proc) (f : filesystem) : proc_out * filesystem * Z :=
  let add := fold_left add_file in let fine := Exited 0 "" "" in
  match argv p with
  | "git" :: _ => (Exited 0 commit "", f, 1000)
  | "bash" :: script :: _ =>
      if Str.endswith "fetch-backup-metadata.sh" script
      then (fine, add [(evidence +:+ the_label +:+ ".json", json backup_metadata); (evidence +:+ the_label +:+ ".json.sha256", "x")] f, 1000)
      else if Str.endswith "prepare-restore-exercise.sh" script then (prepared, add [(base +:+ "x1/exercise.json", "{}")] f, 1000)
      else if Str.endswith "cleanup-restore-exercise.sh" script then (fine, delete_tree (parts (Path.of_str (base +:+ "x1"))) f, 2500)
      else if Str.endswith "verify-restore-exercise.sh" script then (fine, add [(evidence +:+ "recovery-status.json", "{}")] f, 1000)
      else if Str.endswith "database-restore-probe" script then (fine, add [(evidence +:+ "restore-beam-probe.json", json probe_document)] f, 1000)
      else (fine, add [(base +:+ "x1/evidence/restore-result.json", json (restore_document ok)); (base +:+ "x1/evidence/restore-result.json.sha256", "x")] f, 600000000)
  | _ => (fine, f, 1000)
  end.
Definition schemas : list (string * string) := map (λ n, ("/repo/contracts/" +:+ n +:+ ".schema.json", "{}"))
  ["readiness/recovery-result-v1"; "database/backup-metadata-v1"; "platform/database-backup-status-v0"; "platform/database-restore-result-v0";
   "database/restore-beam-probe-v1"; "deployment/v0-rollback-compatibility-v1"].
Definition w0 : world :=
  let w := world_with ([("/in/rollback.json", json (VDict [("database_provider_git_sha", VStr commit); ("to_migration", VInt 8);
      ("v0_functions_retained", VBool true)])); ("/in/password", "x"); ("/in/config.json", "{}"); ("/in/status.json", status_text);
    ("/in/status.sha256", Sha256.hexdigest status_text +:+ "  status.json"); (base +:+ ".keep", ""); ("/out/.keep", "")] ++ schemas) in
  World (fs w) (cwd w) [("LIQI_RECOVERY_ENVIRONMENT", "staging"); ("LIQI_RECOVERY_BACKUP_REF", BACKUP_PREFIX +:+ the_label);
    ("LIQI_RECOVERY_TARGET_ROOT", base +:+ "x1"); ("LIQI_RECOVERY_TARGET_DATABASE", "liqi_restore_drill");
    ("LIQI_RECOVERY_SOURCE_DATABASE_ID", "liqi-main"); ("LIQI_RESTORE_TARGET_TIME", "2026-07-14T04:00:00Z");
    ("LIQI_V0_ROLLBACK_COMPATIBILITY", "/in/rollback.json"); ("LIQI_DATABASE_API_PASSWORD_FILE", "/in/password");
    ("LIQI_RECOVERY_RELEASE_BIN", "/opt/liqi/bin/liqi"); ("LIQI_RUNTIME_CONFIG_PATH", "/in/config.json");
    ("LIQI_BACKUP_STATUS_FILE", "/in/status.json"); ("LIQI_BACKUP_STATUS_CHECKSUM_FILE", "/in/status.sha256")] 0 0 [] [] [].
Definition the_args : args := Args "liqi-v1-2026.07" "CHG-7" (Path.of_str "/out/recovery.json").
Definition works : Platform := host_with (tools (Exited 0 "" "") true).
(** The preparation makes the directories and then runs into its two minutes. *)
Definition slow : Platform := host_with (tools (Expired None) true).
Definition broken : Platform := host_with (tools (Exited 0 "" "") false).

Lemma drill_reported_witness : let host := broken in let w' := (main (H := host) the_args w0).2 in
  (1 <> 64) /\ exists d w1 s st w2 k, init (H := host) the_args w0 = (Ok d, w1) /\ published (H := host) the_args d s st w2 w' /\
    (1 = 0 /\ st = "passed" /\ failures s = [] \/ 1 = 1 /\ st = "failed" /\ failures s <> []) /\
    map argv (log w') = (if target_prepared s then [cleanup_argv d] else []) ++ rev (firstn k (stages d)) ++
      CiProvenance.rev_parse :: map argv (log w0).
Proof.
  intros host w'. split; [done|]. apply (drill_reported (H := host) the_args w0 1 w'); [|done].
  assert ((main (H := host) the_args w0).1 = Ok 1) as E by (vm_compute; reflexivity).
  unfold w'. destruct (main (H := host) the_args w0) as [r x]. cbn [fst snd] in E |- *. by rewrite E.
Defined.

Definition ends (host : Platform) (keys : list string) : res Z * option (res val) * list string * bool :=
  let '(r, w) := main (H := host) the_args w0 in
  (r, match stat w (a_output the_args) with Some (NFile d _) => option_map (λ v, item v keys) (Json.loads d) | _ => None end,
   map (λ p, Path.name (Path.of_str (nth 1 (argv p) ""))) (log w), is_some_node (stat w (Path.of_str (base +:+ "x1")))).
(** The drill as it should go: the restore takes ten minutes. *)
Example passes : ends works ["status"] = (Ok 0, Some (Ok (VStr "passed")), ["cleanup-restore-exercise.sh"; "database-restore-probe";
  "verify-restore-exercise.sh"; "restore-exercise.sh"; "prepare-restore-exercise.sh"; "fetch-backup-metadata.sh"; "rev-parse"], false).
Proof. vm_compute. reflexivity. Qed.
(** Migrations that do not verify end the drill; the target is cleaned up all the same. *)
Example unverified : ends broken ["failures"] = (Ok 1, Some (Ok (VStrs ["restored migration verification did not pass"])),
  ["cleanup-restore-exercise.sh"; "verify-restore-exercise.sh"; "restore-exercise.sh"; "prepare-restore-exercise.sh";
   "fetch-backup-metadata.sh"; "rev-parse"], false).
Proof. vm_compute. reflexivity. Qed.
(** A preparation that is cut off leaves its directories behind, and the evidence says that there was nothing to clean up. *)
Example left_behind : ends slow ["cleanup"; "status"] =
  (Ok 1, Some (Ok (VStr "passed")), ["prepare-restore-exercise.sh"; "fetch-backup-metadata.sh"; "rev-parse"], true) /\
  (ends slow ["mutations"; "isolated_target_mutated"]).1.1.2 = Some (Ok (VBool false)).
Proof. vm_compute. auto. Qed.
(** An empty checksum file is no checksum that differs, but an exception nothing catches. *)
Example empty_checksum : (main (H := works) the_args
  (set_fs (<[["in"; "status.sha256"] := NFile "" (Meta 420 0 0)]> (fs w0)) w0)).1 = raise IndexError "list index out of range".
Proof. vm_compute. reflexivity. Qed.
(** The patterns *)
Example patterns : map BACKUP_LABEL_RE ["20260713-020000F"; "20260713-020000F_20260714-020000I"; "20260713-020000F_20260714-020000F"; "x"] =
    [true; true; false; false] /\
  map RELEASE_RE ["liqi-v1-2026.07"; "liqi-v1-x"; "liqi-v1-.ab"] = [true; false; false] /\
  map TARGET_DB_RE ["liqi_restore_x1"; "liqi_restore_abc"; "liqi_restore_A12"] = [false; true; false].
Proof. vm_compute. auto. Qed.
End RestoreDrillRun.
