(* ===== verification/PrepareDeployment.v ===== *)
(** * infrastructure/deployment/prepare_mix_deployment.py

    The deployment package of a release: the outputs of the providers are verified
    and copied under one directory, and the wrapper that names each copy by its
    digest is signed. The verifiers and openssl are started processes. *)

From Stdlib Require Import Ascii.
From S2P Require Import Prelude PyFloat PyMonad PyValue PyTime PyJson Sha256 PyOs OsFacts FsFacts Fixture.
From S2P Require Import GenerateSpec ActivateRelease.

Module PrepareDeployment.
Import Evidence.

(** ** Identifiers *)

Definition lower (c : ascii) : bool := let n := N_of_ascii c in ((97 <=? n) && (n <=? 122))%N.
Definition word (extra : list ascii) (c : ascii) : bool := lower c || Str.is_digit c || inb Ascii.eqb c extra.
(** [first rest{lo,hi}], the whole of the string *)
Definition shaped (first rest : ascii -> bool) (lo hi : nat) (s : string) : bool :=
  match s with
  | String c r => first c && Str.all_chars rest r && Nat.leb lo (String.length r) && Nat.leb (String.length r) hi
  | EmptyString => false
  end.
Definition IDENT : string -> bool := shaped (word []) (word ["."; "_"; "-"]%char) 2 95.
(** The credential that a reference names *)
Definition CREDENTIAL (s : string) : option string :=
  match Str.strip_prefix "systemd-credential://" s with
  | Some n => if shaped lower (word ["-"%char]) 1 63 n then Some n else None
  | None => None
  end.

Definition runtime_error {A} (m : string) : res A := raise RuntimeError m.
Definition refuse (b : res bool) (m : string) : res unit := b ← b; if b : bool then runtime_error m else Ok tt.

Definition credential (reference : val) : res string :=
  s ← expect_str reference;
  match CREDENTIAL s with
  | Some n => Ok n
  | None => runtime_error ("production runtime secret must be a systemd credential: " +:+ s)
  end.
Definition EXPECTED_CREDENTIALS : list string := ["phoenix-secret-key-base"; "database-role-urls"; "drain-token"; "platform-probe-token"].
Definition same_names (l m : list string) : bool :=
  forallb (λ x, inb String.eqb x m) l && forallb (λ x, inb String.eqb x l) m.
Definition runtime_credentials (runtime : val) : res (list string) :=
  http ← item runtime ["http"; "secretRef"]; database ← item runtime ["database"; "secretRef"];
  drain ← item runtime ["shutdown"; "drainTokenRef"]; probe ← item runtime ["security"; "probeTokenRef"];
  names ← rmap credential [http; database; drain; probe];
  _ ← refuse (Ok (negb (nodupb String.eqb names))) "runtime secret identities must be unique";
  _ ← refuse (Ok (negb (same_names names EXPECTED_CREDENTIALS)))
    ("runtime credential contract mismatch: expected=" +:+ repr_strs (sort_strings EXPECTED_CREDENTIALS)
      +:+ " actual=" +:+ repr_strs (sort_strings names));
  Ok names.

(** [v[k] != x] *)
Definition differs (v : val) (ks : list string) (x : val) : res bool := y ← item v ks; Ok (py_ne y x).
Definition not_true (v : val) (ks : list string) : res bool := y ← item v ks; Ok (negb (is_true y)).
(** [v[k1] == v[k2] == 14] *)
Definition oban_differs (readiness : val) : res bool :=
  a ← getitem readiness "obanMigrationVersion"; b ← getitem readiness "requiredObanMigrationVersion";
  Ok (negb (py_eq a b && py_eq b (VInt 14))).
Definition database_ready (contract readiness runtime : val) : res Z :=
  _ ← refuse (ror (differs contract ["status"] (VStr "accepted")) (differs contract ["authority"] (VStr "postgresql-only-durable-authority")))
    "database provider contract is not accepted";
  r ← getitem contract "requiredMigration"; required ← py_int r;
  _ ← refuse (differs runtime ["database"; "requiredMigrationVersion"] (VInt required)) "runtime/database required migration mismatch";
  _ ← refuse (d ← getitem runtime "database"; get_ne d "credentialFormat" (VStr "role-url-bundle-v1"))
    "runtime database credential format is unsupported";
  _ ← refuse (rany id [differs readiness ["status"] (VStr "passed"); not_true readiness ["ready"]; not_true readiness ["writeReady"];
        differs readiness ["reason"] (VStr "ready"); differs readiness ["currentVersion"] (VInt required);
        differs readiness ["requiredVersion"] (VInt required); oban_differs readiness;
        (y ← getitem readiness "inRecovery"; Ok (negb (is_false y)))])
    "database migration readiness is not exact and write-ready";
  Ok required.

(** [".." in path.parts], and the rest of what a relative name may not be *)
Definition relative_path (name : string) : option path :=
  let p := Path.of_str name in if absolute p || inb String.eqb ".." (parts p) then None else Some p.
Definition safe_child (base : path) (name : val) : res path :=
  n ← expect_str name;
  match relative_path n with
  | Some p => if Nat.eqb (length (parts p)) 1 then Ok (Path.div base n) else runtime_error ("unsafe artifact filename: " +:+ n)
  | None => runtime_error ("unsafe artifact filename: " +:+ n)
  end.

Record args := Args { provider_manifest : path; provider_trust_dir : path; runtime_config : path; database_contract : path;
  migration_readiness : path; native_manifest : list path; rollback_target_descriptor : option path;
  deployment_key_id : string; deployment_signing_key : path; a_output_dir : path }.

Section Env.
Context `{Platform}.
(** The digests of the names copied so far *)
Abbreviation seen := (list (string * string)).
Abbreviation P := (M (seen * world)).

Definition ROOT : path := repo_root.
Definition load (p : path) : IO val := load_json p.
Definition digest (p : path) : IO string := sha256_chunked p.
Definition validate (schema_path : path) (document : val) (label : string) : IO unit :=
  schema ← load schema_path;
  failures ← lift (sorted_errors schema document);
  match failures with
  | f :: _ => throw RuntimeError (label +:+ " invalid at " +:+ render_error f)
  | [] => mret tt
  end.
Definition contract (name : string) : path := Path.div ROOT ("contracts/" +:+ name +:+ ".schema.json").

(** ** Copies *)

(** [base.joinpath] of the parts of [relative]: an absolute one starts again from the root. *)
Definition joined (base relative : path) : path :=
  if absolute relative then relative else MkPath (absolute base) (parts base ++ parts relative).
Definition or_name (relative_name : option string) (source : path) : string :=
  match relative_name with Some n => if String.eqb n "" then Path.name source else n | None => Path.name source end.
Definition copy_exact (source out : path) (relative_name : option string) : P path :=
  f ← zoom_snd (is_file source);
  if negb f then throw FileNotFoundError (Path.to_str source) else
  sha ← zoom_snd (digest source);
  let name := or_name relative_name source in
  match relative_path name with
  | None => throw RuntimeError ("unsafe deployment package path: " +:+ name)
  | Some relative =>
      let key := Path.to_str relative in
      seen ← getl;
      match Dict.lookup key seen with
      | Some previous => if String.eqb previous sha then mret tt else throw RuntimeError ("deployment package filename collision: " +:+ key)
      | None => mret tt
      end ;;
      let target := joined out relative in
      zoom_snd (mkdir_p (Path.parent target)) ;;
      there ← zoom_snd (exists_ target);
      mwhen (negb there) (zoom_snd (copyfile source target) ;; zoom_snd (chmod target 416)) ;;
      modl (Dict.set key sha) ;;
      mret target
  end.

(** ** Started processes *)

Definition started (argv : list string) (timeout : Z) (cwd : option path) : IO (Z * string * string) :=
  p ← gets (λ w, Proc argv (Some timeout) (environ w) cwd); run_completed p.
(** [(result.stderr or result.stdout or "unknown")[-4096:]] *)
Definition detail (stdout stderr : string) : string :=
  Str.last_n 4096 (if negb (String.eqb stderr "") then stderr else if negb (String.eqb stdout "") then stdout else "unknown").
Definition or_text (s t : string) : string := if String.eqb s "" then t else s.

Definition verifier_argv (manifest trust_dir output : path) : list string :=
  [executable; Path.to_str (Path.div ROOT "beam/scripts/validate_release_manifest.py"); "--manifest"; Path.to_str manifest;
   "--trust-dir"; Path.to_str trust_dir; "--output"; Path.to_str output].
Definition run_runtime_verifier (manifest trust_dir output : path) : IO val :=
  r ← started (verifier_argv manifest trust_dir output) 900 (Some ROOT);
  let '(code, o, e) := r in
  if negb (code =? 0) then throw RuntimeError ("Senior 1 release verification failed: " +:+ detail o e) else
  document ← load output;
  validate (contract "runtime/runtime-artifact-result-v1") document "runtime artifact result" ;;
  bad ← lift (ror (differs document ["status"] (VStr "passed")) (b ← getitem document "blockers"; Ok (truthy b)));
  if bad : bool then b ← lift (getitem document "blockers"); throw RuntimeError ("runtime artifact result is not passed: " +:+ py_str b)
  else mret document.
Definition derive_argv (private_key public_key : path) : list string :=
  ["openssl"; "pkey"; "-in"; Path.to_str private_key; "-pubout"; "-out"; Path.to_str public_key].
Definition derive_public_trust (private_key : path) (key_id : string) (directory : path) : IO path :=
  mkdir_p directory ;;
  let public_key := Path.div directory (key_id +:+ ".pem") in
  r ← started (derive_argv private_key public_key) 30 None;
  let '(code, _, e) := r in
  if negb (code =? 0) then throw RuntimeError (or_text (Str.strip e) "cannot derive deployment public key") else
  chmod public_key 384 ;; mret directory.
Definition handoff_argv (provider deployment trust_dir : path) : list string :=
  [executable; Path.to_str (Path.div ROOT "native/scripts/verify_deployment_manifest.py"); "--native-manifest"; Path.to_str provider;
   "--deployment-manifest"; Path.to_str deployment; "--trust-dir"; Path.to_str trust_dir].
Definition verify_native_handoff (provider deployment trust_dir : path) : IO unit :=
  r ← started (handoff_argv provider deployment trust_dir) 600 (Some ROOT);
  let '(code, o, e) := r in
  if negb (code =? 0) then throw RuntimeError ("Senior 3 native deployment handoff failed: " +:+ detail o e) else mret tt.
Definition sign_argv (payload key signature : path) : list string :=
  ["openssl"; "pkeyutl"; "-sign"; "-rawin"; "-inkey"; Path.to_str key; "-in"; Path.to_str payload; "-out"; Path.to_str signature].
Definition sign (payload key signature : path) : IO unit :=
  r ← started (sign_argv payload key signature) 30 None;
  let '(code, _, e) := r in
  if negb (code =? 0) then throw RuntimeError (or_text (Str.strip e) "deployment wrapper signing failed") else mret tt.

(** ** The providers' documents *)

Definition load_native_provider (manifest : path) (provider_git_sha release_target : val) : IO val :=
  document ← load manifest;
  validate (contract "native/native-artifact-v1") document ("native provider manifest " +:+ Path.to_str manifest) ;;
  lift (refuse (ror (differs document ["source_revision"] provider_git_sha) (differs document ["target_triple"] release_target))
    "native source revision or target does not match release") ;;
  mret document.
Definition candidate_of (filename expected_sha : val) (root : path) : IO (option path) :=
  root ← resolve root;
  c ← lift (safe_child root filename); candidate ← resolve c;
  f ← is_file candidate;
  if negb f then mret None else
  h ← digest candidate;
  if py_ne (VStr h) expected_sha then throw RuntimeError ("referenced file checksum mismatch: " +:+ Path.to_str candidate)
  else mret (Some candidate).
(** [(item.stat().st_size, digest(item))] *)
Definition identity_of (p : path) : IO (Z * string) := n ← st_size p; h ← digest p; mret (n, h).
Definition resolve_reference_file (filename expected_sha : val) (roots : list path) : IO path :=
  candidates ← mmap (candidate_of filename expected_sha) roots;
  match omap id candidates with
  | [] => throw FileNotFoundError ("referenced file is missing: " +:+ py_str filename)
  | (candidate :: _) as candidates =>
      identities ← mmap identity_of candidates;
      if negb (Nat.eqb (length (remove_dups identities)) 1) then throw RuntimeError ("ambiguous referenced file: " +:+ py_str filename)
      else mret candidate
  end.
Definition covers (compatibility : val) (required_migration : Z) : res bool :=
  m ← getitem compatibility "minimum_migration"; b ← py_le m (VInt required_migration);
  if b : bool then t ← getitem compatibility "rollback_safe_through"; py_le (VInt required_migration) t else Ok false.
Definition verify_rollback (descriptor_path : path) (release_id : val) (required_migration : Z) : IO val :=
  descriptor ← load descriptor_path;
  validate (contract "deployment/release-target-v1") descriptor "rollback descriptor" ;;
  lift (refuse (differs descriptor ["release_id"] release_id) "rollback descriptor release identity mismatch") ;;
  compatibility ← lift (getitem descriptor "database_compatibility");
  lift (refuse (b ← covers compatibility required_migration; Ok (negb b)) "rollback target has no evidence for the required migration") ;;
  lift (refuse (a ← getitem compatibility "database_rollback_allowed"; Ok (negb (is_false a))) "database down migration is forbidden") ;;
  mret descriptor.

(** ** Temporary directories *)

(** [tempfile.gettempdir()]: the first candidate that is a directory *)
Definition temp_candidates (w : world) : list path :=
  map (λ d, MkPath true (absolutize w (Path.of_str d)))
    (List.filter (λ d, negb (String.eqb d "")) (map (λ n, default "" (Dict.lookup n (environ w))) ["TMPDIR"; "TEMP"; "TMP"]) ++
     ["/tmp"; "/var/tmp"; "/usr/tmp"; "."]).
Definition gettempdir : IO path :=
  λ w, match List.find (λ p, is_dir_node (stat w p)) (temp_candidates w) with
       | Some p => (Ok p, w)
       | None => (raise FileNotFoundError "No usable temporary directory found", w)
       end.
(** [with tempfile.TemporaryDirectory(prefix=...) as d:] *)
Definition with_temporary {A} (prefix : string) (body : path -> P A) : P A :=
  t ← zoom_snd gettempdir;
  d ← zoom_snd (ActivateRelease.mkdtemp prefix t);
  finally (body d) (zoom_snd (rmtree_ignore d)).

(** ** The program *)

Section Program.
Context (a : args).

Record documents := Documents { provider : val; runtime : val; database : val; readiness : val }.
Definition load_documents : IO documents :=
  provider ← load (provider_manifest a);
  runtime ← load (runtime_config a);
  database ← load (database_contract a);
  readiness ← load (migration_readiness a);
  validate (contract "deployment/mix-release-v1") provider "Senior 1 Mix manifest" ;;
  validate (contract "runtime/runtime-config-v1") runtime "runtime config" ;;
  validate (contract "database/database-runtime-v1") database "database contract" ;;
  validate (contract "database/migration-readiness-v1") readiness "migration readiness" ;;
  mret (Documents provider runtime database readiness).
Definition exact_compatibility : val :=
  VDict [("minimum_migration", VInt 8); ("maximum_migration", VInt 8); ("rollback_safe_through", VInt 8)].
(** The release, its commit and the migration it requires *)
Definition agreed (i : documents) : res (val * val * Z) :=
  release_id ← getitem (provider i) "release_id"; git_sha ← getitem (provider i) "git_sha";
  _ ← refuse (ror (differs (runtime i) ["releaseId"] release_id) (differs (runtime i) ["environment"] (VStr "production")))
    "runtime config release/environment mismatch";
  _ ← runtime_credentials (runtime i);
  required_migration ← database_ready (database i) (readiness i) (runtime i);
  _ ← refuse (differs (provider i) ["database_compatibility"] exact_compatibility) "Senior 1 database compatibility contract changed";
  Ok (release_id, git_sha, required_migration).
(** The rollback target, when the release has one, with its descriptor *)
Definition rollback_of (i : documents) (required_migration : Z) : IO (option (path * val)) :=
  rollback_id ← lift (getitem (provider i) "rollback_target_release_id");
  match rollback_id, rollback_target_descriptor a with
  | VNone, Some _ => throw RuntimeError "first release must not supply an application rollback descriptor"
  | VNone, None => mret None
  | _, None => throw RuntimeError "V1 upgrade requires a rollback target descriptor"
  | _, Some p => d ← verify_rollback p rollback_id required_migration; mret (Some (p, d))
  end.

Definition resolve_copy (p out : path) : P path := q ← zoom_snd (resolve p); copy_exact q out None.
Definition copy_child (base out : path) (name : val) : P unit := p ← lift (safe_child base name); _ ← copy_exact p out None; mret tt.
(** The artifact and the two signatures beside the provider's manifest *)
Definition provider_files (p : val) : res (list val) :=
  x ← item p ["artifact"; "filename"]; y ← item p ["artifact"; "signature"; "signature_filename"];
  z ← item p ["manifest_signature"; "signature_filename"]; Ok [x; y; z].
Definition runtime_result_of (i : documents) (release_id git_sha : val) (out : path) : P (val * path) :=
  with_temporary "liqi-runtime-verify-" (λ temporary,
    let result_path := Path.div temporary (py_str release_id +:+ ".runtime-artifact-result-v1.json") in
    manifest ← zoom_snd (resolve (provider_manifest a));
    trust ← zoom_snd (resolve (provider_trust_dir a));
    runtime_result ← zoom_snd (run_runtime_verifier manifest trust result_path);
    lift (refuse (rany id [differs runtime_result ["git_sha"] git_sha; differs runtime_result ["release_id"] release_id;
        (sha ← item (provider i) ["artifact"; "sha256"]; differs runtime_result ["artifact_sha256"] sha)])
      "runtime artifact evidence identity mismatch") ;;
    copy ← copy_exact result_path out None;
    mret (runtime_result, copy)).

(** *** Native artifacts *)

(** The supplied providers, by the digest of their artifact, and the directories to search *)
Definition supplied := (list (val * (path * val)))%type.
Definition find_supplied (sha : val) (l : supplied) : option (path * val) := option_map snd (List.find (λ x, py_eq x.1 sha) l).
Definition supply (i : documents) (git_sha : val) (acc : supplied * list path) (manifest_path : path) : IO (supplied * list path) :=
  resolved ← resolve manifest_path;
  release_target ← lift (getitem (provider i) "target_triple");
  native ← load_native_provider resolved git_sha release_target;
  artifact_sha ← lift (getitem native "artifact_sha256");
  lift (check_hash artifact_sha) ;;
  match find_supplied artifact_sha acc.1 with
  | Some _ => throw RuntimeError ("duplicate native provider artifact SHA: " +:+ py_str artifact_sha)
  | None => mret (acc.1 ++ [(artifact_sha, (resolved, native))], acc.2 ++ [Path.parent resolved])
  end.
Definition native_files (native : val) : res (list val) :=
  x ← getitem native "artifact_path"; y ← item native ["sbom"; "path"]; z ← item native ["provenance"; "path"];
  b ← item native ["signature"; "bundle_path"]; Ok [x; y; z; b].
Definition copy_native (base out : path) (relative : val) : P unit :=
  r ← lift (expect_str relative);
  source ← zoom_snd (resolve (Path.div base r));
  match Path.relative_to source base with
  | None => throw RuntimeError ("native file escapes provider manifest directory: " +:+ r)
  | Some _ => _ ← copy_exact source out (Some r); mret tt
  end.
(** [v[k] != w[l]] *)
Definition item_differs (v : val) (k : string) (w : val) (l : string) : res bool := x ← getitem v k; y ← getitem w l; Ok (py_ne x y).
Definition identity_tests (i : documents) (deployment reference git_sha : val) : list (res bool) :=
  [item_differs deployment "artifact_id" reference "artifact_id"; differs deployment ["git_sha"] git_sha;
   item_differs deployment "target_triple" (provider i) "target_triple"].
Definition authorized (i : documents) (git_sha : val) (roots : list path) (reference : val) : IO (path * val) :=
  filename ← lift (getitem reference "manifest_filename"); sha ← lift (getitem reference "manifest_sha256");
  deployment_path ← resolve_reference_file filename sha roots;
  deployment ← load deployment_path;
  validate (contract "deployment/native-artifact-v1") deployment ("native deployment manifest " +:+ Path.to_str deployment_path) ;;
  lift (refuse (rany id (identity_tests i deployment reference git_sha))
    "Mix/native deployment identity or target mismatch") ;;
  lift (refuse (differs deployment ["artifact"; "signature"; "key_id"] (VStr (deployment_key_id a)))
    "native deployment artifact uses a different deployment authorization key") ;;
  mret (deployment_path, deployment).
Definition entry_of (deployment reference : val) (native_copy deployment_copy : path) : IO val :=
  artifact_id ← lift (getitem deployment "artifact_id"); h ← digest native_copy; k ← digest deployment_copy;
  install ← lift (item deployment ["artifact"; "install_relative_path"]); required ← lift (getitem reference "required");
  mret (VDict [("artifact_id", artifact_id); ("provider_manifest_filename", VStr (Path.name native_copy));
    ("provider_manifest_sha256", VStr h); ("deployment_manifest_filename", VStr (Path.name deployment_copy));
    ("deployment_manifest_sha256", VStr k); ("install_relative_path", install); ("required", required)]).
(** The copies of the two manifests and of the provider's files *)
Definition copy_pair (native_path deployment_path : path) (native reference : val) (out : path) : P (path * path) :=
  native_copy ← copy_exact native_path out None;
  filename ← lift (v ← getitem reference "manifest_filename"; expect_str v);
  deployment_copy ← copy_exact deployment_path out (Some filename);
  files ← lift (native_files native);
  mfor (copy_native (Path.parent native_path) out) files ;;
  mret (native_copy, deployment_copy).
Definition copy_signature (deployment_path : path) (deployment : val) (out : path) : P unit :=
  signature ← lift (v ← item deployment ["artifact"; "signature"; "signature_filename"]; safe_child (Path.parent deployment_path) v);
  f ← zoom_snd (is_file signature);
  h ← (if f : bool then zoom_snd (digest signature) else mret "");
  expected ← lift (if f : bool then item deployment ["artifact"; "signature"; "signature_sha256"] else Ok VNone);
  (if negb f || py_ne (VStr h) expected then throw RuntimeError "native deployment signature identity mismatch" else mret tt) ;;
  _ ← copy_exact signature out None;
  mret tt.
(** One reference of the release: its entry, and the digest of the artifact it used *)
Definition add_native (i : documents) (git_sha : val) (sup : supplied) (roots : list path) (native_trust out : path)
    (acc : list val * list val) (reference : val) : P (list val * list val) :=
  x ← zoom_snd (authorized i git_sha roots reference);
  let '(deployment_path, deployment) := x in
  artifact_sha ← lift (item deployment ["artifact"; "sha256"]);
  lift (check_hash artifact_sha) ;;
  match find_supplied artifact_sha sup with
  | None => throw RuntimeError ("native deployment manifest has no matching Sigstore provider manifest: " +:+ py_str artifact_sha)
  | Some (native_path, native) =>
      zoom_snd (verify_native_handoff native_path deployment_path native_trust) ;;
      y ← copy_pair native_path deployment_path native reference out;
      let '(native_copy, deployment_copy) := y in
      copy_signature deployment_path deployment out ;;
      entry ← zoom_snd (entry_of deployment reference native_copy deployment_copy);
      mret (acc.1 ++ [entry], if py_in artifact_sha acc.2 then acc.2 else acc.2 ++ [artifact_sha])
  end.
(** The providers that were supplied are just the ones that were used. *)
Definition all_used (sup : supplied) (used : list val) : bool :=
  forallb (λ x, py_in x.1 used) sup && forallb (λ u, existsb (λ x, py_eq x.1 u) sup) used.
Definition native_entries (i : documents) (git_sha : val) (sup : supplied) (roots : list path) (out : path) : P (list val) :=
  r ← with_temporary "liqi-native-deployment-trust-" (λ trust_temp,
    key ← zoom_snd (resolve (deployment_signing_key a));
    native_trust ← zoom_snd (derive_public_trust key (deployment_key_id a) trust_temp);
    references ← lift (l ← getitem (provider i) "native_artifacts"; py_iter l);
    mfold (add_native i git_sha sup roots native_trust out) ([], []) references);
  let '(entries, used) := r in
  (if all_used sup used then mret tt
   else throw RuntimeError "supplied native provider manifests do not exactly match the signed Mix manifest") ;;
  lift (refuse (m ← item (runtime i) ["native"; "mode"]; Ok (py_eq m (VStr "required") && match entries with [] => true | _ => false end))
    "runtime requires native artifacts but the Mix manifest declares none") ;;
  mret entries.

(** *** The wrapper *)

Record copies := Copies { c_provider : path; c_result : path; c_runtime : path; c_database : path; c_readiness : path; c_rollback : option path }.
Definition bound (schema_version : res val) (copy : path) : IO val :=
  v ← lift schema_version; h ← digest copy;
  mret (VDict [("schema_version", v); ("filename", VStr (Path.name copy)); ("sha256", VStr h)]).
Definition rollback_entry (rollback : option (path * val)) (copy : option path) : IO val :=
  match rollback, copy with
  | Some (_, r), Some p =>
      rid ← lift (getitem r "release_id"); h ← digest p;
      mret (VDict [("release_id", rid); ("descriptor_filename", VStr (Path.name p)); ("descriptor_sha256", VStr h)])
  | _, _ => mret VNone
  end.
Definition wrapper_of (i : documents) (release_id git_sha runtime_result : val) (c : copies) (rollback : option (path * val))
    (entries : list val) : IO val :=
  p ← bound (getitem (provider i) "schema_version") (c_provider c);
  r ← bound (getitem runtime_result "schema_version") (c_result c);
  t ← bound (getitem (runtime i) "schemaVersion") (c_runtime c);
  d ← bound (getitem (database i) "contractVersion") (c_database c);
  m ← bound (getitem (readiness i) "schemaVersion") (c_readiness c);
  b ← rollback_entry rollback (c_rollback c);
  created ← utc_now;
  mret (VDict [("schema_version", VStr "liqi.deployment.mix-deployment/v1"); ("release_id", release_id); ("git_sha", git_sha);
    ("provider_manifest", p); ("runtime_artifact_result", r); ("runtime_config", t); ("database_contract", d); ("migration_readiness", m);
    ("native_artifacts", VList entries); ("rollback_target", b);
    ("signature", VDict [("algorithm", VStr "ed25519"); ("key_id", VStr (deployment_key_id a));
       ("signature_filename", VStr (py_str release_id +:+ ".mix-deployment-v1.json.sig")); ("signed_payload", VStr "exact-wrapper-bytes")]);
    ("created_at", VStr created)]).
Definition publish (release_id git_sha : val) (required_migration : Z) (rollback : option (path * val)) (out : path) (wrapper : val) : IO unit :=
  validate (contract "deployment/mix-deployment-v1") wrapper "deployment wrapper" ;;
  let wrapper_path := Path.div out (py_str release_id +:+ ".mix-deployment-v1.json") in
  write_file wrapper_path (json_text wrapper) ;;
  let signature_path := Path.div out (py_str release_id +:+ ".mix-deployment-v1.json.sig") in
  key ← resolve (deployment_signing_key a);
  sign wrapper_path key signature_path ;;
  chmod wrapper_path 416 ;;
  chmod signature_path 416 ;;
  h ← digest wrapper_path; k ← digest signature_path;
  rid ← lift (match rollback with Some (_, r) => getitem r "release_id" | None => Ok VNone end);
  print (Json.dumps Json.pretty (VDict [
    ("schema_version", VStr "liqi.deployment.mix-deployment-preparation-result/v1"); ("status", VStr "prepared"); ("release_id", release_id);
    ("git_sha", git_sha); ("wrapper_path", VStr (Path.to_str wrapper_path)); ("wrapper_sha256", VStr h);
    ("signature_path", VStr (Path.to_str signature_path)); ("signature_sha256", VStr k); ("required_migration", VInt required_migration);
    ("rollback_target_release_id", rid); ("oci_mutation_performed", VBool false)])).

(** The copies of the release: its manifest, and what is beside it *)
Definition copy_release (i : documents) (out : path) : P (path * path) :=
  c_provider ← resolve_copy (provider_manifest a) out;
  base ← zoom_snd (p ← resolve (provider_manifest a); mret (Path.parent p));
  files ← lift (provider_files (provider i));
  mfor (copy_child base out) files ;;
  mret (c_provider, base).
(** The copies of its inputs *)
Definition copy_inputs (rollback : option (path * val)) (c_provider c_result out : path) : P copies :=
  c_runtime ← resolve_copy (runtime_config a) out;
  c_database ← resolve_copy (database_contract a) out;
  c_readiness ← resolve_copy (migration_readiness a) out;
  c_rollback ← match rollback with Some (p, _) => c ← resolve_copy p out; mret (Some c) | None => mret None end;
  mret (Copies c_provider c_result c_runtime c_database c_readiness c_rollback).
Definition package (i : documents) (release_id git_sha : val) (rollback : option (path * val)) (out : path) : P (copies * val * list val) :=
  x ← copy_release i out;
  let '(c_provider, base) := x in
  r ← runtime_result_of i release_id git_sha out;
  let '(runtime_result, c_result) := r in
  c ← copy_inputs rollback c_provider c_result out;
  s ← zoom_snd (mfold (supply i git_sha) ([], [base]) (native_manifest a));
  entries ← native_entries i git_sha s.1 s.2 out;
  mret (c, runtime_result, entries).
Definition main : IO Z :=
  f ← (if IDENT (deployment_key_id a) then is_file (deployment_signing_key a) else mret false);
  if negb f then sysexit "valid deployment key ID and private key are required" else
  i ← load_documents;
  x ← lift (agreed i);
  let '(release_id, git_sha, required_migration) := x in
  rollback ← rollback_of i required_migration;
  out ← resolve (a_output_dir a);
  mkdir_p out ;;
  with_locals [] (
    y ← package i release_id git_sha rollback out;
    let '(c, runtime_result, entries) := y in
    zoom_snd (
      wrapper ← wrapper_of i release_id git_sha runtime_result c rollback entries;
      publish release_id git_sha required_migration rollback out wrapper)) ;;
  mret 0.
End Program.
End Env.
End PrepareDeployment.
