(* ===== verification/PrepareFacts.v ===== *)
(** * The deployment package: its theorems

    What a copy holds, what was verified before a wrapper is signed, and that just
    the wrapper's bytes are signed. *)

From Stdlib Require Import Ascii.
From S2P Require Import Prelude PyFloat PyMonad PyValue PyTime PyJson Sha256 PyOs OsFacts FsFacts Fixture.
From S2P Require Import GenerateSpec ActivateRelease BuildResultFacts PrepareDeployment.

Module PrepareFacts.
Import Evidence BuildResultFacts PrepareDeployment.

(** ** Files that are left alone *)

Lemma mkdir_p_keeps p w r w' q n : mkdir_p p w = (r, w') -> stat w q = Some n -> stat w' q = Some n.
Proof.
  intros E Hs. pose proof (pres_run _ _ _ _ _ (wo_mkdir_p p) E) as Hw.
  assert (cwd w' = cwd w /\ forall k, fs w !! k = Some n -> fs w' !! k = Some n) as [Hc Hk].
  { unfold mkdir_p in E. destruct (canon w p) as [d|]; [|by injection E as _ <-]. clear Hw. revert w Hs E. generalize (prefixes [] d).
    intros ks. induction ks as [|x ks IH]; intros w Hs E; [by injection E as _ <-|].
    destruct (node_at (fs w) x) as [[| |]|] eqn:En; [by injection E as _ <-| |by injection E as _ <-|].
    - apply (IH w); done.
    - assert (forall k, fs w !! k = Some n -> fs (put_node x (NDir (Meta 493 0 0)) w) !! k = Some n) as Hput.
      { intros k Hk. simpl. rewrite lookup_insert_ne; [done|]. intros ->. by rewrite (node_at_none _ _ En) in Hk. }
      assert (writes_only w (put_node x (NDir (Meta 493 0 0)) w)) as Hwp by (apply wo_put; [left; by apply node_at_none|by right]).
      destruct (IH (put_node x (NDir (Meta 493 0 0)) w)) as [Hc Hk]; [|done|split; [done|intros k Hk'; by apply Hk, Hput]].
      unfold stat in Hs |- *. rewrite (canon_writes q _ _ Hwp) by done. destruct (canon w q) as [k|]; [|done]. destruct k; [done|by apply Hput]. }
  unfold stat in Hs |- *. rewrite (canon_writes q _ _ Hw Hc). destruct (canon w q) as [k|]; [|done]. destruct k; [done|by apply Hk].
Qed.
Lemma read_bytes_file p w s w' : read_bytes p w = (Ok s, w') <-> w' = w /\ exists m, stat w p = Some (NFile s m).
Proof.
  unfold read_bytes. split.
  - destruct (stat w p) as [[d m| |]|]; try done. intros [= -> ->]. split; [done|by exists m].
  - intros (-> & m & ->). done.
Qed.
Lemma read_after_mkdir p q w r w' s : mkdir_p p w = (r, w') -> read_bytes q w = (Ok s, w) -> read_bytes q w' = (Ok s, w').
Proof.
  intros E (_ & m & Hs)%read_bytes_file. apply read_bytes_file. split; [done|]. exists m. by eapply mkdir_p_keeps.
Qed.

Section Facts.
Context `{Platform}.

Lemma digest_reads p w h w' : digest p w = (Ok h, w') -> w' = w /\ exists s, read_bytes p w = (Ok s, w) /\ h = Sha256.hexdigest s.
Proof.
  unfold digest, sha256_chunked. intros E. apply M_bind_Ok in E as (s & w1 & E1 & E). pose proof E1 as (-> & _)%read_bytes_file.
  apply ret_Ok in E as [<- ->]. split; [done|]. exists s. split; [done|]. by rewrite Sha256.hexdigest_chunks_eq by lia.
Qed.
Lemma no_parent name p : relative_path name = Some p -> absolute p = false /\ ".." ∉ parts p.
Proof.
  unfold relative_path. destruct (absolute (Path.of_str name)) eqn:Ea; [done|]. cbn [orb]. destruct (inb String.eqb ".." _) eqn:Ei; [done|].
  intros [= <-]. split; [done|]. intros Hi. assert (inb String.eqb ".." (parts (Path.of_str name)) = true) as Ht; [|by rewrite Ht in Ei].
  apply existsb_exists. exists "..". split; [by apply list_elem_of_In|done].
Qed.

(** C26: A copy into the package goes to a place under the package's directory, by a relative name without
    [..]; a name that was used before must have had the same digest. The digest recorded for it is the
    one of the source. Where nothing was at that place, it then holds the bytes of the source; where
    something was, that is kept as it is, whatever it holds. *)
Theorem copied_exactly source out relative_name s target s' : copy_exact source out relative_name s = (Ok target, s') ->
  exists data relative w1,
    read_bytes source s.2 = (Ok data, s.2) /\ relative_path (or_name relative_name source) = Some relative /\
    target = joined out relative /\ absolute relative = false /\ (".." ∉ parts relative) /\
    (forall previous, Dict.lookup (Path.to_str relative) s.1 = Some previous -> previous = Sha256.hexdigest data) /\
    s'.1 = Dict.set (Path.to_str relative) (Sha256.hexdigest data) s.1 /\ mkdir_p (Path.parent target) s.2 = (Ok tt, w1) /\
    (if is_some_node (stat w1 target) then s'.2 = w1 else read_bytes target s'.2 = (Ok data, s'.2)).
Proof.
  unfold copy_exact. intros E. apply M_bind_Ok in E as (f & s1 & [Ef F1]%zoom_Ok & E). injection Ef as <- W1.
  assert (s1 = s) as -> by (by destruct s1, s; simpl in *; subst). clear F1 W1. destruct (is_file_node _); [cbn [negb] in E|done].
  apply M_bind_Ok in E as (sha & s1 & [(W1 & data & Hd & ->)%digest_reads F1]%zoom_Ok & E).
  assert (s1 = s) as -> by (by destruct s1, s; simpl in *; subst). clear F1 W1.
  destruct (relative_path _) as [relative|] eqn:Er; [|done]. destruct (no_parent _ _ Er) as [Ha Hp].
  apply M_bind_Ok in E as (l & s1 & [-> ->]%getl_Ok & E). apply M_bind_Ok in E as (? & s1 & E1 & E).
  assert (s1 = s /\ forall previous, Dict.lookup (Path.to_str relative) s.1 = Some previous -> previous = Sha256.hexdigest data) as [-> Hprev].
  { destruct (Dict.lookup _ s.1) as [previous|].
    - destruct (String.eqb_spec previous (Sha256.hexdigest data)) as [Hx|]; [|done]. apply ret_Ok in E1 as [_ ->].
      split; [done|]. by intros y [= <-].
    - by apply ret_Ok in E1 as [_ ->]. }
  apply M_bind_Ok in E as ([] & s2 & [Em F2]%zoom_Ok & E). apply M_bind_Ok in E as (there & s3 & [Et F3]%zoom_Ok & E). injection Et as <- W3.
  assert (s3 = s2) as -> by (by destruct s3, s2; simpl in *; subst). clear F3 W3. apply M_bind_Ok in E as (? & s4 & E4 & E).
  apply M_bind_Ok in E as (? & s5 & ->%modl_Ok & E). apply ret_Ok in E as [<- ->]. cbn [fst snd].
  exists data, relative, s2.2. do 6 (split; [done|]). pose proof (read_after_mkdir _ _ _ _ _ _ Em Hd) as Hd2.
  destruct (is_some_node _) eqn:Es; cbn [negb mwhen] in E4.
  - apply ret_Ok in E4 as [_ ->]. by rewrite F2.
  - apply M_bind_Ok in E4 as (? & s5 & [E5 F5]%zoom_Ok & [E6 F6]%zoom_Ok). rewrite F6, F5, F2. do 2 (split; [done|]).
    unfold copyfile in E5. apply M_bind_Ok in E5 as (data' & w5 & E5 & E7). rewrite Hd2 in E5. injection E5 as <- <-.
    eapply chmod_read; [by eapply write_file_read|exact E6].
Qed.

(** ** Statements that start no process *)

Lemma pk_ro_load p : Pres eq (load p).
Proof. unfold load. solve_pres. Qed.
Lemma pk_ro_digest p : Pres eq (digest p).
Proof. unfold digest. solve_pres. Qed.
#[local] Hint Resolve pk_ro_load pk_ro_digest : pres.
Lemma pk_ro_contract p v t : Pres eq (validate p v t).
Proof. unfold validate. solve_pres. Qed.
#[local] Hint Resolve pk_ro_contract : pres.
Lemma ro_native_provider m g t : Pres eq (load_native_provider m g t).
Proof. unfold load_native_provider. solve_pres. Qed.
Lemma ro_candidate f h r : Pres eq (candidate_of f h r).
Proof. unfold candidate_of. solve_pres. Qed.
Lemma ro_identity p : Pres eq (identity_of p).
Proof. unfold identity_of. solve_pres. Qed.
#[local] Hint Resolve ro_native_provider ro_candidate ro_identity : pres.
Lemma ro_reference f h l : Pres eq (resolve_reference_file f h l).
Proof. unfold resolve_reference_file. solve_pres. Qed.
Lemma ro_verify_rollback p r m : Pres eq (verify_rollback p r m).
Proof. unfold verify_rollback. solve_pres. Qed.
Lemma ro_gettempdir : Pres eq gettempdir.
Proof. intros w. unfold gettempdir. by case_match. Qed.
#[local] Hint Resolve ro_reference ro_verify_rollback ro_gettempdir : pres.
Lemma sl_mkdtemp prefix t : Pres same_log (ActivateRelease.mkdtemp prefix t).
Proof.
  unfold ActivateRelease.mkdtemp. apply pres_bind; [apply _|by intros w|intros h]. apply pres_bind; [apply _| |intros _; solve_pres].
  intros w. unfold mkdir. by repeat case_match.
Qed.
Lemma sl_rmtree p : Pres same_log (rmtree_ignore p).
Proof. intros w. unfold rmtree_ignore. by repeat case_match. Qed.
#[local] Hint Resolve sl_mkdtemp sl_rmtree : pres.
Lemma sl_copyfile p q : Pres same_log (copyfile p q).
Proof. unfold copyfile. solve_pres. Qed.
#[local] Hint Resolve sl_copyfile : pres.
Lemma sl_copy_exact p out r : Pres (on_snd same_log) (copy_exact p out r).
Proof. unfold copy_exact. solve_pres. Qed.
#[local] Hint Resolve sl_copy_exact : pres.
Lemma sl_copy_child b out n : Pres (on_snd same_log) (copy_child b out n).
Proof. unfold copy_child. solve_pres. Qed.
Lemma sl_copy_native b out r : Pres (on_snd same_log) (copy_native b out r).
Proof. unfold copy_native. solve_pres. Qed.
Lemma sl_resolve_copy p out : Pres (on_snd same_log) (resolve_copy p out).
Proof. unfold resolve_copy. solve_pres. Qed.
#[local] Hint Resolve sl_copy_child sl_copy_native sl_resolve_copy : pres.
Ltac quiet E := let L := fresh "L" in
  match type of E with ?m ?s0 = (_, ?s1) =>
    assert (same_log s0.2 s1.2) as L by (assert (Pres (on_snd same_log) m) as L by solve_pres; exact (pres_run _ _ _ _ _ L E)) end.

(** ** Started processes *)

Lemma started_did argv t cwd w o e w' : started argv t cwd w = (Ok (0, o, e), w') -> did [argv] w w'.
Proof.
  unfold started. intros E. apply M_bind_Ok in E as (p & w1 & E1 & E). injection E1 as <- <-.
  apply run_completed_ran in E as (L & S & _). by exists [Proc argv (Some t) (environ w) cwd].
Qed.
Lemma pk_refuse_Ok b m u : refuse b m = Ok u -> b = Ok false.
Proof. unfold refuse. intros E. apply bind_Ok in E as (x & -> & E). by destruct x. Qed.
Lemma pk_contract_valid p v t w u w' : validate p v t w = (Ok u, w') -> w' = w /\ valid w p v.
Proof.
  intros E. pose proof (pres_eq_run _ _ _ _ (pk_ro_contract p v t) E) as ->. split; [done|]. unfold validate in E.
  apply M_bind_Ok in E as (schema & w1 & E1 & E). unfold load in E1. pose proof (pres_eq_run _ _ _ _ (pk_ro_load p) E1) as ->.
  apply M_bind_Ok in E as (fs & w2 & [E2 ->]%lift_Ok & E). exists schema. split; [done|]. by destruct fs.
Qed.
Lemma pk_differs_false v ks x : differs v ks x = Ok false -> exists y, item v ks = Ok y /\ py_eq y x = true.
Proof. unfold differs. intros E. apply bind_Ok in E as (y & Hy & E). injection E as E%negb_false_iff. by exists y. Qed.
Lemma differs_str v ks t : differs v ks (VStr t) = Ok false -> item v ks = Ok (VStr t).
Proof. intros (y & Hy & ->%py_eq_str_r)%pk_differs_false. done. Qed.
Lemma verifier_Ok m t o w v w' : run_runtime_verifier m t o w = (Ok v, w') -> exists out err,
  started (verifier_argv m t o) 900 (Some ROOT) w = (Ok (0, out, err), w') /\ load o w' = (Ok v, w') /\
  valid w' (contract "runtime/runtime-artifact-result-v1") v /\
  item v ["status"] = Ok (VStr "passed") /\ exists b, getitem v "blockers" = Ok b /\ truthy b = false.
Proof.
  unfold run_runtime_verifier. intros E. apply M_bind_Ok in E as ([[code so] e] & w1 & E1 & E). cbv beta iota in E.
  destruct (Z.eqb_spec code 0) as [->|]; cbn [negb] in E; [|done].
  apply M_bind_Ok in E as (d & w2 & E2 & E). pose proof (pres_eq_run _ _ _ _ (pk_ro_load o) E2) as ->.
  apply M_bind_Ok in E as (u & w2 & [-> V]%pk_contract_valid & E). apply M_bind_Ok in E as (bad & w2 & [E3 ->]%lift_Ok & E).
  destruct bad; [by apply M_bind_Ok in E as (? & ? & _ & E)|]. apply ret_Ok in E as [-> ->]. apply ror_false in E3 as [A B].
  exists so, e. do 3 (split; [done|]). split; [by apply differs_str|]. apply bind_Ok in B as (b & Hb & B). injection B as B. by exists b.
Qed.
(** The public key is derived into the directory of the trust, by one process. *)
Definition derived (k : path) (n : string) (dir : path) (w w' : world) : Prop :=
  exists v1 out err v2, mkdir_p dir w = (Ok tt, v1) /\
    started (derive_argv k (Path.div dir (n +:+ ".pem"))) 30 None v1 = (Ok (0, out, err), v2) /\
    chmod (Path.div dir (n +:+ ".pem")) 384 v2 = (Ok tt, w').
Lemma derive_Ok k n dir w q w' : derive_public_trust k n dir w = (Ok q, w') -> derived k n dir w w' /\ q = dir.
Proof.
  unfold derive_public_trust. intros E. apply M_bind_Ok in E as ([] & w1 & E1 & E).
  apply M_bind_Ok in E as ([[code so] e] & w2 & E2 & E). cbv beta iota in E. destruct (Z.eqb_spec code 0) as [->|]; cbn [negb] in E; [|done].
  apply M_bind_Ok in E as ([] & w3 & E3 & E). apply ret_Ok in E as [<- ->]. split; [|done]. by exists w1, so, e, w2.
Qed.
Lemma derived_did k n dir w w' : derived k n dir w w' -> did [derive_argv k (Path.div dir (n +:+ ".pem"))] w w'.
Proof.
  intros (v1 & out & err & v2 & E1 & E2%started_did & E3). pose proof (pres_run _ _ _ _ _ (sl_mkdir_p dir) E1) as L1.
  eapply did_before; [exact L1|]. eapply did_after; [exact E2|]. exact (pres_run _ _ _ _ _ (sl_chmod _ _) E3).
Qed.
Lemma handoff_Ok p d t w u w' : verify_native_handoff p d t w = (Ok u, w') ->
  exists out err, started (handoff_argv p d t) 600 (Some ROOT) w = (Ok (0, out, err), w').
Proof.
  unfold verify_native_handoff. intros E. apply M_bind_Ok in E as ([[code so] e] & w1 & E1 & E). cbv beta iota in E.
  destruct (Z.eqb_spec code 0) as [->|]; cbn [negb] in E; [|done]. apply ret_Ok in E as [_ ->]. by exists so, e.
Qed.
Lemma sign_Ok p k q w u w' : sign p k q w = (Ok u, w') -> exists out err, started (sign_argv p k q) 30 None w = (Ok (0, out, err), w').
Proof.
  unfold sign. intros E. apply M_bind_Ok in E as ([[code so] e] & w1 & E1 & E). cbv beta iota in E.
  destruct (Z.eqb_spec code 0) as [->|]; cbn [negb] in E; [|done]. apply ret_Ok in E as [_ ->]. by exists so, e.
Qed.
(** A block with a temporary directory: the directory it is given, the world it starts in, the one it leaves *)
Lemma temporary_runs {A} prefix (body : path -> M (list (string * string) * world) A) s x s' : with_temporary prefix body s = (Ok x, s') ->
  exists t d v s2, gettempdir s.2 = (Ok t, s.2) /\ ActivateRelease.mkdtemp prefix t s.2 = (Ok d, v) /\ body d (s.1, v) = (Ok x, s2) /\
    s'.1 = s2.1 /\ rmtree_ignore d s2.2 = (Ok tt, s'.2).
Proof.
  unfold with_temporary. intros E. apply M_bind_Ok in E as (t & s1 & [E1 F1]%zoom_Ok & E). pose proof (pres_eq_run _ _ _ _ ro_gettempdir E1) as W1.
  rewrite W1 in E1. assert (s1 = s) as -> by (by destruct s1, s; simpl in *; subst). apply M_bind_Ok in E as (d & s2 & [E2 F2]%zoom_Ok & E).
  unfold finally in E. destruct (body d s2) as [r s3] eqn:E3. exists t, d, s2.2, s3. do 2 (split; [done|]).
  destruct (zoom_snd (rmtree_ignore d) s3) as [[[]|e] s4] eqn:E4; [|done]. injection E as -> <-. apply zoom_Ok in E4 as [E4 F4].
  split; [|done]. by rewrite <-F2, <-surjective_pairing.
Qed.
Lemma temporary_Ok {A} prefix (body : path -> M (list (string * string) * world) A) s x s' : with_temporary prefix body s = (Ok x, s') ->
  exists t s1 s2, body t s1 = (Ok x, s2) /\ same_log s.2 s1.2 /\ same_log s2.2 s'.2.
Proof.
  intros (t & d & v & s2 & _ & E2 & E & _ & E4)%temporary_runs. exists d, (s.1, v), s2. split; [done|].
  split; [exact (pres_run _ _ _ _ _ (sl_mkdtemp _ _) E2)|exact (pres_run _ _ _ _ _ (sl_rmtree _) E4)].
Qed.

(** ** The program *)

Section Program.
Context (a : args).

(** The documents are of one release in production, whose database is exactly ready for it. *)
Record deployable (i : documents) (release_id git_sha : val) (required : Z) : Prop := {
  dp_identity : getitem (provider i) "release_id" = Ok release_id /\ getitem (provider i) "git_sha" = Ok git_sha;
  dp_runtime : item (runtime i) ["environment"] = Ok (VStr "production") /\ exists r, item (runtime i) ["releaseId"] = Ok r /\ py_eq r release_id = true;
  dp_credentials : exists names, runtime_credentials (runtime i) = Ok names /\ NoDup names /\ forall n, n ∈ names <-> n ∈ EXPECTED_CREDENTIALS;
  dp_contract : item (database i) ["status"] = Ok (VStr "accepted") /\
    item (database i) ["authority"] = Ok (VStr "postgresql-only-durable-authority") /\
    (exists m, getitem (database i) "requiredMigration" = Ok m /\ py_int m = Ok required) /\
    exists v, item (runtime i) ["database"; "requiredMigrationVersion"] = Ok v /\ py_eq v (VInt required) = true;
  dp_readiness : item (readiness i) ["status"] = Ok (VStr "passed") /\ item (readiness i) ["reason"] = Ok (VStr "ready") /\
    item (readiness i) ["ready"] = Ok (VBool true) /\ item (readiness i) ["writeReady"] = Ok (VBool true) /\
    getitem (readiness i) "inRecovery" = Ok (VBool false) /\
    (exists v, item (readiness i) ["currentVersion"] = Ok v /\ py_eq v (VInt required) = true) /\
    exists v, item (readiness i) ["requiredVersion"] = Ok v /\ py_eq v (VInt required) = true;
  dp_oban : exists m n, getitem (readiness i) "obanMigrationVersion" = Ok m /\ getitem (readiness i) "requiredObanMigrationVersion" = Ok n /\
    py_eq m n = true /\ py_eq n (VInt 14) = true;
  dp_format : exists d, getitem (runtime i) "database" = Ok d /\ dget d "credentialFormat" = Ok (VStr "role-url-bundle-v1");
  dp_compatibility : exists c, item (provider i) ["database_compatibility"] = Ok c /\ py_eq c exact_compatibility = true
}.
Lemma same_names_spec l m : same_names l m = true -> forall x, x ∈ l <-> x ∈ m.
Proof.
  unfold same_names. intros [A B]%andb_true_iff x. rewrite forallb_forall in A, B. split; intros Hx%list_elem_of_In.
  - specialize (A x Hx). apply existsb_exists in A as (y & Hy & ->%String.eqb_eq). by apply list_elem_of_In.
  - specialize (B x Hx). apply existsb_exists in B as (y & Hy & ->%String.eqb_eq). by apply list_elem_of_In.
Qed.
Lemma nodupb_NoDup l : nodupb String.eqb l = true -> NoDup l.
Proof.
  induction l as [|x l IH]; simpl; [constructor|]. intros [A%negb_true_iff B]%andb_true_iff. constructor; [|by apply IH].
  intros Hx. assert (existsb (String.eqb x) l = true) as Ht; [|congruence]. apply existsb_exists. exists x.
  split; [by apply list_elem_of_In|by apply String.eqb_eq].
Qed.
Lemma credentials_Ok v names : runtime_credentials v = Ok names -> NoDup names /\ forall n, n ∈ names <-> n ∈ EXPECTED_CREDENTIALS.
Proof.
  unfold runtime_credentials. intros E. do 5 (apply bind_Ok in E as (? & _ & E)). apply bind_Ok in E as (? & D%pk_refuse_Ok & E).
  apply bind_Ok in E as (? & S%pk_refuse_Ok & E). injection E as ->. injection D as D%negb_false_iff. injection S as S%negb_false_iff.
  split; [|by apply same_names_spec]. by apply nodupb_NoDup in D.
Qed.
Lemma not_true_false v ks : not_true v ks = Ok false -> item v ks = Ok (VBool true).
Proof. unfold not_true. intros E. apply bind_Ok in E as (y & -> & E). injection E as E%negb_false_iff. by destruct y as [|[]| | | | |]. Qed.
Lemma pk_get_ne_false v k t : get_ne v k (VStr t) = Ok false -> dget v k = Ok (VStr t).
Proof. unfold get_ne. intros E. apply bind_Ok in E as (y & Hy & E). injection E as E%negb_false_iff. apply py_eq_str_r in E as ->. done. Qed.
Lemma agreed_Ok i r g m : agreed i = Ok (r, g, m) -> deployable i r g m.
Proof.
  unfold agreed. intros E. apply bind_Ok in E as (rid & R & E). apply bind_Ok in E as (sha & G & E).
  apply bind_Ok in E as (? & X%pk_refuse_Ok & E). apply ror_false in X as [X1%pk_differs_false X2%differs_str].
  apply bind_Ok in E as (names & N & E). apply bind_Ok in E as (required & D & E). apply bind_Ok in E as (? & Y%pk_refuse_Ok%pk_differs_false & E). injection E as <- <- <-.
  unfold database_ready in D. apply bind_Ok in D as (? & A%pk_refuse_Ok & D). apply ror_false in A as [A1%differs_str A2%differs_str].
  apply bind_Ok in D as (q & Q & D). apply bind_Ok in D as (z & Z & D). apply bind_Ok in D as (? & B%pk_refuse_Ok%pk_differs_false & D).
  apply bind_Ok in D as (? & F%pk_refuse_Ok & D). apply bind_Ok in F as (fd & F1 & F2%pk_get_ne_false).
  apply bind_Ok in D as (? & C%pk_refuse_Ok & D). injection D as ->. apply rany_false in C.
  rewrite !Forall_cons in C. destruct C as (C1%differs_str & C2%not_true_false & C3%not_true_false & C4%differs_str & C5%pk_differs_false & C6%pk_differs_false & C7 & C8 & _).
  apply bind_Ok in C7 as (om & O1 & C7). apply bind_Ok in C7 as (on & O2 & C7). injection C7 as [C7 C7']%negb_false_iff%andb_true_iff.
  apply bind_Ok in C8 as (y & Hy & C8). injection C8 as C8%negb_false_iff. split; try done.
  - exists names. split; [done|]. by eapply credentials_Ok.
  - do 2 (split; [done|]). split; [by exists q|done].
  - do 4 (split; [done|]). split; [by destruct y as [|[]| | | | |]|done].
  - by exists om, on.
  - by exists fd.
Qed.

(** *** Native artifacts *)

(** The file of a reference: under one of the directories by a name of one part, with the digest that the release has signed *)
Definition referenced (w : world) (roots : list path) (reference : val) (p : path) : Prop :=
  exists root base name relative data,
    root ∈ roots /\ resolve root w = (Ok base, w) /\ getitem reference "manifest_filename" = Ok (VStr name) /\
    relative_path name = Some relative /\ length (parts relative) = 1%nat /\ resolve (Path.div base name) w = (Ok p, w) /\
    read_bytes p w = (Ok data, w) /\ getitem reference "manifest_sha256" = Ok (VStr (Sha256.hexdigest data)).
Lemma safe_child_Ok base v p : safe_child base v = Ok p -> exists name relative,
  v = VStr name /\ relative_path name = Some relative /\ length (parts relative) = 1%nat /\ p = Path.div base name.
Proof.
  unfold safe_child. intros E. apply bind_Ok in E as (name & N & E). destruct v; try discriminate. injection N as ->.
  destruct (relative_path name) as [relative|] eqn:Er; [|done]. destruct (Nat.eqb_spec (length (parts relative)) 1); [|done]. injection E as <-.
  by exists name, relative.
Qed.
Lemma candidate_Ok filename sha root w r w' : candidate_of filename sha root w = (Ok (Some r), w') ->
  exists base name relative data, resolve root w = (Ok base, w) /\ filename = VStr name /\ relative_path name = Some relative /\
    length (parts relative) = 1%nat /\ resolve (Path.div base name) w = (Ok r, w) /\ read_bytes r w = (Ok data, w) /\ sha = VStr (Sha256.hexdigest data).
Proof.
  unfold candidate_of. intros E. apply M_bind_Ok in E as (base & w1 & E1 & E). assert (forall p, Pres eq (resolve p)) as PR by (intros p; solve_pres).
  pose proof (pres_eq_run _ _ _ _ (PR _) E1) as ->. apply M_bind_Ok in E as (c & w1 & [(name & relative & -> & Hr & Hl & ->)%safe_child_Ok ->]%lift_Ok & E).
  apply M_bind_Ok in E as (q & w1 & E2 & E). pose proof (pres_eq_run _ _ _ _ (PR _) E2) as ->. apply M_bind_Ok in E as (f & w1 & Ef & E). injection Ef as Ef <-.
  destruct f; cbn [negb] in E; [|by apply ret_Ok in E as [? _]]. apply M_bind_Ok in E as (h & w1 & (-> & data & Hd & ->)%digest_reads & E).
  destruct (py_ne _ sha) eqn:Es; [done|]. apply negb_false_iff, py_eq_str_l in Es as ->. apply ret_Ok in E as [[= ->] _].
  by exists base, name, relative, data.
Qed.
Lemma candidates_Ok filename sha roots w : forall cs w', mmap (candidate_of filename sha) roots w = (Ok cs, w') ->
  forall p, p ∈ omap id cs -> exists root, root ∈ roots /\ candidate_of filename sha root w = (Ok (Some p), w).
Proof.
  induction roots as [|root roots IH]; intros cs w' E p Hp; simpl in E; [by apply ret_Ok in E as [<- _]; apply elem_of_nil in Hp|].
  apply M_bind_Ok in E as (c & w1 & E1 & E). pose proof (pres_eq_run _ _ _ _ (ro_candidate _ _ _) E1) as ->.
  apply M_bind_Ok in E as (cs' & w1 & E2 & E). apply ret_Ok in E as [<- _]. destruct c as [q|]; cbn in Hp.
  - apply elem_of_cons in Hp as [->|Hp]; [exists root; split; [by left|done]|]. destruct (IH _ _ E2 _ Hp) as (r & Hr & Er). exists r. split; [by right|done].
  - destruct (IH _ _ E2 _ Hp) as (r & Hr & Er). exists r. split; [by right|done].
Qed.
Lemma reference_Ok filename sha roots reference w p w' : resolve_reference_file filename sha roots w = (Ok p, w') ->
  getitem reference "manifest_filename" = Ok filename -> getitem reference "manifest_sha256" = Ok sha -> w' = w /\ referenced w roots reference p.
Proof.
  intros E F G. pose proof (pres_eq_run _ _ _ _ (ro_reference _ _ _) E) as ->. split; [done|]. unfold resolve_reference_file in E.
  apply M_bind_Ok in E as (cs & w1 & E1 & E). pose proof (candidates_Ok _ _ _ _ _ _ E1) as Hc. destruct (omap id cs) as [|c cs'] eqn:Ec; [done|].
  apply M_bind_Ok in E as (ids & w2 & _ & E). destruct (negb _); [done|]. apply ret_Ok in E as [<- _].
  destruct (Hc c ltac:(left)) as (root & Hr & (base & name & relative & data & R & -> & Rn & L & Rp & D & ->)%candidate_Ok).
  by exists root, base, name, relative, data.
Qed.

(** The handoff of one reference: the deployment manifest is the file of the reference, valid, of this release and this key,
    and the provider's manifest was supplied for its artifact, whose digest goes with the command. *)
Definition handed (i : documents) (git_sha : val) (sup : supplied) (roots : list path) (trust : path) (w : world) (reference : val)
    (h : val * list string) (native_path deployment_path : path) (native deployment : val) (w' : world) : Prop :=
  referenced w roots reference deployment_path /\ load deployment_path w = (Ok deployment, w) /\
  valid w (contract "deployment/native-artifact-v1") deployment /\
  (exists x y, getitem deployment "artifact_id" = Ok x /\ getitem reference "artifact_id" = Ok y /\ py_eq x y = true) /\
  (exists x, item deployment ["git_sha"] = Ok x /\ py_eq x git_sha = true) /\
  (exists x y, getitem deployment "target_triple" = Ok x /\ getitem (provider i) "target_triple" = Ok y /\ py_eq x y = true) /\
  item deployment ["artifact"; "signature"; "key_id"] = Ok (VStr (deployment_key_id a)) /\
  item deployment ["artifact"; "sha256"] = Ok h.1 /\ find_supplied h.1 sup = Some (native_path, native) /\
  h.2 = handoff_argv native_path deployment_path trust /\
  exists out err, started h.2 600 (Some ROOT) w = (Ok (0, out, err), w').
(** The signature beside the deployment manifest has the digest that the manifest names. *)
Definition signature_bound (w : world) (deployment_path : path) (deployment : val) : Prop :=
  exists name data, item deployment ["artifact"; "signature"; "signature_filename"] = Ok (VStr name) /\
    read_bytes (Path.div (Path.parent deployment_path) name) w = (Ok data, w) /\
    item deployment ["artifact"; "signature"; "signature_sha256"] = Ok (VStr (Sha256.hexdigest data)).
(** The entry of an artifact names its two manifests by the digests of their copies. *)
Definition entry_bound (w : world) (deployment : val) (native_copy deployment_copy : path) (entry : val) : Prop :=
  exists data data', read_bytes native_copy w = (Ok data, w) /\ read_bytes deployment_copy w = (Ok data', w) /\
    getitem entry "provider_manifest_filename" = Ok (VStr (Path.name native_copy)) /\
    getitem entry "provider_manifest_sha256" = Ok (VStr (Sha256.hexdigest data)) /\
    getitem entry "deployment_manifest_filename" = Ok (VStr (Path.name deployment_copy)) /\
    getitem entry "deployment_manifest_sha256" = Ok (VStr (Sha256.hexdigest data')) /\
    getitem entry "artifact_id" = getitem deployment "artifact_id" /\
    getitem entry "install_relative_path" = item deployment ["artifact"; "install_relative_path"].
Lemma item_differs_false v k x l : item_differs v k x l = Ok false -> exists y z, getitem v k = Ok y /\ getitem x l = Ok z /\ py_eq y z = true.
Proof.
  unfold item_differs. intros E. apply bind_Ok in E as (y & Hy & E). apply bind_Ok in E as (z & Hz & E).
  injection E as E%negb_false_iff. by exists y, z.
Qed.
Lemma ro_authorized i g roots r : Pres eq (authorized a i g roots r).
Proof. unfold authorized. solve_pres. Qed.
#[local] Hint Resolve ro_authorized : pres.
Lemma ro_entry d r n p : Pres eq (entry_of d r n p).
Proof. unfold entry_of. solve_pres. Qed.
#[local] Hint Resolve ro_entry : pres.
Lemma entry_Ok d r n p w e w' : entry_of d r n p w = (Ok e, w') -> w' = w /\ entry_bound w d n p e.
Proof.
  unfold entry_of. intros E. apply M_bind_Ok in E as (x & w1 & [X ->]%lift_Ok & E). apply M_bind_Ok in E as (h & w1 & (-> & data & Hd & ->)%digest_reads & E).
  apply M_bind_Ok in E as (k & w1 & (-> & data' & Hd' & ->)%digest_reads & E). apply M_bind_Ok in E as (y & w1 & [Y ->]%lift_Ok & E).
  apply M_bind_Ok in E as (z & w1 & [_ ->]%lift_Ok & E). apply ret_Ok in E as [<- ->]. split; [done|]. exists data, data'. rewrite X, Y. by split_and!.
Qed.
Lemma copy_signature_Ok dp d out s u s' : copy_signature dp d out s = (Ok u, s') -> signature_bound s.2 dp d.
Proof.
  unfold copy_signature. intros E. apply M_bind_Ok in E as (sg & s1 & [S ->]%lift_Ok & E). apply bind_Ok in S as (v & V & (name & relative & -> & _ & _ & ->)%safe_child_Ok).
  apply M_bind_Ok in E as (f & s2 & [Ef F2]%zoom_Ok & E). injection Ef as Ef W2. destruct f; cbn [negb orb] in E.
  2: { do 2 (apply M_bind_Ok in E as (? & ? & _ & E)). by apply M_bind_Ok in E as (? & ? & E & _). }
  apply M_bind_Ok in E as (h & s3 & [(W3 & data & Hd & ->)%digest_reads F3]%zoom_Ok & E). apply M_bind_Ok in E as (x & s4 & [X ->]%lift_Ok & E).
  apply M_bind_Ok in E as (? & s5 & E5 & E). destruct (py_ne _ x) eqn:N; [done|]. apply negb_false_iff, py_eq_str_l in N as ->.
  exists name, data. split; [done|]. by rewrite W2.
Qed.
Lemma authorized_Ok i g roots r w dp d w' : authorized a i g roots r w = (Ok (dp, d), w') -> w' = w /\
  referenced w roots r dp /\ load dp w = (Ok d, w) /\ valid w (contract "deployment/native-artifact-v1") d /\
  rany id (identity_tests i d r g) = Ok false /\ item d ["artifact"; "signature"; "key_id"] = Ok (VStr (deployment_key_id a)).
Proof.
  unfold authorized. intros E. apply M_bind_Ok in E as (f & w1 & [F ->]%lift_Ok & E). apply M_bind_Ok in E as (h & w1 & [G ->]%lift_Ok & E).
  apply M_bind_Ok in E as (p & w1 & E1 & E). destruct (reference_Ok _ _ _ _ _ _ _ E1 F G) as [-> R].
  apply M_bind_Ok in E as (v & w1 & L & E). pose proof (pres_eq_run _ _ _ _ (pk_ro_load _) L) as ->.
  apply M_bind_Ok in E as (? & w1 & [-> V]%pk_contract_valid & E). apply M_bind_Ok in E as (? & ? & [A%pk_refuse_Ok ->]%lift_Ok & E).
  apply M_bind_Ok in E as (? & ? & [B%pk_refuse_Ok%differs_str ->]%lift_Ok & E). apply ret_Ok in E as [[= <- <-] ->]. done.
Qed.

(** One reference: its handoff, then the copies, which have the signature, and its entry *)
Definition added (i : documents) (git_sha : val) (sup : supplied) (roots : list path) (trust out : path) (s : list (string * string) * world)
    (reference : val) (h : val * list string) (entry : val) (s' : list (string * string) * world) : Prop :=
  exists native_path deployment_path native deployment w1 native_copy deployment_copy s2,
    handed i git_sha sup roots trust s.2 reference h native_path deployment_path native deployment w1 /\
    copy_pair native_path deployment_path native reference out (s.1, w1) = (Ok (native_copy, deployment_copy), s2) /\
    signature_bound s2.2 deployment_path deployment /\ copy_signature deployment_path deployment out s2 = (Ok tt, s') /\
    entry_bound s'.2 deployment native_copy deployment_copy entry.
Lemma sl_copy_pair np dp n r out : Pres (on_snd same_log) (copy_pair np dp n r out).
Proof. unfold copy_pair. solve_pres. Qed.
Lemma sl_copy_signature dp d out : Pres (on_snd same_log) (copy_signature dp d out).
Proof. unfold copy_signature. solve_pres. Qed.
#[local] Hint Resolve sl_copy_pair sl_copy_signature : pres.
Lemma add_native_Ok i g sup roots trust out acc r s acc' s' : add_native a i g sup roots trust out acc r s = (Ok acc', s') ->
  exists h entry, added i g sup roots trust out s r h entry s' /\ acc'.1 = acc.1 ++ [entry] /\ (forall u, u ∈ acc'.2 -> u ∈ acc.2 \/ u = h.1).
Proof.
  unfold add_native. intros E. apply M_bind_Ok in E as ([dp d] & s1 & [(W1 & R & L & V & A & K)%authorized_Ok F1]%zoom_Ok & E).
  assert (s1 = s) as -> by (by destruct s1, s; simpl in *; subst). clear W1 F1.
  apply M_bind_Ok in E as (sha & s2 & [S ->]%lift_Ok & E). apply M_bind_Ok in E as (? & s2 & [_ ->]%lift_Ok & E).
  destruct (find_supplied sha sup) as [[np native]|] eqn:Ef; [|done].
  apply M_bind_Ok in E as ([] & s2 & [(so & se & E2)%handoff_Ok F2]%zoom_Ok & E). apply M_bind_Ok in E as ([nc dc] & s3 & E3 & E). cbv beta iota in E.
  apply M_bind_Ok in E as ([] & s4 & E4 & E). apply M_bind_Ok in E as (entry & s5 & [(W5 & B)%entry_Ok F5]%zoom_Ok & E).
  assert (s5 = s4) as -> by (by destruct s5, s4; simpl in *; subst). clear W5 F5. apply ret_Ok in E as [<- ->].
  exists (sha, handoff_argv np dp trust), entry. cbn [fst snd].
  split; [|split; [done|destruct (py_in sha acc.2); [by left|]; intros u [Hu|Hu%list_elem_of_singleton]%elem_of_app; [by left|by right]]].
  apply rany_false in A. unfold identity_tests in A. rewrite !Forall_cons in A. destruct A as (A1%item_differs_false & A2%pk_differs_false & A3%item_differs_false & _).
  exists np, dp, native, d, s2.2, nc, dc, s3. split; [|split; [by rewrite <-F2, <-surjective_pairing|]].
  - unfold handed. cbn [fst snd]. do 10 (split; [done|]). by exists so, se.
  - split; [by eapply copy_signature_Ok|done].
Qed.
(** All the references of a release, in their order: the handoffs with the digests they used, and the entries *)
Inductive all_added (i : documents) (git_sha : val) (sup : supplied) (roots : list path) (trust out : path) :
    list val -> list (string * string) * world -> list (val * list string) -> list val -> list (string * string) * world -> Prop :=
  | added_none s : all_added i git_sha sup roots trust out [] s [] [] s
  | added_one r refs s h entry s1 hs entries s' : added i git_sha sup roots trust out s r h entry s1 ->
      all_added i git_sha sup roots trust out refs s1 hs entries s' ->
      all_added i git_sha sup roots trust out (r :: refs) s (h :: hs) (entry :: entries) s'.
Lemma add_natives i g sup roots trust out refs : forall acc s acc' s',
  mfold (add_native a i g sup roots trust out) acc refs s = (Ok acc', s') ->
  exists hs entries, all_added i g sup roots trust out refs s hs entries s' /\ acc'.1 = acc.1 ++ entries /\
    (forall u, u ∈ acc'.2 -> u ∈ acc.2 \/ u ∈ map fst hs).
Proof.
  induction refs as [|r refs IH]; intros acc s acc' s' E; simpl in E.
  - apply ret_Ok in E as [<- ->]. exists [], []. split; [constructor|]. split; [by rewrite app_nil_r|by left].
  - apply M_bind_Ok in E as (acc1 & s1 & (h & entry & A1 & L1 & U1)%add_native_Ok & E). destruct (IH _ _ _ _ E) as (hs & entries & D & L & U).
    exists (h :: hs), (entry :: entries). split; [by econstructor|]. split; [by rewrite L, L1, <-app_assoc|].
    intros u Hu. simpl. rewrite elem_of_cons. destruct (U u Hu) as [Hu'|]; [destruct (U1 u Hu')|]; tauto.
Qed.
Lemma all_added_did i g sup roots trust out refs s hs entries s' : all_added i g sup roots trust out refs s hs entries s' ->
  did (rev (map snd hs)) s.2 s'.2 /\ length entries = length refs.
Proof.
  induction 1 as [s|r refs s h entry s1 hs entries s' A _ [D L]]; [by split; [apply did_nothing|]|].
  split; [|simpl; by rewrite L]. simpl. eapply did_then; [|exact D].
  destruct A as (np & dp & native & d & w1 & nc & dc & s2 & (_ & _ & _ & _ & _ & _ & _ & _ & _ & _ & so & se & E%started_did) & E3 & _ & E4 & _).
  quiet E3. quiet E4. eapply did_after; [exact E|]. unfold same_log in *. simpl in *. congruence.
Qed.
(** The providers that were supplied: in the order of the command line each is valid, of this commit and target, and
    known by the digest of its artifact, which no earlier one has. *)
Definition supplied_from (i : documents) (git_sha : val) (w : world) (manifest : path) (x : val * (path * val)) : Prop :=
  resolve manifest w = (Ok x.2.1, w) /\ load x.2.1 w = (Ok x.2.2, w) /\ valid w (contract "native/native-artifact-v1") x.2.2 /\
  getitem x.2.2 "artifact_sha256" = Ok x.1 /\ (exists v, item x.2.2 ["source_revision"] = Ok v /\ py_eq v git_sha = true) /\
  exists t v, getitem (provider i) "target_triple" = Ok t /\ item x.2.2 ["target_triple"] = Ok v /\ py_eq v t = true.
Definition distinct (sup : supplied) : Prop := forall l x r, sup = l ++ x :: r -> find_supplied x.1 l = None.
Lemma distinct_snoc l x : distinct l -> find_supplied x.1 l = None -> distinct (l ++ [x]).
Proof.
  intros D F k y r E. destruct r as [|z r _] using rev_ind.
  - apply app_inj_tail in E as [<- <-]. done.
  - apply (D k y r). rewrite app_comm_cons, app_assoc in E. by apply app_inj_tail in E as [-> _].
Qed.
Lemma supply_Ok i g acc p w acc' w' : supply i g acc p w = (Ok acc', w') -> w' = w /\
  exists x, acc' = (acc.1 ++ [x], acc.2 ++ [Path.parent x.2.1]) /\ supplied_from i g w p x /\ find_supplied x.1 acc.1 = None.
Proof.
  intros E. assert (Pres eq (supply i g acc p)) as P by (unfold supply; solve_pres). pose proof (pres_eq_run _ _ _ _ P E) as ->. split; [done|].
  unfold supply in E. apply M_bind_Ok in E as (q & w1 & Eq & E). assert (Pres eq (resolve p)) as PR by solve_pres. pose proof (pres_eq_run _ _ _ _ PR Eq) as ->.
  apply M_bind_Ok in E as (t & w2 & [T ->]%lift_Ok & E). apply M_bind_Ok in E as (native & w3 & E3 & E).
  pose proof (pres_eq_run _ _ _ _ (ro_native_provider _ _ _) E3) as ->. unfold load_native_provider in E3.
  apply M_bind_Ok in E3 as (n & w4 & L & E3). pose proof (pres_eq_run _ _ _ _ (pk_ro_load _) L) as ->.
  apply M_bind_Ok in E3 as (? & w5 & [-> V]%pk_contract_valid & E3). apply M_bind_Ok in E3 as (? & w6 & [R%pk_refuse_Ok _]%lift_Ok & E3). apply ret_Ok in E3 as [-> _].
  apply ror_false in R as [R%pk_differs_false Rt%pk_differs_false]. destruct Rt as (y & Y & Qy).
  apply M_bind_Ok in E as (sha & w7 & [S ->]%lift_Ok & E). apply M_bind_Ok in E as (? & w8 & [_ ->]%lift_Ok & E).
  destruct (find_supplied sha acc.1) eqn:Ef; [done|]. apply ret_Ok in E as [<- _]. exists (sha, (q, native)). split; [done|]. split; [|done].
  unfold supplied_from. cbn [fst snd]. do 4 (split; [done|]). split; [done|]. by exists t, y.
Qed.
Lemma supply_all i g l : forall acc w acc' w', mfold (supply i g) acc l w = (Ok acc', w') -> w' = w /\ exists new,
  acc' = (acc.1 ++ new, acc.2 ++ map (λ x : val * (path * val), Path.parent x.2.1) new) /\ Forall2 (supplied_from i g w) l new /\
  (distinct acc.1 -> distinct (acc.1 ++ new)).
Proof.
  induction l as [|p l IH]; intros acc w acc' w' E; simpl in E.
  - apply ret_Ok in E as [<- ->]. split; [done|]. exists []. rewrite !app_nil_r. split; [by destruct acc|]. by split.
  - apply M_bind_Ok in E as (acc1 & w1 & (-> & x & -> & C & D)%supply_Ok & E). destruct (IH _ _ _ _ E) as (-> & new & -> & F & Dn). split; [done|].
    exists (x :: new). cbn [fst snd map] in *. rewrite <-!app_assoc in *. split; [done|]. split; [by constructor|]. intros Da.
    by apply Dn, distinct_snoc.
Qed.

(** The native artifacts of a release: the public key in a directory of its own, then each reference; every provider that was
    supplied was used, and there is an artifact when the runtime requires it. *)
Definition natives_added (i : documents) (git_sha : val) (sup : supplied) (roots : list path) (out : path)
    (s : list (string * string) * world) (refs : list val) (hs : list (val * list string)) (entries : list val) (derive : list string)
    (s' : list (string * string) * world) : Prop :=
  exists t trust v key v' s2 mode,
    gettempdir s.2 = (Ok t, s.2) /\ ActivateRelease.mkdtemp "liqi-native-deployment-trust-" t s.2 = (Ok trust, v) /\
    resolve (deployment_signing_key a) v = (Ok key, v) /\ derived key (deployment_key_id a) trust v v' /\
    derive = derive_argv key (Path.div trust (deployment_key_id a +:+ ".pem")) /\
    getitem (provider i) "native_artifacts" ≫= py_iter = Ok refs /\ all_added i git_sha sup roots trust out refs (s.1, v') hs entries s2 /\
    rmtree_ignore trust s2.2 = (Ok tt, s'.2) /\ s'.1 = s2.1 /\
    (forall x, x ∈ sup -> exists h, h ∈ hs /\ py_eq x.1 h.1 = true) /\
    item (runtime i) ["native"; "mode"] = Ok mode /\ (py_eq mode (VStr "required") = true -> entries <> []).
Lemma native_entries_Ok i g sup roots out s entries s' : native_entries a i g sup roots out s = (Ok entries, s') ->
  exists refs hs derive, natives_added i g sup roots out s refs hs entries derive s'.
Proof.
  unfold native_entries. intros E. apply M_bind_Ok in E as ([es used] & s1 & (t & trust & v & s2 & T & D & E1 & F & R)%temporary_runs & E).
  cbv beta iota in E. apply M_bind_Ok in E as (? & s4 & E4 & E). destruct (all_used sup used) eqn:Eu; [|done]. apply ret_Ok in E4 as [_ ->].
  apply M_bind_Ok in E as (? & s5 & [M%pk_refuse_Ok ->]%lift_Ok & E). apply ret_Ok in E as [<- ->]. apply bind_Ok in M as (mode & M & Q). injection Q as Q.
  apply M_bind_Ok in E1 as (key & s6 & [K F6]%zoom_Ok & E1). assert (Pres eq (resolve (deployment_signing_key a))) as PR by solve_pres.
  pose proof (pres_eq_run _ _ _ _ PR K) as W6. cbn [snd] in W6, F6, K. apply M_bind_Ok in E1 as (q & s7 & [[Dk ->]%derive_Ok F7]%zoom_Ok & E1).
  apply M_bind_Ok in E1 as (refs & s8 & [Er ->]%lift_Ok & E1). apply add_natives in E1 as (hs & es' & A & Les & U). cbn [fst snd app] in *. subst es'.
  exists refs, hs, (derive_argv key (Path.div trust (deployment_key_id a +:+ ".pem"))), t, trust, v, key, s7.2, s2, mode. rewrite W6 in K, Dk.
  do 5 (split; [done|]). split; [by destruct (getitem _ _)|]. split; [by rewrite <-F6, <-F7, <-surjective_pairing|]. do 2 (split; [done|]).
  unfold all_used in Eu. apply andb_true_iff in Eu as [Eu _]. rewrite forallb_forall in Eu. split.
  - intros o Hx%list_elem_of_In. specialize (Eu o Hx). apply existsb_exists in Eu as (u & Hu%list_elem_of_In & Hxu).
    destruct (U u Hu) as [Hn|(h & -> & Hh)%list_elem_of_fmap]; [by apply elem_of_nil in Hn|]. by exists h.
  - split; [done|]. intros Hm ->. by rewrite Hm in Q.
Qed.
Lemma natives_did i g sup roots out s refs hs entries derive s' : natives_added i g sup roots out s refs hs entries derive s' ->
  did (rev (map snd hs) ++ [derive]) s.2 s'.2 /\ length entries = length refs.
Proof.
  intros (t & trust & v & key & v' & s2 & mode & T & D & K & Dk%derived_did & -> & _ & [A N]%all_added_did & R & _). split; [|done].
  eapply did_before; [exact (pres_run _ _ _ _ _ (sl_mkdtemp _ _) D)|]. eapply did_then; [exact Dk|]. eapply did_after; [exact A|].
  exact (pres_run _ _ _ _ _ (sl_rmtree _) R).
Qed.

(** *** The wrapper *)

(** An entry of the wrapper names a copy, by the digest of the bytes it has. *)
Definition names_copy (w : world) (wrapper : val) (k : string) (p : path) : Prop :=
  exists data, read_bytes p w = (Ok data, w) /\ item wrapper [k; "filename"] = Ok (VStr (Path.name p)) /\
    item wrapper [k; "sha256"] = Ok (VStr (Sha256.hexdigest data)).
Definition bound_copies (c : copies) : list (string * path) :=
  [("provider_manifest", c_provider c); ("runtime_artifact_result", c_result c); ("runtime_config", c_runtime c);
   ("database_contract", c_database c); ("migration_readiness", c_readiness c)].
Lemma bound_Ok v p w e w' : bound v p w = (Ok e, w') -> w' = w /\
  exists data x, read_bytes p w = (Ok data, w) /\
    e = VDict [("schema_version", x); ("filename", VStr (Path.name p)); ("sha256", VStr (Sha256.hexdigest data))].
Proof.
  unfold bound. intros E. apply M_bind_Ok in E as (x & w1 & [_ ->]%lift_Ok & E). apply M_bind_Ok in E as (h & w1 & (-> & data & D & ->)%digest_reads & E).
  apply ret_Ok in E as [<- ->]. split; [done|]. by exists data, x.
Qed.
Lemma ro_rollback_entry rb c : Pres eq (rollback_entry rb c).
Proof. unfold rollback_entry. solve_pres. Qed.
(** The rollback target in the wrapper: the descriptor, by the digest of its copy *)
Definition target_bound (w : world) (wrapper : val) (rollback : option (path * val)) (copy : option path) : Prop :=
  match rollback, copy with
  | Some (_, d), Some p => exists rid data, getitem d "release_id" = Ok rid /\ read_bytes p w = (Ok data, w) /\
      getitem wrapper "rollback_target" = Ok (VDict [("release_id", rid); ("descriptor_filename", VStr (Path.name p));
        ("descriptor_sha256", VStr (Sha256.hexdigest data))])
  | _, _ => getitem wrapper "rollback_target" = Ok VNone
  end.
Lemma rollback_entry_Ok rb c w b w' : rollback_entry rb c w = (Ok b, w') ->
  w' = w /\ forall wrapper, getitem wrapper "rollback_target" = Ok b -> target_bound w wrapper rb c.
Proof.
  intros E. pose proof (pres_eq_run _ _ _ _ (ro_rollback_entry _ _) E) as ->. split; [done|]. intros wrapper Hw. unfold target_bound.
  unfold rollback_entry in E. destruct rb as [[p d]|], c as [q|]; try (by apply ret_Ok in E as [<- _]).
  apply M_bind_Ok in E as (rid & w1 & [R ->]%lift_Ok & E). apply M_bind_Ok in E as (h & w1 & (-> & data & D & ->)%digest_reads & E).
  apply ret_Ok in E as [<- _]. by exists rid, data.
Qed.
Lemma wrapper_Ok i rid g rr c rb entries w wrapper w' : wrapper_of a i rid g rr c rb entries w = (Ok wrapper, w') -> same_log w w' /\
  Forall (λ x, names_copy w wrapper x.1 x.2) (bound_copies c) /\ target_bound w wrapper rb (c_rollback c) /\ getitem wrapper "release_id" = Ok rid /\
  getitem wrapper "git_sha" = Ok g /\ getitem wrapper "native_artifacts" = Ok (VList entries).
Proof.
  unfold wrapper_of. intros E. do 5 (apply M_bind_Ok in E as (? & ? & (-> & ? & ? & ? & ->)%bound_Ok & E)).
  apply M_bind_Ok in E as (rb' & w1 & (-> & T)%rollback_entry_Ok & E).
  apply M_bind_Ok in E as (created & w2 & E2 & E). apply ret_Ok in E as [<- ->].
  split; [exact (pres_run _ _ _ _ _ sl_utc_now E2)|]. split; [|split; [by apply T|done]].
  repeat constructor; eexists; (split; [eassumption|]); split; reflexivity.
Qed.

(** *** The package *)

(** A document read from its file, and valid against the schema of its contract *)
Definition reads_valid (w : world) (p : path) (schema : string) (v : val) : Prop := load p w = (Ok v, w) /\ valid w (contract schema) v.
Definition documents_read (w : world) (i : documents) : Prop :=
  reads_valid w (provider_manifest a) "deployment/mix-release-v1" (provider i) /\
  reads_valid w (runtime_config a) "runtime/runtime-config-v1" (runtime i) /\
  reads_valid w (database_contract a) "database/database-runtime-v1" (database i) /\
  reads_valid w (migration_readiness a) "database/migration-readiness-v1" (readiness i).
Lemma load_documents_Ok w i w' : load_documents a w = (Ok i, w') -> w' = w /\ documents_read w i.
Proof.
  unfold load_documents. intros E.
  do 4 (let R := fresh "R" in apply M_bind_Ok in E as (? & ? & R & E); pose proof (pres_eq_run _ _ _ _ (pk_ro_load _) R) as ->).
  do 4 (apply M_bind_Ok in E as (? & ? & [-> ?]%pk_contract_valid & E)). apply ret_Ok in E as [<- ->]. by repeat split.
Qed.
(** The result of the verifier passed, and is of the release and of its artifact. *)
Definition runtime_verified (i : documents) (release_id git_sha result : val) : Prop :=
  item result ["status"] = Ok (VStr "passed") /\ (exists b, getitem result "blockers" = Ok b /\ truthy b = false) /\
  (exists x, item result ["git_sha"] = Ok x /\ py_eq x git_sha = true) /\ (exists x, item result ["release_id"] = Ok x /\ py_eq x release_id = true) /\
  exists x sha, item (provider i) ["artifact"; "sha256"] = Ok sha /\ item result ["artifact_sha256"] = Ok x /\ py_eq x sha = true.
(** The verifier of the release ran in a directory of its own, and the result that it left is valid, passed and of this release. *)
Definition runtime_checked (i : documents) (release_id git_sha : val) (w : world) (result : val) (command : list string) : Prop :=
  exists t d v manifest trust out err v',
    gettempdir w = (Ok t, w) /\ ActivateRelease.mkdtemp "liqi-runtime-verify-" t w = (Ok d, v) /\
    resolve (provider_manifest a) v = (Ok manifest, v) /\ resolve (provider_trust_dir a) v = (Ok trust, v) /\
    let output := Path.div d (py_str release_id +:+ ".runtime-artifact-result-v1.json") in
    command = verifier_argv manifest trust output /\ started command 900 (Some ROOT) v = (Ok (0, out, err), v') /\
    load output v' = (Ok result, v') /\ valid v' (contract "runtime/runtime-artifact-result-v1") result /\
    runtime_verified i release_id git_sha result.
Lemma pk_runtime_result_Ok i rid g out s r c s' : runtime_result_of a i rid g out s = (Ok (r, c), s') ->
  exists command, runtime_checked i rid g s.2 r command /\ did [command] s.2 s'.2.
Proof.
  unfold runtime_result_of. intros (t & d & v & s2 & T & D & E & _ & R)%temporary_runs. cbv zeta in E.
  assert (forall p, Pres eq (resolve p)) as PR by (intros p; solve_pres).
  apply M_bind_Ok in E as (m & s3 & [E3 F3]%zoom_Ok & E). pose proof (pres_eq_run _ _ _ _ (PR _) E3) as W3.
  apply M_bind_Ok in E as (tr & s4 & [E4 F4]%zoom_Ok & E). pose proof (pres_eq_run _ _ _ _ (PR _) E4) as W4. cbn [snd fst] in *. rewrite W4, W3 in *.
  apply M_bind_Ok in E as (x & s5 & [(so & se & X & L & V & V1 & V2)%verifier_Ok _]%zoom_Ok & E). apply M_bind_Ok in E as (? & s6 & [A%pk_refuse_Ok ->]%lift_Ok & E).
  rewrite ?W4, ?W3 in X. apply M_bind_Ok in E as (q & s7 & E7 & E). quiet E7. apply ret_Ok in E as [[= -> ->] ->]. eexists. split.
  - exists t, d, v, m, tr, so, se, s5.2. do 4 (split; [done|]). cbv zeta. split; [reflexivity|]. do 3 (split; [done|]).
    apply rany_false in A. rewrite !Forall_cons in A. destruct A as (A1%pk_differs_false & A2%pk_differs_false & A3 & _).
    apply bind_Ok in A3 as (sha & S & (y & Y1 & Y2)%pk_differs_false). do 4 (split; [done|]). by exists y, sha.
  - apply started_did in X. eapply did_before; [exact (pres_run _ _ _ _ _ (sl_mkdtemp _ _) D)|]. eapply did_after; [exact X|].
    pose proof (pres_run _ _ _ _ _ (sl_rmtree _) R). unfold same_log in *. congruence.
Qed.
Lemma sl_copy_release i out : Pres (on_snd same_log) (copy_release a i out).
Proof. unfold copy_release. solve_pres. Qed.
Lemma sl_copy_inputs rb p r out : Pres (on_snd same_log) (copy_inputs a rb p r out).
Proof. unfold copy_inputs. solve_pres. Qed.
#[local] Hint Resolve sl_copy_release sl_copy_inputs : pres.

(** The rollback target is the one the release names, without one only for a first release; it has evidence
    for the migration the release requires, and its database is not rolled back. *)
Definition rollback_ready (w : world) (i : documents) (required : Z) (rollback : option (path * val)) : Prop :=
  exists rid, getitem (provider i) "rollback_target_release_id" = Ok rid /\
  match rollback with
  | None => rid = VNone /\ rollback_target_descriptor a = None
  | Some (p, d) => rollback_target_descriptor a = Some p /\ reads_valid w p "deployment/release-target-v1" d /\
      (exists x, item d ["release_id"] = Ok x /\ py_eq x rid = true) /\
      exists c m t, getitem d "database_compatibility" = Ok c /\ getitem c "minimum_migration" = Ok m /\
        getitem c "rollback_safe_through" = Ok t /\ py_le m (VInt required) = Ok true /\ py_le (VInt required) t = Ok true /\
        getitem c "database_rollback_allowed" = Ok (VBool false)
  end.
Lemma verify_rollback_Ok p rid required w d w' : verify_rollback p rid required w = (Ok d, w') ->
  reads_valid w p "deployment/release-target-v1" d /\ (exists x, item d ["release_id"] = Ok x /\ py_eq x rid = true) /\
  exists c m t, getitem d "database_compatibility" = Ok c /\ getitem c "minimum_migration" = Ok m /\
    getitem c "rollback_safe_through" = Ok t /\ py_le m (VInt required) = Ok true /\ py_le (VInt required) t = Ok true /\
    getitem c "database_rollback_allowed" = Ok (VBool false).
Proof.
  unfold verify_rollback. intros E. apply M_bind_Ok in E as (v & w1 & L & E). pose proof (pres_eq_run _ _ _ _ (pk_ro_load _) L) as ->.
  apply M_bind_Ok in E as (? & w1 & [-> V]%pk_contract_valid & E). apply M_bind_Ok in E as (? & w1 & [A%pk_refuse_Ok%pk_differs_false ->]%lift_Ok & E).
  apply M_bind_Ok in E as (c & w1 & [C ->]%lift_Ok & E). apply M_bind_Ok in E as (? & w1 & [B%pk_refuse_Ok ->]%lift_Ok & E).
  apply M_bind_Ok in E as (? & w1 & [D%pk_refuse_Ok ->]%lift_Ok & E). apply ret_Ok in E as [<- ->]. do 2 (split; [done|]).
  apply bind_Ok in B as (cov & B & N). injection N as N%negb_false_iff. subst cov. unfold covers in B.
  apply bind_Ok in B as (m & M & B). apply bind_Ok in B as (le & Le & B). destruct le; [|done]. apply bind_Ok in B as (t & T & B).
  apply bind_Ok in D as (b & F & D). injection D as D%negb_false_iff. exists c, m, t. do 5 (split; [done|]). by destruct b as [|[]| | | | |].
Qed.
Lemma rollback_of_Ok i required w rb w' : rollback_of a i required w = (Ok rb, w') -> w' = w /\ rollback_ready w i required rb.
Proof.
  unfold rollback_of. intros E. apply M_bind_Ok in E as (rid & w1 & [R ->]%lift_Ok & E).
  assert (forall p, (d ← verify_rollback p rid required; mret (Some (p, d))) w = (Ok rb, w') -> rollback_target_descriptor a = Some p ->
    w' = w /\ rollback_ready w i required rb) as H1.
  { intros p F P. apply M_bind_Ok in F as (d & w1 & F & G). pose proof (pres_eq_run _ _ _ _ (ro_verify_rollback _ _ _) F) as ->.
    apply verify_rollback_Ok in F. apply ret_Ok in G as [<- ->]. split; [done|]. exists rid. by split. }
  destruct rid, (rollback_target_descriptor a) as [p|] eqn:Ep; try done; try (by apply (H1 p)).
  apply ret_Ok in E as [<- ->]. split; [done|]. by exists VNone.
Qed.

Definition wrapper_path (release_id : val) (out : path) : path := Path.div out (py_str release_id +:+ ".mix-deployment-v1.json").
Definition signature_path (release_id : val) (out : path) : path := Path.div out (py_str release_id +:+ ".mix-deployment-v1.json.sig").
(** The signing of the wrapper: its file is written, then read by the one process, and neither is for others to read. *)
Definition published (release_id : val) (out : path) (wrapper : val) (w : world) (command : list string) (w' : world) : Prop :=
  valid w (contract "deployment/mix-deployment-v1") wrapper /\
  exists v key so se v1 v2 v3 line,
    write_file (wrapper_path release_id out) (json_text wrapper) w = (Ok tt, v) /\
    read_bytes (wrapper_path release_id out) v = (Ok (json_text wrapper), v) /\ resolve (deployment_signing_key a) v = (Ok key, v) /\
    command = sign_argv (wrapper_path release_id out) key (signature_path release_id out) /\
    started command 30 None v = (Ok (0, so, se), v1) /\ chmod (wrapper_path release_id out) 416 v1 = (Ok tt, v2) /\
    chmod (signature_path release_id out) 416 v2 = (Ok tt, v3) /\ print line v3 = (Ok tt, w').
Lemma pk_publish_Ok rid g required rb out wrapper w u w' : publish a rid g required rb out wrapper w = (Ok u, w') ->
  exists command, published rid out wrapper w command w' /\ did [command] w w'.
Proof.
  unfold publish. intros E. apply M_bind_Ok in E as (? & w1 & [-> V]%pk_contract_valid & E). cbv zeta in E.
  apply M_bind_Ok in E as ([] & w1 & E1 & E). pose proof (write_file_read _ _ _ _ _ E1) as R. pose proof (pres_run _ _ _ _ _ (sl_write_file _ _) E1) as L1.
  assert (Pres eq (resolve (deployment_signing_key a))) as PK by solve_pres.
  apply M_bind_Ok in E as (key & w2 & E2 & E). pose proof (pres_eq_run _ _ _ _ PK E2) as ->.
  apply M_bind_Ok in E as ([] & w3 & (so & se & D)%sign_Ok & E). apply M_bind_Ok in E as ([] & w4 & C1 & E). apply M_bind_Ok in E as ([] & w5 & C2 & E).
  apply M_bind_Ok in E as (h & w6 & E6 & E). pose proof (pres_eq_run _ _ _ _ (pk_ro_digest _) E6) as ->.
  apply M_bind_Ok in E as (k & w7 & E7 & E). pose proof (pres_eq_run _ _ _ _ (pk_ro_digest _) E7) as ->.
  apply M_bind_Ok in E as (r & w8 & [_ ->]%lift_Ok & E). destruct u.
  eexists. split; [split; [done|]; by exists w1, key, so, se, w3, w4, w5, (Json.dumps Json.pretty (VDict [
    ("schema_version", VStr "liqi.deployment.mix-deployment-preparation-result/v1"); ("status", VStr "prepared"); ("release_id", rid);
    ("git_sha", g); ("wrapper_path", VStr (Path.to_str (wrapper_path rid out))); ("wrapper_sha256", VStr h);
    ("signature_path", VStr (Path.to_str (signature_path rid out))); ("signature_sha256", VStr k); ("required_migration", VInt required);
    ("rollback_target_release_id", r); ("oci_mutation_performed", VBool false)]))|].
  eapply did_before; [exact L1|]. eapply did_after; [by eapply started_did|].
  pose proof (pres_run _ _ _ _ _ (sl_chmod _ _) C1). pose proof (pres_run _ _ _ _ _ (sl_chmod _ _) C2). injection E as <-. unfold same_log in *. simpl. congruence.
Qed.

(** A preparation, statement by statement: each world is the one its run of the program leaves. *)
Definition preparation (w : world) (i : documents) (release_id git_sha : val) (required : Z) (rollback : option (path * val)) (result wrapper : val)
    (commands : list (list string)) (w' : world) : Prop :=
  exists out w1 c_provider base s1 c_result s2 c s3 sup refs hs entries s4 w5 verify derive signing,
    (IDENT (deployment_key_id a) = true /\ is_file (deployment_signing_key a) w = (Ok true, w)) /\
    documents_read w i /\ deployable i release_id git_sha required /\ rollback_ready w i required rollback /\
    resolve (a_output_dir a) w = (Ok out, w) /\ mkdir_p out w = (Ok tt, w1) /\ copy_release a i out ([], w1) = (Ok (c_provider, base), s1) /\
    runtime_result_of a i release_id git_sha out s1 = (Ok (result, c_result), s2) /\ runtime_checked i release_id git_sha s1.2 result verify /\
    copy_inputs a rollback c_provider c_result out s2 = (Ok c, s3) /\
    Forall2 (supplied_from i git_sha s3.2) (native_manifest a) sup /\ distinct sup /\
    natives_added i git_sha sup (base :: map (λ x : val * (path * val), Path.parent x.2.1) sup) out s3 refs hs entries derive s4 /\
    length entries = length refs /\
    wrapper_of a i release_id git_sha result c rollback entries s4.2 = (Ok wrapper, w5) /\
    Forall (λ x, names_copy s4.2 wrapper x.1 x.2) (bound_copies c) /\ target_bound s4.2 wrapper rollback (c_rollback c) /\
    getitem wrapper "release_id" = Ok release_id /\ getitem wrapper "git_sha" = Ok git_sha /\
    getitem wrapper "native_artifacts" = Ok (VList entries) /\
    published release_id out wrapper w5 signing w' /\ commands = signing :: rev (map snd hs) ++ [derive; verify].
Lemma package_Ok i rid g rb out w1 c r entries s' : package a i rid g rb out ([], w1) = (Ok (c, r, entries), s') ->
  exists c_provider base s1 c_result s2 s3 sup refs hs verify derive,
    copy_release a i out ([], w1) = (Ok (c_provider, base), s1) /\
    runtime_result_of a i rid g out s1 = (Ok (r, c_result), s2) /\ runtime_checked i rid g s1.2 r verify /\
    copy_inputs a rb c_provider c_result out s2 = (Ok c, s3) /\
    Forall2 (supplied_from i g s3.2) (native_manifest a) sup /\ distinct sup /\
    natives_added i g sup (base :: map (λ x : val * (path * val), Path.parent x.2.1) sup) out s3 refs hs entries derive s' /\
    length entries = length refs /\ did (rev (map snd hs) ++ [derive; verify]) w1 s'.2.
Proof.
  unfold package. intros E. apply M_bind_Ok in E as ([cp base] & s1 & E1 & E). quiet E1. cbv beta iota in E.
  apply M_bind_Ok in E as ([rr cr] & s2 & E2 & E). cbv beta iota in E. destruct (pk_runtime_result_Ok _ _ _ _ _ _ _ _ E2) as (verify & V & D1).
  apply M_bind_Ok in E as (c' & s3 & E3 & E). quiet E3. apply M_bind_Ok in E as (acc & s4 & [E4 F4]%zoom_Ok & E).
  destruct (supply_all _ _ _ _ _ _ _ E4) as (W4 & sup & -> & F & Ds). assert (s4 = s3) as -> by (by destruct s4, s3; simpl in *; subst).
  cbn [fst snd app] in *. apply M_bind_Ok in E as (es & s5 & (refs & hs & derive & N)%native_entries_Ok & E). apply ret_Ok in E as [[= <- <- <-] ->].
  destruct (natives_did _ _ _ _ _ _ _ _ _ _ _ N) as [D2 Len].
  exists cp, base, s1, cr, s2, s3, sup, refs, hs, verify, derive. do 5 (split; [done|]). split; [apply Ds; by intros [] ? ?|]. do 2 (split; [done|]).
  change [derive; verify] with ([derive] ++ [verify]). rewrite app_assoc.
  eapply did_then; [eapply did_before; [|exact D1]; exact L|eapply did_before; [exact L0|exact D2]].
Qed.
Lemma main_prepared w w' : main a w = (Ok 0, w') -> exists i release_id git_sha required rollback result wrapper commands,
  agreed i = Ok (release_id, git_sha, required) /\
  preparation w i release_id git_sha required rollback result wrapper commands w' /\ did commands w w'.
Proof.
  unfold main. intros E. apply M_bind_Ok in E as (f & w0 & E0 & E).
  assert (Pres eq (if IDENT (deployment_key_id a) then is_file (deployment_signing_key a) else mret false)) as PF by solve_pres.
  pose proof (pres_eq_run _ _ _ _ PF E0) as ->. destruct f; cbn [negb] in E; [|done].
  destruct (IDENT (deployment_key_id a)) eqn:Ei; [|by apply ret_Ok in E0 as [? _]].
  apply M_bind_Ok in E as (i & w1 & [-> Di]%load_documents_Ok & E). apply M_bind_Ok in E as ([[rid g] req] & w1 & [A ->]%lift_Ok & E).
  cbv beta iota in E. apply M_bind_Ok in E as (rb & w1 & [-> R]%rollback_of_Ok & E). apply M_bind_Ok in E as (out & w1 & E1 & E).
  assert (Pres eq (resolve (a_output_dir a))) as PO by solve_pres. pose proof (pres_eq_run _ _ _ _ PO E1) as ->.
  apply M_bind_Ok in E as ([] & w1 & E2 & E). pose proof (pres_run _ _ _ _ _ (sl_mkdir_p _) E2) as L2.
  apply M_bind_Ok in E as (? & w2 & E3 & E). apply ret_Ok in E as [_ ->]. apply with_locals_Ok in E3 as (l & E4).
  apply M_bind_Ok in E4 as ([[c result] entries] & s4 & P & E). cbv beta iota in E. apply zoom_Ok in E as [E _].
  apply package_Ok in P as (cp & base & s1 & cr & s2 & s3 & sup & refs & hs & verify & derive & P1 & P2 & P3 & P4 & P5 & P6 & P7 & P8 & D).
  apply M_bind_Ok in E as (wrapper & w5 & W & E). destruct (wrapper_Ok _ _ _ _ _ _ _ _ _ _ W) as (L4 & B & T & G1 & G2 & G3).
  apply pk_publish_Ok in E as (signing & Pb & S). cbn [snd] in *.
  exists i, rid, g, req, rb, result, wrapper, (signing :: rev (map snd hs) ++ [derive; verify]). split; [done|]. split.
  - exists out, w1, cp, base, s1, cr, s2, c, s3, sup, refs, hs, entries, s4, w5, verify, derive, signing.
    split; [by split|]. split; [done|]. split; [by apply agreed_Ok|]. done.
  - change (signing :: ?x) with ([signing] ++ x). eapply did_then; [by eapply did_before|]. by eapply did_before.
Qed.

(** C25: A package is prepared only of documents that are valid against their contracts and of one release,
    whose database is exactly ready for it, with the rollback target the release names. Just these
    processes ran, in this order: the verifier of the release, whose result was read from the place it was
    to be left, is valid, of the release and passed; the derivation of the public key; for each native artifact the release
    references, in their order, the handoff of a provider that was supplied for it and is valid, of the
    commit and of the target, to the deployment manifest that has the digest of the reference; and the
    signing of the wrapper. No provider was supplied twice or is not used, and a runtime that requires native artifacts has one. When the signing starts, the
    wrapper's file holds just the wrapper, which is valid and names each copy by the digest of the
    bytes the copy had when the wrapper was built. Every world is the one the statements before it leave. *)
Theorem package_prepared w w' : main a w = (Ok 0, w') ->
  exists i release_id git_sha required rollback result wrapper commands,
    preparation w i release_id git_sha required rollback result wrapper commands w' /\ did commands w w'.
Proof.
  intros (i & rid & g & req & rb & result & wrapper & commands & _ & P & D)%main_prepared. by exists i, rid, g, req, rb, result, wrapper, commands.
Qed.
End Program.
End Facts.
End PrepareFacts.

(** ** A release with one native artifact *)

Module PrepareRun.
Import Evidence Fixture BuildResultFacts PrepareDeployment PrepareFacts.

Definition commit : string := "0123456789abcdef0123456789abcdef01234567".
Definition release : string := "liqi-v1-2026.07".
Definition triple : string := "aarch64-unknown-linux-gnu".
Definition lib_sha : string := Sha256.hexdigest "lib".
Definition credential_ref (n : string) : val := VStr ("systemd-credential://" +:+ n).
Definition deployment_document : val := VDict [("artifact_id", VStr "platform-probe"); ("git_sha", VStr commit); ("target_triple", VStr triple);
  ("artifact", VDict [("sha256", VStr lib_sha); ("install_relative_path", VStr "native/probe.so");
     ("signature", rec [("key_id", "deploy-1"); ("signature_filename", "n.sig"); ("signature_sha256", Sha256.hexdigest "sig")])])].
Definition native_document : val := VDict [("source_revision", VStr commit); ("target_triple", VStr triple); ("artifact_sha256", VStr lib_sha);
  ("artifact_path", VStr "probe.so"); ("sbom", rec [("path", "sbom.json")]); ("provenance", rec [("path", "prov/p.json")]);
  ("signature", rec [("bundle_path", "b.json")])].
Definition provider_document : val := VDict [("schema_version", VStr "v1"); ("release_id", VStr release); ("git_sha", VStr commit);
  ("target_triple", VStr triple); ("database_compatibility", exact_compatibility); ("rollback_target_release_id", VNone);
  ("artifact", VDict [("filename", VStr "liqi.tar"); ("sha256", VStr (Sha256.hexdigest "tar")); ("signature", rec [("signature_filename", "a.sig")])]);
  ("manifest_signature", rec [("signature_filename", "m.sig")]);
  ("native_artifacts", VList [VDict [("artifact_id", VStr "platform-probe"); ("manifest_filename", VStr "n.json");
     ("manifest_sha256", VStr (Sha256.hexdigest (json deployment_document))); ("required", VBool true)]])].
Definition runtime_document : val := VDict [("schemaVersion", VStr "v1"); ("releaseId", VStr release); ("environment", VStr "production");
  ("http", VDict [("secretRef", credential_ref "phoenix-secret-key-base")]);
  ("database", VDict [("secretRef", credential_ref "database-role-urls"); ("requiredMigrationVersion", VInt 8); ("credentialFormat", VStr "role-url-bundle-v1")]);
  ("shutdown", VDict [("drainTokenRef", credential_ref "drain-token")]); ("security", VDict [("probeTokenRef", credential_ref "platform-probe-token")]);
  ("native", rec [("mode", "required")])].
Definition database_document : val := VDict [("contractVersion", VInt 1); ("status", VStr "accepted");
  ("authority", VStr "postgresql-only-durable-authority"); ("requiredMigration", VInt 8)].
Definition readiness_document : val := VDict [("schemaVersion", VStr "v1"); ("status", VStr "passed"); ("reason", VStr "ready"); ("ready", VBool true);
  ("writeReady", VBool true); ("inRecovery", VBool false); ("currentVersion", VInt 8); ("requiredVersion", VInt 8);
  ("obanMigrationVersion", VInt 14); ("requiredObanMigrationVersion", VInt 14)].
Definition result_document : val := VDict [("schema_version", VStr "v1"); ("status", VStr "passed"); ("blockers", VList []); ("git_sha", VStr commit);
  ("release_id", VStr release); ("artifact_sha256", VStr (Sha256.hexdigest "tar"))].
(** The last argument of a verifier that passes, and of openssl, is the file that it writes. *)
Definition tools (_ : list proc) (p : proc) (f : filesystem) : proc_out * filesystem * Z :=
  let write t := (Exited 0 "" "", add_file f (default "" (last (argv p)), t), 1000) in
  match argv p with
  | "openssl" :: "pkey" :: _ => write "public key"
  | "openssl" :: _ => write "signature"
  | _ :: script :: _ => if Str.endswith "validate_release_manifest.py" script then write (json result_document) else (Exited 0 "" "", f, 1000)
  | _ => (Exited 0 "" "", f, 1000)
  end.
Definition signs : Platform := host_with tools.
Definition files : list (string * string) :=
  map (λ n, ("/repo/contracts/" +:+ n +:+ ".schema.json", "{}"))
    ["deployment/mix-release-v1"; "runtime/runtime-config-v1"; "database/database-runtime-v1"; "database/migration-readiness-v1";
     "runtime/runtime-artifact-result-v1"; "native/native-artifact-v1"; "deployment/native-artifact-v1"; "deployment/mix-deployment-v1"] ++
  [("/in/provider/manifest.json", json provider_document); ("/in/provider/liqi.tar", "tar"); ("/in/provider/a.sig", "a"); ("/in/provider/m.sig", "m");
   ("/in/provider/n.json", json deployment_document); ("/in/provider/n.sig", "sig"); ("/in/native/native.json", json native_document);
   ("/in/native/probe.so", "lib"); ("/in/native/sbom.json", "s"); ("/in/native/prov/p.json", "p"); ("/in/native/b.json", "b");
   ("/in/runtime.json", json runtime_document); ("/in/database.json", json database_document); ("/in/readiness.json", json readiness_document);
   ("/in/key.pem", "key"); ("/tmp/.keep", "")].
Definition w0 : world := world_with files.
Definition the_args : args := Args (Path.of_str "/in/provider/manifest.json") (Path.of_str "/in/trust") (Path.of_str "/in/runtime.json")
  (Path.of_str "/in/database.json") (Path.of_str "/in/readiness.json") [Path.of_str "/in/native/native.json"] None "deploy-1"
  (Path.of_str "/in/key.pem") (Path.of_str "/out/package").
Definition prepared (w : world) : world := (main (H := signs) the_args w).2.

Lemma package_prepared_witness : exists i release_id git_sha required rollback result wrapper commands,
    preparation (H := signs) the_args w0 i release_id git_sha required rollback result wrapper commands (prepared w0) /\
    did (H := signs) commands w0 (prepared w0).
Proof.
  apply (package_prepared (H := signs) the_args w0 (prepared w0)).
  assert ((main (H := signs) the_args w0).1 = Ok 0) as E by (vm_compute; reflexivity).
  unfold prepared. destruct (main (H := signs) the_args w0) as [r x]. cbn [fst snd] in E |- *. by rewrite E.
Defined.

Definition source : path := Path.of_str "/in/runtime.json".
Definition package_dir : path := Path.of_str "/out/package".
Lemma copied_exactly_witness : let s' := (copy_exact source package_dir (Some "config/r.json") ([], w0)).2 in
  exists data relative w1,
    read_bytes source w0 = (Ok data, w0) /\ relative_path (or_name (Some "config/r.json") source) = Some relative /\
    Path.of_str "/out/package/config/r.json" = joined package_dir relative /\ absolute relative = false /\ (".." ∉ parts relative) /\
    (forall previous, Dict.lookup (Path.to_str relative) [] = Some previous -> previous = Sha256.hexdigest data) /\
    s'.1 = Dict.set (Path.to_str relative) (Sha256.hexdigest data) [] /\ mkdir_p (Path.parent (Path.of_str "/out/package/config/r.json")) w0 = (Ok tt, w1) /\
    (if is_some_node (stat w1 (Path.of_str "/out/package/config/r.json")) then s'.2 = w1
     else read_bytes (Path.of_str "/out/package/config/r.json") s'.2 = (Ok data, s'.2)).
Proof.
  intros s'. apply (copied_exactly source package_dir (Some "config/r.json") ([], w0) (Path.of_str "/out/package/config/r.json") s').
  assert ((copy_exact source package_dir (Some "config/r.json") ([], w0)).1 = Ok (Path.of_str "/out/package/config/r.json")) as E
    by (vm_compute; reflexivity).
  unfold s'. destruct (copy_exact source _ _ _) as [r x]. cbn [fst snd] in E |- *. by rewrite E.
Defined.

(** The processes, last first: the signing, the handoff, the public key, the verifier *)
Example processes : map (λ p, hd "" (argv p)) (log (prepared w0)) = ["openssl"; "/usr/bin/python3"; "openssl"; "/usr/bin/python3"].
Proof. vm_compute. reflexivity. Qed.
(** A configuration that an earlier, failed preparation left in the output directory is kept: the package is
    prepared and signed, and its wrapper names the old configuration, not the one that was verified. *)
Definition stale : world := set_fs (add_file (fs w0) ("/out/package/runtime.json", "stale")) w0.
Definition bound_sha (w : world) : res val :=
  match read_bytes (Path.of_str "/out/package/liqi-v1-2026.07.mix-deployment-v1.json") w with
  | (Ok t, _) => match Json.loads t with Some v => item v ["runtime_config"; "sha256"] | None => raise ValueError "" end
  | (Raise e, _) => Raise e
  end.
Example stale_kept : (main (H := signs) the_args stale).1 = Ok 0 /\ bound_sha (prepared stale) = Ok (VStr (Sha256.hexdigest "stale")) /\
  bound_sha (prepared w0) = Ok (VStr (Sha256.hexdigest (json runtime_document))).
Proof. vm_compute. repeat split. Qed.
(** Two providers for one artifact, or one that no reference uses, are refused. *)
Definition again : args := Args (provider_manifest the_args) (provider_trust_dir the_args) (runtime_config the_args) (database_contract the_args)
  (migration_readiness the_args) (native_manifest the_args ++ native_manifest the_args) None "deploy-1" (deployment_signing_key the_args) package_dir.
Example duplicated : (main (H := signs) again w0).1 = raise RuntimeError ("duplicate native provider artifact SHA: " +:+ lib_sha).
Proof. vm_compute. reflexivity. Qed.
End PrepareRun.
