(* ===== verification/NativeArtifact.v ===== *)
(** * native/scripts/verify_artifact.py, and what the programs of the native artifact share

    The provider's manifest is verified against its files: the digests, the ELF
    header, the SBOM, the provenance. cosign is a started process, as are
    openssl and the Python programs that the others of the group start. *)

From Stdlib Require Import Ascii.
From S2P Require Import Prelude PyFloat PyMonad PyValue PyTime PyJson Sha256 PyOs.
From S2P Require Import GenerateSpec CiProvenance PrepareDeployment.

Module Native.
Import Evidence.
Section Env.
Context `{Platform}.

Definition ROOT : path := repo_root.
Definition NATIVE_SCHEMA : path := Path.div ROOT "contracts/native/native-artifact-v1.schema.json".
Definition DEPLOYMENT_SCHEMA : path := Path.div ROOT "contracts/deployment/native-artifact-v1.schema.json".
Definition PROVIDER_VERIFIER : path := Path.div ROOT "native/scripts/verify_artifact.py".
Definition load (p : path) : IO val := PyOs.load_json p.
Definition sha256 (p : path) : IO string := sha256_chunked p.
Definition validate (schema_path : path) (document : val) (label : string) : IO (list string) := labelled_errors schema_path document label.

(** [subprocess.run(argv, ...)], and with [check=True] *)
Definition command (argv : list string) (timeout : option Z) (cwd : option path) : IO (Z * string * string) :=
  p ← gets (λ w, Proc argv timeout (environ w) cwd); run_completed p.
Definition checked (argv : list string) (timeout : option Z) (cwd : option path) : IO unit :=
  r ← command argv timeout cwd;
  let '(code, _, _) := r in
  if code =? 0 then mret tt else throw CalledProcessError (CiProvenance.called_text argv code).
Definition resolve_child (message : string) (base : path) (relative : val) : IO path :=
  r ← lift (expect_str relative);
  candidate ← resolve (Path.div base r);
  b ← resolve base;
  match Path.relative_to candidate b with
  | Some _ => mret candidate
  | None => throw ValueError (message +:+ r)
  end.
Definition verifier_argv (manifest : path) : list string := [executable; Path.to_str PROVIDER_VERIFIER; "--manifest"; Path.to_str manifest].
Definition verify_ed25519_argv (artifact signature public_key : path) : list string :=
  ["openssl"; "pkeyutl"; "-verify"; "-rawin"; "-pubin"; "-inkey"; Path.to_str public_key; "-in"; Path.to_str artifact;
   "-sigfile"; Path.to_str signature].
Definition verify_ed25519 (artifact signature public_key : path) : IO unit :=
  r ← command (verify_ed25519_argv artifact signature public_key) (Some 30) None;
  let '(code, _, e) := r in
  if code =? 0 then mret tt
  else throw ValueError (PrepareDeployment.or_text (Str.strip e) "Ed25519 signature verification failed").

Definition KEY_ID_PATTERN : string -> bool :=
  PrepareDeployment.shaped (PrepareDeployment.word []) (PrepareDeployment.word ["."; "_"; "-"]%char) 2 63.
Definition upper (c : ascii) : bool := let n := N_of_ascii c in ((65 <=? n) && (n <=? 90))%N.
Definition FILE_PATTERN : string -> bool :=
  PrepareDeployment.shaped (λ c, upper c || PrepareDeployment.word [] c)
    (λ c, upper c || PrepareDeployment.word ["."; "_"; "-"]%char c) 0 127.
Definition compact_sorted : Json.style := Json.Style None "," ":" true.
(** What a program ends with, its [except] clause turning the listed errors into status 1 *)
Definition reported (errors : list exn_class) (prefix : string) (body : IO Z) : IO Z :=
  catch body (on_exn errors (λ e, print_err (prefix +:+ exn_str e) ;; mret 1)).
End Env.
End Native.

(** ** native/scripts/verify_artifact.py *)

Module VerifyArtifact.
Import Evidence Native.

(** The machine and its name, by the target *)
Definition TARGETS : list (string * (Z * string)) :=
  [("aarch64-unknown-linux-gnu", (183, "AArch64")); ("x86_64-unknown-linux-gnu", (62, "x86-64"))].
Definition byte_at (n : nat) (s : string) : Z := match String.get n s with Some c => Z.of_N (N_of_ascii c) | None => 0 end.
Definition ELF_MAGIC : string := String (ascii_of_N 127) "ELF".
Definition elf64 (header : string) : bool :=
  Nat.leb 20 (String.length header) && String.eqb (String.substring 0 4 header) ELF_MAGIC && (byte_at 4 header =? 2) && (byte_at 5 header =? 1).
Definition machine_of (header : string) : Z := byte_at 18 header + 256 * byte_at 19 header.
Definition target_of (target_triple : val) : res (Z * string) :=
  _ ← check_hash target_triple;
  match (match target_triple with VStr t => Dict.lookup t TARGETS | _ => None end) with
  | None => raise KeyError (repr target_triple)
  | Some x => Ok x
  end.
Definition header_matches (header : string) (expected : Z * string) (target_triple : val) : res unit :=
  if negb (elf64 header) then raise ValueError "artifact is not little-endian ELF64"
  else if negb (machine_of header =? expected.1) then
    raise ValueError ("artifact ELF machine is not " +:+ expected.2 +:+ " (" +:+ Str.of_Z expected.1 +:+ ") for " +:+ py_str target_triple)
  else Ok tt.

(** A dict built from its items: [d.get(name)] is the value of the last one whose key equals the name. *)
Definition last_of (name : string) (l : list (val * val)) : val :=
  default VNone (option_map snd (List.find (λ kv, py_eq kv.1 (VStr name)) (rev l))).
(** The first SHA-256 checksum of a file of the SBOM *)
Definition checksum_of (item : val) : res val :=
  checksums ← dget_or item "checksums" (VList []); l ← py_iter checksums;
  entry ← rfind (λ e, a ← dget e "algorithm"; Ok (py_eq a (VStr "SHA256"))) l;
  match entry with Some e => dget e "checksumValue" | None => Ok VNone end.
Definition file_checksum (item : val) : res (val * val) :=
  k ← dget item "fileName"; v ← checksum_of item; _ ← check_hash k; Ok (k, v).
Definition file_checksums (sbom : val) : res (list (val * val)) :=
  files ← dget_or sbom "files" (VList []); l ← py_iter files; rmap file_checksum l.
Definition require (b : res bool) (m : string) : res unit := b ← b; if b : bool then Ok tt else raise ValueError m.
Definition sbom_binds (sbom manifest : val) (name : string) : res unit :=
  sums ← file_checksums sbom;
  require (version ← dget sbom "spdxVersion";
           if py_ne version (VStr "SPDX-2.3") then Ok false
           else sha ← getitem manifest "artifact_sha256"; Ok (py_eq (last_of name sums) sha))
    "SBOM does not bind the artifact SHA256".

Definition subject (item : val) : res (val * val) :=
  k ← dget item "name"; v ← get2 item "digest" "sha256"; _ ← check_hash k; Ok (k, v).
Definition build_definition (provenance : val) : res val :=
  p ← dget_or provenance "predicate" (VDict []); dget_or p "buildDefinition" (VDict []).
Definition source_revision_of (item : val) : res val := v ← get2 item "digest" "gitCommit"; _ ← check_hash v; Ok v.
Definition provenance_binds (provenance manifest : val) (name : string) : res unit :=
  s ← dget_or provenance "subject" (VList []); l ← py_iter s; subjects ← rmap subject l;
  b ← build_definition provenance; d ← dget_or b "resolvedDependencies" (VList []);
  dl ← py_iter d; revisions ← rmap source_revision_of dl;
  _ ← require (x ← dget provenance "_type"; Ok (py_eq x (VStr "https://in-toto.io/Statement/v1"))) "provenance statement type is invalid";
  _ ← require (x ← dget provenance "predicateType"; Ok (py_eq x (VStr "https://slsa.dev/provenance/v1"))) "provenance predicate type is invalid";
  _ ← require (sha ← getitem manifest "artifact_sha256"; Ok (py_eq (last_of name subjects) sha))
    "provenance subject does not bind the artifact SHA256";
  _ ← require (r ← getitem manifest "source_revision"; _ ← check_hash r; Ok (py_in r revisions)) "provenance does not bind the source revision";
  b ← build_definition provenance; target ← get2 b "externalParameters" "target"; t ← getitem manifest "target_triple";
  require (Ok (py_eq target t)) "provenance target does not match the artifact manifest".

Section Env.
Context `{Platform}.

Definition escapes : string := "artifact path escapes manifest directory: ".
Definition verify_elf (p : path) (target_triple : val) : IO unit :=
  expected ← lift (target_of target_triple);
  data ← read_bytes p; lift (header_matches (String.substring 0 20 data) expected target_triple).
(** The artifact, the SBOM, the provenance and the bundle *)
Record files := Files { artifact : path; sbom : path; provenance : path; bundle : path }.
Definition child (base : path) (relative : res val) : IO path := r ← lift relative; resolve_child escapes base r.
Definition files_of (base : path) (manifest : val) : IO files :=
  a ← child base (getitem manifest "artifact_path");
  s ← child base (item manifest ["sbom"; "path"]);
  p ← child base (item manifest ["provenance"; "path"]);
  b ← child base (item manifest ["signature"; "bundle_path"]);
  mret (Files a s p b).
Definition require_file (p : path) : IO unit := f ← is_file p; if f : bool then mret tt else throw FileNotFoundError (Path.to_str p).
(** [expected = {artifact: ..., ...}]: of two entries for one path the second counts. *)
Definition expected_digests (f : files) (manifest : val) : res (list (string * (path * val))) :=
  a ← getitem manifest "artifact_sha256"; s ← item manifest ["sbom"; "sha256"];
  p ← item manifest ["provenance"; "sha256"]; b ← item manifest ["signature"; "bundle_sha256"];
  Ok (fold_left (λ d x, Dict.set (Path.to_str x.1) x d) [(artifact f, a); (sbom f, s); (provenance f, p); (bundle f, b)] []).
Definition digest_matches (x : string * (path * val)) : IO unit :=
  data ← read_bytes x.2.1;
  let actual := Sha256.hexdigest data in
  if py_ne (VStr actual) x.2.2
  then throw ValueError ("checksum mismatch for " +:+ Path.name x.2.1 +:+ ": expected " +:+ py_str x.2.2 +:+ ", got " +:+ actual)
  else mret tt.
Definition cosign_argv (f : files) (identity issuer : string) : list string :=
  ["cosign"; "verify-blob"; Path.to_str (artifact f); "--bundle"; Path.to_str (bundle f);
   "--certificate-identity"; identity; "--certificate-oidc-issuer"; issuer].
Definition schema_error_line (e : list val * string) : string := "manifest schema error at " +:+ repr (VList e.1) +:+ ": " +:+ e.2.
Definition verified (base : path) (manifest : val) : IO unit :=
  f ← files_of base manifest;
  mfor require_file [artifact f; sbom f; provenance f; bundle f] ;;
  t ← lift (getitem manifest "target_triple");
  verify_elf (artifact f) t ;;
  expected ← lift (expected_digests f manifest);
  mfor digest_matches expected ;;
  s ← load (sbom f);
  lift (sbom_binds s manifest (Path.name (artifact f))) ;;
  p ← load (provenance f);
  lift (provenance_binds p manifest (Path.name (artifact f))) ;;
  names ← lift (i ← item manifest ["signature"; "identity"]; j ← item manifest ["signature"; "issuer"];
                identity ← expect_str i; issuer ← expect_str j; Ok (identity, issuer));
  checked (cosign_argv f names.1 names.2) None None.
Definition summary (manifest : val) : res val :=
  r ← getitem manifest "release_id"; s ← getitem manifest "source_revision"; h ← getitem manifest "artifact_sha256";
  Ok (VDict [("validation", VStr "native-artifact-v1"); ("status", VStr "passed"); ("release_id", r); ("source_revision", s); ("artifact_sha256", h)]).
Definition main (the_manifest : path) : IO Z :=
  reported [FileNotFoundError; ValueError; CalledProcessError] "native artifact verification failed: " (
    manifest_path ← resolve the_manifest;
    manifest ← load manifest_path;
    schema ← load NATIVE_SCHEMA;
    errors ← lift (sorted_errors schema manifest);
    match errors with
    | _ :: _ => mfor (λ e, print_err (schema_error_line e)) errors ;; mret 65
    | [] =>
        verified (Path.parent manifest_path) manifest ;;
        v ← lift (summary manifest); print (Json.dumps compact_sorted v) ;;
        mret 0
    end).
End Env.
End VerifyArtifact.
