(* ===== verification/NativeManifest.v ===== *)
(** * native/scripts/prepare_deployment_manifest.py

    The deployment manifest of a native artifact: the provider's identity, and
    an Ed25519 signature over the same bytes. *)

From Stdlib Require Import Ascii.
From S2P Require Import Prelude PyFloat PyMonad PyValue PyTime PyJson Sha256 PyOs.
From S2P Require Import GenerateSpec CiProvenance PrepareDeployment NativeArtifact.

Module PrepareManifest.
Import Evidence Native.

Definition ARTIFACT_ID : string := "liqi-sequence-diff-nif-v1".
Definition INSTALL_RELATIVE_PATH : string := "lib/liqi_native-1.0.0/priv/native/libliqi_sequence_diff_nif.so".
Definition PROVIDER_CONTRACT : string := "contracts/native/native-artifact-v1.schema.json".
Definition REMOVAL_CONDITION : string :=
  "Remove after Senior 5 and external consumers stop registering this compatibility adapter for one release window.".
Definition probe_expression : string :=
  "case Application.ensure_all_started(:liqi_native) do " +:+
  dq "{:ok, _} -> :ok; {:error, reason} -> raise 'native app start failed: #{inspect(reason)}' end; " +:+
  "status = Liqi.Native.SequenceDiff.readiness(:native_required); " +:+
  dq "unless status.ready and status.native_available, do: raise('native readiness failed'); " +:+
  dq "IO.puts('native-load-ok')".
Definition SAFETY : list (string * val) :=
  [("scheduler_class", VStr "regular"); ("hard_execution_budget_us", VInt 1000); ("native_memory_limit_bytes", VInt 65536);
   ("concurrency_limit", VInt 2); ("panic_mapping_tested", VBool true); ("differential_tests_passed", VBool true);
   ("fuzz_tests_passed", VBool true)].
Definition LOAD : val := VDict [("probe_command", VList [VStr "bin/liqi_platform"; VStr "eval"; VStr probe_expression]);
  ("expected_module", VStr "Liqi.Native.SequenceDiff.Nif"); ("feature_flag", VStr "LIQI_NATIVE_MODE");
  ("fallback_module", VStr "Liqi.Native.Reference.SequenceDiff")].

Record args := Args { native_manifest : path; ed25519_signature : path; key_id : string; trust_dir : path; output : path }.

Section Env.
Context `{Platform}.

Definition differs_from (b : res bool) (m : string) : res unit := b ← b; if b : bool then raise ValueError m else Ok tt.
Definition deployment_document (native_manifest : val) (artifact signature : path) (key_id : string) : IO val :=
  if negb (KEY_ID_PATTERN key_id) then throw ValueError "key ID is invalid" else
  if negb (FILE_PATTERN (Path.name signature)) then throw ValueError "signature filename is invalid" else
  actual_sha ← sha256 artifact;
  actual_size ← st_size artifact;
  lift (differs_from (s ← getitem native_manifest "artifact_sha256"; Ok (py_ne (VStr actual_sha) s)) "artifact SHA256 differs from the provider manifest") ;;
  lift (differs_from (s ← getitem native_manifest "artifact_size_bytes"; Ok (py_ne (VInt actual_size) s)) "artifact size differs from the provider manifest") ;;
  lift (differs_from (v ← getitem native_manifest "artifact_path"; s ← expect_str v;
                      Ok (negb (String.eqb (Path.name artifact) (Path.name (Path.of_str s))))) "artifact filename differs from the provider manifest") ;;
  source_revision ← lift (getitem native_manifest "source_revision"); crate ← lift (getitem native_manifest "crate");
  target_triple ← lift (getitem native_manifest "target_triple"); nif_abi ← lift (getitem native_manifest "nif_abi");
  rustler_version ← lift (getitem native_manifest "rustler_version");
  signature_sha ← sha256 signature;
  built_at ← lift (getitem native_manifest "built_at");
  mret (VDict [("schema_version", VStr "liqi.deployment.native-artifact/v1"); ("artifact_id", VStr ARTIFACT_ID);
    ("git_sha", source_revision); ("crate", crate); ("target_triple", target_triple); ("nif_abi", nif_abi); ("rustler_version", rustler_version);
    ("artifact", VDict [("filename", VStr (Path.name artifact)); ("install_relative_path", VStr INSTALL_RELATIVE_PATH);
       ("size_bytes", VInt actual_size); ("sha256", VStr actual_sha);
       ("signature", VDict [("algorithm", VStr "ed25519"); ("key_id", VStr key_id); ("signature_filename", VStr (Path.name signature));
          ("signature_sha256", VStr signature_sha); ("signed_payload", VStr "artifact-bytes")])]);
    ("load", LOAD); ("safety", VDict SAFETY); ("created_at", built_at); ("compatibility_adapter", VBool true);
    ("provider_contract", VStr PROVIDER_CONTRACT); ("removal_condition", VStr REMOVAL_CONDITION)]).

Definition refuse_errors (errors : list string) : IO unit :=
  match errors with [] => mret tt | _ => throw ValueError (Str.join "; " errors) end.
Definition summary (a : args) (document : val) : res val :=
  i ← getitem document "artifact_id"; g ← getitem document "git_sha"; h ← item document ["artifact"; "sha256"];
  Ok (VDict [("validation", VStr "native-deployment-adapter-v1"); ("status", VStr "passed"); ("artifact_id", i); ("git_sha", g);
    ("artifact_sha256", h); ("output", VStr (Path.to_str (output a)))]).
(** Up to the document, which is valid *)
Definition prepared (a : args) : IO val :=
  manifest_path ← resolve (native_manifest a);
  manifest ← load manifest_path;
  errors ← validate NATIVE_SCHEMA manifest "native-manifest";
  refuse_errors errors ;;
  checked (verifier_argv manifest_path) (Some 300) (Some ROOT) ;;
  relative ← lift (getitem manifest "artifact_path");
  artifact ← resolve_child "path escapes provider manifest directory: " (Path.parent manifest_path) relative;
  signature ← resolve (ed25519_signature a);
  f ← is_file artifact;
  g ← (if f : bool then is_file signature else mret false);
  if negb g then throw FileNotFoundError "artifact or Ed25519 signature is missing" else
  if negb (KEY_ID_PATTERN (key_id a)) then throw ValueError "key ID is invalid" else
  trust ← resolve (trust_dir a);
  let public_key := Path.div trust (key_id a +:+ ".pem") in
  k ← is_file public_key;
  if negb k then throw FileNotFoundError ("trusted public key is missing: " +:+ Path.to_str public_key) else
  verify_ed25519 artifact signature public_key ;;
  document ← deployment_document manifest artifact signature (key_id a);
  errors ← validate DEPLOYMENT_SCHEMA document "deployment-manifest";
  refuse_errors errors ;;
  mret document.
Definition handoff_errors : list exn_class := [FileNotFoundError; ValueError; CalledProcessError; TimeoutExpired].
Definition main (a : args) : IO Z :=
  reported handoff_errors "native deployment manifest failed: " (
    document ← prepared a;
    write_document (output a) document ;;
    v ← lift (summary a document); print (Json.dumps compact_sorted v) ;;
    mret 0).
End Env.
End PrepareManifest.
