(* ===== verification/NativeHandoff.v ===== *)
(** * native/scripts/verify_deployment_manifest.py

    The verification that a deployment manifest and a provider's manifest are
    of the same artifact, before the host installs it. *)

From Stdlib Require Import Ascii.
From S2P Require Import Prelude PyFloat PyMonad PyValue PyTime PyJson Sha256 PyOs.
From S2P Require Import GenerateSpec CiProvenance PrepareDeployment NativeArtifact NativeManifest.

Module VerifyHandoff.
Import Evidence Native.

Definition EXPECTED_INSTALL_PATH : string := "lib/liqi_native-1.0.0/priv/native/libliqi_sequence_diff_nif.so".
Definition EXPECTED_PROVIDER_CONTRACT : string := "contracts/native/native-artifact-v1.schema.json".
Definition EXPECTED_REMOVAL_CONDITION : string :=
  "Remove after Senior 5 and external consumers stop registering this compatibility adapter for one release window.".
(** The compared values, the provider's first *)
Definition comparisons (native deployment : val) : res (list (string * (val * val))) :=
  let pair (label : string) (p d : res val) : res (string * (val * val)) := x ← p; y ← d; Ok (label, (x, y)) in
  rmap id [
    pair "source revision" (dget native "source_revision") (dget deployment "git_sha");
    pair "crate" (dget native "crate") (dget deployment "crate");
    pair "target triple" (dget native "target_triple") (dget deployment "target_triple");
    pair "NIF ABI" (dget native "nif_abi") (dget deployment "nif_abi");
    pair "Rustler version" (dget native "rustler_version") (dget deployment "rustler_version");
    pair "artifact filename" (p ← dget_or native "artifact_path" (VStr ""); Ok (VStr (Path.name (Path.of_str (py_str p)))))
      (get2 deployment "artifact" "filename");
    pair "artifact SHA256" (dget native "artifact_sha256") (get2 deployment "artifact" "sha256");
    pair "artifact size" (dget native "artifact_size_bytes") (get2 deployment "artifact" "size_bytes")].
Definition expected_safety : list (string * val) :=
  [("scheduler_class", VStr "regular"); ("hard_execution_budget_us", VInt 1000); ("native_memory_limit_bytes", VInt 65536);
   ("concurrency_limit", VInt 2); ("panic_mapping_tested", VBool true); ("differential_tests_passed", VBool true);
   ("fuzz_tests_passed", VBool true)].
Definition bad_probe (probe : val) : res bool :=
  ror (p ← py_slice_to 2 probe; Ok (py_ne p (VList [VStr "bin/liqi_platform"; VStr "eval"]))) (py_contains (VStr "rpc") probe).
Definition load_tests (artifact load_contract : val) : list (res (list string)) :=
  [failure_if (get_ne artifact "install_relative_path" (VStr EXPECTED_INSTALL_PATH))
     "deployment install path does not match the Rustler OTP priv path";
   failure_if (probe ← dget_or load_contract "probe_command" (VList []); bad_probe probe)
     "native load probe must use distribution-free release eval";
   failure_if (get_ne load_contract "expected_module" (VStr "Liqi.Native.SequenceDiff.Nif"))
     "deployment expected module is not the provider NIF module";
   failure_if (get_ne load_contract "feature_flag" (VStr "LIQI_NATIVE_MODE"))
     "deployment feature flag differs from runtime configuration";
   failure_if (get_ne load_contract "fallback_module" (VStr "Liqi.Native.Reference.SequenceDiff"))
     "deployment fallback module differs from the provider reference"].
Definition safety_test (safety : val) (x : string * val) : res (list string) :=
  failure_if (get_ne safety x.1 x.2) ("deployment safety field " +:+ x.1 +:+ " must equal " +:+ repr x.2).
Definition lifecycle_tests (deployment : val) : list (res (list string)) :=
  [failure_if (x ← dget deployment "compatibility_adapter"; Ok (negb (is_true x)))
     "deployment native handoff must remain an explicit compatibility adapter";
   failure_if (get_ne deployment "provider_contract" (VStr EXPECTED_PROVIDER_CONTRACT))
     "deployment native handoff must reference the Senior 3 provider contract";
   failure_if (get_ne deployment "removal_condition" (VStr EXPECTED_REMOVAL_CONDITION))
     "deployment native handoff removal condition differs from the approved lifecycle"].
Definition compare_one (x : string * (val * val)) : list string :=
  if py_ne x.2.1 x.2.2 then [x.1 +:+ " differs between provider and deployment manifests"] else [].
Definition binding_failures (native deployment : val) : res (list string) :=
  compared ← comparisons native deployment;
  artifact ← dget_or deployment "artifact" (VDict []);
  load_contract ← dget_or deployment "load" (VDict []);
  safety ← dget_or deployment "safety" (VDict []);
  rest ← failures_of (load_tests artifact load_contract ++ map (safety_test safety) expected_safety ++ lifecycle_tests deployment);
  Ok (concat (map compare_one compared) ++ rest).

Record args := Args { native_manifest : path; deployment_manifest : path; trust_dir : path }.

Section Env.
Context `{Platform}.

(** Both documents, valid and bound to each other *)
Definition documents (native_path deployment_path : path) : IO (val * val) :=
  native ← load native_path;
  deployment ← load deployment_path;
  f ← validate NATIVE_SCHEMA native "native-manifest";
  g ← validate DEPLOYMENT_SCHEMA deployment "deployment-manifest";
  h ← lift (binding_failures native deployment);
  PrepareManifest.refuse_errors (f ++ g ++ h) ;;
  mret (native, deployment).
Definition require_file (p : path) : IO unit := f ← is_file p; if f : bool then mret tt else throw FileNotFoundError (Path.to_str p).
Definition summary (native deployment : val) : res val :=
  i ← getitem deployment "artifact_id"; g ← getitem native "source_revision"; h ← getitem native "artifact_sha256";
  Ok (VDict [("validation", VStr "native-deployment-handoff-v1"); ("status", VStr "passed"); ("artifact_id", i); ("git_sha", g);
    ("artifact_sha256", h)]).
Definition main (a : args) : IO Z :=
  reported PrepareManifest.handoff_errors "native deployment handoff verification failed: " (
    native_path ← resolve (native_manifest a);
    deployment_path ← resolve (deployment_manifest a);
    d ← documents native_path deployment_path;
    let '(native, deployment) := d in
    checked (verifier_argv native_path) (Some 300) (Some ROOT) ;;
    relative ← lift (v ← getitem native "artifact_path"; expect_str v);
    filename ← lift (v ← item deployment ["artifact"; "signature"; "signature_filename"]; expect_str v);
    key_id ← lift (item deployment ["artifact"; "signature"; "key_id"]);
    trust ← resolve (trust_dir a);
    let artifact := Path.div (Path.parent native_path) relative in
    let signature := Path.div (Path.parent deployment_path) filename in
    let public_key := Path.div trust (py_str key_id +:+ ".pem") in
    mfor require_file [artifact; signature; public_key] ;;
    verify_ed25519 artifact signature public_key ;;
    v ← lift (summary native deployment); print (Json.dumps compact_sorted v) ;;
    mret 0).
End Env.
End VerifyHandoff.
