(* ===== verification/NativeAuthorize.v ===== *)
(** * infrastructure/deployment/authorize_native_artifact.py

    The authorization of an artifact for offline installation: it signs the
    verified bytes and starts the programs that bind and verify them. *)

From Stdlib Require Import Ascii.
From S2P Require Import Prelude PyFloat PyMonad PyValue PyTime PyJson Sha256 PyOs.
From S2P Require Import GenerateSpec CiProvenance PrepareDeployment NativeArtifact.

Module Authorize.
Import Evidence Native.

Record args := Args { native_manifest : path; deployment_key_id : string; deployment_signing_key : path;
  authorization_reference : string; output_dir : path; output_result : path }.
Definition KEY_ID : string -> bool := KEY_ID_PATTERN.

Section Env.
Context `{Platform}.

Definition validate (schema : path) (document : val) (label : string) : IO unit := PrepareDeployment.validate schema document label.
Definition resolve_child (base : path) (relative : val) : IO path :=
  r ← lift (expect_str relative);
  let p := Path.of_str r in
  if absolute p || inb String.eqb ".." (parts p) || match parts p with [] => true | _ => false end
  then throw RuntimeError ("unsafe native path: " +:+ r) else
  candidate ← resolve (PrepareDeployment.joined base p);
  b ← resolve base;
  match Path.relative_to candidate b with
  | Some _ => mret candidate
  | None => throw RuntimeError ("native path escapes manifest directory: " +:+ r)
  end.
Definition failure_text (argv : list string) (stdout stderr : string) : string :=
  Str.last_n 4096 (PrepareDeployment.or_text stderr (PrepareDeployment.or_text stdout ("command failed: " +:+ repr_strs argv))).
Definition run (argv : list string) (timeout : Z) : IO string :=
  r ← command argv (Some timeout) (Some ROOT);
  let '(code, o, e) := r in
  if code =? 0 then mret (Str.strip o) else throw RuntimeError (failure_text argv o e).
Definition sign_argv (artifact private_key signature : path) : list string :=
  ["openssl"; "pkeyutl"; "-sign"; "-rawin"; "-inkey"; Path.to_str private_key; "-in"; Path.to_str artifact; "-out"; Path.to_str signature].
Definition sign_artifact (artifact private_key signature : path) : IO unit :=
  r ← command (sign_argv artifact private_key signature) (Some 60) None;
  let '(code, _, e) := r in
  if negb (code =? 0) then throw RuntimeError (PrepareDeployment.or_text (Str.strip e) "native Ed25519 authorization failed") else
  chmod signature 416.
Definition derive_argv (private_key public : path) : list string :=
  ["openssl"; "pkey"; "-in"; Path.to_str private_key; "-pubout"; "-out"; Path.to_str public].
Definition derive_public (private_key : path) (key_id : string) (trust_dir : path) : IO unit :=
  let public := Path.div trust_dir (key_id +:+ ".pem") in
  r ← command (derive_argv private_key public) (Some 30) None;
  let '(code, _, e) := r in
  if negb (code =? 0) then throw RuntimeError (PrepareDeployment.or_text (Str.strip e) "cannot derive native deployment public key") else
  chmod public 384.
Definition prepare_argv (manifest signature : path) (key_id : string) (trust_dir output : path) : list string :=
  [executable; Path.to_str (Path.div ROOT "native/scripts/prepare_deployment_manifest.py"); "--native-manifest"; Path.to_str manifest;
   "--ed25519-signature"; Path.to_str signature; "--key-id"; key_id; "--trust-dir"; Path.to_str trust_dir; "--output"; Path.to_str output].
Definition verify_argv (manifest deployment trust_dir : path) : list string :=
  [executable; Path.to_str (Path.div ROOT "native/scripts/verify_deployment_manifest.py"); "--native-manifest"; Path.to_str manifest;
   "--deployment-manifest"; Path.to_str deployment; "--trust-dir"; Path.to_str trust_dir].

Definition bytes_differ (artifact : path) (provider : val) : IO bool :=
  f ← is_file artifact;
  if negb f then mret true else
  n ← st_size artifact; size ← lift (getitem provider "artifact_size_bytes");
  if py_ne (VInt n) size then mret true else
  h ← sha256 artifact; sha ← lift (getitem provider "artifact_sha256"); mret (py_ne (VStr h) sha).
Definition named (p : path) : IO val := h ← sha256 p; mret (VDict [("filename", VStr (Path.name p)); ("sha256", VStr h)]).
Definition result_of (a : args) (provider : val) (manifest_path deployment_manifest signature : path) : IO val :=
  g ← lift (getitem provider "source_revision"); r ← lift (getitem provider "release_id"); h ← lift (getitem provider "artifact_sha256");
  m ← named manifest_path; d ← named deployment_manifest; s ← named signature;
  observed ← utc_now;
  mret (VDict [("schema_version", VStr "liqi.deployment.native-authorization-result/v1"); ("status", VStr "authorized"); ("git_sha", g);
    ("release_id", r); ("artifact_sha256", h); ("provider_manifest", m); ("deployment_manifest", d); ("signature", s);
    ("key_id", VStr (deployment_key_id a)); ("authorization_reference", VStr (Str.strip (authorization_reference a)));
    ("observed_at", VStr observed); ("artifact_bytes_changed", VBool false); ("oci_mutation_performed", VBool false)]).
(** With a directory that trusts just the public half of the key *)
Definition handoff (a : args) (manifest_path signature deployment_manifest : path) : IO unit :=
  with_locals [] (PrepareDeployment.with_temporary "liqi-native-authorize-trust-" (λ trust_dir, zoom_snd (
    key ← resolve (deployment_signing_key a);
    derive_public key (deployment_key_id a) trust_dir ;;
    _ ← run (prepare_argv manifest_path signature (deployment_key_id a) trust_dir deployment_manifest) 600;
    _ ← run (verify_argv manifest_path deployment_manifest trust_dir) 600;
    mret tt))).
Definition reference_ok (s : string) : bool := let n := Str.len (Str.strip s) in (3 <=? n) && (n <=? 256).
Definition main (a : args) : IO Z :=
  if negb (KEY_ID (deployment_key_id a)) then sysexit "deployment key ID is invalid" else
  k ← is_file (deployment_signing_key a);
  if negb k then sysexit "deployment signing key is missing" else
  if negb (reference_ok (authorization_reference a)) then sysexit "authorization reference is invalid" else
  manifest_path ← resolve (native_manifest a);
  provider ← load manifest_path;
  validate NATIVE_SCHEMA provider "native provider manifest" ;;
  _ ← run (verifier_argv manifest_path) 600;
  relative ← lift (getitem provider "artifact_path");
  artifact ← resolve_child (Path.parent manifest_path) relative;
  bad ← bytes_differ artifact provider;
  if bad : bool then throw RuntimeError "native artifact bytes do not match provider identity" else
  out ← resolve (output_dir a);
  mkdir_p out ;;
  release_id ← lift (getitem provider "release_id");
  let signature := Path.div out (Path.name artifact +:+ ".sig") in
  let deployment_manifest := Path.div out ("native-deployment-" +:+ py_str release_id +:+ ".json") in
  key ← resolve (deployment_signing_key a);
  sign_artifact artifact key signature ;;
  handoff a manifest_path signature deployment_manifest ;;
  deployment ← load deployment_manifest;
  validate DEPLOYMENT_SCHEMA deployment "native deployment manifest" ;;
  bad ← lift (ror (d ← item deployment ["artifact"; "sha256"]; p ← getitem provider "artifact_sha256"; Ok (py_ne d p))
                  (d ← getitem deployment "git_sha"; p ← getitem provider "source_revision"; Ok (py_ne d p)));
  if bad : bool then throw RuntimeError "native deployment authorization does not bind the provider artifact" else
  result ← result_of a provider manifest_path deployment_manifest signature;
  validate (Path.div ROOT "contracts/deployment/native-authorization-result-v1.schema.json") result "native authorization result" ;;
  write_document (output_result a) result ;;
  print (Json.dumps Json.pretty result) ;;
  mret 0.
End Env.
End Authorize.
