(* ===== verification/NativeFacts.v ===== *)
(** * The native artifact: the theorems

    What is verified of a provider's artifact, that the deployment manifest that is
    prepared is accepted by its verifier, and what an authorization binds. *)

From Stdlib Require Import Ascii.
From S2P Require Import Prelude PyFloat PyMonad PyValue PyTime PyJson JsonFacts Sha256 PyOs OsFacts FsFacts Fixture.
From S2P Require Import GenerateSpec DocumentFacts BuildResultFacts PrepareDeployment PrepareFacts ReadyFacts NativeArtifact NativeManifest NativeHandoff NativeAuthorize.

Module NativeFacts.
Import Evidence JsonFacts DocumentFacts BuildResultFacts Native.

(** ** A document that was read back *)

Lemma lookup_map_snd {A B} (f : A -> B) k d : Dict.lookup k (map (λ kx, (kx.1, f kx.2)) d) = option_map f (Dict.lookup k d).
Proof. induction d as [|[k' x] d IH]; [done|]. simpl. by case_match. Qed.
Lemma lookup_perm {A} k (d d' : list (string * A)) : NoDup (Dict.keys d) -> d' ≡ₚ d -> Dict.lookup k d' = Dict.lookup k d.
Proof.
  intros Hn Hp. assert (NoDup (Dict.keys d')) as Hn' by (unfold Dict.keys; by rewrite Hp).
  destruct (Dict.lookup k d) as [x|] eqn:E.
  - apply Dict.In_lookup; [done|]. rewrite Hp. by apply Dict.lookup_In.
  - destruct (Dict.lookup k d') as [x|] eqn:E'; [|done]. apply Dict.lookup_In in E'. rewrite Hp in E'.
    by rewrite (Dict.In_lookup _ _ _ Hn E') in E.
Qed.
Lemma field_read_back st v k dflt x : printable v -> dget_or v k dflt = Ok x ->
  dget_or (read_back st v) k (read_back st dflt) = Ok (read_back st x).
Proof.
  intros Hp E. inversion Hp as [| | | | |d Hn Hd]; subst; try done. injection E as <-. cbn [read_back dget_or].
  rewrite (map_ext _ (λ kx, (kx.1, read_back st kx.2))) by (by intros [k' x]).
  rewrite (lookup_perm k (map (λ kx, (kx.1, read_back st kx.2)) d)).
  - rewrite lookup_map_snd. by destruct (Dict.lookup k d).
  - unfold Dict.keys in *. rewrite map_map. exact Hn.
  - apply arranged_perm.
Qed.
Lemma printable_field v k dflt x : printable v -> printable dflt -> dget_or v k dflt = Ok x -> printable x.
Proof.
  intros Hp Hd E. inversion Hp as [| | | | |d Hn Hf]; subst; try done. injection E as <-.
  destruct (Dict.lookup k d) as [x|] eqn:Ek; [|done]. apply Dict.lookup_In in Ek. rewrite Forall_forall in Hf. exact (proj2 (Hf _ Ek)).
Qed.
Lemma getitem_dget v k x : getitem v k = Ok x -> dget v k = Ok x.
Proof. destruct v; try done. unfold dget. simpl. case_match; [|done]. by intros [= ->]. Qed.
Lemma dget_default v k x y : dget v k = Ok x -> x <> VNone -> dget_or v k y = Ok x.
Proof. destruct v; try done. unfold dget. simpl. destruct (Dict.lookup k d); [done|]. intros [= <-]. done. Qed.
Lemma get2_read_back st v k l x : printable v -> get2 v k l = Ok x -> get2 (read_back st v) k l = Ok (read_back st x).
Proof.
  intros Hp E. unfold get2 in *. apply bind_Ok in E as (y & E1 & E2). 
  assert (printable y) as Hy by (eapply printable_field; [exact Hp| |exact E1]; constructor; constructor).
  pose proof (field_read_back st _ _ _ _ Hp E1) as F. 
  assert (read_back st (VDict []) = VDict []) as Hd by (simpl; unfold arranged, by_key; by case_match).
  rewrite Hd in F. rewrite F. simpl. unfold dget in *. by apply (field_read_back st) in E2.
Qed.
Lemma py_eq_int_sym n y : py_eq (VInt n) y = true -> py_eq y (VInt n) = true.
Proof.
  destruct y as [|b|z|f| | |]; try done; simpl; unfold num_compare; simpl.
  - rewrite (Z.compare_antisym n). by destruct (n ?= _).
  - rewrite (Z.compare_antisym n). by destruct (n ?= _).
  - by destruct (Flt.compare_Z n f) as [[]|].
Qed.

(** ** The deployment manifest binds what it was prepared from *)

Section Env.
Context `{Platform}.

Definition entry_of (name key signature_name signature_sha sha : string) (size : Z) : val :=
  VDict [("filename", VStr name); ("install_relative_path", VStr PrepareManifest.INSTALL_RELATIVE_PATH);
    ("size_bytes", VInt size); ("sha256", VStr sha);
    ("signature", VDict [("algorithm", VStr "ed25519"); ("key_id", VStr key); ("signature_filename", VStr signature_name);
       ("signature_sha256", VStr signature_sha); ("signed_payload", VStr "artifact-bytes")])].
Definition manifest_of (name rev crate triple abi rustler built key signature_name signature_sha sha : _) (size : Z) : val :=
  VDict [("schema_version", VStr "liqi.deployment.native-artifact/v1"); ("artifact_id", VStr PrepareManifest.ARTIFACT_ID);
    ("git_sha", rev); ("crate", crate); ("target_triple", triple); ("nif_abi", abi); ("rustler_version", rustler);
    ("artifact", entry_of name key signature_name signature_sha sha size); ("load", PrepareManifest.LOAD); ("safety", VDict PrepareManifest.SAFETY); ("created_at", built); ("compatibility_adapter", VBool true);
    ("provider_contract", VStr PrepareManifest.PROVIDER_CONTRACT); ("removal_condition", VStr PrepareManifest.REMOVAL_CONDITION)].
(** What the preparation of a document found: the bytes of the artifact, under the names, the digest and
    the size of the provider's manifest *)
Definition prepared_from (w : world) (native : val) (artifact : path) (signature : path) (key : string) (d : val) : Prop :=
  exists data size rev crate triple abi rustler built sig path_text,
    read_bytes artifact w = (Ok data, w) /\ read_bytes signature w = (Ok sig, w) /\
    dget native "artifact_sha256" = Ok (VStr (Sha256.hexdigest data)) /\
    (exists y, dget native "artifact_size_bytes" = Ok y /\ py_eq (VInt size) y = true) /\
    dget native "artifact_path" = Ok (VStr path_text) /\ Path.name artifact = Path.name (Path.of_str path_text) /\
    dget native "source_revision" = Ok rev /\ dget native "crate" = Ok crate /\ dget native "target_triple" = Ok triple /\
    dget native "nif_abi" = Ok abi /\ dget native "rustler_version" = Ok rustler /\
    d = manifest_of (Path.name artifact) rev crate triple abi rustler built key (Path.name signature) (Sha256.hexdigest sig) (Sha256.hexdigest data) size.
Lemma refused_Ok b m u : PrepareManifest.differs_from b m = Ok u -> b = Ok false.
Proof. unfold PrepareManifest.differs_from. intros E. apply bind_Ok in E as (x & -> & E). by destruct x. Qed.
Lemma nf_ro_st_size p : Pres eq (st_size p).
Proof. intros w. unfold st_size. by repeat case_match. Qed.
Lemma deployment_Ok native artifact signature key w d w' : PrepareManifest.deployment_document native artifact signature key w = (Ok d, w') ->
  w' = w /\ prepared_from w native artifact signature key d.
Proof.
  unfold PrepareManifest.deployment_document. intros E. destruct (KEY_ID_PATTERN key); cbn [negb] in E; [|done].
  destruct (FILE_PATTERN _); cbn [negb] in E; [|done].
  apply M_bind_Ok in E as (h & w1 & (-> & data & Hd & ->)%PrepareFacts.digest_reads & E).
  apply M_bind_Ok in E as (n & w1 & En & E). pose proof (pres_eq_run _ _ _ _ (nf_ro_st_size _) En) as ->.
  apply M_bind_Ok in E as (? & w1 & [A%refused_Ok ->]%lift_Ok & E). apply M_bind_Ok in E as (? & w1 & [B%refused_Ok ->]%lift_Ok & E).
  apply M_bind_Ok in E as (? & w1 & [C%refused_Ok ->]%lift_Ok & E).
  do 5 (apply M_bind_Ok in E as (? & w1 & [?%getitem_dget ->]%lift_Ok & E)).
  apply M_bind_Ok in E as (s & w1 & (-> & sig & Hs & ->)%PrepareFacts.digest_reads & E).
  apply M_bind_Ok in E as (built & w1 & [_ ->]%lift_Ok & E). apply ret_Ok in E as [<- ->]. split; [done|].
  apply bind_Ok in A as (y & A1%getitem_dget & A). injection A as A%negb_false_iff%py_eq_str_l. subst y.
  apply bind_Ok in B as (y & B1%getitem_dget & B). injection B as B%negb_false_iff.
  apply bind_Ok in C as (t & C1%getitem_dget & C). apply bind_Ok in C as (t' & C2 & C). injection C as C%negb_false_iff%String.eqb_eq.
  assert (t = VStr t') as -> by (by destruct t; try done; injection C2 as ->).
  repeat eexists; eassumption.
Qed.
(** The verifier of the handoff finds nothing between the provider's manifest and the deployment manifest
    as it is read back. *)
Lemma prepared_binds w native artifact signature key d : prepared_from w native artifact signature key d -> printable d ->
  VerifyHandoff.binding_failures native (read_back Json.pretty d) = Ok [].
Proof.
  intros (data & size & rev & crate & triple & abi & rustler & built & sig & t & _ & _ & Hsha & (y & Hy & Hsize) & Ht & Hname & Hrev & Hcrate & Htriple & Habi & Hrust & Hd) Hp.
  set (r := read_back Json.pretty d).
  assert (forall k x, dget d k = Ok x -> dget r k = Ok (read_back Json.pretty x) /\ printable x) as F.
  { intros k x Hx. split; [exact (field_read_back Json.pretty _ _ _ _ Hp Hx)|]. eapply printable_field; [exact Hp|constructor|exact Hx]. }
  assert (forall k l x, get2 d k l = Ok x -> get2 r k l = Ok (read_back Json.pretty x)) as G.
  { intros k l x. by apply get2_read_back. }
  assert (forall k x, dget d k = Ok x -> exists z, dget r k = Ok z /\ py_eq x z = true) as Q.
  { intros k x Hx. destruct (F k x Hx) as [F1 F2]. exists (read_back Json.pretty x). split; [done|by apply py_eq_read_back]. }
  unfold VerifyHandoff.binding_failures.
  destruct (Q "git_sha" rev) as (z1 & R1 & Q1); [by subst d|]. destruct (Q "crate" crate) as (z2 & R2 & Q2); [by subst d|].
  destruct (Q "target_triple" triple) as (z3 & R3 & Q3); [by subst d|]. destruct (Q "nif_abi" abi) as (z4 & R4 & Q4); [by subst d|].
  destruct (Q "rustler_version" rustler) as (z5 & R5 & Q5); [by subst d|].
  pose proof (G "artifact" "filename" (VStr (Path.name artifact)) ltac:(by subst d)) as G1.
  pose proof (G "artifact" "sha256" (VStr (Sha256.hexdigest data)) ltac:(by subst d)) as G2.
  pose proof (G "artifact" "size_bytes" (VInt size) ltac:(by subst d)) as G3.
  assert (VerifyHandoff.comparisons native r = Ok [("source revision", (rev, z1)); ("crate", (crate, z2)); ("target triple", (triple, z3));
    ("NIF ABI", (abi, z4)); ("Rustler version", (rustler, z5)); ("artifact filename", (VStr (Path.name (Path.of_str t)), VStr (Path.name artifact)));
    ("artifact SHA256", (VStr (Sha256.hexdigest data), VStr (Sha256.hexdigest data))); ("artifact size", (y, VInt size))]) as ->.
  { unfold VerifyHandoff.comparisons. rewrite Hrev, Hcrate, Htriple, Habi, Hrust, Hsha, Hy, R1, R2, R3, R4, R5, G1, G2, G3.
    by rewrite (dget_default _ _ _ (VStr "") Ht) by done. }
  set (art := entry_of (Path.name artifact) key (Path.name signature) (Sha256.hexdigest sig) (Sha256.hexdigest data) size) in *.
  destruct (F "artifact" art) as [A Pa]; [by subst d|]. destruct (F "load" PrepareManifest.LOAD) as [L _]; [by subst d|].
  destruct (F "safety" (VDict PrepareManifest.SAFETY)) as [S _]; [by subst d|].
  destruct (F "compatibility_adapter" (VBool true)) as [C _]; [by subst d|].
  destruct (F "provider_contract" (VStr PrepareManifest.PROVIDER_CONTRACT)) as [PC _]; [by subst d|].
  destruct (F "removal_condition" (VStr PrepareManifest.REMOVAL_CONDITION)) as [RC _]; [by subst d|].
  rewrite (dget_default _ _ _ (VDict []) A), (dget_default _ _ _ (VDict []) L), (dget_default _ _ _ (VDict []) S) by done.
  cbn [mbind res_bind].
  assert (failures_of (VerifyHandoff.load_tests (read_back Json.pretty art) (read_back Json.pretty PrepareManifest.LOAD) ++
    map (VerifyHandoff.safety_test (read_back Json.pretty (VDict PrepareManifest.SAFETY))) VerifyHandoff.expected_safety ++
    VerifyHandoff.lifecycle_tests r) = Ok []) as ->.
  { apply failures_nil. apply Forall_app. split; [|apply Forall_app; split].
    - constructor; [apply failure_if_nil, get_ne_str; exact (field_read_back Json.pretty _ "install_relative_path" VNone _ Pa eq_refl)|].
      repeat constructor; vm_compute; reflexivity.
    - repeat constructor; vm_compute; reflexivity.
    - unfold VerifyHandoff.lifecycle_tests. rewrite C. repeat constructor; apply failure_if_nil, get_ne_str; assumption. }
  simpl. unfold VerifyHandoff.compare_one, py_ne. simpl. rewrite Q1, Q2, Q3, Q4, Q5, Hname, !String.eqb_refl.
  simpl. rewrite (py_eq_int_sym _ _ Hsize). done.
Qed.

(** ** Statements that start no process *)

Lemma ro_native_load p : Pres eq (load p).
Proof. unfold load. solve_pres. Qed.
Lemma ro_native_validate p v l : Pres eq (validate p v l).
Proof. apply ro_labelled. Qed.
Lemma ro_child m b r : Pres eq (resolve_child m b r).
Proof. unfold resolve_child. solve_pres. Qed.
#[local] Hint Resolve ro_native_load ro_native_validate ro_child : pres.
Ltac still E := match type of E with ?m ?w = (_, ?w') =>
  let P := fresh in assert (Pres eq m) as P by solve_pres; pose proof (pres_eq_run _ _ _ _ P E) as ->; clear P end.

Lemma reported_Ok es m body w w' : reported es m body w = (Ok 0, w') -> body w = (Ok 0, w').
Proof.
  unfold reported. intros [E|(e & w1 & k & _ & Hk & E)]%catch_Ok; [done|]. apply on_exn_Some in Hk as [_ ->].
  by apply M_bind_Ok in E as (? & ? & _ & [E _]%ret_Ok).
Qed.
Lemma command_did argv t c w o e w' : command argv t c w = (Ok (0, o, e), w') -> did [argv] w w'.
Proof.
  unfold command. intros E. apply M_bind_Ok in E as (p & w1 & E1 & E). injection E1 as <- <-.
  apply run_completed_ran in E as (L & S & _). by exists [Proc argv t (environ w) c].
Qed.
Lemma checked_did argv t c w u w' : checked argv t c w = (Ok u, w') -> did [argv] w w'.
Proof.
  unfold checked. intros E. apply M_bind_Ok in E as ([[code o] e] & w1 & E1 & E). cbv beta iota in E.
  destruct (Z.eqb_spec code 0) as [->|]; [|done]. apply ret_Ok in E as [_ ->]. by eapply command_did.
Qed.
Lemma verify_did x s k w u w' : verify_ed25519 x s k w = (Ok u, w') -> did [verify_ed25519_argv x s k] w w'.
Proof.
  unfold verify_ed25519. intros E. apply M_bind_Ok in E as ([[code o] e] & w1 & E1 & E). cbv beta iota in E.
  destruct (Z.eqb_spec code 0) as [->|]; [|done]. apply ret_Ok in E as [_ ->]. by eapply command_did.
Qed.
Lemma errors_Ok l w u w' : PrepareManifest.refuse_errors l w = (Ok u, w') -> l = [] /\ w' = w.
Proof. destruct l; [|done]. by intros [= _ <-]. Qed.
Lemma nf_validate_Ok p v l es w w' u w2 : validate p v l w = (Ok es, w') -> PrepareManifest.refuse_errors es w' = (Ok u, w2) ->
  w2 = w /\ valid w p v /\ es = [].
Proof. intros [-> V]%labelled_nil [-> ->]%errors_Ok. by split; [|split; [apply V|]]. Qed.

(** ** prepare_deployment_manifest.py, then verify_deployment_manifest.py *)

(** Whether a document is valid does not depend on the order of its keys. *)
Definition order_free (d : val) : Prop :=
  forall schema, sorted_errors schema d = Ok [] -> sorted_errors schema (read_back Json.pretty d) = Ok [].

Lemma prepared_Ok a w d w' : PrepareManifest.prepared a w = (Ok d, w') ->
  exists manifest_path native artifact signature key,
    resolve (PrepareManifest.native_manifest a) w = (Ok manifest_path, w) /\ load manifest_path w = (Ok native, w) /\
    valid w NATIVE_SCHEMA native /\ prepared_from w' native artifact signature (PrepareManifest.key_id a) d /\ valid w' DEPLOYMENT_SCHEMA d /\
    did [verify_ed25519_argv artifact signature key; verifier_argv manifest_path] w w'.
Proof.
  unfold PrepareManifest.prepared. intros E. apply M_bind_Ok in E as (mp & w1 & E1 & E). still E1.
  apply M_bind_Ok in E as (native & w1 & E2 & E). still E2. apply M_bind_Ok in E as (es & w1 & E3 & E).
  apply M_bind_Ok in E as (? & w2 & E4 & E). destruct (nf_validate_Ok _ _ _ _ _ _ _ _ E3 E4) as (-> & V & _).
  apply M_bind_Ok in E as (? & w3 & D1%checked_did & E). apply M_bind_Ok in E as (rel & w4 & [_ ->]%lift_Ok & E).
  apply M_bind_Ok in E as (artifact & w4 & E5 & E). still E5. apply M_bind_Ok in E as (sg & w4 & E6 & E). still E6.
  apply M_bind_Ok in E as (f & w4 & E7 & E). still E7. apply M_bind_Ok in E as (g & w4 & E8 & E). still E8.
  destruct g; cbn [negb] in E; [|done]. destruct (KEY_ID_PATTERN _); cbn [negb] in E; [|done].
  apply M_bind_Ok in E as (tr & w4 & E9 & E). still E9. cbv zeta in E. apply M_bind_Ok in E as (k & w4 & E10 & E). still E10.
  destruct k; cbn [negb] in E; [|done]. apply M_bind_Ok in E as (? & w4 & D2%verify_did & E).
  apply M_bind_Ok in E as (doc & w5 & (-> & F)%deployment_Ok & E). apply M_bind_Ok in E as (es2 & w5 & E11 & E).
  apply M_bind_Ok in E as (? & w6 & E12 & E). destruct (nf_validate_Ok _ _ _ _ _ _ _ _ E11 E12) as (-> & V2 & _).
  apply ret_Ok in E as [<- ->]. eexists mp, native, artifact, sg, _. do 5 (split; [eassumption|]). exact (did_then _ _ _ _ _ D1 D2).
Qed.
Lemma validate_runs w x p v l : valid w p v -> stat x p = stat w p -> validate p v l x = (Ok [], x).
Proof.
  intros (schema & E & V) Es. unfold validate, labelled_errors. rewrite (M_bind_run _ _ _ _ _ (ReadyFacts.load_unchanged _ _ _ _ _ Es E)).
  by rewrite (lift_run _ _ _ _ V).
Qed.

(** C27: A deployment manifest that the preparation wrote (exit 0) is accepted by the verifier of the handoff
    when both run on the same files: read back from any place, it is valid and bound to the provider's
    manifest in every compared field, as long as it holds texts and whole numbers and validity does not
    depend on the order of keys. The preparation started just the verifier of the provider's manifest and
    the verification of the signature, and the manifest names the bytes the artifact has at the end. *)
Theorem handoff_accepted a w w' : PrepareManifest.main a w = (Ok 0, w') ->
  exists manifest_path native d wd artifact signature key,
    resolve (PrepareManifest.native_manifest a) w = (Ok manifest_path, w) /\ load manifest_path w = (Ok native, w) /\
    prepared_from wd native artifact signature (PrepareManifest.key_id a) d /\
    did [verify_ed25519_argv artifact signature key; verifier_argv manifest_path] w wd /\ same_log wd w' /\
    read_bytes (PrepareManifest.output a) w' = (Ok (json_text d), w') /\
    forall x p, printable d -> order_free d -> read_bytes p x = (Ok (json_text d), x) ->
      stat x manifest_path = stat w manifest_path -> stat x NATIVE_SCHEMA = stat w NATIVE_SCHEMA ->
      stat x DEPLOYMENT_SCHEMA = stat wd DEPLOYMENT_SCHEMA ->
      VerifyHandoff.documents manifest_path p x = (Ok (native, read_back Json.pretty d), x).
Proof.
  unfold PrepareManifest.main. intros E%reported_Ok. apply M_bind_Ok in E as (d & wd & E1 & E).
  apply prepared_Ok in E1 as (mp & native & artifact & sg & key & Rm & Ld & V1 & F & V2 & D).
  apply M_bind_Ok in E as (? & w1 & Ew & E). apply M_bind_Ok in E as (v & w2 & [_ ->]%lift_Ok & E).
  apply M_bind_Ok in E as (? & w3 & Ep & E). apply ret_Ok in E as [_ ->]. pose proof Ep as [= _ <-].
  exists mp, native, d, wd, artifact, sg, key. do 4 (split; [done|]).
  split; [exact (pres_run _ _ _ _ _ (sl_write_document _ _) Ew)|].
  unfold write_document in Ew. apply M_bind_Ok in Ew as (? & w4 & _ & Ew%write_file_read).
  split; [apply PrepareFacts.read_bytes_file in Ew as (_ & m & Hm); apply PrepareFacts.read_bytes_file; split; [done|]; exists m; exact Hm|].
  intros y p Hp Ho Hr S1 S2 S3. unfold VerifyHandoff.documents.
  rewrite (M_bind_run _ _ _ _ _ (ReadyFacts.load_unchanged _ _ _ _ _ S1 Ld : load mp y = _)).
  rewrite (M_bind_run _ _ _ _ _ (load_written _ _ _ Hp Hr : load p y = _)).
  rewrite (M_bind_run _ _ _ _ _ (validate_runs _ _ _ _ _ V1 S2)).
  assert (valid wd DEPLOYMENT_SCHEMA (read_back Json.pretty d)) as V3 by (destruct V2 as (sc & L2 & V2); exists sc; split; [done|by apply Ho]).
  rewrite (M_bind_run _ _ _ _ _ (validate_runs _ _ _ _ _ V3 S3)).
  by rewrite (lift_run _ _ _ _ (prepared_binds _ _ _ _ _ _ F Hp)).
Qed.

(** ** verify_artifact.py *)

Lemma nf_require_Ok b m u : VerifyArtifact.require b m = Ok u -> b = Ok true.
Proof. unfold VerifyArtifact.require. intros E. apply bind_Ok in E as (x & -> & E). by destruct x. Qed.

(** Every file has its digest, but one that a later entry names again. *)
Definition digests_checked (w : world) (l : list (path * val)) : Prop :=
  forall before q v after, l = before ++ (q, v) :: after -> Forall (λ x, Path.to_str x.1 <> Path.to_str q) after ->
    exists data, read_bytes q w = (Ok data, w) /\ v = VStr (Sha256.hexdigest data).
Definition recorded (l : list (path * val)) d := fold_left (λ d x, Dict.set (Path.to_str x.1) x d) l d.
Lemma recorded_later k after : forall d, Forall (λ x : path * val, Path.to_str x.1 <> k) after -> Dict.lookup k (recorded after d) = Dict.lookup k d.
Proof.
  unfold recorded. induction after as [|x after IH]; intros d Hf; [done|]. inversion Hf; subst. simpl. rewrite IH by done.
  by apply Dict.lookup_set_ne.
Qed.
Lemma recorded_In before q v after : Forall (λ x, Path.to_str x.1 <> Path.to_str q) after ->
  (Path.to_str q, (q, v)) ∈ recorded (before ++ (q, v) :: after) [].
Proof.
  intros Hf. apply Dict.lookup_In. unfold recorded. rewrite fold_left_app. simpl. fold (recorded after).
  etransitivity; [exact (recorded_later _ _ _ Hf)|apply Dict.lookup_set].
Qed.
Lemma ro_digest_matches x : Pres eq (VerifyArtifact.digest_matches x).
Proof. unfold VerifyArtifact.digest_matches. solve_pres. Qed.
Lemma digests_Ok l w u w' : mfor VerifyArtifact.digest_matches (recorded l []) w = (Ok u, w') -> w' = w /\ digests_checked w l.
Proof.
  intros E. assert (w' = w) as -> by (eapply (pres_eq_run _ _ _ _ (pres_for _ _ _ ro_digest_matches)); exact E). split; [done|].
  apply (mfor_Ok_In eq) in E; [|apply ro_digest_matches]. rewrite Forall_forall in E. intros before q v after -> Hf.
  destruct (E _ (recorded_In before q v after Hf)) as (w1 & w2 & <- & Em & <-). unfold VerifyArtifact.digest_matches in Em.
  apply M_bind_Ok in Em as (data & w3 & Ed & Em). pose proof Ed as [-> _]%PrepareFacts.read_bytes_file. cbn [fst snd] in Em.
  exists data. split; [done|]. destruct (py_ne _ v) eqn:Ev; [done|]. by apply negb_false_iff, py_eq_str_l in Ev.
Qed.

(** A path below the real directory of another *)
Definition below (w : world) (base q : path) : Prop := exists k rest, canon w base = Some k /\ q = MkPath true (k ++ rest).
Lemma child_below m b r w q w' : resolve_child m b r w = (Ok q, w') -> w' = w /\ below w b q.
Proof.
  intros E. pose proof (pres_eq_run _ _ _ _ (ro_child m b r) E) as ->. split; [done|]. unfold resolve_child in E.
  apply M_bind_Ok in E as (t & w1 & [_ ->]%lift_Ok & E). apply M_bind_Ok in E as (c & w1 & E1 & E). apply M_bind_Ok in E as (d & w2 & E2 & E).
  destruct (Path.relative_to c d) as [u|] eqn:Er; [|done]. apply ret_Ok in E as [<- _].
  destruct (resolved_below _ _ _ _ _ _ _ _ E1 E2 Er) as (_ & k & rest & Hk & _ & ->). by exists k, rest.
Qed.

(** What binds the files of a provider's manifest to it *)
Record artifact_bound (w : world) (base : path) (manifest : val) (f : VerifyArtifact.files) (artifact_sha : val) : Prop := {
  ab_places : Forall (below w base) [VerifyArtifact.artifact f; VerifyArtifact.sbom f; VerifyArtifact.provenance f; VerifyArtifact.bundle f];
  ab_sha : getitem manifest "artifact_sha256" = Ok artifact_sha;
  ab_digests : exists s p b, item manifest ["sbom"; "sha256"] = Ok s /\ item manifest ["provenance"; "sha256"] = Ok p /\
    item manifest ["signature"; "bundle_sha256"] = Ok b /\
    digests_checked w [(VerifyArtifact.artifact f, artifact_sha); (VerifyArtifact.sbom f, s); (VerifyArtifact.provenance f, p); (VerifyArtifact.bundle f, b)];
  ab_elf : exists data t machine name, read_bytes (VerifyArtifact.artifact f) w = (Ok data, w) /\ getitem manifest "target_triple" = Ok t /\
    VerifyArtifact.target_of t = Ok (machine, name) /\ VerifyArtifact.elf64 (String.substring 0 20 data) = true /\ VerifyArtifact.machine_of (String.substring 0 20 data) = machine;
  ab_sbom : exists s sums, load (VerifyArtifact.sbom f) w = (Ok s, w) /\ VerifyArtifact.file_checksums s = Ok sums /\
    dget s "spdxVersion" = Ok (VStr "SPDX-2.3") /\ py_eq (VerifyArtifact.last_of (Path.name (VerifyArtifact.artifact f)) sums) artifact_sha = true;
  ab_provenance : exists p l s subjects b dl d revisions target t r, load (VerifyArtifact.provenance f) w = (Ok p, w) /\
    dget_or p "subject" (VList []) = Ok l /\ py_iter l = Ok s /\ rmap VerifyArtifact.subject s = Ok subjects /\
    py_eq (VerifyArtifact.last_of (Path.name (VerifyArtifact.artifact f)) subjects) artifact_sha = true /\
    VerifyArtifact.build_definition p = Ok b /\ dget_or b "resolvedDependencies" (VList []) = Ok dl /\ py_iter dl = Ok d /\
    rmap VerifyArtifact.source_revision_of d = Ok revisions /\ getitem manifest "source_revision" = Ok r /\ py_in r revisions = true /\
    dget p "_type" = Ok (VStr "https://in-toto.io/Statement/v1") /\ dget p "predicateType" = Ok (VStr "https://slsa.dev/provenance/v1") /\
    get2 b "externalParameters" "target" = Ok target /\ getitem manifest "target_triple" = Ok t /\ py_eq target t = true
}.

Lemma files_below base m w f w' : VerifyArtifact.files_of base m w = (Ok f, w') -> w' = w /\
  Forall (below w base) [VerifyArtifact.artifact f; VerifyArtifact.sbom f; VerifyArtifact.provenance f; VerifyArtifact.bundle f].
Proof.
  unfold VerifyArtifact.files_of, VerifyArtifact.child. intros E.
  do 4 (let q := fresh "q" in apply M_bind_Ok in E as (q & w1 & E1 & E); apply M_bind_Ok in E1 as (? & w2 & [_ ->]%lift_Ok & [-> ?]%child_below)).
  apply ret_Ok in E as [<- ->]. split; [done|]. by repeat constructor.
Qed.
Lemma ro_require_file p : Pres eq (VerifyArtifact.require_file p).
Proof. unfold VerifyArtifact.require_file. solve_pres. Qed.
#[local] Hint Resolve ro_require_file : pres.
Lemma says_str v k t : (x ← dget v k; Ok (py_eq x (VStr t))) = Ok true -> dget v k = Ok (VStr t).
Proof. intros E. apply bind_Ok in E as (x & -> & E). injection E as E%py_eq_str_r. by subst x. Qed.
Lemma Ok_inj {A} (x y : A) : Ok x = Ok y -> x = y.
Proof. by intros [= ->]. Qed.
Lemma sbom_Ok s m n u : VerifyArtifact.sbom_binds s m n = Ok u -> exists sums sha, VerifyArtifact.file_checksums s = Ok sums /\
  dget s "spdxVersion" = Ok (VStr "SPDX-2.3") /\ getitem m "artifact_sha256" = Ok sha /\ py_eq (VerifyArtifact.last_of n sums) sha = true.
Proof.
  unfold VerifyArtifact.sbom_binds. intros E. apply bind_Ok in E as (sums & S & E%nf_require_Ok). apply bind_Ok in E as (v & V & E).
  destruct (py_ne v _) eqn:N; [done|]. apply negb_false_iff, py_eq_str_r in N as ->. apply bind_Ok in E as (sha & A & E). injection E as E.
  by exists sums, sha.
Qed.
Lemma nf_verified_Ok base m w u w' : VerifyArtifact.verified base m w = (Ok u, w') ->
  exists f sha identity issuer, artifact_bound w base m f sha /\ did [VerifyArtifact.cosign_argv f identity issuer] w w'.
Proof.
  unfold VerifyArtifact.verified. intros E. apply M_bind_Ok in E as (f & w1 & [-> B]%files_below & E).
  apply M_bind_Ok in E as (? & w1 & E1 & E). still E1. apply M_bind_Ok in E as (t & w1 & [T ->]%lift_Ok & E).
  apply M_bind_Ok in E as (? & w1 & E2 & E). unfold VerifyArtifact.verify_elf in E2.
  apply M_bind_Ok in E2 as ([machine name] & w2 & [Tm ->]%lift_Ok & E2). apply M_bind_Ok in E2 as (data & w3 & Ed & E2).
  pose proof Ed as [-> _]%PrepareFacts.read_bytes_file. apply lift_Ok in E2 as [Elf ->]. unfold VerifyArtifact.header_matches in Elf.
  destruct (VerifyArtifact.elf64 _) eqn:H64; cbn [negb] in Elf; [|done]. cbn [fst snd] in Elf.
  destruct (Z.eqb_spec (VerifyArtifact.machine_of (String.substring 0 20 data)) machine) as [Hm|]; cbn [negb] in Elf; [|done].
  apply M_bind_Ok in E as (ex & w1 & [Ex ->]%lift_Ok & E). unfold VerifyArtifact.expected_digests in Ex.
  apply bind_Ok in Ex as (sha & Sa & Ex). apply bind_Ok in Ex as (ss & Ss & Ex). apply bind_Ok in Ex as (sp & Sp & Ex).
  apply bind_Ok in Ex as (sb & Sb & Ex). apply Ok_inj in Ex. subst ex.
  apply M_bind_Ok in E as (? & w1 & [-> Dg]%digests_Ok & E).
  apply M_bind_Ok in E as (s & w1 & E3 & E). still E3. apply M_bind_Ok in E as (? & w1 & [Sm ->]%lift_Ok & E).
  apply sbom_Ok in Sm as (sums & sha' & S1 & S2 & S3 & S4). rewrite Sa in S3. injection S3 as <-.
  apply M_bind_Ok in E as (p & w1 & E4 & E). still E4. apply M_bind_Ok in E as (? & w1 & [Pr ->]%lift_Ok & E).
  apply M_bind_Ok in E as (names & w1 & [_ ->]%lift_Ok & E%checked_did). exists f, sha, names.1, names.2. split; [|done].
  unfold VerifyArtifact.provenance_binds in Pr. apply bind_Ok in Pr as (l & P1 & Pr). apply bind_Ok in Pr as (sl & P2 & Pr).
  apply bind_Ok in Pr as (subjects & P3 & Pr). apply bind_Ok in Pr as (b & P4 & Pr). apply bind_Ok in Pr as (dl & P5 & Pr).
  apply bind_Ok in Pr as (d & P6 & Pr). apply bind_Ok in Pr as (revisions & P7 & Pr).
  apply bind_Ok in Pr as (? & R1%nf_require_Ok%says_str & Pr). apply bind_Ok in Pr as (? & R2%nf_require_Ok%says_str & Pr).
  apply bind_Ok in Pr as (? & R3%nf_require_Ok & Pr). apply bind_Ok in Pr as (? & R4%nf_require_Ok & Pr). apply bind_Ok in Pr as (b' & P8 & Pr).
  rewrite P4 in P8. injection P8 as <-. apply bind_Ok in Pr as (target & P9 & Pr). apply bind_Ok in Pr as (t' & T' & Pr%nf_require_Ok).
  rewrite Sa in R3. injection R3 as R3. apply bind_Ok in R4 as (r & Hr & R4). apply bind_Ok in R4 as (? & _ & R4). injection R4 as R4. injection Pr as Pr.
  split; [done|done|by exists ss, sp, sb|by exists data, t, machine, name|by exists s, sums|].
  by exists p, l, sl, subjects, b, dl, d, revisions, target, t', r.
Qed.

(** C28: A native artifact is verified (exit 0) only with a valid manifest whose four files lie below the
    manifest's real directory and have the digests the manifest names - the last one counting, where the
    manifest names one file twice; whose artifact is an ELF64 file for the machine of its target; whose
    SBOM and provenance name the digest of the artifact under its file name, and the provenance the
    revision and the target; and after cosign succeeded on the artifact and the bundle, which is the
    only process started. *)
Theorem native_artifact_verified p w w' : VerifyArtifact.main p w = (Ok 0, w') ->
  exists manifest_path manifest f sha identity issuer,
    resolve p w = (Ok manifest_path, w) /\ load manifest_path w = (Ok manifest, w) /\ valid w NATIVE_SCHEMA manifest /\
    artifact_bound w (Path.parent manifest_path) manifest f sha /\ did [VerifyArtifact.cosign_argv f identity issuer] w w'.
Proof.
  unfold VerifyArtifact.main. intros E%reported_Ok. apply M_bind_Ok in E as (mp & w1 & E1 & E). still E1.
  apply M_bind_Ok in E as (m & w1 & E2 & E). still E2. apply M_bind_Ok in E as (schema & w1 & E3 & E). still E3.
  apply M_bind_Ok in E as (es & w1 & [Es ->]%lift_Ok & E). destruct es; [|by apply M_bind_Ok in E as (? & ? & _ & [? _]%ret_Ok)].
  apply M_bind_Ok in E as (? & w1 & (f & sha & identity & issuer & B & D)%nf_verified_Ok & E).
  apply M_bind_Ok in E as (v & w2 & [_ ->]%lift_Ok & E). apply M_bind_Ok in E as (? & w2 & Ep & E). apply ret_Ok in E as [_ ->].
  exists mp, m, f, sha, identity, issuer. do 2 (split; [done|]). split; [by exists schema|]. split; [done|].
  eapply did_after; [exact D|exact (pres_run _ _ _ _ _ (sl_print _) Ep)].
Qed.

(** ** authorize_native_artifact.py *)

Lemma run_did argv t w o w' : Authorize.run argv t w = (Ok o, w') -> did [argv] w w'.
Proof.
  unfold Authorize.run. intros E. apply M_bind_Ok in E as ([[code so] e] & w1 & E1 & E). cbv beta iota in E.
  destruct (Z.eqb_spec code 0) as [->|]; [|done]. apply ret_Ok in E as [_ ->]. by eapply command_did.
Qed.
Lemma sign_did x k s w u w' : Authorize.sign_artifact x k s w = (Ok u, w') -> did [Authorize.sign_argv x k s] w w'.
Proof.
  unfold Authorize.sign_artifact. intros E. apply M_bind_Ok in E as ([[code so] e] & w1 & E1 & E). cbv beta iota in E.
  destruct (Z.eqb_spec code 0) as [->|]; cbn [negb] in E; [|done]. eapply did_after; [by eapply command_did|].
  exact (pres_run _ _ _ _ _ (sl_chmod _ _) E).
Qed.
Lemma derive_did k n t w u w' : Authorize.derive_public k n t w = (Ok u, w') -> did [Authorize.derive_argv k (Path.div t (n +:+ ".pem"))] w w'.
Proof.
  unfold Authorize.derive_public. intros E. apply M_bind_Ok in E as ([[code so] e] & w1 & E1 & E). cbv beta iota in E.
  destruct (Z.eqb_spec code 0) as [->|]; cbn [negb] in E; [|done]. eapply did_after; [by eapply command_did|].
  exact (pres_run _ _ _ _ _ (sl_chmod _ _) E).
Qed.
Lemma handoff_did a mp sg dm w u w' : Authorize.handoff a mp sg dm w = (Ok u, w') ->
  exists key trust, did [Authorize.verify_argv mp dm trust; Authorize.prepare_argv mp sg (Authorize.deployment_key_id a) trust dm;
    Authorize.derive_argv key (Path.div trust (Authorize.deployment_key_id a +:+ ".pem"))] w w'.
Proof.
  unfold Authorize.handoff. intros E. apply with_locals_Ok in E as (l & E). apply PrepareFacts.temporary_Ok in E as (trust & s1 & s2 & E & L1 & L2).
  apply zoom_Ok in E as [E _]. apply M_bind_Ok in E as (key & w1 & E1 & E). still E1. apply M_bind_Ok in E as (? & w1 & D1%derive_did & E).
  apply M_bind_Ok in E as (? & w2 & D2%run_did & E). apply M_bind_Ok in E as (? & w3 & D3%run_did & E). apply ret_Ok in E as [_ E].
  exists key, trust. eapply did_before; [exact L1|]. eapply did_after; [|exact L2]. rewrite E.
  exact (did_then _ _ _ _ _ (did_then _ _ _ _ _ D1 D2) D3).
Qed.
Lemma ro_bytes_differ x v : Pres eq (Authorize.bytes_differ x v).
Proof. unfold Authorize.bytes_differ, sha256. pose proof nf_ro_st_size. solve_pres. Qed.
#[local] Hint Resolve ro_bytes_differ : pres.
(** The bytes of a file have the digest and the size of the provider's manifest. *)
Definition provider_bytes (w : world) (artifact : path) (provider : val) (data : string) : Prop :=
  read_bytes artifact w = (Ok data, w) /\ getitem provider "artifact_sha256" = Ok (VStr (Sha256.hexdigest data)) /\
  exists n, getitem provider "artifact_size_bytes" = Ok n /\ py_eq (VInt (Z.of_nat (String.length data))) n = true.
Lemma bytes_equal x v w w' : Authorize.bytes_differ x v w = (Ok false, w') -> w' = w /\ exists data, provider_bytes w x v data.
Proof.
  intros E. pose proof (pres_eq_run _ _ _ _ (ro_bytes_differ x v) E) as ->. split; [done|]. unfold Authorize.bytes_differ in E.
  apply M_bind_Ok in E as (f & w1 & [-> Hf]%is_file_Ok & E). destruct f; cbn [negb] in E; [|done]. destruct (Hf eq_refl) as (data & m & Hs).
  apply M_bind_Ok in E as (n & w1 & En & E). apply (st_size_file _ _ _ _ _ _ Hs) in En as [-> ->]. apply M_bind_Ok in E as (size & w1 & [Hz ->]%lift_Ok & E).
  destruct (py_ne (VInt _) size) eqn:N; [done|]. apply negb_false_iff in N. apply M_bind_Ok in E as (h & w1 & (-> & data' & Hd & ->)%PrepareFacts.digest_reads & E).
  apply M_bind_Ok in E as (sha & w1 & [Hh ->]%lift_Ok & E). apply ret_Ok in E as [E _]. apply negb_false_iff, py_eq_str_l in E. subst sha.
  pose proof Hd as (_ & m' & Hs')%PrepareFacts.read_bytes_file. rewrite Hs in Hs'. injection Hs' as <- _.
  exists data. split; [done|]. split; [done|]. by exists size.
Qed.
Lemma authorize_child b r w q w' : Authorize.resolve_child b r w = (Ok q, w') -> w' = w /\ below w b q.
Proof.
  unfold Authorize.resolve_child. intros E. apply M_bind_Ok in E as (t & w1 & [_ ->]%lift_Ok & E). cbv zeta in E.
  destruct (_ || _); [done|]. apply M_bind_Ok in E as (c & w1 & E1 & E). apply M_bind_Ok in E as (d & w2 & E2 & E).
  destruct (Path.relative_to c d) as [u|] eqn:Er; [|done]. apply ret_Ok in E as [<- ->].
  destruct (resolved_below _ _ _ _ _ _ _ _ E1 E2 Er) as (-> & k & rest & Hk & _ & ->). split; [done|]. by exists k, rest.
Qed.
(** The result names the bytes of a file. *)
Definition result_names (w : world) (result : val) (k : string) (p : path) : Prop :=
  exists data, read_bytes p w = (Ok data, w) /\ item result [k; "filename"] = Ok (VStr (Path.name p)) /\
    item result [k; "sha256"] = Ok (VStr (Sha256.hexdigest data)).
Lemma named_Ok p w v w' : Authorize.named p w = (Ok v, w') -> w' = w /\ exists data, read_bytes p w = (Ok data, w) /\
  v = VDict [("filename", VStr (Path.name p)); ("sha256", VStr (Sha256.hexdigest data))].
Proof.
  unfold Authorize.named. intros E. apply M_bind_Ok in E as (h & w1 & (-> & data & D & ->)%PrepareFacts.digest_reads & E).
  apply ret_Ok in E as [<- ->]. split; [done|]. by exists data.
Qed.
Lemma result_Ok a provider mp dm sg w result w' : Authorize.result_of a provider mp dm sg w = (Ok result, w') -> same_log w w' /\
  result_names w result "provider_manifest" mp /\ result_names w result "deployment_manifest" dm /\ result_names w result "signature" sg /\
  getitem result "artifact_sha256" = getitem provider "artifact_sha256" /\ getitem result "git_sha" = getitem provider "source_revision".
Proof.
  unfold Authorize.result_of. intros E. apply M_bind_Ok in E as (g & w1 & [G ->]%lift_Ok & E). apply M_bind_Ok in E as (r & w1 & [_ ->]%lift_Ok & E).
  apply M_bind_Ok in E as (h & w1 & [Hh ->]%lift_Ok & E). do 3 (apply M_bind_Ok in E as (? & w1 & (-> & ? & ? & ->)%named_Ok & E)).
  apply M_bind_Ok in E as (t & w1 & Et & E). apply ret_Ok in E as [<- ->]. split; [exact (pres_run _ _ _ _ _ sl_utc_now Et)|].
  rewrite G, Hh. do 3 (split; [eexists; split; [eassumption|split; reflexivity]|]). done.
Qed.

(** C29: A native artifact is authorized (exit 0) only when its provider's manifest is valid and was verified, and the
    artifact below it has the digest and the size of the manifest at that time. Just five processes ran, in
    this order: the verifier of the artifact, the signing of it, the derivation of the public key, the
    preparation of the deployment manifest with that signature and that key, and the verification of the
    handoff with a directory that trusts the key. The deployment manifest then is valid and of the digest
    and the revision of the provider, and the written result is valid and names the three files by digest. *)
Theorem native_authorized a w w' : Authorize.main a w = (Ok 0, w') ->
  exists manifest_path provider artifact data w1 key key' trust signature deployment_path deployment w2 result w3,
    resolve (Authorize.native_manifest a) w = (Ok manifest_path, w) /\ load manifest_path w = (Ok provider, w) /\ valid w NATIVE_SCHEMA provider /\
    did [verifier_argv manifest_path] w w1 /\ below w1 (Path.parent manifest_path) artifact /\ provider_bytes w1 artifact provider data /\
    did [Authorize.verify_argv manifest_path deployment_path trust;
         Authorize.prepare_argv manifest_path signature (Authorize.deployment_key_id a) trust deployment_path;
         Authorize.derive_argv key (Path.div trust (Authorize.deployment_key_id a +:+ ".pem"));
         Authorize.sign_argv artifact key' signature] w1 w2 /\
    load deployment_path w2 = (Ok deployment, w2) /\ valid w2 DEPLOYMENT_SCHEMA deployment /\
    item deployment ["artifact"; "sha256"] = Ok (VStr (Sha256.hexdigest data)) /\
    (exists x y, getitem deployment "git_sha" = Ok x /\ getitem provider "source_revision" = Ok y /\ py_eq x y = true) /\
    result_names w2 result "provider_manifest" manifest_path /\ result_names w2 result "deployment_manifest" deployment_path /\
    result_names w2 result "signature" signature /\ getitem result "artifact_sha256" = Ok (VStr (Sha256.hexdigest data)) /\
    same_log w2 w3 /\ valid w3 (Path.div ROOT "contracts/deployment/native-authorization-result-v1.schema.json") result /\
    same_log w3 w' /\ read_bytes (Authorize.output_result a) w' = (Ok (json_text result), w').
Proof.
  unfold Authorize.main. intros E. destruct (Authorize.KEY_ID _); cbn [negb] in E; [|done].
  apply M_bind_Ok in E as (k & w1 & E1 & E). still E1. destruct k; cbn [negb] in E; [|done].
  destruct (Authorize.reference_ok _); cbn [negb] in E; [|done]. apply M_bind_Ok in E as (mp & w1 & E1' & E). still E1'.
  apply M_bind_Ok in E as (provider & w1 & E2 & E). still E2. apply M_bind_Ok in E as (? & w1 & [-> V1]%PrepareFacts.pk_contract_valid & E).
  apply M_bind_Ok in E as (o & w1 & D1%run_did & E). apply M_bind_Ok in E as (rel & w2 & [_ ->]%lift_Ok & E).
  apply M_bind_Ok in E as (artifact & w2 & [-> B]%authorize_child & E). apply M_bind_Ok in E as (bad & w2 & E3 & E). still E3.
  destruct bad; [done|]. apply bytes_equal in E3 as (_ & data & P). apply M_bind_Ok in E as (out & w2 & E4 & E). still E4.
  apply M_bind_Ok in E as (? & w2 & E5 & E). pose proof (pres_run _ _ _ _ _ (sl_mkdir_p _) E5) as L5.
  apply M_bind_Ok in E as (rid & w3 & [_ ->]%lift_Ok & E). cbv zeta in E. apply M_bind_Ok in E as (key' & w3 & E6 & E). still E6.
  apply M_bind_Ok in E as (? & w3 & D2%sign_did & E). apply M_bind_Ok in E as (? & w4 & (key & trust & D3)%handoff_did & E).
  apply M_bind_Ok in E as (d & w5 & E7 & E). still E7. apply M_bind_Ok in E as (? & w5 & [-> V2]%PrepareFacts.pk_contract_valid & E).
  apply M_bind_Ok in E as (bad & w5 & [Bd ->]%lift_Ok & E). destruct bad; [done|]. apply ror_false in Bd as [A1 A2].
  apply bind_Ok in A1 as (u1 & U1 & A1). apply bind_Ok in A1 as (u2 & U2 & A1). injection A1 as A1%negb_false_iff.
  destruct P as (P1 & P2 & P3). rewrite P2 in U2. injection U2 as <-. apply py_eq_str_r in A1 as ->.
  apply bind_Ok in A2 as (u3 & U3 & A2). apply bind_Ok in A2 as (u4 & U4 & A2). injection A2 as A2%negb_false_iff.
  apply M_bind_Ok in E as (result & w5 & (L6 & N1 & N2 & N3 & N4 & _)%result_Ok & E). rewrite P2 in N4.
  apply M_bind_Ok in E as (? & w6 & [-> V3]%PrepareFacts.pk_contract_valid & E). apply M_bind_Ok in E as (? & w6 & Ew & E).
  apply M_bind_Ok in E as (? & w7 & Ep & E). apply ret_Ok in E as [_ ->]. pose proof Ep as [= _ <-].
  eexists mp, provider, artifact, data, w1, key, key', trust, _, _, d, w4, result, w5.
  do 5 (split; [done|]). split; [done|]. split; [eapply did_before; [exact L5|]; exact (did_then _ _ _ _ _ D2 D3)|].
  do 3 (split; [done|]). split; [by exists u3, u4|]. do 6 (split; [done|]).
  split; [exact (pres_run _ _ _ _ _ (sl_write_document _ _) Ew)|].
  unfold write_document in Ew. apply M_bind_Ok in Ew as (? & w8 & _ & Ew%write_file_read).
  apply PrepareFacts.read_bytes_file in Ew as (_ & m & Hm). apply PrepareFacts.read_bytes_file. split; [done|]. by exists m.
Qed.
End Env.
End NativeFacts.

(** ** The programs, started by one another *)

Module NativeRun.
Import Fixture Evidence JsonFacts DocumentFacts BuildResultFacts Native NativeFacts.

Definition commit : string := "0123456789abcdef0123456789abcdef01234567".
Definition triple : string := "aarch64-unknown-linux-gnu".
Definition byte (n : N) (s : string) : string := String (ascii_of_N n) s.
Definition so_bytes : string := VerifyArtifact.ELF_MAGIC +:+ byte 2 (byte 1 ("............" +:+ byte 183 (byte 0 "code"))).
Definition sbom_of (sha : string) : val := VDict [("spdxVersion", VStr "SPDX-2.3"); ("files", VList [VDict [("fileName", VStr "libx.so");
  ("checksums", VList [rec [("algorithm", "SHA1"); ("checksumValue", "00")]; rec [("algorithm", "SHA256"); ("checksumValue", sha)]])]])].
Definition provenance_of (sha : string) : val := VDict [("_type", VStr "https://in-toto.io/Statement/v1");
  ("predicateType", VStr "https://slsa.dev/provenance/v1"); ("subject", VList [VDict [("name", VStr "libx.so"); ("digest", rec [("sha256", sha)])]]);
  ("predicate", VDict [("buildDefinition", VDict [("externalParameters", rec [("target", triple)]);
     ("resolvedDependencies", VList [VDict [("digest", rec [("gitCommit", commit)])]])])])].
Definition native_of (sha bundle_path bundle_sha : string) : val := VDict [("release_id", VStr "n-1"); ("source_revision", VStr commit);
  ("crate", VStr "liqi_nif"); ("target_triple", VStr triple); ("nif_abi", VStr "2.15"); ("rustler_version", VStr "0.38.0");
  ("artifact_path", VStr "libx.so"); ("artifact_sha256", VStr sha); ("artifact_size_bytes", VInt 24); ("built_at", VStr "2026-07-01T00:00:00Z");
  ("sbom", rec [("path", "sbom.json"); ("sha256", Sha256.hexdigest (json (sbom_of sha)))]);
  ("provenance", rec [("path", "p.json"); ("sha256", Sha256.hexdigest (json (provenance_of sha)))]);
  ("signature", rec [("bundle_path", bundle_path); ("bundle_sha256", bundle_sha); ("identity", "ci"); ("issuer", "oidc")])].
Definition so_sha : string := Sha256.hexdigest so_bytes.
Definition native : val := native_of so_sha "b.json" (Sha256.hexdigest "bundle").
Definition world_of (native : val) (sha : string) : world := world_with [("/in/native.json", json native); ("/in/libx.so", so_bytes);
  ("/in/sbom.json", json (sbom_of sha)); ("/in/p.json", json (provenance_of sha)); ("/in/b.json", "bundle"); ("/in/libx.so.sig", "sig");
  ("/in/key.pem", "key"); ("/trust/deploy-1.pem", "public"); ("/tmp/.keep", ""); ("/out/.keep", "");
  ("/repo/contracts/native/native-artifact-v1.schema.json", "{}"); ("/repo/contracts/deployment/native-artifact-v1.schema.json", "{}");
  ("/repo/contracts/deployment/native-authorization-result-v1.schema.json", "{}")].
Definition w0 : world := world_of native so_sha.
Definition the_manifest : path := Path.of_str "/in/native.json".

(** openssl writes the file it is asked for; cosign and the verification of a signature succeed. *)
Definition tools (argv : list string) (f : filesystem) : proc_out * filesystem * Z :=
  match argv with
  | "openssl" :: "pkey" :: _ | "openssl" :: _ :: "-sign" :: _ => (Exited 0 "" "", add_file f (default "" (last argv), "by openssl"), 1000)
  | _ => (Exited 0 "" "", f, 1000)
  end.
(** A program of the repository that is started runs as its model does. *)
Definition ended (r : res Z * world) : proc_out * filesystem * Z :=
  (Exited (match r.1 with Ok z => z | Raise _ => 1 end) (Str.join "" (rev (out r.2))) (Str.join "" (rev (err r.2))), fs r.2, 1000).
Definition started_in (f : filesystem) : world := World f ["repo"] [] 0 0 [] [] [].
Definition cosign_host : Platform := host_with (λ _ p f, tools (argv p) f).
Definition verifier_host : Platform := host_with (λ _ p f,
  match argv p with
  | [_; _; "--manifest"; m] => ended (VerifyArtifact.main (H := cosign_host) (Path.of_str m) (started_in f))
  | l => tools l f
  end).
Definition full_host : Platform := host_with (λ _ p f,
  match argv p with
  | [_; _; "--manifest"; m] => ended (VerifyArtifact.main (H := cosign_host) (Path.of_str m) (started_in f))
  | [_; _; "--native-manifest"; m; "--ed25519-signature"; g; "--key-id"; k; "--trust-dir"; t; "--output"; o] =>
      ended (PrepareManifest.main (H := verifier_host) (PrepareManifest.Args (Path.of_str m) (Path.of_str g) k (Path.of_str t) (Path.of_str o)) (started_in f))
  | [_; _; "--native-manifest"; m; "--deployment-manifest"; d; "--trust-dir"; t] =>
      ended (VerifyHandoff.main (H := verifier_host) (VerifyHandoff.Args (Path.of_str m) (Path.of_str d) (Path.of_str t)) (started_in f))
  | l => tools l f
  end).

Lemma native_artifact_verified_witness : let host := cosign_host in let w' := (VerifyArtifact.main (H := host) the_manifest w0).2 in
  exists manifest_path manifest f sha identity issuer,
    resolve the_manifest w0 = (Ok manifest_path, w0) /\ load (H := host) manifest_path w0 = (Ok manifest, w0) /\
    valid (H := host) w0 (NATIVE_SCHEMA (H := host)) manifest /\ artifact_bound (H := host) w0 (Path.parent manifest_path) manifest f sha /\
    did (H := host) [VerifyArtifact.cosign_argv f identity issuer] w0 w'.
Proof.
  intros host w'. apply (native_artifact_verified (H := host) the_manifest w0 w').
  assert ((VerifyArtifact.main (H := host) the_manifest w0).1 = Ok 0) as E by (vm_compute; reflexivity).
  unfold w'. destruct (VerifyArtifact.main (H := host) the_manifest w0) as [r x]. cbn [fst snd] in E |- *. by rewrite E.
Defined.
(** The artifact named again as the bundle: its own digest is not compared. cosign alone is left to refuse it. *)
Example named_twice : let w := world_of (native_of "00" "libx.so" so_sha) "00" in
  (VerifyArtifact.main (H := cosign_host) the_manifest w).1 = Ok 0 /\ (VerifyArtifact.main (H := cosign_host) the_manifest (world_of (native_of "00" "b.json" "00") "00")).1 = Ok 1.
Proof. vm_compute. split; reflexivity. Qed.

Definition prepare_args : PrepareManifest.args := PrepareManifest.Args the_manifest (Path.of_str "/in/libx.so.sig") "deploy-1" (Path.of_str "/trust") (Path.of_str "/in/deployment.json").
Lemma handoff_accepted_witness : let host := verifier_host in let w' := (PrepareManifest.main (H := host) prepare_args w0).2 in
  exists manifest_path native d wd artifact signature key,
    resolve the_manifest w0 = (Ok manifest_path, w0) /\ load (H := host) manifest_path w0 = (Ok native, w0) /\
    prepared_from wd native artifact signature "deploy-1" d /\
    did (H := host) [verify_ed25519_argv artifact signature key; verifier_argv (H := host) manifest_path] w0 wd /\ same_log wd w' /\
    read_bytes (Path.of_str "/in/deployment.json") w' = (Ok (json_text d), w') /\
    forall x p, printable d -> order_free (H := host) d -> read_bytes p x = (Ok (json_text d), x) ->
      stat x manifest_path = stat w0 manifest_path -> stat x (NATIVE_SCHEMA (H := host)) = stat w0 (NATIVE_SCHEMA (H := host)) ->
      stat x (DEPLOYMENT_SCHEMA (H := host)) = stat wd (DEPLOYMENT_SCHEMA (H := host)) ->
      VerifyHandoff.documents (H := host) manifest_path p x = (Ok (native, read_back Json.pretty d), x).
Proof.
  intros host w'. apply (handoff_accepted (H := host) prepare_args w0 w').
  assert ((PrepareManifest.main (H := host) prepare_args w0).1 = Ok 0) as E by (vm_compute; reflexivity).
  unfold w'. destruct (PrepareManifest.main (H := host) prepare_args w0) as [r x]. cbn [fst snd] in E |- *. by rewrite E.
Defined.
Definition verify_args (w : world) : res Z :=
  (VerifyHandoff.main (H := verifier_host) (VerifyHandoff.Args the_manifest (Path.of_str "/in/deployment.json") (Path.of_str "/trust")) w).1.
(** The manifest that is written verifies; with other bytes for the artifact it does not. *)
Example prepared_verifies : let w := (PrepareManifest.main (H := verifier_host) prepare_args w0).2 in
  verify_args w = Ok 0 /\ verify_args (set_fs (add_file (fs w) ("/in/libx.so", so_bytes +:+ "!")) w) = Ok 1.
Proof. vm_compute. split; reflexivity. Qed.

Definition authorize_args (key_id : string) : Authorize.args :=
  Authorize.Args the_manifest key_id (Path.of_str "/in/key.pem") "CHG-7" (Path.of_str "/in/authorized") (Path.of_str "/out/result.json").
Lemma native_authorized_witness : let host := full_host in let a := authorize_args "deploy-1" in let w' := (Authorize.main (H := host) a w0).2 in
  exists manifest_path provider artifact data w1 key key' trust signature deployment_path deployment w2 result w3,
    resolve the_manifest w0 = (Ok manifest_path, w0) /\ load (H := host) manifest_path w0 = (Ok provider, w0) /\
    valid (H := host) w0 (NATIVE_SCHEMA (H := host)) provider /\
    did (H := host) [verifier_argv (H := host) manifest_path] w0 w1 /\ below w1 (Path.parent manifest_path) artifact /\ provider_bytes w1 artifact provider data /\
    did (H := host) [Authorize.verify_argv (H := host) manifest_path deployment_path trust;
         Authorize.prepare_argv (H := host) manifest_path signature "deploy-1" trust deployment_path;
         Authorize.derive_argv key (Path.div trust "deploy-1.pem"); Authorize.sign_argv artifact key' signature] w1 w2 /\
    load (H := host) deployment_path w2 = (Ok deployment, w2) /\ valid (H := host) w2 (DEPLOYMENT_SCHEMA (H := host)) deployment /\
    item deployment ["artifact"; "sha256"] = Ok (VStr (Sha256.hexdigest data)) /\
    (exists x y, getitem deployment "git_sha" = Ok x /\ getitem provider "source_revision" = Ok y /\ py_eq x y = true) /\
    result_names w2 result "provider_manifest" manifest_path /\ result_names w2 result "deployment_manifest" deployment_path /\
    result_names w2 result "signature" signature /\ getitem result "artifact_sha256" = Ok (VStr (Sha256.hexdigest data)) /\
    same_log w2 w3 /\ valid (H := host) w3 (Path.div (ROOT (H := host)) "contracts/deployment/native-authorization-result-v1.schema.json") result /\
    same_log w3 w' /\ read_bytes (Path.of_str "/out/result.json") w' = (Ok (json_text result), w').
Proof.
  intros host a w'. apply (native_authorized (H := host) a w0 w').
  assert ((Authorize.main (H := host) a w0).1 = Ok 0) as E by (vm_compute; reflexivity).
  unfold w'. destruct (Authorize.main (H := host) a w0) as [r x]. cbn [fst snd] in E |- *. by rewrite E.
Defined.
Example bad_key : (Authorize.main (H := full_host) (authorize_args "Deploy") w0).1 = Raise (SystemExit (ExitMsg "deployment key ID is invalid")).
Proof. vm_compute. reflexivity. Qed.
End NativeRun.
