(* ===== verification/StageRelease.v ===== *)
(** * infrastructure/deployment/stage_mix_release.py

    A deployment package is verified and its release staged on the host, not
    activated: the signed wrapper, every file it names by digest, the archive, the
    native artifacts; then the tree of the release, its configuration and its
    descriptor. openssl and the handoff verifier are started processes. *)

From Stdlib Require Import Ascii.
From S2P Require Import Prelude PyFloat PyMonad PyValue PyTime PyJson Sha256 PyOs.
From S2P Require Import ReadinessCommon GenerateSpec ActivateRelease PrepareDeployment.

Module StageRelease.
Import Evidence.

(** ** Patterns *)

Definition IDENT : string -> bool := PrepareDeployment.IDENT.
Definition KEY_ID : string -> bool :=
  PrepareDeployment.shaped (PrepareDeployment.word []) (PrepareDeployment.word ["."; "_"; "-"]%char) 2 63.
Definition MAX_EXPANDED_BYTES : Z := 2 * 1024 * 1024 * 1024.
Fixpoint search (m : string -> bool) (s : string) : bool :=
  m s || match s with String _ r => search m r | EmptyString => false end.
Definition upper_or_space (c : ascii) : bool := let n := N_of_ascii c in ((65 <=? n) && (n <=? 90) || (n =? 32))%N.
(** The run of letters and spaces is maximal, for a dash follows it. *)
Definition private_key (s : string) : bool :=
  match Str.strip_prefix "-----BEGIN " s with
  | Some r => let (run, r) := Readiness.span upper_or_space r in Str.endswith "PRIVATE KEY" run && Str.startswith "-----" r
  | None => false
  end.
(** [\s] in a pattern of bytes *)
Definition byte_space (c : ascii) : bool := let n := N_of_ascii c in ((9 <=? n) && (n <=? 13) || (n =? 32))%N.
Definition none_of (stops : list ascii) (c : ascii) : bool := negb (byte_space c || inb Ascii.eqb c stops).
Definition database_url (s : string) : bool :=
  match (r ← Readiness.lit_i "postgres" s;
         let r := match Readiness.lit_i "ql" r.2 with Some (_, r') => r' | None => r.2 end in
         r ← Str.strip_prefix "://" r;
         '(_, r) ← Readiness.non_empty (Readiness.span (none_of [":"; "/"]%char) r);
         r ← Str.strip_prefix ":" r;
         '(_, r) ← Readiness.non_empty (Readiness.span (none_of ["@"; "/"]%char) r);
         Str.strip_prefix "@" r) with
  | Some _ => true
  | None => false
  end.
Definition FORBIDDEN_CONTENT : list (string -> bool) := [private_key; database_url].

(** ** Names *)

Definition safe_relative (value : val) : res path :=
  s ← expect_str value;
  let p := Path.of_str s in
  if absolute p || inb String.eqb ".." (parts p) || match parts p with [] => true | _ => false end
  then raise RuntimeError ("unsafe relative path: " +:+ s) else Ok p.

(** ** Archives

    What [tarfile] makes of a compressed archive is not the repository's: its members,
    in order, each with its kind, its mode, its size, and what a reader of it gets -
    the bytes, and the error that may end them. *)
Inductive kind := KFile | KDir | KSymlink | KHardlink | KDevice | KFifo | KOther.
Record member := Member { m_name : string; m_kind : kind; m_mode : Z; m_size : Z; m_content : string * option exn }.
Definition unsupported (k : kind) : bool := match k with KSymlink | KHardlink | KDevice | KFifo => true | _ => false end.
Definition file_or_dir (k : kind) : bool := match k with KFile | KDir => true | _ => false end.
(** The tests of a member, the bytes so far given; the bytes with it *)
Definition admit_member (total : Z) (m : member) : res (path * Z) :=
  relative ← safe_relative (VStr (m_name m));
  if unsupported (m_kind m) then raise RuntimeError ("unsupported archive member: " +:+ m_name m) else
  if negb (file_or_dir (m_kind m)) then raise RuntimeError ("archive member is not file/directory: " +:+ m_name m) else
  if negb (Z.land (m_mode m) 3584 =? 0) then raise RuntimeError ("special permission bits forbidden: " +:+ m_name m) else
  let total := total + m_size m in
  if MAX_EXPANDED_BYTES <? total then raise RuntimeError "release archive exceeds 2 GiB expanded limit" else
  Ok (relative, total).
Definition executable_mode (m : Z) : bool := negb (Z.land m 73 =? 0).

Record args := Args { deployment_wrapper : path; artifact_dir : path; deployment_trust_dir : path; provider_trust_dir : path;
  native_handoff_verifier_arg : option path; native_trust_dir : path; release_root : path; runtime_config_root : path; recovery_root : path;
  approval_reference : option string; execute : bool; output : path }.

(** [copytree(src, dst, copy_function=copy2)] of a tree without links: the modes are kept. *)
Definition copied (n : node) : node :=
  match n with NFile d m => NFile d (Meta (mode m) 0 0) | NDir m => NDir (Meta (mode m) 0 0) | NLink t => NLink t end.
Definition copy_tree (src dst : list string) (f : filesystem) : filesystem :=
  fold_left (λ g kv, match Path.strip_parts src kv.1 with Some r => <[dst ++ r := copied kv.2]> g | None => g end) (map_to_list f) f.
(** Ownership and modes below a directory, itself included: files keep whether they can be executed. *)
Definition sealed_node (gid : Z) (n : node) : node :=
  match n with
  | NDir _ => NDir (Meta 360 0 gid)
  | NFile d m => NFile d (Meta (if executable_mode (mode m) then 360 else 288) 0 gid)
  | NLink t => NLink t
  end.
Definition seal_tree (d : list string) (gid : Z) (f : filesystem) : filesystem :=
  map_imap (λ k n, Some (if below k d then sealed_node gid n else n)) f.

Section Env.
Context `{Platform}.
Context (members : string -> res (list member)).

Definition ROOT : path := repo_root.
Definition load (p : path) : IO val := load_json p.
Definition digest (p : path) : IO string := sha256_chunked p.
Definition CONTRACT_ROOTS : list (string * (path * path)) :=
  [("deployment", (Path.div ROOT "contracts/deployment", Path.of_str "/usr/local/share/liqi/contracts/deployment"));
   ("runtime", (Path.div ROOT "contracts/runtime", Path.of_str "/usr/local/share/liqi/contracts/runtime"));
   ("database", (Path.div ROOT "contracts/database", Path.of_str "/usr/local/lib/liqi-database/contracts/database"));
   ("native", (Path.div ROOT "contracts/native", Path.of_str "/usr/local/lib/liqi-native/contracts/native"))].
Definition contract (name namespace : string) : IO path :=
  roots ← lift (match Dict.lookup namespace CONTRACT_ROOTS with Some r => Ok r | None => raise KeyError (repr_str namespace) end);
  let p := Path.div roots.1 name in let q := Path.div roots.2 name in
  f ← is_file p;
  if f : bool then mret p else
  g ← is_file q;
  if g : bool then mret q else throw FileNotFoundError (namespace +:+ "/" +:+ name).
Definition validate (name : string) (document : val) (label namespace : string) : IO unit :=
  c ← contract name namespace;
  PrepareDeployment.validate c document label.
Definition package_file (base : path) (filename expected_sha : val) : IO path :=
  relative ← lift (safe_relative filename);
  p ← resolve (PrepareDeployment.joined base relative);
  b ← resolve base;
  match Path.relative_to p b with
  | None => throw RuntimeError ("package file escapes artifact directory: " +:+ py_str filename)
  | Some _ =>
      f ← is_file p;
      same ← (if f : bool then h ← digest p; mret (py_eq (VStr h) expected_sha) else mret false);
      if same : bool then mret p else throw RuntimeError ("package file identity mismatch: " +:+ py_str filename)
  end.
Definition trusted_key (directory : path) (key_id : val) : IO path :=
  k ← lift (expect_str key_id);
  if negb (KEY_ID k) then throw RuntimeError "invalid signing key ID" else
  let key := Path.div directory (k +:+ ".pem") in
  f ← is_file key;
  if f : bool then mret key else throw RuntimeError ("trusted public key missing: " +:+ Path.to_str key).
Definition verify_argv (payload signature key : path) : list string :=
  ["openssl"; "pkeyutl"; "-verify"; "-rawin"; "-pubin"; "-inkey"; Path.to_str key; "-in"; Path.to_str payload; "-sigfile"; Path.to_str signature].
Definition verify_ed25519 (payload signature key : path) : IO unit :=
  r ← PrepareDeployment.started (verify_argv payload signature key) 30 None;
  let '(code, _, e) := r in
  if code =? 0 then mret tt
  else throw RuntimeError (PrepareDeployment.or_text (Str.strip e) ("signature verification failed: " +:+ Path.to_str payload)).

Definition write_member (m : member) (target : path) : IO unit :=
  mkdir_p (Path.parent target) ;;
  let '(content, problem) := m_content m in
  write_file target content ;;
  match problem with Some e => mraise e | None => mret tt end ;;
  chmod target (if executable_mode (m_mode m) then 493 else 420) ;;
  n ← st_size target;
  if n <=? 8 * 1024 * 1024 then
    content ← read_bytes target;
    if existsb (λ pattern, search pattern content) FORBIDDEN_CONTENT
    then throw RuntimeError ("release contains forbidden secret material: " +:+ m_name m) else mret tt
  else mret tt.
Definition extract_member (destination : path) (total : Z) (m : member) : IO Z :=
  x ← lift (admit_member total m);
  let target := PrepareDeployment.joined destination x.1 in
  match m_kind m with
  | KDir => mkdir_p target ;; chmod target 493
  | _ => write_member m target
  end ;;
  mret x.2.
Definition extract_release (archive destination : path) : IO unit :=
  data ← read_bytes archive;
  l ← lift (members data);
  match l with
  | [] => throw RuntimeError "release archive is empty"
  | _ => _ ← mfold (extract_member destination) 0 l; mret tt
  end.

(** [argv[0]] *)
Definition first_of (argv : val) : res val :=
  match argv with
  | VList (x :: _) => Ok x
  | VList [] => raise IndexError "list index out of range"
  | VStr s => if String.eqb s "" then raise IndexError "string index out of range" else Ok (VStr (Str.take 1 s))
  | VDict _ => raise KeyError "0"
  | _ => raise TypeError ("'" +:+ type_name argv +:+ "' object is not subscriptable")
  end.
(** [os.access(p, os.X_OK)] on a tree that this process has just written *)
Definition can_execute (p : path) : IO bool :=
  gets (λ w, match stat w p with Some (NFile _ m) | Some (NDir m) => executable_mode (mode m) | _ => false end).
Definition verify_command (root : path) (c : string * val) : IO unit :=
  command ← lift (first_of c.2);
  relative ← lift (safe_relative command);
  let p := PrepareDeployment.joined root relative in
  f ← is_file p;
  x ← (if f : bool then can_execute p else mret false);
  if x : bool then mret tt else throw RuntimeError ("release command unavailable for " +:+ c.1 +:+ ": " +:+ py_str command).
Definition verify_commands (root : path) (manifest : val) : IO unit :=
  l ← lift (c ← item manifest ["runtime"; "commands"]; py_items c);
  mfor (verify_command root) l.

(** ** The documents of a package *)

Definition credential (reference : val) : res string :=
  s ← expect_str reference;
  match PrepareDeployment.CREDENTIAL s with
  | Some n => Ok n
  | None => raise RuntimeError ("unsupported production credential reference: " +:+ s)
  end.
Definition credential_names (runtime : val) : res (list string) :=
  http ← item runtime ["http"; "secretRef"]; database ← item runtime ["database"; "secretRef"];
  drain ← item runtime ["shutdown"; "drainTokenRef"]; probe ← item runtime ["security"; "probeTokenRef"];
  names ← rmap credential [http; database; drain; probe];
  if PrepareDeployment.same_names names PrepareDeployment.EXPECTED_CREDENTIALS then Ok names
  else raise RuntimeError "runtime credential identities do not match the published provider contract".
Definition differs (v : val) (ks : list string) (x : val) : res bool := PrepareDeployment.differs v ks x.
Definition refuse (b : res bool) (m : string) : res unit := PrepareDeployment.refuse b m.
Definition verify_runtime_result (result provider release_id git_sha : val) : res unit :=
  refuse (rany id [differs result ["status"] (VStr "passed"); (b ← getitem result "blockers"; Ok (truthy b));
      differs result ["release_id"] release_id; differs result ["git_sha"] git_sha;
      (x ← getitem result "artifact_sha256"; y ← item provider ["artifact"; "sha256"]; Ok (py_ne x y))])
    "runtime artifact result is not passed and bound to this exact release archive".
Definition database_version (contract_doc readiness runtime : val) : res Z :=
  r ← getitem contract_doc "requiredMigration"; required ← py_int r;
  _ ← refuse (ror (differs contract_doc ["status"] (VStr "accepted")) (differs contract_doc ["compatibility"; "postgresqlMajor"] (VInt 17)))
    "database provider contract is not accepted for PostgreSQL 17";
  _ ← refuse (ror (differs runtime ["database"; "requiredMigrationVersion"] (VInt required))
                (d ← getitem runtime "database"; get_ne d "credentialFormat" (VStr "role-url-bundle-v1")))
    "runtime database binding does not match provider contract";
  _ ← refuse (rany id [differs readiness ["status"] (VStr "passed"); PrepareDeployment.not_true readiness ["ready"];
        PrepareDeployment.not_true readiness ["writeReady"]; differs readiness ["reason"] (VStr "ready");
        differs readiness ["currentVersion"] (VInt required); differs readiness ["requiredVersion"] (VInt required);
        differs readiness ["obanMigrationVersion"] (VInt 14); differs readiness ["requiredObanMigrationVersion"] (VInt 14);
        (y ← getitem readiness "inRecovery"; Ok (negb (is_false y)))])
    "database migration readiness is not exact and write-ready";
  Ok required.

(** ** Native artifacts *)

Definition native_handoff_verifier (explicit : option path) : IO path :=
  let candidates := match explicit with Some p => [p] | None => [] end ++
    [Path.div ROOT "native/scripts/verify_deployment_manifest.py"; Path.of_str "/usr/local/lib/liqi-native/native/scripts/verify_deployment_manifest.py"] in
  l ← mfilter is_file candidates;
  match l with
  | p :: _ => mret p
  | [] => throw RuntimeError "Senior 3 native deployment handoff verifier is unavailable"
  end.
Definition handoff_argv (verifier provider deployment trust_dir : path) : list string :=
  [executable; Path.to_str verifier; "--native-manifest"; Path.to_str provider; "--deployment-manifest"; Path.to_str deployment;
   "--trust-dir"; Path.to_str trust_dir].
(** [v[k] != w[l]] at the ends of two chains *)
Definition items_differ (v : val) (ks : list string) (w : val) (ls : list string) : res bool := x ← item v ks; y ← item w ls; Ok (py_ne x y).
Definition native_tests (provider deployment entry git_sha target : val) : list (res bool) :=
  [items_differ deployment ["artifact_id"] entry ["artifact_id"]; differs deployment ["git_sha"] git_sha;
   differs provider ["source_revision"] git_sha; differs provider ["target_triple"] target; differs deployment ["target_triple"] target;
   items_differ provider ["artifact_sha256"] deployment ["artifact"; "sha256"];
   items_differ deployment ["artifact"; "install_relative_path"] entry ["install_relative_path"]].
Definition size_and_digest (p : path) (size sha : res val) : IO bool :=
  f ← is_file p;
  if negb f then mret false else
  n ← st_size p; s ← lift size;
  if py_ne (VInt n) s then mret false else
  h ← digest p; d ← lift sha; mret (py_eq (VStr h) d).
Definition native_documents (base : path) (entry git_sha target : val) : IO (path * path * val * val) :=
  f ← lift (getitem entry "provider_manifest_filename"); s ← lift (getitem entry "provider_manifest_sha256");
  provider_path ← package_file base f s;
  f ← lift (getitem entry "deployment_manifest_filename"); s ← lift (getitem entry "deployment_manifest_sha256");
  deployment_path ← package_file base f s;
  provider ← load provider_path;
  deployment ← load deployment_path;
  validate "native-artifact-v1.schema.json" provider "native provider manifest" "native" ;;
  validate "native-artifact-v1.schema.json" deployment "native deployment manifest" "deployment" ;;
  lift (refuse (rany id (native_tests provider deployment entry git_sha target)) "native provider/deployment/wrapper identity mismatch") ;;
  mret (provider_path, deployment_path, provider, deployment).
Definition native_result (provider deployment entry : val) (installed : path) : res val :=
  i ← getitem deployment "artifact_id"; p ← getitem entry "provider_manifest_sha256"; d ← getitem entry "deployment_manifest_sha256";
  a ← getitem provider "artifact_sha256";
  Ok (VDict [("artifact_id", i); ("provider_manifest_sha256", p); ("deployment_manifest_sha256", d); ("artifact_sha256", a);
    ("install_path", VStr (Path.to_str installed)); ("provider_verification_status", VStr "passed"); ("load_probe_status", VStr "pending-activation")]).
Definition verify_native (base : path) (git_sha target : val) (staged final_release verifier trust_dir : path) (entry : val) : IO val :=
  d ← native_documents base entry git_sha target;
  let '(provider_path, deployment_path, provider, deployment) := d in
  r ← PrepareDeployment.started (handoff_argv verifier provider_path deployment_path trust_dir) 600 None;
  let '(code, o, e) := r in
  if negb (code =? 0) then throw RuntimeError ("Senior 3 native deployment handoff failed: " +:+ PrepareDeployment.detail o e) else
  relative ← lift (v ← getitem provider "artifact_path"; safe_relative v);
  let source := PrepareDeployment.joined (Path.parent provider_path) relative in
  same ← size_and_digest source (getitem provider "artifact_size_bytes") (getitem provider "artifact_sha256");
  if negb same then throw RuntimeError "native shared object checksum/size mismatch" else
  install ← lift (v ← item deployment ["artifact"; "install_relative_path"]; safe_relative v);
  let target := PrepareDeployment.joined staged install in
  mkdir_p (Path.parent target) ;;
  copyfile source target ;;
  chmod target 420 ;;
  lift (native_result provider deployment entry (PrepareDeployment.joined final_release install)).

(** ** The host *)

Definition seal_below (p : path) (gid : Z) : IO unit :=
  λ w, match canon w p with
       | Some k => (Ok tt, if is_dir_node (node_at (fs w) k) then set_fs (seal_tree k gid (fs w)) w else w)
       | None => (Ok tt, w)
       end.
Definition immutable_tree (p : path) : IO unit :=
  gid ← lift (match group "liqi" with Some g => Ok g | None => raise KeyError "getgrnam(): name not found: 'liqi'" end);
  seal_below p gid ;; chown p 0 gid ;; chmod p 360.
Definition atomic_write (p : path) (data : string) : IO unit :=
  mkdir_p (Path.parent p) ;;
  let temporary := Path.with_name p ("." +:+ Path.name p +:+ ".new." +:+ Str.of_Z pid) in
  write_file temporary data ;; chmod temporary 288 ;; replace temporary p.
(** [shutil.rmtree(p)] of a directory *)
Definition rmtree (p : path) : IO unit :=
  λ w, match locate w p with
       | Some k => if is_dir_node (node_at (fs w) k) then (Ok tt, set_fs (delete_tree k (fs w)) w)
                   else (Raise (os_error NotADirectoryError p), w)
       | None => (Raise (os_error FileNotFoundError p), w)
       end.
(** [shutil.copytree(src, dst)] for a new directory *)
Definition copytree (src dst : path) : IO unit :=
  λ w, match canon w src, canon w dst with
       | Some s, Some d =>
           if negb (is_dir_node (node_at (fs w) s)) then (Raise (os_error NotADirectoryError src), w)
           else if is_some_node (node_at (fs w) d) then (Raise (os_error FileExistsError dst), w)
           else if is_dir_node (node_at (fs w) (removelast d)) then (Ok tt, set_fs (copy_tree s d (fs w)) w)
           else (Raise (os_error FileNotFoundError dst), w)
       | _, _ => (Raise (os_error FileNotFoundError dst), w)
       end.

(** ** The program *)

Section Program.
Context (a : args).

(** A file of the package that the wrapper names under [k], with its document *)
Definition packaged (wrapper : val) (k name label namespace : string) : IO (path * val) :=
  f ← lift (item wrapper [k; "filename"]); s ← lift (item wrapper [k; "sha256"]);
  p ← package_file (artifact_dir a) f s;
  v ← load p;
  validate name v label namespace ;;
  mret (p, v).
Record inputs := Inputs { wrapper : val; provider_path : path; provider : val; runtime_result : val; runtime_path : path; runtime : val;
  database_path : path; database : val; readiness_path : path; readiness : val; rollback_spec : val; rollback : option val }.
Definition rollback_document (spec : val) : IO (option val) :=
  match spec with
  | VNone => mret None
  | _ =>
      f ← lift (getitem spec "descriptor_filename"); s ← lift (getitem spec "descriptor_sha256");
      p ← package_file (artifact_dir a) f s;
      v ← load p;
      validate "release-target-v1.schema.json" v "rollback descriptor" "deployment" ;;
      mret (if is_none v then None else Some v)
  end.
Definition load_package (wrapper : val) : IO inputs :=
  p ← packaged wrapper "provider_manifest" "mix-release-v1.schema.json" "Senior 1 Mix manifest" "deployment";
  r ← packaged wrapper "runtime_artifact_result" "runtime-artifact-result-v1.schema.json" "runtime artifact result" "runtime";
  t ← packaged wrapper "runtime_config" "runtime-config-v1.schema.json" "runtime config" "runtime";
  d ← packaged wrapper "database_contract" "database-runtime-v1.schema.json" "database contract" "database";
  m ← packaged wrapper "migration_readiness" "migration-readiness-v1.schema.json" "migration readiness" "database";
  spec ← lift (getitem wrapper "rollback_target");
  b ← rollback_document spec;
  mret (Inputs wrapper p.1 p.2 r.2 t.1 t.2 d.1 d.2 m.1 m.2 spec b).
Definition rollback_agrees (i : inputs) (required_migration : Z) : res unit :=
  match rollback i with
  | None => refuse (r ← getitem (provider i) "rollback_target_release_id"; Ok (negb (is_none r)))
              "provider declares an upgrade rollback target but wrapper does not"
  | Some r =>
      _ ← refuse (ror (items_differ r ["release_id"] (rollback_spec i) ["release_id"])
                    (items_differ (provider i) ["rollback_target_release_id"] r ["release_id"])) "rollback target identity mismatch";
      rollback_db ← getitem r "database_compatibility";
      refuse (b ← PrepareDeployment.covers rollback_db required_migration; Ok (negb b)) "rollback target is not proven compatible with the live migration"
  end.
(** The release, its commit, the credentials and the migration *)
Definition agreed (i : inputs) : res (string * val * list string * Z) :=
  r ← getitem (wrapper i) "release_id"; git_sha ← getitem (wrapper i) "git_sha";
  release_id ← expect_str r;
  _ ← refuse (rany id [Ok (negb (IDENT release_id)); differs (provider i) ["release_id"] (VStr release_id); differs (provider i) ["git_sha"] git_sha])
    "deployment/provider release identity mismatch";
  _ ← verify_runtime_result (runtime_result i) (provider i) (VStr release_id) git_sha;
  _ ← refuse (ror (differs (runtime i) ["releaseId"] (VStr release_id)) (differs (runtime i) ["environment"] (VStr "production")))
    "runtime config release identity/environment mismatch";
  names ← credential_names (runtime i);
  required_migration ← database_version (database i) (readiness i) (runtime i);
  _ ← rollback_agrees i required_migration;
  Ok (release_id, git_sha, names, required_migration).

Definition in_package (name : res val) : IO path := n ← lift (v ← name; expect_str v); mret (Path.div (artifact_dir a) n).
Definition verify_wrapper (wrapper : val) : IO unit :=
  wrapper_signature ← in_package (item wrapper ["signature"; "signature_filename"]);
  k ← lift (item wrapper ["signature"; "key_id"]);
  key ← trusted_key (deployment_trust_dir a) k;
  verify_ed25519 (deployment_wrapper a) wrapper_signature key.
(** The provider's manifest and the archive, by their signatures *)
Definition verify_archive (i : inputs) : IO path :=
  manifest_signature ← in_package (item (provider i) ["manifest_signature"; "signature_filename"]);
  k ← lift (item (provider i) ["manifest_signature"; "key_id"]);
  key ← trusted_key (provider_trust_dir a) k;
  verify_ed25519 (provider_path i) manifest_signature key ;;
  archive ← in_package (item (provider i) ["artifact"; "filename"]);
  archive_signature ← in_package (item (provider i) ["artifact"; "signature"; "signature_filename"]);
  same ← size_and_digest archive (item (provider i) ["artifact"; "size_bytes"]) (item (provider i) ["artifact"; "sha256"]);
  if negb same then throw RuntimeError "Mix release archive checksum/size mismatch" else
  h ← digest archive_signature; s ← lift (item (provider i) ["artifact"; "signature"; "signature_sha256"]);
  if py_ne (VStr h) s then throw RuntimeError "Mix release artifact signature checksum mismatch" else
  k ← lift (item (provider i) ["artifact"; "signature"; "key_id"]);
  key ← trusted_key (provider_trust_dir a) k;
  verify_ed25519 archive archive_signature key ;;
  mret archive.
Definition same_path (p q : path) : bool := Bool.eqb (absolute p) (absolute q) && bool_decide (parts p = parts q).

Definition retained_root : path := Path.div (recovery_root a) "release-inputs".
Definition retained (release_id kind : string) : path := Path.div retained_root (release_id +:+ kind).
Definition descriptor_path (release_id : string) : path := Path.div (Path.div (recovery_root a) "release-targets") (release_id +:+ ".json").
Definition runtime_install (release_id : string) : path := Path.div (runtime_config_root a) (release_id +:+ ".json").
Definition release_path (release_id : string) : path := Path.div (release_root a) release_id.
Definition source_entry (schema_version : res val) (p retained_path : path) : IO val :=
  v ← lift schema_version; h ← digest p;
  mret (VDict [("schema_version", v); ("sha256", VStr h); ("retained_path", VStr (Path.to_str retained_path))]).
Definition command_entry (action : string) (seconds : val) : val :=
  VDict [("argv", VStrs ["/usr/local/libexec/liqi-release-command"; action]); ("timeout_seconds", seconds)].
Definition rollback_id (i : inputs) : res val := match rollback i with None => Ok VNone | Some r => getitem r "release_id" end.
Definition descriptor_of (i : inputs) (release_id : string) (git_sha : val) (names : list string) (required_migration : Z) : IO val :=
  source ← source_entry (getitem (provider i) "schema_version") (provider_path i) (retained release_id ".mix-release-v1.json");
  drain ← lift (item (provider i) ["runtime"; "drain_timeout_seconds"]);
  stop ← lift (py_add drain (VInt 30));
  health ← lift (item (provider i) ["runtime"; "health_timeout_seconds"]);
  evidence ← source_entry (getitem (readiness i) "schemaVersion") (readiness_path i) (retained release_id ".migration-readiness-v1.json");
  rid ← lift (rollback_id i);
  created ← lift (getitem (wrapper i) "created_at");
  let config := VStr (Path.to_str (runtime_install release_id)) in
  mret (VDict [("schema_version", VStr "liqi.deployment.release-target/v1"); ("release_id", VStr release_id); ("runtime_generation", VStr "beam-v1");
    ("git_sha", git_sha); ("release_path", VStr (Path.to_str (release_path release_id))); ("source_manifest", source);
    ("services", VList [VDict [("unit", VStr "liqi-beam.service"); ("start_order", VInt 1); ("stop_timeout_seconds", stop)]]);
    ("drain", command_entry "drain" drain); ("health", command_entry "health" health);
    ("database_compatibility", VDict [("minimum_migration", VInt required_migration); ("maximum_migration", VInt required_migration);
       ("rollback_safe_through", VInt required_migration); ("database_rollback_allowed", VBool false)]);
    ("database_compatibility_evidence", evidence); ("rollback_target_release_id", rid); ("runtime_config_path", config);
    ("credential_directory", VStr "/run/liqi/secrets/beam"); ("required_credentials", VStrs names);
    ("configuration_paths", VList [config; VStr "/run/liqi/secrets/beam"]); ("created_at", created)]).

Definition retain (x : path * path) : IO unit := data ← read_bytes x.1; atomic_write x.2 data.
(** [--execute]: the tree, the configuration, the retained inputs, the descriptor *)
Definition install (i : inputs) (release_id : string) (staged : path) (descriptor : val) : IO unit :=
  mkdir_p (release_root a) ;; mkdir_p (runtime_config_root a) ;; mkdir_p retained_root ;; mkdir_p (Path.parent (descriptor_path release_id)) ;;
  let temporary := Path.div (release_root a) ("." +:+ release_id +:+ ".staging." +:+ Str.of_Z pid) in
  e ← exists_ temporary;
  mwhen e (rmtree temporary) ;;
  copytree staged temporary ;;
  immutable_tree temporary ;;
  replace temporary (release_path release_id) ;;
  retain (runtime_path i, runtime_install release_id) ;;
  mfor retain [(provider_path i, retained release_id ".mix-release-v1.json"); (deployment_wrapper a, retained release_id ".mix-deployment-v1.json");
    (runtime_path i, retained release_id ".runtime-config-v1.json"); (database_path i, retained release_id ".database-runtime-v1.json");
    (readiness_path i, retained release_id ".migration-readiness-v1.json")] ;;
  atomic_write (descriptor_path release_id) (json_text descriptor).
(** The staged tree, with its native artifacts; what the release needs on the host *)
Definition stage (i : inputs) (archive : path) (release_id : string) (git_sha : val) (staged : path) : IO (list val) :=
  extract_release archive staged ;;
  verify_commands staged (provider i) ;;
  natives ← lift (getitem (wrapper i) "native_artifacts");
  verifier ← (if truthy natives then v ← native_handoff_verifier (native_handoff_verifier_arg a); mret (Some v) else mret None);
  l ← lift (py_iter natives);
  results ← mmap (λ entry, target ← lift (getitem (provider i) "target_triple");
      verify_native (artifact_dir a) git_sha target staged (release_path release_id) (default (Path.of_str "None") verifier) (native_trust_dir a) entry) l;
  copyfile (provider_path i) (Path.div staged "deployment-manifest.json") ;;
  copyfile (deployment_wrapper a) (Path.div staged "deployment-wrapper.json") ;;
  chmod (Path.div staged "deployment-manifest.json") 420 ;; chmod (Path.div staged "deployment-wrapper.json") 420 ;;
  mret results.
Definition staging (i : inputs) (archive : path) (release_id : string) (git_sha : val) (names : list string) (required_migration : Z)
    (directory : path) : IO (list val * val * string) :=
  let staged := Path.div directory release_id in
  mkdir staged 493 ;;
  results ← stage i archive release_id git_sha staged;
  descriptor ← descriptor_of i release_id git_sha names required_migration;
  validate "release-target-v1.schema.json" descriptor "release descriptor" "deployment" ;;
  if execute a then install i release_id staged descriptor ;; mret (results, descriptor, "staged")
  else mret (results, descriptor, "planned").
Definition evidence_of (i : inputs) (archive : path) (release_id : string) (git_sha : val) (x : list val * val * string) : IO val :=
  let '(results, descriptor, status) := x in
  r ← digest (runtime_path i); m ← digest (provider_path i); h ← digest archive;
  installed ← utc_now;
  mret (VDict [("schema_version", VStr "liqi.deployment.installed-release/v1"); ("release_id", VStr release_id); ("git_sha", git_sha);
    ("release_path", VStr (Path.to_str (release_path release_id))); ("runtime_config_path", VStr (Path.to_str (runtime_install release_id)));
    ("runtime_config_sha256", VStr r); ("manifest_sha256", VStr m); ("artifact_sha256", VStr h); ("native_artifacts", VList results);
    ("descriptor_sha256", VStr (Sha256.hexdigest (json_text descriptor))); ("status", VStr status);
    ("approval_reference", if execute a then opt_val VStr (approval_reference a) else VNone); ("installed_at", VStr installed);
    ("mutation_performed", VBool (execute a))]).
Definition approval_missing : bool := match approval_reference a with None => true | Some r => Str.len (Str.strip r) <? 3 end.
(** Up to the archive: everything is verified, nothing written *)
Definition verified_package : IO (inputs * path * string * val * list string * Z) :=
  w ← load (deployment_wrapper a);
  validate "mix-deployment-v1.schema.json" w "deployment wrapper" "deployment" ;;
  if execute a && (negb (String.eqb os_name "posix") || negb (euid =? 0)) then sysexit "live staging requires root on POSIX" else
  if execute a && approval_missing then sysexit "live staging requires approval reference" else
  verify_wrapper w ;;
  i ← load_package w;
  x ← lift (agreed i);
  let '(release_id, git_sha, names, required_migration) := x in
  archive ← verify_archive i;
  directory ← lift (v ← item (provider i) ["installation"; "release_directory"]; expect_str v);
  if negb (same_path (release_path release_id) (Path.of_str directory)) then throw RuntimeError "release installation path mismatch" else
  e ← exists_ (release_path release_id);
  if e : bool then throw RuntimeError ("release path already exists: " +:+ Path.to_str (release_path release_id)) else
  mret (i, archive, release_id, git_sha, names, required_migration).
Definition main : IO Z :=
  y ← verified_package;
  let '(i, archive, release_id, git_sha, names, required_migration) := y in
  z ← with_locals [] (PrepareDeployment.with_temporary ("liqi-stage-" +:+ release_id +:+ "-") (λ directory,
    zoom_snd (staging i archive release_id git_sha names required_migration directory)));
  evidence ← evidence_of i archive release_id git_sha z;
  validate "installed-release-v1.schema.json" evidence "installation evidence" "deployment" ;;
  write_document (output a) evidence ;;
  print (Json.dumps Json.pretty evidence) ;;
  mret 0.
End Program.
End Env.
End StageRelease.
