(* ===== verification/ValidateRelease.v ===== *)
(** * beam/scripts/validate_release_manifest.py

    The validator of a release: its manifest, the checkout, the archive and what is in
    it, the two signatures and the runtime. Every test leaves a check; the result is
    written whatever the checks are. git and openssl are started processes; the members
    of the archive are a parameter, as for the staging. *)

From Stdlib Require Import Ascii.
From S2P Require Import Prelude PyFloat PyMonad PyValue PyTime PyJson Sha256 PyOs.
From S2P Require Import GenerateSpec CiProvenance BuildResult StageRelease.

Module ValidateRelease.
Import Evidence.
Import StageRelease (member, m_name, m_kind, m_mode, m_size, m_content, KFile, executable_mode).

Definition REQUIRED : list string := ["bin/liqi_platform"; "bin/liqi-health"; "bin/liqi-drain"; "releases/start_erl.data"].
Record target := Target { elf_machine : Z; elf_name : string }.
Definition TARGETS : list (string * target) :=
  [("aarch64-unknown-linux-gnu", Target 183 "AArch64"); ("x86_64-unknown-linux-gnu", Target 62 "x86-64")].

Definition byte_at (n : nat) (s : string) : Z := match String.get n s with Some c => Z.of_N (N_of_ascii c) | None => 0 end.
Definition magic : string := String (ascii_of_N 127) "ELF".
Definition elf_matches (header : string) (expected : target) : bool :=
  (20 <=? String.length header)%nat && String.eqb (String.substring 0 4 header) magic && (byte_at 4 header =? 2) && (byte_at 5 header =? 1) &&
  (byte_at 18 header + 256 * byte_at 19 header =? elf_machine expected).

(** ** The checks *)

(** The locals of [main] that its [except] clause leaves behind *)
Record locals := Locals { checks : list (string * string); blockers : list string; l_manifest : val; artifact_sha : option string }.
Definition with_manifest (v : val) (l : locals) : locals := Locals (checks l) (blockers l) v (artifact_sha l).
Definition with_sha (h : option string) (l : locals) : locals := Locals (checks l) (blockers l) (l_manifest l) h.
Abbreviation V := (M (locals * world)).
Definition added (name status : string) (detail : option string) (l : locals) : locals :=
  Locals (checks l ++ [(name, status)])
    (match detail with
     | Some d => if negb (String.eqb status "passed") && negb (String.eqb d "") then blockers l ++ [d] else blockers l
     | None => blockers l
     end) (l_manifest l) (artifact_sha l).
Definition add_check (name status : string) (detail : option string) : V unit := modl (added name status detail).
Definition passed_if (b : bool) : string := if b then "passed" else "failed".
(** [add_check(checks, blockers, name, "passed" if b else "failed", detail)] *)
Definition check (name : string) (b : bool) (detail : string) : V unit := add_check name (passed_if b) (Some detail).

(** [path / v] *)
Definition joined_to (p : path) (v : val) : res path :=
  match v with
  | VStr s => Ok (Path.div p s)
  | _ => raise TypeError ("unsupported operand type(s) for /: 'PosixPath' and '" +:+ type_name v +:+ "'")
  end.
(** [v.startswith(p)] *)
Definition val_startswith (p : string) (v : val) : res bool := match v with VStr s => Ok (Str.startswith p s) | _ => no_attr v "startswith" end.
(** [TARGETS[v]] *)
Definition target_of (v : val) : res target :=
  match v with
  | VStr s => match Dict.lookup s TARGETS with Some t => Ok t | None => raise KeyError (repr_str s) end
  | _ => _ ← check_hash v; raise KeyError (repr v)
  end.

(** ** The archive *)

Definition slashes (s : string) : string := Str.replace (String bslash "") "/" s.
Definition safe_name (m : member) : bool :=
  negb (absolute (Path.of_str (m_name m))) && negb (inb String.eqb ".." (parts (Path.of_str (slashes (m_name m))))).
(** [member.name.lstrip("./")] *)
Definition archive_name (m : member) : string := Str.lstrip_by (λ c, inb Ascii.eqb c ["."; "/"]%char) (m_name m).
Definition has_required (names : list string) (required : string) : bool :=
  existsb (λ n, String.eqb n required || Str.endswith ("/" +:+ required) n) names.
Definition layout_ok (names : list string) : bool := forallb (has_required names) REQUIRED.
Definition has_erts (names : list string) : bool := existsb (λ n, Str.contains "/erts-" ("/" +:+ n) || Str.startswith "erts-" n) names.
Definition has_dir (dir : string) (names : list string) : bool := existsb (λ n, Str.contains dir ("/" +:+ n)) names.
Definition is_beam (m : member) : bool :=
  Str.endswith "/bin/beam.smp" (slashes (m_name m)) || String.eqb (slashes (m_name m)) "bin/beam.smp".
(** [archive.extractfile(member).read(n)] of a file *)
Definition read_start (n : nat) (m : member) : res string :=
  let '(content, problem) := m_content m in
  match problem with
  | Some e => if (String.length content <? n)%nat then Raise e else Ok (String.substring 0 n content)
  | None => Ok (String.substring 0 n content)
  end.
(** Whether the emulator has its shape, and whether it is for the target *)
Definition beam_of (members : list member) (expected : target) : res (bool * bool) :=
  match List.find is_beam members with
  | Some m => match m_kind m with
              | KFile => header ← read_start 20 m;
                         Ok ((1048576 <=? m_size m) && executable_mode (m_mode m), elf_matches header expected)
              | _ => Ok (false, false)
              end
  | None => Ok (false, false)
  end.

Record args := Args { a_manifest : path; a_output : path; a_trust_dir : option path }.

Section Env.
Context `{Platform}.
Context (members : string -> res (list member)).

Definition ROOT : path := repo_root.
Definition SCHEMA : path := Path.div ROOT "contracts/deployment/mix-release-v1.schema.json".
Definition RESULT_SCHEMA : path := Path.div ROOT "contracts/runtime/runtime-artifact-result-v1.schema.json".
Definition digest (p : path) : IO string := sha256_chunked p.
Definition load (p : path) : IO val := load_json p.

Definition trusted_key (trust_dir : path) (key_id : val) : IO path :=
  let key := Path.div trust_dir (py_str key_id +:+ ".pem") in
  f ← is_file key;
  if f : bool then mret key else throw FileNotFoundError ("trusted key is missing: " +:+ Path.to_str key).
Definition verify_argv (openssl : string) (payload signature key : path) : list string :=
  [openssl; "pkeyutl"; "-verify"; "-rawin"; "-pubin"; "-inkey"; Path.to_str key; "-in"; Path.to_str payload; "-sigfile"; Path.to_str signature].
Definition verify_ed25519 (payload signature key : path) : IO (bool * option string) :=
  match which "openssl" with
  | None => mret (false, Some "openssl is unavailable for Ed25519 verification")
  | Some openssl =>
      if String.eqb openssl "" then mret (false, Some "openssl is unavailable for Ed25519 verification") else
      p ← gets (BuildResult.process_of (verify_argv openssl payload signature key) 30 None);
      r ← subprocess_run p;
      mret (match r with
            | Exited code o e =>
                if code =? 0 then (true, None)
                else (false, Some (Str.take 512 (Str.strip (if negb (String.eqb e "") then e else if negb (String.eqb o "") then o
                                                             else "Ed25519 verification failed"))))
            | _ => (false, Some "Ed25519 verification exceeded 30 seconds")
            end)
  end.
Definition verified_with (name : string) (payload signature : path) (key_id : val) (trust_dir : path) : V unit :=
  key ← catch (k ← zoom_snd (trusted_key trust_dir key_id); mret (Some k))
    (on_exn [FileNotFoundError] (λ error, add_check (name +:+ "-verified") "blocked" (Some (exn_str error)) ;; mret None));
  match key with
  | None => mret tt
  | Some key => r ← zoom_snd (verify_ed25519 payload signature key); add_check (name +:+ "-verified") (passed_if r.1) r.2
  end.
Definition verify_signature (name : string) (payload signature : path) (key_id : val) (trust_dir : option path) : V unit :=
  f ← zoom_snd (is_file signature);
  if negb f then add_check (name +:+ "-file-present") "failed" (Some ("signature file missing: " +:+ Path.name signature)) else
  add_check (name +:+ "-file-present") "passed" None ;;
  match trust_dir with
  | None => add_check (name +:+ "-verified") "blocked" (Some "LIQI_RELEASE_TRUST_DIR or --trust-dir is required for signature verification")
  | Some t => verified_with name payload signature key_id t
  end.

Definition members_checks (l : list member) (manifest : val) : V unit :=
  let names := map archive_name l in
  check "archive-path-safety" (forallb safe_name l) "release archive contains an absolute or parent-traversal path" ;;
  check "archive-member-bound" (Z.of_nat (length l) <=? 20000) "release archive contains more than 20000 members" ;;
  check "release-layout" (layout_ok names) "release missing provider command or start_erl.data" ;;
  check "erts-included" (has_erts names) "release does not include ERTS" ;;
  triple ← lift (getitem manifest "target_triple");
  expected ← lift (target_of triple);
  shape ← lift (beam_of l expected);
  check "erts-executable-shape" shape.1 "ERTS beam.smp must be a regular executable file of at least 1 MiB" ;;
  check "target-elf" shape.2
    ("ERTS beam.smp is not an ELF64 little-endian " +:+ elf_name expected +:+ " binary for " +:+ py_str triple) ;;
  check "elixir-runtime" (has_dir "/lib/elixir-1.20.2/" names) "release does not contain Elixir 1.20.2" ;;
  check "application-version" (has_dir "/lib/liqi_platform-1.0.0-dev/" names) "release does not contain liqi_platform 1.0.0-dev".
Definition archive_checks (artifact : path) (manifest : val) : V (option string) :=
  f ← zoom_snd (is_file artifact);
  if negb f then
    add_check "artifact-present" "failed" (Some ("artifact missing: " +:+ Path.name artifact)) ;; mret None
  else
    add_check "artifact-present" "passed" None ;;
    n ← zoom_snd (st_size artifact); size ← lift (item manifest ["artifact"; "size_bytes"]);
    check "artifact-size" (py_eq (VInt n) size) "artifact size mismatch" ;;
    h ← zoom_snd (digest artifact); sha ← lift (item manifest ["artifact"; "sha256"]);
    check "artifact-sha256" (py_eq (VStr h) sha) "artifact sha256 mismatch" ;;
    catch (data ← zoom_snd (read_bytes artifact); l ← lift (members data); members_checks l manifest)
      (on_exn [TarError; OSError] (λ error, check "release-archive-readable" false ("invalid release archive: " +:+ exn_str error))) ;;
    mret (Some h).

(** [subprocess.check_output(["git", "rev-parse", "HEAD"], text=True, timeout=t).strip()] *)
Definition rev_parse : list string := ["git"; "rev-parse"; "HEAD"].
Definition head_of (timeout : option Z) : IO string :=
  p ← gets (λ w, Proc rev_parse timeout (environ w) None);
  r ← run_completed p;
  let '(code, o, _) := r in
  if code =? 0 then mret (Str.strip o) else throw CalledProcessError (CiProvenance.called_text rev_parse code).

(** ** The program *)

Section Program.
Context (a : args).

(** [--trust-dir], or else the environment's *)
Definition trust_dir : IO (option path) :=
  match a_trust_dir a with
  | Some p => mret (Some p)
  | None => e ← getenv "LIQI_RELEASE_TRUST_DIR";
            mret (match e with Some t => if String.eqb t "" then None else Some (Path.of_str t) | None => None end)
  end.
Definition schema_check (manifest : val) : V unit :=
  schema ← zoom_snd (load SCHEMA);
  errors ← lift (sorted_errors schema manifest);
  let detail := Str.join "; " (map snd (firstn 8 errors)) in
  add_check "manifest-schema" (passed_if match errors with [] => true | _ => false end) (if String.eqb detail "" then None else Some detail).
Definition head_check (manifest : val) : V unit :=
  current_sha ← zoom_snd (head_of (Some 10));
  exact_sha ← lift (get_eq manifest "git_sha" (VStr current_sha));
  check "exact-git-sha" exact_sha "manifest git_sha does not match current checkout".
(** [args.manifest.parent / v.get(k, "")] *)
Definition beside (v : val) (k : string) : V path := x ← lift (dget_or v k (VStr "")); lift (joined_to (Path.parent (a_manifest a)) x).
Definition signature_checks (manifest : val) (artifact : path) (trust : option path) : V unit :=
  spec ← lift (x ← dget_or manifest "artifact" (VDict []); dget_or x "signature" (VDict []));
  artifact_signature ← beside spec "signature_filename";
  f ← zoom_snd (is_file artifact_signature);
  mwhen f (h ← zoom_snd (digest artifact_signature); ok ← lift (get_eq spec "signature_sha256" (VStr h));
           check "artifact-signature-sha256" ok "artifact signature checksum mismatch") ;;
  k ← lift (dget_or spec "key_id" (VStr ""));
  verify_signature "artifact-signature" artifact artifact_signature k trust ;;
  spec ← lift (dget_or manifest "manifest_signature" (VDict []));
  manifest_signature ← beside spec "signature_filename";
  k ← lift (dget_or spec "key_id" (VStr ""));
  verify_signature "manifest-signature" (a_manifest a) manifest_signature k trust.
Definition runtime_ok (runtime : val) : res bool :=
  o ← dget_or runtime "otp_release" (VStr ""); b ← val_startswith "28" o;
  if b : bool then get_eq runtime "elixir_version" (VStr "1.20.2") else Ok false.
Definition commands_ok (commands : val) : res bool :=
  rall id [get_eq commands "health" (VStrs ["bin/liqi-health"]); get_eq commands "drain" (VStrs ["bin/liqi-drain"])].
Definition database_ok (database : val) : res bool :=
  rall id [get_eq database "minimum_migration" (VInt 8); get_eq database "maximum_migration" (VInt 8); get_eq database "rollback_safe_through" (VInt 8)].
Definition transition_ok (manifest : val) : res bool :=
  rollback ← dget manifest "rollback_target_release_id";
  match rollback with
  | VNone => Ok true
  | VStr s => if Str.startswith "liqi-v1-" s then x ← dget manifest "release_id"; Ok (py_ne rollback x) else Ok false
  | _ => Ok false
  end.
Definition document_checks (manifest : val) : V unit :=
  runtime ← lift (dget_or manifest "runtime" (VDict []));
  ok ← lift (runtime_ok runtime);
  check "runtime-version" ok "runtime version differs from Senior 1 toolchain" ;;
  commands ← lift (dget_or runtime "commands" (VDict []));
  ok ← lift (commands_ok commands);
  check "loopback-control-commands" ok "health/drain must use release overlay commands" ;;
  database ← lift (dget_or manifest "database_compatibility" (VDict []));
  ok ← lift (database_ok database);
  check "database-compatibility" ok "database compatibility must remain forward-only at migration 8" ;;
  ok ← lift (transition_ok manifest);
  check "release-transition" ok "release transition must be an explicit first release or a distinct retained V1 rollback target".
Definition verification (trust : option path) : V unit :=
  manifest ← zoom_snd (load (a_manifest a));
  modl (with_manifest manifest) ;;
  schema_check manifest ;;
  head_check manifest ;;
  artifact ← (spec ← lift (dget_or manifest "artifact" (VDict [])); beside spec "filename");
  h ← archive_checks artifact manifest;
  modl (with_sha h) ;;
  signature_checks manifest artifact trust ;;
  document_checks manifest.
Definition attempted (trust : option path) : V unit :=
  catch (verification trust) (on_any (λ error,
    check "verification-exception" false (exn_name error +:+ ": " +:+ exn_str error))).

Definition status_of (checks : list (string * string)) : string :=
  if existsb (λ c, String.eqb c.2 "failed") checks then "failed"
  else if existsb (λ c, String.eqb c.2 "blocked") checks then "blocked" else "passed".
Definition check_entry (c : string * string) : val := VDict [("name", VStr c.1); ("status", VStr c.2)].
Definition result_of (l : locals) : IO val :=
  g ← lift (dget (l_manifest l) "git_sha");
  git_sha ← (if truthy g then mret g else h ← head_of None; mret (VStr h));
  release_id ← lift (dget_or (l_manifest l) "release_id" (VStr "unknown"));
  observed ← utc_now;
  mret (VDict [("schema_version", VStr "runtime-artifact-result-v1"); ("git_sha", git_sha); ("release_id", release_id); ("observed_at", VStr observed);
    ("status", VStr (status_of (checks l))); ("artifact_sha256", opt_val VStr (artifact_sha l));
    ("checks", VList (map check_entry (checks l))); ("blockers", VStrs (blockers l))]).
(** [json.dumps(result, indent=2) + "\n"]: the keys are left in their order. *)
Definition indented : Json.style := Json.Style (Some 2%nat) "," ": " false.
Definition result_text (v : val) : string := Json.dumps indented v +:+ String (ascii_of_N 10) "".
Definition exit_of (status : string) : Z := if String.eqb status "passed" then 0 else if String.eqb status "blocked" then 2 else 1.
Definition publish (l : locals) : IO Z :=
  result ← result_of l;
  mkdir_p (Path.parent (a_output a)) ;;
  write_file (a_output a) (result_text result) ;;
  result_schema ← load RESULT_SCHEMA;
  match schema_errors result_schema result with
  | [] => mret (exit_of (status_of (checks l)))
  | errors => print_err (Str.join "; " (map snd errors)) ;; mret 65
  end.
Definition main : IO Z :=
  trust ← trust_dir;
  l ← with_locals (Locals [] [] (VDict []) None) (attempted trust ;; getl);
  publish l.
End Program.
End Env.
End ValidateRelease.
