(* ===== verification/ValidateReleaseFacts.v ===== *)
(** * The validator of a release: its theorems

    What a result that passed stands for, and that the preparation and the staging of a
    deployment accept it. *)

From Stdlib Require Import Ascii.
From S2P Require Import Prelude PyFloat PyMonad PyValue PyTime PyJson PyCodecs Sha256 PyOs OsFacts FsFacts JsonFacts DocumentFacts Fixture.
From S2P Require Import GenerateSpec BuildResult BuildResultFacts PrepareDeployment PrepareFacts StageRelease StageFacts ValidateRelease.

Module ValidatorFacts.
Import Evidence Json JsonFacts DocumentFacts BuildResultFacts ValidateRelease.
Import StageRelease (member, m_name, m_kind, m_mode, m_size, m_content, KFile, executable_mode).

(** ** Checks that passed *)

(** A check that did not pass stays. *)
Definition clean (l : locals) : Prop := Forall (λ c, c.2 = "passed") (checks l).
Definition cleaner (s s' : locals * world) : Prop := clean s'.1 -> clean s.1.
#[export] Instance cleaner_preorder : PreOrder cleaner.
Proof. split; [intros s C; exact C|]. intros s s1 s2 H1 H2 C. by apply H1, H2. Qed.
Definition passes (ns : list string) (l : locals) : locals :=
  Locals (checks l ++ map (λ n, (n, "passed")) ns) (blockers l) (l_manifest l) (artifact_sha l).
Lemma passes_app ns ms l : passes ms (passes ns l) = passes (ns ++ ms) l.
Proof. unfold passes. simpl. by rewrite map_app, app_assoc. Qed.

Lemma cl_zoom {A} (m : IO A) : Pres cleaner (zoom_snd m).
Proof. intros s. unfold zoom_snd. destruct (m s.2). intros C. exact C. Qed.
Lemma cl_add n st d : Pres cleaner (add_check n st d).
Proof. intros s. unfold add_check, modl. intros [C _]%Forall_app. exact C. Qed.
Lemma cl_check n b d : Pres cleaner (check n b d).
Proof. apply cl_add. Qed.
Lemma cl_manifest v : Pres cleaner (modl (with_manifest v)).
Proof. intros s C. exact C. Qed.
Lemma cl_sha h : Pres cleaner (modl (with_sha h)).
Proof. intros s C. exact C. Qed.
#[export] Hint Resolve cl_zoom cl_add cl_check cl_manifest cl_sha : pres.
Lemma clean_run {A} (m : V A) s r s' : Pres cleaner m -> m s = (r, s') -> clean s'.1 -> clean s.1.
Proof. intros P E. exact (pres_run _ _ _ _ _ P E). Qed.

Lemma add_passed n st d s u s' : add_check n st d s = (Ok u, s') -> clean s'.1 -> st = "passed" /\ s' = (passes [n] s.1, s.2).
Proof.
  intros ->%modl_Ok [_ [C _]%Forall_cons]%Forall_app. simpl in C. subst st. split; [done|]. unfold added, passes. by destruct d.
Qed.
Lemma check_passed n b d s u s' : check n b d s = (Ok u, s') -> clean s'.1 -> b = true /\ s' = (passes [n] s.1, s.2).
Proof. intros E C. destruct (add_passed _ _ _ _ _ _ E C) as [Hb ->]. by destruct b. Qed.
Ltac opened E C := let x := fresh "x" in let s := fresh "s" in let E1 := fresh "E" in let C1 := fresh "C" in
  apply M_bind_Ok in E as (x & s & E1 & E);
  match type of E1 with _ = (_, ?s1) =>
    match type of E with ?m _ = (_, ?s2) =>
      assert (clean s1.1) as C1 by (refine (clean_run m s1 _ s2 _ E C); solve_pres) end end.

(** ** The archive *)

(** What the archive of a release for a target holds *)
Record archive_valid (l : list member) (triple : string) : Prop := {
  av_safe : Forall (λ m, safe_name m = true) l;
  av_bound : Z.of_nat (length l) <= 20000;
  av_layout : forall r, r ∈ REQUIRED -> exists n, n ∈ map archive_name l /\ (n = r \/ Str.endswith ("/" +:+ r) n = true);
  av_erts : has_erts (map archive_name l) = true;
  av_emulator : exists m expected header, List.find is_beam l = Some m /\ m_kind m = KFile /\ 1048576 <= m_size m /\
    executable_mode (m_mode m) = true /\ Dict.lookup triple TARGETS = Some expected /\ read_start 20 m = Ok header /\
    elf_matches header expected = true;
  av_runtime : has_dir "/lib/elixir-1.20.2/" (map archive_name l) = true /\
    has_dir "/lib/liqi_platform-1.0.0-dev/" (map archive_name l) = true
}.
Definition archive_names : list string := ["archive-path-safety"; "archive-member-bound"; "release-layout"; "erts-included";
  "erts-executable-shape"; "target-elf"; "elixir-runtime"; "application-version"].
Lemma beam_found l e : beam_of l e = Ok (true, true) -> exists m header, List.find is_beam l = Some m /\ m_kind m = KFile /\
  1048576 <= m_size m /\ executable_mode (m_mode m) = true /\ read_start 20 m = Ok header /\ elf_matches header e = true.
Proof.
  unfold beam_of. destruct (List.find is_beam l) as [m|]; [|done]. destruct (m_kind m) eqn:K; try done. intros E.
  apply bind_Ok in E as (h & R & E). injection E as [A B]%andb_true_iff F. exists m, h. split_and!; try done. lia.
Qed.
Lemma target_of_Ok v t : target_of v = Ok t -> exists s, v = VStr s /\ Dict.lookup s TARGETS = Some t.
Proof.
  destruct v; try done; unfold target_of; intros E.
  all: try (by apply bind_Ok in E as (? & ? & ?)).
  destruct (Dict.lookup s TARGETS) eqn:L; [|done]. injection E as ->. by exists s.
Qed.
Lemma layout_spec names : layout_ok names = true -> forall r, r ∈ REQUIRED -> exists n, n ∈ names /\ (n = r \/ Str.endswith ("/" +:+ r) n = true).
Proof.
  unfold layout_ok. rewrite forallb_forall. intros Hl r Hr%list_elem_of_In. specialize (Hl r Hr). apply existsb_exists in Hl as (n & Hn & Ho).
  exists n. split; [by apply list_elem_of_In|]. apply orb_true_iff in Ho as [->%String.eqb_eq|]; [by left|by right].
Qed.
Ltac checked E C := let P := fresh "P" in opened E C; match goal with
  | E1 : check _ _ _ ?s = (_, ?s1), C1 : clean ?s1.1 |- _ => destruct (check_passed _ _ _ _ _ _ E1 C1) as [P ->]; clear E1 C1
  | E1 : add_check _ _ _ ?s = (_, ?s1), C1 : clean ?s1.1 |- _ => destruct (add_passed _ _ _ _ _ _ E1 C1) as [P ->]; clear E1 C1 end.
Lemma members_passed l m s u s' : members_checks l m s = (Ok u, s') -> clean s'.1 -> s' = (passes archive_names s.1, s.2) /\
  exists triple, getitem m "target_triple" = Ok (VStr triple) /\ archive_valid l triple.
Proof.
  unfold members_checks. intros E C. cbv zeta in E. do 4 checked E C.
  apply M_bind_Ok in E as (v & s4 & [T ->]%lift_Ok & E). apply M_bind_Ok in E as (t & s4 & [(triple & -> & Tt)%target_of_Ok ->]%lift_Ok & E).
  apply M_bind_Ok in E as ([b1 b2] & s4 & [B ->]%lift_Ok & E). cbn [fst snd] in E. do 3 checked E C.
  destruct (check_passed _ _ _ _ _ _ E C) as [P6 ->]. subst b1 b2. cbn [fst snd]. rewrite !passes_app. split; [done|].
  exists triple. split; [done|]. apply beam_found in B as (b & h & B1 & B2 & B3 & B4 & B5 & B6).
  split; [by apply Forall_forall; intros o Ho%list_elem_of_In; apply (proj1 (forallb_forall _ _) P)|lia|by apply layout_spec|done|by exists b, t, h|done].
Qed.
Lemma cl_members l m : Pres cleaner (members_checks l m).
Proof. unfold members_checks. solve_pres. Qed.
#[export] Hint Resolve cl_members : pres.

(** A check has one of three statuses. *)
Definition status_known (t : string) : Prop := t = "passed" \/ t = "failed" \/ t = "blocked".
Definition known (l : locals) : Prop := Forall (λ c, status_known c.2) (checks l).
Definition knows (s s' : locals * world) : Prop := known s.1 -> known s'.1.
#[export] Instance knows_preorder : PreOrder knows.
Proof. split; [intros s K; exact K|]. intros s s1 s2 H1 H2 K. by apply H2, H1. Qed.
Lemma kn_zoom {A} (m : IO A) : Pres knows (zoom_snd m).
Proof. intros s. unfold zoom_snd. destruct (m s.2). intros K. exact K. Qed.
Lemma kn_add n st d : status_known st -> Pres knows (add_check n st d).
Proof. intros Hs s K. apply Forall_app. split; [exact K|]. by constructor. Qed.
Lemma kn_if n b d : Pres knows (add_check n (passed_if b) d).
Proof. apply kn_add. destruct b; [by left|by right; left]. Qed.
Lemma kn_passed n d : Pres knows (add_check n "passed" d).
Proof. apply kn_add. by left. Qed.
Lemma kn_failed n d : Pres knows (add_check n "failed" d).
Proof. apply kn_add. by right; left. Qed.
Lemma kn_blocked n d : Pres knows (add_check n "blocked" d).
Proof. apply kn_add. by right; right. Qed.
Lemma kn_check n b d : Pres knows (check n b d).
Proof. apply kn_if. Qed.
Lemma kn_manifest v : Pres knows (modl (with_manifest v)).
Proof. intros s K. exact K. Qed.
Lemma kn_sha h : Pres knows (modl (with_sha h)).
Proof. intros s K. exact K. Qed.
#[export] Hint Resolve kn_zoom kn_if kn_passed kn_failed kn_blocked kn_check kn_manifest kn_sha : pres.

Section Env.
Context `{Platform}.
Context (members : string -> res (list member)).
Lemma ro_validator_digest p : Pres eq (digest p).
Proof. unfold digest. solve_pres. Qed.
#[local] Hint Resolve ro_validator_digest : pres.
Definition artifact_names : list string := ["artifact-present"; "artifact-size"; "artifact-sha256"] ++ archive_names.
Lemma zoom_reads {A} (m : IO A) s (x : A) (s' : locals * world) : Pres eq m -> zoom_snd m s = (Ok x, s') -> s' = s /\ m s.2 = (Ok x, s.2).
Proof.
  intros P [E L]%zoom_Ok. pose proof (pres_eq_run _ _ _ _ P E) as W. rewrite W in E. split; [|done]. by destruct s, s'; simpl in *; subst.
Qed.
Lemma ro_validator_size p : Pres eq (st_size p).
Proof. intros w. unfold st_size. by repeat case_match. Qed.
#[local] Hint Resolve ro_validator_size : pres.
Ltac reads E := let x := fresh "x" in let s := fresh "s" in let E1 := fresh "E" in
  apply M_bind_Ok in E as (x & s & E1 & E); apply zoom_reads in E1 as [-> E1]; [|by solve_pres].
Lemma archive_passed artifact m s h s' : archive_checks members artifact m s = (Ok h, s') -> clean s'.1 ->
  s' = (passes artifact_names s.1, s.2) /\ exists data l triple, h = Some (Sha256.hexdigest data) /\
    StageFacts.sized_bytes s.2 artifact (item m ["artifact"; "size_bytes"]) (item m ["artifact"; "sha256"]) data /\
    members data = Ok l /\ getitem m "target_triple" = Ok (VStr triple) /\ archive_valid l triple.
Proof.
  unfold archive_checks. intros E C. reads E. apply is_file_Ok in E0 as [_ F]. destruct x; cbn [negb] in E.
  2: { apply M_bind_Ok in E as (x & s1 & E1 & [_ ->]%ret_Ok). by destruct (add_passed _ _ _ _ _ _ E1 C). }
  destruct (F eq_refl) as (data & mt & Hs). checked E C. reads E. destruct (st_size_file _ _ _ _ _ _ Hs E0) as [-> _].
  apply M_bind_Ok in E as (z & s1 & [Z ->]%lift_Ok & E). checked E C. reads E.
  apply PrepareFacts.digest_reads in E1 as (_ & data' & R & ->). pose proof R as (_ & mt' & Hs')%PrepareFacts.read_bytes_file.
  cbn [snd] in Hs, Hs'. rewrite Hs in Hs'. injection Hs' as <- _.
  apply M_bind_Ok in E as (sha & s1 & [S ->]%lift_Ok & E). checked E C.
  opened E C. apply ret_Ok in E as [<- ->].
  apply catch_Ok in E1 as [E1|(e & s2 & k & _ & He & E1)].
  2: { unfold on_exn in He. destruct (exn_in _ e); [|done]. injection He as <-. by destruct (check_passed _ _ _ _ _ _ E1 C0). }
  reads E1. cbn [snd] in E, R. rewrite R in E. injection E as <-. apply M_bind_Ok in E1 as (l & s3 & [M ->]%lift_Ok & E1).
  destruct (members_passed _ _ _ _ _ E1 C0) as (-> & triple & T & V). cbn [fst snd] in *. rewrite !passes_app. split; [done|].
  exists data, l, triple. split; [done|]. split; [|done]. split; [done|]. split; [by exists z|]. by apply py_eq_str_l in P1 as ->.
Qed.

(** ** The signatures *)

(** The verification of a signature with a key of the trusted directory *)
Definition signed (trust : option path) (payload signature : path) (key_id : val) (argv : list string) : Prop :=
  exists t openssl, trust = Some t /\ which "openssl" = Some openssl /\
    argv = verify_argv openssl payload signature (Path.div t (py_str key_id +:+ ".pem")).
Lemma ed25519_passed p sg k w d w' : verify_ed25519 p sg k w = (Ok (true, d), w') ->
  exists openssl, which "openssl" = Some openssl /\ did [verify_argv openssl p sg k] w w'.
Proof.
  unfold verify_ed25519. destruct (which "openssl") as [o|]; [|done]. destruct (String.eqb o ""); [done|]. intros E.
  apply M_bind_Ok in E as (q & w1 & E1 & E). injection E1 as <- <-. apply M_bind_Ok in E as (r & w1 & E1 & E).
  apply ret_Ok in E as [E ->]. destruct r as [code so e| |]; try done. destruct (Z.eqb_spec code 0) as [->|]; [|done]. exists o. split; [done|].
  assert (run_completed (BuildResult.process_of (verify_argv o p sg k) 30 None w) w = (Ok (0, so, e), w1)) as R
    by (unfold run_completed; by rewrite (M_bind_run _ _ _ _ _ E1)).
  apply run_completed_ran in R as (L & S & _). by exists [BuildResult.process_of (verify_argv o p sg k) 30 None w].
Qed.
Lemma cl_verified_with n p sg k t : Pres cleaner (verified_with n p sg k t).
Proof. unfold verified_with. solve_pres. Qed.
#[local] Hint Resolve cl_verified_with : pres.
Lemma ro_validator_key t k : Pres eq (trusted_key t k).
Proof. unfold trusted_key. solve_pres. Qed.
Lemma signature_passed n p sg k trust s u s' : verify_signature n p sg k trust s = (Ok u, s') -> clean s'.1 ->
  s'.1 = passes [n +:+ "-file-present"; n +:+ "-verified"] s.1 /\ is_file_node (stat s.2 sg) = true /\
  exists argv, signed trust p sg k argv /\ did [argv] s.2 s'.2.
Proof.
  unfold verify_signature. intros E C. reads E. injection E0 as <-. destruct (is_file_node (stat s.2 sg)) eqn:F; cbn [negb] in E.
  2: by destruct (add_passed _ _ _ _ _ _ E C). checked E C. destruct trust as [t|]; [|by destruct (add_passed _ _ _ _ _ _ E C)].
  unfold verified_with in E. opened E C. apply catch_Ok in E0 as [E0|(e & s2 & c & _ & He & E0)].
  2: { unfold on_exn in He. destruct (exn_in _ e); [|done]. injection He as <-. apply M_bind_Ok in E0 as (o & s3 & E1 & [<- ->]%ret_Ok).
       by destruct (add_passed _ _ _ _ _ _ E1 C0). }
  apply M_bind_Ok in E0 as (key & s3 & E1 & [<- ->]%ret_Ok). apply zoom_reads in E1 as [-> E1]; [|apply ro_validator_key].
  assert (key = Path.div t (py_str k +:+ ".pem")) as ->.
  { unfold trusted_key in E1. apply M_bind_Ok in E1 as (f & w1 & _ & E1). destruct f; [|done]. by apply ret_Ok in E1 as [<- _]. }
  apply M_bind_Ok in E as ([b d] & s4 & [E2 L2]%zoom_Ok & E). destruct (add_passed _ _ _ _ _ _ E C) as [Hb ->].
  destruct b; [|done]. apply ed25519_passed in E2 as (o & O & D). cbn [fst snd] in *. rewrite L2. split; [by rewrite passes_app|].
  split; [done|]. eexists. split; [by exists t, o|done].
Qed.
Lemma cl_verify_signature n p sg k t : Pres cleaner (verify_signature n p sg k t).
Proof. unfold verify_signature. solve_pres. Qed.
Lemma cl_beside a v k : Pres cleaner (beside a v k).
Proof. unfold beside. solve_pres. Qed.
#[local] Hint Resolve cl_verify_signature cl_beside : pres.
Lemma vr_get_eq_str v k t : get_eq v k (VStr t) = Ok true -> dget v k = Ok (VStr t).
Proof. unfold get_eq. intros E. apply bind_Ok in E as (y & Y & E). injection E as ->%py_eq_str_r. done. Qed.
Definition names_file (a : args) (v : val) (k : string) (p : path) : Prop :=
  exists x, dget_or v k (VStr "") = Ok (VStr x) /\ p = Path.div (Path.parent (a_manifest a)) x.
Lemma beside_Ok a v k s p s' : beside a v k s = (Ok p, s') -> s' = s /\ names_file a v k p.
Proof.
  unfold beside. intros E. apply M_bind_Ok in E as (x & s1 & [X ->]%lift_Ok & E). apply lift_Ok in E as [E ->]. split; [done|].
  destruct x as [| | | |t| |]; try done. injection E as <-. by exists t.
Qed.
Definition signature_names : list string := ["artifact-signature-sha256"; "artifact-signature-file-present"; "artifact-signature-verified";
  "manifest-signature-file-present"; "manifest-signature-verified"].
Definition signatures_verified (a : args) (trust : option path) (artifact : path) (manifest : val) (w w' : world) : Prop :=
  exists x spec signature data key_id mspec msignature mkey_id v1 v2 w1,
    dget_or manifest "artifact" (VDict []) = Ok x /\ dget_or x "signature" (VDict []) = Ok spec /\
    names_file a spec "signature_filename" signature /\ read_bytes signature w = (Ok data, w) /\
    dget spec "signature_sha256" = Ok (VStr (Sha256.hexdigest data)) /\ signed trust artifact signature key_id v1 /\ did [v1] w w1 /\
    dget_or manifest "manifest_signature" (VDict []) = Ok mspec /\ names_file a mspec "signature_filename" msignature /\
    signed trust (a_manifest a) msignature mkey_id v2 /\ did [v2] w1 w'.
Lemma signatures_passed a m ar trust s u s' : signature_checks a m ar trust s = (Ok u, s') -> clean s'.1 ->
  s'.1 = passes signature_names s.1 /\ signatures_verified a trust ar m s.2 s'.2.
Proof.
  unfold signature_checks. intros E C. apply M_bind_Ok in E as (spec & s1 & [S ->]%lift_Ok & E). apply bind_Ok in S as (x & X & S).
  apply M_bind_Ok in E as (sg & s1 & [-> F]%beside_Ok & E). reads E. injection E0 as <-.
  apply M_bind_Ok in E as (u1 & s1 & Ew & E).
  apply M_bind_Ok in E as (k & s2 & [K ->]%lift_Ok & E). opened E C.
  apply M_bind_Ok in E as (ms & s3 & [MS ->]%lift_Ok & E). apply M_bind_Ok in E as (mg & s3 & [-> MF]%beside_Ok & E).
  apply M_bind_Ok in E as (mk & s3 & [MK ->]%lift_Ok & E). destruct (signature_passed _ _ _ _ _ _ _ _ E C) as (L3 & _ & v2 & V2 & D2).
  destruct (signature_passed _ _ _ _ _ _ _ _ E0 C0) as (L2 & Hf & v1 & V1 & D1).
  assert (clean s1.1) as Cl by (refine (clean_run _ _ _ _ _ E0 C0); apply cl_verify_signature).
  assert (s1.2 = s.2) as W.
  { destruct (is_file_node (stat s.2 sg)); [|by apply ret_Ok in Ew as [_ ->]]. cbn [mwhen] in Ew. reads Ew.
    apply M_bind_Ok in Ew as (ok & s5 & [_ ->]%lift_Ok & Ew). by destruct (check_passed _ _ _ _ _ _ Ew Cl) as [_ ->]. }
  rewrite W in Hf, D1. rewrite Hf in Ew. cbn [mwhen] in Ew. reads Ew. apply PrepareFacts.digest_reads in E1 as (_ & data & R & ->).
  apply M_bind_Ok in Ew as (ok & s5 & [Q ->]%lift_Ok & Ew). destruct (check_passed _ _ _ _ _ _ Ew Cl) as [-> ->]. apply vr_get_eq_str in Q.
  split; [rewrite L3, L2; cbn [fst]; by rewrite !passes_app|].
  exists x, spec, sg, data, k, ms, mg, mk, v1, v2, s0.2. by split_and!.
Qed.

(** ** The documents *)

(** The runtime, the commands, the migration and the transition a manifest declares *)
Definition document_valid (manifest : val) : Prop :=
  (exists runtime o e commands, dget_or manifest "runtime" (VDict []) = Ok runtime /\ dget_or runtime "otp_release" (VStr "") = Ok (VStr o) /\
     Str.startswith "28" o = true /\ dget runtime "elixir_version" = Ok (VStr e) /\ e = "1.20.2" /\
     dget_or runtime "commands" (VDict []) = Ok commands /\ get_eq commands "health" (VStrs ["bin/liqi-health"]) = Ok true /\
     get_eq commands "drain" (VStrs ["bin/liqi-drain"]) = Ok true) /\
  (exists database, dget_or manifest "database_compatibility" (VDict []) = Ok database /\
     forall k, k ∈ ["minimum_migration"; "maximum_migration"; "rollback_safe_through"] -> get_eq database k (VInt 8) = Ok true) /\
  exists r, dget manifest "rollback_target_release_id" = Ok r /\
    (r = VNone \/ exists t x, r = VStr t /\ Str.startswith "liqi-v1-" t = true /\ dget manifest "release_id" = Ok x /\ py_eq r x = false).
Definition document_names : list string := ["runtime-version"; "loopback-control-commands"; "database-compatibility"; "release-transition"].
Lemma documents_passed m s u s' : document_checks m s = (Ok u, s') -> clean s'.1 -> s' = (passes document_names s.1, s.2) /\ document_valid m.
Proof.
  unfold document_checks. intros E C. apply M_bind_Ok in E as (r & s1 & [R ->]%lift_Ok & E). apply M_bind_Ok in E as (b1 & s1 & [B1 ->]%lift_Ok & E).
  checked E C. subst b1. apply M_bind_Ok in E as (c & s1 & [Cm ->]%lift_Ok & E). apply M_bind_Ok in E as (b2 & s1 & [B2 ->]%lift_Ok & E).
  checked E C. subst b2. apply M_bind_Ok in E as (d & s1 & [D ->]%lift_Ok & E). apply M_bind_Ok in E as (b3 & s1 & [B3 ->]%lift_Ok & E).
  checked E C. subst b3. apply M_bind_Ok in E as (b4 & s1 & [B4 ->]%lift_Ok & E). destruct (check_passed _ _ _ _ _ _ E C) as [-> ->].
  cbn [fst snd]. rewrite !passes_app. split; [done|]. split; [|split].
  - unfold runtime_ok in B1. apply bind_Ok in B1 as (o & O & B1). apply bind_Ok in B1 as (b & Ob & B1). destruct o as [| | | |o| |]; try done.
    injection Ob as Ob. destruct b; [|done]. apply vr_get_eq_str in B1. apply rall_true in B2. rewrite !Forall_cons in B2. destruct B2 as (H1 & H2 & _).
    by exists r, o, "1.20.2", c.
  - exists d. split; [done|]. apply rall_true in B3. rewrite !Forall_cons in B3. destruct B3 as (H1 & H2 & H3 & _).
    intros k Hk. repeat (apply elem_of_cons in Hk as [->|Hk]; [done|]). by apply elem_of_nil in Hk.
  - unfold transition_ok in B4. apply bind_Ok in B4 as (t & T & B4). exists t. split; [done|]. destruct t as [| | | |t| |]; try done; [by left|]. right.
    destruct (Str.startswith _ t) eqn:St; [|done]. apply bind_Ok in B4 as (rid & Rid & B4). injection B4 as B4%negb_true_iff. by exists t, rid.
Qed.

(** ** The program *)

Lemma ro_validator_load p : Pres eq (load p).
Proof. unfold load. solve_pres. Qed.
#[local] Hint Resolve ro_validator_load : pres.
Lemma schema_passed m s u s' : schema_check m s = (Ok u, s') -> clean s'.1 -> s' = (passes ["manifest-schema"] s.1, s.2) /\ valid s.2 SCHEMA m.
Proof.
  unfold schema_check. intros E C. reads E. apply M_bind_Ok in E as (es & s1 & [F ->]%lift_Ok & E). cbv zeta in E.
  destruct (add_passed _ _ _ _ _ _ E C) as [Hp ->]. split; [done|]. exists x. split; [done|]. by destruct es.
Qed.
(** The checkout is at the commit of the manifest. *)
Definition checked_out (m : val) (head : string) (w w' : world) : Prop :=
  head_of (Some 10) w = (Ok head, w') /\ did [rev_parse] w w' /\ dget m "git_sha" = Ok (VStr head).
Lemma head_did t w x w' : head_of t w = (Ok x, w') -> did [rev_parse] w w'.
Proof.
  unfold head_of. intros E. apply M_bind_Ok in E as (p & w1 & E1 & E). injection E1 as <- <-.
  apply M_bind_Ok in E as ([[c o] e] & w1 & E1 & E). cbv beta iota in E. destruct (Z.eqb_spec c 0) as [->|]; [|done].
  apply ret_Ok in E as [_ ->]. apply run_completed_ran in E1 as (L & S & _). by exists [Proc rev_parse t (environ w) None].
Qed.
Lemma head_passed m s u s' : head_check m s = (Ok u, s') -> clean s'.1 ->
  s'.1 = passes ["exact-git-sha"] s.1 /\ exists head, checked_out m head s.2 s'.2.
Proof.
  unfold head_check. intros E C. apply M_bind_Ok in E as (h & s1 & [E1 L1]%zoom_Ok & E). apply M_bind_Ok in E as (b & s2 & [B ->]%lift_Ok & E).
  destruct (check_passed _ _ _ _ _ _ E C) as [-> ->]. cbn [fst snd]. rewrite L1. split; [done|]. exists h. split; [done|].
  split; [by eapply head_did|]. by apply vr_get_eq_str in B.
Qed.
Lemma cl_schema m : Pres cleaner (schema_check m).
Proof. unfold schema_check. solve_pres. Qed.
Lemma cl_head m : Pres cleaner (head_check m).
Proof. unfold head_check. solve_pres. Qed.
Lemma cl_archive p m : Pres cleaner (archive_checks members p m).
Proof. unfold archive_checks. solve_pres. Qed.
Lemma cl_signatures a m p t : Pres cleaner (signature_checks a m p t).
Proof. unfold signature_checks. solve_pres. Qed.
Lemma cl_documents m : Pres cleaner (document_checks m).
Proof. unfold document_checks. solve_pres. Qed.
#[local] Hint Resolve cl_schema cl_head cl_archive cl_signatures cl_documents : pres.

(** Every check, in its order *)
Definition all_names : list string :=
  ["manifest-schema"; "exact-git-sha"] ++ artifact_names ++ signature_names ++ document_names.
(** What the verification of a release establishes *)
Definition release_verified (a : args) (trust : option path) (manifest : val) (head : string) (data : string) (l : list member) (w w' : world) : Prop :=
  exists artifact spec triple w1,
    load (a_manifest a) w = (Ok manifest, w) /\ valid w SCHEMA manifest /\ checked_out manifest head w w1 /\
    dget_or manifest "artifact" (VDict []) = Ok spec /\ names_file a spec "filename" artifact /\
    StageFacts.sized_bytes w1 artifact (item manifest ["artifact"; "size_bytes"]) (item manifest ["artifact"; "sha256"]) data /\
    members data = Ok l /\ getitem manifest "target_triple" = Ok (VStr triple) /\ archive_valid l triple /\
    signatures_verified a trust artifact manifest w1 w' /\ document_valid manifest.
Lemma verification_passed a trust l0 w l w' u : verification members a trust (l0, w) = (Ok u, (l, w')) -> clean l ->
  exists manifest head data ms, release_verified a trust manifest head data ms w w' /\
    l = Locals (checks l0 ++ map (λ n, (n, "passed")) all_names) (blockers l0) manifest (Some (Sha256.hexdigest data)).
Proof.
  unfold verification. intros E C. change (clean (l, w').1) in C. reads E. opened E C. apply modl_Ok in E1 as ->. clear C0.
  opened E C. destruct (schema_passed _ _ _ _ E1 C0) as [-> V]. clear E1 C0. opened E C. destruct (head_passed _ _ _ _ E1 C0) as (L1 & h & O).
  clear E1 C0. opened E C. apply M_bind_Ok in E1 as (sp & s9 & [Sp ->]%lift_Ok & [-> F]%beside_Ok).
  clear C0. opened E C. destruct (archive_passed _ _ _ _ _ E1 C0) as (-> & data & ms & triple & -> & Z & M & T & A). clear E1 C0.
  opened E C. apply modl_Ok in E1 as ->. clear C0. opened E C. destruct (signatures_passed _ _ _ _ _ _ _ E1 C0) as [L2 G]. clear E1 C0.
  destruct (documents_passed _ _ _ _ E C) as [Es D]. cbn [fst snd] in *.
  exists x, h, data, ms. split.
  - injection Es as _ ->. by eexists _, sp, triple, _.
  - injection Es as -> _. rewrite L2, L1. unfold passes, with_sha, with_manifest. cbn [checks blockers l_manifest artifact_sha].
    f_equal. unfold all_names. by rewrite !map_app, <-!app_assoc.
Qed.
Lemma attempted_passed a trust w l w' u : attempted members a trust (Locals [] [] (VDict []) None, w) = (Ok u, (l, w')) -> clean l ->
  exists manifest head data ms, release_verified a trust manifest head data ms w w' /\
    l = Locals (map (λ n, (n, "passed")) all_names) [] manifest (Some (Sha256.hexdigest data)).
Proof.
  unfold attempted. intros [E|(e & s1 & k & _ & He & E)]%catch_Ok C; [by apply (verification_passed _ _ _ _ _ _ _ E C)|].
  unfold on_any in He. destruct (is_exception e); [|done]. injection He as <-. by destruct (check_passed _ _ _ _ _ _ E C).
Qed.

Lemma vr_all_passed ns : status_of (map (λ n, (n, "passed")) ns) = "passed".
Proof.
  unfold status_of. assert (forall t, t <> "passed" -> existsb (λ c : string * string, String.eqb c.2 t) (map (λ n, (n, "passed")) ns) = false) as Hn.
  { intros t Ht. induction ns as [|n ns IH]; [done|]. cbn [map existsb snd]. rewrite IH, orb_false_r. apply String.eqb_neq. congruence. }
  by rewrite !Hn.
Qed.
Lemma passed_clean l : status_of (checks l) = "passed" -> known l -> clean l.
Proof.
  unfold status_of, clean, known. rewrite !Forall_forall. intros E A c Hc. destruct (A c Hc) as [|F]; [done|]. apply list_elem_of_In in Hc.
  assert (forall t, c.2 = t -> existsb (λ c : string * string, String.eqb c.2 t) (checks l) = true) as T
    by (intros t <-; apply existsb_exists; exists c; by rewrite String.eqb_refl).
  destruct F as [F|F]; rewrite (T _ F) in E; [done|]. by destruct (existsb _ _).
Qed.
Lemma attempted_known a trust : Pres knows (attempted members a trust).
Proof.
  unfold attempted, verification, document_checks, signature_checks, beside, verify_signature, verified_with, archive_checks, members_checks,
    head_check, schema_check. solve_pres.
Qed.
Lemma exit_zero t : exit_of t = 0 -> t = "passed".
Proof. unfold exit_of. destruct (String.eqb_spec t "passed"); [done|]. by destruct (String.eqb t "blocked"). Qed.

(** The result of a verification that passed *)
Definition result_passed (manifest : val) (data : string) (result : val) : Prop :=
  getitem result "status" = Ok (VStr "passed") /\ getitem result "blockers" = Ok (VList []) /\
  getitem result "artifact_sha256" = Ok (VStr (Sha256.hexdigest data)) /\
  getitem result "checks" = Ok (VList (map (λ n, VDict [("name", VStr n); ("status", VStr "passed")]) all_names)) /\
  dget_or manifest "release_id" (VStr "unknown") = getitem result "release_id" /\
  forall g, dget manifest "git_sha" = Ok g -> truthy g = true -> getitem result "git_sha" = Ok g.
Lemma published a l w w' manifest data : publish a l w = (Ok 0, w') -> checks l = map (λ n, (n, "passed")) all_names -> blockers l = [] ->
  l_manifest l = manifest -> artifact_sha l = Some (Sha256.hexdigest data) ->
  exists result schema, result_passed manifest data result /\ read_bytes (a_output a) w' = (Ok (result_text result), w') /\
    load RESULT_SCHEMA w' = (Ok schema, w') /\ schema_errors schema result = [] /\
    forall g, dget manifest "git_sha" = Ok g -> truthy g = true -> same_log w w'.
Proof.
  unfold publish. intros E Hc Hb <- Hh. apply M_bind_Ok in E as (r & w1 & E1 & E). apply M_bind_Ok in E as (? & w2 & E2 & E).
  apply M_bind_Ok in E as (? & w3 & E3 & E). pose proof (write_file_read _ _ _ _ _ E3) as R. apply M_bind_Ok in E as (sc & w4 & E4 & E).
  pose proof (pres_eq_run _ _ _ _ (ro_validator_load _) E4) as ->. destruct (schema_errors sc r) eqn:Es; [|by apply M_bind_Ok in E as (? & ? & _ & [? _]%ret_Ok)].
  apply ret_Ok in E as [_ ->]. exists r, sc. split; [|split; [done|split; [done|split; [done|]]]].
  - unfold result_of in E1. apply M_bind_Ok in E1 as (g & w4 & [G ->]%lift_Ok & E1). apply M_bind_Ok in E1 as (g' & w4 & Eg & E1).
    apply M_bind_Ok in E1 as (rid & w5 & [Rid ->]%lift_Ok & E1). apply M_bind_Ok in E1 as (n & w5 & _ & E1). apply ret_Ok in E1 as [<- _].
    rewrite Hc, Hb, Hh, vr_all_passed. unfold result_passed. cbn [getitem Dict.lookup String.eqb Ascii.eqb Bool.eqb opt_val].
    do 3 (split; [done|]). split; [by rewrite map_map|]. split; [done|].
    intros g0 G0 T. rewrite G in G0. injection G0 as ->. rewrite T in Eg. by apply ret_Ok in Eg as [-> _].
  - intros g G T. unfold result_of in E1. apply M_bind_Ok in E1 as (g0 & w4 & [G0 ->]%lift_Ok & E1). rewrite G in G0. injection G0 as <-.
    rewrite T in E1. assert (same_log w w1) as L1 by (revert E1; apply pres_run; solve_pres).
    pose proof (pres_run _ _ _ _ _ (sl_mkdir_p _) E2). pose proof (pres_run _ _ _ _ _ (sl_write_file _ _) E3). unfold same_log in *. congruence.
Qed.

Lemma vr_main_zero a w w' : main members a w = (Ok 0, w') ->
  exists trust manifest head data l w1 result schema,
    trust_dir a w = (Ok trust, w) /\ release_verified a trust manifest head data l w w1 /\ result_passed manifest data result /\
    read_bytes (a_output a) w' = (Ok (result_text result), w') /\ load RESULT_SCHEMA w' = (Ok schema, w') /\ schema_errors schema result = [] /\
    (head <> "" -> same_log w1 w').
Proof.
  unfold main. intros E. apply M_bind_Ok in E as (trust & w1 & E1 & E). assert (Pres eq (trust_dir a)) as PT by (unfold trust_dir, getenv; solve_pres).
  pose proof (pres_eq_run _ _ _ _ PT E1) as ->. apply M_bind_Ok in E as (l & w2 & (l' & E2)%with_locals_Ok & E).
  apply M_bind_Ok in E2 as (? & [l2 w3] & E2 & [-> E3]%getl_Ok). injection E3 as -> ->. cbn [fst] in E.
  assert (status_of (checks l2) = "passed") as Hs.
  { unfold publish in E. do 4 (apply M_bind_Ok in E as (? & ? & _ & E)). destruct (schema_errors _ _); [|by apply M_bind_Ok in E as (? & ? & _ & [? _]%ret_Ok)].
    apply ret_Ok in E as [E _]. by apply exit_zero. }
  assert (known l2) as K by (apply (pres_run _ _ _ _ _ (attempted_known a trust) E2); constructor).
  destruct (attempted_passed _ _ _ _ _ _ E2 (passed_clean _ Hs K)) as (m & h & data & ms & V & ->).
  destruct (published _ _ _ _ m data E) as (r & sc & R & Rd & Ls & Se & Lg); try done.
  exists trust, m, h, data, ms, w3, r, sc. do 6 (split; [done|]). intros Hh. destruct V as (? & ? & ? & ? & _ & _ & (_ & _ & G) & _).
  apply (Lg _ G). simpl. by destruct (String.eqb_spec h "").
Qed.
(** C30: A release is verified (exit status 0) only when the manifest is valid against its contract and of the commit that is checked
    out; the archive has the size and the digest of the manifest, and only safe names, and holds the commands of the release,
    ERTS with an emulator for the target, and the runtime and application of their versions; the archive and the manifest are
    verified by openssl, with keys of the trust directory, against signatures the manifest names, the archive's by its
    digest; and the runtime, the commands, the migration and the transition are the ones of this generation. Then each of the
    checks was made, in their order, and passed, and the output holds the result that says so, valid against its contract. *)
Theorem release_verified_zero a w w' : main members a w = (Ok 0, w') ->
  exists trust manifest head data l w1 result schema,
    trust_dir a w = (Ok trust, w) /\ release_verified a trust manifest head data l w w1 /\ result_passed manifest data result /\
    read_bytes (a_output a) w' = (Ok (result_text result), w') /\ load RESULT_SCHEMA w' = (Ok schema, w') /\ schema_errors schema result = [] /\
    (head <> "" -> same_log w1 w').
Proof. apply vr_main_zero. Qed.

(** ** The result and its readers *)

Lemma read_back_unsorted st v : sort_keys st = false -> read_back st v = v.
Proof.
  intros Hs. induction v as [|b|z|f|t|l IH|d IH] using val_ind'; try done.
  - simpl. f_equal. induction IH as [|v l Hv _ IHl]; [done|]. simpl. by rewrite Hv, IHl.
  - cbn [read_back]. unfold arranged. rewrite Hs. f_equal. induction IH as [|[k v] d Hv _ IHd]; [done|]. simpl in Hv |- *. by rewrite Hv, IHd.
Qed.
Lemma vr_getitem_dget v k x dflt : getitem v k = Ok x -> dget_or v k dflt = Ok x.
Proof. destruct v as [| | | | | |d]; try done. unfold getitem, dget_or. destruct (Dict.lookup k d); [|done]. by intros [= ->]. Qed.
Lemma py_eq_self v : printable v -> py_eq v v = true.
Proof. intros Hv. rewrite <-(read_back_unsorted indented v eq_refl) at 2. by apply py_eq_read_back. Qed.
Lemma load_result p v w : printable v -> read_bytes p w = (Ok (result_text v), w) -> load_json p w = (Ok v, w).
Proof.
  intros Hv Hr. assert (plain (result_text v) = true) as Hp.
  { unfold result_text. rewrite plain_app. unfold dumps. by rewrite (plain_dump indented v eq_refl eq_refl Hv 0). }
  unfold load_json, read_text. unfold mbind at 1, M_bind at 1. unfold mbind at 1, M_bind at 1. rewrite Hr, (utf8_plain _ Hp), (newlines_plain _ Hp).
  unfold mret, M_ret, lift, json_loads. unfold result_text at 1.
  rewrite (loads_dumps indented v (String (ascii_of_N 10) "")); [by rewrite read_back_unsorted|by exists "", " "|done|done|done].
Qed.

(** C31: The result of a verification that passed, read from any file that holds it, is the document that was written, and
    is what the staging of a deployment requires of it for the release, the commit and the archive of the manifest. *)
Theorem verified_result_accepted a w w' : main members a w = (Ok 0, w') -> exists manifest result,
  load (a_manifest a) w = (Ok manifest, w) /\ read_bytes (a_output a) w' = (Ok (result_text result), w') /\
  forall release_id git_sha, getitem manifest "release_id" = Ok release_id -> getitem manifest "git_sha" = Ok git_sha -> truthy git_sha = true ->
    printable result -> forall p x, read_bytes p x = (Ok (result_text result), x) ->
    load_json p x = (Ok result, x) /\ StageRelease.verify_runtime_result result manifest release_id git_sha = Ok tt.
Proof.
  intros (trust & m & h & data & l & w1 & r & sc & _ & V & R & Rd & _)%vr_main_zero.
  destruct V as (ar & sp & tr & w2 & L & _ & _ & _ & _ & (_ & _ & Sha) & _). destruct R as (R1 & R2 & R3 & _ & R5 & R6).
  exists m, r. do 2 (split; [done|]). intros rid g Hr Hg T Hp p x Hx. split; [by apply load_result|].
  assert (dget m "git_sha" = Ok g) as Dg by (by apply vr_getitem_dget).
  specialize (R6 g Dg T).
  assert (getitem r "release_id" = Ok rid) as R7.
  { rewrite <-R5. by apply vr_getitem_dget. }
  assert (forall k v, getitem r k = Ok v -> py_eq v v = true) as Hself.
  { intros k v Hv. apply py_eq_self. inversion Hp as [| | | | |d Hn Hd]; subst; try done. simpl in Hv. destruct (Dict.lookup k d) eqn:Ek; [|done].
    injection Hv as ->. apply Dict.lookup_In in Ek. rewrite Forall_forall in Hd. by apply (Hd (k, v)). }
  assert (forall k v, getitem r k = Ok v -> StageRelease.differs r [k] v = Ok false) as Hd.
  { intros k v Hv. unfold StageRelease.differs, PrepareDeployment.differs, py_ne. cbn [item]. rewrite Hv. cbn. by rewrite (Hself k v Hv). }
  unfold StageRelease.verify_runtime_result. rewrite (Hd _ _ R1), (Hd _ _ R6), (Hd _ _ R7), R2, R3, Sha. unfold rany, id. cbn [mbind res_bind mret res_ret truthy]. unfold py_ne. rewrite (Hself _ _ R3). done.
Qed.
End Env.
End ValidatorFacts.

(** ** The validation of a release, and of what is none *)

Module ValidatorRun.
Import Evidence Fixture BuildResultFacts ValidateRelease ValidatorFacts.
Import StageRelease (member, Member, KFile, KDir).

Definition commit : string := "0123456789abcdef0123456789abcdef01234567".
(** The checkout is at the commit; openssl verifies what it is given. *)
Definition tools (_ : list proc) (p : proc) (f : filesystem) : proc_out * filesystem * Z :=
  (Exited 0 (match argv p with "git" :: _ => commit | _ => "" end) "", f, 1000).
Definition with_openssl (h : Platform) : Platform := {|
  exec := @exec h; schema_errors := @schema_errors h; PyOs.schema_check := @PyOs.schema_check h; repo_root := @repo_root h;
  json_error := @json_error h; elapse := @elapse h; utc_at := @utc_at h; local_offset := @local_offset h; random_hex := @random_hex h;
  pid := @pid h; euid := @euid h; os_name := @os_name h; which := λ n, if String.eqb n "openssl" then Some "/usr/bin/openssl" else None;
  executable := @executable h; home_dir := @home_dir h; can_read := @can_read h; account := @account h; group := @group h |}.
Definition host : Platform := with_openssl (host_with tools).
Definition manifest : val := VDict [("release_id", VStr "liqi-v1-2026.07"); ("git_sha", VStr commit); ("target_triple", VStr "aarch64-unknown-linux-gnu");
  ("artifact", VDict [("filename", VStr "liqi.tar.gz"); ("sha256", VStr (Sha256.hexdigest "tar")); ("size_bytes", VInt 3);
     ("signature", rec [("signature_filename", "a.sig"); ("signature_sha256", Sha256.hexdigest "a"); ("key_id", "build-1")])]);
  ("manifest_signature", rec [("signature_filename", "m.sig"); ("key_id", "build-1")]); ("rollback_target_release_id", VNone);
  ("runtime", VDict [("otp_release", VStr "28.0"); ("elixir_version", VStr "1.20.2");
     ("commands", VDict [("health", VStrs ["bin/liqi-health"]); ("drain", VStrs ["bin/liqi-drain"])])]);
  ("database_compatibility", VDict [("minimum_migration", VInt 8); ("maximum_migration", VInt 8); ("rollback_safe_through", VInt 8)])].
Definition header : string := Str.of_list (map (λ n, ascii_of_N n) [127; 69; 76; 70; 2; 1; 1; 0; 0; 0; 0; 0; 0; 0; 0; 0; 3; 0; 183; 0; 1; 0]%N).
Definition file (n : string) : member := Member n KFile 493 4 ("text", None).
Definition program : list member := [Member "./bin" KDir 493 0 ("", None); file "./bin/liqi_platform"; file "./bin/liqi-health"; file "./bin/liqi-drain";
  file "./releases/start_erl.data"; Member "./erts-16.0/bin/beam.smp" KFile 493 4194304 (header, None);
  file "./lib/elixir-1.20.2/ebin/elixir.app"; file "./lib/liqi_platform-1.0.0-dev/ebin/liqi_platform.app"].
Definition world_of (m : string) : world := world_with [("/repo/contracts/deployment/mix-release-v1.schema.json", "{}");
  ("/repo/contracts/runtime/runtime-artifact-result-v1.schema.json", "{}"); ("/in/manifest.json", m); ("/in/liqi.tar.gz", "tar"); ("/in/a.sig", "a");
  ("/in/m.sig", "m"); ("/trust/build-1.pem", "key")].
Definition the_args (t : option string) : args := Args (Path.of_str "/in/manifest.json") (Path.of_str "/out/result.json") (option_map Path.of_str t).
Definition validate (l : res (list member)) (t : option string) (m : string) : res Z * world := main (H := host) (λ _, l) (the_args t) (world_of m).
Definition w0 : world := world_of (json manifest).
Definition w1 : world := (validate (Ok program) (Some "/trust") (json manifest)).2.

Lemma release_verified_zero_witness : exists trust manifest head data l w2 result schema,
    trust_dir (the_args (Some "/trust")) w0 = (Ok trust, w0) /\
    release_verified (H := host) (λ _, Ok program) (the_args (Some "/trust")) trust manifest head data l w0 w2 /\
    result_passed manifest data result /\ read_bytes (Path.of_str "/out/result.json") w1 = (Ok (result_text result), w1) /\
    load (H := host) (RESULT_SCHEMA (H := host)) w1 = (Ok schema, w1) /\ schema_errors (Platform := host) schema result = [] /\
    (head <> "" -> same_log w2 w1).
Proof.
  apply (release_verified_zero (H := host) (λ _, Ok program) (the_args (Some "/trust")) w0 w1).
  assert ((validate (Ok program) (Some "/trust") (json manifest)).1 = Ok 0) as E by (vm_compute; reflexivity).
  unfold w1. unfold validate in *. fold w0 in E |- *. destruct (main (H := host) _ _ w0) as [r x]. cbn [fst snd] in E |- *. by rewrite E.
Defined.
Lemma verified_result_accepted_witness : exists manifest result,
  load (H := host) (Path.of_str "/in/manifest.json") w0 = (Ok manifest, w0) /\
  read_bytes (Path.of_str "/out/result.json") w1 = (Ok (result_text result), w1) /\
  forall release_id git_sha, getitem manifest "release_id" = Ok release_id -> getitem manifest "git_sha" = Ok git_sha -> truthy git_sha = true ->
    JsonFacts.printable result -> forall p x, read_bytes p x = (Ok (result_text result), x) ->
    load_json (H := host) p x = (Ok result, x) /\ StageRelease.verify_runtime_result result manifest release_id git_sha = Ok tt.
Proof.
  apply (verified_result_accepted (H := host) (λ _, Ok program) (the_args (Some "/trust")) w0 w1).
  assert ((validate (Ok program) (Some "/trust") (json manifest)).1 = Ok 0) as E by (vm_compute; reflexivity).
  unfold w1. unfold validate in *. fold w0 in E |- *. destruct (main (H := host) _ _ w0) as [r x]. cbn [fst snd] in E |- *. by rewrite E.
Defined.

Definition said (x : res Z * world) (k : string) : res val :=
  match read_bytes (Path.of_str "/out/result.json") x.2 with
  | (Ok t, _) => match Json.loads t with Some v => getitem v k | None => raise ValueError "" end
  | (Raise e, _) => Raise e
  end.
(** Without a trust directory the result is blocked; without an archive that can be read it has failed. *)
Example untrusted : let x := validate (Ok program) None (json manifest) in x.1 = Ok 2 /\ said x "status" = Ok (VStr "blocked").
Proof. vm_compute. split; reflexivity. Qed.
Example unreadable : let x := validate (raise TarError "truncated header") (Some "/trust") (json manifest) in x.1 = Ok 1 /\
  said x "blockers" = Ok (VStrs ["invalid release archive: truncated header"]).
Proof. vm_compute. split; reflexivity. Qed.
(** A text that is no JSON leaves a result that says so; a document that is no object leaves none, for the fields of the
    result are read from it again after the failure. *)
Example no_json : let x := validate (Ok program) (Some "/trust") "{" in x.1 = Ok 1 /\
  said x "blockers" = Ok (VStrs ["JSONDecodeError: Expecting value: line 1 column 1 (char 0)"]).
Proof. vm_compute. split; reflexivity. Qed.
Example no_object : let x := validate (Ok program) (Some "/trust") "[]" in x.1 = raise AttributeError "'list' object has no attribute 'get'" /\
  stat x.2 (Path.of_str "/out/result.json") = None.
Proof. vm_compute. split; reflexivity. Qed.
(** Two files of one name, the emulator of another machine behind the right one: what is looked at is the first, what is
    extracted last is the second. *)
Definition other_header : string := Str.of_list (map (λ n, ascii_of_N n) [127; 69; 76; 70; 2; 1; 1; 0; 0; 0; 0; 0; 0; 0; 0; 0; 3; 0; 62; 0]%N).
Definition twice : list member := program ++ [Member "./erts-16.0/bin/beam.smp" KFile 493 4194304 (other_header, None)].
Example first_counts : (validate (Ok twice) (Some "/trust") (json manifest)).1 = Ok 0.
Proof. vm_compute. reflexivity. Qed.
End ValidatorRun.
