(* ===== verification/PyBytes.v ===== *)
(** * Bytes as text

    Base64 and Latin-1, for the programs that speak to services. *)

From Stdlib Require Import Ascii.
From S2P Require Import Prelude.

Module Bytes.

(** ** Base64 *)

Definition sextet_char (n : N) : ascii :=
  ascii_of_N (if n <? 26 then 65 + n else if n <? 52 then 71 + n else if n <? 62 then n - 4 else if n =? 62 then 43 else 47)%N.
Definition sextets (n : N) (k : nat) : string :=
  Str.of_list (map (λ i, sextet_char (N.land (N.shiftr n i) 63)) (firstn k [18; 12; 6; 0]%N)).
(** [base64.b64encode(s).decode("ascii")] *)
Fixpoint b64encode (s : string) : string :=
  match s with
  | String a (String b (String c r)) => sextets (N_of_ascii a * 65536 + N_of_ascii b * 256 + N_of_ascii c)%N 4 +:+ b64encode r
  | String a (String b EmptyString) => sextets (N_of_ascii a * 65536 + N_of_ascii b * 256)%N 3 +:+ "="
  | String a EmptyString => sextets (N_of_ascii a * 65536)%N 2 +:+ "=="
  | EmptyString => ""
  end.
Example b64_lengths : map b64encode ["f"; "fo"; "foo"; "foob"; "fooba"; "foobar"] =
  ["Zg=="; "Zm8="; "Zm9v"; "Zm9vYg=="; "Zm9vYmE="; "Zm9vYmFy"].
Proof. vm_compute. reflexivity. Qed.

(** ** Latin-1 *)

(** [s.decode("latin1")]: each byte is a code point. *)
Definition latin1_char (c : ascii) : string :=
  let n := N_of_ascii c in
  if (n <? 128)%N then String c "" else String (ascii_of_N (192 + n / 64)) (String (ascii_of_N (128 + n mod 64)) "").
Fixpoint latin1 (s : string) : string := match s with String c r => latin1_char c +:+ latin1 r | EmptyString => "" end.

(** ** Hexadecimal *)

Definition nibble (c : ascii) : N := let n := N_of_ascii c in if (n <? 58)%N then (n - 48)%N else (n - 87)%N.
(** The bytes of lower-case digits, by pairs *)
Fixpoint unhex (s : string) : string :=
  match s with String a (String b r) => String (ascii_of_N (16 * nibble a + nibble b)) (unhex r) | _ => "" end.
(** [str(uuid)], of its 32 digits *)
Definition uuid_text (hex : string) : string :=
  Str.join "-" (map (λ p, String.substring p.1 p.2 hex) [(0, 8); (8, 4); (12, 4); (16, 4); (20, 12)]%nat).
End Bytes.
