(* ===== verification/LiveEdge.v ===== *)
(** * infrastructure/deployment/configure_live_edge.py

    The public edge: the configuration of Caddy rendered from a template, validated,
    and with [--execute] put in the place of the old one, which is restored when the
    endpoint does not answer as it must. caddy and curl are started processes; what a
    server answers to an upgrade over TLS is a parameter. *)

From Stdlib Require Import Ascii.
From S2P Require Import Prelude PyFloat PyMonad PyValue PyTime PyJson PyBytes PyOs.
From S2P Require Import GenerateSpec PrepareDeployment.

Module LiveEdge.
Import Evidence.

(** ** Names *)

Definition alnum : ascii -> bool := PrepareDeployment.word [].
(** [(?:[a-z0-9-]{0,61}[a-z0-9])?] behind the first character *)
Definition label (s : string) : bool :=
  match s with
  | String c r => alnum c && (String.length r <=? 62)%nat && Str.all_chars (PrepareDeployment.word ["-"%char]) r &&
      match r with EmptyString => true | _ => match String.get (String.length r - 1) r with Some d => alnum d | None => false end end
  | EmptyString => false
  end.
Definition top_label (s : string) : bool :=
  Str.all_chars PrepareDeployment.lower s && (2 <=? String.length s)%nat && (String.length s <=? 63)%nat.
Definition HOST (s : string) : bool :=
  (String.length s <=? 253)%nat &&
  match rev (Str.split_char "." s) with
  | top :: rest => match rest with [] => false | _ => top_label top && forallb label rest end
  | [] => false
  end.
(** White space is that of ASCII. *)
Definition email_char (c : ascii) : bool := negb (Ascii.eqb c "@" || Str.is_space c).
(** A dot between two characters *)
Fixpoint inner_dot (s : string) : bool :=
  match s with String _ ((String d (String _ _)) as r) => Ascii.eqb d "." || inner_dot r | _ => false end.
Definition EMAIL (s : string) : bool :=
  match Str.partition "@" s with
  | Some (local, domain) => negb (String.eqb local "") && Str.all_chars email_char local && Str.all_chars email_char domain && inner_dot domain
  | None => false
  end.
Definition HEADER_LIMIT : Z := 32768.

(** [p.with_suffix(suffix)] *)
Fixpoint rfind (c : ascii) (i : nat) (s : string) : option nat :=
  match s with
  | String d r => match rfind c (S i) r with Some n => Some n | None => if Ascii.eqb d c then Some i else None end
  | EmptyString => None
  end.
Definition stem (n : string) : string :=
  match rfind "." 0 n with
  | Some i => if (0 <? i)%nat && (i <? String.length n - 1)%nat then String.substring 0 i n else n
  | None => n
  end.
Definition with_suffix (p : path) (suffix : string) : path := Path.with_name p (stem (Path.name p) +:+ suffix).

Record args := Args { hostname : string; acme_email : string; activation_evidence : path; runtime_config : path; credential_directory : path;
  template : path; caddyfile : path; approval_reference : option string; execute : bool; rendered_output : path; evidence_output : path }.

Section Env.
Context `{Platform}.
(** The first 4096 bytes a server sends to a request over TLS, or the class and the text of the exception of the connection *)
Context (exchange : string -> string -> nat -> string + exn_class * string).

Definition ROOT : path := repo_root.
Definition load (p : path) : IO val := load_json p.
Definition validate (schema_path : path) (document : val) (label : string) : IO unit :=
  schema ← load schema_path;
  failures ← lift (sorted_errors schema document);
  match failures with
  | f :: _ => throw RuntimeError (label +:+ " invalid at " +:+ repr (VList f.1) +:+ ": " +:+ f.2)
  | [] => mret tt
  end.
Definition or_else (a b : string) : string := if String.eqb a "" then b else a.
Definition run (argv : list string) (timeout : Z) : IO string :=
  p ← gets (λ w, Proc argv (Some timeout) (environ w) None);
  r ← run_completed p;
  let '(code, o, e) := r in
  if code =? 0 then mret (Str.strip o)
  else throw RuntimeError (or_else (Str.strip e) (or_else (Str.strip o) ("command failed: " +:+ repr_strs argv))).

Definition probe_token (runtime : val) (directory : path) : IO string :=
  reference ← lift (v ← item runtime ["security"; "probeTokenRef"]; expect_str v);
  match PrepareDeployment.CREDENTIAL reference with
  | None => throw RuntimeError "platform probe token must be a systemd credential"
  | Some n =>
      let p := Path.div directory n in
      f ← is_file p;
      broad ← (if f : bool then m ← st_mode p; mret (negb (Z.land m 63 =? 0)) else mret true);
      if broad : bool then throw RuntimeError "platform probe token is unavailable or permissions are too broad" else
      text ← read_text p;
      let value := Str.strip text in
      if (16 <=? Str.len value) && (Str.len value <=? 4096) then mret value
      else throw RuntimeError "platform probe token length is invalid"
  end.

Definition crlf : string := String (ascii_of_N 13) (String (ascii_of_N 10) "").
Definition upgrade_request (hostname websocket_path session device key token : string) : string :=
  "GET " +:+ websocket_path +:+ "/websocket?vsn=2.0.0&protocolVersion=1&sessionId=" +:+ session +:+ "&deviceId=" +:+ device +:+ " HTTP/1.1" +:+ crlf +:+
  "Host: " +:+ hostname +:+ crlf +:+ "Upgrade: websocket" +:+ crlf +:+ "Connection: Upgrade" +:+ crlf +:+
  "Sec-WebSocket-Version: 13" +:+ crlf +:+ "Sec-WebSocket-Key: " +:+ key +:+ crlf +:+ "x-liqi-probe-token: " +:+ token +:+ crlf +:+ crlf.
Definition answer (hostname request : string) : IO string :=
  λ w, (match exchange hostname request (ticks w) with inl r => Ok r | inr (c, m) => raise c m end, advance (elapse (ticks w)) w).
Definition switches (first : string) : bool := Str.startswith "HTTP/1.1 101" first || Str.startswith "HTTP/1.0 101" first.
Definition websocket_probe (hostname websocket_path token : string) : IO unit :=
  session ← fresh_hex; device ← fresh_hex; key ← fresh_hex;
  r ← answer hostname (upgrade_request hostname websocket_path (Bytes.uuid_text session) (Bytes.uuid_text device)
                         (Bytes.b64encode (Bytes.unhex key)) token);
  let response := Bytes.latin1 r in
  let first := if String.eqb response "" then "empty response" else List.hd "" (Str.splitlines response) in
  if switches first then mret tt else throw RuntimeError ("authenticated WebSocket upgrade did not return 101: " +:+ first).

(** ** The program *)

Section Program.
Context (a : args).

(** The tests of the activation, up to the first that fails *)
Definition health_gated (activation runtime : val) : res bool :=
  rall id [get_eq activation "schema_version" (VStr "liqi.deployment.activation/v1"); get_eq activation "status" (VStr "passed");
    get_eq activation "state" (VStr "health-gated"); (t ← dget activation "traffic_enabled"; Ok (is_false t));
    (r ← dget activation "release_id"; x ← getitem runtime "releaseId"; Ok (py_eq r x))].
Definition approval_missing : bool := match approval_reference a with None => true | Some r => Str.len (Str.strip r) <? 3 end.
Record endpoint := Endpoint { activation : val; runtime : val; backend : string; body_limit : Z; websocket_path : string; rendered : string }.
Definition inputs : IO (val * val) :=
  if negb (HOST (hostname a)) || negb (EMAIL (acme_email a)) then sysexit "valid public hostname and ACME email are required" else
  activation ← load (activation_evidence a);
  runtime ← load (runtime_config a);
  validate (Path.div ROOT "contracts/runtime/runtime-config-v1.schema.json") runtime "runtime config" ;;
  ok ← lift (health_gated activation runtime);
  if negb ok then sysexit "traffic enablement requires matching passed health-gated activation evidence" else
  if execute a && (negb (String.eqb os_name "posix") || negb (euid =? 0)) then sysexit "traffic mutation requires root on POSIX" else
  if execute a && approval_missing then sysexit "traffic mutation requires cutover approval reference" else
  mret (activation, runtime).
Definition replacements (backend : string) (body_limit : Z) : list (string * string) :=
  [("${hostname}", hostname a); ("${acme_email}", acme_email a); ("${backend_address}", backend);
   ("${request_body_limit_bytes}", Str.of_Z body_limit); ("${header_limit_bytes}", Str.of_Z HEADER_LIMIT)].
Definition substituted (t : string) (l : list (string * string)) : string := fold_left (λ t kv, Str.replace kv.1 kv.2 t) l t.
Definition render (activation runtime : val) : IO endpoint :=
  port ← lift (item runtime ["http"; "port"]);
  let backend := "127.0.0.1:" +:+ py_str port in
  body_limit ← lift (v ← item runtime ["requests"; "bodyBytes"]; py_int v);
  websocket_path ← lift (item runtime ["http"; "websocketPath"]);
  t ← read_text (template a);
  let rendered := substituted t (replacements backend body_limit) in
  if Str.contains "${" rendered then sysexit "unresolved Caddy template variable" else
  mkdir_p (Path.parent (rendered_output a)) ;;
  write_file (rendered_output a) rendered ;;
  mret (Endpoint activation runtime backend body_limit (py_str websocket_path) rendered).

Definition caddy : option string := match which "caddy" with Some c => if String.eqb c "" then None else Some c | None => None end.
Definition reload_argv (caddy : string) : list string := [caddy; "reload"; "--config"; Path.to_str (caddyfile a); "--force"].
Definition https_argv : list string :=
  ["curl"; "--fail"; "--silent"; "--show-error"; "--output"; "/dev/null"; "--write-out"; "%{http_code}"; "https://" +:+ hostname a +:+ "/health/live"].
Definition http_argv : list string :=
  ["curl"; "--silent"; "--show-error"; "--output"; "/dev/null"; "--write-out"; "%{http_code}"; "http://" +:+ hostname a +:+ "/health/live"].
Definition temporary : path := Path.with_name (caddyfile a) ("." +:+ Path.name (caddyfile a) +:+ ".new." +:+ Str.of_Z pid).
Definition backup : path := with_suffix (caddyfile a) ".pre-cutover".
(** The new configuration in its place, and what the endpoint must answer *)
Definition cut_over (caddy : string) (e : endpoint) (token : string) : IO unit :=
  copyfile (rendered_output a) temporary ;;
  chmod temporary 416 ;;
  replace temporary (caddyfile a) ;;
  _ ← run (reload_argv caddy) 30;
  https_code ← run https_argv 60;
  if negb (String.eqb https_code "200") then throw RuntimeError ("HTTPS liveness returned " +:+ https_code) else
  redirect ← run http_argv 30;
  if negb (inb String.eqb redirect ["301"; "302"; "307"; "308"]) then throw RuntimeError ("HTTP redirect returned " +:+ redirect) else
  websocket_probe (hostname a) (websocket_path e) token.
(** The [except] clause: the old configuration, then the exception goes on. *)
Definition restore (caddy : string) : IO unit :=
  copyfile backup (caddyfile a) ;; _ ← run (reload_argv caddy) 30; mret tt.
Definition switch (caddy : string) (e : endpoint) (token : string) : IO unit :=
  catch (cut_over caddy e token) (on_any (λ error, restore caddy ;; mraise error)).
Definition enable (e : endpoint) : IO unit :=
  match caddy with
  | None => sysexit "caddy binary is required"
  | Some c =>
      token ← probe_token (runtime e) (credential_directory a);
      copyfile (caddyfile a) backup ;;
      switch c e token
  end.
Definition evidence_of (e : endpoint) : IO val :=
  g ← lift (getitem (activation e) "git_sha"); r ← lift (getitem (activation e) "release_id");
  observed ← utc_now;
  mret (VDict [("schema_version", VStr "liqi.deployment.live-endpoint/v1"); ("environment", VStr "v1-live");
    ("classification", VStr "production-shaped-development"); ("git_sha", g); ("release_id", r); ("hostname", VStr (hostname a));
    ("public_ports", VList [VInt 80; VInt 443]);
    ("tls", VDict [("mode", VStr "public-acme"); ("issuer", VStr "Caddy ACME issuer");
       ("certificate_status", VStr (if execute a then "valid" else "pending"));
       ("renewal_command", VStrs ["caddy"; "reload"; "--config"; "/etc/caddy/Caddyfile"])]);
    ("backend", VDict [("address", VStr (backend e)); ("publicly_routable", VBool false)]);
    ("websocket", VDict [("path", VStr (websocket_path e +:+ "/websocket")); ("supported", VBool (execute a)); ("resume_evidence", VStr "pending")]);
    ("health", VDict [("public_path", VStr "/health/live"); ("public_detail_level", VStr "binary-no-dependency-detail");
       ("internal_path", VStr "/health/ready")]);
    ("security", VDict [("admin_api_public", VBool false); ("http_redirect", VBool true); ("request_body_limit_bytes", VInt (body_limit e));
       ("header_limit_bytes", VInt HEADER_LIMIT);
       ("security_headers", VStrs ["Strict-Transport-Security"; "X-Content-Type-Options"; "Referrer-Policy"; "Content-Security-Policy"])]);
    ("status", VStr (if execute a then "verified" else "engineering-complete-evidence-pending")); ("observed_at", VStr observed);
    ("evidence_class", VStr (if execute a then "live-approved" else "source-only"))]).
Definition summary : val :=
  VDict [("status", VStr (if execute a then "verified" else "engineering-complete-evidence-pending")); ("hostname", VStr (hostname a));
    ("traffic_mutation_performed", VBool (execute a))].
Definition main : IO Z :=
  x ← inputs;
  e ← render x.1 x.2;
  match caddy with Some c => _ ← run [c; "validate"; "--config"; Path.to_str (rendered_output a)] 30; mret tt | None => mret tt end ;;
  mwhen (execute a) (enable e) ;;
  evidence ← evidence_of e;
  validate (Path.div ROOT "contracts/deployment/live-endpoint-v1.schema.json") evidence "live endpoint evidence" ;;
  write_document (evidence_output a) evidence ;;
  print (Json.dumps Json.plain_sorted summary) ;;
  mret 0.
End Program.
End Env.
End LiveEdge.
