(* ===== verification/LiveEdgeFacts.v ===== *)
(** * The public edge: the theorems

    What an endpoint that is reported as verified answered, and what a failed switch
    leaves in the place of the configuration. *)

From Stdlib Require Import Ascii.
From S2P Require Import Prelude PyFloat PyMonad PyValue PyTime PyJson PyBytes PyOs OsFacts FsFacts Fixture.
From S2P Require Import GenerateSpec BuildResultFacts PrepareDeployment PrepareFacts LiveEdge.

Module LiveEdgeFacts.
Import Evidence BuildResultFacts LiveEdge.

Section Env.
Context `{Platform}.
Context (exchange : string -> string -> nat -> string + exn_class * string).

Lemma ro_edge_load p : Pres eq (load p).
Proof. unfold load. solve_pres. Qed.
#[local] Hint Resolve ro_edge_load : pres.
Lemma ro_edge_validate p v l : Pres eq (validate p v l).
Proof. unfold validate. solve_pres. Qed.
Lemma ro_edge_mode p : Pres eq (st_mode p).
Proof. intros w. unfold st_mode. by repeat case_match. Qed.
#[local] Hint Resolve ro_edge_validate ro_edge_mode : pres.
Lemma ro_token r d : Pres eq (probe_token r d).
Proof. unfold probe_token. solve_pres. Qed.
Lemma ro_edge_inputs a : Pres eq (inputs a).
Proof. unfold inputs. solve_pres. Qed.
Lemma sl_edge_copy p q : Pres same_log (copyfile p q).
Proof. unfold copyfile. solve_pres. Qed.
Lemma sl_answer h r : Pres same_log (answer exchange h r).
Proof. by intros w. Qed.
Lemma sl_hex : Pres same_log fresh_hex.
Proof. by intros w. Qed.
#[local] Hint Resolve ro_token ro_edge_inputs sl_edge_copy sl_answer sl_hex : pres.
Lemma sl_probe h p t : Pres same_log (websocket_probe exchange h p t).
Proof. unfold websocket_probe. solve_pres. Qed.
Lemma sl_render a x y : Pres same_log (render a x y).
Proof. unfold render. solve_pres. Qed.
#[local] Hint Resolve sl_probe sl_render : pres.
Ltac calm E := let L := fresh "L" in
  match type of E with ?m ?s0 = (_, ?s1) =>
    assert (same_log s0 s1) as L by (assert (Pres same_log m) as L by solve_pres; exact (pres_run _ _ _ _ _ L E)) end.

(** A command that was run with this time limit, succeeded and said this *)
Definition said (argv : list string) (t : Z) (o : string) (w w' : world) : Prop := run argv t w = (Ok o, w') /\ did [argv] w w'.
Lemma run_said argv t w o w' : run argv t w = (Ok o, w') -> said argv t o w w'.
Proof.
  intros E. split; [done|]. unfold run in E. apply M_bind_Ok in E as (p & w1 & E1 & E). injection E1 as <- <-.
  apply M_bind_Ok in E as ([[c so] e] & w1 & E1 & E). cbv beta iota in E. destruct (Z.eqb_spec c 0) as [->|]; [|done].
  apply ret_Ok in E as [_ ->]. apply run_completed_ran in E1 as (L & S & _). by exists [Proc argv (Some t) (environ w) None].
Qed.

(** ** The switch *)

Lemma mplain_edge_read p : MPlain (read_bytes p).
Proof. unfold read_bytes. os_plain. Qed.
Lemma mplain_edge_write p t : MPlain (write_file p t).
Proof. unfold write_file. os_plain. Qed.
Lemma mplain_edge_chmod p m : MPlain (chmod p m).
Proof. unfold chmod, update_meta. os_plain. Qed.
Lemma mplain_edge_completed p : MPlain (run_completed p).
Proof. unfold run_completed. solve_plain. Qed.
#[local] Hint Resolve mplain_edge_read mplain_edge_write mplain_edge_chmod mplain_edge_completed : plain.
Lemma mplain_copy p q : MPlain (copyfile p q).
Proof. unfold copyfile. solve_plain. Qed.
Lemma mplain_edge_run argv t : MPlain (run argv t).
Proof. unfold run. solve_plain. Qed.
Lemma mplain_probe h p t : MPlain (websocket_probe exchange h p t).
Proof.
  unfold websocket_probe. assert (forall r, MPlain (answer exchange h r)) as Ha.
  { intros r w x w'. unfold answer. destruct (exchange h r (ticks w)) as [|[]]; [done|]. by intros [= <- _]. }
  assert (MPlain fresh_hex) as Hh by done. solve_plain; apply Ha.
Qed.
#[local] Hint Resolve mplain_copy mplain_edge_run mplain_probe : plain.
Lemma mplain_cut_over a c e token : MPlain (cut_over exchange a c e token).
Proof. unfold cut_over. solve_plain. Qed.
Lemma copied_reads p q w u w' : copyfile p q w = (Ok u, w') -> exists data, read_bytes p w = (Ok data, w) /\ read_bytes q w' = (Ok data, w').
Proof.
  unfold copyfile. intros E. apply M_bind_Ok in E as (d & w1 & E1 & E). pose proof E1 as [-> _]%PrepareFacts.read_bytes_file.
  exists d. split; [done|]. by eapply write_file_read.
Qed.

(** C35: A switch that fails leaves the old configuration. In the world where the new one has been put in its place, or the
    endpoint has not answered as it must, what was kept is copied over the file of the configuration, which then holds the
    same bytes, and the run ends with a reload of that file that succeeded: the exception is the one of the failure.
    Otherwise this copy or this reload failed, and the exception is theirs. *)
Theorem edge_restored a c e token w x w' : switch exchange a c e token w = (Raise x, w') ->
  exists failure w1, cut_over exchange a c e token w = (Raise failure, w1) /\
    (copyfile (backup a) (caddyfile a) w1 = (Raise x, w') \/
     exists data w2, copyfile (backup a) (caddyfile a) w1 = (Ok tt, w2) /\
       read_bytes (backup a) w1 = (Ok data, w1) /\ read_bytes (caddyfile a) w2 = (Ok data, w2) /\
       (run (reload_argv a c) 30 w2 = (Raise x, w') \/ x = failure /\ exists o, said (reload_argv a c) 30 o w2 w')).
Proof.
  unfold switch, catch. destruct (cut_over exchange a c e token w) as [[u|f] w1] eqn:Ec; [done|]. intros E. exists f, w1. split; [done|].
  unfold on_any in E. rewrite (mplain_cut_over _ _ _ _ _ _ _ Ec) in E. unfold restore, mbind, M_bind in E.
  destruct (copyfile (backup a) (caddyfile a) w1) as [[[]|y] w2] eqn:E1; [right|left; by injection E as -> ->].
  destruct (copied_reads _ _ _ _ _ E1) as (d & R1 & R2). exists d, w2. do 3 (split; [done|]).
  destruct (run (reload_argv a c) 30 w2) as [[o|y] w3] eqn:E2; [right|left; by injection E as -> ->].
  injection E as -> ->. split; [done|]. exists o. by apply run_said.
Qed.

(** ** The endpoint *)

Definition redirects : list string := ["301"; "302"; "307"; "308"].
(** What was rendered in the place of the old configuration, which is kept *)
Definition placed (a : args) (w w' : world) : Prop :=
  exists w1 w2 w3, copyfile (caddyfile a) (backup a) w = (Ok tt, w1) /\ copyfile (rendered_output a) (temporary a) w1 = (Ok tt, w2) /\
    chmod (temporary a) 416 w2 = (Ok tt, w3) /\ replace (temporary a) (caddyfile a) w3 = (Ok tt, w').
(** A server that switches protocols for a request with the token *)
Definition upgraded (a : args) (path token : string) (w w' : world) : Prop :=
  exists session device key response w1 w2 w3, fresh_hex w = (Ok session, w1) /\ fresh_hex w1 = (Ok device, w2) /\ fresh_hex w2 = (Ok key, w3) /\
    answer exchange (hostname a) (upgrade_request (hostname a) path (Bytes.uuid_text session) (Bytes.uuid_text device)
      (Bytes.b64encode (Bytes.unhex key)) token) w3 = (Ok response, w') /\
    switches (List.hd "" (Str.splitlines (Bytes.latin1 response))) = true.
(** The endpoint answers over TLS, redirects what is not, and upgrades a connection that shows the token: each command is run
    in the world the one before it left. *)
Definition answers (a : args) (c path token : string) (w w' : world) : Prop :=
  exists o r w1 w2 w3, said (reload_argv a c) 30 o w w1 /\ said (https_argv a) 60 "200" w1 w2 /\ said (http_argv a) 30 r w2 w3 /\
    r ∈ redirects /\ upgraded a path token w3 w'.
Lemma edge_probe_Ok a p t w u w' : websocket_probe exchange (hostname a) p t w = (Ok u, w') -> upgraded a p t w w'.
Proof.
  unfold websocket_probe. intros E. apply M_bind_Ok in E as (session & w1 & E1 & E). apply M_bind_Ok in E as (device & w2 & E2 & E).
  apply M_bind_Ok in E as (key & w3 & E3 & E). apply M_bind_Ok in E as (r & w4 & E4 & E). cbv zeta in E.
  destruct (String.eqb_spec (Bytes.latin1 r) ""); [done|]. destruct (switches _) eqn:Sw; [|done]. apply ret_Ok in E as [_ ->].
  by exists session, device, key, r, w1, w2, w3.
Qed.
Lemma inb_string x l : inb String.eqb x l = true -> x ∈ l.
Proof. intros (y & Hy & ->%String.eqb_eq)%existsb_exists. by apply list_elem_of_In. Qed.
Lemma enable_Ok a e w u w' : enable exchange a e w = (Ok u, w') -> exists c token w1,
  caddy = Some c /\ probe_token (runtime e) (credential_directory a) w = (Ok token, w) /\ placed a w w1 /\
  answers a c (websocket_path e) token w1 w'.
Proof.
  unfold enable. destruct caddy as [c|]; [|done]. intros E. apply M_bind_Ok in E as (t & w0 & E0 & E).
  pose proof (pres_eq_run _ _ _ _ (ro_token _ _) E0) as ->. apply M_bind_Ok in E as ([] & w1 & E1 & E). unfold switch in E.
  apply catch_Ok in E as [E|(f & w2 & k & _ & Hf & E)].
  2: { unfold on_any in Hf. destruct (is_exception f); [|done]. injection Hf as <-. by apply M_bind_Ok in E as (? & ? & _ & E). }
  unfold cut_over in E. apply M_bind_Ok in E as ([] & w2 & E2 & E). apply M_bind_Ok in E as ([] & w3 & E3 & E).
  apply M_bind_Ok in E as ([] & w4 & E4 & E). exists c, t, w4. do 2 (split; [done|]). split; [by exists w1, w2, w3|].
  apply M_bind_Ok in E as (o & w5 & S1%run_said & E).
  apply M_bind_Ok in E as (code & w6 & S2%run_said & E). destruct (String.eqb_spec code "200") as [->|]; [cbn [negb] in E|done].
  apply M_bind_Ok in E as (r & w7 & S3%run_said & E). destruct (inb String.eqb r _) eqn:Hr; [cbn [negb] in E|done].
  exists o, r, w5, w6, w7. do 3 (split; [done|]). split; [by apply inb_string|]. by eapply edge_probe_Ok.
Qed.
(** The activation passed and waits for traffic, and is of the release of the configuration. *)
Definition gated (activation runtime : val) : Prop :=
  dget activation "status" = Ok (VStr "passed") /\ dget activation "state" = Ok (VStr "health-gated") /\
  dget activation "traffic_enabled" = Ok (VBool false) /\
  exists r x, dget activation "release_id" = Ok r /\ getitem runtime "releaseId" = Ok x /\ py_eq r x = true.
Lemma edge_eq_str v k t : get_eq v k (VStr t) = Ok true -> dget v k = Ok (VStr t).
Proof. unfold get_eq. intros E. apply bind_Ok in E as (y & Y & E). injection E as ->%py_eq_str_r. done. Qed.
Lemma gated_Ok x y : health_gated x y = Ok true -> gated x y.
Proof.
  unfold health_gated. rewrite rall_true, !Forall_cons. intros (_ & H1%edge_eq_str & H2%edge_eq_str & H3 & H4 & _). split; [done|]. split; [done|]. split.
  - apply bind_Ok in H3 as (t & T & H3). injection H3 as H3. by destruct t as [|[]| | | | |].
  - apply bind_Ok in H4 as (r & R & H4). apply bind_Ok in H4 as (z & Z & H4). injection H4 as H4. by exists r, z.
Qed.
Definition runtime_schema : path := Path.div ROOT "contracts/runtime/runtime-config-v1.schema.json".
Definition endpoint_schema : path := Path.div ROOT "contracts/deployment/live-endpoint-v1.schema.json".
Lemma edge_valid p v l w u w' : validate p v l w = (Ok u, w') -> w' = w /\ valid w p v.
Proof.
  intros E. pose proof (pres_eq_run _ _ _ _ (ro_edge_validate p v l) E) as ->. split; [done|]. unfold validate in E.
  apply M_bind_Ok in E as (sc & w1 & E1 & E). pose proof (pres_eq_run _ _ _ _ (ro_edge_load p) E1) as ->.
  apply M_bind_Ok in E as (fs & w2 & [E2 ->]%lift_Ok & E). exists sc. split; [done|]. by destruct fs.
Qed.
Definition permitted (a : args) : Prop := os_name = "posix" /\ euid = 0 /\ exists r, approval_reference a = Some r /\ 3 <= Str.len (Str.strip r).
Definition admitted (a : args) (w : world) (activation runtime : val) : Prop :=
  HOST (hostname a) = true /\ EMAIL (acme_email a) = true /\ load (activation_evidence a) w = (Ok activation, w) /\
  load (runtime_config a) w = (Ok runtime, w) /\ valid w runtime_schema runtime /\ gated activation runtime /\ (execute a = true -> permitted a).
Lemma inputs_Ok a w x y w' : inputs a w = (Ok (x, y), w') -> w' = w /\ admitted a w x y.
Proof.
  intros E. pose proof (pres_eq_run _ _ _ _ (ro_edge_inputs a) E) as ->. split; [done|]. unfold inputs in E.
  destruct (negb _ || _) eqn:Hn; [done|]. apply orb_false_iff in Hn as [N1%negb_false_iff N2%negb_false_iff].
  apply M_bind_Ok in E as (ac & w1 & L1 & E). pose proof (pres_eq_run _ _ _ _ (ro_edge_load _) L1) as ->.
  apply M_bind_Ok in E as (rt & w1 & L2 & E). pose proof (pres_eq_run _ _ _ _ (ro_edge_load _) L2) as ->.
  apply M_bind_Ok in E as (? & w1 & [-> V]%edge_valid & E). apply M_bind_Ok in E as (ok & w1 & [G ->]%lift_Ok & E). destruct ok; [cbn [negb] in E|done].
  destruct (execute a && (negb _ || _)) eqn:X1; [done|]. destruct (execute a && approval_missing a) eqn:X2; [done|].
  apply ret_Ok in E as [[= -> ->] _]. do 5 (split; [done|]). split; [by apply gated_Ok|]. intros X. rewrite X in X1, X2.
  apply orb_false_iff in X1 as [A1%negb_false_iff A2%negb_false_iff]. apply String.eqb_eq in A1. apply Z.eqb_eq in A2. do 2 (split; [done|]).
  unfold approval_missing in X2. destruct (approval_reference a) as [t|]; [|done]. exists t. split; [done|]. cbn [andb] in X2. lia.
Qed.
(** The template of the run with the five values, in which no variable is left, written where the run says *)
Definition rendering (a : args) (runtime : val) (backend : string) (limit : Z) (text : string) (w w' : world) : Prop :=
  exists port v t w1, item runtime ["http"; "port"] = Ok port /\ backend = "127.0.0.1:" +:+ py_str port /\
    item runtime ["requests"; "bodyBytes"] = Ok v /\ py_int v = Ok limit /\
    read_text (template a) w = (Ok t, w) /\ text = substituted t (replacements a backend limit) /\ Str.contains "${" text = false /\
    mkdir_p (Path.parent (rendered_output a)) w = (Ok tt, w1) /\ write_file (rendered_output a) text w1 = (Ok tt, w').
Lemma render_Ok a x y w e w' : render a x y w = (Ok e, w') -> exists backend limit path text,
  e = Endpoint x y backend limit (py_str path) text /\ item y ["http"; "websocketPath"] = Ok path /\ rendering a y backend limit text w w'.
Proof.
  unfold render. intros E. apply M_bind_Ok in E as (port & w1 & [E1 ->]%lift_Ok & E). cbv zeta in E.
  apply M_bind_Ok in E as (n & w1 & [E2 ->]%lift_Ok & E). apply bind_Ok in E2 as (v & V & E2).
  apply M_bind_Ok in E as (p & w1 & [E3 ->]%lift_Ok & E). apply M_bind_Ok in E as (t & w1 & E4 & E).
  assert (w1 = w) as -> by (eapply pres_eq_run; [|exact E4]; solve_pres). destruct (Str.contains _ _) eqn:Hc; [done|].
  apply M_bind_Ok in E as ([] & w2 & E5 & E). apply M_bind_Ok in E as ([] & w3 & E6 & E). apply ret_Ok in E as [<- ->].
  eexists _, n, p, _. split; [done|]. split; [done|]. exists port, v, t, w2. by split_and!.
Qed.
Definition validation_argv (a : args) (c : string) : list string := [c; "validate"; "--config"; Path.to_str (rendered_output a)].
Definition validated (a : args) (w w' : world) : Prop :=
  match caddy with Some c => exists o, said (validation_argv a c) 30 o w w' | None => w' = w end.
(** The evidence of an endpoint, as it is in the world where the clock is read *)
Definition evidenced (a : args) (activation evidence : val) (backend : string) (limit : Z) (path : val) (w w' : world) : Prop :=
  getitem evidence "status" = Ok (VStr (if execute a then "verified" else "engineering-complete-evidence-pending")) /\
  getitem evidence "evidence_class" = Ok (VStr (if execute a then "live-approved" else "source-only")) /\
  item evidence ["tls"; "certificate_status"] = Ok (VStr (if execute a then "valid" else "pending")) /\
  item evidence ["websocket"; "supported"] = Ok (VBool (execute a)) /\
  item evidence ["websocket"; "path"] = Ok (VStr (py_str path +:+ "/websocket")) /\
  getitem evidence "hostname" = Ok (VStr (hostname a)) /\ item evidence ["backend"; "address"] = Ok (VStr backend) /\
  item evidence ["security"; "request_body_limit_bytes"] = Ok (VInt limit) /\
  (forall k, k ∈ ["git_sha"; "release_id"] -> exists v, getitem activation k = Ok v /\ getitem evidence k = Ok v) /\
  exists t, utc_now w = (Ok t, w') /\ getitem evidence "observed_at" = Ok (VStr t).
Lemma edge_evidence_Ok a x y backend limit path text w ev w' :
  evidence_of a (Endpoint x y backend limit (py_str path) text) w = (Ok ev, w') -> evidenced a x ev backend limit path w w'.
Proof.
  unfold evidence_of. intros E. apply M_bind_Ok in E as (g & w1 & [G ->]%lift_Ok & E). apply M_bind_Ok in E as (r & w1 & [R ->]%lift_Ok & E).
  apply M_bind_Ok in E as (n & w1 & N & E). apply ret_Ok in E as [<- ->]. do 8 (split; [reflexivity|]). split; [|by exists n].
  intros k [->|[->|[]%elem_of_nil]%elem_of_cons]%elem_of_cons; [exists g|exists r]; done.
Qed.

(** C36: The program ends with status 0 only for a public name and an address, an activation that passed, waits for traffic and
    is of the release of a valid configuration. The template read in the world of these documents, with the five values in the
    place of its variables and no other one left, is written where the run says, and a caddy that is there has found it valid.
    Without execution nothing more is started. With it, which root alone may do with an approval, the token of the probe is
    read, the old configuration is kept, the rendered one is put in its place, and the endpoint has answered: a
    reload, a request over TLS that returned 200 and one without that was redirected, and then a server that
    switched protocols for a request with the token, each in the world the one before it left. The evidence says which of
    the two it was, of which activation and endpoint; it is valid, and it is what the run writes last. *)
Theorem edge_verified a w w' : main exchange a w = (Ok 0, w') ->
  exists activation runtime backend limit path text evidence w1 w2 w3 w4 w5 line,
    admitted a w activation runtime /\ rendering a runtime backend limit text w w1 /\ read_bytes (rendered_output a) w1 = (Ok text, w1) /\
    validated a w1 w2 /\ item runtime ["http"; "websocketPath"] = Ok path /\
    (if execute a then exists c token w0, caddy = Some c /\ probe_token runtime (credential_directory a) w2 = (Ok token, w2) /\
       placed a w2 w0 /\ answers a c (py_str path) token w0 w3
     else w3 = w2) /\
    evidenced a activation evidence backend limit path w3 w4 /\ valid w4 endpoint_schema evidence /\
    write_document (evidence_output a) evidence w4 = (Ok tt, w5) /\ print line w5 = (Ok tt, w') /\
    read_bytes (evidence_output a) w' = (Ok (json_text evidence), w').
Proof.
  unfold main. intros E. apply M_bind_Ok in E as ([x y] & w0 & [-> A]%inputs_Ok & E). cbn [fst snd] in E.
  apply M_bind_Ok in E as (e & w1 & (backend & limit & path & text & -> & Hp & R)%render_Ok & E). apply M_bind_Ok in E as (? & w2 & E2 & E).
  assert (validated a w1 w2) as V2.
  { unfold validated. destruct caddy; [|by apply ret_Ok in E2 as [_ ->]].
    apply M_bind_Ok in E2 as (o & w3 & S%run_said & [_ ->]%ret_Ok). by exists o. }
  apply M_bind_Ok in E as (? & w3 & E3 & E). apply M_bind_Ok in E as (ev & w4 & E4 & E). apply M_bind_Ok in E as (? & w5 & [-> V]%edge_valid & E).
  apply M_bind_Ok in E as ([] & w6 & E6 & E). apply M_bind_Ok in E as ([] & w7 & E7 & E). apply ret_Ok in E as [_ ->].
  eexists x, y, backend, limit, path, text, ev, w1, w2, w3, w4, w6, _. split; [done|]. split; [done|]. split; [|do 2 (split; [done|]); split].
  - destruct R as (? & ? & ? & ? & _ & _ & _ & _ & _ & _ & _ & _ & Ew). by eapply write_file_read.
  - destruct (execute a); [|by apply ret_Ok in E3 as [_ ->]]. cbn [mwhen] in E3. by apply enable_Ok in E3.
  - split; [by eapply edge_evidence_Ok|]. split; [done|]. split; [done|]. split; [exact E7|]. pose proof E7 as [= <-].
    unfold write_document in E6. apply M_bind_Ok in E6 as (? & w8 & _ & Ew%write_file_read).
    apply PrepareFacts.read_bytes_file in Ew as (_ & m & Hm). apply PrepareFacts.read_bytes_file. split; [done|]. exists m. exact Hm.
Qed.
End Env.
End LiveEdgeFacts.

(** ** An endpoint that is enabled, and one that does not upgrade *)

Module LiveEdgeRun.
Import Evidence Fixture BuildResultFacts LiveEdge LiveEdgeFacts.

Definition tools (_ : list proc) (p : proc) (f : filesystem) : proc_out * filesystem * Z :=
  (Exited 0 (match argv p with "curl" :: "--fail" :: _ => "200" | "curl" :: _ => "308" | _ => "" end) "", f, 1000).
Definition host : Platform :=
  let h := host_with tools in {|
  exec := @exec h; schema_errors := @schema_errors h; schema_check := @schema_check h; repo_root := @repo_root h;
  json_error := @json_error h; elapse := @elapse h; utc_at := @utc_at h; local_offset := @local_offset h; random_hex := @random_hex h;
  pid := @pid h; euid := @euid h; os_name := @os_name h; which := λ n, if String.eqb n "caddy" then Some "/usr/bin/caddy" else None;
  executable := @executable h; home_dir := @home_dir h; can_read := @can_read h; account := @account h; group := @group h |}.
Definition server (first : string) (_ _ : string) (_ : nat) : string + exn_class * string := inl (first +:+ crlf).
Definition activation_document : val := VDict [("schema_version", VStr "liqi.deployment.activation/v1"); ("status", VStr "passed"); ("state", VStr "health-gated");
  ("traffic_enabled", VBool false); ("release_id", VStr "liqi-v1-2026.07"); ("git_sha", VStr "0123")].
Definition runtime_document : val := VDict [("releaseId", VStr "liqi-v1-2026.07"); ("http", VDict [("port", VInt 4000); ("websocketPath", VStr "/socket")]);
  ("requests", VDict [("bodyBytes", VInt 65536)]); ("security", rec [("probeTokenRef", "systemd-credential://platform-probe-token")])].
Definition with_secret (w : world) : world :=
  set_fs (<[["secrets"; "platform-probe-token"] := NFile "0123456789abcdef" (Meta 384 0 0)]> (fs w)) w.
Definition w0 : world := with_secret (world_with [("/repo/contracts/runtime/runtime-config-v1.schema.json", "{}");
  ("/repo/contracts/deployment/live-endpoint-v1.schema.json", "{}"); ("/in/activation.json", json activation_document); ("/in/runtime.json", json runtime_document);
  ("/in/template", "${hostname} to ${backend_address}"); ("/etc/caddy/Caddyfile", "old"); ("/secrets/.keep", "")]).
Definition the_args (x : bool) : args := Args "api.liqi.example" "ops@liqi.example" (Path.of_str "/in/activation.json") (Path.of_str "/in/runtime.json")
  (Path.of_str "/secrets") (Path.of_str "/in/template") (Path.of_str "/etc/caddy/Caddyfile") (Some "CUT-7") x (Path.of_str "/out/Caddyfile")
  (Path.of_str "/out/evidence.json").
Definition ran_with (first : string) (x : bool) : res Z * world := main (H := host) (server first) (the_args x) w0.
Definition text_of (w : world) (p : string) : option string := match stat w (Path.of_str p) with Some (NFile d _) => Some d | _ => None end.

Example rendered_only : let x := ran_with "HTTP/1.1 101" false in x.1 = Ok 0 /\ text_of x.2 "/out/Caddyfile" = Some "api.liqi.example to 127.0.0.1:4000" /\
  text_of x.2 "/etc/caddy/Caddyfile" = Some "old" /\ length (log x.2) = 1%nat.
Proof. vm_compute. repeat split. Qed.
Example enabled : let x := ran_with "HTTP/1.1 101 Switching Protocols" true in x.1 = Ok 0 /\
  text_of x.2 "/etc/caddy/Caddyfile" = Some "api.liqi.example to 127.0.0.1:4000" /\
  map (λ p, List.hd "" (argv p)) (log x.2) = ["curl"; "curl"; "/usr/bin/caddy"; "/usr/bin/caddy"].
Proof. vm_compute. repeat split. Qed.
(** A server that does not upgrade: the old file is back, and reloaded, and no evidence is written. *)
Example not_upgraded : let x := ran_with "HTTP/1.1 403 Forbidden" true in
  x.1 = raise RuntimeError "authenticated WebSocket upgrade did not return 101: HTTP/1.1 403 Forbidden" /\
  text_of x.2 "/etc/caddy/Caddyfile" = Some "old" /\ text_of x.2 "/out/evidence.json" = None /\
  map (λ p, nth 1 (argv p) "") (log x.2) = ["reload"; "--silent"; "--fail"; "reload"; "validate"].
Proof. vm_compute. repeat split. Qed.
Example hosts : map HOST ["api.liqi.example"; "liqi"; "-a.example"; "a-.example"; "a..example"; "a.example."; "API.example"; "a.e1"] =
  [true; false; false; false; false; false; false; false].
Proof. vm_compute. reflexivity. Qed.
Example emails : map EMAIL ["ops@liqi.example"; "@liqi.example"; "ops@liqi"; "ops@.example"; "ops@liqi."; "a@b@c.d"; "o ps@liqi.example"] =
  [true; false; false; false; false; false; false].
Proof. vm_compute. reflexivity. Qed.
Example suffixes : map (λ p, Path.to_str (with_suffix (Path.of_str p) ".x")) ["/e/Caddyfile"; "/e/a.conf"; "/e/.conf"; "/e/a.b.c"; "/e/a.b."] =
  ["/e/Caddyfile.x"; "/e/a.x"; "/e/.conf.x"; "/e/a.b.x"; "/e/a.b..x"].
Proof. vm_compute. reflexivity. Qed.

Definition enabled_world : world := (ran_with "HTTP/1.1 101 Switching Protocols" true).2.
Lemma edge_verified_witness : exists activation runtime backend limit path text evidence w1 w2 w3 w4 w5 line,
    admitted (H := host) (the_args true) w0 activation runtime /\ rendering (the_args true) runtime backend limit text w0 w1 /\
    read_bytes (Path.of_str "/out/Caddyfile") w1 = (Ok text, w1) /\
    validated (H := host) (the_args true) w1 w2 /\ item runtime ["http"; "websocketPath"] = Ok path /\
    (exists c token w6, caddy (H := host) = Some c /\ probe_token runtime (Path.of_str "/secrets") w2 = (Ok token, w2) /\
       placed (H := host) (the_args true) w2 w6 /\
       answers (H := host) (server "HTTP/1.1 101 Switching Protocols") (the_args true) c (py_str path) token w6 w3) /\
    evidenced (H := host) (the_args true) activation evidence backend limit path w3 w4 /\
    valid (H := host) w4 (endpoint_schema (H := host)) evidence /\
    write_document (Path.of_str "/out/evidence.json") evidence w4 = (Ok tt, w5) /\ print line w5 = (Ok tt, enabled_world) /\
    read_bytes (Path.of_str "/out/evidence.json") enabled_world = (Ok (json_text evidence), enabled_world).
Proof.
  apply (edge_verified (H := host) (server "HTTP/1.1 101 Switching Protocols") (the_args true) w0 enabled_world).
  assert ((ran_with "HTTP/1.1 101 Switching Protocols" true).1 = Ok 0) as E by (vm_compute; reflexivity).
  unfold enabled_world. unfold ran_with in *. destruct (main (H := host) _ _ w0) as [r x]. cbn [fst snd] in E |- *. by rewrite E.
Defined.
(** The switch alone, when what was kept is there *)
Definition kept : world := (copyfile (Path.of_str "/etc/caddy/Caddyfile") (backup (the_args true)) (set_fs (add_file (fs w0) ("/out/Caddyfile", "new")) w0)).2.
Definition the_endpoint : endpoint := Endpoint activation_document runtime_document "127.0.0.1:4000" 65536 "/socket" "new".
Definition refused : exn := Exn RuntimeError "authenticated WebSocket upgrade did not return 101: HTTP/1.1 403".
Definition after : world := (switch (H := host) (server "HTTP/1.1 403") (the_args true) "/usr/bin/caddy" the_endpoint "0123456789abcdef" kept).2.
Lemma failed_ends : switch (H := host) (server "HTTP/1.1 403") (the_args true) "/usr/bin/caddy" the_endpoint "0123456789abcdef" kept = (Raise refused, after).
Proof.
  assert ((switch (H := host) (server "HTTP/1.1 403") (the_args true) "/usr/bin/caddy" the_endpoint "0123456789abcdef" kept).1 = Raise refused) as E by (vm_compute; reflexivity).
  unfold after. destruct (switch (H := host) _ _ _ _ _ kept) as [r y]. cbn [fst snd] in E |- *. by rewrite E.
Qed.
Lemma edge_restored_witness :
  exists failure w1, cut_over (H := host) (server "HTTP/1.1 403") (the_args true) "/usr/bin/caddy" the_endpoint "0123456789abcdef" kept = (Raise failure, w1) /\
    (copyfile (backup (the_args true)) (Path.of_str "/etc/caddy/Caddyfile") w1 = (Raise refused, after) \/
     exists data w2, copyfile (backup (the_args true)) (Path.of_str "/etc/caddy/Caddyfile") w1 = (Ok tt, w2) /\
       read_bytes (backup (the_args true)) w1 = (Ok data, w1) /\ read_bytes (Path.of_str "/etc/caddy/Caddyfile") w2 = (Ok data, w2) /\
       (run (H := host) (reload_argv (the_args true) "/usr/bin/caddy") 30 w2 = (Raise refused, after) \/
        refused = failure /\ exists o, said (H := host) (reload_argv (the_args true) "/usr/bin/caddy") 30 o w2 after)).
Proof.
  exact (edge_restored (H := host) (server "HTTP/1.1 403") (the_args true) "/usr/bin/caddy" the_endpoint "0123456789abcdef" kept refused after failed_ends).
Defined.
End LiveEdgeRun.
