(* ===== verification/PackageContract.v ===== *)
(** * From the preparation of a package to its staging

    The two programs check the documents of a package each on its own. What the
    first has admitted the second admits, but for what just the second asks: an
    identifier for the release and the major version of the database. *)

From Stdlib Require Import Ascii.
From S2P Require Import Prelude PyFloat PyMonad PyValue PyTime PyJson JsonFacts DocumentFacts Sha256 PyOs OsFacts FsFacts Fixture.
From S2P Require Import GenerateSpec BuildResultFacts PrepareDeployment PrepareFacts NativeFacts StageRelease.

Module PackageContract.
Import Evidence Json JsonFacts DocumentFacts BuildResultFacts PrepareFacts.
Import PrepareDeployment (args, main, copy_inputs, c_rollback, EXPECTED_CREDENTIALS, rollback_entry, documents, provider, runtime, database, readiness).

(** The types the contracts of the documents give them, and what just the staging asks *)
Record typed (i : documents) (release_id git_sha : string) : Prop := {
  ty_release : getitem (provider i) "release_id" = Ok (VStr release_id) /\ StageRelease.IDENT release_id = true;
  ty_commit : getitem (provider i) "git_sha" = Ok (VStr git_sha);
  ty_rollback : getitem (provider i) "rollback_target_release_id" = Ok VNone \/
    exists t, getitem (provider i) "rollback_target_release_id" = Ok (VStr t);
  ty_oban : exists m n, getitem (readiness i) "obanMigrationVersion" = Ok (VInt m) /\ getitem (readiness i) "requiredObanMigrationVersion" = Ok (VInt n);
  ty_postgres : StageRelease.differs (database i) ["compatibility"; "postgresqlMajor"] (VInt 17) = Ok false
}.

Lemma getitem_read_back st v k x : printable v -> getitem v k = Ok x -> getitem (read_back st v) k = Ok (read_back st x) /\ printable x.
Proof.
  intros Hp E. inversion Hp as [| | | | |d Hn Hd]; subst; try done. simpl in E. destruct (Dict.lookup k d) as [y|] eqn:Ek; [|done]. injection E as ->.
  split; [|apply Dict.lookup_In in Ek; rewrite Forall_forall in Hd; exact (proj2 (Hd _ Ek))].
  cbn [read_back getitem]. rewrite (map_ext _ (λ kx, (kx.1, read_back st kx.2))) by (by intros [k' y]).
  rewrite (NativeFacts.lookup_perm k (map (λ kx, (kx.1, read_back st kx.2)) d)).
  - by rewrite NativeFacts.lookup_map_snd, Ek.
  - unfold Dict.keys in *. rewrite map_map. exact Hn.
  - apply arranged_perm.
Qed.

Lemma rmap_mono {A B} (f g : A -> res B) l : (forall x y, f x = Ok y -> g x = Ok y) -> forall ys, rmap f l = Ok ys -> rmap g l = Ok ys.
Proof.
  intros Hfg. induction l as [|x l IH]; intros ys E; [done|]. simpl in E |- *. apply bind_Ok in E as (y & Y & E). apply bind_Ok in E as (zs & Zs & E).
  rewrite (Hfg _ _ Y). simpl. by rewrite (IH _ Zs).
Qed.
Lemma credential_agrees v n : PrepareDeployment.credential v = Ok n -> StageRelease.credential v = Ok n.
Proof.
  unfold PrepareDeployment.credential, StageRelease.credential. intros (t & -> & E)%bind_Ok. simpl. by destruct (PrepareDeployment.CREDENTIAL t).
Qed.
Lemma credentials_agree v names : PrepareDeployment.runtime_credentials v = Ok names -> StageRelease.credential_names v = Ok names.
Proof.
  unfold PrepareDeployment.runtime_credentials, StageRelease.credential_names. intros E.
  do 4 (let x := fresh "x" in let X := fresh "X" in apply bind_Ok in E as (x & X & E); rewrite X; cbn [mbind res_bind]).
  apply bind_Ok in E as (ns & Ns & E). rewrite (rmap_mono _ _ _ credential_agrees _ Ns). cbn [mbind res_bind].
  apply bind_Ok in E as (? & _ & E). apply bind_Ok in E as (? & S%pk_refuse_Ok & E). injection S as ->%negb_false_iff. done.
Qed.
Lemma refuse_pass b m : b = Ok false -> StageRelease.refuse b m = Ok tt.
Proof. intros ->. done. Qed.
Lemma versions_agree (i : documents) required : PrepareDeployment.database_ready (database i) (readiness i) (runtime i) = Ok required ->
  (exists m n, getitem (readiness i) "obanMigrationVersion" = Ok (VInt m) /\ getitem (readiness i) "requiredObanMigrationVersion" = Ok (VInt n)) ->
  StageRelease.differs (database i) ["compatibility"; "postgresqlMajor"] (VInt 17) = Ok false ->
  StageRelease.database_version (database i) (readiness i) (runtime i) = Ok required.
Proof.
  unfold PrepareDeployment.database_ready, StageRelease.database_version. intros E (m & n & Hm & Hn) P.
  apply bind_Ok in E as (? & A%pk_refuse_Ok & E). apply ror_false in A as [A _]. apply bind_Ok in E as (r & R & E). rewrite R. cbn [mbind res_bind].
  apply bind_Ok in E as (q & Q & E). rewrite Q. cbn [mbind res_bind]. apply bind_Ok in E as (? & B%pk_refuse_Ok & E).
  apply bind_Ok in E as (? & C%pk_refuse_Ok & E). apply bind_Ok in E as (? & D%pk_refuse_Ok & E). injection E as ->.
  unfold StageRelease.differs in P |- *. unfold StageRelease.refuse. apply rany_false in D. rewrite !Forall_cons in D.
  destruct D as (D1 & D2 & D3 & D4 & D5 & D6 & D7 & D8 & _). unfold PrepareDeployment.oban_differs in D7. rewrite Hm, Hn in D7.
  cbn [mbind res_bind id] in *. injection D7 as D7%negb_false_iff. apply andb_true_iff in D7 as [O1 O2].
  assert (m = n /\ n = 14) as [-> ->].
  { simpl in O1, O2. unfold num_compare in O1, O2. simpl in O1, O2. destruct (Z.compare_spec m n), (Z.compare_spec n 14); done. }
  assert (forall k, getitem (readiness i) k = Ok (VInt 14) -> PrepareDeployment.differs (readiness i) [k] (VInt 14) = Ok false) as H14
    by (intros k Hk; unfold PrepareDeployment.differs; cbn [item]; by rewrite Hk).
  rewrite (refuse_pass _ _ (proj2 (ror_false _ _) (conj A P))). cbn [mbind res_bind].
  rewrite (refuse_pass _ _ (proj2 (ror_false _ _) (conj B C))). cbn [mbind res_bind].
  rewrite refuse_pass; [done|]. apply rany_false. by repeat (constructor; [first [done|by apply H14]|]).
Qed.

Section Env.
Context `{Platform}.

(** The documents a staging reads from a package: the wrapper from a file that holds the text that was signed, and the others
    as they were prepared *)
Record of_package (i : documents) (result wrapper : val) (rollback : option (path * val)) (j : StageRelease.inputs) : Prop := {
  op_wrapper : exists p x, read_bytes p x = (Ok (json_text wrapper), x) /\ load_json p x = (Ok (StageRelease.wrapper j), x);
  op_provider : StageRelease.provider j = provider i;
  op_result : StageRelease.runtime_result j = result;
  op_runtime : StageRelease.runtime j = runtime i;
  op_database : StageRelease.database j = database i;
  op_readiness : StageRelease.readiness j = readiness i;
  op_rollback : StageRelease.rollback j = option_map snd rollback;
  op_spec : getitem (StageRelease.wrapper j) "rollback_target" = Ok (StageRelease.rollback_spec j)
}.

Lemma rollbacks_agree a w i required rb (j : StageRelease.inputs) result wrapper :
  rollback_ready a w i required rb -> of_package i result wrapper rb j ->
  (getitem (provider i) "rollback_target_release_id" = Ok VNone \/ exists t, getitem (provider i) "rollback_target_release_id" = Ok (VStr t)) ->
  (forall p d, rb = Some (p, d) -> exists x, getitem d "release_id" = Ok x /\ item (StageRelease.rollback_spec j) ["release_id"] = Ok (read_back pretty x)) ->
  StageRelease.rollback_agrees j required = Ok tt.
Proof.
  intros (rid & Hr & Hb) J T S. unfold StageRelease.rollback_agrees. rewrite (op_rollback _ _ _ _ _ J). destruct rb as [[p d]|]; cbn [option_map snd].
  2: { destruct Hb as [-> _]. rewrite (op_provider _ _ _ _ _ J), Hr. done. }
  destruct Hb as (_ & _ & (x & X & Q) & c & m & t & C & M & B & Le1 & Le2 & _). destruct (S p d eq_refl) as (y & Y & Sp).
  cbn [item] in X. rewrite Y in X. simpl in X. injection X as ->.
  assert (x = rid /\ py_eq x x = true /\ read_back pretty x = x) as (-> & Qx & Rx).
  { destruct T as [T|(u & T)]; rewrite T in Hr; injection Hr as <-; [by destruct x|]. apply py_eq_str_r in Q as ->. simpl. by rewrite String.eqb_refl. }
  rewrite Rx in Sp. rewrite refuse_pass; [|apply ror_false; split; unfold StageRelease.items_differ, py_ne; rewrite ?Sp, ?(op_provider _ _ _ _ _ J); cbn [item];
    rewrite ?Hr, Y; cbn [mbind res_bind]; by rewrite Qx].
  cbn [mbind res_bind]. rewrite C. cbn [mbind res_bind]. apply refuse_pass. unfold PrepareDeployment.covers. rewrite M. cbn [mbind res_bind].
  rewrite Le1. cbn [mbind res_bind]. rewrite B. cbn [mbind res_bind]. by rewrite Le2.
Qed.

Section Program.
Context (a : args).

(** The wrapper names the descriptor of the rollback target it was given, or none. *)
Definition names_target (wrapper : val) (rollback : option (path * val)) : Prop :=
  exists b, getitem wrapper "rollback_target" = Ok b /\
    match rollback with None => b = VNone | Some (_, d) => exists x, getitem d "release_id" = Ok x /\ getitem b "release_id" = Ok x end.
Lemma inputs_target rb p r out s c s' : copy_inputs a rb p r out s = (Ok c, s') -> is_Some rb -> is_Some (c_rollback c).
Proof.
  intros E [[q d] ->]. unfold copy_inputs in E. do 3 (apply M_bind_Ok in E as (? & ? & _ & E)). apply M_bind_Ok in E as (cb & s1 & E1 & E).
  apply M_bind_Ok in E1 as (t & ? & _ & E1). apply ret_Ok in E1 as [<- _]. apply ret_Ok in E as [<- _]. by exists t.
Qed.
Lemma bound_target w wrapper rb c : (is_Some rb -> is_Some c) -> target_bound w wrapper rb c -> names_target wrapper rb.
Proof.
  intros Hc. unfold target_bound, names_target. destruct rb as [[p d]|]; [|intros Hb; by exists VNone].
  destruct Hc as [q ->]; [done|]. intros (rid & data & R & _ & Hb). exists (VDict [("release_id", rid); ("descriptor_filename", VStr (Path.name q));
    ("descriptor_sha256", VStr (Sha256.hexdigest data))]). split; [done|]. by exists rid.
Qed.

Lemma result_agrees i rid g result (s : string) : runtime_verified i rid g result -> rid = VStr s -> 
  StageRelease.verify_runtime_result result (provider i) rid g = Ok tt.
Proof.
  intros (S & (b & B & T) & (x & X & Qx) & (y & Y & Qy) & z & sha & Z & Z1 & Qz) ->. unfold StageRelease.verify_runtime_result. apply refuse_pass.
  apply rany_false. unfold StageRelease.differs, PrepareDeployment.differs, py_ne. rewrite S, X, Y, B, Z. cbn [item] in Z1.
  apply bind_Ok in Z1 as (z' & Z1 & E). injection E as ->. rewrite Z1. cbn [mbind res_bind]. unfold id. rewrite T, Qx, Qy, Qz. 
  repeat constructor.
Qed.

(** What staging derives from a package whose documents were found to be agreed *)
Lemma agreed_again w i rid g required rb result wrapper j r s : PrepareDeployment.agreed i = Ok (rid, g, required) ->
  rollback_ready a w i required rb -> runtime_verified i rid g result -> names_target wrapper rb ->
  getitem wrapper "release_id" = Ok rid -> getitem wrapper "git_sha" = Ok g ->
  of_package i result wrapper rb j -> typed i r s -> printable wrapper ->
  exists names, PrepareDeployment.runtime_credentials (runtime i) = Ok names /\ StageRelease.agreed j = Ok (r, g, names, required).
Proof.
  intros A Rb Rv (b & Hb & Sb) Wr Wg J T Hp. destruct T as [[Tr Ident] Tg Trb To Tp].
  unfold PrepareDeployment.agreed in A. rewrite Tr, Tg in A. cbn [mbind res_bind] in A.
  apply bind_Ok in A as (ok1 & X%pk_refuse_Ok & A). apply bind_Ok in A as (names & N & A). apply bind_Ok in A as (m & V & A).
  apply bind_Ok in A as (ok2 & _ & A). injection A as <- <- <-. exists names. split; [done|].
  destruct (op_wrapper _ _ _ _ _ J) as (p & x & Rp & Lp). rewrite (load_written _ _ _ Hp Rp) in Lp. injection Lp as Lp.
  destruct (getitem_read_back pretty _ _ _ Hp Wr) as [Wr' _], (getitem_read_back pretty _ _ _ Hp Wg) as [Wg' _],
    (getitem_read_back pretty _ _ _ Hp Hb) as [Hb' Pb]. rewrite Lp in Wr', Wg', Hb'. rewrite (op_spec _ _ _ _ _ J) in Hb'. injection Hb' as Hb'.
  unfold StageRelease.agreed. rewrite Wr', Wg'. cbn [read_back mbind res_bind expect_str].
  rewrite (op_provider _ _ _ _ _ J), (op_result _ _ _ _ _ J), (op_runtime _ _ _ _ _ J), (op_database _ _ _ _ _ J), (op_readiness _ _ _ _ _ J).
  rewrite (refuse_pass (rany id _)); [|unfold StageRelease.differs, PrepareDeployment.differs, py_ne; cbn [item]; rewrite Ident, Tr, Tg; cbn;
    by rewrite !String.eqb_refl].
  cbn [mbind res_bind]. rewrite (result_agrees _ _ _ _ r Rv eq_refl). cbn [mbind res_bind]. rewrite (refuse_pass _ _ X). cbn [mbind res_bind].
  rewrite (credentials_agree _ _ N). cbn [mbind res_bind]. rewrite (versions_agree _ _ V To Tp). cbn [mbind res_bind].
  rewrite (rollbacks_agree _ _ _ _ _ _ _ _ Rb J Trb); [done|]. intros q d ->. destruct Sb as (y & Y & By). exists y. split; [done|].
  rewrite Hb'. cbn [item]. by rewrite (proj1 (getitem_read_back pretty _ _ _ Pb By)).
Qed.

(** C34: What the preparation of a package admits, the staging of it admits: from the package of a preparation that succeeded,
    whose documents are read as it prepared them and have the types of their contracts, staging derives the release, the commit
    and the migration that the preparation had, and no test of the agreement of its documents refuses. The documents are the ones
    of the preparation: the four of the command line, the result the verifier left, the descriptor of the rollback target and the
    wrapper that was signed. What just staging asks is the shape of the identifier of the release and the major version of the database. *)
Theorem prepared_is_stageable w w' : main a w = (Ok 0, w') -> exists i release_id git_sha required rollback result wrapper commands,
  preparation a w i release_id git_sha required rollback result wrapper commands w' /\
  forall j r s, of_package i result wrapper rollback j -> typed i r s -> printable wrapper ->
    release_id = VStr r /\ git_sha = VStr s /\ exists names, NoDup names /\ (forall n, n ∈ names <-> n ∈ EXPECTED_CREDENTIALS) /\
      StageRelease.agreed j = Ok (r, git_sha, names, required).
Proof.
  intros (i & rid & g & req & rb & result & wrapper & commands & A & P & _)%main_prepared.
  exists i, rid, g, req, rb, result, wrapper, commands. split; [done|]. intros j t u J Ty Hp.
  destruct P as (out & w1 & cp & base & s1 & cr & s2 & c & s3 & sup & refs & hs & entries & s4 & w5 & verify & derive & signing &
    _ & _ & Dp & R & _ & _ & _ & _ & V & C & _ & _ & _ & _ & _ & _ & T & G1 & G2 & _).
  pose proof (dp_identity _ _ _ _ Dp) as [Ir Ig]. pose proof (proj1 (ty_release _ _ _ Ty)) as Tr. pose proof (ty_commit _ _ _ Ty) as Tg.
  rewrite Tr in Ir. rewrite Tg in Ig. injection Ir as <-. injection Ig as <-. do 2 (split; [done|]).
  assert (runtime_verified i (VStr t) (VStr u) result) as Rv by (by destruct V as (?&?&?&?&?&?&?&?&?&?&?&?&?&?&?&?&Rv)).
  pose proof (bound_target _ _ _ _ (inputs_target _ _ _ _ _ _ _ C) T) as Nt.
  destruct (agreed_again _ _ _ _ _ _ _ _ _ _ _ A R Rv Nt G1 G2 J Ty Hp) as (names & N & St). exists names.
  apply credentials_Ok in N as [N1 N2]. done.
Qed.
End Program.
End Env.
End PackageContract.

(** ** A package with a rollback target, prepared and read again *)

Module PackageRun.
Import Evidence Fixture JsonFacts BuildResultFacts PrepareDeployment PrepareFacts PackageContract.
Import PrepareRun (signs, release, commit).

Definition replace (k : string) (x v : val) : val := match v with VDict d => VDict (Dict.set k x d) | _ => v end.
Definition provider_document : val := replace "rollback_target_release_id" (VStr "liqi-v1-2026.06") PrepareRun.provider_document.
Definition database_document : val := replace "compatibility" (VDict [("postgresqlMajor", VInt 17)]) PrepareRun.database_document.
Definition target_document : val := VDict [("release_id", VStr "liqi-v1-2026.06"); ("database_compatibility",
  VDict [("minimum_migration", VInt 8); ("maximum_migration", VInt 8); ("rollback_safe_through", VInt 8); ("database_rollback_allowed", VBool false)])].
Definition w0 : world := world_with (PrepareRun.files ++
  [("/repo/contracts/deployment/release-target-v1.schema.json", "{}"); ("/in/provider/manifest.json", json provider_document);
   ("/in/database.json", json database_document); ("/in/target.json", json target_document)]).
Definition target_path : path := Path.of_str "/in/target.json".
Definition the_args : args := let a := PrepareRun.the_args in Args (provider_manifest a) (provider_trust_dir a) (runtime_config a) (database_contract a)
  (migration_readiness a) (native_manifest a) (Some target_path) (deployment_key_id a) (deployment_signing_key a) (a_output_dir a).
Definition prepared : world := (main (H := signs) the_args w0).2.

Definition wrapper_file : path := Path.of_str "/out/package/liqi-v1-2026.07.mix-deployment-v1.json".
Definition wrapper : val := match (load_json (H := signs) wrapper_file prepared).1 with Ok v => v | Raise _ => VNone end.
Definition i : documents := Documents provider_document PrepareRun.runtime_document database_document PrepareRun.readiness_document.
Definition j : StageRelease.inputs :=
  StageRelease.Inputs wrapper (Path.of_str "/out/package/manifest.json") provider_document PrepareRun.result_document (Path.of_str "/out/package/runtime.json")
    PrepareRun.runtime_document (Path.of_str "/out/package/database.json") database_document (Path.of_str "/out/package/readiness.json")
    PrepareRun.readiness_document (match getitem wrapper "rollback_target" with Ok v => v | Raise _ => VNone end) (Some target_document).

Lemma package_prepared_again : main (H := signs) the_args w0 = (Ok 0, prepared).
Proof.
  assert ((main (H := signs) the_args w0).1 = Ok 0) as E by (vm_compute; reflexivity).
  unfold prepared. destruct (main (H := signs) the_args w0) as [r x]. cbn [fst snd] in E |- *. by rewrite E.
Qed.
Lemma prepared_is_stageable_witness : exists i release_id git_sha required rollback result wrapper commands,
  preparation (H := signs) the_args w0 i release_id git_sha required rollback result wrapper commands prepared /\
  forall j r s, of_package (H := signs) i result wrapper rollback j -> typed i r s -> printable wrapper ->
    release_id = VStr r /\ git_sha = VStr s /\ exists names, NoDup names /\ (forall n, n ∈ names <-> n ∈ EXPECTED_CREDENTIALS) /\
      StageRelease.agreed j = Ok (r, git_sha, names, required).
Proof. apply (prepared_is_stageable (H := signs) the_args w0 prepared), package_prepared_again. Defined.

(** What the theorem asks of a reading of the package holds of the one that was prepared, and staging goes on with it. *)
Lemma printable_wrapper : printable wrapper.
Proof.
  assert (exists v, wrapper = v /\ printable v) as (v & -> & Hv); [|exact Hv]. eexists. split; [vm_compute; reflexivity|].
  repeat first [apply pr_dict | apply pr_list | apply pr_none | apply pr_bool | apply pr_int | apply pr_str
    | constructor | (apply DocumentRun.text_ascii; reflexivity) | (apply (bool_decide_unpack _); vm_compute; exact I)].
Qed.
Lemma kept {A} (m : IO A) (x : A) w : Pres eq m -> (m w).1 = Ok x -> m w = (Ok x, w).
Proof. intros P E. destruct (m w) as [r w'] eqn:R. simpl in E. subst r. by rewrite (pres_eq_run _ _ _ _ P R). Qed.
Lemma pk_ro_read p : Pres eq (read_bytes p).
Proof. solve_pres. Qed.
Example package_read : of_package (H := signs) i PrepareRun.result_document wrapper (Some (target_path, target_document)) j.
Proof.
  split; [|reflexivity..|vm_compute; reflexivity]. exists wrapper_file, prepared. split.
  - apply (kept _ _ _ (pk_ro_read _)). vm_compute. reflexivity.
  - apply (kept _ _ _ (ro_load_json _)). vm_compute. reflexivity.
Qed.
Example package_typed : typed i release commit.
Proof.
  split; [by split|done| |by exists 14, 14|done]. right. by exists "liqi-v1-2026.06".
Qed.
Example package_agreed : StageRelease.agreed j =
  Ok (release, VStr commit, ["phoenix-secret-key-base"; "database-role-urls"; "drain-token"; "platform-probe-token"], 8).
Proof. vm_compute. reflexivity. Qed.
End PackageRun.
