(* ===== verification/BackupTimers.v ===== *)
(** * infrastructure/deployment/enable_backup_timers.py

    The timers of the backups are enabled on proof only: a backup status and the
    result of an isolated restore of the latest backup, each with its checksum.
    systemctl is a started process. *)

From Stdlib Require Import Ascii.
From S2P Require Import Prelude PyFloat PyMonad PyValue PyTime PyJson Sha256 PyOs OsFacts FsFacts Fixture.
From S2P Require Import GenerateSpec BuildResultFacts PrepareFacts.

Module BackupTimers.
Import Evidence.

Definition TIMERS : list string :=
  ["liqi-database-backup-full.timer"; "liqi-database-backup-diff.timer"; "liqi-database-repository-check.timer"].

Record args := Args { backup_status : path; backup_status_checksum : path; restore_result : path; restore_result_checksum : path;
  approval_reference : option string; execute : bool; a_output : path }.

(** [str] of a tuple of two or more strings *)
Definition str_tuple (l : list string) : string := "(" +:+ Str.join ", " (map repr_str l) +:+ ")".
Definition or_else (a b : string) : string := if String.eqb a "" then b else a.

Section Env.
Context `{Platform}.

Definition ROOT : path := repo_root.
Definition CONTRACT_ROOTS : list path :=
  [Path.div ROOT "contracts/platform"; Path.of_str "/usr/local/lib/liqi-database/contracts/platform"].
Fixpoint first_file (name : string) (roots : list path) : IO path :=
  match roots with
  | [] => throw FileNotFoundError name
  | root :: rest => let p := Path.div root name in f ← is_file p; if f : bool then mret p else first_file name rest
  end.
Definition contract (name : string) : IO path := first_file name CONTRACT_ROOTS.
Definition load (p : path) : IO val := load_json p.
Definition digest (p : path) : IO string := sha256_file p.
Definition verify_checksum (document checksum : path) : IO unit :=
  text ← read_text checksum;
  ok ← match Str.words (Str.strip text) with
       | [] => mret false
       | field :: _ => h ← digest document; mret (String.eqb field h)
       end;
  if ok : bool then mret tt else throw RuntimeError ("checksum mismatch: " +:+ Path.to_str document).
Definition validate (schema_name : string) (document : val) : IO unit :=
  p ← contract schema_name;
  schema ← load p;
  match schema_errors schema document with
  | f :: _ => throw RuntimeError (schema_name +:+ ": " +:+ f.2)
  | [] => mret tt
  end.
Definition run (argv : list string) : IO unit :=
  p ← gets (λ w, Proc argv (Some 60) (environ w) None);
  r ← run_completed p;
  let '(code, o, e) := r in
  if negb (code =? 0) then throw RuntimeError (or_else (Str.strip e) (or_else (Str.strip o) ("command failed: " +:+ str_tuple argv)))
  else mret tt.

(** The refusals of [main], in its order: the first test that does not hold ends the program with its message. *)
Definition require (ok : res bool) (m : string) : IO unit := b ← lift ok; if b : bool then mret tt else sysexit m.
Definition recovery_ready (backup : val) : res bool :=
  r ← getitem backup "recoveryReady"; if is_true r then x ← getitem backup "reasons"; Ok (negb (truthy x)) else Ok false.
Definition isolated_restore (restore : val) : res bool :=
  s ← getitem restore "success"; if is_true s then x ← item restore ["target"; "isolated"]; Ok (is_true x) else Ok false.
Definition safe_checks (restore : val) : res bool :=
  m ← item restore ["target"; "archiveMode"];
  if py_ne m (VStr "off") then Ok false else
  checks ← getitem restore "checks"; l ← py_iter checks; rall (λ c, x ← getitem c "passed"; Ok (truthy x)) l.
Definition rto_met (restore : val) : res bool := x ← item restore ["workingTargets"; "rtoMet"]; Ok (is_true x).
Definition of_latest (backup restore : val) : res bool :=
  x ← getitem restore "backupLabel"; y ← item backup ["latestBackup"; "label"]; Ok (py_eq x y).
Definition proof (backup restore : val) : IO unit :=
  require (recovery_ready backup) "backup status is not recovery ready" ;;
  require (isolated_restore restore) "isolated restore proof did not pass" ;;
  require (safe_checks restore) "restore proof has failed checks or unsafe archive mode" ;;
  require (rto_met restore) "restore proof did not meet the declared RTO" ;;
  require (of_latest backup restore) "restore proof does not reference the current latest backup".

Section Program.
Context (a : args).
Definition approval_missing : bool := match approval_reference a with None => true | Some r => Str.len (Str.strip r) <? 3 end.
Definition proved : IO (val * val) :=
  verify_checksum (backup_status a) (backup_status_checksum a) ;;
  verify_checksum (restore_result a) (restore_result_checksum a) ;;
  backup ← load (backup_status a);
  restore ← load (restore_result a);
  validate "database-backup-status-v0.schema.json" backup ;;
  validate "database-restore-result-v0.schema.json" restore ;;
  proof backup restore ;;
  require (Ok (negb (execute a && (negb (String.eqb os_name "posix") || negb (euid =? 0))))) "timer mutation requires root on POSIX" ;;
  require (Ok (negb (execute a && approval_missing))) "timer mutation requires approval reference" ;;
  mret (backup, restore).
Definition enable_argv (timer : string) : list string := ["systemctl"; "enable"; "--now"; timer].
Definition enable : IO unit := mfor (λ t, run (enable_argv t)) TIMERS.
Definition or_null (x : option string) : val := match x with Some s => VStr s | None => VNone end.
Definition result_of (backup restore : val) : IO val :=
  label ← lift (item backup ["latestBackup"; "label"]);
  h ← digest (backup_status a); k ← digest (restore_result a);
  id ← lift (getitem restore "restoreId");
  rpo ← lift (item restore ["workingTargets"; "rpoObservedSeconds"]); rto ← lift (item restore ["workingTargets"; "rtoObservedSeconds"]);
  observed ← utc_now;
  mret (VDict [("schema_version", VStr "liqi.infrastructure.backup-timer-enable-result/v1");
    ("status", VStr (if execute a then "enabled" else "validated")); ("backup_label", label); ("backup_status_sha256", VStr h);
    ("restore_result_sha256", VStr k); ("restore_id", id); ("rpo_observed_seconds", rpo); ("rto_observed_seconds", rto);
    ("timers", VStrs TIMERS); ("approval_reference", if execute a then or_null (approval_reference a) else VNone);
    ("observed_at", VStr observed); ("mutation_performed", VBool (execute a))]).
Definition report (backup restore : val) : IO Z :=
  result ← result_of backup restore;
  write_document (a_output a) result ;;
  print (Json.dumps Json.pretty result) ;;
  mret 0.
Definition main : IO Z :=
  x ← proved;
  mwhen (execute a) enable ;;
  report x.1 x.2.
End Program.
End Env.
End BackupTimers.

(** ** What enables the timers *)

Module TimerFacts.
Import Evidence BuildResultFacts BackupTimers.

Section Env.
Context `{Platform}.

Lemma bt_bind {A B} (m : IO A) (f : A -> IO B) w r w' : (m ≫= f) w = (r, w') ->
  (exists e, m w = (Raise e, w') /\ r = Raise e) \/ exists x w1, m w = (Ok x, w1) /\ f x w1 = (r, w').
Proof.
  unfold mbind, M_bind. destruct (m w) as [[x|e] w1]; [intros E; right; by exists x, w1|]. intros [= <- <-]. left. by exists e.
Qed.
Lemma ro_timer_load p : Pres eq (load p).
Proof. apply ro_load_json. Qed.
Lemma ro_timer_file name roots : Pres eq (first_file name roots).
Proof. induction roots as [|r l IH]; simpl; solve_pres. Qed.
#[local] Hint Resolve ro_timer_load ro_timer_file : pres.
Lemma ro_verify_checksum d c : Pres eq (verify_checksum d c).
Proof. unfold verify_checksum, digest, sha256_file. solve_pres. Qed.
Lemma ro_timer_validate n v : Pres eq (validate n v).
Proof. unfold validate, contract. solve_pres. Qed.
Lemma ro_require b m : Pres eq (require b m).
Proof. unfold require. solve_pres. Qed.
#[local] Hint Resolve ro_verify_checksum ro_timer_validate ro_require : pres.
Lemma ro_proof x y : Pres eq (proof x y).
Proof. unfold proof. solve_pres. Qed.
#[local] Hint Resolve ro_proof : pres.
Lemma ro_proved a : Pres eq (proved a).
Proof. unfold proved. solve_pres. Qed.

(** A document that is read from a file whose digest is the first word of its checksum file *)
Definition bound_to (w : world) (document checksum : path) (v : val) : Prop :=
  load document w = (Ok v, w) /\ exists data text rest, read_bytes document w = (Ok data, w) /\ read_text checksum w = (Ok text, w) /\
    Str.words (Str.strip text) = Sha256.hexdigest data :: rest.
Definition valid_as (w : world) (name : string) (v : val) : Prop :=
  exists p schema, contract name w = (Ok p, w) /\ load p w = (Ok schema, w) /\ schema_errors schema v = [].
(** The backup can be recovered from, and its latest backup was restored: in isolation, with archiving off, every check
    passed, within the time that was declared. *)
Record proven (backup restore : val) : Prop := {
  pv_ready : getitem backup "recoveryReady" = Ok (VBool true) /\ exists x, getitem backup "reasons" = Ok x /\ truthy x = false;
  pv_restored : getitem restore "success" = Ok (VBool true) /\ item restore ["target"; "isolated"] = Ok (VBool true) /\
    item restore ["target"; "archiveMode"] = Ok (VStr "off") /\ item restore ["workingTargets"; "rtoMet"] = Ok (VBool true);
  pv_checks : exists checks l, getitem restore "checks" = Ok checks /\ py_iter checks = Ok l /\
    forall c, c ∈ l -> exists x, getitem c "passed" = Ok x /\ truthy x = true;
  pv_latest : exists x y, getitem restore "backupLabel" = Ok x /\ item backup ["latestBackup"; "label"] = Ok y /\ py_eq x y = true
}.
Definition permitted (a : args) : Prop := os_name = "posix" /\ euid = 0 /\ exists r, approval_reference a = Some r /\ 3 <= Str.len (Str.strip r).
(** What must hold before a timer is enabled *)
Definition proven_in (a : args) (w : world) (backup restore : val) : Prop :=
  bound_to w (backup_status a) (backup_status_checksum a) backup /\ bound_to w (restore_result a) (restore_result_checksum a) restore /\
  valid_as w "database-backup-status-v0.schema.json" backup /\ valid_as w "database-restore-result-v0.schema.json" restore /\
  proven backup restore /\ (execute a = true -> permitted a).

Lemma timer_require_Ok b m w u w' : require b m w = (Ok u, w') -> b = Ok true.
Proof. unfold require. intros (x & w1 & [-> _]%lift_Ok & E)%M_bind_Ok. by destruct x. Qed.
Lemma checksum_bound d c w u w' : verify_checksum d c w = (Ok u, w') -> exists data text rest,
  read_bytes d w = (Ok data, w) /\ read_text c w = (Ok text, w) /\ Str.words (Str.strip text) = Sha256.hexdigest data :: rest.
Proof.
  unfold verify_checksum. intros (text & w1 & R & E)%M_bind_Ok. assert (Pres eq (read_text c)) as PR by solve_pres.
  pose proof (pres_eq_run _ _ _ _ PR R) as ->. apply M_bind_Ok in E as (ok & w2 & E1 & E). destruct ok; [|done].
  destruct (Str.words (Str.strip text)) as [|x rest] eqn:Hw; [by apply ret_Ok in E1 as [? _]|].
  apply M_bind_Ok in E1 as (h & w3 & E2 & E1). unfold digest, sha256_file in E2. apply M_bind_Ok in E2 as (data & w4 & D & E2).
  pose proof D as [-> _]%PrepareFacts.read_bytes_file. apply ret_Ok in E2 as [<- ->]. apply ret_Ok in E1 as [->%String.eqb_eq _]. by exists data, text, rest.
Qed.
Lemma timer_valid n v w u w' : validate n v w = (Ok u, w') -> valid_as w n v.
Proof.
  unfold validate. intros (p & w1 & C & E)%M_bind_Ok. pose proof (pres_eq_run _ _ _ _ (ro_timer_file _ _) C) as ->.
  apply M_bind_Ok in E as (sc & w1 & L & E). pose proof (pres_eq_run _ _ _ _ (ro_timer_load _) L) as ->. exists p, sc. split_and!; try done.
  by destruct (schema_errors sc v).
Qed.
Lemma is_true_VBool v : is_true v = true -> v = VBool true.
Proof. by destruct v as [|[]| | | | |]. Qed.
Lemma proof_Ok x y w u w' : proof x y w = (Ok u, w') -> proven x y.
Proof.
  unfold proof. intros E. apply M_bind_Ok in E as (? & ? & R1%timer_require_Ok & E). apply M_bind_Ok in E as (? & ? & R2%timer_require_Ok & E).
  apply M_bind_Ok in E as (? & ? & R3%timer_require_Ok & E). apply M_bind_Ok in E as (? & ? & R4%timer_require_Ok & R5%timer_require_Ok).
  apply bind_Ok in R1 as (r & A1 & R1). destruct (is_true r) eqn:T1; [apply is_true_VBool in T1 as ->|done]. apply bind_Ok in R1 as (l & A2 & [= B2%negb_true_iff]).
  apply bind_Ok in R2 as (s & A3 & R2). destruct (is_true s) eqn:T2; [apply is_true_VBool in T2 as ->|done]. apply bind_Ok in R2 as (i & A4 & [= ->%is_true_VBool]).
  apply bind_Ok in R3 as (m & A5 & R3). unfold py_ne in R3. destruct (py_eq m (VStr "off")) eqn:T3; [apply py_eq_str_r in T3 as ->; cbn [negb] in R3|done].
  apply bind_Ok in R3 as (cs & A6 & R3). apply bind_Ok in R3 as (cl & A7 & R3%rall_true). rewrite Forall_forall in R3.
  apply bind_Ok in R4 as (t & A8 & [= ->%is_true_VBool]). apply bind_Ok in R5 as (p & A9 & R5). apply bind_Ok in R5 as (q & A10 & [= Q]).
  split; [by split; [|exists l]|done| |by exists p, q]. exists cs, cl. do 2 (split; [done|]). intros c Hc.
  specialize (R3 c Hc). cbv beta in R3. apply bind_Ok in R3 as (z & Z & [= Tz]). by exists z.
Qed.
Lemma proved_Ok a w x y w' : proved a w = (Ok (x, y), w') -> w' = w /\ proven_in a w x y.
Proof.
  intros E. pose proof (pres_eq_run _ _ _ _ (ro_proved a) E) as ->. split; [done|]. unfold proved in E.
  apply M_bind_Ok in E as (? & w1 & C1 & E). pose proof (pres_eq_run _ _ _ _ (ro_verify_checksum _ _) C1) as ->.
  apply M_bind_Ok in E as (? & w1 & C2 & E). pose proof (pres_eq_run _ _ _ _ (ro_verify_checksum _ _) C2) as ->.
  apply M_bind_Ok in E as (b & w1 & L1 & E). pose proof (pres_eq_run _ _ _ _ (ro_timer_load _) L1) as ->.
  apply M_bind_Ok in E as (r & w1 & L2 & E). pose proof (pres_eq_run _ _ _ _ (ro_timer_load _) L2) as ->.
  apply M_bind_Ok in E as (? & w1 & V1 & E). pose proof (pres_eq_run _ _ _ _ (ro_timer_validate _ _) V1) as ->.
  apply M_bind_Ok in E as (? & w1 & V2 & E). pose proof (pres_eq_run _ _ _ _ (ro_timer_validate _ _) V2) as ->.
  apply M_bind_Ok in E as (? & ? & P%proof_Ok & E). apply M_bind_Ok in E as (? & ? & [= Q1]%timer_require_Ok & E).
  apply M_bind_Ok in E as (? & ? & [= Q2]%timer_require_Ok & E). apply ret_Ok in E as [[= -> ->] _].
  apply checksum_bound in C1, C2. apply timer_valid in V1, V2. do 5 (split; [done|]). intros X. rewrite X in Q1, Q2. cbn [andb] in Q1, Q2.
  apply negb_true_iff, orb_false_iff in Q1 as [A1%negb_false_iff%String.eqb_eq A2%negb_false_iff%Z.eqb_eq]. apply negb_true_iff in Q2.
  do 2 (split; [done|]). unfold approval_missing in Q2. destruct (approval_reference a) as [t|]; [|done]. exists t. split; [done|]. lia.
Qed.

(** ** The commands *)

Lemma run_starts argv0 w r w' : run argv0 w = (r, w') -> map argv (log w') = argv0 :: map argv (log w) /\ (forall u, r = Ok u -> did [argv0] w w').
Proof.
  unfold run. intros E. split.
  - apply bt_bind in E as [(e & [=] & _)|(p & w1 & [= <- <-] & E)].
    assert (forall x y, run_completed (Proc argv0 (Some 60) (environ w) None) w = (x, y) -> map argv (log y) = argv0 :: map argv (log w)) as Hl.
    { unfold run_completed, subprocess_run, mbind, M_bind. intros x y. destruct (exec _ _ _) as [[q f] d]. by destruct q; intros [= _ <-]. }
    apply bt_bind in E as [(e & E & _)|([[c o] e] & w2 & E & F)]; [exact (Hl _ _ E)|]. apply Hl in E. cbv beta iota in F.
    by destruct (negb _); injection F as _ <-.
  - intros u ->. apply M_bind_Ok in E as (p & w1 & [= <- <-] & E). apply M_bind_Ok in E as ([[c o] e] & w2 & E & F). cbv beta iota in F.
    destruct (Z.eqb_spec c 0) as [->|]; [cbn [negb] in F|done]. apply ret_Ok in F as [_ ->].
    apply run_completed_ran in E as (L & S & _). by exists [Proc argv0 (Some 60) (environ w) None].
Qed.
Lemma enables l : forall w r w', mfor (λ t, run (enable_argv t)) l w = (r, w') -> exists n,
  map argv (log w') = rev (map enable_argv (take n l)) ++ map argv (log w) /\ (forall u, r = Ok u -> did (rev (map enable_argv l)) w w').
Proof.
  induction l as [|t l IH]; intros w r w' E; simpl in E.
  - injection E as <- <-. exists 0%nat. split; [done|]. intros u _. by apply did_nothing.
  - apply bt_bind in E as [(e & E & ->)|([] & w1 & E & F)]; apply run_starts in E as [L D].
    + exists 1%nat. split; [exact L|done].
    + destruct (IH _ _ _ F) as (n & L' & D'). exists (S n). split.
      * simpl. by rewrite L', L, <-app_assoc.
      * intros u Hu. simpl. eapply did_then; [by eapply D|by eapply D'].
Qed.
Lemma sl_timer_result a x y : Pres same_log (result_of a x y).
Proof. unfold result_of, digest, sha256_file. solve_pres. Qed.

(** The evidence of an enabling, or of a validation alone *)
Definition evidenced (a : args) (backup restore evidence : val) : Prop :=
  getitem evidence "status" = Ok (VStr (if execute a then "enabled" else "validated")) /\
  getitem evidence "mutation_performed" = Ok (VBool (execute a)) /\ getitem evidence "timers" = Ok (VStrs TIMERS) /\
  getitem evidence "backup_label" = item backup ["latestBackup"; "label"] /\ getitem evidence "restore_id" = getitem restore "restoreId".
Lemma timer_result_Ok a x y w e w' : result_of a x y w = (Ok e, w') -> same_log w w' /\ evidenced a x y e.
Proof.
  intros E. split; [exact (pres_run _ _ _ _ _ (sl_timer_result _ _ _) E)|]. unfold result_of in E.
  apply M_bind_Ok in E as (l & w1 & [L ->]%lift_Ok & E). do 2 (apply M_bind_Ok in E as (? & ? & _ & E)).
  apply M_bind_Ok in E as (i & w2 & [I ->]%lift_Ok & E). do 3 (apply M_bind_Ok in E as (? & ? & _ & E)). apply ret_Ok in E as [<- _].
  unfold evidenced. by rewrite L, I.
Qed.

Lemma sl_report a x y : Pres same_log (report a x y).
Proof. unfold report. pose proof sl_timer_result. solve_pres. Qed.
Lemma report_Ok a x y w w' : report a x y w = (Ok 0, w') -> exists ev, evidenced a x y ev /\ read_bytes (a_output a) w' = (Ok (json_text ev), w').
Proof.
  unfold report. intros (ev & s1 & [_ Ev]%timer_result_Ok & G)%M_bind_Ok. apply M_bind_Ok in G as (? & s2 & W & G).
  apply M_bind_Ok in G as (? & s3 & [= _ <-] & G). apply ret_Ok in G as [_ ->]. exists ev. split; [done|].
  unfold write_document in W. apply M_bind_Ok in W as (? & s4 & _ & W%write_file_read).
  apply PrepareFacts.read_bytes_file in W as (_ & m & Hm). apply PrepareFacts.read_bytes_file. split; [done|]. by exists m.
Qed.

(** C37: However the program ends, the processes it started are the commands of a prefix of the three timers, in their order; none
    was started unless execution was asked for, by root with an approval, and the backup was proven: the two documents have
    the digests of their checksums, are valid, and say of the latest backup that it was restored in isolation with every check
    passed within the declared time. With status 0 each of the three commands succeeded, or without execution none was started,
    and the evidence says which. *)
Theorem timers_guarded a w r w' : main a w = (r, w') ->
  (exists n, map argv (log w') = rev (map enable_argv (take n TIMERS)) ++ map argv (log w) /\
     (n = 0%nat \/ execute a = true /\ exists backup restore, proven_in a w backup restore)) /\
  (r = Ok 0 -> exists backup restore evidence, proven_in a w backup restore /\
     did (if execute a then rev (map enable_argv TIMERS) else []) w w' /\ evidenced a backup restore evidence /\
     read_bytes (a_output a) w' = (Ok (json_text evidence), w')).
Proof.
  unfold main. intros E. apply bt_bind in E as [(e & E & ->)|([x y] & w1 & E & F)].
  { apply (pres_eq_run _ _ _ _ (ro_proved a)) in E as ->. split; [|done]. exists 0%nat. split; [done|by left]. }
  apply proved_Ok in E as [-> P]. cbn [fst snd] in F. destruct (execute a) eqn:X; cbn [mwhen] in F.
  - apply bt_bind in F as [(e & F & ->)|([] & w2 & F & G)]; apply enables in F as (n & L & D).
    + split; [|done]. exists n. split; [done|]. right. split; [done|]. by exists x, y.
    + pose proof (pres_run _ _ _ _ _ (sl_report _ _ _) G) as Q. split.
      * exists n. rewrite Q. split; [done|]. right. split; [done|]. by exists x, y.
      * intros ->. apply report_Ok in G as (ev & Ev & R). exists x, y, ev. split; [done|]. split; [|done]. eapply did_after; [by eapply D|done].
  - change (report a x y w = (r, w')) in F. pose proof (pres_run _ _ _ _ _ (sl_report _ _ _) F) as Q. split.
    + exists 0%nat. split; [by rewrite Q|by left].
    + intros ->. apply report_Ok in F as (ev & Ev & R). exists x, y, ev. split; [done|]. split; [by apply did_nothing|done].
Qed.
End Env.
End TimerFacts.

(** ** A proof that enables, and some that do not *)

Module TimerRun.
Import Evidence Fixture BuildResultFacts BackupTimers TimerFacts.

Definition backup_document : val := VDict [("recoveryReady", VBool true); ("reasons", VList []); ("latestBackup", rec [("label", "20260713-020000F")])].
Definition restore_document (passed : bool) : val := VDict [("success", VBool true); ("restoreId", VStr "r-1"); ("backupLabel", VStr "20260713-020000F");
  ("target", VDict [("isolated", VBool true); ("archiveMode", VStr "off")]); ("checks", VList [VDict [("passed", VBool true)]; VDict [("passed", VBool passed)]]);
  ("workingTargets", VDict [("rtoMet", VBool true); ("rpoObservedSeconds", VInt 60); ("rtoObservedSeconds", VInt 900)])].
Definition sum_of (v : val) : string := Sha256.hexdigest (json v) +:+ "  document.json".
Definition world_of (passed : bool) : world := world_with
  [("/usr/local/lib/liqi-database/contracts/platform/database-backup-status-v0.schema.json", "{}");
   ("/usr/local/lib/liqi-database/contracts/platform/database-restore-result-v0.schema.json", "{}");
   ("/in/backup.json", json backup_document); ("/in/backup.json.sha256", sum_of backup_document);
   ("/in/restore.json", json (restore_document passed)); ("/in/restore.json.sha256", sum_of (restore_document passed))].
Definition the_args (x : bool) : args := Args (Path.of_str "/in/backup.json") (Path.of_str "/in/backup.json.sha256") (Path.of_str "/in/restore.json")
  (Path.of_str "/in/restore.json.sha256") (Some "CHG-12") x (Path.of_str "/out/timers.json").
(** The second timer cannot be enabled. *)
Definition refuses : Platform := host_with (λ l _ f, (match l with [_] => Exited 1 "" "Unit not found." | _ => Exited 0 "" "" end, f, 1000)).
Definition enabled_world : world := (main (H := quiet_host) (the_args true) (world_of true)).2.
Lemma timers_guarded_witness :
  (exists n, map argv (log enabled_world) = rev (map enable_argv (take n TIMERS)) ++ [] /\
     (n = 0%nat \/ true = true /\ exists backup restore, proven_in (H := quiet_host) (the_args true) (world_of true) backup restore)) /\
  (@Ok Z 0 = Ok 0 -> exists backup restore evidence, proven_in (H := quiet_host) (the_args true) (world_of true) backup restore /\
     did (H := quiet_host) (rev (map enable_argv TIMERS)) (world_of true) enabled_world /\ evidenced (the_args true) backup restore evidence /\
     read_bytes (Path.of_str "/out/timers.json") enabled_world = (Ok (json_text evidence), enabled_world)).
Proof.
  apply (timers_guarded (H := quiet_host) (the_args true) (world_of true) (Ok 0) enabled_world).
  assert ((main (H := quiet_host) (the_args true) (world_of true)).1 = Ok 0) as E by (vm_compute; reflexivity).
  unfold enabled_world. destruct (main (H := quiet_host) _ _) as [r x]. cbn [fst snd] in E |- *. by rewrite E.
Defined.
Example timers_on : map argv (log enabled_world) = rev (map enable_argv TIMERS).
Proof. vm_compute. reflexivity. Qed.
Example validated : let x := main (H := quiet_host) (the_args false) (world_of true) in x.1 = Ok 0 /\ log x.2 = [].
Proof. vm_compute. split; reflexivity. Qed.
Example check_failed : let x := main (H := quiet_host) (the_args true) (world_of false) in
  x.1 = Raise (SystemExit (ExitMsg "restore proof has failed checks or unsafe archive mode")) /\ log x.2 = [].
Proof. vm_compute. split; reflexivity. Qed.
(** A timer that cannot be enabled ends the program: those before it stay enabled, and no evidence is written. *)
Example timer_refused : let x := main (H := refuses) (the_args true) (world_of true) in
  x.1 = raise RuntimeError "Unit not found." /\ map argv (log x.2) = rev (map enable_argv (take 2 TIMERS)) /\ stat x.2 (Path.of_str "/out/timers.json") = None.
Proof. vm_compute. repeat split; reflexivity. Qed.
End TimerRun.
