(* ===== verification/VaultSecret.v ===== *)
(** * infrastructure/deployment/manage_vault_secret.py

    A secret goes to the vault in a request file that only its owner can read, never
    in an argument of a command, and the file is gone afterwards however the command
    ends. The command line of the cloud provider is a started process. *)

From Stdlib Require Import Ascii.
From S2P Require Import Prelude PyFloat PyMonad PyValue PyTime PyJson PyBytes Sha256 PyOs OsFacts FsFacts Fixture.
From S2P Require Import GenerateSpec BuildResultFacts PrepareDeployment PrepareFacts SidecarFacts.

Module VaultSecret.
Import Evidence.

Definition alnum (c : ascii) : bool :=
  let n := N_of_ascii c in Str.is_digit c || ((65 <=? n) && (n <=? 90))%N || ((97 <=? n) && (n <=? 122))%N.
(** [[A-Za-z0-9][A-Za-z0-9_.-]{0,254}], the whole of the string *)
Definition NAME : string -> bool := PrepareDeployment.shaped alnum (λ c, alnum c || inb Ascii.eqb c ["_"; "."; "-"]%char) 0 254.
Definition OCID (kind : string) : string -> bool := Str.startswith ("ocid1." +:+ kind +:+ ".").
Definition MAX_SECRET_BYTES : Z := 25 * 1024.

(** The two subcommands, with the arguments of each *)
Inductive action := Create (compartment_id vault_id key_id secret_name : string) | Update (secret_id : string).
Record args := Args { the_action : action; input_file : path; content_name : string; stage : string; approval_reference : option string;
  oci_profile : option string; execute : bool; a_output : path }.
Definition action_name (x : action) : string := match x with Create _ _ _ _ => "create" | Update _ => "update" end.
(** [getattr(a, "secret_id", None)], [getattr(a, "secret_name", None)] *)
Definition given_id (x : action) : val := match x with Create _ _ _ _ => VNone | Update i => VStr i end.
Definition given_name (x : action) : val := match x with Create _ _ _ n => VStr n | Update _ => VNone end.

Section Env.
Context `{Platform}.

(** A file that is created and was not there: [os.open(p, O_CREAT | O_EXCL, m)], with the text that is written before it is closed *)
Definition create_file (p : path) (m : Z) (s : string) : IO unit :=
  λ w, match locate w p with
       | None => (Raise (os_error FileNotFoundError p), w)
       | Some k =>
           if is_some_node (node_at (fs w) k) then (Raise (os_error FileExistsError p), w)
           else if is_dir_node (node_at (fs w) (removelast k)) then (Ok tt, put_node k (NFile s (Meta m 0 0)) w)
           else (Raise (os_error FileNotFoundError p), w)
       end.
(** [tempfile.NamedTemporaryFile(prefix=..., suffix=..., delete=False)], written and closed *)
Definition temporary_file (prefix suffix text : string) : IO path :=
  t ← PrepareDeployment.gettempdir;
  h ← fresh_hex;
  let p := Path.div t (prefix +:+ Str.take 8 h +:+ suffix) in
  create_file p 384 text ;; mret p.

Section Program.
Context (a : args).

Definition approval_missing : bool := match approval_reference a with None => true | Some r => Str.len (Str.strip r) <? 3 end.
Definition refuse (b : bool) (m : string) : IO unit := if b then sysexit m else mret tt.
Definition validate (content : string) : IO unit :=
  let n := Z.of_nat (String.length content) in
  refuse ((n =? 0) || (MAX_SECRET_BYTES <? n)) "secret must contain 1..25600 bytes" ;;
  refuse (negb (NAME (content_name a))) "invalid content name" ;;
  match the_action a with
  | Create compartment_id vault_id key_id secret_name =>
      refuse (negb (String.eqb (stage a) "CURRENT")) "new secrets must start at CURRENT" ;;
      refuse (negb (NAME secret_name)) "invalid secret name" ;;
      mfor (λ kv, refuse (negb (OCID kv.1 kv.2)) ("invalid " +:+ kv.1 +:+ " OCID"))
        [("compartment", compartment_id); ("vault", vault_id); ("key", key_id)]
  | Update secret_id => refuse (negb (OCID "vaultsecret" secret_id)) "invalid secret OCID"
  end ;;
  m ← st_mode (input_file a);
  refuse (String.eqb os_name "posix" && negb (Z.land (Z.land m 511) 63 =? 0)) "secret input file must not be group/world accessible" ;;
  refuse (execute a && approval_missing) "--execute requires approval reference".

Definition request (content : string) : val :=
  VDict ([("secret_content_content", VStr (Bytes.b64encode content)); ("secret_content_name", VStr (content_name a));
     ("secret_content_stage", VStr (stage a)); ("force", VBool true)] ++
    match the_action a with
    | Create compartment_id vault_id key_id secret_name =>
        [("compartment_id", VStr compartment_id); ("vault_id", VStr vault_id); ("key_id", VStr key_id); ("secret_name", VStr secret_name)]
    | Update secret_id => [("secret_id", VStr secret_id)]
    end).
Definition request_text (content : string) : string := Json.dumps Json.compact (request content) +:+ String (ascii_of_N 10) "".
Definition command (request_path : path) : list string :=
  ["oci"; "vault"; "secret"; action_name (the_action a) +:+ "-base64"; "--from-json"; "file://" +:+ Path.to_str request_path] ++
  match oci_profile a with Some p => if String.eqb p "" then [] else ["--profile"; p] | None => [] end.
(** The secret's identifier and version, from what the command said *)
Definition answered (stdout : string) : res (val * val) :=
  response ← json_loads stdout; data ← dget_or response "data" (VDict []);
  secret_id ← dget_or data "id" (given_id (the_action a)); version ← dget data "current-version-number";
  Ok (secret_id, version).
Definition send (request_path : path) : IO (val * val) :=
  chmod request_path 384 ;;
  p ← gets (λ w, Proc (command request_path) (Some 120) (environ w) None);
  r ← run_completed p;
  let '(code, o, e) := r in
  if negb (code =? 0) then throw RuntimeError (if String.eqb (Str.strip e) "" then "OCI secret mutation failed" else Str.strip e)
  else lift (answered o).
Definition zeros (n : Z) : string := Str.of_list (repeat (ascii_of_N 0) (Z.to_nat n)).
Definition overwrite (p : path) : IO unit :=
  catch (n ← st_size p; write_file p (zeros n)) (on_exn [OSError] (λ _, mret tt)).
Definition erase (p : path) : IO unit := overwrite p ;; unlink_missing_ok p.
Definition mutate (content : string) : IO (val * val) :=
  request_path ← temporary_file "liqi-vault-request-" ".json" (request_text content);
  finally (send request_path) (erase request_path).

Definition or_null (x : option string) : val := match x with Some s => VStr s | None => VNone end.
Definition done_status : string := match the_action a with Create _ _ _ _ => "created" | Update _ => "version-created" end.
Definition evidence_of (content digest : string) (secret_id version : val) : IO (list (string * val)) :=
  observed ← utc_now;
  mret [("schema_version", VStr "liqi.infrastructure.vault-secret-result/v1"); ("action", VStr (action_name (the_action a)));
    ("status", VStr (if execute a then done_status else "validated")); ("secret_id", secret_id); ("secret_name", given_name (the_action a));
    ("content_name", VStr (content_name a)); ("stage", VStr (stage a)); ("content_sha256", VStr digest);
    ("content_size_bytes", VInt (Z.of_nat (String.length content))); ("current_version_number", version);
    ("approval_reference", if execute a then or_null (approval_reference a) else VNone); ("observed_at", VStr observed);
    ("oci_mutation_performed", VBool (execute a))].
Definition report (content digest : string) (secret_id version : val) : IO Z :=
  evidence ← evidence_of content digest secret_id version;
  write_document (a_output a) (VDict evidence) ;;
  chmod (a_output a) 384 ;;
  print (Json.dumps Json.pretty (VDict (List.filter (λ kv, negb (String.eqb kv.1 "content_sha256")) evidence))) ;;
  mret 0.
Definition main : IO Z :=
  content ← read_bytes (input_file a);
  validate content ;;
  let content_digest := Sha256.hexdigest content in
  r ← (if execute a then mutate content else mret (given_id (the_action a), VNone));
  report content content_digest r.1 r.2.
End Program.
End Env.
End VaultSecret.

(** ** The request is gone however the command ends *)

Module VaultFacts.
Import Evidence BuildResultFacts VaultSecret PathFacts SidecarSpec.
Import PrepareDeployment (gettempdir).

Lemma take_chars f s : forall n, Str.all_chars f s = true -> Str.all_chars f (Str.take n s) = true.
Proof.
  induction s as [|c s IH]; intros n; [done|]. rewrite Str.all_chars_cons. intros [Hc Hs]%andb_true_iff. simpl.
  repeat case_match; try done; rewrite Str.all_chars_cons, Hc; by apply IH.
Qed.
Definition request_name (h : string) : string := "liqi-vault-request-" +:+ Str.take 8 h +:+ ".json".
Lemma request_comp h : Str.all_chars Str.is_hex_lower h = true -> comp (request_name h) = true.
Proof.
  intros Hh. apply comp_long; unfold request_name.
  - rewrite !Str.without_app, (slash_hex (Str.take 8 h)) by (by apply take_chars). done.
  - rewrite !string_app_length. simpl. lia.
Qed.

Section Env.
Context `{Platform}.
Context (a : args) (d : list string) (Hdd : ".." ∉ d).
Abbreviation file c := (MkPath true (d ++ [c])).

(** The directory of temporary files stays what it is while the command runs. *)
Definition leaves_directory : Prop := forall l p f k, k ∈ prefixes [] d -> is_dir_node (f !! k) = true -> is_dir_node ((exec l p f).1.2 !! k) = true.

Lemma create_Ok c m s w r w' : comp c = true -> dirs_ok (fs w) d -> create_file (file c) m s w = (r, w') ->
  ((exists e, r = Raise e) /\ w' = w) \/ (r = Ok tt /\ fs w !! (d ++ [c]) = None /\ w' = put_node (d ++ [c]) (NFile s (Meta m 0 0)) w).
Proof using Hdd.
  intros (_ & _ & Hc & _)%comp_inv Hd. unfold create_file. rewrite locate_plain, node_at_app by done.
  destruct (fs w !! (d ++ [c])) eqn:E; simpl.
  - intros [= <- <-]. left. split; [by eexists|done].
  - rewrite removelast_last, dir_node by done. intros [= <- <-]. by right.
Qed.
Lemma div_child c : comp c = true -> Path.div (MkPath true d) c = file c.
Proof. intros Hc. unfold Path.div. rewrite (of_str_name c Hc). done. Qed.
Lemma temporary_created text w r w' : hex_tokens -> gettempdir w = (Ok (MkPath true d), w) -> dirs_ok (fs w) d ->
  temporary_file "liqi-vault-request-" ".json" text w = (r, w') ->
  exists c, comp c = true /\ (((exists e, r = Raise e) /\ fs w' = fs w /\ log w' = log w) \/
    (r = Ok (file c) /\ fs w !! (d ++ [c]) = None /\ fs w' = <[d ++ [c] := NFile text (Meta 384 0 0)]> (fs w) /\ log w' = log w)).
Proof using Hdd.
  intros Ht Hg Hd E. unfold temporary_file in E. unfold mbind at 1, M_bind at 1 in E. rewrite Hg in E. unfold mbind at 1, M_bind at 1 in E.
  destruct (fresh_hex w) as [[h|e] w1] eqn:Eh; [|done]. injection Eh as <- <-. cbv zeta in E.
  change ("liqi-vault-request-" +:+ Str.take 8 (random_hex (ticks w)) +:+ ".json") with (request_name (random_hex (ticks w))) in E.
  pose proof (request_comp _ (proj1 (Ht (ticks w)))) as Hc. rewrite (div_child _ Hc) in E. exists (request_name (random_hex (ticks w))). split; [done|].
  unfold mbind, M_bind in E. destruct (create_file _ _ _ _) as [q w2] eqn:Ec.
  apply create_Ok in Ec as [[[e ->] ->]|(-> & N & ->)]; [| |done|done].
  - injection E as <- <-. left. by split; [exists e|].
  - injection E as <- <-. by right.
Qed.

(** ** The command, and the erasing of the request *)

Abbreviation dirs := (dirs_kept (prefixes [] d)).
Lemma kept_dirs w w' : dirs w w' -> dirs_ok (fs w) d -> dirs_ok (fs w') d.
Proof. intros K. by apply (dirs_kept_ok (prefixes [] d)). Qed.
Lemma completed_dirs p : leaves_directory -> Pres dirs (run_completed p).
Proof.
  intros K w k Hk Hd. unfold run_completed, subprocess_run, mbind, M_bind. specialize (K (log w) p (fs w) k Hk Hd).
  destruct (exec _ _ _) as [[q f] t]. by destruct q.
Qed.
Lemma overwrite_Ok p w : exists w', overwrite p w = (Ok tt, w').
Proof.
  unfold overwrite, catch. destruct ((n ← st_size p; write_file p (zeros n)) w) as [[[]|e] w'] eqn:E; [by exists w'|]. exists w'.
  assert (exists m, e = os_error FileNotFoundError m \/ e = os_error IsADirectoryError m) as (m & [-> | ->]); [|done..].
  unfold mbind, M_bind, st_size, write_file in E. repeat case_match; simplify_eq/=; eauto.
Qed.
Lemma sl_erase p : Pres same_log (erase p).
Proof.
  assert (Pres same_log (st_size p)) as S by (intros w; unfold st_size; by repeat case_match). unfold erase, overwrite. solve_pres.
Qed.
Lemma dk_overwrite p : Pres dirs (overwrite p).
Proof.
  assert (Pres dirs (st_size p)) as S by (apply dk_pres_writes; intros w; unfold st_size; by repeat case_match).
  assert (forall t, Pres dirs (write_file p t)) as W by (intros t; apply dk_pres_writes, wo_write_file). unfold overwrite. solve_pres.
Qed.
(** The name is free afterwards, unless the command has put a directory there. *)
Lemma erased c w r w' : comp c = true -> dirs_ok (fs w) d -> erase (file c) w = (r, w') ->
  fs w' !! (d ++ [c]) = None /\ r = Ok tt \/ (exists m, fs w' !! (d ++ [c]) = Some (NDir m)) /\ r = Raise (os_error IsADirectoryError (file c)).
Proof using Hdd.
  intros (_ & _ & Hc & _)%comp_inv Hd. unfold erase, mbind, M_bind. pose proof (dk_overwrite (file c) w) as K.
  destruct (overwrite_Ok (file c) w) as [w1 E]. rewrite E in *. cbn [snd] in K. pose proof (kept_dirs _ _ K Hd) as Hd1.
  destruct (unlink_missing_ok (file c) w1) as [[[]|e] w2] eqn:U; intros [= <- <-].
  - left. split; [|done]. by apply (unlink_Ok d c w1 tt w2 Hdd Hc Hd1).
  - right. revert U. unfold unlink_missing_ok. rewrite locate_plain, node_at_app by done.
    destruct (fs w1 !! (d ++ [c])) as [[]|] eqn:N; intros; simplify_eq. split; [by eexists|done].
Qed.
Definition started_in (c : string) (w : world) : proc := Proc (command a (file c)) (Some 120) (environ w) None.
(** What goes to the command, and what it said *)
Lemma send_run c w r w' text m : comp c = true -> dirs_ok (fs w) d -> fs w !! (d ++ [c]) = Some (NFile text m) -> send a (file c) w = (r, w') ->
  exists w1 x, fs w1 !! (d ++ [c]) = Some (NFile text (Meta 384 (uid m) (gid m))) /\ log w1 = log w /\ dirs_ok (fs w1) d /\
    run_completed (started_in c w1) w1 = (x, w') /\ (forall y, r = Ok y -> exists o e, x = Ok (0, o, e) /\ answered a o = Ok y).
Proof using Hdd.
  intros (_ & _ & Hc & _)%comp_inv Hd Hf E. unfold send in E. unfold mbind at 1, M_bind at 1 in E.
  pose proof (dk_chmod (prefixes [] d) (file c) 384 w) as K. unfold chmod, update_meta in E, K.
  rewrite canon_below in E, K by (done || by rewrite Hf). rewrite node_at_app, Hf in E, K. cbn [snd] in K.
  set (w1 := put_node _ _ w) in *. exists w1. unfold mbind at 1, M_bind at 1, gets in E. fold (started_in c w1) in E. unfold mbind at 1, M_bind at 1 in E.
  destruct (run_completed (started_in c w1) w1) as [x w2]. exists x. split; [by apply lookup_insert_eq|]. split; [done|].
  split; [by apply (kept_dirs w)|]. destruct x as [[[code o] e]|x]; [|by injection E as <- <-]. cbv beta iota in E.
  destruct (Z.eqb_spec code 0) as [->|]; cbn [negb] in E; [|by injection E as <- <-]. unfold lift in E. injection E as <- <-.
  split; [done|]. intros y Hy. by exists o, e.
Qed.

(** ** The program *)

(** The bytes of the secret, from a file of its owner alone, with an approval when they are to be sent *)
Definition admitted (w : world) (content : string) : Prop :=
  read_bytes (input_file a) w = (Ok content, w) /\ 1 <= Z.of_nat (String.length content) <= MAX_SECRET_BYTES /\ NAME (content_name a) = true /\
  (os_name = "posix" -> exists m, st_mode (input_file a) w = (Ok m, w) /\ Z.land m 63 = 0) /\
  (execute a = true -> exists r, approval_reference a = Some r /\ 3 <= Str.len (Str.strip r)).
Lemma ro_vault_refuse b m : Pres eq (refuse b m).
Proof. unfold refuse. by destruct b. Qed.
Lemma ro_vault_mode p : Pres eq (st_mode p).
Proof. intros w. unfold st_mode. by repeat case_match. Qed.
Lemma ro_vault_validate content : Pres eq (validate a content).
Proof. pose proof ro_vault_refuse. pose proof ro_vault_mode. unfold validate. destruct (the_action a); solve_pres. Qed.
Lemma vault_refuse_Ok b m w u w' : refuse b m w = (Ok u, w') -> b = false.
Proof. unfold refuse. by destruct b. Qed.
Lemma vault_validate_Ok content w u w' : read_bytes (input_file a) w = (Ok content, w) -> validate a content w = (Ok u, w') -> w' = w /\ admitted w content.
Proof.
  intros R E. pose proof (pres_eq_run _ _ _ _ (ro_vault_validate content) E) as ->. split; [done|]. unfold validate in E. cbv zeta in E.
  apply M_bind_Ok in E as (? & w1 & E1 & E). pose proof (pres_eq_run _ _ _ _ (ro_vault_refuse _ _) E1) as ->. apply vault_refuse_Ok in E1 as [L1 L2]%orb_false_iff.
  apply M_bind_Ok in E as (? & w1 & E2 & E). pose proof (pres_eq_run _ _ _ _ (ro_vault_refuse _ _) E2) as ->. apply vault_refuse_Ok in E2 as N%negb_false_iff.
  apply M_bind_Ok in E as (? & w1 & E3 & E). assert (w1 = w) as ->.
  { revert E3. apply pres_eq_run. pose proof ro_vault_refuse. destruct (the_action a); solve_pres. }
  apply M_bind_Ok in E as (m & w1 & E4 & E). pose proof (pres_eq_run _ _ _ _ (ro_vault_mode _) E4) as ->.
  apply M_bind_Ok in E as (? & w1 & M%vault_refuse_Ok & P%vault_refuse_Ok). split; [done|]. split; [unfold MAX_SECRET_BYTES in *; lia|]. split; [done|]. split.
  - intros Hp. rewrite Hp in M. cbn [String.eqb] in M. exists m. split; [done|]. change (String.eqb "posix" "posix") with true in M. cbn [andb] in M.
    apply negb_false_iff, Z.eqb_eq in M. by rewrite <-Z.land_assoc in M.
  - intros X. rewrite X in P. cbn [andb] in P. unfold approval_missing in P. destruct (approval_reference a) as [t|]; [|done]. exists t. split; [done|]. lia.
Qed.
Lemma sl_vault_report c h i v : Pres same_log (report a c h i v).
Proof.
  assert (Pres same_log (evidence_of a c h i v)) as Q by (unfold evidence_of; solve_pres). unfold report. solve_pres.
Qed.

(** How the request was handled: a file that was not there held it, readable by its owner alone, when the one command was started;
    in the end the name is free, or the command has put a directory there and the program fails on it. *)
Definition handled (content : string) (w : world) (r : res (val * val)) (w' : world) : Prop :=
  exists c w1 x w2 u g, comp c = true /\ fs w !! (d ++ [c]) = None /\ log w1 = log w /\
    fs w1 !! (d ++ [c]) = Some (NFile (request_text a content) (Meta 384 u g)) /\
    run_completed (started_in c w1) w1 = (x, w2) /\ log w' = started_in c w1 :: log w /\
    (fs w' !! (d ++ [c]) = None \/ (exists m, fs w' !! (d ++ [c]) = Some (NDir m)) /\ r = Raise (os_error IsADirectoryError (file c))) /\
    (forall y, r = Ok y -> exists o e, x = Ok (0, o, e) /\ answered a o = Ok y).
Lemma mutate_handled content w r w' : hex_tokens -> leaves_directory -> gettempdir w = (Ok (MkPath true d), w) -> dirs_ok (fs w) d ->
  mutate a content w = (r, w') -> ((exists e, r = Raise e) /\ fs w' = fs w /\ log w' = log w) \/ handled content w r w'.
Proof using Hdd.
  intros Ht K Hg Hd E. unfold mutate in E. unfold mbind, M_bind in E.
  destruct (temporary_file _ _ _ w) as [q w1] eqn:Et. apply temporary_created in Et as (c & Hc & [([e ->] & F & L)|(-> & N & F & L)]); try done.
  { injection E as <- <-. left. by split; [exists e|]. }
  right. assert (dirs_ok (fs w1) d) as Hd1.
  { rewrite F. intros k Hk. rewrite lookup_insert_ne; [by apply Hd|]. intros <-. by apply child_not_prefix in Hk. }
  unfold finally in E. destruct (send a (file c) w1) as [s w2] eqn:Es.
  eapply send_run in Es as (w3 & x & F3 & L3 & Hd3 & X & A); [|done..|rewrite F; by apply lookup_insert_eq].
  assert (dirs_ok (fs w2) d) as Hd2.
  { pose proof (completed_dirs (started_in c w3) K w3) as P. rewrite X in P. by apply (kept_dirs w3). }
  destruct (erase (file c) w2) as [z w4] eqn:Ez. pose proof (pres_run _ _ _ _ _ (sl_erase _) Ez) as L4. apply erased in Ez; try done.
  assert (log w4 = started_in c w3 :: log w) as Hl.
  { unfold same_log in L4. rewrite L4. pose proof (run_completed_log (started_in c w3) w3) as P. rewrite X in P. cbn [snd] in P. congruence. }
  exists c, w3, x, w2, (uid (Meta 384 0 0)), (gid (Meta 384 0 0)). destruct Ez as [[F4 ->]|[M ->]]; injection E as <- <-.
  - split_and!; try done; [congruence|by left].
  - split_and!; try done; [congruence|by right].
Qed.

(** C38: However the program ends, it started no command, or just the one that sends the secret. That is started only on request, with an
    approval, and for a secret of admitted size from a file of its owner alone; its arguments name a file that was not there before, which
    then holds the request and is readable by its owner alone. When the command has ended, however it ended, the request is gone:
    the name is free, or the command has put a directory there and the program fails on it. With status 0 the command
    succeeded and said the version. *)
Theorem secret_erased w r w' : hex_tokens -> leaves_directory -> gettempdir w = (Ok (MkPath true d), w) -> dirs_ok (fs w) d ->
  main a w = (r, w') ->
  log w' = log w /\ (r = Ok 0 -> execute a = false) \/
  exists content s w1, execute a = true /\ admitted w content /\ handled content w s w1 /\ log w' = log w1 /\
    (forall e, s = Raise e -> r = Raise e /\ w' = w1) /\ (r = Ok 0 -> exists y, s = Ok y).
Proof using Hdd.
  intros Ht K Hg Hd E. unfold main in E. unfold mbind at 1, M_bind at 1 in E.
  destruct (read_bytes (input_file a) w) as [[content|e] w0] eqn:R; [|injection E as <- <-; left; split; [|done]].
  2: { revert R. unfold read_bytes. by repeat case_match; intros; simplify_eq. }
  pose proof R as [-> _]%PrepareFacts.read_bytes_file. unfold mbind at 1, M_bind at 1 in E.
  destruct (validate a content w) as [[[]|e] w0] eqn:V.
  2: { pose proof (pres_eq_run _ _ _ _ (ro_vault_validate content) V) as ->. injection E as <- <-. by left. }
  apply vault_validate_Ok in V as [-> A]; [|done]. cbv zeta in E. unfold mbind at 1, M_bind at 1 in E.
  destruct (execute a) eqn:X.
  - destruct (mutate a content w) as [s w1] eqn:Em. apply mutate_handled in Em as [([e ->] & F & L)|Hm]; try done.
    { injection E as <- <-. left. by split. }
    right. exists content, s, w1. do 3 (split; [done|]). destruct s as [y|e]; [|by injection E as <- <-; split_and!; [|intros ? [= <-]|]].
    split; [exact (pres_run _ _ _ _ _ (sl_vault_report _ _ _ _) E)|]. split; [done|]. intros _. by exists y.
  - left. split; [|done]. exact (pres_run _ _ _ _ _ (sl_vault_report _ _ _ _) E).
Qed.
End Env.
End VaultFacts.

(** ** A secret that is sent, and commands that fail *)

Module VaultRun.
Import Evidence Fixture BuildResultFacts VaultSecret VaultFacts SidecarSpec.

Definition host (o : proc_out) : Platform := host_with (λ _ _ f, (o, f, 1000)).
Definition ok : proc_out := Exited 0 (dq "{'data': {'id': 'ocid1.vaultsecret.x', 'current-version-number': 3}}") "".
Definition w0 : world := let w := world_with [("/in/.keep", ""); ("/tmp/.keep", "")] in
  set_fs (<[["in"; "secret"] := NFile "hunter2" (Meta 384 0 0)]> (fs w)) w.
Definition the_args (x : bool) : args := Args (Update "ocid1.vaultsecret.x") (Path.of_str "/in/secret") "token" "CURRENT" (Some "CHG-12") None x (Path.of_str "/out/v.json").
Definition sent (o : proc_out) : res Z * world := main (H := host o) (the_args true) w0.
Definition request_path : path := Path.of_str "/tmp/liqi-vault-request-5f0c1d7e.json".
Definition field (x : res Z * world) (k : string) : res val :=
  match read_text (Path.of_str "/out/v.json") x.2 with (Ok t, _) => match Json.loads t with Some v => getitem v k | None => raise ValueError "" end | (Raise e, _) => Raise e end.

Example arguments : map argv (log (sent ok).2) =
  [["oci"; "vault"; "secret"; "update-base64"; "--from-json"; "file:///tmp/liqi-vault-request-5f0c1d7e.json"]].
Proof. vm_compute. reflexivity. Qed.
Example versioned : (sent ok).1 = Ok 0 /\ field (sent ok) "current_version_number" = Ok (VInt 3) /\ field (sent ok) "status" = Ok (VStr "version-created") /\
  stat (sent ok).2 request_path = None.
Proof. vm_compute. repeat split. Qed.
Example gone : Forall (λ o, stat (sent o).2 request_path = None /\ stat (sent o).2 (Path.of_str "/out/v.json") = None)
  [Exited 1 "" "denied"; NotStarted FileNotFoundError "oci"; Expired None; Exited 0 "no JSON" ""].
Proof. repeat constructor; vm_compute; reflexivity. Qed.
Example broad : let x := main (H := host ok) (the_args true) (set_fs (<[["in"; "secret"] := NFile "hunter2" (Meta 420 0 0)]> (fs w0)) w0) in
  x.1 = Raise (SystemExit (ExitMsg "secret input file must not be group/world accessible")) /\ log x.2 = [].
Proof. vm_compute. split; reflexivity. Qed.

Definition sent_world : world := (sent ok).2.
Lemma secret_erased_witness : log sent_world = log w0 /\ (@Ok Z 0 = Ok 0 -> true = false) \/
  exists content s w1, true = true /\ admitted (H := host ok) (the_args true) w0 content /\ handled (H := host ok) (the_args true) ["tmp"] content w0 s w1 /\
    log sent_world = log w1 /\ (forall e, s = Raise e -> @Ok Z 0 = Raise e /\ sent_world = w1) /\ (@Ok Z 0 = Ok 0 -> exists y, s = Ok y).
Proof.
  assert (".." ∉ ["tmp"]) as Hdd by (by apply (bool_decide_unpack _)).
  apply (secret_erased (H := host ok) (the_args true) ["tmp"] Hdd w0 (Ok 0) sent_world).
  - intros n. by split.
  - by intros l p f k _ Hk.
  - vm_compute. reflexivity.
  - apply dirs_okb_true. vm_compute. reflexivity.
  - assert ((sent ok).1 = Ok 0) as E by (vm_compute; reflexivity). unfold sent_world. unfold sent in *.
    destruct (main (H := host ok) _ w0) as [r x]. cbn [fst snd] in E |- *. by rewrite E.
Defined.
End VaultRun.
